(* ===== verification/_CoqProject ===== *)
-Q . S2P
Prelude.v
Str.v
Utf8.v
Pattern.v
PolicyModel.v
OrderedQs.v
Net.v
Path.v
ErrorCode.v
Handler.v
Router.v
Oir.v
AmzDate.v
SigV4.v
Nom.v
ChunkedStream.v
Authorization.v
SigV2.v
Poll.v
Stream.v
Body.v
MultipartBuffer.v
MultipartData.v
Multipart.v
ContentDisposition.v
Form.v
PostPolicy.v
Blob.v
SignatureCheck.v
Host.v
Request.v
Response.v
KeepAlive.v
Dispatch.v
Range.v
ETag.v
Timestamp.v
Xml.v
XmlStruct.v
XmlDtoA.v
XmlDtoB.v
XmlDtoC.v
XmlOutputs.v
XmlReference.v
XmlDocs.v
EventStream.v
CopySource.v
Rfc2047.v
HeaderNames.v
HttpDe.v
HttpSer.v
OpsTypes.v
OpsDe.v
OpsSer.v
OpsTable.v
OpsWrites.v
OpsFrame.v
Service.v
FsTree.v
Checksums.v
FsList.v
FsStore.v
FsObjects.v
FsUploads.v
FsReference.v
FsSamples.v
FsFrame.v
FsProps.v
FsMultipart.v
FsPages.v
Server.v
