(* ===== verification/Prelude.v ===== *)
(** * A verification development for the s3s workspace

    s3s is an S3-compatible server framework in Rust.  A request goes through these parts:

    - the service (crates/s3s/src/service.rs) hands an HTTP request to [ops::call]
      (crates/s3s/src/ops/mod.rs).  [prepare] reads the host, splits the path into bucket and
      key, decodes the query string, checks the signature, finds one of some hundred
      operations by route, by declared name or by POST form, asks the access check, and limits
      the body; then the operation calls the S3 implementation;
    - signature checking (ops/signature.rs) uses crates/s3s-sigv4 and crates/s3s-sigv2: parsers
      for what the request presents (header, presigned query, POST form), and the
      canonicalization that produces the bytes to sign;
    - a body is buffered, of the transport, or a stream (http/body.rs); an upload with a
      declared hash is read through the checking stream of stream/upload_stream.rs;
    - an aws-chunked upload is decoded by crates/s3s/src/stream/aws_chunked_stream.rs, which
      checks one signature per chunk, each over the previous one;
    - an operation (ops/generated/) decodes its input with http/de.rs from the path, the query,
      the headers and an XML or streaming body, asks the access check of the operation and the
      application, and encodes the output with http/ser.rs;
    - a POST upload is a multipart form, parsed by crates/s3s-multipart: a pull parser that
      hands out the parts of a body one by one while the body is still arriving; http/multipart.rs
      makes a form of the parts, and post_policy.rs enforces the policy the form carries;
    - failures are [S3Error] values with a code, a message and a status;
    - crates/s3s-fs is an application: it keeps objects, their attributes and checksums, and
      multipart uploads in files under a root directory, and its program runs the service on it;
    - crates/s3s-policy has the wildcard patterns of access policies.

    ** Files

    Base files:

    - Prelude: bytes, machine integers, the [result] type with its monad, tactics and the hint
      database [rust], facts shared by all components.
    - Str: the [str] and slice methods of the standard library that the sources call.
    - Utf8: where UTF-8 text may be cut, and what its concatenations are.
    - Net: the address parsers of the standard library, used for bucket names and hosts.
    - Handler: request handlers that change a state, return early and may panic, with the
      tactics [run_ok] (inverts a successful run) and [step] (shows that a handler returns).
    - Nom: the interface of the nom and memchr crates.
    - Poll: poll functions with [ready!] as a bind, loops on a measure, and the executor.

    Components, in the order they are checked:

    - Pattern (crates/s3s-policy/src/pattern.rs): [PatternSet] and [match_pattern].  The four
      index variables of the matcher are a record and one turn of its loop is a function.
      Shown: the matcher terminates, stays in bounds and decides the relation [glob] on bytes.
    - PolicyModel (crates/s3s-policy/src/model.rs): policy documents and the serialization that the
      crate writes itself, on the data model of serde.  Shown: what is read back, and which values
      are accepted.
    - OrderedQs (http/ordered_qs.rs): the sorted pairs and the two binary searches.  Shown:
      lookups agree with the request's values of the name, in request order.
    - Path (path.rs, validation.rs): both addressing styles and the naming rules.  Shown:
      parsing accepts exactly the paths of the form it should, both styles agree, and slash
      normalization is canonical.
    - ErrorCode (error/generated.rs, error/mod.rs): every code with its tables, [from_bytes],
      [as_str], [status_code] and the [S3Error] value.  Shown: parsing and printing are
      inverse, the match never reaches its unreachable arm, which codes have a status.
    - Router (ops/generated/router.rs): each generated resolver with its masks.  Shown: it
      finds the operation of the first matching row of the route table, and never panics.
    - Oir (ops/generated/oir.rs): operations by declared name.  Shown: a declared name reaches
      exactly the operations the router has for that method and kind of path.
    - AmzDate (amz_date.rs, parser.rs): parser and formatters over fixed buffers.  Shown: a
      round trip both ways.
    - SigV4 (methods.rs, crypto.rs): URI encoding, header normalization, the canonical request
      in its variants, the strings to sign and the signature.  Shown: each helper equals its
      specification; the canonical request is injective on what it covers; the three kinds of
      string to sign never collide.
    - ChunkedStream (stream/aws_chunked_stream.rs, utils/crypto.rs): the worker, its reads over
      frames, the signature chain, trailers and length accounting.  Shown: what is delivered in
      signed mode is covered by the chain, honest streams decode for any framing, the declared
      length is enforced, and two deviations from the format are reproduced.
    - Authorization (authorization.rs, presigned_url.rs, post_signature.rs,
      amz_content_sha256.rs): the parsers.  Shown: exact acceptance of the header, soundness of
      presigned parameters, the round trip of the payload kinds.
    - SigV2 (crates/s3s-sigv2): the Version 2 string to sign, signature and parsers.  Shown: the
      string is what it should be, for header names in lower case also in its matching of names, and
      it is injective on what it covers.
    - Stream (stream/mod.rs, upload_stream.rs): lengths, collected pieces and the upload stream.
      Shown: reading ends, and cleanly exactly with the declared length and hash.
    - Body (http/body.rs): the kinds of body and the read allowance.  Shown: a limited read is
      the longest prefix of frames that fits, then an error; storing gives the same bytes.
    - MultipartBuffer (crates/s3s-multipart: boundary.rs, delimiter.rs, buffer.rs, utils.rs,
      error.rs): the delimiter search and the buffer.  Shown: no byte of a possible delimiter is
      emitted, the first one is found, and a read with a resumable cursor equals one pass.
    - MultipartData (part_data_stream.rs, final_part_data_stream.rs): the data stream and its
      strict variant.  Shown: exact data before the delimiter, exact acceptance of the trailer.
    - Multipart (header.rs, multipart.rs, part.rs): the state machine.  Shown: [next_part]
      refines a one-pass reference on every branch, but where padding after a boundary is followed
      by a dash, a defect that is reproduced; encoding then reading is the identity; the consumed
      count of a taken stream is exact.
    - ContentDisposition (content_disposition.rs): the parser, shown to invert rendering.
    - Form (http/multipart.rs): the form reader over Multipart.  Shown: it ends within its
      limits, and a form that is written is read back, its file as a stream with the length that
      is announced for it, one defect of which is reproduced.
    - PostPolicy (post_policy.rs, the POST object handler of ops/mod.rs).  Shown: a form with
      a policy goes on only when the policy has not expired, its conditions hold, and it covers every
      field that is not exempt.
    - SignatureCheck (ops/signature.rs, auth/signature.rs, helpers of http/mod.rs): the six ways
      of signing, as handlers of a [SignatureContext].  Shown: the check returns and decides, with
      the evidence that each way of signing gives; what becomes of the body for each of them.
    - Host (host.rs, region.rs): base domains, ports, buckets and the fallback.  Shown: the
      domains of a parser do not overlap, so a host has one meaning in any order of them.
    - Request (http/request.rs, helpers of ops/mod.rs) and Dispatch (ops/mod.rs, access/):
      [prepare] as a handler of the request, composed of all of the above.  Shown: nothing is
      handed on before the check passed on this request, every field of it ([checks]), the operation
      is the right one and access was granted; preparation always returns; what an operation reads
      is what the check delivers, and how it is bounded; two defects are reproduced.
    - Response (http/response.rs) and KeepAlive (http/keep_alive_body.rs): the response, the
      statuses without a body, and the body that sends spaces while a response is computed.
      Shown: once the future is ready the body ends after a known number of polls.
    - Blob (dto/streaming_blob.rs): the payload of an upload or download, boxed as a stream.
      Shown: reading the blob of a body is reading the body.
    - Range (dto/range.rs): parser, text form and check, shown to accept exactly the texts of a
      range and to select exactly the positions it covers.
    - ETag (dto/etag.rs, dto/etag_condition.rs): entity tags and conditions.  Shown: what is
      accepted and why the rest is refused, the round trip, and the laws of the comparisons.
    - Timestamp (dto/timestamp.rs, utils/format.rs): the three formats of a time.  Shown: what a
      printed time is read back as; two defects are reproduced.
    - Xml (xml/de.rs, xml/ser.rs), XmlStruct (the patterns of the generated code), XmlDtoA to
      XmlDtoC and XmlOutputs (dto/generated.rs, xml/generated.rs: each type with its serializer
      and deserializer), XmlReference (a reader and writer for the witnesses) and XmlDocs (the
      documents of the interface).  Shown: every well-formed document that is both written and read
      is read back as it was; reading any bytes ends; the documents of outputs hold the fields of the
      output that belong to the body, and nothing else.
    - EventStream (dto/event_stream.rs): messages and events of a select response.  Shown: a
      client receives exactly the events of the application.
    - CopySource (dto/copy_source.rs): the three forms of a copy source.  Shown: what is accepted
      is well formed, and it is printed and read back, but for regions and outposts that would
      need encoding, a defect.
    - Rfc2047 (crates/s3s-rfc2047): the encoder and decoder of header text.  Shown: decoding
      inverts encoding, words are cut at character boundaries, and their length is bounded by
      75 but for two lengths of text, a defect.
    - HeaderNames (header/generated.rs), HttpDe (http/de.rs) and HttpSer (http/ser.rs, the errors
      of ops/mod.rs): the functions an operation decodes its input and encodes its output with.
      HttpDe has weakest-precondition rules; decoding fails by a fault of the client only.
    - OpsTypes (dto/generated.rs), OpsDe and OpsSer (ops/generated/, ops/multipart.rs,
      ops/get_object.rs, dto/post_response.rs): the inputs and outputs of the 113 operations, and
      their [deserialize_http] and [serialize_http].  OpsTable makes them functions of the
      operation.  Shown: every operation decodes what the dispatch hands it or reports a fault of
      the client.
    - OpsWrites and OpsFrame: no output makes the encoding panic; decoding leaves the head and
      the credentials of a request.
    - Service (service.rs, protocol.rs, route.rs, s3_trait.rs, access/generated.rs, ops/mod.rs):
      the call of a service, composed of all of the above, with the application as a parameter that
      runs on a state of its own.  Shown: one handler is run once, or none, from the state the
      application had and after the checks of the request; what a request is answered with; the data
      of an upload is what the check delivers; four divergences from the documentation are
      reproduced.
    - FsTree: the files of a machine with the calls of [std::fs] and [tokio::fs] that the back end
      makes.  Shown: every call keeps the tree well formed.
    - Checksums (crypto.rs, checksum.rs, crates/s3s-fs/src/checksum.rs): the hash functions behind
      one interface, the hasher of a request, and the checksums an object is kept with.
    - FsList, FsStore, FsObjects, FsUploads (crates/s3s-fs/src/s3.rs, fs.rs, utils.rs, error.rs): every
      handler of the back end, in full, as a function on a [World].  FsReference has stand-ins for
      the crates it uses and FsSamples a small store, for the witnesses.
    - FsFrame: [answers] is one request to the store, as a step.  Shown: whatever requests are
      answered, the files stay a well-formed tree and nothing outside the root changes.
    - FsProps: what is put is read again, whole or by a range, with its attributes and checksums; a
      put that is refused changes no file; a put changes no other object.
    - FsMultipart: a completed upload is its parts, in order, without gaps, by its owner.
    - FsPages: a client that follows the tokens of a listing ends, and has seen exactly the matching
      keys and common prefixes, in order and once.
    - Server (crates/s3s-fs/src/main.rs, auth/simple_auth.rs, the defaults of config.rs): the service
      of Service with the back end as its application.  Shown: whatever requests the server is sent,
      nothing outside the root of the store changes; only requests signed with a registered key write;
      what a put stores is the data that the signature check delivers.

    ** How the code is represented

    A [u8] is [Byte.byte], text is its UTF-8 bytes, and a [usize] or [u64] is a [Z] whose
    bounds and overflow checks are written out where the source has them.  [Result] is
    [result], a panic is [None] in a definition that can panic (indexing, [unwrap],
    [unreachable!], overflow), and theorems show that it does not occur.  A trait the framework
    is generic in is a type class ([NameValidation]) or a field of the [CallContext].  Crates
    outside the repository are type classes too: [PhfMap], [SigDeps], [Nom], [ChunkDeps],
    [AuthDeps], [Sig2Deps], [BodyDeps], [PolicyDeps], [Memchr], [Httparse], [Atoi], [Base64],
    [ETagDeps], [UrlEncoding], [TimeCrate], [QuickXml], [AtoiSigned], [CrcFast], [UrlCrate],
    [Extensions], [PathAbsolutize], [Serde], [Uuids], [Base64Url], [HashCrates], and [CheckDeps],
    [RequestDeps], [XmlDeps], [HttpDeps] and [FsDeps] which collect those of a composition.
    [Machine] and [FsEnv] are what the system decides: the clock and the order of directory entries.  Their fields state the documented behaviour of the crate, and each has an
    instance that is evaluated in the witnesses.

    ** Asynchronous code

    The transport of a multipart body is the list of answers its stream gives when polled: not
    ready, a chunk, or an error.  A poll function takes the state and returns the state it
    leaves with [Ready] or [Pending], so a theorem about all event lists covers every chunking
    and every suspension.  The relation [feeds] forgets the events and keeps the bytes; the
    reference functions are stated on those bytes.  The worker of the chunked stream is an
    async generator with no state shared with its consumer: it is a function from frames to
    the items it yields and its outcome, and the polling side is a function over those items.
    A body is the list of answers it will give, and a handler that awaits it reads it to the
    end; a handler that never returns is [None], and [prepare_total] excludes it.

    ** Fuel

    A loop that is not structural runs on fuel and the bound is proved to be enough:
    [match_fuel] of Pattern ([match_loop_total]); the length of the body for the worker of
    ChunkedStream ([worker_loop_fuel]); the measure of each loop of the multipart files, for
    which [loop_unfold] of Poll gives the equation of the loop without fuel; the number of
    events for the executor [await], with [progresses] as the reason.  The helpers of Str
    consume at least one byte, or one binary digit, per turn and take the length of their input.

    ** The file system

    The store of the back end is a map from absolute paths to files and directories, and a handler
    is a function from the store to the store it leaves and its answer.  One request runs at a
    time: the handlers of requests that overlap are not interleaved.  There are no links, no limits
    on names, and no faults of the device; an operation fails for the reasons the tree gives.  The
    theorems on objects are about buckets of one name that does not start with a dot and keys that
    are relative paths without [.] and [..]; confinement is about all names.  The order of directory entries, the clock and
    the identifiers are unknown, and theorems hold for all of them.

    ** What is not modelled

    The hash functions and the calendar, which are third-party crates; the HTTP, TLS and executor
    layers, the HTTP/3 server and the WASM build; the AWS bridge and the proxies, which convert to
    the types of the AWS SDK, a third-party crate; the test harness; the code generator; the minio
    feature; the serialization that serde derives for policy documents; the reading and reloading of
    configuration files.  [Display] and [Debug] text
    and tracing are left out, except where text is data.  Task scheduling is not modelled beyond
    the suspension points above.  The handlers report the code of an error; the texts it carries
    are those of [ErrorTexts], which a theorem about a call takes as they come.  The configuration
    is one snapshot per request.

    ** What could follow

    Handlers of the back end that are interleaved at their suspension points; the derived
    serialization of policy documents; the conversions of crates/s3s-aws over an interface of the
    AWS SDK. *)

From Stdlib Require Export ZArith NArith Lia Bool.
From Stdlib Require Export Strings.Byte Sorting.Sorted.
From stdpp Require Export base tactics list numbers option sets strings.

#[export] Set Default Goal Selector "!".

(** ** Bytes

    A Rust [u8] is [Byte.byte] and a [&[u8]], [Vec<u8>], [Bytes], [String] or [&str] is a
    list of bytes: a [str] is its UTF-8 encoding, which is how the language defines
    [len], [as_bytes] and slicing. *)

Abbreviation bytes := (list byte).

#[global] Instance byte_eq_decision : EqDecision byte := Byte.byte_eq_dec.

Declare Scope rust_scope.
Delimit Scope rust_scope with rust.
Open Scope rust_scope.

(** A string or byte-string literal: [str "GET"] is the bytes of ["GET"]. *)
Definition str (s : string) : bytes := String.list_byte_of_string s.

Notation "a =? c" := (bool_decide (a = c)) (at level 70) : rust_scope.
Notation "a <>? c" := (negb (bool_decide (a = c))) (at level 70) : rust_scope.

(** The numeric value of a byte. *)
Definition u8 (c : byte) : Z := Z.of_N (Byte.to_N c).

(** [x as u8]: the low eight bits. *)
Definition byte_of_Z (z : Z) : byte :=
  default x00 (Byte.of_N (Z.to_N (z mod 256))).

Definition in_range (lo hi c : byte) : bool := (u8 lo <=? u8 c)%Z && (u8 c <=? u8 hi)%Z.

(** [s.len()] as a [usize], and the largest [usize] and slice length of a 64-bit target. *)
Definition len {A} (s : list A) : Z := Z.of_nat (length s).
Definition usize_max : Z := 2 ^ 64 - 1.
Definition isize_max : Z := 2 ^ 63 - 1.

(** ** Results

    [Result<A, E>]; [?] is the monadic bind, written with stdpp's [x ← m; k]. *)

Inductive result (E A : Type) : Type :=
| Ok (a : A)
| Err (e : E).
Arguments Ok {E A} a.
Arguments Err {E A} e.

#[global] Instance result_ret E : MRet (result E) := fun A a => Ok a.
#[global] Instance result_bind E : MBind (result E) := fun A B f m =>
  match m with Ok a => f a | Err e => Err e end.
#[global] Instance result_fmap E : FMap (result E) := fun A B f m =>
  match m with Ok a => Ok (f a) | Err e => Err e end.
#[global] Instance result_eq_dec {E A} `{EqDecision E, EqDecision A} : EqDecision (result E A).
Proof. solve_decision. Defined.

(** [opt.ok_or(e)] *)
Definition ok_or {E A} (e : E) (o : option A) : result E A :=
  match o with Some a => Ok a | None => Err e end.

(** [res.map_err(f)] *)
Definition map_err {E F A} (f : E -> F) (r : result E A) : result F A :=
  match r with Ok a => Ok a | Err e => Err (f e) end.

Definition is_ok {E A} (r : result E A) : bool :=
  match r with Ok _ => true | Err _ => false end.

(** ** Automation *)

Create HintDb rust.

(** Case analysis on the boolean and option tests the translated code branches on. *)
Ltac case_test :=
  match goal with
  | |- context [if ?c then _ else _] => destruct c eqn:?
  | H : context [if ?c then _ else _] |- _ => destruct c eqn:?
  | |- context [match ?c with _ => _ end] => destruct c eqn:?
  | H : context [match ?c with _ => _ end] |- _ => destruct c eqn:?
  end.

(** Turns boolean facts into propositions. *)
Ltac reflect_bools :=
  repeat match goal with
  | H : negb _ = true |- _ => apply negb_true_iff in H
  | H : negb _ = false |- _ => apply negb_false_iff in H
  | H : (_ && _)%bool = true |- _ => apply andb_true_iff in H; destruct H
  | H : (_ || _)%bool = false |- _ => apply orb_false_iff in H; destruct H
  | H : bool_decide _ = true |- _ => apply bool_decide_eq_true in H
  | H : bool_decide _ = false |- _ => apply bool_decide_eq_false in H
  | H : Z.leb _ _ = true |- _ => apply Z.leb_le in H
  | H : Z.leb _ _ = false |- _ => apply Z.leb_gt in H
  | H : Z.ltb _ _ = true |- _ => apply Z.ltb_lt in H
  | H : Z.ltb _ _ = false |- _ => apply Z.ltb_ge in H
  | H : Nat.leb _ _ = true |- _ => apply Nat.leb_le in H
  | H : Nat.leb _ _ = false |- _ => apply Nat.leb_gt in H
  | H : Nat.ltb _ _ = true |- _ => apply Nat.ltb_lt in H
  | H : Nat.ltb _ _ = false |- _ => apply Nat.ltb_ge in H
  | H : Z.eqb _ _ = true |- _ => apply Z.eqb_eq in H
  | H : Z.eqb _ _ = false |- _ => apply Z.eqb_neq in H
  end.

(** Proves a statement about one byte by checking the 256 cases. *)
Ltac all_bytes c := destruct c; vm_compute; try reflexivity; try discriminate; try congruence.

(** Proves a decidable closed statement, or its negation, by evaluation. *)
Ltac by_decide :=
  first [ refine (proj1 (bool_decide_eq_false _) _); vm_compute; reflexivity
        | refine (proj1 (bool_decide_eq_true _) _); vm_compute; reflexivity ].

(** ** Bytes as numbers *)

Lemma u8_range c : (0 <= u8 c < 256)%Z.
Proof. destruct c; vm_compute; split; congruence. Qed.

Lemma byte_of_Z_u8 c : byte_of_Z (u8 c) = c.
Proof. destruct c; reflexivity. Qed.

Lemma u8_inj c d : u8 c = u8 d -> c = d.
Proof. intros H. rewrite <- (byte_of_Z_u8 c), <- (byte_of_Z_u8 d). by rewrite H. Qed.

Lemma u8_byte_of_Z z : u8 (byte_of_Z z) = (z mod 256)%Z.
Proof.
  unfold byte_of_Z. pose proof (Z.mod_pos_bound z 256 eq_refl) as Hm.
  destruct (Byte.of_N (Z.to_N (z mod 256))) as [c|] eqn:E; simpl.
  - apply Byte.to_of_N in E. unfold u8. rewrite E. rewrite Z2N.id; lia.
  - apply Byte.of_N_None_iff in E. lia.
Qed.

(** ** Results: shared lemmas *)

Lemma result_bind_ok {E A B} (m : result E A) (f : A -> result E B) r :
  (m ≫= f) = Ok r <-> exists a, m = Ok a /\ f a = Ok r.
Proof. destruct m; simpl; split; [eauto| |discriminate|]; by intros (?&?&?); simplify_eq. Qed.

Lemma ok_or_Ok {E A} (e : E) (o : option A) a : ok_or e o = Ok a <-> o = Some a.
Proof. destruct o; simpl; split; intros; simplify_eq; done. Qed.

(** Inverts a successful run of monadic code. *)
Ltac invert_ok :=
  repeat match goal with
  | H : mbind _ _ = Ok _ |- _ => apply result_bind_ok in H; destruct H as (?&?&?)
  | H : ok_or _ _ = Ok _ |- _ => apply ok_or_Ok in H
  | H : mbind _ _ = Some _ |- _ => apply bind_Some in H; destruct H as (?&?&?)
  | H : Ok _ = Ok _ |- _ => injection H as H
  | H : Err _ = Ok _ |- _ => discriminate H
  | H : Ok _ = Err _ |- _ => discriminate H
  end.

(** ** Lists *)

Lemma last_snoc_inv {A} (l : list A) x : last l = Some x -> exists k, l = k ++ [x].
Proof.
  destruct l as [|y l] using rev_ind; [done|].
  rewrite last_snoc. intros [= ->]. eauto.
Qed.

Lemma forallb_app_iff {A} (p : A -> bool) l k :
  forallb p (l ++ k) = forallb p l && forallb p k.
Proof. apply forallb_app. Qed.

Lemma forallb_impl {A} (p q : A -> bool) l :
  (forall x, p x = true -> q x = true) -> forallb p l = true -> forallb q l = true.
Proof. intros Hpq. rewrite !forallb_forall. auto. Qed.

Lemma drop_length_app {A} (l k : list A) : drop (length l) (l ++ k) = k.
Proof. apply drop_app_length. Qed.

Lemma take_length_app {A} (l k : list A) : take (length l) (l ++ k) = l.
Proof. apply take_app_length. Qed.
