(* ===== verification/Str.v ===== *)
(** * Strings and slices of the Rust standard library

    The [str] and [[u8]] methods the workspace uses, on byte lists: ASCII classes,
    prefixes, searching, splitting, trimming, UTF-8, and the decimal and hexadecimal
    conversions.  Every definition is executable; the lemmas after them are the ones the
    component files share. *)

From S2P Require Import Prelude.

(** ** ASCII classes ([u8::is_ascii_*]) *)

Definition is_ascii (c : byte) : bool := (u8 c <? 128)%Z.
Definition is_ascii_lowercase (c : byte) : bool := in_range "a" "z" c.
Definition is_ascii_uppercase (c : byte) : bool := in_range "A" "Z" c.
Definition is_ascii_digit (c : byte) : bool := in_range "0" "9" c.
Definition is_ascii_alphanumeric (c : byte) : bool :=
  is_ascii_lowercase c || is_ascii_uppercase c || is_ascii_digit c.
Definition is_ascii_whitespace (c : byte) : bool :=
  match c with x09 | x0a | x0c | x0d | x20 => true | _ => false end.

Definition ascii_lower (c : byte) : byte :=
  if is_ascii_uppercase c then byte_of_Z (u8 c + 32) else c.
Definition ascii_upper (c : byte) : byte :=
  if is_ascii_lowercase c then byte_of_Z (u8 c - 32) else c.
Definition to_ascii_lowercase (s : bytes) : bytes := map ascii_lower s.
Definition to_ascii_uppercase (s : bytes) : bytes := map ascii_upper s.
Definition eq_ignore_ascii_case (s t : bytes) : bool :=
  to_ascii_lowercase s =? to_ascii_lowercase t.

(** ** Prefixes and suffixes *)

Fixpoint strip_prefix (p s : bytes) : option bytes :=
  match p, s with
  | [], _ => Some s
  | c :: p', d :: s' => if c =? d then strip_prefix p' s' else None
  | _ :: _, [] => None
  end.

Definition starts_with (p s : bytes) : bool :=
  match strip_prefix p s with Some _ => true | None => false end.

Definition strip_suffix (p s : bytes) : option bytes :=
  reverse <$> strip_prefix (reverse p) (reverse s).

Definition ends_with (p s : bytes) : bool :=
  match strip_suffix p s with Some _ => true | None => false end.

(** ** Searching *)

(** The offset of the first occurrence of a substring ([str::find]). *)
Fixpoint find_sub (p s : bytes) : option nat :=
  if starts_with p s then Some 0 else
  match s with
  | [] => None
  | _ :: s' => S <$> find_sub p s'
  end.

Definition contains (p s : bytes) : bool :=
  match find_sub p s with Some _ => true | None => false end.

(** The longest prefix without a byte satisfying [f], and the rest. *)
Fixpoint break_at (f : byte -> bool) (s : bytes) : bytes * bytes :=
  match s with
  | [] => ([], [])
  | c :: s' => if f c then ([], s) else
      let '(a, r) := break_at f s' in (c :: a, r)
  end.

(** ** Splitting *)

Definition split_once (c : byte) (s : bytes) : option (bytes * bytes) :=
  match break_at (fun d => d =? c) s with
  | (a, _ :: r) => Some (a, r)
  | (_, []) => None
  end.

Definition split_once_str (p s : bytes) : option (bytes * bytes) :=
  match find_sub p s with
  | Some i => Some (take i s, drop (i + length p) s)
  | None => None
  end.

Definition rsplit_once (c : byte) (s : bytes) : option (bytes * bytes) :=
  match split_once c (reverse s) with
  | Some (a, r) => Some (reverse r, reverse a)
  | None => None
  end.

Fixpoint split (c : byte) (s : bytes) : list bytes :=
  match s with
  | [] => [[]]
  | d :: s' =>
      if d =? c then [] :: split c s' else
      match split c s' with
      | [] => [[d]]
      | w :: ws => (d :: w) :: ws
      end
  end.

Fixpoint splitn (n : nat) (c : byte) (s : bytes) : list bytes :=
  match n with
  | 0 => []
  | S n' =>
      match n' with
      | 0 => [s]
      | S _ => match split_once c s with
               | None => [s]
               | Some (a, r) => a :: splitn n' c r
               end
      end
  end.

Fixpoint join (sep : bytes) (ws : list bytes) : bytes :=
  match ws with
  | [] => []
  | [w] => w
  | w :: ws' => w ++ sep ++ join sep ws'
  end.

(** ** Unicode white space ([str::trim], [str::split_whitespace]) *)

(** The UTF-8 encodings of the characters with the [White_Space] property. *)
Definition white_space : list bytes :=
  [[x09]; [x0a]; [x0b]; [x0c]; [x0d]; [x20]; [xc2; x85]; [xc2; xa0]; [xe1; x9a; x80];
   [xe2; x80; x80]; [xe2; x80; x81]; [xe2; x80; x82]; [xe2; x80; x83]; [xe2; x80; x84];
   [xe2; x80; x85]; [xe2; x80; x86]; [xe2; x80; x87]; [xe2; x80; x88]; [xe2; x80; x89];
   [xe2; x80; x8a]; [xe2; x80; xa8]; [xe2; x80; xa9]; [xe2; x80; xaf]; [xe2; x81; x9f];
   [xe3; x80; x80]].

Fixpoint strip_any (ps : list bytes) (s : bytes) : option bytes :=
  match ps with
  | [] => None
  | p :: ps' => match strip_prefix p s with Some r => Some r | None => strip_any ps' s end
  end.

Fixpoint trim_start_with (ps : list bytes) (fuel : nat) (s : bytes) : bytes :=
  match fuel with
  | 0 => s
  | S n => match strip_any ps s with Some r => trim_start_with ps n r | None => s end
  end.

Definition trim_start (s : bytes) : bytes := trim_start_with white_space (length s) s.
Definition trim_end (s : bytes) : bytes :=
  reverse (trim_start_with (map reverse white_space) (length s) (reverse s)).
Definition trim (s : bytes) : bytes := trim_end (trim_start s).

Definition flush_word (cur : bytes) : list bytes :=
  match cur with [] => [] | _ => [reverse cur] end.

(** [cur] is the word being read, last byte first. *)
Fixpoint split_ws_from (fuel : nat) (cur s : bytes) : list bytes :=
  match fuel with
  | 0 => flush_word cur
  | S n =>
      match strip_any white_space s with
      | Some r => flush_word cur ++ split_ws_from n [] r
      | None =>
          match s with
          | [] => flush_word cur
          | c :: s' => split_ws_from n (c :: cur) s'
          end
      end
  end.

Definition split_whitespace (s : bytes) : list bytes := split_ws_from (S (length s)) [] s.

(** [s.chars().any(char::is_whitespace)] *)
Fixpoint any_whitespace (s : bytes) : bool :=
  match strip_any white_space s with
  | Some _ => true
  | None => match s with [] => false | _ :: s' => any_whitespace s' end
  end.

(** ** UTF-8 ([str::from_utf8], [str::is_char_boundary]) *)

Definition is_cont (c : byte) : bool := in_range x80 xbf c.

Fixpoint utf8_valid (s : bytes) : bool :=
  match s with
  | [] => true
  | a :: s1 =>
      if is_ascii a then utf8_valid s1 else
      match s1 with
      | [] => false
      | c :: s2 =>
          if in_range xc2 xdf a then is_cont c && utf8_valid s2 else
          match s2 with
          | [] => false
          | d :: s3 =>
              if in_range xe0 xef a then
                (match a with
                 | xe0 => in_range xa0 xbf c
                 | xed => in_range x80 x9f c
                 | _ => is_cont c
                 end) && is_cont d && utf8_valid s3
              else
              match s3 with
              | [] => false
              | e :: s4 =>
                  in_range xf0 xf4 a &&
                  (match a with
                   | xf0 => in_range x90 xbf c
                   | xf4 => in_range x80 x8f c
                   | _ => is_cont c
                   end) && is_cont d && is_cont e && utf8_valid s4
              end
          end
      end
  end.

Definition is_char_boundary (s : bytes) (i : nat) : bool :=
  (i =? 0) || (i =? length s) ||
  match s !! i with Some c => negb (is_cont c) | None => false end.

(** ** Numbers *)

Definition digit_val (c : byte) : option Z :=
  if is_ascii_digit c then Some (u8 c - 48)%Z else None.

Fixpoint dec_value (acc : Z) (s : bytes) : option Z :=
  match s with
  | [] => Some acc
  | c :: s' => d ← digit_val c; dec_value (acc * 10 + d)%Z s'
  end.

(** [s.parse::<uN>()] for the unsigned type with maximum [max]: a leading [+] is accepted. *)
Definition parse_unsigned (max : Z) (s : bytes) : option Z :=
  match s with
  | [] => None
  | c :: s' =>
      match (if c =? "+"%byte then s' else s) with
      | [] => None
      | digits => v ← dec_value 0 digits; if (v <=? max)%Z then Some v else None
      end
  end.

(** [s.parse::<iN>()] for the signed type with range [min .. max]. *)
Definition parse_signed (min max : Z) (s : bytes) : option Z :=
  match s with
  | [] => None
  | c :: s' =>
      let neg := c =? "-"%byte in
      match (if neg || (c =? "+"%byte) then s' else s) with
      | [] => None
      | digits =>
          v ← dec_value 0 digits;
          let v := if neg then (- v)%Z else v in
          if (min <=? v)%Z && (v <=? max)%Z then Some v else None
      end
  end.

Definition dec_digit (d : Z) : byte := byte_of_Z (48 + d).

Fixpoint dec_digits (fuel : nat) (n : Z) (acc : bytes) : bytes :=
  match fuel with
  | 0 => acc
  | S k =>
      let acc := dec_digit (n mod 10) :: acc in
      if (n <? 10)%Z then acc else dec_digits k (n / 10)%Z acc
  end.

(** [format!("{n}")] for a non-negative [n]. *)
Definition fmt_dec (n : Z) : bytes := dec_digits (S (Z.to_nat (Z.log2 n))) n [].

(** [format!("{n:0w}")] *)
Definition fmt_dec_pad (w : nat) (n : Z) : bytes :=
  let s := fmt_dec n in replicate (w - length s) "0"%byte ++ s.

(** [char::to_digit(16)] on an ASCII byte. *)
Definition hex_val (c : byte) : option Z :=
  if is_ascii_digit c then Some (u8 c - 48)%Z
  else if in_range "a" "f" c then Some (u8 c - 87)%Z
  else if in_range "A" "F" c then Some (u8 c - 55)%Z
  else None.

Definition hex_lower (d : Z) : byte := byte_of_Z (if (d <? 10)%Z then 48 + d else 87 + d)%Z.
Definition hex_upper (d : Z) : byte := byte_of_Z (if (d <? 10)%Z then 48 + d else 55 + d)%Z.

(** ** Ordering of byte strings and stable sorting *)

Fixpoint bytes_cmp (s t : bytes) : comparison :=
  match s, t with
  | [], [] => Eq
  | [], _ :: _ => Lt
  | _ :: _, [] => Gt
  | c :: s', d :: t' =>
      match Z.compare (u8 c) (u8 d) with Eq => bytes_cmp s' t' | r => r end
  end.

Definition bytes_leb (s t : bytes) : bool :=
  match bytes_cmp s t with Gt => false | _ => true end.
Definition bytes_ltb (s t : bytes) : bool :=
  match bytes_cmp s t with Lt => true | _ => false end.

Section Sort.
Context {A : Type} (key : A -> bytes).

Fixpoint insert_by_key (x : A) (l : list A) : list A :=
  match l with
  | [] => [x]
  | y :: l' => if bytes_leb (key x) (key y) then x :: l else y :: insert_by_key x l'
  end.

(** [v.sort_by(|l, r| key(l).cmp(key(r)))]: the stable sort by key. *)
Fixpoint sort_by_key (l : list A) : list A :=
  match l with
  | [] => []
  | x :: l' => insert_by_key x (sort_by_key l')
  end.
End Sort.

(** ** Prefixes and suffixes: lemmas *)

Lemma strip_prefix_Some p s r : strip_prefix p s = Some r <-> s = p ++ r.
Proof.
  revert s. induction p as [|c p IH]; intros [|d s]; simpl; split; intros H; simplify_eq; try done.
  - case_bool_decide; [|done]. subst. f_equal. by apply IH.
  - rewrite bool_decide_eq_true_2 by done. by apply IH.
Qed.

Lemma strip_prefix_app p r : strip_prefix p (p ++ r) = Some r.
Proof. by apply strip_prefix_Some. Qed.

Lemma starts_with_true p s : starts_with p s = true <-> exists r, s = p ++ r.
Proof.
  unfold starts_with. destruct (strip_prefix p s) as [r|] eqn:E.
  - apply strip_prefix_Some in E. split; eauto.
  - split; [done|]. intros [r ->]. by rewrite strip_prefix_app in E.
Qed.

Lemma starts_with_app p r : starts_with p (p ++ r) = true.
Proof. apply starts_with_true; eauto. Qed.

Lemma strip_suffix_Some p s r : strip_suffix p s = Some r <-> s = r ++ p.
Proof.
  unfold strip_suffix. rewrite fmap_Some. split.
  - intros (x & H & ->). apply strip_prefix_Some in H.
    rewrite <- (reverse_involutive s), H, reverse_app, reverse_involutive. done.
  - intros ->. exists (reverse r). split; [|by rewrite reverse_involutive].
    apply strip_prefix_Some. apply reverse_app.
Qed.

Lemma ends_with_true p s : ends_with p s = true <-> exists r, s = r ++ p.
Proof.
  unfold ends_with. destruct (strip_suffix p s) as [r|] eqn:E.
  - apply strip_suffix_Some in E. split; eauto.
  - split; [done|]. intros [r Hr]. apply strip_suffix_Some in Hr. congruence.
Qed.

(** ** Searching: lemmas *)

Lemma find_sub_Some p s i :
  find_sub p s = Some i ->
  s = take i s ++ p ++ drop (i + length p) s /\ i + length p <= length s /\
  forall j, j < i -> starts_with p (drop j s) = false.
Proof.
  revert i. induction s as [|c s IH]; intros i; simpl; destruct (starts_with p _) eqn:E.
  - intros [= <-]. apply starts_with_true in E as [r Hr].
    destruct p; [|done]. simpl in *. split_and!; [done|lia|lia].
  - done.
  - intros [= <-]. apply starts_with_true in E as [r Hr].
    pose proof (f_equal length Hr) as Hl. rewrite length_app in Hl. simpl in Hl.
    split_and!; [|lia|lia]. rewrite Hr. simpl. by rewrite drop_app_length.
  - destruct (find_sub p s) as [k|] eqn:F; simpl; intros [= <-].
    destruct (IH _ eq_refl) as (H1 & H2 & H3). split_and!.
    + simpl. by f_equal.
    + simpl. lia.
    + intros [|j] Hj; simpl; [done|]. apply H3. lia.
Qed.

Lemma find_sub_None p s : find_sub p s = None <-> forall j, starts_with p (drop j s) = false.
Proof.
  induction s as [|c s IH]; simpl; destruct (starts_with p _) eqn:E.
  - split; [done|]. intros H. specialize (H 0). rewrite drop_0 in H. congruence.
  - split; [|done]. intros _ j. by rewrite drop_nil.
  - split; [done|]. intros H. specialize (H 0). simpl in H. congruence.
  - rewrite fmap_None, IH. split; intros H j.
    + destruct j; simpl; [done|apply H].
    + apply (H (S j)).
Qed.

Lemma find_sub_first p s i :
  starts_with p (drop i s) = true -> (forall j, j < i -> starts_with p (drop j s) = false) ->
  i <= length s -> find_sub p s = Some i.
Proof.
  revert i. induction s as [|c s IH]; intros i Hi Hj Hle; simpl.
  - assert (i = 0) as -> by (simpl in Hle; lia). rewrite drop_0 in Hi. by rewrite Hi.
  - destruct i as [|i]; [by rewrite drop_0 in Hi; rewrite Hi|].
    pose proof (Hj 0 ltac:(lia)) as H0. rewrite drop_0 in H0. rewrite H0.
    rewrite (IH i); [done|done| |simpl in Hle; lia].
    intros j Hlt. apply (Hj (S j)). lia.
Qed.

Lemma find_sub_ext_None p s t : find_sub p (s ++ t) = None -> find_sub p s = None.
Proof.
  rewrite !find_sub_None. intros H j.
  destruct (starts_with p (drop j s)) eqn:E; [|done].
  apply starts_with_true in E as [r Hr].
  destruct (decide (j <= length s)) as [Hle|Hgt].
  - specialize (H j). rewrite drop_app_le, Hr, <- app_assoc, starts_with_app in H by done. done.
  - rewrite drop_ge in Hr by lia. destruct p; [|done].
    specialize (H 0). done.
Qed.

(** The first occurrence of a pattern whose first byte does not occur before it. *)
Lemma find_sub_head c p a r : c ∉ a -> find_sub (c :: p) (a ++ c :: p ++ r) = Some (length a).
Proof.
  induction a as [|d a IH]; intros Hn; cbn [app find_sub].
  - by rewrite (starts_with_app (c :: p) r : starts_with (c :: p) (c :: p ++ r) = true).
  - apply not_elem_of_cons in Hn as [Hd Hn]. unfold starts_with. cbn [strip_prefix]. rewrite bool_decide_eq_false_2 by done.
    by rewrite IH.
Qed.

Lemma find_sub_notin c p a : c ∉ a -> find_sub (c :: p) a = None.
Proof.
  induction a as [|d a IH]; intros Hn; [done|]. apply not_elem_of_cons in Hn as [Hd Hn]. cbn [find_sub]. unfold starts_with.
  cbn [strip_prefix]. rewrite bool_decide_eq_false_2 by done. by rewrite IH.
Qed.

Lemma break_at_spec f s a r :
  break_at f s = (a, r) ->
  s = a ++ r /\ forallb (fun c => negb (f c)) a = true /\
  match r with [] => True | c :: _ => f c = true end.
Proof.
  revert a r. induction s as [|c s IH]; intros a r; simpl; [by intros [= <- <-]|].
  destruct (f c) eqn:E; [by intros [= <- <-]|].
  destruct (break_at f s) as [a' r'] eqn:F. intros [= <- <-].
  destruct (IH _ _ eq_refl) as (-> & Ha & Hr). simpl. by rewrite E.
Qed.

Lemma break_at_app f a r :
  forallb (fun c => negb (f c)) a = true ->
  match r with [] => True | c :: _ => f c = true end ->
  break_at f (a ++ r) = (a, r).
Proof.
  induction a as [|c a IH]; simpl; intros Ha Hr.
  - destruct r as [|c r]; simpl; [done|by rewrite Hr].
  - reflect_bools. rewrite H. by rewrite IH.
Qed.

Lemma forallb_notin (c : byte) a : forallb (fun d => negb (d =? c)) a = true <-> c ∉ a.
Proof.
  rewrite forallb_forall. split.
  - intros H Hin. apply list_elem_of_In in Hin. apply H in Hin. reflect_bools. done.
  - intros H x Hx. apply list_elem_of_In in Hx.
    apply negb_true_iff, bool_decide_eq_false. congruence.
Qed.

(** ** Splitting: lemmas *)

Lemma split_once_Some c s a r : split_once c s = Some (a, r) <-> s = a ++ c :: r /\ c ∉ a.
Proof.
  unfold split_once. split.
  - destruct (break_at _ s) as [a' [|d r']] eqn:E; [done|]. intros [= <- <-].
    apply break_at_spec in E as (-> & Ha & Hd). apply bool_decide_eq_true in Hd as ->.
    by rewrite forallb_notin in Ha.
  - intros [-> Hc]. rewrite break_at_app; [done|by apply forallb_notin|].
    by apply bool_decide_eq_true.
Qed.

Lemma split_once_None c s : split_once c s = None <-> c ∉ s.
Proof.
  destruct (split_once c s) as [[a r]|] eqn:E.
  - apply split_once_Some in E as [-> _]. set_solver.
  - split; [|done]. intros _ Hin. apply list_elem_of_split in Hin as (a & r & ->).
    unfold split_once in E. destruct (break_at _ _) as [a' [|d r']] eqn:F; [|done].
    apply break_at_spec in F as (F & Ha & _). rewrite app_nil_r in F. subst a'.
    apply forallb_notin in Ha. set_solver.
Qed.

Lemma rsplit_once_Some c s a r : rsplit_once c s = Some (a, r) <-> s = a ++ c :: r /\ c ∉ r.
Proof.
  unfold rsplit_once. destruct (split_once c (reverse s)) as [[x y]|] eqn:E.
  - apply split_once_Some in E as [E Hx]. apply (f_equal reverse) in E.
    rewrite reverse_involutive, reverse_app, reverse_cons, <- app_assoc in E. simpl in E. subst s.
    split.
    + intros [= <- <-]. split; [done|]. by rewrite elem_of_reverse.
    + intros [H Hr]. apply (f_equal reverse) in H.
      rewrite !reverse_app, !reverse_cons, !reverse_involutive, <- !app_assoc in H. simpl in H.
      assert (Hs : split_once c (x ++ c :: y) = Some (reverse r, reverse a)).
      { rewrite H. apply split_once_Some. split; [done|]. by rewrite elem_of_reverse. }
      rewrite (proj2 (split_once_Some c (x ++ c :: y) x y)) in Hs by done.
      injection Hs as -> ->. by rewrite !reverse_involutive.
  - apply split_once_None in E. rewrite elem_of_reverse in E.
    split; [done|]. intros [-> _]. set_solver.
Qed.

Lemma split_nonempty c s : split c s <> [].
Proof. destruct s as [|d s]; simpl; [done|]. destruct (d =? c); [done|]. by destruct (split c s). Qed.

Lemma split_notin c s w : w ∈ split c s -> c ∉ w.
Proof.
  revert w. induction s as [|d s IH]; intros w; simpl.
  - intros ->%list_elem_of_singleton. apply not_elem_of_nil.
  - case_bool_decide.
    + intros [->|Hin]%elem_of_cons; [apply not_elem_of_nil|eauto].
    + destruct (split c s) as [|w0 ws].
      * intros ->%list_elem_of_singleton. rewrite list_elem_of_singleton. congruence.
      * intros [->|Hin]%elem_of_cons.
        -- apply not_elem_of_cons; split; [done|]. apply IH. set_solver.
        -- apply IH. set_solver.
Qed.

Lemma join_split c s : join [c] (split c s) = s.
Proof.
  induction s as [|d s IH]; simpl; [done|]. case_bool_decide as E.
  - subst. pose proof (split_nonempty c s). destruct (split c s) eqn:F; [done|].
    simpl in *. by rewrite IH.
  - destruct (split c s) as [|w ws] eqn:F; simpl in *; [by rewrite <- IH|].
    destruct ws; simpl in *; by rewrite <- IH.
Qed.

Lemma split_app_notin c w s : c ∉ w ->
  split c (w ++ s) = match split c s with [] => [w] | v :: vs => (w ++ v) :: vs end.
Proof.
  induction w as [|d w IH]; intros Hw; simpl.
  - pose proof (split_nonempty c s). by destruct (split c s).
  - apply not_elem_of_cons in Hw as [Hd Hw].
    rewrite bool_decide_eq_false_2 by congruence. rewrite IH by done.
    pose proof (split_nonempty c s). by destruct (split c s).
Qed.

Lemma split_single c w : c ∉ w -> split c w = [w].
Proof. intros Hw. rewrite <- (app_nil_r w) at 1. rewrite split_app_notin by done. simpl. by rewrite app_nil_r. Qed.

Lemma split_cons_sep c w s : c ∉ w -> split c (w ++ c :: s) = w :: split c s.
Proof.
  intros Hw. rewrite split_app_notin by done. simpl.
  rewrite bool_decide_eq_true_2 by done. by rewrite app_nil_r.
Qed.

Lemma split_join c ws : ws <> [] -> Forall (fun w => c ∉ w) ws -> split c (join [c] ws) = ws.
Proof.
  intros Hne Hall. induction Hall as [|w ws Hw Hall IH]; [done|].
  destruct ws as [|v ws]; simpl.
  - by apply split_single.
  - rewrite split_cons_sep by done. f_equal. by apply IH.
Qed.

(** ** Ordering and sorting: lemmas *)

Lemma bytes_cmp_eq s t : bytes_cmp s t = Eq <-> s = t.
Proof.
  revert t. induction s as [|c s IH]; intros [|d t]; simpl; try done.
  destruct (Z.compare_spec (u8 c) (u8 d)) as [E|E|E].
  - apply u8_inj in E as ->. rewrite IH. split; congruence.
  - split; [done|]. intros [= -> _]. lia.
  - split; [done|]. intros [= -> _]. lia.
Qed.

Lemma bytes_cmp_antisym s t : bytes_cmp t s = CompOpp (bytes_cmp s t).
Proof.
  revert t. induction s as [|c s IH]; intros [|d t]; simpl; try done.
  rewrite (Z.compare_antisym (u8 c) (u8 d)). destruct (Z.compare (u8 c) (u8 d)); simpl; auto.
Qed.

Lemma bytes_leb_refl s : bytes_leb s s = true.
Proof. unfold bytes_leb. by rewrite (proj2 (bytes_cmp_eq s s)). Qed.

Lemma bytes_leb_total s t : bytes_leb s t = false -> bytes_leb t s = true.
Proof. unfold bytes_leb. rewrite (bytes_cmp_antisym s t). by destruct (bytes_cmp s t). Qed.

Lemma bytes_leb_antisym s t : bytes_leb s t = true -> bytes_leb t s = true -> s = t.
Proof.
  unfold bytes_leb. rewrite (bytes_cmp_antisym s t).
  destruct (bytes_cmp s t) eqn:E; try done. by apply bytes_cmp_eq in E.
Qed.

Lemma bytes_ltb_leb s t : bytes_ltb s t = negb (bytes_leb t s).
Proof. unfold bytes_ltb, bytes_leb. rewrite (bytes_cmp_antisym s t). by destruct (bytes_cmp s t). Qed.

Lemma bytes_leb_trans s t u : bytes_leb s t = true -> bytes_leb t u = true -> bytes_leb s u = true.
Proof.
  unfold bytes_leb. revert t u. induction s as [|c s IH]; intros [|d t] [|e u]; simpl; try done.
  destruct (Z.compare_spec (u8 c) (u8 d)), (Z.compare_spec (u8 d) (u8 e)),
    (Z.compare_spec (u8 c) (u8 e)); try done; try lia. apply IH.
Qed.

Section SortFacts.
Context {A : Type} (key : A -> bytes).

Definition key_le (x y : A) : Prop := bytes_leb (key x) (key y) = true.

Lemma insert_by_key_perm x l : insert_by_key key x l ≡ₚ x :: l.
Proof.
  induction l as [|y l IH]; simpl; [done|]. destruct (bytes_leb _ _); [done|].
  rewrite IH. apply Permutation_swap.
Qed.

Lemma sort_by_key_perm l : sort_by_key key l ≡ₚ l.
Proof. induction l as [|x l IH]; simpl; [done|]. by rewrite insert_by_key_perm, IH. Qed.

Lemma insert_by_key_sorted x l :
  StronglySorted key_le l -> StronglySorted key_le (insert_by_key key x l).
Proof.
  induction 1 as [|y l Hl IH Hy]; simpl; [repeat constructor|].
  destruct (bytes_leb (key x) (key y)) eqn:E.
  - constructor; [by constructor|]. constructor; [done|].
    eapply Forall_impl; [exact Hy|]. intros z Hz. eapply bytes_leb_trans; eauto.
  - constructor; [done|]. rewrite insert_by_key_perm. constructor; [|done].
    by apply bytes_leb_total.
Qed.

Lemma sort_by_key_sorted l : StronglySorted key_le (sort_by_key key l).
Proof. induction l; simpl; [constructor|]. by apply insert_by_key_sorted. Qed.

(** Stability: the entries with one key keep their order. *)
Lemma insert_by_key_filter x l k :
  List.filter (fun z => key z =? k) (insert_by_key key x l) =
  (if key x =? k then [x] else []) ++ List.filter (fun z => key z =? k) l.
Proof.
  induction l as [|y l IH]; simpl; [by destruct (key x =? k)|].
  destruct (bytes_leb (key x) (key y)) eqn:E; simpl; [by destruct (key x =? k)|].
  rewrite IH. case_bool_decide as Hx; case_bool_decide as Hy; try done.
  subst k. rewrite Hy, bytes_leb_refl in E. done.
Qed.

Lemma sort_by_key_stable l k :
  List.filter (fun z => key z =? k) (sort_by_key key l) = List.filter (fun z => key z =? k) l.
Proof.
  induction l as [|x l IH]; simpl; [done|]. rewrite insert_by_key_filter, IH.
  by destruct (key x =? k).
Qed.
End SortFacts.

(** ** Numbers: lemmas *)

Lemma dec_digit_val d : (0 <= d < 10)%Z -> digit_val (dec_digit d) = Some d.
Proof.
  intros H. assert (d = 0 \/ d = 1 \/ d = 2 \/ d = 3 \/ d = 4 \/ d = 5 \/ d = 6 \/ d = 7 \/
    d = 8 \/ d = 9)%Z as Hd by lia.
  repeat destruct Hd as [->|Hd]; [reflexivity..|]. by subst.
Qed.

(** [fmt_dec] digit by digit; the fuel is enough. *)
Lemma dec_digits_app f n acc : dec_digits f n acc = dec_digits f n [] ++ acc.
Proof.
  revert n acc. induction f as [|f IH]; intros n acc; cbn [dec_digits]; [done|].
  destruct (n <? 10)%Z; [done|]. rewrite IH, (IH _ [_]). by rewrite <- app_assoc.
Qed.

Lemma dec_digits_fuel f g n acc : (0 <= n < 2 ^ Z.of_nat f)%Z -> (n < 2 ^ Z.of_nat g)%Z -> f <> 0 -> g <> 0 ->
  dec_digits f n acc = dec_digits g n acc.
Proof.
  revert g n acc. induction f as [|f IH]; intros [|g] n acc Hf Hg Hf0 Hg0; [done..|]. cbn [dec_digits].
  destruct (n <? 10)%Z eqn:E; [done|]. reflect_bools. rewrite Nat2Z.inj_succ, Z.pow_succ_r in Hf, Hg by lia.
  assert (Hd : (0 <= n / 10)%Z /\ (n / 10 <= n / 2)%Z /\ (2 * (n / 2) <= n)%Z) by (Z.to_euclidean_division_equations; lia).
  apply IH; [lia|lia| |]; intros ->; simpl in *; lia.
Qed.

Lemma fmt_dec_step n : (0 <= n)%Z -> fmt_dec n = if (n <? 10)%Z then [dec_digit n] else fmt_dec (n / 10) ++ [dec_digit (n mod 10)].
Proof.
  intros Hn. unfold fmt_dec at 1. cbn [dec_digits]. destruct (n <? 10)%Z eqn:E; reflect_bools; [by rewrite Z.mod_small|].
  rewrite dec_digits_app. f_equal. unfold fmt_dec.
  assert (Hl : (n < 2 ^ Z.succ (Z.log2 n))%Z) by (apply Z.log2_spec; lia). rewrite Z.pow_succ_r in Hl by apply Z.log2_nonneg.
  assert (Hl' : (n / 10 < 2 ^ Z.succ (Z.log2 (n / 10)))%Z) by (apply Z.log2_spec; Z.to_euclidean_division_equations; lia).
  assert (Hp : (0 < Z.log2 n)%Z) by (apply Z.log2_pos; lia). pose proof (Z.log2_nonneg (n / 10)).
  assert (Hd : (0 <= n / 10)%Z /\ (2 * (n / 10) <= n)%Z) by (Z.to_euclidean_division_equations; lia).
  apply dec_digits_fuel; [rewrite Z2Nat.id by lia; lia| |lia|lia].
  by rewrite Nat2Z.inj_succ, Z2Nat.id by lia.
Qed.

Lemma dec_value_app acc s t :
  dec_value acc (s ++ t) = (v ← dec_value acc s; dec_value v t).
Proof. revert acc. induction s as [|c s IH]; intros acc; simpl; [done|]. destruct (digit_val c); simpl; auto. Qed.

Lemma dec_digits_value fuel n acc k :
  (0 <= n < 2 ^ Z.of_nat fuel)%Z ->
  exists s, dec_digits fuel n acc = s ++ acc /\ dec_value k s = Some (k * 10 ^ Z.of_nat (length s) + n)%Z
            /\ s <> [] \/ fuel = 0 /\ n = 0%Z.
Proof.
  revert n acc k. induction fuel as [|fuel IH]; intros n acc k Hn.
  { exists []. right. simpl in Hn. lia. }
  simpl. destruct (Z.ltb_spec n 10).
  - exists [dec_digit (n mod 10)]. left. simpl.
    rewrite Z.mod_small, dec_digit_val by lia. simpl. split_and!; [done|f_equal; lia|done].
  - assert (Hq : (0 <= n / 10 < 2 ^ Z.of_nat fuel)%Z).
    { rewrite Nat2Z.inj_succ, Z.pow_succ_r in Hn by lia.
      pose proof (Z.div_pos n 10). pose proof (Z.div_lt_upper_bound n 10 (2 ^ Z.of_nat fuel)). lia. }
    destruct (IH (n / 10)%Z (dec_digit (n mod 10) :: acc) k Hq) as (s & [(Hs & Hv & _)|[-> H0]]).
    + exists (s ++ [dec_digit (n mod 10)]). left. rewrite <- app_assoc. split_and!; [done| |by destruct s].
      rewrite dec_value_app, Hv. simpl. rewrite dec_digit_val by (apply Z.mod_pos_bound; lia). simpl.
      f_equal. rewrite length_app, Nat2Z.inj_add, Z.pow_add_r by lia. simpl.
      pose proof (Z.div_mod n 10). lia.
    + pose proof (Z.div_mod n 10). pose proof (Z.mod_pos_bound n 10). lia.
Qed.

Lemma fmt_dec_value n : (0 <= n)%Z -> dec_value 0%Z (fmt_dec n) = Some n /\ fmt_dec n <> [].
Proof.
  intros Hn. unfold fmt_dec.
  destruct (dec_digits_value (S (Z.to_nat (Z.log2 n))) n [] 0%Z) as (s & [(Hs & Hv & Hne)|[? _]]); [|..|done].
  - split; [done|]. rewrite Nat2Z.inj_succ, Z2Nat.id by apply Z.log2_nonneg.
    destruct (Z.eq_dec n 0%Z) as [->|]; [simpl; lia|]. apply Z.log2_spec. lia.
  - rewrite Hs, app_nil_r, Hv. split; [f_equal; lia|done].
Qed.

Lemma dec_value_digits acc s v : dec_value acc s = Some v -> forallb is_ascii_digit s = true.
Proof.
  revert acc. induction s as [|c s IH]; intros acc; simpl; [done|].
  unfold digit_val. destruct (is_ascii_digit c); simpl; [apply IH|done].
Qed.

Lemma parse_unsigned_fmt_dec max n : (0 <= n <= max)%Z -> parse_unsigned max (fmt_dec n) = Some n.
Proof.
  intros Hn. destruct (fmt_dec_value n) as [Hv Hne]; [lia|].
  pose proof (dec_value_digits _ _ _ Hv) as Hd. unfold parse_unsigned.
  destruct (fmt_dec n) as [|c s]; [done|]. simpl in Hd.
  rewrite bool_decide_eq_false_2 by (intros ->; simpl in Hd; by reflect_bools).
  rewrite Hv. simpl. by rewrite (proj2 (Z.leb_le n max)) by lia.
Qed.
