(* ===== verification/Utf8.v ===== *)
(** * UTF-8 text: lemmas

    The structure of valid UTF-8 as a sequence of characters, and where it may be cut: what the
    components that slice strings or concatenate them rely on. *)

From S2P Require Import Prelude.
From S2P Require Import Str.

(** ** Characters and boundaries *)

(** A character: its first byte does not continue one, the others do. *)
Record utf8_char (ch : bytes) : Prop := {
  ch_shape : exists a tl, ch = a :: tl /\ is_cont a = false /\ Forall (fun c => is_cont c = true) tl /\ length tl <= 3;
  ch_valid : forall t, utf8_valid (ch ++ t) = utf8_valid t
}.

Lemma first_byte a s : utf8_valid (a :: s) = true -> is_cont a = false.
Proof. destruct a; try done; cbn; by repeat (destruct s as [|? s]; cbn; try done). Qed.

Lemma first_char s : utf8_valid s = true -> s <> [] -> exists ch rest, s = ch ++ rest /\ utf8_char ch /\ utf8_valid rest = true.
Proof.
  destruct s as [|a s1]; [done|]. intros Hv _. pose proof (first_byte a s1 Hv) as Ha. cbn [utf8_valid] in Hv.
  assert (Hc : forall x c, match x with xe0 => in_range xa0 xbf c | xed => in_range x80 x9f c | _ => is_cont c end = true -> is_cont c = true).
  { intros x c. destruct x; first [done | by destruct c]. }
  assert (Hc4 : forall x c, match x with xf0 => in_range x90 xbf c | xf4 => in_range x80 x8f c | _ => is_cont c end = true -> is_cont c = true).
  { intros x c. destruct x; first [done | by destruct c]. }
  destruct (is_ascii a) eqn:E1.
  { exists [a], s1. split; [done|]. split; [|done]. split; [by exists a, []; split_and!; simpl; try lia|]. intros t. cbn. by rewrite E1. }
  destruct s1 as [|c s2]; [done|]. destruct (in_range xc2 xdf a) eqn:E2.
  { apply andb_true_iff in Hv as [Hc1 Hv]. exists [a; c], s2. split; [done|]. split; [|done].
    split; [exists a, [c]; split_and!; simpl; [done|done|by repeat constructor|lia]|]. intros t. cbn. by rewrite E1, E2, Hc1. }
  destruct s2 as [|d s3]; [done|]. destruct (in_range xe0 xef a) eqn:E3.
  { apply andb_true_iff in Hv as [[Hc1 Hd]%andb_true_iff Hv]. exists [a; c; d], s3. split; [done|]. split; [|done].
    split; [exists a, [c; d]; split_and!; simpl; [done|done|by repeat constructor; eauto|lia]|].
    intros t. cbn [app utf8_valid]. by rewrite E1, E2, E3, Hc1, Hd. }
  destruct s3 as [|e s4]; [done|]. apply andb_true_iff in Hv as [[[[H4 Hc1]%andb_true_iff Hd]%andb_true_iff He]%andb_true_iff Hv].
  exists [a; c; d; e], s4. split; [done|]. split; [|done].
  split; [exists a, [c; d; e]; split_and!; simpl; [done|done|by repeat constructor; eauto|lia]|].
  intros t. cbn [app utf8_valid]. by rewrite E1, E2, E3, H4, Hc1, Hd, He.
Qed.

Lemma utf8_ind (P : bytes -> Prop) :
  P [] -> (forall ch rest, utf8_char ch -> utf8_valid rest = true -> P rest -> P (ch ++ rest)) ->
  forall s, utf8_valid s = true -> P s.
Proof.
  intros H0 Hs s. remember (length s) as n eqn:En. revert s En. induction n as [n IH] using lt_wf_ind. intros s -> Hv.
  destruct (decide (s = [])) as [->|Hne]; [done|]. destruct (first_char s Hv Hne) as (ch & rest & -> & Hch & Hr).
  apply Hs; [done|done|]. destruct (ch_shape _ Hch) as (a & tl & -> & _). apply (IH (length rest)); simpl; rewrite ?length_app; try done. lia.
Qed.

Lemma char_length ch : utf8_char ch -> 1 <= length ch <= 4.
Proof. intros [(a & tl & -> & _ & _ & Hl) _]. simpl. lia. Qed.

(** A boundary that is not in the first character is one of the rest. *)
Lemma boundary_after ch rest i :
  utf8_char ch -> is_char_boundary (ch ++ rest) i = true -> i <> 0 ->
  length ch <= i /\ is_char_boundary rest (i - length ch) = true.
Proof.
  intros Hch Hb Hi. unfold is_char_boundary in *. rewrite length_app in Hb.
  destruct (decide (i < length ch)) as [Hlt|Hge].
  - exfalso. rewrite lookup_app_l in Hb by done. destruct (ch_shape _ Hch) as (a & tl & -> & _ & Htl & _).
    destruct i as [|i]; [done|]. simpl in Hb. destruct (lookup_lt_is_Some_2 tl i) as [c Hc]; [simpl in Hlt; lia|]. rewrite Hc in Hb.
    rewrite Forall_lookup in Htl. rewrite (Htl _ _ Hc) in Hb. rewrite !orb_true_iff, !bool_decide_eq_true in Hb.
    destruct_or! Hb; simpl in *; done || lia.
  - split; [lia|]. rewrite lookup_app_r in Hb by lia. rewrite !orb_true_iff, !bool_decide_eq_true in *.
    destruct_or! Hb; [lia|left; right; lia|by right].
Qed.

(** Text is cut into text at a boundary. *)
Lemma utf8_cut s : utf8_valid s = true -> forall i, is_char_boundary s i = true ->
  utf8_valid (take i s) = true /\ utf8_valid (drop i s) = true.
Proof.
  revert s. refine (utf8_ind _ _ _).
  - intros i _. by rewrite take_nil, drop_nil.
  - intros ch rest Hch Hr IH i Hb. destruct (decide (i = 0)) as [->|Hi]; [rewrite drop_0; split; [done|by rewrite (ch_valid _ Hch)]|].
    destruct (boundary_after ch rest i Hch Hb Hi) as [Hge Hb']. destruct (IH _ Hb') as [H1 H2].
    rewrite take_app_ge, drop_app_ge by lia. by rewrite (ch_valid _ Hch).
Qed.

(** A boundary is never far before a position. *)
Lemma boundary_near s : utf8_valid s = true -> forall k, k < length s -> exists j c, j <= k < j + 4 /\ s !! j = Some c /\ is_cont c = false.
Proof.
  revert s. refine (utf8_ind _ _ _).
  - simpl. lia.
  - intros ch rest Hch Hr IH k Hk. pose proof (char_length ch Hch) as Hl. destruct (decide (k < length ch)) as [Hlt|Hge].
    + destruct (ch_shape _ Hch) as (a & tl & -> & Ha & _). exists 0, a. split; [lia|]. done.
    + rewrite length_app in Hk. destruct (IH (k - length ch)) as (j & c & Hj & Hc & Hn); [lia|].
      exists (length ch + j), c. split; [lia|]. split; [|done]. rewrite lookup_app_r by lia. by rewrite Nat.add_comm, Nat.add_sub.
Qed.

(** ** ASCII and concatenation *)

Lemma ascii_utf8 s : forallb is_ascii s = true -> utf8_valid s = true.
Proof. induction s as [|c s IH]; [done|]. cbn [forallb utf8_valid]. intros [Hc Hs]%andb_true_iff. rewrite Hc. by apply IH. Qed.

Lemma utf8_ascii_app s t : forallb is_ascii s = true -> utf8_valid (s ++ t) = utf8_valid t.
Proof. induction s as [|c s IH]; [done|]. cbn [forallb utf8_valid app]. intros [Hc Hs]%andb_true_iff. rewrite Hc. by apply IH. Qed.

(** Text is text on both sides of an ASCII byte. *)
Lemma utf8_around s c t : is_ascii c = true -> utf8_valid (s ++ c :: t) = true -> utf8_valid s = true /\ utf8_valid t = true.
Proof.
  intros Hc Hv. destruct (utf8_cut _ Hv (length s)) as [H1 H2].
  - unfold is_char_boundary. rewrite lookup_app_r, Nat.sub_diag by lia. simpl.
    replace (is_cont c) with false by (revert Hc; by destruct c). by rewrite orb_true_r.
  - rewrite take_app_length in H1. rewrite drop_app_length in H2. simpl in H2. by rewrite Hc in H2.
Qed.

(** Text after text is text. *)
Lemma utf8_app s : utf8_valid s = true -> forall t, utf8_valid (s ++ t) = utf8_valid t.
Proof.
  revert s. refine (utf8_ind _ _ _); [done|]. intros ch rest Hch _ IH t. by rewrite <- app_assoc, (ch_valid ch Hch), IH.
Qed.
