(* ===== verification/Pattern.v ===== *)
(** * Wildcard patterns of access policies (crates/s3s-policy/src/pattern.rs)

    [PatternSet] holds the patterns of a policy statement; [match_pattern] is the iterative
    matcher with one backtracking point, as a step function on its four [usize] variables, with the
    places where it could panic: an index out of bounds and an overflow.
    The reference is the inductive relation [glob]. *)

From S2P Require Import Prelude.
From S2P Require Import Str.

(** ** The matcher *)

Inductive PatternError := InvalidPattern.

Record Pattern := { pattern_bytes : bytes }.
Record PatternSet := { patterns : list Pattern }.

Definition parse_pattern (pattern : bytes) : result PatternError Pattern :=
  match pattern with
  | [] => Err InvalidPattern
  | _ => Ok {| pattern_bytes := pattern |}
  end.

(** [patterns.into_iter().map(Self::parse_pattern).collect::<Result<_, _>>()?] *)
Fixpoint collect_patterns (ps : list bytes) : result PatternError (list Pattern) :=
  match ps with
  | [] => Ok []
  | p :: ps' => x ← parse_pattern p; xs ← collect_patterns ps'; Ok (x :: xs)
  end.

Definition PatternSet_new (ps : list bytes) : result PatternError PatternSet :=
  xs ← collect_patterns ps; Ok {| patterns := xs |}.

(** The local variables of [match_pattern]; the backtracking point starts at the sentinel
    [usize::MAX - 1]. *)
Record mstate := { p_idx : Z; s_idx : Z; p_back : Z; s_back : Z }.

Definition mstate_init : mstate :=
  {| p_idx := 0; s_idx := 0; p_back := usize_max - 1; s_back := usize_max - 1 |}.

Inductive mstep := Continue (st : mstate) | Return (r : bool).

(** [slice[i]] and [i + 1] on a [usize]: [None] is a panic. *)
Definition index (l : bytes) (i : Z) : option byte := if (i <? len l)%Z then l !! Z.to_nat i else None.
Definition succ (i : Z) : option Z := if (i + 1 <=? usize_max)%Z then Some (i + 1)%Z else None.

(** The end of the loop body: fall back to the last [*], or fail. *)
Definition backtrack (pattern input : bytes) (st : mstate) : option mstep :=
  if p_back st =? len pattern then Some (Return true)
  else
    next ← succ (s_back st);
    if (next <? len input)%Z then
      s_back ← succ (s_back st);
      Some (Continue {| p_idx := p_back st; s_idx := s_back; p_back := p_back st; s_back := s_back |})
    else Some (Return false).

(** One iteration of the [loop]. *)
Definition match_step (pattern input : bytes) (st : mstate) : option mstep :=
  if (p_idx st <? len pattern)%Z then
    p ← index pattern (p_idx st);
    if p =? "*"%byte then
      p_idx ← succ (p_idx st);
      Some (Continue {| p_idx := p_idx; s_idx := s_idx st; p_back := p_idx; s_back := s_idx st |})
    else if (s_idx st <? len input)%Z then
      c ← index input (s_idx st);
      if (p =? c) || (p =? "?"%byte) then
        p_idx ← succ (p_idx st);
        s_idx ← succ (s_idx st);
        Some (Continue {| p_idx := p_idx; s_idx := s_idx; p_back := p_back st; s_back := s_back st |})
      else backtrack pattern input st
    else backtrack pattern input st
  else if s_idx st =? len input then Some (Return true)
  else backtrack pattern input st.

Fixpoint match_loop (fuel : nat) (pattern input : bytes) (st : mstate) : option bool :=
  match fuel with
  | 0 => None
  | S n =>
      step ← match_step pattern input st;
      match step with
      | Return r => Some r
      | Continue st' => match_loop n pattern input st'
      end
  end.

(** Enough iterations for every run (see [match_loop_total]). *)
Definition match_fuel (pattern input : bytes) : nat :=
  (length input + 2) * (length pattern + 1).

Definition match_pattern (pattern input : bytes) : option bool :=
  match_loop (match_fuel pattern input) pattern input mstate_init.

Fixpoint any_match (ps : list Pattern) (input : bytes) : option bool :=
  match ps with
  | [] => Some false
  | p :: ps' => r ← match_pattern (pattern_bytes p) input;
                if (r : bool) then Some true else any_match ps' input
  end.

Definition is_match (set : PatternSet) (input : bytes) : option bool :=
  any_match (patterns set) input.

(** ** The reference semantics *)

(** [*] matches any sequence of bytes, [?] any single byte, every other byte itself. *)
Inductive glob : bytes -> bytes -> Prop :=
| glob_nil : glob [] []
| glob_star_end p s : glob p s -> glob ("*"%byte :: p) s
| glob_star_more p c s : glob ("*"%byte :: p) s -> glob ("*"%byte :: p) (c :: s)
| glob_any p c s : glob p s -> glob ("?"%byte :: p) (c :: s)
| glob_lit p c s : c <> "*"%byte -> glob p s -> glob (c :: p) (c :: s).

#[export] Hint Constructors glob : rust.

(** ** Facts about [glob] *)

Lemma glob_nil_l s : glob [] s <-> s = [].
Proof. split; [by inversion 1|intros ->; constructor]. Qed.

Lemma glob_nonstar_nil c p : c <> "*"%byte -> ~ glob (c :: p) [].
Proof. intros Hc H. by inversion H. Qed.

Lemma glob_nonstar_cons p c q s :
  p <> "*"%byte -> glob (p :: q) (c :: s) <-> (p = c \/ p = "?"%byte) /\ glob q s.
Proof.
  intros Hp. split.
  - intros H. inversion H; subst; try done; auto.
  - intros [[->| ->] H]; auto with rust.
Qed.

Lemma glob_star_skip p s t : glob ("*"%byte :: p) t -> glob ("*"%byte :: p) (s ++ t).
Proof. intros H. induction s; simpl; auto with rust. Qed.

Lemma glob_star_iff p s : glob ("*"%byte :: p) s <-> exists k, k <= length s /\ glob p (drop k s).
Proof.
  split.
  - remember ("*"%byte :: p) as q eqn:E. intros H. revert p E.
    induction H as [|q s H IH|q c s H IH|q c s H IH|q c s Hc H IH]; intros p' E; simplify_eq.
    + exists 0. split; [lia|done].
    + destruct (IH _ eq_refl) as (k & Hk & Hg). exists (S k). simpl. split; [lia|done].
  - intros (k & Hk & Hg). rewrite <- (take_drop k s). apply glob_star_skip. by constructor.
Qed.

(** A star-free segment consumes exactly its own length. *)
Lemma glob_segment seg q s :
  "*"%byte ∉ seg -> glob (seg ++ q) s -> length seg <= length s /\ glob q (drop (length seg) s).
Proof.
  revert s. induction seg as [|c seg IH]; intros s Hs Hg; simpl in *; [by split; [lia|rewrite drop_0]|].
  apply not_elem_of_cons in Hs as [Hc Hs].
  destruct s as [|d s]; [by apply glob_nonstar_nil in Hg|].
  apply glob_nonstar_cons in Hg as [_ Hg]; [|done].
  destruct (IH _ Hs Hg). simpl. split; [lia|done].
Qed.

(** ** The loop invariant *)

Section Loop.
Context (pat inp : bytes).
Context (Hlpat : (len pat <= isize_max)%Z) (Hlinp : (len inp <= isize_max)%Z).

(** Before the first [*] there is nothing to fall back to; afterwards, the pattern read since
    the last [*] is star-free and has consumed as many bytes as it has. *)
Inductive backpoint (pi si : nat) (st : mstate) : option (nat * nat) -> Prop :=
| bp_none : p_back st = (usize_max - 1)%Z -> s_back st = (usize_max - 1)%Z -> backpoint pi si st None
| bp_some pb sb :
    p_back st = Z.of_nat pb -> s_back st = Z.of_nat sb ->
    pb <= pi -> sb <= si -> si - sb = pi - pb ->
    (forall j, pb <= j < pi -> pat !! j <> Some "*"%byte) ->
    backpoint pi si st (Some (pb, sb)).

Definition fallback (bp : option (nat * nat)) : Prop :=
  match bp with
  | None => False
  | Some (pb, sb) => exists k, sb < k <= length inp /\ glob (drop pb pat) (drop k inp)
  end.

Definition minv (st : mstate) : Prop :=
  exists pi si bp,
    p_idx st = Z.of_nat pi /\ s_idx st = Z.of_nat si /\ pi <= length pat /\ si <= length inp /\
    backpoint pi si st bp /\
    (glob pat inp <-> glob (drop pi pat) (drop si inp) \/ fallback bp).

Definition eff_back (st : mstate) : Z :=
  if s_back st =? (usize_max - 1)%Z then (-1)%Z else s_back st.

(** Decreases at every iteration. *)
Definition measure (st : mstate) : Z :=
  ((len inp - eff_back st) * (len pat + 1) + (len pat - p_idx st))%Z.

Definition step_ok (st : mstate) (r : option mstep) : Prop :=
  match r with
  | Some (Continue st') => minv st' /\ (0 <= measure st' < measure st)%Z
  | Some (Return r) => Is_true r <-> glob pat inp
  | None => False
  end.

Lemma index_ok l i c : l !! i = Some c -> index l (Z.of_nat i) = Some c.
Proof.
  intros E. unfold index, len. pose proof (lookup_lt_Some _ _ _ E). rewrite (proj2 (Z.ltb_lt _ _)) by lia. by rewrite Nat2Z.id.
Qed.

Lemma succ_ok i : (i <= usize_max - 1)%Z -> succ i = Some (i + 1)%Z.
Proof. intros Hi. unfold succ. by rewrite (proj2 (Z.leb_le _ _)) by lia. Qed.

Lemma lens_small : (len pat < usize_max - 1)%Z /\ (len inp < usize_max - 1)%Z.
Proof. unfold usize_max, isize_max in *. lia. Qed.

Lemma minv_init : minv mstate_init.
Proof.
  exists 0, 0, None. simpl. split_and!; try done; try lia.
  - by constructor.
  - rewrite !drop_0. split; [by left|by intros [|]].
Qed.

(** Reading a [*] moves the fallback point here: what the older one could still match, the new
    one can. *)
Lemma star_step pi si st bp :
  p_idx st = Z.of_nat pi -> s_idx st = Z.of_nat si -> pi <= length pat -> si <= length inp ->
  backpoint pi si st bp -> pat !! pi = Some "*"%byte ->
  (glob pat inp <-> glob (drop pi pat) (drop si inp) \/ fallback bp) ->
  glob pat inp <-> glob (drop (pi + 1) pat) (drop si inp) \/ fallback (Some (pi + 1, si)).
Proof.
  intros Hpi Hsi Hp Hs Hbp Hstar ->.
  assert (Hnow : glob (drop pi pat) (drop si inp) <->
                 glob (drop (pi + 1) pat) (drop si inp) \/ fallback (Some (pi + 1, si))).
  { rewrite (drop_S _ _ _ Hstar), glob_star_iff. rewrite Nat.add_1_r. split.
    - intros (k & Hk & Hg). rewrite drop_drop in Hg. rewrite length_drop in Hk.
      destruct k as [|k]; [left; by rewrite Nat.add_0_r in Hg|].
      right. exists (si + S k). split; [lia|done].
    - intros [Hg|(k & Hk & Hg)].
      + exists 0. rewrite drop_0. split; [lia|done].
      + exists (k - si). rewrite length_drop, drop_drop. split; [lia|].
        by replace (si + (k - si)) with k by lia. }
  rewrite <- Hnow. split; [|by left].
  intros [Hg|Hf]; [done|]. destruct Hbp as [? ?|pb sb _ _ Hpb Hsb Heq Hns]; [done|].
  destruct Hf as (k & Hk & Hg).
  assert (Hseg : drop pb pat = take (pi - pb) (drop pb pat) ++ drop pi pat).
  { rewrite <- (take_drop (pi - pb) (drop pb pat)) at 1. rewrite drop_drop.
    by replace (pb + (pi - pb)) with pi by lia. }
  rewrite Hseg in Hg. apply glob_segment in Hg as [Hl Hg].
  - rewrite length_take, length_drop, Nat.min_l in Hg, Hl by lia. rewrite drop_drop in Hg.
    rewrite (drop_S _ _ _ Hstar) in Hg |- *.
    replace (drop si inp) with (take (k + (pi - pb) - si) (drop si inp) ++ drop (k + (pi - pb)) inp).
    { by apply glob_star_skip. }
    rewrite <- (take_drop (k + (pi - pb) - si) (drop si inp)) at 2. rewrite drop_drop.
    f_equal. f_equal. lia.
  - intros Hin. apply list_elem_of_lookup in Hin as (j & Hj).
    apply lookup_take_Some in Hj as [Hj Hlt]. rewrite lookup_drop in Hj.
    apply (Hns (pb + j)); [lia|done].
Qed.

Lemma eff_back_range pi si st bp :
  si <= length inp -> backpoint pi si st bp -> (-1 <= eff_back st <= len inp)%Z.
Proof.
  intros Hs Hbp. unfold eff_back. destruct lens_small as [_ Hl]. unfold len in *.
  destruct Hbp as [Hpb Hsb|pb sb Hpb Hsb ? ? ? ?]; rewrite Hsb; case_bool_decide; lia.
Qed.

Lemma measure_nonneg pi si st bp :
  p_idx st = Z.of_nat pi -> pi <= length pat -> si <= length inp -> backpoint pi si st bp ->
  (0 <= measure st)%Z.
Proof.
  intros Hpi Hp Hs Hbp. pose proof (eff_back_range _ _ _ _ Hs Hbp).
  unfold measure. rewrite Hpi. unfold len in *. nia.
Qed.

(** The mismatch branch: every attempt from the current point has failed. *)
Lemma backtrack_ok pi si st bp :
  p_idx st = Z.of_nat pi -> s_idx st = Z.of_nat si -> pi <= length pat -> si <= length inp ->
  backpoint pi si st bp -> (glob pat inp <-> fallback bp) ->
  (pi = length pat -> si <> length inp) ->
  (forall p, pat !! pi = Some p -> p <> "*"%byte) ->
  step_ok st (backtrack pat inp st).
Proof.
  intros Hpi Hsi Hp Hs Hbp Hg Hend Hns. unfold backtrack. destruct lens_small as [HlP HlS].
  unfold len in *. destruct Hbp as [Hpb Hsb|pb sb Hpb Hsb Hle Hle' Heq Hseg]; rewrite ?Hpb, ?Hsb.
  { rewrite bool_decide_eq_false_2 by lia. rewrite succ_ok by lia. cbn [mbind option_bind]. rewrite (proj2 (Z.ltb_ge _ _)) by lia. simpl. tauto. }
  case_bool_decide as Hfull.
  { simpl. rewrite Hg. split; [|done]. intros _. exists (length inp).
    rewrite !drop_ge by lia. split; [lia|constructor]. }
  assert (Hfirst : exists p, pat !! pb = Some p /\ p <> "*"%byte).
  { destruct (lookup_lt_is_Some_2 pat pb) as [p E]; [lia|]. exists p. split; [done|].
    destruct (decide (pb = pi)) as [->|]; [by apply Hns|].
    intros ->. apply (Hseg pb); [lia|done]. }
  destruct Hfirst as (p & Hpat & Hnp). simpl in Hg. rewrite succ_ok by lia. cbn [mbind option_bind].
  destruct (Z.ltb_spec (Z.of_nat sb + 1) (Z.of_nat (length inp))) as [Hlt|Hge]; simpl.
  - split.
    + exists pb, (sb + 1), (Some (pb, sb + 1)). simpl. split_and!; try lia.
      * constructor; simpl; try lia.
      * rewrite Hg. split.
        -- intros (k & Hk & Hgk). destruct (decide (k = sb + 1)) as [->|]; [by left|].
           right. exists k. split; [lia|done].
        -- intros [Hgk|(k & Hk & Hgk)]; eexists; (split; [|exact Hgk]); lia.
    + unfold measure, eff_back, len. simpl. rewrite Hpi, Hsb.
      rewrite !bool_decide_eq_false_2 by lia. nia.
  - split; [done|]. rewrite Hg. intros (k & Hk & Hgk). exfalso.
    assert (k = length inp) as -> by lia.
    rewrite drop_all, (drop_S _ _ _ Hpat) in Hgk. by apply glob_nonstar_nil in Hgk.
Qed.

Lemma match_step_ok st : minv st -> step_ok st (match_step pat inp st).
Proof.
  intros (pi & si & bp & Hpi & Hsi & Hp & Hs & Hbp & Hg).
  unfold match_step. rewrite Hpi, Hsi. unfold len at 1. destruct lens_small as [HlP HlS].
  destruct (Z.ltb_spec (Z.of_nat pi) (Z.of_nat (length pat))) as [Hlt|Hge].
  - destruct (lookup_lt_is_Some_2 pat pi) as [p Hpat]; [lia|]. rewrite (index_ok _ _ _ Hpat). cbn [mbind option_bind].
    rewrite !succ_ok by (unfold len in *; lia). case_bool_decide as Hstar.
    + subst p. split.
      * exists (pi + 1), si, (Some (pi + 1, si)). simpl. split_and!; try lia.
        -- constructor; simpl; lia.
        -- by eapply star_step.
      * unfold measure, eff_back, len. simpl. rewrite Hpi. destruct lens_small. unfold len in *.
        rewrite (bool_decide_eq_false_2 (Z.of_nat si = _)) by lia.
        destruct Hbp as [? Hsb|pb sb ? Hsb ? ? ? ?]; rewrite Hsb.
        -- rewrite bool_decide_eq_true_2 by done. nia.
        -- rewrite bool_decide_eq_false_2 by lia. nia.
    + assert (Hbk : ~ glob (drop pi pat) (drop si inp) -> step_ok st (backtrack pat inp st)).
      { intros Hno. eapply backtrack_ok; eauto; [tauto|lia|]. intros q Hq. congruence. }
      destruct (Z.ltb_spec (Z.of_nat si) (len inp)) as [Hlt'|Hge'].
      2:{ apply Hbk. rewrite (drop_S _ _ _ Hpat), (drop_ge inp) by (unfold len in *; lia).
          by apply glob_nonstar_nil. }
      destruct (lookup_lt_is_Some_2 inp si) as [c Hc]; [unfold len in *; lia|]. rewrite (index_ok _ _ _ Hc). cbn [mbind option_bind].
      pose proof (glob_nonstar_cons p c (drop (S pi) pat) (drop (S si) inp) Hstar) as Hone.
      rewrite <- (drop_S _ _ _ Hpat), <- (drop_S _ _ _ Hc) in Hone.
      destruct ((p =? c) || (p =? "?"%byte)) eqn:Ht.
      * apply orb_true_iff in Ht. rewrite !bool_decide_eq_true in Ht. split.
        -- exists (pi + 1), (si + 1), bp. simpl. unfold len in Hlt'. split_and!; try lia.
           ++ destruct Hbp as [? ?|pb sb ? ? ? ? ? Hseg]; constructor; simpl; try lia.
              intros j Hj. destruct (decide (j = pi)) as [->|]; [congruence|apply Hseg; lia].
           ++ rewrite !Nat.add_1_r. tauto.
        -- pose proof (eff_back_range _ _ _ _ Hs Hbp) as He.
           unfold measure. rewrite Hpi. unfold eff_back in *. simpl. unfold len in *. nia.
      * apply Hbk. rewrite Hone. apply orb_false_iff in Ht. rewrite !bool_decide_eq_false in Ht. tauto.
  - assert (pi = length pat) as -> by lia. rewrite (drop_ge pat) in Hg by lia.
    rewrite glob_nil_l in Hg. case_bool_decide as Hend.
    + simpl. unfold len in Hend. rewrite Hg. split; [|done]. intros _. left. apply drop_ge. lia.
    + eapply backtrack_ok; eauto.
      * rewrite Hg. split; [|tauto]. intros [H|]; [|done]. exfalso.
        apply (f_equal length) in H. rewrite length_drop in H. simpl in H. unfold len in Hend. lia.
      * intros _ ->. by apply Hend.
      * intros p E. apply lookup_lt_Some in E. lia.
Qed.

(** Enough fuel always gives a result, and the right one. *)
Lemma match_loop_total fuel st :
  minv st -> (measure st < Z.of_nat fuel)%Z ->
  exists r, match_loop fuel pat inp st = Some r /\ (Is_true r <-> glob pat inp).
Proof.
  revert st. induction fuel as [|fuel IH]; intros st Hinv Hm.
  - destruct Hinv as (pi & si & bp & Hpi & ? & ? & ? & Hbp & _).
    pose proof (measure_nonneg pi si st bp Hpi ltac:(done) ltac:(done) Hbp). lia.
  - simpl. pose proof (match_step_ok st Hinv) as Hok.
    destruct (match_step pat inp st) as [[st'|r]|]; [..|done]; simpl in Hok |- *.
    + destruct Hok as [Hinv' Hm']. apply IH; [done|lia].
    + eauto.
Qed.

Lemma match_pattern_total : exists r, match_pattern pat inp = Some r /\ (Is_true r <-> glob pat inp).
Proof.
  apply match_loop_total; [apply minv_init|].
  unfold measure, eff_back, match_fuel, mstate_init, len; simpl. nia.
Qed.
End Loop.

(** ** Properties *)

(** C6: for every pattern and input that fit in memory, [match_pattern] terminates, no index is out
    of bounds and no addition overflows, and it returns [true] exactly when the bytes of the input
    match the pattern in the reference semantics [glob], where [*] stands for any bytes and [?] for
    any single byte. *)
Theorem match_pattern_correct (pattern input : bytes) :
  (len pattern <= isize_max)%Z -> (len input <= isize_max)%Z ->
  exists r, match_pattern pattern input = Some r /\ (Is_true r <-> glob pattern input).
Proof. apply match_pattern_total. Qed.

Lemma match_pattern_correct_witness :
  exists r, match_pattern (str "s3:Get*/?b*") (str "s3:GetObject/abc") = Some r /\
            (Is_true r <-> glob (str "s3:Get*/?b*") (str "s3:GetObject/abc")).
Proof. apply match_pattern_correct; vm_compute; congruence. Defined.

(** A character of several bytes needs as many question marks. *)
Example any_is_a_byte : match_pattern (str "?") [xc3; xa9] = Some false /\ match_pattern (str "??") [xc3; xa9] = Some true.
Proof. vm_compute. done. Qed.

Lemma collect_patterns_Ok ps xs :
  collect_patterns ps = Ok xs <-> ps = map pattern_bytes xs /\ [] ∉ ps.
Proof.
  revert xs. induction ps as [|p ps IH]; intros xs; simpl.
  { split; [by intros [= <-]; split; [|apply not_elem_of_nil]|by intros [? _]; destruct xs]. }
  destruct p as [|c p]; simpl.
  { split; [done|]. intros [_ H]. apply not_elem_of_cons in H as [H _]. done. }
  destruct (collect_patterns ps) as [ys|e] eqn:E; simpl; rewrite not_elem_of_cons.
  - destruct (proj1 (IH ys) eq_refl) as [-> Hn]. split.
    + by intros [= <-].
    + intros [H _]. destruct xs as [|[x] xs]; simpl in *; [done|].
      injection H as <- H. assert (@Ok PatternError _ ys = Ok xs) by (by apply IH). congruence.
  - split; [done|]. intros [H [_ Hn]]. destruct xs as [|x xs]; [done|]. injection H as _ H.
    pose proof (proj2 (IH xs) (conj H Hn)). congruence.
Qed.

(** A pattern set is built exactly when no pattern is empty, and then [is_match] terminates
    and returns [true] exactly when some pattern of the list matches the input. *)
Theorem pattern_set_correct (ps : list bytes) (input : bytes) :
  Forall (fun p => (len p <= isize_max)%Z) ps -> (len input <= isize_max)%Z ->
  match PatternSet_new ps with
  | Err InvalidPattern => [] ∈ ps
  | Ok set => ([] ∉ ps) /\ exists r, is_match set input = Some r /\
                (Is_true r <-> exists p, p ∈ ps /\ glob p input)
  end.
Proof.
  intros Hps Hin. unfold PatternSet_new. destruct (collect_patterns ps) as [xs|[]] eqn:E; simpl.
  - apply collect_patterns_Ok in E as [-> Hne]. split; [done|]. unfold is_match. simpl. clear Hne.
    induction xs as [|[p] xs IH]; simpl in *.
    { exists false. split; [done|]. split; [done|]. intros (p & Hp & _). by apply elem_of_nil in Hp. }
    apply Forall_cons in Hps as [Hp Hps].
    destruct (match_pattern_total p input Hp Hin) as (r & -> & Hr). simpl. destruct r.
    + exists true. split; [done|]. split; [|done]. intros _. exists p.
      rewrite elem_of_cons. split; [by left|by apply Hr].
    + destruct (IH Hps) as (r & -> & Hr'). exists r. split; [done|]. rewrite Hr'.
      split; intros (q & Hq & Hg); exists q; rewrite elem_of_cons in *; [tauto|].
      destruct Hq as [->|Hq]; [|tauto]. by apply Hr in Hg.
  - destruct (decide ([] ∈ ps)) as [|Hn]; [done|]. exfalso.
    assert (Hok : collect_patterns ps = Ok (map Build_Pattern ps)).
    { apply collect_patterns_Ok. split; [|done]. rewrite map_map. simpl. by rewrite map_id. }
    congruence.
Qed.

Lemma pattern_set_correct_witness :
  exists set, PatternSet_new [str "arn:*"; str "x?z"] = Ok set /\ is_match set (str "xyz") = Some true.
Proof.
  pose proof (pattern_set_correct [str "arn:*"; str "x?z"] (str "xyz")) as H.
  eexists. split; [reflexivity|].
  destruct H as [_ (r & Hr & Hiff)]; [repeat constructor; vm_compute; congruence|vm_compute; congruence|].
  rewrite Hr. f_equal. apply Is_true_true, Hiff. exists (str "x?z"). split; [by right; left|].
  apply glob_lit; [done|]. apply glob_any. apply glob_lit; [done|]. constructor.
Defined.
