(* ===== verification/PolicyModel.v ===== *)
(** * Policy documents (crates/s3s-policy/src/model.rs)

    The types of a policy document and the serialization that the crate writes itself: the values
    that may be one or several, those that may be a wildcard, and principals.  A document is a value
    of the data model of serde, [Content]; how such values are read from JSON text and written to it
    is serde_json's.  The serialization of the other types is derived by serde, and is left out.

    - [Wire] is a type with its two traits, [Serialize] and [Deserialize].
    - [IndexMap] keeps the order in which its keys were first inserted. *)

From stdpp Require Import list.
From S2P Require Import Prelude.
From S2P Require Import Str.

(** ** Data *)

Inductive OneOrMore (T : Type) :=
| One (t : T)
| More (ts : list T).
Arguments One {T}.
Arguments More {T}.

Inductive WildcardOneOrMore (T : Type) :=
| WWildcard
| WOne (t : T)
| WMore (ts : list T).
Arguments WWildcard {T}.
Arguments WOne {T}.
Arguments WMore {T}.

(** A map with the order of its insertions. *)
Definition IndexMap (V : Type) : Type := list (bytes * V).

(** [insert]: a key that is there keeps its place. *)
Fixpoint index_map_insert {V} (m : IndexMap V) (k : bytes) (v : V) : IndexMap V :=
  match m with
  | [] => [(k, v)]
  | (k', v') :: m' => if k' =? k then (k', v) :: m' else (k', v') :: index_map_insert m' k v
  end.

Inductive Version := V2012_10_17 | V2008_10_17.
Inductive Effect := Allow | Deny.

Inductive Principal :=
| PrincipalWildcard
| PrincipalMap (map : IndexMap (OneOrMore bytes)).

Inductive PrincipalRule := IsPrincipal (p : Principal) | NotPrincipal (p : Principal).
Inductive ActionRule := IsAction (l : WildcardOneOrMore bytes) | NotAction (l : WildcardOneOrMore bytes).
Inductive ResourceRule := IsResource (l : WildcardOneOrMore bytes) | NotResource (l : WildcardOneOrMore bytes).

Record ConditionKeyValues := { key_values : IndexMap (OneOrMore bytes) }.
Record ConditionRule := { condition_operators : IndexMap ConditionKeyValues }.

Record Statement := {
  sid : option bytes;
  principal : option PrincipalRule;
  effect : Effect;
  action : ActionRule;
  resource : ResourceRule;
  condition : option ConditionRule
}.

Record PolicyDocument := {
  policy_version : option Version;
  policy_id : option bytes;
  policy_statement : OneOrMore Statement
}.

(** ** The data model of serde *)

Inductive Content :=
| CUnit
| CBool (b : bool)
| CNumber (text : bytes)
| CStr (s : bytes)
| CSeq (l : list Content)
| CMap (l : list (bytes * Content)).

(** [Serialize] and [Deserialize]; [None] is an error. *)
Class Wire (T : Type) := {
  serialize : T -> Content;
  deserialize : Content -> option T
}.

#[export] Instance String_wire : Wire bytes :=
  {| serialize := CStr; deserialize := fun c => match c with CStr s => Some s | _ => None end |}.

#[export] Instance Vec_wire {T} `{Wire T} : Wire (list T) :=
  {| serialize := fun ts => CSeq (map serialize ts);
     deserialize := fun c => match c with CSeq l => mapM deserialize l | _ => None end |}.

(** The entries are inserted one after the other. *)
Fixpoint insert_entries {V} `{Wire V} (m : IndexMap V) (l : list (bytes * Content)) : option (IndexMap V) :=
  match l with
  | [] => Some m
  | (k, c) :: l' => v ← deserialize c; insert_entries (index_map_insert m k v) l'
  end.

#[export] Instance IndexMap_wire {V} `{Wire V} : Wire (IndexMap V) :=
  {| serialize := fun m => CMap (map (prod_map id serialize) m);
     deserialize := fun c => match c with CMap l => insert_entries [] l | _ => None end |}.

(** ** The serialization of the crate *)

Section Lists.
Context {T : Type} `{Wire T}.

Definition one_or_more_serialize (self : OneOrMore T) : Content :=
  match self with One t => serialize t | More ts => serialize ts end.

(** The visitor has [visit_str], [visit_map] and [visit_seq]. *)
Definition one_or_more_deserialize (c : Content) : option (OneOrMore T) :=
  match c with
  | CStr _ | CMap _ => One <$> deserialize c
  | CSeq _ => More <$> deserialize c
  | _ => None
  end.

Definition wildcard_serialize (self : WildcardOneOrMore T) : Content :=
  match self with WWildcard => CStr (str "*") | WOne t => serialize t | WMore ts => serialize ts end.

(** The visitor has [visit_str] and [visit_seq]. *)
Definition wildcard_deserialize (c : Content) : option (WildcardOneOrMore T) :=
  match c with
  | CStr value => if value =? str "*" then Some WWildcard else WOne <$> deserialize c
  | CSeq _ => WMore <$> deserialize c
  | _ => None
  end.

Definition wildcard_from (value : OneOrMore T) : WildcardOneOrMore T :=
  match value with One t => WOne t | More ts => WMore ts end.

Definition one_or_more_as_slice (self : OneOrMore T) : list T :=
  match self with One t => [t] | More ts => ts end.
Definition wildcard_as_slice (self : WildcardOneOrMore T) : option (list T) :=
  match self with WWildcard => None | WOne t => Some [t] | WMore ts => Some ts end.

(** A write through [as_mut_slice], which keeps the length. *)
Definition one_or_more_as_mut_slice (self : OneOrMore T) (i : nat) (t : T) : option (OneOrMore T) :=
  match self with
  | One _ => match i with 0 => Some (One t) | _ => None end
  | More ts => if (i <? length ts)%nat then Some (More (<[i := t]> ts)) else None
  end.
Definition wildcard_as_mut_slice (self : WildcardOneOrMore T) (i : nat) (t : T) : option (WildcardOneOrMore T) :=
  match self with
  | WWildcard => None
  | WOne _ => match i with 0 => Some (WOne t) | _ => None end
  | WMore ts => if (i <? length ts)%nat then Some (WMore (<[i := t]> ts)) else None
  end.
End Lists.

#[export] Instance OneOrMore_wire {T} `{Wire T} : Wire (OneOrMore T) :=
  {| serialize := one_or_more_serialize; deserialize := one_or_more_deserialize |}.
#[export] Instance WildcardOneOrMore_wire {T} `{Wire T} : Wire (WildcardOneOrMore T) :=
  {| serialize := wildcard_serialize; deserialize := wildcard_deserialize |}.

Definition principal_serialize (self : Principal) : Content :=
  match self with PrincipalWildcard => CStr (str "*") | PrincipalMap map => serialize map end.
Definition principal_deserialize (c : Content) : option Principal :=
  match c with
  | CStr value => if value =? str "*" then Some PrincipalWildcard else None
  | CMap _ => PrincipalMap <$> deserialize c
  | _ => None
  end.
#[export] Instance Principal_wire : Wire Principal := {| serialize := principal_serialize; deserialize := principal_deserialize |}.

(** ** What is read back *)

(** A type whose values are read back when they are written, as [P] says which. *)
Definition faithful {T} `{Wire T} (P : T -> Prop) : Prop := forall t, P t -> deserialize (serialize t) = Some t.

(** A type whose values are written as text or as maps, never as sequences. *)
Class Single (T : Type) `{Wire T} := single_written : forall t, match serialize t with CStr _ | CMap _ => True | _ => False end.
#[export] Instance String_single : Single bytes.
Proof. done. Qed.

Lemma string_faithful : faithful (fun _ : bytes => True).
Proof. done. Qed.

Lemma vec_faithful {T} `{Wire T} (P : T -> Prop) : faithful P -> faithful (Forall P).
Proof. intros HP ts Hts. cbn. induction Hts as [|t ts Ht _ IH]; [done|]. cbn in *. by rewrite (HP t Ht), IH. Qed.

Lemma insert_fresh {V} (m : IndexMap V) k v : k ∉ map fst m -> index_map_insert m k v = m ++ [(k, v)].
Proof.
  induction m as [|[k' v'] m IH]; [done|]. cbn. intros [Hk Hm]%not_elem_of_cons.
  case_bool_decide; [by subst|]. by rewrite IH.
Qed.

Lemma insert_entries_written {V} `{Wire V} (P : V -> Prop) (l m : IndexMap V) : faithful P -> Forall (fun e => P (snd e)) l ->
  NoDup (map fst (m ++ l)) -> insert_entries m (map (prod_map id serialize) l) = Some (m ++ l).
Proof.
  intros HP Hl. revert m. induction Hl as [|[k v] l Hv _ IH]; intros m Hd; cbn [map insert_entries]; [by rewrite app_nil_r|]. cbn.
  rewrite (HP v Hv). cbn. rewrite map_app in Hd. cbn [map fst] in Hd. pose proof Hd as (_ & Hm & _)%NoDup_app.
  rewrite insert_fresh by (intros Hin; apply (Hm _ Hin); left). rewrite IH; rewrite <- app_assoc; [done|]. by rewrite map_app.
Qed.

Lemma index_map_faithful {V} `{Wire V} (P : V -> Prop) : faithful P ->
  faithful (fun m : IndexMap V => NoDup (map fst m) /\ Forall (fun e => P (snd e)) m).
Proof. intros HP m [Hd Hm]. cbn. exact (insert_entries_written P m [] HP Hm Hd). Qed.

Definition all_of {T} (P : T -> Prop) (x : OneOrMore T) : Prop := Forall P (one_or_more_as_slice x).

Lemma one_or_more_faithful {T} `{Single T} (P : T -> Prop) : faithful P -> faithful (all_of P).
Proof.
  intros HP [t|ts] Hx; unfold all_of in Hx; cbn.
  - apply Forall_cons_1 in Hx as [Hx _]. pose proof (single_written t) as Hs. unfold one_or_more_deserialize. rewrite (HP t Hx). by destruct (serialize t).
  - pose proof (vec_faithful P HP ts Hx) as E. cbn in E. by rewrite E.
Qed.

(** A principal is read back as it was written. *)
Theorem principal_round_trip (p : Principal) :
  match p with PrincipalMap m => NoDup (map fst m) | PrincipalWildcard => True end -> deserialize (serialize p) = Some p.
Proof.
  destruct p as [|m]; intros Hd; [done|]. cbn [serialize deserialize Principal_wire principal_serialize principal_deserialize].
  assert (Hall : Forall (fun e : bytes * OneOrMore bytes => all_of (fun _ => True) (snd e)) m).
  { apply Forall_true. intros [k [t|ts]]; by apply Forall_true. }
  pose proof (index_map_faithful _ (one_or_more_faithful _ string_faithful) m (conj Hd Hall)) as E. cbn in E. cbn. by rewrite E.
Qed.

(** What a wildcard list is read back as: one text that is an asterisk is the wildcard. *)
Definition merged (x : WildcardOneOrMore bytes) : WildcardOneOrMore bytes :=
  match x with WOne t => if t =? str "*" then WWildcard else x | _ => x end.

(** A list of actions or resources is read back as it was written, but for a list of the one text
    that is the wildcard; what is read is never that list. *)
Theorem wildcard_round_trip (x : WildcardOneOrMore bytes) :
  deserialize (serialize x) = Some (merged x) /\ forall c, deserialize c = Some x -> merged x = x.
Proof.
  split.
  - destruct x as [|t|ts]; [done|cbn -[bool_decide str]; by case_bool_decide|].
    pose proof (vec_faithful _ string_faithful ts ltac:(by apply Forall_true)) as E. cbn in E. cbn. by rewrite E.
  - intros [| | |s|l|l]; cbn -[bool_decide str]; try done.
    + case_bool_decide; intros [= <-]; [done|]. cbn -[bool_decide str]. by rewrite bool_decide_eq_false_2.
    + destruct (mapM _ l); [|done]. by intros [= <-].
Qed.

(** Which documents are one or several values, and which values they are: text or a map is one value,
    a sequence is its values in order, and anything else is refused. *)
Theorem one_or_more_accepts {T} `{Wire T} (c : Content) (x : OneOrMore T) :
  deserialize c = Some x <->
  match c, x with
  | (CStr _ | CMap _), One t => deserialize c = Some t
  | CSeq l, More ts => Forall2 (fun c t => deserialize c = Some t) l ts
  | _, _ => False
  end.
Proof.
  destruct c as [| | |s|l|l]; cbn; try (split; [done|by destruct x]).
  - destruct (deserialize (CStr s)) as [t|]; destruct x; cbn; naive_solver.
  - rewrite fmap_Some. destruct x as [t|ts]; [naive_solver|]. rewrite <- mapM_Some. naive_solver.
  - destruct (deserialize (CMap l)) as [t|]; destruct x; cbn; naive_solver.
Qed.

(** The conversion to a list that may be a wildcard keeps the values, and the wildcard is none of them. *)
Theorem wildcard_from_slice {T} (x : OneOrMore T) : wildcard_as_slice (wildcard_from x) = Some (one_or_more_as_slice x).
Proof. by destruct x. Qed.

(** A write through the mutable slice is a write of the slice. *)
Theorem as_mut_slice_writes {T} (x : OneOrMore T) (i : nat) (t : T) :
  one_or_more_as_slice <$> one_or_more_as_mut_slice x i t =
  (if (i <? length (one_or_more_as_slice x))%nat then Some (<[i := t]> (one_or_more_as_slice x)) else None) /\
  (wildcard_as_mut_slice (wildcard_from x) i t) = wildcard_from <$> one_or_more_as_mut_slice x i t.
Proof. destruct x as [u|ts]; cbn -[Nat.ltb]; [by destruct i|]. by destruct (i <? length ts)%nat. Qed.

(** A principal of the documentation is read; a name that is not the wildcard is refused. *)
Example principals_read :
  deserialize (CMap [(str "AWS", CSeq [CStr (str "a"); CStr (str "b")]); (str "Service", CStr (str "s"))]) =
    Some (PrincipalMap [(str "AWS", More [str "a"; str "b"]); (str "Service", One (str "s"))]) /\
  deserialize (T := Principal) (CStr (str "alice")) = None.
Proof. done. Qed.
