(* ===== verification/OrderedQs.v ===== *)
(** * Ordered query strings (crates/s3s/src/http/ordered_qs.rs)

    [OrderedQs] keeps the decoded query pairs in a stable order by name, so that lookups can
    binary-search.  The URL decoding is the [serde_urlencoded] crate, a parameter. *)

From S2P Require Import Prelude.
From S2P Require Import Str.

(** ** The standard library's binary searches

    On a slice partitioned by [pred] (every element satisfying it first), which is what the
    callers establish, [partition_point] is the length of that first part, and
    [binary_search_by_key] succeeds when the key is present. *)

Fixpoint partition_point {A} (pred : A -> bool) (l : list A) : nat :=
  match l with
  | [] => 0
  | x :: l' => if pred x then S (partition_point pred l') else 0
  end.

Definition binary_search_is_ok {A} (key : A -> bytes) (l : list A) (name : bytes) : bool :=
  existsb (fun x => key x =? name) l.

(** ** The container *)

Abbreviation pair := (bytes * bytes)%type (only parsing).

Record OrderedQs := { qs : list pair }.

Inductive QsLookup := Absent | Single (v : bytes) | Duplicate.

(** [utils::stable_sort_by_first] *)
Definition stable_sort_by_first (v : list pair) : list pair := sort_by_key fst v.

Definition OrderedQs_parse {E} (serde_urlencoded_from_str : bytes -> result E (list pair))
    (query : bytes) : result E OrderedQs :=
  v ← serde_urlencoded_from_str query;
  Ok {| qs := stable_sort_by_first v |}.

Definition has (q : OrderedQs) (name : bytes) : bool :=
  binary_search_is_ok fst (qs q) name.

Definition get_all (q : OrderedQs) (name : bytes) : list bytes :=
  let lower_bound := partition_point (fun x => bytes_ltb (fst x) name) (qs q) in
  let upper_bound := partition_point (fun x => bytes_leb (fst x) name) (qs q) in
  map snd (take (upper_bound - lower_bound) (drop lower_bound (qs q))).

(** The same lookup is used on the query pairs of SigV2 ([get_unique_qs]). *)
Definition get_unique_in (l : list pair) (name : bytes) : option bytes :=
  let lower_bound := partition_point (fun x => bytes_ltb (fst x) name) l in
  match drop lower_bound l with
  | [] => None
  | p :: rest =>
      match rest with
      | following :: _ =>
          if fst following =? name then None
          else if fst p =? name then Some (snd p) else None
      | [] => if fst p =? name then Some (snd p) else None
      end
  end.

Definition get_unique (q : OrderedQs) (name : bytes) : option bytes := get_unique_in (qs q) name.

Definition lookup (q : OrderedQs) (name : bytes) : QsLookup :=
  match List.filter (fun x => fst x =? name) (qs q) with
  | [] => Absent
  | (_, v) :: rest => match rest with _ :: _ => Duplicate | [] => Single v end
  end.

(** ** The values of a name, and the ordering invariant *)

(** The values of [name] in request order. *)
Definition values_of (l : list pair) (name : bytes) : list bytes :=
  map snd (List.filter (fun x => fst x =? name) l).

Definition ordered (l : list pair) : Prop := StronglySorted (key_le fst) l.

(** In an ordered list the entries of a name are the slice between the two bounds. *)
Lemma ordered_split l name :
  ordered l ->
  exists a c, l = a ++ List.filter (fun x => fst x =? name) l ++ c /\
    length a = partition_point (fun x => bytes_ltb (fst x) name) l /\
    length a + length (List.filter (fun x => fst x =? name) l)
      = partition_point (fun x => bytes_leb (fst x) name) l /\
    Forall (fun x => bytes_leb (fst x) name = false) c.
Proof.
  induction 1 as [|x l Hl IH Hx]; simpl; [by exists [], []|].
  destruct IH as (a & c & Hsplit & Ha & Hu & Hc).
  destruct (bytes_ltb (fst x) name) eqn:Hlt.
  - assert (bytes_leb (fst x) name = true) as Hle.
    { apply bytes_leb_total. by rewrite bytes_ltb_leb, negb_true_iff in Hlt. }
    rewrite Hle. rewrite (bool_decide_eq_false_2 (fst x = name)).
    2:{ intros E. rewrite bytes_ltb_leb, E, bytes_leb_refl in Hlt. done. }
    exists (x :: a), c. simpl. rewrite <- Hsplit. split_and!; [done|lia|lia|done].
  - destruct (bytes_leb (fst x) name) eqn:Hle.
    + assert (fst x = name) as E.
      { apply bytes_leb_antisym; [done|]. by rewrite bytes_ltb_leb, negb_false_iff in Hlt. }
      rewrite (bool_decide_eq_true_2 _ E). simpl.
      assert (a = []) as ->.
      { destruct a as [|y a]; [done|]. exfalso. rewrite Hsplit in Hx, Ha.
        simpl in Ha. apply Forall_cons in Hx as [Hy _]. unfold key_le in Hy. rewrite E in Hy.
        rewrite (bytes_ltb_leb (fst y)), Hy in Ha. simpl in Ha. lia. }
      exists [], c. simpl in *. rewrite <- Hsplit. split_and!; [done|done|lia|done].
    + assert (Hall : Forall (fun y => bytes_leb (fst y) name = false) l).
      { eapply Forall_impl; [exact Hx|]. intros y Hy. unfold key_le in Hy.
        destruct (bytes_leb (fst y) name) eqn:F; [|done].
        rewrite (bytes_leb_trans _ _ _ Hy F) in Hle. done. }
      assert (Hne : forall y : pair, bytes_leb (fst y) name = false -> fst y <> name).
      { intros y Hy <-. by rewrite bytes_leb_refl in Hy. }
      rewrite (bool_decide_eq_false_2 _ (Hne _ Hle)).
      assert (List.filter (fun x0 => fst x0 =? name) l = []) as ->.
      { clear -Hall Hne. induction Hall as [|y l Hy Hall IH]; simpl; [done|].
        by rewrite (bool_decide_eq_false_2 _ (Hne _ Hy)). }
      exists [], (x :: l). simpl. split_and!; [done..|by constructor].
Qed.

Lemma get_all_values l name : ordered l -> get_all {| qs := l |} name = values_of l name.
Proof.
  intros Hl. destruct (ordered_split l name Hl) as (a & c & Hs & Ha & Hu & _).
  unfold get_all, values_of. simpl. f_equal. rewrite <- Ha, <- Hu, Nat.add_sub_swap, Nat.sub_diag by lia.
  simpl. rewrite Hs at 2. rewrite drop_app_length, take_app_length. done.
Qed.

Lemma get_unique_in_values l name :
  ordered l ->
  get_unique_in l name = match values_of l name with [v] => Some v | _ => None end.
Proof.
  intros Hl. destruct (ordered_split l name Hl) as (a & c & Hs & Ha & _ & Hc).
  unfold get_unique_in, values_of. rewrite <- Ha.
  set (f := List.filter (fun x => fst x =? name) l) in *.
  assert (Hf : Forall (fun x => fst x = name) f).
  { apply Forall_forall. intros x Hx. apply list_elem_of_In, filter_In in Hx as [_ Hx].
    by apply bool_decide_eq_true in Hx. }
  assert (Hne : forall y : pair, bytes_leb (fst y) name = false -> fst y <> name).
  { intros y Hy <-. by rewrite bytes_leb_refl in Hy. }
  rewrite Hs at 1. rewrite drop_app_length.
  destruct f as [|x [|y f]]; simpl; inversion Hf as [|? ? Hx Hf']; subst.
  - destruct c as [|x c]; [done|]. apply Forall_cons in Hc as [Hx Hc].
    destruct c as [|y c].
    + by rewrite bool_decide_eq_false_2 by auto.
    + apply Forall_cons in Hc as [Hy Hc]. by rewrite !bool_decide_eq_false_2 by auto.
  - destruct c as [|y c]; rewrite ?(bool_decide_eq_true_2 (fst x = fst x)) by done; [done|].
    apply Forall_cons in Hc as [Hy Hc]. by rewrite bool_decide_eq_false_2 by auto.
  - inversion Hf' as [|? ? Hy _]; subst. by rewrite bool_decide_eq_true_2 by done.
Qed.

Lemma sort_values l name : values_of (stable_sort_by_first l) name = values_of l name.
Proof. unfold values_of, stable_sort_by_first. by rewrite sort_by_key_stable. Qed.

Lemma sort_ordered l : ordered (stable_sort_by_first l).
Proof. apply sort_by_key_sorted. Qed.

Lemma has_values l name : has {| qs := l |} name = negb (values_of l name =? []).
Proof.
  unfold has, binary_search_is_ok, values_of. simpl.
  induction l as [|x l IH]; simpl; [done|].
  destruct (fst x =? name); simpl; [reflexivity|apply IH].
Qed.

(** Whatever the URL decoder returns, the parsed query string is ordered, [get_all] yields
    the values of a name in request order, and [get_unique], [lookup] and [has] agree with it:
    a value is unique when it is the only one. *)
Theorem ordered_qs_lookups {E} (from_str : bytes -> result E (list pair)) (query name : bytes) :
  match OrderedQs_parse from_str query with
  | Err e => from_str query = Err e
  | Ok q => exists raw, from_str query = Ok raw /\ ordered (qs q) /\ qs q ≡ₚ raw /\
      get_all q name = values_of raw name /\
      get_unique q name = (match values_of raw name with [v] => Some v | _ => None end) /\
      lookup q name = (match values_of raw name with
                       | [] => Absent | [v] => Single v | _ => Duplicate end) /\
      has q name = negb (values_of raw name =? [])
  end.
Proof.
  unfold OrderedQs_parse. destruct (from_str query) as [raw|e]; simpl; [|done].
  exists raw. pose proof (sort_ordered raw) as Ho. split_and!; [done|done| | | | |].
  - apply sort_by_key_perm.
  - by rewrite get_all_values, sort_values.
  - unfold get_unique. simpl. by rewrite get_unique_in_values, sort_values.
  - unfold lookup. simpl. rewrite <- (sort_values raw). unfold values_of.
    by destruct (List.filter _ _) as [|[k v] [|[k' v'] l]].
  - by rewrite has_values, sort_values.
Qed.
