(* ===== verification/Net.v ===== *)
(** * IP address syntax of the Rust standard library

    [str::parse::<IpAddr>()] and [str::parse::<SocketAddr>()], as far as bucket names and hosts
    are checked with them: whether the text is an address.  Each reader returns the unread rest
    of the text. *)

From S2P Require Import Prelude.
From S2P Require Import Str.

(** Reads the digits at the front: their value, their number and the rest. *)
Fixpoint read_digits (digit : byte -> option Z) (radix acc : Z) (n : nat) (s : bytes) : Z * nat * bytes :=
  match s with
  | [] => (acc, n, s)
  | c :: s' =>
      match digit c with
      | Some d => read_digits digit radix (acc * radix + d)%Z (S n) s'
      | None => (acc, n, s)
      end
  end.

(** [read_number]: between one and [max_digits] digits with a value of at most [max]. *)
Definition read_number (digit : byte -> option Z) (radix : Z) (max_digits : nat)
    (allow_zero_prefix : bool) (max : Z) (s : bytes) : option bytes :=
  let '(v, n, rest) := read_digits digit radix 0 0 s in
  let leading_zero := match s with c :: _ => c =? "0"%byte | [] => false end in
  if (n =? 0) || (max_digits <? n)%nat then None
  else if negb allow_zero_prefix && leading_zero && (1 <? n)%nat then None
  else if (v <=? max)%Z then Some rest else None.

(** [read_separator]: the separator is read before every item but the first. *)
Definition read_separator (sep : byte) (i : nat) (f : bytes -> option bytes) (s : bytes) : option bytes :=
  match i with
  | 0 => f s
  | S _ => r ← strip_prefix [sep] s; f r
  end.

Fixpoint read_ipv4_groups (n i : nat) (s : bytes) : option bytes :=
  match n with
  | 0 => Some s
  | S n' => r ← read_separator "." i (read_number digit_val 10 3 false 255) s; read_ipv4_groups n' (S i) r
  end.

Definition read_ipv4_addr (s : bytes) : option bytes := read_ipv4_groups 4 0 s.

(** [read_groups]: the number of 16-bit groups read, whether they end in an IPv4 address. *)
Fixpoint read_groups (left i : nat) (s : bytes) : nat * bool * bytes :=
  match left with
  | 0 => (i, false, s)
  | S left' =>
      match (match left' with 0 => None | S _ => read_separator ":" i read_ipv4_addr s end) with
      | Some r => (i + 2, true, r)
      | None =>
          match read_separator ":" i (read_number hex_val 16 4 true 65535) s with
          | Some r => read_groups left' (S i) r
          | None => (i, false, s)
          end
      end
  end.

Definition read_ipv6_addr (s : bytes) : option bytes :=
  let '(head_size, head_ipv4, r) := read_groups 8 0 s in
  if head_size =? 8 then Some r
  else if head_ipv4 then None
  else
    r ← strip_prefix (str "::") r;
    let '(_, _, r) := read_groups (8 - (head_size + 1)) 0 r in
    Some r.

(** [s.parse::<IpAddr>().is_ok()] *)
Definition ip_addr_parses (s : bytes) : bool :=
  match (match read_ipv4_addr s with Some r => Some r | None => read_ipv6_addr s end) with
  | Some [] => true
  | _ => false
  end.

(** [read_number(10, None, true)]: any number of digits with a value of at most [max]. *)
Definition read_decimal (max : Z) (s : bytes) : option bytes := read_number digit_val 10 (length s) true max s.

Definition read_port (s : bytes) : option bytes := r ← strip_prefix (str ":") s; read_decimal 65535 r.
Definition read_scope_id (s : bytes) : option bytes := r ← strip_prefix (str "%") s; read_decimal 4294967295 r.

Definition read_socket_addr_v4 (s : bytes) : option bytes := r ← read_ipv4_addr s; read_port r.
Definition read_socket_addr_v6 (s : bytes) : option bytes :=
  r ← strip_prefix (str "[") s;
  r ← read_ipv6_addr r;
  r ← strip_prefix (str "]") (default r (read_scope_id r));
  read_port r.

(** [s.parse::<SocketAddr>().is_ok()] *)
Definition socket_addr_parses (s : bytes) : bool :=
  match (match read_socket_addr_v4 s with Some r => Some r | None => read_socket_addr_v6 s end) with
  | Some [] => true
  | _ => false
  end.

Example socket_addr_parses_examples :
  map socket_addr_parses
    [str "127.0.0.1:9000"; str "127.0.0.1"; str "[::1]:80"; str "[fe80::1%3]:080"; str "[::1]"; str "1.2.3.4:65536"; str "h:80"]
  = [true; false; true; true; false; false; false].
Proof. reflexivity. Qed.

Example ip_addr_parses_examples :
  map ip_addr_parses
    [str "192.168.5.4"; str "192.168.05.4"; str "256.1.1.1"; str "1.2.3"; str "::1"; str "1::8:7";
     str "1:2:3:4:5:6:7:8"; str "1:2:3:4:5:6:1.2.3.4"; str "::ffff:1.2.3.4"; str "1:2:3:4:5:6:7::8"; str "abc"]
  = [true; false; false; false; true; true; true; true; true; false; false].
Proof. reflexivity. Qed.
