(* ===== verification/Path.v ===== *)
(** * Request paths and bucket names (crates/s3s/src/path.rs, crates/s3s/src/validation.rs)

    The two addressing styles of S3 and the naming rules, with the theorems that tie the
    parsers to the paths they denote. *)

From S2P Require Import Prelude.
From S2P Require Import Str.
From S2P Require Import Net.

(** ** Paths *)

Inductive S3Path :=
| Root
| Bucket (bucket : bytes)
| Object (bucket key : bytes).

Inductive ParseS3PathError := InvalidPath | InvalidBucketName | KeyTooLong.

#[global] Instance S3Path_eq_dec : EqDecision S3Path.
Proof. solve_decision. Defined.
#[global] Instance ParseS3PathError_eq_dec : EqDecision ParseS3PathError.
Proof. solve_decision. Defined.

Definition is_root (p : S3Path) : bool := match p with Root => true | _ => false end.

Definition as_bucket (p : S3Path) : option bytes :=
  match p with Bucket bucket => Some bucket | _ => None end.

Definition as_object (p : S3Path) : option (bytes * bytes) :=
  match p with Object bucket key => Some (bucket, key) | _ => None end.

Definition get_bucket_name (p : S3Path) : option bytes :=
  match p with Root => None | Bucket bucket | Object bucket _ => Some bucket end.

Definition get_object_key (p : S3Path) : option bytes :=
  match p with Root | Bucket _ => None | Object _ key => Some key end.

(** ** Naming rules *)

Definition bucket_edge (c : byte) : bool := is_ascii_lowercase c || is_ascii_digit c.

Definition check_bucket_name (name : bytes) : bool :=
  if negb ((3 <=? length name)%nat && (length name <? 64)%nat) then false
  else if negb (forallb (fun c => is_ascii_lowercase c || is_ascii_digit c || (c =? "."%byte) || (c =? "-"%byte)) name) then false
  else if match head name with None => true | Some c => negb (bucket_edge c) end then false
  else if match last name with None => true | Some c => negb (bucket_edge c) end then false
  else if contains (str "..") name then false
  else if ip_addr_parses name then false
  else if starts_with (str "xn--") name then false
  else true.

Definition check_key (key : bytes) : bool := (len key <=? 1024)%Z.

(** The [NameValidation] trait; [AwsNameValidation] is the standard implementation. *)
Class NameValidation := { validate_bucket_name : bytes -> bool }.

Definition AwsNameValidation : NameValidation := {| validate_bucket_name := check_bucket_name |}.

(** ** Parsers *)

Definition normalize_forward_slash (path : bytes) : bytes :=
  if negb (starts_with (str "/") path) then path
  else
    let end_with_slash := ends_with (str "/") path in
    let parts := List.filter (fun s => negb (s =? [])) (split "/" path) in
    match parts with
    | [] => str "/"
    | _ =>
        let joined := join (str "/") parts in
        if end_with_slash then joined ++ str "/" else joined
    end.

Definition parse_path_style_with_validation_and_normalization
    (uri_path : bytes) (validation : NameValidation) (normalize_path : bool) : result ParseS3PathError S3Path :=
  match strip_prefix (str "/") uri_path with
  | None => Err InvalidPath
  | Some [] => Ok Root
  | Some path =>
      let '(bucket, key) :=
        match split_once "/" path with
        | None => (path, None)
        | Some (x, []) => (x, None)
        | Some (bucket, key) => (bucket, Some key)
        end in
      if negb (validate_bucket_name bucket) then Err InvalidBucketName
      else
        match key with
        | None => Ok (Bucket bucket)
        | Some key =>
            let key := if normalize_path then normalize_forward_slash key else key in
            if negb (check_key key) then Err KeyTooLong else Ok (Object bucket key)
        end
  end.

Definition parse_path_style_with_validation (uri_path : bytes) (validation : NameValidation) :
    result ParseS3PathError S3Path :=
  parse_path_style_with_validation_and_normalization uri_path validation false.

Definition parse_path_style (uri_path : bytes) : result ParseS3PathError S3Path :=
  parse_path_style_with_validation_and_normalization uri_path AwsNameValidation false.

Definition parse_virtual_hosted_style_with_validation_and_normalization
    (vh_bucket : option bytes) (uri_path : bytes) (validation : NameValidation) (normalize_path : bool) :
    result ParseS3PathError S3Path :=
  match vh_bucket with
  | None => parse_path_style_with_validation_and_normalization uri_path validation normalize_path
  | Some bucket =>
      match strip_prefix (str "/") uri_path with
      | None => Err InvalidPath
      | Some key =>
          if negb (validate_bucket_name bucket) then Err InvalidBucketName
          else
            match key with
            | [] => Ok (Bucket bucket)
            | _ =>
                let key := if normalize_path then normalize_forward_slash key else key in
                if negb (check_key key) then Err KeyTooLong else Ok (Object bucket key)
            end
      end
  end.

Definition parse_virtual_hosted_style_with_validation (vh_bucket : option bytes) (uri_path : bytes)
    (validation : NameValidation) : result ParseS3PathError S3Path :=
  parse_virtual_hosted_style_with_validation_and_normalization vh_bucket uri_path validation false.

Definition parse_virtual_hosted_style (vh_bucket : option bytes) (uri_path : bytes) : result ParseS3PathError S3Path :=
  parse_virtual_hosted_style_with_validation_and_normalization vh_bucket uri_path AwsNameValidation false.

(** ** What a name validator promises to the path parsers *)

Class SlashFree (v : NameValidation) : Prop := {
  valid_nonempty : forall name, @validate_bucket_name v name = true -> name <> [];
  valid_no_slash : forall name, @validate_bucket_name v name = true -> "/"%byte ∉ name
}.

(** ** Naming rules: lemmas *)

Lemma check_bucket_name_spec name :
  check_bucket_name name = true ->
  3 <= length name < 64 /\
  forallb (fun c => is_ascii_lowercase c || is_ascii_digit c || (c =? "."%byte) || (c =? "-"%byte)) name = true /\
  (exists c, head name = Some c /\ bucket_edge c = true) /\
  (exists c, last name = Some c /\ bucket_edge c = true) /\
  contains (str "..") name = false /\ ip_addr_parses name = false /\ starts_with (str "xn--") name = false.
Proof.
  unfold check_bucket_name. intros H.
  repeat match type of H with (if ?c then _ else _) = true => destruct c eqn:?; [done|] end.
  reflect_bools. split_and!; try done; try lia.
  - destruct (head name) as [c|]; [|done]. reflect_bools. eauto.
  - destruct (last name) as [c|]; [|done]. reflect_bools. eauto.
Qed.

#[global] Instance aws_slash_free : SlashFree AwsNameValidation.
Proof.
  constructor; simpl; intros name H; apply check_bucket_name_spec in H as (Hl & Hc & _).
  - intros ->. simpl in Hl. lia.
  - intros Hin. apply list_elem_of_In in Hin. rewrite forallb_forall in Hc.
    by specialize (Hc _ Hin).
Qed.

Lemma check_key_true key : check_key key = true <-> (len key <= 1024)%Z.
Proof. apply Z.leb_le. Qed.

(** ** Normalization: lemmas *)

Definition nonempty_parts (path : bytes) : list bytes := List.filter (fun s => negb (s =? [])) (split "/" path).

Lemma nonempty_parts_spec path w : w ∈ nonempty_parts path -> w <> [] /\ "/"%byte ∉ w.
Proof.
  intros H. apply list_elem_of_In, filter_In in H as [H Hn]. split.
  - by apply negb_true_iff, bool_decide_eq_false in Hn.
  - apply list_elem_of_In in H. by eapply split_notin.
Qed.

Lemma join_nonempty sep ws : ws <> [] -> Forall (fun w => w <> []) ws -> join sep ws <> [].
Proof.
  intros Hne Hall. destruct Hall as [|w ws Hw _]; [done|].
  destruct ws; simpl; [done|]. by destruct w.
Qed.

(** The head of a joined list of slash-free, non-empty parts is not a slash. *)
Lemma join_head ws :
  ws <> [] -> Forall (fun w => w <> [] /\ "/"%byte ∉ w) ws ->
  exists c t, join (str "/") ws = c :: t /\ c <> "/"%byte.
Proof.
  intros Hne Hall. destruct Hall as [|w ws [Hw Hs] _]; [done|].
  destruct w as [|c w]; [done|]. apply not_elem_of_cons in Hs as [Hc _].
  destruct ws; simpl; eauto.
Qed.

Lemma parts_all path : Forall (fun w => w <> [] /\ "/"%byte ∉ w) (nonempty_parts path).
Proof. apply Forall_forall. intros w. apply nonempty_parts_spec. Qed.

Lemma split_join_slash_end c ws :
  ws <> [] -> Forall (fun w => c ∉ w) ws -> split c (join [c] ws ++ [c]) = ws ++ [[]].
Proof.
  intros Hne Hall. induction Hall as [|w ws Hw Hall IH]; [done|].
  destruct ws as [|v ws]; simpl.
  - by rewrite split_cons_sep.
  - rewrite <- app_assoc. simpl. rewrite split_cons_sep by done. f_equal. by apply IH.
Qed.

Lemma filter_nonempty ws :
  Forall (fun w => w <> [] /\ "/"%byte ∉ w) ws -> List.filter (fun s : bytes => negb (s =? [])) ws = ws.
Proof.
  induction 1 as [|w ws [Hw _] _ IH]; simpl; [done|].
  rewrite bool_decide_eq_false_2 by done. simpl. by rewrite IH.
Qed.

(** The normalized form of a path that starts with a slash. *)
Lemma normalize_split path :
  starts_with (str "/") path = true -> nonempty_parts path <> [] ->
  split "/" (normalize_forward_slash path) =
    nonempty_parts path ++ (if ends_with (str "/") path then [[]] else []).
Proof.
  intros Hs Hne. unfold normalize_forward_slash. rewrite Hs. simpl negb. cbv iota.
  fold (nonempty_parts path). pose proof (parts_all path) as Hall.
  assert (Hns : Forall (fun w => "/"%byte ∉ w) (nonempty_parts path))
    by (eapply Forall_impl; [exact Hall|]; by intros ? []).
  destruct (nonempty_parts path) as [|w ws]; [done|].
  destruct (ends_with (str "/") path).
  - by apply split_join_slash_end.
  - rewrite app_nil_r. by apply split_join.
Qed.

Lemma normalize_head path :
  starts_with (str "/") path = true ->
  normalize_forward_slash path = str "/" \/ starts_with (str "/") (normalize_forward_slash path) = false.
Proof.
  intros Hs. unfold normalize_forward_slash. rewrite Hs. simpl negb. cbv iota.
  fold (nonempty_parts path). pose proof (parts_all path) as Hall.
  destruct (nonempty_parts path) as [|w ws] eqn:E; [by left|]. right.
  destruct (join_head (w :: ws)) as (c & t & Hj & Hc); [done|done|]. rewrite Hj.
  assert (Hh : forall t', starts_with (str "/") (c :: t') = false).
  { intros t'. unfold starts_with. simpl. by rewrite bool_decide_eq_false_2 by congruence. }
  destruct (ends_with _ _); apply Hh.
Qed.

(** ** Properties *)

(** The request paths that name [p] in path style. *)
Definition denotes (v : NameValidation) (p : S3Path) (uri : bytes) : Prop :=
  match p with
  | Root => uri = str "/"
  | Bucket b => @validate_bucket_name v b = true /\ (uri = str "/" ++ b \/ uri = str "/" ++ b ++ str "/")
  | Object b k => @validate_bucket_name v b = true /\ k <> [] /\ (len k <= 1024)%Z /\
                  uri = str "/" ++ b ++ str "/" ++ k
  end.

Lemma parse_path_style_sound v uri p :
  parse_path_style_with_validation uri v = Ok p -> denotes v p uri.
Proof.
  unfold parse_path_style_with_validation, parse_path_style_with_validation_and_normalization.
  destruct (strip_prefix (str "/") uri) as [path|] eqn:E; [|done].
  apply strip_prefix_Some in E as ->. destruct path as [|c path]; [by intros [= <-]|].
  destruct (split_once "/" (c :: path)) as [[x [|d r]]|] eqn:F;
    try (apply split_once_Some in F as [-> _]); destruct (validate_bucket_name _) eqn:Hv; simpl; try done.
  - intros [= <-]. split; [done|by right].
  - destruct (check_key (d :: r)) eqn:Hk; simpl; [|done]. intros [= <-].
    apply check_key_true in Hk. done.
  - intros [= <-]. split; [done|by left].
Qed.

Lemma parse_path_style_complete v `{!SlashFree v} uri p :
  denotes v p uri -> parse_path_style_with_validation uri v = Ok p.
Proof.
  unfold parse_path_style_with_validation, parse_path_style_with_validation_and_normalization.
  destruct p as [|b|b k]; cbn [denotes].
  - by intros ->.
  - intros [Hb Hu]. pose proof (valid_nonempty b Hb). pose proof (valid_no_slash b Hb) as Hs.
    destruct Hu as [->| ->]; rewrite strip_prefix_app.
    + destruct b as [|c b]; [done|]. rewrite (proj2 (split_once_None _ _)) by done. by rewrite Hb.
    + rewrite (proj2 (split_once_Some "/" (b ++ str "/") b [])) by done.
      destruct b as [|c b]; [done|]. simpl app. by rewrite Hb.
  - intros (Hb & Hk & Hl & ->). pose proof (valid_no_slash b Hb) as Hs. rewrite strip_prefix_app.
    rewrite (proj2 (split_once_Some "/" (b ++ str "/" ++ k) b k)) by done.
    apply check_key_true in Hl. destruct k as [|d k]; [done|].
    destruct b as [|c b]; simpl app; by rewrite Hb, Hl.
Qed.

(** C26: path-style parsing accepts exactly the paths of a root, a validly named bucket or an
    object of such a bucket with a key of 1 to 1024 bytes, and returns that path. *)
Theorem parse_path_style_iff (uri_path : bytes) (p : S3Path) :
  parse_path_style uri_path = Ok p <-> denotes AwsNameValidation p uri_path.
Proof.
  split; [apply parse_path_style_sound|apply (parse_path_style_complete AwsNameValidation)].
Qed.

(** A virtual-hosted request is the path-style request for the path with the bucket put in
    front, whatever the validation and normalization settings. *)
Theorem virtual_hosted_style_equiv (v : NameValidation) (normalize : bool) (bucket rest : bytes) :
  "/"%byte ∉ bucket ->
  parse_virtual_hosted_style_with_validation_and_normalization (Some bucket) (str "/" ++ rest) v normalize
  = parse_path_style_with_validation_and_normalization (str "/" ++ bucket ++ str "/" ++ rest) v normalize.
Proof.
  intros Hb. unfold parse_virtual_hosted_style_with_validation_and_normalization,
    parse_path_style_with_validation_and_normalization.
  rewrite !strip_prefix_app.
  rewrite (proj2 (split_once_Some "/" (bucket ++ str "/" ++ rest) bucket rest)) by done.
  destruct bucket as [|c bucket]; destruct rest as [|d rest]; simpl app; reflexivity.
Qed.

Lemma virtual_hosted_style_equiv_witness :
  parse_virtual_hosted_style (Some (str "my-bucket")) (str "/a/b") = parse_path_style (str "/my-bucket/a/b")
  /\ parse_path_style (str "/my-bucket/a/b") = Ok (Object (str "my-bucket") (str "a/b")).
Proof.
  split; [|reflexivity].
  apply (virtual_hosted_style_equiv AwsNameValidation false (str "my-bucket") (str "a/b")).
  vm_compute. intros H. repeat (apply elem_of_cons in H as [H|H]; [discriminate|]).
  by apply elem_of_nil in H.
Defined.

(** Slash normalization is idempotent; it leaves a path without a leading slash alone, and
    turns any other into its non-empty components joined by single slashes, with a trailing
    slash when there was one. *)
Theorem normalize_forward_slash_canonical (path : bytes) :
  normalize_forward_slash (normalize_forward_slash path) = normalize_forward_slash path /\
  (starts_with (str "/") path = false -> normalize_forward_slash path = path) /\
  (starts_with (str "/") path = true -> nonempty_parts path = [] -> normalize_forward_slash path = str "/") /\
  (starts_with (str "/") path = true -> nonempty_parts path <> [] ->
     split "/" (normalize_forward_slash path) =
       nonempty_parts path ++ (if ends_with (str "/") path then [[]] else [])).
Proof.
  assert (Hid : forall p, starts_with (str "/") p = false -> normalize_forward_slash p = p).
  { intros p Hp. unfold normalize_forward_slash. by rewrite Hp. }
  split_and!; [| apply Hid | | apply normalize_split].
  - destruct (starts_with (str "/") path) eqn:Hs; [|by rewrite !(Hid path Hs)].
    destruct (normalize_head path Hs) as [-> | Hn]; [reflexivity|by apply Hid].
  - intros Hs Hp. unfold normalize_forward_slash. rewrite Hs. simpl.
    unfold nonempty_parts in Hp. by rewrite Hp.
Qed.

Lemma normalize_forward_slash_canonical_witness :
  normalize_forward_slash (str "//dir//object-name/") = str "dir/object-name/" /\
  split "/" (normalize_forward_slash (str "//dir//object-name/")) = [str "dir"; str "object-name"; []].
Proof.
  split; [reflexivity|].
  destruct (normalize_forward_slash_canonical (str "//dir//object-name/")) as (_ & _ & _ & H).
  rewrite H; reflexivity || discriminate.
Defined.
