(* ===== verification/ErrorCode.v ===== *)
(** * S3 error codes (crates/s3s/src/error/generated.rs, crates/s3s/src/error/mod.rs)

    The enumeration of error codes with its five lookup tables, and the [S3Error] value.  The
    tables are [phf::Map]s, a crate outside this repository: [PhfMap] is the interface the code
    relies on, and the tables are their [entries]. *)

From S2P Require Import Prelude.
From S2P Require Import Str.

Inductive S3ErrorCode :=
| AccessControlListNotSupported | AccessDenied | AccessPointAlreadyOwnedByYou | AccountProblem
| AllAccessDisabled | AmbiguousFieldName | AmbiguousGrantByEmailAddress
| AuthorizationHeaderMalformed | AuthorizationQueryParametersError | BadDigest
| BucketAlreadyExists | BucketAlreadyOwnedByYou | BucketHasAccessPointsAttached | BucketNotEmpty
| Busy | CSVEscapingRecordDelimiter | CSVParsingError | CSVUnescapedQuote | CastFailed
| ClientTokenConflict | ColumnTooLong | ConditionalRequestConflict | ConnectionClosedByRequester
| CredentialsNotSupported | CrossLocationLoggingProhibited | DeviceNotActiveError
| EmptyRequestBody | EndpointNotFound | EntityTooLarge | EntityTooSmall
| EvaluatorBindingDoesNotExist | EvaluatorInvalidArguments
| EvaluatorInvalidTimestampFormatPattern | EvaluatorInvalidTimestampFormatPatternSymbol
| EvaluatorInvalidTimestampFormatPatternSymbolForParsing
| EvaluatorInvalidTimestampFormatPatternToken | EvaluatorLikePatternInvalidEscapeSequence
| EvaluatorNegativeLimit | EvaluatorTimestampFormatPatternDuplicateFields
| EvaluatorTimestampFormatPatternHourClockAmPmMismatch
| EvaluatorUnterminatedTimestampFormatPatternToken | ExpiredToken | ExpressionTooLong
| ExternalEvalException | IllegalLocationConstraintException | IllegalSqlFunctionArgument
| IllegalVersioningConfigurationException | IncompleteBody | IncorrectEndpoint
| IncorrectNumberOfFilesInPostRequest | IncorrectSqlFunctionArgumentType | InlineDataTooLarge
| IntegerOverflow | InternalError | InvalidAccessKeyId | InvalidAccessPoint
| InvalidAccessPointAliasError | InvalidAddressingHeader | InvalidArgument
| InvalidBucketAclWithObjectOwnership | InvalidBucketName | InvalidBucketOwnerAWSAccountID
| InvalidBucketState | InvalidCast | InvalidColumnIndex | InvalidCompressionFormat
| InvalidDataSource | InvalidDataType | InvalidDigest | InvalidEncryptionAlgorithmError
| InvalidExpressionType | InvalidFileHeaderInfo | InvalidHostHeader | InvalidHttpMethod
| InvalidJsonType | InvalidKeyPath | InvalidLocationConstraint | InvalidObjectState | InvalidPart
| InvalidPartOrder | InvalidPayer | InvalidPolicyDocument | InvalidQuoteFields | InvalidRange
| InvalidRegion | InvalidRequest | InvalidRequestParameter | InvalidSOAPRequest
| InvalidScanRange | InvalidSecurity | InvalidSessionException | InvalidSignature
| InvalidStorageClass | InvalidTableAlias | InvalidTag | InvalidTargetBucketForLogging
| InvalidTextEncoding | InvalidToken | InvalidURI | JSONParsingError | KeyTooLongError
| LexerInvalidChar | LexerInvalidIONLiteral | LexerInvalidLiteral | LexerInvalidOperator
| LikeInvalidInputs | MalformedACLError | MalformedPOSTRequest | MalformedPolicy | MalformedXML
| MaxMessageLengthExceeded | MaxOperatorsExceeded | MaxPostPreDataLengthExceededError
| MetadataTooLarge | MethodNotAllowed | MissingAttachment | MissingAuthenticationToken
| MissingContentLength | MissingRequestBodyError | MissingRequiredParameter
| MissingSecurityElement | MissingSecurityHeader | MultipleDataSourcesUnsupported
| NoLoggingStatusForKey | NoSuchAccessPoint | NoSuchAsyncRequest | NoSuchBucket
| NoSuchBucketPolicy | NoSuchCORSConfiguration | NoSuchKey | NoSuchLifecycleConfiguration
| NoSuchMultiRegionAccessPoint | NoSuchObjectLockConfiguration | NoSuchResource | NoSuchTagSet
| NoSuchUpload | NoSuchVersion | NoSuchWebsiteConfiguration | NoTransformationDefined
| NotDeviceOwnerError | NotImplemented | NotModified | NotSignedUp | NumberFormatError
| ObjectLockConfigurationNotFoundError | ObjectSerializationConflict | OperationAborted
| OverMaxColumn | OverMaxParquetBlockSize | OverMaxRecordSize | OwnershipControlsNotFoundError
| ParquetParsingError | ParquetUnsupportedCompressionCodec | ParseAsteriskIsNotAloneInSelectList
| ParseCannotMixSqbAndWildcardInSelectList | ParseCastArity | ParseEmptySelect
| ParseExpected2TokenTypes | ParseExpectedArgumentDelimiter | ParseExpectedDatePart
| ParseExpectedExpression | ParseExpectedIdentForAlias | ParseExpectedIdentForAt
| ParseExpectedIdentForGroupName | ParseExpectedKeyword | ParseExpectedLeftParenAfterCast
| ParseExpectedLeftParenBuiltinFunctionCall | ParseExpectedLeftParenValueConstructor
| ParseExpectedMember | ParseExpectedNumber | ParseExpectedRightParenBuiltinFunctionCall
| ParseExpectedTokenType | ParseExpectedTypeName | ParseExpectedWhenClause
| ParseInvalidContextForWildcardInSelectList | ParseInvalidPathComponent | ParseInvalidTypeParam
| ParseMalformedJoin | ParseMissingIdentAfterAt | ParseNonUnaryAgregateFunctionCall
| ParseSelectMissingFrom | ParseUnExpectedKeyword | ParseUnexpectedOperator | ParseUnexpectedTerm
| ParseUnexpectedToken | ParseUnknownOperator | ParseUnsupportedAlias
| ParseUnsupportedCallWithStar | ParseUnsupportedCase | ParseUnsupportedCaseClause
| ParseUnsupportedLiteralsGroupBy | ParseUnsupportedSelect | ParseUnsupportedSyntax
| ParseUnsupportedToken | PermanentRedirect | PermanentRedirectControlError | PreconditionFailed
| Redirect | ReplicationConfigurationNotFoundError | RequestHeaderSectionTooLarge
| RequestIsNotMultiPartContent | RequestTimeTooSkewed | RequestTimeout
| RequestTorrentOfBucketError | ResponseInterrupted | RestoreAlreadyInProgress
| ServerSideEncryptionConfigurationNotFoundError | ServiceUnavailable | SignatureDoesNotMatch
| SlowDown | TagPolicyException | TemporaryRedirect | TokenCodeInvalidError
| TokenRefreshRequired | TooManyAccessPoints | TooManyBuckets
| TooManyMultiRegionAccessPointregionsError | TooManyMultiRegionAccessPoints | TooManyTags
| TruncatedInput | UnauthorizedAccess | UnauthorizedAccessError | UnexpectedContent
| UnexpectedIPError | UnrecognizedFormatException | UnresolvableGrantByEmailAddress
| UnsupportedArgument | UnsupportedFunction | UnsupportedParquetType | UnsupportedRangeHeader
| UnsupportedScanRangeInput | UnsupportedSignature | UnsupportedSqlOperation
| UnsupportedSqlStructure | UnsupportedStorageClass | UnsupportedSyntax
| UnsupportedTypeForQuerying | UserKeyMustBeSpecified | ValueParseFailure 
| Custom (s : bytes).

(** ** Tables *)

(** [hyper::StatusCode], by its number. *)
Abbreviation StatusCode := Z (only parsing).
Definition MOVED_PERMANENTLY : StatusCode := 301.
Definition NOT_MODIFIED : StatusCode := 304.
Definition TEMPORARY_REDIRECT : StatusCode := 307.
Definition BAD_REQUEST : StatusCode := 400.
Definition UNAUTHORIZED : StatusCode := 401.
Definition FORBIDDEN : StatusCode := 403.
Definition NOT_FOUND : StatusCode := 404.
Definition METHOD_NOT_ALLOWED : StatusCode := 405.
Definition CONFLICT : StatusCode := 409.
Definition LENGTH_REQUIRED : StatusCode := 411.
Definition PRECONDITION_FAILED : StatusCode := 412.
Definition RANGE_NOT_SATISFIABLE : StatusCode := 416.
Definition INTERNAL_SERVER_ERROR : StatusCode := 500.
Definition NOT_IMPLEMENTED : StatusCode := 501.
Definition SERVICE_UNAVAILABLE : StatusCode := 503.

Definition S3_ERROR_CODE_MAP : list (bytes * S3ErrorCode) :=
  [(str "ParseUnExpectedKeyword", ParseUnExpectedKeyword);
   (str "MaxMessageLengthExceeded", MaxMessageLengthExceeded);
   (str "CSVParsingError", CSVParsingError); (str "EmptyRequestBody", EmptyRequestBody);
   (str "AccessControlListNotSupported", AccessControlListNotSupported);
   (str "MalformedPolicy", MalformedPolicy);
   (str "ParseAsteriskIsNotAloneInSelectList", ParseAsteriskIsNotAloneInSelectList);
   (str "InvalidAddressingHeader", InvalidAddressingHeader);
   (str "RequestHeaderSectionTooLarge", RequestHeaderSectionTooLarge);
   (str "MalformedPOSTRequest", MalformedPOSTRequest);
   (str "OperationAborted", OperationAborted);
   (str "AuthorizationHeaderMalformed", AuthorizationHeaderMalformed);
   (str "InvalidEncryptionAlgorithmError", InvalidEncryptionAlgorithmError);
   (str "IllegalLocationConstraintException", IllegalLocationConstraintException);
   (str "InvalidStorageClass", InvalidStorageClass);
   (str "InvalidObjectState", InvalidObjectState);
   (str "UnsupportedFunction", UnsupportedFunction);
   (str "UnsupportedRangeHeader", UnsupportedRangeHeader);
   (str "ParseExpectedTypeName", ParseExpectedTypeName);
   (str "PermanentRedirectControlError", PermanentRedirectControlError);
   (str "CSVEscapingRecordDelimiter", CSVEscapingRecordDelimiter);
   (str "AmbiguousFieldName", AmbiguousFieldName); (str "InvalidBucketName", InvalidBucketName);
   (str "EvaluatorInvalidTimestampFormatPattern", EvaluatorInvalidTimestampFormatPattern);
   (str "EntityTooSmall", EntityTooSmall); (str "InvalidURI", InvalidURI);
   (str "MissingSecurityHeader", MissingSecurityHeader);
   (str "InvalidTableAlias", InvalidTableAlias);
   (str "UnsupportedScanRangeInput", UnsupportedScanRangeInput);
   (str "PermanentRedirect", PermanentRedirect); (str "AllAccessDisabled", AllAccessDisabled);
   (str "UnsupportedSqlOperation", UnsupportedSqlOperation);
   (str "NotImplemented", NotImplemented); (str "InvalidPayer", InvalidPayer);
   (str "InvalidDataType", InvalidDataType);
   (str "InvalidPolicyDocument", InvalidPolicyDocument);
   (str "IncorrectEndpoint", IncorrectEndpoint);
   (str "ParseExpectedArgumentDelimiter", ParseExpectedArgumentDelimiter);
   (str "LexerInvalidChar", LexerInvalidChar);
   (str "EvaluatorInvalidTimestampFormatPatternSymbolForParsing", EvaluatorInvalidTimestampFormatPatternSymbolForParsing);
   (str "ConnectionClosedByRequester", ConnectionClosedByRequester);
   (str "InvalidDataSource", InvalidDataSource);
   (str "EvaluatorInvalidTimestampFormatPatternSymbol", EvaluatorInvalidTimestampFormatPatternSymbol);
   (str "InvalidJsonType", InvalidJsonType);
   (str "NoSuchLifecycleConfiguration", NoSuchLifecycleConfiguration);
   (str "IncompleteBody", IncompleteBody); (str "ParseUnexpectedToken", ParseUnexpectedToken);
   (str "UnsupportedTypeForQuerying", UnsupportedTypeForQuerying);
   (str "InvalidQuoteFields", InvalidQuoteFields);
   (str "UserKeyMustBeSpecified", UserKeyMustBeSpecified);
   (str "ClientTokenConflict", ClientTokenConflict); (str "EndpointNotFound", EndpointNotFound);
   (str "OwnershipControlsNotFoundError", OwnershipControlsNotFoundError);
   (str "ExpiredToken", ExpiredToken); (str "ParseUnsupportedSyntax", ParseUnsupportedSyntax);
   (str "InvalidArgument", InvalidArgument); (str "MaxOperatorsExceeded", MaxOperatorsExceeded);
   (str "CastFailed", CastFailed); (str "ExternalEvalException", ExternalEvalException);
   (str "NoSuchBucketPolicy", NoSuchBucketPolicy); (str "InvalidHostHeader", InvalidHostHeader);
   (str "LexerInvalidLiteral", LexerInvalidLiteral); (str "InvalidSignature", InvalidSignature);
   (str "ParseUnsupportedSelect", ParseUnsupportedSelect);
   (str "ParseExpectedDatePart", ParseExpectedDatePart);
   (str "InvalidBucketState", InvalidBucketState); (str "TruncatedInput", TruncatedInput);
   (str "MissingContentLength", MissingContentLength);
   (str "ParseInvalidPathComponent", ParseInvalidPathComponent);
   (str "ParseExpectedIdentForGroupName", ParseExpectedIdentForGroupName);
   (str "DeviceNotActiveError", DeviceNotActiveError); (str "Redirect", Redirect);
   (str "LexerInvalidOperator", LexerInvalidOperator);
   (str "InvalidTargetBucketForLogging", InvalidTargetBucketForLogging);
   (str "MethodNotAllowed", MethodNotAllowed); (str "MissingAttachment", MissingAttachment);
   (str "InvalidRequest", InvalidRequest); (str "InvalidSecurity", InvalidSecurity);
   (str "ExpressionTooLong", ExpressionTooLong);
   (str "ParseNonUnaryAgregateFunctionCall", ParseNonUnaryAgregateFunctionCall);
   (str "ParseInvalidTypeParam", ParseInvalidTypeParam); (str "MalformedXML", MalformedXML);
   (str "ParseExpectedKeyword", ParseExpectedKeyword);
   (str "RequestTorrentOfBucketError", RequestTorrentOfBucketError);
   (str "UnexpectedIPError", UnexpectedIPError); (str "InvalidCast", InvalidCast);
   (str "ParseExpectedRightParenBuiltinFunctionCall", ParseExpectedRightParenBuiltinFunctionCall);
   (str "ParseExpectedTokenType", ParseExpectedTokenType);
   (str "AccountProblem", AccountProblem); (str "AccessDenied", AccessDenied);
   (str "InvalidAccessPointAliasError", InvalidAccessPointAliasError);
   (str "InvalidColumnIndex", InvalidColumnIndex); (str "InvalidDigest", InvalidDigest);
   (str "NotSignedUp", NotSignedUp);
   (str "ParseExpectedIdentForAlias", ParseExpectedIdentForAlias);
   (str "ObjectSerializationConflict", ObjectSerializationConflict);
   (str "ParseUnexpectedOperator", ParseUnexpectedOperator);
   (str "TokenCodeInvalidError", TokenCodeInvalidError);
   (str "ParseExpectedExpression", ParseExpectedExpression);
   (str "ParseExpectedMember", ParseExpectedMember);
   (str "PreconditionFailed", PreconditionFailed); (str "BadDigest", BadDigest);
   (str "InvalidPart", InvalidPart);
   (str "InvalidLocationConstraint", InvalidLocationConstraint);
   (str "ParquetUnsupportedCompressionCodec", ParquetUnsupportedCompressionCodec);
   (str "ParseCastArity", ParseCastArity);
   (str "NoTransformationDefined", NoTransformationDefined);
   (str "InvalidCompressionFormat", InvalidCompressionFormat);
   (str "NoSuchAccessPoint", NoSuchAccessPoint); (str "InlineDataTooLarge", InlineDataTooLarge);
   (str "TooManyMultiRegionAccessPoints", TooManyMultiRegionAccessPoints);
   (str "ParseUnsupportedCallWithStar", ParseUnsupportedCallWithStar);
   (str "ParseUnexpectedTerm", ParseUnexpectedTerm); (str "Busy", Busy);
   (str "InvalidTextEncoding", InvalidTextEncoding);
   (str "IncorrectSqlFunctionArgumentType", IncorrectSqlFunctionArgumentType);
   (str "UnresolvableGrantByEmailAddress", UnresolvableGrantByEmailAddress);
   (str "NoSuchVersion", NoSuchVersion); (str "InvalidRange", InvalidRange);
   (str "InvalidPartOrder", InvalidPartOrder); (str "BucketNotEmpty", BucketNotEmpty);
   (str "TemporaryRedirect", TemporaryRedirect);
   (str "MissingSecurityElement", MissingSecurityElement);
   (str "TooManyAccessPoints", TooManyAccessPoints);
   (str "UnauthorizedAccessError", UnauthorizedAccessError);
   (str "NoSuchWebsiteConfiguration", NoSuchWebsiteConfiguration);
   (str "ParseExpectedWhenClause", ParseExpectedWhenClause);
   (str "RestoreAlreadyInProgress", RestoreAlreadyInProgress);
   (str "MissingAuthenticationToken", MissingAuthenticationToken);
   (str "ParseExpected2TokenTypes", ParseExpected2TokenTypes);
   (str "AccessPointAlreadyOwnedByYou", AccessPointAlreadyOwnedByYou);
   (str "UnsupportedSignature", UnsupportedSignature);
   (str "ParseUnsupportedCaseClause", ParseUnsupportedCaseClause);
   (str "TooManyMultiRegionAccessPointregionsError", TooManyMultiRegionAccessPointregionsError);
   (str "NumberFormatError", NumberFormatError);
   (str "ParseExpectedLeftParenValueConstructor", ParseExpectedLeftParenValueConstructor);
   (str "MissingRequiredParameter", MissingRequiredParameter);
   (str "NoSuchObjectLockConfiguration", NoSuchObjectLockConfiguration);
   (str "NoSuchCORSConfiguration", NoSuchCORSConfiguration);
   (str "ReplicationConfigurationNotFoundError", ReplicationConfigurationNotFoundError);
   (str "ParseEmptySelect", ParseEmptySelect);
   (str "AuthorizationQueryParametersError", AuthorizationQueryParametersError);
   (str "SignatureDoesNotMatch", SignatureDoesNotMatch); (str "TooManyTags", TooManyTags);
   (str "ColumnTooLong", ColumnTooLong); (str "JSONParsingError", JSONParsingError);
   (str "BucketAlreadyOwnedByYou", BucketAlreadyOwnedByYou);
   (str "BucketAlreadyExists", BucketAlreadyExists);
   (str "AmbiguousGrantByEmailAddress", AmbiguousGrantByEmailAddress);
   (str "ServerSideEncryptionConfigurationNotFoundError", ServerSideEncryptionConfigurationNotFoundError);
   (str "InvalidFileHeaderInfo", InvalidFileHeaderInfo); (str "TooManyBuckets", TooManyBuckets);
   (str "ObjectLockConfigurationNotFoundError", ObjectLockConfigurationNotFoundError);
   (str "ResponseInterrupted", ResponseInterrupted);
   (str "NoSuchMultiRegionAccessPoint", NoSuchMultiRegionAccessPoint);
   (str "BucketHasAccessPointsAttached", BucketHasAccessPointsAttached);
   (str "EvaluatorTimestampFormatPatternDuplicateFields", EvaluatorTimestampFormatPatternDuplicateFields);
   (str "InvalidBucketOwnerAWSAccountID", InvalidBucketOwnerAWSAccountID);
   (str "IllegalVersioningConfigurationException", IllegalVersioningConfigurationException);
   (str "EvaluatorBindingDoesNotExist", EvaluatorBindingDoesNotExist);
   (str "MalformedACLError", MalformedACLError);
   (str "ParseCannotMixSqbAndWildcardInSelectList", ParseCannotMixSqbAndWildcardInSelectList);
   (str "UnsupportedParquetType", UnsupportedParquetType);
   (str "ParseUnsupportedToken", ParseUnsupportedToken); (str "InvalidTag", InvalidTag);
   (str "UnsupportedSqlStructure", UnsupportedSqlStructure);
   (str "NotDeviceOwnerError", NotDeviceOwnerError);
   (str "CredentialsNotSupported", CredentialsNotSupported);
   (str "EvaluatorInvalidArguments", EvaluatorInvalidArguments);
   (str "NoSuchBucket", NoSuchBucket); (str "TagPolicyException", TagPolicyException);
   (str "EvaluatorTimestampFormatPatternHourClockAmPmMismatch", EvaluatorTimestampFormatPatternHourClockAmPmMismatch);
   (str "InvalidScanRange", InvalidScanRange);
   (str "ParseMissingIdentAfterAt", ParseMissingIdentAfterAt);
   (str "MetadataTooLarge", MetadataTooLarge);
   (str "EvaluatorInvalidTimestampFormatPatternToken", EvaluatorInvalidTimestampFormatPatternToken);
   (str "ParseMalformedJoin", ParseMalformedJoin);
   (str "ParseExpectedNumber", ParseExpectedNumber); (str "SlowDown", SlowDown);
   (str "InvalidExpressionType", InvalidExpressionType);
   (str "ParseExpectedLeftParenBuiltinFunctionCall", ParseExpectedLeftParenBuiltinFunctionCall);
   (str "ValueParseFailure", ValueParseFailure);
   (str "ParseUnsupportedCase", ParseUnsupportedCase);
   (str "ParseExpectedIdentForAt", ParseExpectedIdentForAt);
   (str "InvalidAccessKeyId", InvalidAccessKeyId);
   (str "EvaluatorUnterminatedTimestampFormatPatternToken", EvaluatorUnterminatedTimestampFormatPatternToken);
   (str "NoSuchAsyncRequest", NoSuchAsyncRequest); (str "NotModified", NotModified);
   (str "ServiceUnavailable", ServiceUnavailable);
   (str "IllegalSqlFunctionArgument", IllegalSqlFunctionArgument);
   (str "UnsupportedArgument", UnsupportedArgument);
   (str "UnauthorizedAccess", UnauthorizedAccess); (str "CSVUnescapedQuote", CSVUnescapedQuote);
   (str "TokenRefreshRequired", TokenRefreshRequired);
   (str "CrossLocationLoggingProhibited", CrossLocationLoggingProhibited);
   (str "ParseInvalidContextForWildcardInSelectList", ParseInvalidContextForWildcardInSelectList);
   (str "InvalidAccessPoint", InvalidAccessPoint);
   (str "UnsupportedStorageClass", UnsupportedStorageClass); (str "NoSuchUpload", NoSuchUpload);
   (str "RequestIsNotMultiPartContent", RequestIsNotMultiPartContent);
   (str "InvalidSessionException", InvalidSessionException);
   (str "EvaluatorLikePatternInvalidEscapeSequence", EvaluatorLikePatternInvalidEscapeSequence);
   (str "UnexpectedContent", UnexpectedContent);
   (str "NoLoggingStatusForKey", NoLoggingStatusForKey);
   (str "ParseUnknownOperator", ParseUnknownOperator);
   (str "EvaluatorNegativeLimit", EvaluatorNegativeLimit); (str "OverMaxColumn", OverMaxColumn);
   (str "ConditionalRequestConflict", ConditionalRequestConflict);
   (str "InvalidBucketAclWithObjectOwnership", InvalidBucketAclWithObjectOwnership);
   (str "InvalidRegion", InvalidRegion); (str "InvalidSOAPRequest", InvalidSOAPRequest);
   (str "InvalidKeyPath", InvalidKeyPath); (str "InternalError", InternalError);
   (str "OverMaxParquetBlockSize", OverMaxParquetBlockSize);
   (str "UnrecognizedFormatException", UnrecognizedFormatException);
   (str "LexerInvalidIONLiteral", LexerInvalidIONLiteral);
   (str "InvalidHttpMethod", InvalidHttpMethod);
   (str "ParquetParsingError", ParquetParsingError);
   (str "IncorrectNumberOfFilesInPostRequest", IncorrectNumberOfFilesInPostRequest);
   (str "ParseExpectedLeftParenAfterCast", ParseExpectedLeftParenAfterCast);
   (str "KeyTooLongError", KeyTooLongError); (str "OverMaxRecordSize", OverMaxRecordSize);
   (str "RequestTimeout", RequestTimeout); (str "LikeInvalidInputs", LikeInvalidInputs);
   (str "InvalidToken", InvalidToken);
   (str "ParseUnsupportedLiteralsGroupBy", ParseUnsupportedLiteralsGroupBy);
   (str "IntegerOverflow", IntegerOverflow); (str "UnsupportedSyntax", UnsupportedSyntax);
   (str "MaxPostPreDataLengthExceededError", MaxPostPreDataLengthExceededError);
   (str "RequestTimeTooSkewed", RequestTimeTooSkewed);
   (str "InvalidRequestParameter", InvalidRequestParameter); (str "NoSuchTagSet", NoSuchTagSet);
   (str "MissingRequestBodyError", MissingRequestBodyError);
   (str "EntityTooLarge", EntityTooLarge);
   (str "MultipleDataSourcesUnsupported", MultipleDataSourcesUnsupported);
   (str "NoSuchResource", NoSuchResource); (str "NoSuchKey", NoSuchKey);
   (str "ParseUnsupportedAlias", ParseUnsupportedAlias);
   (str "ParseSelectMissingFrom", ParseSelectMissingFrom)].

Definition S3_ERROR_CODE_LOWERCASE_MAP : list (bytes * S3ErrorCode) :=
  [(str "bucketalreadyownedbyyou", BucketAlreadyOwnedByYou);
   (str "signaturedoesnotmatch", SignatureDoesNotMatch);
   (str "parseunexpectedterm", ParseUnexpectedTerm);
   (str "conditionalrequestconflict", ConditionalRequestConflict);
   (str "evaluatornegativelimit", EvaluatorNegativeLimit);
   (str "parsecannotmixsqbandwildcardinselectlist", ParseCannotMixSqbAndWildcardInSelectList);
   (str "invalidtargetbucketforlogging", InvalidTargetBucketForLogging);
   (str "nosuchtagset", NoSuchTagSet); (str "userkeymustbespecified", UserKeyMustBeSpecified);
   (str "accesscontrollistnotsupported", AccessControlListNotSupported);
   (str "lexerinvalidionliteral", LexerInvalidIONLiteral);
   (str "missingattachment", MissingAttachment);
   (str "incorrectsqlfunctionargumenttype", IncorrectSqlFunctionArgumentType);
   (str "multipledatasourcesunsupported", MultipleDataSourcesUnsupported);
   (str "restorealreadyinprogress", RestoreAlreadyInProgress);
   (str "invalidscanrange", InvalidScanRange); (str "invaliddatatype", InvalidDataType);
   (str "expiredtoken", ExpiredToken); (str "parseunsupportedalias", ParseUnsupportedAlias);
   (str "parseunexpectedkeyword", ParseUnExpectedKeyword);
   (str "permanentredirectcontrolerror", PermanentRedirectControlError);
   (str "ownershipcontrolsnotfounderror", OwnershipControlsNotFoundError);
   (str "nosuchresource", NoSuchResource); (str "internalerror", InternalError);
   (str "parquetunsupportedcompressioncodec", ParquetUnsupportedCompressionCodec);
   (str "valueparsefailure", ValueParseFailure);
   (str "nosuchwebsiteconfiguration", NoSuchWebsiteConfiguration);
   (str "invalidhttpmethod", InvalidHttpMethod);
   (str "unsupportedargument", UnsupportedArgument); (str "parsecastarity", ParseCastArity);
   (str "castfailed", CastFailed); (str "toomanybuckets", TooManyBuckets);
   (str "invaliduri", InvalidURI); (str "parseexpectedtypename", ParseExpectedTypeName);
   (str "overmaxcolumn", OverMaxColumn); (str "lexerinvalidchar", LexerInvalidChar);
   (str "parseunsupportedsyntax", ParseUnsupportedSyntax); (str "invalidpart", InvalidPart);
   (str "invalidaddressingheader", InvalidAddressingHeader);
   (str "unresolvablegrantbyemailaddress", UnresolvableGrantByEmailAddress);
   (str "parseunsupportedcallwithstar", ParseUnsupportedCallWithStar);
   (str "incorrectendpoint", IncorrectEndpoint);
   (str "invalidsessionexception", InvalidSessionException);
   (str "nosuchobjectlockconfiguration", NoSuchObjectLockConfiguration);
   (str "columntoolong", ColumnTooLong);
   (str "buckethasaccesspointsattached", BucketHasAccessPointsAttached);
   (str "unexpectedcontent", UnexpectedContent); (str "invalidtag", InvalidTag);
   (str "numberformaterror", NumberFormatError);
   (str "parseexpectedmember", ParseExpectedMember);
   (str "parseunsupportedliteralsgroupby", ParseUnsupportedLiteralsGroupBy);
   (str "invalidhostheader", InvalidHostHeader);
   (str "parseunsupportedtoken", ParseUnsupportedToken);
   (str "parseunsupportedselect", ParseUnsupportedSelect);
   (str "invalidbucketaclwithobjectownership", InvalidBucketAclWithObjectOwnership);
   (str "malformedpolicy", MalformedPolicy); (str "nosuchaccesspoint", NoSuchAccessPoint);
   (str "likeinvalidinputs", LikeInvalidInputs); (str "invalidtoken", InvalidToken);
   (str "evaluatorlikepatterninvalidescapesequence", EvaluatorLikePatternInvalidEscapeSequence);
   (str "toomanymultiregionaccesspointregionserror", TooManyMultiRegionAccessPointregionsError);
   (str "baddigest", BadDigest); (str "unauthorizedaccesserror", UnauthorizedAccessError);
   (str "unsupportedsignature", UnsupportedSignature);
   (str "lexerinvalidoperator", LexerInvalidOperator); (str "invalidjsontype", InvalidJsonType);
   (str "missingrequestbodyerror", MissingRequestBodyError);
   (str "temporaryredirect", TemporaryRedirect);
   (str "unsupportedsqloperation", UnsupportedSqlOperation);
   (str "unauthorizedaccess", UnauthorizedAccess); (str "entitytoolarge", EntityTooLarge);
   (str "metadatatoolarge", MetadataTooLarge); (str "inlinedatatoolarge", InlineDataTooLarge);
   (str "unsupportedfunction", UnsupportedFunction);
   (str "parseexpectedtokentype", ParseExpectedTokenType);
   (str "invalidcolumnindex", InvalidColumnIndex); (str "invalidrequest", InvalidRequest);
   (str "ambiguousgrantbyemailaddress", AmbiguousGrantByEmailAddress);
   (str "parseemptyselect", ParseEmptySelect);
   (str "parseunknownoperator", ParseUnknownOperator);
   (str "invaliddatasource", InvalidDataSource); (str "nosuchbucketpolicy", NoSuchBucketPolicy);
   (str "parquetparsingerror", ParquetParsingError);
   (str "clienttokenconflict", ClientTokenConflict);
   (str "invalidrequestparameter", InvalidRequestParameter);
   (str "requesttimeout", RequestTimeout);
   (str "unsupportedparquettype", UnsupportedParquetType); (str "invalidregion", InvalidRegion);
   (str "authorizationheadermalformed", AuthorizationHeaderMalformed);
   (str "invalidkeypath", InvalidKeyPath); (str "notsignedup", NotSignedUp);
   (str "evaluatorinvalidarguments", EvaluatorInvalidArguments);
   (str "unsupportedsyntax", UnsupportedSyntax); (str "invalidobjectstate", InvalidObjectState);
   (str "notdeviceownererror", NotDeviceOwnerError);
   (str "parsemissingidentafterat", ParseMissingIdentAfterAt);
   (str "evaluatortimestampformatpatternhourclockampmmismatch", EvaluatorTimestampFormatPatternHourClockAmPmMismatch);
   (str "invalidbucketstate", InvalidBucketState);
   (str "accesspointalreadyownedbyyou", AccessPointAlreadyOwnedByYou);
   (str "keytoolongerror", KeyTooLongError);
   (str "unsupportedtypeforquerying", UnsupportedTypeForQuerying);
   (str "invalidexpressiontype", InvalidExpressionType);
   (str "parsemalformedjoin", ParseMalformedJoin);
   (str "invalidaccesskeyid", InvalidAccessKeyId); (str "overmaxrecordsize", OverMaxRecordSize);
   (str "preconditionfailed", PreconditionFailed);
   (str "unrecognizedformatexception", UnrecognizedFormatException);
   (str "parseunsupportedcaseclause", ParseUnsupportedCaseClause);
   (str "tokencodeinvaliderror", TokenCodeInvalidError);
   (str "parseexpectedidentforat", ParseExpectedIdentForAt);
   (str "invalidsecurity", InvalidSecurity); (str "nosuchkey", NoSuchKey);
   (str "invalidbucketname", InvalidBucketName);
   (str "maxmessagelengthexceeded", MaxMessageLengthExceeded);
   (str "csvescapingrecorddelimiter", CSVEscapingRecordDelimiter);
   (str "parseexpectedleftparenaftercast", ParseExpectedLeftParenAfterCast);
   (str "toomanyaccesspoints", TooManyAccessPoints); (str "methodnotallowed", MethodNotAllowed);
   (str "lexerinvalidliteral", LexerInvalidLiteral); (str "endpointnotfound", EndpointNotFound);
   (str "devicenotactiveerror", DeviceNotActiveError);
   (str "connectionclosedbyrequester", ConnectionClosedByRequester);
   (str "evaluatorbindingdoesnotexist", EvaluatorBindingDoesNotExist);
   (str "evaluatortimestampformatpatternduplicatefields", EvaluatorTimestampFormatPatternDuplicateFields);
   (str "parseexpectedwhenclause", ParseExpectedWhenClause);
   (str "bucketnotempty", BucketNotEmpty); (str "emptyrequestbody", EmptyRequestBody);
   (str "unsupportedstorageclass", UnsupportedStorageClass); (str "busy", Busy);
   (str "unsupportedscanrangeinput", UnsupportedScanRangeInput);
   (str "parseexpectedargumentdelimiter", ParseExpectedArgumentDelimiter);
   (str "evaluatorinvalidtimestampformatpatternsymbol", EvaluatorInvalidTimestampFormatPatternSymbol);
   (str "invaliddigest", InvalidDigest); (str "expressiontoolong", ExpressionTooLong);
   (str "overmaxparquetblocksize", OverMaxParquetBlockSize); (str "slowdown", SlowDown);
   (str "parseinvalidcontextforwildcardinselectlist", ParseInvalidContextForWildcardInSelectList);
   (str "evaluatorinvalidtimestampformatpatterntoken", EvaluatorInvalidTimestampFormatPatternToken);
   (str "integeroverflow", IntegerOverflow); (str "csvparsingerror", CSVParsingError);
   (str "nosuchversion", NoSuchVersion); (str "invalidaccesspoint", InvalidAccessPoint);
   (str "evaluatorunterminatedtimestampformatpatterntoken", EvaluatorUnterminatedTimestampFormatPatternToken);
   (str "invalidencryptionalgorithmerror", InvalidEncryptionAlgorithmError);
   (str "serversideencryptionconfigurationnotfounderror", ServerSideEncryptionConfigurationNotFoundError);
   (str "parseexpectedidentforalias", ParseExpectedIdentForAlias);
   (str "illegallocationconstraintexception", IllegalLocationConstraintException);
   (str "invalidstorageclass", InvalidStorageClass);
   (str "invalidsoaprequest", InvalidSOAPRequest); (str "invalidpayer", InvalidPayer);
   (str "invalidaccesspointaliaserror", InvalidAccessPointAliasError);
   (str "csvunescapedquote", CSVUnescapedQuote);
   (str "unsupportedsqlstructure", UnsupportedSqlStructure);
   (str "truncatedinput", TruncatedInput); (str "permanentredirect", PermanentRedirect);
   (str "parseunsupportedcase", ParseUnsupportedCase);
   (str "notransformationdefined", NoTransformationDefined);
   (str "invalidcompressionformat", InvalidCompressionFormat);
   (str "malformedpostrequest", MalformedPOSTRequest);
   (str "parseexpectedleftparenbuiltinfunctioncall", ParseExpectedLeftParenBuiltinFunctionCall);
   (str "credentialsnotsupported", CredentialsNotSupported);
   (str "authorizationqueryparameterserror", AuthorizationQueryParametersError);
   (str "parseexpectedleftparenvalueconstructor", ParseExpectedLeftParenValueConstructor);
   (str "jsonparsingerror", JSONParsingError); (str "accountproblem", AccountProblem);
   (str "parseexpectedrightparenbuiltinfunctioncall", ParseExpectedRightParenBuiltinFunctionCall);
   (str "missingcontentlength", MissingContentLength);
   (str "objectlockconfigurationnotfounderror", ObjectLockConfigurationNotFoundError);
   (str "operationaborted", OperationAborted); (str "nosuchupload", NoSuchUpload);
   (str "nosuchlifecycleconfiguration", NoSuchLifecycleConfiguration);
   (str "toomanymultiregionaccesspoints", TooManyMultiRegionAccessPoints);
   (str "parseexpectedkeyword", ParseExpectedKeyword);
   (str "objectserializationconflict", ObjectSerializationConflict);
   (str "missingauthenticationtoken", MissingAuthenticationToken);
   (str "parseexpectedidentforgroupname", ParseExpectedIdentForGroupName);
   (str "tagpolicyexception", TagPolicyException);
   (str "requesttimetooskewed", RequestTimeTooSkewed);
   (str "invalidsignature", InvalidSignature); (str "toomanytags", TooManyTags);
   (str "missingrequiredparameter", MissingRequiredParameter);
   (str "nosuchmultiregionaccesspoint", NoSuchMultiRegionAccessPoint);
   (str "maxoperatorsexceeded", MaxOperatorsExceeded); (str "entitytoosmall", EntityTooSmall);
   (str "unexpectediperror", UnexpectedIPError);
   (str "replicationconfigurationnotfounderror", ReplicationConfigurationNotFoundError);
   (str "notmodified", NotModified); (str "parseexpecteddatepart", ParseExpectedDatePart);
   (str "parseinvalidtypeparam", ParseInvalidTypeParam); (str "invalidcast", InvalidCast);
   (str "invalidtablealias", InvalidTableAlias);
   (str "requestisnotmultipartcontent", RequestIsNotMultiPartContent);
   (str "unsupportedrangeheader", UnsupportedRangeHeader);
   (str "parseunexpectedtoken", ParseUnexpectedToken); (str "incompletebody", IncompleteBody);
   (str "parseinvalidpathcomponent", ParseInvalidPathComponent);
   (str "nosuchasyncrequest", NoSuchAsyncRequest);
   (str "requestheadersectiontoolarge", RequestHeaderSectionTooLarge);
   (str "invalidpolicydocument", InvalidPolicyDocument);
   (str "invalidquotefields", InvalidQuoteFields);
   (str "invalidfileheaderinfo", InvalidFileHeaderInfo);
   (str "maxpostpredatalengthexceedederror", MaxPostPreDataLengthExceededError);
   (str "nosuchcorsconfiguration", NoSuchCORSConfiguration);
   (str "parseexpectedexpression", ParseExpectedExpression);
   (str "invalidlocationconstraint", InvalidLocationConstraint);
   (str "responseinterrupted", ResponseInterrupted);
   (str "bucketalreadyexists", BucketAlreadyExists);
   (str "serviceunavailable", ServiceUnavailable);
   (str "illegalsqlfunctionargument", IllegalSqlFunctionArgument);
   (str "missingsecurityheader", MissingSecurityHeader);
   (str "allaccessdisabled", AllAccessDisabled);
   (str "tokenrefreshrequired", TokenRefreshRequired); (str "accessdenied", AccessDenied);
   (str "parseasteriskisnotaloneinselectlist", ParseAsteriskIsNotAloneInSelectList);
   (str "malformedaclerror", MalformedACLError);
   (str "parseexpected2tokentypes", ParseExpected2TokenTypes);
   (str "parseunexpectedoperator", ParseUnexpectedOperator); (str "malformedxml", MalformedXML);
   (str "ambiguousfieldname", AmbiguousFieldName);
   (str "crosslocationloggingprohibited", CrossLocationLoggingProhibited);
   (str "redirect", Redirect); (str "nologgingstatusforkey", NoLoggingStatusForKey);
   (str "incorrectnumberoffilesinpostrequest", IncorrectNumberOfFilesInPostRequest);
   (str "evaluatorinvalidtimestampformatpatternsymbolforparsing", EvaluatorInvalidTimestampFormatPatternSymbolForParsing);
   (str "parsenonunaryagregatefunctioncall", ParseNonUnaryAgregateFunctionCall);
   (str "nosuchbucket", NoSuchBucket); (str "missingsecurityelement", MissingSecurityElement);
   (str "invalidargument", InvalidArgument);
   (str "invalidbucketownerawsaccountid", InvalidBucketOwnerAWSAccountID);
   (str "invalidtextencoding", InvalidTextEncoding);
   (str "requesttorrentofbucketerror", RequestTorrentOfBucketError);
   (str "parseexpectednumber", ParseExpectedNumber);
   (str "illegalversioningconfigurationexception", IllegalVersioningConfigurationException);
   (str "invalidpartorder", InvalidPartOrder);
   (str "parseselectmissingfrom", ParseSelectMissingFrom);
   (str "externalevalexception", ExternalEvalException); (str "invalidrange", InvalidRange);
   (str "evaluatorinvalidtimestampformatpattern", EvaluatorInvalidTimestampFormatPattern);
   (str "notimplemented", NotImplemented)].

Definition S3_ERROR_CODE_DEFAULT_MESSAGE : list (bytes * bytes) :=
  [(str "ParseUnExpectedKeyword", str "The SQL expression contains an unexpected keyword.");
   (str "MaxMessageLengthExceeded", str "Your request was too big.");
   (str "CSVParsingError", str "An error occurred while parsing the CSV file. Check the file and try again.");
   (str "EmptyRequestBody", str "The request body cannot be empty.");
   (str "AccessControlListNotSupported", str "The bucket does not allow ACLs.");
   (str "MalformedPolicy", str "Your policy contains a principal that is not valid.");
   (str "ParseAsteriskIsNotAloneInSelectList", str "Other expressions are not allowed in the SELECT list when * is used without dot notation in the SQL expression.");
   (str "InvalidAddressingHeader", str "You must specify the Anonymous role.");
   (str "RequestHeaderSectionTooLarge", str "The request header and query parameters used to make the request exceed the maximum allowed size.");
   (str "MalformedPOSTRequest", str "The body of your POST request is not well-formed multipart/form-data.");
   (str "OperationAborted", str "A conflicting conditional action is currently in progress against this resource. Try again.");
   (str "AuthorizationHeaderMalformed", str "The authorization header you provided is invalid.");
   (str "InvalidEncryptionAlgorithmError", str "The encryption request you specified is not valid. The valid value is AES256.");
   (str "IllegalLocationConstraintException", str "The specified location constraint is not valid.");
   (str "InvalidStorageClass", str "The storage class you specified is not valid.");
   (str "InvalidObjectState", str "The action is not valid for the current state of the object.");
   (str "UnsupportedFunction", str "We encountered an unsupported SQL function.");
   (str "UnsupportedRangeHeader", str "A range header is not supported for this operation.");
   (str "ParseExpectedTypeName", str "The expected type name in the SQL expression was not found.");
   (str "PermanentRedirectControlError", str "The API operation you are attempting to access must be addressed using the specified endpoint. Send all future requests to this endpoint.");
   (str "CSVEscapingRecordDelimiter", str "A quoted record delimiter was found in the file. To allow quoted record delimiters, set AllowQuotedRecordDelimiter to 'TRUE'.");
   (str "AmbiguousFieldName", str "The field name matches to multiple fields in the file. Check the SQL expression and the file, and try again.");
   (str "InvalidBucketName", str "The specified bucket is not valid.");
   (str "EvaluatorInvalidTimestampFormatPattern", str "The timestamp format string in the SQL expression is not valid.");
   (str "EntityTooSmall", str "Your proposed upload is smaller than the minimum allowed object size.");
   (str "InvalidURI", str "Couldn't parse the specified URI.");
   (str "MissingSecurityHeader", str "Your request is missing a required header.");
   (str "InvalidTableAlias", str "The SQL expression contains a table alias that is not valid.");
   (str "UnsupportedScanRangeInput", str "Scan range queries are not supported on this type of object.");
   (str "PermanentRedirect", str "The bucket you are attempting to access must be addressed using the specified endpoint. Send all future requests to this endpoint.");
   (str "AllAccessDisabled", str "All access to this Amazon S3 resource has been disabled. Contact AWS Support for further assistance.");
   (str "UnsupportedSqlOperation", str "We encountered an unsupported SQL operation.");
   (str "NotImplemented", str "A header you provided implies functionality that is not implemented.");
   (str "InvalidPayer", str "All access to this object has been disabled. Please contact AWS Support for further assistance.");
   (str "InvalidDataType", str "The SQL expression contains a data type that is not valid.");
   (str "InvalidPolicyDocument", str "The content of the form does not meet the conditions specified in the policy document.");
   (str "IncorrectEndpoint", str "The specified bucket exists in another Region. Direct requests to the correct endpoint.");
   (str "ParseExpectedArgumentDelimiter", str "The expected argument delimiter in the SQL expression was not found.");
   (str "LexerInvalidChar", str "The SQL expression contains a character that is not valid.");
   (str "EvaluatorInvalidTimestampFormatPatternSymbolForParsing", str "The timestamp format pattern contains a valid format symbol that cannot be applied to timestamp parsing in the SQL expression.");
   (str "ConnectionClosedByRequester", str "Returned to the original caller when an error is encountered while reading the WriteGetObjectResponse body.");
   (str "InvalidDataSource", str "The data source type is not valid. Only CSV, JSON, and Parquet are supported.");
   (str "EvaluatorInvalidTimestampFormatPatternSymbol", str "The timestamp format pattern contains a symbol in the SQL expression that is not valid.");
   (str "InvalidJsonType", str "The JsonType value is not valid. Only DOCUMENT and LINES are supported.");
   (str "NoSuchLifecycleConfiguration", str "The lifecycle configuration does not exist.");
   (str "IncompleteBody", str "You did not provide the number of bytes specified by the Content-Length HTTP header");
   (str "ParseUnexpectedToken", str "The SQL expression contains an unexpected token.");
   (str "UnsupportedTypeForQuerying", str "Your query contains an unsupported type for comparison (e.g. verifying that a Parquet INT96 column type is greater than 0).");
   (str "InvalidQuoteFields", str "The QuoteFields value is not valid. Only ALWAYS and ASNEEDED are supported.");
   (str "UserKeyMustBeSpecified", str "The bucket POST must contain the specified field name. If it is specified, check the order of the fields.");
   (str "ClientTokenConflict", str "Your Multi-Region Access Point idempotency token was already used for a different request.");
   (str "EndpointNotFound", str "Direct requests to the correct endpoint.");
   (str "OwnershipControlsNotFoundError", str "The bucket ownership controls were not found.");
   (str "ExpiredToken", str "The provided token has expired.");
   (str "ParseUnsupportedSyntax", str "The SQL expression contains unsupported syntax.");
   (str "InvalidArgument", str "Invalid argument.");
   (str "MaxOperatorsExceeded", str "Failed to parse SQL expression, try reducing complexity. For example, reduce number of operators used.");
   (str "CastFailed", str "An attempt to convert from one data type to another using CAST failed in the SQL expression.");
   (str "ExternalEvalException", str "The query cannot be evaluated. Check the file and try again.");
   (str "NoSuchBucketPolicy", str "The specified bucket does not have a bucket policy.");
   (str "InvalidHostHeader", str "The host headers provided in the request used the incorrect style addressing.");
   (str "LexerInvalidLiteral", str "The SQL expression contains an operator that is not valid.");
   (str "InvalidSignature", str "The request signature that the server calculated does not match the signature that you provided. Check your AWS secret access key and signing method. For more information, see Signing and authenticating REST requests.");
   (str "ParseUnsupportedSelect", str "The SQL expression contains an unsupported use of SELECT.");
   (str "ParseExpectedDatePart", str "The expected date part in the SQL expression was not found.");
   (str "InvalidBucketState", str "The request is not valid with the current state of the bucket.");
   (str "TruncatedInput", str "Object decompression failed. Check that the object is properly compressed using the format specified in the request.");
   (str "MissingContentLength", str "You must provide the Content-Length HTTP header.");
   (str "ParseInvalidPathComponent", str "The SQL expression contains a path component that is not valid.");
   (str "ParseExpectedIdentForGroupName", str "GROUP is not supported in the SQL expression.");
   (str "DeviceNotActiveError", str "The device is not currently active.");
   (str "Redirect", str "Temporary redirect. You are being redirected to the bucket while the Domain Name System (DNS) server is being updated.");
   (str "LexerInvalidOperator", str "The SQL expression contains a literal that is not valid.");
   (str "InvalidTargetBucketForLogging", str "The target bucket for logging does not exist, is not owned by you, or does not have the appropriate grants for the log-delivery group.");
   (str "MethodNotAllowed", str "The specified method is not allowed against this resource.");
   (str "MissingAttachment", str "A SOAP attachment was expected, but none were found.");
   (str "InvalidRequest", str "Invalid request.");
   (str "InvalidSecurity", str "The provided security credentials are not valid.");
   (str "ExpressionTooLong", str "The SQL expression is too long. The maximum byte-length for an SQL expression is 256 KB.");
   (str "ParseNonUnaryAgregateFunctionCall", str "Only one argument is supported for aggregate functions in the SQL expression.");
   (str "ParseInvalidTypeParam", str "The SQL expression contains a parameter value that is not valid.");
   (str "MalformedXML", str "This happens when the user sends malformed XML (XML that doesn't conform to the published XSD) for the configuration. The error message is, " ++ [x22] ++ str "The XML you provided was not well-formed or did not validate against our published schema." ++ [x22]);
   (str "ParseExpectedKeyword", str "The expected keyword in the SQL expression was not found.");
   (str "RequestTorrentOfBucketError", str "Requesting the torrent file of a bucket is not permitted.");
   (str "UnexpectedIPError", str "Applicable in China Regions only. This request was rejected because the IP was unexpected.");
   (str "InvalidCast", str "An attempt to convert from one data type to another using CAST failed in the SQL expression.");
   (str "ParseExpectedRightParenBuiltinFunctionCall", str "The expected right parenthesis character in the SQL expression was not found.");
   (str "ParseExpectedTokenType", str "The expected token in the SQL expression was not found.");
   (str "AccountProblem", str "There is a problem with your AWS account that prevents the action from completing successfully. Contact AWS Support for further assistance.");
   (str "AccessDenied", str "Access Denied");
   (str "InvalidAccessPointAliasError", str "The specified access point alias name is not valid.");
   (str "InvalidColumnIndex", str "The column index in the SQL expression is not valid.");
   (str "InvalidDigest", str "The Content-MD5 you specified is not valid.");
   (str "NotSignedUp", str "Your account is not signed up for the Amazon S3 service. You must sign up before you can use Amazon S3. You can sign up at the following URL: Amazon S3");
   (str "ParseExpectedIdentForAlias", str "The expected identifier for the alias in the SQL expression was not found.");
   (str "ObjectSerializationConflict", str "InputSerialization specifies more than one format (CSV, JSON, or Parquet), or OutputSerialization specifies more than one format (CSV or JSON). For InputSerialization and OutputSerialization, you can specify only one format for each.");
   (str "ParseUnexpectedOperator", str "The SQL expression contains an unexpected operator.");
   (str "TokenCodeInvalidError", str "The serial number and/or token code you provided is not valid.");
   (str "ParseExpectedExpression", str "The expected SQL expression was not found.");
   (str "ParseExpectedMember", str "The SQL expression contains an unsupported use of MEMBER.");
   (str "PreconditionFailed", str "At least one of the preconditions you specified did not hold.");
   (str "BadDigest", str "The Content-MD5 you specified did not match what we received.");
   (str "InvalidPart", str "One or more of the specified parts could not be found. The part might not have been uploaded, or the specified entity tag might not have matched the part's entity tag.");
   (str "InvalidLocationConstraint", str "The specified location constraint is not valid. For more information about Regions, see How to Select a Region for Your Buckets.");
   (str "ParquetUnsupportedCompressionCodec", str "The specified Parquet compression codec is not supported.");
   (str "ParseCastArity", str "The SQL expression CAST has incorrect arity.");
   (str "NoTransformationDefined", str "No transformation found for this Object Lambda Access Point.");
   (str "InvalidCompressionFormat", str "The file is not in a supported compression format. Only GZIP and BZIP2 are supported.");
   (str "NoSuchAccessPoint", str "The specified access point does not exist.");
   (str "InlineDataTooLarge", str "Inline data exceeds the maximum allowed size.");
   (str "TooManyMultiRegionAccessPoints", str "You have attempted to create more Multi-Region Access Points than are allowed for an account. For more information, see Amazon Simple Storage Service endpoints and quotas in the AWS General Reference.");
   (str "ParseUnsupportedCallWithStar", str "Only COUNT with (*) as a parameter is supported in the SQL expression.");
   (str "ParseUnexpectedTerm", str "The SQL expression contains an unexpected term.");
   (str "Busy", str "The service is unavailable. Try again later.");
   (str "InvalidTextEncoding", str "The encoding type is not valid. Only UTF-8 encoding is supported.");
   (str "IncorrectSqlFunctionArgumentType", str "An incorrect argument type was specified in a function call in the SQL expression.");
   (str "UnresolvableGrantByEmailAddress", str "The email address you provided does not match any account on record.");
   (str "NoSuchVersion", str "Indicates that the version ID specified in the request does not match an existing version.");
   (str "InvalidRange", str "The requested range cannot be satisfied.");
   (str "InvalidPartOrder", str "The list of parts was not in ascending order. Parts list must be specified in order by part number.");
   (str "BucketNotEmpty", str "The bucket you tried to delete is not empty.");
   (str "TemporaryRedirect", str "You are being redirected to the bucket while DNS updates.");
   (str "MissingSecurityElement", str "The SOAP 1.1 request is missing a security element.");
   (str "TooManyAccessPoints", str "You have attempted to create more access points than are allowed for an account. For more information, see Amazon Simple Storage Service endpoints and quotas in the AWS General Reference.");
   (str "UnauthorizedAccessError", str "Applicable in China Regions only. Returned when a request is made to a bucket that doesn't have an ICP license. For more information, see ICP Recordal.");
   (str "NoSuchWebsiteConfiguration", str "The specified bucket does not have a website configuration.");
   (str "ParseExpectedWhenClause", str "The expected WHEN clause in the SQL expression was not found. CASE is not supported.");
   (str "RestoreAlreadyInProgress", str "Object restore is already in progress.");
   (str "MissingAuthenticationToken", str "The request was not signed.");
   (str "ParseExpected2TokenTypes", str "The expected token in the SQL expression was not found.");
   (str "AccessPointAlreadyOwnedByYou", str "An access point with an identical name already exists in your account.");
   (str "UnsupportedSignature", str "The provided request is signed with an unsupported STS Token version or the signature version is not supported.");
   (str "ParseUnsupportedCaseClause", str "The SQL expression contains an unsupported use of CASE.");
   (str "TooManyMultiRegionAccessPointregionsError", str "You have attempted to create a Multi-Region Access Point with more Regions than are allowed for an account. For more information, see Amazon Simple Storage Service endpoints and quotas in the AWS General Reference.");
   (str "NumberFormatError", str "An error occurred while parsing a number. This error can be caused by underflow or overflow of integers.");
   (str "ParseExpectedLeftParenValueConstructor", str "The expected left parenthesis in the SQL expression was not found.");
   (str "MissingRequiredParameter", str "The SelectRequest entity is missing a required parameter. Check the service documentation and try again.");
   (str "NoSuchObjectLockConfiguration", str "The specified object does not have an ObjectLock configuration.");
   (str "NoSuchCORSConfiguration", str "The specified bucket does not have a CORS configuration.");
   (str "ReplicationConfigurationNotFoundError", str "There is no replication configuration for this bucket.");
   (str "ParseEmptySelect", str "The SQL expression contains an empty SELECT clause.");
   (str "AuthorizationQueryParametersError", str "The authorization query parameters that you provided are not valid.");
   (str "SignatureDoesNotMatch", str "The request signature we calculated does not match the signature you provided. Check your AWS secret access key and signing method. For more information, see REST Authentication and SOAP Authentication for details.");
   (str "TooManyTags", str "The number of tags exceeds the limit of 50 tags.");
   (str "ColumnTooLong", str "The length of a column in the result is greater than maxCharsPerColumn of 1 MB.");
   (str "JSONParsingError", str "An error occurred while parsing the JSON file. Check the file and try again.");
   (str "BucketAlreadyOwnedByYou", str "The bucket you tried to create already exists, and you own it. Amazon S3 returns this error in all AWS Regions except in the North Virginia Region. For legacy compatibility, if you re-create an existing bucket that you already own in the North Virginia Region, Amazon S3 returns 200 OK and resets the bucket access control lists (ACLs).");
   (str "BucketAlreadyExists", str "The requested bucket name is not available. The bucket namespace is shared by all users of the system. Please select a different name and try again.");
   (str "AmbiguousGrantByEmailAddress", str "The email address you provided is associated with more than one account.");
   (str "ServerSideEncryptionConfigurationNotFoundError", str "The server-side encryption configuration was not found.");
   (str "InvalidFileHeaderInfo", str "The FileHeaderInfo value is not valid. Only NONE, USE, and IGNORE are supported.");
   (str "TooManyBuckets", str "You have attempted to create more buckets than are allowed for an account. For more information, see Amazon Simple Storage Service endpoints and quotas in the AWS General Reference.");
   (str "ObjectLockConfigurationNotFoundError", str "The Object Lock configuration does not exist for this bucket.");
   (str "ResponseInterrupted", str "Returned to the original caller when an error is encountered while reading the WriteGetObjectResponse body.");
   (str "NoSuchMultiRegionAccessPoint", str "The specified Multi-Region Access Point does not exist.");
   (str "BucketHasAccessPointsAttached", str "The bucket you tried to delete has access points attached. Delete your access points before deleting your bucket.");
   (str "EvaluatorTimestampFormatPatternDuplicateFields", str "The timestamp format pattern contains multiple format specifiers representing the timestamp field in the SQL expression.");
   (str "InvalidBucketOwnerAWSAccountID", str "The value of the expected bucket owner parameter must be an AWS account ID.");
   (str "IllegalVersioningConfigurationException", str "Indicates that the versioning configuration specified in the request is invalid.");
   (str "EvaluatorBindingDoesNotExist", str "A column name or a path provided does not exist in the SQL expression.");
   (str "MalformedACLError", str "The XML you provided was not well-formed or did not validate against our published schema.");
   (str "ParseCannotMixSqbAndWildcardInSelectList", str "Cannot mix [] and * in the same expression in a SELECT list in the SQL expression.");
   (str "UnsupportedParquetType", str "The specified Parquet type is not supported.");
   (str "ParseUnsupportedToken", str "The SQL expression contains an unsupported token.");
   (str "InvalidTag", str "Your request contains tag input that is not valid. For example, your request might contain duplicate keys, keys or values that are too long, or system tags.");
   (str "UnsupportedSqlStructure", str "We encountered an unsupported SQL structure. Check the SQL Reference.");
   (str "NotDeviceOwnerError", str "The device that generated the token is not owned by the authenticated user.");
   (str "CredentialsNotSupported", str "This request does not support credentials.");
   (str "EvaluatorInvalidArguments", str "There is an incorrect number of arguments in the function call in the SQL expression.");
   (str "NoSuchBucket", str "The specified bucket does not exist.");
   (str "TagPolicyException", str "The tag policy does not allow the specified value for the following tag key.");
   (str "EvaluatorTimestampFormatPatternHourClockAmPmMismatch", str "The timestamp format pattern contains a 12-hour hour of day format symbol but doesn't also contain an AM/PM field, or it contains a 24-hour hour of day format specifier and contains an AM/PM field in the SQL expression.");
   (str "InvalidScanRange", str "The provided scan range is not valid.");
   (str "ParseMissingIdentAfterAt", str "The expected identifier after the @ symbol in the SQL expression was not found.");
   (str "MetadataTooLarge", str "Your metadata headers exceed the maximum allowed metadata size.");
   (str "EvaluatorInvalidTimestampFormatPatternToken", str "The timestamp format pattern contains a token in the SQL expression that is not valid.");
   (str "ParseMalformedJoin", str "JOIN is not supported in the SQL expression.");
   (str "ParseExpectedNumber", str "The expected number in the SQL expression was not found.");
   (str "SlowDown", str "Reduce your request rate.");
   (str "InvalidExpressionType", str "The ExpressionType value is not valid. Only SQL expressions are supported.");
   (str "ParseExpectedLeftParenBuiltinFunctionCall", str "The expected left parenthesis in the SQL expression was not found.");
   (str "ValueParseFailure", str "A timestamp parse failure occurred in the SQL expression.");
   (str "ParseUnsupportedCase", str "The SQL expression contains an unsupported use of CASE.");
   (str "ParseExpectedIdentForAt", str "The expected identifier for AT name in the SQL expression was not found.");
   (str "InvalidAccessKeyId", str "The AWS access key ID you provided does not exist in our records.");
   (str "EvaluatorUnterminatedTimestampFormatPatternToken", str "The timestamp format pattern contains an unterminated token in the SQL expression.");
   (str "NoSuchAsyncRequest", str "The specified request was not found.");
   (str "NotModified", str "The resource was not changed.");
   (str "ServiceUnavailable", str "Service is unable to handle request.");
   (str "IllegalSqlFunctionArgument", str "An illegal argument was used in the SQL function.");
   (str "UnsupportedArgument", str "The request contained an unsupported argument.");
   (str "UnauthorizedAccess", str "You are not authorized to perform this operation.");
   (str "CSVUnescapedQuote", str "An unescaped quote was found while parsing the CSV file. To allow quoted record delimiters, set AllowQuotedRecordDelimiter to 'TRUE'.");
   (str "TokenRefreshRequired", str "The provided token must be refreshed.");
   (str "CrossLocationLoggingProhibited", str "Cross-location logging not allowed. Buckets in one geographic location cannot log information to a bucket in another location.");
   (str "ParseInvalidContextForWildcardInSelectList", str "The use of * in the SELECT list in the SQL expression is not valid.");
   (str "InvalidAccessPoint", str "The specified access point name or account is not valid.");
   (str "UnsupportedStorageClass", str "We encountered a storage class that is not supported. Only STANDARD, STANDARD_IA, and ONEZONE_IA storage classes are supported.");
   (str "NoSuchUpload", str "The specified multipart upload does not exist. The upload ID might be invalid, or the multipart upload might have been aborted or completed.");
   (str "RequestIsNotMultiPartContent", str "Bucket POST must be of the enclosure-type multipart/form-data.");
   (str "InvalidSessionException", str "Returned if the session doesn't exist anymore because it timed out or expired.");
   (str "EvaluatorLikePatternInvalidEscapeSequence", str "An argument given to the LIKE expression was not valid.");
   (str "UnexpectedContent", str "This request does not support content.");
   (str "NoLoggingStatusForKey", str "There is no such thing as a logging status subresource for a key.");
   (str "ParseUnknownOperator", str "The SQL expression contains an operator that is not valid.");
   (str "EvaluatorNegativeLimit", str "LIMIT must not be negative.");
   (str "OverMaxColumn", str "The number of columns in the result is greater than the maximum allowable number of columns.");
   (str "ConditionalRequestConflict", str "A conflicting operation occurred. If using PutObject you can retry the request. If using multipart upload you should initiate another CreateMultipartUpload request and re-upload each part.");
   (str "InvalidBucketAclWithObjectOwnership", str "Bucket cannot have ACLs set with ObjectOwnership's BucketOwnerEnforced setting.");
   (str "InvalidRegion", str "You've attempted to create a Multi-Region Access Point in a Region that you haven't opted in to.");
   (str "InvalidSOAPRequest", str "The SOAP request body is invalid.");
   (str "InvalidKeyPath", str "The key path in the SQL expression is not valid.");
   (str "InternalError", str "We encountered an internal error. Please try again.");
   (str "OverMaxParquetBlockSize", str "The Parquet file is above the max row group size.");
   (str "UnrecognizedFormatException", str "We encountered a record type that is not valid.");
   (str "LexerInvalidIONLiteral", str "The SQL expression contains an operator that is not valid.");
   (str "InvalidHttpMethod", str "The request is made using an unexpected HTTP method.");
   (str "ParquetParsingError", str "An error occurred while parsing the Parquet file. Check the file and try again.");
   (str "IncorrectNumberOfFilesInPostRequest", str "POST requires exactly one file upload per request.");
   (str "ParseExpectedLeftParenAfterCast", str "The expected left parenthesis after CAST in the SQL expression was not found.");
   (str "KeyTooLongError", str "Your key is too long.");
   (str "OverMaxRecordSize", str "The length of a record in the input or result is greater than the maxCharsPerRecord limit of 1 MB.");
   (str "RequestTimeout", str "Your socket connection to the server was not read from or written to within the timeout period.");
   (str "LikeInvalidInputs", str "The argument given to the LIKE clause in the SQL expression is not valid.");
   (str "InvalidToken", str "The provided token is malformed or otherwise invalid.");
   (str "ParseUnsupportedLiteralsGroupBy", str "The SQL expression contains an unsupported use of GROUP BY.");
   (str "IntegerOverflow", str "An integer overflow or underflow occurred in the SQL expression.");
   (str "UnsupportedSyntax", str "We encountered syntax that is not valid.");
   (str "MaxPostPreDataLengthExceededError", str "Your POST request fields preceding the upload file were too large.");
   (str "RequestTimeTooSkewed", str "The difference between the request time and the server's time is too large.");
   (str "InvalidRequestParameter", str "The value of a parameter in the SelectRequest element is not valid. Check the service API documentation and try again.");
   (str "NoSuchTagSet", str "The specified tag does not exist.");
   (str "MissingRequestBodyError", str "This happens when the user sends an empty XML document as a request. The error message is, " ++ [x22] ++ str "Request body is empty." ++ [x22]);
   (str "EntityTooLarge", str "Your proposed upload exceeds the maximum allowed object size.");
   (str "MultipleDataSourcesUnsupported", str "Multiple data sources are not supported.");
   (str "NoSuchResource", str "The specified resource doesn't exist.");
   (str "NoSuchKey", str "The specified key does not exist.");
   (str "ParseUnsupportedAlias", str "The SQL expression contains an unsupported use of ALIAS.");
   (str "ParseSelectMissingFrom", str "The SQL expression contains a missing FROM after the SELECT list.")].

Definition STATIC_CODE_LIST : list bytes :=
  [str "AccessControlListNotSupported"; str "AccessDenied"; str "AccessPointAlreadyOwnedByYou";
   str "AccountProblem"; str "AllAccessDisabled"; str "AmbiguousFieldName";
   str "AmbiguousGrantByEmailAddress"; str "AuthorizationHeaderMalformed";
   str "AuthorizationQueryParametersError"; str "BadDigest"; str "BucketAlreadyExists";
   str "BucketAlreadyOwnedByYou"; str "BucketHasAccessPointsAttached"; str "BucketNotEmpty";
   str "Busy"; str "CSVEscapingRecordDelimiter"; str "CSVParsingError"; str "CSVUnescapedQuote";
   str "CastFailed"; str "ClientTokenConflict"; str "ColumnTooLong";
   str "ConditionalRequestConflict"; str "ConnectionClosedByRequester";
   str "CredentialsNotSupported"; str "CrossLocationLoggingProhibited";
   str "DeviceNotActiveError"; str "EmptyRequestBody"; str "EndpointNotFound";
   str "EntityTooLarge"; str "EntityTooSmall"; str "EvaluatorBindingDoesNotExist";
   str "EvaluatorInvalidArguments"; str "EvaluatorInvalidTimestampFormatPattern";
   str "EvaluatorInvalidTimestampFormatPatternSymbol";
   str "EvaluatorInvalidTimestampFormatPatternSymbolForParsing";
   str "EvaluatorInvalidTimestampFormatPatternToken";
   str "EvaluatorLikePatternInvalidEscapeSequence"; str "EvaluatorNegativeLimit";
   str "EvaluatorTimestampFormatPatternDuplicateFields";
   str "EvaluatorTimestampFormatPatternHourClockAmPmMismatch";
   str "EvaluatorUnterminatedTimestampFormatPatternToken"; str "ExpiredToken";
   str "ExpressionTooLong"; str "ExternalEvalException";
   str "IllegalLocationConstraintException"; str "IllegalSqlFunctionArgument";
   str "IllegalVersioningConfigurationException"; str "IncompleteBody"; str "IncorrectEndpoint";
   str "IncorrectNumberOfFilesInPostRequest"; str "IncorrectSqlFunctionArgumentType";
   str "InlineDataTooLarge"; str "IntegerOverflow"; str "InternalError";
   str "InvalidAccessKeyId"; str "InvalidAccessPoint"; str "InvalidAccessPointAliasError";
   str "InvalidAddressingHeader"; str "InvalidArgument";
   str "InvalidBucketAclWithObjectOwnership"; str "InvalidBucketName";
   str "InvalidBucketOwnerAWSAccountID"; str "InvalidBucketState"; str "InvalidCast";
   str "InvalidColumnIndex"; str "InvalidCompressionFormat"; str "InvalidDataSource";
   str "InvalidDataType"; str "InvalidDigest"; str "InvalidEncryptionAlgorithmError";
   str "InvalidExpressionType"; str "InvalidFileHeaderInfo"; str "InvalidHostHeader";
   str "InvalidHttpMethod"; str "InvalidJsonType"; str "InvalidKeyPath";
   str "InvalidLocationConstraint"; str "InvalidObjectState"; str "InvalidPart";
   str "InvalidPartOrder"; str "InvalidPayer"; str "InvalidPolicyDocument";
   str "InvalidQuoteFields"; str "InvalidRange"; str "InvalidRegion"; str "InvalidRequest";
   str "InvalidRequestParameter"; str "InvalidSOAPRequest"; str "InvalidScanRange";
   str "InvalidSecurity"; str "InvalidSessionException"; str "InvalidSignature";
   str "InvalidStorageClass"; str "InvalidTableAlias"; str "InvalidTag";
   str "InvalidTargetBucketForLogging"; str "InvalidTextEncoding"; str "InvalidToken";
   str "InvalidURI"; str "JSONParsingError"; str "KeyTooLongError"; str "LexerInvalidChar";
   str "LexerInvalidIONLiteral"; str "LexerInvalidLiteral"; str "LexerInvalidOperator";
   str "LikeInvalidInputs"; str "MalformedACLError"; str "MalformedPOSTRequest";
   str "MalformedPolicy"; str "MalformedXML"; str "MaxMessageLengthExceeded";
   str "MaxOperatorsExceeded"; str "MaxPostPreDataLengthExceededError"; str "MetadataTooLarge";
   str "MethodNotAllowed"; str "MissingAttachment"; str "MissingAuthenticationToken";
   str "MissingContentLength"; str "MissingRequestBodyError"; str "MissingRequiredParameter";
   str "MissingSecurityElement"; str "MissingSecurityHeader";
   str "MultipleDataSourcesUnsupported"; str "NoLoggingStatusForKey"; str "NoSuchAccessPoint";
   str "NoSuchAsyncRequest"; str "NoSuchBucket"; str "NoSuchBucketPolicy";
   str "NoSuchCORSConfiguration"; str "NoSuchKey"; str "NoSuchLifecycleConfiguration";
   str "NoSuchMultiRegionAccessPoint"; str "NoSuchObjectLockConfiguration"; str "NoSuchResource";
   str "NoSuchTagSet"; str "NoSuchUpload"; str "NoSuchVersion"; str "NoSuchWebsiteConfiguration";
   str "NoTransformationDefined"; str "NotDeviceOwnerError"; str "NotImplemented";
   str "NotModified"; str "NotSignedUp"; str "NumberFormatError";
   str "ObjectLockConfigurationNotFoundError"; str "ObjectSerializationConflict";
   str "OperationAborted"; str "OverMaxColumn"; str "OverMaxParquetBlockSize";
   str "OverMaxRecordSize"; str "OwnershipControlsNotFoundError"; str "ParquetParsingError";
   str "ParquetUnsupportedCompressionCodec"; str "ParseAsteriskIsNotAloneInSelectList";
   str "ParseCannotMixSqbAndWildcardInSelectList"; str "ParseCastArity"; str "ParseEmptySelect";
   str "ParseExpected2TokenTypes"; str "ParseExpectedArgumentDelimiter";
   str "ParseExpectedDatePart"; str "ParseExpectedExpression"; str "ParseExpectedIdentForAlias";
   str "ParseExpectedIdentForAt"; str "ParseExpectedIdentForGroupName";
   str "ParseExpectedKeyword"; str "ParseExpectedLeftParenAfterCast";
   str "ParseExpectedLeftParenBuiltinFunctionCall"; str "ParseExpectedLeftParenValueConstructor";
   str "ParseExpectedMember"; str "ParseExpectedNumber";
   str "ParseExpectedRightParenBuiltinFunctionCall"; str "ParseExpectedTokenType";
   str "ParseExpectedTypeName"; str "ParseExpectedWhenClause";
   str "ParseInvalidContextForWildcardInSelectList"; str "ParseInvalidPathComponent";
   str "ParseInvalidTypeParam"; str "ParseMalformedJoin"; str "ParseMissingIdentAfterAt";
   str "ParseNonUnaryAgregateFunctionCall"; str "ParseSelectMissingFrom";
   str "ParseUnExpectedKeyword"; str "ParseUnexpectedOperator"; str "ParseUnexpectedTerm";
   str "ParseUnexpectedToken"; str "ParseUnknownOperator"; str "ParseUnsupportedAlias";
   str "ParseUnsupportedCallWithStar"; str "ParseUnsupportedCase";
   str "ParseUnsupportedCaseClause"; str "ParseUnsupportedLiteralsGroupBy";
   str "ParseUnsupportedSelect"; str "ParseUnsupportedSyntax"; str "ParseUnsupportedToken";
   str "PermanentRedirect"; str "PermanentRedirectControlError"; str "PreconditionFailed";
   str "Redirect"; str "ReplicationConfigurationNotFoundError";
   str "RequestHeaderSectionTooLarge"; str "RequestIsNotMultiPartContent";
   str "RequestTimeTooSkewed"; str "RequestTimeout"; str "RequestTorrentOfBucketError";
   str "ResponseInterrupted"; str "RestoreAlreadyInProgress";
   str "ServerSideEncryptionConfigurationNotFoundError"; str "ServiceUnavailable";
   str "SignatureDoesNotMatch"; str "SlowDown"; str "TagPolicyException";
   str "TemporaryRedirect"; str "TokenCodeInvalidError"; str "TokenRefreshRequired";
   str "TooManyAccessPoints"; str "TooManyBuckets";
   str "TooManyMultiRegionAccessPointregionsError"; str "TooManyMultiRegionAccessPoints";
   str "TooManyTags"; str "TruncatedInput"; str "UnauthorizedAccess";
   str "UnauthorizedAccessError"; str "UnexpectedContent"; str "UnexpectedIPError";
   str "UnrecognizedFormatException"; str "UnresolvableGrantByEmailAddress";
   str "UnsupportedArgument"; str "UnsupportedFunction"; str "UnsupportedParquetType";
   str "UnsupportedRangeHeader"; str "UnsupportedScanRangeInput"; str "UnsupportedSignature";
   str "UnsupportedSqlOperation"; str "UnsupportedSqlStructure"; str "UnsupportedStorageClass";
   str "UnsupportedSyntax"; str "UnsupportedTypeForQuerying"; str "UserKeyMustBeSpecified";
   str "ValueParseFailure"].

Definition as_enum_tag (self : S3ErrorCode) : Z :=
  match self with
  | AccessControlListNotSupported => 0 | AccessDenied => 1 | AccessPointAlreadyOwnedByYou => 2
  | AccountProblem => 3 | AllAccessDisabled => 4 | AmbiguousFieldName => 5
  | AmbiguousGrantByEmailAddress => 6 | AuthorizationHeaderMalformed => 7
  | AuthorizationQueryParametersError => 8 | BadDigest => 9 | BucketAlreadyExists => 10
  | BucketAlreadyOwnedByYou => 11 | BucketHasAccessPointsAttached => 12 | BucketNotEmpty => 13
  | Busy => 14 | CSVEscapingRecordDelimiter => 15 | CSVParsingError => 16
  | CSVUnescapedQuote => 17 | CastFailed => 18 | ClientTokenConflict => 19 | ColumnTooLong => 20
  | ConditionalRequestConflict => 21 | ConnectionClosedByRequester => 22
  | CredentialsNotSupported => 23 | CrossLocationLoggingProhibited => 24
  | DeviceNotActiveError => 25 | EmptyRequestBody => 26 | EndpointNotFound => 27
  | EntityTooLarge => 28 | EntityTooSmall => 29 | EvaluatorBindingDoesNotExist => 30
  | EvaluatorInvalidArguments => 31 | EvaluatorInvalidTimestampFormatPattern => 32
  | EvaluatorInvalidTimestampFormatPatternSymbol => 33
  | EvaluatorInvalidTimestampFormatPatternSymbolForParsing => 34
  | EvaluatorInvalidTimestampFormatPatternToken => 35
  | EvaluatorLikePatternInvalidEscapeSequence => 36 | EvaluatorNegativeLimit => 37
  | EvaluatorTimestampFormatPatternDuplicateFields => 38
  | EvaluatorTimestampFormatPatternHourClockAmPmMismatch => 39
  | EvaluatorUnterminatedTimestampFormatPatternToken => 40 | ExpiredToken => 41
  | ExpressionTooLong => 42 | ExternalEvalException => 43
  | IllegalLocationConstraintException => 44 | IllegalSqlFunctionArgument => 45
  | IllegalVersioningConfigurationException => 46 | IncompleteBody => 47
  | IncorrectEndpoint => 48 | IncorrectNumberOfFilesInPostRequest => 49
  | IncorrectSqlFunctionArgumentType => 50 | InlineDataTooLarge => 51 | IntegerOverflow => 52
  | InternalError => 53 | InvalidAccessKeyId => 54 | InvalidAccessPoint => 55
  | InvalidAccessPointAliasError => 56 | InvalidAddressingHeader => 57 | InvalidArgument => 58
  | InvalidBucketAclWithObjectOwnership => 59 | InvalidBucketName => 60
  | InvalidBucketOwnerAWSAccountID => 61 | InvalidBucketState => 62 | InvalidCast => 63
  | InvalidColumnIndex => 64 | InvalidCompressionFormat => 65 | InvalidDataSource => 66
  | InvalidDataType => 67 | InvalidDigest => 68 | InvalidEncryptionAlgorithmError => 69
  | InvalidExpressionType => 70 | InvalidFileHeaderInfo => 71 | InvalidHostHeader => 72
  | InvalidHttpMethod => 73 | InvalidJsonType => 74 | InvalidKeyPath => 75
  | InvalidLocationConstraint => 76 | InvalidObjectState => 77 | InvalidPart => 78
  | InvalidPartOrder => 79 | InvalidPayer => 80 | InvalidPolicyDocument => 81
  | InvalidQuoteFields => 82 | InvalidRange => 83 | InvalidRegion => 84 | InvalidRequest => 85
  | InvalidRequestParameter => 86 | InvalidSOAPRequest => 87 | InvalidScanRange => 88
  | InvalidSecurity => 89 | InvalidSessionException => 90 | InvalidSignature => 91
  | InvalidStorageClass => 92 | InvalidTableAlias => 93 | InvalidTag => 94
  | InvalidTargetBucketForLogging => 95 | InvalidTextEncoding => 96 | InvalidToken => 97
  | InvalidURI => 98 | JSONParsingError => 99 | KeyTooLongError => 100 | LexerInvalidChar => 101
  | LexerInvalidIONLiteral => 102 | LexerInvalidLiteral => 103 | LexerInvalidOperator => 104
  | LikeInvalidInputs => 105 | MalformedACLError => 106 | MalformedPOSTRequest => 107
  | MalformedPolicy => 108 | MalformedXML => 109 | MaxMessageLengthExceeded => 110
  | MaxOperatorsExceeded => 111 | MaxPostPreDataLengthExceededError => 112
  | MetadataTooLarge => 113 | MethodNotAllowed => 114 | MissingAttachment => 115
  | MissingAuthenticationToken => 116 | MissingContentLength => 117
  | MissingRequestBodyError => 118 | MissingRequiredParameter => 119
  | MissingSecurityElement => 120 | MissingSecurityHeader => 121
  | MultipleDataSourcesUnsupported => 122 | NoLoggingStatusForKey => 123
  | NoSuchAccessPoint => 124 | NoSuchAsyncRequest => 125 | NoSuchBucket => 126
  | NoSuchBucketPolicy => 127 | NoSuchCORSConfiguration => 128 | NoSuchKey => 129
  | NoSuchLifecycleConfiguration => 130 | NoSuchMultiRegionAccessPoint => 131
  | NoSuchObjectLockConfiguration => 132 | NoSuchResource => 133 | NoSuchTagSet => 134
  | NoSuchUpload => 135 | NoSuchVersion => 136 | NoSuchWebsiteConfiguration => 137
  | NoTransformationDefined => 138 | NotDeviceOwnerError => 139 | NotImplemented => 140
  | NotModified => 141 | NotSignedUp => 142 | NumberFormatError => 143
  | ObjectLockConfigurationNotFoundError => 144 | ObjectSerializationConflict => 145
  | OperationAborted => 146 | OverMaxColumn => 147 | OverMaxParquetBlockSize => 148
  | OverMaxRecordSize => 149 | OwnershipControlsNotFoundError => 150 | ParquetParsingError => 151
  | ParquetUnsupportedCompressionCodec => 152 | ParseAsteriskIsNotAloneInSelectList => 153
  | ParseCannotMixSqbAndWildcardInSelectList => 154 | ParseCastArity => 155
  | ParseEmptySelect => 156 | ParseExpected2TokenTypes => 157
  | ParseExpectedArgumentDelimiter => 158 | ParseExpectedDatePart => 159
  | ParseExpectedExpression => 160 | ParseExpectedIdentForAlias => 161
  | ParseExpectedIdentForAt => 162 | ParseExpectedIdentForGroupName => 163
  | ParseExpectedKeyword => 164 | ParseExpectedLeftParenAfterCast => 165
  | ParseExpectedLeftParenBuiltinFunctionCall => 166
  | ParseExpectedLeftParenValueConstructor => 167 | ParseExpectedMember => 168
  | ParseExpectedNumber => 169 | ParseExpectedRightParenBuiltinFunctionCall => 170
  | ParseExpectedTokenType => 171 | ParseExpectedTypeName => 172 | ParseExpectedWhenClause => 173
  | ParseInvalidContextForWildcardInSelectList => 174 | ParseInvalidPathComponent => 175
  | ParseInvalidTypeParam => 176 | ParseMalformedJoin => 177 | ParseMissingIdentAfterAt => 178
  | ParseNonUnaryAgregateFunctionCall => 179 | ParseSelectMissingFrom => 180
  | ParseUnExpectedKeyword => 181 | ParseUnexpectedOperator => 182 | ParseUnexpectedTerm => 183
  | ParseUnexpectedToken => 184 | ParseUnknownOperator => 185 | ParseUnsupportedAlias => 186
  | ParseUnsupportedCallWithStar => 187 | ParseUnsupportedCase => 188
  | ParseUnsupportedCaseClause => 189 | ParseUnsupportedLiteralsGroupBy => 190
  | ParseUnsupportedSelect => 191 | ParseUnsupportedSyntax => 192 | ParseUnsupportedToken => 193
  | PermanentRedirect => 194 | PermanentRedirectControlError => 195 | PreconditionFailed => 196
  | Redirect => 197 | ReplicationConfigurationNotFoundError => 198
  | RequestHeaderSectionTooLarge => 199 | RequestIsNotMultiPartContent => 200
  | RequestTimeTooSkewed => 201 | RequestTimeout => 202 | RequestTorrentOfBucketError => 203
  | ResponseInterrupted => 204 | RestoreAlreadyInProgress => 205
  | ServerSideEncryptionConfigurationNotFoundError => 206 | ServiceUnavailable => 207
  | SignatureDoesNotMatch => 208 | SlowDown => 209 | TagPolicyException => 210
  | TemporaryRedirect => 211 | TokenCodeInvalidError => 212 | TokenRefreshRequired => 213
  | TooManyAccessPoints => 214 | TooManyBuckets => 215
  | TooManyMultiRegionAccessPointregionsError => 216 | TooManyMultiRegionAccessPoints => 217
  | TooManyTags => 218 | TruncatedInput => 219 | UnauthorizedAccess => 220
  | UnauthorizedAccessError => 221 | UnexpectedContent => 222 | UnexpectedIPError => 223
  | UnrecognizedFormatException => 224 | UnresolvableGrantByEmailAddress => 225
  | UnsupportedArgument => 226 | UnsupportedFunction => 227 | UnsupportedParquetType => 228
  | UnsupportedRangeHeader => 229 | UnsupportedScanRangeInput => 230
  | UnsupportedSignature => 231 | UnsupportedSqlOperation => 232 | UnsupportedSqlStructure => 233
  | UnsupportedStorageClass => 234 | UnsupportedSyntax => 235 | UnsupportedTypeForQuerying => 236
  | UserKeyMustBeSpecified => 237 | ValueParseFailure => 238
  | Custom _ => usize_max
  end.

Definition code_status (self : S3ErrorCode) : option StatusCode :=
  match self with
  | AccessControlListNotSupported => Some BAD_REQUEST | AccessDenied => Some FORBIDDEN
  | AccessPointAlreadyOwnedByYou => Some CONFLICT | AccountProblem => Some FORBIDDEN
  | AllAccessDisabled => Some FORBIDDEN | AmbiguousFieldName => Some BAD_REQUEST
  | AmbiguousGrantByEmailAddress => Some BAD_REQUEST
  | AuthorizationHeaderMalformed => Some BAD_REQUEST
  | AuthorizationQueryParametersError => Some BAD_REQUEST | BadDigest => Some BAD_REQUEST
  | BucketAlreadyExists => Some CONFLICT | BucketAlreadyOwnedByYou => Some CONFLICT
  | BucketHasAccessPointsAttached => Some BAD_REQUEST | BucketNotEmpty => Some CONFLICT
  | Busy => Some SERVICE_UNAVAILABLE | CSVEscapingRecordDelimiter => Some BAD_REQUEST
  | CSVParsingError => Some BAD_REQUEST | CSVUnescapedQuote => Some BAD_REQUEST
  | CastFailed => Some BAD_REQUEST | ClientTokenConflict => Some CONFLICT
  | ColumnTooLong => Some BAD_REQUEST | ConditionalRequestConflict => Some CONFLICT
  | ConnectionClosedByRequester => Some BAD_REQUEST | CredentialsNotSupported => Some BAD_REQUEST
  | CrossLocationLoggingProhibited => Some FORBIDDEN | DeviceNotActiveError => Some BAD_REQUEST
  | EmptyRequestBody => Some BAD_REQUEST | EndpointNotFound => Some BAD_REQUEST
  | EntityTooLarge => Some BAD_REQUEST | EntityTooSmall => Some BAD_REQUEST
  | EvaluatorBindingDoesNotExist => Some BAD_REQUEST
  | EvaluatorInvalidArguments => Some BAD_REQUEST
  | EvaluatorInvalidTimestampFormatPattern => Some BAD_REQUEST
  | EvaluatorInvalidTimestampFormatPatternSymbol => Some BAD_REQUEST
  | EvaluatorInvalidTimestampFormatPatternSymbolForParsing => Some BAD_REQUEST
  | EvaluatorInvalidTimestampFormatPatternToken => Some BAD_REQUEST
  | EvaluatorLikePatternInvalidEscapeSequence => Some BAD_REQUEST
  | EvaluatorNegativeLimit => Some BAD_REQUEST
  | EvaluatorTimestampFormatPatternDuplicateFields => Some BAD_REQUEST
  | EvaluatorTimestampFormatPatternHourClockAmPmMismatch => Some BAD_REQUEST
  | EvaluatorUnterminatedTimestampFormatPatternToken => Some BAD_REQUEST
  | ExpiredToken => Some BAD_REQUEST | ExpressionTooLong => Some BAD_REQUEST
  | ExternalEvalException => Some BAD_REQUEST
  | IllegalLocationConstraintException => Some BAD_REQUEST
  | IllegalSqlFunctionArgument => Some BAD_REQUEST
  | IllegalVersioningConfigurationException => Some BAD_REQUEST
  | IncompleteBody => Some BAD_REQUEST | IncorrectEndpoint => Some BAD_REQUEST
  | IncorrectNumberOfFilesInPostRequest => Some BAD_REQUEST
  | IncorrectSqlFunctionArgumentType => Some BAD_REQUEST | InlineDataTooLarge => Some BAD_REQUEST
  | IntegerOverflow => Some BAD_REQUEST | InternalError => Some INTERNAL_SERVER_ERROR
  | InvalidAccessKeyId => Some FORBIDDEN | InvalidAccessPoint => Some BAD_REQUEST
  | InvalidAccessPointAliasError => Some BAD_REQUEST | InvalidAddressingHeader => None
  | InvalidArgument => Some BAD_REQUEST | InvalidBucketAclWithObjectOwnership => Some BAD_REQUEST
  | InvalidBucketName => Some BAD_REQUEST | InvalidBucketOwnerAWSAccountID => Some BAD_REQUEST
  | InvalidBucketState => Some CONFLICT | InvalidCast => Some BAD_REQUEST
  | InvalidColumnIndex => Some BAD_REQUEST | InvalidCompressionFormat => Some BAD_REQUEST
  | InvalidDataSource => Some BAD_REQUEST | InvalidDataType => Some BAD_REQUEST
  | InvalidDigest => Some BAD_REQUEST | InvalidEncryptionAlgorithmError => Some BAD_REQUEST
  | InvalidExpressionType => Some BAD_REQUEST | InvalidFileHeaderInfo => Some BAD_REQUEST
  | InvalidHostHeader => Some BAD_REQUEST | InvalidHttpMethod => Some BAD_REQUEST
  | InvalidJsonType => Some BAD_REQUEST | InvalidKeyPath => Some BAD_REQUEST
  | InvalidLocationConstraint => Some BAD_REQUEST | InvalidObjectState => Some FORBIDDEN
  | InvalidPart => Some BAD_REQUEST | InvalidPartOrder => Some BAD_REQUEST
  | InvalidPayer => Some FORBIDDEN | InvalidPolicyDocument => Some BAD_REQUEST
  | InvalidQuoteFields => Some BAD_REQUEST | InvalidRange => Some RANGE_NOT_SATISFIABLE
  | InvalidRegion => Some FORBIDDEN | InvalidRequest => Some BAD_REQUEST
  | InvalidRequestParameter => Some BAD_REQUEST | InvalidSOAPRequest => Some BAD_REQUEST
  | InvalidScanRange => Some BAD_REQUEST | InvalidSecurity => Some FORBIDDEN
  | InvalidSessionException => Some BAD_REQUEST | InvalidSignature => Some BAD_REQUEST
  | InvalidStorageClass => Some BAD_REQUEST | InvalidTableAlias => Some BAD_REQUEST
  | InvalidTag => Some BAD_REQUEST | InvalidTargetBucketForLogging => Some BAD_REQUEST
  | InvalidTextEncoding => Some BAD_REQUEST | InvalidToken => Some BAD_REQUEST
  | InvalidURI => Some BAD_REQUEST | JSONParsingError => Some BAD_REQUEST
  | KeyTooLongError => Some BAD_REQUEST | LexerInvalidChar => Some BAD_REQUEST
  | LexerInvalidIONLiteral => Some BAD_REQUEST | LexerInvalidLiteral => Some BAD_REQUEST
  | LexerInvalidOperator => Some BAD_REQUEST | LikeInvalidInputs => Some BAD_REQUEST
  | MalformedACLError => Some BAD_REQUEST | MalformedPOSTRequest => Some BAD_REQUEST
  | MalformedPolicy => Some BAD_REQUEST | MalformedXML => Some BAD_REQUEST
  | MaxMessageLengthExceeded => Some BAD_REQUEST | MaxOperatorsExceeded => Some BAD_REQUEST
  | MaxPostPreDataLengthExceededError => Some BAD_REQUEST | MetadataTooLarge => Some BAD_REQUEST
  | MethodNotAllowed => Some METHOD_NOT_ALLOWED | MissingAttachment => None
  | MissingAuthenticationToken => Some FORBIDDEN | MissingContentLength => Some LENGTH_REQUIRED
  | MissingRequestBodyError => Some BAD_REQUEST | MissingRequiredParameter => Some BAD_REQUEST
  | MissingSecurityElement => Some BAD_REQUEST | MissingSecurityHeader => Some BAD_REQUEST
  | MultipleDataSourcesUnsupported => Some BAD_REQUEST
  | NoLoggingStatusForKey => Some BAD_REQUEST | NoSuchAccessPoint => Some NOT_FOUND
  | NoSuchAsyncRequest => Some NOT_FOUND | NoSuchBucket => Some NOT_FOUND
  | NoSuchBucketPolicy => Some NOT_FOUND | NoSuchCORSConfiguration => Some NOT_FOUND
  | NoSuchKey => Some NOT_FOUND | NoSuchLifecycleConfiguration => Some NOT_FOUND
  | NoSuchMultiRegionAccessPoint => Some NOT_FOUND
  | NoSuchObjectLockConfiguration => Some NOT_FOUND | NoSuchResource => Some NOT_FOUND
  | NoSuchTagSet => Some NOT_FOUND | NoSuchUpload => Some NOT_FOUND
  | NoSuchVersion => Some NOT_FOUND | NoSuchWebsiteConfiguration => Some NOT_FOUND
  | NoTransformationDefined => Some NOT_FOUND | NotDeviceOwnerError => Some BAD_REQUEST
  | NotImplemented => Some NOT_IMPLEMENTED | NotModified => Some NOT_MODIFIED
  | NotSignedUp => Some FORBIDDEN | NumberFormatError => Some BAD_REQUEST
  | ObjectLockConfigurationNotFoundError => Some NOT_FOUND
  | ObjectSerializationConflict => Some BAD_REQUEST | OperationAborted => Some CONFLICT
  | OverMaxColumn => Some BAD_REQUEST | OverMaxParquetBlockSize => Some BAD_REQUEST
  | OverMaxRecordSize => Some BAD_REQUEST | OwnershipControlsNotFoundError => Some NOT_FOUND
  | ParquetParsingError => Some BAD_REQUEST
  | ParquetUnsupportedCompressionCodec => Some BAD_REQUEST
  | ParseAsteriskIsNotAloneInSelectList => Some BAD_REQUEST
  | ParseCannotMixSqbAndWildcardInSelectList => Some BAD_REQUEST
  | ParseCastArity => Some BAD_REQUEST | ParseEmptySelect => Some BAD_REQUEST
  | ParseExpected2TokenTypes => Some BAD_REQUEST
  | ParseExpectedArgumentDelimiter => Some BAD_REQUEST
  | ParseExpectedDatePart => Some BAD_REQUEST | ParseExpectedExpression => Some BAD_REQUEST
  | ParseExpectedIdentForAlias => Some BAD_REQUEST | ParseExpectedIdentForAt => Some BAD_REQUEST
  | ParseExpectedIdentForGroupName => Some BAD_REQUEST | ParseExpectedKeyword => Some BAD_REQUEST
  | ParseExpectedLeftParenAfterCast => Some BAD_REQUEST
  | ParseExpectedLeftParenBuiltinFunctionCall => Some BAD_REQUEST
  | ParseExpectedLeftParenValueConstructor => Some BAD_REQUEST
  | ParseExpectedMember => Some BAD_REQUEST | ParseExpectedNumber => Some BAD_REQUEST
  | ParseExpectedRightParenBuiltinFunctionCall => Some BAD_REQUEST
  | ParseExpectedTokenType => Some BAD_REQUEST | ParseExpectedTypeName => Some BAD_REQUEST
  | ParseExpectedWhenClause => Some BAD_REQUEST
  | ParseInvalidContextForWildcardInSelectList => Some BAD_REQUEST
  | ParseInvalidPathComponent => Some BAD_REQUEST | ParseInvalidTypeParam => Some BAD_REQUEST
  | ParseMalformedJoin => Some BAD_REQUEST | ParseMissingIdentAfterAt => Some BAD_REQUEST
  | ParseNonUnaryAgregateFunctionCall => Some BAD_REQUEST
  | ParseSelectMissingFrom => Some BAD_REQUEST | ParseUnExpectedKeyword => Some BAD_REQUEST
  | ParseUnexpectedOperator => Some BAD_REQUEST | ParseUnexpectedTerm => Some BAD_REQUEST
  | ParseUnexpectedToken => Some BAD_REQUEST | ParseUnknownOperator => Some BAD_REQUEST
  | ParseUnsupportedAlias => Some BAD_REQUEST | ParseUnsupportedCallWithStar => Some BAD_REQUEST
  | ParseUnsupportedCase => Some BAD_REQUEST | ParseUnsupportedCaseClause => Some BAD_REQUEST
  | ParseUnsupportedLiteralsGroupBy => Some BAD_REQUEST
  | ParseUnsupportedSelect => Some BAD_REQUEST | ParseUnsupportedSyntax => Some BAD_REQUEST
  | ParseUnsupportedToken => Some BAD_REQUEST | PermanentRedirect => Some MOVED_PERMANENTLY
  | PermanentRedirectControlError => Some MOVED_PERMANENTLY
  | PreconditionFailed => Some PRECONDITION_FAILED | Redirect => Some TEMPORARY_REDIRECT
  | ReplicationConfigurationNotFoundError => Some NOT_FOUND
  | RequestHeaderSectionTooLarge => Some BAD_REQUEST
  | RequestIsNotMultiPartContent => Some BAD_REQUEST | RequestTimeTooSkewed => Some FORBIDDEN
  | RequestTimeout => Some BAD_REQUEST | RequestTorrentOfBucketError => Some BAD_REQUEST
  | ResponseInterrupted => Some BAD_REQUEST | RestoreAlreadyInProgress => Some CONFLICT
  | ServerSideEncryptionConfigurationNotFoundError => Some BAD_REQUEST
  | ServiceUnavailable => Some SERVICE_UNAVAILABLE | SignatureDoesNotMatch => Some FORBIDDEN
  | SlowDown => Some SERVICE_UNAVAILABLE | TagPolicyException => Some BAD_REQUEST
  | TemporaryRedirect => Some TEMPORARY_REDIRECT | TokenCodeInvalidError => Some BAD_REQUEST
  | TokenRefreshRequired => Some BAD_REQUEST | TooManyAccessPoints => Some BAD_REQUEST
  | TooManyBuckets => Some BAD_REQUEST
  | TooManyMultiRegionAccessPointregionsError => Some BAD_REQUEST
  | TooManyMultiRegionAccessPoints => Some BAD_REQUEST | TooManyTags => Some BAD_REQUEST
  | TruncatedInput => Some BAD_REQUEST | UnauthorizedAccess => Some UNAUTHORIZED
  | UnauthorizedAccessError => Some FORBIDDEN | UnexpectedContent => Some BAD_REQUEST
  | UnexpectedIPError => Some FORBIDDEN | UnrecognizedFormatException => Some BAD_REQUEST
  | UnresolvableGrantByEmailAddress => Some BAD_REQUEST | UnsupportedArgument => Some BAD_REQUEST
  | UnsupportedFunction => Some BAD_REQUEST | UnsupportedParquetType => Some BAD_REQUEST
  | UnsupportedRangeHeader => Some BAD_REQUEST | UnsupportedScanRangeInput => Some BAD_REQUEST
  | UnsupportedSignature => Some BAD_REQUEST | UnsupportedSqlOperation => Some BAD_REQUEST
  | UnsupportedSqlStructure => Some BAD_REQUEST | UnsupportedStorageClass => Some BAD_REQUEST
  | UnsupportedSyntax => Some BAD_REQUEST | UnsupportedTypeForQuerying => Some BAD_REQUEST
  | UserKeyMustBeSpecified => Some BAD_REQUEST | ValueParseFailure => Some BAD_REQUEST
  | Custom _ => None
  end.

(** Every code of the enumeration but [Custom], in declaration order. *)
Definition all_codes : list S3ErrorCode :=
  [AccessControlListNotSupported; AccessDenied; AccessPointAlreadyOwnedByYou; AccountProblem;
   AllAccessDisabled; AmbiguousFieldName; AmbiguousGrantByEmailAddress;
   AuthorizationHeaderMalformed; AuthorizationQueryParametersError; BadDigest;
   BucketAlreadyExists; BucketAlreadyOwnedByYou; BucketHasAccessPointsAttached; BucketNotEmpty;
   Busy; CSVEscapingRecordDelimiter; CSVParsingError; CSVUnescapedQuote; CastFailed;
   ClientTokenConflict; ColumnTooLong; ConditionalRequestConflict; ConnectionClosedByRequester;
   CredentialsNotSupported; CrossLocationLoggingProhibited; DeviceNotActiveError;
   EmptyRequestBody; EndpointNotFound; EntityTooLarge; EntityTooSmall;
   EvaluatorBindingDoesNotExist; EvaluatorInvalidArguments;
   EvaluatorInvalidTimestampFormatPattern; EvaluatorInvalidTimestampFormatPatternSymbol;
   EvaluatorInvalidTimestampFormatPatternSymbolForParsing;
   EvaluatorInvalidTimestampFormatPatternToken; EvaluatorLikePatternInvalidEscapeSequence;
   EvaluatorNegativeLimit; EvaluatorTimestampFormatPatternDuplicateFields;
   EvaluatorTimestampFormatPatternHourClockAmPmMismatch;
   EvaluatorUnterminatedTimestampFormatPatternToken; ExpiredToken; ExpressionTooLong;
   ExternalEvalException; IllegalLocationConstraintException; IllegalSqlFunctionArgument;
   IllegalVersioningConfigurationException; IncompleteBody; IncorrectEndpoint;
   IncorrectNumberOfFilesInPostRequest; IncorrectSqlFunctionArgumentType; InlineDataTooLarge;
   IntegerOverflow; InternalError; InvalidAccessKeyId; InvalidAccessPoint;
   InvalidAccessPointAliasError; InvalidAddressingHeader; InvalidArgument;
   InvalidBucketAclWithObjectOwnership; InvalidBucketName; InvalidBucketOwnerAWSAccountID;
   InvalidBucketState; InvalidCast; InvalidColumnIndex; InvalidCompressionFormat;
   InvalidDataSource; InvalidDataType; InvalidDigest; InvalidEncryptionAlgorithmError;
   InvalidExpressionType; InvalidFileHeaderInfo; InvalidHostHeader; InvalidHttpMethod;
   InvalidJsonType; InvalidKeyPath; InvalidLocationConstraint; InvalidObjectState; InvalidPart;
   InvalidPartOrder; InvalidPayer; InvalidPolicyDocument; InvalidQuoteFields; InvalidRange;
   InvalidRegion; InvalidRequest; InvalidRequestParameter; InvalidSOAPRequest; InvalidScanRange;
   InvalidSecurity; InvalidSessionException; InvalidSignature; InvalidStorageClass;
   InvalidTableAlias; InvalidTag; InvalidTargetBucketForLogging; InvalidTextEncoding;
   InvalidToken; InvalidURI; JSONParsingError; KeyTooLongError; LexerInvalidChar;
   LexerInvalidIONLiteral; LexerInvalidLiteral; LexerInvalidOperator; LikeInvalidInputs;
   MalformedACLError; MalformedPOSTRequest; MalformedPolicy; MalformedXML;
   MaxMessageLengthExceeded; MaxOperatorsExceeded; MaxPostPreDataLengthExceededError;
   MetadataTooLarge; MethodNotAllowed; MissingAttachment; MissingAuthenticationToken;
   MissingContentLength; MissingRequestBodyError; MissingRequiredParameter;
   MissingSecurityElement; MissingSecurityHeader; MultipleDataSourcesUnsupported;
   NoLoggingStatusForKey; NoSuchAccessPoint; NoSuchAsyncRequest; NoSuchBucket;
   NoSuchBucketPolicy; NoSuchCORSConfiguration; NoSuchKey; NoSuchLifecycleConfiguration;
   NoSuchMultiRegionAccessPoint; NoSuchObjectLockConfiguration; NoSuchResource; NoSuchTagSet;
   NoSuchUpload; NoSuchVersion; NoSuchWebsiteConfiguration; NoTransformationDefined;
   NotDeviceOwnerError; NotImplemented; NotModified; NotSignedUp; NumberFormatError;
   ObjectLockConfigurationNotFoundError; ObjectSerializationConflict; OperationAborted;
   OverMaxColumn; OverMaxParquetBlockSize; OverMaxRecordSize; OwnershipControlsNotFoundError;
   ParquetParsingError; ParquetUnsupportedCompressionCodec; ParseAsteriskIsNotAloneInSelectList;
   ParseCannotMixSqbAndWildcardInSelectList; ParseCastArity; ParseEmptySelect;
   ParseExpected2TokenTypes; ParseExpectedArgumentDelimiter; ParseExpectedDatePart;
   ParseExpectedExpression; ParseExpectedIdentForAlias; ParseExpectedIdentForAt;
   ParseExpectedIdentForGroupName; ParseExpectedKeyword; ParseExpectedLeftParenAfterCast;
   ParseExpectedLeftParenBuiltinFunctionCall; ParseExpectedLeftParenValueConstructor;
   ParseExpectedMember; ParseExpectedNumber; ParseExpectedRightParenBuiltinFunctionCall;
   ParseExpectedTokenType; ParseExpectedTypeName; ParseExpectedWhenClause;
   ParseInvalidContextForWildcardInSelectList; ParseInvalidPathComponent; ParseInvalidTypeParam;
   ParseMalformedJoin; ParseMissingIdentAfterAt; ParseNonUnaryAgregateFunctionCall;
   ParseSelectMissingFrom; ParseUnExpectedKeyword; ParseUnexpectedOperator; ParseUnexpectedTerm;
   ParseUnexpectedToken; ParseUnknownOperator; ParseUnsupportedAlias;
   ParseUnsupportedCallWithStar; ParseUnsupportedCase; ParseUnsupportedCaseClause;
   ParseUnsupportedLiteralsGroupBy; ParseUnsupportedSelect; ParseUnsupportedSyntax;
   ParseUnsupportedToken; PermanentRedirect; PermanentRedirectControlError; PreconditionFailed;
   Redirect; ReplicationConfigurationNotFoundError; RequestHeaderSectionTooLarge;
   RequestIsNotMultiPartContent; RequestTimeTooSkewed; RequestTimeout;
   RequestTorrentOfBucketError; ResponseInterrupted; RestoreAlreadyInProgress;
   ServerSideEncryptionConfigurationNotFoundError; ServiceUnavailable; SignatureDoesNotMatch;
   SlowDown; TagPolicyException; TemporaryRedirect; TokenCodeInvalidError; TokenRefreshRequired;
   TooManyAccessPoints; TooManyBuckets; TooManyMultiRegionAccessPointregionsError;
   TooManyMultiRegionAccessPoints; TooManyTags; TruncatedInput; UnauthorizedAccess;
   UnauthorizedAccessError; UnexpectedContent; UnexpectedIPError; UnrecognizedFormatException;
   UnresolvableGrantByEmailAddress; UnsupportedArgument; UnsupportedFunction;
   UnsupportedParquetType; UnsupportedRangeHeader; UnsupportedScanRangeInput;
   UnsupportedSignature; UnsupportedSqlOperation; UnsupportedSqlStructure;
   UnsupportedStorageClass; UnsupportedSyntax; UnsupportedTypeForQuerying;
   UserKeyMustBeSpecified; ValueParseFailure].

(** ** Operations *)

(** The interface of [phf::Map]: a table of distinct keys; [get] finds the value of a key. *)
Class PhfMap := {
  phf_get : forall {V : Type}, list (bytes * V) -> bytes -> option V;
  phf_get_spec : forall {V : Type} (entries : list (bytes * V)) k v,
    NoDup (map fst entries) -> phf_get entries k = Some v <-> (k, v) ∈ entries
}.

(** [slice.get(i)] for a [usize] index. *)
Definition slice_get {A} (l : list A) (i : Z) : option A :=
  if (i <? len l)%Z then l !! Z.to_nat i else None.

Definition as_static_str (self : S3ErrorCode) : option bytes := slice_get STATIC_CODE_LIST (as_enum_tag self).

(** [None] is the [unreachable!()]. *)
Definition as_str (self : S3ErrorCode) : option bytes :=
  match as_static_str self with
  | Some s => Some s
  | None => match self with Custom s => Some s | _ => None end
  end.

Record S3Error := {
  code : S3ErrorCode;
  message : option bytes;
  request_id : option bytes;
  status_code : option StatusCode;
  error_headers : option (list (bytes * bytes))
}.

Section Operations.
Context `{PhfMap}.

Definition from_bytes (s : bytes) : option S3ErrorCode :=
  if negb (utf8_valid s) then None
  else
    match phf_get S3_ERROR_CODE_MAP s with
    | Some code => Some code
    | None =>
        let lowercase := to_ascii_lowercase s in
        match phf_get S3_ERROR_CODE_LOWERCASE_MAP lowercase with
        | Some code => Some code
        | None => Some (Custom s)
        end
    end.

(** [FromStr]: a [str] is valid UTF-8, so the fallback is never taken. *)
Definition from_str (s : bytes) : S3ErrorCode := default (Custom s) (from_bytes s).

Definition default_message (self : S3ErrorCode) : option bytes :=
  s ← as_static_str self; phf_get S3_ERROR_CODE_DEFAULT_MESSAGE s.

(** [S3Error], without the boxed source error. *)
Definition S3Error_new (c : S3ErrorCode) : S3Error :=
  {| code := c; message := default_message c; request_id := None; status_code := None; error_headers := None |}.

Definition with_message (c : S3ErrorCode) (msg : bytes) : S3Error :=
  let this := S3Error_new c in
  {| code := code this; message := Some msg; request_id := request_id this; status_code := status_code this;
     error_headers := error_headers this |}.

Definition set_code (val : S3ErrorCode) (e : S3Error) : S3Error :=
  {| code := val; message := message e; request_id := request_id e; status_code := status_code e; error_headers := error_headers e |}.
Definition set_message (val : bytes) (e : S3Error) : S3Error :=
  {| code := code e; message := Some val; request_id := request_id e; status_code := status_code e; error_headers := error_headers e |}.
Definition set_request_id (val : bytes) (e : S3Error) : S3Error :=
  {| code := code e; message := message e; request_id := Some val; status_code := status_code e; error_headers := error_headers e |}.
Definition set_status_code (val : StatusCode) (e : S3Error) : S3Error :=
  {| code := code e; message := message e; request_id := request_id e; status_code := Some val; error_headers := error_headers e |}.
Definition set_error_headers (val : list (bytes * bytes)) (e : S3Error) : S3Error :=
  {| code := code e; message := message e; request_id := request_id e; status_code := status_code e; error_headers := Some val |}.

Definition error_status (e : S3Error) : option StatusCode :=
  match status_code e with Some s => Some s | None => code_status (code e) end.

End Operations.

(** ** Table facts, by evaluation *)

Definition is_static (c : S3ErrorCode) : bool := match c with Custom _ => false | _ => true end.

Lemma all_codes_tag c : is_static c = true -> all_codes !! Z.to_nat (as_enum_tag c) = Some c.
Proof. destruct c; done. Qed.

Lemma static_tag_iff c : is_static c = true <-> (as_enum_tag c < 239)%Z.
Proof. destruct c; split; done. Qed.

Lemma all_codes_static c : c ∈ all_codes <-> is_static c = true.
Proof.
  split.
  - intros Hin. assert (Hall : forallb is_static all_codes = true) by reflexivity.
    rewrite forallb_forall in Hall. by apply Hall, list_elem_of_In.
  - intros Hc. apply list_elem_of_lookup. eexists. by apply all_codes_tag.
Qed.

(** A code is determined by its tag and, for [Custom], its text. *)
Definition code_key (c : S3ErrorCode) : Z * bytes :=
  (as_enum_tag c, match c with Custom s => s | _ => [] end).

Lemma code_key_inj c d : code_key c = code_key d -> c = d.
Proof.
  intros [= Ht Hs]. pose proof (static_tag_iff c) as Fc. pose proof (static_tag_iff d) as Fd.
  rewrite Ht in Fc. destruct (is_static c) eqn:Hc, (is_static d) eqn:Hd.
  2:{ by pose proof (proj2 Fd (proj1 Fc eq_refl)). }
  2:{ by pose proof (proj2 Fc (proj1 Fd eq_refl)). }
  - apply all_codes_tag in Hc, Hd. rewrite Ht, Hd in Hc. by injection Hc.
  - destruct c; try done. destruct d; try done. simpl in Hs. by subst.
Qed.

#[global] Instance S3ErrorCode_eq_dec : EqDecision S3ErrorCode.
Proof.
  refine (fun c d => cast_if (decide (code_key c = code_key d))); [by apply code_key_inj|by intros ->].
Defined.

(** Every entry of the two code tables is a code under its name, and every code has an entry. *)
Definition name_of (c : S3ErrorCode) : bytes := default [] (as_static_str c).

Definition table_ok (rename : bytes -> bytes) (entries : list (bytes * S3ErrorCode)) : bool :=
  bool_decide (NoDup (map fst entries)) &&
  forallb (fun e => is_static (snd e) && (fst e =? rename (name_of (snd e)))) entries &&
  forallb (fun c => bool_decide ((rename (name_of c), c) ∈ entries)) all_codes.

Lemma exact_table_ok : table_ok id S3_ERROR_CODE_MAP = true.
Proof. vm_compute. reflexivity. Qed.

Lemma lowercase_table_ok : table_ok to_ascii_lowercase S3_ERROR_CODE_LOWERCASE_MAP = true.
Proof. vm_compute. reflexivity. Qed.

Lemma table_get `{PhfMap} rename entries k c :
  table_ok rename entries = true ->
  phf_get entries k = Some c <-> is_static c = true /\ k = rename (name_of c).
Proof.
  unfold table_ok. intros Hok. apply andb_true_iff in Hok as [Hok Hall].
  apply andb_true_iff in Hok as [Hnd Hent]. apply bool_decide_eq_true in Hnd.
  rewrite phf_get_spec by done. rewrite forallb_forall in Hent, Hall. split.
  - intros Hin. apply list_elem_of_In, Hent in Hin. simpl in Hin. by reflect_bools.
  - intros [Hc ->]. apply all_codes_static, list_elem_of_In, Hall in Hc.
    by apply bool_decide_eq_true in Hc.
Qed.

Lemma as_str_name c : is_static c = true -> as_str c = Some (name_of c).
Proof. destruct c; done. Qed.

Lemma name_of_utf8 c : is_static c = true -> utf8_valid (name_of c) = true.
Proof. destruct c; done. Qed.

(** Names are distinct even without case, because the lowercase table finds each. *)
Lemma name_of_lower_inj `{PhfMap} c d :
  is_static c = true -> is_static d = true ->
  to_ascii_lowercase (name_of c) = to_ascii_lowercase (name_of d) -> c = d.
Proof.
  intros Hc Hd Heq.
  pose proof (proj2 (table_get _ _ _ c lowercase_table_ok) (conj Hc eq_refl)) as Gc.
  pose proof (proj2 (table_get _ _ _ d lowercase_table_ok) (conj Hd eq_refl)) as Gd.
  rewrite Heq, Gd in Gc. by injection Gc.
Qed.

(** The code found for a name, in terms of the names alone. *)
Lemma from_bytes_static `{PhfMap} s c :
  utf8_valid s = true -> is_static c = true ->
  from_bytes s = Some c <-> to_ascii_lowercase s = to_ascii_lowercase (name_of c).
Proof.
  intros Hu Hc. unfold from_bytes. rewrite Hu. simpl negb. cbv iota.
  destruct (phf_get S3_ERROR_CODE_MAP s) as [d|] eqn:E.
  - apply (table_get _ _ _ _ exact_table_ok) in E as [Hd ->]. split; [by intros [= ->]|].
    intros Heq. f_equal. by apply name_of_lower_inj.
  - destruct (phf_get S3_ERROR_CODE_LOWERCASE_MAP (to_ascii_lowercase s)) as [d|] eqn:F.
    + apply (table_get _ _ _ _ lowercase_table_ok) in F as [Hd Hn]. split; [by intros [= ->]|].
      intros Heq. f_equal. rewrite Hn in Heq. by apply name_of_lower_inj.
    + split; [by intros [= <-]|]. intros Heq. exfalso.
      rewrite (proj2 (table_get _ _ _ c lowercase_table_ok)) in F by done. done.
Qed.

Lemma message_keys_nodup : NoDup (map fst S3_ERROR_CODE_DEFAULT_MESSAGE).
Proof. refine (proj1 (bool_decide_eq_true _) _). vm_compute. reflexivity. Qed.

Lemma message_keys_all :
  forallb (fun c => bool_decide (name_of c ∈ map fst S3_ERROR_CODE_DEFAULT_MESSAGE)) all_codes = true.
Proof. vm_compute. reflexivity. Qed.

Lemma as_static_str_name c : is_static c = true -> as_static_str c = Some (name_of c).
Proof. destruct c; done. Qed.

Lemma default_message_static `{PhfMap} c : is_static c = true -> exists m, default_message c = Some m.
Proof.
  intros Hc. pose proof message_keys_all as Hall. rewrite forallb_forall in Hall.
  pose proof (proj1 (list_elem_of_In _ _) (proj2 (all_codes_static c) Hc)) as Hin.
  apply Hall, bool_decide_eq_true, list_elem_of_In, in_map_iff in Hin as ([k m] & Hk & Hin).
  simpl in Hk. subst k. exists m. unfold default_message. rewrite as_static_str_name by done. simpl.
  apply phf_get_spec; [exact message_keys_nodup|]. by apply list_elem_of_In.
Qed.

(** ** Properties *)

(** Parsing an error code is total on UTF-8 and case-insensitive: it finds the code whose
    name equals the text up to ASCII case, there is at most one, and any other text becomes
    [Custom] of itself; text that is not UTF-8 is refused. *)
Theorem from_bytes_correct `{PhfMap} (s : bytes) :
  (utf8_valid s = false -> from_bytes s = None) /\
  (utf8_valid s = true ->
     (forall c, is_static c = true ->
        from_bytes s = Some c <-> exists n, as_str c = Some n /\ eq_ignore_ascii_case s n = true) /\
     (from_bytes s = Some (Custom s) <->
        forall c n, is_static c = true -> as_str c = Some n -> eq_ignore_ascii_case s n = false)).
Proof.
  split; [by intros Hu; unfold from_bytes; rewrite Hu|]. intros Hu.
  assert (Hst : forall c, is_static c = true ->
    from_bytes s = Some c <-> exists n, as_str c = Some n /\ eq_ignore_ascii_case s n = true).
  { intros c Hc. rewrite from_bytes_static by done. rewrite (as_str_name c Hc).
    unfold eq_ignore_ascii_case. split.
    - intros Heq. exists (name_of c). split; [done|]. by apply bool_decide_eq_true.
    - intros (n & [= <-] & Hn). by apply bool_decide_eq_true in Hn. }
  split; [exact Hst|]. split.
  - intros Hs c n Hc Hn. apply not_true_is_false. intros He.
    assert (from_bytes s = Some c) as Hf by (apply Hst; eauto). rewrite Hs in Hf.
    by injection Hf as <-.
  - intros Hno. unfold from_bytes in *. rewrite Hu in *. simpl in *.
    destruct (phf_get S3_ERROR_CODE_MAP s) as [d|] eqn:E.
    { apply (table_get _ _ _ _ exact_table_ok) in E as [Hd _].
      destruct (proj1 (Hst d Hd) eq_refl) as (n & Hn & He). by rewrite (Hno d n Hd Hn) in He. }
    destruct (phf_get S3_ERROR_CODE_LOWERCASE_MAP (to_ascii_lowercase s)) as [d|] eqn:F; [|done].
    apply (table_get _ _ _ _ lowercase_table_ok) in F as [Hd _].
    destruct (proj1 (Hst d Hd) eq_refl) as (n & Hn & He). by rewrite (Hno d n Hd Hn) in He.
Qed.

(** An association list as a [phf::Map]. *)
Fixpoint assoc {V} (entries : list (bytes * V)) (k : bytes) : option V :=
  match entries with
  | [] => None
  | (k', v) :: entries' => if k' =? k then Some v else assoc entries' k
  end.

Lemma assoc_spec {V} (entries : list (bytes * V)) k v :
  NoDup (map fst entries) -> assoc entries k = Some v <-> (k, v) ∈ entries.
Proof.
  induction entries as [|[k' v'] entries IH]; simpl; intros Hnd.
  - split; [done|]. by intros Hin%elem_of_nil.
  - apply NoDup_cons in Hnd as [Hk Hnd]. rewrite elem_of_cons. destruct (k' =? k) eqn:E.
    + apply bool_decide_eq_true in E as ->. split; [by intros [= ->]; left|].
      intros [[= ->]|Hin]; [done|]. exfalso. apply Hk. apply list_elem_of_In, (in_map fst) in Hin.
      by apply list_elem_of_In.
    + apply bool_decide_eq_false in E. rewrite IH by done. split; [by right|].
      intros [[= <- <-]|]; done.
Qed.

Definition assoc_phf : PhfMap := {| phf_get := @assoc; phf_get_spec := @assoc_spec |}.

Lemma from_bytes_correct_witness :
  @from_bytes assoc_phf (str "nosuchKEY") = Some NoSuchKey /\ @from_bytes assoc_phf [xff] = None.
Proof.
  split.
  - destruct (@from_bytes_correct assoc_phf (str "nosuchKEY")) as [_ Hs].
    apply (proj1 (Hs eq_refl)); [reflexivity|]. exists (str "NoSuchKey"). split; reflexivity.
  - apply (proj1 (@from_bytes_correct assoc_phf [xff])). reflexivity.
Defined.

(** Every code has a name and printing then parsing a standard code gives it back, so the
    [unreachable!()] of [as_str] is dead.  Every standard code has a default message, a custom
    code is its own text and has none. *)
Theorem error_code_roundtrip `{PhfMap} (c : S3ErrorCode) :
  exists n, as_str c = Some n /\
    (is_static c = true -> from_bytes n = Some c /\ default_message c <> None) /\
    (forall s, c = Custom s -> n = s /\ default_message c = None).
Proof.
  destruct (is_static c) eqn:Hc.
  - exists (name_of c). split_and!; [by apply as_str_name| |by intros s ->]. intros _. split.
    + by apply from_bytes_static; [apply name_of_utf8| |].
    + destruct (default_message_static c Hc) as [m ->]. done.
  - assert (exists s, c = Custom s) as [s ->] by (destruct c; try done; eauto). exists s. split_and!; [reflexivity|done|]. by intros t [= ->].
Qed.

Lemma error_code_roundtrip_witness :
  exists n, as_str NoSuchKey = Some n /\ @from_bytes assoc_phf n = Some NoSuchKey.
Proof.
  destruct (@error_code_roundtrip assoc_phf NoSuchKey) as (n & Hn & Hs & _).
  exists n. split; [exact Hn|]. apply (proj1 (Hs eq_refl)).
Defined.

(** An explicit status overrides the code's own; without one the status is the code's, and
    only the two codes without an HTTP meaning and custom codes have none. *)
Theorem error_status_correct `{PhfMap} (c : S3ErrorCode) (msg : bytes) (st : StatusCode) :
  error_status (set_status_code st (with_message c msg)) = Some st /\
  message (with_message c msg) = Some msg /\
  error_status (S3Error_new c) = code_status c /\
  (error_status (S3Error_new c) = None <->
     c = InvalidAddressingHeader \/ c = MissingAttachment \/ is_static c = false) /\
  (forall v, code_status c = Some v -> 300 <= v < 600)%Z.
Proof.
  split_and!; [done|done|done| |].
  - destruct c; (split; [try discriminate; auto|]); intros [?|[?|?]]; done.
  - destruct c; intros v [= <-]; vm_compute; split; congruence.
Qed.

Lemma error_status_correct_witness :
  error_status (@S3Error_new assoc_phf AccessDenied) = Some 403%Z.
Proof. apply (@error_status_correct assoc_phf AccessDenied [] 500%Z). Defined.
