(* ===== verification/Handler.v ===== *)
(** * Request handlers

    The handlers of a request change a state, return early with an error code, and may fail to
    return at all: a panic, or a suspended future that no event wakes.  [ST St A] is such a
    handler on a state [St], with [?] as its bind; [None] is a handler that does not return.
    [run_ok] inverts a run that succeeded, and [returns] says that a handler returns. *)

From S2P Require Import Prelude.
From S2P Require Import ErrorCode.

Definition ST (St A : Type) : Type := St -> option (St * result S3ErrorCode A).

Section Monad.
Context {St : Type}.

#[global] Instance ST_ret : MRet (ST St) := fun A a c => Some (c, Ok a).
(** [?]: an error returns at once. *)
#[global] Instance ST_bind : MBind (ST St) := fun A B k m c =>
  match m c with
  | None => None
  | Some (c', Ok a) => k a c'
  | Some (c', Err e) => Some (c', Err e)
  end.

Definition get : ST St St := fun c => Some (c, Ok c).
Definition put (c : St) : ST St unit := fun _ => Some (c, Ok tt).
Definition lift {A} (r : result S3ErrorCode A) : ST St A := fun c => Some (c, r).
Definition panic_none {A} (o : option A) : ST St A := fun c => a ← o; Some (c, Ok a).
(** [if b { return Err(e) }] *)
Definition fail_if (b : bool) (e : S3ErrorCode) : ST St unit := lift (if b then Err e else Ok tt).
End Monad.

(** A handler returns. *)
Definition returns {St A} (m : ST St A) (c : St) : Prop := exists o, m c = Some o.

Section Runs.
Context {St A B : Type}.
Implicit Types (c : St) (m : ST St A) (k : A -> ST St B).

Lemma M_bind_ok m k c c' b :
  (m ≫= k) c = Some (c', Ok b) <-> exists c1 a, m c = Some (c1, Ok a) /\ k a c1 = Some (c', Ok b).
Proof.
  unfold mbind, ST_bind. destruct (m c) as [[c1 [a|e]]|]; split.
  - by exists c1, a.
  - by intros (? & ? & [= <- <-] & ?).
  - done.
  - by intros (? & ? & ? & ?).
  - done.
  - by intros (? & ? & ? & ?).
Qed.

Lemma M_ret_ok c c' (a b : A) : (mret a : ST St A) c = Some (c', Ok b) <-> c' = c /\ b = a.
Proof. unfold mret, ST_ret. split; [by intros [= <- <-]|by intros [-> ->]]. Qed.

Lemma lift_ok c c' (r : result S3ErrorCode A) a : lift r c = Some (c', Ok a) <-> c' = c /\ r = Ok a.
Proof. unfold lift. split; [by intros [= <- ->]|by intros [-> ->]]. Qed.

Lemma panic_none_ok c c' (o : option A) a : panic_none o c = Some (c', Ok a) <-> c' = c /\ o = Some a.
Proof. unfold panic_none. destruct o; simpl; split; [by intros [= <- ->]|by intros [-> [= ->]]|done|by intros [_ ?]]. Qed.

Lemma get_ok c c' a : get c = Some (c', Ok a) <-> c' = c /\ a = c.
Proof. unfold get. split; [by intros [= <- ->]|by intros [-> ->]]. Qed.

Lemma put_ok c c' d u : put d c = Some (c', Ok u) <-> c' = d.
Proof. unfold put. destruct u. split; [by intros [= <-]|by intros ->]. Qed.

Lemma fail_if_ok c c' b e u : fail_if b e c = Some (c', Ok u) <-> c' = c /\ b = false.
Proof. unfold fail_if, lift. destruct u, b; split; try done; [by intros [_ ?]|by intros [= <-]|by intros [-> _]]. Qed.

Lemma M_bind_returns m k c :
  returns m c -> (forall c1 a, m c = Some (c1, Ok a) -> returns (k a) c1) -> returns (m ≫= k) c.
Proof.
  intros [[c1 [a|e]] E] Hk; unfold returns, mbind, ST_bind; rewrite E; [|by eexists]. by apply (Hk c1 a).
Qed.

Lemma panic_returns (o : option A) c : match o with Some _ => true | None => false end = true -> returns (panic_none o) c.
Proof. destruct o; [|done]. intros _. by eexists. Qed.
End Runs.

(** Inverts the run of a handler that succeeded, step by step. *)
Ltac run_ok :=
  repeat match goal with
  | H : (mbind _ _) _ = Some (_, Ok _) |- _ => apply M_bind_ok in H; destruct H as (?&?&?&?)
  | H : (mret _) _ = Some (_, Ok _) |- _ => apply M_ret_ok in H; destruct H; subst
  | H : lift _ _ = Some (_, Ok _) |- _ => apply lift_ok in H; destruct H; subst
  | H : panic_none _ _ = Some (_, Ok _) |- _ => apply panic_none_ok in H; destruct H; subst
  | H : get _ = Some (_, Ok _) |- _ => apply get_ok in H; destruct H; subst
  | H : put _ _ = Some (_, Ok _) |- _ => apply put_ok in H; subst
  | H : fail_if _ _ _ = Some (_, Ok _) |- _ => apply fail_if_ok in H; destruct H; subst
  | H : ok_or _ _ = Ok _ |- _ => apply ok_or_Ok in H
  | H : negb (bool_decide _) = false |- _ => apply negb_false_iff, bool_decide_eq_true in H
  end.

(** Lemmas that say that a step returns. *)
Create HintDb total.

(** A step that cannot panic returns; what it computed is inverted for the steps after it. *)
Ltac step :=
  apply M_bind_returns; [first [by eexists | by eauto 6 with total | idtac]|
    intros ? ? ?; run_ok; try match goal with u : unit |- _ => destruct u end].
Ltac steps := repeat step; try by eexists.
