(* ===== verification/Router.v ===== *)
(** * The generated request router (crates/s3s/src/ops/generated/router.rs)

    [resolve_route] picks the operation of a request from its method, its path and the names in
    its query string.  The generated resolvers fold the query names into a bit mask and take the
    lowest bit that survives a branch-free selection; the reference is an ordered list of routes
    ([Route] of codegen/src/v1/ops.rs) of which the first that matches wins. *)

From S2P Require Import Prelude.
From S2P Require Import Str.
From S2P Require Import OrderedQs.
From S2P Require Import ErrorCode.
From S2P Require Import Path.

(** ** Machine-width operations *)


(** [x.wrapping_neg()] at width [w]. *)
Definition wrapping_neg (w x : Z) : Z := ((- x) mod 2 ^ w)%Z.

(** [x.trailing_zeros()] at width [w]: the index of the lowest set bit, [w] for zero. *)
Fixpoint trailing_zeros_from (fuel : nat) (i : nat) (x : Z) : nat :=
  match fuel with
  | 0 => i
  | S fuel' => if Z.testbit x (Z.of_nat i) then i else trailing_zeros_from fuel' (S i) x
  end.

Definition trailing_zeros (w : nat) (x : Z) : nat := trailing_zeros_from w 0 x.

(** ** Requests and operations *)

Inductive Method := HEAD | GET | POST | PUT | DELETE | OtherMethod (name : bytes).

(** The parts of a request the router reads; [contains_key] is the lookup of the [http] crate's
    header map. *)
Record Request := { method : Method; contains_key : bytes -> bool }.

Inductive Operation :=
| AbortMultipartUpload | CompleteMultipartUpload | CopyObject | CreateBucket
| CreateBucketMetadataConfiguration | CreateBucketMetadataTableConfiguration
| CreateMultipartUpload | CreateSession | DeleteBucket | DeleteBucketAnalyticsConfiguration
| DeleteBucketCors | DeleteBucketEncryption | DeleteBucketIntelligentTieringConfiguration
| DeleteBucketInventoryConfiguration | DeleteBucketLifecycle
| DeleteBucketMetadataConfiguration | DeleteBucketMetadataTableConfiguration
| DeleteBucketMetricsConfiguration | DeleteBucketOwnershipControls | DeleteBucketPolicy
| DeleteBucketReplication | DeleteBucketTagging | DeleteBucketWebsite | DeleteObject
| DeleteObjectAnnotation | DeleteObjectTagging | DeleteObjects | DeletePublicAccessBlock
| GetBucketAbac | GetBucketAccelerateConfiguration | GetBucketAcl
| GetBucketAnalyticsConfiguration | GetBucketCors | GetBucketEncryption
| GetBucketIntelligentTieringConfiguration | GetBucketInventoryConfiguration
| GetBucketLifecycleConfiguration | GetBucketLocation | GetBucketLogging
| GetBucketMetadataConfiguration | GetBucketMetadataTableConfiguration
| GetBucketMetricsConfiguration | GetBucketNotificationConfiguration
| GetBucketOwnershipControls | GetBucketPolicy | GetBucketPolicyStatus | GetBucketReplication
| GetBucketRequestPayment | GetBucketTagging | GetBucketVersioning | GetBucketWebsite
| GetObject | GetObjectAcl | GetObjectAnnotation | GetObjectAttributes | GetObjectLegalHold
| GetObjectLockConfiguration | GetObjectRetention | GetObjectTagging | GetObjectTorrent
| GetPublicAccessBlock | HeadBucket | HeadObject | ListBucketAnalyticsConfigurations
| ListBucketIntelligentTieringConfigurations | ListBucketInventoryConfigurations
| ListBucketMetricsConfigurations | ListBuckets | ListDirectoryBuckets | ListMultipartUploads
| ListObjectAnnotations | ListObjectVersions | ListObjects | ListObjectsV2 | ListParts
| ListenBucketNotification | PutBucketAbac | PutBucketAccelerateConfiguration | PutBucketAcl
| PutBucketAnalyticsConfiguration | PutBucketCors | PutBucketEncryption
| PutBucketIntelligentTieringConfiguration | PutBucketInventoryConfiguration
| PutBucketLifecycleConfiguration | PutBucketLogging | PutBucketMetricsConfiguration
| PutBucketNotificationConfiguration | PutBucketOwnershipControls | PutBucketPolicy
| PutBucketReplication | PutBucketRequestPayment | PutBucketTagging | PutBucketVersioning
| PutBucketWebsite | PutObject | PutObjectAcl | PutObjectAnnotation | PutObjectLegalHold
| PutObjectLockConfiguration | PutObjectRetention | PutObjectTagging | PutPublicAccessBlock
| RenameObject | RestoreObject | SelectObjectContent
| UpdateBucketMetadataAnnotationTableConfiguration
| UpdateBucketMetadataInventoryTableConfiguration
| UpdateBucketMetadataJournalTableConfiguration | UpdateObjectEncryption | UploadPart
| UploadPartCopy | WriteGetObjectResponse.
(** [match k.as_str() { "acl" => v |= mask, ..., _ => {} }] over the pairs of the query. *)
Definition match_arm (arms : list (bytes * Z)) (k : bytes) : Z :=
  match find (fun a => fst a =? k) arms with Some (_, m) => m | None => 0%Z end.

Definition or_keys (arms : list (bytes * Z)) (l : list (bytes * bytes)) : Z :=
  fold_left (fun v p => Z.lor v (match_arm arms (fst p))) l 0%Z.

Section Resolvers.
Context `{PhfMap}.

(** [None] is a panic: an index out of the range of [GROUP_OPS]. *)
Abbreviation resolved := (option (result S3Error Operation)).

Definition unknown_operation : S3Error := with_message NotImplemented (str "Unknown operation").

Definition resolve_head_bucket (req : Request) (qs : option OrderedQs) : resolved := Some (Ok HeadBucket).

Definition resolve_head_object (req : Request) (qs : option OrderedQs) : resolved := Some (Ok HeadObject).

Definition resolve_get_root (req : Request) (qs : option OrderedQs) : resolved :=
  match qs with
  | Some qs =>
      if get_unique qs (str "x-id") =? Some (str "ListDirectoryBuckets") then Some (Ok ListDirectoryBuckets)
      else Some (Ok ListBuckets)
  | None => Some (Ok ListBuckets)
  end.


Definition resolve_get_bucket_ops : list Operation :=
  [GetBucketAnalyticsConfiguration; GetBucketIntelligentTieringConfiguration;
   GetBucketInventoryConfiguration; GetBucketMetricsConfiguration; CreateSession; GetBucketAbac;
   GetBucketAccelerateConfiguration; GetBucketAcl; GetBucketCors; GetBucketEncryption;
   GetBucketLifecycleConfiguration; GetBucketLocation; GetBucketLogging;
   GetBucketMetadataConfiguration; GetBucketMetadataTableConfiguration;
   GetBucketNotificationConfiguration; GetBucketOwnershipControls; GetBucketPolicy;
   GetBucketPolicyStatus; GetBucketReplication; GetBucketRequestPayment; GetBucketTagging;
   GetBucketVersioning; GetBucketWebsite; GetObjectLockConfiguration; GetPublicAccessBlock;
   ListBucketAnalyticsConfigurations; ListBucketIntelligentTieringConfigurations;
   ListBucketInventoryConfigurations; ListBucketMetricsConfigurations; ListMultipartUploads;
   ListObjectVersions; ListObjectsV2].

Definition get_bucket_A_KEY_ID : Z := (1 ≪ 33).
Definition resolve_get_bucket_arms : list (bytes * Z) :=
  [(str "abac", (1 ≪ 5)); (str "accelerate", (1 ≪ 6)); (str "acl", (1 ≪ 7));
   (str "analytics", Z.lor 1 (1 ≪ 26)); (str "cors", (1 ≪ 8)); (str "encryption", (1 ≪ 9));
   (str "id", get_bucket_A_KEY_ID); (str "intelligent-tiering", Z.lor (1 ≪ 1) (1 ≪ 27));
   (str "inventory", Z.lor (1 ≪ 2) (1 ≪ 28)); (str "lifecycle", (1 ≪ 10));
   (str "location", (1 ≪ 11)); (str "logging", (1 ≪ 12));
   (str "metadataConfiguration", (1 ≪ 13)); (str "metadataTable", (1 ≪ 14));
   (str "metrics", Z.lor (1 ≪ 3) (1 ≪ 29)); (str "notification", (1 ≪ 15));
   (str "object-lock", (1 ≪ 24)); (str "ownershipControls", (1 ≪ 16)); (str "policy", (1 ≪ 17));
   (str "policyStatus", (1 ≪ 18)); (str "publicAccessBlock", (1 ≪ 25));
   (str "replication", (1 ≪ 19)); (str "requestPayment", (1 ≪ 20)); (str "session", (1 ≪ 4));
   (str "tagging", (1 ≪ 21)); (str "uploads", (1 ≪ 30)); (str "versioning", (1 ≪ 22));
   (str "versions", (1 ≪ 31)); (str "website", (1 ≪ 23))]%Z.

Definition resolve_get_bucket (minio : bool) (req : Request) (qs : option OrderedQs) : resolved :=
  let KEEP_XOR := 0x3c00000f%Z in
  let KEEP_BASE := 0x1fffffff0%Z in
  if minio && match qs with Some qs => has qs (str "events") | None => false end
  then Some (Ok ListenBucketNotification)
  else
  let v_key := match qs with Some qs => or_keys resolve_get_bucket_arms (OrderedQs.qs qs) | None => 0%Z end in
  let v_pat :=
    match qs with
    | Some qs =>
        if get_unique qs (str "list-type") =? Some (str "2") then Z.lor 0 ((1 ≪ 32))%Z else 0%Z
    | None => 0%Z
    end in
  let v0 := Z.lor v_key v_pat in
  let sel := wrapping_neg 64 (Z.b2z (negb (Z.land v0 get_bucket_A_KEY_ID =? 0)%Z)) in
  let v1 := Z.lxor (Z.land KEEP_XOR sel) KEEP_BASE in
  let act := Z.land v0 v1 in
  if negb (act =? 0)%Z
  then Ok <$> resolve_get_bucket_ops !! trailing_zeros 64 act
  else Some (Ok ListObjects).

Definition resolve_get_object_ops : list Operation :=
  [GetObjectAnnotation; GetObjectAttributes; GetObjectAcl; GetObjectLegalHold;
   GetObjectRetention; GetObjectTagging; GetObjectTorrent; ListObjectAnnotations; ListParts].

Definition get_object_A_KEY_ANNOTATIONNAME : Z := (1 ≪ 9).
Definition resolve_get_object_arms : list (bytes * Z) :=
  [(str "acl", (1 ≪ 2)); (str "annotation", Z.lor 1 (1 ≪ 7));
   (str "annotationName", get_object_A_KEY_ANNOTATIONNAME); (str "attributes", (1 ≪ 1));
   (str "legal-hold", (1 ≪ 3)); (str "retention", (1 ≪ 4)); (str "tagging", (1 ≪ 5));
   (str "torrent", (1 ≪ 6)); (str "uploadId", (1 ≪ 8))]%Z.

Definition resolve_get_object (req : Request) (qs : option OrderedQs) : resolved :=
  let KEEP_XOR := 0x81%Z in
  let KEEP_BASE := 0x1fe%Z in
  let v_key := match qs with Some qs => or_keys resolve_get_object_arms (OrderedQs.qs qs) | None => 0%Z end in
  let v0 := v_key in
  let sel := wrapping_neg 16 (Z.b2z (negb (Z.land v0 get_object_A_KEY_ANNOTATIONNAME =? 0)%Z)) in
  let v1 := Z.lxor (Z.land KEEP_XOR sel) KEEP_BASE in
  let act := Z.land v0 v1 in
  if negb (act =? 0)%Z
  then Ok <$> resolve_get_object_ops !! trailing_zeros 16 act
  else Some (Ok GetObject).

Definition resolve_post_bucket_ops : list Operation :=
  [CreateBucketMetadataConfiguration; CreateBucketMetadataTableConfiguration; DeleteObjects;
   WriteGetObjectResponse].

Definition post_bucket_A_HDR_X_AMZ_REQUEST_ROUTE : Z := (1 ≪ 4).
Definition post_bucket_A_HDR_X_AMZ_REQUEST_TOKEN : Z := (1 ≪ 5).
Definition resolve_post_bucket_arms : list (bytes * Z) :=
  [(str "delete", (1 ≪ 2)); (str "metadataConfiguration", 1); (str "metadataTable", (1 ≪ 1))]%Z.

Definition resolve_post_bucket (req : Request) (qs : option OrderedQs) : resolved :=
  let KEEP_XOR := 0x8%Z in
  let KEEP_BASE := 0x7%Z in
  let v_hdr := 0%Z in
  let v_hdr := if contains_key req (str "x-amz-request-route") then Z.lor v_hdr (Z.lor (1 ≪ 3) post_bucket_A_HDR_X_AMZ_REQUEST_ROUTE)%Z else v_hdr in
  let v_hdr := if contains_key req (str "x-amz-request-token") then Z.lor v_hdr (Z.lor (1 ≪ 3) post_bucket_A_HDR_X_AMZ_REQUEST_TOKEN)%Z else v_hdr in
  let v_key := match qs with Some qs => or_keys resolve_post_bucket_arms (OrderedQs.qs qs) | None => 0%Z end in
  let v0 := Z.lor v_key v_hdr in
  let sel := wrapping_neg 8 (Z.b2z ((Z.land v0 (Z.lor post_bucket_A_HDR_X_AMZ_REQUEST_ROUTE post_bucket_A_HDR_X_AMZ_REQUEST_TOKEN) =? (Z.lor post_bucket_A_HDR_X_AMZ_REQUEST_ROUTE post_bucket_A_HDR_X_AMZ_REQUEST_TOKEN))%Z)) in
  let v1 := Z.lxor (Z.land KEEP_XOR sel) KEEP_BASE in
  let act := Z.land v0 v1 in
  if negb (act =? 0)%Z
  then Ok <$> resolve_post_bucket_ops !! trailing_zeros 8 act
  else Some (Err unknown_operation).

Definition resolve_post_object_ops : list Operation :=
  [SelectObjectContent; CreateMultipartUpload; RestoreObject; CompleteMultipartUpload].

Definition post_object_A_KEY_SELECT : Z := (1 ≪ 4).
Definition post_object_A_PAT_SELECT_TYPE_2 : Z := (1 ≪ 5).
Definition resolve_post_object_arms : list (bytes * Z) :=
  [(str "restore", (1 ≪ 2)); (str "select", Z.lor 1 post_object_A_KEY_SELECT);
   (str "uploadId", (1 ≪ 3)); (str "uploads", (1 ≪ 1))]%Z.

Definition resolve_post_object (req : Request) (qs : option OrderedQs) : resolved :=
  let KEEP_XOR := 0x1%Z in
  let KEEP_BASE := 0xe%Z in
  let v_key := match qs with Some qs => or_keys resolve_post_object_arms (OrderedQs.qs qs) | None => 0%Z end in
  let v_pat :=
    match qs with
    | Some qs =>
        if get_unique qs (str "select-type") =? Some (str "2") then Z.lor 0 (Z.lor 1 post_object_A_PAT_SELECT_TYPE_2)%Z else 0%Z
    | None => 0%Z
    end in
  let v0 := Z.lor v_key v_pat in
  let sel := wrapping_neg 8 (Z.b2z ((Z.land v0 (Z.lor post_object_A_KEY_SELECT post_object_A_PAT_SELECT_TYPE_2) =? (Z.lor post_object_A_KEY_SELECT post_object_A_PAT_SELECT_TYPE_2))%Z)) in
  let v1 := Z.lxor (Z.land KEEP_XOR sel) KEEP_BASE in
  let act := Z.land v0 v1 in
  if negb (act =? 0)%Z
  then Ok <$> resolve_post_object_ops !! trailing_zeros 8 act
  else Some (Err unknown_operation).

Definition resolve_put_bucket_ops : list Operation :=
  [PutBucketAnalyticsConfiguration; PutBucketIntelligentTieringConfiguration;
   PutBucketInventoryConfiguration; PutBucketMetricsConfiguration; PutBucketAbac;
   PutBucketAccelerateConfiguration; PutBucketAcl; PutBucketCors; PutBucketEncryption;
   PutBucketLifecycleConfiguration; PutBucketLogging; PutBucketNotificationConfiguration;
   PutBucketOwnershipControls; PutBucketPolicy; PutBucketReplication; PutBucketRequestPayment;
   PutBucketTagging; PutBucketVersioning; PutBucketWebsite; PutObjectLockConfiguration;
   PutPublicAccessBlock; UpdateBucketMetadataAnnotationTableConfiguration;
   UpdateBucketMetadataInventoryTableConfiguration;
   UpdateBucketMetadataJournalTableConfiguration].

Definition resolve_put_bucket_arms : list (bytes * Z) :=
  [(str "abac", (1 ≪ 4)); (str "accelerate", (1 ≪ 5)); (str "acl", (1 ≪ 6));
   (str "analytics", 1); (str "cors", (1 ≪ 7)); (str "encryption", (1 ≪ 8));
   (str "intelligent-tiering", (1 ≪ 1)); (str "inventory", (1 ≪ 2)); (str "lifecycle", (1 ≪ 9));
   (str "logging", (1 ≪ 10)); (str "metadataAnnotationTable", (1 ≪ 21));
   (str "metadataInventoryTable", (1 ≪ 22)); (str "metadataJournalTable", (1 ≪ 23));
   (str "metrics", (1 ≪ 3)); (str "notification", (1 ≪ 11)); (str "object-lock", (1 ≪ 19));
   (str "ownershipControls", (1 ≪ 12)); (str "policy", (1 ≪ 13));
   (str "publicAccessBlock", (1 ≪ 20)); (str "replication", (1 ≪ 14));
   (str "requestPayment", (1 ≪ 15)); (str "tagging", (1 ≪ 16)); (str "versioning", (1 ≪ 17));
   (str "website", (1 ≪ 18))]%Z.

Definition resolve_put_bucket (req : Request) (qs : option OrderedQs) : resolved :=
  let v_key := match qs with Some qs => or_keys resolve_put_bucket_arms (OrderedQs.qs qs) | None => 0%Z end in
  let v0 := v_key in
  let act := Z.land v0 ((2 ^ 32 - 1) ≫ (32 - 24))%Z in
  if negb (act =? 0)%Z
  then Ok <$> resolve_put_bucket_ops !! trailing_zeros 32 act
  else Some (Ok CreateBucket).

Definition resolve_put_object_ops : list Operation :=
  [PutObjectAnnotation; RenameObject; PutObjectAcl; PutObjectLegalHold; PutObjectRetention;
   PutObjectTagging; UpdateObjectEncryption; UploadPartCopy; UploadPart; CopyObject].

Definition put_object_A_KEY_PARTNUMBER : Z := (1 ≪ 10).
Definition put_object_A_KEY_UPLOADID : Z := (1 ≪ 11).
Definition put_object_A_HDR_X_AMZ_COPY_SOURCE : Z := (1 ≪ 12).
Definition resolve_put_object_arms : list (bytes * Z) :=
  [(str "acl", (1 ≪ 2)); (str "annotation", 1); (str "encryption", (1 ≪ 6));
   (str "legal-hold", (1 ≪ 3));
   (str "partNumber", Z.lor (Z.lor (1 ≪ 7) (1 ≪ 8)) put_object_A_KEY_PARTNUMBER);
   (str "renameObject", (1 ≪ 1)); (str "retention", (1 ≪ 4)); (str "tagging", (1 ≪ 5));
   (str "uploadId", Z.lor (Z.lor (1 ≪ 7) (1 ≪ 8)) put_object_A_KEY_UPLOADID)]%Z.

Definition resolve_put_object (req : Request) (qs : option OrderedQs) : resolved :=
  let KEEP_XOR := 0x180%Z in
  let KEEP_BASE := 0x27f%Z in
  let KEEP_XOR_1 := 0x80%Z in
  let KEEP_BASE_1 := 0x37f%Z in
  let v_hdr := 0%Z in
  let v_hdr := if contains_key req (str "x-amz-copy-source") then Z.lor v_hdr (Z.lor (Z.lor (1 ≪ 7) (1 ≪ 9)) put_object_A_HDR_X_AMZ_COPY_SOURCE)%Z else v_hdr in
  let v_key := match qs with Some qs => or_keys resolve_put_object_arms (OrderedQs.qs qs) | None => 0%Z end in
  let v0 := Z.lor v_key v_hdr in
  let sel := wrapping_neg 16 (Z.b2z ((Z.land v0 (Z.lor put_object_A_KEY_PARTNUMBER put_object_A_KEY_UPLOADID) =? (Z.lor put_object_A_KEY_PARTNUMBER put_object_A_KEY_UPLOADID))%Z)) in
  let sel_1 := wrapping_neg 16 (Z.b2z (negb (Z.land v0 put_object_A_HDR_X_AMZ_COPY_SOURCE =? 0)%Z)) in
  let v1 := Z.lxor (Z.land KEEP_XOR sel) KEEP_BASE in
  let v2 := Z.lxor (Z.land KEEP_XOR_1 sel_1) KEEP_BASE_1 in
  let act := Z.land (Z.land v0 v1) v2 in
  if negb (act =? 0)%Z
  then Ok <$> resolve_put_object_ops !! trailing_zeros 16 act
  else Some (Ok PutObject).

Definition resolve_delete_bucket_ops : list Operation :=
  [DeleteBucketAnalyticsConfiguration; DeleteBucketIntelligentTieringConfiguration;
   DeleteBucketInventoryConfiguration; DeleteBucketMetricsConfiguration; DeleteBucketCors;
   DeleteBucketEncryption; DeleteBucketLifecycle; DeleteBucketMetadataConfiguration;
   DeleteBucketMetadataTableConfiguration; DeleteBucketOwnershipControls; DeleteBucketPolicy;
   DeleteBucketReplication; DeleteBucketTagging; DeleteBucketWebsite; DeletePublicAccessBlock].

Definition resolve_delete_bucket_arms : list (bytes * Z) :=
  [(str "analytics", 1); (str "cors", (1 ≪ 4)); (str "encryption", (1 ≪ 5));
   (str "intelligent-tiering", (1 ≪ 1)); (str "inventory", (1 ≪ 2)); (str "lifecycle", (1 ≪ 6));
   (str "metadataConfiguration", (1 ≪ 7)); (str "metadataTable", (1 ≪ 8));
   (str "metrics", (1 ≪ 3)); (str "ownershipControls", (1 ≪ 9)); (str "policy", (1 ≪ 10));
   (str "publicAccessBlock", (1 ≪ 14)); (str "replication", (1 ≪ 11)); (str "tagging", (1 ≪ 12));
   (str "website", (1 ≪ 13))]%Z.

Definition resolve_delete_bucket (req : Request) (qs : option OrderedQs) : resolved :=
  let v_key := match qs with Some qs => or_keys resolve_delete_bucket_arms (OrderedQs.qs qs) | None => 0%Z end in
  let v0 := v_key in
  let act := Z.land v0 ((2 ^ 16 - 1) ≫ (16 - 15))%Z in
  if negb (act =? 0)%Z
  then Ok <$> resolve_delete_bucket_ops !! trailing_zeros 16 act
  else Some (Ok DeleteBucket).

Definition resolve_delete_object_ops : list Operation :=
  [DeleteObjectAnnotation; DeleteObjectTagging; AbortMultipartUpload].

Definition resolve_delete_object_arms : list (bytes * Z) :=
  [(str "annotation", 1); (str "tagging", (1 ≪ 1)); (str "uploadId", (1 ≪ 2))]%Z.

Definition resolve_delete_object (req : Request) (qs : option OrderedQs) : resolved :=
  let v_key := match qs with Some qs => or_keys resolve_delete_object_arms (OrderedQs.qs qs) | None => 0%Z end in
  let v0 := v_key in
  let act := Z.land v0 ((2 ^ 8 - 1) ≫ (8 - 3))%Z in
  if negb (act =? 0)%Z
  then Ok <$> resolve_delete_object_ops !! trailing_zeros 8 act
  else Some (Ok DeleteObject).

Definition resolve_route (minio : bool) (req : Request) (s3_path : S3Path) (qs : option OrderedQs) : resolved :=
  match method req with
  | HEAD =>
      match s3_path with
      | Root => Some (Err unknown_operation)
      | Bucket _ => resolve_head_bucket req qs
      | Object _ _ => resolve_head_object req qs
      end
  | GET =>
      match s3_path with
      | Root => resolve_get_root req qs
      | Bucket _ => resolve_get_bucket minio req qs
      | Object _ _ => resolve_get_object req qs
      end
  | POST =>
      match s3_path with
      | Root => Some (Err unknown_operation)
      | Bucket _ => resolve_post_bucket req qs
      | Object _ _ => resolve_post_object req qs
      end
  | PUT =>
      match s3_path with
      | Root => Some (Err unknown_operation)
      | Bucket _ => resolve_put_bucket req qs
      | Object _ _ => resolve_put_object req qs
      end
  | DELETE =>
      match s3_path with
      | Root => Some (Err unknown_operation)
      | Bucket _ => resolve_delete_bucket req qs
      | Object _ _ => resolve_delete_object req qs
      end
  | OtherMethod _ => Some (Err unknown_operation)
  end.

End Resolvers.

(** ** The route table *)

(** A route: its operation, the query names, query values and headers it requires. *)
Record Route := route {
  route_op : Operation;
  route_tags : list bytes;
  route_patterns : list (bytes * bytes);
  route_headers : list bytes
}.

Definition qs_has (qs : option OrderedQs) (name : bytes) : bool :=
  match qs with Some q => has q name | None => false end.

Definition qs_is (qs : option OrderedQs) (name value : bytes) : bool :=
  match qs with Some q => get_unique q name =? Some value | None => false end.

Definition route_matches (req : Request) (qs : option OrderedQs) (r : Route) : bool :=
  forallb (qs_has qs) (route_tags r) &&
  forallb (fun p => qs_is qs (fst p) (snd p)) (route_patterns r) &&
  forallb (contains_key req) (route_headers r).

(** The first route of the table that matches, or [d]. *)
Fixpoint first_match {A} (f : Operation -> A) (req : Request) (qs : option OrderedQs) (routes : list Route) (d : A) : A :=
  match routes with
  | [] => d
  | r :: routes' => if route_matches req qs r then f (route_op r) else first_match f req qs routes' d
  end.

Definition get_bucket_routes : list Route :=
  [route GetBucketAnalyticsConfiguration [str "analytics"; str "id"] [] [];
   route GetBucketIntelligentTieringConfiguration [str "id"; str "intelligent-tiering"] [] [];
   route GetBucketInventoryConfiguration [str "id"; str "inventory"] [] [];
   route GetBucketMetricsConfiguration [str "id"; str "metrics"] [] [];
   route CreateSession [str "session"] [] [];
   route GetBucketAbac [str "abac"] [] [];
   route GetBucketAccelerateConfiguration [str "accelerate"] [] [];
   route GetBucketAcl [str "acl"] [] [];
   route GetBucketCors [str "cors"] [] [];
   route GetBucketEncryption [str "encryption"] [] [];
   route GetBucketLifecycleConfiguration [str "lifecycle"] [] [];
   route GetBucketLocation [str "location"] [] [];
   route GetBucketLogging [str "logging"] [] [];
   route GetBucketMetadataConfiguration [str "metadataConfiguration"] [] [];
   route GetBucketMetadataTableConfiguration [str "metadataTable"] [] [];
   route GetBucketNotificationConfiguration [str "notification"] [] [];
   route GetBucketOwnershipControls [str "ownershipControls"] [] [];
   route GetBucketPolicy [str "policy"] [] [];
   route GetBucketPolicyStatus [str "policyStatus"] [] [];
   route GetBucketReplication [str "replication"] [] [];
   route GetBucketRequestPayment [str "requestPayment"] [] [];
   route GetBucketTagging [str "tagging"] [] [];
   route GetBucketVersioning [str "versioning"] [] [];
   route GetBucketWebsite [str "website"] [] [];
   route GetObjectLockConfiguration [str "object-lock"] [] [];
   route GetPublicAccessBlock [str "publicAccessBlock"] [] [];
   route ListBucketAnalyticsConfigurations [str "analytics"] [] [];
   route ListBucketIntelligentTieringConfigurations [str "intelligent-tiering"] [] [];
   route ListBucketInventoryConfigurations [str "inventory"] [] [];
   route ListBucketMetricsConfigurations [str "metrics"] [] [];
   route ListMultipartUploads [str "uploads"] [] [];
   route ListObjectVersions [str "versions"] [] [];
   route ListObjectsV2 [] [(str "list-type", str "2")] []].

Definition get_object_routes : list Route :=
  [route GetObjectAnnotation [str "annotation"; str "annotationName"] [] [];
   route GetObjectAttributes [str "attributes"] [] [];
   route GetObjectAcl [str "acl"] [] [];
   route GetObjectLegalHold [str "legal-hold"] [] [];
   route GetObjectRetention [str "retention"] [] [];
   route GetObjectTagging [str "tagging"] [] [];
   route GetObjectTorrent [str "torrent"] [] [];
   route ListObjectAnnotations [str "annotation"] [] [];
   route ListParts [str "uploadId"] [] []].

Definition post_bucket_routes : list Route :=
  [route CreateBucketMetadataConfiguration [str "metadataConfiguration"] [] [];
   route CreateBucketMetadataTableConfiguration [str "metadataTable"] [] [];
   route DeleteObjects [str "delete"] [] [];
   route WriteGetObjectResponse [] [] [str "x-amz-request-route"; str "x-amz-request-token"]].

Definition post_object_routes : list Route :=
  [route SelectObjectContent [str "select"] [(str "select-type", str "2")] [];
   route CreateMultipartUpload [str "uploads"] [] [];
   route RestoreObject [str "restore"] [] [];
   route CompleteMultipartUpload [str "uploadId"] [] []].

Definition put_bucket_routes : list Route :=
  [route PutBucketAnalyticsConfiguration [str "analytics"] [] [];
   route PutBucketIntelligentTieringConfiguration [str "intelligent-tiering"] [] [];
   route PutBucketInventoryConfiguration [str "inventory"] [] [];
   route PutBucketMetricsConfiguration [str "metrics"] [] [];
   route PutBucketAbac [str "abac"] [] [];
   route PutBucketAccelerateConfiguration [str "accelerate"] [] [];
   route PutBucketAcl [str "acl"] [] [];
   route PutBucketCors [str "cors"] [] [];
   route PutBucketEncryption [str "encryption"] [] [];
   route PutBucketLifecycleConfiguration [str "lifecycle"] [] [];
   route PutBucketLogging [str "logging"] [] [];
   route PutBucketNotificationConfiguration [str "notification"] [] [];
   route PutBucketOwnershipControls [str "ownershipControls"] [] [];
   route PutBucketPolicy [str "policy"] [] [];
   route PutBucketReplication [str "replication"] [] [];
   route PutBucketRequestPayment [str "requestPayment"] [] [];
   route PutBucketTagging [str "tagging"] [] [];
   route PutBucketVersioning [str "versioning"] [] [];
   route PutBucketWebsite [str "website"] [] [];
   route PutObjectLockConfiguration [str "object-lock"] [] [];
   route PutPublicAccessBlock [str "publicAccessBlock"] [] [];
   route UpdateBucketMetadataAnnotationTableConfiguration [str "metadataAnnotationTable"] [] [];
   route UpdateBucketMetadataInventoryTableConfiguration [str "metadataInventoryTable"] [] [];
   route UpdateBucketMetadataJournalTableConfiguration [str "metadataJournalTable"] [] []].

Definition put_object_routes : list Route :=
  [route PutObjectAnnotation [str "annotation"] [] [];
   route RenameObject [str "renameObject"] [] [];
   route PutObjectAcl [str "acl"] [] [];
   route PutObjectLegalHold [str "legal-hold"] [] [];
   route PutObjectRetention [str "retention"] [] [];
   route PutObjectTagging [str "tagging"] [] [];
   route UpdateObjectEncryption [str "encryption"] [] [];
   route UploadPartCopy [str "partNumber"; str "uploadId"] [] [str "x-amz-copy-source"];
   route UploadPart [str "partNumber"; str "uploadId"] [] [];
   route CopyObject [] [] [str "x-amz-copy-source"]].

Definition delete_bucket_routes : list Route :=
  [route DeleteBucketAnalyticsConfiguration [str "analytics"] [] [];
   route DeleteBucketIntelligentTieringConfiguration [str "intelligent-tiering"] [] [];
   route DeleteBucketInventoryConfiguration [str "inventory"] [] [];
   route DeleteBucketMetricsConfiguration [str "metrics"] [] [];
   route DeleteBucketCors [str "cors"] [] [];
   route DeleteBucketEncryption [str "encryption"] [] [];
   route DeleteBucketLifecycle [str "lifecycle"] [] [];
   route DeleteBucketMetadataConfiguration [str "metadataConfiguration"] [] [];
   route DeleteBucketMetadataTableConfiguration [str "metadataTable"] [] [];
   route DeleteBucketOwnershipControls [str "ownershipControls"] [] [];
   route DeleteBucketPolicy [str "policy"] [] [];
   route DeleteBucketReplication [str "replication"] [] [];
   route DeleteBucketTagging [str "tagging"] [] [];
   route DeleteBucketWebsite [str "website"] [] [];
   route DeletePublicAccessBlock [str "publicAccessBlock"] [] []].

Definition delete_object_routes : list Route :=
  [route DeleteObjectAnnotation [str "annotation"] [] [];
   route DeleteObjectTagging [str "tagging"] [] [];
   route AbortMultipartUpload [str "uploadId"] [] []].

(** The routes of a method and a kind of path; the last one matches every request. *)
Definition any_route (op : Operation) : Route := route op [] [] [].

Definition routes (minio : bool) (m : Method) (p : S3Path) : list Route :=
  match m, p with
  | HEAD, Bucket _ => [any_route HeadBucket]
  | HEAD, Object _ _ => [any_route HeadObject]
  | GET, Root =>
      [route ListDirectoryBuckets [] [(str "x-id", str "ListDirectoryBuckets")] []; any_route ListBuckets]
  | GET, Bucket _ =>
      (if minio then [route ListenBucketNotification [str "events"] [] []] else []) ++
      get_bucket_routes ++ [any_route ListObjects]
  | GET, Object _ _ => get_object_routes ++ [any_route GetObject]
  | POST, Bucket _ => post_bucket_routes
  | POST, Object _ _ => post_object_routes
  | PUT, Bucket _ => put_bucket_routes ++ [any_route CreateBucket]
  | PUT, Object _ _ => put_object_routes ++ [any_route PutObject]
  | DELETE, Bucket _ => delete_bucket_routes ++ [any_route DeleteBucket]
  | DELETE, Object _ _ => delete_object_routes ++ [any_route DeleteObject]
  | _, _ => []
  end.

(** ** Bit masks *)

Lemma trailing_zeros_from_spec x fuel i :
  let t := trailing_zeros_from fuel i x in
  (forall j, i <= j < t -> Z.testbit x (Z.of_nat j) = false) /\
  i <= t <= i + fuel /\ (t < i + fuel -> Z.testbit x (Z.of_nat t) = true).
Proof.
  revert i. induction fuel as [|fuel IH]; intros i; simpl.
  - split_and!; [lia|lia|lia|lia].
  - destruct (Z.testbit x (Z.of_nat i)) eqn:E.
    + split_and!; [lia|lia|lia|done].
    + destruct (IH (S i)) as (H1 & H2 & H3). split_and!; [|lia|lia|].
      * intros j Hj. destruct (decide (j = i)) as [->|]; [done|]. apply H1. lia.
      * intros Ht. apply H3. lia.
Qed.

(** The operation of the lowest index whose bit [g] is set. *)
Fixpoint pick {A} (f : Operation -> A) (ops : list Operation) (i : nat) (g : Z -> bool) (d : A) : A :=
  match ops with
  | [] => d
  | op :: ops' => if g (Z.of_nat i) then f op else pick f ops' (S i) g d
  end.

Lemma pick_lookup {A} (f : Operation -> A) ops i g d t op :
  ops !! t = Some op -> (forall j, j < t -> g (Z.of_nat (i + j)) = false) -> g (Z.of_nat (i + t)) = true ->
  pick f ops i g d = f op.
Proof.
  revert i t. induction ops as [|o ops IH]; intros i t; simpl; [done|].
  destruct t as [|t]; simpl.
  - intros [= ->] _. rewrite Nat.add_0_r. by intros ->.
  - intros Ho Hj Ht. specialize (Hj 0 ltac:(lia)) as H0. rewrite Nat.add_0_r in H0. rewrite H0.
    apply (IH _ t); [done| |by rewrite Nat.add_succ_comm].
    intros j Hlt. rewrite Nat.add_succ_comm. apply Hj. lia.
Qed.

Lemma pick_none {A} (f : Operation -> A) ops i g d :
  (forall j, j < length ops -> g (Z.of_nat (i + j)) = false) -> pick f ops i g d = d.
Proof.
  revert i. induction ops as [|o ops IH]; intros i; simpl; [done|]. intros Hj.
  specialize (Hj 0 ltac:(lia)) as H0. rewrite Nat.add_0_r in H0. rewrite H0. apply IH.
  intros j Hlt. rewrite Nat.add_succ_comm. apply Hj. lia.
Qed.

Lemma testbit_above x n i : (0 <= x < 2 ^ Z.of_nat n)%Z -> (Z.of_nat n <= i)%Z -> Z.testbit x i = false.
Proof.
  intros Hx Hi. destruct (decide (x = 0%Z)) as [->|]; [apply Z.testbit_0_l|].
  apply Z.bits_above_log2; [lia|]. apply Z.lt_le_trans with (Z.of_nat n); [|done].
  apply Z.log2_lt_pow2; lia.
Qed.

(** Reading [GROUP_OPS] at the lowest set bit never goes out of range. *)
Lemma dispatch {A} (f : Operation -> A) w ops act g d :
  length ops <= w -> (0 <= act < 2 ^ Z.of_nat (length ops))%Z ->
  (forall i, (0 <= i < Z.of_nat (length ops))%Z -> Z.testbit act i = g i) ->
  (if negb (act =? 0)%Z then f <$> ops !! trailing_zeros w act else Some d)
  = Some (pick f ops 0 g d).
Proof.
  intros Hw Hact Hg. pose proof (trailing_zeros_from_spec act w 0) as Hs. simpl in Hs.
  fold (trailing_zeros w act) in Hs. destruct Hs as (H1 & H2 & H3).
  destruct (act =? 0)%Z eqn:E; simpl.
  - apply Z.eqb_eq in E. subst act. rewrite pick_none; [done|]. intros j Hj.
    rewrite <- Hg by lia. apply Z.testbit_0_l.
  - apply Z.eqb_neq in E. assert (Ht : trailing_zeros w act < length ops).
    { destruct (decide (trailing_zeros w act < length ops)) as [|Hge]; [done|]. exfalso. apply E.
      apply Z.bits_inj_0. intros i. destruct (decide (i < 0)%Z); [by apply Z.testbit_neg_r|].
      destruct (decide (i < Z.of_nat (length ops))%Z); [|apply testbit_above with (length ops); lia].
      replace i with (Z.of_nat (Z.to_nat i)) by lia. apply H1. lia. }
    destruct (lookup_lt_is_Some_2 ops (trailing_zeros w act) Ht) as [op Hop]. rewrite Hop. simpl. f_equal.
    symmetry. apply pick_lookup with (trailing_zeros w act); [done| |].
    + intros j Hj. rewrite <- Hg by lia. apply H1. lia.
    + rewrite <- Hg by lia. apply H3. lia.
Qed.

(** The names whose mask has bit [i]. *)
Definition keys_at (arms : list (bytes * Z)) (i : Z) : list bytes :=
  map fst (List.filter (fun a => Z.testbit (snd a) i) arms).

Lemma existsb_orb {A} (p q : A -> bool) l : existsb (fun x => p x || q x) l = existsb p l || existsb q l.
Proof. induction l as [|x l IH]; simpl; [done|]. rewrite IH. destruct (p x), (q x), (existsb p l), (existsb q l); done. Qed.

Lemma match_arm_testbit arms k i :
  NoDup (map fst arms) -> Z.testbit (match_arm arms k) i = existsb (fun n => k =? n) (keys_at arms i).
Proof.
  unfold match_arm, keys_at. induction arms as [|[n m] arms IH]; simpl; intros Hnd; [apply Z.testbit_0_l|].
  apply NoDup_cons in Hnd as [Hn Hnd]. destruct (n =? k) eqn:E.
  - apply bool_decide_eq_true in E as <-. destruct (Z.testbit m i); simpl.
    + by rewrite bool_decide_eq_true_2.
    + symmetry. apply not_true_is_false. intros Hx. apply existsb_exists in Hx as (x & Hx & E).
      apply bool_decide_eq_true in E as <-. apply in_map_iff in Hx as (a & Ha & Hin).
      apply filter_In in Hin as [Hin _]. apply Hn. rewrite <- Ha. by apply list_elem_of_In, in_map.
  - rewrite IH by done. destruct (Z.testbit m i); simpl; [|done].
    rewrite (bool_decide_eq_false_2 (k = n)); [done|]. intros ->. by apply bool_decide_eq_false in E.
Qed.

Lemma or_keys_testbit arms l i :
  NoDup (map fst arms) ->
  Z.testbit (or_keys arms l) i = existsb (fun n => existsb (fun x => fst x =? n) l) (keys_at arms i).
Proof.
  intros Hnd. unfold or_keys.
  assert (Hgen : forall v, Z.testbit (fold_left (fun v p => Z.lor v (match_arm arms (fst p))) l v) i
    = Z.testbit v i || existsb (fun n => existsb (fun x => fst x =? n) l) (keys_at arms i)).
  { induction l as [|p l IH]; intros v; simpl.
    - rewrite <- (orb_false_r (Z.testbit v i)) at 1. f_equal. symmetry.
      induction (keys_at arms i); done.
    - rewrite IH, Z.lor_spec, match_arm_testbit, <- orb_assoc by done. f_equal.
      by rewrite <- existsb_orb. }
  rewrite Hgen, Z.testbit_0_l. done.
Qed.

Lemma qs_keys_testbit arms qs i :
  bool_decide (NoDup (map fst arms)) = true ->
  Z.testbit (match qs with Some q => or_keys arms (OrderedQs.qs q) | None => 0%Z end) i
  = existsb (qs_has qs) (keys_at arms i).
Proof.
  intros Hnd. apply bool_decide_eq_true in Hnd. destruct qs as [q|]; simpl.
  - rewrite or_keys_testbit by done. reflexivity.
  - rewrite Z.testbit_0_l. induction (keys_at arms i); done.
Qed.

Lemma qs_pattern_testbit qs name value m i :
  Z.testbit (match qs with
             | Some q => if get_unique q name =? Some value then Z.lor 0 m else 0%Z
             | None => 0%Z end) i
  = qs_is qs name value && Z.testbit m i.
Proof.
  destruct qs as [q|]; simpl; [|apply Z.testbit_0_l].
  destruct (_ =? _); simpl; [done|apply Z.testbit_0_l].
Qed.

Lemma or_if_testbit (b : bool) v m i :
  Z.testbit (if b then Z.lor v m else v) i = Z.testbit v i || (b && Z.testbit m i).
Proof. destruct b; simpl; [apply Z.lor_spec|by rewrite orb_false_r]. Qed.

(** [v & (1 << n) != 0] and [v & (1 << a | 1 << b) == (1 << a | 1 << b)]. *)
Lemma test_one v n : (0 <= n)%Z -> negb (Z.land v (1 ≪ n) =? 0)%Z = Z.testbit v n.
Proof.
  intros Hn. rewrite Z.shiftl_1_l. destruct (Z.testbit v n) eqn:E.
  - apply negb_true_iff, Z.eqb_neq. intros Hz. apply (f_equal (fun x => Z.testbit x n)) in Hz.
    rewrite Z.land_spec, E, Z.pow2_bits_true, Z.testbit_0_l in Hz by done. done.
  - apply negb_false_iff, Z.eqb_eq, Z.bits_inj_0. intros i. rewrite Z.land_spec.
    destruct (decide (i = n)) as [->|]; [by rewrite E|]. rewrite Z.pow2_bits_false by done. apply andb_false_r.
Qed.

Lemma test_both v a b :
  (0 <= a)%Z -> (0 <= b)%Z ->
  (Z.land v (Z.lor (1 ≪ a) (1 ≪ b)) =? Z.lor (1 ≪ a) (1 ≪ b))%Z = Z.testbit v a && Z.testbit v b.
Proof.
  intros Ha Hb. rewrite !Z.shiftl_1_l. destruct (Z.testbit v a && Z.testbit v b) eqn:E.
  - apply andb_true_iff in E as [Ea Eb]. apply Z.eqb_eq, Z.bits_inj. intros i.
    rewrite Z.land_spec, Z.lor_spec.
    destruct (decide (i = a)) as [->|]; [by rewrite Ea, andb_true_l|].
    destruct (decide (i = b)) as [->|]; [by rewrite Eb, andb_true_l|].
    rewrite !Z.pow2_bits_false by done. apply andb_false_r.
  - apply Z.eqb_neq. intros Heq.
    assert (Hbit : forall i, Z.testbit (Z.lor (2 ^ a) (2 ^ b)) i = true -> Z.testbit v i = true).
    { intros i Hi. rewrite <- Heq, Z.land_spec in Hi. by apply andb_true_iff in Hi as [? _]. }
    rewrite (Hbit a), (Hbit b) in E; [done| |];
      rewrite Z.lor_spec, ?Z.pow2_bits_true, ?orb_true_r by done; done.
Qed.

Lemma wrapping_neg_testbit w b i : (0 <= i < w)%Z -> Z.testbit (wrapping_neg w (Z.b2z b)) i = b.
Proof.
  intros Hi. unfold wrapping_neg. rewrite Z.mod_pow2_bits_low by lia.
  destruct b; simpl; [|apply Z.testbit_0_l]. apply Z.bits_m1. lia.
Qed.

(** The branch-free selection [KEEP_XOR & sel ^ KEEP_BASE]. *)
Lemma select_testbit w kx b kb i :
  (0 <= i < w)%Z ->
  Z.testbit (Z.lxor (Z.land kx (wrapping_neg w (Z.b2z b))) kb) i
  = xorb (Z.testbit kx i && b) (Z.testbit kb i).
Proof. intros Hi. by rewrite Z.lxor_spec, Z.land_spec, wrapping_neg_testbit. Qed.

Lemma land_range a b n : (0 <= n)%Z -> (0 <= b < 2 ^ n)%Z -> (0 <= Z.land a b < 2 ^ n)%Z.
Proof.
  intros Hn Hb. rewrite <- (Z.mod_small b (2 ^ n)), <- Z.land_ones, Z.land_assoc, Z.land_ones by lia.
  apply Z.mod_pos_bound. lia.
Qed.

Lemma select_range w kx b kb n :
  (0 <= n)%Z -> (0 <= kx < 2 ^ n)%Z -> (0 <= kb < 2 ^ n)%Z ->
  (0 <= Z.lxor (Z.land kx (wrapping_neg w (Z.b2z b))) kb < 2 ^ n)%Z.
Proof.
  intros Hn Hx Hb. rewrite <- (Z.mod_small kx (2 ^ n)), <- (Z.mod_small kb (2 ^ n)) by lia.
  rewrite <- !Z.land_ones, (Z.land_comm kx), <- Z.land_assoc, (Z.land_comm kx), Z.land_assoc by lia.
  rewrite (Z.land_comm (Z.ones n)), <- Z.land_assoc, (Z.land_comm (Z.ones n)), Z.land_assoc.
  replace (Z.lxor _ _) with (Z.land (Z.lxor (Z.land (wrapping_neg w (Z.b2z b)) kx) kb) (Z.ones n)).
  2:{ apply Z.bits_inj. intros i. rewrite !Z.land_spec, !Z.lxor_spec, !Z.land_spec.
      by destruct (Z.testbit (Z.ones n) i), (Z.testbit kb i), (Z.testbit kx i), (Z.testbit _ i). }
  rewrite Z.land_ones by done. apply Z.mod_pos_bound. lia.
Qed.

(** ** Each resolver takes the first matching route *)

(** Rewrites the bits of the masks to the query names and headers they come from. *)
Ltac mask_bits :=
  let bit := fresh "bit" in let Hbit := fresh "Hbit" in
  match goal with |- ?l = _ => remember l as bit eqn:Hbit end;
  rewrite ?Z.land_spec, ?select_testbit, ?test_both, ?test_one in Hbit by lia;
  rewrite ?Z.lor_spec, ?or_if_testbit, ?qs_pattern_testbit in Hbit;
  rewrite ?qs_keys_testbit, ?Z.testbit_0_l in Hbit by (vm_compute; reflexivity);
  exact Hbit.

(** Compares two decision lists test by test. *)
Ltac decision_lists :=
  lazy -[qs_has qs_is contains_key unknown_operation];
  repeat match goal with
  | |- ?x = ?x => reflexivity
  | |- context [if ?b then _ else _] =>
      lazymatch b with context [if _ then _ else _] => fail | _ => destruct b; lazy iota end
  end.

Ltac first_route n :=
  erewrite dispatch;
  [ f_equal
  | vm_compute; lia
  | repeat (apply land_range; [done|]); first [apply select_range; done | by vm_compute]
  | let i := fresh "i" in let Hi := fresh "Hi" in
    intros i Hi; change (Z.of_nat _) with n in Hi; mask_bits ];
  decision_lists.

Section Correctness.
Context `{PhfMap} (req : Request) (qs : option OrderedQs).

Lemma resolve_get_object_first :
  resolve_get_object req qs = Some (first_match Ok req qs get_object_routes (Ok GetObject)).
Proof. unfold resolve_get_object, get_object_A_KEY_ANNOTATIONNAME. first_route 9%Z. Qed.

Lemma resolve_post_bucket_first :
  resolve_post_bucket req qs = Some (first_match Ok req qs post_bucket_routes (Err unknown_operation)).
Proof.
  unfold resolve_post_bucket, post_bucket_A_HDR_X_AMZ_REQUEST_ROUTE, post_bucket_A_HDR_X_AMZ_REQUEST_TOKEN.
 first_route 4%Z.
Qed.

Lemma resolve_post_object_first :
  resolve_post_object req qs = Some (first_match Ok req qs post_object_routes (Err unknown_operation)).
Proof.
  unfold resolve_post_object, post_object_A_KEY_SELECT, post_object_A_PAT_SELECT_TYPE_2.
  first_route 4%Z.
Qed.

Lemma resolve_put_bucket_first :
  resolve_put_bucket req qs = Some (first_match Ok req qs put_bucket_routes (Ok CreateBucket)).
Proof. unfold resolve_put_bucket. first_route 24%Z. Qed.

Lemma resolve_put_object_first :
  resolve_put_object req qs = Some (first_match Ok req qs put_object_routes (Ok PutObject)).
Proof.
  unfold resolve_put_object, put_object_A_KEY_PARTNUMBER, put_object_A_KEY_UPLOADID, put_object_A_HDR_X_AMZ_COPY_SOURCE.
  first_route 10%Z.
Qed.

Lemma resolve_delete_bucket_first :
  resolve_delete_bucket req qs = Some (first_match Ok req qs delete_bucket_routes (Ok DeleteBucket)).
Proof. unfold resolve_delete_bucket. first_route 15%Z. Qed.

Lemma resolve_delete_object_first :
  resolve_delete_object req qs = Some (first_match Ok req qs delete_object_routes (Ok DeleteObject)).
Proof. unfold resolve_delete_object. first_route 3%Z. Qed.

Lemma resolve_get_bucket_first (minio : bool) :
  resolve_get_bucket minio req qs =
    Some (if minio && qs_has qs (str "events") then Ok ListenBucketNotification
          else first_match Ok req qs get_bucket_routes (Ok ListObjects)).
Proof.
  unfold resolve_get_bucket, get_bucket_A_KEY_ID. fold (qs_has qs (str "events")).
  destruct (minio && qs_has qs (str "events")); [done|]. first_route 33%Z.
Qed.

Lemma first_match_app {A} (f : Operation -> A) l k d :
  first_match f req qs (l ++ k) d = first_match f req qs l (first_match f req qs k d).
Proof. induction l as [|r l IH]; simpl; [done|]. by rewrite IH. Qed.

Lemma resolve_route_eq (minio : bool) (p : S3Path) :
  resolve_route minio req p qs =
    Some (first_match Ok req qs (routes minio (method req) p) (Err unknown_operation)).
Proof.
  unfold resolve_route, routes. destruct (method req), p; try reflexivity;
    rewrite ?resolve_get_bucket_first, ?resolve_get_object_first, ?resolve_post_bucket_first,
      ?resolve_post_object_first, ?resolve_put_bucket_first, ?resolve_put_object_first,
      ?resolve_delete_bucket_first, ?resolve_delete_object_first, ?first_match_app; try reflexivity.
  - unfold resolve_get_root. destruct qs as [q|]; [|reflexivity]. simpl. unfold route_matches. simpl.
    by destruct (_ =? _).
  - destruct minio; simpl; [|reflexivity]. unfold route_matches. simpl. by rewrite !andb_true_r.
Qed.

(** C17: routing never panics, and the operation it finds is that of the first route of the
    table, for the method and kind of path, whose query names, query values and headers the
    request has; a request without such a route gets [NotImplemented]. *)
Theorem resolve_route_first_match (minio : bool) (p : S3Path) :
  resolve_route minio req p qs =
    Some (first_match Ok req qs (routes minio (method req) p) (Err unknown_operation)).
Proof. apply resolve_route_eq. Qed.

End Correctness.

(** A request whose query names and header match three routes of its table. *)
Lemma resolve_route_first_match_witness :
  let req := {| method := PUT; contains_key := fun h => h =? str "x-amz-copy-source" |} in
  let qs := Some {| qs := [(str "partNumber", str "1"); (str "uploadId", str "u")] |} in
  @resolve_route assoc_phf false req (Object (str "b") (str "k")) qs = Some (Ok UploadPartCopy).
Proof.
  intros req qs. rewrite (@resolve_route_first_match assoc_phf req qs false). reflexivity.
Defined.
