(* ===== verification/Oir.v ===== *)
(** * Operations declared by the client (crates/s3s/src/ops/generated/oir.rs)

    The [x-id] query parameter names an operation; the lookup is by method and kind of path.
    The theorem relates it to the route table: declaring an operation never reaches one that
    the router could not find for the same kind of request. *)

From S2P Require Import Prelude.
From S2P Require Import Str.
From S2P Require Import OrderedQs.
From S2P Require Import Path.
From S2P Require Import ErrorCode.
From S2P Require Import Router.

#[global] Instance Operation_eq_dec : EqDecision Operation.
Proof. solve_decision. Defined.

(** [match name { "..." => Some(op), ..., _ => None }] *)
Fixpoint match_name (arms : list (bytes * Operation)) (name : bytes) : option Operation :=
  match arms with
  | [] => None
  | (n, op) :: arms' => if name =? n then Some op else match_name arms' name
  end.

Definition by_id_delete_bucket : list (bytes * Operation) :=
  [(str "DeleteBucket", DeleteBucket); (str "DeleteBucketAnalyticsConfiguration", DeleteBucketAnalyticsConfiguration);
   (str "DeleteBucketCors", DeleteBucketCors); (str "DeleteBucketEncryption", DeleteBucketEncryption);
   (str "DeleteBucketIntelligentTieringConfiguration", DeleteBucketIntelligentTieringConfiguration);
   (str "DeleteBucketInventoryConfiguration", DeleteBucketInventoryConfiguration);
   (str "DeleteBucketLifecycle", DeleteBucketLifecycle);
   (str "DeleteBucketMetadataConfiguration", DeleteBucketMetadataConfiguration);
   (str "DeleteBucketMetadataTableConfiguration", DeleteBucketMetadataTableConfiguration);
   (str "DeleteBucketMetricsConfiguration", DeleteBucketMetricsConfiguration);
   (str "DeleteBucketOwnershipControls", DeleteBucketOwnershipControls);
   (str "DeleteBucketPolicy", DeleteBucketPolicy); (str "DeleteBucketReplication", DeleteBucketReplication);
   (str "DeleteBucketTagging", DeleteBucketTagging); (str "DeleteBucketWebsite", DeleteBucketWebsite);
   (str "DeletePublicAccessBlock", DeletePublicAccessBlock)].

Definition by_id_delete_object : list (bytes * Operation) :=
  [(str "AbortMultipartUpload", AbortMultipartUpload); (str "DeleteObject", DeleteObject);
   (str "DeleteObjectAnnotation", DeleteObjectAnnotation); (str "DeleteObjectTagging", DeleteObjectTagging)].

Definition by_id_get_root : list (bytes * Operation) :=
  [(str "ListBuckets", ListBuckets); (str "ListDirectoryBuckets", ListDirectoryBuckets)].

Definition by_id_get_bucket : list (bytes * Operation) :=
  [(str "CreateSession", CreateSession); (str "GetBucketAbac", GetBucketAbac);
   (str "GetBucketAccelerateConfiguration", GetBucketAccelerateConfiguration); (str "GetBucketAcl", GetBucketAcl);
   (str "GetBucketAnalyticsConfiguration", GetBucketAnalyticsConfiguration); (str "GetBucketCors", GetBucketCors);
   (str "GetBucketEncryption", GetBucketEncryption);
   (str "GetBucketIntelligentTieringConfiguration", GetBucketIntelligentTieringConfiguration);
   (str "GetBucketInventoryConfiguration", GetBucketInventoryConfiguration);
   (str "GetBucketLifecycleConfiguration", GetBucketLifecycleConfiguration);
   (str "GetBucketLocation", GetBucketLocation); (str "GetBucketLogging", GetBucketLogging);
   (str "GetBucketMetadataConfiguration", GetBucketMetadataConfiguration);
   (str "GetBucketMetadataTableConfiguration", GetBucketMetadataTableConfiguration);
   (str "GetBucketMetricsConfiguration", GetBucketMetricsConfiguration);
   (str "GetBucketNotificationConfiguration", GetBucketNotificationConfiguration);
   (str "GetBucketOwnershipControls", GetBucketOwnershipControls); (str "GetBucketPolicy", GetBucketPolicy);
   (str "GetBucketPolicyStatus", GetBucketPolicyStatus); (str "GetBucketReplication", GetBucketReplication);
   (str "GetBucketRequestPayment", GetBucketRequestPayment); (str "GetBucketTagging", GetBucketTagging);
   (str "GetBucketVersioning", GetBucketVersioning); (str "GetBucketWebsite", GetBucketWebsite);
   (str "GetObjectLockConfiguration", GetObjectLockConfiguration); (str "GetPublicAccessBlock", GetPublicAccessBlock);
   (str "ListBucketAnalyticsConfigurations", ListBucketAnalyticsConfigurations);
   (str "ListBucketIntelligentTieringConfigurations", ListBucketIntelligentTieringConfigurations);
   (str "ListBucketInventoryConfigurations", ListBucketInventoryConfigurations);
   (str "ListBucketMetricsConfigurations", ListBucketMetricsConfigurations);
   (str "ListMultipartUploads", ListMultipartUploads); (str "ListObjectVersions", ListObjectVersions);
   (str "ListObjects", ListObjects); (str "ListObjectsV2", ListObjectsV2)].

Definition by_id_get_object : list (bytes * Operation) :=
  [(str "GetObject", GetObject); (str "GetObjectAcl", GetObjectAcl); (str "GetObjectAnnotation", GetObjectAnnotation);
   (str "GetObjectAttributes", GetObjectAttributes); (str "GetObjectLegalHold", GetObjectLegalHold);
   (str "GetObjectRetention", GetObjectRetention); (str "GetObjectTagging", GetObjectTagging);
   (str "GetObjectTorrent", GetObjectTorrent); (str "ListObjectAnnotations", ListObjectAnnotations);
   (str "ListParts", ListParts)].

Definition by_id_post_bucket : list (bytes * Operation) :=
  [(str "CreateBucketMetadataConfiguration", CreateBucketMetadataConfiguration);
   (str "CreateBucketMetadataTableConfiguration", CreateBucketMetadataTableConfiguration);
   (str "DeleteObjects", DeleteObjects); (str "WriteGetObjectResponse", WriteGetObjectResponse)].

Definition by_id_post_object : list (bytes * Operation) :=
  [(str "CompleteMultipartUpload", CompleteMultipartUpload); (str "CreateMultipartUpload", CreateMultipartUpload);
   (str "RestoreObject", RestoreObject); (str "SelectObjectContent", SelectObjectContent)].

Definition by_id_put_bucket : list (bytes * Operation) :=
  [(str "CreateBucket", CreateBucket); (str "PutBucketAbac", PutBucketAbac);
   (str "PutBucketAccelerateConfiguration", PutBucketAccelerateConfiguration); (str "PutBucketAcl", PutBucketAcl);
   (str "PutBucketAnalyticsConfiguration", PutBucketAnalyticsConfiguration); (str "PutBucketCors", PutBucketCors);
   (str "PutBucketEncryption", PutBucketEncryption);
   (str "PutBucketIntelligentTieringConfiguration", PutBucketIntelligentTieringConfiguration);
   (str "PutBucketInventoryConfiguration", PutBucketInventoryConfiguration);
   (str "PutBucketLifecycleConfiguration", PutBucketLifecycleConfiguration);
   (str "PutBucketLogging", PutBucketLogging); (str "PutBucketMetricsConfiguration", PutBucketMetricsConfiguration);
   (str "PutBucketNotificationConfiguration", PutBucketNotificationConfiguration);
   (str "PutBucketOwnershipControls", PutBucketOwnershipControls); (str "PutBucketPolicy", PutBucketPolicy);
   (str "PutBucketReplication", PutBucketReplication); (str "PutBucketRequestPayment", PutBucketRequestPayment);
   (str "PutBucketTagging", PutBucketTagging); (str "PutBucketVersioning", PutBucketVersioning);
   (str "PutBucketWebsite", PutBucketWebsite); (str "PutObjectLockConfiguration", PutObjectLockConfiguration);
   (str "PutPublicAccessBlock", PutPublicAccessBlock);
   (str "UpdateBucketMetadataAnnotationTableConfiguration", UpdateBucketMetadataAnnotationTableConfiguration);
   (str "UpdateBucketMetadataInventoryTableConfiguration", UpdateBucketMetadataInventoryTableConfiguration);
   (str "UpdateBucketMetadataJournalTableConfiguration", UpdateBucketMetadataJournalTableConfiguration)].

Definition by_id_put_object : list (bytes * Operation) :=
  [(str "CopyObject", CopyObject); (str "PutObject", PutObject); (str "PutObjectAcl", PutObjectAcl);
   (str "PutObjectAnnotation", PutObjectAnnotation); (str "PutObjectLegalHold", PutObjectLegalHold);
   (str "PutObjectRetention", PutObjectRetention); (str "PutObjectTagging", PutObjectTagging);
   (str "RenameObject", RenameObject); (str "UpdateObjectEncryption", UpdateObjectEncryption);
   (str "UploadPart", UploadPart); (str "UploadPartCopy", UploadPartCopy)].

(** The arm of [ListenBucketNotification] is compiled in with the [minio] feature. *)
Definition resolve_operation_by_id (minio : bool) (method : Method) (s3_path : S3Path) (name : bytes) : option Operation :=
  match method, s3_path with
  | DELETE, Bucket _ => match_name by_id_delete_bucket name
  | DELETE, Object _ _ => match_name by_id_delete_object name
  | GET, Root => match_name by_id_get_root name
  | GET, Bucket _ =>
      match_name (by_id_get_bucket ++ if minio then [(str "ListenBucketNotification", ListenBucketNotification)] else []) name
  | GET, Object _ _ => match_name by_id_get_object name
  | HEAD, Bucket _ => if name =? str "HeadBucket" then Some HeadBucket else None
  | HEAD, Object _ _ => if name =? str "HeadObject" then Some HeadObject else None
  | POST, Bucket _ => match_name by_id_post_bucket name
  | POST, Object _ _ => match_name by_id_post_object name
  | PUT, Bucket _ => match_name by_id_put_bucket name
  | PUT, Object _ _ => match_name by_id_put_object name
  | _, _ => None
  end.

(** ** The name of an operation *)

Definition op_name (op : Operation) : bytes :=
  match op with
  | AbortMultipartUpload => str "AbortMultipartUpload"
  | CompleteMultipartUpload => str "CompleteMultipartUpload"
  | CopyObject => str "CopyObject"
  | CreateBucket => str "CreateBucket"
  | CreateBucketMetadataConfiguration => str "CreateBucketMetadataConfiguration"
  | CreateBucketMetadataTableConfiguration => str "CreateBucketMetadataTableConfiguration"
  | CreateMultipartUpload => str "CreateMultipartUpload"
  | CreateSession => str "CreateSession"
  | DeleteBucket => str "DeleteBucket"
  | DeleteBucketAnalyticsConfiguration => str "DeleteBucketAnalyticsConfiguration"
  | DeleteBucketCors => str "DeleteBucketCors"
  | DeleteBucketEncryption => str "DeleteBucketEncryption"
  | DeleteBucketIntelligentTieringConfiguration => str "DeleteBucketIntelligentTieringConfiguration"
  | DeleteBucketInventoryConfiguration => str "DeleteBucketInventoryConfiguration"
  | DeleteBucketLifecycle => str "DeleteBucketLifecycle"
  | DeleteBucketMetadataConfiguration => str "DeleteBucketMetadataConfiguration"
  | DeleteBucketMetadataTableConfiguration => str "DeleteBucketMetadataTableConfiguration"
  | DeleteBucketMetricsConfiguration => str "DeleteBucketMetricsConfiguration"
  | DeleteBucketOwnershipControls => str "DeleteBucketOwnershipControls"
  | DeleteBucketPolicy => str "DeleteBucketPolicy"
  | DeleteBucketReplication => str "DeleteBucketReplication"
  | DeleteBucketTagging => str "DeleteBucketTagging"
  | DeleteBucketWebsite => str "DeleteBucketWebsite"
  | DeleteObject => str "DeleteObject"
  | DeleteObjectAnnotation => str "DeleteObjectAnnotation"
  | DeleteObjectTagging => str "DeleteObjectTagging"
  | DeleteObjects => str "DeleteObjects"
  | DeletePublicAccessBlock => str "DeletePublicAccessBlock"
  | GetBucketAbac => str "GetBucketAbac"
  | GetBucketAccelerateConfiguration => str "GetBucketAccelerateConfiguration"
  | GetBucketAcl => str "GetBucketAcl"
  | GetBucketAnalyticsConfiguration => str "GetBucketAnalyticsConfiguration"
  | GetBucketCors => str "GetBucketCors"
  | GetBucketEncryption => str "GetBucketEncryption"
  | GetBucketIntelligentTieringConfiguration => str "GetBucketIntelligentTieringConfiguration"
  | GetBucketInventoryConfiguration => str "GetBucketInventoryConfiguration"
  | GetBucketLifecycleConfiguration => str "GetBucketLifecycleConfiguration"
  | GetBucketLocation => str "GetBucketLocation"
  | GetBucketLogging => str "GetBucketLogging"
  | GetBucketMetadataConfiguration => str "GetBucketMetadataConfiguration"
  | GetBucketMetadataTableConfiguration => str "GetBucketMetadataTableConfiguration"
  | GetBucketMetricsConfiguration => str "GetBucketMetricsConfiguration"
  | GetBucketNotificationConfiguration => str "GetBucketNotificationConfiguration"
  | GetBucketOwnershipControls => str "GetBucketOwnershipControls"
  | GetBucketPolicy => str "GetBucketPolicy"
  | GetBucketPolicyStatus => str "GetBucketPolicyStatus"
  | GetBucketReplication => str "GetBucketReplication"
  | GetBucketRequestPayment => str "GetBucketRequestPayment"
  | GetBucketTagging => str "GetBucketTagging"
  | GetBucketVersioning => str "GetBucketVersioning"
  | GetBucketWebsite => str "GetBucketWebsite"
  | GetObject => str "GetObject"
  | GetObjectAcl => str "GetObjectAcl"
  | GetObjectAnnotation => str "GetObjectAnnotation"
  | GetObjectAttributes => str "GetObjectAttributes"
  | GetObjectLegalHold => str "GetObjectLegalHold"
  | GetObjectLockConfiguration => str "GetObjectLockConfiguration"
  | GetObjectRetention => str "GetObjectRetention"
  | GetObjectTagging => str "GetObjectTagging"
  | GetObjectTorrent => str "GetObjectTorrent"
  | GetPublicAccessBlock => str "GetPublicAccessBlock"
  | HeadBucket => str "HeadBucket"
  | HeadObject => str "HeadObject"
  | ListBucketAnalyticsConfigurations => str "ListBucketAnalyticsConfigurations"
  | ListBucketIntelligentTieringConfigurations => str "ListBucketIntelligentTieringConfigurations"
  | ListBucketInventoryConfigurations => str "ListBucketInventoryConfigurations"
  | ListBucketMetricsConfigurations => str "ListBucketMetricsConfigurations"
  | ListBuckets => str "ListBuckets"
  | ListDirectoryBuckets => str "ListDirectoryBuckets"
  | ListMultipartUploads => str "ListMultipartUploads"
  | ListObjectAnnotations => str "ListObjectAnnotations"
  | ListObjectVersions => str "ListObjectVersions"
  | ListObjects => str "ListObjects"
  | ListObjectsV2 => str "ListObjectsV2"
  | ListParts => str "ListParts"
  | ListenBucketNotification => str "ListenBucketNotification"
  | PutBucketAbac => str "PutBucketAbac"
  | PutBucketAccelerateConfiguration => str "PutBucketAccelerateConfiguration"
  | PutBucketAcl => str "PutBucketAcl"
  | PutBucketAnalyticsConfiguration => str "PutBucketAnalyticsConfiguration"
  | PutBucketCors => str "PutBucketCors"
  | PutBucketEncryption => str "PutBucketEncryption"
  | PutBucketIntelligentTieringConfiguration => str "PutBucketIntelligentTieringConfiguration"
  | PutBucketInventoryConfiguration => str "PutBucketInventoryConfiguration"
  | PutBucketLifecycleConfiguration => str "PutBucketLifecycleConfiguration"
  | PutBucketLogging => str "PutBucketLogging"
  | PutBucketMetricsConfiguration => str "PutBucketMetricsConfiguration"
  | PutBucketNotificationConfiguration => str "PutBucketNotificationConfiguration"
  | PutBucketOwnershipControls => str "PutBucketOwnershipControls"
  | PutBucketPolicy => str "PutBucketPolicy"
  | PutBucketReplication => str "PutBucketReplication"
  | PutBucketRequestPayment => str "PutBucketRequestPayment"
  | PutBucketTagging => str "PutBucketTagging"
  | PutBucketVersioning => str "PutBucketVersioning"
  | PutBucketWebsite => str "PutBucketWebsite"
  | PutObject => str "PutObject"
  | PutObjectAcl => str "PutObjectAcl"
  | PutObjectAnnotation => str "PutObjectAnnotation"
  | PutObjectLegalHold => str "PutObjectLegalHold"
  | PutObjectLockConfiguration => str "PutObjectLockConfiguration"
  | PutObjectRetention => str "PutObjectRetention"
  | PutObjectTagging => str "PutObjectTagging"
  | PutPublicAccessBlock => str "PutPublicAccessBlock"
  | RenameObject => str "RenameObject"
  | RestoreObject => str "RestoreObject"
  | SelectObjectContent => str "SelectObjectContent"
  | UpdateBucketMetadataAnnotationTableConfiguration => str "UpdateBucketMetadataAnnotationTableConfiguration"
  | UpdateBucketMetadataInventoryTableConfiguration => str "UpdateBucketMetadataInventoryTableConfiguration"
  | UpdateBucketMetadataJournalTableConfiguration => str "UpdateBucketMetadataJournalTableConfiguration"
  | UpdateObjectEncryption => str "UpdateObjectEncryption"
  | UploadPart => str "UploadPart"
  | UploadPartCopy => str "UploadPartCopy"
  | WriteGetObjectResponse => str "WriteGetObjectResponse"
  end.

(** All operations by name. *)
Definition all_ops : list (bytes * Operation) :=
  by_id_delete_bucket ++ by_id_delete_object ++ by_id_get_root ++ by_id_get_bucket ++ by_id_get_object ++
  by_id_post_bucket ++ by_id_post_object ++ by_id_put_bucket ++ by_id_put_object ++
  [(str "ListenBucketNotification", ListenBucketNotification); (str "HeadBucket", HeadBucket); (str "HeadObject", HeadObject)].

(** The operations the router can find for a method and a kind of path. *)
Definition routed_ops (minio : bool) (m : Method) (p : S3Path) : list Operation := map route_op (routes minio m p).

Lemma op_name_inj a b : op_name a = op_name b -> a = b.
Proof.
  assert (Hd : forall x, match_name all_ops (op_name x) = Some x) by (by intros []; vm_compute).
  intros E. pose proof (Hd a) as Ha. rewrite E, Hd in Ha. by injection Ha.
Qed.

Lemma same_elements (l k : list Operation) :
  forallb (fun o => bool_decide (o ∈ k)) l && forallb (fun o => bool_decide (o ∈ l)) k = true -> forall o, o ∈ l <-> o ∈ k.
Proof.
  intros [H1 H2]%andb_true_iff o. rewrite forallb_forall in H1, H2.
  split; intros Ho%list_elem_of_In; [by specialize (H1 o Ho); apply bool_decide_eq_true in H1|].
  by specialize (H2 o Ho); apply bool_decide_eq_true in H2.
Qed.

Lemma match_name_iff arms name op :
  forallb (fun a => fst a =? op_name (snd a)) arms = true ->
  match_name arms name = Some op <-> name = op_name op /\ op ∈ map snd arms.
Proof.
  induction arms as [|[n o] arms IH]; cbn [forallb match_name map fst snd]; intros Ha.
  { split; [done|]. by intros [_ ?%elem_of_nil]. }
  apply andb_true_iff in Ha as [Hn%bool_decide_eq_true Ha]. specialize (IH Ha). rewrite elem_of_cons.
  case_bool_decide as E; [|rewrite IH; split; [intros [-> ?]; auto|]].
  - split; [intros [= <-]; by rewrite E, Hn; auto|]. intros [Hop _].
    assert (Ho : o = op) by (apply op_name_inj; congruence). by rewrite Ho.
  - intros [Hop [->|?]]; [|done]. congruence.
Qed.

Lemma declared_iff (minio : bool) (m : Method) (p : S3Path) (name : bytes) (op : Operation) :
  resolve_operation_by_id minio m p name = Some op <-> name = op_name op /\ op ∈ routed_ops minio m p.
Proof.
  assert (Hset : forall arms, forallb (fun a => fst a =? op_name (snd a)) arms = true ->
    (forall o, o ∈ map snd arms <-> o ∈ routed_ops minio m p) ->
    match_name arms name = Some op <-> name = op_name op /\ op ∈ routed_ops minio m p).
  { intros arms Ha Ho. by rewrite match_name_iff, Ho. }
  unfold resolve_operation_by_id. destruct m, p; try (by split; [|intros [_ ?%elem_of_nil]]).
  1: apply (Hset [(str "HeadBucket", HeadBucket)]).
  3: apply (Hset [(str "HeadObject", HeadObject)]).
  all: try apply Hset; first [by destruct minio; vm_compute | apply same_elements; by destruct minio; vm_compute].
Qed.

(** ** Properties *)

(** C24: declaring an operation agrees with routing.  A name resolves, for a method and a kind
    of path, exactly to the operation of that name when the route table has it for the same
    method and kind of path; so a declared name cannot reach an operation of another kind of
    request, and every operation the router can find can be declared. *)
Theorem declared_iff_routable (minio : bool) (m : Method) (p : S3Path) (name : bytes) (op : Operation) :
  resolve_operation_by_id minio m p name = Some op <-> name = op_name op /\ op ∈ routed_ops minio m p.
Proof. apply declared_iff. Qed.

Lemma declared_iff_routable_witness :
  resolve_operation_by_id false GET (Bucket (str "b")) (str "ListObjectsV2") = Some ListObjectsV2.
Proof. apply declared_iff_routable. split; [reflexivity|]. by_decide. Defined.
