(* ===== verification/AmzDate.v ===== *)
(** * The x-amz-date value (crates/s3s-sigv4/src/amz_date.rs, parser.rs)

    A sixteen-byte ISO 8601 timestamp, its parser and its two formatters. *)

From S2P Require Import Prelude.
From S2P Require Import Str.

(** ** Digits (parser.rs) *)

Definition digit (c : byte) : option Z :=
  if in_range "0" "9" c then Some (u8 c - u8 "0")%Z else None.

Definition digit2 (x0 x1 : byte) : option Z :=
  x0 ← digit x0;
  x1 ← digit x1;
  Some (x0 * 10 + x1)%Z.

Definition digit4 (x0 x1 x2 x3 : byte) : option Z :=
  x0 ← digit2 x0 x1;
  x1 ← digit2 x2 x3;
  Some (x0 * 100 + x1)%Z.

(** ** The date *)

Record AmzDate := {
  year : Z;
  month : Z;
  day : Z;
  hour : Z;
  minute : Z;
  second : Z
}.

(** [parse_date_bytes] *)
Definition parse_date_bytes (a0 a1 a2 a3 a4 a5 a6 a7 a8 a9 a10 a11 a12 a13 a14 a15 : byte) : option AmzDate :=
  year ← digit4 a0 a1 a2 a3;
  month ← digit2 a4 a5;
  day ← digit2 a6 a7;
  if negb (a8 =? "T"%byte) then None else
  hour ← digit2 a9 a10;
  minute ← digit2 a11 a12;
  second ← digit2 a13 a14;
  if negb (a15 =? "Z"%byte) then None else
  Some {| year := year; month := month; day := day; hour := hour; minute := minute; second := second |}.

(** [AmzDate::parse]: the [try_into] to a sixteen-byte array is the length test. *)
Definition AmzDate_parse (input : bytes) : option AmzDate :=
  match input with
  | [a0; a1; a2; a3; a4; a5; a6; a7; a8; a9; a10; a11; a12; a13; a14; a15] =>
      parse_date_bytes a0 a1 a2 a3 a4 a5 a6 a7 a8 a9 a10 a11 a12 a13 a14 a15
  | _ => None
  end.

(** Writing into an [ArrayString] of capacity [cap]: [None] is the panic of [unwrap]. *)
Definition array_string (cap : nat) (s : bytes) : option bytes :=
  if (length s <=? cap)%nat then Some s else None.

Definition fmt_iso8601 (d : AmzDate) : option bytes :=
  array_string 16
    (fmt_dec_pad 4 (year d) ++ fmt_dec_pad 2 (month d) ++ fmt_dec_pad 2 (day d) ++ str "T" ++
     fmt_dec_pad 2 (hour d) ++ fmt_dec_pad 2 (minute d) ++ fmt_dec_pad 2 (second d) ++ str "Z").

Definition fmt_date (d : AmzDate) : option bytes :=
  array_string 8 (fmt_dec_pad 4 (year d) ++ fmt_dec_pad 2 (month d) ++ fmt_dec_pad 2 (day d)).

(** [i16::try_from], [i8::try_from] of an unsigned value. *)
Definition try_from (max x : Z) : option Z := if (x <=? max)%Z then Some x else None.

(** [to_time]: the civil calendar and the time line are the [jiff] crate's, a parameter. *)
Definition to_time {T} (jiff_utc_timestamp : Z -> Z -> Z -> Z -> Z -> Z -> option T) (d : AmzDate) : option T :=
  y ← try_from 32767 (year d);
  mo ← try_from 127 (month d);
  da ← try_from 127 (day d);
  h ← try_from 127 (hour d);
  mi ← try_from 127 (minute d);
  s ← try_from 127 (second d);
  jiff_utc_timestamp y mo da h mi s.

(** ** The values a parsed date can have *)

Definition date_ok (d : AmzDate) : bool :=
  forallb (fun x => (0 <=? x)%Z && (x <? 100)%Z) [month d; day d; hour d; minute d; second d] &&
  (0 <=? year d)%Z && (year d <? 10000)%Z.

(** ** Digits: lemmas *)

Lemma digit_Some c v : digit c = Some v <-> (0 <= v < 10)%Z /\ c = dec_digit v.
Proof.
  unfold digit. split.
  - destruct (in_range "0" "9" c) eqn:E; [|done]. intros [= <-].
    destruct c; try discriminate E; vm_compute; split; try reflexivity; split; congruence.
  - intros [Hv ->]. assert (v = 0 \/ v = 1 \/ v = 2 \/ v = 3 \/ v = 4 \/ v = 5 \/ v = 6 \/ v = 7 \/ v = 8 \/ v = 9)%Z
      as Hcases by lia. by repeat (destruct Hcases as [->|Hcases]; [reflexivity|]); subst.
Qed.

(** The decimal digits of a number below [100] and below [10000], written out. *)
Definition two_digits (n : Z) : bytes := [dec_digit (n / 10); dec_digit (n mod 10)].

Lemma fmt_dec_two n : (0 <= n < 100)%Z -> length (fmt_dec n) = 1 \/ length (fmt_dec n) = 2.
Proof.
  intros Hn. rewrite fmt_dec_step by lia. destruct (n <? 10)%Z eqn:E; [by left|]. reflect_bools. right.
  rewrite fmt_dec_step by (Z.to_euclidean_division_equations; lia).
  by rewrite (proj2 (Z.ltb_lt _ _)) by (Z.to_euclidean_division_equations; lia).
Qed.

Lemma fmt_two n : (0 <= n < 100)%Z -> fmt_dec_pad 2 n = two_digits n.
Proof.
  intros Hn. unfold fmt_dec_pad, two_digits. rewrite fmt_dec_step by lia. destruct (n <? 10)%Z eqn:E; reflect_bools.
  - by rewrite Z.div_small, Z.mod_small by lia.
  - rewrite fmt_dec_step by (Z.to_euclidean_division_equations; lia).
    by rewrite (proj2 (Z.ltb_lt _ _)) by (Z.to_euclidean_division_equations; lia).
Qed.

Lemma fmt_four n : (0 <= n < 10000)%Z -> fmt_dec_pad 4 n = two_digits (n / 100) ++ two_digits (n mod 100).
Proof.
  intros Hn. destruct (decide (n < 100)%Z) as [H|H].
  - rewrite Z.div_small, Z.mod_small by lia. rewrite <- (fmt_two n) by lia. unfold fmt_dec_pad.
    by destruct (fmt_dec_two n ltac:(lia)) as [->| ->].
  - rewrite <- (fmt_two (n / 100)) by (Z.to_euclidean_division_equations; lia). unfold fmt_dec_pad, two_digits.
    rewrite (fmt_dec_step n), (proj2 (Z.ltb_ge n 10)), (fmt_dec_step (n / 10)), (proj2 (Z.ltb_ge (n / 10) 10))
      by (Z.to_euclidean_division_equations; lia).
    replace (n / 10 / 10)%Z with (n / 100)%Z by (rewrite Z.div_div by lia; done).
    replace (n mod 100 / 10)%Z with ((n / 10) mod 10)%Z by (Z.to_euclidean_division_equations; lia).
    replace (n mod 100 mod 10)%Z with (n mod 10)%Z by (Z.to_euclidean_division_equations; lia).
    rewrite !length_app. cbn [length].
    destruct (fmt_dec_two (n / 100) ltac:(Z.to_euclidean_division_equations; lia)) as [->| ->]; cbn [Nat.sub Nat.add replicate]; by rewrite <- !app_assoc.
Qed.

Lemma digit2_two n : (0 <= n < 100)%Z -> digit2 (dec_digit (n / 10)) (dec_digit (n mod 10)) = Some n.
Proof.
  intros Hn. unfold digit2.
  rewrite (proj2 (digit_Some (dec_digit (n / 10)) (n / 10)%Z)), (proj2 (digit_Some (dec_digit (n mod 10)) (n mod 10)%Z)); cbn [mbind option_bind].
  - f_equal. pose proof (Z.div_mod n 10 ltac:(lia)). lia.
  - split; [apply Z.mod_pos_bound; lia|done].
  - split; [|done]. split; [apply Z.div_pos; lia|apply Z.div_lt_upper_bound; lia].
Qed.

Lemma digit2_Some x0 x1 v : digit2 x0 x1 = Some v -> (0 <= v < 100)%Z /\ [x0; x1] = two_digits v.
Proof.
  unfold digit2. intros H. apply bind_Some in H as (a & Ha & H). apply bind_Some in H as (b & Hb & [= <-]).
  apply digit_Some in Ha as [Ha ->], Hb as [Hb ->]. split; [lia|]. unfold two_digits.
  rewrite Z.div_add_l, (Z.add_comm (a * 10)), Z.mod_add, Z.div_small, Z.mod_small, Z.add_0_r by lia. done.
Qed.

Lemma digit4_Some x0 x1 x2 x3 v :
  digit4 x0 x1 x2 x3 = Some v ->
  (0 <= v < 10000)%Z /\ [x0; x1; x2; x3] = two_digits (v / 100) ++ two_digits (v mod 100).
Proof.
  unfold digit4. intros H. apply bind_Some in H as (a & Ha & H). apply bind_Some in H as (b & Hb & [= <-]).
  apply digit2_Some in Ha as [Ha Ea], Hb as [Hb Eb]. split; [lia|].
  rewrite Z.div_add_l, (Z.add_comm (a * 100)), Z.mod_add, Z.div_small, Z.mod_small, Z.add_0_r by lia.
  rewrite <- Ea, <- Eb. done.
Qed.

Lemma digit4_four n :
  (0 <= n < 10000)%Z ->
  digit4 (dec_digit (n / 100 / 10)) (dec_digit ((n / 100) mod 10))
         (dec_digit ((n mod 100) / 10)) (dec_digit ((n mod 100) mod 10)) = Some n.
Proof.
  intros Hn. assert (0 <= n / 100 < 100)%Z
    by (split; [apply Z.div_pos; lia|apply Z.div_lt_upper_bound; lia]).
  pose proof (Z.mod_pos_bound n 100 ltac:(lia)). unfold digit4. rewrite !digit2_two by done.
  cbn [mbind option_bind]. f_equal. pose proof (Z.div_mod n 100 ltac:(lia)). lia.
Qed.

Lemma date_ok_ranges d :
  date_ok d = true ->
  (0 <= year d < 10000 /\ 0 <= month d < 100 /\ 0 <= day d < 100 /\ 0 <= hour d < 100 /\
   0 <= minute d < 100 /\ 0 <= second d < 100)%Z.
Proof. unfold date_ok. simpl. intros H. reflect_bools. lia. Qed.

(** The formatted date, written out. *)
Definition iso_bytes (d : AmzDate) : bytes :=
  two_digits (year d / 100) ++ two_digits (year d mod 100) ++ two_digits (month d) ++ two_digits (day d) ++ str "T" ++
  two_digits (hour d) ++ two_digits (minute d) ++ two_digits (second d) ++ str "Z".

Lemma fmt_iso8601_ok d : date_ok d = true -> fmt_iso8601 d = Some (iso_bytes d).
Proof.
  intros H. apply date_ok_ranges in H as (Hy & Hmo & Hd & Hh & Hmi & Hs).
  unfold fmt_iso8601. rewrite fmt_four, !fmt_two by done. reflexivity.
Qed.

Lemma fmt_date_ok d :
  date_ok d = true ->
  fmt_date d = Some (two_digits (year d / 100) ++ two_digits (year d mod 100) ++ two_digits (month d) ++ two_digits (day d)).
Proof.
  intros H. apply date_ok_ranges in H as (Hy & Hmo & Hd & Hh & Hmi & Hs).
  unfold fmt_date. rewrite fmt_four, !fmt_two by done. reflexivity.
Qed.

Lemma AmzDate_parse_ok s d : AmzDate_parse s = Some d -> date_ok d = true /\ s = iso_bytes d.
Proof.
  unfold AmzDate_parse. intros H.
  do 16 (destruct s as [|? s]; [done|]). destruct s; [|done].
  unfold parse_date_bytes in H. repeat progress (invert_ok; try (case_test; [discriminate|])).
  simplify_eq.
  repeat match goal with
  | H : digit4 _ _ _ _ = Some _ |- _ => apply digit4_Some in H as [? H]
  | H : digit2 _ _ = Some _ |- _ => apply digit2_Some in H as [? H]
  end.
  reflect_bools. simplify_eq. unfold iso_bytes, date_ok. simpl. simplify_eq/=. split.
  - rewrite !andb_true_iff, !Z.leb_le, !Z.ltb_lt. lia.
  - unfold two_digits in *. simplify_eq. reflexivity.
Qed.

(** ** Properties *)

(** The date parser and formatter are inverse: a parsed date formats back to its header,
    a date with two-digit fields and a four-digit year parses back to itself, and formatting a
    parsed date never overflows the fixed-size buffers. *)
Theorem amz_date_roundtrip (s : bytes) (d : AmzDate) :
  (AmzDate_parse s = Some d -> fmt_iso8601 d = Some s /\ fmt_date d = Some (take 8 s)) /\
  (date_ok d = true -> exists t, fmt_iso8601 d = Some t /\ AmzDate_parse t = Some d).
Proof.
  split.
  - intros H. apply AmzDate_parse_ok in H as [Hok ->].
    rewrite fmt_iso8601_ok, fmt_date_ok by done. done.
  - intros Hok. exists (iso_bytes d). split; [by apply fmt_iso8601_ok|].
    apply date_ok_ranges in Hok as (Hy & Hmo & Hd & Hh & Hmi & Hs).
    simpl. unfold parse_date_bytes. rewrite digit4_four, !digit2_two by done. simpl. by destruct d.
Qed.

Lemma amz_date_roundtrip_witness :
  exists d, AmzDate_parse (str "20130524T000000Z") = Some d /\
    fmt_iso8601 d = Some (str "20130524T000000Z") /\ fmt_date d = Some (str "20130524").
Proof.
  eexists. split; [reflexivity|].
  apply (proj1 (amz_date_roundtrip (str "20130524T000000Z") _)). reflexivity.
Defined.
