(* ===== verification/SigV4.v ===== *)
(** * Signature Version 4: canonicalization and signing
    (crates/s3s-sigv4/src/methods.rs, crypto.rs)

    Hashing, hexadecimal and ASCII checking come from crates outside the repository;
    [SigDeps] states what the code relies on. *)

From S2P Require Import Prelude.
From S2P Require Import Str.
From S2P Require Import AmzDate.

(** ** What the code uses of other crates *)

Definition hex_pair (c : byte) : bytes := [hex_lower (u8 c / 16); hex_lower (u8 c mod 16)].

(** Decoding of lowercase or uppercase hexadecimal pairs. *)
Fixpoint hex_decode (s : bytes) : option bytes :=
  match s with
  | [] => Some []
  | h :: l :: s' =>
      hi ← hex_val h;
      lo ← hex_val l;
      rest ← hex_decode s';
      Some (byte_of_Z (16 * hi + lo) :: rest)
  | _ => None
  end.

Class SigDeps := {
  (** one-shot and incremental SHA-256 *)
  sha256 : bytes -> bytes;
  digest_state : Type;
  digest_new : digest_state;
  digest_update : digest_state -> bytes -> digest_state;
  digest_finalize : digest_state -> bytes;
  digest_spec : forall chunks, digest_finalize (fold_left digest_update chunks digest_new) = sha256 (concat chunks);
  hmac_sha256 : bytes -> bytes -> bytes;
  hmac_sha256_length : forall k d, length (hmac_sha256 k d) = 32;
  (** [hex_simd::encode_as_str(src, _, AsciiCase::Lower)] *)
  hex_simd_lower : bytes -> bytes;
  hex_simd_lower_spec : forall s, hex_simd_lower s = concat (map hex_pair s);
  (** [hex_simd::decode] *)
  hex_simd_decode : bytes -> option bytes;
  hex_simd_decode_spec : forall s, hex_simd_decode s = hex_decode s;
  (** [stdx::str::StrExt::from_ascii_simd] *)
  from_ascii_simd : bytes -> option bytes;
  from_ascii_simd_spec : forall s, forallb is_ascii s = true -> from_ascii_simd s = Some s
}.

(** ** crypto.rs *)

Definition is_lowercase_hex (c : byte) : bool := in_range "0" "9" c || in_range "a" "f" c.

Definition is_sha256_checksum (s : bytes) : bool := (len s =? 64)%Z && forallb is_lowercase_hex s.

(** ** Percent encoding *)

(** [b"0123456789ABCDEF"[usize::from(x)]]: [None] is the panic of an index out of range. *)
Definition to_hex (x : Z) : option byte := str "0123456789ABCDEF" !! Z.to_nat x.

Definition is_unreserved (byte : byte) : bool :=
  in_range "A" "Z" byte || in_range "a" "z" byte || in_range "0" "9" byte ||
  (byte =? "_"%byte) || (byte =? "-"%byte) || (byte =? "~"%byte) || (byte =? "."%byte).

Definition push_encoded (encode_slash : bool) (buf : bytes) (byte : byte) : option bytes :=
  if is_unreserved byte then Some (buf ++ [byte])
  else if byte =? "/"%byte then
    Some (buf ++ (if encode_slash then str "%2F" else [byte]))
  else
    hi ← to_hex (Z.shiftr (u8 byte) 4);
    lo ← to_hex (Z.land (u8 byte) 15);
    Some (buf ++ ["%"%byte; hi; lo]).

Fixpoint encode_loop (encode_slash : bool) (buf input : bytes) : option bytes :=
  match input with
  | [] => Some buf
  | byte :: input' => buf ← push_encoded encode_slash buf byte; encode_loop encode_slash buf input'
  end.

(** A header, its name and its value. *)
Abbreviation header := (bytes * bytes)%type (only parsing).

Section Methods.
Context `{SigDeps}.

Definition uri_encode (output input : bytes) (encode_slash : bool) : option bytes :=
  buf ← encode_loop encode_slash [] input;
  s ← from_ascii_simd buf;
  Some (output ++ s).

Definition uri_encode_string (input : bytes) (encode_slash : bool) : option bytes :=
  uri_encode [] input encode_slash.

(** ** Headers *)

Definition is_skipped_header (header : bytes) : bool := header =? str "authorization".

Definition is_skipped_query_string (name : bytes) : bool := name =? str "X-Amz-Signature".

Fixpoint push_words (first : bool) (ans : bytes) (words : list bytes) : bytes :=
  match words with
  | [] => ans
  | word :: words' => push_words false ((if first then ans else ans ++ str " ") ++ word) words'
  end.

Definition normalize_header_value (ans value : bytes) : bytes :=
  let trimmed := trim value in
  if negb (any_whitespace trimmed) then ans ++ trimmed
  else push_words true ans (split_whitespace trimmed).

(** The inner [while j < headers.len() && headers[j].0 == name] of the canonical headers:
    the text so far and the headers left. *)
Fixpoint push_same_name (name ans : bytes) (headers : list header) : bytes * list header :=
  match headers with
  | (n, v) :: headers' =>
      if n =? name then push_same_name name (normalize_header_value (ans ++ str ",") v) headers'
      else (ans, headers)
  | [] => (ans, [])
  end.

(** The outer loop; each round consumes a header, so [length headers] rounds are enough. *)
Fixpoint push_canonical_headers_loop (fuel : nat) (ans : bytes) (headers : list header) : bytes :=
  match fuel, headers with
  | _, [] | 0, _ => ans
  | S fuel', (name, value) :: headers' =>
      if is_skipped_header name then push_canonical_headers_loop fuel' ans headers'
      else
        let ans := ans ++ name ++ str ":" in
        let ans := normalize_header_value ans value in
        let '(ans, rest) := push_same_name name ans headers' in
        push_canonical_headers_loop fuel' (ans ++ [x0a]) rest
  end.

Definition push_canonical_headers (ans : bytes) (headers : list header) : bytes :=
  push_canonical_headers_loop (length headers) ans headers.

(** [while i < headers.len() && headers[i].0 == name { i += 1 }] *)
Fixpoint skip_same_name (name : bytes) (headers : list header) : list header :=
  match headers with
  | (n, v) :: headers' => if n =? name then skip_same_name name headers' else headers
  | [] => []
  end.

Fixpoint push_signed_headers_loop (fuel : nat) (first_flag : bool) (ans : bytes) (headers : list header) : bytes :=
  match fuel, headers with
  | _, [] | 0, _ => ans
  | S fuel', (name, _) :: headers' =>
      if is_skipped_header name then push_signed_headers_loop fuel' first_flag ans headers'
      else
        let ans := if first_flag then ans else ans ++ str ";" in
        push_signed_headers_loop fuel' false (ans ++ name) (skip_same_name name headers)
  end.

Definition push_signed_headers (ans : bytes) (headers : list header) : bytes :=
  push_signed_headers_loop (length headers) true ans headers.

(** ** Canonical requests *)

Inductive Payload :=
| Unsigned
| SingleChunk (checksum : bytes)
| MultipleChunks
| MultipleChunksWithTrailer
| UnsignedMultipleChunksWithTrailer.

Definition payload_text (payload : Payload) : bytes :=
  match payload with
  | Unsigned => str "UNSIGNED-PAYLOAD"
  | SingleChunk checksum => checksum
  | MultipleChunks => str "STREAMING-AWS4-HMAC-SHA256-PAYLOAD"
  | MultipleChunksWithTrailer => str "STREAMING-AWS4-HMAC-SHA256-PAYLOAD-TRAILER"
  | UnsignedMultipleChunksWithTrailer => str "STREAMING-UNSIGNED-PAYLOAD-TRAILER"
  end.

Fixpoint encode_query_strings (skip : bytes -> bool) (qs : list (bytes * bytes)) : option (list (bytes * bytes)) :=
  match qs with
  | [] => Some []
  | (n, v) :: qs' =>
      if skip n then encode_query_strings skip qs'
      else
        name ← uri_encode_string n true;
        value ← uri_encode_string v true;
        rest ← encode_query_strings skip qs';
        Some ((name, value) :: rest)
  end.

Fixpoint push_remain (ans : bytes) (remain : list (bytes * bytes)) : bytes :=
  match remain with
  | [] => ans
  | (name, value) :: remain' => push_remain (ans ++ str "&" ++ name ++ str "=" ++ value) remain'
  end.

Definition push_query_strings (ans : bytes) (encoded : list (bytes * bytes)) : bytes :=
  match encoded with
  | [] => ans
  | (name, value) :: remain => push_remain (ans ++ name ++ str "=" ++ value) remain
  end.

Definition create_canonical_request_with_uri_mode (method uri_path : bytes)
    (decoded_query_strings : list (bytes * bytes)) (signed_headers : list header) (payload : Payload)
    (raw_uri_path : bool) : option bytes :=
  let ans := method ++ [x0a] in
  ans ← (if raw_uri_path then Some (ans ++ uri_path) else uri_encode ans uri_path false);
  let ans := ans ++ [x0a] in
  encoded_query_strings ← encode_query_strings (fun _ => false) decoded_query_strings;
  let ans := push_query_strings ans (sort_by_key fst encoded_query_strings) in
  let ans := ans ++ [x0a] in
  let ans := push_canonical_headers ans signed_headers in
  let ans := ans ++ [x0a] in
  let ans := push_signed_headers ans signed_headers in
  let ans := ans ++ [x0a] in
  Some (ans ++ payload_text payload).

Definition create_canonical_request method uri_path decoded_query_strings signed_headers payload :=
  create_canonical_request_with_uri_mode method uri_path decoded_query_strings signed_headers payload false.

Definition create_canonical_request_with_raw_uri_path method raw_uri_path decoded_query_strings signed_headers payload :=
  create_canonical_request_with_uri_mode method raw_uri_path decoded_query_strings signed_headers payload true.

Definition create_presigned_canonical_request_with_uri_mode (method uri_path : bytes)
    (decoded_query_strings : list (bytes * bytes)) (signed_headers : list header) (raw_uri_path : bool) : option bytes :=
  let ans := method ++ [x0a] in
  ans ← (if raw_uri_path then Some (ans ++ uri_path) else uri_encode ans uri_path false);
  let ans := ans ++ [x0a] in
  encoded_query_strings ← encode_query_strings is_skipped_query_string decoded_query_strings;
  let ans := push_query_strings ans (sort_by_key fst encoded_query_strings) in
  let ans := ans ++ [x0a] in
  let ans := push_canonical_headers ans signed_headers in
  let ans := ans ++ [x0a] in
  let ans := push_signed_headers ans signed_headers in
  let ans := ans ++ [x0a] in
  Some (ans ++ str "UNSIGNED-PAYLOAD").

Definition create_presigned_canonical_request method uri_path decoded_query_strings signed_headers :=
  create_presigned_canonical_request_with_uri_mode method uri_path decoded_query_strings signed_headers false.

Definition create_presigned_canonical_request_with_raw_uri_path method raw_uri_path decoded_query_strings signed_headers :=
  create_presigned_canonical_request_with_uri_mode method raw_uri_path decoded_query_strings signed_headers true.

(** ** Strings to sign *)

Definition EMPTY_STRING_SHA256_HASH : bytes :=
  str "e3b0c44298fc1c149afbf4c8996fb92427ae41e4649b934ca495991b7852b855".

Definition hex_bytes32 (src : bytes) : bytes := hex_simd_lower src.

Definition sha256_chunk (chunk : list bytes) : bytes := digest_finalize (fold_left digest_update chunk digest_new).

Definition hex_sha256 (data : bytes) : bytes := hex_bytes32 (sha256 data).

Definition hex_sha256_chunk (chunk : list bytes) : bytes := hex_bytes32 (sha256_chunk chunk).

(** [<date>/<region>/<service>/aws4_request\n], pushed by each of the three functions below. *)
Definition push_scope (amz_date : AmzDate) (region service : bytes) : option bytes :=
  date ← fmt_date amz_date;
  Some (date ++ str "/" ++ region ++ str "/" ++ service ++ str "/aws4_request" ++ [x0a]).

Definition create_string_to_sign (canonical_request : bytes) (amz_date : AmzDate) (region service : bytes) : option bytes :=
  iso ← fmt_iso8601 amz_date;
  scope ← push_scope amz_date region service;
  Some (str "AWS4-HMAC-SHA256" ++ [x0a] ++ iso ++ [x0a] ++ scope ++ hex_sha256 canonical_request).

Definition create_chunk_string_to_sign (amz_date : AmzDate) (region service prev_signature : bytes)
    (chunk_data : list bytes) : option bytes :=
  iso ← fmt_iso8601 amz_date;
  scope ← push_scope amz_date region service;
  Some (str "AWS4-HMAC-SHA256-PAYLOAD" ++ [x0a] ++ iso ++ [x0a] ++ scope ++
        prev_signature ++ [x0a] ++ EMPTY_STRING_SHA256_HASH ++ [x0a] ++
        match chunk_data with
        | [] => EMPTY_STRING_SHA256_HASH
        | _ => hex_sha256_chunk chunk_data
        end).

Definition create_trailer_string_to_sign (amz_date : AmzDate) (region service prev_signature canonical_trailers : bytes) :
    option bytes :=
  iso ← fmt_iso8601 amz_date;
  scope ← push_scope amz_date region service;
  Some (str "AWS4-HMAC-SHA256-TRAILER" ++ [x0a] ++ iso ++ [x0a] ++ scope ++
        prev_signature ++ [x0a] ++ hex_sha256 canonical_trailers).

(** ** Signing *)

Definition derive_signing_key (secret_key : bytes) (amz_date : AmzDate) (region service : bytes) : option bytes :=
  let secret := str "AWS4" ++ secret_key in
  date ← fmt_date amz_date;
  let date_key := hmac_sha256 secret date in
  let date_region_key := hmac_sha256 date_key region in
  let date_region_service_key := hmac_sha256 date_region_key service in
  Some (hmac_sha256 date_region_service_key (str "aws4_request")).

Definition calculate_signature_with_key (string_to_sign signing_key : bytes) : bytes :=
  hmac_sha256 signing_key string_to_sign.

Definition calculate_signature (string_to_sign secret_key : bytes) (amz_date : AmzDate) (region service : bytes) : option bytes :=
  signing_key ← derive_signing_key secret_key amz_date region service;
  Some (hex_bytes32 (calculate_signature_with_key string_to_sign signing_key)).

End Methods.

(** ** Hexadecimal: lemmas *)

Lemma hex_val_lower c v : is_lowercase_hex c = true -> hex_val c = Some v -> c = hex_lower v /\ (0 <= v < 16)%Z.
Proof.
  assert (Hc : (if is_lowercase_hex c then
    match hex_val c with Some v => (hex_lower v =? c) && (0 <=? v)%Z && (v <? 16)%Z | None => true end else true) = true)
    by (destruct c; reflexivity).
  intros Hl Hv. rewrite Hl, Hv in Hc. reflect_bools. split; [done|lia].
Qed.

Lemma hex_decode_lower s d :
  forallb is_lowercase_hex s = true -> hex_decode s = Some d -> s = concat (map hex_pair d).
Proof.
  remember (length s) as n eqn:Hn. revert s d Hn. induction (lt_wf n) as [n _ IH]. intros [|h [|l s]] d Hn; simpl;
    [by intros _ [= <-]|done|].
  intros Hl Hd. reflect_bools. apply bind_Some in Hd as (hi & Hhi & Hd). apply bind_Some in Hd as (lo & Hlo & Hd).
  apply bind_Some in Hd as (rest & Hr & [= <-]). apply hex_val_lower in Hhi as [-> ?], Hlo as [-> ?]; [|done|done].
  simpl. rewrite (IH (length s) ltac:(simpl in Hn; lia) s rest) by done. unfold hex_pair.
  rewrite u8_byte_of_Z, (Z.mod_small (16 * hi + lo)) by lia.
  rewrite (Z.mul_comm 16), Z.div_add_l, Z.div_small, Z.add_0_r, (Z.add_comm (hi * 16)), Z.mod_add, Z.mod_small by lia.
  done.
Qed.

Lemma hex_decode_pairs d : hex_decode (concat (map hex_pair d)) = Some d.
Proof.
  induction d as [|c d IH]; [done|]. cbn [map concat]. unfold hex_pair at 1. cbn [app hex_decode].
  assert (Hc : hex_val (hex_lower (u8 c / 16)) = Some (u8 c / 16)%Z /\ hex_val (hex_lower (u8 c mod 16)) = Some (u8 c mod 16)%Z)
    by (destruct c; split; reflexivity).
  destruct Hc as [-> ->]. cbn [mbind option_bind]. rewrite IH. cbn [mbind option_bind].
  rewrite <- Z.div_mod, byte_of_Z_u8 by lia. done.
Qed.

Lemma hex_pairs_checksum d : length d = 32 -> is_sha256_checksum (concat (map hex_pair d)) = true.
Proof.
  intros Hl. unfold is_sha256_checksum.
  assert (Hg : length (concat (map hex_pair d)) = 2 * length d /\ forallb is_lowercase_hex (concat (map hex_pair d)) = true).
  { clear. induction d as [|c d [IH1 IH2]]; [done|]. cbn [map concat]. rewrite length_app, forallb_app, IH1, IH2.
    assert (Hp : forallb is_lowercase_hex (hex_pair c) = true) by (destruct c; reflexivity). rewrite Hp.
    split; [|done]. unfold hex_pair. simpl. lia. }
  destruct Hg as [G1 G2]. rewrite G2, andb_true_r. apply Z.eqb_eq. unfold len. rewrite G1. lia.
Qed.

(** ** Percent encoding: lemmas *)

(** The reference decoder: [%XX] is a byte, anything else itself. *)
Fixpoint percent_decode (s : bytes) : option bytes :=
  match s with
  | [] => Some []
  | c :: s1 =>
      if c =? "%"%byte then
        match s1 with
        | h :: l :: s2 =>
            hi ← hex_val h;
            lo ← hex_val l;
            rest ← percent_decode s2;
            Some (byte_of_Z (16 * hi + lo) :: rest)
        | _ => None
        end
      else rest ← percent_decode s1; Some (c :: rest)
  end.

(** The encoding of one byte and of a string. *)
Definition enc (es : bool) (c : byte) : bytes := default [] (push_encoded es [] c).
Definition encs (es : bool) (s : bytes) : bytes := concat (map (enc es) s).

(** The bytes an encoded string is made of. *)
Definition encoded_byte (es : bool) (c : byte) : bool :=
  is_unreserved c || (c =? "%"%byte) || (negb es && (c =? "/"%byte)).

Lemma push_encoded_enc es buf c : push_encoded es buf c = Some (buf ++ enc es c).
Proof. destruct c, es; reflexivity. Qed.

Lemma enc_bytes es c : forallb (encoded_byte es) (enc es c) = true.
Proof. destruct c, es; reflexivity. Qed.

Lemma percent_decode_enc es c r : percent_decode (enc es c ++ r) = rest ← percent_decode r; Some (c :: rest).
Proof. destruct c, es; reflexivity. Qed.

Lemma encoded_byte_ascii es c : encoded_byte es c = true -> is_ascii c = true.
Proof. destruct c, es; vm_compute; congruence. Qed.

Lemma encs_bytes es s : forallb (encoded_byte es) (encs es s) = true.
Proof.
  induction s as [|c s IH]; [done|]. unfold encs in *. simpl. by rewrite forallb_app, enc_bytes, IH.
Qed.

Lemma percent_decode_encs es s : percent_decode (encs es s) = Some s.
Proof.
  induction s as [|c s IH]; [done|]. unfold encs in *. simpl. by rewrite percent_decode_enc, IH.
Qed.

Lemma encs_inj es s t : encs es s = encs es t -> s = t.
Proof. intros E. apply (f_equal percent_decode) in E. rewrite !percent_decode_encs in E. by injection E. Qed.

Lemma encode_loop_encs es buf s : encode_loop es buf s = Some (buf ++ encs es s).
Proof.
  revert buf. induction s as [|c s IH]; intros buf; simpl; [by rewrite app_nil_r|].
  rewrite push_encoded_enc. simpl. rewrite IH. unfold encs. simpl. by rewrite app_assoc.
Qed.

Lemma uri_encode_encs `{SigDeps} out s es : uri_encode out s es = Some (out ++ encs es s).
Proof.
  unfold uri_encode. rewrite encode_loop_encs. simpl.
  rewrite from_ascii_simd_spec; [done|].
  eapply forallb_impl; [apply encoded_byte_ascii|apply (encs_bytes es)].
Qed.

Lemma encs_notin es s c : encoded_byte es c = false -> c ∉ encs es s.
Proof.
  intros Hc Hin. apply list_elem_of_In in Hin. pose proof (encs_bytes es s) as Hall.
  rewrite forallb_forall in Hall. apply Hall in Hin. congruence.
Qed.

(** ** Header values: lemmas *)

Lemma push_words_join ans words first :
  push_words first ans words =
    ans ++ (if first then [] else match words with [] => [] | _ => str " " end) ++ join (str " ") words.
Proof.
  revert ans first. induction words as [|w words IH]; intros ans first; simpl.
  - destruct first; by rewrite app_nil_r.
  - rewrite IH. destruct first, words; simpl; rewrite <- ?app_assoc, ?app_nil_r; done.
Qed.

Lemma any_whitespace_false s :
  any_whitespace s = false -> forall fuel cur, (length s < fuel)%nat ->
  split_ws_from fuel cur s = flush_word (reverse s ++ cur).
Proof.
  induction s as [|c s IH]; intros Hs fuel cur Hf; (destruct fuel as [|fuel]; [simpl in Hf; lia|]).
  - done.
  - cbn [any_whitespace] in Hs. cbn [split_ws_from].
    destruct (strip_any white_space (c :: s)); [done|]. rewrite IH; [|done|simpl in Hf; lia].
    by rewrite reverse_cons, <- app_assoc.
Qed.

Lemma split_whitespace_none s : any_whitespace s = false -> join (str " ") (split_whitespace s) = s.
Proof.
  intros Hs. unfold split_whitespace. rewrite any_whitespace_false by (done || lia).
  rewrite app_nil_r. destruct s as [|c s]; [done|].
  unfold flush_word. destruct (reverse (c :: s)) as [|d r] eqn:E.
  - apply (f_equal length) in E. rewrite length_reverse in E. done.
  - rewrite <- E, reverse_involutive. done.
Qed.

(** The words of a header value. *)
Definition header_words (value : bytes) : list bytes := split_whitespace (trim value).

Lemma normalize_words ans value : normalize_header_value ans value = ans ++ join (str " ") (header_words value).
Proof.
  unfold normalize_header_value, header_words. destruct (any_whitespace (trim value)) eqn:E; simpl.
  - by rewrite push_words_join.
  - by rewrite split_whitespace_none.
Qed.

(** No word contains an ASCII white-space byte. *)
Lemma strip_any_ascii_ws c s : is_ascii_whitespace c = true -> strip_any white_space (c :: s) <> None.
Proof. destruct c; try discriminate; intros _; done. Qed.

Lemma split_ws_words fuel cur s w :
  forallb (fun c => negb (is_ascii_whitespace c)) cur = true -> w ∈ split_ws_from fuel cur s ->
  w <> [] /\ forallb (fun c => negb (is_ascii_whitespace c)) w = true.
Proof.
  assert (Hflush : forall cur, forallb (fun c => negb (is_ascii_whitespace c)) cur = true ->
    w ∈ flush_word cur -> w <> [] /\ forallb (fun c => negb (is_ascii_whitespace c)) w = true).
  { intros [|c cur'] Hc Hin; [by apply elem_of_nil in Hin|]. apply list_elem_of_singleton in Hin as ->. split.
    - intros E. apply (f_equal length) in E. rewrite length_reverse in E. done.
    - apply forallb_forall. intros x Hx. rewrite forallb_forall in Hc. apply Hc.
      apply list_elem_of_In. apply list_elem_of_In in Hx. by rewrite elem_of_reverse in Hx. }
  revert cur s. induction fuel as [|fuel IH]; intros cur s Hc; cbn [split_ws_from]; [by apply Hflush|].
  destruct (strip_any white_space s) as [r|] eqn:E.
  - intros [Hin|Hin]%elem_of_app; [by apply Hflush in Hin|by apply IH in Hin].
  - destruct s as [|c s]; [by apply Hflush|]. apply IH. simpl. rewrite Hc, andb_true_r.
    apply negb_true_iff, not_true_is_false. intros Hw. by apply (strip_any_ascii_ws c s) in Hw.
Qed.

Lemma header_words_clean value w :
  w ∈ header_words value -> w <> [] /\ forallb (fun c => negb (is_ascii_whitespace c)) w = true.
Proof. by apply split_ws_words. Qed.

Lemma clean_notin c w :
  is_ascii_whitespace c = true -> forallb (fun c => negb (is_ascii_whitespace c)) w = true -> c ∉ w.
Proof. intros Hc Hw Hin. apply list_elem_of_In in Hin. rewrite forallb_forall in Hw. apply Hw in Hin. by rewrite Hc in Hin. Qed.

Lemma elem_of_join c sep ws : c ∈ join sep ws -> c ∈ sep \/ exists w, w ∈ ws /\ c ∈ w.
Proof.
  induction ws as [|w ws IH]; simpl; [by intros ?%elem_of_nil|].
  assert (Hw : c ∈ w -> c ∈ sep \/ exists v, v ∈ w :: ws /\ c ∈ v).
  { intros Hc. right. exists w. split; [left|done]. }
  destruct ws as [|v ws]; [done|]. rewrite !elem_of_app.
  intros [Hin|[Hin|Hin]]; [auto|auto|]. destruct (IH Hin) as [|(u & Hu & Hc)]; [auto|].
  right. exists u. split; [by right|done].
Qed.

Lemma normalized_no_newline value : x0a ∉ join (str " ") (header_words value).
Proof.
  intros Hin. apply elem_of_join in Hin as [Hin|(w & Hw & Hin)].
  - by apply list_elem_of_singleton in Hin.
  - apply header_words_clean in Hw as [_ Hw]. revert Hin. by apply clean_notin.
Qed.

(** ** Header groups: the reference *)

(** Adjacent headers of the same name, with their values in order. *)
Fixpoint groups (headers : list header) : list (bytes * list bytes) :=
  match headers with
  | [] => []
  | (n, v) :: headers' =>
      match groups headers' with
      | (m, vs) :: gs => if m =? n then (n, v :: vs) :: gs else (n, [v]) :: (m, vs) :: gs
      | [] => [(n, [v])]
      end
  end.

Definition kept_groups (headers : list header) : list (bytes * list bytes) :=
  List.filter (fun g => negb (is_skipped_header (fst g))) (groups headers).

(** The text of a group: the words of each value with single spaces, values with commas. *)
Definition group_value (g : bytes * list bytes) : bytes :=
  join (str ",") (map (fun v => join (str " ") (header_words v)) (snd g)).
Definition group_line (g : bytes * list bytes) : bytes := fst g ++ str ":" ++ group_value g.

(** The values of the headers named [name] at the front, and the headers after them. *)
Fixpoint span_name (name : bytes) (headers : list header) : list bytes * list header :=
  match headers with
  | (n, v) :: headers' =>
      if n =? name then let '(vs, rest) := span_name name headers' in (v :: vs, rest) else ([], headers)
  | [] => ([], [])
  end.

Lemma span_name_length name headers : (length (snd (span_name name headers)) <= length headers)%nat.
Proof.
  induction headers as [|[n v] headers IH]; simpl; [done|].
  destruct (n =? name); simpl; [|done]. destruct (span_name name headers). simpl in *. lia.
Qed.

Lemma groups_span name v headers :
  let '(vs, rest) := span_name name headers in
  groups ((name, v) :: headers) = (name, v :: vs) :: groups rest.
Proof.
  revert v. induction headers as [|[n u] headers IH]; intros v; [done|]. cbn [span_name].
  destruct (n =? name) eqn:E.
  - apply bool_decide_eq_true in E as ->. specialize (IH u).
    destruct (span_name name headers) as [vs rest].
    cbn [groups] in IH |- *. rewrite IH. by rewrite bool_decide_eq_true_2.
  - cbn [groups]. assert (Hh : exists vs gs, groups ((n, u) :: headers) = (n, vs) :: gs).
    { cbn [groups]. destruct (groups headers) as [|[m ws] gs]; [by eauto|]. destruct (m =? n); eauto. }
    destruct Hh as (vs & gs & Hg). cbn [groups] in Hg. rewrite Hg. by rewrite E.
Qed.

Lemma groups_head_skip name v headers :
  is_skipped_header name = true ->
  kept_groups ((name, v) :: headers) = kept_groups headers.
Proof.
  intros Hs. unfold kept_groups. cbn [groups]. destruct (groups headers) as [|[m vs] gs] eqn:E; simpl.
  - by rewrite Hs.
  - destruct (m =? name) eqn:F; simpl; rewrite ?Hs; simpl; [|done].
    apply bool_decide_eq_true in F as ->. by rewrite Hs.
Qed.

Lemma push_same_name_span name ans headers :
  push_same_name name ans headers =
    (ans ++ concat (map (fun v => str "," ++ join (str " ") (header_words v)) (fst (span_name name headers))),
     snd (span_name name headers)).
Proof.
  revert ans. induction headers as [|[n v] headers IH]; intros ans; simpl.
  - by rewrite app_nil_r.
  - destruct (n =? name); simpl; [|by rewrite app_nil_r]. rewrite IH, normalize_words.
    destruct (span_name name headers). simpl. by rewrite <- !app_assoc.
Qed.

Lemma skip_same_name_span name headers : skip_same_name name headers = snd (span_name name headers).
Proof.
  induction headers as [|[n v] headers IH]; simpl; [done|]. destruct (n =? name); [|done].
  rewrite IH. by destruct (span_name name headers).
Qed.

Lemma join_cons_concat {A} (f : A -> bytes) sep x l :
  join sep (map f (x :: l)) = f x ++ concat (map (fun y => sep ++ f y) l).
Proof.
  revert x. induction l as [|y l IH]; intros x; [by rewrite app_nil_r|].
  change (join sep (map f (x :: y :: l))) with (f x ++ sep ++ join sep (map f (y :: l))).
  rewrite IH. simpl. by rewrite <- app_assoc.
Qed.

Lemma canonical_loop_lines fuel ans headers :
  (length headers <= fuel)%nat ->
  push_canonical_headers_loop fuel ans headers =
    ans ++ concat (map (fun g => group_line g ++ [x0a]) (kept_groups headers)).
Proof.
  revert ans headers. induction fuel as [|fuel IH]; intros ans [|[name v] headers] Hf;
    simpl in Hf; try lia; cbn [push_canonical_headers_loop]; try by rewrite app_nil_r.
  destruct (is_skipped_header name) eqn:Hs.
  - rewrite IH, groups_head_skip by (done || lia). done.
  - rewrite normalize_words, push_same_name_span.
    pose proof (groups_span name v headers) as Hg. pose proof (span_name_length name headers) as Hl.
    destruct (span_name name headers) as [vs rest]. simpl fst. simpl snd in *. simpl in Hl.
    rewrite IH by lia. unfold kept_groups. rewrite Hg. cbn [List.filter fst map concat]. rewrite Hs.
    cbn [negb map concat]. unfold group_line, group_value. cbn [fst snd].
    rewrite join_cons_concat. by rewrite <- !app_assoc.
Qed.

Lemma signed_loop_names fuel first ans headers :
  (length headers <= fuel)%nat ->
  push_signed_headers_loop fuel first ans headers =
    ans ++ (if first then [] else match kept_groups headers with [] => [] | _ => str ";" end) ++
    join (str ";") (map fst (kept_groups headers)).
Proof.
  revert first ans headers. induction fuel as [|fuel IH]; intros first ans [|[name v] headers] Hf;
    simpl in Hf; try lia; cbn [push_signed_headers_loop]; try by destruct first; rewrite app_nil_r.
  destruct (is_skipped_header name) eqn:Hs.
  - rewrite IH, groups_head_skip by (done || lia). done.
  - cbn [skip_same_name]. rewrite bool_decide_eq_true_2 by done. rewrite skip_same_name_span.
    pose proof (groups_span name v headers) as Hg. pose proof (span_name_length name headers) as Hl.
    destruct (span_name name headers) as [vs rest]. simpl snd in *.
    rewrite IH by lia.
    replace (kept_groups ((name, v) :: headers)) with ((name, v :: vs) :: kept_groups rest)
      by (unfold kept_groups; rewrite Hg; cbn [List.filter fst]; by rewrite Hs).
    destruct first, (kept_groups rest); cbn [map fst join]; rewrite <- ?app_assoc, ?app_nil_r; done.
Qed.

Lemma canonical_headers_lines ans headers :
  push_canonical_headers ans headers = ans ++ concat (map (fun g => group_line g ++ [x0a]) (kept_groups headers)).
Proof. by apply canonical_loop_lines. Qed.

Lemma signed_headers_names ans headers :
  push_signed_headers ans headers = ans ++ join (str ";") (map fst (kept_groups headers)).
Proof. unfold push_signed_headers. by rewrite signed_loop_names. Qed.

(** ** Canonical requests: their lines *)

Definition query_text (encoded : list (bytes * bytes)) : bytes :=
  join (str "&") (map (fun p => fst p ++ str "=" ++ snd p) encoded).

Definition encode_pairs (qs : list (bytes * bytes)) : list (bytes * bytes) :=
  map (fun p => (encs true (fst p), encs true (snd p))) qs.

Lemma encode_query_strings_pairs `{SigDeps} skip qs :
  encode_query_strings skip qs = Some (encode_pairs (List.filter (fun p => negb (skip (fst p))) qs)).
Proof.
  induction qs as [|[n v] qs IH]; simpl; [done|]. destruct (skip n); simpl; [done|].
  unfold uri_encode_string. rewrite !uri_encode_encs. simpl. by rewrite IH.
Qed.

Lemma push_query_text ans encoded : push_query_strings ans encoded = ans ++ query_text encoded.
Proof.
  destruct encoded as [|[n v] encoded]; simpl; [by rewrite app_nil_r|]. unfold query_text.
  rewrite join_cons_concat. cbn [fst snd].
  assert (Hr : forall ans, push_remain ans encoded =
    ans ++ concat (map (fun p => str "&" ++ fst p ++ str "=" ++ snd p) encoded)).
  { induction encoded as [|[n' v'] encoded IH]; intros a; cbn [push_remain map concat fst snd];
      [by rewrite app_nil_r|]. rewrite IH. by rewrite <- !app_assoc. }
  rewrite Hr. by rewrite <- !app_assoc.
Qed.

(** The lines of a canonical request. *)
Definition canonical_path (raw : bool) (uri_path : bytes) : bytes := if raw then uri_path else encs false uri_path.

Definition request_lines (method path : bytes) (qs : list (bytes * bytes)) (headers : list header) (hash : bytes) : list bytes :=
  [method; path; query_text (sort_by_key fst (encode_pairs qs))] ++ map group_line (kept_groups headers) ++
  [[]; join (str ";") (map fst (kept_groups headers)); hash].

Lemma join_lines a l c d :
  join [x0a] (a :: map group_line l ++ [[]; c; d]) =
    a ++ [x0a] ++ concat (map (fun g => group_line g ++ [x0a]) l) ++ [x0a] ++ c ++ [x0a] ++ d.
Proof.
  revert a. induction l as [|g l IH]; intros a; [done|].
  change (join [x0a] (a :: map group_line (g :: l) ++ [[]; c; d]))
    with (a ++ [x0a] ++ join [x0a] (group_line g :: map group_line l ++ [[]; c; d])).
  rewrite IH. simpl. by rewrite <- !app_assoc.
Qed.

Lemma request_lines_join method path q l c d :
  join [x0a] ([method; path; q] ++ map group_line l ++ [[]; c; d]) =
  method ++ [x0a] ++ path ++ [x0a] ++ q ++ [x0a] ++ concat (map (fun g => group_line g ++ [x0a]) l) ++
  [x0a] ++ c ++ [x0a] ++ d.
Proof. simpl app at 1. cbn [join]. rewrite <- join_lines. done. Qed.

Lemma canonical_request_lines `{SigDeps} method path qs headers payload raw :
  create_canonical_request_with_uri_mode method path qs headers payload raw =
    Some (join [x0a] (request_lines method (canonical_path raw path) qs headers (payload_text payload))).
Proof.
  unfold create_canonical_request_with_uri_mode, request_lines, canonical_path.
  rewrite request_lines_join, encode_query_strings_pairs, uri_encode_encs, List.filter_true.
  destruct raw; cbn [mbind option_bind]; rewrite push_query_text, canonical_headers_lines, signed_headers_names,
    <- !app_assoc; done.
Qed.

Lemma presigned_request_lines `{SigDeps} method path qs headers raw :
  create_presigned_canonical_request_with_uri_mode method path qs headers raw =
    Some (join [x0a] (request_lines method (canonical_path raw path)
      (List.filter (fun p => negb (is_skipped_query_string (fst p))) qs) headers (str "UNSIGNED-PAYLOAD"))).
Proof.
  unfold create_presigned_canonical_request_with_uri_mode, request_lines, canonical_path.
  rewrite request_lines_join, encode_query_strings_pairs, uri_encode_encs.
  destruct raw; cbn [mbind option_bind]; rewrite push_query_text, canonical_headers_lines, signed_headers_names,
    <- !app_assoc; done.
Qed.

(** ** Canonical requests: injectivity *)

Lemma join_inj c ws vs :
  ws <> [] -> vs <> [] -> Forall (fun w => c ∉ w) ws -> Forall (fun w => c ∉ w) vs ->
  join [c] ws = join [c] vs -> ws = vs.
Proof. intros Hw Hv Fw Fv E. apply (f_equal (split c)) in E. by rewrite !split_join in E. Qed.

(** A byte that no encoded name or value contains, other than the separators. *)
Lemma query_text_notin c encoded qs :
  encoded ≡ₚ encode_pairs qs -> encoded_byte true c = false -> c <> "&"%byte -> c <> "="%byte ->
  c ∉ query_text encoded.
Proof.
  intros Hp Hc H1 H2 Hin. apply elem_of_join in Hin as [Hin|(w & Hw & Hin)].
  - by apply list_elem_of_singleton in Hin.
  - apply list_elem_of_In, in_map_iff in Hw as ([n v] & <- & Hw). apply list_elem_of_In in Hw.
    rewrite Hp in Hw. apply list_elem_of_In, in_map_iff in Hw as ([n' v'] & [= <- <-] & _).
    simpl in Hin. apply elem_of_app in Hin as [Hin|Hin]; [by apply encs_notin in Hin|].
    apply elem_of_cons in Hin as [|Hin]; [done|]. by apply encs_notin in Hin.
Qed.

Definition query_item (p : bytes * bytes) : bytes := fst p ++ str "=" ++ snd p.

Lemma query_item_clean encoded qs :
  encoded ≡ₚ encode_pairs qs ->
  Forall (fun p => ("="%byte ∉ fst p) /\ ("&"%byte ∉ query_item p)) encoded.
Proof.
  intros Hp. apply Forall_forall. intros p Hin. rewrite Hp in Hin.
  apply list_elem_of_In, in_map_iff in Hin as ([n v] & <- & _). simpl. split; [by apply encs_notin|].
  unfold query_item. simpl. intros Hin. apply elem_of_app in Hin as [Hin|Hin]; [by apply encs_notin in Hin|].
  apply elem_of_cons in Hin as [|Hin]; [done|]. by apply encs_notin in Hin.
Qed.

Lemma query_text_inj e1 e2 q1 q2 :
  e1 ≡ₚ encode_pairs q1 -> e2 ≡ₚ encode_pairs q2 -> query_text e1 = query_text e2 -> e1 = e2.
Proof.
  intros P1 P2 E. apply query_item_clean in P1 as F1, P2 as F2. clear P1 P2.
  assert (Hinj : forall l k, Forall (fun p => "="%byte ∉ fst p) l -> Forall (fun p => "="%byte ∉ fst p) k ->
    map query_item l = map query_item k -> l = k).
  { induction l as [|[n v] l IH]; intros [|[m w] k] Fl Fk; simpl; try done. intros [= Ei Em].
    apply Forall_cons in Fl as [Hn Fl], Fk as [Hm Fk]. simpl in Hn, Hm.
    assert (split_once "=" (m ++ "="%byte :: w) = Some (n, v)) as Hs.
    { change (m ++ "="%byte :: w) with (query_item (m, w)). rewrite <- Ei. by apply split_once_Some. }
    rewrite (proj2 (split_once_Some _ _ m w)) in Hs by done. injection Hs as -> ->. by rewrite (IH k). }
  assert (Hitem : forall p, query_item p <> []) by (intros [[|] ?]; done).
  apply Hinj; [by eapply Forall_impl; [exact F1|]; intros ? []|by eapply Forall_impl; [exact F2|]; intros ? []|].
  unfold query_text in E. fold query_item in E.
  assert (Hclean : forall l, Forall (fun p => ("="%byte ∉ fst p) /\ ("&"%byte ∉ query_item p)) l ->
    Forall (fun w => "&"%byte ∉ w) (map query_item l)).
  { intros l Hl. apply Forall_forall. intros w Hw. apply list_elem_of_In, in_map_iff in Hw as (p & <- & Hp).
    rewrite Forall_forall in Hl. by apply Hl, list_elem_of_In. }
  destruct e1 as [|p1 e1], e2 as [|p2 e2]; [done| | |].
  - exfalso. apply (Hitem p2). cbn [map join] in E. destruct (map query_item e2); [done|].
    symmetry in E. by apply app_nil in E as [? _].
  - exfalso. apply (Hitem p1). cbn [map join] in E. destruct (map query_item e1); [done|].
    by apply app_nil in E as [? _].
  - apply join_inj in E; [done|done|done|by apply Hclean|by apply Hclean].
Qed.

Lemma encode_pairs_perm_inj q1 q2 : encode_pairs q1 ≡ₚ encode_pairs q2 -> q1 ≡ₚ q2.
Proof.
  assert (Hd : forall q, map (fun p => (default [] (percent_decode (fst p)), default [] (percent_decode (snd p))))
    (encode_pairs q) = q).
  { induction q as [|[n v] q IH]; [done|]. unfold encode_pairs in *. simpl.
    rewrite !percent_decode_encs, IH. done. }
  intros Hp. rewrite <- (Hd q1), <- (Hd q2). by apply Permutation_map.
Qed.

(** The inputs a canonical request separates: no line feed in the method, a raw path or the
    payload hash, and header names without line feed or colon. *)
Record signable (method path : bytes) (raw : bool) (headers : list header) (payload : Payload) : Prop := {
  signable_method : x0a ∉ method;
  signable_path : raw = true -> x0a ∉ path;
  signable_names : Forall (fun h => (x0a ∉ fst h) /\ (":"%byte ∉ fst h)) headers;
  signable_payload : x0a ∉ payload_text payload
}.

Lemma groups_names headers g : g ∈ groups headers -> exists h, h ∈ headers /\ fst h = fst g.
Proof.
  revert g. induction headers as [|[n v] headers IH]; intros g; simpl; [by intros ?%elem_of_nil|].
  destruct (groups headers) as [|[m vs] gs] eqn:E.
  - intros ->%list_elem_of_singleton. exists (n, v). split; [left|done].
  - assert (Hold : g ∈ (m, vs) :: gs -> exists h, h ∈ (n, v) :: headers /\ fst h = fst g).
    { intros Hg. destruct (IH g Hg) as (h & Hh & ?). exists h. split; [by right|done]. }
    destruct (m =? n).
    + intros [->|Hg]%elem_of_cons; [exists (n, v); split; [left|done]|]. apply Hold. by right.
    + intros [->|Hg]%elem_of_cons; [exists (n, v); split; [left|done]|]. by apply Hold.
Qed.

Lemma kept_groups_clean headers :
  Forall (fun h => (x0a ∉ fst h) /\ (":"%byte ∉ fst h)) headers ->
  Forall (fun g => (x0a ∉ fst g) /\ (":"%byte ∉ fst g)) (kept_groups headers).
Proof.
  intros Hh. apply Forall_forall. intros g Hg. apply list_elem_of_In, filter_In in Hg as [Hg _].
  apply list_elem_of_In, groups_names in Hg as (h & Hin & <-). rewrite Forall_forall in Hh. by apply Hh.
Qed.

Lemma group_value_no_newline g : x0a ∉ group_value g.
Proof.
  intros Hin. apply elem_of_join in Hin as [Hin|(w & Hw & Hin)]; [by apply list_elem_of_singleton in Hin|].
  apply list_elem_of_In, in_map_iff in Hw as (v & <- & _). by apply normalized_no_newline in Hin.
Qed.

Lemma request_lines_no_newline method path raw qs headers payload :
  signable method path raw headers payload ->
  Forall (fun w => x0a ∉ w) (request_lines method (canonical_path raw path) qs headers (payload_text payload)).
Proof.
  intros [Hm Hp Hh Hpl]. apply kept_groups_clean in Hh. unfold request_lines. repeat apply Forall_cons_2; [done| | |].
  - unfold canonical_path. destruct raw; [by apply Hp|by apply encs_notin].
  - apply (query_text_notin x0a _ qs); [|done|done|done]. apply sort_by_key_perm.
  - apply Forall_app. split.
    + apply Forall_forall. intros l Hl. apply list_elem_of_In, in_map_iff in Hl as (g & <- & Hg).
      rewrite Forall_forall in Hh. apply list_elem_of_In, Hh in Hg as [Hn _]. unfold group_line.
      rewrite !not_elem_of_app. split_and!; [done| |apply group_value_no_newline].
      intros Hc. by apply list_elem_of_singleton in Hc.
    + repeat apply Forall_cons_2; [by intros ?%elem_of_nil| |done|apply Forall_nil_2].
      intros Hin. apply elem_of_join in Hin as [Hin|(w & Hw & Hin)]; [by apply list_elem_of_singleton in Hin|].
      apply list_elem_of_In, in_map_iff in Hw as (g & <- & Hg). rewrite Forall_forall in Hh.
      apply list_elem_of_In, Hh in Hg as [Hn _]. done.
Qed.

Lemma group_lines_inj l k :
  Forall (fun g => (x0a ∉ fst g) /\ (":"%byte ∉ fst g)) l -> Forall (fun g => (x0a ∉ fst g) /\ (":"%byte ∉ fst g)) k ->
  map group_line l = map group_line k ->
  map (fun g => (fst g, group_value g)) l = map (fun g => (fst g, group_value g)) k.
Proof.
  revert k. induction l as [|g l IH]; intros [|f k] Fl Fk; simpl; try done. intros [= Eg El].
  apply Forall_cons in Fl as [[_ Hg] Fl], Fk as [[_ Hf] Fk]. rewrite (IH k) by done. f_equal.
  assert (split_once ":" (fst f ++ ":"%byte :: group_value f) = Some (fst g, group_value g)) as Hs.
  { change (fst f ++ ":"%byte :: group_value f) with (group_line f). rewrite <- Eg. by apply split_once_Some. }
  rewrite (proj2 (split_once_Some _ _ (fst f) (group_value f))) in Hs by done. by injection Hs as -> ->.
Qed.

Lemma app_inj_tail3 {A} (l k : list A) a b c x y z :
  l ++ [a; b; c] = k ++ [x; y; z] -> l = k /\ b = y /\ c = z.
Proof.
  intros E. apply app_inj_2 in E as [-> E]; [|done]. by injection E as -> -> ->.
Qed.

(** ** Strings to sign: lemmas *)

Inductive SigningText :=
| RequestText (canonical_request : bytes)
| ChunkText (prev_signature : bytes) (chunk_data : list bytes)
| TrailerText (prev_signature canonical_trailers : bytes).

Definition string_to_sign `{SigDeps} (t : SigningText) (d : AmzDate) (region service : bytes) : option bytes :=
  match t with
  | RequestText r => create_string_to_sign r d region service
  | ChunkText p c => create_chunk_string_to_sign d region service p c
  | TrailerText p c => create_trailer_string_to_sign d region service p c
  end.

(** What a string to sign commits to besides the date and the scope. *)
Definition commitment `{SigDeps} (t : SigningText) : list bytes :=
  match t with
  | RequestText r => [hex_sha256 r]
  | ChunkText p c => [p; EMPTY_STRING_SHA256_HASH; match c with [] => EMPTY_STRING_SHA256_HASH | _ => hex_sha256_chunk c end]
  | TrailerText p c => [p; hex_sha256 c]
  end.

Definition algorithm (t : SigningText) : bytes :=
  match t with
  | RequestText _ => str "AWS4-HMAC-SHA256"
  | ChunkText _ _ => str "AWS4-HMAC-SHA256-PAYLOAD"
  | TrailerText _ _ => str "AWS4-HMAC-SHA256-TRAILER"
  end.

Definition prev_ok (t : SigningText) : Prop :=
  match t with RequestText _ => True | ChunkText p _ | TrailerText p _ => x0a ∉ p end.

Definition scope_text (d : AmzDate) (region service : bytes) : bytes :=
  default [] (fmt_date d) ++ str "/" ++ region ++ str "/" ++ service ++ str "/aws4_request".

Lemma string_to_sign_lines `{SigDeps} t d region service :
  date_ok d = true ->
  string_to_sign t d region service =
    Some (join [x0a] (algorithm t :: iso_bytes d :: scope_text d region service :: commitment t)).
Proof.
  intros Hd.
  assert (Hs : push_scope d region service = Some (scope_text d region service ++ [x0a])).
  { unfold push_scope, scope_text. rewrite fmt_date_ok by done. generalize (str "/aws4_request") as suffix.
    generalize (two_digits (year d / 100) ++ two_digits (year d mod 100) ++ two_digits (month d) ++ two_digits (day d)).
    intros date suffix. cbn [mbind option_bind default from_option id]. by rewrite <- !app_assoc. }
  destruct t; cbn [string_to_sign];
    unfold create_string_to_sign, create_chunk_string_to_sign, create_trailer_string_to_sign;
    rewrite fmt_iso8601_ok, Hs by done; cbn [mbind option_bind join algorithm commitment];
    rewrite <- !app_assoc; done.
Qed.

Lemma hex_pair_no_newline s : x0a ∉ concat (map hex_pair s).
Proof.
  induction s as [|c s IH]; cbn [map concat]; [by intros ?%elem_of_nil|].
  intros Hin. apply elem_of_app in Hin as [Hin|Hin]; [|done]. revert Hin.
  assert (E : bool_decide (x0a ∈ hex_pair c) = false) by (destruct c; reflexivity).
  by apply bool_decide_eq_false in E.
Qed.

Lemma commitment_no_newline `{SigDeps} t : prev_ok t -> Forall (fun w => x0a ∉ w) (commitment t).
Proof.
  assert (Hh : forall s, x0a ∉ hex_bytes32 s).
  { intros s. unfold hex_bytes32. rewrite hex_simd_lower_spec. apply hex_pair_no_newline. }
  assert (He : x0a ∉ EMPTY_STRING_SHA256_HASH).
  { assert (E : bool_decide (x0a ∈ EMPTY_STRING_SHA256_HASH) = false) by reflexivity.
    by apply bool_decide_eq_false in E. }
  destruct t as [r|p [|c cs]|p c]; simpl; intros Hp; repeat apply Forall_cons_2; try apply Forall_nil_2;
    done || apply Hh.
Qed.

Lemma two_digits_notin n c : (0 <= n < 100)%Z -> digit c = None -> c ∉ two_digits n.
Proof.
  intros Hn Hc Hin. assert (Hd : forall k, (0 <= k < 10)%Z -> c <> dec_digit k).
  { intros k Hk ->. rewrite (proj2 (digit_Some (dec_digit k) k)) in Hc by done. done. }
  unfold two_digits in Hin. apply elem_of_cons in Hin as [E|Hin].
  - apply (Hd (n / 10)%Z); [|done]. split; [apply Z.div_pos; lia|apply Z.div_lt_upper_bound; lia].
  - apply list_elem_of_singleton in Hin. apply (Hd (n mod 10)%Z); [apply Z.mod_pos_bound; lia|done].
Qed.

Lemma date_bytes_notin d c :
  date_ok d = true -> digit c = None -> c ∉ default [] (fmt_date d).
Proof.
  intros Hd Hc. rewrite fmt_date_ok by done. apply date_ok_ranges in Hd as (Hy & Hmo & Hda & _). simpl.
  pose proof (Z.mod_pos_bound (year d) 100 ltac:(lia)).
  assert (0 <= year d / 100 < 100)%Z by (split; [apply Z.div_pos; lia|apply Z.div_lt_upper_bound; lia]).
  change (c ∉ two_digits (year d / 100) ++ two_digits (year d mod 100) ++ two_digits (month d) ++ two_digits (day d)).
  rewrite !not_elem_of_app. split_and!; by apply two_digits_notin.
Qed.

Lemma iso_bytes_inj d e : date_ok d = true -> date_ok e = true -> iso_bytes d = iso_bytes e -> d = e.
Proof.
  intros Hd He E.
  assert (Hp : forall d, date_ok d = true -> AmzDate_parse (iso_bytes d) = Some d).
  { intros x Hx. apply date_ok_ranges in Hx as (Hy & Hmo & Hda & Hh & Hmi & Hs). simpl. unfold parse_date_bytes.
    rewrite digit4_four, !digit2_two by done. simpl. by destruct x. }
  apply Hp in Hd, He. rewrite E, He in Hd. by injection Hd.
Qed.

Lemma iso_bytes_no_newline d : date_ok d = true -> x0a ∉ iso_bytes d.
Proof.
  intros Hd. apply date_ok_ranges in Hd as (Hy & Hmo & Hda & Hh & Hmi & Hs).
  pose proof (Z.mod_pos_bound (year d) 100 ltac:(lia)).
  assert (0 <= year d / 100 < 100)%Z by (split; [apply Z.div_pos; lia|apply Z.div_lt_upper_bound; lia]).
  unfold iso_bytes. rewrite !not_elem_of_app.
  split_and!; try (by apply two_digits_notin); by intros Hin%list_elem_of_singleton.
Qed.

Lemma scope_text_inj d r1 r2 s1 s2 :
  date_ok d = true -> "/"%byte ∉ r1 -> "/"%byte ∉ r2 ->
  scope_text d r1 s1 = scope_text d r2 s2 -> r1 = r2 /\ s1 = s2.
Proof.
  unfold scope_text. intros Hd H1 H2 E. apply app_inv_head in E. simpl in E. injection E as E.
  assert (Hs : split_once "/" (r1 ++ "/"%byte :: s1 ++ str "/aws4_request") = Some (r2, s2 ++ str "/aws4_request")).
  { apply split_once_Some. split; [exact E|done]. }
  rewrite (proj2 (split_once_Some _ _ r1 (s1 ++ str "/aws4_request"))) in Hs by done.
  injection Hs as -> Hs. by apply app_inv_tail in Hs.
Qed.

Lemma cons3_inj {A} (a b c x y z : A) l k :
  a :: b :: c :: l = x :: y :: z :: k -> a = x /\ b = y /\ c = z /\ l = k.
Proof. intros [= -> -> -> ->]. done. Qed.

(** ** Properties *)

(** A stand-in for the cryptographic crates, to run the definitions. *)
Definition toy_deps : SigDeps.
Proof.
  refine {| sha256 := id; digest_state := bytes; digest_new := []; digest_update := app; digest_finalize := id;
            hmac_sha256 := fun k d => resize 32 x00 (k ++ d); hex_simd_lower := fun s => concat (map hex_pair s);
            hex_simd_decode := hex_decode;
            from_ascii_simd := fun s => if forallb is_ascii s then Some s else None |}.
  - intros chunks. unfold id. rewrite <- (app_nil_l (concat chunks)). generalize (@nil byte) as acc.
    induction chunks as [|c chunks IH]; intros acc; simpl; [by rewrite app_nil_r|]. by rewrite IH, app_assoc.
  - intros k d. apply length_resize.
  - done.
  - done.
  - by intros s ->.
Defined.

(** Percent encoding never panics, uses only the unreserved characters, [%] and, where
    slashes are kept, [/]; decoding it gives the input back. *)
Theorem uri_encode_correct `{SigDeps} (output input : bytes) (encode_slash : bool) :
  exists s, uri_encode output input encode_slash = Some (output ++ s) /\
    percent_decode s = Some input /\ forallb (encoded_byte encode_slash) s = true.
Proof.
  exists (encs encode_slash input).
  split_and!; [apply uri_encode_encs|apply percent_decode_encs|apply encs_bytes].
Qed.

Lemma uri_encode_correct_witness :
  exists s, @uri_encode toy_deps [] (str "/a b+c") false = Some s /\ s = str "/a%20b%2Bc" /\
    percent_decode s = Some (str "/a b+c").
Proof.
  destruct (@uri_encode_correct toy_deps [] (str "/a b+c") false) as (s & Hs & Hd & _).
  exists s. split_and!; [exact Hs| |exact Hd]. by injection Hs as <-.
Defined.

(** Header values are canonical: a value is its white-space separated words joined by
    single spaces, whichever of the two code paths runs; no word is empty or contains white
    space, so the text splits back into the words. *)
Theorem normalize_header_value_correct (ans value : bytes) :
  normalize_header_value ans value = ans ++ join (str " ") (header_words value) /\
  Forall (fun w => w <> [] /\ forallb (fun c => negb (is_ascii_whitespace c)) w = true) (header_words value) /\
  (header_words value <> [] -> split " " (join (str " ") (header_words value)) = header_words value).
Proof.
  split_and!; [apply normalize_words|apply Forall_forall; apply header_words_clean|].
  intros Hne. apply split_join; [done|]. apply Forall_forall. intros w Hw.
  apply header_words_clean in Hw as [_ Hw]. by apply clean_notin.
Qed.

Lemma normalize_header_value_correct_witness :
  normalize_header_value (str "h:") (str "  a   b ") = str "h:a b" /\
  split " " (join (str " ") (header_words (str "  a   b "))) = header_words (str "  a   b ").
Proof.
  split; [reflexivity|].
  apply (proj2 (proj2 (normalize_header_value_correct [] (str "  a   b ")))). discriminate.
Defined.

(** C30: the canonical request is the method, the encoded path, the sorted encoded query, one
    line per group of adjacent equal header names, an empty line, the same names, and the
    payload hash; the [authorization] header is in neither list.  A presigned request is the
    unsigned-payload request without [X-Amz-Signature]. *)
Theorem canonical_request_correct `{SigDeps} (method path : bytes) (qs : list (bytes * bytes))
    (headers : list header) (payload : Payload) (raw : bool) :
  create_canonical_request_with_uri_mode method path qs headers payload raw =
    Some (join [x0a] (request_lines method (canonical_path raw path) qs headers (payload_text payload))) /\
  create_presigned_canonical_request_with_uri_mode method path qs headers raw =
    create_canonical_request_with_uri_mode method path
      (List.filter (fun p => negb (is_skipped_query_string (fst p))) qs) headers Unsigned raw.
Proof.
  split; [apply canonical_request_lines|].
  by rewrite presigned_request_lines, canonical_request_lines.
Qed.

Lemma canonical_request_correct_witness :
  @create_canonical_request toy_deps (str "GET") (str "/t x") [(str "b", str "2"); (str "a", str "1")]
    [(str "host", str "h"); (str "x-a", str "1"); (str "x-a", str " 2")] Unsigned =
  Some (join [x0a] [str "GET"; str "/t%20x"; str "a=1&b=2"; str "host:h"; str "x-a:1,2"; [];
                    str "host;x-a"; str "UNSIGNED-PAYLOAD"]).
Proof.
  refine (eq_trans (proj1 (@canonical_request_correct toy_deps (str "GET") (str "/t x")
    [(str "b", str "2"); (str "a", str "1")]
    [(str "host", str "h"); (str "x-a", str "1"); (str "x-a", str " 2")] Unsigned false)) _).
  vm_compute. reflexivity.
Defined.

(** C20: a canonical request is unambiguous: requests with the same canonical form have the
    same method, path, query pairs (up to order), headers after normalization and payload
    hash, so a signature cannot be replayed on a different request. *)
Theorem canonical_request_injective `{SigDeps} (m1 m2 p1 p2 : bytes) (q1 q2 : list (bytes * bytes))
    (h1 h2 : list header) (pl1 pl2 : Payload) (raw : bool) :
  signable m1 p1 raw h1 pl1 -> signable m2 p2 raw h2 pl2 ->
  create_canonical_request_with_uri_mode m1 p1 q1 h1 pl1 raw =
    create_canonical_request_with_uri_mode m2 p2 q2 h2 pl2 raw ->
  m1 = m2 /\ p1 = p2 /\ q1 ≡ₚ q2 /\
  map (fun g => (fst g, group_value g)) (kept_groups h1) = map (fun g => (fst g, group_value g)) (kept_groups h2) /\
  payload_text pl1 = payload_text pl2.
Proof.
  intros S1 S2 E. rewrite !canonical_request_lines in E. apply (inj Some) in E.
  apply join_inj in E; [|done|done|by apply request_lines_no_newline|by apply request_lines_no_newline].
  unfold request_lines in E. injection E as -> Ep Eq E. apply app_inj_tail3 in E as (Eg & _ & Ept).
  split_and!; [done| | | |done].
  - unfold canonical_path in Ep. destruct raw; [done|by apply encs_inj in Ep].
  - apply (query_text_inj _ _ q1 q2) in Eq; try apply sort_by_key_perm.
    apply encode_pairs_perm_inj. by rewrite <- (sort_by_key_perm fst), Eq, sort_by_key_perm.
  - destruct S1, S2. apply group_lines_inj; [by apply kept_groups_clean|by apply kept_groups_clean|done].
Qed.

Lemma canonical_request_injective_witness :
  [(str "a", str "1"); (str "b", str "2")] ≡ₚ [(str "b", str "2"); (str "a", str "1")] /\ str "/p" = str "/p".
Proof.
  assert (S : signable (str "GET") (str "/p") false [(str "host", str "h")] Unsigned).
  { constructor; by_decide || discriminate. }
  destruct (@canonical_request_injective toy_deps (str "GET") (str "GET") (str "/p") (str "/p")
    [(str "a", str "1"); (str "b", str "2")] [(str "b", str "2"); (str "a", str "1")]
    [(str "host", str "h")] [(str "host", str "h")] Unsigned Unsigned false S S eq_refl) as (_ & Hp & Hq & _).
  split; assumption.
Defined.

(** The strings to sign of requests, chunks and trailers never collide: equal strings are
    of the same kind and have the same date, region, service, previous signature and hash. *)
Theorem string_to_sign_injective `{SigDeps} (t1 t2 : SigningText) (d1 d2 : AmzDate) (r1 r2 s1 s2 : bytes) :
  date_ok d1 = true -> date_ok d2 = true -> prev_ok t1 -> prev_ok t2 ->
  Forall (fun s => (x0a ∉ s) /\ ("/"%byte ∉ s)) [r1; r2; s1; s2] ->
  string_to_sign t1 d1 r1 s1 = string_to_sign t2 d2 r2 s2 ->
  algorithm t1 = algorithm t2 /\ d1 = d2 /\ r1 = r2 /\ s1 = s2 /\ commitment t1 = commitment t2.
Proof.
  intros D1 D2 P1 P2 Hs E. rewrite !string_to_sign_lines in E by done. apply (inj Some) in E.
  apply Forall_cons in Hs as [[] Hs], Hs as [[] Hs], Hs as [[] Hs], Hs as [[] _].
  assert (Hscope : forall d r s, date_ok d = true -> x0a ∉ r -> x0a ∉ s -> x0a ∉ scope_text d r s).
  { intros d r s Hd Hr Hsv. unfold scope_text. rewrite !not_elem_of_app.
    split_and!; [by apply date_bytes_notin| |done| |done|]; by_decide. }
  assert (Halg : forall t, x0a ∉ algorithm t) by (intros []; by_decide).
  apply join_inj in E; [|done|done| |].
  2,3: repeat apply Forall_cons_2; [apply Halg|by apply iso_bytes_no_newline|by apply Hscope|by apply commitment_no_newline].
  apply cons3_inj in E as (Ea & Ei & Es & Ec). apply iso_bytes_inj in Ei as ->; [|done|done].
  apply scope_text_inj in Es as [-> ->]; done.
Qed.

Lemma string_to_sign_injective_witness :
  let d := {| year := 2013; month := 5; day := 24; hour := 0; minute := 0; second := 0 |} in
  @commitment toy_deps (ChunkText (str "ab") [str "x"; str "y"]) = @commitment toy_deps (ChunkText (str "ab") [str "xy"]).
Proof.
  intros d.
  apply (@string_to_sign_injective toy_deps (ChunkText (str "ab") [str "x"; str "y"]) (ChunkText (str "ab") [str "xy"])
    d d (str "us-east-1") (str "us-east-1") (str "s3") (str "s3")); reflexivity || by_decide.
Defined.
