(* ===== verification/Nom.v ===== *)
(** * Interfaces of the parsing crates

    The parser combinators of [nom] (complete, on byte input) and [memchr], as the type class
    the parsers of this repository are written against.  Each law is the documented behaviour
    of one combinator; [nom_reference] shows that they can be met together. *)

From S2P Require Import Prelude.
From S2P Require Import Str.

(** [IResult<&[u8], A>]: the bytes left and the output, or an error. *)
Abbreviation parser A := (bytes -> option (bytes * A)) (only parsing).

(** The value of a run of hexadecimal digits. *)
Fixpoint hex_value (acc : Z) (s : bytes) : Z :=
  match s with
  | [] => acc
  | c :: s' => hex_value (acc * 16 + default 0 (hex_val c))%Z s'
  end.

Definition is_hex_digit (c : byte) : bool := match hex_val c with Some _ => true | None => false end.

(** The longest prefix of hexadecimal digits, and at most eight of them. *)
Definition hex_prefix (s : bytes) : bytes := fst (break_at (fun c => negb (is_hex_digit c)) s).

(** The loop of [separated_list1]: it stops at the first separator, or the first element after
    one, that does not parse; a separator that consumes nothing is an error. *)
Fixpoint separated_loop {A B} (fuel : nat) (sep : parser B) (f : parser A) (s : bytes) (acc : list A) :
    option (bytes * list A) :=
  match fuel with
  | 0 => Some (s, acc)
  | S fuel' =>
      match sep s with
      | None => Some (s, acc)
      | Some (s1, _) =>
          if (length s1 =? length s)%nat then None
          else
            match f s1 with
            | None => Some (s, acc)
            | Some (s2, x) => separated_loop fuel' sep f s2 (acc ++ [x])
            end
      end
  end.

(** [char::is_multispace] of [nom]: space, tab, carriage return and line feed. *)
Definition is_multispace (c : byte) : bool :=
  (c =? " "%byte) || (c =? x09) || (c =? x0d) || (c =? x0a).

Class Nom := {
  tag : bytes -> parser bytes;
  tag_spec : forall t s, tag t s = match strip_prefix t s with Some r => Some (r, t) | None => None end;
  take_n : nat -> parser bytes;
  take_n_spec : forall n s,
    take_n n s = if (n <=? length s)%nat then Some (drop n s, take n s) else None;
  take_till : (byte -> bool) -> parser bytes;
  take_till_spec : forall p s, take_till p s = let '(a, r) := break_at p s in Some (r, a);
  take_till1 : (byte -> bool) -> parser bytes;
  take_till1_spec : forall p s,
    take_till1 p s = let '(a, r) := break_at p s in match a with [] => None | _ => Some (r, a) end;
  (** [hex_u32] reads at most eight digits and leaves the rest. *)
  hex_u32 : parser Z;
  hex_u32_spec : forall s,
    hex_u32 s = match take 8 (hex_prefix s) with
                | [] => None
                | ds => Some (drop (length ds) s, hex_value 0 ds)
                end;
  delimited : forall {A B C : Type}, parser A -> parser B -> parser C -> parser B;
  delimited_spec : forall {A B C : Type} (a : parser A) (b : parser B) (c : parser C) s,
    delimited a b c s = ('(s1, _) ← a s; '(s2, x) ← b s1; '(s3, _) ← c s2; Some (s3, x));
  preceded : forall {A B : Type}, parser A -> parser B -> parser B;
  preceded_spec : forall {A B : Type} (a : parser A) (b : parser B) s,
    preceded a b s = ('(s1, _) ← a s; b s1);
  terminated : forall {A B : Type}, parser A -> parser B -> parser A;
  terminated_spec : forall {A B : Type} (a : parser A) (b : parser B) s,
    terminated a b s = ('(s1, x) ← a s; '(s2, _) ← b s1; Some (s2, x));
  all_consuming : forall {A : Type}, parser A -> parser A;
  all_consuming_spec : forall {A : Type} (a : parser A) s,
    all_consuming a s = ('(s1, x) ← a s; match s1 with [] => Some ([], x) | _ => None end);
  verify : forall {A : Type}, parser A -> (A -> bool) -> parser A;
  verify_spec : forall {A : Type} (a : parser A) p s,
    verify a p s = ('(s1, x) ← a s; if p x : bool then Some (s1, x) else None);
  multispace0 : parser bytes;
  multispace0_spec : forall s,
    multispace0 s = let '(a, r) := break_at (fun c => negb (is_multispace c)) s in Some (r, a);
  multispace1 : parser bytes;
  multispace1_spec : forall s,
    multispace1 s = let '(a, r) := break_at (fun c => negb (is_multispace c)) s in
                    match a with [] => None | _ => Some (r, a) end;
  separated_list1 : forall {A B : Type}, parser B -> parser A -> parser (list A);
  separated_list1_spec : forall {A B : Type} (sep : parser B) (f : parser A) s,
    separated_list1 sep f s = ('(s1, x) ← f s; separated_loop (length s1) sep f s1 [x]);
  (** [memchr(c, s)]: the index of the first [c]. *)
  memchr : byte -> bytes -> option nat;
  memchr_spec : forall c s,
    memchr c s = let '(a, r) := break_at (fun d => d =? c) s in match r with [] => None | _ => Some (length a) end
}.

Definition nom_reference : Nom.
Proof.
  refine {|
    tag := fun t s => match strip_prefix t s with Some r => Some (r, t) | None => None end;
    take_n := fun n s => if (n <=? length s)%nat then Some (drop n s, take n s) else None;
    take_till := fun p s => let '(a, r) := break_at p s in Some (r, a);
    take_till1 := fun p s => let '(a, r) := break_at p s in match a with [] => None | _ => Some (r, a) end;
    hex_u32 := fun s => match take 8 (hex_prefix s) with [] => None | ds => Some (drop (length ds) s, hex_value 0 ds) end;
    delimited := fun A B C a b c s => '(s1, _) ← a s; '(s2, x) ← b s1; '(s3, _) ← c s2; Some (s3, x);
    preceded := fun A B a b s => '(s1, _) ← a s; b s1;
    terminated := fun A B a b s => '(s1, x) ← a s; '(s2, _) ← b s1; Some (s2, x);
    all_consuming := fun A a s => '(s1, x) ← a s; match s1 with [] => Some ([], x) | _ => None end;
    verify := fun A a p s => '(s1, x) ← a s; if p x : bool then Some (s1, x) else None;
    multispace0 := fun s => let '(a, r) := break_at (fun c => negb (is_multispace c)) s in Some (r, a);
    multispace1 := fun s => let '(a, r) := break_at (fun c => negb (is_multispace c)) s in
                            match a with [] => None | _ => Some (r, a) end;
    separated_list1 := fun A B sep f s => '(s1, x) ← f s; separated_loop (length s1) sep f s1 [x];
    memchr := fun c s => let '(a, r) := break_at (fun d => d =? c) s in match r with [] => None | _ => Some (length a) end
  |}; reflexivity.
Defined.

(** [memchr] in the two cases the callers meet. *)
Lemma memchr_found `{Nom} c a r : c ∉ a -> memchr c (a ++ c :: r) = Some (length a).
Proof.
  intros Ha. rewrite memchr_spec, break_at_app; [done|by apply forallb_notin|by apply bool_decide_eq_true].
Qed.

Lemma memchr_Some `{Nom} c s i : memchr c s = Some i -> exists a r, s = a ++ c :: r /\ c ∉ a /\ length a = i.
Proof.
  rewrite memchr_spec. destruct (break_at _ s) as [a [|d r]] eqn:E; [done|]. intros [= <-].
  apply break_at_spec in E as (-> & Ha & Hd). apply bool_decide_eq_true in Hd as ->.
  apply forallb_notin in Ha. eauto.
Qed.

Lemma memchr_None `{Nom} c s : memchr c s = None <-> c ∉ s.
Proof.
  split.
  - rewrite memchr_spec. destruct (break_at _ s) as [a [|d r]] eqn:E; [|done]. intros _.
    apply break_at_spec in E as (-> & Ha & _). rewrite app_nil_r. by apply forallb_notin.
  - intros Hs. destruct (memchr c s) as [i|] eqn:E; [|done].
    apply memchr_Some in E as (a & r & -> & _). set_solver.
Qed.
