(* ===== verification/ChunkedStream.v ===== *)
(** * aws-chunked bodies (crates/s3s/src/stream/aws_chunked_stream.rs, utils/crypto.rs)

    The worker that decodes a chunked body and checks its signature chain, and the wrapper that
    accounts for the declared length.  A body is the list of frames its stream will deliver;
    awaiting the next frame takes the head of the list, and the worker returns what it yields
    in order together with how it ends. *)

From S2P Require Import Prelude.
From S2P Require Import Str.
From S2P Require Import Utf8.
From S2P Require Import ErrorCode.
From S2P Require Import AmzDate.
From S2P Require Import SigV4.
From S2P Require Import Nom.

(** [x.saturating_add(y)] for [usize]. *)
Definition sat_add (x y : Z) : Z := Z.min (x + y) usize_max.

Definition MAX_CHUNK_META_SIZE : Z := 1024.
Definition MAX_TRAILERS_SIZE : Z := 16 * 1024.
Definition MAX_TRAILER_HEADERS : Z := 100.

(** ** Errors *)

(** A boxed [StdError] is an error of the body or a boxed error of this module. *)
Inductive AwsChunkedStreamError :=
| Underlying (e : StdError)
| SignatureMismatch
| FormatError
| Incomplete
| LengthMismatch
| ChunkMetaTooLarge (size limit : Z)
| ChunkDataTooLarge (size limit : Z)
| TrailersTooLarge (size limit : Z)
| TooManyTrailerHeaders (count limit : Z)
with StdError :=
| BodyError (message : bytes)
| Boxed (e : AwsChunkedStreamError).

Definition to_s3_error_code (e : AwsChunkedStreamError) : S3ErrorCode :=
  match e with
  | Underlying _ => InternalError
  | SignatureMismatch => SignatureDoesNotMatch
  | FormatError | Incomplete | LengthMismatch | TrailersTooLarge _ _ | TooManyTrailerHeaders _ _ => IncompleteBody
  | ChunkMetaTooLarge _ _ | ChunkDataTooLarge _ _ => EntityTooLarge
  end.

(** ** What the module uses of other crates *)

Class ChunkDeps := {
  chunk_sig_deps :: SigDeps;
  chunk_nom :: Nom;
  (** [str::parse::<HeaderName>] and [HeaderValue::from_str] of the [http] crate *)
  parse_header_name : bytes -> option bytes;
  header_value_from_str : bytes -> option bytes
}.

(** The frames a body will deliver, and a trailing header. *)
Abbreviation body := (list (result StdError bytes)) (only parsing).
Abbreviation entry := (bytes * bytes)%type (only parsing).

Section Chunked.
Context `{ChunkDeps}.

(** ** Digests (utils/crypto.rs) *)

(** A [Sha256Sum] is its 32 raw bytes. *)
Definition Sha256Sum_from_hex (value : bytes) : option bytes :=
  if negb (is_sha256_checksum value) then None
  else
    decoded ← hex_simd_decode value;
    if (length decoded =? 32)%nat then Some decoded else None.

(** ** Chunk metadata *)

Record ChunkMeta := { size : Z; signature : option bytes }.

Definition parse_chunk_meta (input : bytes) : option ChunkMeta :=
  '(s, size) ← take_till1 (fun c => (c =? ";"%byte) || (c =? x0d)) input;
  '(_, size) ← hex_u32 size;
  match all_consuming (delimited (tag (str ";chunk-signature=")) (take_n 64) (tag [x0d; x0a])) s with
  | Some (_, sig) => Some {| size := size; signature := Some sig |}
  | None =>
      '(_, _) ← all_consuming (tag [x0d; x0a]) s;
      Some {| size := size; signature := None |}
  end.

(** ** Signatures *)

Record SignatureCtx := {
  amz_date : AmzDate;
  region : bytes;
  service : bytes;
  signing_key : bytes;
  prev_signature : bytes
}.

(** The outer [option] is a panic while formatting the date. *)
Definition check_signature (ctx : SignatureCtx) (expected_signature : bytes) (chunk_data : list bytes) :
    option (option bytes) :=
  match (if utf8_valid expected_signature then Sha256Sum_from_hex expected_signature else None) with
  | None => Some None
  | Some expected =>
      string_to_sign ← create_chunk_string_to_sign (amz_date ctx) (region ctx) (service ctx)
                         (hex_bytes32 (prev_signature ctx)) chunk_data;
      let signature := calculate_signature_with_key string_to_sign (signing_key ctx) in
      Some (if expected =? signature then Some signature else None)
  end.

(** ** Reading the body *)

(** The closure [push_meta_bytes]: the new [buf] and the bytes after the line, if it ended. *)
Definition push_meta_bytes (buf bytes : bytes) : result StdError (Prelude.bytes * option Prelude.bytes) :=
  match memchr x0a bytes with
  | Some idx =>
      let len' := idx + 1 in
      let leading := take len' bytes in
      let bytes := drop len' bytes in
      if (MAX_CHUNK_META_SIZE <? sat_add (len buf) (len leading))%Z
      then Err (Boxed (ChunkMetaTooLarge (sat_add (len buf) (len leading)) MAX_CHUNK_META_SIZE))
      else Ok (buf ++ leading, Some bytes)
  | None =>
      if (MAX_CHUNK_META_SIZE <? sat_add (len buf) (len bytes))%Z
      then Err (Boxed (ChunkMetaTooLarge (sat_add (len buf) (len bytes)) MAX_CHUNK_META_SIZE))
      else Ok (buf ++ bytes, None)
  end.

(** [None]: the body ended.  On success: the line and the bytes after it. *)
Fixpoint read_meta_loop (b : body) (buf : bytes) : option (result StdError (bytes * bytes)) * body :=
  match b with
  | [] => (None, [])
  | Err e :: b' => (Some (Err e), b')
  | Ok bytes :: b' =>
      match push_meta_bytes buf bytes with
      | Err e => (Some (Err e), b')
      | Ok (buf, Some remaining_bytes) => (Some (Ok (buf, remaining_bytes)), b')
      | Ok (buf, None) => read_meta_loop b' buf
      end
  end.

Definition read_meta_bytes (b : body) (prev_bytes : bytes) : option (result StdError (bytes * bytes)) * body :=
  match push_meta_bytes [] prev_bytes with
  | Err e => (Some (Err e), b)
  | Ok (buf, Some remaining_bytes) => (Some (Ok (buf, remaining_bytes)), b)
  | Ok (buf, None) => read_meta_loop b buf
  end.

(** [for &expected_byte in b"\r\n"]: one round of the loop. *)
Fixpoint expect_byte (expected_byte : byte) (b : body) (remaining_bytes : bytes) :
    option (result AwsChunkedStreamError bytes) * body :=
  match remaining_bytes with
  | x :: rest => if x =? expected_byte then (Some (Ok rest), b) else (Some (Err FormatError), b)
  | [] =>
      match b with
      | [] => (None, [])
      | Err e :: b' => (Some (Err (Underlying e)), b')
      | Ok bytes :: b' => expect_byte expected_byte b' bytes
      end
  end.

Definition consume_trailing_crlf (b : body) (remaining_bytes : bytes) :
    option (result AwsChunkedStreamError bytes) * body :=
  if starts_with [x0d; x0a] remaining_bytes then (Some (Ok (drop 2 remaining_bytes)), b)
  else
    match expect_byte x0d b remaining_bytes with
    | (Some (Ok remaining_bytes), b) => expect_byte x0a b remaining_bytes
    | r => r
    end.

(** The closure [push_data_bytes]: the buffer and size after it, and the bytes left over. *)
Definition push_data_bytes (data_size : Z) (bytes_buffer : list bytes) (bytes : bytes) :
    Z * list Prelude.bytes * option Prelude.bytes :=
  if (data_size =? 0)%Z then (data_size, bytes_buffer, Some bytes)
  else if (data_size <=? len bytes)%Z then
    (0%Z, bytes_buffer ++ [take (Z.to_nat data_size) bytes], Some (drop (Z.to_nat data_size) bytes))
  else ((data_size - len bytes)%Z, bytes_buffer ++ [bytes], None).

Fixpoint read_data_loop (b : body) (data_size : Z) (bytes_buffer : list bytes) :
    option (result AwsChunkedStreamError (list bytes * bytes)) * body :=
  match b with
  | [] => (None, [])
  | Err e :: b' => (Some (Err (Underlying e)), b')
  | Ok bytes :: b' =>
      match push_data_bytes data_size bytes_buffer bytes with
      | (_, bytes_buffer, Some remaining_bytes) => (Some (Ok (bytes_buffer, remaining_bytes)), b')
      | (data_size, bytes_buffer, None) => read_data_loop b' data_size bytes_buffer
      end
  end.

Definition read_data (b : body) (prev_bytes : bytes) (data_size : Z) :
    option (result AwsChunkedStreamError (list bytes * bytes)) * body :=
  if (data_size =? 0)%Z then (Some (Ok ([], prev_bytes)), b)
  else
    let '(r, b) :=
      match push_data_bytes data_size [] prev_bytes with
      | (_, bytes_buffer, Some remaining_bytes) => (Some (Ok (bytes_buffer, remaining_bytes)), b)
      | (data_size, bytes_buffer, None) => read_data_loop b data_size bytes_buffer
      end in
    match r with
    | Some (Ok (bytes_buffer, remaining_bytes)) =>
        match consume_trailing_crlf b remaining_bytes with
        | (Some (Ok remaining_bytes), b) => (Some (Ok (bytes_buffer, remaining_bytes)), b)
        | (Some (Err e), b) => (Some (Err e), b)
        | (None, b) => (None, b)
        end
    | Some (Err e) => (Some (Err e), b)
    | None => (None, b)
    end.

(** Yields fragments as they come; the first component is what was yielded. *)
Fixpoint read_data_streaming_loop (b : body) (data_size : Z) (remaining_bytes : bytes) :
    list bytes * (option (result AwsChunkedStreamError bytes) * body) :=
  if (data_size =? 0)%Z then ([], consume_trailing_crlf b remaining_bytes)
  else if (data_size <=? len remaining_bytes)%Z then
    ([take (Z.to_nat data_size) remaining_bytes],
     consume_trailing_crlf b (drop (Z.to_nat data_size) remaining_bytes))
  else
    (* what is left is yielded, unless empty, and the next frame is taken *)
    let yielded := match remaining_bytes with [] => [] | _ => [remaining_bytes] end in
    match b with
    | [] => (yielded, (None, []))
    | Err e :: b' => (yielded, (Some (Err (Underlying e)), b'))
    | Ok bytes :: b' =>
        let '(ys, r) := read_data_streaming_loop b' (data_size - len remaining_bytes)%Z bytes in
        (yielded ++ ys, r)
    end.

Definition read_data_streaming (b : body) (prev_bytes : bytes) (data_size : Z) :
    list bytes * (option (result AwsChunkedStreamError bytes) * body) :=
  if (data_size =? 0)%Z then ([], (Some (Ok prev_bytes), b))
  else read_data_streaming_loop b data_size prev_bytes.

(** ** Trailers *)

Definition is_sp_tab (c : byte) : bool := (c =? " "%byte) || (c =? x09).

Fixpoint trim_front (s : bytes) : bytes :=
  match s with
  | c :: s' => if is_sp_tab c then trim_front s' else s
  | [] => []
  end.

Definition trim_ascii_whitespace (s : bytes) : bytes := reverse (trim_front (reverse (trim_front s))).

(** [if let Some(&b'\r') = line.last()] *)
Definition trim_cr (line : bytes) : bytes :=
  match last line with
  | Some c => if c =? x0d then take (length line - 1) line else line
  | None => line
  end.

Definition String_from_utf8 (s : bytes) : result AwsChunkedStreamError bytes :=
  if utf8_valid s then Ok s else Err FormatError.

Fixpoint parse_trailer_lines (lines : list bytes) (header_count : Z) (provided_signature : option bytes)
    (entries : list entry) : result AwsChunkedStreamError (option bytes * list entry) :=
  match lines with
  | [] => Ok (provided_signature, entries)
  | line :: lines' =>
      let line := trim_cr line in
      match line with
      | [] => parse_trailer_lines lines' header_count provided_signature entries
      | _ =>
          let header_count := sat_add header_count 1 in
          if (MAX_TRAILER_HEADERS <? header_count)%Z
          then Err (TooManyTrailerHeaders header_count MAX_TRAILER_HEADERS)
          else
            match memchr ":" line with
            | None => Err FormatError
            | Some colon_pos =>
                let name_raw := take colon_pos line in
                let value_raw := drop (colon_pos + 1) line in
                name ← String_from_utf8 (to_ascii_lowercase name_raw);
                value ← String_from_utf8 (trim_ascii_whitespace value_raw);
                if name =? str "x-amz-trailer-signature"
                then parse_trailer_lines lines' header_count (Some value) entries
                else parse_trailer_lines lines' header_count provided_signature (entries ++ [(name, value)])
            end
      end
  end.

Fixpoint canonical_trailers (entries : list entry) (canonical : bytes) : result AwsChunkedStreamError bytes :=
  match entries with
  | [] => Ok canonical
  | (n, v) :: entries' =>
      let entry_size := sat_add (sat_add (len n) (len v)) 2 in
      if (MAX_TRAILERS_SIZE <? sat_add (len canonical) entry_size)%Z
      then Err (TrailersTooLarge (sat_add (len canonical) entry_size) MAX_TRAILERS_SIZE)
      else canonical_trailers entries' (canonical ++ n ++ str ":" ++ v ++ [x0a])
  end.

(** The pieces between line feeds, the last one included, are the [split]. *)
Definition parse_trailing_headers (buf : bytes) : result AwsChunkedStreamError (bytes * option bytes * list entry) :=
  '(provided_signature, entries) ← parse_trailer_lines (split x0a buf) 0 None [];
  let entries := sort_by_key fst entries in
  canonical ← canonical_trailers entries [];
  Ok (canonical, provided_signature, entries).

(** [while let Some(next) = body.next().await] *)
Fixpoint read_to_end (b : body) (total_size : Z) (buf : bytes) : result AwsChunkedStreamError bytes :=
  match b with
  | [] => Ok buf
  | Err e :: _ => Err (Underlying e)
  | Ok bytes :: b' =>
      let total_size := sat_add total_size (len bytes) in
      if (MAX_TRAILERS_SIZE <? total_size)%Z then Err (TrailersTooLarge total_size MAX_TRAILERS_SIZE)
      else read_to_end b' total_size (buf ++ bytes)
  end.

Inductive trailers_outcome :=
| NoTrailers
| TrailersErr (e : AwsChunkedStreamError)
| TrailersOk (entries : list entry)
| TrailersPanic.

Definition verify_trailers (ctx : SignatureCtx) (unsigned : bool) (canonical : bytes) (provided_signature : option bytes)
    (entries : list entry) : trailers_outcome :=
  match provided_signature with
  | Some provided =>
      match (if utf8_valid provided then Sha256Sum_from_hex provided else None) with
      | None => TrailersErr SignatureMismatch
      | Some provided =>
          match create_trailer_string_to_sign (amz_date ctx) (region ctx) (service ctx)
                  (hex_bytes32 (prev_signature ctx)) canonical with
          | None => TrailersPanic
          | Some string_to_sign =>
              let signature := calculate_signature_with_key string_to_sign (signing_key ctx) in
              if negb (provided =? signature) then TrailersErr SignatureMismatch else TrailersOk entries
          end
      end
  | None => if negb unsigned then TrailersErr FormatError else TrailersOk entries
  end.

Definition read_and_verify_trailers (b : body) (prev_bytes : bytes) (ctx : SignatureCtx) (unsigned : bool) :
    trailers_outcome :=
  let total_size := len prev_bytes in
  if negb (prev_bytes =? []) && (MAX_TRAILERS_SIZE <? total_size)%Z
  then TrailersErr (TrailersTooLarge total_size MAX_TRAILERS_SIZE)
  else
    match read_to_end b total_size prev_bytes with
    | Err e => TrailersErr e
    | Ok buf =>
        if (buf =? []) || (buf =? [x0d; x0a]) then NoTrailers
        else
          match parse_trailing_headers buf with
          | Err e => TrailersErr e
          | Ok (canonical, provided_signature, entries) =>
              verify_trailers ctx unsigned canonical provided_signature entries
          end
    end.

Fixpoint build_header_map (entries : list entry) (map : list entry) : result AwsChunkedStreamError (list entry) :=
  match entries with
  | [] => Ok map
  | (name, value) :: entries' =>
      match parse_header_name name with
      | None => Err FormatError
      | Some hn =>
          match header_value_from_str value with
          | None => Err FormatError
          | Some hv => build_header_map entries' (map ++ [(hn, hv)])
          end
      end
  end.

(** ** The worker *)

Inductive finish :=
| Finished (r : result AwsChunkedStreamError unit)
| Panicked
| OutOfFuel.

(** What the worker yields, the trailers it stores, and how it ends. *)
Record run := { yields : list bytes; stored_trailers : option (list entry); outcome : finish }.

Definition stop (o : finish) : run := {| yields := []; stored_trailers := None; outcome := o |}.
Definition fail (e : AwsChunkedStreamError) : run := stop (Finished (Err e)).
Definition yielding (ys : list bytes) (r : run) : run :=
  {| yields := ys ++ yields r; stored_trailers := stored_trailers r; outcome := outcome r |}.

(** After the data of a zero-size chunk. *)
Definition finish_trailers (b : body) (remaining_after_data : bytes) (ctx : SignatureCtx) (unsigned : bool) : run :=
  match read_and_verify_trailers b remaining_after_data ctx unsigned with
  | NoTrailers => stop (Finished (Ok tt))
  | TrailersErr e => fail e
  | TrailersPanic => stop Panicked
  | TrailersOk entries =>
      match build_header_map entries [] with
      | Err e => fail e
      | Ok map => {| yields := []; stored_trailers := Some map; outcome := Finished (Ok tt) |}
      end
  end.

Definition set_prev (ctx : SignatureCtx) (sig : bytes) : SignatureCtx :=
  {| amz_date := amz_date ctx; region := region ctx; service := service ctx; signing_key := signing_key ctx;
     prev_signature := sig |}.

(** One round per chunk; every chunk takes at least the line feed of its metadata, so the
    length of the body is enough fuel. *)
Fixpoint worker_loop (fuel : nat) (unsigned : bool) (max_chunk_size : Z) (ctx : SignatureCtx) (b : body)
    (prev_bytes : bytes) : run :=
  match fuel with
  | 0 => stop OutOfFuel
  | S fuel' =>
      match read_meta_bytes b prev_bytes with
      | (None, _) => stop (Finished (Ok tt))
      | (Some (Err e), _) => fail (Underlying e)
      | (Some (Ok (buf, prev_bytes)), b) =>
          match parse_chunk_meta buf with
          | None => fail FormatError
          | Some meta =>
              match signature meta with
              | Some expected_sig =>
                  if (max_chunk_size <? size meta)%Z then fail (ChunkDataTooLarge (size meta) max_chunk_size)
                  else
                    match read_data b prev_bytes (size meta) with
                    | (None, _) => fail Incomplete
                    | (Some (Err e), _) => fail e
                    | (Some (Ok (data, remaining_bytes)), b) =>
                        match check_signature ctx expected_sig data with
                        | None => stop Panicked
                        | Some None => fail SignatureMismatch
                        | Some (Some signature) =>
                            let ctx := set_prev ctx signature in
                            yielding data
                              (if (size meta =? 0)%Z then finish_trailers b remaining_bytes ctx unsigned
                               else worker_loop fuel' unsigned max_chunk_size ctx b remaining_bytes)
                        end
                    end
              | None =>
                  if negb unsigned then fail FormatError
                  else
                    match read_data_streaming b prev_bytes (size meta) with
                    | (ys, (None, _)) => yielding ys (fail Incomplete)
                    | (ys, (Some (Err e), _)) => yielding ys (fail e)
                    | (ys, (Some (Ok remaining_bytes), b)) =>
                        yielding ys
                          (if (size meta =? 0)%Z then finish_trailers b remaining_bytes ctx unsigned
                           else worker_loop fuel' unsigned max_chunk_size ctx b remaining_bytes)
                    end
              end
          end
      end
  end.

(** The bytes a body delivers before its end or first error. *)
Fixpoint ok_prefix (b : body) : bytes :=
  match b with
  | Ok bytes :: b' => bytes ++ ok_prefix b'
  | _ => []
  end.

Definition worker (b : body) (seed_signature : bytes) (amz_date : AmzDate) (region service secret_key : bytes)
    (unsigned : bool) (max_chunk_size : Z) : run :=
  match derive_signing_key secret_key amz_date region service with
  | None => stop Panicked
  | Some signing_key =>
      worker_loop (S (length (ok_prefix b))) unsigned max_chunk_size
        {| amz_date := amz_date; region := region; service := service; signing_key := signing_key;
           prev_signature := seed_signature |} b []
  end.

(** ** The stream *)

(** [poll] on the next item of the worker: the item seen by the reader and the new remaining
    length; [None] is the end of the stream. *)
Definition poll (item : option (result AwsChunkedStreamError bytes)) (remaining_length : Z) :
    option (result AwsChunkedStreamError bytes) * Z :=
  match item with
  | Some (Ok bytes) =>
      if negb (bytes =? []) && (remaining_length <? len bytes)%Z
      then (Some (Err LengthMismatch), remaining_length)
      else (Some (Ok bytes), Z.max 0 (remaining_length - len bytes))
  | None => if negb (remaining_length =? 0)%Z then (Some (Err Incomplete), remaining_length) else (None, remaining_length)
  | other => (other, remaining_length)
  end.

(** What a reader that stops at the first error sees: the bytes and how the stream ends
    ([None] for a clean end). *)
Fixpoint read_stream (items : list bytes) (last : result AwsChunkedStreamError unit) (remaining_length : Z) :
    list bytes * option AwsChunkedStreamError :=
  match items with
  | bytes :: items' =>
      match poll (Some (Ok bytes)) remaining_length with
      | (Some (Ok bytes), remaining_length) =>
          let '(ys, e) := read_stream items' last remaining_length in (bytes :: ys, e)
      | (Some (Err e), _) => ([], Some e)
      | (None, _) => ([], None)
      end
  | [] =>
      match poll (match last with Err e => Some (Err e) | Ok _ => None end) remaining_length with
      | (Some (Err e), _) => ([], Some e)
      | _ => ([], None)
      end
  end.

End Chunked.

(** ** Reading: what is consumed

    [flat prev b] is the input still to be read: the bytes already taken from the last frame
    and the frames up to the first error. *)

Definition flat (prev : bytes) (b : body) : bytes := prev ++ ok_prefix b.

Section Reading.
Context `{ChunkDeps}.

Lemma push_meta_bytes_Ok buf bs buf' r :
  push_meta_bytes buf bs = Ok (buf', r) ->
  (len buf' <= MAX_CHUNK_META_SIZE)%Z /\
  match r with
  | Some rest => exists a, x0a ∉ a /\ bs = a ++ x0a :: rest /\ buf' = buf ++ a ++ [x0a]
  | None => x0a ∉ bs /\ buf' = buf ++ bs
  end.
Proof.
  unfold push_meta_bytes, sat_add, usize_max, MAX_CHUNK_META_SIZE. destruct (memchr x0a bs) as [i|] eqn:E.
  - apply memchr_Some in E as (a & rest & -> & Ha & <-).
    replace (take (length a + 1) (a ++ x0a :: rest)) with (a ++ [x0a])
      by (rewrite take_app_ge, Nat.add_sub' by lia; done).
    replace (drop (length a + 1) (a ++ x0a :: rest)) with rest
      by (rewrite drop_app_ge, Nat.add_sub' by lia; done).
    destruct (_ <? _)%Z eqn:F; [done|]. intros [= <- <-]. reflect_bools. split; [|by exists a].
    unfold len in *. rewrite length_app. lia.
  - apply memchr_None in E. destruct (_ <? _)%Z eqn:F; [done|]. intros [= <- <-]. reflect_bools. split; [|done].
    unfold len in *. rewrite length_app. lia.
Qed.

(** A line feed within the limit is found. *)
Lemma push_meta_bytes_line buf a rest :
  x0a ∉ a -> (len (buf ++ a ++ [x0a]) <= MAX_CHUNK_META_SIZE)%Z ->
  push_meta_bytes buf (a ++ x0a :: rest) = Ok (buf ++ a ++ [x0a], Some rest).
Proof.
  intros Ha Hl. unfold push_meta_bytes, sat_add. rewrite memchr_found by done.
  replace (take (length a + 1) (a ++ x0a :: rest)) with (a ++ [x0a])
    by (rewrite take_app_ge, Nat.add_sub' by lia; done).
  replace (drop (length a + 1) (a ++ x0a :: rest)) with rest
    by (rewrite drop_app_ge, Nat.add_sub' by lia; done).
  destruct (_ <? _)%Z eqn:F; [|done]. exfalso. reflect_bools.
  unfold len, MAX_CHUNK_META_SIZE in *. rewrite length_app in Hl. lia.
Qed.

Lemma push_meta_bytes_more buf bs :
  x0a ∉ bs -> (len (buf ++ bs) <= MAX_CHUNK_META_SIZE)%Z -> push_meta_bytes buf bs = Ok (buf ++ bs, None).
Proof.
  intros Ha Hl. unfold push_meta_bytes, sat_add. rewrite (proj2 (memchr_None _ _)) by done.
  destruct (_ <? _)%Z eqn:F; [|done]. exfalso. reflect_bools.
  unfold len, MAX_CHUNK_META_SIZE in *. rewrite length_app in Hl. lia.
Qed.

Definition is_line (line : bytes) : Prop :=
  exists a, line = a ++ [x0a] /\ x0a ∉ a /\ (len line <= MAX_CHUNK_META_SIZE)%Z.

Lemma read_meta_loop_Ok b buf line rest b' :
  read_meta_loop b buf = (Some (Ok (line, rest)), b') -> x0a ∉ buf ->
  is_line line /\ flat buf b = line ++ flat rest b' /\ b' `suffix_of` b.
Proof.
  revert buf. induction b as [|[bs|e] b IH]; intros buf; cbn [read_meta_loop]; [done| |done].
  destruct (push_meta_bytes buf bs) as [[buf' [r|]]|] eqn:E; [| |done];
    apply push_meta_bytes_Ok in E as [Hl E]; intros Hr Hb.
  - injection Hr as <- <- <-. destruct E as (a & Ha & -> & ->). unfold flat. cbn [ok_prefix]. split_and!.
    + exists (buf ++ a). rewrite <- app_assoc. split_and!; [done| |done]. by rewrite not_elem_of_app.
    + by rewrite <- !app_assoc.
    + by exists [Ok (a ++ x0a :: r)].
  - destruct E as [Hbs ->]. apply IH in Hr as (Hline & Hf & Hsuf); [|by rewrite not_elem_of_app].
    split_and!; [done| |by apply suffix_cons_r]. rewrite <- Hf. unfold flat. cbn [ok_prefix]. by rewrite app_assoc.
Qed.

Lemma read_meta_Ok b prev line rest b' :
  read_meta_bytes b prev = (Some (Ok (line, rest)), b') ->
  is_line line /\ flat prev b = line ++ flat rest b' /\ b' `suffix_of` b.
Proof.
  unfold read_meta_bytes. destruct (push_meta_bytes [] prev) as [[buf [r|]]|] eqn:E; [| |done];
    apply push_meta_bytes_Ok in E as [Hl E]; intros Hr.
  - injection Hr as <- <- <-. destruct E as (a & Ha & -> & ->). simpl. unfold flat. split_and!.
    + by exists a.
    + by rewrite <- !app_assoc.
    + done.
  - destruct E as [Hp ->]. simpl in Hr. by apply read_meta_loop_Ok in Hr.
Qed.

Lemma read_meta_loop_line b buf a tail :
  x0a ∉ buf -> flat buf b = a ++ x0a :: tail -> x0a ∉ a -> (len (a ++ [x0a]) <= MAX_CHUNK_META_SIZE)%Z ->
  exists rest b', read_meta_loop b buf = (Some (Ok (a ++ [x0a], rest)), b').
Proof.
  revert buf. induction b as [|[bs|e] b IH]; intros buf Hb Hf Ha Hl; unfold flat in Hf; cbn [ok_prefix] in Hf.
  1,3: exfalso; rewrite app_nil_r in Hf; subst buf; apply Hb; set_solver.
  cbn [read_meta_loop]. destruct (decide (x0a ∈ bs)) as [Hin|Hin].
  - apply list_elem_of_split_l in Hin as (a' & r & -> & Ha').
    assert (a = buf ++ a') as ->.
    { rewrite app_assoc in Hf. rewrite <- app_assoc in Hf.
      assert (Hs1 : split_once x0a (a ++ x0a :: tail) = Some (a, tail)) by (by apply split_once_Some).
      rewrite <- Hf in Hs1. rewrite <- app_assoc in Hs1. simpl in Hs1. rewrite app_assoc in Hs1.
      rewrite (proj2 (split_once_Some x0a _ (buf ++ a') (r ++ ok_prefix b))) in Hs1;
        [by injection Hs1|]. split; [done|]. by rewrite not_elem_of_app. }
    rewrite push_meta_bytes_line; [|done|by rewrite app_assoc]. rewrite app_assoc. eauto.
  - assert (Hlen : (len (buf ++ bs) <= MAX_CHUNK_META_SIZE)%Z).
    { rewrite app_assoc in Hf. assert (buf ++ bs `prefix_of` a) as Hp.
      { destruct (prefix_weak_total (buf ++ bs) a (a ++ x0a :: tail)) as [|Hp]; [by exists (ok_prefix b)|by eexists|done|].
        destruct Hp as [k Hk]. destruct k as [|c k]; [exists []; by rewrite app_nil_r in *|].
        rewrite Hk, <- app_assoc in Hf. apply app_inv_head in Hf. injection Hf as -> _.
        exfalso. assert (x0a ∈ buf ++ bs) as Hx by (rewrite Hk; set_solver). apply elem_of_app in Hx as []; done. }
      apply prefix_length in Hp. unfold len in *. rewrite length_app in Hl. lia. }
    rewrite push_meta_bytes_more by done. apply IH; [by rewrite not_elem_of_app| |done|done].
    unfold flat. by rewrite <- app_assoc.
Qed.

Lemma read_meta_line b prev a tail :
  flat prev b = a ++ x0a :: tail -> x0a ∉ a -> (len (a ++ [x0a]) <= MAX_CHUNK_META_SIZE)%Z ->
  exists rest b', read_meta_bytes b prev = (Some (Ok (a ++ [x0a], rest)), b') /\ flat rest b' = tail.
Proof.
  (* reading from [prev] is reading the frame [prev] *)
  intros Hf Ha Hl.
  destruct (read_meta_loop_line (Ok prev :: b) [] a tail) as (rest & b' & Hr); [by intros ?%elem_of_nil|done|done|done|].
  exists rest, b'. assert (Hr' : read_meta_bytes b prev = (Some (Ok (a ++ [x0a], rest)), b')) by exact Hr.
  split; [done|]. apply read_meta_Ok in Hr' as (_ & Hf' & _). rewrite Hf, <- app_assoc in Hf'.
  apply app_inv_head in Hf'. by injection Hf'.
Qed.

Lemma expect_byte_Ok c b prev rest b' :
  expect_byte c b prev = (Some (Ok rest), b') -> flat prev b = c :: flat rest b' /\ b' `suffix_of` b.
Proof.
  revert prev. induction b as [|[bs|e] b IH]; intros [|x prev]; cbn [expect_byte]; try done;
    try (destruct (x =? c) eqn:E; [|done]; apply bool_decide_eq_true in E as ->; by intros [= <- <-]).
  intros Hr. apply IH in Hr as [Hf Hs]. split; [done|by apply suffix_cons_r].
Qed.

Lemma expect_byte_found c b prev tail :
  flat prev b = c :: tail -> exists rest b', expect_byte c b prev = (Some (Ok rest), b').
Proof.
  revert prev. induction b as [|[bs|e] b IH]; intros [|x prev] Hf; unfold flat in Hf; cbn [ok_prefix app] in Hf;
    try done; cbn [expect_byte];
    try (injection Hf as -> _; rewrite bool_decide_eq_true_2 by done; by eauto).
  by apply IH.
Qed.

Lemma consume_crlf_Ok b prev rest b' :
  consume_trailing_crlf b prev = (Some (Ok rest), b') ->
  flat prev b = [x0d; x0a] ++ flat rest b' /\ b' `suffix_of` b.
Proof.
  unfold consume_trailing_crlf. destruct (starts_with _ prev) eqn:E.
  - apply starts_with_true in E as [r ->]. intros [= <- <-]. done.
  - destruct (expect_byte x0d b prev) as [[[r|]|] b1] eqn:F; [|done|done].
    apply expect_byte_Ok in F as [F1 F2]. intros G. apply expect_byte_Ok in G as [G1 G2].
    split; [by rewrite F1, G1|by etrans].
Qed.

Lemma consume_crlf_found b prev tail :
  flat prev b = [x0d; x0a] ++ tail ->
  exists rest b', consume_trailing_crlf b prev = (Some (Ok rest), b') /\ flat rest b' = tail.
Proof.
  intros Hf. assert (He : exists rest b', consume_trailing_crlf b prev = (Some (Ok rest), b')).
  { unfold consume_trailing_crlf. destruct (starts_with _ prev); [by eauto|].
    destruct (expect_byte_found x0d b prev (x0a :: tail) Hf) as (r & b1 & E). rewrite E.
    apply expect_byte_Ok in E as [E _]. rewrite Hf in E. simpl in E. injection E as E.
    by eapply expect_byte_found. }
  destruct He as (rest & b' & He). exists rest, b'. split; [done|].
  apply consume_crlf_Ok in He as [He _]. rewrite Hf in He. by apply app_inv_head in He.
Qed.

Lemma push_data_bytes_spec n buf bs n' buf' r :
  (0 < n)%Z -> push_data_bytes n buf bs = (n', buf', r) ->
  match r with
  | Some rest => exists d, bs = d ++ rest /\ len d = n /\ buf' = buf ++ [d]
  | None => (len bs < n)%Z /\ n' = (n - len bs)%Z /\ buf' = buf ++ [bs]
  end.
Proof.
  intros Hn. unfold push_data_bytes. rewrite (proj2 (Z.eqb_neq n 0)) by lia.
  destruct (n <=? len bs)%Z eqn:E; reflect_bools; intros [= <- <- <-]; [|done].
  exists (take (Z.to_nat n) bs). split_and!; [by rewrite take_drop| |done].
  unfold len in *. rewrite length_take. lia.
Qed.

Lemma read_data_loop_Ok b n buf data rest b' :
  (0 < n)%Z -> read_data_loop b n buf = (Some (Ok (data, rest)), b') ->
  exists d, data = buf ++ d /\ d <> [] /\ len (concat d) = n /\ ok_prefix b = concat d ++ flat rest b' /\ b' `suffix_of` tail b.
Proof.
  revert n buf. induction b as [|[bs|e] b IH]; intros n buf Hn; cbn [read_data_loop]; [done| |done].
  destruct (push_data_bytes n buf bs) as [[n' buf'] r] eqn:E. apply push_data_bytes_spec in E; [|done].
  destruct r as [r|]; intros Hr.
  - injection Hr as <- <- <-. destruct E as (d & -> & Hd & ->). exists [d]. cbn [concat ok_prefix].
    rewrite app_nil_r. split_and!; [done|done|done| |done]. unfold flat. by rewrite <- app_assoc.
  - destruct E as (Hlt & -> & ->). apply IH in Hr as (d & -> & Hne & Hd & Hf & Hs); [|lia].
    exists (bs :: d). cbn [concat ok_prefix]. split_and!; [by rewrite <- app_assoc|done| | |].
    + unfold len in *. rewrite length_app. lia.
    + by rewrite Hf, app_assoc.
    + simpl. etrans; [exact Hs|]. destruct b; [done|by apply suffix_cons_r].
Qed.

(** The data read for a chunk of [n] bytes, and the [\r\n] after it unless [n] is zero. *)
Definition crlf_of (n : Z) : bytes := if (n =? 0)%Z then [] else [x0d; x0a].

Lemma read_data_Ok b prev n data rest b' :
  (0 <= n)%Z -> read_data b prev n = (Some (Ok (data, rest)), b') ->
  len (concat data) = n /\ flat prev b = concat data ++ crlf_of n ++ flat rest b' /\
  (data = [] <-> n = 0%Z) /\ b' `suffix_of` b.
Proof.
  intros Hn. unfold read_data, crlf_of. destruct (n =? 0)%Z eqn:E; reflect_bools.
  { intros [= <- <- <-]. subst n. done. }
  assert (Hloop : read_data_loop (Ok prev :: b) n [] =
    match push_data_bytes n [] prev with
    | (_, bytes_buffer, Some remaining_bytes) => (Some (Ok (bytes_buffer, remaining_bytes)), b)
    | (data_size, bytes_buffer, None) => read_data_loop b data_size bytes_buffer
    end) by done.
  rewrite <- Hloop. destruct (read_data_loop (Ok prev :: b) n []) as [[[[d r]|]|] b1] eqn:F; [|done|done].
  apply read_data_loop_Ok in F as (d' & -> & Hne & Hd & Hf & Hs); [|lia]. cbn [ok_prefix] in Hf.
  destruct (consume_trailing_crlf b1 r) as [[[r'|]|] b2] eqn:G; [|done|done]. intros [= <- <- <-].
  apply consume_crlf_Ok in G as [G1 G2]. rewrite G1 in Hf. split_and!; [done|done| |].
  - split; [by intros ->|lia].
  - by etrans.
Qed.

End Reading.

(** ** Reading: what is found *)

Section Found.
Context `{ChunkDeps}.

Lemma read_data_loop_found b n buf :
  (0 < n <= len (ok_prefix b))%Z -> exists data rest b', read_data_loop b n buf = (Some (Ok (data, rest)), b').
Proof.
  revert n buf. induction b as [|[bs|e] b IH]; intros n buf Hn; cbn [ok_prefix] in Hn; unfold len in Hn;
    simpl in Hn; try lia. cbn [read_data_loop].
  destruct (push_data_bytes n buf bs) as [[n' buf'] r] eqn:E. apply push_data_bytes_spec in E; [|lia].
  destruct r as [r|]; [by eauto|]. destruct E as (Hlt & -> & ->). apply IH.
  unfold len in *. rewrite length_app in Hn. lia.
Qed.

Lemma read_data_found b prev d tail :
  flat prev b = d ++ crlf_of (len d) ++ tail ->
  exists data rest b', read_data b prev (len d) = (Some (Ok (data, rest)), b') /\ concat data = d /\ flat rest b' = tail.
Proof.
  intros Hf. assert (Hex : exists data rest b', read_data b prev (len d) = (Some (Ok (data, rest)), b')).
  { unfold read_data, crlf_of in *. destruct (len d =? 0)%Z eqn:E; [by eauto|]. reflect_bools.
    change (match push_data_bytes (len d) [] prev with
      | (_, bytes_buffer, Some remaining_bytes) => (Some (Ok (bytes_buffer, remaining_bytes)), b)
      | (data_size, bytes_buffer, None) => read_data_loop b data_size bytes_buffer
      end) with (read_data_loop (Ok prev :: b) (len d) []).
    destruct (read_data_loop_found (Ok prev :: b) (len d) []) as (data & r & b1 & Hr).
    { change (ok_prefix (Ok prev :: b)) with (flat prev b). rewrite Hf. unfold len in *. rewrite length_app. lia. }
    rewrite Hr. apply read_data_loop_Ok in Hr as (d' & -> & _ & Hd & Hf' & _); [|unfold len in *; lia].
    change (ok_prefix (Ok prev :: b)) with (flat prev b) in Hf'. rewrite Hf in Hf'.
    apply app_inj_1 in Hf' as [_ Hf']; [|unfold len in Hd; lia].
    destruct (consume_crlf_found b1 r tail) as (rest & b2 & Hc & _); [done|]. rewrite Hc. eauto. }
  destruct Hex as (data & rest & b' & Hr). exists data, rest, b'. split; [done|].
  apply read_data_Ok in Hr as (Hl & Hf' & _ & _); [|unfold len; lia]. rewrite Hf in Hf'.
  apply app_inj_1 in Hf' as [Hd Hf']; [|unfold len in Hl; lia]. split; [done|]. by apply app_inv_head in Hf'.
Qed.

Lemma streaming_loop_Ok b n prev ys rest b' :
  (0 <= n)%Z -> read_data_streaming_loop b n prev = (ys, (Some (Ok rest), b')) ->
  len (concat ys) = n /\ flat prev b = concat ys ++ [x0d; x0a] ++ flat rest b'.
Proof.
  assert (Hbase : forall b n prev ys rest b', (n = 0 \/ 0 < n <= len prev)%Z ->
    (if (n =? 0)%Z then ([], consume_trailing_crlf b prev)
     else ([take (Z.to_nat n) prev], consume_trailing_crlf b (drop (Z.to_nat n) prev))) = (ys, (Some (Ok rest), b')) ->
    len (concat ys) = n /\ flat prev b = concat ys ++ [x0d; x0a] ++ flat rest b').
  { clear. intros b n prev ys rest b' Hn. destruct (n =? 0)%Z eqn:E; reflect_bools.
    - intros [= <- Hc]. apply consume_crlf_Ok in Hc as [Hc _]. subst n. done.
    - intros [= <- Hc]. apply consume_crlf_Ok in Hc as [Hc _]. cbn [concat]. rewrite app_nil_r.
      unfold len in *. rewrite length_take. split; [lia|]. rewrite <- Hc. unfold flat.
      by rewrite app_assoc, take_drop. }
  revert n prev ys. induction b as [|[bs|e] b IH]; intros n prev ys Hn; cbn [read_data_streaming_loop];
    destruct (n =? 0)%Z eqn:E; try (by intros Hr; apply (Hbase _ n); [left; lia|rewrite E]);
    destruct (n <=? len prev)%Z eqn:F; reflect_bools; try done;
    try (intros Hr; apply (Hbase _ n); [right; lia|rewrite (proj2 (Z.eqb_neq n 0)) by lia; done]).
  destruct (read_data_streaming_loop b (n - len prev) bs) as [ys' r] eqn:G. intros [= <- ->].
  apply IH in G as [G1 G2]; [|lia]. rewrite concat_app.
  assert (Hc : concat match prev with [] => [] | _ => [prev] end = prev)
    by (destruct prev; simpl; rewrite ?app_nil_r; done).
  rewrite Hc. split.
  - unfold len in *. rewrite length_app. lia.
  - unfold flat at 1. cbn [ok_prefix]. fold (flat bs b). by rewrite G2, <- app_assoc.
Qed.

Lemma streaming_Ok b prev n ys rest b' :
  (0 <= n)%Z -> read_data_streaming b prev n = (ys, (Some (Ok rest), b')) ->
  len (concat ys) = n /\ flat prev b = concat ys ++ crlf_of n ++ flat rest b'.
Proof.
  intros Hn. unfold read_data_streaming, crlf_of. destruct (n =? 0)%Z eqn:E; reflect_bools.
  - intros [= <- <- <-]. subst n. done.
  - by apply streaming_loop_Ok.
Qed.

(** ** Metadata lines *)

Lemma hex_value_nonneg s acc : (0 <= acc)%Z -> (0 <= hex_value acc s)%Z.
Proof.
  revert acc. induction s as [|c s IH]; intros acc Ha; simpl; [done|]. apply IH.
  assert (0 <= default 0 (hex_val c))%Z by (destruct c; vm_compute; congruence). lia.
Qed.

Lemma parse_chunk_meta_size line meta : parse_chunk_meta line = Some meta -> (0 <= size meta)%Z.
Proof.
  unfold parse_chunk_meta. intros Hm. apply bind_Some in Hm as ([s t] & _ & Hm).
  apply bind_Some in Hm as ([r n] & Hn & Hm). rewrite hex_u32_spec in Hn.
  assert (0 <= n)%Z as Hpos.
  { destruct (take 8 (hex_prefix t)); [done|]. apply (inj Some), (f_equal snd) in Hn. cbn [snd] in Hn.
    rewrite <- Hn. by apply hex_value_nonneg. }
  destruct (all_consuming _ s) as [[? sig]|]; [by injection Hm as <-|].
  apply bind_Some in Hm as ([? ?] & _ & Hm). by injection Hm as <-.
Qed.

(** A size text: one to eight hexadecimal digits of the given value. *)
Definition size_text (t : bytes) (n : Z) : Prop :=
  forallb is_hex_digit t = true /\ (1 <= length t <= 8)%nat /\ hex_value 0 t = n.

Definition meta_line (t sig : bytes) : bytes := t ++ str ";chunk-signature=" ++ sig ++ [x0d; x0a].

Lemma hex_digit_not c : is_hex_digit c = true -> (c =? ";"%byte) || (c =? x0d) = false /\ c <> x0a.
Proof. destruct c; vm_compute; done. Qed.

Lemma parse_meta_line t n sig :
  size_text t n -> length sig = 64 ->
  parse_chunk_meta (meta_line t sig) = Some {| size := n; signature := Some sig |}.
Proof.
  intros (Hhex & Hlen & Hval) Hsig. unfold parse_chunk_meta, meta_line.
  rewrite take_till1_spec, break_at_app; [|eapply forallb_impl; [|exact Hhex]; intros c Hc;
    apply hex_digit_not in Hc as [Hc _]; by rewrite Hc|done].
  assert (Hp : hex_prefix t = t).
  { unfold hex_prefix. rewrite <- (app_nil_r t) at 1. rewrite break_at_app; [done| |done].
    eapply forallb_impl; [|exact Hhex]. by intros c ->. }
  destruct t as [|c t]; [simpl in Hlen; lia|]. cbn [mbind option_bind].
  rewrite hex_u32_spec, Hp, firstn_all2 by lia. cbn [mbind option_bind]. rewrite Hval.
  rewrite all_consuming_spec, delimited_spec, tag_spec, strip_prefix_app. cbn [mbind option_bind].
  rewrite take_n_spec, (proj2 (Nat.leb_le _ _)) by (rewrite length_app; lia). cbn [mbind option_bind].
  rewrite <- Hsig, drop_length_app, take_length_app, tag_spec. done.
Qed.

Lemma meta_line_is_line t n sig :
  size_text t n -> length sig = 64 -> forallb is_lowercase_hex sig = true ->
  exists a, meta_line t sig = a ++ [x0a] /\ x0a ∉ a /\ (len (a ++ [x0a]) <= MAX_CHUNK_META_SIZE)%Z.
Proof.
  intros (Hhex & Hlen & _) Hsig Hlow. exists (t ++ str ";chunk-signature=" ++ sig ++ [x0d]).
  unfold meta_line. split; [by rewrite <- !app_assoc|]. split.
  - assert (Hno : forall s, forallb is_hex_digit s = true -> x0a ∉ s).
    { intros s Hs Hin. rewrite forallb_forall in Hs. by apply list_elem_of_In, Hs in Hin. }
    rewrite !not_elem_of_app. split_and!; [by apply Hno|by_decide| |by_decide].
    apply Hno. eapply forallb_impl; [|exact Hlow]. by intros []; vm_compute.
  - unfold len, MAX_CHUNK_META_SIZE. rewrite !length_app, Hsig. simpl. lia.
Qed.

End Found.

(** ** The signature chain: the reference *)

Section Chain.
Context `{ChunkDeps}.

(** The signature of a chunk with data [data] after [prev_signature ctx]. *)
Definition chunk_signature (ctx : SignatureCtx) (data : bytes) : option bytes :=
  s ← create_chunk_string_to_sign (amz_date ctx) (region ctx) (service ctx) (hex_bytes32 (prev_signature ctx))
        (match data with [] => [] | _ => [data] end);
  Some (calculate_signature_with_key s (signing_key ctx)).

(** [verified max ctx chunks input ctx' rest]: the input is the chunks, each of at most [max]
    bytes and preceded by a metadata line with its size and its signature in the chain, and then
    [rest]; [ctx'] holds the last signature. *)
Inductive verified (max : Z) : SignatureCtx -> list bytes -> bytes -> SignatureCtx -> bytes -> Prop :=
| verified_stop ctx input : verified max ctx [] input ctx input
| verified_chunk ctx line meta data sig chunks input ctx' rest :
    parse_chunk_meta line = Some meta ->
    size meta = len data ->
    (len data <= max)%Z ->
    signature meta = Some (hex_bytes32 sig) ->
    chunk_signature ctx data = Some sig ->
    verified max (set_prev ctx sig) chunks input ctx' rest ->
    verified max ctx (data :: chunks) (line ++ data ++ crlf_of (len data) ++ input) ctx' rest.

Lemma from_hex_Some e sig : Sha256Sum_from_hex e = Some sig -> e = hex_bytes32 sig.
Proof.
  unfold Sha256Sum_from_hex, hex_bytes32. destruct (is_sha256_checksum e) eqn:E; simpl; [|done].
  rewrite hex_simd_decode_spec, hex_simd_lower_spec. intros Hd. apply bind_Some in Hd as (d & Hd & Hl).
  destruct (length d =? 32)%nat; [|done]. injection Hl as ->.
  unfold is_sha256_checksum in E. reflect_bools. by apply hex_decode_lower.
Qed.

Lemma hex_lower_checksum d : length d = 32 -> is_sha256_checksum (hex_bytes32 d) = true.
Proof. unfold hex_bytes32. rewrite hex_simd_lower_spec. apply hex_pairs_checksum. Qed.

Lemma from_hex_hex d : length d = 32 -> Sha256Sum_from_hex (hex_bytes32 d) = Some d.
Proof.
  intros Hl. unfold Sha256Sum_from_hex. rewrite hex_lower_checksum by done. cbn [negb].
  rewrite hex_simd_decode_spec. unfold hex_bytes32. rewrite hex_simd_lower_spec, hex_decode_pairs.
  cbn [mbind option_bind]. by rewrite Hl.
Qed.

Lemma chunk_text_concat d region service prev data :
  (data = [] <-> concat data = []) ->
  create_chunk_string_to_sign d region service prev data =
  create_chunk_string_to_sign d region service prev (match concat data with [] => [] | c => [c] end).
Proof.
  intros Hd. unfold create_chunk_string_to_sign.
  assert (Hh : hex_sha256_chunk data = hex_sha256_chunk [concat data]).
  { unfold hex_sha256_chunk, sha256_chunk. rewrite !digest_spec. cbn [concat]. by rewrite app_nil_r. }
  destruct data as [|c data].
  - by rewrite (proj1 Hd eq_refl).
  - destruct (concat (c :: data)) as [|x l] eqn:E; [by pose proof (proj2 Hd eq_refl)|]. by rewrite Hh.
Qed.

Lemma check_signature_iff ctx e data sig :
  (data = [] <-> concat data = []) ->
  check_signature ctx e data = Some (Some sig) ->
  e = hex_bytes32 sig /\ chunk_signature ctx (concat data) = Some sig.
Proof.
  intros Hd. unfold check_signature, chunk_signature.
  destruct (utf8_valid e); [|done]. destruct (Sha256Sum_from_hex e) as [x|] eqn:E; [|done].
  rewrite (chunk_text_concat _ _ _ _ data Hd).
  intros Hs. apply bind_Some in Hs as (s & Hs & Hx).
  replace (match concat data with [] => [] | c => [c] end)
    with (match concat data with [] => [] | _ => [concat data] end) in Hs by (by destruct (concat data)).
  rewrite Hs. cbn [mbind option_bind]. destruct (x =? _) eqn:F; [|done]. injection Hx as <-.
  apply bool_decide_eq_true in F as ->. split; [by apply from_hex_Some|done].
Qed.

Lemma check_signature_accepts ctx data sig :
  (data = [] <-> concat data = []) -> length sig = 32 ->
  chunk_signature ctx (concat data) = Some sig -> check_signature ctx (hex_bytes32 sig) data = Some (Some sig).
Proof.
  intros Hd Hl. unfold check_signature, chunk_signature. intros Hs. apply bind_Some in Hs as (s & Hs & [= <-]).
  pose proof (hex_lower_checksum _ Hl) as Hc. unfold is_sha256_checksum in Hc. reflect_bools.
  rewrite ascii_utf8 by (eapply forallb_impl; [|done]; by intros []; vm_compute).
  rewrite from_hex_hex, (chunk_text_concat _ _ _ _ data Hd) by done.
  replace (match concat data with [] => [] | c => [c] end)
    with (match concat data with [] => [] | _ => [concat data] end) by (by destruct (concat data)).
  rewrite Hs. cbn [mbind option_bind]. by rewrite bool_decide_eq_true_2.
Qed.

Lemma data_empty_iff (data : list bytes) n : len (concat data) = n -> (data = [] <-> n = 0%Z) -> (data = [] <-> concat data = []).
Proof.
  intros Hl Hd. rewrite Hd, <- Hl. unfold len. split; [|by intros ->].
  destruct (concat data); [done|simpl; lia].
Qed.

(** ** The worker *)

(** What [finish_trailers] stores in signed mode: the block of trailers carries the signature of
    its canonical form after the last chunk. *)
Definition trailers_verified (ctx : SignatureCtx) (block : bytes) (map : list entry) : Prop :=
  exists entries sig s,
    let canonical := concat (List.map (fun e => fst e ++ str ":" ++ snd e ++ [x0a]) entries) in
    parse_trailing_headers block = Ok (canonical, Some (hex_bytes32 sig), entries) /\
    StronglySorted (key_le fst) entries /\
    create_trailer_string_to_sign (amz_date ctx) (region ctx) (service ctx) (hex_bytes32 (prev_signature ctx)) canonical = Some s /\
    sig = calculate_signature_with_key s (signing_key ctx) /\
    build_header_map entries [] = Ok map.

Lemma canonical_trailers_text entries acc canonical :
  canonical_trailers entries acc = Ok canonical ->
  canonical = acc ++ concat (map (fun e => fst e ++ str ":" ++ snd e ++ [x0a]) entries).
Proof.
  revert acc. induction entries as [|[n v] entries IH]; intros acc; cbn [canonical_trailers].
  - intros [= <-]. by rewrite app_nil_r.
  - destruct (_ <? _)%Z; [done|]. intros Hc. apply IH in Hc as ->. cbn [map concat fst snd]. by rewrite <- !app_assoc.
Qed.

Lemma read_to_end_Ok b total buf buf' : read_to_end b total buf = Ok buf' -> buf' = buf ++ ok_prefix b.
Proof.
  revert total buf. induction b as [|[bs|e] b IH]; intros total buf; cbn [read_to_end ok_prefix].
  - intros [= <-]. by rewrite app_nil_r.
  - destruct (_ <? _)%Z; [done|]. intros Hr. apply IH in Hr as ->. by rewrite <- app_assoc.
  - done.
Qed.

Lemma finish_trailers_stored b prev ctx map :
  stored_trailers (finish_trailers b prev ctx false) = Some map -> trailers_verified ctx (flat prev b) map.
Proof.
  unfold finish_trailers, read_and_verify_trailers. destruct (_ && _); [done|].
  destruct (read_to_end _ _ _) as [buf|] eqn:E; [|done]. apply read_to_end_Ok in E as ->. fold (flat prev b).
  destruct (_ || _); [done|].
  destruct (parse_trailing_headers (flat prev b)) as [[[canonical provided] es]|] eqn:E; [|done].
  pose proof E as E'. unfold parse_trailing_headers in E. apply result_bind_ok in E as ([p es'] & _ & E).
  apply result_bind_ok in E as (c & Hc & [= -> -> <-]). apply canonical_trailers_text in Hc. simpl in Hc. subst canonical.
  unfold verify_trailers. destruct provided as [pr|]; [|done].
  destruct (utf8_valid pr); [|done]. destruct (Sha256Sum_from_hex pr) as [x|] eqn:Hx; [|done].
  apply from_hex_Some in Hx as ->.
  destruct (create_trailer_string_to_sign _ _ _ _ _) as [s|] eqn:F; [|done].
  destruct (x =? _) eqn:G; [|done]. cbn [negb]. destruct (build_header_map _ []) as [m|] eqn:Hb; [|done].
  intros [= <-]. eexists _, x, s. cbv zeta. split_and!; [exact E'|apply sort_by_key_sorted|done| |done].
  by apply bool_decide_eq_true in G.
Qed.

Lemma finish_trailers_yields b prev ctx unsigned :
  yields (finish_trailers b prev ctx unsigned) = [] /\ outcome (finish_trailers b prev ctx unsigned) <> OutOfFuel.
Proof.
  unfold finish_trailers. destruct (read_and_verify_trailers b prev ctx unsigned); try done.
  by destruct (build_header_map entries []).
Qed.

(** One signed round: the line, the data and the signature it takes off the input. *)
Lemma signed_round b prev line prev1 b1 meta e data prev2 b2 ctx sig :
  read_meta_bytes b prev = (Some (Ok (line, prev1)), b1) ->
  parse_chunk_meta line = Some meta -> signature meta = Some e ->
  read_data b1 prev1 (size meta) = (Some (Ok (data, prev2)), b2) ->
  check_signature ctx e data = Some (Some sig) ->
  flat prev b = line ++ concat data ++ crlf_of (len (concat data)) ++ flat prev2 b2 /\
  size meta = len (concat data) /\ signature meta = Some (hex_bytes32 sig) /\
  chunk_signature ctx (concat data) = Some sig.
Proof.
  intros Hm Hp Hs Hd Hc. apply read_meta_Ok in Hm as (_ & Hf & _).
  apply read_data_Ok in Hd as (Hl & Hf' & Hemp & _); [|by eapply parse_chunk_meta_size].
  apply check_signature_iff in Hc as [-> Hc]; [|by eapply data_empty_iff].
  rewrite Hf, Hf', Hl. done.
Qed.

(** What a run delivers and stores is backed by the input. *)
Definition backed (max : Z) (ctx : SignatureCtx) (input : bytes) (r : run) : Prop :=
  exists (chunks : list bytes) ctx' rest,
    concat (yields r) = concat chunks /\ verified max ctx chunks input ctx' rest /\
    forall map, stored_trailers r = Some map -> trailers_verified ctx' rest map.

Lemma backed_stop max ctx input o : backed max ctx input (stop o).
Proof. exists [], ctx, input. split_and!; [done|constructor|done]. Qed.

Lemma worker_loop_backed fuel max ctx b prev :
  backed max ctx (flat prev b) (worker_loop fuel false max ctx b prev).
Proof.
  revert ctx b prev. induction fuel as [|fuel IH]; intros ctx b prev; cbn [worker_loop]; [apply backed_stop|].
  destruct (read_meta_bytes b prev) as [[[[line prev1]|]|] b1] eqn:Hm; try apply backed_stop.
  destruct (parse_chunk_meta line) as [meta|] eqn:Hp; [|apply backed_stop].
  destruct (signature meta) as [e|] eqn:Hs; [|apply backed_stop].
  destruct (max <? size meta)%Z eqn:Hmax; [apply backed_stop|].
  destruct (read_data b1 prev1 (size meta)) as [[[[data prev2]|]|] b2] eqn:Hd; try apply backed_stop.
  destruct (check_signature ctx e data) as [[sig|]|] eqn:Hc; try apply backed_stop.
  destruct (signed_round _ _ _ _ _ _ _ _ _ _ _ _ Hm Hp Hs Hd Hc) as (Hf & Hsz & Hsig & Hcs).
  assert (Hrest : backed max (set_prev ctx sig) (flat prev2 b2)
    (if (size meta =? 0)%Z then finish_trailers b2 prev2 (set_prev ctx sig) false
     else worker_loop fuel false max (set_prev ctx sig) b2 prev2)).
  { destruct (size meta =? 0)%Z; [|apply IH]. exists [], (set_prev ctx sig), (flat prev2 b2).
    split_and!; [by rewrite (proj1 (finish_trailers_yields _ _ _ _))|constructor|apply finish_trailers_stored]. }
  destruct Hrest as (chunks & ctx' & rest & Hy & Hv & Ht). exists (concat data :: chunks), ctx', rest. split_and!.
  - cbn [yielding yields]. by rewrite concat_app, Hy.
  - rewrite Hf. econstructor; try done. reflect_bools. lia.
  - exact Ht.
Qed.

Lemma worker_loop_fuel fuel unsigned max ctx b prev :
  length (flat prev b) < fuel -> outcome (worker_loop fuel unsigned max ctx b prev) <> OutOfFuel.
Proof.
  revert ctx b prev. induction fuel as [|fuel IH]; intros ctx b prev Hf; [lia|]. cbn [worker_loop].
  destruct (read_meta_bytes b prev) as [[[[line prev1]|]|] b1] eqn:Hm; try done.
  apply read_meta_Ok in Hm as ((a & -> & _) & Hfl & _).
  assert (H1 : length (flat prev1 b1) < fuel) by (rewrite Hfl, !length_app in Hf; simpl in Hf; lia).
  destruct (parse_chunk_meta _) as [meta|] eqn:Hp; [|done]. apply parse_chunk_meta_size in Hp.
  assert (Hnext : forall b2 prev2 ctx2, length (flat prev2 b2) <= length (flat prev1 b1) ->
    outcome (if (size meta =? 0)%Z then finish_trailers b2 prev2 ctx2 unsigned
             else worker_loop fuel unsigned max ctx2 b2 prev2) <> OutOfFuel).
  { intros b2 prev2 ctx2 Hle. destruct (size meta =? 0)%Z; [apply finish_trailers_yields|]. apply IH. lia. }
  destruct (signature meta) as [e|].
  - destruct (max <? size meta)%Z; [done|].
    destruct (read_data b1 prev1 (size meta)) as [[[[data prev2]|]|] b2] eqn:Hd; try done.
    apply read_data_Ok in Hd as (_ & Hfd & _); [|done].
    destruct (check_signature ctx e data) as [[sig|]|]; try done. cbn [yielding outcome].
    apply Hnext. rewrite Hfd, !length_app. lia.
  - destruct unsigned; [|done]. cbn [negb].
    destruct (read_data_streaming b1 prev1 (size meta)) as [ys [[[prev2|]|] b2]] eqn:Hd; try done.
    apply streaming_Ok in Hd as (_ & Hfd); [|done]. cbn [yielding outcome].
    apply Hnext. rewrite Hfd, !length_app. lia.
Qed.

End Chain.

(** ** Honest streams *)

Section Honest.
Context `{ChunkDeps}.

(** A stream of chunks, each given by its size text and its data, closed by [close]. *)
Fixpoint encode_with (close : SignatureCtx -> option bytes) (ctx : SignatureCtx) (chunks : list (bytes * bytes)) :
    option bytes :=
  match chunks with
  | [] => close ctx
  | (t, data) :: chunks' =>
      sig ← chunk_signature ctx data;
      rest ← encode_with close (set_prev ctx sig) chunks';
      Some (meta_line t (hex_bytes32 sig) ++ data ++ [x0d; x0a] ++ rest)
  end.

(** The zero-size chunk that ends a stream. *)
Definition final_chunk (ctx : SignatureCtx) : option bytes :=
  sig ← chunk_signature ctx [];
  Some (meta_line (str "0") (hex_bytes32 sig) ++ [x0d; x0a]).

Definition encode_stream := encode_with final_chunk.

Definition encodable (max : Z) (chunks : list (bytes * bytes)) : Prop :=
  Forall (fun p => size_text (fst p) (len (snd p)) /\ snd p <> [] /\ (len (snd p) <= max)%Z) chunks.

Definition no_err (b : body) : Prop := Forall (fun f => is_ok f = true) b.

Lemma no_err_suffix b b' : no_err b -> b' `suffix_of` b -> no_err b'.
Proof. intros Hb [k ->]. by apply Forall_app in Hb as [_ Hb]. Qed.

Lemma read_to_end_ok b total buf :
  no_err b -> (0 <= total)%Z -> (total + len (ok_prefix b) <= MAX_TRAILERS_SIZE)%Z ->
  read_to_end b total buf = Ok (buf ++ ok_prefix b).
Proof.
  revert total buf. induction b as [|[bs|e] b IH]; intros total buf Hb H0 Hl.
  - by rewrite app_nil_r.
  - apply Forall_cons in Hb as [_ Hb]. cbn [read_to_end ok_prefix] in *. unfold sat_add.
    unfold len, MAX_TRAILERS_SIZE, usize_max in *. rewrite length_app in Hl.
    rewrite Z.min_l by lia. rewrite (proj2 (Z.ltb_ge _ _)) by lia. rewrite IH; [by rewrite <- app_assoc|done|lia|lia].
  - by apply Forall_cons in Hb as [Hb _].
Qed.

Lemma chunk_signature_length ctx d sig : chunk_signature ctx d = Some sig -> length sig = 32.
Proof. unfold chunk_signature. intros Hs. apply bind_Some in Hs as (s & _ & [= <-]). apply hmac_sha256_length. Qed.

(** One honest signed round, however the input is split into frames. *)
Lemma honest_round fuel max ctx b prev t d sig rest :
  flat prev b = meta_line t (hex_bytes32 sig) ++ d ++ crlf_of (len d) ++ rest ->
  size_text t (len d) -> (len d <= max)%Z -> chunk_signature ctx d = Some sig -> no_err b ->
  exists data prev' b', concat data = d /\ flat prev' b' = rest /\ no_err b' /\
    worker_loop (S fuel) false max ctx b prev =
      yielding data (if (len d =? 0)%Z then finish_trailers b' prev' (set_prev ctx sig) false
                     else worker_loop fuel false max (set_prev ctx sig) b' prev').
Proof.
  intros Hf Ht Hmax Hsig Hb. pose proof (chunk_signature_length _ _ _ Hsig) as Hlen.
  pose proof (hex_lower_checksum sig Hlen) as Hc. unfold is_sha256_checksum in Hc.
  apply andb_true_iff in Hc as [Hc1 Hc2]. apply Z.eqb_eq in Hc1.
  assert (H64 : length (hex_bytes32 sig) = 64) by (unfold len in Hc1; lia).
  destruct (meta_line_is_line t (len d) (hex_bytes32 sig)) as (a & Ha & Hnl & Hl); [done|done|done|].
  rewrite Ha, <- app_assoc in Hf. destruct (read_meta_line b prev a _ Hf Hnl Hl) as (p1 & b1 & Hm & Hf1).
  pose proof Hm as (_ & _ & Hs1)%read_meta_Ok.
  destruct (read_data_found b1 p1 d rest Hf1) as (data & p2 & b2 & Hd & Hdc & Hf2).
  pose proof Hd as (Hl2 & _ & He & Hs2)%read_data_Ok; [|unfold len; lia].
  exists data, p2, b2. split_and!; [done|done|by eapply no_err_suffix; [|exact Hs2]; eapply no_err_suffix|].
  cbn [worker_loop]. rewrite Hm, <- Ha, (parse_meta_line t (len d)) by done. cbn [signature size].
  rewrite (proj2 (Z.ltb_ge _ _)) by done. rewrite Hd.
  rewrite check_signature_accepts with (sig := sig); [done|by eapply data_empty_iff|done|by rewrite Hdc].
Qed.

Lemma encode_with_accepted close max ctx chunks b prev fuel input :
  encode_with close ctx chunks = Some input -> flat prev b = input -> length input < fuel ->
  encodable max chunks -> no_err b ->
  (forall fuel ctx b prev input, close ctx = Some input -> flat prev b = input -> no_err b -> length input < fuel ->
     let r := worker_loop fuel false max ctx b prev in
     concat (yields r) = [] /\ outcome r = Finished (Ok tt)) ->
  let r := worker_loop fuel false max ctx b prev in
  concat (yields r) = concat (map snd chunks) /\ outcome r = Finished (Ok tt).
Proof.
  intros He Hf Hfuel Henc Hb Hclose. revert ctx b prev fuel input He Hf Hfuel Hb.
  induction Henc as [|[t d] chunks (Ht & Hne & Hmax) Henc IH]; intros ctx b prev fuel input He Hf Hfuel Hb.
  - by eapply Hclose.
  - cbn [encode_with] in He. apply bind_Some in He as (sig & Hsig & He). apply bind_Some in He as (rest & Hr & He).
    apply (inj Some) in He as <-. cbn [fst snd] in *. assert (Hcr : crlf_of (len d) = [x0d; x0a]).
    { unfold crlf_of, len. by destruct d. }
    destruct fuel as [|fuel]; [lia|]. rewrite <- Hcr in Hf.
    destruct (honest_round fuel max ctx b prev t d sig rest Hf Ht Hmax Hsig Hb) as (data & p' & b' & Hd & Hf' & Hb' & Hw).
    rewrite Hw. assert ((len d =? 0)%Z = false) as Hz by (unfold len; by destruct d). rewrite Hz.
    cbn [yielding yields outcome]. rewrite concat_app, Hd. cbn [map concat snd].
    destruct (IH (set_prev ctx sig) b' p' fuel rest) as [-> ->]; [done|done| |done|done].
    rewrite !length_app in Hfuel. unfold meta_line in Hfuel. rewrite !length_app in Hfuel. simpl in Hfuel. lia.
Qed.

Lemma final_chunk_accepted max fuel ctx b prev input :
  (0 <= max)%Z -> final_chunk ctx = Some input -> flat prev b = input -> no_err b -> length input < fuel ->
  let r := worker_loop fuel false max ctx b prev in
  concat (yields r) = [] /\ outcome r = Finished (Ok tt).
Proof.
  intros Hmax Hfin Hf Hb Hfuel. unfold final_chunk in Hfin. apply bind_Some in Hfin as (sig & Hsig & [= <-]).
  destruct fuel as [|fuel]; [lia|].
  destruct (honest_round fuel max ctx b prev (str "0") [] sig [x0d; x0a] Hf) as (data & p' & b' & Hd & Hf' & Hb' & Hw);
    [split_and!; (reflexivity || simpl; lia)|done|done|done|]. cbv zeta. rewrite Hw. cbn [Z.eqb len length Z.of_nat yielding yields outcome].
  assert (Hfin : finish_trailers b' p' (set_prev ctx sig) false = stop (Finished (Ok tt))).
  { unfold finish_trailers, read_and_verify_trailers.
    assert (Hl : (len p' + len (ok_prefix b') = 2)%Z).
    { apply (f_equal length) in Hf'. unfold flat in Hf'. rewrite length_app in Hf'. unfold len. simpl in Hf'. lia. }
    rewrite (proj2 (Z.ltb_ge _ _)) by (unfold len, MAX_TRAILERS_SIZE in *; lia). rewrite andb_false_r.
    rewrite read_to_end_ok by (done || unfold len, MAX_TRAILERS_SIZE in *; lia). fold (flat p' b'). by rewrite Hf'. }
  rewrite Hfin. rewrite concat_app, Hd. done.
Qed.

Lemma read_meta_loop_end b buf :
  no_err b -> x0a ∉ ok_prefix b -> (len (flat buf b) <= MAX_CHUNK_META_SIZE)%Z -> read_meta_loop b buf = (None, []).
Proof.
  revert buf. induction b as [|[bs|e] b IH]; intros buf Hb Hn Hl; [done| |by apply Forall_cons in Hb as [Hb _]].
  apply Forall_cons in Hb as [_ Hb]. cbn [ok_prefix] in Hn. rewrite not_elem_of_app in Hn. destruct Hn as [Hn1 Hn2].
  unfold flat in *. cbn [ok_prefix read_meta_loop] in *. rewrite push_meta_bytes_more; [| |].
  - apply IH; [done|done|]. by rewrite <- app_assoc.
  - done.
  - unfold len in *. rewrite !length_app in *. lia.
Qed.

Lemma read_meta_end b prev :
  no_err b -> x0a ∉ flat prev b -> (len (flat prev b) <= MAX_CHUNK_META_SIZE)%Z -> read_meta_bytes b prev = (None, []).
Proof.
  intros Hb Hn Hl. change (read_meta_bytes b prev) with (read_meta_loop (Ok prev :: b) []).
  apply read_meta_loop_end; [by apply Forall_cons|done|done].
Qed.

End Honest.

(** ** Properties *)

Definition toy_chunk_deps : ChunkDeps :=
  {| chunk_sig_deps := toy_deps; chunk_nom := nom_reference;
     parse_header_name := fun s => Some s; header_value_from_str := fun s => Some s |}.

Definition example_date : AmzDate := {| year := 2013; month := 5; day := 24; hour := 0; minute := 0; second := 0 |}.

Definition ctx_of (seed : bytes) (date : AmzDate) (region service key : bytes) : SignatureCtx :=
  {| amz_date := date; region := region; service := service; signing_key := key; prev_signature := seed |}.

(** C19: in signed mode nothing is delivered before it is verified: whatever the body, the
    bytes yielded are those of chunks, each no larger than the limit, found in the input with
    their signatures, and the signatures chain from the seed under the derived key; trailers
    are stored only when the rest of the input carries the signature of their canonical form,
    sorted by name, after the last chunk's.  The worker never runs out of rounds. *)
Theorem signed_stream_verified `{ChunkDeps} (b : body) (seed : bytes) (date : AmzDate) (region service secret : bytes)
    (key : bytes) (max : Z) :
  derive_signing_key secret date region service = Some key ->
  let r := worker b seed date region service secret false max in
  outcome r <> OutOfFuel /\
  exists (chunks : list bytes) ctx rest, concat (yields r) = concat chunks /\
    verified max (ctx_of seed date region service key) chunks (ok_prefix b) ctx rest /\
    forall map, stored_trailers r = Some map -> trailers_verified ctx rest map.
Proof.
  intros Hk. unfold worker. rewrite Hk. cbv zeta. split.
  - apply worker_loop_fuel. unfold flat. simpl. lia.
  - apply (worker_loop_backed _ max (ctx_of seed date region service key) b []).
Qed.

(** C28: decoding inverts encoding: a stream of chunks signed in a chain from the seed and
    ended by a zero-size chunk is decoded to exactly the data of the chunks and accepted,
    however it is split into frames. *)
Theorem chunked_roundtrip `{ChunkDeps} (frames : list bytes) (seed : bytes) (date : AmzDate)
    (region service secret key : bytes) (max : Z) (chunks : list (bytes * bytes)) :
  derive_signing_key secret date region service = Some key ->
  (0 <= max)%Z -> encodable max chunks ->
  encode_stream (ctx_of seed date region service key) chunks = Some (concat frames) ->
  let r := worker (map Ok frames) seed date region service secret false max in
  concat (yields r) = concat (map snd chunks) /\ outcome r = Finished (Ok tt).
Proof.
  intros Hk Hmax Henc Hs. unfold worker. rewrite Hk. cbv zeta.
  assert (Hok : ok_prefix (map Ok frames) = concat frames)
    by (clear; induction frames as [|f frames IH]; [done|]; cbn [map ok_prefix concat]; by rewrite IH).
  eapply encode_with_accepted; [exact Hs| | |done| |].
  - unfold flat. by rewrite Hok.
  - rewrite Hok. lia.
  - apply Forall_forall. intros x Hx. apply list_elem_of_In, in_map_iff in Hx as (f & <- & _). done.
  - intros. by eapply final_chunk_accepted.
Qed.

(** The reader gets at most the declared number of bytes, and a clean end exactly when
    the worker ended well after delivering that many. *)
Theorem declared_length_enforced (items : list bytes) (last : result AwsChunkedStreamError unit) (n : Z) :
  (0 <= n)%Z ->
  let '(ys, e) := read_stream items last n in
  (len (concat ys) <= n)%Z /\ (exists rest, items = ys ++ rest) /\
  (e = None <-> last = Ok tt /\ len (concat items) = n).
Proof.
  revert n. induction items as [|x items IH]; intros n Hn; cbn [read_stream].
  - unfold poll. destruct last as [[]|err].
    + destruct (n =? 0)%Z eqn:E; reflect_bools; cbn [negb]; unfold len; simpl;
        (split_and!; [lia|by exists []|]); split; try done; intros [_ ?]; lia.
    + unfold len. simpl. split_and!; [lia|by exists []|]. by split; [|intros []].
  - unfold poll. destruct (negb (x =? []) && (n <? len x)%Z) eqn:E.
    + reflect_bools. unfold len in *. simpl. split_and!; [lia|by exists (x :: items)|].
      split; [done|]. rewrite length_app. intros [_ ?]. lia.
    + assert (Hx : (len x <= n)%Z).
      { apply andb_false_iff in E as [E|E]; reflect_bools; [subst x; unfold len; simpl; lia|done]. }
      rewrite Z.max_r by lia. specialize (IH (n - len x)%Z ltac:(lia)).
      destruct (read_stream items last (n - len x)) as [ys e]. destruct IH as (H1 & (rest & H2) & H3).
      cbn [concat]. unfold len in *. rewrite !length_app. split_and!; [lia|exists rest; by rewrite H2|].
      rewrite H3. split; intros [? ?]; (split; [done|lia]).
Qed.

(** A stream that simply stops where a chunk should begin is accepted like one that ends
    with the zero-size chunk, so neither the final signature nor trailers are required once the
    declared length has been delivered. *)
Theorem unterminated_stream_accepted `{ChunkDeps} (frames : list bytes) (seed : bytes) (date : AmzDate)
    (region service secret key : bytes) (max : Z) (chunks : list (bytes * bytes)) :
  derive_signing_key secret date region service = Some key ->
  encodable max chunks ->
  encode_with (fun _ => Some []) (ctx_of seed date region service key) chunks = Some (concat frames) ->
  let r := worker (map Ok frames) seed date region service secret false max in
  concat (yields r) = concat (map snd chunks) /\ outcome r = Finished (Ok tt).
Proof.
  intros Hk Henc Hs. unfold worker. rewrite Hk. cbv zeta.
  assert (Hok : ok_prefix (map Ok frames) = concat frames)
    by (clear; induction frames as [|f frames IH]; [done|]; cbn [map ok_prefix concat]; by rewrite IH).
  eapply encode_with_accepted; [exact Hs| | |done| |].
  - unfold flat. by rewrite Hok.
  - rewrite Hok. lia.
  - apply Forall_forall. intros x Hx. apply list_elem_of_In, in_map_iff in Hx as (f & <- & _). done.
  - intros fuel ctx b prev input [= <-] Hf Hb Hfuel. destruct fuel as [|fuel]; [lia|]. cbn [worker_loop].
    rewrite read_meta_end; [done|done|rewrite Hf; by intros ?%elem_of_nil|rewrite Hf; done].
Qed.

(** Metadata over the limit is reported wrapped in [Underlying], so the error code is
    [InternalError] and not the [EntityTooLarge] of [ChunkMetaTooLarge]. *)
Theorem oversized_metadata_code `{ChunkDeps} (frame : bytes) (rest : body) (seed : bytes) (date : AmzDate)
    (region service secret key : bytes) (unsigned : bool) (max : Z) :
  derive_signing_key secret date region service = Some key ->
  x0a ∉ frame -> (MAX_CHUNK_META_SIZE < len frame <= isize_max)%Z ->
  let r := worker (Ok frame :: rest) seed date region service secret unsigned max in
  let e := Underlying (Boxed (ChunkMetaTooLarge (len frame) MAX_CHUNK_META_SIZE)) in
  yields r = [] /\ outcome r = Finished (Err e) /\
  to_s3_error_code e = InternalError /\
  to_s3_error_code (ChunkMetaTooLarge (len frame) MAX_CHUNK_META_SIZE) = EntityTooLarge.
Proof.
  intros Hk Hn Hl. unfold worker. rewrite Hk. cbn [worker_loop].
  assert (Hm : read_meta_bytes (Ok frame :: rest) [] =
    (Some (Err (Boxed (ChunkMetaTooLarge (len frame) MAX_CHUNK_META_SIZE))), rest)).
  { unfold read_meta_bytes. rewrite push_meta_bytes_more; [|by intros ?%elem_of_nil|done]. simpl app.
    cbn [read_meta_loop]. unfold push_meta_bytes. rewrite (proj2 (memchr_None _ _)) by done.
    assert (Hs : sat_add (len (@nil byte)) (len frame) = len frame).
    { unfold sat_add, usize_max, isize_max, len in *. simpl. lia. }
    rewrite Hs. by rewrite (proj2 (Z.ltb_lt _ _)) by lia. }
  rewrite Hm. done.
Qed.

(** ** Witnesses: a two-chunk stream under [toy_chunk_deps], split at odd places *)

Section Witness.
#[local] Existing Instance toy_chunk_deps.

Definition w_seed : bytes := replicate 32 x00.
Definition w_key : bytes :=
  default [] (derive_signing_key (str "secret") example_date (str "us-east-1") (str "s3")).
Definition w_ctx : SignatureCtx := ctx_of w_seed example_date (str "us-east-1") (str "s3") w_key.
Definition w_chunks : list (bytes * bytes) := [(str "3", str "abc"); (str "02", str "de")].
Definition w_stream : bytes := default [] (encode_stream w_ctx w_chunks).
Definition w_open_stream : bytes := default [] (encode_with (fun _ => Some []) w_ctx w_chunks).
Definition cut (s : bytes) : list bytes := [take 1 s; take 83 (drop 1 s); []; take 2 (drop 84 s); drop 86 s].

Lemma w_encodable : encodable 8 w_chunks.
Proof.
  apply Forall_cons_2; [|apply Forall_cons_2; [|apply Forall_nil_2]];
    (split; [split_and!; [reflexivity|simpl; lia|simpl; lia|reflexivity]|split; [discriminate|vm_compute; congruence]]).
Defined.

Lemma signed_stream_verified_witness :
  exists (chunks : list bytes) ctx rest, str "abcde" = concat chunks /\
    verified 8 w_ctx chunks (ok_prefix (map Ok (cut w_stream))) ctx rest.
Proof.
  destruct (proj2 (signed_stream_verified (map Ok (cut w_stream)) w_seed example_date (str "us-east-1") (str "s3")
    (str "secret") w_key 8 eq_refl)) as (chunks & ctx & rest & Hc & Hv & _).
  exists chunks, ctx, rest. split; [|exact Hv]. rewrite <- Hc. vm_compute. reflexivity.
Defined.

Lemma chunked_roundtrip_witness :
  let r := worker (map Ok (cut w_stream)) w_seed example_date (str "us-east-1") (str "s3") (str "secret") false 8 in
  concat (yields r) = str "abcde" /\ outcome r = Finished (Ok tt).
Proof.
  apply (chunked_roundtrip (cut w_stream) w_seed example_date (str "us-east-1") (str "s3") (str "secret") w_key 8 w_chunks).
  - reflexivity.
  - lia.
  - exact w_encodable.
  - vm_compute. reflexivity.
Defined.

Lemma declared_length_enforced_witness :
  read_stream [str "abc"; str "de"] (Ok tt) 5 = ([str "abc"; str "de"], None) /\
  read_stream [str "abc"; str "de"] (Ok tt) 4 = ([str "abc"], Some LengthMismatch) /\
  (len (concat [str "abc"]) <= 4)%Z.
Proof.
  split_and!; [reflexivity|reflexivity|].
  apply (declared_length_enforced [str "abc"; str "de"] (Ok tt) 4). lia.
Defined.

Lemma unterminated_stream_accepted_witness :
  let r := worker (map Ok (cut w_open_stream)) w_seed example_date (str "us-east-1") (str "s3") (str "secret") false 8 in
  concat (yields r) = str "abcde" /\ outcome r = Finished (Ok tt).
Proof.
  apply (unterminated_stream_accepted (cut w_open_stream) w_seed example_date (str "us-east-1") (str "s3")
    (str "secret") w_key 8 w_chunks).
  - reflexivity.
  - exact w_encodable.
  - vm_compute. reflexivity.
Defined.

Lemma oversized_metadata_code_witness :
  exists e, outcome (worker [Ok (replicate 1025 "f"%byte)] w_seed example_date (str "us-east-1") (str "s3")
    (str "secret") true 8) = Finished (Err e) /\ to_s3_error_code e = InternalError.
Proof.
  eexists. split.
  - apply (oversized_metadata_code (replicate 1025 "f"%byte) [] w_seed example_date (str "us-east-1") (str "s3")
      (str "secret") w_key true 8).
    + reflexivity.
    + by_decide.
    + vm_compute. split; congruence.
  - reflexivity.
Defined.

End Witness.
