(* ===== verification/Authorization.v ===== *)
(** * Signature Version 4: parsing what a request presents
    (crates/s3s-sigv4/src/authorization.rs, presigned_url.rs, post_signature.rs, amz_content_sha256.rs)

    The [Authorization] header and its credential scope, the presigned query parameters, the
    POST form fields and the payload-hash header.  The [nom] combinators, the [jiff] calendar
    and the codecs are parameters. *)

From S2P Require Import Prelude.
From S2P Require Import Str.
From S2P Require Import AmzDate.
From S2P Require Import SigV4.
From S2P Require Import Nom.

(** ** What the parsers use of other crates *)

Class AuthDeps := {
  auth_nom :: Nom;
  auth_sig :: SigDeps;
  (** [jiff::civil::Date::new(year, month, day).is_ok()] *)
  jiff_date_ok : Z -> Z -> Z -> bool;
  (** [base64_simd::STANDARD]: padded, four characters per three bytes *)
  base64_decoded_length : bytes -> option Z;
  base64_decode : bytes -> option bytes;
  base64_length_32 : forall s, base64_decoded_length s = Some 32%Z -> length s = 44
}.

(** ** Credentials *)

Record CredentialV4 := {
  access_key_id : bytes;
  date : bytes;
  aws_region : bytes;
  aws_service : bytes
}.

Record AuthorizationV4 := {
  auth_algorithm : bytes;
  credential : CredentialV4;
  signed_headers : list bytes;
  auth_signature : bytes
}.

Inductive ParseAuthorizationError := Malformed | InvalidSignature.

Section Parsers.
Context `{AuthDeps}.

(** [take(1_usize)] takes one character; where it runs the next one is the ASCII ['/'], if any. *)
Definition until_slash0 : parser bytes := terminated (take_till (fun c => c =? "/"%byte)) (take_n 1).
Definition until_slash1 : parser bytes := terminated (take_till1 (fun c => c =? "/"%byte)) (take_n 1).
Definition till_space0 : parser bytes := take_till is_ascii_whitespace.
Definition till_space1 : parser bytes := take_till1 is_ascii_whitespace.

Definition verify_date (s : bytes) : bool :=
  match s with
  | [a0; a1; a2; a3; a4; a5; a6; a7] =>
      match digit4 a0 a1 a2 a3, digit2 a4 a5, digit2 a6 a7 with
      | Some yyyy, Some mm, Some dd =>
          match try_from 32767 yyyy, try_from 127 mm, try_from 127 dd with
          | Some yyyy, Some mm, Some dd => jiff_date_ok yyyy mm dd
          | _, _, _ => false
          end
      | _, _, _ => false
      end
  | _ => false
  end.

Definition parse_credential : parser CredentialV4 := fun s =>
  '(s, access_key_id) ← until_slash0 s;
  '(s, date) ← verify until_slash1 verify_date s;
  '(s, aws_region) ← until_slash0 s;
  '(s, aws_service) ← until_slash1 s;
  '(s, _) ← tag (str "aws4_request") s;
  Some (s, {| access_key_id := access_key_id; date := date; aws_region := aws_region; aws_service := aws_service |}).

(** [CredentialV4::parse] *)
Definition CredentialV4_parse (input : bytes) : option CredentialV4 :=
  match parse_credential input with
  | Some ([], ans) => Some ans
  | _ => None
  end.

Definition parse_headers : parser (list bytes) :=
  separated_list1 (tag (str ";")) (take_till (fun c => (c =? ";"%byte) || (c =? ","%byte))).

Definition parse_authorization : parser AuthorizationV4 := fun s =>
  '(s, algorithm) ← till_space1 s;
  '(s, _) ← multispace1 s;
  '(s, credential) ← delimited (tag (str "Credential=")) parse_credential (tag (str ",")) s;
  '(s, _) ← multispace0 s;
  '(s, signed_headers) ← delimited (tag (str "SignedHeaders=")) parse_headers (tag (str ",")) s;
  '(s, _) ← multispace0 s;
  '(s, signature) ← preceded (tag (str "Signature=")) till_space0 s;
  '(s, _) ← multispace0 s;
  Some (s, {| auth_algorithm := algorithm; credential := credential; signed_headers := signed_headers;
              auth_signature := signature |}).

(** [AuthorizationV4::parse] *)
Definition AuthorizationV4_parse (header : bytes) : result ParseAuthorizationError AuthorizationV4 :=
  match parse_authorization header with
  | Some ([], ans) => if negb (is_sha256_checksum (auth_signature ans)) then Err InvalidSignature else Ok ans
  | _ => Err Malformed
  end.

(** ** Presigned URLs *)

Record PresignedUrlV4 := {
  pre_algorithm : bytes;
  pre_credential : CredentialV4;
  pre_amz_date : AmzDate;
  pre_expires : Z;
  pre_signed_headers : list bytes;
  pre_signature : bytes
}.

Definition get_unique (pairs : list (bytes * bytes)) (name : bytes) : option bytes :=
  match List.filter (fun p => fst p =? name) pairs with
  | [(_, value)] => Some value
  | _ => None
  end.

Definition parse_expires (s : bytes) (max_expires_secs : Z) : option Z :=
  x ← parse_unsigned (2 ^ 32 - 1) s;
  if (max_expires_secs <? x)%Z then None else Some x.

(** [PresignedUrlV4::parse]; its one error has no content. *)
Definition PresignedUrlV4_parse (qs : list (bytes * bytes)) (max_expires_secs : Z) : option PresignedUrlV4 :=
  algorithm ← get_unique qs (str "X-Amz-Algorithm");
  credential_str ← get_unique qs (str "X-Amz-Credential");
  date ← get_unique qs (str "X-Amz-Date");
  expires ← get_unique qs (str "X-Amz-Expires");
  signed_headers ← get_unique qs (str "X-Amz-SignedHeaders");
  signature ← get_unique qs (str "X-Amz-Signature");
  credential ← CredentialV4_parse credential_str;
  amz_date ← AmzDate_parse date;
  expires ← parse_expires expires max_expires_secs;
  if negb (forallb is_ascii signed_headers) then None else
  let signed_headers := split ";" signed_headers in
  if negb (is_sha256_checksum signature) then None else
  Some {| pre_algorithm := algorithm; pre_credential := credential; pre_amz_date := amz_date; pre_expires := expires;
          pre_signed_headers := signed_headers; pre_signature := signature |}.

(** ** POST form signatures *)

Record PostSignatureV4 := {
  policy : bytes;
  x_amz_algorithm : bytes;
  x_amz_credential : bytes;
  x_amz_date : bytes;
  x_amz_signature : bytes
}.

Inductive PostSignatureError := MissingField (name : bytes) | DuplicateField (name : bytes).

Definition post_field (fields : list (bytes * bytes)) (name : bytes) : result PostSignatureError bytes :=
  match List.filter (fun p => fst p =? name) fields with
  | [] => Err (MissingField name)
  | [(_, value)] => Ok value
  | _ => Err (DuplicateField name)
  end.

Definition PostSignatureV4_extract (fields : list (bytes * bytes)) : result PostSignatureError PostSignatureV4 :=
  policy ← post_field fields (str "policy");
  algorithm ← post_field fields (str "x-amz-algorithm");
  credential ← post_field fields (str "x-amz-credential");
  date ← post_field fields (str "x-amz-date");
  signature ← post_field fields (str "x-amz-signature");
  Ok {| policy := policy; x_amz_algorithm := algorithm; x_amz_credential := credential; x_amz_date := date;
        x_amz_signature := signature |}.

(** ** x-amz-content-sha256 *)

Inductive AmzContentSha256 :=
| CsSingleChunk (digest : bytes)
| UnsignedPayload
| StreamingUnsignedPayloadTrailer
| StreamingAws4HmacSha256Payload
| StreamingAws4HmacSha256PayloadTrailer
| StreamingAws4EcdsaP256Sha256Payload
| StreamingAws4EcdsaP256Sha256PayloadTrailer.

Definition parse_checksum (header : bytes) : option bytes :=
  if is_sha256_checksum header then
    decoded ← hex_simd_decode header;
    if (length decoded =? 32)%nat then Some decoded else None
  else
    n ← base64_decoded_length header;
    if negb (n =? 32)%Z then None
    else
      decoded ← base64_decode header;
      if (length decoded =? 32)%nat then Some decoded else None.

(** [AmzContentSha256::parse]; [None] is [UnknownVariant]. *)
Definition AmzContentSha256_parse (header : bytes) : option AmzContentSha256 :=
  match parse_checksum header with
  | Some checksum => Some (CsSingleChunk checksum)
  | None =>
      if header =? str "UNSIGNED-PAYLOAD" then Some UnsignedPayload
      else if header =? str "STREAMING-UNSIGNED-PAYLOAD-TRAILER" then Some StreamingUnsignedPayloadTrailer
      else if header =? str "STREAMING-AWS4-HMAC-SHA256-PAYLOAD" then Some StreamingAws4HmacSha256Payload
      else if header =? str "STREAMING-AWS4-HMAC-SHA256-PAYLOAD-TRAILER" then Some StreamingAws4HmacSha256PayloadTrailer
      else if header =? str "STREAMING-AWS4-ECDSA-P256-SHA256-PAYLOAD" then Some StreamingAws4EcdsaP256Sha256Payload
      else if header =? str "STREAMING-AWS4-ECDSA-P256-SHA256-PAYLOAD-TRAILER"
        then Some StreamingAws4EcdsaP256Sha256PayloadTrailer
      else None
  end.

Definition is_streaming (c : AmzContentSha256) : bool :=
  match c with
  | CsSingleChunk _ | UnsignedPayload => false
  | StreamingUnsignedPayloadTrailer | StreamingAws4HmacSha256Payload | StreamingAws4HmacSha256PayloadTrailer
  | StreamingAws4EcdsaP256Sha256Payload | StreamingAws4EcdsaP256Sha256PayloadTrailer => true
  end.

Definition has_trailer (c : AmzContentSha256) : bool :=
  match c with
  | CsSingleChunk _ | UnsignedPayload | StreamingAws4HmacSha256Payload | StreamingAws4EcdsaP256Sha256Payload => false
  | StreamingUnsignedPayloadTrailer | StreamingAws4HmacSha256PayloadTrailer
  | StreamingAws4EcdsaP256Sha256PayloadTrailer => true
  end.

End Parsers.

(** ** Credentials: lemmas *)

Section Lemmas.
Context `{AuthDeps}.

Lemma until_slash0_spec s : until_slash0 s = match split_once "/" s with Some (a, r) => Some (r, a) | None => None end.
Proof.
  unfold until_slash0, split_once. rewrite terminated_spec, take_till_spec.
  destruct (break_at _ s) as [a [|c r]]; cbn [mbind option_bind]; rewrite take_n_spec; done.
Qed.

Lemma until_slash1_spec s :
  until_slash1 s = match split_once "/" s with Some ([], _) => None | Some (a, r) => Some (r, a) | None => None end.
Proof.
  unfold until_slash1, split_once. rewrite terminated_spec, take_till1_spec.
  destruct (break_at _ s) as [[|c a] [|d r]]; cbn [mbind option_bind]; rewrite ?take_n_spec; done.
Qed.

Lemma digit_not_slash c v : digit c = Some v -> c <> "/"%byte.
Proof. by intros Hc ->. Qed.

Lemma verify_date_digits d : verify_date d = true -> "/"%byte ∉ d /\ d <> [].
Proof.
  unfold verify_date.
  destruct d as [|a0 [|a1 [|a2 [|a3 [|a4 [|a5 [|a6 [|a7 [|a8 d]]]]]]]]]; try done.
  destruct (digit4 a0 a1 a2 a3) eqn:E1; [|done]. destruct (digit2 a4 a5) eqn:E2; [|done].
  destruct (digit2 a6 a7) eqn:E3; [|done]. intros _. split; [|done].
  unfold digit4, digit2 in *. repeat match goal with H : _ ≫= _ = Some _ |- _ => apply bind_Some in H as (? & ? & ?) end.
  rewrite !not_elem_of_cons. split_and!; try (symmetry; by eapply digit_not_slash). apply not_elem_of_nil.
Qed.

Definition render_credential (c : CredentialV4) : bytes :=
  access_key_id c ++ str "/" ++ date c ++ str "/" ++ aws_region c ++ str "/" ++ aws_service c ++ str "/aws4_request".

Definition credential_ok (c : CredentialV4) : Prop :=
  "/"%byte ∉ access_key_id c /\ verify_date (date c) = true /\ "/"%byte ∉ aws_region c /\
  "/"%byte ∉ aws_service c /\ aws_service c <> [].

Lemma parse_credential_spec s r c :
  parse_credential s = Some (r, c) <-> s = render_credential c ++ r /\ credential_ok c.
Proof.
  unfold parse_credential, render_credential, credential_ok. split.
  - rewrite until_slash0_spec. destruct (split_once "/" s) as [[a s1]|] eqn:E1; [|done]. cbn [mbind option_bind].
    rewrite verify_spec, until_slash1_spec. destruct (split_once "/" s1) as [[[|x d] s2]|] eqn:E2; [done| |done].
    cbn [mbind option_bind]. destruct (verify_date (x :: d)) eqn:Hd; [|done]. cbn [mbind option_bind].
    rewrite until_slash0_spec. destruct (split_once "/" s2) as [[g s3]|] eqn:E3; [|done]. cbn [mbind option_bind].
    rewrite until_slash1_spec. destruct (split_once "/" s3) as [[[|y v] s4]|] eqn:E4; [done| |done].
    cbn [mbind option_bind]. rewrite tag_spec. destruct (strip_prefix _ s4) as [s5|] eqn:E5; [|done].
    cbn [mbind option_bind]. intros [= -> <-]. cbn [access_key_id date aws_region aws_service].
    apply split_once_Some in E1 as [-> ?], E2 as [-> ?], E3 as [-> ?], E4 as [-> ?].
    apply strip_prefix_Some in E5 as ->. split; [|done]. by rewrite <- !app_assoc.
  - intros (-> & Ha & Hd & Hr & Hs & Hne). destruct (verify_date_digits _ Hd) as [Hds Hdn].
    rewrite until_slash0_spec, <- !app_assoc.
    rewrite (proj2 (split_once_Some "/" _ (access_key_id c) _)) by (split; [reflexivity|done]). cbn [mbind option_bind].
    rewrite verify_spec, until_slash1_spec.
    rewrite (proj2 (split_once_Some "/" _ (date c) _)) by (split; [reflexivity|done]).
    destruct (date c) as [|x d] eqn:Ed; [done|]. cbn [mbind option_bind]. rewrite Hd. cbn [mbind option_bind].
    rewrite until_slash0_spec.
    rewrite (proj2 (split_once_Some "/" _ (aws_region c) _)) by (split; [reflexivity|done]). cbn [mbind option_bind].
    rewrite until_slash1_spec.
    rewrite (proj2 (split_once_Some "/" _ (aws_service c) _)) by (split; [reflexivity|done]).
    destruct (aws_service c) as [|y v] eqn:Es; [done|]. cbn [mbind option_bind].
    rewrite tag_spec. replace (strip_prefix _ _) with (Some r) by reflexivity. cbn [mbind option_bind]. rewrite <- Ed, <- Es. by destruct c.
Qed.

(** ** Signed headers *)

Definition header_end (c : byte) : bool := (c =? ";"%byte) || (c =? ","%byte).

Lemma separated_headers fuel s acc :
  (length s <= fuel)%nat -> match s with [] => True | c :: _ => header_end c = true end ->
  separated_loop fuel (tag (str ";")) (take_till header_end) s acc =
    match s with
    | c :: s' => if c =? ";"%byte then let '(a, r) := break_at (fun c => c =? ","%byte) s' in Some (r, acc ++ split ";" a)
                 else Some (s, acc)
    | [] => Some ([], acc)
    end.
Proof.
  revert s acc. induction fuel as [|fuel IH]; intros [|c s] acc Hf Hs; simpl in Hf; try lia; try done;
    cbn [separated_loop]; rewrite tag_spec; [done|].
  unfold header_end in Hs. destruct (c =? ";"%byte) eqn:Ec.
  - apply bool_decide_eq_true in Ec as ->. simpl strip_prefix. cbv iota beta. simpl length.
    rewrite (proj2 (Nat.eqb_neq _ _)) by lia. rewrite take_till_spec.
    destruct (break_at header_end s) as [a r] eqn:E. apply break_at_spec in E as (-> & Ha & Hr).
    rewrite IH; [|rewrite length_app in Hf; lia|done].
    assert (Has : ";"%byte ∉ a /\ ","%byte ∉ a).
    { split; apply forallb_notin; (eapply forallb_impl; [|exact Ha]); intros x Hx; unfold header_end in Hx;
        apply negb_true_iff, orb_false_iff in Hx as [E1 E2]; by rewrite ?E1, ?E2. }
    destruct Has as [Hsc Hco]. destruct r as [|d r].
    + rewrite app_nil_r. replace (break_at _ a) with (a, @nil byte)
        by (rewrite <- (app_nil_r a) at 2; rewrite break_at_app; [done|by apply forallb_notin|done]).
      by rewrite split_single.
    + unfold header_end in Hr. destruct (d =? ";"%byte) eqn:Ed.
      * apply bool_decide_eq_true in Ed as ->.
        assert (Hb : break_at (fun c => c =? ","%byte) (a ++ ";"%byte :: r) =
          let '(a', r') := break_at (fun c => c =? ","%byte) r in (a ++ ";"%byte :: a', r')).
        { destruct (break_at (fun c => c =? ","%byte) r) as [a' r'] eqn:F. apply break_at_spec in F as (-> & F1 & F2).
          change (a ++ ";"%byte :: a' ++ r') with (a ++ (";"%byte :: a') ++ r'). rewrite app_assoc. apply break_at_app; [|done].
          rewrite forallb_app. rewrite (proj2 (forallb_notin _ a)) by done. simpl. by rewrite F1. }
        rewrite Hb. destruct (break_at _ r) as [a' r']. rewrite split_cons_sep by done. by rewrite <- app_assoc.
      * simpl in Hr. rewrite break_at_app; [|by apply forallb_notin|done]. by rewrite split_single.
  - simpl. destruct (";"%byte =? c) eqn:F; [|done]. apply bool_decide_eq_true in F as <-. by rewrite bool_decide_eq_true_2 in Ec.
Qed.

Lemma parse_headers_spec s :
  parse_headers s = let '(a, r) := break_at (fun c => c =? ","%byte) s in Some (r, split ";" a).
Proof.
  unfold parse_headers. fold header_end. rewrite separated_list1_spec.
  (* a list is what follows an imagined first separator *)
  pose proof (separated_headers (S (length s)) (";"%byte :: s) [] ltac:(simpl; lia) eq_refl) as Hl.
  cbn [separated_loop] in Hl. rewrite tag_spec in Hl. simpl strip_prefix in Hl. cbv iota beta in Hl. simpl length in Hl.
  rewrite (proj2 (Nat.eqb_neq _ _)) in Hl by lia. rewrite bool_decide_eq_true_2 in Hl by done.
  rewrite take_till_spec in Hl |- *. fold header_end. destruct (break_at header_end s) as [a r] eqn:E. cbn [mbind option_bind].
  apply break_at_spec in E as (-> & Ha & Hr). refine (eq_trans _ Hl).
  rewrite !separated_headers; [done|rewrite length_app; lia|done|lia|done].
Qed.

(** ** The header *)

Record spaces (w1 w2 w3 w4 : bytes) : Prop := {
  spaces_nonempty : w1 <> [];
  spaces_all : forallb is_multispace (w1 ++ w2 ++ w3 ++ w4) = true
}.

Definition render_authorization (w1 w2 w3 w4 : bytes) (a : AuthorizationV4) : bytes :=
  auth_algorithm a ++ w1 ++ str "Credential=" ++ render_credential (credential a) ++ str "," ++ w2 ++
  str "SignedHeaders=" ++ join (str ";") (signed_headers a) ++ str "," ++ w3 ++
  str "Signature=" ++ auth_signature a ++ w4.

Definition authorization_ok (a : AuthorizationV4) : Prop :=
  auth_algorithm a <> [] /\ forallb (fun c => negb (is_ascii_whitespace c)) (auth_algorithm a) = true /\
  credential_ok (credential a) /\
  signed_headers a <> [] /\ Forall (fun h => (";"%byte ∉ h) /\ (","%byte ∉ h)) (signed_headers a) /\
  is_sha256_checksum (auth_signature a) = true.

Lemma multispace_break w s :
  forallb is_multispace w = true -> match s with [] => True | c :: _ => is_multispace c = false end ->
  break_at (fun c => negb (is_multispace c)) (w ++ s) = (w, s).
Proof.
  intros Hw Hs. apply break_at_app.
  - eapply forallb_impl; [|exact Hw]. by intros c ->.
  - destruct s; [done|]. by rewrite Hs.
Qed.

Lemma join_comma_free hs : Forall (fun h => (";"%byte ∉ h) /\ (","%byte ∉ h)) hs -> ","%byte ∉ join (str ";") hs.
Proof.
  intros Hh Hin. apply elem_of_join in Hin as [Hin|(w & Hw & Hin)]; [by apply list_elem_of_singleton in Hin|].
  rewrite Forall_forall in Hh. by apply Hh in Hw as [_ Hw].
Qed.

Lemma parse_authorization_render w1 w2 w3 w4 a :
  spaces w1 w2 w3 w4 -> authorization_ok a -> parse_authorization (render_authorization w1 w2 w3 w4 a) = Some ([], a).
Proof.
  intros [Hne Hall] (Ha & Haw & Hc & Hh & Hhs & Hsig). rewrite !forallb_app in Hall. reflect_bools.
  unfold parse_authorization, render_authorization, till_space1, till_space0.
  rewrite take_till1_spec, break_at_app; [|done|].
  2:{ destruct w1 as [|c w1]; [done|]. simpl in *. reflect_bools. revert H0. by destruct c. }
  destruct (auth_algorithm a) as [|x alg] eqn:Ea; [done|]. cbn [mbind option_bind].
  rewrite multispace1_spec, multispace_break by done. destruct w1 as [|y w1]; [done|]. cbn [mbind option_bind].
  rewrite delimited_spec, tag_spec, strip_prefix_app. cbn [mbind option_bind].
  rewrite (proj2 (parse_credential_spec _ _ (credential a))) by done. cbn [mbind option_bind].
  rewrite tag_spec, strip_prefix_app. cbn [mbind option_bind].
  rewrite multispace0_spec, multispace_break by done. cbn [mbind option_bind].
  rewrite delimited_spec, tag_spec, strip_prefix_app. cbn [mbind option_bind].
  rewrite parse_headers_spec, break_at_app; [|by apply forallb_notin, join_comma_free|done]. cbn [mbind option_bind].
  rewrite tag_spec, strip_prefix_app. cbn [mbind option_bind].
  rewrite multispace0_spec, multispace_break by done. cbn [mbind option_bind].
  rewrite preceded_spec, tag_spec, strip_prefix_app. cbn [mbind option_bind].
  unfold is_sha256_checksum in Hsig. apply andb_true_iff in Hsig as [_ Hlow].
  rewrite take_till_spec, break_at_app.
  - cbn [mbind option_bind]. rewrite multispace0_spec, <- (app_nil_r w4) at 1.
    rewrite multispace_break by done. cbn [mbind option_bind].
    rewrite split_join; [|done|by eapply Forall_impl; [exact Hhs|]; intros ? []]. rewrite <- Ea. by destruct a.
  - eapply forallb_impl; [|exact Hlow]. by intros []; vm_compute.
  - destruct w4 as [|c w4]; [done|]. simpl in *. reflect_bools.
    assert (Hw : is_multispace c = true) by done. revert Hw. by destruct c.
Qed.

End Lemmas.

Section Sound.
Context `{AuthDeps}.

Lemma break_all f s a r : break_at f s = (a, r) -> forallb (fun c => negb (f c)) a = true.
Proof. by intros (_ & ? & _)%break_at_spec. Qed.

Lemma parse_authorization_sound s r a :
  parse_authorization s = Some (r, a) -> is_sha256_checksum (auth_signature a) = true ->
  exists w1 w2 w3 w4, spaces w1 w2 w3 w4 /\ s = render_authorization w1 w2 w3 w4 a ++ r /\ authorization_ok a.
Proof.
  unfold parse_authorization, till_space1, till_space0. rewrite take_till1_spec.
  destruct (break_at is_ascii_whitespace s) as [[|x alg] s1] eqn:E1; [done|]. cbn [mbind option_bind].
  rewrite multispace1_spec. destruct (break_at _ s1) as [[|y w1] s2] eqn:E2; [done|]. cbn [mbind option_bind].
  rewrite delimited_spec, tag_spec. destruct (strip_prefix _ s2) as [s3|] eqn:E3; [|done]. cbn [mbind option_bind].
  destruct (parse_credential s3) as [[s4 cred]|] eqn:E4; [|done]. cbn [mbind option_bind].
  rewrite tag_spec. destruct (strip_prefix _ s4) as [s5|] eqn:E5; [|done]. cbn [mbind option_bind].
  rewrite multispace0_spec. destruct (break_at _ s5) as [w2 s6] eqn:E6. cbn [mbind option_bind].
  rewrite delimited_spec, tag_spec. destruct (strip_prefix _ s6) as [s7|] eqn:E7; [|done]. cbn [mbind option_bind].
  rewrite parse_headers_spec. destruct (break_at _ s7) as [hs s8] eqn:E8. cbn [mbind option_bind].
  rewrite tag_spec. destruct (strip_prefix _ s8) as [s9|] eqn:E9; [|done]. cbn [mbind option_bind].
  rewrite multispace0_spec. destruct (break_at _ s9) as [w3 s10] eqn:E10. cbn [mbind option_bind].
  rewrite preceded_spec, tag_spec. destruct (strip_prefix _ s10) as [s11|] eqn:E11; [|done]. cbn [mbind option_bind].
  rewrite take_till_spec. destruct (break_at _ s11) as [sig s12] eqn:E12. cbn [mbind option_bind].
  rewrite multispace0_spec. destruct (break_at _ s12) as [w4 s13] eqn:E13. cbn [mbind option_bind].
  intros [= -> <-] Hsig. cbn [auth_signature] in Hsig. exists (y :: w1), w2, w3, w4.
  apply break_all in E2 as M2, E6 as M6, E10 as M10, E13 as M13, E8 as M8, E1 as M1.
  apply break_at_spec in E1 as (-> & _), E2 as (-> & _), E6 as (-> & _), E8 as (-> & _), E10 as (-> & _),
    E12 as (-> & _), E13 as (-> & _).
  apply strip_prefix_Some in E3 as ->, E5 as ->, E7 as ->, E9 as ->, E11 as ->.
  apply parse_credential_spec in E4 as [-> Hc].
  assert (Hms : forall w, forallb (fun c => negb (negb (is_multispace c))) w = true -> forallb is_multispace w = true)
    by (intros w Hw; eapply forallb_impl; [|exact Hw]; intros c Hx; cbv beta in Hx; by rewrite negb_involutive in Hx).
  split_and!.
  - constructor; [done|]. rewrite !forallb_app, !Hms by done. done.
  - unfold render_authorization. cbn [auth_algorithm credential signed_headers auth_signature].
    change (str ";") with [";"%byte]. rewrite join_split, <- !app_assoc. done.
  - unfold authorization_ok. cbn [auth_algorithm credential signed_headers auth_signature].
    split_and!; [done|done|done|apply split_nonempty| |done].
    apply Forall_forall. intros h Hh. split; [by eapply split_notin|]. intros Hin.
    apply forallb_notin in M8. apply M8. rewrite <- (join_split ";"). clear -Hh Hin.
    induction (split ";" hs) as [|w ws IH]; [by apply elem_of_nil in Hh|]. simpl.
    apply elem_of_cons in Hh as [->|Hh]; destruct ws as [|v ws]; rewrite ?elem_of_app; auto.
    + by apply elem_of_nil in Hh.
    + right. right. by apply IH.
Qed.

End Sound.

(** ** Properties *)

(** A stand-in for the crates: every date is good and no text is base64. *)
Definition toy_auth_deps : AuthDeps.
Proof.
  refine {| auth_nom := nom_reference; auth_sig := toy_deps; jiff_date_ok := fun _ _ _ => true;
            base64_decoded_length := fun _ => None; base64_decode := fun _ => None |}.
  done.
Defined.

(** C33: the [Authorization] header is parsed exactly: a header is accepted with result [a] if
    and only if it is [a] written out, with white space where the format allows it, and every
    field of [a] is well formed: no slash in the credential fields, a real date, header names
    without separators, and a canonical SHA-256 signature. *)
Theorem authorization_parse_iff `{AuthDeps} (header : bytes) (a : AuthorizationV4) :
  AuthorizationV4_parse header = Ok a <->
  exists w1 w2 w3 w4, spaces w1 w2 w3 w4 /\ header = render_authorization w1 w2 w3 w4 a /\ authorization_ok a.
Proof.
  unfold AuthorizationV4_parse. split.
  - destruct (parse_authorization header) as [[[|] a']|] eqn:E; [|done|done].
    destruct (is_sha256_checksum (auth_signature a')) eqn:F; [|done]. intros [= ->].
    apply parse_authorization_sound in E; [|done]. by setoid_rewrite app_nil_r in E.
  - intros (w1 & w2 & w3 & w4 & Hw & -> & Ha). rewrite parse_authorization_render by done.
    destruct Ha as (_ & _ & _ & _ & _ & ->). done.
Qed.

Lemma authorization_parse_iff_witness :
  let sig := str "fe5f80f77d5fa3beca038a248ff027d0445342fe2855ddc963176630326f1024" in
  let a := {| auth_algorithm := str "AWS4-HMAC-SHA256";
              credential := {| access_key_id := str "AKIA"; date := str "20130524"; aws_region := str "us-east-1";
                               aws_service := str "s3" |};
              signed_headers := [str "host"; str "range"]; auth_signature := sig |} in
  @AuthorizationV4_parse toy_auth_deps
    (str "AWS4-HMAC-SHA256 Credential=AKIA/20130524/us-east-1/s3/aws4_request,SignedHeaders=host;range, Signature=" ++ sig)
  = Ok a.
Proof.
  intros sig a. apply (@authorization_parse_iff toy_auth_deps). exists (str " "), [], (str " "), [].
  split_and!; [by constructor|reflexivity|].
  unfold authorization_ok, credential_ok. split_and!; discriminate || reflexivity || by_decide.
Defined.

(** A presigned URL is accepted only if each of its six parameters occurs exactly once
    and is well formed: the credential is written out in full, the date is a date, the lifetime
    is within the limit, and the signature is a canonical SHA-256 digest. *)
Theorem presigned_url_sound `{AuthDeps} (qs : list (bytes * bytes)) (max : Z) (p : PresignedUrlV4) :
  PresignedUrlV4_parse qs max = Some p ->
  (forall name, name ∈ [str "X-Amz-Algorithm"; str "X-Amz-Credential"; str "X-Amz-Date"; str "X-Amz-Expires";
                        str "X-Amz-SignedHeaders"; str "X-Amz-Signature"] ->
     length (List.filter (fun q => fst q =? name) qs) = 1) /\
  (str "X-Amz-Credential", render_credential (pre_credential p)) ∈ qs /\ credential_ok (pre_credential p) /\
  (str "X-Amz-Date", iso_bytes (pre_amz_date p)) ∈ qs /\ date_ok (pre_amz_date p) = true /\
  (pre_expires p <= max)%Z /\
  (str "X-Amz-SignedHeaders", join (str ";") (pre_signed_headers p)) ∈ qs /\
  (str "X-Amz-Signature", pre_signature p) ∈ qs /\ is_sha256_checksum (pre_signature p) = true.
Proof.
  assert (Hu : forall name v, get_unique qs name = Some v ->
    length (List.filter (fun q => fst q =? name) qs) = 1 /\ (name, v) ∈ qs).
  { intros name v. unfold get_unique. destruct (List.filter _ qs) as [|[n u] [|]] eqn:E; try done. intros [= ->].
    split; [done|]. assert (Hin : In (n, v) (List.filter (fun q => fst q =? name) qs)) by (rewrite E; by left).
    apply filter_In in Hin as [Hin Hn]. simpl in Hn. apply bool_decide_eq_true in Hn as <-. by apply list_elem_of_In. }
  unfold PresignedUrlV4_parse. intros Hp.
  repeat match goal with
  | H : (get_unique qs _ ≫= _) = Some _ |- _ => apply bind_Some in H as (? & ?%Hu & H)
  end.
  apply bind_Some in Hp as (c & Hc & Hp). apply bind_Some in Hp as (d & Hd & Hp). apply bind_Some in Hp as (ex & He & Hp).
  destruct (forallb is_ascii _); [|done]. destruct (is_sha256_checksum _) eqn:Hs; [|done]. injection Hp as <-.
  cbn [pre_credential pre_amz_date pre_expires pre_signed_headers pre_signature].
  unfold CredentialV4_parse in Hc. destruct (parse_credential _) as [[[|] c']|] eqn:Ec; [|done|done].
  injection Hc as ->. apply parse_credential_spec in Ec as [-> Hok]. rewrite app_nil_r in *.
  apply AmzDate_parse_ok in Hd as [Hdok ->]. unfold parse_expires in He. apply bind_Some in He as (z & _ & He).
  destruct (max <? z)%Z eqn:Hz; [done|]. injection He as ->. reflect_bools.
  split_and!; try done; try tauto.
  - intros name Hn. repeat (apply elem_of_cons in Hn as [->|Hn]; [tauto|]). by apply elem_of_nil in Hn.
  - change (str ";") with [";"%byte]. rewrite join_split. tauto.
Qed.

Lemma presigned_url_sound_witness :
  let qs := [(str "X-Amz-Algorithm", str "AWS4-HMAC-SHA256");
             (str "X-Amz-Credential", str "AKIA/20130524/us-east-1/s3/aws4_request");
             (str "X-Amz-Date", str "20130524T000000Z"); (str "X-Amz-Expires", str "86400");
             (str "X-Amz-SignedHeaders", str "host");
             (str "X-Amz-Signature", str "aeeed9bbccd4d02ee5c0109b86d86835f995330da4c265957d157751f604d404")] in
  exists p, @PresignedUrlV4_parse toy_auth_deps qs 604800 = Some p /\ (pre_expires p <= 604800)%Z.
Proof.
  eexists. split; [vm_compute; reflexivity|].
  refine (proj1 (proj2 (proj2 (proj2 (proj2 (proj2 (@presigned_url_sound toy_auth_deps
    [(str "X-Amz-Algorithm", str "AWS4-HMAC-SHA256");
     (str "X-Amz-Credential", str "AKIA/20130524/us-east-1/s3/aws4_request");
     (str "X-Amz-Date", str "20130524T000000Z"); (str "X-Amz-Expires", str "86400");
     (str "X-Amz-SignedHeaders", str "host");
     (str "X-Amz-Signature", str "aeeed9bbccd4d02ee5c0109b86d86835f995330da4c265957d157751f604d404")]
    604800 _ _))))))). vm_compute. reflexivity.
Defined.

(** The header text of each payload kind. *)
Definition render_content_sha256 (c : AmzContentSha256) : bytes :=
  match c with
  | CsSingleChunk d => concat (map hex_pair d)
  | UnsignedPayload => str "UNSIGNED-PAYLOAD"
  | StreamingUnsignedPayloadTrailer => str "STREAMING-UNSIGNED-PAYLOAD-TRAILER"
  | StreamingAws4HmacSha256Payload => str "STREAMING-AWS4-HMAC-SHA256-PAYLOAD"
  | StreamingAws4HmacSha256PayloadTrailer => str "STREAMING-AWS4-HMAC-SHA256-PAYLOAD-TRAILER"
  | StreamingAws4EcdsaP256Sha256Payload => str "STREAMING-AWS4-ECDSA-P256-SHA256-PAYLOAD"
  | StreamingAws4EcdsaP256Sha256PayloadTrailer => str "STREAMING-AWS4-ECDSA-P256-SHA256-PAYLOAD-TRAILER"
  end.

(** A text that is neither 64 nor 44 bytes long is not a checksum. *)
Lemma parse_checksum_length `{AuthDeps} s : length s <> 64 -> length s <> 44 -> parse_checksum s = None.
Proof.
  intros H64 H44. unfold parse_checksum, is_sha256_checksum. rewrite (proj2 (Z.eqb_neq _ _)) by (unfold len; lia).
  cbn [andb]. destruct (base64_decoded_length s) as [n|] eqn:E; [|done]. cbn [mbind option_bind].
  destruct (n =? 32)%Z eqn:F; [|done]. apply Z.eqb_eq in F as ->. by apply base64_length_32 in E.
Qed.

(** Every payload kind parses back from its header text, a digest from its hexadecimal
    form; no keyword is taken for a checksum, and a trailer is announced only by streaming kinds. *)
Theorem content_sha256_roundtrip `{AuthDeps} (c : AmzContentSha256) :
  (forall d, c = CsSingleChunk d -> length d = 32) ->
  AmzContentSha256_parse (render_content_sha256 c) = Some c /\ (has_trailer c = true -> is_streaming c = true).
Proof.
  intros Hd. split; [|by destruct c]. unfold AmzContentSha256_parse.
  destruct c as [d| | | | | |]; cbn [render_content_sha256]; try (by rewrite parse_checksum_length).
  specialize (Hd d eq_refl). unfold parse_checksum. rewrite hex_pairs_checksum by done.
  rewrite hex_simd_decode_spec, hex_decode_pairs. cbn [mbind option_bind]. by rewrite Hd.
Qed.

Lemma content_sha256_roundtrip_witness :
  @AmzContentSha256_parse toy_auth_deps (str "STREAMING-AWS4-HMAC-SHA256-PAYLOAD-TRAILER")
    = Some StreamingAws4HmacSha256PayloadTrailer.
Proof.
  apply (proj1 (@content_sha256_roundtrip toy_auth_deps StreamingAws4HmacSha256PayloadTrailer ltac:(discriminate))).
Defined.
