(* ===== verification/SigV2.v ===== *)
(** * Signature Version 2 (crates/s3s-sigv2/src)

    methods.rs, authorization.rs, presigned_url.rs and post_signature.rs: the string to sign,
    the signature, and the parsers of what a request presents. *)

From S2P Require Import Prelude.
From S2P Require Import Str.
From S2P Require Import OrderedQs.
From S2P Require Import SigV4.
From S2P Require Import Authorization.

(** ** What the code uses of other crates *)

Class Sig2Deps := {
  sig2_auth :: AuthDeps;
  (** HMAC-SHA1 of the [hmac] and [sha1] crates: key, data, a digest of 20 bytes *)
  hmac_sha1 : bytes -> bytes -> bytes;
  hmac_sha1_length : forall k d, length (hmac_sha1 k d) = 20;
  (** [base64_simd::STANDARD]: [encode_to_string], and [check] for canonical text *)
  base64_encode : bytes -> bytes;
  base64_check : bytes -> bool;
  base64_check_encode : forall s, base64_check (base64_encode s) = true;
  base64_length_encode : forall s, base64_decoded_length (base64_encode s) = Some (len s);
  base64_encode_length : forall s, len (base64_encode s) = (4 * ((len s + 2) / 3))%Z;
  (** [jiff::Timestamp::from_second], as seconds: [None] out of the range of the calendar *)
  timestamp_from_second : Z -> option Z;
  timestamp_from_second_spec : forall s t, timestamp_from_second s = Some t -> t = s
}.

(** ** methods.rs *)

Inductive Mode := HeaderAuth | PresignedUrl.

Definition INCLUDED_QUERY : list bytes :=
  [str "accelerate"; str "acl"; str "analytics"; str "cors"; str "defaultObjectAcl"; str "delete";
   str "inventory"; str "lifecycle"; str "location"; str "logging"; str "metrics"; str "notification";
   str "object-lock"; str "partNumber"; str "policy"; str "replication"; str "requestPayment";
   str "response-cache-control"; str "response-content-disposition"; str "response-content-encoding";
   str "response-content-language"; str "response-content-type"; str "response-expires"; str "restore";
   str "select"; str "select-type"; str "storageClass"; str "tagging"; str "torrent"; str "uploadId";
   str "uploads"; str "versionId"; str "versioning"; str "versions"; str "website"].

Definition get_unique_header_str (headers : list header) (name : bytes) : option bytes :=
  match List.filter (fun h => eq_ignore_ascii_case (fst h) name) headers with
  | [] => None
  | (_, value) :: rest => match rest with _ :: _ => None | [] => Some value end
  end.

(** The same binary search as [OrderedQs::get_unique], over a slice. *)
Definition get_unique_qs (qs : list (bytes * bytes)) (name : bytes) : option bytes := get_unique_in qs name.

(** The inner loop: the text so far and the headers left. *)
Fixpoint push_same_amz (name ans : bytes) (headers : list header) : bytes * list header :=
  match headers with
  | (n, v) :: headers' =>
      if n =? name then push_same_amz name (ans ++ str "," ++ trim v) headers' else (ans, headers)
  | [] => (ans, [])
  end.

(** The outer loop; each round consumes a header. *)
Fixpoint push_amz_loop (fuel : nat) (ans : bytes) (amz_headers : list header) : bytes :=
  match fuel, amz_headers with
  | _, [] | 0, _ => ans
  | S fuel', (name, value) :: rest =>
      let '(ans, rest) := push_same_amz name (ans ++ name ++ str ":" ++ trim value) rest in
      push_amz_loop fuel' (ans ++ [x0a]) rest
  end.

Definition push_canonicalized_amz_headers (ans : bytes) (amz_headers : list header) : bytes :=
  push_amz_loop (length amz_headers) ans amz_headers.

(** The loop over [INCLUDED_QUERY] with its flag. *)
Fixpoint push_included (ans : bytes) (is_first : bool) (qs : list (bytes * bytes)) (names : list bytes) : bytes :=
  match names with
  | [] => ans
  | q :: names' =>
      match get_unique_qs qs q with
      | Some v =>
          let ans := ans ++ (if is_first then str "?" else str "&") in
          let ans := ans ++ q in
          let ans := match v with [] => ans | _ => ans ++ str "=" ++ v end in
          push_included ans false qs names'
      | None => push_included ans is_first qs names'
      end
  end.

Definition is_amz (h : header) : bool := starts_with (str "x-amz-") (fst h).

Definition create_string_to_sign_v2 (mode : Mode) (method uri_path : bytes) (qs : option (list (bytes * bytes)))
    (headers : list header) (virtual_host_bucket : option bytes) : bytes :=
  let ans := method ++ [x0a] in
  let ans := ans ++ default [] (get_unique_header_str headers (str "content-md5")) ++ [x0a] in
  let ans := ans ++ default [] (get_unique_header_str headers (str "content-type")) ++ [x0a] in
  let ans :=
    match mode with
    | HeaderAuth =>
        let date := default [] (get_unique_header_str headers (str "date")) in
        let date := match get_unique_header_str headers (str "x-amz-date") with Some _ => [] | None => date end in
        ans ++ date ++ [x0a]
    | PresignedUrl =>
        let expires := default [] (qs ← qs; get_unique_qs qs (str "Expires")) in
        ans ++ expires ++ [x0a]
    end in
  let amz_headers := sort_by_key fst (List.filter is_amz headers) in
  let ans := push_canonicalized_amz_headers ans amz_headers in
  let ans := match virtual_host_bucket with Some bucket => ans ++ str "/" ++ bucket | None => ans end in
  let ans := ans ++ uri_path in
  match qs with
  | Some qs => push_included ans true qs INCLUDED_QUERY
  | None => ans
  end.

(** ** authorization.rs *)

Record AuthorizationV2 := { v2_access_key : bytes; v2_signature : bytes }.

(** [AuthorizationV2::parse]; its one error has no content. *)
Definition AuthorizationV2_parse (input : bytes) : option AuthorizationV2 :=
  input ← strip_prefix (str "AWS ") input;
  '(access_key, signature) ← split_once ":" input;
  Some {| v2_access_key := access_key; v2_signature := signature |}.

(** ** post_signature.rs: the field lookup is the one of Signature Version 4. *)

Record PostSignatureV2 := { v2_policy : bytes; v2_access_key_id : bytes; v2_post_signature : bytes }.

Definition PostSignatureV2_extract (fields : list (bytes * bytes)) : result PostSignatureError PostSignatureV2 :=
  policy ← post_field fields (str "policy");
  access_key_id ← post_field fields (str "awsaccesskeyid");
  signature ← post_field fields (str "signature");
  Ok {| v2_policy := policy; v2_access_key_id := access_key_id; v2_post_signature := signature |}.

Section SigV2.
Context `{Sig2Deps}.

Definition calculate_signature_v2 (secret_key string_to_sign : bytes) : bytes :=
  base64_encode (hmac_sha1 secret_key string_to_sign).

(** ** presigned_url.rs: [get_unique] is the one of Signature Version 4. *)

Record PresignedUrlV2 := { v2_url_access_key : bytes; expires_time : Z; v2_url_signature : bytes }.

Definition parse_unix_timestamp (s : bytes) : option Z :=
  ts ← parse_signed (- 2 ^ 63) (2 ^ 63 - 1) s;
  if (0 <=? ts)%Z then timestamp_from_second ts else None.

(** [PresignedUrlV2::parse]; its one error has no content. *)
Definition PresignedUrlV2_parse (qs : list (bytes * bytes)) : option PresignedUrlV2 :=
  access_key ← Authorization.get_unique qs (str "AWSAccessKeyId");
  expires_str ← Authorization.get_unique qs (str "Expires");
  signature ← Authorization.get_unique qs (str "Signature");
  expires_time ← parse_unix_timestamp expires_str;
  Some {| v2_url_access_key := access_key; expires_time := expires_time; v2_url_signature := signature |}.

End SigV2.

(** ** Canonicalized headers: lemmas *)

(** The line of a group of headers of one name. *)
Definition amz_value (g : bytes * list bytes) : bytes := join (str ",") (map trim (snd g)).
Definition amz_line (g : bytes * list bytes) : bytes := fst g ++ str ":" ++ amz_value g.

Lemma push_same_amz_span name ans headers :
  push_same_amz name ans headers =
    (ans ++ concat (map (fun v => str "," ++ trim v) (fst (span_name name headers))), snd (span_name name headers)).
Proof.
  revert ans. induction headers as [|[n v] headers IH]; intros ans; simpl.
  - by rewrite app_nil_r.
  - destruct (n =? name); simpl; [|by rewrite app_nil_r]. rewrite IH.
    destruct (span_name name headers). simpl. by rewrite <- !app_assoc.
Qed.

Lemma push_amz_lines ans headers :
  push_canonicalized_amz_headers ans headers = ans ++ concat (map (fun g => amz_line g ++ [x0a]) (groups headers)).
Proof.
  unfold push_canonicalized_amz_headers.
  enough (Hl : forall fuel ans headers, length headers <= fuel ->
    push_amz_loop fuel ans headers = ans ++ concat (map (fun g => amz_line g ++ [x0a]) (groups headers))) by by apply Hl.
  clear. induction fuel as [|fuel IH]; intros ans [|[name v] headers] Hf; simpl in Hf; try lia;
    cbn [push_amz_loop]; try by rewrite app_nil_r.
  rewrite push_same_amz_span.
  pose proof (groups_span name v headers) as Hg. pose proof (span_name_length name headers) as Hl.
  destruct (span_name name headers) as [vs rest]. simpl in Hl. cbn [fst snd]. rewrite IH by lia. rewrite Hg.
  cbn [map concat]. unfold amz_line at 2, amz_value. cbn [fst snd]. rewrite join_cons_concat. by rewrite <- !app_assoc.
Qed.

(** In an ordered list of headers each name has one group, with all its values in order. *)
Lemma values_of_cons n v l name :
  values_of ((n, v) :: l) name = if n =? name then v :: values_of l name else values_of l name.
Proof. unfold values_of. simpl. by destruct (n =? name). Qed.

Lemma values_of_below l n : Forall (fun h => bytes_leb (fst h) n = false) l -> values_of l n = [].
Proof.
  induction 1 as [|[m v] l Hm Hl IH]; [done|]. rewrite values_of_cons, IH. simpl in Hm.
  rewrite bool_decide_eq_false_2; [done|]. intros ->. by rewrite bytes_leb_refl in Hm.
Qed.

(** The first group has the name of the first header. *)
Lemma groups_head n v l : exists vs gs, groups ((n, v) :: l) = (n, vs) :: gs.
Proof. cbn [groups]. destruct (groups l) as [|[m ws] gs]; [by eauto|]. destruct (m =? n); eauto. Qed.

(** A name below the first group of an ordered list does not occur in it. *)
Lemma groups_fresh n l m ws gs :
  ordered l -> Forall (fun h => bytes_leb n (fst h) = true) l ->
  groups l = (m, ws) :: gs -> m <> n -> values_of l n = [].
Proof.
  intros Hl Hx E Hmn. destruct l as [|[k u] l]; [done|]. destruct (groups_head k u l) as (vs & gs' & E').
  rewrite E' in E. injection E as <- <- <-. apply values_of_below. apply Forall_cons in Hx as [Hk Hx].
  assert (Hkn : bytes_leb k n = false).
  { destruct (bytes_leb k n) eqn:F; [|done]. destruct Hmn. by apply bytes_leb_antisym. }
  apply Forall_cons. split; [done|]. inversion Hl as [|? ? _ Hk']; subst.
  eapply Forall_impl; [exact Hk'|]. intros y Hy. unfold key_le in Hy. simpl in *.
  destruct (bytes_leb (fst y) n) eqn:F; [|done]. by rewrite (bytes_leb_trans _ _ _ Hy F) in Hkn.
Qed.

Lemma groups_ordered l :
  ordered l ->
  NoDup (map fst (groups l)) /\
  forall n vs, (n, vs) ∈ groups l <-> vs = values_of l n /\ vs <> [].
Proof.
  induction 1 as [|[n v] l Hl [IHd IHv] Hx].
  { split; [constructor|]. intros n vs. split; [by intros ?%elem_of_nil|by intros [-> ?]]. }
  cbn [groups]. destruct (groups l) as [|[m ws] gs] eqn:E.
  - assert (l = []) as ->.
    { destruct l as [|[k u] l]; [done|]. destruct (groups_head k u l) as (? & ? & E'). by rewrite E' in E. }
    split; [repeat constructor; by intros ?%elem_of_nil|]. intros k vs. rewrite list_elem_of_singleton, values_of_cons.
    destruct (n =? k) eqn:F; [apply bool_decide_eq_true in F as ->|apply bool_decide_eq_false in F];
      (split; [|by intros [-> ?]]).
    + by intros [= ->].
    + by intros [= -> ->].
  - destruct (m =? n) eqn:F.
    + apply bool_decide_eq_true in F as ->. split; [exact IHd|]. intros k vs.
      pose proof (proj1 (IHv n ws) ltac:(left)) as [Hws _].
      cbn [map fst] in IHd. apply NoDup_cons in IHd as [Hn _].
      rewrite elem_of_cons, values_of_cons. destruct (n =? k) eqn:G.
      * apply bool_decide_eq_true in G as <-. rewrite <- Hws. split.
        -- intros [[= ->]|Hin]; [done|]. destruct Hn. apply list_elem_of_fmap. by exists (n, vs).
        -- intros [-> _]. by left.
      * apply bool_decide_eq_false in G. rewrite <- IHv, elem_of_cons. split.
        -- intros [[= -> ->]|Hin]; [done|by right].
        -- intros [[= -> ->]|Hin]; [done|by right].
    + apply bool_decide_eq_false in F. pose proof (groups_fresh n l m ws gs Hl Hx E F) as Hself. split.
      * cbn [map fst]. apply NoDup_cons. split; [|exact IHd].
        change (m :: map fst gs) with (map fst ((m, ws) :: gs)). intros Hin.
        apply list_elem_of_fmap in Hin as ([k us] & Hk & Hin). simpl in Hk. subst k. apply IHv in Hin as [-> ?]. done.
      * intros k vs. rewrite elem_of_cons, values_of_cons. destruct (n =? k) eqn:G.
        -- apply bool_decide_eq_true in G as <-. rewrite Hself. split.
           ++ intros [[= ->]|Hin]; [done|]. apply IHv in Hin as [-> ?]. done.
           ++ intros [-> _]. by left.
        -- apply bool_decide_eq_false in G. rewrite <- IHv. split; [intros [[= -> ->]|]|]; auto. done.
Qed.

(** ** The resource: lemmas *)

(** The signed query parameters: those of the list with exactly one value, in its order. *)
Definition unique_param (qs : list (bytes * bytes)) (q : bytes) : option (bytes * bytes) :=
  match values_of qs q with [v] => Some (q, v) | _ => None end.
Definition sub_params (qs : option (list (bytes * bytes))) : list (bytes * bytes) :=
  match qs with Some qs => omap (unique_param qs) INCLUDED_QUERY | None => [] end.

Definition sub_item (p : bytes * bytes) : bytes := fst p ++ match snd p with [] => [] | v => str "=" ++ v end.
Definition sub_text (ps : list (bytes * bytes)) : bytes :=
  match ps with [] => [] | _ => str "?" ++ join (str "&") (map sub_item ps) end.

Definition resource_path (vh : option bytes) (path : bytes) : bytes :=
  match vh with Some bucket => str "/" ++ bucket | None => [] end ++ path.

Definition date_line (mode : Mode) (qs : option (list (bytes * bytes))) (headers : list header) : bytes :=
  match mode with
  | HeaderAuth =>
      match get_unique_header_str headers (str "x-amz-date") with
      | Some _ => [] | None => default [] (get_unique_header_str headers (str "date")) end
  | PresignedUrl =>
      match values_of (default [] qs) (str "Expires") with [v] => v | _ => [] end
  end.

Definition amz_groups (headers : list header) : list (bytes * list bytes) :=
  groups (sort_by_key fst (List.filter is_amz headers)).

Lemma push_included_text qs names ans is_first :
  ordered qs ->
  push_included ans is_first qs names =
    ans ++ match omap (unique_param qs) names with
           | [] => []
           | ps => (if is_first then str "?" else str "&") ++ join (str "&") (map sub_item ps)
           end.
Proof.
  intros Ho. revert ans is_first. induction names as [|q names IH]; intros ans is_first; [by rewrite app_nil_r|].
  cbn [push_included]. unfold get_unique_qs. rewrite get_unique_in_values by done.
  change (omap (unique_param qs) (q :: names)) with
    (match unique_param qs q with Some y => y :: omap (unique_param qs) names | None => omap (unique_param qs) names end).
  unfold unique_param at 1. destruct (values_of qs q) as [|v [|]]; try apply IH.
  assert (Hv : forall a, match v with [] => a ++ q | _ => (a ++ q) ++ str "=" ++ v end = a ++ sub_item (q, v)).
  { intros a. unfold sub_item. destruct v; simpl; [by rewrite app_nil_r|by rewrite <- app_assoc]. }
  cbv zeta. rewrite Hv, IH. destruct (omap (unique_param qs) names) as [|p ps]; [by rewrite app_nil_r, <- app_assoc|].
  change (join (str "&") (map sub_item ((q, v) :: p :: ps)))
    with (sub_item (q, v) ++ str "&" ++ join (str "&") (map sub_item (p :: ps))).
  by rewrite <- !app_assoc.
Qed.

(** The string to sign, line by line. *)
Lemma string_to_sign_v2_text mode method path qs headers vh :
  ordered (default [] qs) ->
  create_string_to_sign_v2 mode method path qs headers vh =
    method ++ x0a :: default [] (get_unique_header_str headers (str "content-md5")) ++
    x0a :: default [] (get_unique_header_str headers (str "content-type")) ++
    x0a :: date_line mode qs headers ++
    x0a :: concat (map (fun g => amz_line g ++ [x0a]) (amz_groups headers)) ++
    resource_path vh path ++ sub_text (sub_params qs).
Proof.
  intros Ho. unfold create_string_to_sign_v2. rewrite push_amz_lines. fold (amz_groups headers).
  generalize (concat (map (fun g => amz_line g ++ [x0a]) (amz_groups headers))) as hs. intros hs.
  assert (Ha : forall ans, match qs with Some qs => push_included ans true qs INCLUDED_QUERY | None => ans end =
    ans ++ sub_text (sub_params qs)).
  { intros ans. destruct qs as [qs|]; [|by rewrite app_nil_r]. rewrite push_included_text by done.
    unfold sub_params. by destruct (omap (unique_param qs) INCLUDED_QUERY). }
  rewrite Ha. generalize (sub_text (sub_params qs)) as sub. intros sub. unfold date_line, resource_path, get_unique_qs.
  destruct mode, vh, qs as [qs|]; cbn [mbind option_bind default from_option id];
    rewrite ?get_unique_in_values by done; change (values_of [] (str "Expires")) with (@nil bytes);
    repeat match goal with |- context [match values_of ?a ?b with _ => _ end] => destruct (values_of a b) as [|? [|]] end;
    destruct (get_unique_header_str headers (str "x-amz-date"));
    cbn [default from_option id]; unfold id; rewrite <- ?app_assoc, ?app_nil_r; done.
Qed.

Lemma values_of_amz headers n :
  values_of (List.filter is_amz headers) n = if starts_with (str "x-amz-") n then values_of headers n else [].
Proof.
  induction headers as [|[m v] headers IH]; [by destruct (starts_with _ n)|]. cbn [List.filter].
  unfold is_amz at 1. cbn [fst]. rewrite values_of_cons.
  destruct (m =? n) eqn:E.
  - apply bool_decide_eq_true in E as ->.
    destruct (starts_with _ n); [|done]. by rewrite values_of_cons, bool_decide_eq_true_2, IH by done.
  - destruct (starts_with (str "x-amz-") m); [by rewrite values_of_cons, E|done].
Qed.

Lemma amz_groups_spec headers :
  NoDup (map fst (amz_groups headers)) /\
  forall n vs, (n, vs) ∈ amz_groups headers <->
    starts_with (str "x-amz-") n = true /\ vs = values_of headers n /\ vs <> [].
Proof.
  unfold amz_groups. set (l := List.filter is_amz headers).
  destruct (groups_ordered (sort_by_key fst l) (sort_ordered l)) as [Hd Hv]. split; [done|].
  intros n vs. rewrite Hv. fold (stable_sort_by_first l). rewrite sort_values. unfold l. rewrite values_of_amz.
  destruct (starts_with _ n); [tauto|]. split; [by intros [-> ?]|by intros [? _]].
Qed.

(** ** Injectivity: lemmas *)

Lemma line_inj (c : byte) (a b r s : bytes) : c ∉ a -> c ∉ b -> a ++ c :: r = b ++ c :: s -> a = b /\ r = s.
Proof.
  intros Ha Hb E. assert (Hs : split_once c (a ++ c :: r) = Some (b, s)) by by apply split_once_Some.
  rewrite (proj2 (split_once_Some c _ a r)) in Hs by done. by injection Hs as -> ->.
Qed.

Lemma strip_any_suffix ps s r : strip_any ps s = Some r -> exists t, s = t ++ r.
Proof.
  induction ps as [|p ps IH]; [done|]. cbn [strip_any]. destruct (strip_prefix p s) as [r'|] eqn:E; [|exact IH].
  intros [= ->]. apply strip_prefix_Some in E as ->. by eexists.
Qed.

Lemma trim_start_suffix ps fuel s : exists t, s = t ++ trim_start_with ps fuel s.
Proof.
  revert s. induction fuel as [|fuel IH]; intros s; [by exists []|]. cbn [trim_start_with].
  destruct (strip_any ps s) as [r|] eqn:E; [|by exists []]. apply strip_any_suffix in E as [t ->].
  destruct (IH r) as [u Hu]. exists (t ++ u). by rewrite <- app_assoc, <- Hu.
Qed.

Lemma trim_notin (c : byte) s : c ∉ s -> c ∉ trim s.
Proof.
  intros Hc. unfold trim, trim_end, trim_start. set (s1 := trim_start_with _ _ s).
  assert (H1 : c ∉ s1).
  { destruct (trim_start_suffix white_space (length s) s) as [t E]. intros Hin. apply Hc. rewrite E.
    apply elem_of_app. by right. }
  rewrite elem_of_reverse. intros Hin. apply H1.
  destruct (trim_start_suffix (map reverse white_space) (length s1) (reverse s1)) as [t E].
  apply elem_of_reverse. rewrite E. apply elem_of_app. by right.
Qed.

(** A group with clean names and values: its line has no line feed and starts a header. *)
Definition clean_group (g : bytes * list bytes) : Prop :=
  starts_with (str "x-amz-") (fst g) = true /\ (x0a ∉ fst g) /\ (":"%byte ∉ fst g) /\ Forall (fun v => x0a ∉ v) (snd g).

Lemma amz_line_no_newline g : clean_group g -> x0a ∉ amz_line g.
Proof.
  intros (_ & Hn & _ & Hv). unfold amz_line, amz_value. rewrite !not_elem_of_app. split_and!; [done|by_decide|].
  intros Hin. apply elem_of_join in Hin as [Hin|(w & Hw & Hin)]; [revert Hin; by_decide|].
  apply list_elem_of_fmap in Hw as (v & -> & Hw). rewrite Forall_forall in Hv. by apply trim_notin in Hin; [|apply Hv].
Qed.

Lemma amz_line_not_slash g r s : clean_group g -> amz_line g ++ r <> "/"%byte :: s.
Proof. intros (Hx & _) E. apply starts_with_true in Hx as [t Ht]. unfold amz_line in E. rewrite Ht in E. done. Qed.

(** The header lines end where the resource begins. *)
Lemma amz_block_inj l k r s :
  Forall clean_group l -> Forall clean_group k ->
  concat (map (fun g => amz_line g ++ [x0a]) l) ++ "/"%byte :: r =
    concat (map (fun g => amz_line g ++ [x0a]) k) ++ "/"%byte :: s ->
  map (fun g => (fst g, amz_value g)) l = map (fun g => (fst g, amz_value g)) k /\ r = s.
Proof.
  intros Hl. revert k. induction Hl as [|g l Hg Hl IH]; intros k Hk; destruct Hk as [|f k Hf Hk];
    cbn [map concat app]; rewrite <- ?app_assoc.
  - by intros [= ->].
  - intros E. by symmetry in E; apply amz_line_not_slash in E.
  - intros E. by apply amz_line_not_slash in E.
  - intros E. apply line_inj in E as [El E]; [|by apply amz_line_no_newline..].
    apply IH in E as [-> ->]; [|done]. unfold amz_line in El.
    apply (line_inj ":") in El as [-> ->]; [done|apply Hg|apply Hf].
Qed.

Lemma sub_params_names qs p : p ∈ sub_params qs -> fst p ∈ INCLUDED_QUERY.
Proof.
  destruct qs as [qs|]; [|by intros ?%elem_of_nil]. unfold sub_params. intros (q & Hq & Hp)%list_elem_of_omap.
  unfold unique_param in Hp. destruct (values_of qs q) as [|v [|]]; [done| |done]. by injection Hp as <-.
Qed.

Definition clean_name (q : bytes) : bool :=
  (q <>? []) && forallb (fun c => negb (c =? "="%byte) && negb (c =? "&"%byte)) q.

Lemma included_clean : forallb clean_name INCLUDED_QUERY = true.
Proof. reflexivity. Qed.

Lemma included_notin q : q ∈ INCLUDED_QUERY -> q <> [] /\ ("="%byte ∉ q) /\ ("&"%byte ∉ q).
Proof.
  intros Hq. pose proof included_clean as Hc. rewrite forallb_forall in Hc.
  apply list_elem_of_In, Hc in Hq. unfold clean_name in Hq. apply andb_true_iff in Hq as [Hn Hq].
  rewrite forallb_forall in Hq. split; [by apply negb_true_iff, bool_decide_eq_false in Hn|].
  split; intros Hin; apply list_elem_of_In, Hq in Hin; done.
Qed.

Lemma sub_item_inj p q : "="%byte ∉ fst p -> "="%byte ∉ fst q -> sub_item p = sub_item q -> p = q.
Proof.
  destruct p as [n [|c v]], q as [m [|d w]]; unfold sub_item; simpl; intros Hn Hm E; rewrite ?app_nil_r in E.
  - by rewrite E.
  - subst n. destruct Hn. apply elem_of_app. right. left.
  - subst m. destruct Hm. apply elem_of_app. right. left.
  - by apply line_inj in E as [-> [= -> ->]].
Qed.

Lemma sub_item_nonempty p : fst p <> [] -> sub_item p <> [].
Proof. destruct p as [[|c n] v]; done. Qed.

(** ** A reference for the interface: padded base64 *)

Definition b64_char (d : Z) : byte :=
  default x00 (str "ABCDEFGHIJKLMNOPQRSTUVWXYZabcdefghijklmnopqrstuvwxyz0123456789+/" !! Z.to_nat d).

Definition b64_val (c : byte) : option Z :=
  if in_range "A" "Z" c then Some (u8 c - 65)%Z
  else if in_range "a" "z" c then Some (u8 c - 71)%Z
  else if in_range "0" "9" c then Some (u8 c + 4)%Z
  else if c =? "+"%byte then Some 62%Z
  else if c =? "/"%byte then Some 63%Z
  else None.

Fixpoint b64_encode (s : bytes) : bytes :=
  match s with
  | [] => []
  | [a] => [b64_char (u8 a / 4); b64_char (u8 a mod 4 * 16); "="%byte; "="%byte]
  | [a; b] => [b64_char (u8 a / 4); b64_char (u8 a mod 4 * 16 + u8 b / 16); b64_char (u8 b mod 16 * 4); "="%byte]
  | a :: b :: c :: s' =>
      b64_char (u8 a / 4) :: b64_char (u8 a mod 4 * 16 + u8 b / 16) ::
      b64_char (u8 b mod 16 * 4 + u8 c / 64) :: b64_char (u8 c mod 64) :: b64_encode s'
  end.

(** The number of bytes a text stands for, from its length and padding. *)
Fixpoint b64_length (s : bytes) : option Z :=
  match s with
  | [] => Some 0%Z
  | [_; _; c; d] => if d =? "="%byte then if c =? "="%byte then Some 1%Z else Some 2%Z else Some 3%Z
  | _ :: _ :: _ :: _ :: s' => n ← b64_length s'; Some (3 + n)%Z
  | _ => None
  end.

(** Canonical text: the alphabet, padding at the end only, and no stray bits under it. *)
Fixpoint b64_check (s : bytes) : bool :=
  match s with
  | [] => true
  | a :: b :: c :: d :: s' =>
      match b64_val a, b64_val b, b64_val c, b64_val d with
      | Some _, Some y, Some z, None => (d =? "="%byte) && (z mod 4 =? 0)%Z && (s' =? [])
      | Some _, Some y, None, None => (c =? "="%byte) && (d =? "="%byte) && (y mod 16 =? 0)%Z && (s' =? [])
      | Some _, Some _, Some _, Some _ => b64_check s'
      | _, _, _, _ => false
      end
  | _ => false
  end.

Lemma b64_val_char d : (0 <= d < 64)%Z -> b64_val (b64_char d) = Some d.
Proof.
  intros Hd. assert (Hall : forallb (fun d => b64_val (b64_char d) =? Some d) (seqZ 0 64) = true) by reflexivity.
  rewrite forallb_forall in Hall. specialize (Hall d). rewrite <- list_elem_of_In, elem_of_seqZ in Hall.
  specialize (Hall ltac:(lia)). by apply bool_decide_eq_true in Hall.
Qed.

Lemma b64_char_not_pad d : (0 <= d < 64)%Z -> b64_char d <> "="%byte.
Proof. intros Hd E. apply b64_val_char in Hd. by rewrite E in Hd. Qed.

(** Induction three bytes at a time. *)
Lemma triples_ind (P : bytes -> Prop) :
  P [] -> (forall a, P [a]) -> (forall a b, P [a; b]) -> (forall a b c s, P s -> P (a :: b :: c :: s)) -> forall s, P s.
Proof.
  intros H0 H1 H2 H3 s. enough (P s /\ (forall a, P (a :: s)) /\ forall a b, P (a :: b :: s)) by tauto.
  induction s as [|c s (IH0 & IH1 & IH2)]; auto.
Qed.

Lemma b64_digits (a b : byte) :
  (0 <= u8 a / 4 < 64)%Z /\ (0 <= u8 a mod 4 * 16 < 64)%Z /\ (0 <= u8 a mod 4 * 16 + u8 b / 16 < 64)%Z /\
  (0 <= u8 a mod 16 * 4 < 64)%Z /\ (0 <= u8 a mod 16 * 4 + u8 b / 64 < 64)%Z /\ (0 <= u8 a mod 64 < 64)%Z.
Proof. pose proof (u8_range a). pose proof (u8_range b). Z.to_euclidean_division_equations. lia. Qed.

Lemma b64_check_encode s : b64_check (b64_encode s) = true.
Proof.
  induction s as [|a|a b|a b c s IH] using triples_ind; [done| | |]; cbn [b64_encode b64_check].
  - destruct (b64_digits a a) as (? & ? & _). rewrite !b64_val_char by done. simpl.
    by rewrite Z_mod_mult.
  - destruct (b64_digits a b) as (? & _ & ? & _). destruct (b64_digits b b) as (_ & _ & _ & ? & _).
    rewrite !b64_val_char by done. simpl. by rewrite Z_mod_mult.
  - destruct (b64_digits a b) as (? & _ & ? & _). destruct (b64_digits b c) as (_ & _ & _ & _ & ? & _).
    destruct (b64_digits c c) as (_ & _ & _ & _ & _ & ?). by rewrite !b64_val_char by done.
Qed.

Lemma b64_length_encode s : b64_length (b64_encode s) = Some (len s).
Proof.
  induction s as [|a|a b|a b c s IH] using triples_ind; [done..| |].
  - destruct (b64_digits b b) as (_ & _ & _ & Hd & _). cbn [b64_encode b64_length].
    rewrite (bool_decide_eq_true_2 _ (eq_refl "="%byte)).
    by rewrite (bool_decide_eq_false_2 _ (b64_char_not_pad _ Hd)).
  - destruct (b64_digits c c) as (_ & _ & _ & _ & _ & Hd). cbn [b64_encode b64_length].
    destruct (b64_encode s) as [|x e] eqn:E.
    + rewrite (bool_decide_eq_false_2 _ (b64_char_not_pad _ Hd)).
      destruct s as [|? [|? [|? ?]]]; [done|discriminate..].
    + rewrite <- E in IH |- *. rewrite IH. cbn [mbind option_bind]. unfold len. cbn [length]. f_equal. lia.
Qed.

Lemma b64_encode_length s : len (b64_encode s) = (4 * ((len s + 2) / 3))%Z.
Proof.
  induction s as [|a|a b|a b c s IH] using triples_ind; [done..|]. unfold len in *. cbn [b64_encode length].
  replace (Z.of_nat (S (S (S (length s)))) + 2)%Z with (Z.of_nat (length s) + 2 + 1 * 3)%Z by lia.
  rewrite Z.div_add by lia. lia.
Qed.

Lemma b64_length_4 s n : b64_length s = Some n -> (4 * ((n + 2) / 3))%Z = len s.
Proof.
  remember (length s) as k eqn:Hk. revert s n Hk. induction (lt_wf k) as [k _ IH]. intros s n Hk.
  destruct s as [|a [|b [|c [|d s]]]]; cbn [b64_length]; try done; [by intros [= <-]|].
  destruct s as [|x s]; [repeat case_bool_decide; by intros [= <-]|].
  intros (m & Hm & [= <-])%bind_Some. apply (IH (length (x :: s)) ltac:(simpl in *; lia)) in Hm; [|done].
  replace (3 + m + 2)%Z with (m + 2 + 1 * 3)%Z by lia. rewrite Z.div_add by lia. unfold len in *. simpl in *. lia.
Qed.

(** A stand-in for the crates with real base64. *)
Definition ref_auth_deps : AuthDeps.
Proof.
  refine {| auth_nom := Nom.nom_reference; auth_sig := toy_deps; jiff_date_ok := fun _ _ _ => true;
            base64_decoded_length := b64_length; base64_decode := fun _ => None |}.
  intros s E%b64_length_4. change (4 * ((32 + 2) / 3))%Z with 44%Z in E. unfold len in E. lia.
Defined.

Definition toy_sig2_deps : Sig2Deps.
Proof.
  refine {| sig2_auth := ref_auth_deps; hmac_sha1 := fun k d => resize 20 x00 (k ++ d);
            base64_encode := b64_encode; base64_check := b64_check; timestamp_from_second := Some |}.
  - intros k d. apply length_resize.
  - apply b64_check_encode.
  - apply b64_length_encode.
  - apply b64_encode_length.
  - by intros s t [= ->].
Defined.

(** ** Properties *)

Lemma filter_unmatched {A} (p : A -> bool) l : List.filter p l = [] <-> Forall (fun x => p x = false) l.
Proof. induction l as [|x l IH]; [done|]. cbn [List.filter]. rewrite Forall_cons. destruct (p x); [|tauto]. split; [done|by intros [? _]]. Qed.

(** A header name has a value when one header alone has it, in any case of its letters. *)
Definition only_header (headers : list header) (name value : bytes) : Prop :=
  exists before n after, headers = before ++ (n, value) :: after /\ eq_ignore_ascii_case n name = true /\
    Forall (fun h => eq_ignore_ascii_case (fst h) name = false) (before ++ after).

Lemma unique_header_iff headers name value : get_unique_header_str headers name = Some value <-> only_header headers name value.
Proof.
  unfold get_unique_header_str, only_header. split.
  - induction headers as [|[n v] headers IH]; [done|]. cbn [List.filter fst]. destruct (eq_ignore_ascii_case n name) eqn:E.
    + destruct (List.filter _ headers) eqn:F; [|done]. intros [= ->]. exists [], n, headers. by rewrite filter_unmatched in F.
    + intros (b & m & a & -> & Hm & Hf)%IH. exists ((n, v) :: b), m, a. split_and!; [done..|]. by constructor.
  - intros (b & n & a & -> & Hn & [Hb Ha]%Forall_app). rewrite List.filter_app. cbn [List.filter fst]. rewrite Hn.
    by rewrite (proj2 (filter_unmatched _ b) Hb), (proj2 (filter_unmatched _ a) Ha).
Qed.

(** The values of a header name in any case, in the order of the request. *)
Definition values_ignoring_case (headers : list header) (name : bytes) : list bytes :=
  map snd (List.filter (fun h => eq_ignore_ascii_case (fst h) name) headers).

Definition lower_case (name : bytes) : Prop := to_ascii_lowercase name = name.

Lemma values_lower_case headers n : Forall (fun h => lower_case (fst h)) headers -> lower_case n ->
  values_ignoring_case headers n = values_of headers n.
Proof.
  unfold values_ignoring_case, values_of, lower_case. intros Hh Hn. induction Hh as [|h headers E Hh IH]; [done|]. cbn [List.filter].
  replace (eq_ignore_ascii_case (fst h) n) with (fst h =? n) by (unfold eq_ignore_ascii_case; by rewrite E, Hn).
  destruct (fst h =? n); [|done]. cbn [map]. by f_equal.
Qed.

Lemma values_of_lower_case headers n : Forall (fun h => lower_case (fst h)) headers -> values_of headers n <> [] -> lower_case n.
Proof.
  induction 1 as [|[m v] headers E Hh IH]; [done|]. rewrite values_of_cons. destruct (m =? n) eqn:F; [|done].
  apply bool_decide_eq_true in F as <-. by intros _.
Qed.

Lemma groups_sorted l : ordered l -> StronglySorted (key_le id) (map fst (groups l)).
Proof.
  intros Hl. assert (Hin : forall l, Forall (fun n => n ∈ map fst l) (map fst (groups l))).
  { clear. induction l as [|[n v] l IH]; [constructor|]. cbn [groups].
    assert (Hw : Forall (fun m => m ∈ map fst ((n, v) :: l)) (map fst (groups l))) by (eapply Forall_impl; [exact IH|]; intros; by right).
    destruct (groups l) as [|[m ws] gs]; [repeat constructor|]. destruct (m =? n); [apply Forall_cons in Hw as [_ Hw]|]; (constructor; [left|done]). }
  induction Hl as [|[n v] l Hl IH Hx]; [constructor|]. cbn [groups].
  assert (Hb : Forall (fun m => key_le id n m) (map fst (groups l))).
  { eapply Forall_impl; [exact (Hin l)|]. intros m (h & -> & Hh)%list_elem_of_fmap. rewrite Forall_forall in Hx. exact (Hx h Hh). }
  destruct (groups l) as [|[m ws] gs]; [repeat constructor|]. destruct (m =? n) eqn:E.
  - apply bool_decide_eq_true in E as ->. done.
  - by constructor.
Qed.

(** C31: the string to sign of Signature Version 2 has the documented shape: method, content
    headers and date line, then one line per [x-amz-] header name, sorted and no name twice, with
    all values of that name in request order, then the resource with exactly the listed query
    parameters that have a single value.  The binary search on the ordered query agrees with
    this linear description.  The content headers and the dates are matched in any case of their
    letters, and count only when a single header has the name.  The [x-amz-] names are
    matched in lower case only, and so are repeated ones: when all header names are in lower case, as
    those of the http crate are, this is the matching without regard to case that the documentation
    of the function promises; a name with a capital letter has no line for its lower-case form. *)
Theorem string_to_sign_v2_correct (mode : Mode) (method path : bytes) (qs : option (list (bytes * bytes)))
    (headers : list header) (vh : option bytes) :
  ordered (default [] qs) ->
  create_string_to_sign_v2 mode method path qs headers vh =
    method ++ x0a :: default [] (get_unique_header_str headers (str "content-md5")) ++
    x0a :: default [] (get_unique_header_str headers (str "content-type")) ++
    x0a :: date_line mode qs headers ++
    x0a :: concat (map (fun g => amz_line g ++ [x0a]) (amz_groups headers)) ++
    resource_path vh path ++ sub_text (sub_params qs) /\
  (forall name value, get_unique_header_str headers name = Some value <-> only_header headers name value) /\
  NoDup (map fst (amz_groups headers)) /\ StronglySorted (key_le id) (map fst (amz_groups headers)) /\
  (forall n vs, (n, vs) ∈ amz_groups headers <->
    starts_with (str "x-amz-") n = true /\ vs = values_of headers n /\ vs <> []) /\
  (Forall (fun h => lower_case (fst h)) headers -> forall n vs, (n, vs) ∈ amz_groups headers <->
    lower_case n /\ starts_with (str "x-amz-") n = true /\ vs = values_ignoring_case headers n /\ vs <> []).
Proof.
  intros Ho. destruct (amz_groups_spec headers) as [Hd Hv]. split; [by apply string_to_sign_v2_text|]. split; [apply unique_header_iff|].
  split; [done|]. split; [apply groups_sorted, (sort_ordered (List.filter is_amz headers))|]. split; [done|]. intros Hl n vs. rewrite Hv. split.
  - intros (Hn & -> & Hne). pose proof (values_of_lower_case _ _ Hl Hne) as Hc. by rewrite values_lower_case.
  - intros (Hc & Hn & -> & Hne). by rewrite values_lower_case in Hne |- *.
Qed.

(** A header that is named with capital letters is left out of the string, or has a line of its own. *)
Example capital_amz_names :
  create_string_to_sign_v2 HeaderAuth (str "PUT") (str "/k") None [(str "X-Amz-Meta-A", str "1")] None =
    join [x0a] [str "PUT"; []; []; []; str "/k"] /\
  create_string_to_sign_v2 HeaderAuth (str "PUT") (str "/k") None [(str "x-amz-meta-a", str "1"); (str "x-amz-meta-A", str "2")] None =
    join [x0a] [str "PUT"; []; []; []; str "x-amz-meta-A:2"; str "x-amz-meta-a:1"; str "/k"].
Proof. by vm_compute. Qed.

Lemma string_to_sign_v2_correct_witness :
  create_string_to_sign_v2 HeaderAuth (str "PUT") (str "/k") (Some [(str "acl", []); (str "versionId", str "7")])
    [(str "x-amz-meta-b", str " 2 "); (str "date", str "d"); (str "x-amz-meta-a", str "1"); (str "x-amz-meta-b", str "3")]
    (Some (str "bucket")) =
  join [x0a] [str "PUT"; []; []; str "d"; str "x-amz-meta-a:1"; str "x-amz-meta-b:2,3";
              str "/bucket/k?acl&versionId=7"].
Proof.
  refine (eq_trans (proj1 (string_to_sign_v2_correct HeaderAuth (str "PUT") (str "/k")
    (Some [(str "acl", []); (str "versionId", str "7")])
    [(str "x-amz-meta-b", str " 2 "); (str "date", str "d"); (str "x-amz-meta-a", str "1"); (str "x-amz-meta-b", str "3")]
    (Some (str "bucket")) _)) _).
  - repeat constructor.
  - vm_compute. reflexivity.
Defined.

(** The inputs a string to sign separates: header fields and the method without line feeds, a
    path that starts with a slash and has no question mark, parameter values without [&]. *)
Record signable_v2 (mode : Mode) (method path : bytes) (qs : option (list (bytes * bytes)))
    (headers : list header) (vh : option bytes) : Prop := {
  v2_ordered : ordered (default [] qs);
  v2_method_ok : x0a ∉ method;
  v2_headers_ok : Forall (fun h => (x0a ∉ fst h) /\ (":"%byte ∉ fst h) /\ (x0a ∉ snd h)) headers;
  v2_expires_ok : Forall (fun v => x0a ∉ v) (values_of (default [] qs) (str "Expires"));
  v2_path_slash : starts_with (str "/") (resource_path vh path) = true;
  v2_path_ok : "?"%byte ∉ resource_path vh path;
  v2_params_ok : Forall (fun p => "&"%byte ∉ snd p) (sub_params qs)
}.

Lemma unique_header_clean headers name :
  Forall (fun h : header => (x0a ∉ fst h) /\ (":"%byte ∉ fst h) /\ (x0a ∉ snd h)) headers ->
  x0a ∉ default [] (get_unique_header_str headers name).
Proof.
  intros Hh. unfold get_unique_header_str. destruct (List.filter _ headers) as [|[n v] [|]] eqn:E; simpl; try by intros ?%elem_of_nil.
  assert (Hin : In (n, v) (List.filter (fun h => eq_ignore_ascii_case (fst h) name) headers)) by (rewrite E; by left).
  apply filter_In in Hin as [Hin _]. rewrite Forall_forall in Hh. by apply list_elem_of_In, Hh in Hin as (_ & _ & ?).
Qed.

Lemma signable_date_line mode method path qs headers vh :
  signable_v2 mode method path qs headers vh -> x0a ∉ date_line mode qs headers.
Proof.
  intros [_ _ Hh He _ _ _]. unfold date_line. destruct mode.
  - destruct (get_unique_header_str headers (str "x-amz-date")); [by intros ?%elem_of_nil|]. by apply unique_header_clean.
  - destruct (values_of _ _) as [|v [|]]; try by intros ?%elem_of_nil. by apply Forall_cons in He as [? _].
Qed.

Lemma signable_groups mode method path qs headers vh :
  signable_v2 mode method path qs headers vh -> Forall clean_group (amz_groups headers).
Proof.
  intros [_ _ Hh _ _ _ _]. apply Forall_forall. intros [n vs] Hin.
  apply amz_groups_spec in Hin as (Hx & -> & Hne). rewrite Forall_forall in Hh.
  assert (Hv : forall v, v ∈ values_of headers n -> (n, v) ∈ headers).
  { intros v Hv. apply list_elem_of_fmap in Hv as ([m u] & -> & Hin). apply list_elem_of_In, filter_In in Hin as [Hin E].
    simpl in E. apply bool_decide_eq_true in E as <-. by apply list_elem_of_In. }
  split; [done|]. split_and!.
  - destruct (values_of headers n) as [|v l]; [done|]. by apply (Hh (n, v)), Hv; left.
  - destruct (values_of headers n) as [|v l]; [done|]. apply (Hh (n, v)), Hv; left.
  - apply Forall_forall. intros v Hin%Hv. by apply Hh in Hin as (_ & _ & ?).
Qed.

Lemma signable_params mode method path qs headers vh :
  signable_v2 mode method path qs headers vh ->
  Forall (fun p => (fst p <> []) /\ ("="%byte ∉ fst p) /\ ("&"%byte ∉ sub_item p)) (sub_params qs).
Proof.
  intros [_ _ _ _ _ _ Hp]. apply Forall_forall. intros [q v] Hin. rewrite Forall_forall in Hp. apply Hp in Hin as Hv.
  apply sub_params_names, included_notin in Hin as (Hn & He & Ha). split; [done|]. split; [done|].
  unfold sub_item. simpl in *. destruct v as [|c v]; [by rewrite app_nil_r|]. rewrite not_elem_of_app, not_elem_of_cons.
  by split_and!.
Qed.

Lemma sub_items_inj l k :
  Forall (fun p => (fst p <> []) /\ ("="%byte ∉ fst p) /\ ("&"%byte ∉ sub_item p)) l ->
  Forall (fun p => (fst p <> []) /\ ("="%byte ∉ fst p) /\ ("&"%byte ∉ sub_item p)) k ->
  map sub_item l = map sub_item k -> l = k.
Proof.
  intros Hl. revert k. induction Hl as [|p l (_ & Hp & _) Hl IH]; intros k Hk; destruct Hk as [|q k (_ & Hq & _) Hk];
    try done. intros [= E El]. apply sub_item_inj in E as ->; [|done|done]. by rewrite (IH k).
Qed.

(** The path ends at the first question mark, the parameters at the ampersands. *)
Lemma resource_inj p q l k :
  "?"%byte ∉ p -> "?"%byte ∉ q ->
  Forall (fun p => (fst p <> []) /\ ("="%byte ∉ fst p) /\ ("&"%byte ∉ sub_item p)) l ->
  Forall (fun p => (fst p <> []) /\ ("="%byte ∉ fst p) /\ ("&"%byte ∉ sub_item p)) k ->
  p ++ sub_text l = q ++ sub_text k -> p = q /\ l = k.
Proof.
  intros Hp Hq Hl Hk. destruct l as [|x l], k as [|y k]; unfold sub_text; rewrite ?app_nil_r; [done| | |].
  - intros ->. destruct Hp. apply elem_of_app. right. left.
  - intros <-. destruct Hq. apply elem_of_app. right. left.
  - intros E. apply (line_inj "?") in E as [-> E]; [|done|done]. split; [done|]. apply sub_items_inj; [done|done|].
    apply (join_inj "&") in E; [done|done|done| |]; apply Forall_map;
      (eapply Forall_impl; [eassumption|]; by intros ? (_ & _ & ?)).
Qed.

(** A Version 2 string to sign is unambiguous: two requests with the same string, signed
    in the same mode, agree on the method, the content headers, the date line, the [x-amz-]
    headers, the resource path and the signed query parameters, even where a parameter value
    contains line feeds. *)
Theorem string_to_sign_v2_injective (mode : Mode) (m1 m2 p1 p2 : bytes) (q1 q2 : option (list (bytes * bytes)))
    (h1 h2 : list header) (v1 v2 : option bytes) :
  signable_v2 mode m1 p1 q1 h1 v1 -> signable_v2 mode m2 p2 q2 h2 v2 ->
  create_string_to_sign_v2 mode m1 p1 q1 h1 v1 = create_string_to_sign_v2 mode m2 p2 q2 h2 v2 ->
  m1 = m2 /\
  Forall (fun n => default [] (get_unique_header_str h1 n) = default [] (get_unique_header_str h2 n))
    [str "content-md5"; str "content-type"] /\
  date_line mode q1 h1 = date_line mode q2 h2 /\
  map (fun g => (fst g, amz_value g)) (amz_groups h1) = map (fun g => (fst g, amz_value g)) (amz_groups h2) /\
  resource_path v1 p1 = resource_path v2 p2 /\ sub_params q1 = sub_params q2.
Proof.
  intros S1 S2. rewrite !string_to_sign_v2_text by (apply S1 || apply S2). intros E.
  apply line_inj in E as [-> E]; [|apply S1|apply S2].
  apply line_inj in E as [Emd E]; [|apply unique_header_clean, S1|apply unique_header_clean, S2].
  apply line_inj in E as [Ect E]; [|apply unique_header_clean, S1|apply unique_header_clean, S2].
  apply line_inj in E as [Ed E]; [|by eapply signable_date_line..].
  pose proof (v2_path_slash _ _ _ _ _ _ S1) as [r1 Hr1]%starts_with_true.
  pose proof (v2_path_slash _ _ _ _ _ _ S2) as [r2 Hr2]%starts_with_true.
  assert (E' := E). rewrite Hr1, Hr2, <- !app_assoc in E'.
  apply amz_block_inj in E' as [Eg Er]; [|by eapply signable_groups..].
  assert (Eres : resource_path v1 p1 ++ sub_text (sub_params q1) = resource_path v2 p2 ++ sub_text (sub_params q2)).
  { rewrite Hr1, Hr2, <- !app_assoc. cbn [app]. f_equal. exact Er. }
  apply resource_inj in Eres as [Ep Eq]; [|apply S1|apply S2|by eapply signable_params..].
  split_and!; [done| |done|done|done|done]. by repeat constructor.
Qed.

Lemma string_to_sign_v2_injective_witness :
  sub_params (Some [(str "acl", []); (str "x", str "1")]) = sub_params (Some [(str "acl", []); (str "x", str "2")]).
Proof.
  assert (S : forall v, signable_v2 PresignedUrl (str "GET") (str "/b/k") (Some [(str "acl", []); (str "x", [v])])
    [(str "x-amz-meta", str "1")] None).
  { intros v. constructor; try (by_decide || reflexivity); repeat constructor; by_decide. }
  refine (proj2 (proj2 (proj2 (proj2 (proj2 (string_to_sign_v2_injective PresignedUrl (str "GET") (str "GET") (str "/b/k")
    (str "/b/k") _ _ [(str "x-amz-meta", str "1")] [(str "x-amz-meta", str "1")] None None
    (S "1"%byte) (S "2"%byte) eq_refl)))))).
Defined.
