(* ===== verification/Poll.v ===== *)
(** * Polling

    The asynchronous code of the workspace is written as [poll] functions: each call may
    suspend, and is called again later with the state it left behind.  This file has the
    result type, the state-passing form of such a function with [ready!] as its bind, loops,
    and the executor that calls a function again until it is ready.

    A loop runs on fuel computed from a measure of its state.  [loop_unfold] shows that when
    every turn that goes on decreases the measure the loop satisfies the equation of the
    unbounded loop, so the fuel is invisible to every theorem that goes through it. *)

From S2P Require Import Prelude.

Inductive poll (A : Type) : Type :=
| Ready (a : A)
| Pending.
Arguments Ready {A} a.
Arguments Pending {A}.

#[global] Instance poll_eq_dec {A} `{EqDecision A} : EqDecision (poll A).
Proof. solve_decision. Defined.

(** A poll function on a state [St]: the new state and the outcome of the call. *)
Definition pollm (St A : Type) : Type := St -> St * poll A.

#[global] Instance pollm_ret St : MRet (pollm St) := fun A a s => (s, Ready a).
(** [ready!]: a pending call makes the caller pending. *)
#[global] Instance pollm_bind St : MBind (pollm St) := fun A B k m s =>
  match m s with
  | (s', Ready a) => k a s'
  | (s', Pending) => (s', Pending)
  end.

Section Loop.
Context {St R : Type} (measure : St -> nat).

(** [loop { body }]: a turn that returns [None] goes on, [Some r] returns [r]. *)
Fixpoint loop_fuel (body : pollm St (option R)) (fuel : nat) (s : St) : St * poll R :=
  match fuel with
  | 0 => (s, Pending)
  | S fuel' =>
      match body s with
      | (s', Ready None) => loop_fuel body fuel' s'
      | (s', Ready (Some r)) => (s', Ready r)
      | (s', Pending) => (s', Pending)
      end
  end.

Definition loop (body : pollm St (option R)) (s : St) : St * poll R :=
  loop_fuel body (S (measure s)) s.

(** [poll_fn(f).await]: the executor calls [f] again whenever it was pending. *)
Definition await (f : pollm St R) : pollm St R :=
  loop (fun s => match f s with
                 | (s', Ready r) => (s', Ready (Some r))
                 | (s', Pending) => (s', Ready None)
                 end).

(** Every turn that goes on decreases the measure. *)
Definition decreasing (body : pollm St (option R)) : Prop :=
  forall s s', body s = (s', Ready None) -> measure s' < measure s.

Lemma loop_fuel_enough body n k s :
  decreasing body -> measure s < n -> measure s < k -> loop_fuel body n s = loop_fuel body k s.
Proof.
  intros Hdec. revert k s. induction n as [|n IH]; intros [|k] s Hn Hk; [lia..|].
  simpl. destruct (body s) as [s' [[r|]|]] eqn:E; [done| |done].
  apply Hdec in E. apply IH; lia.
Qed.

Lemma loop_unfold body s :
  decreasing body ->
  loop body s = match body s with
                | (s', Ready None) => loop body s'
                | (s', Ready (Some r)) => (s', Ready r)
                | (s', Pending) => (s', Pending)
                end.
Proof.
  intros Hdec. unfold loop at 1. cbn [loop_fuel].
  destruct (body s) as [s' [[r|]|]] eqn:E; [done| |done].
  apply Hdec in E. apply loop_fuel_enough; [done|lia|lia].
Qed.

(** Induction on the measure for a property of loops: it is enough that one turn preserves
    [I], and that it has the property whenever the loop ends at that turn. *)
Lemma loop_ind body (I : St -> Prop) (Q : St -> St * poll R -> Prop) :
  decreasing body ->
  (forall s, I s ->
     match body s with
     | (s', Ready None) => I s' /\ forall o, Q s' o -> Q s o
     | (s', Ready (Some r)) => Q s (s', Ready r)
     | (s', Pending) => Q s (s', Pending)
     end) ->
  forall s, I s -> Q s (loop body s).
Proof.
  intros Hdec Hstep s. remember (measure s) as n eqn:En. revert s En.
  induction n as [n IH] using lt_wf_ind. intros s En HI. rewrite loop_unfold; [|done].
  specialize (Hstep s HI). destruct (body s) as [s' [[r|]|]] eqn:E; [done| |done].
  destruct Hstep as [HI' HQ]. apply HQ. apply Hdec in E. apply (IH (measure s')); [lia|done..].
Qed.

(** A function that makes progress when it is pending is driven to an outcome. *)
Lemma await_ind (f : pollm St R) (I : St -> Prop) (Q : St -> St * R -> Prop) :
  (forall s s', f s = (s', Pending) -> measure s' < measure s) ->
  (forall s, I s ->
     match f s with
     | (s', Ready r) => Q s (s', r)
     | (s', Pending) => I s' /\ forall o, Q s' o -> Q s o
     end) ->
  forall s, I s -> exists s' r, await f s = (s', Ready r) /\ Q s (s', r).
Proof.
  intros Hdec Hstep.
  refine (loop_ind _ I (fun s o => exists s' r, o = (s', Ready r) /\ Q s (s', r)) _ _).
  - intros s s' E. destruct (f s) as [s1 [r|]] eqn:Ef; simplify_eq. eauto.
  - intros s HI. specialize (Hstep s HI). destruct (f s) as [s' [r|]]; [eauto|].
    destruct Hstep as [HI' HQ]. split; [done|]. intros o (s1&r&->&Ho). eauto.
Qed.
End Loop.

Lemma pollm_bind_ready {St A B} (m : pollm St A) (k : A -> pollm St B) s s' a :
  m s = (s', Ready a) -> (m ≫= k) s = k a s'.
Proof. unfold mbind, pollm_bind. by intros ->. Qed.

Lemma pollm_bind_pending {St A B} (m : pollm St A) (k : A -> pollm St B) s s' :
  m s = (s', Pending) -> (m ≫= k) s = (s', Pending).
Proof. unfold mbind, pollm_bind. by intros ->. Qed.

(** ** Progress *)

Section Progress.
Context {St R : Type} (measure : St -> nat).

(** A poll function that, pending, used up some of the measure, and otherwise added none. *)
Definition progresses (f : pollm St R) : Prop :=
  forall b, match f b with
            | (b', Pending) => measure b' < measure b
            | (b', Ready _) => measure b' <= measure b
            end.

(** The same for the body of a loop, whose turns that go on must use it up as well. *)
Definition turn_progresses (f : pollm St (option R)) : Prop :=
  forall b, match f b with
            | (b', Pending) | (b', Ready None) => measure b' < measure b
            | (b', Ready (Some _)) => measure b' <= measure b
            end.

Lemma turn_decreasing (f : pollm St (option R)) : turn_progresses f -> decreasing measure f.
Proof. intros Hf b b' E. specialize (Hf b). by rewrite E in Hf. Qed.

Lemma loop_progresses (f : pollm St (option R)) : turn_progresses f -> progresses (loop measure f).
Proof.
  intros Hf b. refine (loop_ind measure f (fun _ => True) (fun s o => match o with
            | (b', Pending) => measure b' < measure s
            | (b', Ready _) => measure b' <= measure s
            end) (turn_decreasing f Hf) _ b I).
  intros s _. specialize (Hf s). destruct (f s) as [s' [[r|]|]]; [done| |done].
  split; [done|]. intros [b' [r|]]; lia.
Qed.

(** A loop that keeps [I] while it goes on and ends in [Q]. *)
Lemma loop_inv (f : pollm St (option R)) (I J : St -> Prop) (Q : St -> R -> Prop) :
  turn_progresses f ->
  (forall b, I b -> match f b with
                    | (b', Pending) => J b'
                    | (b', Ready None) => I b'
                    | (b', Ready (Some r)) => Q b' r
                    end) ->
  forall b, I b -> match loop measure f b with (b', Pending) => J b' | (b', Ready r) => Q b' r end.
Proof.
  intros Hf Hstep b Hb. refine (loop_ind measure f I (fun _ o => match o with
    | (b', Pending) => J b' | (b', Ready r) => Q b' r end) (turn_decreasing f Hf) _ b Hb).
  intros s Hs. specialize (Hstep s Hs). by destruct (f s) as [s' [[r|]|]].
Qed.

(** The executor drives a function that keeps [I] while it is pending to its outcome. *)
Lemma await_inv (f : pollm St R) (I : St -> Prop) (Q : St -> R -> Prop) :
  progresses f ->
  (forall b, I b -> match f b with (b', Pending) => I b' | (b', Ready r) => Q b' r end) ->
  forall b, I b -> exists b' r, await measure f b = (b', Ready r) /\ Q b' r.
Proof.
  intros Hf Hstep b Hb.
  destruct (await_ind measure f I (fun _ o => Q o.1 o.2)) with (s := b) as (b' & r & E & HQ); [..|by exists b', r].
  - intros s s' E. specialize (Hf s). by rewrite E in Hf.
  - intros s Hs. specialize (Hstep s Hs). by destruct (f s) as [s' [r|]].
  - done.
Qed.
End Progress.

(** ** Streams *)

Section Drain.
Context {St A E : Type} (measure : St -> nat) (f : pollm St (option (result E A))).

(** [while let Some(item) = stream.next().await]: the items in order, up to the end of the
    stream or its first error. *)
Definition drain_turn : pollm (St * list A) (option (option E)) := fun '(s, items) =>
  match f s with
  | (s', Pending) => ((s', items), Ready None)
  | (s', Ready None) => ((s', items), Ready (Some None))
  | (s', Ready (Some (Ok a))) => ((s', items ++ [a]), Ready None)
  | (s', Ready (Some (Err e))) => ((s', items), Ready (Some (Some e)))
  end.

Definition drain (s : St) : (St * list A) * poll (option E) :=
  loop (fun s => measure s.1) drain_turn (s, []).

(** A stream whose polls use up the measure, unless they end it, is read to its end. *)
Lemma drain_ind (I : St -> Prop) (Q : St -> list A -> option E -> St -> Prop) :
  (forall s s' o, f s = (s', o) ->
     match o with Pending | Ready (Some (Ok _)) => measure s' < measure s | _ => True end) ->
  (forall s, I s ->
     match f s with
     | (s', Pending) => I s' /\ forall l r s1, Q s' l r s1 -> Q s l r s1
     | (s', Ready None) => Q s [] None s'
     | (s', Ready (Some (Ok a))) => I s' /\ forall l r s1, Q s' l r s1 -> Q s (a :: l) r s1
     | (s', Ready (Some (Err e))) => Q s [] (Some e) s'
     end) ->
  forall s, I s -> exists s1 l r, drain s = ((s1, l), Ready r) /\ Q s l r s1.
Proof.
  intros Hdec Hstep s Hs. unfold drain.
  assert (Hd : decreasing (fun s : St * list A => measure s.1) drain_turn).
  { intros [s0 items] [s1 items1] E1. simpl in *. destruct (f s0) as [s' o] eqn:Ef. specialize (Hdec _ _ _ Ef).
    by destruct o as [[[a|e]|]|]; simplify_eq. }
  pose proof (loop_ind (fun s : St * list A => measure s.1) drain_turn (fun p => I p.1)
    (fun p o => exists s1 l r, o = ((s1, p.2 ++ l), Ready r) /\ Q p.1 l r s1) Hd) as Hl.
  destruct (fun Hturn => Hl Hturn (s, []) Hs) as (s1 & l & r & E1 & HQ); [|by exists s1, l, r].
  clear Hl Hs s. intros [s items] Hs. simpl in *. specialize (Hstep s Hs).
  destruct (f s) as [s' [[[a|e]|]|]].
  - destruct Hstep as [HI HQ]. split; [done|]. intros o (s1 & l & r & -> & Hr). exists s1, (a :: l), r. cbn [snd].
    rewrite <- app_assoc. split; [done|]. by apply HQ.
  - exists s', [], (Some e). by rewrite app_nil_r.
  - exists s', [], None. by rewrite app_nil_r.
  - destruct Hstep as [HI HQ]. split; [done|]. intros o (s1 & l & r & -> & Hr). exists s1, l, r. auto.
Qed.
End Drain.

(** ** Loops over a stream *)

Section Each.
Context {St A E F Acc : Type} (measure : St -> nat) (f : pollm St (option (result E A))).
Context (conv : E -> F) (step : Acc -> A -> result F Acc).

(** [while let Some(item) = stream.next().await.map_err(conv)? { step }]: the loop carries
    [acc], and an item that [step] refuses ends it. *)
Definition each_turn : pollm (St * Acc) (option (result F Acc)) := fun '(s, acc) =>
  match f s with
  | (s', Pending) => ((s', acc), Ready None)
  | (s', Ready None) => ((s', acc), Ready (Some (Ok acc)))
  | (s', Ready (Some (Err e))) => ((s', acc), Ready (Some (Err (conv e))))
  | (s', Ready (Some (Ok a))) =>
      match step acc a with
      | Ok acc' => ((s', acc'), Ready None)
      | Err e => ((s', acc), Ready (Some (Err e)))
      end
  end.

Definition each (s : St) (acc : Acc) : (St * Acc) * poll (result F Acc) :=
  loop (fun p => measure p.1) each_turn (s, acc).

Fixpoint fold_res (acc : Acc) (l : list A) : result F Acc :=
  match l with
  | [] => Ok acc
  | a :: l' => match step acc a with Ok acc' => fold_res acc' l' | Err e => Err e end
  end.

(** The polls use up the measure, unless they end the stream. *)
Definition polls_down : Prop :=
  forall s s' o, f s = (s', o) -> match o with Pending | Ready (Some (Ok _)) => measure s' < measure s | _ => True end.

Lemma each_decreasing : polls_down -> decreasing (fun p : St * Acc => measure p.1) each_turn.
Proof.
  intros Hd [s acc] [s' acc'] E1. simpl in *. destruct (f s) as [s1 o] eqn:Ef. specialize (Hd _ _ _ Ef).
  destruct o as [[[a|e]|]|]; try destruct (step acc a); by simplify_eq.
Qed.

Lemma drain_decreasing : polls_down -> decreasing (fun p : St * list A => measure p.1) (drain_turn f).
Proof.
  intros Hd [s l] [s' l'] E1. simpl in *. destruct (f s) as [s1 o] eqn:Ef. specialize (Hd _ _ _ Ef).
  by destruct o as [[[a|e]|]|]; simplify_eq.
Qed.

(** The items of [drain] are only added to. *)
Lemma drain_grows s items :
  polls_down -> exists k, (loop (fun p => measure p.1) (drain_turn f) (s, items)).1.2 = items ++ k.
Proof.
  intros Hd. refine (loop_ind (fun p : St * list A => measure p.1) (drain_turn f) (fun _ => True)
    (fun p o => exists k, o.1.2 = p.2 ++ k) (drain_decreasing Hd) _ (s, items) I).
  intros [s0 i0] _. simpl. destruct (f s0) as [? [[[b|]|]|]]; simpl; try (exists []; by rewrite app_nil_r).
  - split; [done|]. intros o [k Hk]. exists (b :: k). by rewrite Hk, <- app_assoc.
  - done.
Qed.

(** Such a loop always ends. *)
Lemma each_ready s acc : polls_down -> exists p r, each s acc = (p, Ready r).
Proof.
  intros Hd. unfold each.
  refine (loop_ind (fun p : St * Acc => measure p.1) each_turn (fun _ => True)
    (fun _ o => exists p r, o = (p, Ready r)) (each_decreasing Hd) _ (s, acc) I).
  intros [s0 acc0] _. simpl. destruct (f s0) as [s' [[[a|e]|]|]]; [|by eauto..|done].
  by destruct (step acc0 a); eauto.
Qed.

(** What the loop holds when it succeeds: any property of [acc] that the steps preserve. *)
Lemma each_inv (P : Acc -> Prop) s acc s' acc' r :
  polls_down -> (forall acc a acc', P acc -> step acc a = Ok acc' -> P acc') ->
  P acc -> each s acc = ((s', acc'), Ready (Ok r)) -> P r.
Proof.
  intros Hd Hstep HP E1.
  pose proof (loop_ind (fun p : St * Acc => measure p.1) each_turn (fun p => P p.2)
    (fun _ o => match o with (_, Ready (Ok r)) => P r | _ => True end) (each_decreasing Hd)) as Hl.
  specialize (fun H => Hl H (s, acc) HP). unfold each in E1. rewrite E1 in Hl. apply Hl.
  clear -Hstep. intros [s acc] HP. simpl in *. destruct (f s) as [s' [[[a|e]|]|]]; try done.
  destruct (step acc a) eqn:Es; [|done]. split; [by eapply Hstep|]. by intros [? [[]|]].
Qed.

(** The loop is the fold of its steps over what the stream yields. *)
Lemma each_drain s acc s1 l r :
  polls_down -> drain measure f s = ((s1, l), Ready r) ->
  match fold_res acc l with
  | Ok acc' => each s acc = ((s1, acc'), Ready (match r with None => Ok acc' | Some e => Err (conv e) end))
  | Err e => exists p, each s acc = (p, Ready (Err e))
  end.
Proof.
  intros Hd. enough (Hg : forall items, loop (fun p => measure p.1) (drain_turn f) (s, items) = ((s1, items ++ l), Ready r) ->
    match fold_res acc l with
    | Ok acc' => each s acc = ((s1, acc'), Ready (match r with None => Ok acc' | Some e => Err (conv e) end))
    | Err e => exists p, each s acc = (p, Ready (Err e))
    end) by apply (Hg []).
  unfold each. remember (measure s) as n eqn:Hn. revert s acc l Hn.
  induction (lt_wf n) as [n _ IH]. intros s acc l Hn items.
  rewrite (loop_unfold _ (drain_turn f)) by by apply drain_decreasing.
  rewrite (loop_unfold _ each_turn) by by apply each_decreasing.
  cbn [drain_turn each_turn]. pose proof (Hd s) as Hs. destruct (f s) as [s' [[[a|e]|]|]].
  - specialize (Hs _ _ eq_refl). simpl in Hs. intros E1.
    destruct (drain_grows s' (items ++ [a]) Hd) as [k Hk]. rewrite E1 in Hk. simpl in Hk.
    rewrite <- app_assoc in Hk. apply app_inv_head in Hk. simpl in Hk.
    rename k into l'. subst l.
    cbn [fold_res]. replace (items ++ a :: l') with ((items ++ [a]) ++ l') in E1 by by rewrite <- app_assoc.
    destruct (step acc a) as [acc'|e]; [|by eexists].
    apply (IH (measure s') ltac:(lia) s' acc' l' eq_refl (items ++ [a]) E1).
  - intros E1. injection E1 as <- Hl <-. rewrite <- (app_nil_r items) in Hl at 1. apply app_inv_head in Hl as <-. done.
  - intros E1. injection E1 as <- Hl <-. rewrite <- (app_nil_r items) in Hl at 1. apply app_inv_head in Hl as <-. done.
  - specialize (Hs _ _ eq_refl). simpl in Hs. apply (IH (measure s') ltac:(lia) s' acc l eq_refl items).
Qed.
End Each.
