(* ===== verification/Stream.v ===== *)
(** * Byte streams (crates/s3s/src/stream/mod.rs, stream/upload_stream.rs)

    The remaining length of a stream, the stream over collected pieces, and the stream that
    checks the declared length and SHA-256 of a body while it forwards it. *)

From S2P Require Import Prelude.
From S2P Require Import Str.
From S2P Require Import ErrorCode.
From S2P Require Import SigV4.
From S2P Require Import Poll.

(** ** Remaining length *)

Record RemainingLength := { lower : Z; upper : option Z }.

(** [None] is the failed assertion. *)
Definition RemainingLength_new (lower : Z) (upper : option Z) : option RemainingLength :=
  match upper with
  | Some u => if (lower <=? u)%Z then Some {| lower := lower; upper := upper |} else None
  | None => Some {| lower := lower; upper := upper |}
  end.

Definition unknown : RemainingLength := {| lower := 0; upper := None |}.
Definition new_exact (n : Z) : RemainingLength := {| lower := n; upper := Some n |}.

Definition exact (r : RemainingLength) : option Z :=
  u ← upper r; if (u =? lower r)%Z then Some u else None.

(** [http_body::SizeHint] as its two bounds, in [u64]; a [usize] has 64 bits. *)
Definition into_size_hint (r : RemainingLength) : Z * option Z := (lower r, upper r).
Definition from_size_hint (sz : Z * option Z) : RemainingLength :=
  {| lower := if (fst sz <=? usize_max)%Z then fst sz else usize_max;
     upper := x ← snd sz; if (x <=? usize_max)%Z then Some x else None |}.

(** ** Collected pieces *)

Record VecByteStream := { queue : list bytes; remaining_bytes : Z }.

Definition VecByteStream_new (v : list bytes) : VecByteStream :=
  {| queue := v; remaining_bytes := fold_left (fun n b => Z.min usize_max (n + len b)) v 0%Z |}.

(** [None] is the overflow of the subtraction. *)
Definition VecByteStream_poll_next (s : VecByteStream) : option (VecByteStream * option bytes) :=
  match queue s with
  | b :: q =>
      if (len b <=? remaining_bytes s)%Z
      then Some ({| queue := q; remaining_bytes := remaining_bytes s - len b |}, Some b) else None
  | [] => Some (s, None)
  end.

Definition VecByteStream_remaining_length (s : VecByteStream) : RemainingLength := new_exact (remaining_bytes s).

(** ** Checked uploads *)

(** What the inner stream answers to a poll; after the last answer it has ended. *)
Inductive answer := Wait | Next (r : result bytes bytes).

Inductive UploadState := Reading | AwaitingEof | Finished | UploadFailed.

#[global] Instance UploadState_eq_dec : EqDecision UploadState.
Proof. solve_decision. Defined.

(** The source of an underlying error is its message. *)
Inductive UploadStreamError :=
| UploadUnderlying (source : bytes)
| Sha256Mismatch
| UploadLengthMismatch
| UploadIncomplete.

Definition to_s3_error_code (e : UploadStreamError) : S3ErrorCode :=
  match e with
  | UploadUnderlying _ => InternalError
  | Sha256Mismatch => BadDigest
  | UploadLengthMismatch | UploadIncomplete => IncompleteBody
  end.

Section Upload.
Context `{SigDeps}.

Record UploadStream := {
  up_inner : list answer;
  hasher : option digest_state;
  expected_sha256 : bytes;
  remaining_length : Z;
  up_state : UploadState
}.

Definition UploadStream_new (inner : list answer) (length : Z) (expected_sha256 : bytes) : UploadStream :=
  {| up_inner := inner; hasher := Some digest_new; expected_sha256 := expected_sha256;
     remaining_length := length; up_state := Reading |}.

Definition set_up_state (st : UploadState) (s : UploadStream) : UploadStream :=
  {| up_inner := up_inner s; hasher := hasher s; expected_sha256 := expected_sha256 s;
     remaining_length := remaining_length s; up_state := st |}.
Definition set_hasher (h : option digest_state) (s : UploadStream) : UploadStream :=
  {| up_inner := up_inner s; hasher := h; expected_sha256 := expected_sha256 s;
     remaining_length := remaining_length s; up_state := up_state s |}.
Definition set_length (n : Z) (s : UploadStream) : UploadStream :=
  {| up_inner := up_inner s; hasher := hasher s; expected_sha256 := expected_sha256 s;
     remaining_length := n; up_state := up_state s |}.

(** [Pin::new(&mut self.inner).poll_next(cx)] *)
Definition poll_inner (s : UploadStream) : UploadStream * poll (option (result bytes bytes)) :=
  let after rest := {| up_inner := rest; hasher := hasher s; expected_sha256 := expected_sha256 s;
                       remaining_length := remaining_length s; up_state := up_state s |} in
  match up_inner s with
  | [] => (s, Ready None)
  | Wait :: rest => (after rest, Pending)
  | Next r :: rest => (after rest, Ready (Some r))
  end.

Definition finalize_hash (s : UploadStream) : UploadStream * result UploadStreamError unit :=
  match hasher s with
  | None => (s, Ok tt)
  | Some h =>
      let s := set_hasher None s in
      let digest := digest_finalize h in
      if digest =? expected_sha256 s then (s, Ok tt) else (s, Err Sha256Mismatch)
  end.

Definition finalize_if_complete (s : UploadStream) : UploadStream * result UploadStreamError bool :=
  if negb (remaining_length s =? 0)%Z then (s, Ok false)
  else
    match finalize_hash s with
    | (s, Ok _) => (set_up_state AwaitingEof s, Ok true)
    | (s, Err err) => (set_up_state UploadFailed s, Err err)
    end.

(** One turn of the loop. *)
Definition upload_turn : pollm UploadStream (option (option (result UploadStreamError bytes))) := fun s =>
  match up_state s with
  | Reading =>
      match finalize_if_complete s with
      | (s, Ok true) => (s, Ready None)
      | (s, Err err) => (s, Ready (Some (Some (Err err))))
      | (s, Ok false) =>
          match poll_inner s with
          | (s, Ready (Some (Ok data))) =>
              if data =? [] then (s, Ready None)
              else if (remaining_length s <? len data)%Z then
                (set_up_state UploadFailed s, Ready (Some (Some (Err UploadLengthMismatch))))
              else
                let s := match hasher s with Some h => set_hasher (Some (digest_update h data)) s | None => s end in
                let s := set_length (remaining_length s - len data) s in
                match finalize_if_complete s with
                | (s, Err err) => (s, Ready (Some (Some (Err err))))
                | (s, Ok _) => (s, Ready (Some (Some (Ok data))))
                end
          | (s, Ready (Some (Err err))) => (set_up_state UploadFailed s, Ready (Some (Some (Err (UploadUnderlying err)))))
          | (s, Ready None) => (set_up_state UploadFailed s, Ready (Some (Some (Err UploadIncomplete))))
          | (s, Pending) => (s, Pending)
          end
      end
  | AwaitingEof =>
      match poll_inner s with
      | (s, Ready (Some (Ok data))) =>
          if data =? [] then (s, Ready None)
          else (set_up_state UploadFailed s, Ready (Some (Some (Err UploadLengthMismatch))))
      | (s, Ready (Some (Err err))) => (set_up_state UploadFailed s, Ready (Some (Some (Err (UploadUnderlying err)))))
      | (s, Ready None) => (set_up_state Finished s, Ready (Some None))
      | (s, Pending) => (s, Pending)
      end
  | Finished | UploadFailed => (s, Ready (Some None))
  end.

(** Each turn that goes on takes an answer of the inner stream, or stops reading. *)
Definition up_work (s : UploadStream) : nat :=
  2 * length (up_inner s) + match up_state s with Reading => 1 | _ => 0 end.

Definition UploadStream_poll_next : pollm UploadStream (option (result UploadStreamError bytes)) :=
  loop up_work upload_turn.

Definition UploadStream_remaining_length (s : UploadStream) : RemainingLength := new_exact (remaining_length s).
End Upload.

(** ** Checked uploads: the reference *)

(** The chunks a stream delivers up to its end, and the error it ends with. *)
Fixpoint delivered (l : list answer) : list bytes * option bytes :=
  match l with
  | [] => ([], None)
  | Wait :: l' => delivered l'
  | Next (Ok d) :: l' => let '(ds, e) := delivered l' in (d :: ds, e)
  | Next (Err e) :: _ => ([], Some e)
  end.

(** After the declared bytes only empty chunks may follow. *)
Fixpoint eof_ref (ds : list bytes) (e : option bytes) : option UploadStreamError :=
  match ds with
  | [] => UploadUnderlying <$> e
  | d :: ds' => if d =? [] then eof_ref ds' e else Some UploadLengthMismatch
  end.

Section Reference.
Context `{SigDeps}.

(** One pass over the chunks: [n] bytes are still expected after [acc]. *)
Fixpoint read_ref (want : bytes) (n : Z) (acc : bytes) (ds : list bytes) (e : option bytes) :
    list bytes * option UploadStreamError :=
  if (n =? 0)%Z then if sha256 acc =? want then ([], eof_ref ds e) else ([], Some Sha256Mismatch)
  else
    match ds with
    | [] => ([], Some (match e with Some e => UploadUnderlying e | None => UploadIncomplete end))
    | d :: ds' =>
        if d =? [] then read_ref want n acc ds' e
        else if (n <? len d)%Z then ([], Some UploadLengthMismatch)
        else if (n - len d =? 0)%Z && negb (sha256 (acc ++ d) =? want) then ([], Some Sha256Mismatch)
        else let '(l, r) := read_ref want (n - len d) (acc ++ d) ds' e in (d :: l, r)
    end.

(** What a stream is about to do. *)
Inductive up_view := UpReading (n : Z) (acc : bytes) | UpEof | UpDone.

Definition at_up (want : bytes) (s : UploadStream) (v : up_view) : Prop :=
  expected_sha256 s = want /\
  match v with
  | UpReading n acc => up_state s = Reading /\ remaining_length s = n /\
      exists chunks, hasher s = Some (fold_left digest_update chunks digest_new) /\ concat chunks = acc
  | UpEof => up_state s = AwaitingEof
  | UpDone => up_state s = Finished \/ up_state s = UploadFailed
  end.

Definition view_ref (want : bytes) (v : up_view) (s : UploadStream) : list bytes * option UploadStreamError :=
  let '(ds, e) := delivered (up_inner s) in
  match v with
  | UpReading n acc => read_ref want n acc ds e
  | UpEof => ([], eof_ref ds e)
  | UpDone => ([], None)
  end.

(** What one poll may do to a stream at a view. *)
Definition polled {R} (want : bytes) (v : up_view) (s : UploadStream) (s' : UploadStream) (go : R -> option (option (result UploadStreamError bytes)))
    (o : poll R) : Prop :=
  let on r :=
    match go r with
    | None => exists v', at_up want s' v' /\ view_ref want v' s' = view_ref want v s
    | Some None => view_ref want v s = ([], None)
    | Some (Some (Err e)) => view_ref want v s = ([], Some e)
    | Some (Some (Ok d)) => exists v', at_up want s' v' /\
        view_ref want v s = (d :: fst (view_ref want v' s'), snd (view_ref want v' s'))
    end in
  match o with
  | Ready r => on r
  | Pending => exists v', at_up want s' v' /\ view_ref want v' s' = view_ref want v s
  end.

Lemma read_ref_unfold want n acc ds e :
  read_ref want n acc ds e =
  if (n =? 0)%Z then if sha256 acc =? want then ([], eof_ref ds e) else ([], Some Sha256Mismatch)
  else
    match ds with
    | [] => ([], Some (match e with Some e => UploadUnderlying e | None => UploadIncomplete end))
    | d :: ds' =>
        if d =? [] then read_ref want n acc ds' e
        else if (n <? len d)%Z then ([], Some UploadLengthMismatch)
        else if (n - len d =? 0)%Z && negb (sha256 (acc ++ d) =? want) then ([], Some Sha256Mismatch)
        else let '(l, r) := read_ref want (n - len d) (acc ++ d) ds' e in (d :: l, r)
    end.
Proof. by destruct ds. Qed.

Lemma turn_eof want s :
  at_up want s UpEof -> polled want UpEof s (upload_turn s).1 id (upload_turn s).2.
Proof.
  intros [Hw Hs]. unfold upload_turn, polled, poll_inner, view_ref. rewrite Hs.
  destruct (up_inner s) as [|[|[d|e]] rest] eqn:Ei; cbn [delivered].
  - done.
  - exists UpEof. cbn [fst up_inner]. done.
  - destruct (delivered rest) as [ds e] eqn:Ed. destruct (d =? []) eqn:E0; cbn [fst snd eof_ref id]; rewrite ?E0; [|done].
    exists UpEof. cbn [up_inner]. by rewrite Ed.
  - done.
Qed.

(** [finalize_if_complete] with [n] bytes still expected after [acc]. *)
Lemma finalize_spec want s n acc :
  at_up want s (UpReading n acc) ->
  match finalize_if_complete s with
  | (s', Ok false) => n <> 0%Z /\ s' = s
  | (s', Ok true) => n = 0%Z /\ sha256 acc = want /\ at_up want s' UpEof /\ up_inner s' = up_inner s
  | (s', Err e) => n = 0%Z /\ sha256 acc <> want /\ e = Sha256Mismatch /\ up_inner s' = up_inner s
  end.
Proof.
  intros (Hw & Hs & Hn & chunks & Hh & <-). unfold finalize_if_complete, finalize_hash. rewrite Hn.
  destruct (n =? 0)%Z eqn:E0; reflect_bools; cbn [negb]; [|done]. rewrite Hh. cbn [expected_sha256 set_hasher].
  rewrite digest_spec, Hw. case_bool_decide; cbn; done.
Qed.

Lemma turn_reading want s n acc :
  at_up want s (UpReading n acc) ->
  polled want (UpReading n acc) s (upload_turn s).1 id (upload_turn s).2.
Proof.
  intros Hat. pose proof (finalize_spec want s n acc Hat) as Hf. unfold upload_turn. pose proof Hat as (Hw & Hs & Hn & chunks & Hh & Hc).
  rewrite Hs. destruct (finalize_if_complete s) as [s1 [[]|err]].
  - destruct Hf as (-> & Hsha & Hat1 & Hi). exists UpEof. split; [done|]. unfold view_ref. cbn [fst]. rewrite Hi.
    destruct (delivered (up_inner s)) as [ds e]. rewrite read_ref_unfold. simpl. by rewrite bool_decide_eq_true_2.
  - destruct Hf as [Hn0 ->]. unfold poll_inner, polled, view_ref.
    destruct (up_inner s) as [|[|[d|e]] rest] eqn:Ei; cbn [delivered fst snd id];
      rewrite ?(read_ref_unfold want n acc [] _), ?(proj2 (Z.eqb_neq n 0) Hn0); try done.
    + exists (UpReading n acc). split; [|done]. split; [done|]. cbn. eauto.
    + destruct (delivered rest) as [ds e] eqn:Ed. rewrite (read_ref_unfold want n acc (d :: ds)), (proj2 (Z.eqb_neq n 0) Hn0).
      destruct (d =? []) eqn:E0; cbn [fst snd].
      { exists (UpReading n acc). cbn [up_inner]. rewrite Ed. split; [|done]. split; [done|]. cbn. eauto. }
      cbn [remaining_length]. rewrite Hn. destruct (n <? len d)%Z eqn:E1; [done|]. cbn [hasher]. rewrite Hh.
      set (s2 := set_length _ _). assert (Hat2 : at_up want s2 (UpReading (n - len d) (acc ++ d))).
      { split; [done|]. split; [done|]. split; [done|]. exists (chunks ++ [d]).
        rewrite fold_left_app, concat_app, Hc. simpl. rewrite app_nil_r. done. }
      pose proof (finalize_spec want s2 _ _ Hat2) as Hf2. destruct (finalize_if_complete s2) as [s3 [[]|err]]; cbn [fst snd].
      * destruct Hf2 as (E2 & Hsha & Hat3 & Hi3). exists UpEof. split; [done|]. rewrite Hi3. unfold s2. cbn. rewrite Ed.
        rewrite E2. rewrite bool_decide_eq_true_2 by done. cbn. by rewrite read_ref_unfold, Z.eqb_refl, bool_decide_eq_true_2.
      * destruct Hf2 as [E2 ->]. exists (UpReading (n - len d) (acc ++ d)). split; [done|]. unfold s2. cbn. rewrite Ed.
        rewrite (proj2 (Z.eqb_neq _ 0) E2). cbn [andb]. by destruct (read_ref _ _ _ ds e).
      * destruct Hf2 as (E2 & Hsha & -> & _). rewrite E2, bool_decide_eq_false_2 by done. done.
  - destruct Hf as (-> & Hsha & -> & Hi). unfold polled, view_ref. cbn. destruct (delivered (up_inner s)) as [ds e].
    by rewrite read_ref_unfold, Z.eqb_refl, bool_decide_eq_false_2.
Qed.
End Reference.

Section Checked.
Context `{SigDeps}.

Lemma finalize_work s :
  up_inner (finalize_if_complete s).1 = up_inner s /\
  match finalize_if_complete s with
  | (s', Ok false) => up_state s' = up_state s
  | (s', _) => up_state s' <> Reading
  end.
Proof.
  unfold finalize_if_complete, finalize_hash. destruct (negb _); [done|]. destruct (hasher s); [|done]. by case_bool_decide.
Qed.

Lemma poll_inner_work s :
  match poll_inner s with
  | (s', Ready None) => s' = s
  | (s', _) => up_state s' = up_state s /\ length (up_inner s) = S (length (up_inner s'))
  end.
Proof. unfold poll_inner. by destruct (up_inner s) as [|[|] ?]. Qed.

(** A turn that goes on, waits or yields data uses up the work. *)
Lemma turn_work s :
  match upload_turn s with
  | (s', Pending) | (s', Ready None) | (s', Ready (Some (Some (Ok _)))) => up_work s' < up_work s
  | (s', Ready (Some _)) => True
  end.
Proof.
  unfold upload_turn, up_work. destruct (up_state s) eqn:Es; try done.
  - pose proof (finalize_work s) as Hf. destruct (finalize_if_complete s) as [s1 [[]|err]]; cbn [fst] in Hf; destruct Hf as [Hi Hst]; [|rewrite Es in Hst|done].
    { rewrite Hi. destruct (up_state s1); done || lia. }
    pose proof (poll_inner_work s1) as Hp. destruct (poll_inner s1) as [s2 [[[d|e]|]|]]; try done; destruct Hp as [H1 H2]; rewrite Hi in H2.
    + destruct (d =? []); [rewrite H1, Hst; lia|]. destruct (_ <? _)%Z; [done|].
      set (s3 := set_length _ _). pose proof (finalize_work s3) as Hf3.
      assert (H3 : up_inner s3 = up_inner s2) by (unfold s3; by destruct (hasher s2)).
      destruct (finalize_if_complete s3) as [s4 [b|err]]; [|done]. cbn [fst] in Hf3. destruct Hf3 as [H4 _]. rewrite H4, H3.
      destruct (up_state s4); lia.
    + rewrite H1, Hst. lia.
  - pose proof (poll_inner_work s) as Hp. destruct (poll_inner s) as [s2 [[[d|e]|]|]]; try done; destruct Hp as [H1 H2].
    + destruct (d =? []); [|done]. rewrite H1, Es. lia.
    + rewrite H1, Es. lia.
Qed.

Lemma upload_decreasing : decreasing up_work upload_turn.
Proof. intros s s' E. pose proof (turn_work s) as Hw. by rewrite E in Hw. Qed.

Lemma upload_polls_down : polls_down up_work UploadStream_poll_next.
Proof.
  intros s s' o E. unfold UploadStream_poll_next in E.
  pose proof (loop_ind up_work upload_turn (fun _ => True) (fun s o => match o with
    | (s', Pending) | (s', Ready (Some (Ok _))) => up_work s' < up_work s | _ => True end) upload_decreasing) as Hl.
  specialize (fun H => Hl H s I). rewrite E in Hl. apply Hl. clear. intros s _. pose proof (turn_work s) as Hw.
  destruct (upload_turn s) as [s' [[[[d|e]|]|]|]]; try done. split; [done|]. intros [s1 [[[]|]|]]; lia || done.
Qed.

Lemma turn_spec want s v :
  at_up want s v -> polled want v s (upload_turn s).1 id (upload_turn s).2.
Proof.
  destruct v; [apply turn_reading|apply turn_eof|]. intros [_ Hs]. unfold upload_turn, polled, view_ref.
  destruct Hs as [-> | ->]; cbn; by destruct (delivered (up_inner s)).
Qed.

Lemma polled_ref {R} want v v0 s s0 s' (go : R -> _) o :
  view_ref want v s = view_ref want v0 s0 -> polled want v s s' go o -> polled want v0 s0 s' go o.
Proof. intros E. unfold polled. by rewrite E. Qed.

Lemma poll_spec want s v :
  at_up want s v -> polled want v s (UploadStream_poll_next s).1 Some (UploadStream_poll_next s).2.
Proof.
  intros Hat. refine (loop_ind up_work upload_turn (fun s => exists v, at_up want s v)
    (fun s o => forall v, at_up want s v -> polled want v s o.1 Some o.2) upload_decreasing _ s (ex_intro _ v Hat) v Hat).
  clear s v Hat. intros s [v0 Hv0]. pose proof (fun v => turn_spec want s v) as Ht.
  destruct (upload_turn s) as [s' [[r|]|]]; cbn [fst snd] in *.
  - intros v Hv. specialize (Ht v Hv). unfold polled in *. cbn [id] in Ht. by destruct r as [[]|].
  - split; [by destruct (Ht _ Hv0) as (v' & ? & _); exists v'|].
    intros o Ho v Hv. destruct (Ht v Hv) as (v' & Hat' & E). eapply polled_ref; [exact E|by apply Ho].
  - intros v Hv. by apply Ht.
Qed.

(** Reading a stream to its end does what the reference says in one pass. *)
Lemma upload_read want s v :
  at_up want s v ->
  exists s', drain up_work UploadStream_poll_next s =
    ((s', fst (view_ref want v s)), Ready (snd (view_ref want v s))).
Proof.
  intros Hat. destruct (drain_ind up_work UploadStream_poll_next (fun s => exists v, at_up want s v)
    (fun s l r _ => forall v, at_up want s v -> view_ref want v s = (l, r)) upload_polls_down) with (s := s)
    as (s' & l & r & E & HQ); [|by exists v|].
  - clear s v Hat. intros s [v0 Hv0]. pose proof (fun v => poll_spec want s v) as Hp.
    destruct (UploadStream_poll_next s) as [s' [[[d|e]|]|]]; cbn [fst snd] in *; unfold polled in Hp.
    + split; [by destruct (Hp _ Hv0) as (v' & ? & _); exists v'|]. intros l r s1 HQ v Hv.
      destruct (Hp v Hv) as (v' & Hv' & ->). by rewrite (HQ _ Hv').
    + intros v Hv. by apply Hp.
    + intros v Hv. by apply Hp.
    + split; [by destruct (Hp _ Hv0) as (v' & ? & _); exists v'|]. intros l r s1 HQ v Hv.
      destruct (Hp v Hv) as (v' & Hv' & <-). by apply HQ.
  - exists s'. by rewrite E, (HQ _ Hat).
Qed.

(** ** What the reference accepts *)

Lemma eof_ref_ok ds e : eof_ref ds e = None <-> concat ds = [] /\ e = None.
Proof.
  induction ds as [|d ds IH]; simpl; [by destruct e; split; intros; destruct_and?|].
  case_bool_decide as E; [by subst d|]. split; [done|]. intros [Hc _]. by apply app_nil in Hc as [-> _].
Qed.

(** The body that is accepted: as long as declared, and with the digest. *)
Definition accepts (want : bytes) (n : Z) (acc all : bytes) (e : option bytes) : Prop :=
  e = None /\ len all = n /\ sha256 (acc ++ all) = want.

(** What is read of [all]: a prefix, within the length; the end is clean exactly when the body
    is accepted; and the last declared byte comes only with the right digest. *)
Definition read_ok (want : bytes) (n : Z) (acc all : bytes) (e : option bytes)
    (lr : list bytes * option UploadStreamError) : Prop :=
  (exists rest, all = concat lr.1 ++ rest /\ (lr.2 = None -> rest = [])) /\
  (len (concat lr.1) <= n)%Z /\ (lr.2 = None <-> accepts want n acc all e) /\
  (len (concat lr.1) = n -> n = 0%Z \/ sha256 (acc ++ concat lr.1) = want).

Lemma read_ok_stop want n acc all e err :
  (0 <= n)%Z -> ~ accepts want n acc all e -> read_ok want n acc all e ([], Some err).
Proof.
  intros Hn Ha. unfold read_ok. cbn [fst snd concat]. split; [by exists all|]. change (len []) with 0%Z.
  split; [done|]. split; [by split|]. intros <-. by left.
Qed.

Lemma read_ok_zero want acc ds e :
  sha256 acc = want -> read_ok want 0 acc (concat ds) e ([], eof_ref ds e).
Proof.
  intros Hs. unfold read_ok, accepts. cbn [fst snd concat]. change (len []) with 0%Z.
  split; [exists (concat ds); split; [done|by intros [? _]%eof_ref_ok]|]. rewrite eof_ref_ok. split; [done|]. split; [|by left]. split.
  - intros [-> ->]. by rewrite app_nil_r.
  - intros (-> & Hl & _). split; [|done]. apply nil_length_inv. unfold len in Hl. lia.
Qed.

Lemma len_app (s t : bytes) : len (s ++ t) = (len s + len t)%Z.
Proof. unfold len. rewrite length_app. lia. Qed.

Lemma len_zero (s : bytes) : len s = 0%Z -> s = [].
Proof. unfold len. intros Hs. apply nil_length_inv. lia. Qed.

Lemma read_ok_cons want n acc d all e lr :
  ((n - len d)%Z = 0%Z -> sha256 (acc ++ d) = want) ->
  read_ok want (n - len d) (acc ++ d) all e lr -> read_ok want n acc (d ++ all) e (d :: lr.1, lr.2).
Proof.
  intros Hz ((rest & -> & Hrest) & Hlen & Hiff & Hpre). unfold read_ok, accepts in *. cbn [fst snd concat].
  rewrite <- !app_assoc in *. rewrite !(len_app d). split; [exists rest; by rewrite <- app_assoc|]. split; [lia|]. split.
  - rewrite Hiff. split; intros (? & ? & ?); split_and!; try done; lia.
  - intros Hl. right. destruct Hpre as [Hn|]; [lia| |done]. assert (Hc : concat lr.1 = []) by (apply len_zero; lia).
    rewrite Hc, app_nil_r. by apply Hz.
Qed.

Lemma read_ref_ok want ds e n acc :
  (0 <= n)%Z -> read_ok want n acc (concat ds) e (read_ref want n acc ds e).
Proof.
  assert (Hstop : forall n acc all err, (0 <= n)%Z -> (n = 0%Z -> sha256 acc <> want) -> (n = 0%Z \/ len all <> n) ->
    read_ok want n acc all e ([], Some err)).
  { intros n0 a0 all err Hn Hs Hl. apply read_ok_stop; [done|]. intros (_ & <- & Hw). destruct Hl as [Hl|]; [|done].
    apply (Hs Hl). apply len_zero in Hl as ->. by rewrite app_nil_r in Hw. }
  revert n acc. induction ds as [|d ds IH]; intros n acc Hn; rewrite read_ref_unfold;
    (destruct (n =? 0)%Z eqn:E0; reflect_bools; [subst n; case_bool_decide; [by apply read_ok_zero|apply Hstop; auto]|]).
  - apply Hstop; [done|done|]. right. change (len (concat [])) with 0%Z. lia.
  - case_bool_decide as Hd; [subst d; by apply IH|]. cbn [concat]. destruct (n <? len d)%Z eqn:E1; reflect_bools.
    { apply Hstop; [done|done|]. right. rewrite len_app. unfold len in *. lia. }
    destruct ((n - len d =? 0)%Z && negb (sha256 (acc ++ d) =? want)) eqn:E2.
    + apply andb_true_iff in E2 as [E2 E3]. reflect_bools. apply read_ok_stop; [done|]. intros (_ & Hl & Hsha). apply E3.
      rewrite len_app in Hl. assert (Hnil : concat ds = []) by (apply len_zero; lia). by rewrite Hnil, app_nil_r in Hsha.
    + specialize (IH (n - len d)%Z (acc ++ d) ltac:(lia)). destruct (read_ref want (n - len d) (acc ++ d) ds e) as [l r].
      apply (read_ok_cons want n acc d (concat ds) e (l, r)); [|done]. intros Hz.
      rewrite Hz, Z.eqb_refl in E2. cbn [andb] in E2. by apply negb_false_iff, bool_decide_eq_true in E2.
Qed.

(** Reading a new stream. *)
Lemma upload_drain (inner : list answer) (n : Z) (want : bytes) :
  (0 <= n)%Z ->
  exists s l r, drain up_work UploadStream_poll_next (UploadStream_new inner n want) = ((s, l), Ready r) /\
    read_ok want n [] (concat (delivered inner).1) (delivered inner).2 (l, r).
Proof.
  intros Hn. destruct (upload_read want (UploadStream_new inner n want) (UpReading n [])) as [s E].
  { split; [done|]. split; [done|]. split; [done|]. by exists []. }
  unfold view_ref in E. cbn [up_inner UploadStream_new] in E. destruct (delivered inner) as [ds e].
  pose proof (read_ref_ok want ds e n [] Hn) as Hok. destruct (read_ref want n [] ds e) as [l r]. by exists s, l, r.
Qed.
End Checked.

(** ** Collected pieces: lemmas *)

(** A stream over pieces that fit in memory announces exactly what it holds, and yields the
    pieces in order without overflow. *)
Lemma vec_stream_total (v : list bytes) n :
  (0 <= n)%Z -> (n + len (concat v) <= usize_max)%Z ->
  fold_left (fun n b => Z.min usize_max (n + len b)) v n = (n + len (concat v))%Z.
Proof.
  revert n. induction v as [|b v IH]; intros n Hn Hl; cbn [fold_left concat] in *; [unfold len; simpl; lia|].
  rewrite len_app in *. assert (Hp : (0 <= len b /\ 0 <= len (concat v))%Z) by (unfold len; lia).
  rewrite Z.min_r by lia. rewrite IH by lia. lia.
Qed.

Lemma vec_stream_next (b : bytes) (v : list bytes) :
  (len (concat (b :: v)) <= usize_max)%Z ->
  VecByteStream_poll_next (VecByteStream_new (b :: v)) = Some (VecByteStream_new v, Some b).
Proof.
  intros Hl. unfold VecByteStream_poll_next, VecByteStream_new. cbn [queue remaining_bytes].
  cbn [concat] in Hl. rewrite len_app in Hl. assert (Hp : (0 <= len b /\ 0 <= len (concat v))%Z) by (unfold len; lia).
  rewrite !vec_stream_total by (rewrite ?len_app; cbn [concat]; rewrite ?len_app; lia).
  cbn [concat]. rewrite len_app, (proj2 (Z.leb_le _ _)) by lia. repeat f_equal. lia.
Qed.

(** ** Properties *)

(** C25: the checked upload stream delivers a prefix of the body, never more than the declared
    length.  Reading it ends, and ends cleanly exactly when the transport did, the body is as
    long as declared and its SHA-256 is the expected one; then all of the body was delivered.
    The last declared byte is delivered only when the digest of the delivered bytes is right,
    so a consumer that insists on the declared length never holds a wrong body. *)
Theorem upload_checked `{SigDeps} (inner : list answer) (length : Z) (want : bytes) :
  (0 <= length)%Z ->
  let '(ds, e) := delivered inner in
  let body := concat ds in
  exists s l r, drain up_work UploadStream_poll_next (UploadStream_new inner length want) = ((s, l), Ready r) /\
    (exists rest, body = concat l ++ rest) /\ (len (concat l) <= length)%Z /\
    (r = None <-> e = None /\ len body = length /\ sha256 body = want) /\
    (r = None -> concat l = body) /\
    (len (concat l) = length -> length = 0%Z \/ sha256 (concat l) = want).
Proof.
  intros Hn. destruct (upload_drain inner length want Hn) as (s & l & r & E & (rest & Hr1 & Hr2) & Hlen & Hiff & Hpre).
  destruct (delivered inner) as [ds e]. cbn [fst snd] in *. exists s, l, r. split; [exact E|].
  split; [by exists rest|]. split; [done|]. split; [done|]. split; [|done].
  intros Hr. rewrite Hr1, (Hr2 Hr), app_nil_r. done.
Qed.

Lemma upload_checked_witness :
  exists s l, drain up_work (@UploadStream_poll_next toy_deps)
    (UploadStream_new [Wait; Next (Ok (str "ab")); Next (Ok []); Next (Ok (str "c")); Wait] 3 (str "abc")) = ((s, l), Ready None) /\
    concat l = str "abc".
Proof.
  destruct (@upload_checked toy_deps [Wait; Next (Ok (str "ab")); Next (Ok []); Next (Ok (str "c")); Wait] 3 (str "abc"))
    as (s & l & r & E & _ & _ & Hiff & Hall & _); [discriminate|].
  assert (Hr : r = None) by (apply Hiff; split; [reflexivity|split; reflexivity]).
  exists s, l. split; [rewrite <- Hr; exact E|exact (Hall Hr)].
Defined.
