(* ===== verification/Body.v ===== *)
(** * HTTP bodies (crates/s3s/src/http/body.rs)

    The body type of requests and responses: an in-memory buffer, a body of the transport or a
    byte stream, with an optional allowance of bytes after which reads fail.  It is polled by
    frames ([http_body::Body]) or by data ([Stream]), and can be stored in memory. *)

From S2P Require Import Prelude.
From S2P Require Import Str.
From S2P Require Import ErrorCode.
From S2P Require Import AmzDate.
From S2P Require Import SigV4.
From S2P Require Import Poll.
From S2P Require Import Stream.

(** ** Data *)

Inductive Frame := Data (b : bytes) | Trailers (map : list (bytes * bytes)).

(** What a body of the transport answers to a poll; after the last answer it has ended.  An
    error is its message. *)
Inductive frame_answer := FWait | FNext (r : result bytes Frame).

(** A body of another crate ([Incoming], [BoxBody], [UnsyncBoxBody]): the frames it will
    deliver, and what it says about its length and its end when some of them are left. *)
Record HttpBody := {
  frames : list frame_answer;
  hb_size_hint : list frame_answer -> Z * option Z;
  hb_is_end_stream : list frame_answer -> bool
}.

(** A [DynByteStream], in the same way. *)
Record DynByteStream := { items : list answer; ds_remaining_length : list answer -> RemainingLength }.

Inductive Kind :=
| KEmpty
| Once (inner : bytes)
| Hyper (inner : HttpBody)
| BoxBody (inner : HttpBody)
| UnsyncBoxBody (inner : HttpBody)
| DynStream (inner : DynByteStream).

Record Body := { kind : Kind; remaining_limit : option Z }.

Inductive BodyError :=
| Source (message : bytes)
| BodySizeLimitExceeded (size limit : Z).

Definition BodyError_to_string (e : BodyError) : bytes :=
  match e with
  | Source message => message
  | BodySizeLimitExceeded size limit => str "body size " ++ fmt_dec size ++ str " exceeds limit " ++ fmt_dec limit
  end.

(** ** Constructors *)

Definition empty : Body := {| kind := KEmpty; remaining_limit := None |}.
Definition once (bytes : bytes) : Body := {| kind := Once bytes; remaining_limit := None |}.
Definition hyper (body : HttpBody) : Body := {| kind := Hyper body; remaining_limit := None |}.
Definition dyn_stream (stream : DynByteStream) : Body := {| kind := DynStream stream; remaining_limit := None |}.
Definition http_body (body : HttpBody) : Body := {| kind := BoxBody body; remaining_limit := None |}.
Definition http_body_unsync (body : HttpBody) : Body := {| kind := UnsyncBoxBody body; remaining_limit := None |}.
Definition set_limit (limit : option Z) (b : Body) : Body := {| kind := kind b; remaining_limit := limit |}.

(** ** Polling *)

(** [http_body::Body::poll_frame] and [Stream::poll_next] of what is inside. *)
Definition http_poll_frame (h : HttpBody) : HttpBody * poll (option (result bytes Frame)) :=
  let after rest := {| frames := rest; hb_size_hint := hb_size_hint h; hb_is_end_stream := hb_is_end_stream h |} in
  match frames h with
  | [] => (h, Ready None)
  | FWait :: rest => (after rest, Pending)
  | FNext r :: rest => (after rest, Ready (Some r))
  end.

Definition dyn_poll_next (d : DynByteStream) : DynByteStream * poll (option (result bytes bytes)) :=
  let after rest := {| items := rest; ds_remaining_length := ds_remaining_length d |} in
  match items d with
  | [] => (d, Ready None)
  | Wait :: rest => (after rest, Pending)
  | Next r :: rest => (after rest, Ready (Some r))
  end.

Definition poll_map {A B} (f : A -> B) (p : poll (option A)) : poll (option B) :=
  match p with Ready o => Ready (f <$> o) | Pending => Pending end.

Definition poll_kind (k : Kind) : Kind * poll (option (result bytes Frame)) :=
  match k with
  | KEmpty => (KEmpty, Ready None)
  | Once bytes => (KEmpty, Ready (if bytes =? [] then None else Some (Ok (Data bytes))))
  | Hyper inner => let '(inner, p) := http_poll_frame inner in (Hyper inner, p)
  | BoxBody inner => let '(inner, p) := http_poll_frame inner in (BoxBody inner, p)
  | UnsyncBoxBody inner => let '(inner, p) := http_poll_frame inner in (UnsyncBoxBody inner, p)
  | DynStream inner =>
      let '(inner, p) := dyn_poll_next inner in (DynStream inner, poll_map (fun r => Data <$> r) p)
  end.

Definition poll_frame : pollm Body (option (result BodyError Frame)) := fun b =>
  let '(k, p) := poll_kind (kind b) in
  let b := {| kind := k; remaining_limit := remaining_limit b |} in
  let p := poll_map (map_err Source) p in
  match remaining_limit b, p with
  | Some remaining, Ready (Some (Ok (Data data))) =>
      if (remaining <? len data)%Z
      then (b, Ready (Some (Err (BodySizeLimitExceeded (len data) (Z.min remaining usize_max)))))
      else (set_limit (Some (remaining - len data)%Z) b, p)
  | _, _ => (b, p)
  end.

Definition is_end_stream (b : Body) : bool :=
  match kind b with
  | KEmpty => true
  | Once inner => inner =? []
  | Hyper inner | BoxBody inner | UnsyncBoxBody inner => hb_is_end_stream inner (frames inner)
  | DynStream inner => match exact (ds_remaining_length inner (items inner)) with Some n => (n =? 0)%Z | None => false end
  end.

Definition size_hint (b : Body) : Z * option Z :=
  match kind b with
  | KEmpty => (0, Some 0)%Z
  | Once inner => (len inner, Some (len inner))
  | Hyper inner | BoxBody inner | UnsyncBoxBody inner => hb_size_hint inner (frames inner)
  | DynStream inner => into_size_hint (ds_remaining_length inner (items inner))
  end.

Definition Body_remaining_length (b : Body) : RemainingLength :=
  match kind b with
  | KEmpty => new_exact 0
  | Once inner => new_exact (len inner)
  | Hyper inner | BoxBody inner | UnsyncBoxBody inner => from_size_hint (hb_size_hint inner (frames inner))
  | DynStream inner => ds_remaining_length inner (items inner)
  end.

(** One turn of the loop of [Stream::poll_next]: a frame of trailers is passed over. *)
Definition next_turn : pollm Body (option (option (result BodyError bytes))) := fun b =>
  match poll_frame b with
  | (b, Pending) => (b, Pending)
  | (b, Ready (Some (Err e))) => (b, Ready (Some (Some (Err e))))
  | (b, Ready (Some (Ok (Data data)))) => (b, Ready (Some (Some (Ok data))))
  | (b, Ready (Some (Ok (Trailers _)))) => (b, Ready None)
  | (b, Ready None) => (b, Ready (Some None))
  end.

(** The frames left, and the work of reading them. *)
Definition kind_frames (k : Kind) : list frame_answer :=
  match k with
  | KEmpty => []
  | Once bytes => if bytes =? [] then [] else [FNext (Ok (Data bytes))]
  | Hyper inner | BoxBody inner | UnsyncBoxBody inner => frames inner
  | DynStream inner => map (fun a => match a with Wait => FWait | Next r => FNext (Data <$> r) end) (items inner)
  end.
Definition body_work (b : Body) : nat := length (kind_frames (kind b)).

Definition Body_poll_next : pollm Body (option (result BodyError bytes)) := loop body_work next_turn.

(** ** Storing *)

Definition bytes_of (b : Body) : option bytes :=
  match kind b with
  | KEmpty => Some []
  | Once inner => Some inner
  | _ => None
  end.

Definition take_bytes (b : Body) : Body * option bytes :=
  ({| kind := KEmpty; remaining_limit := remaining_limit b |}, bytes_of b).

(** What a reader that stops at the first error gets of a body: its data, and the error. *)
Definition body_read (b : Body) : list bytes * option BodyError :=
  match drain body_work Body_poll_next b with
  | ((_, l), Ready r) => (l, r)
  | ((_, l), Pending) => (l, None)
  end.

(** Why a body could not be stored: an error of the body, or of [http_body_util::Limited]. *)
Inductive StoreError := OfBody (e : BodyError) | LengthLimitError.

(** [http_body_util]: collecting a [Limited] body fails at the frame that exceeds the limit, or
    with the error of the body, and otherwise gives its data. *)
Class BodyDeps := {
  collect_limited : Body -> Z -> result StoreError bytes;
  collect_limited_spec : forall b limit,
    collect_limited b limit =
      let '(l, r) := body_read b in
      if (limit <? len (concat l))%Z then Err LengthLimitError
      else match r with None => Ok (concat l) | Some e => Err (OfBody e) end
}.

Definition store_all_limited `{BodyDeps} (b : Body) (limit : Z) : Body * result StoreError bytes :=
  match bytes_of b with
  | Some bytes => (b, if (limit <? len bytes)%Z then Err (OfBody (BodySizeLimitExceeded (len bytes) limit)) else Ok bytes)
  | None =>
      match collect_limited b limit with
      | Ok bytes => (once bytes, Ok bytes)
      | Err e => (empty, Err e)
      end
  end.

(** ** Reading: lemmas *)

(** What the stream of a body answers to successive polls. *)
Fixpoint frame_answers (limit : option Z) (fs : list frame_answer) : list answer :=
  match fs with
  | [] => []
  | FWait :: fs' => Wait :: frame_answers limit fs'
  | FNext (Err e) :: fs' => Next (Err e) :: frame_answers limit fs'
  | FNext (Ok (Trailers _)) :: fs' => frame_answers limit fs'
  | FNext (Ok (Data d)) :: fs' =>
      match limit with
      | None => Next (Ok d) :: frame_answers None fs'
      | Some n =>
          if (n <? len d)%Z
          then Next (Err (BodyError_to_string (BodySizeLimitExceeded (len d) (Z.min n usize_max)))) :: frame_answers limit fs'
          else Next (Ok d) :: frame_answers (Some (n - len d)%Z) fs'
      end
  end.
Definition answers (b : Body) : list answer := frame_answers (remaining_limit b) (kind_frames (kind b)).

Lemma poll_kind_frames k :
  poll_kind k = (fst (poll_kind k),
    match kind_frames k with [] => Ready None | FWait :: _ => Pending | FNext r :: _ => Ready (Some r) end) /\
  kind_frames (fst (poll_kind k)) = tail (kind_frames k).
Proof.
  destruct k as [|b|h|h|h|d]; simpl; [done| |unfold http_poll_frame; destruct (frames h) as [|[|]] eqn:Eh; simpl; by rewrite ?Eh ..|].
  - by case_bool_decide.
  - unfold dyn_poll_next. destruct (items d) as [|[|]] eqn:Ed; simpl; by rewrite ?Ed.
Qed.

(** One turn over the frames. *)
Lemma next_turn_frames b :
  exists b', kind_frames (kind b') = tail (kind_frames (kind b)) /\
  match kind_frames (kind b) with
  | [] => next_turn b = (b', Ready (Some None)) /\ remaining_limit b' = remaining_limit b
  | FWait :: _ => next_turn b = (b', Pending) /\ remaining_limit b' = remaining_limit b
  | FNext (Err e) :: _ => next_turn b = (b', Ready (Some (Some (Err (Source e))))) /\ remaining_limit b' = remaining_limit b
  | FNext (Ok (Trailers _)) :: _ => next_turn b = (b', Ready None) /\ remaining_limit b' = remaining_limit b
  | FNext (Ok (Data d)) :: _ =>
      match remaining_limit b with
      | Some n =>
          if (n <? len d)%Z
          then next_turn b = (b', Ready (Some (Some (Err (BodySizeLimitExceeded (len d) (Z.min n usize_max)))))) /\
               remaining_limit b' = remaining_limit b
          else next_turn b = (b', Ready (Some (Some (Ok d)))) /\ remaining_limit b' = Some (n - len d)%Z
      | None => next_turn b = (b', Ready (Some (Some (Ok d)))) /\ remaining_limit b' = None
      end
  end.
Proof.
  destruct (poll_kind_frames (kind b)) as [E Ht]. unfold next_turn, poll_frame. rewrite E. cbn [fst] in *.
  destruct (poll_kind (kind b)) as [k p]. cbn [fst] in *. clear E p.
  set (b1 := {| kind := k; remaining_limit := remaining_limit b |}).
  destruct (kind_frames (kind b)) as [|[|[[d|t]|e]] fs]; cbn [tail poll_map fmap option_fmap option_map map_err] in *.
  3: { destruct (remaining_limit b) as [n|] eqn:El; [|by exists b1]. subst b1. cbn [remaining_limit kind].
       destruct (n <? len d)%Z; eexists; (split; [|split; [reflexivity|]]); done. }
  all: exists b1; split; [done|]; subst b1; cbn [remaining_limit]; by destruct (remaining_limit b).
Qed.

Lemma next_decreasing : decreasing body_work next_turn.
Proof.
  intros b b' E. unfold body_work. destruct (next_turn_frames b) as (b1 & Ht & H).
  destruct (kind_frames (kind b)) as [|[|[[d|t]|e]] fs].
  3: { destruct (remaining_limit b); [destruct (_ <? _)%Z|]; destruct H as [H _]; congruence. }
  all: destruct H as [H _]; rewrite E in H; simplify_eq. rewrite Ht. simpl. lia.
Qed.

(** Reading the frames in one pass. *)
Fixpoint frame_read (limit : option Z) (fs : list frame_answer) : list bytes * option BodyError :=
  match fs with
  | [] => ([], None)
  | FWait :: fs' | FNext (Ok (Trailers _)) :: fs' => frame_read limit fs'
  | FNext (Err e) :: _ => ([], Some (Source e))
  | FNext (Ok (Data d)) :: fs' =>
      match limit with
      | Some n =>
          if (n <? len d)%Z then ([], Some (BodySizeLimitExceeded (len d) (Z.min n usize_max)))
          else let '(l, r) := frame_read (Some (n - len d)%Z) fs' in (d :: l, r)
      | None => let '(l, r) := frame_read None fs' in (d :: l, r)
      end
  end.
Definition reads (b : Body) : list bytes * option BodyError := frame_read (remaining_limit b) (kind_frames (kind b)).

(** A poll of the stream gives its next answer. *)
Lemma poll_next_answers b :
  exists b', answers b' = tail (answers b) /\ body_work b' <= body_work b /\
  match answers b with
  | [] => Body_poll_next b = (b', Ready None) /\ reads b = ([], None)
  | Wait :: _ => Body_poll_next b = (b', Pending) /\ reads b' = reads b /\ body_work b' < body_work b
  | Next (Ok d) :: _ =>
      Body_poll_next b = (b', Ready (Some (Ok d))) /\ body_work b' < body_work b /\
      reads b = (d :: (reads b').1, (reads b').2)
  | Next (Err m) :: _ =>
      exists e, Body_poll_next b = (b', Ready (Some (Err e))) /\ m = BodyError_to_string e /\ reads b = ([], Some e)
  end.
Proof.
  unfold Body_poll_next. remember (body_work b) as n eqn:En. revert b En.
  induction n as [n IH] using lt_wf_ind. intros b ->. rewrite (loop_unfold _ next_turn) by apply next_decreasing.
  unfold body_work, answers, reads in *. destruct (next_turn_frames b) as (b' & Ht & H).
  destruct (kind_frames (kind b)) as [|[|[[d|t]|e]] fs] eqn:Ek; cbn [tail frame_answers frame_read length] in *.
  - destruct H as [-> Hl]. exists b'. by rewrite Ht.
  - destruct H as [-> Hl]. exists b'. rewrite Ht, Hl. split; [done|]. split; [lia|]. split; [done|]. split; [done|lia].
  - destruct (remaining_limit b) as [n|]; [destruct (n <? len d)%Z|]; destruct H as [-> Hl]; exists b'; rewrite Ht, Hl;
      (split; [done|]; split; [lia|]).
    + eauto.
    + split; [done|]. split; [lia|]. by destruct (frame_read _ fs).
    + split; [done|]. split; [lia|]. by destruct (frame_read _ fs).
  - destruct H as [-> Hl]. destruct (IH (length fs) ltac:(lia) b' ltac:(by rewrite Ht)) as (b2 & Ha & Hw & Hm).
    rewrite Ht, Hl in *. exists b2. split; [done|]. split; [lia|].
    destruct (frame_answers (remaining_limit b) fs) as [|[|[d|m]] ?]; try done; destruct_and?; split_and?; done || lia.
  - destruct H as [-> Hl]. exists b'. rewrite Ht, Hl. split; [done|]. split; [lia|]. eauto.
Qed.

Lemma body_polls_down : polls_down body_work Body_poll_next.
Proof.
  intros b b1 o E. destruct (poll_next_answers b) as (b' & _ & _ & H).
  destruct (answers b) as [|[|[d|m]] ?].
  - destruct H as [H _]. rewrite E in H; by injection H as -> ->.
  - destruct H as (H & _ & Hw). rewrite E in H; by injection H as -> ->.
  - destruct H as (H & Hw & _). rewrite E in H; by injection H as -> ->.
  - destruct H as (e & H & _). rewrite E in H; by injection H as -> ->.
Qed.

(** Reading a body with its stream is reading its frames in one pass. *)
Lemma body_drain b : exists b', drain body_work Body_poll_next b = ((b', (reads b).1), Ready (reads b).2).
Proof.
  destruct (drain_ind body_work Body_poll_next (fun _ => True) (fun s l r _ => reads s = (l, r)) body_polls_down)
    with (s := b) as (b' & l & r & E & HQ); [|done|by exists b'; rewrite E, HQ].
  intros s _. destruct (poll_next_answers s) as (b' & _ & _ & H).
  destruct (answers s) as [|[|[d|m]] q].
  - by destruct H as [-> H].
  - destruct H as (-> & <- & _). by split.
  - destruct H as (-> & _ & ->). split; [done|]. by intros ? ? _ ->.
  - by destruct H as (e & -> & _ & H).
Qed.

Lemma body_read_eq b : body_read b = reads b.
Proof. unfold body_read. destruct (body_drain b) as [b' ->]. by destruct (reads b). Qed.

(** The error of the reading as the error of the answers. *)
Lemma answers_delivered limit fs :
  delivered (frame_answers limit fs) = (fst (frame_read limit fs), BodyError_to_string <$> snd (frame_read limit fs)).
Proof.
  revert limit. induction fs as [|[|[[d|t]|e]] fs IH]; intros limit; cbn [frame_answers frame_read delivered]; try done.
  destruct limit as [n|]; [destruct (n <? len d)%Z; [done|]|]; cbn [delivered]; rewrite IH; by destruct (frame_read _ fs).
Qed.

(** The limit cuts the data of the body. *)
Lemma frame_read_limit n fs :
  (0 <= n)%Z ->
  let '(ds, e) := frame_read None fs in
  if (len (concat ds) <=? n)%Z then frame_read (Some n) fs = (ds, e)
  else exists l d rest, ds = l ++ d :: rest /\ (len (concat l) <= n < len (concat l) + len d)%Z /\
    frame_read (Some n) fs = (l, Some (BodySizeLimitExceeded (len d) (Z.min (n - len (concat l)) usize_max))).
Proof.
  revert n. induction fs as [|[|[[d|t]|e]] fs IH]; intros n Hn; cbn [frame_read]; try by apply IH.
  - unfold len. simpl. by destruct n.
  - specialize (IH (n - len d)%Z). destruct (frame_read None fs) as [ds e]. cbn [concat]. rewrite len_app.
    assert (Hp : (0 <= len d /\ 0 <= len (concat ds))%Z) by (unfold len; lia).
    destruct (n <? len d)%Z eqn:Ed; reflect_bools.
    { rewrite (proj2 (Z.leb_gt _ _)) by lia. exists [], d, ds. change (len (concat [])) with 0%Z. rewrite Z.sub_0_r.
      split; [done|]. split; [lia|done]. }
    specialize (IH ltac:(lia)). replace (len d + len (concat ds) <=? n)%Z with (len (concat ds) <=? n - len d)%Z
      by (destruct (_ <=? _)%Z eqn:E1, (_ + _ <=? _)%Z eqn:E2; reflect_bools; lia || done).
    destruct (_ <=? _)%Z; [by rewrite IH|]. destruct IH as (l & d1 & rest & -> & Hl & ->).
    exists (d :: l), d1, rest. cbn [concat app]. rewrite len_app. split; [done|]. split; [lia|].
    by replace (n - (len d + len (concat l)))%Z with (n - len d - len (concat l))%Z by lia.
  - unfold len. simpl. by destruct n.
Qed.

(** ** Properties *)

(** Reading a body to its end always ends.  Without a limit, or when its data fits, the
    reader gets the data frames of the body up to its end or first error, trailers passed over
    and nothing added; otherwise it gets the frames that fit and then the error that names the
    first frame that does not and the allowance that was left. Storing a body gives the same
    bytes, within the limit or not at all, and they can be read again from the stored body. *)
Theorem body_limited `{BodyDeps} (b : Body) (n : Z) (limit : Z) :
  remaining_limit b = None -> (0 <= n)%Z ->
  let '(ds, e) := frame_read None (kind_frames (kind b)) in
  (exists b', drain body_work Body_poll_next b = ((b', ds), Ready e)) /\
  (exists b' l r, drain body_work Body_poll_next (set_limit (Some n) b) = ((b', l), Ready r) /\
     if (len (concat ds) <=? n)%Z then (l, r) = (ds, e)
     else exists d rest, ds = l ++ d :: rest /\ (len (concat l) <= n < len (concat l) + len d)%Z /\
       r = Some (BodySizeLimitExceeded (len d) (Z.min (n - len (concat l)) usize_max))) /\
  match store_all_limited b limit with
  | (b', Ok x) => e = None /\ x = concat ds /\ (len x <= limit)%Z /\ body_read b' = (if x =? [] then [] else [x], None)
  | (_, Err _) => e <> None \/ (limit < len (concat ds))%Z
  end.
Proof.
  intros Hl Hn. pose proof (body_drain b) as [b1 H1]. pose proof (body_drain (set_limit (Some n) b)) as [b2 H2].
  pose proof (frame_read_limit n (kind_frames (kind b)) Hn) as Hf. unfold reads in *. cbn [set_limit kind remaining_limit] in *.
  rewrite Hl in H1. pose proof (body_read_eq b) as Hb. unfold reads in Hb. rewrite Hl in Hb.
  destruct (frame_read None (kind_frames (kind b))) as [ds e] eqn:Er.
  split; [by eauto|]. split.
  { destruct (_ <=? _)%Z; [rewrite Hf in H2; by eauto 10|]. destruct Hf as (l & d & rest & -> & Hr & Hf).
    rewrite Hf in H2. by eauto 10. }
  assert (Hread : forall x, body_read (once x) = (if x =? [] then [] else [x], None)).
  { intros x. rewrite body_read_eq. unfold reads. cbn. by case_bool_decide. }
  unfold store_all_limited. destruct (bytes_of b) as [x|] eqn:Ex.
  - assert (Hx : kind_frames (kind b) = if x =? [] then [] else [FNext (Ok (Data x))]).
    { unfold bytes_of in Ex. destruct (kind b); by simplify_eq. }
    assert (Hc : concat ds = x /\ e = None /\ ds = if x =? [] then [] else [x]).
    { rewrite Hx in Er. case_bool_decide as H0; cbn in Er; injection Er as <- <-; [by rewrite H0|]. cbn. by rewrite app_nil_r. }
    destruct Hc as (Hc & -> & ->). destruct (_ <? _)%Z eqn:E1; reflect_bools; [right; by rewrite Hc|].
    split; [done|]. split; [done|]. split; [lia|]. by rewrite Hb.
  - rewrite collect_limited_spec, Hb. destruct (limit <? len (concat ds))%Z eqn:E1; reflect_bools; [by right|].
    destruct e as [e|]; [by left|]. rewrite Hread. done.
Qed.

(** [http_body_util] by its specification. *)
Definition ref_body_deps : BodyDeps :=
  {| collect_limited := fun b limit =>
       let '(l, r) := body_read b in
       if (limit <? len (concat l))%Z then Err LengthLimitError
       else match r with None => Ok (concat l) | Some e => Err (OfBody e) end;
     collect_limited_spec := fun _ _ => eq_refl |}.

Definition w_body : Body :=
  http_body {| frames := [FWait; FNext (Ok (Data (str "abc"))); FNext (Ok (Trailers [])); FNext (Ok (Data (str "de")))];
               hb_size_hint := fun _ => (0, None)%Z; hb_is_end_stream := fun _ => false |}.

Lemma body_limited_witness :
  exists b' r, drain body_work Body_poll_next (set_limit (Some 4)%Z w_body) = ((b', [str "abc"]), Ready r) /\
    r = Some (BodySizeLimitExceeded 2 1).
Proof.
  destruct (@body_limited ref_body_deps w_body 4 10 eq_refl ltac:(discriminate)) as (_ & (b' & l & r & E & d & rest & Hd & Hl & Hr) & _).
  assert (Hll : l = [str "abc"] /\ d = str "de").
  { destruct l as [|x l]; [injection Hd as <- _; destruct Hl as [_ Hl]; exfalso; revert Hl; vm_compute; discriminate|].
    injection Hd as <- Hd. destruct l as [|y l]; [by injection Hd as <- _|]. injection Hd as _ Hd. by destruct l. }
  destruct Hll as [-> ->]. exists b', r. split; [exact E|exact Hr].
Defined.
