(* ===== verification/MultipartBuffer.v ===== *)
(** * Multipart bodies: delimiters and the stream buffer (crates/s3s-multipart/src)

    boundary.rs, delimiter.rs, buffer.rs and utils.rs: the boundary of a multipart body, the
    search for its delimiter in the data that has arrived, and the buffer that reads the body.

    The body is the sequence of events its stream will answer polls with: it is not ready, or
    it delivers a chunk or an error; after the last event it has ended.  [feeds] relates a
    buffer to the bytes that are still to be parsed, however the transport splits them. *)

From S2P Require Import Prelude.
From S2P Require Import Str.
From S2P Require Import Poll.

(** ** Errors (error.rs) *)

(** The boxed source of a stream error is its message. *)
Inductive Error :=
| StreamReadFailed (source : bytes)
| InvalidBoundary
| InvalidFormat
| IncompleteStream
| HeaderSizeExceeded (limit : nat)
| StreamPartNotLast
| StreamAlreadyTaken
| IncompleteStreamPart.

#[global] Instance Error_eq_dec : EqDecision Error.
Proof. solve_decision. Defined.

(** [ready!(m)?] in a function that returns a [Poll<Result<_, Error>>]. *)
Definition ready_try {St A B} (m : pollm St (result Error A)) (k : A -> pollm St (result Error B)) :
    pollm St (result Error B) :=
  r ← m; match r with Ok a => k a | Err e => mret (Err e) end.

Notation "x ←? m ; k" := (ready_try m (fun x => k))
  (at level 20, m at level 100, k at level 200, right associativity) : rust_scope.

(** ** The [memchr] crate *)

(** Indices of the bytes equal to [c], in increasing order. *)
Fixpoint positions (c : byte) (i : nat) (s : bytes) : list nat :=
  match s with
  | [] => []
  | d :: s' => if d =? c then i :: positions c (S i) s' else positions c (S i) s'
  end.

Definition find_index (p : byte -> bool) (s : bytes) : option nat :=
  match break_at p s with (_, []) => None | (a, _) => Some (length a) end.

Class Memchr := {
  (** [memmem::find(haystack, needle)] and [Finder::find]: the first occurrence *)
  memmem_find : bytes -> bytes -> option nat;
  memmem_find_spec : forall haystack needle, memmem_find haystack needle = find_sub needle haystack;
  (** [memchr], [memchr2] and [memchr_iter] *)
  memchr1 : byte -> bytes -> option nat;
  memchr1_spec : forall c s, memchr1 c s = find_index (fun d => d =? c) s;
  memchr2 : byte -> byte -> bytes -> option nat;
  memchr2_spec : forall c d s, memchr2 c d s = find_index (fun e => (e =? c) || (e =? d)) s;
  memchr_iter : byte -> bytes -> list nat;
  memchr_iter_spec : forall c s, memchr_iter c s = positions c 0 s
}.

Definition memchr_reference : Memchr.
Proof.
  refine {| memmem_find := fun h n => find_sub n h;
            memchr1 := fun c => find_index (fun d => d =? c);
            memchr2 := fun c d => find_index (fun e => (e =? c) || (e =? d));
            memchr_iter := fun c => positions c 0 |}; reflexivity.
Defined.

(** ** Byte helpers (utils.rs) *)

Definition is_ows (c : byte) : bool := (c =? " "%byte) || (c =? x09).

(** The two loops of [trim_ows]: off the front, then off the back. *)
Fixpoint trim_ows_front (value : bytes) : bytes :=
  match value with
  | first :: rest => if negb (is_ows first) then value else trim_ows_front rest
  | [] => value
  end.

Definition trim_ows (value : bytes) : bytes := reverse (trim_ows_front (reverse (trim_ows_front value))).

(** ** Boundaries (boundary.rs) *)

Definition is_bchar (c : byte) : bool :=
  is_ascii_alphanumeric c ||
  existsb (fun d => c =? d)
    ["'"%byte; "("%byte; ")"%byte; "+"%byte; "_"%byte; ","%byte; "-"%byte; "."%byte; "/"%byte; ":"%byte;
     "="%byte; "?"%byte; " "%byte].

(** A [Boundary] is its bytes, as [as_bytes] returns them. *)
Definition Boundary_new (boundary : bytes) : result Error bytes :=
  if (boundary =? []) || (70 <? length boundary)%nat then Err InvalidBoundary
  else if negb (forallb is_bchar boundary) then Err InvalidBoundary
  else if (match last boundary with Some c => is_ascii_whitespace c | None => false end) then Err InvalidBoundary
  else Ok boundary.

(** ** Delimiters (delimiter.rs) *)

Definition ADAPTIVE_TAIL_THRESHOLD : nat := 2048.

Inductive DataSearch :=
| Found (index : nat)
| Emit (end_ : nat)
| KeepAll.

Definition make_first_boundary (boundary : bytes) : bytes := str "--" ++ boundary.
Definition make_delimiter (boundary : bytes) : bytes := [x0d; x0a] ++ str "--" ++ boundary.

Section Delimiter.
Context `{Memchr}.

(** The loop over the candidate positions of the window. *)
Fixpoint first_match (haystack delimiter : bytes) (max start : nat) (rels : list nat) : nat :=
  match rels with
  | [] => 0
  | rel :: rels' =>
      let idx := start + rel in
      let len := length haystack - idx in
      if (len <=? max)%nat && (drop idx haystack =? take len delimiter) then len
      else first_match haystack delimiter max start rels'
  end.

Definition delimiter_prefix_suffix_len (haystack delimiter : bytes) : nat :=
  match delimiter with
  | [] => 0
  | first :: _ =>
      let max := length delimiter - 1 in
      let start := length haystack - max in
      let window := drop start haystack in
      match memchr1 first window with
      | None => 0
      | Some _ => first_match haystack delimiter max start (memchr_iter first window)
      end
  end.

(** The finder is the needle it was built with. *)
Definition search_data (haystack delimiter : bytes) : DataSearch :=
  match memmem_find haystack delimiter with
  | Some index => Found index
  | None =>
      let keep := length delimiter - 1 in
      let retain := if (ADAPTIVE_TAIL_THRESHOLD <? length haystack)%nat
                    then delimiter_prefix_suffix_len haystack delimiter
                    else keep in
      if (retain <? length haystack)%nat then Emit (length haystack - retain) else KeepAll
  end.
End Delimiter.

(** ** The stream buffer (buffer.rs) *)

Definition EMPTY_CHUNKS_PER_POLL : nat := 32.
Definition MAX_CONSECUTIVE_EMPTY_CHUNKS : nat := 1024.

(** One answer of the underlying stream to a poll. *)
Inductive event :=
| NotReady
| Item (r : result Error bytes).

Record StreamBuffer := {
  buf : bytes;
  stream : option (list event);
  eof : bool;
  polled_total : Z;
  read_until_cursor : nat;
  read_until_active : bool;
  empty_chunks : nat
}.

Definition StreamBuffer_new (s : list event) : StreamBuffer :=
  {| buf := []; stream := Some s; eof := false; polled_total := 0; read_until_cursor := 0;
     read_until_active := false; empty_chunks := 0 |}.

Definition set_buf (x : bytes) (b : StreamBuffer) : StreamBuffer :=
  {| buf := x; stream := stream b; eof := eof b; polled_total := polled_total b;
     read_until_cursor := read_until_cursor b; read_until_active := read_until_active b;
     empty_chunks := empty_chunks b |}.
Definition set_stream (x : list event) (b : StreamBuffer) : StreamBuffer :=
  {| buf := buf b; stream := Some x; eof := eof b; polled_total := polled_total b;
     read_until_cursor := read_until_cursor b; read_until_active := read_until_active b;
     empty_chunks := empty_chunks b |}.
Definition set_eof (b : StreamBuffer) : StreamBuffer :=
  {| buf := buf b; stream := stream b; eof := true; polled_total := polled_total b;
     read_until_cursor := read_until_cursor b; read_until_active := read_until_active b;
     empty_chunks := empty_chunks b |}.
Definition set_read_until (cursor : nat) (active : bool) (b : StreamBuffer) : StreamBuffer :=
  {| buf := buf b; stream := stream b; eof := eof b; polled_total := polled_total b;
     read_until_cursor := cursor; read_until_active := active; empty_chunks := empty_chunks b |}.
Definition set_counts (total : Z) (empties : nat) (b : StreamBuffer) : StreamBuffer :=
  {| buf := buf b; stream := stream b; eof := eof b; polled_total := total;
     read_until_cursor := read_until_cursor b; read_until_active := read_until_active b;
     empty_chunks := empties |}.

Definition u64_max : Z := 2 ^ 64 - 1.

Definition no_progress : Error :=
  StreamReadFailed (str "stream kept yielding empty chunks without progress").

(** The [for] loop of [poll_stream]: [n] turns left, [s] what the stream still answers. *)
Fixpoint poll_stream_loop (n : nat) (s : list event) (b : StreamBuffer) :
    StreamBuffer * poll (option (result Error bytes)) :=
  match n with
  | 0 => (set_stream s b, Pending)
  | S n' =>
      match s with
      | NotReady :: s' => (set_stream s' b, Pending)
      | Item (Ok []) :: s' =>
          let b := set_counts (polled_total b) (empty_chunks b + 1) b in
          if (MAX_CONSECUTIVE_EMPTY_CHUNKS <? empty_chunks b)%nat
          then (set_stream s' b, Ready (Some (Err no_progress)))
          else poll_stream_loop n' s' b
      | Item (Ok chunk) :: s' =>
          let b := set_counts (Z.min (polled_total b + len chunk) u64_max) 0 b in
          (set_stream s' b, Ready (Some (Ok chunk)))
      | Item (Err err) :: s' => (set_stream s' b, Ready (Some (Err err)))
      | [] => (set_eof (set_stream [] b), Ready None)
      end
  end.

Definition poll_stream : pollm StreamBuffer (option (result Error bytes)) := fun b =>
  match stream b with
  | None => (set_eof b, Ready None)
  | Some s => poll_stream_loop EMPTY_CHUNKS_PER_POLL s b
  end.

(** The events a stream has left and the bytes they carry; with the buffered bytes and the
    end of the stream, they bound every loop. *)
Fixpoint events_work (s : list event) : nat :=
  match s with
  | [] => 0
  | Item (Ok chunk) :: s' => S (length chunk + events_work s')
  | _ :: s' => S (events_work s')
  end.

Definition work (b : StreamBuffer) : nat :=
  length (buf b) + events_work (default [] (stream b)) + (if eof b then 0 else 1).

Definition extend (chunk : bytes) (b : StreamBuffer) : StreamBuffer := set_buf (buf b ++ chunk) b.
(** [buf.split_to(n)] as far as the buffer is concerned *)
Definition advance (n : nat) (b : StreamBuffer) : StreamBuffer := set_buf (drop n (buf b)) b.

Section Buffer.
Context `{Memchr}.

(** One turn of the loop of [poll_read_until]. *)
Definition read_until_turn (needle : bytes) (max : nat) :
    pollm StreamBuffer (option (result Error nat)) := fun b =>
  let done_ := set_read_until (read_until_cursor b) false b in
  match memmem_find (drop (read_until_cursor b) (buf b)) needle with
  | Some rel =>
      let idx := read_until_cursor b + rel in
      let end_ := idx + length needle in
      (done_, Ready (Some (if (max <? end_)%nat then Err (HeaderSizeExceeded max) else Ok end_)))
  | None =>
      if (max <? length (buf b))%nat then (done_, Ready (Some (Err (HeaderSizeExceeded max))))
      else if eof b then (done_, Ready (Some (Err IncompleteStream)))
      else
        match poll_stream b with
        | (b, Pending) => (b, Pending)
        | (b, Ready (Some (Ok chunk))) =>
            let old_len := length (buf b) in
            let b := extend chunk b in
            (set_read_until (old_len - (length needle - 1)) (read_until_active b) b, Ready None)
        | (b, Ready (Some (Err err))) =>
            (set_read_until (read_until_cursor b) false b, Ready (Some (Err err)))
        | (b, Ready None) =>
            (set_read_until (read_until_cursor b) false (set_eof b), Ready (Some (Err IncompleteStream)))
        end
  end.

Definition poll_read_until (needle : bytes) (max : nat) : pollm StreamBuffer (result Error nat) := fun b =>
  let b := if negb (read_until_active b) then set_read_until 0 true b else b in
  loop work (read_until_turn needle max) b.

(** One turn of the loop of [poll_read_to]. *)
Definition read_to_turn (needle : bytes) : pollm StreamBuffer (option (result Error unit)) := fun b =>
  match memmem_find (buf b) needle with
  | Some idx => (advance (idx + length needle) b, Ready (Some (Ok tt)))
  | None =>
      if eof b then (b, Ready (Some (Err InvalidFormat)))
      else
        match poll_stream b with
        | (b, Pending) => (b, Pending)
        | (b, Ready (Some (Ok chunk))) =>
            if buf b =? [] then
              match memmem_find chunk needle with
              | Some idx => (extend (drop (idx + length needle) chunk) b, Ready (Some (Ok tt)))
              | None =>
                  let keep := Nat.min (length needle - 1) (length chunk) in
                  let cut := length chunk - keep in
                  (extend (drop cut chunk) b, Ready None)
              end
            else
              let b := extend chunk b in
              match memmem_find (buf b) needle with
              | Some idx => (advance (idx + length needle) b, Ready (Some (Ok tt)))
              | None =>
                  let keep := Nat.min (length needle - 1) (length (buf b)) in
                  let cut := length (buf b) - keep in
                  (advance cut b, Ready None)
              end
        | (b, Ready (Some (Err err))) => (b, Ready (Some (Err err)))
        | (b, Ready None) => (set_eof b, Ready (Some (Err InvalidFormat)))
        end
  end.

Definition poll_read_to (needle : bytes) : pollm StreamBuffer (result Error unit) :=
  loop work (read_to_turn needle).

(** The [while] loop of [poll_read_header_block]. *)
Definition header_wait_turn : pollm StreamBuffer (option (result Error unit)) := fun b =>
  if (length (buf b) <? 2)%nat && negb (eof b) then
    let b := set_read_until (read_until_cursor b) false b in
    match poll_stream b with
    | (b, Pending) => (b, Pending)
    | (b, Ready (Some (Ok chunk))) => (extend chunk b, Ready None)
    | (b, Ready (Some (Err err))) => (b, Ready (Some (Err err)))
    | (b, Ready None) => (set_eof b, Ready None)
    end
  else (b, Ready (Some (Ok tt))).

Definition poll_read_header_block (max : nat) : pollm StreamBuffer (result Error nat) :=
  _ ←? loop work header_wait_turn;
  fun b =>
    if starts_with [x0d; x0a] (buf b)
    then (set_read_until (read_until_cursor b) false b, Ready (Ok 2))
    else poll_read_until [x0d; x0a; x0d; x0a] max b.

Definition consumed (b : StreamBuffer) : Z := Z.max 0 (polled_total b - len (buf b)).
End Buffer.

(** ** The delimiter search *)

(** No occurrence of [p] starts in the first [n] bytes of [s]. *)
Definition no_start (p : bytes) (n : nat) (s : bytes) : Prop :=
  forall j, j < n -> starts_with p (drop j s) = false.

Lemma starts_with_take p s : starts_with p s = true <-> take (length p) s = p.
Proof.
  rewrite starts_with_true. split; [by intros [r ->]; rewrite take_app_length|].
  intros E. exists (drop (length p) s). by rewrite <- E at 1; rewrite take_drop.
Qed.

Lemma starts_with_false_nil p s : length s < length p -> starts_with p s = false.
Proof.
  intros Hl. destruct (starts_with p s) eqn:E; [|done]. apply starts_with_true in E as [r ->].
  rewrite length_app in Hl. lia.
Qed.

(** A window that lies inside [s] does not see what follows. *)
Lemma starts_with_window p s t j :
  j + length p <= length s -> starts_with p (drop j (s ++ t)) = starts_with p (drop j s).
Proof.
  intros Hj. rewrite drop_app_le by lia. apply eq_true_iff_eq. rewrite !starts_with_take.
  rewrite take_app_le; [done|]. rewrite length_drop. lia.
Qed.

Lemma find_sub_None_window p s t j :
  find_sub p s = None -> j + length p <= length s -> starts_with p (drop j (s ++ t)) = false.
Proof. intros HN Hj. rewrite starts_with_window by done. by apply find_sub_None. Qed.

Lemma find_sub_bound p s i : find_sub p s = Some i -> i + length p <= length s.
Proof. intros E. apply find_sub_Some in E as (_ & ? & _). done. Qed.

Lemma find_sub_split p s i :
  find_sub p s = Some i <->
  exists a r, s = a ++ p ++ r /\ length a = i /\ no_start p i s.
Proof.
  split.
  - intros E. apply find_sub_Some in E as (Hs & Hb & Hn).
    exists (take i s), (drop (i + length p) s). split_and!; [done| |done]. rewrite length_take. lia.
  - intros (a & r & -> & <- & Hn). apply find_sub_first; [|done|rewrite length_app; lia].
    rewrite drop_app_length. apply starts_with_app.
Qed.

Lemma find_sub_extend p s t i : find_sub p s = Some i -> find_sub p (s ++ t) = Some i.
Proof.
  intros E. pose proof (find_sub_bound _ _ _ E) as Hb.
  apply find_sub_split in E as (a & r & -> & <- & Hn).
  apply find_sub_split. exists a, (r ++ t). split_and!; [by rewrite <- !app_assoc|done|].
  intros j Hj. rewrite starts_with_window by lia. auto.
Qed.

(** Bytes in which no occurrence starts can be taken off the front. *)
Lemma find_sub_skip p c s :
  no_start p (length c) (c ++ s) -> find_sub p (c ++ s) = (Nat.add (length c)) <$> find_sub p s.
Proof.
  intros Hn. destruct (find_sub p s) as [i|] eqn:E; simpl.
  - apply find_sub_split in E as (a & r & -> & <- & Hs). apply find_sub_split.
    exists (c ++ a), r. rewrite length_app. split_and!; [by rewrite <- !app_assoc|done|].
    intros j Hj. destruct (decide (j < length c)); [auto|].
    rewrite drop_app_ge by lia. apply Hs. lia.
  - apply find_sub_None. intros j. destruct (decide (j < length c)); [auto|].
    rewrite drop_app_ge by lia. by apply find_sub_None.
Qed.

Lemma positions_spec c i s k : k ∈ positions c i s <-> exists j, k = i + j /\ s !! j = Some c.
Proof.
  revert i. induction s as [|d s IH]; intros i; simpl.
  - split; [set_solver|]. by intros (j & _ & ?).
  - destruct (decide (d = c)) as [->|Hne].
    + rewrite bool_decide_eq_true_2 by done. rewrite elem_of_cons, IH. split.
      * intros [->|(j & -> & Hj)]; [exists 0|exists (S j)]; split; simpl; done || lia.
      * intros ([|j] & -> & Hj); [left; lia|right; exists j; split; [lia|done]].
    + rewrite bool_decide_eq_false_2 by done. rewrite IH. split.
      * intros (j & -> & Hj). exists (S j). split; [lia|done].
      * intros ([|j] & -> & Hj); [simpl in Hj; congruence|exists j; split; [lia|done]].
Qed.

Lemma positions_sorted c i s : StronglySorted lt (positions c i s).
Proof.
  revert i. induction s as [|d s IH]; intros i; simpl; [constructor|].
  case_bool_decide; [|done]. constructor; [done|]. apply Forall_forall.
  intros k (j & -> & _)%positions_spec. lia.
Qed.

Section DelimiterLemmas.
Context `{Memchr}.

(** The candidate at [rel] holds a tail of the haystack that the delimiter starts with. *)
Definition candidate (haystack delimiter : bytes) (max start rel : nat) : Prop :=
  length haystack - (start + rel) <= max /\
  drop (start + rel) haystack = take (length haystack - (start + rel)) delimiter.

Lemma first_match_spec haystack delimiter max start rels :
  StronglySorted lt rels ->
  let r := first_match haystack delimiter max start rels in
  (forall rel, rel ∈ rels -> candidate haystack delimiter max start rel -> length haystack - (start + rel) <= r) /\
  (r = 0 \/ exists rel, rel ∈ rels /\ candidate haystack delimiter max start rel /\
                      r = length haystack - (start + rel)).
Proof.
  induction 1 as [|rel rels _ IH Hlt]; simpl; [split; [set_solver|by left]|].
  destruct (_ && _) eqn:E; [reflect_bools|].
  - split; [|right; exists rel; split_and!; [apply list_elem_of_here|done|done]].
    intros k [->|Hk]%elem_of_cons _; [done|]. pose proof (proj1 (Forall_forall _ _) Hlt k Hk). simpl in *. lia.
  - destruct IH as [IH1 IH2]. split.
    + intros k [->|Hk]%elem_of_cons [Hc1 Hc2]; [|by apply IH1].
      apply andb_false_iff in E as [E|E]; reflect_bools; [lia|done].
    + destruct IH2 as [?|(k & ? & ? & ?)]; [by left|right; exists k; split_and!; [by apply list_elem_of_further|done|done]].
Qed.

Lemma find_index_None p s : find_index p s = None <-> forallb (fun c => negb (p c)) s = true.
Proof.
  unfold find_index. destruct (break_at p s) as [a r] eqn:E. apply break_at_spec in E as (-> & Ha & Hr).
  rewrite forallb_app, Ha. destruct r as [|c r]; [done|]. simpl. by rewrite Hr.
Qed.

(** The suffix length it returns belongs to the longest suffix of the haystack that is a
    proper prefix of the delimiter. *)
Lemma delimiter_prefix_suffix_len_spec haystack delimiter :
  delimiter <> [] ->
  let r := delimiter_prefix_suffix_len haystack delimiter in
  r <= length haystack /\
  drop (length haystack - r) haystack = take r delimiter /\ r < length delimiter /\
  forall k, k <= length haystack -> k < length delimiter ->
    drop (length haystack - k) haystack = take k delimiter -> k <= r.
Proof.
  intros Hd r. destruct delimiter as [|first rest] eqn:Ed; [done|]. rewrite <- Ed in *. set (max := length delimiter - 1). set (start := length haystack - max).
  set (window := drop start haystack).
  assert (Er : r = match memchr1 first window with
                   | None => 0
                   | Some _ => first_match haystack delimiter max start (memchr_iter first window)
                   end) by (unfold r, window, start, max; rewrite Ed; reflexivity).
  clearbody r. rewrite memchr1_spec, memchr_iter_spec in Er.
  assert (Hmax : 0 < length delimiter) by (rewrite Ed; simpl; lia).
  assert (Hwin : forall k, k <= length haystack -> k < length delimiter -> 0 < k ->
    drop (length haystack - k) haystack = take k delimiter ->
    exists rel, start + rel = length haystack - k /\ window !! rel = Some first).
  { intros k Hk1 Hk2 Hk3 Heq. exists (length haystack - k - start). split; [lia|].
    unfold window. rewrite lookup_drop. replace (start + _) with (length haystack - k + 0) by lia.
    rewrite <- lookup_drop, Heq, lookup_take_lt, Ed by lia. done. }
  assert (Hpos : forall rel, rel ∈ positions first 0 window <-> window !! rel = Some first).
  { intros rel. rewrite positions_spec. split; [by intros (j & -> & ?)|by exists rel]. }
  destruct (find_index _ window) as [w|] eqn:Ew.
  - destruct (first_match_spec haystack delimiter max start _ (positions_sorted first 0 window)) as [H1 H2].
    rewrite <- Er in H1, H2. split_and!.
    + destruct H2 as [->|(rel & _ & _ & ->)]; lia.
    + destruct H2 as [->|(rel & Hrel & [_ Hc2] & Hr)].
      * rewrite take_0, drop_ge; [done|lia].
      * apply Hpos in Hrel. apply lookup_lt_Some in Hrel. unfold window in Hrel. rewrite length_drop in Hrel.
        rewrite Hr, <- Hc2. f_equal. lia.
    + destruct H2 as [->|(rel & _ & [Hc1 _] & ->)]; lia.
    + intros k Hk1 Hk2 Heq. destruct (decide (k = 0)) as [->|]; [lia|].
      destruct (Hwin k) as (rel & Hrel & Hw); [done|done|lia|done|]. apply Hpos in Hw.
      specialize (H1 rel Hw). rewrite Hrel in H1. replace k with (length haystack - (length haystack - k)) by lia.
      apply H1. split; rewrite ?Hrel; [unfold max; lia|]. rewrite Heq. f_equal. lia.
  - subst r. apply find_index_None in Ew. split_and!; [lia| |lia|].
    + rewrite take_0, drop_ge; [done|lia].
    + intros k Hk1 Hk2 Heq. destruct (decide (k = 0)) as [->|]; [lia|].
      destruct (Hwin k) as (rel & _ & Hw); [done|done|lia|done|].
      apply list_elem_of_lookup_2 in Hw. rewrite forallb_forall in Ew.
      apply list_elem_of_In, Ew in Hw. reflect_bools. done.
Qed.
End DelimiterLemmas.

(** ** Byte helpers: lemmas *)

Lemma trim_front_app ws v : forallb is_ows ws = true -> trim_ows_front (ws ++ v) = trim_ows_front v.
Proof. induction ws as [|c ws IH]; simpl; [done|]. intros [Hc Hw]%andb_true_iff. rewrite Hc. simpl. auto. Qed.

Lemma trim_front_id v : match head v with Some c => is_ows c = false | None => True end -> trim_ows_front v = v.
Proof. destruct v as [|c v]; simpl; [done|]. by intros ->. Qed.

Lemma forallb_reverse (p : byte -> bool) l : forallb p (reverse l) = forallb p l.
Proof. apply eq_true_iff_eq. rewrite !forallb_forall. by setoid_rewrite <- list_elem_of_In; setoid_rewrite elem_of_reverse. Qed.

Lemma trim_ows_value b v a :
  forallb is_ows b = true -> forallb is_ows a = true ->
  match head v with Some c => is_ows c = false | None => True end ->
  match last v with Some c => is_ows c = false | None => True end ->
  trim_ows (b ++ v ++ a) = v /\ (v <> [] -> trim_ows_front (b ++ v ++ a) = v ++ a).
Proof.
  intros Hb Ha Hh Hl. unfold trim_ows. rewrite trim_front_app by done. destruct v as [|c v].
  - simpl. rewrite <- (app_nil_r a), trim_front_app by done. done.
  - rewrite (trim_front_id ((c :: v) ++ a)) by done. split; [|done].
    rewrite reverse_app, trim_front_app by (by rewrite forallb_reverse).
    rewrite trim_front_id, reverse_involutive; [done|]. by rewrite head_reverse.
Qed.

Lemma find_index_app (c : byte) a r : c ∉ a -> find_index (fun e => e =? c) (a ++ c :: r) = Some (length a).
Proof.
  intros Ha. unfold find_index. rewrite break_at_app; [done| |simpl; by rewrite bool_decide_eq_true_2].
  by apply forallb_notin.
Qed.

Section SearchData.
Context `{Memchr}.

(** Shared form of the claim below: what the caller may do with each answer. *)
Lemma search_data_spec haystack delimiter :
  delimiter <> [] ->
  match search_data haystack delimiter with
  | Found index => find_sub delimiter haystack = Some index
  | Emit end_ =>
      0 < end_ <= length haystack /\
      (forall more, no_start delimiter end_ (haystack ++ more)) /\
      (ADAPTIVE_TAIL_THRESHOLD < length haystack ->
       exists more, starts_with delimiter (drop end_ (haystack ++ more)) = true)
  | KeepAll => length haystack < length delimiter
  end.
Proof.
  intros Hd. unfold search_data. rewrite memmem_find_spec.
  destruct (find_sub delimiter haystack) as [i|] eqn:E; [done|].
  assert (Hlen : 0 < length delimiter) by (destruct delimiter; simpl; [done|lia]).
  set (retain := if (ADAPTIVE_TAIL_THRESHOLD <? length haystack)%nat then _ else _).
  assert (Hr : retain < length delimiter /\
    (forall k, k <= length haystack -> k < length delimiter ->
       drop (length haystack - k) haystack = take k delimiter -> k <= retain) /\
    (ADAPTIVE_TAIL_THRESHOLD < length haystack ->
       retain <= length haystack /\ drop (length haystack - retain) haystack = take retain delimiter)).
  { unfold retain. destruct (ADAPTIVE_TAIL_THRESHOLD <? length haystack)%nat eqn:Et; reflect_bools.
    - by pose proof (delimiter_prefix_suffix_len_spec haystack delimiter Hd) as (?&?&?&?).
    - split_and!; [lia|intros; lia|lia]. }
  clearbody retain. destruct Hr as (Hr1 & Hr2 & Hr3).
  destruct (retain <? length haystack)%nat eqn:El; reflect_bools; [|lia].
  split_and!; [lia|lia| |].
  - intros more j Hj. destruct (decide (j + length delimiter <= length haystack)).
    { by apply find_sub_None_window. }
    destruct (starts_with _ _) eqn:Es; [|done]. exfalso. apply starts_with_take in Es.
    rewrite drop_app_le, take_app_ge in Es by (rewrite ?length_drop; lia).
    assert (length haystack - j <= retain); [|lia]. apply Hr2; [lia|lia|].
    replace (length haystack - (length haystack - j)) with j by lia. rewrite <- Es, take_app_le by (rewrite length_drop; lia).
    rewrite take_ge; [done|]. rewrite length_drop. lia.
  - intros Ht. destruct (Hr3 Ht) as [Hr4 Hr5]. exists (drop retain delimiter).
    rewrite drop_app_le by lia. rewrite Hr5, take_drop. rewrite <- (app_nil_r delimiter) at 2. apply starts_with_app.
Qed.
End SearchData.

(** ** Reading the body *)

Fixpoint stream_bytes (s : list event) : bytes :=
  match s with
  | [] => []
  | Item (Ok chunk) :: s' => chunk ++ stream_bytes s'
  | _ :: s' => stream_bytes s'
  end.

(** The stream delivers no error, and no more than the tolerated run of empty chunks; [k]
    empty chunks have just been seen. *)
Fixpoint progressing (k : nat) (s : list event) : bool :=
  match s with
  | [] => true
  | NotReady :: s' => progressing k s'
  | Item (Err _) :: _ => false
  | Item (Ok []) :: s' => (S k <=? MAX_CONSECUTIVE_EMPTY_CHUNKS)%nat && progressing (S k) s'
  | Item (Ok _) :: s' => progressing 0 s'
  end.

(** [feeds total b s]: the body has [total] bytes, the stream behind [b] delivers it without
    failing, and [s] is what remains of it: the buffered bytes and those still to arrive. *)
Record feeds (total : Z) (b : StreamBuffer) (s : bytes) : Prop := {
  feeds_progress : exists evs, stream b = Some evs /\ progressing (empty_chunks b) evs = true /\
                               s = buf b ++ stream_bytes evs /\
                               (polled_total b + len (stream_bytes evs) = total)%Z /\
                               (eof b = true -> stream_bytes evs = []);
  feeds_total : (len (buf b) <= polled_total b)%Z /\ (total <= u64_max)%Z
}.

(** What a poll does not change. *)
Record same_read (b b' : StreamBuffer) : Prop := {
  same_buf : buf b' = buf b;
  same_cursor : read_until_cursor b' = read_until_cursor b;
  same_active : read_until_active b' = read_until_active b
}.

Lemma poll_stream_loop_same n s b b' p :
  poll_stream_loop n s b = (b', p) -> same_read b b' /\ stream b' <> None /\
  match p with
  | Ready None => eof b' = true
  | Ready (Some (Ok chunk)) => events_work (default [] (stream b')) + length chunk < events_work s /\ eof b' = eof b
  | Ready (Some (Err _)) => events_work (default [] (stream b')) < events_work s /\ eof b' = eof b
  | Pending => (n = 0 \/ events_work (default [] (stream b')) < events_work s) /\ eof b' = eof b /\
               events_work (default [] (stream b')) <= events_work s
  end.
Proof.
  revert s b. induction n as [|n IH]; intros s b; simpl.
  { intros [= <- <-]. split; [done|]. simpl. split_and!; auto. }
  destruct s as [|[|[[|c chunk]|err]] s']; simpl.
  - intros [= <- <-]. split_and!; done.
  - intros [= <- <-]. simpl. split_and!; first [done | lia | right; lia].
  - destruct (_ <? _)%nat.
    + intros [= <- <-]. simpl. split_and!; first [done | lia | right; lia].
    + intros E. apply IH in E as ([H1 H2 H3] & H4 & H5). split; [by split|]. split; [done|].
      destruct p as [[[chunk|e]|]|]; simpl in *;
        [destruct H5; split; [lia|done]..|done|destruct H5 as (?&?&?); split_and!; [right; lia|done|lia]].
  - intros [= <- <-]. simpl. split_and!; first [done | lia | right; lia].
  - intros [= <- <-]. simpl. split_and!; first [done | lia | right; lia].
Qed.

(** Each poll that is not the end of the stream uses up events. *)
Lemma poll_stream_work b b' p :
  poll_stream b = (b', p) -> same_read b b' /\
  match p with
  | Ready None => eof b' = true /\ work b' <= work b /\ (eof b = false -> work b' < work b)
  | Ready (Some (Ok chunk)) => work b' + length chunk < work b /\ eof b' = eof b
  | Ready (Some (Err _)) | Pending => work b' < work b /\ eof b' = eof b
  end.
Proof.
  unfold poll_stream, work. destruct (stream b) as [s|] eqn:Es.
  - intros E. destruct (poll_stream_loop_same _ _ _ _ _ E) as (Hs & Hn & Hp). split; [done|].
    rewrite (same_buf _ _ Hs). simpl. destruct p as [[[chunk|e]|]|];
      [destruct Hp as [? ->]; split; [lia|done]..| |destruct Hp as ([Hz|Hz]&->&?); [done|split; [lia|done]]].
    assert (events_work (default [] (stream b')) <= events_work s).
    { clear -E. revert s b E. generalize EMPTY_CHUNKS_PER_POLL.
      induction n as [|n IH]; intros s b; simpl; [done|].
      destruct s as [|[|[[|c chunk]|err]] s']; simpl; try done; [by intros [= <-]|].
      destruct (_ <? _)%nat; [done|]. intros E%IH. lia. }
    rewrite Hp. split_and!; [done|destruct (eof b); lia|intros ->; lia].
  - intros [= <- <-]. simpl. rewrite Es. simpl. split_and!; [done|done|destruct (eof b); lia|intros ->; lia].
Qed.

(** A poll delivers the next bytes of the body. *)
Lemma poll_stream_loop_feeds n s b b' p :
  progressing (empty_chunks b) s = true -> (0 <= polled_total b)%Z ->
  (polled_total b + len (stream_bytes s) <= u64_max)%Z ->
  poll_stream_loop n s b = (b', p) ->
  exists s', stream b' = Some s' /\ progressing (empty_chunks b') s' = true /\ (0 <= polled_total b')%Z /\
  (polled_total b' + len (stream_bytes s') = polled_total b + len (stream_bytes s))%Z /\
  match p with
  | Pending => stream_bytes s' = stream_bytes s
  | Ready None => stream_bytes s = [] /\ stream_bytes s' = []
  | Ready (Some (Ok chunk)) => chunk <> [] /\ stream_bytes s = chunk ++ stream_bytes s'
  | Ready (Some (Err _)) => False
  end.
Proof.
  revert s b. induction n as [|n IH]; intros s b; simpl.
  { intros ???. intros [= <- <-]. exists s. done. }
  destruct s as [|[|[[|c chunk]|err]] s']; simpl.
  - intros ???. intros [= <- <-]. by exists [].
  - intros ???. intros [= <- <-]. by exists s'.
  - intros Hp Ht Hm. apply andb_true_iff in Hp as [Hk Hp]. apply Nat.leb_le in Hk.
    destruct (_ <? _)%nat eqn:El; reflect_bools; [unfold MAX_CONSECUTIVE_EMPTY_CHUNKS in *; lia|].
    intros E. eapply IH in E as (s1 & H1 & H2 & H3 & H4 & H5); simpl in *; [|by rewrite Nat.add_1_r|done|done].
    by exists s1.
  - intros Hp Ht Hm. assert (polled_total b + len (c :: chunk) <= u64_max)%Z
      by (unfold len in *; cbn [length] in *; rewrite length_app in Hm; lia).
    rewrite Z.min_l by done. intros [= <- <-]. exists s'. simpl. split_and!; try done.
    + unfold len. lia.
    + unfold len. cbn [length]. rewrite length_app. lia.
  - done.
Qed.

Lemma poll_stream_feeds total b s b' p :
  feeds total b s -> poll_stream b = (b', p) ->
  match p with
  | Pending => feeds total b' s
  | Ready None => feeds total b' s /\ s = buf b'
  | Ready (Some (Ok chunk)) => chunk <> [] /\ feeds total (extend chunk b') s
  | Ready (Some (Err _)) => False
  end.
Proof.
  intros [(evs & Hs & Hp & -> & Ht & He) [H0 Hm]] E.
  destruct (poll_stream_work _ _ _ E) as [[Hb _ _] Hw].
  unfold poll_stream in E. rewrite Hs in E.
  eapply poll_stream_loop_feeds in E as (s' & Hs' & Hp' & H0' & Ht' & Hq); [|done|unfold len in *; lia|lia].
  destruct p as [[[chunk|e]|]|].
  - destruct Hq as [Hne Hq]. rewrite Hq in Ht'. unfold len in *. rewrite length_app in Ht'.
    split; [done|]. split; [|simpl; rewrite Hb; unfold len; rewrite length_app; lia].
    exists s'. simpl. rewrite Hb, Hq, <- app_assoc. rewrite Hq in Ht. unfold len in *. rewrite length_app in Ht. split_and!; try done; [lia|].
    destruct Hw as [_ ->]. intros He'. specialize (He He'). rewrite Hq in He. by destruct chunk.
  - done.
  - destruct Hq as [Hq Hq']. split; [|by rewrite Hq, app_nil_r].
    rewrite Hq, Hq' in Ht'. split; [|rewrite Hb; lia]. exists s'. rewrite Hb, Hq, Hq' in *. split_and!; try done. lia.
  - rewrite Hq in Ht'. split; [|rewrite Hb; lia]. exists s'. rewrite Hb, Hq in *. destruct Hw as [_ ->]. split_and!; try done. lia.
Qed.

Lemma ready_try_progresses {St A B} (measure : St -> nat) (m : pollm St (result Error A)) (k : A -> pollm St (result Error B)) :
  progresses measure m -> (forall a, progresses measure (k a)) -> progresses measure (ready_try m k).
Proof.
  intros Hm Hk b. unfold ready_try, mbind, pollm_bind. specialize (Hm b). destruct (m b) as [b' [[a|e]|]]; [|done..].
  specialize (Hk a b'). destruct (k a b') as [b'' [r|]]; lia.
Qed.

Lemma advance_work n b : work (advance n b) + Nat.min n (length (buf b)) = work b.
Proof. unfold work, advance, set_buf. cbn [buf stream eof]. rewrite length_drop. lia. Qed.

Lemma feeds_set_read_until total b s c a : feeds total b s -> feeds total (set_read_until c a b) s.
Proof. intros [(evs&?&?&?&?&?) ?]. by split; [exists evs|]. Qed.

Lemma feeds_advance total b s n :
  n <= length (buf b) -> feeds total b s -> feeds total (advance n b) (drop n s).
Proof.
  intros Hn [(evs&?&?&->&?&?) [??]]. split; [|simpl; unfold len in *; rewrite length_drop; lia].
  exists evs. split_and!; try done. by rewrite drop_app_le.
Qed.

Lemma feeds_set_eof total b : feeds total b (buf b) -> feeds total (set_eof b) (buf b).
Proof.
  intros [(evs&?&?&Hs&?&?) ?]. split; [|done]. exists evs. split_and!; try done.
  intros _. rewrite <- (app_nil_r (buf b)) in Hs at 1. by apply app_inv_head in Hs.
Qed.

Lemma feeds_eof total b s : feeds total b s -> eof b = true -> s = buf b.
Proof. intros [(evs&?&?&->&?&He) ?] E. by rewrite He, app_nil_r. Qed.

Lemma feeds_prefix total b s : feeds total b s -> exists t, s = buf b ++ t.
Proof. intros [(evs&?&?&->&?&He) ?]. eauto. Qed.

Section BufferLemmas.
Context `{Memchr}.

(** *** Reading up to a needle *)

Lemma read_until_turn_progresses needle max : turn_progresses work (read_until_turn needle max).
Proof.
  intros b. unfold read_until_turn. destruct (memmem_find _ _); [done|]. destruct (_ <? _)%nat; [done|].
  destruct (eof b) eqn:Ee; [by unfold work; simpl|].
  destruct (poll_stream b) as [b' p] eqn:E. destruct (poll_stream_work _ _ _ E) as [Hs Hw].
  destruct p as [[[chunk|e]|]|]; unfold work in *; simpl; rewrite ?length_app; try lia.
Qed.

(** The bytes the block ends at, as a function of the bytes alone. *)
Definition read_until_end (needle : bytes) (max : nat) (s : bytes) : result Error nat :=
  match find_sub needle s with
  | Some i => if (max <? i + length needle)%nat then Err (HeaderSizeExceeded max) else Ok (i + length needle)
  | None => if (max <? length s)%nat then Err (HeaderSizeExceeded max) else Err IncompleteStream
  end.

(** The search may resume at the cursor: no needle starts before it. *)
Definition cursor_ok (needle : bytes) (b : StreamBuffer) : Prop :=
  read_until_cursor b <= length (buf b) /\
  forall t, no_start needle (read_until_cursor b) (buf b ++ t).

Definition read_done (total : Z) (needle : bytes) (max : nat) (s : bytes) (b : StreamBuffer) (r : result Error nat) : Prop :=
  feeds total b s /\ read_until_active b = false /\ r = read_until_end needle max s /\
  forall e, r = Ok e -> e <= length (buf b).

Lemma find_sub_cursor needle c s :
  c <= length s -> no_start needle c s -> find_sub needle s = Nat.add c <$> find_sub needle (drop c s).
Proof.
  intros Hc Hn. rewrite <- (take_drop c s) at 1. rewrite find_sub_skip.
  - by rewrite length_take_le.
  - by rewrite take_drop, length_take_le.
Qed.

Lemma read_until_turn_spec total needle max s b :
  needle <> [] -> feeds total b s -> read_until_active b = true -> cursor_ok needle b ->
  match read_until_turn needle max b with
  | (b', Pending) | (b', Ready None) => feeds total b' s /\ read_until_active b' = true /\ cursor_ok needle b'
  | (b', Ready (Some r)) => read_done total needle max s b' r
  end.
Proof.
  intros Hne Hf Ha [Hc Hn]. unfold read_until_turn. rewrite memmem_find_spec.
  assert (Hfind : forall t, find_sub needle (buf b ++ t) = Nat.add (read_until_cursor b) <$> find_sub needle (drop (read_until_cursor b) (buf b) ++ t)).
  { intros t. rewrite <- drop_app_le by done. apply find_sub_cursor; [rewrite length_app; lia|done]. }
  destruct (feeds_prefix _ _ _ Hf) as [t Hs].
  destruct (find_sub needle (drop (read_until_cursor b) (buf b))) as [rel|] eqn:E.
  { pose proof (find_sub_bound _ _ _ E) as Hb. rewrite length_drop in Hb.
    split_and!; [by apply feeds_set_read_until|done| |].
    - unfold read_until_end. rewrite Hs, Hfind. by rewrite (find_sub_extend _ _ t _ E).
    - intros e. simpl. case_test; [done|]. intros [= <-]. lia. }
  assert (Hnone : find_sub needle (buf b) = None).
  { specialize (Hfind []). rewrite !app_nil_r in Hfind. by rewrite Hfind, E. }
  destruct (max <? length (buf b))%nat eqn:Em; reflect_bools.
  { split_and!; [by apply feeds_set_read_until|done| |done]. unfold read_until_end. rewrite Hs.
    destruct (find_sub needle (buf b ++ t)) as [i|] eqn:Ei.
    - destruct (max <? i + length needle)%nat eqn:El; [done|]. reflect_bools. exfalso.
      apply find_sub_split in Ei as (a & r & Er & <- & _).
      assert (Hw : starts_with needle (drop (length a) (buf b ++ t)) = true) by (rewrite Er, drop_app_length; apply starts_with_app).
      rewrite find_sub_None_window in Hw; [done|done|lia].
    - rewrite length_app. by destruct (Nat.ltb_spec max (length (buf b) + length t)); [|lia]. }
  assert (Hend : forall b', feeds total b' s -> s = buf b -> read_done total needle max s (set_read_until (read_until_cursor b') false b') (Err IncompleteStream)).
  { intros b' Hf' ->. split_and!; [by apply feeds_set_read_until|done| |done].
    unfold read_until_end. rewrite Hnone. by destruct (Nat.ltb_spec max (length (buf b))); [lia|]. }
  destruct (eof b) eqn:Ee; [by apply Hend; [|eapply feeds_eof]|].
  destruct (poll_stream b) as [b' p] eqn:Ep. pose proof (poll_stream_feeds _ _ _ _ _ Hf Ep) as Hp.
  destruct (poll_stream_work _ _ _ Ep) as [[Hb Hcu Hac] _].
  destruct p as [[[chunk|e]|]|]; [|done| |].
  - destruct Hp as [_ Hf']. split_and!; [by apply feeds_set_read_until|by simpl; congruence|].
    split; simpl; rewrite Hb; [rewrite length_app; lia|].
    intros t' j Hj. rewrite <- app_assoc. destruct needle; [done|]. simpl in Hj.
    apply find_sub_None_window; [done|]. simpl. lia.
  - destruct Hp as [Hf' Hb']. apply (Hend (set_eof b')); [|congruence]. rewrite Hb' in Hf' |- *. by apply feeds_set_eof.
  - split_and!; [done|congruence|]. unfold cursor_ok. by rewrite Hb, Hcu.
Qed.

(** An interrupted read left a cursor that is still right. *)
Definition resumable (needle : bytes) (b : StreamBuffer) : Prop :=
  read_until_active b = true -> cursor_ok needle b.

Lemma poll_read_until_progresses needle max : progresses work (poll_read_until needle max).
Proof.
  intros b. unfold poll_read_until.
  pose proof (loop_progresses work _ (read_until_turn_progresses needle max)) as Hl.
  destruct (negb _); [|apply Hl]. specialize (Hl (set_read_until 0 true b)). apply Hl.
Qed.

Lemma poll_read_until_spec total needle max s b :
  needle <> [] -> feeds total b s -> resumable needle b ->
  match poll_read_until needle max b with
  | (b', Pending) => feeds total b' s /\ resumable needle b'
  | (b', Ready r) => read_done total needle max s b' r
  end.
Proof.
  intros Hne Hf Hr. unfold poll_read_until.
  pose proof (loop_inv work (read_until_turn needle max)
    (fun b => feeds total b s /\ read_until_active b = true /\ cursor_ok needle b)
    (fun b => feeds total b s /\ resumable needle b) (read_done total needle max s)
    (read_until_turn_progresses needle max)) as Hloop.
  apply Hloop; clear Hloop.
  - intros b' (Hf' & Ha' & Hc'). pose proof (read_until_turn_spec total needle max s b' Hne Hf' Ha' Hc') as Ht.
    destruct (read_until_turn needle max b') as [b'' [[r|]|]]; [done|done|]. destruct Ht as (?&?&?). by split; [|intros _].
  - destruct (read_until_active b) eqn:Ea; simpl; [exact (conj Hf (conj Ea (Hr Ea)))|].
    split; [by apply feeds_set_read_until|split; [done|split; simpl; [lia|intros t j Hj; lia]]].
Qed.
End BufferLemmas.

Section HeaderBlock.
Context `{Memchr}.

(** *** Reading a header block *)

(** Where the header block at the start of [s] ends. *)
Definition header_block_end (max : nat) (s : bytes) : result Error nat :=
  if starts_with [x0d; x0a] s then Ok 2 else read_until_end [x0d; x0a; x0d; x0a] max s.

Definition block_done (total : Z) (max : nat) (s : bytes) (b : StreamBuffer) (r : result Error nat) : Prop :=
  feeds total b s /\ read_until_active b = false /\ r = header_block_end max s /\
  forall e, r = Ok e -> e <= length (buf b).

Lemma header_wait_progresses : turn_progresses work header_wait_turn.
Proof.
  intros b. unfold header_wait_turn. destruct (_ && _) eqn:Ec; [|done].
  apply andb_true_iff in Ec as [_ Ee]. apply negb_true_iff in Ee.
  destruct (poll_stream _) as [b' p] eqn:E. destruct (poll_stream_work _ _ _ E) as [Hs Hw].
  destruct p as [[[chunk|e]|]|]; unfold work in *; simpl in *; rewrite ?length_app; try lia.
  destruct Hw as (H1 & _ & H2). rewrite H1 in H2. specialize (H2 Ee). lia.
Qed.

Lemma header_wait_spec total needle s b :
  feeds total b s -> resumable needle b ->
  match loop work header_wait_turn b with
  | (b', Pending) => feeds total b' s /\ resumable needle b'
  | (b', Ready r) => r = Ok tt /\ feeds total b' s /\ resumable needle b' /\ (2 <= length (buf b') \/ s = buf b')
  end.
Proof.
  intros Hf Hr. apply (loop_inv work header_wait_turn (fun b => feeds total b s /\ resumable needle b)
    (fun b => feeds total b s /\ resumable needle b)
    (fun b r => r = Ok tt /\ feeds total b s /\ resumable needle b /\ (2 <= length (buf b) \/ s = buf b)));
    [apply header_wait_progresses| |done].
  clear b Hf Hr. intros b [Hf Hr]. unfold header_wait_turn. destruct (_ && _) eqn:Ec.
  - set (b0 := set_read_until _ _ b). destruct (poll_stream b0) as [b' p] eqn:E.
    destruct (poll_stream_work _ _ _ E) as [[_ _ Ha] _]. simpl in Ha.
    apply (poll_stream_feeds total _ s) in E; [|by apply feeds_set_read_until].
    assert (Hres : forall b1, read_until_active b1 = false -> resumable needle b1) by congruence.
    destruct p as [[[chunk|e]|]|]; [|done| |].
    + destruct E as [_ E]. auto.
    + destruct E as [E Hs]. split; [|auto]. rewrite Hs in E |- *. by apply feeds_set_eof.
    + auto.
  - split_and!; [done..|]. apply andb_false_iff in Ec as [Ec|Ec]; reflect_bools; [by left|right].
    by eapply feeds_eof.
Qed.

Lemma poll_read_header_block_spec total max s b :
  feeds total b s -> resumable [x0d; x0a; x0d; x0a] b ->
  match poll_read_header_block max b with
  | (b', Pending) => feeds total b' s /\ resumable [x0d; x0a; x0d; x0a] b'
  | (b', Ready r) => block_done total max s b' r
  end.
Proof.
  intros Hf Hr. unfold poll_read_header_block, ready_try, mbind, pollm_bind.
  pose proof (header_wait_spec total _ s b Hf Hr) as Hw.
  destruct (loop work header_wait_turn b) as [b1 [r|]]; [|done].
  destruct Hw as (-> & Hf1 & Hr1 & Hlen). unfold block_done, header_block_end.
  assert (Hsw : starts_with [x0d; x0a] s = starts_with [x0d; x0a] (buf b1)).
  { destruct Hlen as [Hlen| ->]; [|done]. destruct (feeds_prefix _ _ _ Hf1) as [t ->].
    by apply (starts_with_window [x0d; x0a] (buf b1) t 0). }
  rewrite Hsw. destruct (starts_with [x0d; x0a] (buf b1)) eqn:Es.
  - split_and!; [by apply feeds_set_read_until|done|done|]. intros e [= <-]. simpl.
    apply starts_with_true in Es as [r ->]. rewrite length_app. simpl. lia.
  - by apply poll_read_until_spec.
Qed.

Lemma poll_read_header_block_progresses max : progresses work (poll_read_header_block max).
Proof.
  apply ready_try_progresses; [apply loop_progresses, header_wait_progresses|].
  intros _ b. destruct (starts_with _ _); [done|]. apply poll_read_until_progresses.
Qed.

(** *** Skipping the preamble *)

(** What follows the first occurrence of [needle]. *)
Definition after (needle s : bytes) : option bytes :=
  (fun i => drop (i + length needle) s) <$> find_sub needle s.

Lemma after_drop needle k s :
  k <= length s -> no_start needle k s -> after needle (drop k s) = after needle s.
Proof.
  intros Hk Hn. unfold after. rewrite (find_sub_cursor needle k s) by done.
  destruct (find_sub needle (drop k s)) as [i|]; [|done]. simpl. f_equal. rewrite drop_drop. f_equal. lia.
Qed.

(** A tail of the buffer shorter than the needle is enough to keep. *)
Lemma keep_tail needle x t k :
  find_sub needle x = None -> k = length x - Nat.min (length needle - 1) (length x) ->
  no_start needle k (x ++ t).
Proof. intros HN -> j Hj. apply find_sub_None_window; [done|lia]. Qed.

Lemma read_to_turn_progresses needle : turn_progresses work (read_to_turn needle).
Proof.
  intros b. unfold read_to_turn. destruct (memmem_find _ _).
  { unfold work. simpl. rewrite length_drop. lia. }
  destruct (eof b) eqn:Ee; [done|].
  destruct (poll_stream b) as [b' p] eqn:E. destruct (poll_stream_work _ _ _ E) as [Hs Hw].
  destruct p as [[[chunk|e]|]|]; unfold work in *; simpl; try lia.
  case_bool_decide as Hb; destruct (memmem_find _ _); simpl; rewrite ?length_app, ?length_drop, ?length_app; lia.
Qed.

Lemma read_to_turn_spec total needle s b :
  needle <> [] -> feeds total b s ->
  match read_to_turn needle b with
  | (b', Pending) => feeds total b' s
  | (b', Ready None) => exists s', feeds total b' s' /\ after needle s' = after needle s
  | (b', Ready (Some (Ok _))) => exists s', feeds total b' s' /\ after needle s = Some s'
  | (b', Ready (Some (Err e))) => e = InvalidFormat /\ after needle s = None
  end.
Proof.
  intros Hne Hf.
  (* a buffer that feeds [s] and in which the needle is found, or not *)
  assert (Hfound : forall b i, feeds total b s -> find_sub needle (buf b) = Some i ->
    exists s', feeds total (advance (i + length needle) b) s' /\ after needle s = Some s').
  { intros b0 i Hf0 E. pose proof (find_sub_bound _ _ _ E). destruct (feeds_prefix _ _ _ Hf0) as [t Ht].
    exists (drop (i + length needle) s). split; [by apply feeds_advance|].
    unfold after. by rewrite Ht, (find_sub_extend _ _ t _ E). }
  assert (Hkeep : forall b, feeds total b s -> find_sub needle (buf b) = None ->
    exists s', feeds total (advance (length (buf b) - Nat.min (length needle - 1) (length (buf b))) b) s' /\ after needle s' = after needle s).
  { intros b0 Hf0 E. destruct (feeds_prefix _ _ _ Hf0) as [t Ht]. eexists. split; [apply feeds_advance; [lia|done]|].
    apply after_drop; [rewrite Ht, length_app; lia|]. rewrite Ht. by apply keep_tail. }
  assert (Hend : s = buf b -> find_sub needle (buf b) = None -> after needle s = None) by (unfold after; by intros -> ->).
  unfold read_to_turn. rewrite memmem_find_spec. destruct (find_sub needle (buf b)) as [i|] eqn:E; [by apply Hfound|].
  destruct (eof b) eqn:Ee; [split; [done|]; apply Hend; [by eapply feeds_eof|done]|].
  destruct (poll_stream b) as [b' p] eqn:Ep. destruct (poll_stream_work _ _ _ Ep) as [[Hb _ _] _].
  pose proof (poll_stream_feeds _ _ _ _ _ Hf Ep) as Hp.
  destruct p as [[[chunk|e]|]|]; [|done| |done].
  - destruct Hp as [_ Hf']. case_bool_decide as Hnil.
    + assert (Hx : forall n, extend (drop n chunk) b' = advance n (extend chunk b')).
      { intros n. unfold extend, advance, set_buf. simpl. by rewrite Hnil. }
      assert (Hbuf : buf (extend chunk b') = chunk) by (simpl; by rewrite Hnil).
      rewrite memmem_find_spec. destruct (find_sub needle chunk) as [i|] eqn:Ec; rewrite Hx.
      * apply Hfound; [done|]. by rewrite Hbuf.
      * specialize (Hkeep _ Hf'). rewrite Hbuf in Hkeep. by apply Hkeep.
    + rewrite memmem_find_spec. destruct (find_sub needle (buf (extend chunk b'))) as [i|] eqn:Ec; [by apply Hfound|by apply Hkeep].
  - destruct Hp as [_ Hs]. split; [done|]. apply Hend; [congruence|done].
Qed.

Lemma poll_read_to_progresses needle : progresses work (poll_read_to needle).
Proof. apply loop_progresses, read_to_turn_progresses. Qed.

Lemma poll_read_to_spec total needle s b :
  needle <> [] -> feeds total b s ->
  match poll_read_to needle b with
  | (b', Pending) => exists s', feeds total b' s' /\ after needle s' = after needle s
  | (b', Ready (Ok _)) => exists s', feeds total b' s' /\ after needle s = Some s'
  | (b', Ready (Err e)) => e = InvalidFormat /\ after needle s = None
  end.
Proof.
  intros Hne Hf. unfold poll_read_to.
  pose proof (loop_inv work (read_to_turn needle) (fun b => exists s', feeds total b s' /\ after needle s' = after needle s)
    (fun b => exists s', feeds total b s' /\ after needle s' = after needle s)
    (fun b r => match r with
                | Ok _ => exists s', feeds total b s' /\ after needle s = Some s'
                | Err e => e = InvalidFormat /\ after needle s = None
                end) (read_to_turn_progresses needle)) as Hl.
  assert (Hb : exists s', feeds total b s' /\ after needle s' = after needle s) by eauto.
  refine ((fun Hstep => _ (Hl Hstep b Hb)) _); clear Hl.
  - destruct (loop work (read_to_turn needle) b) as [b' [[[]|e]|]]; auto.
  - intros b1 (s1 & Hf1 & Ha). pose proof (read_to_turn_spec total needle s1 b1 Hne Hf1) as Ht.
    rewrite Ha in Ht. destruct (read_to_turn needle b1) as [b2 [[[[]|e]|]|]]; eauto.
Qed.
End HeaderBlock.

Lemma feeds_new evs :
  progressing 0 evs = true -> (len (stream_bytes evs) <= u64_max)%Z ->
  feeds (len (stream_bytes evs)) (StreamBuffer_new evs) (stream_bytes evs).
Proof. intros Hp Hl. split; [exists evs; simpl; done|split; [done|exact Hl]]. Qed.

(** ** Claims *)

Section Claims.
Context `{Memchr}.

(** C27: the search of the data phase never lets go of a byte that may belong to a delimiter.
    A delimiter it reports is the first one, whatever arrives next; the bytes it lets the
    caller emit are such that no delimiter starts in them, whatever arrives next, and there is
    at least one; it keeps everything only while it has less than a delimiter.  On a large
    buffer it retains no more than it must: what it retains can still become a delimiter. *)
Theorem search_data_correct (boundary haystack : bytes) :
  let delimiter := make_delimiter boundary in
  match search_data haystack delimiter with
  | Found index => forall more, find_sub delimiter (haystack ++ more) = Some index
  | Emit end_ =>
      0 < end_ <= length haystack /\
      (forall more j, j < end_ -> starts_with delimiter (drop j (haystack ++ more)) = false) /\
      (ADAPTIVE_TAIL_THRESHOLD < length haystack ->
       exists more, starts_with delimiter (drop end_ (haystack ++ more)) = true)
  | KeepAll => length haystack < length delimiter
  end.
Proof.
  intros delimiter. pose proof (search_data_spec haystack delimiter) as Hs.
  destruct (search_data haystack delimiter); [|by apply Hs..].
  intros more. apply find_sub_extend. by apply Hs.
Qed.

(** Reading a header block depends on the bytes of the body alone.  However the
    transport splits them, and however often it suspends the read, the read ends, with the
    verdict of one pass over the whole body: the end of the block, at most [max] unless it is
    the blank line of an empty one, or the size or truncation error.  No byte is lost, and
    the buffer holds the whole block. *)
Theorem header_block_any_split (evs : list event) (max : nat) :
  progressing 0 evs = true -> (len (stream_bytes evs) <= u64_max)%Z ->
  exists b, await work (poll_read_header_block max) (StreamBuffer_new evs) =
              (b, Ready (header_block_end max (stream_bytes evs))) /\
            feeds (len (stream_bytes evs)) b (stream_bytes evs) /\
            forall e, header_block_end max (stream_bytes evs) = Ok e ->
                      take e (buf b) = take e (stream_bytes evs) /\ e <= length (buf b).
Proof.
  intros Hp Hl. set (s := stream_bytes evs).
  destruct (await_inv work (poll_read_header_block max)
    (fun b => feeds (len s) b s /\ resumable [x0d; x0a; x0d; x0a] b) (block_done (len s) max s)
    (poll_read_header_block_progresses max)) with (b := StreamBuffer_new evs) as (b & r & -> & Hd).
  - intros b [Hf Hr]. by apply poll_read_header_block_spec.
  - by split; [apply feeds_new|].
  - destruct Hd as (Hf & _ & -> & He). exists b. split_and!; [done|done|].
    intros e E. split; [|by apply He]. destruct (feeds_prefix _ _ _ Hf) as [t ->].
    rewrite take_app_le; [done|by apply He].
Qed.
End Claims.

(** A body cut in the middle of its structure, with suspensions and empty chunks. *)
Definition cut_events (chunks : list bytes) : list event :=
  concat ((fun c => [NotReady; Item (Ok c); Item (Ok [])]) <$> chunks).

Example search_data_examples :
  let find := @search_data memchr_reference in
  find (str "data" ++ make_delimiter (str "b") ++ str "--") (make_delimiter (str "b")) = Found 4 /\
  find (str "0123456789") (make_delimiter (str "b")) = Emit 6 /\
  find (str "012") (make_delimiter (str "b")) = KeepAll /\
  find (replicate 3000 "x"%byte ++ [x0d; x0a]) (make_delimiter (str "b")) = Emit 3000.
Proof. vm_compute. done. Qed.

Definition w_block : list event :=
  cut_events [str "a: 1" ++ [x0d]; [x0a; x0d]; [x0a] ++ str "data"].

Lemma header_block_any_split_witness :
  exists b, await work (@poll_read_header_block memchr_reference 64) (StreamBuffer_new w_block) = (b, Ready (Ok 8)) /\
            take 8 (buf b) = str "a: 1" ++ [x0d; x0a; x0d; x0a].
Proof.
  destruct (@header_block_any_split memchr_reference w_block 64) as (b & E & _ & Hb).
  - reflexivity.
  - by_decide.
  - exists b. split; [exact E|]. exact (proj1 (Hb 8 eq_refl)).
Defined.

Lemma search_data_correct_witness :
  find_sub (make_delimiter (str "b")) ((str "data" ++ make_delimiter (str "b")) ++ str "--") = Some 4.
Proof.
  exact (@search_data_correct memchr_reference (str "b") (str "data" ++ make_delimiter (str "b")) (str "--")).
Defined.
