(* ===== verification/MultipartData.v ===== *)
(** * Multipart bodies: part data (crates/s3s-multipart/src)

    part_data_stream.rs and final_part_data_stream.rs: the stream of the data of a part, which
    ends at the delimiter, and its strict variant, which goes on to check that the part was the
    last one and that nothing follows the closing delimiter. *)

From S2P Require Import Prelude.
From S2P Require Import Str.
From S2P Require Import Poll.
From S2P Require Import MultipartBuffer.

(** ** The data loop

    The loop that [PartDataStream::poll_data], [FinalPartDataStream::poll_data] and
    [Multipart::poll_next_part_data_chunk] share word for word; they differ in what they do
    with its outcome. *)

Inductive data_outcome :=
| Chunk (data : bytes)        (* a chunk of data, the delimiter not reached *)
| AtDelimiter (data : bytes)  (* the last data, perhaps none; the delimiter is consumed *)
| Failed (err : Error)        (* the stream failed *)
| Ended.                      (* the stream ended before the delimiter *)

Section Data.
Context `{Memchr}.

Definition data_turn (delimiter : bytes) : pollm StreamBuffer (option data_outcome) := fun b =>
  let pull :=
    match poll_stream b with
    | (b, Pending) => (b, Pending)
    | (b, Ready (Some (Ok chunk))) =>
        if negb (buf b =? []) then (extend chunk b, Ready None)
        else
          match search_data chunk delimiter with
          | Found index =>
              (set_buf (drop (index + length delimiter) chunk) b, Ready (Some (AtDelimiter (take index chunk))))
          | Emit end_ => (extend (drop end_ chunk) b, Ready (Some (Chunk (take end_ chunk))))
          | KeepAll => (extend chunk b, Ready None)
          end
    | (b, Ready (Some (Err err))) => (b, Ready (Some (Failed err)))
    | (b, Ready None) => (b, Ready (Some Ended))
    end in
  if negb (buf b =? []) then
    match search_data (buf b) delimiter with
    | Found index =>
        (advance (length delimiter) (advance index b), Ready (Some (AtDelimiter (take index (buf b)))))
    | Emit end_ => (advance end_ b, Ready (Some (Chunk (take end_ (buf b)))))
    | KeepAll => pull
    end
  else pull.

Definition data_loop (delimiter : bytes) : pollm StreamBuffer data_outcome := loop work (data_turn delimiter).

(** ** The data stream of a part *)

Record PartDataStream := {
  buffer : StreamBuffer;
  delimiter_finder : bytes;
  multipart_consumed : Z;
  done : bool;
  terminated : bool
}.

Definition PartDataStream_new (buffer : StreamBuffer) (delimiter_finder : bytes) (multipart_consumed : Z) : PartDataStream :=
  {| buffer := buffer; delimiter_finder := delimiter_finder; multipart_consumed := multipart_consumed;
     done := false; terminated := false |}.

Definition set_part (b : StreamBuffer) (d t : bool) (p : PartDataStream) : PartDataStream :=
  {| buffer := b; delimiter_finder := delimiter_finder p; multipart_consumed := multipart_consumed p;
     done := d; terminated := t |}.

Definition PartDataStream_poll_data : pollm PartDataStream (option (result Error bytes)) := fun p =>
  if done p || terminated p then (p, Ready None)
  else
    match data_loop (delimiter_finder p) (buffer p) with
    | (b, Pending) => (set_part b false false p, Pending)
    | (b, Ready (AtDelimiter data)) =>
        (set_part b true false p, Ready (if data =? [] then None else Some (Ok data)))
    | (b, Ready (Chunk data)) => (set_part b false false p, Ready (Some (Ok data)))
    | (b, Ready (Failed err)) => (set_part b false true p, Ready (Some (Err err)))
    | (b, Ready Ended) => (set_part b false true p, Ready (Some (Err IncompleteStreamPart)))
    end.

(** ** The strict stream of the last part *)

Inductive DataState := DsData | AfterBoundary | FinalCRLF | DsEof | DsDone.

#[global] Instance DataState_eq_dec : EqDecision DataState.
Proof. solve_decision. Defined.

Record FinalPartDataStream := {
  fin_buffer : StreamBuffer;
  fin_delimiter_finder : bytes;
  fin_state : DataState;
  fin_multipart_consumed : Z;
  aborted : bool;
  fin_terminated : bool
}.

Definition FinalPartDataStream_new (buffer : StreamBuffer) (delimiter_finder : bytes) (multipart_consumed : Z)
    (data_done aborted : bool) : FinalPartDataStream :=
  {| fin_buffer := buffer; fin_delimiter_finder := delimiter_finder;
     fin_state := if data_done then AfterBoundary else DsData;
     fin_multipart_consumed := multipart_consumed; aborted := aborted; fin_terminated := false |}.

Definition into_final (p : PartDataStream) : FinalPartDataStream :=
  FinalPartDataStream_new (buffer p) (delimiter_finder p) (multipart_consumed p) (done p) (terminated p).

Definition set_fin (b : StreamBuffer) (st : DataState) (f : FinalPartDataStream) : FinalPartDataStream :=
  {| fin_buffer := b; fin_delimiter_finder := fin_delimiter_finder f; fin_state := st;
     fin_multipart_consumed := fin_multipart_consumed f; aborted := aborted f; fin_terminated := fin_terminated f |}.
Definition terminate (f : FinalPartDataStream) : FinalPartDataStream :=
  {| fin_buffer := fin_buffer f; fin_delimiter_finder := fin_delimiter_finder f; fin_state := fin_state f;
     fin_multipart_consumed := fin_multipart_consumed f; aborted := aborted f; fin_terminated := true |}.

Definition Final_poll_data : pollm FinalPartDataStream (result Error (option bytes)) := fun f =>
  if aborted f then (terminate f, Ready (Err IncompleteStreamPart))
  else
    match data_loop (fin_delimiter_finder f) (fin_buffer f) with
    | (b, Pending) => (set_fin b (fin_state f) f, Pending)
    | (b, Ready (AtDelimiter data)) =>
        (set_fin b AfterBoundary f, Ready (Ok (if data =? [] then None else Some data)))
    | (b, Ready (Chunk data)) => (set_fin b (fin_state f) f, Ready (Ok (Some data)))
    | (b, Ready (Failed err)) => (set_fin b (fin_state f) f, Ready (Err err))
    | (b, Ready Ended) => (set_fin b (fin_state f) f, Ready (Err IncompleteStreamPart))
    end.

(** One turn of the [while] loop of [fill_buf], and of [Multipart::poll_ensure_buf_len], which
    reports the end of the stream as another error. *)
Definition fill_buf_turn (at_end : Error) (n : nat) : pollm StreamBuffer (option (result Error unit)) := fun b =>
  if (length (buf b) <? n)%nat then
    match poll_stream b with
    | (b, Pending) => (b, Pending)
    | (b, Ready (Some (Ok chunk))) => (extend chunk b, Ready None)
    | (b, Ready (Some (Err err))) => (b, Ready (Some (Err err)))
    | (b, Ready None) => (b, Ready (Some (Err at_end)))
    end
  else (b, Ready (Some (Ok tt))).

Definition fill_buf (n : nat) : pollm StreamBuffer (result Error unit) :=
  loop work (fill_buf_turn IncompleteStreamPart n).

(** The loop over the transport padding in the [FinalCRLF] arm. *)
Definition padding_turn : pollm StreamBuffer (option (result Error unit)) := fun b =>
  match fill_buf 1 b with
  | (b, Pending) => (b, Pending)
  | (b, Ready (Err err)) => (b, Ready (Some (Err err)))
  | (b, Ready (Ok _)) =>
      match buf b with
      | [] => (b, Ready (Some (Err InvalidFormat)))  (* not reached: [fill_buf 1] succeeded *)
      | first :: _ =>
          if (first =? " "%byte) || (first =? x09) then (advance 1 b, Ready None)
          else if first =? x0d then (b, Ready (Some (Ok tt)))
          else (b, Ready (Some (Err InvalidFormat)))
      end
  end.

(** The three arms of [poll_trailer]: the buffer and the state each leaves. *)
Definition after_boundary_arm : pollm StreamBuffer (result Error DataState) :=
  _ ←? fill_buf 2;
  fun b =>
    if negb (starts_with (str "--") (buf b)) then
      (b, Ready (Err (if starts_with [x0d] (buf b) ||
                         match buf b with c :: _ => (c =? " "%byte) || (c =? x09) | [] => false end
                      then StreamPartNotLast else InvalidFormat)))
    else (advance 2 b, Ready (Ok FinalCRLF)).

Definition final_crlf_arm : pollm StreamBuffer (result Error DataState) :=
  _ ←? loop work padding_turn;
  _ ←? fill_buf 2;
  fun b =>
    if negb (starts_with [x0d; x0a] (buf b)) then (b, Ready (Err InvalidFormat))
    else (advance 2 b, Ready (Ok DsEof)).

Definition eof_arm : pollm StreamBuffer (result Error DataState) := fun b =>
  if negb (buf b =? []) then (b, Ready (Err StreamPartNotLast))
  else
    match poll_stream b with
    | (b, Pending) => (b, Pending)
    | (b, Ready None) => (b, Ready (Ok DsDone))
    | (b, Ready (Some (Ok _))) => (b, Ready (Err StreamPartNotLast))
    | (b, Ready (Some (Err err))) => (b, Ready (Err err))
    end.

(** One turn of the loop of [poll_trailer]: an arm, then the next state or the return. *)
Definition run_arm (f : FinalPartDataStream) (arm : pollm StreamBuffer (result Error DataState)) :
    FinalPartDataStream * poll (option (result Error unit)) :=
  match arm (fin_buffer f) with
  | (b, Pending) => (set_fin b (fin_state f) f, Pending)
  | (b, Ready (Err err)) => (set_fin b (fin_state f) f, Ready (Some (Err err)))
  | (b, Ready (Ok DsDone)) => (set_fin b DsDone f, Ready (Some (Ok tt)))
  | (b, Ready (Ok st)) => (set_fin b st f, Ready None)
  end.

Definition trailer_turn : pollm FinalPartDataStream (option (result Error unit)) := fun f =>
  match fin_state f with
  | AfterBoundary => run_arm f after_boundary_arm
  | FinalCRLF => run_arm f final_crlf_arm
  | DsEof => run_arm f eof_arm
  | DsData | DsDone => (f, Ready (Some (Ok tt)))
  end.

(** The work a stream has left: its states are passed through in order. *)
Definition state_rank (st : DataState) : nat :=
  match st with DsData => 4 | AfterBoundary => 3 | FinalCRLF => 2 | DsEof => 1 | DsDone => 0 end.
Definition fin_work (f : FinalPartDataStream) : nat := work (fin_buffer f) + state_rank (fin_state f).

Definition poll_trailer : pollm FinalPartDataStream (result Error unit) := loop fin_work trailer_turn.

(** One turn of the loop of [FinalPartDataStream::poll_next]. *)
Definition Final_poll_next_turn : pollm FinalPartDataStream (option (option (result Error bytes))) := fun f =>
  if fin_terminated f then (f, Ready (Some None))
  else
    match fin_state f with
    | DsData =>
        match Final_poll_data f with
        | (f, Pending) => (f, Pending)
        | (f, Ready (Ok (Some item))) => (f, Ready (Some (Some (Ok item))))
        | (f, Ready (Ok None)) => (f, Ready None)
        | (f, Ready (Err err)) => (terminate f, Ready (Some (Some (Err err))))
        end
    | AfterBoundary | FinalCRLF | DsEof =>
        match poll_trailer f with
        | (f, Pending) => (f, Pending)
        | (f, Ready (Err err)) => (terminate f, Ready (Some (Some (Err err))))
        | (f, Ready (Ok _)) => (f, Ready None)
        end
    | DsDone => (f, Ready (Some None))
    end.

Definition Final_poll_next : pollm FinalPartDataStream (option (result Error bytes)) :=
  loop fin_work Final_poll_next_turn.
End Data.

(** ** The data loop: lemmas *)

Section DataLemmas.
Context `{Memchr}.

Lemma data_turn_progresses d : turn_progresses work (data_turn d).
Proof.
  intros b. unfold data_turn.
  destruct (poll_stream b) as [b' p] eqn:E. destruct (poll_stream_work _ _ _ E) as [Hs Hw].
  set (pull := match p with Ready _ => _ | Pending => _ end).
  assert (Hpull : match pull with
                  | (b', Pending) | (b', Ready None) => work b' < work b
                  | (b', Ready (Some _)) => work b' <= work b
                  end).
  { unfold pull. clear pull. destruct p as [[[chunk|e]|]|]; simpl; [|lia..].
    destruct (negb _); [unfold work in *; simpl; rewrite length_app; lia|].
    destruct (search_data chunk d); unfold work in *; simpl; rewrite ?length_app, ?length_drop; lia. }
  clearbody pull. destruct (negb _); [|done].
  destruct (search_data (buf b) d); [..|done]; unfold work; simpl; rewrite ?length_drop; lia.
Qed.

(** What one pass of the loop does to the bytes that remain. *)
Definition data_done (total : Z) (d s : bytes) (b : StreamBuffer) (o : data_outcome) : Prop :=
  match o with
  | Chunk c => c <> [] /\ exists s', s = c ++ s' /\ feeds total b s' /\ no_start d (length c) s
  | AtDelimiter c => exists s', s = c ++ d ++ s' /\ feeds total b s' /\ find_sub d s = Some (length c)
  | Failed _ => False
  | Ended => feeds total b s /\ find_sub d s = None
  end.

(** The four ways a turn uses a buffer [b] that feeds [s] and whose bytes it searched. *)
Lemma search_data_use total d s b :
  d <> [] -> feeds total b s ->
  match search_data (buf b) d with
  | Found index => data_done total d s (advance (length d) (advance index b)) (AtDelimiter (take index (buf b)))
  | Emit end_ => data_done total d s (advance end_ b) (Chunk (take end_ (buf b)))
  | KeepAll => find_sub d (buf b) = None
  end.
Proof.
  intros Hd Hf. destruct (feeds_prefix _ _ _ Hf) as [t Ht].
  pose proof (search_data_spec (buf b) d Hd) as Hs. destruct (search_data (buf b) d) as [i|e|].
  - pose proof (find_sub_bound _ _ _ Hs) as Hb. exists (drop (length d) (drop i s)).
    pose proof (find_sub_Some _ _ _ Hs) as (Heq & _).
    assert (Hi : length (take i (buf b)) = i) by (rewrite length_take; lia). split_and!.
    + rewrite Ht, drop_app_le by lia. rewrite (drop_app_le (drop i (buf b))) by (rewrite length_drop; lia).
      rewrite drop_drop. rewrite Heq at 1. by rewrite <- !app_assoc.
    + apply feeds_advance; [simpl; rewrite length_drop; lia|]. apply feeds_advance; [lia|done].
    + rewrite Hi, Ht. by apply find_sub_extend.
  - destruct Hs as (Hb & Hn & _). assert (He : length (take e (buf b)) = e) by (rewrite length_take; lia).
    split; [intros E0; rewrite E0 in He; simpl in He; lia|]. exists (drop e s). split_and!.
    + rewrite Ht, drop_app_le by lia. by rewrite app_assoc, take_drop.
    + apply feeds_advance; [lia|done].
    + rewrite He, Ht. apply Hn.
  - apply find_sub_None. intros j. apply starts_with_false_nil. rewrite length_drop. lia.
Qed.

Lemma data_turn_spec total d s b :
  d <> [] -> feeds total b s ->
  match data_turn d b with
  | (b', Pending) | (b', Ready None) => feeds total b' s
  | (b', Ready (Some o)) => data_done total d s b' o
  end.
Proof.
  intros Hd Hf. unfold data_turn. destruct (poll_stream b) as [b' p] eqn:Ep.
  destruct (poll_stream_work _ _ _ Ep) as [[Hb _ _] _].
  pose proof (poll_stream_feeds _ _ _ _ _ Hf Ep) as Hp.
  set (pull := match p with Ready _ => _ | Pending => _ end).
  assert (Hpull : find_sub d (buf b) = None ->
                  match pull with
                  | (b', Pending) | (b', Ready None) => feeds total b' s
                  | (b', Ready (Some o)) => data_done total d s b' o
                  end).
  { intros Hnone. unfold pull. clear pull. destruct p as [[[chunk|e]|]|]; [|done| |done].
    - destruct Hp as [_ Hf']. case_bool_decide as Hnil; [|done]. simpl.
      pose proof (search_data_use _ d _ _ Hd Hf') as Hu.
      assert (Hx : forall n, advance n (extend chunk b') = extend (drop n chunk) b').
      { intros n. unfold extend, advance, set_buf. simpl. by rewrite Hnil. }
      assert (Hx2 : forall i, advance (length d) (advance i (extend chunk b')) = set_buf (drop (i + length d) chunk) b').
      { intros n. rewrite Hx. unfold extend, advance, set_buf. simpl. rewrite Hnil. simpl. by rewrite drop_drop. }
      replace (buf (extend chunk b')) with chunk in Hu by (simpl; by rewrite Hnil).
      destruct (search_data chunk d); [by rewrite Hx2 in Hu|by rewrite Hx in Hu|done].
    - destruct Hp as [Hf' Hs]. split; [done|]. by rewrite Hs, Hb. }
  clearbody pull. case_bool_decide as Hnil; simpl.
  - apply Hpull. rewrite Hnil. by destruct d.
  - pose proof (search_data_use _ d _ _ Hd Hf) as Hu. destruct (search_data (buf b) d); [done|done|]. by apply Hpull.
Qed.

Lemma data_loop_spec total d s b :
  d <> [] -> feeds total b s ->
  match data_loop d b with
  | (b', Pending) => feeds total b' s
  | (b', Ready o) => data_done total d s b' o
  end.
Proof.
  intros Hd. apply (loop_inv work (data_turn d) (fun b => feeds total b s) (fun b => feeds total b s)
    (fun b o => data_done total d s b o) (data_turn_progresses d)).
  intros b'. by apply data_turn_spec.
Qed.

(** A chunk that is handed out uses up work, whatever the stream does. *)
Lemma data_turn_work d b b' o :
  data_turn d b = (b', Ready (Some o)) ->
  match o with Chunk _ => work b' < work b | AtDelimiter c => work b' + length c <= work b | _ => True end.
Proof.
  unfold data_turn. destruct (poll_stream b) as [b1 p] eqn:Ep.
  destruct (poll_stream_work _ _ _ Ep) as [[Hb _ _] Hw].
  set (pull := match p with Ready _ => _ | Pending => _ end).
  assert (Hpull : pull = (b', Ready (Some o)) ->
    match o with Chunk _ => work b' < work b | AtDelimiter c => work b' + length c <= work b | _ => True end).
  { unfold pull. clear pull. destruct p as [[[chunk|e]|]|]; [|by intros [= <- <-]..|done].
    case_bool_decide as Hnil; [|done]. simpl.
    destruct (search_data chunk d); intros [= <- <-]; unfold work in *; simpl;
      rewrite ?length_app, ?length_drop, ?length_take; lia. }
  clearbody pull. case_bool_decide as Hnil; simpl; [done|].
  assert (0 < length (buf b)) by (destruct (buf b); [done|simpl; lia]).
  destruct (search_data (buf b) d) as [i|e|] eqn:Es; [| |done]; intros [= <- <-]; unfold work; simpl;
    rewrite ?length_drop, ?length_take; [lia|].
  unfold search_data in Es. destruct (memmem_find _ _); [done|]. 
  destruct (_ <? length (buf b))%nat eqn:El in Es; [|done]. reflect_bools. simplify_eq. lia.
Qed.

Lemma data_loop_work d b b' p :
  data_loop d b = (b', p) ->
  match p with
  | Pending | Ready (Chunk _) => work b' < work b
  | Ready (AtDelimiter c) => work b' + length c <= work b
  | Ready _ => work b' <= work b
  end.
Proof.
  intros E. unfold data_loop in E. revert E.
  refine (loop_ind work (data_turn d) (fun _ => True) (fun b o => o = (b', p) ->
    match p with
    | Pending | Ready (Chunk _) => work b' < work b
    | Ready (AtDelimiter c) => work b' + length c <= work b
    | Ready _ => work b' <= work b
    end) (turn_decreasing work _ (data_turn_progresses d)) _ b I).
  intros s _. pose proof (data_turn_progresses d s) as Hp.
  destruct (data_turn d s) as [s' [[o|]|]] eqn:E.
  - apply data_turn_work in E. intros [= <- <-]. destruct o; done.
  - split; [done|]. intros [b1 p1] Hq E1. specialize (Hq E1). destruct p as [[]|]; lia.
  - by intros [= <- <-].
Qed.
End DataLemmas.

(** ** The data stream: lemmas *)

Definition part_work (p : PartDataStream) : nat := work (buffer p).

Section PartLemmas.
Context `{Memchr}.

Lemma part_poll_work p p' o :
  PartDataStream_poll_data p = (p', o) ->
  match o with Pending | Ready (Some (Ok _)) => part_work p' < part_work p | _ => True end.
Proof.
  unfold PartDataStream_poll_data, part_work. destruct (_ || _); [by intros [= <- <-]|].
  destruct (data_loop _ _) as [b [[c|c|e|]|]] eqn:E; apply data_loop_work in E; intros [= <- <-]; simpl; [done| |done..].
  case_bool_decide as Hc; [done|]. destruct c; [done|]. simpl in E. lia.
Qed.

(** The outcome of reading a data stream that has [s] left to parse. *)
Definition part_read (total : Z) (d s : bytes) (chunks : list bytes) (r : option Error) (p : PartDataStream) : Prop :=
  Forall (fun c => c <> []) chunks /\
  match find_sub d s with
  | Some i => r = None /\ concat chunks = take i s /\ done p = true /\
              feeds total (buffer p) (drop (i + length d) s)
  | None => r = Some IncompleteStreamPart /\ terminated p = true /\ exists tail, s = concat chunks ++ tail
  end.

Lemma part_read_cons total d c s chunks r p :
  c <> [] -> no_start d (length c) (c ++ s) -> part_read total d s chunks r p ->
  part_read total d (c ++ s) (c :: chunks) r p.
Proof.
  intros Hc Hn [Hf Hr]. split; [by constructor|]. rewrite (find_sub_skip d c s) by done.
  destruct (find_sub d s) as [i|]; simpl.
  - destruct Hr as (-> & Hcat & ? & ?). rewrite Hcat. split_and!; [done| |done|].
    + rewrite take_app_add. done.
    + rewrite <- Nat.add_assoc. by rewrite drop_app_add.
  - destruct Hr as (-> & ? & tail & ->). split_and!; [done..|]. exists tail. by rewrite app_assoc.
Qed.

Lemma part_read_correct total d s p :
  d <> [] -> delimiter_finder p = d -> done p = false -> terminated p = false -> feeds total (buffer p) s ->
  exists p' chunks r, drain part_work PartDataStream_poll_data p = ((p', chunks), Ready r) /\
                      part_read total d s chunks r p'.
Proof.
  intros Hd0 Hd Hdone Hterm Hf.
  destruct (drain_ind part_work PartDataStream_poll_data
    (fun p => delimiter_finder p = d /\ terminated p = false /\ (done p = false -> exists s, feeds total (buffer p) s))
    (fun p l r p1 => if done p then l = [] /\ r = None /\ p1 = p
                     else forall s, feeds total (buffer p) s -> part_read total d s l r p1)) with (s := p)
    as (p' & l & r & E & HQ); [by apply part_poll_work| |by eauto|].
  - clear dependent p. clear s. intros p (Hd & Ht & Hs). unfold PartDataStream_poll_data. rewrite Ht.
    destruct (done p) eqn:Edone; simpl; [done|]. destruct (Hs eq_refl) as [s0 Hf0].
    assert (Hspec : forall s, feeds total (buffer p) s -> _) by (intros s; apply (data_loop_spec total d s (buffer p) Hd0)).
    rewrite Hd. destruct (data_loop d (buffer p)) as [b [[c|c|e|]|]]; simpl.
    + split; [split_and!; [done..|]; intros _; destruct (Hspec _ Hf0) as (_ & s' & _ & ? & _); eauto|].
      intros l r p1 Hq s Hf. destruct (Hspec _ Hf) as (Hc & s' & -> & Hf' & Hn). apply part_read_cons; auto.
    + assert (Hlast : forall s, feeds total (buffer p) s -> part_read total d s (if c =? [] then [] else [c]) None (set_part b true false p)).
      { intros s Hf. destruct (Hspec _ Hf) as (s' & -> & Hf' & Hi). split.
        - case_bool_decide; repeat constructor; done.
        - rewrite Hi. rewrite drop_app_ge, take_app_length, Nat.add_comm, Nat.add_sub, drop_app_length by lia.
          split_and!; [done| |done|done]. case_bool_decide as Hc; [by rewrite Hc|]. simpl. by rewrite app_nil_r. }
      case_bool_decide as Hc.
      * intros s Hf. specialize (Hlast s Hf). done.
      * split; [done|]. intros l r p1 (-> & -> & ->) s Hf. by apply Hlast.
    + by destruct (Hspec _ Hf0).
    + intros s Hf. destruct (Hspec _ Hf) as (Hf' & Hi). split; [constructor|]. rewrite Hi. split_and!; [done..|]. by exists s.
    + split; [split_and!; [done..|]; intros _; exists s0; by apply Hspec|]. intros l r p1 Hq s Hf. apply Hq. by apply Hspec.
  - rewrite Hdone in HQ. exists p', l, r. auto.
Qed.
End PartLemmas.

(** ** The closing trailer: specification *)

Definition is_padding (c : byte) : bool := (c =? " "%byte) || (c =? x09).

(** What the strict stream makes of the bytes after the closing [--]: no error, or the error. *)
Fixpoint closing_line (t : bytes) : option Error :=
  match t with
  | [] => Some IncompleteStreamPart
  | c :: t' =>
      if is_padding c then closing_line t'
      else if c =? x0d then
        match t' with
        | [] => Some IncompleteStreamPart
        | c' :: t'' => if c' =? x0a then (if t'' =? [] then None else Some StreamPartNotLast) else Some InvalidFormat
        end
      else Some InvalidFormat
  end.

(** What it makes of the bytes after the delimiter. *)
Definition trailer_verdict (s : bytes) : option Error :=
  match s with
  | c :: c' :: t =>
      if (c =? "-"%byte) && (c' =? "-"%byte) then closing_line t
      else if (c =? x0d) || is_padding c then Some StreamPartNotLast else Some InvalidFormat
  | _ => Some IncompleteStreamPart
  end.

(** The bytes it accepts: [--], padding, and the final line end. *)
Lemma closing_line_ok t :
  closing_line t = None <-> exists pad, t = pad ++ [x0d; x0a] /\ forallb is_padding pad = true.
Proof.
  induction t as [|c t IH]; simpl.
  - split; [done|]. intros ([|] & ? & _); done.
  - destruct (is_padding c) eqn:Ec.
    + rewrite IH. split.
      * intros (pad & -> & Hp). exists (c :: pad). simpl. by rewrite Ec.
      * intros ([|c0 pad] & Heq & Hp); simplify_eq/=.
        exists pad. split; [done|]. by apply andb_true_iff in Hp as [_ ?].
    + assert (Hpad : forall pad, c :: t = pad ++ [x0d; x0a] -> forallb is_padding pad = true -> pad = []).
      { intros [|c0 pad] Heq Hp; [done|]. simplify_eq/=. by rewrite Ec in Hp. }
      split.
      * case_bool_decide as Hcr; [|done]. destruct t as [|c' t]; [done|].
        case_bool_decide as Hc'; [|done]. case_bool_decide as Ht; [|done]. intros _. exists []. by subst.
      * intros (pad & Heq & Hp). rewrite (Hpad _ Heq Hp) in Heq. by simplify_eq/=.
Qed.

Lemma trailer_verdict_ok s :
  trailer_verdict s = None <-> exists pad, s = str "--" ++ pad ++ [x0d; x0a] /\ forallb is_padding pad = true.
Proof.
  split.
  - destruct s as [|c [|c' t]]; simpl; [done..|].
    destruct (_ && _) eqn:E; [|by destruct (_ || _)]. reflect_bools. subst. intros (pad & -> & Hp)%closing_line_ok.
    by exists pad.
  - intros (pad & -> & Hp). simpl. apply closing_line_ok. eauto.
Qed.

(** What is left to check in each state. *)
Definition verdict_from (st : DataState) (s : bytes) : option Error :=
  match st with
  | AfterBoundary => trailer_verdict s
  | FinalCRLF => closing_line s
  | DsEof => if s =? [] then None else Some StreamPartNotLast
  | DsData | DsDone => None
  end.

Definition in_trailer (st : DataState) : Prop := st = AfterBoundary \/ st = FinalCRLF \/ st = DsEof.

(** ** The closing trailer: lemmas *)

Section TrailerLemmas.
Context `{Memchr}.

Lemma fill_buf_turn_progresses e n : turn_progresses work (fill_buf_turn e n).
Proof.
  intros b. unfold fill_buf_turn. destruct (_ <? _)%nat; [|done].
  destruct (poll_stream b) as [b' p] eqn:E. destruct (poll_stream_work _ _ _ E) as [Hs Hw].
  destruct p as [[[chunk|e']|]|]; unfold work in *; simpl; rewrite ?length_app; lia.
Qed.

Lemma fill_buf_progresses n : progresses work (fill_buf n).
Proof. apply loop_progresses, fill_buf_turn_progresses. Qed.

Lemma fill_loop_spec total at_end n s b :
  feeds total b s ->
  match loop work (fill_buf_turn at_end n) b with
  | (b', Pending) => feeds total b' s
  | (b', Ready (Ok _)) => feeds total b' s /\ n <= length (buf b')
  | (b', Ready (Err e)) => e = at_end /\ length s < n
  end.
Proof.
  intros Hf. pose proof (loop_inv work (fill_buf_turn at_end n) (fun b => feeds total b s) (fun b => feeds total b s)
    (fun b r => match r with
                | Ok _ => feeds total b s /\ n <= length (buf b)
                | Err e => e = at_end /\ length s < n
                end) (fill_buf_turn_progresses at_end n)) as Hl.
  refine ((fun Hstep => _ (Hl Hstep b Hf)) _); clear Hl.
  - by destruct (loop work (fill_buf_turn at_end n) b) as [b' [[]|]].
  - clear b Hf. intros b Hf. unfold fill_buf_turn. destruct (_ <? _)%nat eqn:El; reflect_bools; [|done].
    destruct (poll_stream b) as [b' p] eqn:Ep. pose proof (poll_stream_feeds _ _ _ _ _ Hf Ep) as Hp.
    destruct (poll_stream_work _ _ _ Ep) as [[Hb _ _] _].
    destruct p as [[[chunk|e]|]|]; [by destruct Hp|done| |done].
    destruct Hp as [_ ->]. by rewrite Hb.
Qed.

Lemma fill_buf_spec total n s b :
  feeds total b s ->
  match fill_buf n b with
  | (b', Pending) => feeds total b' s
  | (b', Ready (Ok _)) => feeds total b' s /\ n <= length (buf b')
  | (b', Ready (Err e)) => e = IncompleteStreamPart /\ length s < n
  end.
Proof. apply fill_loop_spec. Qed.

(** An arm that checks what [verdict] says of the bytes to come. *)
Definition arm_checks (total : Z) (verdict : bytes -> option Error)
    (arm : pollm StreamBuffer (result Error DataState)) : Prop :=
  forall b s, feeds total b s ->
  match arm b with
  | (b', Pending) => exists s', feeds total b' s' /\ verdict s' = verdict s
  | (b', Ready (Ok st)) => (in_trailer st \/ st = DsDone) /\
                           exists s', feeds total b' s' /\ verdict_from st s' = verdict s
  | (b', Ready (Err e)) => verdict s = Some e
  end.

Lemma after_boundary_checks total : arm_checks total trailer_verdict after_boundary_arm.
Proof.
  intros b s Hf. unfold after_boundary_arm, ready_try, mbind, pollm_bind.
  pose proof (fill_buf_spec total 2 s b Hf) as Hs. destruct (fill_buf 2 b) as [b' [[[]|e]|]]; [| |eauto].
  - destruct Hs as [Hf' Hl]. pose proof (feeds_advance total b' s 2 Hl Hf') as Hadv.
    destruct (feeds_prefix _ _ _ Hf') as [t ->]. destruct (buf b') as [|c [|c' x]] eqn:Eb; simpl in Hl; [lia..|].
    unfold starts_with. simpl. repeat case_bool_decide; simplify_eq/=; try done;
      try (unfold is_padding; simpl; repeat rewrite bool_decide_eq_true_2 by done; rewrite ?orb_true_r; done).
    all: try (split; [by left; right; left|]; eexists; split; [exact Hadv|done]).
    all: unfold is_padding; repeat rewrite bool_decide_eq_false_2 by done; done.
  - destruct Hs as [-> Hl]. destruct s as [|c [|c' t]]; simpl in *; [done..|lia].
Qed.
End TrailerLemmas.

Section FinalLemmas.
Context `{Memchr}.

Lemma padding_turn_progresses : turn_progresses work padding_turn.
Proof.
  intros b. unfold padding_turn. pose proof (fill_buf_progresses 1 b) as Hp.
  destruct (fill_buf 1 b) as [b' [[[]|e]|]]; [|done..].
  destruct (buf b') as [|c x] eqn:Eb; [done|]. destruct (_ || _).
  - pose proof (advance_work 1 b') as Ha. rewrite Eb in Ha. simpl in Ha. lia.
  - by destruct (c =? x0d).
Qed.

Lemma padding_spec total s b :
  feeds total b s ->
  match loop work padding_turn b with
  | (b', Pending) => exists s', feeds total b' s' /\ closing_line s' = closing_line s
  | (b', Ready (Ok _)) => exists s', feeds total b' s' /\ closing_line s' = closing_line s /\ exists x, buf b' = x0d :: x
  | (b', Ready (Err e)) => closing_line s = Some e
  end.
Proof.
  intros Hf. pose proof (loop_inv work padding_turn
    (fun b => exists s', feeds total b s' /\ closing_line s' = closing_line s)
    (fun b => exists s', feeds total b s' /\ closing_line s' = closing_line s)
    (fun b r => match r with
                | Ok _ => exists s', feeds total b s' /\ closing_line s' = closing_line s /\ exists x, buf b = x0d :: x
                | Err e => closing_line s = Some e
                end) padding_turn_progresses) as Hl.
  assert (Hb : exists s', feeds total b s' /\ closing_line s' = closing_line s) by eauto.
  refine ((fun Hstep => _ (Hl Hstep b Hb)) _); clear Hl.
  - destruct (loop work padding_turn b) as [b' [[[]|e]|]]; auto.
  - clear b Hf Hb. intros b (s1 & Hf & <-). unfold padding_turn. pose proof (fill_buf_spec total 1 s1 b Hf) as Hp.
    destruct (fill_buf 1 b) as [b' [[[]|e]|]]; [| |eauto].
    + destruct Hp as [Hf' Hl]. pose proof (feeds_advance total b' s1 1 Hl Hf') as Hadv.
      destruct (feeds_prefix _ _ _ Hf') as [t ->]. destruct (buf b') as [|c x] eqn:Eb; simpl in Hl; [lia|].
      simpl. fold (is_padding c). destruct (is_padding c) eqn:Ec.
      * exists (x ++ t). split; [exact Hadv|done].
      * case_bool_decide as Hc; [|done]. exists ((c :: x) ++ t). split_and!; [done| |].
        -- simpl. rewrite Ec. by rewrite bool_decide_eq_true_2.
        -- exists x. by rewrite Eb, Hc.
    + destruct Hp as [-> Hl]. destruct s1; [done|simpl in Hl; lia].
Qed.

Lemma final_crlf_checks total : arm_checks total closing_line final_crlf_arm.
Proof.
  intros b s Hf. unfold final_crlf_arm, ready_try, mbind, pollm_bind.
  pose proof (padding_spec total s b Hf) as Hp. destruct (loop work padding_turn b) as [b1 [[[]|e]|]]; [|done..].
  destruct Hp as (s1 & Hf1 & <- & x & Hx). pose proof (fill_buf_spec total 2 s1 b1 Hf1) as Hs.
  destruct (feeds_prefix _ _ _ Hf1) as [t1 Ht1]. rewrite Hx in Ht1.
  destruct (fill_buf 2 b1) as [b' [[[]|e]|]]; [| |eauto].
  - destruct Hs as [Hf' Hl]. pose proof (feeds_advance total b' s1 2 Hl Hf') as Hadv.
    destruct (feeds_prefix _ _ _ Hf') as [t ->]. destruct (buf b') as [|c [|c' y]] eqn:Eb; simpl in Hl; [lia..|].
    injection Ht1 as -> _. unfold starts_with. simpl.
    destruct (decide (c' = x0a)) as [->|Hc'].
    + simpl. split; [left; right; by right|]. exists (y ++ t). split; [exact Hadv|done].
    + by rewrite !bool_decide_eq_false_2.
  - destruct Hs as [-> Hl]. rewrite Ht1 in *. simpl in *. destruct (x ++ t1); [done|simpl in Hl; lia].
Qed.

Lemma eof_checks total : arm_checks total (verdict_from DsEof) eof_arm.
Proof.
  intros b s Hf. unfold eof_arm. destruct (feeds_prefix _ _ _ Hf) as [t Ht].
  case_bool_decide as Hb; simpl.
  - destruct (poll_stream b) as [b' p] eqn:Ep. pose proof (poll_stream_feeds _ _ _ _ _ Hf Ep) as Hp.
    destruct (poll_stream_work _ _ _ Ep) as [[Hb' _ _] _].
    destruct p as [[[chunk|e]|]|]; [|done| |eauto].
    + destruct Hp as [Hne Hp]. destruct (feeds_prefix _ _ _ Hp) as [t' ->]. simpl. rewrite Hb', Hb.
      rewrite bool_decide_eq_false_2; [done|]. by destruct chunk.
    + destruct Hp as [Hp Hs]. split; [by right|]. exists s. split; [done|]. by rewrite Hs, Hb', Hb.
  - rewrite bool_decide_eq_false_2; [done|]. rewrite Ht. by destruct (buf b).
Qed.

(** Each arm leads to a state closer to the end, and uses up no more than there is. *)
Lemma arm_progress (f : FinalPartDataStream) (arm : pollm StreamBuffer (result Error DataState)) b p :
  (fin_state f = AfterBoundary /\ arm = after_boundary_arm \/ fin_state f = FinalCRLF /\ arm = final_crlf_arm \/
   fin_state f = DsEof /\ arm = eof_arm) ->
  arm (fin_buffer f) = (b, p) ->
  match p with
  | Pending => work b < work (fin_buffer f)
  | Ready (Ok st) => state_rank st < state_rank (fin_state f) /\ work b <= work (fin_buffer f)
  | Ready (Err _) => work b <= work (fin_buffer f)
  end.
Proof.
  intros [[-> ->]|[[-> ->]|[-> ->]]] E.
  - unfold after_boundary_arm, ready_try, mbind, pollm_bind, mret, pollm_ret in E.
    pose proof (fill_buf_progresses 2 (fin_buffer f)) as Hp.
    destruct (fill_buf 2 _) as [b' [[[]|e]|]]; [|simplify_eq; lia..].
    destruct (negb _); simplify_eq; [lia|]. simpl. split; [lia|]. pose proof (advance_work 2 b'). lia.
  - unfold final_crlf_arm, ready_try, mbind, pollm_bind, mret, pollm_ret in E.
    pose proof (loop_progresses work _ padding_turn_progresses (fin_buffer f)) as Hp.
    destruct (loop work padding_turn _) as [b1 [[[]|e]|]]; [|simplify_eq; lia..].
    pose proof (fill_buf_progresses 2 b1) as Hp2.
    destruct (fill_buf 2 b1) as [b' [[[]|e]|]]; [|simplify_eq; lia..].
    destruct (negb _); simplify_eq; [lia|]. simpl. split; [lia|]. pose proof (advance_work 2 b'). lia.
  - unfold eof_arm in E. destruct (negb _); [simplify_eq; lia|].
    destruct (poll_stream _) as [b' q] eqn:Ep. destruct (poll_stream_work _ _ _ Ep) as [_ Hw].
    destruct q as [[[chunk|e]|]|]; simplify_eq; simpl; lia.
Qed.

Lemma trailer_turn_progresses : turn_progresses fin_work trailer_turn.
Proof.
  intros f. unfold trailer_turn.
  assert (Hrun : forall arm, (fin_state f = AfterBoundary /\ arm = after_boundary_arm \/
      fin_state f = FinalCRLF /\ arm = final_crlf_arm \/ fin_state f = DsEof /\ arm = eof_arm) ->
    match run_arm f arm with
    | (b', Pending) | (b', Ready None) => fin_work b' < fin_work f
    | (b', Ready (Some _)) => fin_work b' <= fin_work f
    end).
  { intros arm Ha. unfold run_arm. destruct (arm (fin_buffer f)) as [b p] eqn:E. apply arm_progress in E; [|done].
    destruct p as [[[]|e]|]; unfold fin_work; simpl in *; lia. }
  destruct (fin_state f); first [done | apply Hrun; tauto].
Qed.

Definition trailer_at (total : Z) (v : option Error) (f : FinalPartDataStream) : Prop :=
  in_trailer (fin_state f) /\ exists s, feeds total (fin_buffer f) s /\ verdict_from (fin_state f) s = v.

Lemma trailer_turn_spec total v f :
  trailer_at total v f ->
  match trailer_turn f with
  | (f', Pending) | (f', Ready None) => trailer_at total v f' /\ fin_terminated f' = fin_terminated f
  | (f', Ready (Some r)) => fin_terminated f' = fin_terminated f /\
      match r with Ok _ => v = None /\ fin_state f' = DsDone | Err e => v = Some e end
  end.
Proof.
  intros [Hst (s & Hf & Hv)]. unfold trailer_turn.
  assert (Hrun : forall arm, arm_checks total (verdict_from (fin_state f)) arm ->
    match run_arm f arm with
    | (f', Pending) | (f', Ready None) => trailer_at total v f' /\ fin_terminated f' = fin_terminated f
    | (f', Ready (Some r)) => fin_terminated f' = fin_terminated f /\
        match r with Ok _ => v = None /\ fin_state f' = DsDone | Err e => v = Some e end
    end).
  { intros arm Ha. unfold run_arm. specialize (Ha _ _ Hf). rewrite Hv in Ha.
    destruct (arm (fin_buffer f)) as [b [[st|e]|]].
    - destruct Ha as [Hin (s' & Hf' & Hv')].
      destruct st; try (split; [|done]; split; [|eexists; eauto]; destruct Hin as [?|?]; done).
      split; [done|]. by rewrite <- Hv'.
    - done.
    - destruct Ha as (s' & Hf' & Hv'). split; [|done]. split; [done|]. eexists. eauto. }
  destruct Hst as [Hst|[Hst|Hst]]; rewrite Hst in *; apply Hrun;
    [apply after_boundary_checks|apply final_crlf_checks|apply eof_checks].
Qed.

Lemma poll_trailer_spec total v f :
  trailer_at total v f ->
  match poll_trailer f with
  | (f', Pending) => trailer_at total v f' /\ fin_terminated f' = fin_terminated f
  | (f', Ready r) => fin_terminated f' = fin_terminated f /\
      match r with Ok _ => v = None /\ fin_state f' = DsDone | Err e => v = Some e end
  end.
Proof.
  intros Hf. apply (loop_inv fin_work trailer_turn
    (fun f' => trailer_at total v f' /\ fin_terminated f' = fin_terminated f)
    (fun f' => trailer_at total v f' /\ fin_terminated f' = fin_terminated f)
    (fun f' r => fin_terminated f' = fin_terminated f /\
       match r with Ok _ => v = None /\ fin_state f' = DsDone | Err e => v = Some e end) trailer_turn_progresses); [|done].
  intros f' [Hf' <-]. by apply trailer_turn_spec.
Qed.
End FinalLemmas.

Section StrictProgress.
Context `{Memchr}.

Lemma trailer_turn_strict f f' :
  in_trailer (fin_state f) -> trailer_turn f = (f', Ready (Some (Ok tt))) -> fin_work f' < fin_work f.
Proof.
  intros Hst. unfold trailer_turn.
  assert (Hrun : forall arm, (fin_state f = AfterBoundary /\ arm = after_boundary_arm \/
      fin_state f = FinalCRLF /\ arm = final_crlf_arm \/ fin_state f = DsEof /\ arm = eof_arm) ->
    run_arm f arm = (f', Ready (Some (Ok tt))) -> fin_work f' < fin_work f).
  { intros arm Ha. unfold run_arm. destruct (arm (fin_buffer f)) as [b p] eqn:E. apply arm_progress in E; [|done].
    destruct p as [[[]|e]|]; intros [= <-]. unfold fin_work. simpl in *. lia. }
  destruct Hst as [Hst|[Hst|Hst]]; rewrite Hst; apply Hrun; tauto.
Qed.

Lemma poll_trailer_work f :
  in_trailer (fin_state f) ->
  match poll_trailer f with
  | (f', Ready (Err _)) => fin_work f' <= fin_work f
  | (f', _) => fin_work f' < fin_work f
  end.
Proof.
  refine (proj2 (loop_ind fin_work trailer_turn (fun _ => True) (fun f o =>
    (match o with (f', Pending) => fin_work f' < fin_work f | (f', _) => fin_work f' <= fin_work f end) /\
    (in_trailer (fin_state f) ->
     match o with
     | (f', Ready (Err _)) => fin_work f' <= fin_work f
     | (f', _) => fin_work f' < fin_work f
     end)) (turn_decreasing _ _ trailer_turn_progresses) _ f I)).
  clear f. intros f _. pose proof (trailer_turn_progresses f) as Hp. pose proof (trailer_turn_strict f) as Hs.
  destruct (trailer_turn f) as [f' [[[[]|e]|]|]].
  - split; [done|]. intros Hin. by apply Hs.
  - done.
  - split; [done|]. intros [f1 [[]|]] [Hq _]; split; intros; lia.
  - done.
Qed.

Lemma final_turn_progresses : turn_progresses fin_work Final_poll_next_turn.
Proof.
  intros f. unfold Final_poll_next_turn. destruct (fin_terminated f); [done|].
  pose proof (poll_trailer_work f) as Htr.
  destruct (fin_state f) eqn:Est; [|destruct (poll_trailer f) as [f' [[[]|e]|]]; apply Htr; unfold in_trailer; tauto..|done].
  unfold Final_poll_data. destruct (aborted f); [done|].
  destruct (data_loop _ _) as [b [[c|c|e|]|]] eqn:E; apply data_loop_work in E; unfold fin_work; simpl; rewrite ?Est; simpl; try lia.
  case_bool_decide; unfold fin_work; simpl; rewrite ?Est; simpl; lia.
Qed.

(** A poll that hands out a chunk or suspends uses up work. *)
Lemma final_next_work f :
  match Final_poll_next f with
  | (f', Pending) | (f', Ready (Some (Ok _))) => fin_work f' < fin_work f
  | _ => True
  end.
Proof.
  refine (loop_ind fin_work Final_poll_next_turn (fun _ => True) (fun f o =>
    match o with
    | (f', Pending) | (f', Ready (Some (Ok _))) => fin_work f' < fin_work f
    | _ => True
    end) (turn_decreasing _ _ final_turn_progresses) _ f I).
  clear f. intros f _. pose proof (final_turn_progresses f) as Hp.
  destruct (Final_poll_next_turn f) as [f' [[[[c|e]|]|]|]] eqn:E; try done.
  - unfold Final_poll_next_turn in E. destruct (fin_terminated f); [done|].
    destruct (fin_state f) eqn:Est; [|by destruct (poll_trailer f) as [f1 [[[]|e]|]]..|done].
    unfold Final_poll_data in E. destruct (aborted f); [done|].
    destruct (data_loop _ _) as [b [[c1|c1|e|]|]] eqn:El; apply data_loop_work in El; try done.
    + simplify_eq. unfold fin_work. simpl. lia.
    + case_bool_decide; [done|]. simplify_eq. unfold fin_work. simpl. rewrite Est. simpl. lia.
  - split; [done|]. intros [f1 [[[]|]|]]; lia.
Qed.
End StrictProgress.

(** ** The strict stream: lemmas

    The stream is seen as one of two things: data to come, with the bytes that remain, or a
    trailer whose verdict is settled by the bytes that remain. *)

Inductive final_view := ViewData (s : bytes) | ViewTrailer (v : option Error).

Section StrictLemmas.
Context `{Memchr}.
Context (total : Z) (d : bytes).

Definition at_view (f : FinalPartDataStream) (a : final_view) : Prop :=
  fin_terminated f = false /\
  match a with
  | ViewData s => fin_state f = DsData /\ fin_delimiter_finder f = d /\ aborted f = false /\ feeds total (fin_buffer f) s
  | ViewTrailer v => trailer_at total v f \/ (fin_state f = DsDone /\ v = None)
  end.

(** The chunks and the ending a reader gets. *)
Definition view_read (a : final_view) (chunks : list bytes) (r : option Error) : Prop :=
  match a with
  | ViewData s =>
      Forall (fun c => c <> []) chunks /\
      match find_sub d s with
      | Some i => concat chunks = take i s /\ r = trailer_verdict (drop (i + length d) s)
      | None => r = Some IncompleteStreamPart /\ exists tail, s = concat chunks ++ tail
      end
  | ViewTrailer v => chunks = [] /\ r = v
  end.

(** [leads a a' c]: what is read from [a'] is, after the chunk [c] if there is one, what is read from [a]. *)
Definition leads (a a' : final_view) (c : list bytes) : Prop :=
  forall l r, view_read a' l r -> view_read a (c ++ l) r.

Lemma leads_chunk c s :
  c <> [] -> no_start d (length c) (c ++ s) -> leads (ViewData (c ++ s)) (ViewData s) [c].
Proof.
  intros Hc Hn l r [Hl Hr]. split; [by constructor|]. rewrite (find_sub_skip d c s) by done.
  destruct (find_sub d s) as [i|]; simpl.
  - destruct Hr as [-> ->]. by rewrite take_app_add, <- Nat.add_assoc, drop_app_add.
  - destruct Hr as [-> (tail & ->)]. split; [done|]. exists tail. by rewrite app_assoc.
Qed.

Lemma leads_delimiter c s :
  find_sub d (c ++ d ++ s) = Some (length c) ->
  leads (ViewData (c ++ d ++ s)) (ViewTrailer (trailer_verdict s)) (if c =? [] then [] else [c]).
Proof.
  intros Hi l r [-> ->]. rewrite app_nil_r. split.
  - case_bool_decide; repeat constructor; done.
  - rewrite Hi, take_app_length, drop_app_add, drop_app_length. split; [|done].
    case_bool_decide as Hc; [by rewrite Hc|]. simpl. by rewrite app_nil_r.
Qed.

(** The outcome of a poll, in terms of the views. *)
Definition polled (a : final_view) (f : FinalPartDataStream) (o : poll (option (result Error bytes))) : Prop :=
  match o with
  | Pending => exists a', at_view f a' /\ leads a a' []
  | Ready None => view_read a [] None
  | Ready (Some (Ok c)) => exists a', at_view f a' /\ leads a a' [c]
  | Ready (Some (Err e)) => view_read a [] (Some e)
  end.

Lemma final_turn_spec f a :
  d <> [] -> at_view f a ->
  match Final_poll_next_turn f with
  | (f', Ready None) => exists a', at_view f' a' /\ leads a a' []
  | (f', Ready (Some o)) => polled a f' (Ready o)
  | (f', Pending) => polled a f' Pending
  end.
Proof.
  intros Hd [Ht Ha]. unfold Final_poll_next_turn. rewrite Ht. destruct a as [s|v].
  - destruct Ha as (Hst & Hdel & Hab & Hf). rewrite Hst. unfold Final_poll_data. rewrite Hab, Hdel.
    pose proof (data_loop_spec total d s _ Hd Hf) as Hs.
    destruct (data_loop d (fin_buffer f)) as [b [[c|c|e|]|]]; simpl.
    + destruct Hs as (Hc & s' & -> & Hf' & Hn). exists (ViewData s'). split; [done|]. by apply leads_chunk.
    + destruct Hs as (s' & -> & Hf' & Hi). pose proof (leads_delimiter c s' Hi) as Hl.
      assert (Hv : at_view (set_fin b AfterBoundary f) (ViewTrailer (trailer_verdict s'))).
      { split; [done|left]. split; [by left|]. by exists s'. }
      case_bool_decide; eexists; done.
    + done.
    + destruct Hs as [_ Hi]. split; [constructor|]. rewrite Hi. split; [done|]. by exists s.
    + exists (ViewData s). split; [by split|by intros l r].
  - destruct Ha as [Ha|[Hst ->]]; [|by rewrite Hst].
    pose proof (poll_trailer_spec total v f Ha) as Hs. destruct Ha as [Hst _].
    assert (Hbody : match poll_trailer f with
                    | (f', Pending) => polled (ViewTrailer v) f' Pending
                    | (f', Ready (Err err)) => polled (ViewTrailer v) (terminate f') (Ready (Some (Err err)))
                    | (f', Ready (Ok _)) => exists a', at_view f' a' /\ leads (ViewTrailer v) a' []
                    end).
    { destruct (poll_trailer f) as [f' [[[]|e]|]].
      - destruct Hs as (Ht' & -> & Hd'). exists (ViewTrailer None). split; [split; [congruence|auto]|by intros l r].
      - destruct Hs as [_ ->]. done.
      - destruct Hs as [Hs Ht']. exists (ViewTrailer v). split; [split; [congruence|auto]|by intros l r]. }
    destruct Hst as [-> |[-> | ->]]; destruct (poll_trailer f) as [f' [[[]|e]|]]; done.
Qed.

Lemma final_next_spec f a :
  d <> [] -> at_view f a -> polled a (Final_poll_next f).1 (Final_poll_next f).2.
Proof.
  intros Hd. revert a. unfold Final_poll_next.
  refine (loop_ind fin_work Final_poll_next_turn (fun f => True)
    (fun f o => forall a, at_view f a -> polled a o.1 o.2) (turn_decreasing _ _ final_turn_progresses) _ f I).
  clear f. intros f _. pose proof (fun a => final_turn_spec f a Hd) as Hs.
  destruct (Final_poll_next_turn f) as [f' [[o|]|]]; [done| |done].
  split; [done|]. intros [f1 o] Ho a Ha. destruct (Hs a Ha) as (a' & Ha' & Hl). specialize (Ho a' Ha').
  assert (Htr : forall a'' c, leads a' a'' c -> leads a a'' c) by (intros a'' c Hl' l r Hr; by apply (Hl (c ++ l)), Hl').
  simpl in *. destruct o as [[[c|e]|]|]; simpl in *.
  - destruct Ho as (a'' & ? & ?). eauto.
  - by apply (Hl []).
  - by apply (Hl []).
  - destruct Ho as (a'' & ? & ?). eauto.
Qed.

Lemma final_read_correct f a :
  d <> [] -> at_view f a ->
  exists f' chunks r, drain fin_work Final_poll_next f = ((f', chunks), Ready r) /\ view_read a chunks r.
Proof.
  intros Hd Ha.
  destruct (drain_ind fin_work Final_poll_next (fun f => exists a, at_view f a)
    (fun f l r _ => forall a, at_view f a -> view_read a l r)) with (s := f) as (f' & l & r & E & HQ).
  - intros s s' o E. pose proof (final_next_work s) as Hw. rewrite E in Hw. by destruct o as [[[]|]|].
  - clear f a Ha. intros f [a0 Ha0]. pose proof (fun a => final_next_spec f a Hd) as Hs.
    destruct (Final_poll_next f) as [f' [[[c|e]|]|]]; simpl in *; [|done..|].
    + split; [destruct (Hs _ Ha0) as (a' & ? & _); eauto|].
      intros l r s1 HQ a Ha. destruct (Hs _ Ha) as (a' & Ha' & Hl). by apply (Hl l), HQ.
    + split; [destruct (Hs _ Ha0) as (a' & ? & _); eauto|].
      intros l r s1 HQ a Ha. destruct (Hs _ Ha) as (a' & Ha' & Hl). by apply (Hl l), HQ.
  - eauto.
  - exists f', l, r. auto.
Qed.
End StrictLemmas.

(** ** Claims *)

Section DataClaims.
Context `{Memchr}.

(** The data stream of a part yields exactly the bytes before the first delimiter of
    what remains of the body, as non-empty chunks, however the transport splits or suspends
    it; it then has consumed the delimiter and nothing more.  When there is no delimiter it
    yields a prefix of the bytes and ends with the incomplete-part error. *)
Theorem part_data_stream_correct (total : Z) (b : StreamBuffer) (s boundary : bytes) (k : Z) :
  feeds total b s ->
  let d := make_delimiter boundary in
  exists p chunks r,
    drain part_work PartDataStream_poll_data (PartDataStream_new b d k) = ((p, chunks), Ready r) /\
    Forall (fun c => c <> []) chunks /\
    match find_sub d s with
    | Some i => r = None /\ concat chunks = take i s /\ done p = true /\
                feeds total (buffer p) (drop (i + length d) s)
    | None => r = Some IncompleteStreamPart /\ terminated p = true /\ exists tail, s = concat chunks ++ tail
    end.
Proof. intros Hf d. by apply (part_read_correct total d s (PartDataStream_new b d k)). Qed.

Lemma aborted_read f :
  fin_terminated f = false -> fin_state f = DsData -> aborted f = true ->
  exists f', drain fin_work Final_poll_next f = ((f', []), Ready (Some IncompleteStreamPart)).
Proof.
  intros Ht Hs Ha. unfold drain, loop, Final_poll_next. simpl. unfold loop. simpl.
  unfold Final_poll_next_turn at 1 2 3. rewrite Ht, Hs. unfold Final_poll_data. rewrite Ha. eauto.
Qed.

(** Converted at any point of its life, a data stream becomes a strict stream that
    yields the rest of the data and then accepts only the end of the body: with the bytes
    [s] left to parse it ends without error exactly when [s] is its data, the delimiter,
    [--], padding and a line end, and nothing after that.  A stream that already failed stays
    failed, and one that already reached the delimiter has its trailer checked. *)
Theorem into_final_correct (total : Z) (p : PartDataStream) (s boundary : bytes) :
  feeds total (buffer p) s -> delimiter_finder p = make_delimiter boundary -> done p && terminated p = false ->
  let d := make_delimiter boundary in
  exists f chunks r,
    drain fin_work Final_poll_next (into_final p) = ((f, chunks), Ready r) /\
    Forall (fun c => c <> []) chunks /\
    (r = None <->
     terminated p = false /\
     exists pad, forallb is_padding pad = true /\
       s = concat chunks ++ (if done p then [] else d) ++ str "--" ++ pad ++ [x0d; x0a] /\
       (done p = true -> chunks = []) /\
       (done p = false -> find_sub d s = Some (length (concat chunks)))).
Proof.
  intros Hf Hd Hflags d. destruct (terminated p) eqn:Ht.
  { rewrite andb_true_r in Hflags. destruct (aborted_read (into_final p)) as [f E]; [done|simpl; by rewrite Hflags|done|].
    exists f, [], (Some IncompleteStreamPart). split_and!; [done|constructor|]. split; [done|by intros [? _]]. }
  destruct (done p) eqn:Hdone.
  - destruct (final_read_correct total d (into_final p) (ViewTrailer (trailer_verdict s))) as (f & l & r & E & -> & ->); [done| |].
    { split; [done|left]. split; [left; simpl; by rewrite Hdone|]. exists s. simpl. by rewrite Hdone. }
    exists f, [], (trailer_verdict s). split_and!; [done|constructor|]. rewrite trailer_verdict_ok. simpl.
    split; [intros (pad & -> & Hp)|intros (_ & pad & Hp & -> & _)]; eauto.
    split; [done|]. exists pad. done.
  - destruct (final_read_correct total d (into_final p) (ViewData s)) as (f & l & r & E & Hl & Hr); [done| |].
    { split; [done|]. simpl. by rewrite Hdone. }
    exists f, l, r. split_and!; [done|done|]. destruct (find_sub d s) as [i|] eqn:Ei.
    + destruct Hr as [Hcat ->]. rewrite trailer_verdict_ok.
      pose proof (find_sub_Some _ _ _ Ei) as (Hs & Hb & _). rewrite <- Hcat in Hs.
      assert (Hlen : length (concat l) = i) by (rewrite Hcat, length_take; lia).
      split.
      * intros (pad & Hd2 & Hp). split; [done|]. exists pad. rewrite Hd2 in Hs.
        split_and!; [done|exact Hs|done|intros _; by rewrite Hlen].
      * intros (_ & pad & Hp & Hs2 & _). exists pad. split; [|done].
        pose proof (eq_trans (eq_sym Hs) Hs2) as Heq. by do 2 apply app_inv_head in Heq.
    + destruct Hr as [-> _]. split; [done|]. intros (_ & pad & _ & _ & _ & Hc). by specialize (Hc eq_refl).
Qed.
End DataClaims.

(** A part whose data looks like a delimiter, cut in the middle of the delimiter. *)
Definition w_part : list event :=
  cut_events [str "data" ++ [x0d; x0a] ++ str "--"; str "X" ++ [x0d]; [x0a] ++ str "--B--" ++ [x0d]; [x0a]].

Lemma part_data_stream_correct_witness :
  exists p chunks,
    drain part_work (@PartDataStream_poll_data memchr_reference)
      (PartDataStream_new (StreamBuffer_new w_part) (make_delimiter (str "B")) 0) = ((p, chunks), Ready None) /\
    concat chunks = str "data" ++ [x0d; x0a] ++ str "--X".
Proof.
  destruct (@part_data_stream_correct memchr_reference (len (stream_bytes w_part)) (StreamBuffer_new w_part)
              (stream_bytes w_part) (str "B") 0 (feeds_new w_part eq_refl ltac:(by_decide)))
    as (p & chunks & r & E & _ & Hr).
  destruct Hr as (Hr & Hc & _). exists p, chunks. rewrite Hr in E. split; [exact E|]. rewrite Hc. reflexivity.
Defined.

Lemma into_final_correct_witness :
  exists f chunks r,
    drain fin_work (@Final_poll_next memchr_reference)
      (into_final (PartDataStream_new (StreamBuffer_new w_part) (make_delimiter (str "B")) 0)) = ((f, chunks), Ready r) /\
    (r = None -> exists pad, forallb is_padding pad = true /\
       stream_bytes w_part = concat chunks ++ make_delimiter (str "B") ++ str "--" ++ pad ++ [x0d; x0a]).
Proof.
  destruct (@into_final_correct memchr_reference (len (stream_bytes w_part))
              (PartDataStream_new (StreamBuffer_new w_part) (make_delimiter (str "B")) 0)
              (stream_bytes w_part) (str "B") (feeds_new w_part eq_refl ltac:(by_decide)) eq_refl eq_refl)
    as (f & chunks & r & E & _ & Hr).
  exists f, chunks, r. split; [exact E|]. intros Hn. destruct (proj1 Hr Hn) as (_ & pad & Hp & Hs & _).
  exists pad. split; [exact Hp|exact Hs].
Defined.

(** The strict stream accepts the witness body and rejects an epilogue and another part. *)
Example final_examples :
  let read := fun tail => snd (drain fin_work (@Final_poll_next memchr_reference)
                (into_final (PartDataStream_new (StreamBuffer_new (cut_events [str "data" ++ make_delimiter (str "B") ++ tail]))
                   (make_delimiter (str "B")) 0))) in
  read (str "--  " ++ [x0d; x0a]) = Ready None /\
  read (str "--" ++ [x0d; x0a] ++ str "epilogue") = Ready (Some StreamPartNotLast) /\
  read ([x0d; x0a] ++ str "next part") = Ready (Some StreamPartNotLast) /\
  read (str "--") = Ready (Some IncompleteStreamPart) /\
  read (str "-x") = Ready (Some InvalidFormat).
Proof. vm_compute. done. Qed.
