(* ===== verification/Multipart.v ===== *)
(** * Multipart bodies: the parser (crates/s3s-multipart/src)

    header.rs, multipart.rs and part.rs: the header block of a part, the state machine that
    hands out the parts of a body, and the operations of a part. *)

From S2P Require Import Prelude.
From S2P Require Import Str.
From S2P Require Import Poll.
From S2P Require Import MultipartBuffer.
From S2P Require Import MultipartData.

(** ** Header blocks (header.rs) *)

Definition MAX_HEADERS : nat := 3.

(** The ranges of a field in the block that was parsed. *)
Record HeaderSpan := { name_start : nat; name_end : nat; value_start : nat; value_end : nat }.

Record HeaderBlock := { spans : list HeaderSpan; next : nat; data_start : nat }.

(** *** The [httparse] crate *)

Inductive httparse_error := TooManyHeaders | OtherError.
Inductive httparse_status :=
| Complete (data_start : nat) (headers : list HeaderSpan)
| Partial.

(** [httparse::parse_headers(block, &mut headers)] with room for [n] headers; the name and value
    of a header are slices of the block, given by their ranges.  What it consumed lies in the
    block, and it fills no more headers than there is room for. *)
Class Httparse := {
  httparse_parse_headers : nat -> bytes -> result httparse_error httparse_status;
  httparse_within : forall n block data_start headers,
    httparse_parse_headers n block = Ok (Complete data_start headers) ->
    data_start <= length block /\ length headers <= n
}.

(** *** Parsing *)

Section Header.
Context `{Memchr} `{Httparse}.

(** The line at the start of [rest], and what follows its line end. *)
Definition split_line (rest : bytes) : bytes * bytes :=
  match memmem_find rest [x0d; x0a] with
  | Some line_end => (take line_end rest, drop (line_end + 2) rest)
  | None => (rest, [])
  end.

(** The loop of [parse_header_block_fallback]: [room] spans left, [pos] the offset of [rest]. *)
Fixpoint fallback_fields (room pos : nat) (rest : bytes) : result Error (list HeaderSpan) :=
  match room with
  | 0 => Ok []
  | S room' =>
      if rest =? [] then Ok []
      else
        let '(line, next_rest) := split_line rest in
        match memchr1 ":" line with
        | None => Err InvalidFormat
        | Some colon =>
            let name := take colon line in
            if name =? [] then Err InvalidFormat
            else
              let raw := drop (colon + 1) line in
              let value := trim_ows raw in
              let value_start := pos + colon + 1 + (length raw - length (trim_ows_front raw)) in
              let span := {| name_start := pos; name_end := pos + length name;
                             value_start := value_start; value_end := value_start + length value |} in
              spans ← fallback_fields room' (pos + (length rest - length next_rest)) next_rest;
              Ok (span :: spans)
        end
  end.

Definition parse_header_block_fallback (block : bytes) : result Error HeaderBlock :=
  if negb (ends_with [x0d; x0a; x0d; x0a] block) then Err InvalidFormat
  else
    let blank := length block - 4 in
    spans ← fallback_fields MAX_HEADERS 0 (take blank block);
    Ok {| spans := spans; next := 0; data_start := blank + 4 |}.

Definition parse_header_block (block : bytes) : result Error HeaderBlock :=
  match httparse_parse_headers MAX_HEADERS block with
  | Ok (Complete data_start parsed) =>
      (* [try_push] drops what does not fit *)
      Ok {| spans := take MAX_HEADERS parsed; next := 0; data_start := data_start |}
  | Ok Partial => Err IncompleteStream
  | Err TooManyHeaders => parse_header_block_fallback block
  | Err OtherError => Err InvalidFormat
  end.

(** ** The parser (multipart.rs) *)

Inductive State :=
| FindingFirstBoundary
| ReadingPartHeaders
| ReadingPartData
| ReadingBoundary
| ReadingClosingDelimiter
| ReadingEpilogue
| Done
| StreamTaken.

#[global] Instance State_eq_dec : EqDecision State.
Proof. solve_decision. Defined.

Record Multipart := {
  mp_buffer : option StreamBuffer;
  first_boundary : bytes;
  mp_delimiter_finder : option bytes;
  max_buffer_size : nat;
  state : State;
  headers : option HeaderBlock;
  part_handed_out : bool
}.

Definition Multipart_new (stream : list event) (boundary : bytes) (max_buffer_size : nat) : Multipart :=
  {| mp_buffer := Some (StreamBuffer_new stream); first_boundary := make_first_boundary boundary;
     mp_delimiter_finder := Some (make_delimiter boundary); max_buffer_size := max_buffer_size;
     state := FindingFirstBoundary; headers := None; part_handed_out := false |}.

Definition set_buffer (b : StreamBuffer) (m : Multipart) : Multipart :=
  {| mp_buffer := Some b; first_boundary := first_boundary m; mp_delimiter_finder := mp_delimiter_finder m;
     max_buffer_size := max_buffer_size m; state := state m; headers := headers m; part_handed_out := part_handed_out m |}.
Definition set_state (st : State) (m : Multipart) : Multipart :=
  {| mp_buffer := mp_buffer m; first_boundary := first_boundary m; mp_delimiter_finder := mp_delimiter_finder m;
     max_buffer_size := max_buffer_size m; state := st; headers := headers m; part_handed_out := part_handed_out m |}.
Definition set_headers (h : option HeaderBlock) (m : Multipart) : Multipart :=
  {| mp_buffer := mp_buffer m; first_boundary := first_boundary m; mp_delimiter_finder := mp_delimiter_finder m;
     max_buffer_size := max_buffer_size m; state := state m; headers := h; part_handed_out := part_handed_out m |}.
Definition set_handed_out (x : bool) (m : Multipart) : Multipart :=
  {| mp_buffer := mp_buffer m; first_boundary := first_boundary m; mp_delimiter_finder := mp_delimiter_finder m;
     max_buffer_size := max_buffer_size m; state := state m; headers := headers m; part_handed_out := x |}.
Definition take_buffer (m : Multipart) : Multipart :=
  {| mp_buffer := None; first_boundary := first_boundary m; mp_delimiter_finder := None;
     max_buffer_size := max_buffer_size m; state := state m; headers := headers m; part_handed_out := part_handed_out m |}.

(** A step on the buffer: [buffer_mut()] fails once the stream is taken. *)
Definition on_buffer {A} (f : pollm StreamBuffer (result Error A)) : pollm Multipart (result Error A) := fun m =>
  match mp_buffer m with
  | None => (m, Ready (Err StreamAlreadyTaken))
  | Some b => let '(b', p) := f b in (set_buffer b' m, p)
  end.

(** A step on the buffer that ends by moving to another state. *)
Definition advancing (f : pollm StreamBuffer (result Error State)) : pollm Multipart (result Error unit) :=
  st ←? on_buffer f; fun m => (set_state st m, Ready (Ok tt)).

Definition poll_advance_first_boundary : pollm Multipart (result Error unit) := fun m =>
  advancing (_ ←? poll_read_to (first_boundary m); mret (Ok ReadingBoundary)) m.

Definition poll_ensure_buf_len (n : nat) : pollm StreamBuffer (result Error unit) :=
  loop work (fill_buf_turn IncompleteStream n).

Definition poll_consume_crlf : pollm StreamBuffer (result Error unit) :=
  _ ←? poll_ensure_buf_len 2;
  fun b => if negb (starts_with [x0d; x0a] (buf b)) then (b, Ready (Err InvalidFormat))
           else (advance 2 b, Ready (Ok tt)).

(** One turn of the loop of [poll_consume_padding_and_crlf]. *)
Definition padding_crlf_turn : pollm StreamBuffer (option (result Error unit)) := fun b =>
  match poll_ensure_buf_len 1 b with
  | (b, Pending) => (b, Pending)
  | (b, Ready (Err err)) => (b, Ready (Some (Err err)))
  | (b, Ready (Ok _)) =>
      match buf b with
      | [] => (b, Ready (Some (Err InvalidFormat)))  (* not reached: there is a byte *)
      | first :: _ =>
          if first =? x0d then
            match poll_consume_crlf b with
            | (b, Pending) => (b, Pending)
            | (b, Ready r) => (b, Ready (Some r))
            end
          else if negb (is_padding first) then (b, Ready (Some (Err InvalidFormat)))
          else
            let padding_len := length (fst (break_at (fun c => negb (is_padding c)) (buf b))) in
            (advance padding_len b, Ready None)
      end
  end.

Definition poll_consume_padding_and_crlf : pollm StreamBuffer (result Error unit) := loop work padding_crlf_turn.

Definition after_boundary : pollm StreamBuffer (result Error State) :=
  _ ←? poll_ensure_buf_len 1;
  fun b =>
    match buf b with
    | [] => (b, Ready (Err InvalidFormat))  (* not reached: there is a byte *)
    | first :: _ =>
        if first =? "-"%byte then
          (_ ←? poll_ensure_buf_len 2;
           fun b => if negb (starts_with (str "--") (buf b)) then (b, Ready (Err InvalidFormat))
                    else (advance 2 b, Ready (Ok ReadingClosingDelimiter))) b
        else if is_padding first then (_ ←? poll_consume_padding_and_crlf; mret (Ok ReadingPartHeaders)) b
        else if first =? x0d then (_ ←? poll_consume_crlf; mret (Ok ReadingPartHeaders)) b
        else (b, Ready (Err InvalidFormat))
    end.

Definition poll_advance_after_boundary : pollm Multipart (result Error unit) := advancing after_boundary.

Definition poll_advance_closing : pollm Multipart (result Error unit) :=
  advancing (_ ←? poll_consume_padding_and_crlf; mret (Ok ReadingEpilogue)).

Definition epilogue : pollm StreamBuffer (result Error State) := fun b =>
  if negb (buf b =? []) then (b, Ready (Err StreamPartNotLast))
  else
    match poll_stream b with
    | (b, Pending) => (b, Pending)
    | (b, Ready None) => (b, Ready (Ok Done))
    | (b, Ready (Some (Ok _))) => (b, Ready (Err StreamPartNotLast))
    | (b, Ready (Some (Err err))) => (b, Ready (Err err))
    end.

Definition poll_epilogue : pollm Multipart (result Error unit) := advancing epilogue.

Definition poll_next_part_data_chunk : pollm Multipart (result Error (option bytes)) := fun m =>
  if negb (state m =? ReadingPartData) then (m, Ready (Ok None))
  else
    match mp_delimiter_finder m, mp_buffer m with
    | None, _ => (m, Ready (Ok None))
    | Some _, None => (m, Ready (Err StreamAlreadyTaken))
    | Some delimiter, Some b =>
        match data_loop delimiter b with
        | (b, Pending) => (set_buffer b m, Pending)
        | (b, Ready (AtDelimiter data)) =>
            (set_state ReadingBoundary (set_buffer b m), Ready (Ok (if data =? [] then None else Some data)))
        | (b, Ready (Chunk data)) => (set_buffer b m, Ready (Ok (Some data)))
        | (b, Ready (Failed err)) => (set_buffer b m, Ready (Err err))
        | (b, Ready Ended) => (set_buffer b m, Ready (Err IncompleteStream))
        end
    end.

(** The work a parser has left. *)
Definition mp_rank (st : State) : nat :=
  match st with
  | ReadingPartHeaders => 3
  | FindingFirstBoundary | ReadingPartData => 2
  | ReadingBoundary | ReadingClosingDelimiter | ReadingEpilogue => 1
  | Done | StreamTaken => 0
  end.
Definition bwork (m : Multipart) : nat := match mp_buffer m with Some b => work b | None => 0 end.
Definition mp_work (m : Multipart) : nat := 4 * bwork m + mp_rank (state m).

Definition skip_turn : pollm Multipart (option (result Error unit)) := fun m =>
  match poll_next_part_data_chunk m with
  | (m, Pending) => (m, Pending)
  | (m, Ready (Ok (Some _))) => (m, Ready None)
  | (m, Ready (Ok None)) => (m, Ready (Some (Ok tt)))
  | (m, Ready (Err err)) => (m, Ready (Some (Err err)))
  end.

Definition poll_skip_part_data : pollm Multipart (result Error unit) := loop mp_work skip_turn.

(** *** The header stage (header.rs) *)

Definition finish_headers (m : Multipart) : Multipart :=
  match headers m with
  | None => m
  | Some block =>
      let m := set_headers None m in
      let m :=
        if state m =? ReadingPartHeaders then
          let m := match mp_buffer m with Some b => set_buffer (advance (data_start block) b) m | None => m end in
          set_state ReadingPartData m
        else m in
      set_handed_out false m
  end.

(** [buf.get(start..end)] *)
Definition get_range (s : bytes) (start end_ : nat) : option bytes :=
  if (start <=? end_)%nat && (end_ <=? length s)%nat then Some (take (end_ - start) (drop start s)) else None.

Definition next_header_inner (m : Multipart) : Multipart * result Error (option (bytes * bytes)) :=
  match headers m with
  | None => (m, Ok None)
  | Some block =>
      match spans block !! next block with
      | None => (finish_headers m, Ok None)
      | Some span =>
          let m := set_headers (Some {| spans := spans block; next := next block + 1; data_start := data_start block |}) m in
          (m, b ← ok_or StreamAlreadyTaken (mp_buffer m);
              name ← ok_or InvalidFormat (get_range (buf b) (name_start span) (name_end span));
              value ← ok_or InvalidFormat (get_range (buf b) (value_start span) (value_end span));
              if utf8_valid name then Ok (Some (name, value)) else Err InvalidFormat)
      end
  end.

Definition poll_ensure_headers : pollm Multipart (result Error unit) := fun m =>
  if (match headers m with Some _ => true | None => false end) || (state m =? ReadingPartData) then (m, Ready (Ok tt))
  else if negb (state m =? ReadingPartHeaders) then (m, Ready (Ok tt))
  else
    (end_ ←? on_buffer (poll_read_header_block (max_buffer_size m));
     fun m =>
       match mp_buffer m with
       | None => (m, Ready (Err StreamAlreadyTaken))
       | Some b =>
           match parse_header_block (take end_ (buf b)) with
           | Ok block => (set_headers (Some block) m, Ready (Ok tt))
           | Err err => (m, Ready (Err err))
           end
       end) m.

(** *** The state machine *)

(** [ready!(step?)] as a turn of the loop: go on with the state the step left. *)
Definition run_step (step : pollm Multipart (result Error unit)) : pollm Multipart (option (result Error bool)) := fun m =>
  match step m with
  | (m, Pending) => (m, Pending)
  | (m, Ready (Err err)) => (m, Ready (Some (Err err)))
  | (m, Ready (Ok _)) => (m, Ready None)
  end.

(** One turn of the loop of [poll_next_part]; the part that is handed out is a view of the
    parser, so the outcome says whether there is one. *)
Definition next_part_turn : pollm Multipart (option (result Error bool)) := fun m =>
  match state m with
  | StreamTaken => (m, Ready (Some (Err StreamAlreadyTaken)))
  | Done => (m, Ready (Some (Ok false)))
  | FindingFirstBoundary => run_step poll_advance_first_boundary m
  | ReadingPartHeaders =>
      if part_handed_out m then
        match poll_ensure_headers m with
        | (m, Pending) => (m, Pending)
        | (m, Ready (Err err)) => (m, Ready (Some (Err err)))
        | (m, Ready (Ok _)) => (finish_headers m, Ready None)
        end
      else (set_handed_out true m, Ready (Some (Ok true)))
  | ReadingPartData => run_step (_ ←? poll_skip_part_data; poll_advance_after_boundary) m
  | ReadingBoundary => run_step poll_advance_after_boundary m
  | ReadingClosingDelimiter => run_step poll_advance_closing m
  | ReadingEpilogue => run_step poll_epilogue m
  end.

Definition poll_next_part : pollm Multipart (result Error bool) := loop mp_work next_part_turn.

(** ** Parts (part.rs) *)

Definition poll_next_header : pollm Multipart (result Error (option (bytes * bytes))) :=
  _ ←? poll_ensure_headers; fun m => let '(m, r) := next_header_inner m in (m, Ready r).

Definition poll_next_data : pollm Multipart (result Error (option bytes)) :=
  _ ←? poll_ensure_headers; fun m => poll_next_part_data_chunk (finish_headers m).

Definition take_data_stream (m : Multipart) : Multipart * result Error PartDataStream :=
  let m := if state m =? ReadingPartHeaders then finish_headers m else m in
  if negb (state m =? ReadingPartData) then (m, Err InvalidFormat)
  else
    match mp_buffer m with
    | None => (m, Err StreamAlreadyTaken)
    | Some b =>
        match mp_delimiter_finder m with
        | None => (take_buffer m, Err StreamAlreadyTaken)
        | Some delimiter_finder =>
            (set_state StreamTaken (take_buffer m), Ok (PartDataStream_new b delimiter_finder (consumed b)))
        end
    end.
End Header.

(** ** Steps on the buffer *)

(** Steps other than the header read leave the cursor of the header read alone. *)
Definition quiet {A} (f : pollm StreamBuffer A) : Prop :=
  forall b, read_until_active (f b).1 = read_until_active b.

Lemma quiet_loop {R} (f : pollm StreamBuffer (option R)) : turn_progresses work f -> quiet f -> quiet (loop work f).
Proof.
  intros Hp Hq b. refine (loop_ind work f (fun _ => True) (fun b o => read_until_active o.1 = read_until_active b)
    (turn_decreasing _ _ Hp) _ b I).
  intros s _. specialize (Hq s). destruct (f s) as [s' [[r|]|]]; simpl in *; [done| |done].
  split; [done|]. intros o. congruence.
Qed.

Lemma quiet_poll_stream b b' p : poll_stream b = (b', p) -> read_until_active b' = read_until_active b.
Proof. intros E. by destruct (poll_stream_work _ _ _ E) as [[_ _ ?] _]. Qed.

Lemma quiet_ready_try {A B} (m : pollm StreamBuffer (result Error A)) (k : A -> pollm StreamBuffer (result Error B)) :
  quiet m -> (forall a, quiet (k a)) -> quiet (ready_try m k).
Proof.
  intros Hm Hk b. unfold ready_try, mbind, pollm_bind, mret, pollm_ret. specialize (Hm b).
  destruct (m b) as [b' [[a|e]|]]; simpl in *; [|done..]. by rewrite Hk.
Qed.

Section Steps.
Context `{Memchr}.

Lemma quiet_data_loop d : quiet (data_loop d).
Proof.
  apply quiet_loop; [apply data_turn_progresses|]. intros b. unfold data_turn.
  destruct (poll_stream b) as [b' p] eqn:E. apply quiet_poll_stream in E.
  destruct p as [[[chunk|e]|]|]; repeat (case_test; simpl; try done).
Qed.

Lemma quiet_fill e n : quiet (loop work (fill_buf_turn e n)).
Proof.
  apply quiet_loop; [apply fill_buf_turn_progresses|]. intros b. unfold fill_buf_turn.
  destruct (_ <? _)%nat; [|done]. destruct (poll_stream b) as [b' p] eqn:E. apply quiet_poll_stream in E.
  by destruct p as [[[chunk|e']|]|].
Qed.

Lemma quiet_read_to needle : quiet (poll_read_to needle).
Proof.
  apply quiet_loop; [apply read_to_turn_progresses|]. intros b. unfold read_to_turn.
  destruct (memmem_find _ _); [done|]. destruct (eof b); [done|].
  destruct (poll_stream b) as [b' p] eqn:E. apply quiet_poll_stream in E.
  destruct p as [[[chunk|e']|]|]; [|done..]. case_bool_decide; by destruct (memmem_find _ _).
Qed.

(** *** Line ends *)

Definition crlf_ref (s : bytes) : result Error (unit * bytes) :=
  match s with
  | c :: c' :: t => if (c =? x0d) && (c' =? x0a) then Ok (tt, t) else Err InvalidFormat
  | _ => Err IncompleteStream
  end.

Fixpoint padding_crlf_ref (s : bytes) : result Error (unit * bytes) :=
  match s with
  | [] => Err IncompleteStream
  | c :: t => if c =? x0d then crlf_ref s else if is_padding c then padding_crlf_ref t else Err InvalidFormat
  end.

Lemma ensure_progresses n : progresses work (poll_ensure_buf_len n).
Proof. apply loop_progresses, fill_buf_turn_progresses. Qed.

Lemma consume_crlf_spec total b s :
  feeds total b s ->
  match poll_consume_crlf b with
  | (b', Pending) => feeds total b' s
  | (b', Ready (Ok a)) => exists s', feeds total b' s' /\ crlf_ref s = Ok (a, s')
  | (b', Ready (Err e)) => crlf_ref s = Err e
  end.
Proof.
  intros Hf. unfold poll_consume_crlf, ready_try, mbind, pollm_bind, poll_ensure_buf_len.
  pose proof (fill_loop_spec total IncompleteStream 2 s b Hf) as Hs.
  destruct (loop work _ b) as [b' [[[]|e]|]]; [| |done].
  - destruct Hs as [Hf' Hl]. pose proof (feeds_advance total b' s 2 Hl Hf') as Hadv.
    destruct (feeds_prefix _ _ _ Hf') as [t ->]. destruct (buf b') as [|c [|c' x]] eqn:Eb; simpl in Hl; [lia..|].
    unfold starts_with. simpl.
    destruct (decide (c = x0d)) as [->|Hc]; [destruct (decide (c' = x0a)) as [->|Hc']|]; simpl.
    + exists (x ++ t). split; [exact Hadv|done].
    + rewrite !bool_decide_eq_false_2 by done. done.
    + rewrite !bool_decide_eq_false_2 by done. done.
  - destruct Hs as [-> Hl]. destruct s as [|c [|c' t]]; simpl in *; [done..|lia].
Qed.

Lemma consume_crlf_progresses : progresses work poll_consume_crlf.
Proof.
  apply ready_try_progresses; [apply ensure_progresses|]. intros _ b. destruct (negb _); [done|].
  pose proof (advance_work 2 b). lia.
Qed.

Lemma consume_crlf_quiet : quiet poll_consume_crlf.
Proof. apply quiet_ready_try; [apply quiet_fill|]. intros _ b. by destruct (negb _). Qed.

Lemma padding_crlf_skip pad s :
  forallb is_padding pad = true -> padding_crlf_ref (pad ++ s) = padding_crlf_ref s.
Proof.
  induction pad as [|c pad IH]; simpl; [done|]. intros [Hc Hp]%andb_true_iff. rewrite Hc.
  rewrite bool_decide_eq_false_2; [auto|]. intros ->. done.
Qed.

Lemma padding_crlf_turn_progresses : turn_progresses work padding_crlf_turn.
Proof.
  intros b. unfold padding_crlf_turn. pose proof (ensure_progresses 1 b) as Hp.
  destruct (poll_ensure_buf_len 1 b) as [b' [[[]|e]|]]; [|done..].
  destruct (buf b') as [|c x] eqn:Eb; [done|]. destruct (c =? x0d).
  - pose proof (consume_crlf_progresses b') as Hc. destruct (poll_consume_crlf b') as [b1 [r|]]; lia.
  - destruct (is_padding c) eqn:Ec; [|done]. cbn [negb break_at]. rewrite Ec. cbn [negb].
    destruct (break_at _ x) as [a r]. pose proof (advance_work (length (c :: a)) b') as Ha. rewrite Eb in Ha. simpl in *. lia.
Qed.

Lemma padding_crlf_spec total b s :
  feeds total b s ->
  match poll_consume_padding_and_crlf b with
  | (b', Pending) => exists pad s', s = pad ++ s' /\ forallb is_padding pad = true /\ feeds total b' s'
  | (b', Ready (Ok a)) => exists s', feeds total b' s' /\ padding_crlf_ref s = Ok (a, s')
  | (b', Ready (Err e)) => padding_crlf_ref s = Err e
  end.
Proof.
  intros Hf. set (I := fun b => exists pad s', s = pad ++ s' /\ forallb is_padding pad = true /\ feeds total b s').
  pose proof (loop_inv work padding_crlf_turn I I
    (fun b r => match r with
                | Ok a => exists s', feeds total b s' /\ padding_crlf_ref s = Ok (a, s')
                | Err e => padding_crlf_ref s = Err e
                end) padding_crlf_turn_progresses) as Hl.
  assert (Hb : I b) by (by exists [], s).
  refine ((fun Hstep => _ (Hl Hstep b Hb)) _); clear Hl.
  - unfold poll_consume_padding_and_crlf. destruct (loop work padding_crlf_turn b) as [b' [[[]|e]|]]; auto.
  - clear b Hf Hb. intros b (pad & s1 & -> & Hpad & Hf). unfold padding_crlf_turn, poll_ensure_buf_len.
    rewrite padding_crlf_skip by done.
    pose proof (fill_loop_spec total IncompleteStream 1 s1 b Hf) as Hp.
    destruct (loop work _ b) as [b' [[[]|e]|]]; [| |by exists pad, s1].
    + destruct Hp as [Hf' Hl]. destruct (feeds_prefix _ _ _ Hf') as [t Ht].
      destruct (buf b') as [|c x] eqn:Eb; simpl in Hl; [lia|].
      destruct (decide (c = x0d)) as [->|Hc].
      * rewrite bool_decide_eq_true_2 by done. pose proof (consume_crlf_spec total b' s1 Hf') as Hc.
        assert (Hcr : forall u, padding_crlf_ref (x0d :: u) = crlf_ref (x0d :: u)) by done.
        assert (Heq : padding_crlf_ref s1 = crlf_ref s1) by (rewrite Ht; apply Hcr). rewrite Heq.
        destruct (poll_consume_crlf b') as [b1 [[[]|e]|]]; [done|done|]. by exists pad, s1.
      * rewrite bool_decide_eq_false_2 by done. destruct (is_padding c) eqn:Ec; cbn [negb].
        -- destruct (break_at _ (c :: x)) as [a r] eqn:Ea. cbn [fst].
           pose proof (break_at_spec _ _ _ _ Ea) as (Hsplit & Ha & _).
           exists (pad ++ a), (drop (length a) s1). split_and!.
           ++ rewrite Ht, Hsplit. by rewrite <- !app_assoc, drop_app_length.
           ++ rewrite forallb_app, Hpad. eapply forallb_impl; [|exact Ha].
              intros d Hd. by apply negb_true_iff in Hd as Hd'%negb_false_iff.
           ++ apply feeds_advance; [|done]. rewrite Eb, Hsplit, length_app. lia.
        -- rewrite Ht. simpl. by rewrite Ec, bool_decide_eq_false_2.
    + destruct Hp as [-> Hl]. destruct s1; [done|simpl in Hl; lia].
Qed.
End Steps.

(** ** Boundary lines *)

(** [refines_on P total f ref]: on the inputs in [P], the poll function [f] does to the bytes
    that remain what [ref] says, and may be polled again when it was pending: what it has
    consumed by then does not change what [ref] says of the rest. *)
Definition refines_on {A} (P : bytes -> Prop) (total : Z) (f : pollm StreamBuffer (result Error A))
    (ref : bytes -> result Error (A * bytes)) : Prop :=
  forall b s, feeds total b s -> P s ->
  match f b with
  | (b', Pending) => exists s', feeds total b' s' /\ P s' /\ ref s' = ref s
  | (b', Ready (Ok a)) => exists s', feeds total b' s' /\ ref s = Ok (a, s')
  | (b', Ready (Err e)) => ref s = Err e
  end.

(** A step that uses up work unless it fails. *)
Definition consumes {A} (f : pollm StreamBuffer (result Error A)) : Prop :=
  forall b, match f b with
            | (b', Ready (Err _)) => work b' <= work b
            | (b', _) => work b' < work b
            end.

Section Boundary.
Context `{Memchr}.

Definition boundary_ref (s : bytes) : result Error (State * bytes) :=
  match s with
  | [] => Err IncompleteStream
  | c :: t =>
      if c =? "-"%byte then
        match t with
        | [] => Err IncompleteStream
        | c' :: t' => if c' =? "-"%byte then Ok (ReadingClosingDelimiter, t') else Err InvalidFormat
        end
      else if is_padding c then '(_, s') ← padding_crlf_ref s; Ok (ReadingPartHeaders, s')
      else if c =? x0d then '(_, s') ← crlf_ref s; Ok (ReadingPartHeaders, s')
      else Err InvalidFormat
  end.

(** Padding after a boundary is not followed by a dash. *)
Definition no_padded_dash (s : bytes) : Prop :=
  forall pad t, s = pad ++ "-"%byte :: t -> forallb is_padding pad = true -> pad = [].

Lemma no_padded_dash_drop pad s :
  pad <> [] -> forallb is_padding pad = true -> no_padded_dash (pad ++ s) ->
  boundary_ref s = ('(_, s') ← padding_crlf_ref s; Ok (ReadingPartHeaders, s')) /\ no_padded_dash s.
Proof.
  intros Hne Hp Hn. assert (Hd : forall t, s <> "-"%byte :: t).
  { intros t ->. by specialize (Hn pad t eq_refl Hp). }
  split.
  - destruct s as [|c t]; [done|]. simpl. rewrite (bool_decide_eq_false_2 (c = "-"%byte)) by (intros ->; by apply (Hd t)).
    destruct (decide (c = x0d)) as [->|Hc]; [done|].
    rewrite !(bool_decide_eq_false_2 (c = x0d)) by done. by destruct (is_padding c).
  - intros pad' t -> Hp'. assert (Hpp : pad ++ pad' = []); [|by apply app_eq_nil in Hpp as [? _]].
    apply (Hn _ t); [by rewrite <- app_assoc|]. by rewrite forallb_app, Hp, Hp'.
Qed.

Lemma padding_crlf_quiet : quiet poll_consume_padding_and_crlf.
Proof.
  apply quiet_loop; [apply padding_crlf_turn_progresses|]. intros b. unfold padding_crlf_turn.
  pose proof (quiet_fill IncompleteStream 1 b) as Hq. fold (poll_ensure_buf_len 1) in Hq.
  destruct (poll_ensure_buf_len 1 b) as [b' [[[]|e]|]]; simpl in *; [|done..].
  destruct (buf b') as [|c x]; [done|]. destruct (c =? x0d).
  - pose proof (consume_crlf_quiet b') as Hc. destruct (poll_consume_crlf b') as [b1 [r|]]; simpl in *; congruence.
  - by destruct (negb _).
Qed.

Lemma consume_crlf_consumes : consumes poll_consume_crlf.
Proof.
  intros b. unfold poll_consume_crlf, ready_try, mbind, pollm_bind. pose proof (ensure_progresses 2 b) as Hp.
  destruct (poll_ensure_buf_len 2 b) as [b' [[[]|e]|]]; [|done..].
  destruct (starts_with _ _) eqn:E; [|done]. apply starts_with_true in E as [r E].
  pose proof (advance_work 2 b') as Ha. rewrite E in Ha. simpl in *. lia.
Qed.

Lemma padding_crlf_consumes : consumes poll_consume_padding_and_crlf.
Proof.
  intros b. unfold poll_consume_padding_and_crlf.
  refine (loop_ind work padding_crlf_turn (fun _ => True) (fun b o => match o with
    | (b', Ready (Err _)) => work b' <= work b | (b', _) => work b' < work b end)
    (turn_decreasing _ _ padding_crlf_turn_progresses) _ b I).
  clear b. intros b _. pose proof (padding_crlf_turn_progresses b) as Hp.
  destruct (padding_crlf_turn b) as [b' [[[[]|e]|]|]] eqn:E; [|done| |done].
  - unfold padding_crlf_turn in E. pose proof (ensure_progresses 1 b) as He.
    destruct (poll_ensure_buf_len 1 b) as [b1 [[[]|e]|]]; [|done..].
    destruct (buf b1) as [|c x]; [done|]. destruct (c =? x0d); [|by destruct (negb _)].
    pose proof (consume_crlf_consumes b1) as Hc. destruct (poll_consume_crlf b1) as [b2 [r|]]; simplify_eq. lia.
  - split; [done|]. intros [b1 [[]|]]; lia.
Qed.

Lemma after_boundary_quiet : quiet after_boundary.
Proof.
  apply quiet_ready_try; [apply quiet_fill|]. intros _ b. destruct (buf b) as [|c x]; [done|].
  assert (Hr : forall (m : pollm StreamBuffer (result Error unit)) st, quiet m -> quiet (_ ←? m; mret (Ok st : result Error State)))
    by (intros m st Hm; apply quiet_ready_try; [done|by intros _ b']).
  destruct (c =? "-"%byte); [|destruct (is_padding c); [|destruct (c =? x0d); [|done]]].
  - apply quiet_ready_try; [apply quiet_fill|]. intros _ b'. by destruct (negb _).
  - apply Hr, padding_crlf_quiet.
  - apply Hr, consume_crlf_quiet.
Qed.

Lemma after_boundary_consumes : consumes after_boundary.
Proof.
  intros b. unfold after_boundary. unfold ready_try at 1, mbind at 1, pollm_bind at 1. pose proof (ensure_progresses 1 b) as Hp.
  destruct (poll_ensure_buf_len 1 b) as [b' [[[]|e]|]]; [|done..].
  assert (Hr : forall (m : pollm StreamBuffer (result Error unit)) st, consumes m ->
    match (_ ←? m; mret (Ok st : result Error State)) b' with
    | (b1, Ready (Err _)) => work b1 <= work b | (b1, _) => work b1 < work b end).
  { intros m st Hm. unfold ready_try, mbind, pollm_bind, mret, pollm_ret. specialize (Hm b').
    destruct (m b') as [b1 [[a|e]|]]; lia. }
  destruct (buf b') as [|c x]; [done|].
  destruct (c =? "-"%byte); [|destruct (is_padding c); [|destruct (c =? x0d); [|done]]].
  - unfold ready_try, mbind, pollm_bind. pose proof (ensure_progresses 2 b') as He.
    destruct (poll_ensure_buf_len 2 b') as [b1 [[[]|e]|]]; [|simpl; lia..].
    destruct (starts_with _ _) eqn:E; simpl; [|lia]. apply starts_with_true in E as [r E].
    pose proof (advance_work 2 b1) as Ha. rewrite E in Ha. simpl in *. lia.
  - apply Hr, padding_crlf_consumes.
  - apply Hr, consume_crlf_consumes.
Qed.

Lemma after_boundary_refines total : refines_on no_padded_dash total after_boundary boundary_ref.
Proof.
  intros b s Hf Hn. unfold after_boundary. unfold ready_try at 1, mbind at 1, pollm_bind at 1.
  unfold poll_ensure_buf_len at 1.
  pose proof (fill_loop_spec total IncompleteStream 1 s b Hf) as Hp.
  destruct (loop work _ b) as [b' [[[]|e]|]]; [| |by exists s].
  2:{ destruct Hp as [-> Hl]. destruct s; [done|simpl in Hl; lia]. }
  destruct Hp as [Hf' Hl]. destruct (feeds_prefix _ _ _ Hf') as [t Ht].
  destruct (buf b') as [|c x] eqn:Eb; simpl in Hl; [lia|].
  assert (Hs : s = c :: (x ++ t)) by done.
  destruct (decide (c = "-"%byte)) as [->|Hc].
  { rewrite bool_decide_eq_true_2 by done. unfold ready_try, mbind, pollm_bind, poll_ensure_buf_len.
    pose proof (fill_loop_spec total IncompleteStream 2 s b' Hf') as Hp.
    destruct (loop work _ b') as [b1 [[[]|e]|]]; [| |by exists s].
    - destruct Hp as [Hf1 Hl1]. pose proof (feeds_advance total b1 s 2 Hl1 Hf1) as Hadv.
      destruct (feeds_prefix _ _ _ Hf1) as [t1 Ht1]. rewrite Ht1 in *.
      destruct (buf b1) as [|c1 [|c2 x1]]; simpl in Hl1; [lia..|]. injection Hs as -> _. unfold starts_with. simpl.
      destruct (decide (c2 = "-"%byte)) as [->|Hc2].
      + exists (x1 ++ t1). split; [exact Hadv|done].
      + by rewrite !bool_decide_eq_false_2.
    - destruct Hp as [-> Hl1]. rewrite Hs in *. destruct (x ++ t); [done|simpl in Hl1; lia]. }
  rewrite bool_decide_eq_false_2 by done.
  assert (Href : boundary_ref s = if is_padding c then '(_, s') ← padding_crlf_ref s; Ok (ReadingPartHeaders, s')
    else if c =? x0d then '(_, s') ← crlf_ref s; Ok (ReadingPartHeaders, s') else Err InvalidFormat).
  { rewrite Hs. unfold boundary_ref. by rewrite bool_decide_eq_false_2. }
  destruct (is_padding c) eqn:Ec; [|destruct (c =? x0d)].
  - unfold ready_try, mbind, pollm_bind, mret, pollm_ret. pose proof (padding_crlf_spec total b' s Hf') as Hc'.
    destruct (poll_consume_padding_and_crlf b') as [b1 [[[]|e]|]].
    + destruct Hc' as (s' & Hs' & Hr). exists s'. by rewrite Href, Hr.
    + by rewrite Href, Hc'.
    + destruct Hc' as (pad & s' & Hsp & Hpad & Hf1). exists s'. destruct (decide (pad = [])) as [->|Hne]; [by simpl in Hsp; destruct Hsp|].
      rewrite Hsp in Hn, Href |- *. destruct (no_padded_dash_drop pad s' Hne Hpad Hn) as [Hr Hn'].
      rewrite Href, Hr. by rewrite padding_crlf_skip.
  - unfold ready_try, mbind, pollm_bind, mret, pollm_ret. pose proof (consume_crlf_spec total b' s Hf') as Hc'.
    destruct (poll_consume_crlf b') as [b1 [[[]|e]|]]; rewrite Href.
    + destruct Hc' as (s' & Hs' & ->). exists s'. done.
    + by rewrite Hc'.
    + exists s. by rewrite Href.
  - done.
Qed.
End Boundary.

(** ** The state machine over the bytes that remain

    A view of the parser: its state, and the bytes that remain.  [next_ref] is the reference
    definition of [next_part] over views: one pass over the bytes, no buffer and no polling. *)

Inductive view :=
| VStart (s : bytes)
| VBoundary (s : bytes)
| VClosing (s : bytes)
| VEpilogue (s : bytes)
| VHeaders (handed_out : bool) (block : option HeaderBlock) (s : bytes)
| VData (s : bytes)
| VDone.

Section Machine.
Context `{Memchr} `{Httparse}.
Context (total : Z) (boundary : bytes) (max : nat).

Abbreviation d := (make_delimiter boundary) (only parsing).
Abbreviation fb := (make_first_boundary boundary) (only parsing).

Definition epilogue_next (s : bytes) : result Error (option view) :=
  if s =? [] then Ok None else Err StreamPartNotLast.

Definition closing_next (s : bytes) : result Error (option view) :=
  '(_, t) ← padding_crlf_ref s; epilogue_next t.

Definition boundary_next (s : bytes) : result Error (option view) :=
  '(st, t) ← boundary_ref s;
  if st =? ReadingClosingDelimiter then closing_next t else Ok (Some (VHeaders true None t)).

Definition data_next (s : bytes) : result Error (option view) :=
  match after d s with None => Err IncompleteStream | Some t => boundary_next t end.

(** The header block at the start of [s], as the parser has it or reads it. *)
Definition block_ref (block : option HeaderBlock) (s : bytes) : result Error HeaderBlock :=
  match block with
  | Some k => Ok k
  | None => e ← header_block_end max s; parse_header_block (take e s)
  end.

Definition next_ref (v : view) : result Error (option view) :=
  match v with
  | VStart s => match after fb s with None => Err InvalidFormat | Some t => boundary_next t end
  | VBoundary s => boundary_next s
  | VClosing s => closing_next s
  | VEpilogue s => epilogue_next s
  | VHeaders false block s => Ok (Some (VHeaders true block s))
  | VHeaders true block s => k ← block_ref block s; data_next (drop (data_start k) s)
  | VData s => data_next s
  | VDone => Ok None
  end.

(** The bytes after the boundary that [next_ref] comes to. *)
Definition boundary_point (v : view) : option bytes :=
  match v with
  | VStart s => after fb s
  | VBoundary s => Some s
  | VData s => after d s
  | VHeaders true block s => match block_ref block s with Ok k => after d (drop (data_start k) s) | Err _ => None end
  | _ => None
  end.

Definition clean (v : view) : Prop := forall t, boundary_point v = Some t -> no_padded_dash t.

(** The buffer of the parser, and its state. *)
Definition mp_feeds (m : Multipart) (s : bytes) : Prop :=
  exists b, mp_buffer m = Some b /\ feeds total b s /\ read_until_active b = false.

Definition mp_config (m : Multipart) : Prop :=
  first_boundary m = fb /\ mp_delimiter_finder m = Some d /\ max_buffer_size m = max.

Definition plain (m : Multipart) (st : State) : Prop :=
  state m = st /\ headers m = None /\ part_handed_out m = false.

Definition mp_at (m : Multipart) (v : view) : Prop :=
  mp_config m /\
  match v with
  | VStart s => plain m FindingFirstBoundary /\ mp_feeds m s
  | VBoundary s => plain m ReadingBoundary /\ mp_feeds m s
  | VClosing s => plain m ReadingClosingDelimiter /\ mp_feeds m s
  | VEpilogue s => plain m ReadingEpilogue /\ mp_feeds m s
  | VData s => plain m ReadingPartData /\ mp_feeds m s
  | VDone => plain m Done
  | VHeaders handed block s =>
      state m = ReadingPartHeaders /\ headers m = block /\ part_handed_out m = handed /\
      exists b, mp_buffer m = Some b /\ feeds total b s /\ resumable [x0d; x0a; x0d; x0a] b /\
                forall k, block = Some k -> data_start k <= length (buf b) /\ read_until_active b = false
  end.

(** A step that ends by moving to the state its view has. *)
Lemma advancing_spec {P : bytes -> Prop} {f ref} m s :
  refines_on P total f ref -> quiet f -> mp_feeds m s -> P s ->
  match advancing f m with
  | (m', Pending) => exists b s', m' = set_buffer b m /\ mp_feeds m' s' /\ P s' /\ ref s' = ref s
  | (m', Ready (Ok _)) => exists b st s', m' = set_state st (set_buffer b m) /\ mp_feeds m' s' /\ ref s = Ok (st, s')
  | (m', Ready (Err e)) => ref s = Err e
  end.
Proof.
  intros Hr Hq (b & Hb & Hf & Ha) HP. unfold advancing, ready_try, mbind, pollm_bind, on_buffer, mret, pollm_ret. rewrite Hb.
  specialize (Hr b s Hf HP). specialize (Hq b). rewrite Ha in Hq.
  destruct (f b) as [b' [[st|e]|]]; simpl in *; [|done|].
  - destruct Hr as (s' & Hf' & Hr). exists b', st, s'. split_and!; [done| |done]. by exists b'.
  - destruct Hr as (s' & Hf' & HP' & Hr). exists b', s'. split_and!; [done| |done|done]. by exists b'.
Qed.

Lemma first_boundary_refines :
  refines_on (fun s => True) total (_ ←? poll_read_to fb; mret (Ok ReadingBoundary))
    (fun s => match after fb s with None => Err InvalidFormat | Some t => Ok (ReadingBoundary, t) end).
Proof.
  intros b s Hf _. unfold ready_try, mbind, pollm_bind, mret, pollm_ret.
  pose proof (poll_read_to_spec total fb s b ltac:(done) Hf) as Hs.
  destruct (poll_read_to fb b) as [b' [[[]|e]|]].
  - destruct Hs as (s' & Hf' & ->). by exists s'.
  - by destruct Hs as [-> ->].
  - destruct Hs as (s' & Hf' & Hs). exists s'. by rewrite Hs.
Qed.

Lemma closing_refines :
  refines_on (fun s => True) total (_ ←? poll_consume_padding_and_crlf; mret (Ok ReadingEpilogue))
    (fun s => '(_, t) ← padding_crlf_ref s; Ok (ReadingEpilogue, t)).
Proof.
  intros b s Hf _. unfold ready_try, mbind, pollm_bind, mret, pollm_ret.
  pose proof (padding_crlf_spec total b s Hf) as Hs.
  destruct (poll_consume_padding_and_crlf b) as [b' [[[]|e]|]].
  - destruct Hs as (s' & Hf' & ->). by exists s'.
  - by rewrite Hs.
  - destruct Hs as (pad & s' & -> & Hp & Hf'). exists s'. by rewrite padding_crlf_skip.
Qed.

Lemma epilogue_refines :
  refines_on (fun s => True) total epilogue
    (fun s => if s =? [] then Ok (Done, []) else Err StreamPartNotLast).
Proof.
  intros b s Hf _. unfold epilogue. destruct (feeds_prefix _ _ _ Hf) as [t Ht].
  case_bool_decide as Hb; simpl.
  - destruct (poll_stream b) as [b' p] eqn:Ep. pose proof (poll_stream_feeds _ _ _ _ _ Hf Ep) as Hp.
    destruct (poll_stream_work _ _ _ Ep) as [[Hb' _ _] _].
    destruct p as [[[chunk|e]|]|]; [|done| |by exists s].
    + destruct Hp as [Hne Hp]. destruct (feeds_prefix _ _ _ Hp) as [t' ->]. simpl. rewrite Hb', Hb.
      rewrite bool_decide_eq_false_2; [done|]. by destruct chunk.
    + destruct Hp as [Hp Hs]. exists []. rewrite Hb', Hb in Hs. rewrite Hs in Hp. rewrite Hs. by split.
  - rewrite bool_decide_eq_false_2; [done|]. rewrite Ht. by destruct (buf b).
Qed.

Lemma epilogue_quiet : quiet epilogue.
Proof.
  intros b. unfold epilogue. destruct (negb _); [done|].
  destruct (poll_stream b) as [b' p] eqn:E. apply quiet_poll_stream in E. by destruct p as [[[]|]|].
Qed.

Lemma parse_header_block_within block k :
  parse_header_block block = Ok k -> data_start k <= length block /\ next k = 0.
Proof.
  unfold parse_header_block. destruct (httparse_parse_headers MAX_HEADERS block) as [[ds hs|]|[]] eqn:E; [|done| |done].
  - intros [= <-]. simpl. by apply httparse_within in E as [? _].
  - unfold parse_header_block_fallback. destruct (ends_with _ block) eqn:Ee; [|done]. cbn [negb].
    apply ends_with_true in Ee as [r ->]. intros Hk. invert_ok. subst k. simpl. rewrite length_app. simpl. lia.
Qed.
End Machine.

(** ** Progress of the state machine *)

Section MachineProgress.
Context `{Memchr} `{Httparse}.

Lemma advancing_work f m :
  progresses work f ->
  match advancing f m with
  | (m', Pending) => bwork m' < bwork m /\ state m' = state m
  | (m', Ready (Err _)) => bwork m' <= bwork m /\ state m' = state m
  | (m', Ready (Ok _)) => bwork m' <= bwork m /\ (consumes f -> bwork m' < bwork m) /\
                          exists b b', f b = (b', Ready (Ok (state m')))
  end.
Proof.
  intros Hp. unfold advancing, ready_try, mbind, pollm_bind, on_buffer, mret, pollm_ret, bwork.
  destruct (mp_buffer m) as [b|] eqn:Eb; [|simpl; rewrite ?Eb; done]. specialize (Hp b).
  destruct (f b) as [b' [[st|e]|]] eqn:E; simpl; rewrite ?Eb; [|done|done].
  split_and!; [done| |eauto]. intros Hc. specialize (Hc b). by rewrite E in Hc.
Qed.

Lemma consumes_progresses {A} (f : pollm StreamBuffer (result Error A)) : consumes f -> progresses work f.
Proof. intros Hf b. specialize (Hf b). destruct (f b) as [b' [[a|e]|]]; lia. Qed.

Lemma then_state_consumes (m : pollm StreamBuffer (result Error unit)) (st : State) :
  consumes m -> consumes (_ ←? m; mret (Ok st : result Error State)).
Proof.
  intros Hm b. unfold ready_try, mbind, pollm_bind, mret, pollm_ret. specialize (Hm b).
  by destruct (m b) as [b' [[a|e]|]].
Qed.

Lemma first_boundary_progresses needle :
  progresses work (_ ←? poll_read_to needle; mret (Ok ReadingBoundary : result Error State)).
Proof. apply ready_try_progresses; [apply poll_read_to_progresses|]. intros _ b. simpl. lia. Qed.

Lemma epilogue_progresses : progresses work epilogue.
Proof.
  intros b. unfold epilogue. destruct (negb _); [done|].
  destruct (poll_stream b) as [b' p] eqn:E. destruct (poll_stream_work _ _ _ E) as [_ Hw].
  destruct p as [[[]|]|]; lia.
Qed.

Lemma rank_bound st : mp_rank st <= 3.
Proof. destruct st; simpl; lia. Qed.

Lemma data_chunk_work m :
  match poll_next_part_data_chunk m with
  | (m', Pending) => bwork m' < bwork m /\ state m' = state m
  | (m', Ready (Ok (Some _))) => bwork m' < bwork m
  | (m', Ready _) => bwork m' <= bwork m /\ mp_rank (state m') <= mp_rank (state m)
  end.
Proof.
  unfold poll_next_part_data_chunk. destruct (decide (state m = ReadingPartData)) as [Hst|Hst].
  - rewrite bool_decide_eq_true_2 by done. simpl. destruct (mp_delimiter_finder m) as [d|]; [|done].
    unfold bwork. destruct (mp_buffer m) as [b|] eqn:Eb; [|by rewrite Eb].
    destruct (data_loop d b) as [b' [[c|c|e|]|]] eqn:E; apply data_loop_work in E; simpl; rewrite ?Hst; try done.
    case_bool_decide as Hc; simpl; [lia|]. destruct c; [done|]. simpl in E. lia.
  - by rewrite bool_decide_eq_false_2.
Qed.

Lemma skip_turn_progresses : turn_progresses mp_work skip_turn.
Proof.
  intros m. unfold skip_turn, mp_work. pose proof (data_chunk_work m) as Hw.
  pose proof (rank_bound (state (poll_next_part_data_chunk m).1)) as Hr.
  destruct (poll_next_part_data_chunk m) as [m' [[[c|]|e]|]]; simpl in *; lia.
Qed.

(** Skipping keeps the work within what it was, without the state. *)
Lemma skip_work m :
  match poll_skip_part_data m with
  | (m', Pending) => mp_work m' < mp_work m
  | (m', Ready _) => mp_work m' <= mp_work m /\ bwork m' <= bwork m
  end.
Proof.
  refine (loop_ind mp_work skip_turn (fun _ => True) (fun m o => match o with
    | (m', Pending) => mp_work m' < mp_work m
    | (m', Ready _) => mp_work m' <= mp_work m /\ bwork m' <= bwork m
    end) (turn_decreasing _ _ skip_turn_progresses) _ m I).
  clear m. intros m _. pose proof (skip_turn_progresses m) as Hp. unfold skip_turn in *.
  pose proof (data_chunk_work m) as Hw.
  destruct (poll_next_part_data_chunk m) as [m' [[[c|]|e]|]]; [|lia|lia|done].
  split; [done|]. intros [m1 [r|]]; lia.
Qed.

Lemma ensure_headers_work m :
  match poll_ensure_headers m with
  | (m', Pending) => bwork m' < bwork m /\ state m' = state m
  | (m', Ready r) => bwork m' <= bwork m /\ state m' = state m /\
                     (r = Ok tt -> state m = ReadingPartHeaders -> exists k, headers m' = Some k)
  end.
Proof.
  unfold poll_ensure_headers. destruct (headers m) as [k|] eqn:Eh; simpl; [eauto|].
  case_bool_decide as H1; simpl; [rewrite H1; done|]. case_bool_decide as H2; simpl; [|done].
  unfold ready_try, mbind, pollm_bind, on_buffer, mret, pollm_ret, bwork.
  destruct (mp_buffer m) as [b|] eqn:Eb; [|by rewrite Eb].
  pose proof (poll_read_header_block_progresses (max_buffer_size m) b) as Hp.
  destruct (poll_read_header_block (max_buffer_size m) b) as [b' [[e|e]|]]; simpl; [|done..].
  destruct (parse_header_block _) as [k|]; simpl; [|done]. split_and!; [done..|]. eauto.
Qed.

Lemma finish_headers_work m k :
  headers m = Some k -> state m = ReadingPartHeaders ->
  bwork (finish_headers m) <= bwork m /\ state (finish_headers m) = ReadingPartData.
Proof.
  intros Hh Hs. unfold finish_headers, bwork. rewrite Hh. simpl. rewrite bool_decide_eq_true_2 by done.
  destruct (mp_buffer m) as [b|] eqn:Eb; simpl; [|by rewrite Eb]. pose proof (advance_work (data_start k) b). split; [lia|done].
Qed.

(** A step of the machine that consumes input, or that moves to a state of lower rank. *)
Lemma advancing_progress f m m0 :
  progresses work f ->
  consumes f \/ (forall b b' st, f b = (b', Ready (Ok st)) -> mp_rank st < mp_rank (state m)) ->
  bwork m0 <= bwork m -> mp_work m0 <= mp_work m ->
  match advancing f m0 with
  | (m', Pending) | (m', Ready (Ok _)) => mp_work m' < mp_work m
  | (m', Ready (Err _)) => mp_work m' <= mp_work m
  end.
Proof.
  intros Hp Hst Hle. unfold mp_work. intros Hle2. pose proof (advancing_work f m0 Hp) as Hw.
  destruct (advancing f m0) as [m' [[[]|e]|]]; [|destruct Hw as [? ->]; lia..].
  destruct Hw as (Hw & Hc & b & b' & E). pose proof (rank_bound (state m')).
  destruct Hst as [Hf|Hr]; [specialize (Hc Hf)|specialize (Hr _ _ _ E)]; lia.
Qed.

Lemma run_step_progresses step m :
  match step m with
  | (m', Pending) | (m', Ready (Ok _)) => mp_work m' < mp_work m
  | (m', Ready (Err _)) => mp_work m' <= mp_work m
  end ->
  match run_step step m with
  | (m', Pending) | (m', Ready None) => mp_work m' < mp_work m
  | (m', Ready (Some _)) => mp_work m' <= mp_work m
  end.
Proof. unfold run_step. by destruct (step m) as [m' [[[]|e]|]]. Qed.

Lemma next_part_turn_progresses : turn_progresses mp_work next_part_turn.
Proof.
  intros m. unfold next_part_turn. pose proof (consumes_progresses _ after_boundary_consumes) as Hab.
  destruct (state m) eqn:Est; [|..|simpl; lia|simpl; lia].
  - apply run_step_progresses, advancing_progress; [apply first_boundary_progresses|right|lia|lia].
    intros b b' st E. unfold ready_try, mbind, pollm_bind, mret, pollm_ret in E.
    destruct (poll_read_to _ b) as [? [[[]|]|]]; simplify_eq. rewrite Est. simpl. lia.
  - destruct (part_handed_out m); [|unfold mp_work, bwork; simpl; lia].
    pose proof (ensure_headers_work m) as Hw. unfold mp_work. destruct (poll_ensure_headers m) as [m' [[[]|e]|]].
    + destruct Hw as (Hw & Hs & Hk). rewrite Est in *. destruct (Hk eq_refl eq_refl) as [k Hk'].
      destruct (finish_headers_work m' k Hk' Hs) as [Hf1 Hf2]. rewrite Hf2. simpl. lia.
    + destruct Hw as (Hw & Hs & _). rewrite Hs. lia.
    + destruct Hw as [Hw Hs]. rewrite Hs. lia.
  - apply run_step_progresses. unfold ready_try, mbind, pollm_bind, mret, pollm_ret. pose proof (skip_work m) as Hs.
    destruct (poll_skip_part_data m) as [m1 [[[]|e]|]]; [|lia|done].
    apply advancing_progress; [done|left; apply after_boundary_consumes|lia|lia].
  - apply run_step_progresses, advancing_progress; [done|left; apply after_boundary_consumes|lia|lia].
  - pose proof (then_state_consumes _ ReadingEpilogue padding_crlf_consumes) as Hc.
    apply run_step_progresses, advancing_progress; [by apply consumes_progresses|by left|lia|lia].
  - apply run_step_progresses, advancing_progress; [apply epilogue_progresses|right|lia|lia].
    intros b b' st E. unfold epilogue in E. destruct (negb _); [done|].
    destruct (poll_stream b) as [b1 [[[]|]|]]; simplify_eq. rewrite Est. simpl. lia.
Qed.
End MachineProgress.

(** ** The state machine refines the reference *)

Section Refinement.
Context `{Memchr} `{Httparse}.
Context (total : Z) (boundary : bytes) (max : nat).

Abbreviation d := (make_delimiter boundary) (only parsing).
Abbreviation at_ := (mp_at total boundary max) (only parsing).
Abbreviation next_ref := (next_ref boundary max) (only parsing).
Abbreviation clean := (clean boundary max) (only parsing).

Lemma ensure_headers_spec m h blk s :
  at_ m (VHeaders h blk s) ->
  match poll_ensure_headers m with
  | (m', Pending) => at_ m' (VHeaders h blk s)
  | (m', Ready (Ok _)) => exists k, block_ref max blk s = Ok k /\ at_ m' (VHeaders h (Some k) s)
  | (m', Ready (Err e)) => block_ref max blk s = Err e
  end.
Proof.
  intros [Hcfg (Hst & Hh & Hho & b & Hb & Hf & Hr & Hk)]. unfold poll_ensure_headers.
  destruct blk as [k|]; rewrite Hh; simpl.
  { exists k. split; [done|]. split; [done|]. split_and!; [done..|]. eauto. }
  rewrite Hst. simpl. unfold ready_try, mbind, pollm_bind, on_buffer, mret, pollm_ret. rewrite Hb.
  destruct Hcfg as (Hc1 & Hc2 & Hc3). rewrite Hc3.
  pose proof (poll_read_header_block_spec total max s b Hf Hr) as Hs.
  destruct (poll_read_header_block max b) as [b' [[e|e]|]]; simpl.
  - destruct Hs as (Hf' & Ha & He & Hl). specialize (Hl e eq_refl). rewrite <- He. simpl.
    destruct (feeds_prefix _ _ _ Hf') as [t Ht].
    assert (Hte : take e s = take e (buf b')) by (by rewrite Ht, take_app_le). rewrite Hte.
    destruct (parse_header_block (take e (buf b'))) as [k|e'] eqn:Ek; [|done]. exists k. split; [done|].
    apply parse_header_block_within in Ek as [Ek _]. rewrite length_take in Ek.
    split; [done|]. split_and!; [done..|]. exists b'. split_and!; [done|done| |].
    + by intros Hact; rewrite Ha in Hact.
    + intros k' [= <-]. split; [lia|done].
  - destruct Hs as (_ & _ & He & _). by rewrite <- He.
  - destruct Hs as [Hf' Hr']. split; [done|]. split_and!; [done..|]. exists b'. by split_and!.
Qed.

Lemma finish_headers_spec m h k s :
  at_ m (VHeaders h (Some k) s) -> at_ (finish_headers m) (VData (drop (data_start k) s)).
Proof.
  intros [Hcfg (Hst & Hh & Hho & b & Hb & Hf & Hr & Hk)]. destruct (Hk k eq_refl) as [Hk1 Hk2].
  unfold finish_headers. rewrite Hh. simpl. rewrite bool_decide_eq_true_2, Hb by done.
  split; [done|]. split; [done|]. eexists. split; [done|]. split; [by apply feeds_advance|done].
Qed.

Lemma data_chunk_spec m s :
  at_ m (VData s) ->
  match poll_next_part_data_chunk m with
  | (m', Pending) => at_ m' (VData s)
  | (m', Ready (Ok (Some c))) => c <> [] /\
      ((exists s', s = c ++ s' /\ no_start d (length c) s /\ at_ m' (VData s')) \/
       (exists s', s = c ++ d ++ s' /\ find_sub d s = Some (length c) /\ at_ m' (VBoundary s')))
  | (m', Ready (Ok None)) => exists s', s = d ++ s' /\ find_sub d s = Some 0 /\ at_ m' (VBoundary s')
  | (m', Ready (Err e)) => e = IncompleteStream /\ find_sub d s = None
  end.
Proof.
  intros [(Hc1 & Hc2 & Hc3) [(Hst & Hh & Hho) (b & Hb & Hf & Ha)]]. unfold poll_next_part_data_chunk.
  rewrite Hst, Hc2, Hb. simpl. pose proof (data_loop_spec total d s b ltac:(done) Hf) as Hs.
  pose proof (quiet_data_loop d b) as Hq. destruct (data_loop d b) as [b' [[c|c|e|]|]]; simpl in Hq; rewrite Ha in Hq.
  - destruct Hs as (Hne & s' & -> & Hf' & Hn). split; [done|]. left. exists s'. split_and!; [done|done|].
    split; [done|]. split; [done|]. by exists b'.
  - destruct Hs as (s' & -> & Hf' & Hi).
    assert (Hat : at_ (set_state ReadingBoundary (set_buffer b' m)) (VBoundary s')) by (split; [done|]; split; [done|]; by exists b').
    case_bool_decide as Hnil; [subst c; by exists s'|]. split; [done|]. right. by exists s'.
  - done.
  - by destruct Hs as [_ ->].
  - split; [done|]. split; [done|]. by exists b'.
Qed.

Lemma after_found s i : find_sub d s = Some i -> after d s = Some (drop (i + length d) s).
Proof. unfold after. by intros ->. Qed.

Lemma skip_spec m s :
  at_ m (VData s) ->
  match poll_skip_part_data m with
  | (m', Pending) => exists s', at_ m' (VData s') /\ after d s' = after d s
  | (m', Ready (Ok _)) => exists s', at_ m' (VBoundary s') /\ after d s = Some s'
  | (m', Ready (Err e)) => e = IncompleteStream /\ after d s = None
  end.
Proof.
  intros Hm. pose proof (loop_inv mp_work skip_turn
    (fun m => (exists s', at_ m (VData s') /\ after d s' = after d s) \/
              (exists s', at_ m (VBoundary s') /\ after d s = Some s'))
    (fun m => exists s', at_ m (VData s') /\ after d s' = after d s)
    (fun m r => match r with
                | Ok _ => exists s', at_ m (VBoundary s') /\ after d s = Some s'
                | Err e => e = IncompleteStream /\ after d s = None
                end) skip_turn_progresses) as Hl.
  refine ((fun Hstep => _ (Hl Hstep m (or_introl (ex_intro _ s (conj Hm eq_refl))))) _); clear Hl.
  - unfold poll_skip_part_data. destruct (loop mp_work skip_turn m) as [m' [[[]|e]|]]; auto.
  - clear m Hm. intros m [(s1 & Hm & <-)|(s' & Hm & Ha)].
    + unfold skip_turn. pose proof (data_chunk_spec m s1 Hm) as Hs.
      destruct (poll_next_part_data_chunk m) as [m' [[[c|]|e]|]].
      * destruct Hs as [Hne [(s' & -> & Hn & Hm')|(s' & -> & Hi & Hm')]]; [left|right]; exists s'; split; try done.
        -- rewrite <- (after_drop d (length c) (c ++ s')); [by rewrite drop_app_length|rewrite length_app; lia|done].
        -- rewrite (after_found _ _ Hi). by rewrite drop_app_add, drop_app_length.
      * destruct Hs as (s' & -> & Hi & Hm'). exists s'. split; [done|].
        rewrite (after_found _ _ Hi). by rewrite Nat.add_0_l, drop_app_length.
      * destruct Hs as [-> Hn]. split; [done|]. unfold after. by rewrite Hn.
      * eauto.
    + unfold skip_turn, poll_next_part_data_chunk. destruct Hm as [? [(Hst & ?) ?]] eqn:E. rewrite Hst. simpl. eauto.
Qed.

(** The outcome of a step of the machine, in terms of views. *)
Definition stepped (v : view) (m : Multipart) (o : poll (option (result Error bool))) : Prop :=
  match o with
  | Pending | Ready None => exists v', at_ m v' /\ clean v' /\ next_ref v' = next_ref v
  | Ready (Some (Ok true)) => exists v', at_ m v' /\ next_ref v = Ok (Some v')
  | Ready (Some (Ok false)) => at_ m VDone /\ next_ref v = Ok None
  | Ready (Some (Err e)) => next_ref v = Err e
  end.

Lemma boundary_step_spec m s :
  at_ m (VBoundary s) -> no_padded_dash s ->
  let o := run_step poll_advance_after_boundary m in stepped (VBoundary s) o.1 o.2.
Proof.
  intros [Hcfg [Hpl Hf]] Hn. unfold run_step, poll_advance_after_boundary.
  pose proof (advancing_spec total m s (after_boundary_refines total) after_boundary_quiet Hf Hn) as Hs.
  assert (Hst : forall st s', boundary_ref s = Ok (st, s') -> st = ReadingClosingDelimiter \/ st = ReadingPartHeaders).
  { intros st s'. unfold boundary_ref. destruct s as [|c t]; [done|].
    destruct (c =? "-"%byte); [destruct t as [|c' t]; [done|]; destruct (c' =? "-"%byte); intros ?; simplify_eq; by left|].
    destruct (is_padding c); [|destruct (c =? x0d)]; intros ?; invert_ok; try done;
      destruct x as [[] ?]; simplify_eq; by right. }
  destruct (advancing after_boundary m) as [m' [[[]|e]|]]; simpl.
  - destruct Hs as (b & st & s' & -> & Hf' & Hr). destruct (Hst _ _ Hr) as [-> | ->].
    + exists (VClosing s'). split_and!; [split; [done|split; [|done]]; by destruct Hpl as (?&?&?)|done|].
      unfold Multipart.next_ref, boundary_next. by rewrite Hr.
    + exists (VHeaders false None s'). split_and!.
      * split; [done|]. destruct Hpl as (?&?&?). destruct Hf' as (b1 & Hb1 & Hf1 & Ha1).
        split_and!; [done..|]. exists b1. split_and!; [done|done| |done]. intros Hact. congruence.
      * done.
      * unfold Multipart.next_ref, boundary_next. by rewrite Hr.
  - unfold Multipart.next_ref, boundary_next. by rewrite Hs.
  - destruct Hs as (b & s' & -> & Hf' & Hn' & Hr). exists (VBoundary s'). split_and!.
    + split; [done|]. by split.
    + by intros t [= <-].
    + unfold Multipart.next_ref, boundary_next. by rewrite Hr.
Qed.
End Refinement.

Section NextPart.
Context `{Memchr} `{Httparse}.
Context (total : Z) (boundary : bytes) (max : nat).

Abbreviation d := (make_delimiter boundary) (only parsing).
Abbreviation at_ := (mp_at total boundary max) (only parsing).
Abbreviation next_ref := (next_ref boundary max) (only parsing).
Abbreviation clean := (clean boundary max) (only parsing).
Abbreviation stepped := (stepped total boundary max) (only parsing).

(** The outcome of a later view is that of an earlier one it has the same reference as. *)
Lemma stepped_mono v v' m o : next_ref v' = next_ref v -> stepped v' m o -> stepped v m o.
Proof.
  intros E. destruct o as [[[[]|]|]|]; simpl; [intros (v1 & ? & ?)|intros [? ?]| |intros (v1 & ? & ? & ?)..]; rewrite <- ?E; eauto.
Qed.

Lemma start_step_spec m s :
  at_ m (VStart s) -> clean (VStart s) ->
  let o := run_step poll_advance_first_boundary m in stepped (VStart s) o.1 o.2.
Proof.
  intros [Hcfg [Hpl Hf]] Hn. destruct Hcfg as (Hfb & Hcfg). unfold run_step, poll_advance_first_boundary. rewrite Hfb.
  pose proof (fun Hq => advancing_spec total m s (first_boundary_refines total boundary) Hq Hf I) as Hs.
  specialize (Hs ltac:(apply quiet_ready_try; [apply quiet_read_to|by intros _ b])).
  destruct (advancing _ m) as [m' [[[]|e]|]]; simpl.
  - destruct Hs as (b & st & s' & -> & Hf' & Hr). destruct (after _ s) as [t|] eqn:Ea; [|done]. simplify_eq.
    exists (VBoundary s'). split_and!.
    + split; [done|]. split; [|done]. by destruct Hpl as (?&?&?).
    + intros t [= <-]. by apply Hn.
    + unfold Multipart.next_ref. by rewrite ?Ea.
  - destruct (after _ s) as [t|] eqn:Ea; simplify_eq. done.
  - destruct Hs as (b & s' & -> & Hf' & _ & Hr). exists (VStart s').
    assert (Ea : after (make_first_boundary boundary) s' = after (make_first_boundary boundary) s).
    { by destruct (after _ s'), (after _ s); simplify_eq. }
    split_and!; [split; [done|]; by split| |].
    + intros t Ht. apply Hn. unfold boundary_point in *. congruence.
    + unfold Multipart.next_ref. by rewrite ?Ea.
Qed.

Lemma closing_step_spec m s :
  at_ m (VClosing s) -> let o := run_step poll_advance_closing m in stepped (VClosing s) o.1 o.2.
Proof.
  intros [Hcfg [Hpl Hf]]. unfold run_step, poll_advance_closing.
  pose proof (fun Hq => advancing_spec total m s (closing_refines total) Hq Hf I) as Hs.
  specialize (Hs ltac:(apply quiet_ready_try; [apply padding_crlf_quiet|by intros _ b])).
  destruct (advancing _ m) as [m' [[[]|e]|]]; simpl; unfold closing_next.
  - destruct Hs as (b & st & s' & -> & Hf' & Hr). destruct (padding_crlf_ref s) as [[[] t]|] eqn:Ea; simplify_eq/=.
    exists (VEpilogue s'). split_and!; [|done|done]. split; [done|]. split; [|done]. by destruct Hpl as (?&?&?).
  - by destruct (padding_crlf_ref s) as [[[] t]|]; simplify_eq/=.
  - destruct Hs as (b & s' & -> & Hf' & _ & Hr). exists (VClosing s').
    split_and!; [split; [done|]; by split|done|]. simpl. unfold closing_next.
    by destruct (padding_crlf_ref s') as [[[] t']|], (padding_crlf_ref s) as [[[] t]|]; simplify_eq/=.
Qed.

Lemma epilogue_step_spec m s :
  at_ m (VEpilogue s) -> let o := run_step poll_epilogue m in stepped (VEpilogue s) o.1 o.2.
Proof.
  intros [Hcfg [Hpl Hf]]. unfold run_step, poll_epilogue.
  pose proof (advancing_spec total m s (epilogue_refines total) epilogue_quiet Hf I) as Hs.
  destruct (advancing _ m) as [m' [[[]|e]|]]; simpl; unfold epilogue_next.
  - destruct Hs as (b & st & s' & -> & Hf' & Hr). case_bool_decide; simplify_eq.
    exists VDone. split_and!; [|done|done]. split; [done|]. by destruct Hpl as (?&?&?).
  - by case_bool_decide; simplify_eq.
  - destruct Hs as (b & s' & -> & Hf' & _ & Hr). exists (VEpilogue s').
    split_and!; [split; [done|]; by split|done|]. simpl. unfold epilogue_next. by repeat case_bool_decide; simplify_eq.
Qed.

Lemma data_step_spec m s :
  at_ m (VData s) -> clean (VData s) ->
  let o := run_step (_ ←? poll_skip_part_data; poll_advance_after_boundary) m in stepped (VData s) o.1 o.2.
Proof.
  intros Hm Hn. pose proof (skip_spec total boundary max m s Hm) as Hs.
  unfold run_step, ready_try, mbind, pollm_bind, mret, pollm_ret.
  destruct (poll_skip_part_data m) as [m1 [[[]|e]|]].
  - destruct Hs as (s' & Hm1 & Ha). pose proof (boundary_step_spec total boundary max m1 s' Hm1 (Hn s' Ha)) as Hb.
    apply (stepped_mono (VData s)) in Hb; [exact Hb|]. simpl. unfold data_next. by rewrite Ha.
  - destruct Hs as [-> Ha]. simpl. unfold data_next. by rewrite Ha.
  - destruct Hs as (s' & Hm1 & Ha). exists (VData s'). split_and!; [done| |].
    + intros t Ht. apply Hn. unfold boundary_point in *. congruence.
    + simpl. unfold data_next. by rewrite Ha.
Qed.

Lemma next_part_turn_spec m v :
  at_ m v -> clean v -> stepped v (next_part_turn m).1 (next_part_turn m).2.
Proof.
  intros Hm Hn. unfold next_part_turn. destruct v as [s|s|s|s|h blk s|s|].
  - pose proof Hm as [_ [(-> & _) _]]. by apply start_step_spec.
  - pose proof Hm as [_ [(-> & _) _]]. apply boundary_step_spec; [done|]. by apply Hn.
  - pose proof Hm as [_ [(-> & _) _]]. by apply closing_step_spec.
  - pose proof Hm as [_ [(-> & _) _]]. by apply epilogue_step_spec.
  - pose proof Hm as [_ (-> & _ & -> & _)]. destruct h.
    + pose proof (ensure_headers_spec total boundary max m true blk s Hm) as Hs.
      destruct (poll_ensure_headers m) as [m' [[[]|e]|]]; simpl.
      * destruct Hs as (k & Hk & Hm'). exists (VData (drop (data_start k) s)). split_and!.
        -- by eapply finish_headers_spec.
        -- intros t Ht. apply Hn. simpl in *. by rewrite Hk.
        -- simpl. by rewrite Hk.
      * by rewrite Hs.
      * by exists (VHeaders true blk s).
    + simpl. exists (VHeaders true blk s). split; [|done]. destruct Hm as [? (?&?&?&?)]. split; [done|]. by split_and!.
  - pose proof Hm as [_ [(-> & _) _]]. by apply data_step_spec.
  - pose proof Hm as [_ (-> & _)]. done.
Qed.

Lemma poll_next_part_progresses : progresses mp_work poll_next_part.
Proof. apply loop_progresses, next_part_turn_progresses. Qed.

(** Driving [poll_next_part] gives what the reference says of the bytes that remain. *)
Lemma next_part_correct m v :
  at_ m v -> clean v ->
  exists m' r, await mp_work poll_next_part m = (m', Ready r) /\
    match next_ref v with
    | Ok (Some v') => r = Ok true /\ at_ m' v'
    | Ok None => r = Ok false /\ at_ m' VDone
    | Err e => r = Err e
    end.
Proof.
  intros Hm Hn.
  apply (await_inv mp_work poll_next_part (fun m => exists v', at_ m v' /\ clean v' /\ next_ref v' = next_ref v)
    (fun m r => match next_ref v with
                | Ok (Some v') => r = Ok true /\ at_ m v'
                | Ok None => r = Ok false /\ at_ m VDone
                | Err e => r = Err e
                end) poll_next_part_progresses); [|eauto].
  clear m Hm Hn. intros m Hm.
  pose proof (loop_inv mp_work next_part_turn (fun m => exists v', at_ m v' /\ clean v' /\ next_ref v' = next_ref v)
    (fun m => exists v', at_ m v' /\ clean v' /\ next_ref v' = next_ref v)
    (fun m r => match next_ref v with
                | Ok (Some v') => r = Ok true /\ at_ m v'
                | Ok None => r = Ok false /\ at_ m VDone
                | Err e => r = Err e
                end) next_part_turn_progresses) as Hl.
  apply Hl; [|done]. clear m Hm Hl. intros m (v' & Hm & Hn & <-). pose proof (next_part_turn_spec m v' Hm Hn) as Hs.
  destruct (next_part_turn m) as [m' [[[[]|e]|]|]]; simpl in Hs.
  - destruct Hs as (v1 & ? & ->). done.
  - destruct Hs as [? ->]. done.
  - by rewrite Hs.
  - done.
  - done.
Qed.
End NextPart.

(** ** Reading a whole body *)

(** A [Result<Option<A>, E>] as the next item of a stream. *)
Definition items {St A} (f : pollm St (result Error (option A))) : pollm St (option (result Error A)) := fun s =>
  match f s with
  | (s', Ready (Ok (Some a))) => (s', Ready (Some (Ok a)))
  | (s', Ready (Ok None)) => (s', Ready None)
  | (s', Ready (Err e)) => (s', Ready (Some (Err e)))
  | (s', Pending) => (s', Pending)
  end.

(** The work of reading headers: the fields not handed out yet come on top. *)
Definition header_work (m : Multipart) : nat :=
  5 * bwork m + match headers m with Some k => length (spans k) - next k | None => S MAX_HEADERS end.

Abbreviation field := (bytes * bytes)%type (only parsing).

Section Reading.
Context `{Memchr} `{Httparse}.

(** [reads m parts]: a client that asks for every part, reads all its headers and then all its
    data, gets [parts] and then the end of the body. *)
Inductive reads : Multipart -> list (list field * bytes) -> Prop :=
| reads_end m m' :
    await mp_work poll_next_part m = (m', Ready (Ok false)) -> reads m []
| reads_part m m1 m2 m3 fields chunks parts :
    await mp_work poll_next_part m = (m1, Ready (Ok true)) ->
    drain header_work (items poll_next_header) m1 = ((m2, fields), Ready None) ->
    drain mp_work (items poll_next_data) m2 = ((m3, chunks), Ready None) ->
    reads m3 parts -> reads m ((fields, concat chunks) :: parts).

Lemma get_range_app s t i j x : get_range s i j = Some x -> get_range (s ++ t) i j = Some x.
Proof.
  unfold get_range. destruct (_ && _) eqn:E; [|done]. reflect_bools. intros [= <-].
  rewrite length_app. rewrite (proj2 (Nat.leb_le i j)) by done. rewrite (proj2 (Nat.leb_le j _)) by lia. simpl.
  rewrite drop_app_le by lia. rewrite take_app_le; [done|]. rewrite length_drop. lia.
Qed.

(** The fields a parsed block denotes. *)
Definition denotes_field (block : bytes) (sp : HeaderSpan) (f : field) : Prop :=
  get_range block (name_start sp) (name_end sp) = Some f.1 /\
  get_range block (value_start sp) (value_end sp) = Some f.2 /\ utf8_valid f.1 = true.

Lemma parse_header_block_room block k : parse_header_block block = Ok k -> length (spans k) <= MAX_HEADERS.
Proof.
  unfold parse_header_block. destruct (httparse_parse_headers MAX_HEADERS block) as [[ds hs|]|[]] eqn:E; [|done| |done].
  - intros [= <-]. cbn [spans]. rewrite length_take. lia.
  - unfold parse_header_block_fallback. destruct (negb _); [done|]. intros Hk. invert_ok. subst k. cbn [spans].
    enough (Hl : forall room pos rest l, fallback_fields room pos rest = Ok l -> length l <= room) by eauto.
    induction room as [|room IH]; intros pos rest l; simpl; [by intros [= <-]|].
    destruct (rest =? []); [intros [= <-]; simpl; lia|]. destruct (split_line rest) as [line nx].
    destruct (memchr1 _ line) as [colon|]; [|done]. destruct (_ =? []); [done|]. intros Hl. invert_ok. subst l. simpl.
    specialize (IH _ _ _ H2). lia.
Qed.

Section Part.
Context (total : Z) (boundary : bytes) (max : nat).
Abbreviation d := (make_delimiter boundary) (only parsing).
Abbreviation at_ := (mp_at total boundary max) (only parsing).

(** *** Headers *)

Definition with_next (k : HeaderBlock) (n : nat) : HeaderBlock :=
  {| spans := spans k; next := n; data_start := data_start k |}.

Lemma next_header_inner_spec m s block k fields n :
  s = block ++ drop (length block) s -> data_start k = length block -> Forall2 (denotes_field block) (spans k) fields ->
  at_ m (VHeaders true (Some (with_next k n)) s) ->
  let '(m', r) := next_header_inner m in
  r = Ok (fields !! n) /\ bwork m' <= bwork m /\
  match fields !! n with
  | Some _ => at_ m' (VHeaders true (Some (with_next k (n + 1))) s)
  | None => at_ m' (VData (drop (length block) s))
  end.
Proof.
  intros Hs Hds Hfs Hm. pose proof Hm as [Hcfg (Hst & Hh & Hho & b & Hb & Hf & Hr & Hk)].
  unfold next_header_inner. rewrite Hh. cbn [spans next with_next].
  destruct (spans k !! n) as [sp|] eqn:En.
  - destruct (Forall2_lookup_l _ _ _ _ _ Hfs En) as (f & Hf1 & (Hn1 & Hn2 & Hn3)). rewrite Hf1.
    destruct (Hk _ eq_refl) as [Hk1 Hk2]. cbn [data_start with_next] in Hk1. rewrite Hds in Hk1.
    destruct (feeds_prefix _ _ _ Hf) as [t Ht].
    assert (Hbuf : exists x, buf b = block ++ x).
    { exists (drop (length block) (buf b)). rewrite <- (take_drop (length block) (buf b)) at 1. f_equal.
      rewrite Ht in Hs. rewrite <- (take_app_le (buf b) t) by done. rewrite Hs. by rewrite take_app_length. }
    destruct Hbuf as [x Hx]. split_and!.
    + cbn [mp_buffer set_headers]. rewrite Hb. cbn. rewrite Hx.
      rewrite (get_range_app _ x _ _ _ Hn1), (get_range_app _ x _ _ _ Hn2). cbn. rewrite Hn3. by destruct f.
    + done.
    + split; [done|]. split_and!; [done..|]. exists b. split_and!; [done..|]. intros k' Hk'. apply (inj Some) in Hk' as <-. simpl. by rewrite Hds.
  - apply lookup_ge_None_1 in En. rewrite (lookup_ge_None_2 fields n) by (by rewrite <- (Forall2_length _ _ _ Hfs)). split_and!; [done| |].
    + by apply (finish_headers_work m (with_next k n)).
    + rewrite <- Hds. by apply (finish_headers_spec total boundary max m true (with_next k n) s).
Qed.

Lemma ensure_headers_fields m :
  match poll_ensure_headers m with
  | (m', Ready (Ok _)) => match headers m with
                          | Some k => headers m' = Some k
                          | None => forall k, headers m' = Some k -> length (spans k) <= MAX_HEADERS
                          end
  | (m', _) => headers m' = headers m
  end.
Proof.
  unfold poll_ensure_headers. destruct (headers m) as [k|] eqn:Eh; simpl; [done|].
  case_bool_decide; simpl; [by rewrite Eh|]. case_bool_decide; simpl; [|by rewrite Eh].
  unfold ready_try, mbind, pollm_bind, on_buffer, mret, pollm_ret.
  destruct (mp_buffer m) as [b|]; [|done].
  destruct (poll_read_header_block _ b) as [b' [[e|e]|]]; simpl; [|done..].
  destruct (parse_header_block _) as [k|] eqn:Ek; simpl; [|done].
  intros k' [= <-]. by apply parse_header_block_room in Ek.
Qed.

Lemma finish_headers_le m :
  bwork (finish_headers m) <= bwork m /\ mp_rank (state (finish_headers m)) <= mp_rank (state m).
Proof.
  unfold finish_headers. destruct (headers m) as [k|] eqn:Eh; [|done].
  destruct (decide (state m = ReadingPartHeaders)) as [Hs|Hs].
  - destruct (finish_headers_work m k Eh Hs) as [H1 H2]. unfold finish_headers in H1, H2. rewrite Eh in H1, H2.
    rewrite H2, Hs. simpl. split; [done|lia].
  - simpl. rewrite bool_decide_eq_false_2 by done. done.
Qed.

Lemma header_poll_work m m' o :
  items poll_next_header m = (m', o) ->
  match o with Pending | Ready (Some (Ok _)) => header_work m' < header_work m | _ => True end.
Proof.
  unfold items, poll_next_header, ready_try, mbind, pollm_bind, mret, pollm_ret, header_work.
  pose proof (ensure_headers_work m) as Hw. pose proof (ensure_headers_fields m) as Hk.
  destruct (poll_ensure_headers m) as [m1 [[[]|e]|]].
  - destruct Hw as [Hw _]. unfold next_header_inner. destruct (headers m1) as [k|] eqn:Eh; [|by intros [= <- <-]].
    destruct (spans k !! next k) as [sp|] eqn:En; [|by intros [= <- <-]].
    apply lookup_lt_Some in En.
    destruct (mbind _ _) as [[f|]|]; intros [= <- <-]; [|done..]. unfold bwork in *. simpl.
    destruct (headers m) as [k0|]; [simplify_eq; lia|]. specialize (Hk k eq_refl). lia.
  - by intros [= <- <-].
  - intros [= <- <-]. rewrite Hk. lia.
Qed.

(** Reading the headers of a part. *)
Lemma read_headers_spec m s block k fields :
  s = block ++ drop (length block) s -> data_start k = length block -> next k = 0 ->
  Forall2 (denotes_field block) (spans k) fields ->
  block_ref max None s = Ok k -> at_ m (VHeaders true None s) ->
  exists m', drain header_work (items poll_next_header) m = ((m', fields), Ready None) /\
             at_ m' (VData (drop (length block) s)).
Proof.
  intros Hs Hds Hn0 Hfs Href Hm.
  set (at_field := fun (m : Multipart) (n : nat) => exists blk, at_ m (VHeaders true blk s) /\
    block_ref max blk s = Ok (with_next k n)).
  destruct (drain_ind header_work (items poll_next_header) (fun m => exists n, at_field m n)
    (fun m l r m1 => forall n, at_field m n -> l = drop n fields /\ r = None /\ at_ m1 (VData (drop (length block) s))))
    with (s := m) as (m' & l & r & E & HQ).
  - intros m1 m2 o. apply header_poll_work.
  - clear m Hm. intros m [n0 Hm0].
    assert (Hstep : forall n, at_field m n -> let '(m', o) := items poll_next_header m in
      match o with
      | Pending => at_field m' n
      | Ready None => drop n fields = [] /\ at_ m' (VData (drop (length block) s))
      | Ready (Some (Ok f)) => drop n fields = f :: drop (n + 1) fields /\ at_field m' (n + 1)
      | Ready (Some (Err _)) => False
      end).
    { intros n (blk & Hm & Hblk). unfold items, poll_next_header, ready_try, mbind, pollm_bind, mret, pollm_ret.
      pose proof (ensure_headers_spec total boundary max m true blk s Hm) as He.
      destruct (poll_ensure_headers m) as [m1 [[[]|e]|]]; [|congruence|by exists blk].
      destruct He as (k' & Hk' & Hm1). rewrite Hblk in Hk'. simplify_eq.
      pose proof (next_header_inner_spec m1 s block k fields n Hs Hds Hfs Hm1) as Hi.
      destruct (next_header_inner m1) as [m2 r2]. destruct Hi as (-> & _ & Hi).
      destruct (fields !! n) as [f|] eqn:En.
      - split; [by rewrite Nat.add_1_r; apply drop_S|]. exists (Some (with_next k (n + 1))). done.
      - apply lookup_ge_None_1 in En. split; [|done]. by apply drop_ge. }
    destruct (items poll_next_header m) as [m' [[[f|e]|]|]].
    + split; [exists (n0 + 1); by apply Hstep|]. intros l r m1 HQ n Hn. destruct (Hstep n Hn) as [-> Hn'].
      by destruct (HQ _ Hn') as (-> & -> & ?).
    + by destruct (Hstep _ Hm0).
    + intros n Hn. by destruct (Hstep n Hn) as [-> ?].
    + split; [exists n0; by apply Hstep|]. intros l r m1 HQ n Hn. by apply HQ, Hstep.
  - exists 0, None. split; [done|]. rewrite Href. destruct k. simpl in Hn0. by subst.
  - destruct (HQ 0) as (-> & -> & Hm').
    { exists None. split; [done|]. rewrite Href. destruct k. simpl in Hn0. by subst. }
    exists m'. split; [done|done].
Qed.

(** *** Data *)

Lemma data_poll_work m m' o :
  items poll_next_data m = (m', o) ->
  match o with Pending | Ready (Some (Ok _)) => mp_work m' < mp_work m | _ => True end.
Proof.
  unfold items, poll_next_data, ready_try, mbind, pollm_bind, mret, pollm_ret, mp_work.
  pose proof (ensure_headers_work m) as Hw. destruct (poll_ensure_headers m) as [m1 [[[]|e]|]].
  - destruct Hw as (Hw & Hs & _). destruct (finish_headers_le m1) as [Hf1 Hf2]. rewrite Hs in Hf2.
    pose proof (data_chunk_work (finish_headers m1)) as Hc.
    destruct (poll_next_part_data_chunk (finish_headers m1)) as [m2 [[[c|]|e]|]]; intros [= <- <-]; [|done..|].
    + pose proof (rank_bound (state m2)). lia.
    + destruct Hc as [Hc ->]. lia.
  - by intros [= <- <-].
  - intros [= <- <-]. destruct Hw as [Hw ->]. lia.
Qed.

(** In the data phase, and after it, there are no headers to read. *)
Lemma poll_next_data_in_data m s :
  (at_ m (VData s) \/ at_ m (VBoundary s)) -> poll_next_data m = poll_next_part_data_chunk m.
Proof.
  intros Hm. assert (Hh : headers m = None /\ (state m = ReadingPartData \/ state m = ReadingBoundary)).
  { destruct Hm as [[_ [(?&?&?) _]]|[_ [(?&?&?) _]]]; auto. }
  destruct Hh as [Hh Hs]. unfold poll_next_data, ready_try, mbind, pollm_bind, poll_ensure_headers, finish_headers.
  rewrite Hh. destruct Hs as [-> | ->]; simpl; by rewrite Hh.
Qed.

(** One poll of the data of a part whose delimiter is at [i]. *)
Lemma data_items_spec m s i :
  at_ m (VData s) -> find_sub d s = Some i ->
  let '(m', o) := items poll_next_data m in
  match o with
  | Pending => at_ m' (VData s)
  | Ready None => i = 0 /\ at_ m' (VBoundary (drop (length d) s))
  | Ready (Some (Ok c)) =>
      (exists s' j, s = c ++ s' /\ i = length c + j /\ find_sub d s' = Some j /\ at_ m' (VData s')) \/
      (c = take i s /\ at_ m' (VBoundary (drop (i + length d) s)))
  | Ready (Some (Err _)) => False
  end.
Proof.
  intros Hm Hi. unfold items. rewrite (poll_next_data_in_data m s) by auto.
  pose proof (data_chunk_spec total boundary max m s Hm) as Hc.
  destruct (poll_next_part_data_chunk m) as [m' [[[c|]|e]|]]; [| | |done].
  - destruct Hc as [Hne [(s' & -> & Hn & Hm')|(s' & -> & Hi' & Hm')]].
    + left. rewrite find_sub_skip in Hi by done. destruct (find_sub d s') as [j|] eqn:Ej; simplify_eq/=.
      by exists s', j.
    + right. rewrite Hi in Hi'. simplify_eq. by rewrite take_app_length, drop_app_add, drop_app_length.
  - destruct Hc as (s' & -> & Hi' & Hm'). rewrite Hi in Hi'. simplify_eq. by rewrite drop_app_length.
  - destruct Hc as [_ Hc]. congruence.
Qed.

Lemma boundary_items m s : at_ m (VBoundary s) -> items poll_next_data m = (m, Ready None).
Proof.
  intros Hm. unfold items. rewrite (poll_next_data_in_data m s) by auto. destruct Hm as [_ [(Hst & _) _]].
  unfold poll_next_part_data_chunk. by rewrite Hst.
Qed.

(** Reading the data of a part. *)
Lemma read_data_spec m s i :
  find_sub d s = Some i -> at_ m (VData s) ->
  exists m' chunks, drain mp_work (items poll_next_data) m = ((m', chunks), Ready None) /\
                    concat chunks = take i s /\ at_ m' (VBoundary (drop (i + length d) s)).
Proof.
  intros Hi Hm.
  destruct (drain_ind mp_work (items poll_next_data)
    (fun m => exists s, (at_ m (VData s) /\ exists i, find_sub d s = Some i) \/ at_ m (VBoundary s))
    (fun m l r m1 => forall s,
       (forall i, at_ m (VData s) -> find_sub d s = Some i ->
          concat l = take i s /\ r = None /\ at_ m1 (VBoundary (drop (i + length d) s))) /\
       (at_ m (VBoundary s) -> l = [] /\ r = None /\ at_ m1 (VBoundary s))))
    with (s := m) as (m' & l & r & E & HQ).
  - intros m1 m2 o. apply data_poll_work.
  - clear m s i Hi Hm. intros m [s0 Hm0]. pose proof (boundary_items m) as Hb. pose proof (data_items_spec m) as Hd.
    destruct (items poll_next_data m) as [m' [[[c|e]|]|]] eqn:Ep.
    + split.
      * destruct Hm0 as [[Hm0 [i0 Hi0]]|Hm0]; [|by apply Hb in Hm0].
        destruct (Hd _ _ Hm0 Hi0) as [(s' & j & _ & _ & ? & ?)|[_ ?]]; eauto.
      * intros l r m1 HQ s. split; [|by intros Hx; apply Hb in Hx]. intros i Hm Hi.
        destruct (Hd _ _ Hm Hi) as [(s' & j & -> & -> & Hj & Hm')|[-> Hm']].
        -- destruct (proj1 (HQ s') j Hm' Hj) as (Hc & -> & Hm1). simpl.
           by rewrite Hc, take_app_add, <- Nat.add_assoc, drop_app_add.
        -- destruct (proj2 (HQ _) Hm') as (-> & -> & Hm1). simpl. by rewrite app_nil_r.
    + destruct Hm0 as [[Hm0 [i0 Hi0]]|Hm0]; [by destruct (Hd _ _ Hm0 Hi0)|by apply Hb in Hm0].
    + intros s. split.
      * intros i Hm Hi. by destruct (Hd _ _ Hm Hi) as [-> Hm'].
      * intros Hm. apply Hb in Hm as Heq. simplify_eq. done.
    + split.
      * destruct Hm0 as [[Hm0 [i0 Hi0]]|Hm0]; [|by apply Hb in Hm0]. exists s0. left. split; [by apply (Hd _ _ Hm0 Hi0)|eauto].
      * intros l r m1 HQ s. split; [|by intros Hx; apply Hb in Hx]. intros i Hm Hi. apply HQ; [|done]. by apply (Hd _ _ Hm Hi).
  - eauto.
  - destruct (proj1 (HQ s) i Hm Hi) as (Hc & -> & Hm'). by exists m', l.
Qed.
End Part.
End Reading.

(** ** Encoded bodies *)

(** A part as a sender writes it: the padding of its boundary line, its header block with the
    fields it denotes, and its data. *)
Record part := { p_pad : bytes; p_block : bytes; p_fields : list field; p_data : bytes }.

(** What follows a boundary: the parts that are left, then the closing line. *)
Fixpoint encode_after (boundary closing_pad : bytes) (ps : list part) : bytes :=
  match ps with
  | [] => str "--" ++ closing_pad ++ [x0d; x0a]
  | p :: ps' =>
      p_pad p ++ [x0d; x0a] ++ p_block p ++ p_data p ++ make_delimiter boundary ++
      encode_after boundary closing_pad ps'
  end.

Definition encode (boundary preamble closing_pad : bytes) (ps : list part) : bytes :=
  preamble ++ make_first_boundary boundary ++ encode_after boundary closing_pad ps.

Section Encoded.
Context `{Memchr} `{Httparse}.

(** The block is read as a whole and denotes the fields; the data does not hold the delimiter. *)
Record part_ok (boundary : bytes) (max : nat) (p : part) : Prop := {
  ok_pad : forallb is_padding (p_pad p) = true;
  ok_block : header_block_end max (p_block p) = Ok (length (p_block p));
  ok_fields : exists k, parse_header_block (p_block p) = Ok k /\ data_start k = length (p_block p) /\
                        Forall2 (denotes_field (p_block p)) (spans k) (p_fields p);
  ok_data : find_sub (make_delimiter boundary) (p_data p) = None
}.

Lemma header_block_end_extend max block t :
  header_block_end max block = Ok (length block) -> header_block_end max (block ++ t) = Ok (length block).
Proof.
  unfold header_block_end, read_until_end. destruct (starts_with [x0d; x0a] block) eqn:Es.
  - intros E. apply starts_with_true in Es as [r ->]. rewrite <- app_assoc, starts_with_app. done.
  - destruct (find_sub _ block) as [i|] eqn:Ei; [|by case_test]. pose proof (find_sub_bound _ _ _ Ei) as Hb. simpl in Hb.
    rewrite (find_sub_extend _ _ t _ Ei).
    pose proof (starts_with_window [x0d; x0a] block t 0 ltac:(simpl; lia)) as Hw. rewrite !drop_0, Es in Hw. by rewrite Hw.
Qed.

Lemma bchar_not_cr boundary : forallb is_bchar boundary = true -> x0d ∉ boundary.
Proof. intros Hb Hin. apply list_elem_of_In in Hin. rewrite forallb_forall in Hb. by apply Hb in Hin. Qed.

Lemma Boundary_new_ok boundary b :
  Boundary_new boundary = Ok b -> b = boundary /\ forallb is_bchar boundary = true /\ boundary <> [].
Proof.
  unfold Boundary_new. destruct (_ || _) eqn:E1; [done|]. destruct (negb _) eqn:E2; [done|]. reflect_bools.
  intros E. split_and!; [|done|done]. destruct (last boundary) as [c|]; [destruct (is_ascii_whitespace c)|]; by simplify_eq.
Qed.

(** A delimiter does not overlap itself, so it ends the data it does not occur in. *)
Lemma delimiter_ends_data boundary data t :
  forallb is_bchar boundary = true -> find_sub (make_delimiter boundary) data = None ->
  find_sub (make_delimiter boundary) (data ++ make_delimiter boundary ++ t) = Some (length data).
Proof.
  intros Hb Hn. set (d := make_delimiter boundary) in *. apply find_sub_split. exists data, t. split_and!; [done|done|].
  intros j Hj. destruct (decide (j + length d <= length data)).
  { by apply find_sub_None_window. }
  destruct (starts_with d _) eqn:E; [|done]. exfalso. apply starts_with_take in E.
  assert (Hd : d !! (length data - j) = Some x0d).
  { rewrite <- E, lookup_take_lt by lia. rewrite lookup_drop. replace (j + _) with (length data + 0) by lia.
    by rewrite lookup_app_r, Nat.add_0_r, Nat.sub_diag by lia. }
  assert (Hne : length data - j <> 0) by lia. destruct (length data - j) as [|o]; [done|].
  unfold d, make_delimiter in Hd. destruct o as [|[|[|o]]]; simpl in Hd; [done..|].
  apply list_elem_of_lookup_2 in Hd. by apply bchar_not_cr in Hd.
Qed.

Lemma padding_unique pad q x y t u :
  forallb is_padding pad = true -> forallb is_padding q = true -> is_padding x = false -> is_padding y = false ->
  pad ++ x :: t = q ++ y :: u -> x = y.
Proof.
  intros Hp Hq Hx Hy. revert q Hq. induction pad as [|c pad IH]; intros [|c' q] Hq Heq; simplify_eq/=; try done.
  - apply andb_true_iff in Hq as [? _]. congruence.
  - apply andb_true_iff in Hp as [? _]. congruence.
  - apply andb_true_iff in Hp as [_ Hp], Hq as [_ Hq]. by apply (IH Hp q).
Qed.

Lemma no_padded_dash_encoded boundary closing_pad ps :
  (forall p, p ∈ ps -> forallb is_padding (p_pad p) = true) -> no_padded_dash (encode_after boundary closing_pad ps).
Proof.
  intros Hps pad t Heq Hpad. destruct ps as [|p ps]; simpl in Heq.
  - destruct pad as [|c pad]; [done|]. injection Heq as <- _. done.
  - symmetry in Heq. apply padding_unique in Heq; [done|done| |done|done]. apply Hps, list_elem_of_here.
Qed.
Lemma boundary_next_closing pad :
  forallb is_padding pad = true -> boundary_next (str "--" ++ pad ++ [x0d; x0a]) = Ok None.
Proof.
  intros Hp. unfold boundary_next. simpl. unfold closing_next. rewrite padding_crlf_skip by done. done.
Qed.

Lemma boundary_next_part pad t :
  forallb is_padding pad = true -> boundary_next (pad ++ [x0d; x0a] ++ t) = Ok (Some (VHeaders true None t)).
Proof.
  intros Hp. unfold boundary_next. assert (Hr : boundary_ref (pad ++ [x0d; x0a] ++ t) = Ok (ReadingPartHeaders, t)); [|by rewrite Hr].
  destruct pad as [|c pad]; [done|]. simpl app. unfold boundary_ref.
  pose proof Hp as Hp'. simpl in Hp'. apply andb_true_iff in Hp' as [Hc _].
  rewrite bool_decide_eq_false_2 by (intros ->; done). rewrite Hc.
  change (c :: pad ++ x0d :: x0a :: t) with ((c :: pad) ++ x0d :: x0a :: t). by rewrite padding_crlf_skip.
Qed.

(** From a view that comes to an encoded rest, a client reads the parts of that rest. *)
Lemma reads_encoded total boundary max closing_pad ps m v :
  forallb is_bchar boundary = true -> forallb is_padding closing_pad = true -> Forall (part_ok boundary max) ps ->
  mp_at total boundary max m v -> boundary_point boundary max v = Some (encode_after boundary closing_pad ps) ->
  next_ref boundary max v = boundary_next (encode_after boundary closing_pad ps) ->
  reads m ((fun p => (p_fields p, p_data p)) <$> ps).
Proof.
  intros Hb Hcp. revert m v. induction ps as [|p ps IH]; intros m v Hok Hm Hpt Href.
  - destruct (next_part_correct total boundary max m v Hm) as (m' & r & E & Hr).
    { intros t Ht. rewrite Hpt in Ht. simplify_eq. by apply no_padded_dash_encoded; intros ? ?%not_elem_of_nil. }
    rewrite Href in Hr. cbn [encode_after] in Hr. rewrite boundary_next_closing in Hr by done. destruct Hr as [-> _].
    by eapply reads_end.
  - apply Forall_cons in Hok as [Hp Hps]. destruct Hp as [Hpad Hblk (k & Hk & Hds & Hfs) Hdata].
    destruct (next_part_correct total boundary max m v Hm) as (m1 & r & E & Hr).
    { intros t Ht. rewrite Hpt in Ht. simplify_eq. apply no_padded_dash_encoded. intros q [->|Hq]%elem_of_cons; [done|].
      rewrite Forall_forall in Hps. by destruct (Hps q Hq). }
    rewrite Href in Hr. cbn [encode_after] in Hr. rewrite boundary_next_part in Hr by done. destruct Hr as [-> Hm1].
    set (rest := p_data p ++ make_delimiter boundary ++ encode_after boundary closing_pad ps) in *.
    assert (Hdrop : drop (length (p_block p)) (p_block p ++ rest) = rest) by apply drop_app_length.
    destruct (read_headers_spec total boundary max m1 (p_block p ++ rest) (p_block p) k (p_fields p)) as (m2 & E2 & Hm2); [by rewrite Hdrop|done| |done| |done|].
    { by apply parse_header_block_within in Hk as [_ ?]. }
    { unfold block_ref. rewrite header_block_end_extend by done. cbn. rewrite take_app_length. done. }
    rewrite Hdrop in Hm2. pose proof (delimiter_ends_data boundary (p_data p) (encode_after boundary closing_pad ps) Hb Hdata) as Hi.
    destruct (read_data_spec total boundary max m2 rest _ Hi Hm2) as (m3 & chunks & E3 & Hc & Hm3).
    unfold rest in Hc, Hm3. rewrite take_app_length in Hc. rewrite drop_app_add, drop_app_length in Hm3.
    simpl. rewrite <- Hc. eapply reads_part; [exact E|exact E2|exact E3|]. by apply (IH m3 (VBoundary (encode_after boundary closing_pad ps))).
Qed.
End Encoded.

(** ** Claims *)

Section MultipartClaims.
Context `{Memchr} `{Httparse}.

(** C21: [next_part] does to the bytes that remain of the body what the reference [next_ref]
    says in one pass over them: it hands out the next part, skipping what is left of the one
    before, reports the end of the body, or fails with the error the bytes call for.  The
    outcome does not depend on how the transport splits the body or suspends the parser.  The
    conditions, which [mp_at] and [clean] state, are that the transport delivers the body without
    an error and without a run of more than [MAX_CONSECUTIVE_EMPTY_CHUNKS] empty chunks, and that no
    boundary with padding is followed by a dash: there the outcome does depend on the splitting. *)
Theorem next_part_refines (total : Z) (boundary : bytes) (max : nat) (m : Multipart) (v : view) :
  mp_at total boundary max m v -> clean boundary max v ->
  exists m' r, await mp_work poll_next_part m = (m', Ready r) /\
    match next_ref boundary max v with
    | Ok (Some v') => r = Ok true /\ mp_at total boundary max m' v'
    | Ok None => r = Ok false /\ mp_at total boundary max m' VDone
    | Err e => r = Err e
    end.
Proof. apply next_part_correct. Qed.

Lemma multipart_new_at evs boundary max :
  progressing 0 evs = true -> (len (stream_bytes evs) <= u64_max)%Z ->
  mp_at (len (stream_bytes evs)) boundary max (Multipart_new evs boundary max) (VStart (stream_bytes evs)).
Proof.
  intros Hp Hl. split; [done|]. split; [done|]. eexists. split; [done|]. split; [by apply feeds_new|done].
Qed.

(** C32: a body written part by part is read back part by part.  For every valid boundary, a
    client that reads all headers and then all data of every part of the body gets the fields
    and the data of the parts in order, whatever preamble and padding the body has and however
    it is cut into chunks. *)
Theorem multipart_roundtrip (evs : list event) (boundary preamble closing_pad : bytes) (max : nat) (ps : list part) :
  Boundary_new boundary = Ok boundary ->
  find_sub (make_first_boundary boundary) (preamble ++ make_first_boundary boundary) = Some (length preamble) ->
  forallb is_padding closing_pad = true ->
  Forall (part_ok boundary max) ps ->
  stream_bytes evs = encode boundary preamble closing_pad ps ->
  progressing 0 evs = true -> (len (stream_bytes evs) <= u64_max)%Z ->
  reads (Multipart_new evs boundary max) ((fun p => (p_fields p, p_data p)) <$> ps).
Proof.
  intros Hb Hpre Hcp Hok Hs Hp Hl. apply Boundary_new_ok in Hb as (_ & Hb & _).
  assert (Ha : after (make_first_boundary boundary) (stream_bytes evs) = Some (encode_after boundary closing_pad ps)).
  { unfold after. rewrite Hs. unfold encode. rewrite app_assoc, (find_sub_extend _ _ _ _ Hpre). cbn [fmap option_fmap option_map].
    by rewrite <- app_assoc, drop_app_add, drop_app_length. }
  apply (reads_encoded (len (stream_bytes evs)) boundary max closing_pad ps _ (VStart (stream_bytes evs)));
    [done|done|done|by apply multipart_new_at|done|].
  unfold next_ref. by rewrite Ha.
Qed.

(** The parser at the data of a part: positioned there, or with the header block still to be
    dropped. *)
Definition at_data (total : Z) (boundary : bytes) (max : nat) (m : Multipart) (s : bytes) : Prop :=
  mp_at total boundary max m (VData s) \/
  exists h k s0, mp_at total boundary max m (VHeaders h (Some k) s0) /\ s = drop (data_start k) s0.

Lemma consumed_feeds total b s : feeds total b s -> consumed b = (total - len s)%Z.
Proof.
  intros [(evs & _ & _ & -> & Ht & _) [H2 Hm]]. unfold consumed, len in *. rewrite length_app, Nat2Z.inj_add. lia.
Qed.

(** Taking the data of a part hands out its buffer and finishes the parser. *)
Lemma take_data_spec total boundary max m s :
  at_data total boundary max m s ->
  exists m0 b, take_data_stream m = (set_state StreamTaken (take_buffer m0),
                                     Ok (PartDataStream_new b (make_delimiter boundary) (consumed b))) /\
               feeds total b s.
Proof.
  intros Hm. unfold take_data_stream. destruct Hm as [[(_ & Hc2 & _) [(Hst & Hh & _) (b & Hb & Hf & _)]]|(h & k & s0 & Hm & ->)].
  - rewrite (bool_decide_eq_false_2 (state m = ReadingPartHeaders)) by congruence.
    rewrite (bool_decide_eq_true_2 (state m = ReadingPartData)) by done. cbn [negb]. rewrite Hb, Hc2. eauto.
  - pose proof (finish_headers_spec total boundary max m h k s0 Hm) as [(_ & Hc2 & _) [(Hst' & _) (b & Hb & Hf & _)]].
    destruct Hm as [_ (Hst & _)]. rewrite (bool_decide_eq_true_2 (state m = ReadingPartHeaders)) by done.
    rewrite (bool_decide_eq_true_2 (state (finish_headers m) = ReadingPartData)) by done. cbn [negb]. rewrite Hb, Hc2. eauto.
Qed.

(** The byte accounting of a taken stream is exact.  Taking the data of a part with [s]
    left of a body of [total] bytes reports [total] less the bytes of [s] as consumed, so that
    when the strict stream then ends without error the size of the data it yielded is what
    the caller computes from it: the total less the bytes consumed, the delimiter and the
    closing line.  The parser itself is finished: it answers every later request with the
    stream-taken error. *)
Theorem taken_stream_accounting (total : Z) (boundary : bytes) (max : nat) (m : Multipart) (s : bytes) :
  at_data total boundary max m s ->
  exists m' p, take_data_stream m = (m', Ok p) /\
    multipart_consumed p = (total - len s)%Z /\
    await mp_work poll_next_part m' = (m', Ready (Err StreamAlreadyTaken)) /\
    forall f chunks, drain fin_work Final_poll_next (into_final p) = ((f, chunks), Ready None) ->
      exists pad, forallb is_padding pad = true /\
        len (concat chunks) = (total - multipart_consumed p - len (make_delimiter boundary) - 4 - len pad)%Z.
Proof.
  intros Hm. destruct (take_data_spec total boundary max m s Hm) as (m0 & b & E & Hf). eexists _, _. split; [exact E|]. split_and!.
  - by apply consumed_feeds.
  - done.
  - intros f chunks Hdr. set (p := PartDataStream_new _ _ _) in *.
    destruct (final_read_correct total (make_delimiter boundary) (into_final p) (ViewData s)) as (f' & l & r & E' & Hl & Hr); [done|done|].
    rewrite Hdr in E'. simplify_eq. destruct (find_sub _ s) as [i|] eqn:Ei; [|by destruct Hr].
    destruct Hr as [Hc Hv]. symmetry in Hv. apply trailer_verdict_ok in Hv as (pad & Hv & Hpad). exists pad. split; [done|].
    simpl. rewrite (consumed_feeds _ _ _ Hf). pose proof (find_sub_Some _ _ _ Ei) as (Hs & Hb & _).
    rewrite <- Hc, Hv in Hs. rewrite Hs. unfold len. rewrite !length_app. simpl. lia.
Qed.
End MultipartClaims.

(** ** Header blocks with surplus fields *)

(** A field line as it is written, with the optional whitespace around its value. *)
Record field_line := { f_name : bytes; f_before : bytes; f_value : bytes; f_after : bytes }.

Definition render_line (f : field_line) : bytes := f_name f ++ ":"%byte :: f_before f ++ f_value f ++ f_after f.

Definition render_block (fs : list field_line) : bytes :=
  concat ((fun f => render_line f ++ [x0d; x0a]) <$> fs) ++ [x0d; x0a].

Record field_line_ok (f : field_line) : Prop := {
  line_name : f_name f <> [] /\ ":"%byte ∉ f_name f;
  line_space : forallb is_ows (f_before f) = true /\ forallb is_ows (f_after f) = true;
  line_value : match head (f_value f) with Some c => is_ows c = false | None => True end /\
               match last (f_value f) with Some c => is_ows c = false | None => True end;
  line_cr : x0d ∉ render_line f
}.

Section Surplus.
Context `{Memchr}.

Lemma line_end_first line t : x0d ∉ line -> find_sub [x0d; x0a] (line ++ [x0d; x0a] ++ t) = Some (length line).
Proof.
  intros Hn. apply find_sub_split. exists line, t. split_and!; [done..|]. intros j Hj.
  destruct (lookup_lt_is_Some_2 line j Hj) as [c Hc].
  rewrite drop_app_le by lia. rewrite (drop_S _ _ _ Hc). simpl. unfold starts_with. simpl.
  destruct (decide (x0d = c)) as [<-|]; [by apply list_elem_of_lookup_2 in Hc|]. by rewrite bool_decide_eq_false_2.
Qed.

Lemma no_line_end line : x0d ∉ line -> find_sub [x0d; x0a] line = None.
Proof.
  intros Hn. apply find_sub_None. intros j. destruct (drop j line) as [|c r] eqn:E; [done|].
  unfold starts_with. simpl. destruct (decide (x0d = c)) as [<-|]; [|by rewrite bool_decide_eq_false_2].
  exfalso. apply Hn. rewrite <- (take_drop j line), E. set_solver.
Qed.

(** What one turn of the fallback reads from a line. *)
Lemma fallback_line f rest next_rest pre suf room :
  field_line_ok f -> split_line rest = (render_line f, next_rest) -> rest <> [] ->
  (exists mid, rest = render_line f ++ mid) ->
  exists sp, fallback_fields (S room) (length pre) rest =
    (spans ← fallback_fields room (length pre + (length rest - length next_rest)) next_rest; Ok (sp :: spans)) /\
    get_range (pre ++ rest ++ suf) (name_start sp) (name_end sp) = Some (f_name f) /\
    get_range (pre ++ rest ++ suf) (value_start sp) (value_end sp) = Some (f_value f).
Proof.
  intros [[Hn1 Hn2] [Hb Ha] [Hh Hl] _] Hsp Hne [mid Hmid].
  cbn [fallback_fields]. rewrite bool_decide_eq_false_2, Hsp by done. rewrite memchr1_spec.
  assert (Hc : find_index (fun c => c =? ":"%byte) (render_line f) = Some (length (f_name f))) by (by apply find_index_app).
  assert (Ht : take (length (f_name f)) (render_line f) = f_name f) by apply take_app_length.
  assert (Hd : drop (length (f_name f) + 1) (render_line f) = f_before f ++ f_value f ++ f_after f) by (unfold render_line; by rewrite drop_app_add).
  rewrite Hc, Ht, Hd, bool_decide_eq_false_2 by done.
  destruct (trim_ows_value _ _ _ Hb Ha Hh Hl) as [Htr Hfr]. rewrite Htr.
  eexists. split; [reflexivity|]. cbn [name_start name_end value_start value_end].
  assert (Hg : forall a x c, get_range (a ++ x ++ c) (length a) (length a + length x) = Some x).
  { intros a x c. unfold get_range. rewrite !length_app. rewrite (proj2 (Nat.leb_le _ _)), (proj2 (Nat.leb_le _ _)) by lia. simpl.
    rewrite drop_app_length, Nat.add_sub_swap, Nat.sub_diag, Nat.add_0_l by lia. by rewrite take_app_length. }
  rewrite Hmid. unfold render_line. split.
  - rewrite <- !app_assoc. apply Hg.
  - destruct (decide (f_value f = [])) as [Hv|Hv].
    + rewrite Hv. simpl. assert (Hz : trim_ows_front (f_before f ++ f_after f) = []).
      { by rewrite trim_front_app, <- (app_nil_r (f_after f)), trim_front_app. }
      rewrite Hz. simpl. unfold get_range. rewrite Nat.add_0_r, Nat.leb_refl. simpl.
      rewrite Nat.sub_diag, take_0. rewrite (proj2 (Nat.leb_le _ _)); [done|]. rewrite !length_app. simpl. rewrite !length_app. lia.
    + rewrite (Hfr Hv). pose proof (Hg (pre ++ f_name f ++ ":"%byte :: f_before f) (f_value f) (f_after f ++ mid ++ suf)) as Hx.
      rewrite <- Hx. f_equal; [by rewrite <- !app_assoc; simpl; rewrite <- !app_assoc|..];
        rewrite ?length_app; simpl; rewrite ?length_app; simpl; lia.
Qed.

Definition block_text (fs : list field_line) : bytes := join [x0d; x0a] (render_line <$> fs).

Definition line_denotes (block : bytes) (sp : HeaderSpan) (f : field_line) : Prop :=
  get_range block (name_start sp) (name_end sp) = Some (f_name f) /\
  get_range block (value_start sp) (value_end sp) = Some (f_value f).

Lemma block_text_cons f g fs : block_text (f :: g :: fs) = render_line f ++ [x0d; x0a] ++ block_text (g :: fs).
Proof. done. Qed.

Lemma render_line_nonempty f : render_line f <> [].
Proof. unfold render_line. by destruct (f_name f). Qed.

Lemma render_block_text fs : fs <> [] -> render_block fs = block_text fs ++ [x0d; x0a; x0d; x0a].
Proof.
  unfold render_block. induction fs as [|f [|g fs] IH]; [done| |]; intros _.
  - simpl. by rewrite <- !app_assoc.
  - rewrite block_text_cons, fmap_cons. cbn [concat]. rewrite <- !app_assoc. do 2 f_equal. by apply IH.
Qed.

Lemma fallback_fields_nil room pos : fallback_fields room pos [] = Ok [].
Proof. by destruct room. Qed.

Lemma fallback_fields_spec fs room pre suf :
  Forall field_line_ok fs ->
  exists sps, fallback_fields room (length pre) (block_text fs) = Ok sps /\
              Forall2 (line_denotes (pre ++ block_text fs ++ suf)) sps (take room fs).
Proof.
  intros Hok. revert room pre. induction Hok as [|f fs Hf Hfs IH]; intros room pre.
  { exists []. rewrite fallback_fields_nil, take_nil. done. }
  destruct room as [|room]; [by exists []|]. pose proof (line_cr _ Hf) as Hcr.
  destruct fs as [|g fs].
  - destruct (fallback_line f (block_text [f]) [] pre suf room) as (sp & E & H1 & H2); [done| | | |].
    + unfold split_line, block_text. simpl. rewrite memmem_find_spec, no_line_end by done. done.
    + apply render_line_nonempty.
    + exists []. simpl. by rewrite app_nil_r.
    + rewrite E, fallback_fields_nil. exists [sp]. split; [done|]. simpl. rewrite take_nil. by constructor.
  - rewrite block_text_cons.
    destruct (fallback_line f (render_line f ++ [x0d; x0a] ++ block_text (g :: fs)) (block_text (g :: fs)) pre suf room)
      as (sp & E & H1 & H2); [done| | |by eexists|].
    + unfold split_line. rewrite memmem_find_spec, line_end_first by done. by rewrite take_app_length, drop_app_add.
    + pose proof (render_line_nonempty f). by destruct (render_line f).
    + destruct (IH room (pre ++ render_line f ++ [x0d; x0a])) as (sps & E2 & Hs).
      exists (sp :: sps). rewrite E. split.
      * assert (Hl : length pre + (length (render_line f ++ [x0d; x0a] ++ block_text (g :: fs)) - length (block_text (g :: fs)))
                     = length (pre ++ render_line f ++ [x0d; x0a])) by (rewrite !length_app; simpl; lia).
        rewrite Hl, E2. done.
      * simpl take. constructor; [done|]. by rewrite <- !app_assoc in Hs |- *.
Qed.

Lemma fallback_spec fs :
  fs <> [] -> Forall field_line_ok fs ->
  exists k, parse_header_block_fallback (render_block fs) = Ok k /\ data_start k = length (render_block fs) /\
            Forall2 (line_denotes (render_block fs)) (spans k) (take MAX_HEADERS fs).
Proof.
  intros Hne Hok. unfold parse_header_block_fallback. rewrite render_block_text by done.
  rewrite (proj2 (ends_with_true _ _)) by eauto. cbn [negb].
  assert (Hl : length (block_text fs ++ [x0d; x0a; x0d; x0a]) - 4 = length (block_text fs)) by (rewrite length_app; simpl; lia).
  rewrite Hl, take_app_length.
  destruct (fallback_fields_spec fs MAX_HEADERS [] [x0d; x0a; x0d; x0a] Hok) as (sps & E & Hs). cbn [length] in E. rewrite E.
  eexists. split; [reflexivity|]. split; [by rewrite length_app|done].
Qed.
End Surplus.

(** ** The header parser over its interface *)

(** A part with more header fields than the parser keeps is accepted: when the block has
    more fields than fit, the first three are kept, each name and value exactly as written
    without the optional whitespace around the value, and the data starts after the block. *)
Theorem surplus_headers_ignored `{Memchr} `{Httparse} (fs : list field_line) :
  fs <> [] -> Forall field_line_ok fs ->
  httparse_parse_headers MAX_HEADERS (render_block fs) = Err TooManyHeaders ->
  exists k, parse_header_block (render_block fs) = Ok k /\ data_start k = length (render_block fs) /\ next k = 0 /\
    Forall2 (fun sp f => get_range (render_block fs) (name_start sp) (name_end sp) = Some (f_name f) /\
                         get_range (render_block fs) (value_start sp) (value_end sp) = Some (f_value f))
      (spans k) (take MAX_HEADERS fs).
Proof.
  intros Hne Hok Hh. destruct (fallback_spec fs Hne Hok) as (k & E & Hd & Hs). exists k.
  assert (Hp : parse_header_block (render_block fs) = Ok k) by (unfold parse_header_block; by rewrite Hh).
  split_and!; [done|done| |done]. by apply parse_header_block_within in Hp as [_ ?].
Qed.

(** A header parser that meets the interface: one field per line, up to the blank line. *)
Fixpoint reference_headers (fuel room pos : nat) (s : bytes) : result httparse_error httparse_status :=
  match fuel with
  | 0 => Err OtherError
  | S fuel' =>
      if starts_with [x0d; x0a] s then Ok (Complete (pos + 2) [])
      else
        match find_sub [x0d; x0a] s with
        | None => Ok Partial
        | Some e =>
            match find_index (fun c => c =? ":"%byte) (take e s), room with
            | None, _ => Err OtherError
            | Some _, 0 => Err TooManyHeaders
            | Some c, S room' =>
                let raw := drop (c + 1) (take e s) in
                let start := pos + c + 1 + (length raw - length (trim_ows_front raw)) in
                let span := {| name_start := pos; name_end := pos + c; value_start := start;
                               value_end := start + length (trim_ows raw) |} in
                match reference_headers fuel' room' (pos + e + 2) (drop (e + 2) s) with
                | Ok (Complete data_start headers) => Ok (Complete data_start (span :: headers))
                | r => r
                end
            end
        end
  end.

Lemma reference_headers_within fuel room pos s ds hs :
  reference_headers fuel room pos s = Ok (Complete ds hs) -> ds <= pos + length s /\ length hs <= room.
Proof.
  revert room pos s ds hs. induction fuel as [|fuel IH]; intros room pos s ds hs; simpl; [done|].
  destruct (starts_with _ s) eqn:Es.
  { apply starts_with_true in Es as [r ->]. intros [= <- <-]. simpl. lia. }
  destruct (find_sub _ s) as [e|] eqn:Ee; [|done]. destruct (find_index _ _) as [c|]; [|done]. destruct room as [|room]; [done|].
  destruct (reference_headers fuel room _ _) as [[ds' hs'|]|] eqn:Er; [|done..]. intros [= <- <-].
  apply IH in Er as [H1 H2]. rewrite length_drop in H1. pose proof (find_sub_bound _ _ _ Ee) as Hb. simpl in *. lia.
Qed.

Definition httparse_reference : Httparse.
Proof.
  refine {| httparse_parse_headers := fun n block => reference_headers (S (length block)) n 0 block |}.
  intros n block ds hs E. by apply reference_headers_within in E.
Defined.

(** The outcome of [next_part] can depend on where the parser is suspended.  The body
    [--B  --] with a line end, padding between the boundary and the dashes, is rejected when it arrives
    in one piece; when it arrives in two, cut after the padding, and the parser is polled in
    between, it is accepted as a closed body without parts.  The padding that was consumed before
    the suspension is forgotten, and the boundary line is judged again from its middle. *)
Theorem padded_dash_depends_on_polling :
  let whole := [Item (Ok (str "--B  --" ++ [x0d; x0a]))] in
  let split := [Item (Ok (str "--B  ")); NotReady; Item (Ok (str "--" ++ [x0d; x0a]))] in
  let next_part evs := snd (await mp_work (@poll_next_part memchr_reference httparse_reference)
                              (Multipart_new evs (str "B") 64)) in
  stream_bytes whole = stream_bytes split /\
  progressing 0 whole = true /\ progressing 0 split = true /\
  next_part whole = Ready (Err InvalidFormat) /\
  next_part split = Ready (Ok false).
Proof. vm_compute. done. Qed.

(** ** Witnesses *)

Definition crlf : bytes := [x0d; x0a].

Definition w_parts : list part :=
  [ {| p_pad := str " "; p_block := str "Content-Disposition: form-data; name=a" ++ crlf ++ crlf;
       p_fields := [(str "Content-Disposition", str "form-data; name=a")]; p_data := str "one" ++ crlf ++ str "--BX" |};
    {| p_pad := []; p_block := crlf; p_fields := []; p_data := [] |} ].

Definition w_body : bytes := encode (str "BB") (str "preamble") (str " ") w_parts.
Definition w_events : list event :=
  cut_events [take 10 w_body; take 7 (drop 10 w_body); take 60 (drop 17 w_body); drop 77 w_body].

Lemma w_parts_ok : Forall (@part_ok memchr_reference httparse_reference (str "BB") 64) w_parts.
Proof.
  repeat constructor; try (by vm_compute).
  - eexists. split; [vm_compute; reflexivity|]. split; [vm_compute; reflexivity|].
    constructor; [|constructor]. vm_compute. done.
  - eexists. split; [vm_compute; reflexivity|]. split; [vm_compute; reflexivity|]. constructor.
Qed.

Lemma multipart_roundtrip_witness :
  @reads memchr_reference httparse_reference (Multipart_new w_events (str "BB") 64)
    [([(str "Content-Disposition", str "form-data; name=a")], str "one" ++ crlf ++ str "--BX"); ([], [])].
Proof.
  apply (@multipart_roundtrip memchr_reference httparse_reference w_events (str "BB") (str "preamble") (str " ") 64 w_parts).
  - reflexivity.
  - reflexivity.
  - reflexivity.
  - exact w_parts_ok.
  - vm_compute. reflexivity.
  - vm_compute. reflexivity.
  - by_decide.
Defined.

Lemma next_part_refines_witness :
  exists m', await mp_work (@poll_next_part memchr_reference httparse_reference) (Multipart_new w_events (str "BB") 64)
             = (m', Ready (Ok true)) /\ state m' = ReadingPartHeaders.
Proof.
  destruct (@next_part_refines memchr_reference httparse_reference (len (stream_bytes w_events)) (str "BB") 64
              (Multipart_new w_events (str "BB") 64) (VStart (stream_bytes w_events))) as (m' & r & E & Hr).
  - apply multipart_new_at; [reflexivity|by_decide].
  - intros t Ht. apply (inj Some) in Ht. rewrite <- Ht. intros pad u Hu Hp.
    destruct pad as [|c pad]; [done|]. destruct pad as [|c' pad].
    + vm_compute in Hu. discriminate Hu.
    + vm_compute in Hu. injection Hu as _ Hc _. rewrite <- Hc in Hp. vm_compute in Hp. destruct c; discriminate Hp.
  - exists m'. destruct Hr as [Hr Hm]. rewrite Hr in E. split; [exact E|]. destruct Hm as [_ (Hs & _)]. exact Hs.
Defined.

(** A parser at the data of the last part of a body. *)
Definition w_taken : list event := cut_events [str "--B" ++ crlf ++ crlf ++ str "da"; str "ta" ++ crlf ++ str "--B-"; str "-" ++ crlf].
Definition w_at_data : Multipart :=
  fst (await mp_work (@poll_next_header memchr_reference httparse_reference)
         (fst (await mp_work (@poll_next_part memchr_reference httparse_reference) (Multipart_new w_taken (str "B") 64)))).

Lemma w_at_data_ok : at_data 20 (str "B") 64 w_at_data (str "data" ++ crlf ++ str "--B--" ++ crlf).
Proof.
  left. split; [vm_compute; done|]. split; [vm_compute; done|].
  exists (default (StreamBuffer_new []) (mp_buffer w_at_data)). split; [vm_compute; done|].
  split; [|vm_compute; done]. split; [|vm_compute; done].
  exists (default [] (stream (default (StreamBuffer_new []) (mp_buffer w_at_data)))).
  vm_compute. done.
Qed.

Lemma taken_stream_accounting_witness :
  exists m' p, @take_data_stream w_at_data = (m', Ok p) /\ multipart_consumed p = 7%Z.
Proof.
  destruct (@taken_stream_accounting memchr_reference httparse_reference 20 (str "B") 64 w_at_data _ w_at_data_ok)
    as (m' & p & E & Hc & _).
  exists m', p. split; [exact E|exact Hc].
Defined.

Definition w_line (n : string) : field_line :=
  {| f_name := str n; f_before := str " "; f_value := str "v"; f_after := [] |}.

Lemma surplus_headers_ignored_witness :
  exists k, @parse_header_block memchr_reference httparse_reference
              (render_block [w_line "A"; w_line "B"; w_line "C"; w_line "D"]) = Ok k /\ length (spans k) = 3.
Proof.
  destruct (@surplus_headers_ignored memchr_reference httparse_reference [w_line "A"; w_line "B"; w_line "C"; w_line "D"])
    as (k & E & _ & _ & Hs).
  - discriminate.
  - repeat constructor; try (by vm_compute); by_decide.
  - vm_compute. reflexivity.
  - exists k. split; [exact E|]. apply Forall2_length in Hs. exact Hs.
Defined.
