(* ===== verification/ContentDisposition.v ===== *)
(** * Content-Disposition (crates/s3s-multipart/src/content_disposition.rs)

    The parser of the [Content-Disposition] header of a part. *)

From S2P Require Import Prelude.
From S2P Require Import Str.
From S2P Require Import MultipartBuffer.

Record ContentDisposition := { name : option bytes; file_name : option bytes }.

(** The text of a quoted string and the bytes after it. *)
Record ParsedQuoted := { text : bytes; next : bytes }.

Section ContentDisposition.
Context `{Memchr}.

(** The byte-wise loop: the offset of the closing quote. *)
Fixpoint scan_quoted (escaped : bool) (offset : nat) (s : bytes) : option nat :=
  match s with
  | [] => None
  | c :: s' =>
      if escaped then scan_quoted false (S offset) s'
      else if c =? "\"%byte then scan_quoted true (S offset) s'
      else if c =? x22 then Some offset
      else scan_quoted false (S offset) s'
  end.

Definition parse_quoted (input : bytes) : option ParsedQuoted :=
  match input with
  | [] => None
  | first :: tail =>
      if negb (first =? x22) then None
      else
        idx ← memchr2 x22 "\" tail;
        let pos := idx + 1 in
        if match input !! pos with Some c => c =? x22 | None => false end then
          Some {| text := take (pos - 1) (drop 1 input); next := drop (pos + 1) input |}
        else
          end_ ← scan_quoted false pos (drop pos input);
          Some {| text := take (end_ - 1) (drop 1 input); next := drop (end_ + 1) input |}
  end.

Definition skip_until_semicolon (input : bytes) : bytes :=
  match memchr1 ";" input with Some idx => drop (idx + 1) input | None => [] end.

(** The first byte of the value is a double quote. *)
Definition is_quoted (value_input : bytes) : bool :=
  match value_input with c :: _ => c =? x22 | [] => false end.

(** The key, the value and what follows the parameter. *)
Definition parse_parameter (input : bytes) : option (bytes * bytes * bytes) :=
  let input := trim_ows input in
  equals ← memchr1 "=" input;
  let key := trim_ows (take equals input) in
  if key =? [] then None
  else
    let value_input := trim_ows (drop (equals + 1) input) in
    if is_quoted value_input then
      value ← parse_quoted value_input;
      Some (key, text value, skip_until_semicolon (next value))
    else
      match memchr1 ";" value_input with
      | Some idx => Some (key, trim_ows (take idx value_input), drop (idx + 1) value_input)
      | None => Some (key, trim_ows value_input, [])
      end.

(** The loop over the parameters: each turn consumes at least the equals sign. *)
Fixpoint parameters (fuel : nat) (cd : ContentDisposition) (rest : bytes) : ContentDisposition :=
  match fuel with
  | 0 => cd
  | S fuel' =>
      if trim_ows rest =? [] then cd
      else
        match parse_parameter rest with
        | None => cd
        | Some (key, parsed_value, next) =>
            let cd :=
              if match name cd with None => true | Some _ => false end && eq_ignore_ascii_case key (str "name")
              then {| name := Some parsed_value; file_name := file_name cd |}
              else if match file_name cd with None => true | Some _ => false end && eq_ignore_ascii_case key (str "filename")
              then {| name := name cd; file_name := Some parsed_value |}
              else cd in
            parameters fuel' cd next
        end
  end.

Definition parse_content_disposition (value : bytes) : option ContentDisposition :=
  let input := trim_ows value in
  let semicolon := memchr1 ";" input in
  let disposition := match semicolon with Some idx => trim_ows (take idx input) | None => input end in
  if negb (eq_ignore_ascii_case disposition (str "form-data")) then None
  else
    match semicolon with
    | None => Some {| name := None; file_name := None |}
    | Some idx =>
        let rest := drop (idx + 1) input in
        Some (parameters (S (length rest)) {| name := None; file_name := None |} rest)
    end.

(** ** Termination *)

Lemma trim_front_length s : length (trim_ows_front s) <= length s.
Proof. induction s as [|c s IH]; simpl; [done|]. destruct (is_ows c); simpl; lia. Qed.

Lemma trim_ows_length s : length (trim_ows s) <= length s.
Proof.
  unfold trim_ows. rewrite length_reverse. pose proof (trim_front_length (reverse (trim_ows_front s))) as H1.
  rewrite length_reverse in H1. pose proof (trim_front_length s). lia.
Qed.

Lemma skip_length s : length (skip_until_semicolon s) <= length s.
Proof. unfold skip_until_semicolon. destruct (memchr1 _ s); simpl; rewrite ?length_drop; lia. Qed.

(** A parameter takes up at least one byte, so the loop is not cut short by its fuel. *)
Lemma parse_parameter_shorter input key value next :
  parse_parameter input = Some (key, value, next) -> length next < length input.
Proof.
  unfold parse_parameter. pose proof (trim_ows_length input) as Hi. generalize dependent (trim_ows input). intros i Hi.
  destruct (memchr1 "=" i) as [e|] eqn:Ee; [|done]. cbn [mbind option_bind]. destruct (_ =? []); [done|].
  assert (Hlt : length (drop (e + 1) i) < length i).
  { rewrite memchr1_spec in Ee. rewrite length_drop. unfold find_index in Ee. destruct (break_at _ i) as [a r] eqn:Eb.
    apply break_at_spec in Eb as (-> & _ & _). destruct r; [done|]. rewrite length_app. simpl. lia. }
  pose proof (trim_ows_length (drop (e + 1) i)) as Hv. generalize dependent (trim_ows (drop (e + 1) i)). intros v Hv.
  destruct (is_quoted v).
  - destruct (parse_quoted v) as [q|] eqn:Ep; [|done]. cbn [mbind option_bind]. intros [= _ _ <-].
    assert (length (ContentDisposition.next q) <= length v); [|pose proof (skip_length (ContentDisposition.next q)); lia].
    unfold parse_quoted in Ep. destruct v as [|c tail]; [done|]. destruct (negb _); [done|]. invert_ok.
    case_test; invert_ok; simplify_eq; cbn [ContentDisposition.next]; rewrite length_drop; lia.
  - destruct (memchr1 ";" v) as [idx|]; intros [= _ _ <-]; rewrite ?length_drop; simpl; lia.
Qed.

Lemma parameters_fuel n k cd rest :
  length rest < n -> length rest < k -> parameters n cd rest = parameters k cd rest.
Proof.
  revert k cd rest. induction n as [|n IH]; intros [|k] cd rest Hn Hk; [lia..|]. simpl.
  destruct (_ =? []); [done|]. destruct (parse_parameter rest) as [[[key v] nx]|] eqn:E; [|done].
  apply parse_parameter_shorter in E. apply IH; lia.
Qed.
End ContentDisposition.

(** ** Rendered values *)

(** The first and last bytes are not optional whitespace. *)
Definition edges_ok (s : bytes) : Prop :=
  match head s with Some c => is_ows c = false | None => True end /\
  match last s with Some c => is_ows c = false | None => True end.

Inductive param_value := Quoted (text : bytes) | Token (token : bytes).

Record param := { k_space : bytes; k_key : bytes; k_value : param_value }.

(** The text of a quoted string: every quote in it is escaped, and it does not end in the
    middle of an escape. *)
Fixpoint closed (escaped : bool) (text : bytes) : bool :=
  match text with
  | [] => negb escaped
  | c :: t =>
      if escaped then closed false t
      else if c =? "\"%byte then closed true t
      else if c =? x22 then false else closed false t
  end.

Definition render_value (v : param_value) : bytes :=
  match v with Quoted text => x22 :: text ++ [x22] | Token token => token end.
Definition value_text (v : param_value) : bytes :=
  match v with Quoted text => text | Token token => token end.
Definition render_param (p : param) : bytes := k_space p ++ k_key p ++ "="%byte :: render_value (k_value p).

Definition value_ok (v : param_value) : Prop :=
  match v with
  | Quoted text => closed false text = true
  | Token token => token <> [] /\ edges_ok token /\ ";"%byte ∉ token /\ head token <> Some x22
  end.

Record param_ok (p : param) : Prop := {
  param_space : forallb is_ows (k_space p) = true;
  param_key : k_key p <> [] /\ edges_ok (k_key p) /\ "="%byte ∉ k_key p;
  param_value_ok : value_ok (k_value p)
}.

(** The value of the first parameter with a key. *)
Fixpoint first_value (key : bytes) (ps : list param) : option bytes :=
  match ps with
  | [] => None
  | p :: ps' => if eq_ignore_ascii_case (k_key p) key then Some (value_text (k_value p)) else first_value key ps'
  end.

Definition render_params (ps : list param) : bytes := concat ((fun p => ";"%byte :: render_param p) <$> ps).

Section RoundTrip.
Context `{Memchr}.

Lemma trim_edges s : edges_ok s -> trim_ows s = s.
Proof. intros [Hh Hl]. pose proof (trim_ows_value [] s [] eq_refl eq_refl Hh Hl) as [E _]. by rewrite app_nil_r in E. Qed.

Lemma scan_closed text r e off :
  closed e text = true -> scan_quoted e off (text ++ x22 :: r) = Some (off + length text).
Proof.
  revert e off. induction text as [|c t IH]; intros e off; simpl.
  - intros ->%negb_true_iff. by rewrite Nat.add_0_r.
  - rewrite Nat.add_succ_r. destruct e; [apply IH|]. destruct (c =? "\"%byte); [apply IH|]. destruct (c =? x22); [done|apply IH].
Qed.

Lemma closed_plain a t :
  forallb (fun c => negb ((c =? x22) || (c =? "\"%byte))) a = true -> closed false (a ++ t) = closed false t.
Proof.
  induction a as [|c a IH]; simpl; [done|]. intros [Hc Ha]%andb_true_iff. apply negb_true_iff, orb_false_iff in Hc as [-> ->]. auto.
Qed.

(** The bulk scan and the byte-wise scan agree: the quoted text is read verbatim. *)
Lemma parse_quoted_spec t r :
  closed false t = true -> parse_quoted (x22 :: t ++ x22 :: r) = Some {| text := t; next := r |}.
Proof.
  intros Ht. unfold parse_quoted. rewrite bool_decide_eq_true_2 by done. cbn [negb]. rewrite memchr2_spec. unfold find_index.
  destruct (break_at (fun e => (e =? x22) || (e =? "\"%byte)) t) as [a u] eqn:Eb.
  apply break_at_spec in Eb as (Heq & Ha & Hu). destruct u as [|c u].
  - rewrite app_nil_r in Heq. subst a. rewrite break_at_app by done. cbn [mbind option_bind].
    replace ((x22 :: t ++ x22 :: r) !! (length t + 1)) with (Some x22).
    + rewrite bool_decide_eq_true_2 by done. rewrite Nat.add_sub. f_equal. f_equal.
      * simpl. by rewrite drop_0, take_app_length.
      * rewrite Nat.add_1_r. simpl. by rewrite drop_app_add.
    + rewrite Nat.add_1_r. simpl. by rewrite lookup_app_r, Nat.sub_diag by lia.
  - subst t. rewrite <- app_assoc. simpl app. rewrite break_at_app by (done || exact Hu). cbn [mbind option_bind].
    rewrite closed_plain in Ht by done.
    assert (Hc : c = "\"%byte).
    { simpl in Ht. apply orb_true_iff in Hu as [Hu|Hu]; apply bool_decide_eq_true in Hu; [|done]. subst c. done. }
    replace ((x22 :: a ++ c :: u ++ x22 :: r) !! (length a + 1)) with (Some c)
      by (rewrite Nat.add_1_r; simpl; by rewrite lookup_app_r, Nat.sub_diag by lia).
    rewrite (bool_decide_eq_false_2 (c = x22)) by (by rewrite Hc).
    assert (Hd : drop (length a + 1) (x22 :: a ++ c :: u ++ x22 :: r) = (c :: u) ++ x22 :: r)
      by (rewrite Nat.add_1_r; simpl; by rewrite drop_app_length).
    rewrite Hd, scan_closed by done. cbn [mbind option_bind].
    replace (length a + 1 + length (c :: u)) with (S (length (a ++ c :: u))) by (rewrite length_app; simpl; lia).
    f_equal. f_equal.
    + rewrite Nat.sub_succ, Nat.sub_0_r. simpl drop. rewrite ?drop_0.
      change (c :: u ++ x22 :: r) with ((c :: u) ++ x22 :: r). by rewrite app_assoc, take_app_length.
    + rewrite Nat.add_1_r. simpl. change (a ++ c :: u ++ x22 :: r) with (a ++ (c :: u) ++ x22 :: r).
      rewrite app_assoc. rewrite <- (Nat.add_1_r (length _)). by rewrite drop_app_add.
Qed.

Lemma head_app_nonempty (s t : bytes) : s <> [] -> head (s ++ t) = head s.
Proof. by destruct s. Qed.

Lemma last_app_nonempty (s t : bytes) : t <> [] -> last (s ++ t) = last t.
Proof. intros Ht. rewrite last_app. by destruct (last t) eqn:E; [|apply last_None in E]. Qed.

Lemma last_cons_nonempty (c : byte) (t : bytes) : t <> [] -> last (c :: t) = last t.
Proof. apply (last_app_nonempty [c]). Qed.

Lemma render_value_edges v : value_ok v -> render_value v <> [] /\ edges_ok (render_value v).
Proof.
  destruct v as [t|t]; simpl.
  - intros _. split; [done|]. split; [done|]. by rewrite app_comm_cons, last_snoc.
  - by intros (? & ? & _).
Qed.

Lemma render_param_edges p : param_ok p -> k_key p ++ "="%byte :: render_value (k_value p) <> [] /\
  edges_ok (k_key p ++ "="%byte :: render_value (k_value p)).
Proof.
  intros [_ (Hk & [Hh _] & _) Hv]. destruct (render_value_edges _ Hv) as [Hne [_ Hl]]. split; [by destruct (k_key p)|]. split.
  - by rewrite head_app_nonempty.
  - rewrite last_app_nonempty by done. by rewrite last_cons_nonempty.
Qed.

(** The last byte of a list of parameters is that of its last value. *)
Lemma render_params_last ps :
  Forall param_ok ps -> match last (render_params ps) with Some c => is_ows c = false | None => True end.
Proof.
  induction 1 as [|p ps Hp Hps IH]; [done|]. unfold render_params in *. rewrite fmap_cons. cbn [concat].
  destruct (decide (concat ((fun p => ";"%byte :: render_param p) <$> ps) = [])) as [->|Hne].
  - rewrite app_nil_r. unfold render_param. destruct (render_param_edges p Hp) as [Hne [_ Hl]].
    rewrite app_comm_cons, last_app_nonempty by done. done.
  - by rewrite last_app_nonempty.
Qed.

(** Reading one parameter. *)
Lemma parse_parameter_spec p ps :
  param_ok p -> Forall param_ok ps ->
  parse_parameter (render_param p ++ render_params ps) =
    Some (k_key p, value_text (k_value p), drop 1 (render_params ps)) /\
  trim_ows (render_param p ++ render_params ps) <> [].
Proof.
  intros Hp Hps. destruct (render_param_edges p Hp) as [Hne [Hh Hl]]. pose proof (render_params_last ps Hps) as Hlast.
  destruct (render_value_edges _ (param_value_ok _ Hp)) as [Hvne [Hvh Hvl]].
  destruct Hp as [Hsp (Hk & Hke & Heq) Hv].
  assert (Hedge : forall x, x <> [] -> edges_ok x -> edges_ok (x ++ render_params ps)).
  { intros x Hx [Hxh Hxl]. split; [by rewrite head_app_nonempty|].
    destruct (decide (render_params ps = [])) as [->|Hn]; [by rewrite app_nil_r|by rewrite last_app_nonempty]. }
  assert (Htrim : trim_ows (render_param p ++ render_params ps) = k_key p ++ "="%byte :: render_value (k_value p) ++ render_params ps).
  { unfold render_param. rewrite <- app_assoc.
    assert (E : (k_key p ++ "="%byte :: render_value (k_value p)) ++ render_params ps =
                k_key p ++ "="%byte :: render_value (k_value p) ++ render_params ps) by (by rewrite <- app_assoc).
    destruct (Hedge _ Hne (conj Hh Hl)) as [Hh' Hl']. rewrite <- E.
    pose proof (trim_ows_value (k_space p) _ [] Hsp eq_refl Hh' Hl') as [Ht _]. by rewrite app_nil_r in Ht. }
  rewrite Htrim. split; [|by destruct (k_key p)]. unfold parse_parameter. rewrite Htrim, memchr1_spec, find_index_app by done.
  cbn [mbind option_bind]. rewrite take_app_length, (trim_edges (k_key p)), bool_decide_eq_false_2 by done.
  rewrite drop_app_add. simpl drop. rewrite ?drop_0, trim_edges by (by apply Hedge).
  destruct (k_value p) as [t|t]; cbn [render_value value_text].
  - rewrite <- app_comm_cons, <- app_assoc. cbn [is_quoted app]. rewrite bool_decide_eq_true_2 by done.
    rewrite parse_quoted_spec by done. cbn [mbind option_bind text next].
    f_equal. f_equal. unfold skip_until_semicolon. rewrite memchr1_spec. destruct ps as [|q ps]; [done|].
    unfold render_params. simpl. unfold find_index. simpl. done.
  - destruct Hv as (Hne' & He & Hsc & Hq). assert (Hnq : is_quoted (t ++ render_params ps) = false).
    { destruct t as [|c t]; [done|]. simpl. apply bool_decide_eq_false_2. intros ->. done. }
    rewrite Hnq, memchr1_spec. destruct ps as [|q ps].
    + unfold render_params. simpl. rewrite app_nil_r. rewrite (proj2 (find_index_None _ _)) by (by apply forallb_notin).
      by rewrite trim_edges.
    + unfold render_params. rewrite fmap_cons. cbn [concat]. rewrite <- app_comm_cons, find_index_app by done.
      rewrite take_app_length, trim_edges by done. by rewrite drop_app_add.
Qed.

(** The loop keeps the first value of each key. *)
Lemma parameters_spec fuel ps cd :
  Forall param_ok ps -> length ps <= fuel ->
  parameters fuel cd (drop 1 (render_params ps)) =
    {| name := match name cd with Some v => Some v | None => first_value (str "name") ps end;
       file_name := match file_name cd with Some v => Some v | None => first_value (str "filename") ps end |}.
Proof.
  intros Hok. revert fuel cd. induction Hok as [|p ps Hp Hps IH]; intros [|fuel] cd Hl; simpl in Hl; try lia.
  - by destruct cd as [[] []].
  - by destruct cd as [[] []].
  - unfold render_params at 1. rewrite fmap_cons. cbn [concat]. rewrite <- app_comm_cons. simpl drop. rewrite drop_0.
    fold (render_params ps). destruct (parse_parameter_spec p ps Hp Hps) as [Hpar Htr]. cbn [parameters].
    rewrite bool_decide_eq_false_2, Hpar by done. rewrite IH by lia. cbn [first_value].
    assert (Hx : eq_ignore_ascii_case (k_key p) (str "name") = true -> eq_ignore_ascii_case (k_key p) (str "filename") = false).
    { unfold eq_ignore_ascii_case. intros E. apply bool_decide_eq_true in E. apply bool_decide_eq_false. rewrite E. by_decide. }
    destruct cd as [[n|] [f|]]; cbn [name file_name andb]; try done;
      destruct (eq_ignore_ascii_case (k_key p) (str "name")) eqn:E1; cbn [name file_name andb]; try done;
      try (rewrite (Hx eq_refl)); try done; destruct (eq_ignore_ascii_case (k_key p) (str "filename")) eqn:E2; done.
Qed.

(** A [Content-Disposition] value is read back from its text.  Whatever the number and
    order of its parameters, the case of its keys and whether values are quoted, the result
    has the first [name] and the first [filename] value, quoted text with its escapes verbatim;
    and a value of another disposition type is refused. *)
Theorem content_disposition_roundtrip (disposition : bytes) (ps : list param) :
  edges_ok disposition -> disposition <> [] -> ";"%byte ∉ disposition -> Forall param_ok ps ->
  parse_content_disposition (disposition ++ render_params ps) =
    if eq_ignore_ascii_case disposition (str "form-data")
    then Some {| name := first_value (str "name") ps; file_name := first_value (str "filename") ps |}
    else None.
Proof.
  intros Hd Hne Hsc Hok. unfold parse_content_disposition.
  assert (Hed : edges_ok (disposition ++ render_params ps)).
  { destruct Hd as [Hh Hl]. split; [by rewrite head_app_nonempty|]. pose proof (render_params_last ps Hok).
    destruct (decide (render_params ps = [])) as [->|Hn]; [by rewrite app_nil_r|by rewrite last_app_nonempty]. }
  rewrite trim_edges by done. rewrite memchr1_spec. destruct ps as [|p ps].
  - unfold render_params. simpl. rewrite app_nil_r. rewrite (proj2 (find_index_None _ _)) by (by apply forallb_notin).
    by destruct (eq_ignore_ascii_case _ _).
  - set (rest := render_params (p :: ps)).
    assert (Hr : rest = ";"%byte :: drop 1 rest) by (unfold rest, render_params; rewrite fmap_cons; simpl; by rewrite drop_0).
    rewrite Hr, find_index_app, take_app_length, trim_edges by done. destruct (eq_ignore_ascii_case _ _); [|done]. cbn [negb].
    rewrite drop_app_add. change (drop 1 (";"%byte :: drop 1 rest)) with (drop 1 rest). f_equal.
    unfold rest. rewrite parameters_spec; [done|done|].
    enough (Hlen : length (p :: ps) <= length (render_params (p :: ps))) by (rewrite length_drop; lia).
    clear. induction (p :: ps) as [|q l IH]; [done|]. unfold render_params in *. rewrite fmap_cons. cbn [concat length].
    rewrite length_app. simpl. lia.
Qed.
End RoundTrip.

Definition w_params : list param :=
  [ {| k_space := str " "; k_key := str "Name"; k_value := Token (str "field") |};
    {| k_space := str " "; k_key := str "filename"; k_value := Quoted (str "a;b\" ++ [x22] ++ str "c.txt") |} ].

Lemma content_disposition_roundtrip_witness :
  @parse_content_disposition memchr_reference (str "form-data; Name=field; filename=" ++ [x22] ++ str "a;b\" ++ [x22] ++ str "c.txt" ++ [x22])
  = Some {| name := Some (str "field"); file_name := Some (str "a;b\" ++ [x22] ++ str "c.txt") |}.
Proof.
  apply (@content_disposition_roundtrip memchr_reference (str "form-data") w_params).
  - split; reflexivity.
  - discriminate.
  - by_decide.
  - constructor; [|constructor; [|by constructor]].
    + split; [reflexivity|split; [discriminate|split; [split; reflexivity|by_decide]]|].
      split; [discriminate|split; [split; reflexivity|split; [by_decide|discriminate]]].
    + split; [reflexivity|split; [discriminate|split; [split; reflexivity|by_decide]]|reflexivity].
Defined.
