(* ===== verification/Form.v ===== *)
(** * POST forms (crates/s3s/src/http/multipart.rs)

    The form of a browser upload on top of the multipart parser: the fields before the file are
    collected under limits, and the file part is handed over as a stream that knows its length
    when the request declares one. *)

From S2P Require Import Prelude.
From S2P Require Import Str.
From S2P Require Import OrderedQs.
From S2P Require Import Poll.
From S2P Require Import MultipartBuffer.
From S2P Require Import MultipartData.
From S2P Require Import Multipart.
From S2P Require Import ContentDisposition.

(** ** Data *)

Record MultipartLimits := { max_field_size : nat; max_fields_size : Z; max_parts : Z }.

Inductive FileStreamError :=
| Incomplete
| FileUnderlying (source : bytes)
| InvalidTrailer
| LengthMismatch (remaining : Z).

(** The boxed errors the code wraps: of the transport, or of a file stream. *)
Inductive StdError := Transport (source : bytes) | OfFile (e : FileStreamError).

Inductive MultipartError :=
| Underlying (source : StdError)
| FormInvalidFormat
| FieldTooLarge (size limit : Z)
| TotalSizeTooLarge (size limit : Z)
| TooManyParts (count limit : Z)
| FileTooLarge (size limit : Z).

Record FileStream := {
  inner : FinalPartDataStream;
  content_len : option Z;
  fs_remaining : Z;
  ended : bool
}.

Record File := { fl_name : bytes; content_type : option bytes; stream : option FileStream }.

(** [http::Multipart] *)
Record Form := { fields : list (bytes * bytes); file : File }.

(** [a.saturating_add(b)] on [usize] or [u64] *)
Definition saturating_add (a b : Z) : Z := Z.min usize_max (a + b).

(** [a.checked_sub(b)] *)
Definition checked_sub (a b : Z) : option Z := if (b <=? a)%Z then Some (a - b)%Z else None.
Definition checked_add (a b : Z) : option Z := if (a + b <=? usize_max)%Z then Some (a + b)%Z else None.

(** ** Lookups *)

Definition find_field_index (fields : list (bytes * bytes)) (name : bytes) : option nat :=
  let upper_bound := partition_point (fun x => bytes_leb (fst x) name) fields in
  match upper_bound with
  | 0 => None
  | S idx => pair ← fields !! idx; if fst pair =? name then Some idx else None
  end.

Definition find_field_value (form : Form) (name : bytes) : option bytes :=
  idx ← find_field_index (fields form) name;
  snd <$> fields form !! idx.

Definition take_file_stream (form : Form) : Form * option FileStream :=
  ({| fields := fields form;
      file := {| fl_name := fl_name (file form); content_type := content_type (file form); stream := None |} |},
   stream (file form)).

(** [str::replace]: every occurrence from the left, without overlap; [from] is not empty.
    Each round passes at least one byte of [s]. *)
Fixpoint replace_loop (fuel : nat) (from to s : bytes) : bytes :=
  match fuel with
  | 0 => s
  | S fuel' =>
      match find_sub from s with
      | Some i => take i s ++ to ++ replace_loop fuel' from to (drop (i + length from) s)
      | None => s
      end
  end.
Definition replace (from to s : bytes) : bytes := replace_loop (S (length s)) from to s.

Definition FILENAME_VARIABLE : bytes := str "${filename}".

Definition substitute_key_filename (form : Form) : Form :=
  let file_name := fl_name (file form) in
  match find_field_index (fields form) (str "key") with
  | None => form
  | Some idx =>
      match fields form !! idx with
      | None => form
      | Some (k, key) =>
          if contains FILENAME_VARIABLE key then
            {| fields := <[idx := (k, replace FILENAME_VARIABLE file_name key)]> (fields form); file := file form |}
          else form
      end
  end.

(** ** Errors *)

Definition bytes_to_string (b : bytes) : result MultipartError bytes :=
  if utf8_valid b then Ok b else Err FormInvalidFormat.

Definition map_parser_error (err : Error) : MultipartError :=
  match err with
  | StreamReadFailed source => Underlying (Transport source)
  | HeaderSizeExceeded limit => FieldTooLarge (saturating_add (Z.of_nat limit) 1) (Z.of_nat limit)
  | _ => FormInvalidFormat
  end.

Definition map_file_stream_error (err : Error) : FileStreamError :=
  match err with
  | StreamReadFailed source => FileUnderlying source
  | IncompleteStreamPart => Incomplete
  | _ => InvalidTrailer
  end.

(** ** The file stream *)

Definition FileStream_from_owned (inner : FinalPartDataStream) (content_len : option Z) : FileStream :=
  {| inner := inner; content_len := content_len; fs_remaining := default 0%Z content_len; ended := false |}.

Definition set_inner (f : FinalPartDataStream) (fs : FileStream) : FileStream :=
  {| inner := f; content_len := content_len fs; fs_remaining := fs_remaining fs; ended := ended fs |}.
Definition set_ended (fs : FileStream) : FileStream :=
  {| inner := inner fs; content_len := content_len fs; fs_remaining := fs_remaining fs; ended := true |}.
Definition set_remaining (r : Z) (fs : FileStream) : FileStream :=
  {| inner := inner fs; content_len := content_len fs; fs_remaining := r; ended := ended fs |}.

Definition is_some {A} (o : option A) : bool := match o with Some _ => true | None => false end.

Section Form.
Context `{Memchr} `{Httparse}.

Definition FileStream_poll_next : pollm FileStream (option (result FileStreamError bytes)) := fun fs =>
  if ended fs then (fs, Ready None)
  else
    let '(f, p) := Final_poll_next (inner fs) in
    let fs := set_inner f fs in
    match p with
    | Ready (Some (Ok data)) =>
        if is_some (content_len fs) then
          if (fs_remaining fs <? len data)%Z then
            (set_ended fs, Ready (Some (Err (LengthMismatch (fs_remaining fs)))))
          else (set_remaining (fs_remaining fs - len data) fs, Ready (Some (Ok data)))
        else (fs, Ready (Some (Ok data)))
    | Ready None =>
        if is_some (content_len fs) && (0 <? fs_remaining fs)%Z then
          (set_ended fs, Ready (Some (Err (LengthMismatch (fs_remaining fs)))))
        else (fs, Ready None)
    | Ready (Some (Err err)) => (set_ended fs, Ready (Some (Err (map_file_stream_error err))))
    | Pending => (fs, Pending)
    end.

(** The length the stream announces: [None] is unknown. *)
Definition FileStream_remaining_length (fs : FileStream) : option Z :=
  if is_some (content_len fs) && (fs_remaining fs <=? usize_max)%Z then Some (fs_remaining fs) else None.

Definition fs_work (fs : FileStream) : nat := fin_work (inner fs).

(** [aggregate_file_stream_limited]: the pieces and their total size. *)
Definition aggregate_step (max_size : Z) (acc : list bytes * Z) (data : bytes) : result MultipartError (list bytes * Z) :=
  let total_size := saturating_add (snd acc) (len data) in
  if (max_size <? total_size)%Z then Err (FileTooLarge total_size max_size)
  else Ok (fst acc ++ [data], total_size).

Definition aggregate_file_stream_limited (s : FileStream) (max_size : Z) : poll (result MultipartError (list bytes)) :=
  match each fs_work FileStream_poll_next (fun e => Underlying (OfFile e)) (aggregate_step max_size) s ([], 0%Z) with
  | (_, Pending) => Pending
  | (_, Ready r) => Ready (fst <$> r)
  end.

(** ** Parsing *)

(** What the headers of a part say; the last header of each kind wins. *)
Record PartMeta := { cd_name : option bytes; cd_file_name : option bytes; meta_content_type : option bytes }.

Definition no_meta : PartMeta := {| cd_name := None; cd_file_name := None; meta_content_type := None |}.

(** [.map(bytes_to_string).transpose()?] *)
Definition opt_to_string (o : option bytes) : result MultipartError (option bytes) :=
  match o with Some b => Some <$> bytes_to_string b | None => Ok None end.

Definition header_step (meta : PartMeta) (header : bytes * bytes) : result MultipartError PartMeta :=
  if eq_ignore_ascii_case (fst header) (str "content-disposition") then
    let cd := parse_content_disposition (snd header) in
    cd_name ← opt_to_string (cd ≫= name);
    cd_file_name ← opt_to_string (cd ≫= file_name);
    Ok {| cd_name := cd_name; cd_file_name := cd_file_name; meta_content_type := meta_content_type meta |}
  else if eq_ignore_ascii_case (fst header) (str "content-type") then
    ct ← bytes_to_string (snd header);
    Ok {| cd_name := cd_name meta; cd_file_name := cd_file_name meta; meta_content_type := Some ct |}
  else Ok meta.

(** One chunk of a field: its value so far and the size of all fields so far. *)
Definition data_step (limits : MultipartLimits) (acc : bytes * Z) (chunk : bytes) : result MultipartError (bytes * Z) :=
  let value := fst acc ++ chunk in
  if (Z.of_nat (max_field_size limits) <? len value)%Z then
    Err (FieldTooLarge (len value) (Z.of_nat (max_field_size limits)))
  else
    let total_fields_size := saturating_add (snd acc) (len chunk) in
    if (max_fields_size limits <? total_fields_size)%Z then
      Err (TotalSizeTooLarge total_fields_size (max_fields_size limits))
    else Ok (value, total_fields_size).

(** The branch of the file part. *)
Definition file_form (boundary : bytes) (total_len : option Z) (fields : list (bytes * bytes)) (meta : PartMeta)
    (name : bytes) (parser : Multipart) : result MultipartError Form :=
  match take_data_stream parser with
  | (_, Err err) => Err (map_parser_error err)
  | (_, Ok part_stream) =>
      let owned := into_final part_stream in
      let content_len :=
        total ← total_len;
        rest ← checked_sub total (fin_multipart_consumed owned);
        trailer ← checked_add (len boundary) 8;
        checked_sub rest trailer in
      let fields := map (fun f => (to_ascii_lowercase (fst f), snd f)) fields in
      Ok {| fields := stable_sort_by_first fields;
            file := {| fl_name := default name (cd_file_name meta); content_type := meta_content_type meta;
                       stream := Some (FileStream_from_owned owned content_len) |} |}
  end.

(** The loop over the parts. *)
Fixpoint parts_loop (fuel : nat) (limits : MultipartLimits) (boundary : bytes) (total_len : option Z)
    (parser : Multipart) (fields : list (bytes * bytes)) (total_fields_size parts_count : Z) :
    poll (result MultipartError Form) :=
  match fuel with
  | 0 => Pending
  | S fuel' =>
      match await mp_work poll_next_part parser with
      | (_, Pending) => Pending
      | (_, Ready (Err err)) => Ready (Err (map_parser_error err))
      | (_, Ready (Ok false)) => Ready (Err FormInvalidFormat)
      | (parser, Ready (Ok true)) =>
          let parts_count := saturating_add parts_count 1 in
          if (max_parts limits <? parts_count)%Z then Ready (Err (TooManyParts parts_count (max_parts limits)))
          else
            match each header_work (items poll_next_header) map_parser_error header_step parser no_meta with
            | (_, Pending) => Pending
            | (_, Ready (Err err)) => Ready (Err err)
            | ((parser, _), Ready (Ok meta)) =>
                match cd_name meta with
                | None => Ready (Err FormInvalidFormat)
                | Some name =>
                    if eq_ignore_ascii_case name (str "file") then
                      Ready (file_form boundary total_len fields meta name parser)
                    else
                      match each mp_work (items poll_next_data) map_parser_error (data_step limits) parser
                              ([], total_fields_size) with
                      | (_, Pending) => Pending
                      | (_, Ready (Err err)) => Ready (Err err)
                      | ((parser, _), Ready (Ok (value, total_fields_size))) =>
                          match bytes_to_string value with
                          | Err err => Ready (Err err)
                          | Ok value =>
                              parts_loop fuel' limits boundary total_len parser (fields ++ [(name, value)])
                                total_fields_size parts_count
                          end
                      end
                end
            end
      end
  end.

(** Every round that goes on counts a part, so one round more than [max_parts] is enough. *)
Definition transform_multipart (body_stream : list event) (boundary : bytes) (limits : MultipartLimits)
    (total_len : option Z) : poll (result MultipartError Form) :=
  match Boundary_new boundary with
  | Err _ => Ready (Err FormInvalidFormat)
  | Ok parser_boundary =>
      let parser := Multipart_new body_stream parser_boundary (max_field_size limits) in
      parts_loop (S (Z.to_nat (max_parts limits))) limits boundary total_len parser [] 0 0
  end.
End Form.

(** ** Limits: lemmas *)

(** The size of all field values. *)
Definition fields_size (l : list (bytes * bytes)) : Z := foldr (fun f n => (len (snd f) + n)%Z) 0%Z l.

Lemma fields_size_app l k : fields_size (l ++ k) = (fields_size l + fields_size k)%Z.
Proof. induction l as [|f l IH]; simpl; [lia|]. unfold fields_size in *. simpl. lia. Qed.

Lemma fields_size_perm l k : l ≡ₚ k -> fields_size l = fields_size k.
Proof. unfold fields_size. induction 1; simpl; lia. Qed.

Lemma fields_size_map (g : bytes -> bytes) l : fields_size (map (fun f => (g (fst f), snd f)) l) = fields_size l.
Proof. unfold fields_size. induction l as [|f l IH]; simpl; [done|]. by rewrite IH. Qed.

(** Limits a server can set: below the largest [usize]. *)
Record limits_ok (limits : MultipartLimits) : Prop := {
  ok_fields_size : (0 <= max_fields_size limits < usize_max)%Z;
  ok_parts : (0 <= max_parts limits < usize_max)%Z
}.

(** The fields collected so far, and the counters the loop keeps for them. *)
Record collected (limits : MultipartLimits) (fields : list (bytes * bytes)) (total count : Z) : Prop := {
  col_count : count = len fields;
  col_room : (count <= max_parts limits)%Z;
  col_total : total = fields_size fields;
  col_size : (total <= max_fields_size limits)%Z;
  col_each : Forall (fun f => (len (snd f) <= Z.of_nat (max_field_size limits))%Z /\ utf8_valid (snd f) = true) fields
}.

Lemma data_step_limits limits total0 acc chunk acc' :
  limits_ok limits ->
  let P := fun a : bytes * Z => snd a = (total0 + len (fst a))%Z /\ (snd a <= max_fields_size limits)%Z /\
    (len (fst a) <= Z.of_nat (max_field_size limits))%Z in
  P acc -> data_step limits acc chunk = Ok acc' -> P acc'.
Proof.
  intros [Hf _] P (Ht & Hm & Hv). unfold data_step, saturating_add.
  destruct (_ <? _)%Z eqn:E1; [done|]. destruct (max_fields_size limits <? _)%Z eqn:E2; [done|]. reflect_bools.
  intros [= <-]. unfold P. cbn [fst snd]. unfold len in *. rewrite length_app in *. lia.
Qed.

Section Limits.
Context `{Memchr} `{Httparse}.

Lemma header_polls_down : polls_down header_work (items poll_next_header).
Proof. intros s s' o. apply header_poll_work. Qed.

Lemma data_polls_down : polls_down mp_work (items poll_next_data).
Proof. intros s s' o. apply data_poll_work. Qed.

Lemma next_part_ready m : exists m' r, await mp_work poll_next_part m = (m', Ready r).
Proof.
  destruct (await_inv mp_work poll_next_part (fun _ => True) (fun _ _ => True) poll_next_part_progresses) with (b := m)
    as (m' & r & E & _); [|done|eauto]. intros b _. by destruct (poll_next_part b) as [? []].
Qed.

(** What a form that was accepted satisfies. *)
Record form_ok (limits : MultipartLimits) (form : Form) : Prop := {
  form_parts : (len (fields form) < max_parts limits)%Z;
  form_total : (fields_size (fields form) <= max_fields_size limits)%Z;
  form_each : Forall (fun f => (len (snd f) <= Z.of_nat (max_field_size limits))%Z /\ utf8_valid (snd f) = true) (fields form);
  form_sorted : ordered (fields form);
  form_lower : Forall (fun f => to_ascii_lowercase (fst f) = fst f) (fields form);
  form_stream : is_some (stream (file form)) = true
}.

Lemma ascii_lower_idem s : to_ascii_lowercase (to_ascii_lowercase s) = to_ascii_lowercase s.
Proof.
  unfold to_ascii_lowercase. rewrite map_map. apply map_ext. intros c.
  by destruct c.
Qed.

Lemma file_form_ok limits boundary total_len l total count meta name parser form :
  collected limits l total count -> (count < max_parts limits)%Z ->
  file_form boundary total_len l meta name parser = Ok form -> form_ok limits form.
Proof.
  intros [Hc _ Ht Hs He] Hr. unfold file_form. destruct (take_data_stream parser) as [m [p|e]]; [|done].
  intros [= <-]. set (low := map (fun f : bytes * bytes => (to_ascii_lowercase f.1, f.2)) l).
  assert (Hp : stable_sort_by_first low ≡ₚ low) by apply sort_by_key_perm.
  constructor; cbn [fields file stream].
  - apply Permutation_length in Hp. unfold len in *. rewrite Hp. unfold low. rewrite length_map. lia.
  - rewrite (fields_size_perm _ _ Hp). unfold low. rewrite fields_size_map. lia.
  - rewrite Hp. unfold low. apply Forall_map. by eapply Forall_impl; [exact He|].
  - apply sort_ordered.
  - rewrite Hp. unfold low. apply Forall_map. apply Forall_forall. intros f _. apply ascii_lower_idem.
  - done.
Qed.

Lemma parts_loop_ok limits boundary total_len fuel parser l total count :
  limits_ok limits -> collected limits l total count -> (max_parts limits - count < Z.of_nat fuel)%Z ->
  exists r, parts_loop fuel limits boundary total_len parser l total count = Ready r /\
            forall form, r = Ok form -> form_ok limits form.
Proof.
  intros Hl. revert parser l total count. induction fuel as [|fuel IH]; intros parser l total count Hc Hf.
  { destruct Hc. lia. }
  cbn [parts_loop]. destruct (next_part_ready parser) as (m1 & r1 & ->). destruct r1 as [[]|]; [|by eexists..].
  pose proof Hl as [_ Hp]. assert (Hcount : saturating_add count 1 = (count + 1)%Z).
  { unfold saturating_add. destruct Hc. lia. }
  rewrite Hcount. destruct (max_parts limits <? count + 1)%Z eqn:E1; [by eexists|]. reflect_bools.
  destruct (each_ready header_work (items poll_next_header) map_parser_error header_step m1 no_meta header_polls_down)
    as ([m2 a2] & [meta|e] & ->); [|by eexists].
  destruct (cd_name meta) as [name|]; [|by eexists].
  destruct (eq_ignore_ascii_case name (str "file")).
  { eexists. split; [done|]. intros form. eapply file_form_ok; [exact Hc|lia]. }
  destruct (each_ready mp_work (items poll_next_data) map_parser_error (data_step limits) m2 ([], total) data_polls_down)
    as ([m3 a3] & [[value total']|e] & Ed); rewrite Ed; [|by eexists].
  unfold bytes_to_string. destruct (utf8_valid value) eqn:Eu; [|by eexists].
  apply (each_inv mp_work (items poll_next_data) map_parser_error (data_step limits)
    (fun a : bytes * Z => snd a = (total + len (fst a))%Z /\ (snd a <= max_fields_size limits)%Z /\
      (len (fst a) <= Z.of_nat (max_field_size limits))%Z)) in Ed.
  - destruct Ed as (Ht & Hm & Hv). cbn [fst snd] in *. destruct Hc as [Hc1 Hc2 Hc3 Hc4 Hc5]. apply IH; [|lia].
    constructor; [| |rewrite fields_size_app|lia|].
    + unfold len in *. rewrite length_app. simpl. lia.
    + lia.
    + unfold fields_size at 2. simpl. lia.
    + apply Forall_app. split; [done|]. by apply Forall_singleton.
  - apply data_polls_down.
  - intros acc a acc'. by apply data_step_limits.
  - destruct Hc. cbn [fst snd]. unfold len. simpl. lia.
Qed.

Lemma transform_ready body boundary limits total_len :
  limits_ok limits ->
  exists r, transform_multipart body boundary limits total_len = Ready r /\ forall form, r = Ok form -> form_ok limits form.
Proof.
  intros Hl. unfold transform_multipart. destruct (Boundary_new boundary) as [b|]; [|by eexists].
  apply parts_loop_ok; [done| |destruct Hl; lia]. destruct Hl. constructor; simpl; unfold len; simpl; done || lia.
Qed.
End Limits.

(** ** The file stream: lemmas *)

Section Reading.
Context `{Memchr} `{Httparse}.

Lemma file_poll_spec fs :
  ended fs = false ->
  let '(f, p) := Final_poll_next (inner fs) in
  FileStream_poll_next fs =
    match p with
    | Ready (Some (Ok data)) =>
        if is_some (content_len fs) then
          if (fs_remaining fs <? len data)%Z
          then (set_ended (set_inner f fs), Ready (Some (Err (LengthMismatch (fs_remaining fs)))))
          else (set_remaining (fs_remaining fs - len data) (set_inner f fs), Ready (Some (Ok data)))
        else (set_inner f fs, Ready (Some (Ok data)))
    | Ready None =>
        if is_some (content_len fs) && (0 <? fs_remaining fs)%Z
        then (set_ended (set_inner f fs), Ready (Some (Err (LengthMismatch (fs_remaining fs)))))
        else (set_inner f fs, Ready None)
    | Ready (Some (Err err)) => (set_ended (set_inner f fs), Ready (Some (Err (map_file_stream_error err))))
    | Pending => (set_inner f fs, Pending)
    end.
Proof. intros He. unfold FileStream_poll_next. rewrite He. by destruct (Final_poll_next (inner fs)). Qed.

Lemma final_polls_down : polls_down fin_work Final_poll_next.
Proof.
  intros s s' o E. pose proof (final_next_work s) as Hw. rewrite E in Hw. by destruct o as [[[]|]|].
Qed.

Lemma file_polls_down : polls_down fs_work FileStream_poll_next.
Proof.
  intros s s' o E. unfold FileStream_poll_next in E. destruct (ended s); [by simplify_eq|].
  pose proof (final_polls_down (inner s)) as Hw. destruct (Final_poll_next (inner s)) as [f p]. specialize (Hw _ _ eq_refl).
  destruct p as [[[d|e]|]|]; repeat case_test; simplify_eq; done.
Qed.

(** How the stream ends once the inner stream ended cleanly after [n] more bytes. *)
Definition file_verdict (fs : FileStream) (n : Z) : option FileStreamError :=
  if is_some (content_len fs) && (0 <? fs_remaining fs - n)%Z
  then Some (LengthMismatch (fs_remaining fs - n)) else None.

(** A file stream yields what the inner stream yields, if that is not more than declared. *)
Lemma file_drain fs f l :
  ended fs = false -> (is_some (content_len fs) = true -> (len (concat l) <= fs_remaining fs)%Z) ->
  drain fin_work Final_poll_next (inner fs) = ((f, l), Ready None) ->
  exists fs', drain fs_work FileStream_poll_next fs = ((fs', l), Ready (file_verdict fs (len (concat l)))).
Proof.
  intros He Hc. enough (Hg : forall items,
    loop (fun p => fin_work p.1) (drain_turn Final_poll_next) (inner fs, items) = ((f, items ++ l), Ready None) ->
    exists fs', loop (fun p => fs_work p.1) (drain_turn FileStream_poll_next) (fs, items) =
      ((fs', items ++ l), Ready (file_verdict fs (len (concat l))))) by apply (Hg []).
  remember (fs_work fs) as n eqn:Hn. revert fs l He Hc Hn. induction (lt_wf n) as [n _ IH]. intros fs l He Hc Hn items.
  rewrite (loop_unfold _ (drain_turn Final_poll_next)) by (apply drain_decreasing, final_polls_down).
  rewrite (loop_unfold _ (drain_turn FileStream_poll_next)) by (apply drain_decreasing, file_polls_down).
  cbn [drain_turn]. pose proof (file_poll_spec fs He) as Hp. pose proof (final_polls_down (inner fs)) as Hd.
  destruct (Final_poll_next (inner fs)) as [f1 p1] eqn:Ef. specialize (Hd _ _ eq_refl). rewrite Hp.
  destruct p1 as [[[d|e]|]|]; intros E1.
  - destruct (drain_grows fin_work Final_poll_next f1 (items ++ [d]) final_polls_down) as [k Hk]. rewrite E1 in Hk.
    simpl in Hk. rewrite <- app_assoc in Hk. apply app_inv_head in Hk as ->. simpl app in *.
    replace (items ++ d :: k) with ((items ++ [d]) ++ k) in E1 |- * by by rewrite <- app_assoc.
    cbn [concat] in *. unfold len in Hc |- *. rewrite length_app in *. fold (len d) in *. unfold file_verdict in *.
    destruct (is_some (content_len fs)) eqn:Ec.
    + specialize (Hc eq_refl). unfold len. rewrite (proj2 (Z.ltb_ge _ _)) by lia.
      destruct (IH (fs_work (set_remaining (fs_remaining fs - len d) (set_inner f1 fs))) ltac:(unfold fs_work in *; simpl; lia)
        (set_remaining (fs_remaining fs - len d) (set_inner f1 fs)) k He) with (items := items ++ [d]) as [fs' E']; [|done|done|].
      { intros _. simpl. unfold len. lia. }
      exists fs'. cbn [content_len fs_remaining set_remaining set_inner] in E'. rewrite Ec in E'. cbn [andb] in *. unfold len in E'.
      rewrite Nat2Z.inj_add, Z.sub_add_distr. exact E'.
    + destruct (IH (fs_work (set_inner f1 fs)) ltac:(unfold fs_work in *; simpl; lia) (set_inner f1 fs) k He) with (items := items ++ [d])
        as [fs' E']; [by simpl; rewrite Ec|done|done|].
      exists fs'. simpl in E'. by rewrite Ec in E'.
  - done.
  - injection E1 as <- Hl. rewrite <- (app_nil_r items) in Hl at 1. apply app_inv_head in Hl as <-. unfold file_verdict.
    simpl. unfold len. simpl. rewrite Z.sub_0_r. rewrite !app_nil_r. case_test; eauto.
  - destruct (IH (fs_work (set_inner f1 fs)) ltac:(unfold fs_work in *; simpl; lia) (set_inner f1 fs) l He) with (items := items)
      as [fs' E']; [done|done|done|]. by exists fs'.
Qed.
End Reading.

(** ** Encoded forms *)

Section Encoded.
Context `{Memchr} `{Httparse}.

(** What the header fields of a part say. *)
Definition part_meta (p : part) : result MultipartError PartMeta := fold_res header_step no_meta (p_fields p).

(** A part that is the form field [f]. *)
Record field_part (limits : MultipartLimits) (p : part) (f : bytes * bytes) : Prop := {
  fp_meta : exists meta, part_meta p = Ok meta /\ cd_name meta = Some (fst f);
  fp_name : eq_ignore_ascii_case (fst f) (str "file") = false;
  fp_value : p_data p = snd f /\ utf8_valid (snd f) = true;
  fp_size : (len (snd f) <= Z.of_nat (max_field_size limits))%Z
}.

(** A part that is the file, with what its headers say. *)
Definition file_part (p : part) (meta : PartMeta) (name : bytes) : Prop :=
  part_meta p = Ok meta /\ cd_name meta = Some name /\ eq_ignore_ascii_case name (str "file") = true.

Lemma data_fold limits chunks v t :
  limits_ok limits -> (len (v ++ concat chunks) <= Z.of_nat (max_field_size limits))%Z ->
  (0 <= t)%Z -> (t + len (concat chunks) <= max_fields_size limits)%Z ->
  fold_res (data_step limits) (v, t) chunks = Ok (v ++ concat chunks, (t + len (concat chunks))%Z).
Proof.
  intros [Hl _]. revert v t. induction chunks as [|c chunks IH]; intros v t Hv Ht Hs; cbn [fold_res concat] in *.
  - rewrite app_nil_r. unfold len. simpl. by rewrite Z.add_0_r.
  - unfold data_step at 1. cbn [fst snd]. unfold len, saturating_add in *. rewrite !length_app, !Nat2Z.inj_add in *.
    rewrite (proj2 (Z.ltb_ge _ _)) by lia. rewrite Z.min_r by lia. rewrite (proj2 (Z.ltb_ge _ _)) by lia.
    rewrite IH; [|rewrite !length_app; lia|lia|lia]. by rewrite <- !app_assoc, Z.add_assoc.
Qed.

Lemma checked_sub_ge a b : (b <= a)%Z -> checked_sub a b = Some (a - b)%Z.
Proof. intros Hle. unfold checked_sub. by rewrite (proj2 (Z.leb_le _ _)). Qed.

Section Loop.
Context (total : Z) (boundary closing_pad : bytes) (limits : MultipartLimits).
Context (Hb : forallb is_bchar boundary = true) (Hcp : forallb is_padding closing_pad = true) (Hl : limits_ok limits).
Abbreviation at_ := (mp_at total boundary (max_field_size limits)) (only parsing).
Abbreviation enc := (encode_after boundary closing_pad) (only parsing).

(** A round up to the data of the next part. *)
Lemma round_headers p ps m v :
  Forall (part_ok boundary (max_field_size limits)) (p :: ps) -> at_ m v ->
  boundary_point boundary (max_field_size limits) v = Some (enc (p :: ps)) ->
  next_ref boundary (max_field_size limits) v = boundary_next (enc (p :: ps)) ->
  exists m1 m2, await mp_work poll_next_part m = (m1, Ready (Ok true)) /\
    drain header_work (items poll_next_header) m1 = ((m2, p_fields p), Ready None) /\
    at_ m2 (VData (p_data p ++ make_delimiter boundary ++ enc ps)).
Proof.
  intros Hok Hm Hpt Href. destruct (next_part_correct total boundary (max_field_size limits) m v Hm) as (m1 & r & E & Hr).
  { intros t Ht. rewrite Hpt in Ht. simplify_eq. apply no_padded_dash_encoded. intros q Hq.
    rewrite Forall_forall in Hok. by destruct (Hok q Hq). }
  apply Forall_cons in Hok as [[Hpad Hblk (k & Hk & Hds & Hfs) Hdata] _].
  rewrite Href in Hr. cbn [encode_after] in Hr. rewrite boundary_next_part in Hr by done. destruct Hr as [-> Hm1].
  set (rest := p_data p ++ make_delimiter boundary ++ enc ps) in *.
  assert (Hdrop : drop (length (p_block p)) (p_block p ++ rest) = rest) by apply drop_app_length.
  destruct (read_headers_spec total boundary (max_field_size limits) m1 (p_block p ++ rest) (p_block p) k (p_fields p))
    as (m2 & E2 & Hm2); [by rewrite Hdrop|done| |done| |done|].
  { by apply parse_header_block_within in Hk as [_ ?]. }
  { unfold block_ref. rewrite header_block_end_extend by done. cbn. rewrite take_app_length. done. }
  rewrite Hdrop in Hm2. eauto.
Qed.

(** The file branch: the stream is positioned at the data, with the length it can compute. *)
Lemma file_form_encoded l meta name data m :
  find_sub (make_delimiter boundary) data = None ->
  at_ m (VData (data ++ make_delimiter boundary ++ enc [])) -> (0 <= total <= u64_max)%Z -> (len boundary <= 70)%Z ->
  forall total_len, total_len = None \/ total_len = Some total ->
  exists form fs, file_form boundary total_len l meta name m = Ok form /\
    fields form = stable_sort_by_first (map (fun f => (to_ascii_lowercase (fst f), snd f)) l) /\
    fl_name (file form) = default name (cd_file_name meta) /\ content_type (file form) = meta_content_type meta /\
    stream (file form) = Some fs /\
    content_len fs = (fun _ => len data + len closing_pad)%Z <$> total_len /\
    exists fs' chunks, drain fs_work FileStream_poll_next fs =
        ((fs', chunks), Ready (if is_some total_len && (0 <? len closing_pad)%Z
                               then Some (LengthMismatch (len closing_pad)) else None)) /\
      concat chunks = data.
Proof.
  intros Hdata Hm Htot Hbl total_len Hlen. set (s := data ++ make_delimiter boundary ++ enc []) in *.
  destruct (take_data_spec total boundary (max_field_size limits) m s (or_introl Hm)) as (m0 & b & E & Hf).
  unfold file_form. rewrite E. cbn [into_final fin_multipart_consumed FinalPartDataStream_new PartDataStream_new multipart_consumed].
  assert (Hs : len s = (len data + (len boundary + 4) + (4 + len closing_pad))%Z).
  { unfold s, make_delimiter. cbn [encode_after]. unfold len. rewrite !length_app. simpl. lia. }
  pose proof (consumed_feeds _ _ _ Hf) as Hcons.
  assert (Hcl : (total ← total_len; rest ← checked_sub total (consumed b); trailer ← checked_add (len boundary) 8;
    checked_sub rest trailer) = (fun _ => len data + len closing_pad)%Z <$> total_len).
  { destruct Hlen as [->| ->]; [done|]. cbn [mbind option_bind fmap option_fmap option_map].
    assert (Hlb : (0 <= len boundary /\ 0 <= len data /\ 0 <= len closing_pad)%Z) by (unfold len; lia).
    rewrite checked_sub_ge by lia. cbn [mbind option_bind]. unfold checked_add, usize_max.
    rewrite (proj2 (Z.leb_le _ _)) by lia. cbn [mbind option_bind].
    rewrite checked_sub_ge by lia. f_equal. lia. }
  rewrite Hcl. eexists _, _. split; [reflexivity|]. split_and!; try reflexivity.
  set (p := PartDataStream_new _ _ _). set (fs := FileStream_from_owned _ _).
  destruct (final_read_correct total (make_delimiter boundary) (into_final p) (ViewData s)) as (f' & chunks & r & E' & _ & Hr); [done|done|].
  unfold s in Hr. rewrite delimiter_ends_data in Hr by done. destruct Hr as [Hc Hv]. rewrite take_app_length in Hc.
  assert (Hr : r = None).
  { rewrite Hv. apply trailer_verdict_ok. exists closing_pad. split; [|done].
    rewrite drop_app_add, drop_app_length. done. }
  rewrite Hr in E'. destruct (file_drain fs f' chunks) as [fs' Efs]; [done| |exact E'|].
  { intros Hc'. rewrite Hc. destruct Hlen as [->| ->]; [done|]. simpl. unfold len. lia. }
  exists fs', chunks. split; [|exact Hc]. rewrite Efs, Hc. unfold file_verdict. cbn [content_len fs_remaining fs FileStream_from_owned].
  destruct Hlen as [->| ->]; [done|]. cbn [fmap option_fmap option_map is_some default from_option andb].
  unfold id. by replace (len data + len closing_pad - len data)%Z with (len closing_pad) by lia.
Qed.

(** The whole loop: it collects the fields and comes to the file. *)
Lemma parts_loop_encoded total_len fp meta name ps l2 :
  Forall (part_ok boundary (max_field_size limits)) (ps ++ [fp]) -> Forall2 (field_part limits) ps l2 ->
  file_part fp meta name ->
  forall fuel m v l1 count, at_ m v ->
  boundary_point boundary (max_field_size limits) v = Some (enc (ps ++ [fp])) ->
  next_ref boundary (max_field_size limits) v = boundary_next (enc (ps ++ [fp])) ->
  length ps < fuel -> (0 <= count)%Z -> (count + len ps < max_parts limits)%Z ->
  (fields_size l1 + fields_size l2 <= max_fields_size limits)%Z -> (0 <= fields_size l1)%Z ->
  exists m2, parts_loop fuel limits boundary total_len m l1 (fields_size l1) count =
               Ready (file_form boundary total_len (l1 ++ l2) meta name m2) /\
             at_ m2 (VData (p_data fp ++ make_delimiter boundary ++ enc [])).
Proof.
  intros Hok Hps (Hmeta & Hname & Hfile). induction Hps as [|p f ps l2 Hp Hps IH];
    intros fuel m v l1 count Hm Hpt Href Hfuel Hc0 Hc Hsz Hsz0; (destruct fuel as [|fuel]; [lia|]);
    (destruct (round_headers _ _ m v Hok Hm Hpt Href) as (m1 & m2 & E1 & E2 & Hm2)); cbn [parts_loop]; rewrite E1;
    pose proof Hl as [_ Hlp]; (assert (Hcount : saturating_add count 1 = (count + 1)%Z) by (unfold saturating_add, len in *; lia));
    rewrite Hcount, (proj2 (Z.ltb_ge _ _)) by (unfold len in *; lia);
    apply (each_drain header_work (items poll_next_header) map_parser_error header_step m1 no_meta) in E2;
    try apply header_polls_down; cbn [app] in *.
  - unfold part_meta in Hmeta. rewrite Hmeta in E2. rewrite E2, Hname, Hfile, app_nil_r. eauto.
  - destruct Hp as [(meta' & Hmeta' & Hname') Hnf [Hdata Hutf] Hfs]. unfold part_meta in Hmeta'. rewrite Hmeta' in E2.
    rewrite E2, Hname', Hnf. apply Forall_cons in Hok as [Hpok Hok].
    pose proof (delimiter_ends_data boundary (p_data p) (enc (ps ++ [fp])) Hb (ok_data _ _ _ Hpok)) as Hi.
    destruct (read_data_spec total boundary (max_field_size limits) m2 _ _ Hi Hm2) as (m3 & chunks & E3 & Hcat & Hm3).
    rewrite take_app_length, Hdata in Hcat. rewrite drop_app_add, drop_app_length in Hm3.
    apply (each_drain mp_work (items poll_next_data) map_parser_error (data_step limits) m2 ([], fields_size l1)) in E3;
      [|apply data_polls_down].
    assert (Hsz2 : (0 <= fields_size l2)%Z) by (clear; unfold fields_size; induction l2 as [|g l IHl]; simpl; unfold len in *; lia).
    unfold fields_size at 2 in Hsz. cbn [foldr] in Hsz. fold (fields_size l2) in Hsz.
    rewrite data_fold in E3; [|done|by rewrite Hcat|done|rewrite Hcat; lia]. rewrite E3. cbn [app]. rewrite Hcat.
    unfold bytes_to_string. rewrite Hutf.
    replace (fields_size l1 + len (snd f))%Z with (fields_size (l1 ++ [(fst f, snd f)]))
      by (rewrite fields_size_app; unfold fields_size at 2; simpl; lia).
    destruct f as [fname fval]. cbn [fst snd] in *. replace (l1 ++ (fname, fval) :: l2) with ((l1 ++ [(fname, fval)]) ++ l2) by by rewrite <- app_assoc.
    apply (IH Hok fuel m3 (VBoundary (enc (ps ++ [fp])))); try done; rewrite ?fields_size_app; unfold len in *; simpl in *; unfold len; lia.
Qed.
End Loop.
End Encoded.

Lemma Boundary_new_length boundary b : Boundary_new boundary = Ok b -> (len boundary <= 70)%Z.
Proof. unfold Boundary_new. destruct (_ || _) eqn:E; [done|]. reflect_bools. unfold len. lia. Qed.

(** In ordered fields the lookup finds the last value of a name. *)
Lemma find_field_last form name :
  ordered (fields form) -> find_field_value form name = last (values_of (fields form) name).
Proof.
  intros Ho. destruct (ordered_split _ name Ho) as (a & c & Hs & Ha & Hu & _).
  unfold find_field_value, find_field_index, values_of. rewrite <- Hu.
  set (f := List.filter (fun x => fst x =? name) (fields form)) in *.
  assert (Hf : Forall (fun x => fst x = name) f).
  { apply Forall_forall. intros x Hx. apply list_elem_of_In, filter_In in Hx as [_ Hx]. by apply bool_decide_eq_true in Hx. }
  assert (Hdec : f = [] \/ exists f' x, f = f' ++ [x]) by (destruct f using rev_ind; [by left|right; eauto]).
  destruct Hdec as [Hf0|(f' & x & Hfx)].
  - rewrite Hf0. simpl. rewrite Nat.add_0_r. destruct (length a) as [|idx] eqn:El; [done|].
    destruct (fields form !! idx) as [p|] eqn:Ep; [|done]. cbn [mbind option_bind].
    rewrite bool_decide_eq_false_2; [done|]. intros Hp. assert (Hin : p ∈ f); [|by rewrite Hf0 in Hin; apply elem_of_nil in Hin].
    apply list_elem_of_In, filter_In. split; [by apply list_elem_of_In; eapply list_elem_of_lookup_2|by apply bool_decide_eq_true].
  - rewrite Hfx, length_app. simpl. replace (length a + (length f' + 1)) with (S (length a + length f')) by lia.
    assert (Hx : fields form !! (length a + length f') = Some x).
    { rewrite Hs, Hfx, lookup_app_r by lia. replace (_ - length a) with (length f') by lia.
      rewrite <- app_assoc, lookup_app_r, Nat.sub_diag by lia. done. }
    rewrite Hx. cbn [mbind option_bind]. rewrite Hfx, Forall_app in Hf. destruct Hf as [_ Hf]. apply Forall_cons in Hf as [Hf _].
    rewrite (bool_decide_eq_true_2 (fst x = name)) by exact Hf. cbn [mbind option_bind]. rewrite Hx, map_app. cbn [map]. by rewrite last_snoc.
Qed.

(** ** Properties *)

Section FormClaims.
Context `{Memchr} `{Httparse}.

(** C22: parsing a form always ends, whatever the body and however it is cut, and what it
    accepts is within the limits: fewer fields than parts are allowed, no value and no sum of
    values over its limit, values that are UTF-8, names in lower case and in order, so that a
    lookup finds the last value of a name. *)
Theorem form_limits (body : list event) (boundary : bytes) (limits : MultipartLimits) (total_len : option Z) :
  limits_ok limits ->
  exists r, transform_multipart body boundary limits total_len = Ready r /\
    forall form, r = Ok form -> form_ok limits form /\
      forall name, find_field_value form name = last (values_of (fields form) name).
Proof.
  intros Hl. destruct (transform_ready body boundary limits total_len Hl) as (r & E & Hr).
  exists r. split; [done|]. intros form Hf. specialize (Hr form Hf). split; [done|]. intros name.
  apply find_field_last, Hr.
Qed.

(** C29: a form written field by field and file last is read back, for every splitting of the body that
    has no error and no long run of empty chunks, when it is within the limits: the fields in lower case
    and in order, the name and type of the file, and the data of the file as a stream.  Without
    the length of the request the stream announces no length and ends cleanly.  With it, the stream
    announces the length of the file plus that of the padding after the closing delimiter; it ends
    cleanly when there is no such padding, and with a length mismatch after all the data when there
    is. *)
Theorem form_roundtrip (evs : list event) (boundary preamble closing_pad : bytes) (limits : MultipartLimits)
    (ps : list part) (l : list (bytes * bytes)) (fp : part) (meta : PartMeta) (name : bytes) (total_len : option Z) :
  Boundary_new boundary = Ok boundary ->
  find_sub (make_first_boundary boundary) (preamble ++ make_first_boundary boundary) = Some (length preamble) ->
  forallb is_padding closing_pad = true ->
  Forall (part_ok boundary (max_field_size limits)) (ps ++ [fp]) ->
  Forall2 (field_part limits) ps l -> file_part fp meta name ->
  limits_ok limits -> (len ps < max_parts limits)%Z -> (fields_size l <= max_fields_size limits)%Z ->
  stream_bytes evs = encode boundary preamble closing_pad (ps ++ [fp]) ->
  progressing 0 evs = true -> (len (stream_bytes evs) <= u64_max)%Z ->
  (total_len = None \/ total_len = Some (len (stream_bytes evs))) ->
  exists form fs, transform_multipart evs boundary limits total_len = Ready (Ok form) /\
    fields form = stable_sort_by_first (map (fun f => (to_ascii_lowercase (fst f), snd f)) l) /\
    fl_name (file form) = default name (cd_file_name meta) /\ content_type (file form) = meta_content_type meta /\
    stream (file form) = Some fs /\
    content_len fs = (fun _ => len (p_data fp) + len closing_pad)%Z <$> total_len /\
    exists fs' chunks, drain fs_work FileStream_poll_next fs =
        ((fs', chunks), Ready (if is_some total_len && (0 <? len closing_pad)%Z
                               then Some (LengthMismatch (len closing_pad)) else None)) /\
      concat chunks = p_data fp.
Proof.
  intros Hbn Hpre Hcp Hok Hps Hfp Hl Hc Hsz Hs Hp Hlen Htot. pose proof (Boundary_new_length _ _ Hbn) as Hbl.
  unfold transform_multipart. rewrite Hbn. apply Boundary_new_ok in Hbn as (_ & Hb & _).
  assert (Ha : after (make_first_boundary boundary) (stream_bytes evs) = Some (encode_after boundary closing_pad (ps ++ [fp]))).
  { unfold after. rewrite Hs. unfold encode. rewrite app_assoc, (find_sub_extend _ _ _ _ Hpre). cbn [fmap option_fmap option_map].
    by rewrite <- app_assoc, drop_app_add, drop_app_length. }
  destruct (parts_loop_encoded (len (stream_bytes evs)) boundary closing_pad limits Hb Hl total_len fp meta name ps l
    Hok Hps Hfp (S (Z.to_nat (max_parts limits))) (Multipart_new evs boundary (max_field_size limits)) (VStart (stream_bytes evs))
    [] 0) as (m2 & E & Hm2); [by apply multipart_new_at|done|unfold next_ref; by rewrite Ha|unfold len in Hc; lia|done|done|done|done|].
  change (fields_size []) with 0%Z in E. rewrite E. cbn [app].
  apply Forall_app in Hok as [_ Hok]. apply Forall_cons in Hok as [Hok _].
  destruct (file_form_encoded (len (stream_bytes evs)) boundary closing_pad limits Hb Hcp l meta name (p_data fp) m2
    (ok_data _ _ _ Hok) Hm2 ltac:(unfold len in *; lia) Hbl total_len Htot) as (form & fs & Ef & Hrest).
  exists form, fs. rewrite Ef. split; [done|exact Hrest].
Qed.
End FormClaims.

(** ** Witnesses *)

Definition w_limits : MultipartLimits := {| max_field_size := 100; max_fields_size := 1000; max_parts := 5 |}.

Lemma w_limits_ok : limits_ok w_limits.
Proof. by constructor. Qed.

Definition w_field : part :=
  {| p_pad := []; p_block := str "Content-Disposition: form-data; name=Key" ++ crlf ++ crlf;
     p_fields := [(str "Content-Disposition", str "form-data; name=Key")]; p_data := str "k1" |}.
Definition w_file : part :=
  {| p_pad := []; p_block := str "Content-Disposition: form-data; name=file; filename=f" ++ crlf ++ crlf;
     p_fields := [(str "Content-Disposition", str "form-data; name=file; filename=f")]; p_data := str "data" ++ crlf |}.

Definition w_form_body : bytes := encode (str "BB") [] [] [w_field; w_file].
Definition w_form_events : list event := cut_events [take 30 w_form_body; take 50 (drop 30 w_form_body); drop 80 w_form_body].

Lemma form_limits_witness :
  exists r, @transform_multipart memchr_reference httparse_reference w_form_events (str "BB") w_limits None = Ready r.
Proof.
  destruct (@form_limits memchr_reference httparse_reference w_form_events (str "BB") w_limits None w_limits_ok) as (r & E & _).
  exists r. exact E.
Defined.

Lemma form_roundtrip_witness :
  exists form fs, @transform_multipart memchr_reference httparse_reference w_form_events (str "BB") w_limits
                    (Some (len w_form_body)) = Ready (Ok form) /\
    fields form = [(str "key", str "k1")] /\ stream (file form) = Some fs /\ content_len fs = Some 6%Z.
Proof.
  destruct (@form_roundtrip memchr_reference httparse_reference w_form_events (str "BB") [] [] w_limits [w_field]
    [(str "Key", str "k1")] w_file {| cd_name := Some (str "file"); cd_file_name := Some (str "f"); meta_content_type := None |}
    (str "file") (Some (len w_form_body))) as (form & fs & E & Hf & _ & _ & Hs & Hc & _).
  - reflexivity.
  - reflexivity.
  - reflexivity.
  - repeat constructor; try (by vm_compute).
    + eexists. split; [vm_compute; reflexivity|]. split; [vm_compute; reflexivity|]. constructor; [|constructor]. vm_compute. done.
    + eexists. split; [vm_compute; reflexivity|]. split; [vm_compute; reflexivity|]. constructor; [|constructor]. vm_compute. done.
  - repeat constructor; try (by vm_compute). eexists. split; [vm_compute; reflexivity|reflexivity].
  - repeat split; by vm_compute.
  - exact w_limits_ok.
  - reflexivity.
  - discriminate.
  - vm_compute. reflexivity.
  - vm_compute. reflexivity.
  - by_decide.
  - right. vm_compute. reflexivity.
  - exists form, fs. split; [exact E|]. split; [rewrite Hf; reflexivity|]. split; [exact Hs|exact Hc].
Defined.
