(* ===== verification/PostPolicy.v ===== *)
(** * POST policies (crates/s3s/src/post_policy.rs; the POST object part of crates/s3s/src/ops/mod.rs)

    The policy document of a browser upload: its parser, the conditions, and the handler that
    enforces them on a form before the upload is handed to the application.  Errors of a request
    are their S3 codes. *)

From S2P Require Import Prelude.
From S2P Require Import Str.
From S2P Require Import OrderedQs.
From S2P Require Import ErrorCode.
From S2P Require Import Authorization.
From S2P Require Import Poll.
From S2P Require Import Stream.
From S2P Require Import MultipartBuffer.
From S2P Require Import Multipart.
From S2P Require Import Form.

(** ** Data *)

Inductive PostPolicyCondition :=
| CondEq (field value : bytes)
| StartsWith (field prefix : bytes)
| ContentLengthRange (min max : Z).

(** The expiration is a point in time, in nanoseconds since the epoch. *)
Record PostPolicy := { expiration : Z; conditions : list PostPolicyCondition }.

(** The causes inside the wrapped errors of other crates are left out. *)
Inductive PostPolicyError :=
| PpBase64 | PpUtf8 | PpJson
| InvalidCondition
| InvalidExpiration (s : bytes).

(** [serde_json::Value]; a number is what [as_u64] says of it, and an object keeps its entries
    in the order of the text. *)
Inductive json :=
| JNull
| JBool (b : bool)
| JNumber (as_u64 : option N)
| JString (s : bytes)
| JArray (items : list json)
| JObject (entries : list (bytes * json)).

Inductive RawCondition :=
| RcArray (items : list json)
| RcObject (map : list (bytes * bytes)).

Record RawPostPolicy := { raw_expiration : bytes; raw_conditions : list RawCondition }.

Class PolicyDeps := {
  policy_auth :: AuthDeps;
  (** the syntax of [serde_json::from_str] *)
  serde_json_value : bytes -> option json;
  (** [time::OffsetDateTime::parse(s, &Rfc3339)] *)
  rfc3339_parse : bytes -> option Z
}.

(** ** Parsing *)

Definition as_string (j : json) : option bytes := match j with JString s => Some s | _ => None end.
Definition as_u64 (j : json) : option Z := match j with JNumber n => Z.of_N <$> n | _ => None end.

(** [HashMap::insert] *)
Fixpoint map_insert (k v : bytes) (m : list (bytes * bytes)) : list (bytes * bytes) :=
  match m with
  | [] => [(k, v)]
  | (k', v') :: m' => if k' =? k then (k, v) :: m' else (k', v') :: map_insert k v m'
  end.

(** [visit_map]: every value must be a string. *)
Fixpoint visit_map (items : list (bytes * bytes)) (entries : list (bytes * json)) : option (list (bytes * bytes)) :=
  match entries with
  | [] => Some items
  | (k, j) :: rest => v ← as_string j; visit_map (map_insert k v items) rest
  end.

Definition RawCondition_deserialize (j : json) : option RawCondition :=
  match j with
  | JArray items => Some (RcArray items)
  | JObject entries => RcObject <$> visit_map [] entries
  | _ => None
  end.

Definition deserialize_conditions (j : json) : option (list RawCondition) :=
  match j with JArray items => mapM RawCondition_deserialize items | _ => None end.

(** The derived [Deserialize]: both fields once, others ignored; or the two in an array. *)
Fixpoint visit_fields (e : option bytes) (c : option (list RawCondition)) (entries : list (bytes * json)) : option RawPostPolicy :=
  match entries with
  | [] => e ← e; c ← c; Some {| raw_expiration := e; raw_conditions := c |}
  | (k, j) :: rest =>
      if k =? str "expiration" then
        match e with Some _ => None | None => s ← as_string j; visit_fields (Some s) c rest end
      else if k =? str "conditions" then
        match c with Some _ => None | None => l ← deserialize_conditions j; visit_fields e (Some l) rest end
      else visit_fields e c rest
  end.

Definition RawPostPolicy_deserialize (j : json) : option RawPostPolicy :=
  match j with
  | JObject entries => visit_fields None None entries
  | JArray [e; c] =>
      s ← as_string e; l ← deserialize_conditions c; Some {| raw_expiration := s; raw_conditions := l |}
  | _ => None
  end.

Definition normalize_field_name (field : bytes) : bytes :=
  to_ascii_lowercase (default field (strip_prefix (str "$") field)).

Definition parse_array_condition (items : list json) : result PostPolicyError PostPolicyCondition :=
  match items with
  | [] => Err InvalidCondition
  | operator :: _ =>
      operator ← ok_or InvalidCondition (as_string operator);
      let operator := to_ascii_lowercase operator in
      if operator =? str "eq" then
        match items with
        | [_; field; value] =>
            field ← ok_or InvalidCondition (as_string field);
            value ← ok_or InvalidCondition (as_string value);
            Ok (CondEq (normalize_field_name field) value)
        | _ => Err InvalidCondition
        end
      else if operator =? str "starts-with" then
        match items with
        | [_; field; prefix] =>
            field ← ok_or InvalidCondition (as_string field);
            prefix ← ok_or InvalidCondition (as_string prefix);
            Ok (StartsWith (normalize_field_name field) prefix)
        | _ => Err InvalidCondition
        end
      else if operator =? str "content-length-range" then
        match items with
        | [_; min; max] =>
            min ← ok_or InvalidCondition (as_u64 min);
            max ← ok_or InvalidCondition (as_u64 max);
            if (max <? min)%Z then Err InvalidCondition else Ok (ContentLengthRange min max)
        | _ => Err InvalidCondition
        end
      else Err InvalidCondition
  end.

Definition parse_object_condition (map : list (bytes * bytes)) : result PostPolicyError PostPolicyCondition :=
  match map with
  | [(field, value)] => Ok (CondEq (normalize_field_name field) value)
  | _ => Err InvalidCondition
  end.

Definition into_condition (c : RawCondition) : result PostPolicyError PostPolicyCondition :=
  match c with
  | RcArray items => parse_array_condition items
  | RcObject map => parse_object_condition map
  end.

Fixpoint into_conditions (l : list RawCondition) : result PostPolicyError (list PostPolicyCondition) :=
  match l with
  | [] => Ok []
  | c :: l' => c ← into_condition c; rest ← into_conditions l'; Ok (c :: rest)
  end.

(** ** Conditions *)

Definition is_field_exempt_from_policy (name : bytes) : bool :=
  (name =? str "x-amz-signature") || (name =? str "signature") || (name =? str "awsaccesskeyid") ||
  (name =? str "file") || (name =? str "submit") || (name =? str "policy") ||
  starts_with (str "x-amz-server-side-encryption") name || starts_with (str "x-ignore-") name.

Definition has_condition_for_field (p : PostPolicy) (name : bytes) : bool :=
  existsb (fun c => match c with
                    | CondEq field _ | StartsWith field _ => field =? name
                    | ContentLengthRange _ _ => false
                    end) (conditions p).

Definition get_field_value (field : bytes) (multipart : Form) (url_bucket : option bytes) :
    result S3ErrorCode (option bytes) :=
  if field =? str "bucket" then
    let form_bucket := find_field_value multipart field in
    match url_bucket with
    | Some ub =>
        match form_bucket with
        | Some fb => if negb (fb =? ub) then Err InvalidPolicyDocument else Ok (Some ub)
        | None => Ok (Some ub)
        end
    | None => Ok form_bucket
    end
  else Ok (find_field_value multipart field).

Definition validate_condition (condition : PostPolicyCondition) (multipart : Form) (file_size : Z)
    (url_bucket : option bytes) : result S3ErrorCode unit :=
  match condition with
  | CondEq field value =>
      actual ← get_field_value field multipart url_bucket;
      if negb (actual =? Some value) then Err InvalidPolicyDocument else Ok tt
  | StartsWith field prefix =>
      actual ← get_field_value field multipart url_bucket;
      let actual_str := default [] actual in
      if negb (starts_with prefix actual_str) then Err InvalidPolicyDocument else Ok tt
  | ContentLengthRange min max =>
      if (max <? file_size)%Z then Err EntityTooLarge
      else if (file_size <? min)%Z then Err EntityTooSmall
      else Ok tt
  end.

Fixpoint validate_all (l : list PostPolicyCondition) (multipart : Form) (file_size : Z) (url_bucket : option bytes) :
    result S3ErrorCode unit :=
  match l with
  | [] => Ok tt
  | c :: l' => _ ← validate_condition c multipart file_size url_bucket; validate_all l' multipart file_size url_bucket
  end.

Fixpoint check_covered (p : PostPolicy) (l : list (bytes * bytes)) : result S3ErrorCode unit :=
  match l with
  | [] => Ok tt
  | (name, _) :: l' =>
      if is_field_exempt_from_policy name then check_covered p l'
      else if negb (has_condition_for_field p name) then Err AccessDenied
      else check_covered p l'
  end.

Definition validate_conditions_only (p : PostPolicy) (multipart : Form) (file_size : Z) (url_bucket : option bytes) :
    result S3ErrorCode unit :=
  _ ← validate_all (conditions p) multipart file_size url_bucket;
  check_covered p (fields multipart).

Fixpoint first_range (l : list PostPolicyCondition) : option (Z * Z) :=
  match l with
  | [] => None
  | ContentLengthRange min max :: _ => Some (min, max)
  | _ :: l' => first_range l'
  end.
Definition content_length_range (p : PostPolicy) : option (Z * Z) := first_range (conditions p).

Fixpoint first_eq (field : bytes) (l : list PostPolicyCondition) : option bytes :=
  match l with
  | [] => None
  | CondEq f value :: l' => if f =? field then Some value else first_eq field l'
  | _ :: l' => first_eq field l'
  end.
Definition eq_condition_value (p : PostPolicy) (field : bytes) : option bytes := first_eq field (conditions p).

Section Policy.
Context `{PolicyDeps}.

Definition from_json (json : bytes) : result PostPolicyError PostPolicy :=
  raw ← ok_or PpJson (j ← serde_json_value json; RawPostPolicy_deserialize j);
  expiration ← ok_or (InvalidExpiration (raw_expiration raw)) (rfc3339_parse (raw_expiration raw));
  conditions ← into_conditions (raw_conditions raw);
  Ok {| expiration := expiration; conditions := conditions |}.

Definition from_base64 (encoded : bytes) : result PostPolicyError PostPolicy :=
  decoded ← ok_or PpBase64 (base64_decode encoded);
  if utf8_valid decoded then from_json decoded else Err PpUtf8.

(** ** The POST object handler (ops/mod.rs) *)

Definition parse_post_policy (now : Z) (multipart : Form) : result S3ErrorCode (option PostPolicy) :=
  match find_field_value multipart (str "policy") with
  | None => Ok None
  | Some policy_b64 =>
      policy ← map_err (fun _ => InvalidPolicyDocument) (from_base64 policy_b64);
      if (expiration policy <=? now)%Z then Err AccessDenied else Ok (Some policy)
  end.

Definition post_object_max_file_size (policy : option PostPolicy) (config_max : Z) : Z :=
  match policy ≫= content_length_range with
  | Some (_, max) => Z.min max config_max
  | None => config_max
  end.

(** The stream handed on: the file itself, or its collected pieces. *)
Inductive PostStream := Forwarded (s : FileStream) | Collected (s : VecByteStream).

Context `{Memchr}.

Definition prepare_post_object_stream (file_stream : FileStream) (max_file_size : Z) :
    poll (result S3ErrorCode (PostStream * Z)) :=
  match content_len file_stream with
  | Some content_len =>
      Ready (if (max_file_size <? content_len)%Z then Err EntityTooLarge else Ok (Forwarded file_stream, content_len))
  | None =>
      match aggregate_file_stream_limited file_stream max_file_size with
      | Pending => Pending
      | Ready (Err (FileTooLarge _ _)) => Ready (Err EntityTooLarge)
      | Ready (Err _) => Ready (Err InvalidRequest)
      | Ready (Ok vec_bytes) =>
          let file_size := fold_left (fun n b => saturating_add n (len b)) vec_bytes 0%Z in
          Ready (Ok (Collected (VecByteStream_new vec_bytes), file_size))
      end
  end.

(** The form is changed in place; [None] is the panic of a missing file stream. *)
Definition resolve_post_object (now : Z) (bucket : bytes) (multipart : Form) (post_object_max : Z) :
    option (poll (Form * result S3ErrorCode (PostStream * option PostPolicy))) :=
  let multipart := substitute_key_filename multipart in
  match parse_post_policy now multipart with
  | Err e => Some (Ready (multipart, Err e))
  | Ok policy =>
      let max_file_size := post_object_max_file_size policy post_object_max in
      let '(multipart, file_stream) := take_file_stream multipart in
      file_stream ← file_stream;
      Some (match prepare_post_object_stream file_stream max_file_size with
            | Pending => Pending
            | Ready (Err e) => Ready (multipart, Err e)
            | Ready (Ok (post_stream, file_size)) =>
                match policy with
                | None => Ready (multipart, Ok (post_stream, None))
                | Some p =>
                    match validate_conditions_only p multipart file_size (Some bucket) with
                    | Err e => Ready (multipart, Err e)
                    | Ok _ => Ready (multipart, Ok (post_stream, Some p))
                    end
                end
            end)
  end.
End Policy.

(** ** The key of a form: lemmas *)

(** The lookup of a field looks at the names alone. *)
Lemma find_field_index_names l k name : map fst l = map fst k -> find_field_index l name = find_field_index k name.
Proof.
  intros E. unfold find_field_index.
  assert (Hp : partition_point (fun x => bytes_leb (fst x) name) l = partition_point (fun x => bytes_leb (fst x) name) k).
  { revert k E. induction l as [|x l IH]; intros [|y k] E; try done. injection E as Hxy E. simpl. rewrite Hxy.
    by destruct (bytes_leb (fst y) name); [rewrite (IH k)|]. }
  rewrite Hp. destruct (partition_point _ k) as [|idx]; [done|].
  assert (Hl : fst <$> (l !! idx) = fst <$> (k !! idx)) by (rewrite <- !list_lookup_fmap; f_equal; exact E).
  destruct (l !! idx) as [x|], (k !! idx) as [y|]; try done. injection Hl as Hl. cbn [mbind option_bind]. by rewrite Hl.
Qed.

Lemma find_field_index_name l name idx : find_field_index l name = Some idx -> exists v, l !! idx = Some (name, v).
Proof.
  unfold find_field_index. destruct (partition_point _ l) as [|i]; [done|]. intros (p & Hp & E)%bind_Some.
  case_bool_decide as Hn; [|done]. injection E as <-. destruct p as [n v]. simpl in Hn. subst n. eauto.
Qed.

(** Only the key changes: its file name variables are replaced. *)
Lemma substitute_key_spec form name :
  find_field_value (substitute_key_filename form) name =
  (if name =? str "key" then
     fun key => if contains FILENAME_VARIABLE key then replace FILENAME_VARIABLE (fl_name (file form)) key else key
   else fun v => v) <$> find_field_value form name.
Proof.
  unfold find_field_value, substitute_key_filename.
  assert (Hid : forall (o : option bytes), (fun v : bytes => v) <$> o = o) by by intros [].
  destruct (find_field_index (fields form) (str "key")) as [i|] eqn:Ei.
  2:{ case_bool_decide as En; [subst name; by rewrite Ei|by rewrite Hid]. }
  pose proof (find_field_index_name _ _ _ Ei) as [key Hi]. rewrite Hi. destruct (contains FILENAME_VARIABLE key) eqn:Ec.
  - cbn [fields]. rewrite (find_field_index_names _ (fields form)).
    2:{ rewrite list_fmap_insert. apply list_insert_id. by rewrite list_lookup_fmap, Hi. }
    case_bool_decide as En.
    + subst name. rewrite Ei. cbn [mbind option_bind]. rewrite list_lookup_insert_eq by by eapply lookup_lt_Some. rewrite Hi.
      cbn [fmap option_fmap option_map snd]. by rewrite Ec.
    + rewrite Hid. destruct (find_field_index (fields form) name) as [j|] eqn:Ej; [|done]. cbn [mbind option_bind].
      rewrite list_lookup_insert_ne; [done|]. intros ->. apply find_field_index_name in Ej as [v Hj]. congruence.
  - case_bool_decide as En; [|by rewrite Hid]. subst name. rewrite Ei. cbn [mbind option_bind]. rewrite Hi.
    cbn [fmap option_fmap option_map snd]. by rewrite Ec.
Qed.

(** ** Conditions: the reference *)

(** The value a condition is about: the bucket of the URL stands for the bucket field. *)
Definition effective (form : Form) (url_bucket : option bytes) (field : bytes) : option bytes :=
  if field =? str "bucket" then
    match url_bucket with Some b => Some b | None => find_field_value form field end
  else find_field_value form field.

(** A bucket field, if there is one, is the bucket of the URL. *)
Definition bucket_agrees (form : Form) (url_bucket : option bytes) : Prop :=
  forall ub fb, url_bucket = Some ub -> find_field_value form (str "bucket") = Some fb -> fb = ub.

Definition holds (form : Form) (file_size : Z) (url_bucket : option bytes) (c : PostPolicyCondition) : Prop :=
  match c with
  | CondEq field value => (field = str "bucket" -> bucket_agrees form url_bucket) /\ effective form url_bucket field = Some value
  | StartsWith field prefix => (field = str "bucket" -> bucket_agrees form url_bucket) /\
      exists rest, default [] (effective form url_bucket field) = prefix ++ rest
  | ContentLengthRange min max => (min <= file_size <= max)%Z
  end.

(** The fields that need no condition. *)
Definition exempt (name : bytes) : Prop :=
  name ∈ [str "x-amz-signature"; str "signature"; str "awsaccesskeyid"; str "file"; str "submit"; str "policy"] \/
  exists rest, name = str "x-amz-server-side-encryption" ++ rest \/ name = str "x-ignore-" ++ rest.

Definition covered (p : PostPolicy) (name : bytes) : Prop :=
  exempt name \/
  exists c, c ∈ conditions p /\ match c with CondEq f _ | StartsWith f _ => f = name | ContentLengthRange _ _ => False end.

Lemma get_field_value_spec field form url_bucket v :
  get_field_value field form url_bucket = Ok v <->
  (field = str "bucket" -> bucket_agrees form url_bucket) /\ effective form url_bucket field = v.
Proof.
  unfold get_field_value, effective, bucket_agrees. case_bool_decide as Ef; [subst field|].
  - destruct url_bucket as [ub|]; [|split; [intros [= <-]|intros [_ <-]]; naive_solver].
    destruct (find_field_value form (str "bucket")) as [fb|] eqn:Eb.
    + case_bool_decide as En; cbn [negb]; [subst fb|]; split; naive_solver.
    + split; [intros [= <-]|intros [_ <-]]; naive_solver.
  - split; [intros [= <-]|intros [_ <-]]; naive_solver.
Qed.

Lemma validate_condition_iff c form size ub :
  validate_condition c form size ub = Ok tt <-> holds form size ub c.
Proof.
  destruct c as [field value|field prefix|min max]; cbn [validate_condition holds].
  - destruct (get_field_value field form ub) as [v|e] eqn:E; cbn [mbind result_bind].
    + apply get_field_value_spec in E as [Hb ->]. case_bool_decide; cbn [negb]; split; naive_solver.
    + split; [done|]. intros [Hb Hv]. pose proof (proj2 (get_field_value_spec field form ub (Some value)) (conj Hb Hv)). congruence.
  - destruct (get_field_value field form ub) as [v|e] eqn:E; cbn [mbind result_bind].
    + apply get_field_value_spec in E as [Hb ->]. rewrite <- starts_with_true.
      destruct (starts_with prefix _); cbn [negb]; split; naive_solver.
    + split; [done|]. intros [Hb Hv].
      pose proof (proj2 (get_field_value_spec field form ub _) (conj Hb eq_refl)). congruence.
  - destruct (max <? size)%Z eqn:E1; reflect_bools; [split; [done|lia]|].
    destruct (size <? min)%Z eqn:E2; reflect_bools; split; done || lia.
Qed.

Lemma validate_all_iff l form size ub : validate_all l form size ub = Ok tt <-> Forall (holds form size ub) l.
Proof.
  induction l as [|c l IH]; cbn [validate_all]; [by split|]. rewrite Forall_cons, <- IH, <- validate_condition_iff.
  destruct (validate_condition c form size ub) as [[]|e]; cbn [mbind result_bind]; split; naive_solver.
Qed.

Lemma has_condition_spec p name :
  has_condition_for_field p name = true <->
  exists c, c ∈ conditions p /\ match c with CondEq f _ | StartsWith f _ => f = name | ContentLengthRange _ _ => False end.
Proof.
  unfold has_condition_for_field. rewrite existsb_exists. setoid_rewrite <- list_elem_of_In.
  split; intros (c & Hc & Hn); exists c; (split; [done|]); destruct c; by rewrite ?bool_decide_eq_true in *.
Qed.

Lemma exempt_iff name : is_field_exempt_from_policy name = true <-> exempt name.
Proof.
  unfold is_field_exempt_from_policy, exempt. rewrite !orb_true_iff, !bool_decide_eq_true, !starts_with_true, !elem_of_cons, elem_of_nil. naive_solver.
Qed.

Lemma check_covered_iff p l : check_covered p l = Ok tt <-> Forall (fun f => covered p (fst f)) l.
Proof.
  induction l as [|[name v] l IH]; cbn [check_covered]; [by split|]. rewrite Forall_cons, <- IH. unfold covered. cbn [fst].
  pose proof (exempt_iff name) as He. destruct (is_field_exempt_from_policy name); [naive_solver|].
  pose proof (has_condition_spec p name) as Hs. destruct (has_condition_for_field p name); cbn [negb]; split; try naive_solver.
Qed.

(** A form passes a policy exactly when every condition holds of it and every field that is
    not exempt has a condition. *)
Lemma validate_iff p form size ub :
  validate_conditions_only p form size ub = Ok tt <->
  Forall (holds form size ub) (conditions p) /\ Forall (fun f => covered p (fst f)) (fields form).
Proof.
  unfold validate_conditions_only. rewrite <- validate_all_iff, <- check_covered_iff.
  destruct (validate_all _ form size ub) as [[]|e]; cbn [mbind result_bind]; naive_solver.
Qed.

(** ** The handler: lemmas *)

Section Handler.
Context `{PolicyDeps} `{Memchr}.

(** The size of what is handed on. *)
Definition post_size (s : PostStream) : Z :=
  match s with Forwarded fs => default 0%Z (content_len fs) | Collected v => remaining_bytes v end.

Lemma aggregate_spec fs max :
  (0 <= max)%Z ->
  exists r, aggregate_file_stream_limited fs max = Ready r /\
    forall v, r = Ok v -> (fold_left (fun n b => saturating_add n (len b)) v 0%Z <= max)%Z.
Proof.
  intros Hm. unfold aggregate_file_stream_limited.
  destruct (each_ready fs_work FileStream_poll_next (fun e => Underlying (OfFile e)) (aggregate_step max) fs ([], 0%Z) file_polls_down)
    as ([s acc] & r & E). rewrite E. eexists. split; [done|]. intros v Hv. destruct r as [[l n]|e]; [|done]. injection Hv as <-.
  apply (each_inv fs_work FileStream_poll_next (fun e => Underlying (OfFile e)) (aggregate_step max)
    (fun a => fold_left (fun n b => saturating_add n (len b)) (fst a) 0%Z = snd a /\ (snd a <= max)%Z)) in E.
  - destruct E as [Hf Hle]. cbn [fst snd] in *. by rewrite Hf.
  - apply file_polls_down.
  - intros a d a' [Ha _]. unfold aggregate_step. destruct (max <? _)%Z eqn:E1; [done|]. reflect_bools. intros [= <-]. cbn [fst snd].
    by rewrite fold_left_app, Ha.
  - done.
Qed.

Lemma prepare_spec fs max :
  (0 <= max)%Z ->
  exists r, prepare_post_object_stream fs max = Ready r /\
    forall s n, r = Ok (s, n) -> (n <= max)%Z /\ post_size s = n /\ match s with Forwarded fs' => fs' = fs | Collected _ => content_len fs = None end.
Proof.
  intros Hm. unfold prepare_post_object_stream. destruct (content_len fs) as [n0|] eqn:Ec.
  - eexists. split; [done|]. intros s n. destruct (max <? n0)%Z eqn:E; [done|]. reflect_bools. intros [= <- <-]. simpl. by rewrite Ec.
  - destruct (aggregate_spec fs max Hm) as (r & -> & Hr). destruct r as [v|[]]; eexists; (split; [done|]); try done.
    intros s n [= <- <-]. split; [by apply Hr|]. by split.
Qed.

Lemma post_max_le policy config_max : (post_object_max_file_size policy config_max <= config_max)%Z.
Proof. unfold post_object_max_file_size. destruct (policy ≫= content_length_range) as [[]|]; lia. Qed.

Definition policy_ranges_ok (p : PostPolicy) : Prop :=
  forall min max, ContentLengthRange min max ∈ conditions p -> (0 <= max)%Z.

Lemma first_range_in l r : first_range l = Some r -> ContentLengthRange (fst r) (snd r) ∈ l.
Proof.
  induction l as [|c l IH]; [done|]. destruct c; cbn [first_range]; [right; by apply IH..|]. intros [= <-]. left.
Qed.

Lemma post_max_nonneg policy config_max :
  (0 <= config_max)%Z -> (forall p, policy = Some p -> policy_ranges_ok p) ->
  (0 <= post_object_max_file_size policy config_max)%Z.
Proof.
  intros Hc Hp. unfold post_object_max_file_size. destruct policy as [p|]; [|done]. cbn [mbind option_bind].
  unfold content_length_range. destruct (first_range (conditions p)) as [[min max]|] eqn:E; [|done].
  apply first_range_in in E. apply (Hp p eq_refl) in E. simpl in E. lia.
Qed.

Lemma into_conditions_ranges l cs :
  into_conditions l = Ok cs -> forall min max, ContentLengthRange min max ∈ cs -> (0 <= max)%Z.
Proof.
  revert cs. induction l as [|r l IH]; cbn [into_conditions]; intros cs E min max Hin.
  { injection E as <-. by apply elem_of_nil in Hin. }
  destruct (into_condition r) as [c|] eqn:Ec; [|done]. destruct (into_conditions l) as [cs'|] eqn:Es; [|done].
  injection E as <-. apply elem_of_cons in Hin as [<-|Hin]; [|by eapply IH].
  destruct r as [items|m]; cbn [into_condition] in Ec; [|by destruct m as [|[] []]].
  unfold parse_array_condition in Ec. destruct items as [|op items]; [done|]. invert_ok.
  destruct items as [|a [|b [|]]]; repeat case_test; invert_ok; try done.
  destruct (_ <? _)%Z; [done|]. simplify_eq. destruct b as [| |[n|]| | |]; try done. simpl in *. simplify_eq. lia.
Qed.

Lemma from_base64_ranges s p : from_base64 s = Ok p -> policy_ranges_ok p.
Proof.
  unfold from_base64, from_json. intros E. invert_ok. case_test; [|done]. invert_ok. subst p.
  intros min max. by eapply into_conditions_ranges.
Qed.
End Handler.

Lemma resolve_post_ready `{PolicyDeps} `{Memchr} now bucket form config_max :
  is_some (stream (file form)) = true -> (0 <= config_max)%Z ->
  exists r, resolve_post_object now bucket form config_max = Some (Ready r).
Proof.
  intros Hs Hc. unfold resolve_post_object.
  assert (Hfs : stream (file (substitute_key_filename form)) = stream (file form)).
  { unfold substitute_key_filename. repeat case_match; done. }
  destruct (parse_post_policy now (substitute_key_filename form)) as [policy|e] eqn:Ep; [|by eexists].
  unfold take_file_stream. rewrite Hfs. destruct (stream (file form)) as [fs|]; [|done]. cbn [mbind option_bind].
  destruct (prepare_spec fs (post_object_max_file_size policy config_max)) as (r & -> & _).
  { apply post_max_nonneg; [done|]. intros q ->. unfold parse_post_policy in Ep.
    destruct (find_field_value _ _); [|done]. destruct (from_base64 _) as [p|] eqn:Eb; [|done]. cbn [map_err mbind result_bind] in Ep.
    destruct (_ <=? _)%Z; [done|]. injection Ep as <-. by eapply from_base64_ranges. }
  destruct r as [[post n]|e]; [|by eexists]. destruct policy; [|by eexists]. case_match; by eexists.
Qed.

(** ** Properties *)

Lemma resolve_post_facts `{PolicyDeps} `{Memchr} (now : Z) (bucket : bytes) (form : Form)
    (fs : FileStream) (config_max : Z) :
  stream (file form) = Some fs -> (0 <= config_max)%Z ->
  exists form' r, resolve_post_object now bucket form config_max = Some (Ready (form', r)) /\
    (forall name, find_field_value form' name =
       (if name =? str "key" then
          fun key => if contains FILENAME_VARIABLE key then replace FILENAME_VARIABLE (fl_name (file form)) key else key
        else fun v => v) <$> find_field_value form name) /\
    forall post policy, r = Ok (post, policy) ->
      (post_size post <= config_max)%Z /\
      match find_field_value form (str "policy") with
      | None => policy = None
      | Some text => exists p, policy = Some p /\ from_base64 text = Ok p /\ (now < expiration p)%Z /\
          Forall (holds form' (post_size post) (Some bucket)) (conditions p) /\
          Forall (fun f => covered p (fst f)) (fields form')
      end.
Proof.
  intros Hs Hc. pose proof (substitute_key_spec form) as Hsub. set (form1 := substitute_key_filename form) in *.
  assert (Hfs : stream (file form1) = Some fs).
  { unfold form1, substitute_key_filename. repeat case_match; done. }
  assert (Htake : forall name, find_field_value (fst (take_file_stream form1)) name = find_field_value form1 name) by done.
  unfold resolve_post_object. fold form1. unfold parse_post_policy. rewrite (Hsub (str "policy")).
  rewrite (bool_decide_eq_false_2 (str "policy" = str "key")) by done.
  replace ((fun v : bytes => v) <$> find_field_value form (str "policy")) with (find_field_value form (str "policy"))
    by by destruct (find_field_value form (str "policy")).
  destruct (find_field_value form (str "policy")) as [text|].
  - destruct (from_base64 text) as [p|e] eqn:Ep; cbn [map_err mbind result_bind]; [|by eexists _, _; split; [done|]].
    destruct (expiration p <=? now)%Z eqn:Ex; [by eexists _, _; split; [done|]|]. reflect_bools. unfold take_file_stream.
    rewrite Hfs. cbn [mbind option_bind].
    destruct (prepare_spec fs (post_object_max_file_size (Some p) config_max)) as (r & -> & Hr).
    { apply post_max_nonneg; [done|]. intros q [= <-]. by eapply from_base64_ranges. }
    destruct r as [[post n]|e]; [|by eexists _, _; split; [done|]]. destruct (Hr post n eq_refl) as (Hn & Hps & _).
    set (form2 := {| fields := fields form1; file := _ |}).
    destruct (validate_conditions_only p form2 n (Some bucket)) as [[]|e] eqn:Ev; eexists _, _; (split; [done|]); (split; [exact Hsub|]); [|done].
    intros post' policy [= <- <-]. split; [pose proof (post_max_le (Some p) config_max); lia|].
    apply validate_iff in Ev as [Hh Hcov]. exists p. rewrite Hps. by split_and!.
  - cbn [mbind option_bind]. unfold take_file_stream. rewrite Hfs. cbn [mbind option_bind].
    destruct (prepare_spec fs (post_object_max_file_size None config_max)) as (r & -> & Hr); [by apply post_max_nonneg|].
    destruct r as [[post n]|e]; eexists _, _; (split; [done|]); (split; [exact Hsub|]); [|done].
    intros post' policy [= <- <-]. destruct (Hr post n eq_refl) as (Hn & Hps & _). split; [pose proof (post_max_le None config_max); lia|done].
Qed.

(** C18: a POST upload with a policy is handed on only as the policy allows.  The handler always ends
    and never panics on a form that carries its file.  When it succeeds on a form with a policy
    field, the policy was parsed from that field and has not expired, every condition of it holds of
    the form, after the file name is put into the key and with the bucket of the URL, and every field
    has a condition unless it is exempt: the policy, the fields of the signature, file, submit, and
    those whose name starts with x-amz-server-side-encryption or x-ignore-.  A form without a policy
    field goes on without one.  In any case the upload is no larger than the server allows, and its
    size is the one the conditions were checked against. *)
Theorem post_policy_enforced `{PolicyDeps} `{Memchr} (now : Z) (bucket : bytes) (form : Form)
    (fs : FileStream) (config_max : Z) :
  stream (file form) = Some fs -> (0 <= config_max)%Z ->
  exists form' r, resolve_post_object now bucket form config_max = Some (Ready (form', r)) /\
    (forall name, find_field_value form' name =
       (if name =? str "key" then
          fun key => if contains FILENAME_VARIABLE key then replace FILENAME_VARIABLE (fl_name (file form)) key else key
        else fun v => v) <$> find_field_value form name) /\
    forall post policy, r = Ok (post, policy) ->
      (post_size post <= config_max)%Z /\
      match find_field_value form (str "policy") with
      | None => policy = None
      | Some text => exists p, policy = Some p /\ from_base64 text = Ok p /\ (now < expiration p)%Z /\
          Forall (holds form' (post_size post) (Some bucket)) (conditions p) /\
          Forall (fun f => covered p (fst f)) (fields form')
      end.
Proof. apply resolve_post_facts. Qed.

(** A policy that allows keys under [u/] and files of up to ten bytes, in a form for it. *)
Definition toy_policy_json : json :=
  JObject [(str "expiration", JString (str "t"));
           (str "conditions", JArray [JObject [(str "bucket", JString (str "b"))];
                                      JArray [JString (str "starts-with"); JString (str "$key"); JString (str "u/")];
                                      JArray [JString (str "content-length-range"); JNumber (Some 0%N); JNumber (Some 10%N)]])].

Definition toy_policy_deps : PolicyDeps.
Proof.
  refine {| policy_auth := {| auth_nom := Nom.nom_reference; auth_sig := SigV4.toy_deps; jiff_date_ok := fun _ _ _ => true;
                              base64_decoded_length := fun _ => None; base64_decode := Some |};
            serde_json_value := fun s => if s =? str "doc" then Some toy_policy_json else None;
            rfc3339_parse := fun _ => Some 100%Z |}.
  done.
Defined.

Definition w_upload (key : bytes) : Form :=
  {| fields := [(str "key", key); (str "policy", str "doc")];
     file := {| fl_name := str "f"; content_type := None;
                stream := Some (FileStream_from_owned (MultipartData.FinalPartDataStream_new (StreamBuffer_new []) (make_delimiter (str "B")) 0 false false)
                                  (Some 4%Z)) |} |}.

Lemma post_policy_enforced_witness :
  exists form' post p, @resolve_post_object toy_policy_deps memchr_reference 5 (str "b") (w_upload (str "u/${filename}")) 50 =
      Some (Ready (form', Ok (post, Some p))) /\
    find_field_value form' (str "key") = Some (str "u/f") /\ (post_size post <= 50)%Z.
Proof.
  destruct (@post_policy_enforced toy_policy_deps memchr_reference 5 (str "b") (w_upload (str "u/${filename}"))
    (default (FileStream_from_owned (MultipartData.FinalPartDataStream_new (StreamBuffer_new []) [] 0 false false) None)
       (stream (file (w_upload []))))
    50 eq_refl ltac:(discriminate)) as (form' & r & E & Hkey & Hr).
  assert (Er : exists post p, r = Ok (post, Some p)).
  { vm_compute in E. apply (inj Some) in E. injection E as _ E. eexists _, _. symmetry. exact E. }
  destruct Er as (post & p & Er). exists form', post, p. split; [rewrite E, Er; reflexivity|].
  split; [rewrite Hkey; vm_compute; reflexivity|]. exact (proj1 (Hr post (Some p) Er)).
Defined.
