(* ===== verification/Blob.v ===== *)
(** * Streaming blobs (crates/s3s/src/dto/streaming_blob.rs)

    The payload of a streaming operation: bytes in memory, or a boxed stream.  A boxed stream is
    a [DynByteStream]: what its polls will answer.  [boxed] makes one of a stream that is polled,
    and reading it is reading that stream. *)

From S2P Require Import Prelude.
From S2P Require Import Str.
From S2P Require Import AmzDate.
From S2P Require Import Poll.
From S2P Require Import Stream.
From S2P Require Import Body.
From S2P Require Import Form.
From S2P Require Import PostPolicy.

(** ** Boxed streams *)

Section Boxed.
Context {S E : Type} (work : S -> nat) (poll_next : pollm S (option (result E bytes))).
Context (message : E -> bytes) (remaining_length : S -> RemainingLength).

(** What the polls of a stream answer, up to its end or first error; a poll that does not end it
    uses up [work], so the fuel is enough. *)
Fixpoint stream_items (fuel : nat) (s : S) : list answer :=
  match fuel with
  | 0 => []
  | Datatypes.S fuel' =>
      match poll_next s with
      | (s', Pending) => Wait :: stream_items fuel' s'
      | (s', Ready (Some (Ok data))) => Next (Ok data) :: stream_items fuel' s'
      | (_, Ready (Some (Err e))) => [Next (Err (message e))]
      | (_, Ready None) => []
      end
  end.

(** The length left is that of the stream after as many polls as answers were taken. *)
Definition boxed (s : S) : DynByteStream :=
  let items := stream_items (Datatypes.S (work s)) s in
  {| Body.items := items;
     ds_remaining_length := fun rest =>
       remaining_length (Nat.iter (length items - length rest) (fun s => fst (poll_next s)) s) |}.

Definition item_frames (l : list answer) : list frame_answer :=
  map (fun a => match a with Wait => FWait | Next r => FNext (Data <$> r) end) l.

(** Reading the box is reading the stream. *)
Lemma boxed_read s : polls_down work poll_next ->
  exists s' l r, drain work poll_next s = ((s', l), Ready r) /\
    body_read (dyn_stream (boxed s)) = (l, Source ∘ message <$> r).
Proof.
  intros Hdown.
  destruct (drain_ind work poll_next (fun _ => True)
    (fun s l r _ => forall fuel, work s < fuel ->
       frame_read None (item_frames (stream_items fuel s)) = (l, Source ∘ message <$> r)))
    with (s := s) as (s' & l & r & E0 & Hr); [exact Hdown| |done|].
  - clear s. intros s _. pose proof (fun s' o => Hdown s s' o) as Hd.
    destruct (poll_next s) as [s' [[[d|e]|]|]] eqn:Ep; specialize (Hd _ _ eq_refl); cbn beta iota in Hd.
    + split; [done|]. intros l r s1 Hr [|fuel] Hf; [lia|]. cbn [stream_items]. rewrite Ep.
      change (item_frames (Next (Ok d) :: ?k)) with (FNext (Ok (Data d)) :: item_frames k). cbn [frame_read].
      by rewrite (Hr fuel) by lia.
    + intros [|fuel] Hf; [lia|]. cbn [stream_items]. by rewrite Ep.
    + intros [|fuel] Hf; [lia|]. cbn [stream_items]. by rewrite Ep.
    + split; [done|]. intros l r s1 Hr [|fuel] Hf; [lia|]. cbn [stream_items]. rewrite Ep.
      change (item_frames (Wait :: ?k)) with (FWait :: item_frames k). cbn [frame_read]. apply Hr. lia.
  - exists s', l, r. split; [exact E0|]. rewrite body_read_eq. apply Hr. lia.
Qed.
End Boxed.

(** ** Blobs *)

Inductive StreamingBlob := BlobOnce (bytes : bytes) | BlobStream (stream : DynByteStream).

Definition from_bytes (bytes : bytes) : StreamingBlob := BlobOnce bytes.

(** [From<Body> for StreamingBlob]: the body as a stream of its data *)
Definition blob_of_body (b : Body) : StreamingBlob :=
  BlobStream (boxed body_work Body_poll_next BodyError_to_string Body_remaining_length b).

Definition FileStreamError_to_string (e : FileStreamError) : bytes :=
  match e with
  | Incomplete => str "FileStreamError: Incomplete"
  | FileUnderlying source => str "FileStreamError: Underlying: " ++ source
  | InvalidTrailer => str "FileStreamError: InvalidTrailer"
  | LengthMismatch remaining => str "FileStreamError: LengthMismatch: " ++ fmt_dec remaining ++ str " bytes remaining"
  end.

Definition file_remaining (fs : FileStream) : RemainingLength :=
  match FileStream_remaining_length fs with Some n => new_exact n | None => unknown end.

(** The file of a POST form, boxed where the form is dispatched. *)
Definition post_stream `{MultipartBuffer.Memchr} (s : PostStream) : DynByteStream :=
  match s with
  | Forwarded fs => boxed fs_work FileStream_poll_next FileStreamError_to_string file_remaining fs
  | Collected v =>
      {| Body.items := map (fun b => Next (Ok b)) (queue v);
         ds_remaining_length := fun rest => new_exact (len (concat (drop (length (queue v) - length rest) (queue v)))) |}
  end.

(** [From<DynByteStream> for StreamingBlob] *)
Definition blob_of_stream (s : DynByteStream) : StreamingBlob := BlobStream s.

Definition into_body (self : StreamingBlob) : Body :=
  match self with
  | BlobOnce bytes => once bytes
  | BlobStream stream => dyn_stream stream
  end.

Definition Blob_poll_next (self : StreamingBlob) : StreamingBlob * poll (option (result bytes bytes)) :=
  match self with
  | BlobOnce bytes => (BlobOnce [], if bytes =? [] then Ready None else Ready (Some (Ok bytes)))
  | BlobStream stream => let '(stream, p) := dyn_poll_next stream in (BlobStream stream, p)
  end.

Definition Blob_remaining_length (self : StreamingBlob) : RemainingLength :=
  match self with
  | BlobOnce bytes => new_exact (len bytes)
  | BlobStream stream => ds_remaining_length stream (items stream)
  end.

(** What a reader of the blob gets: its data, and the error it ends with. *)
Definition blob_read (b : StreamingBlob) : list bytes * option BodyError := body_read (into_body b).

(** Reading the blob of a body is reading the body. *)
Lemma blob_of_body_read b : blob_read (blob_of_body b) =
  (fst (body_read b), Source ∘ BodyError_to_string <$> snd (body_read b)).
Proof.
  unfold blob_read, blob_of_body, into_body.
  destruct (boxed_read body_work Body_poll_next BodyError_to_string Body_remaining_length b body_polls_down) as (s' & l & r & E & ->).
  unfold body_read. by rewrite E.
Qed.
