(* ===== verification/SignatureCheck.v ===== *)
(** * Checking the signature of a request (crates/s3s/src/ops/signature.rs, auth/signature.rs,
      the header lookups of http/mod.rs)

    Decides whether a request is authenticated, by which access key, and which body the
    handlers may read: Signature Version 4 and 2, each by header, presigned URL or POST form.
    The checks compose the parsers, the canonical requests, the POST form and the streams of
    the other files.

    A check is a handler of the [SignatureContext].  The clock is read once in each check and is the parameter [now], in
    nanoseconds; the configuration is one snapshot for the whole check. *)

From S2P Require Import Prelude.
From S2P Require Import Str.
From S2P Require Import OrderedQs.
From S2P Require Import ErrorCode.
From S2P Require Import Handler.
From S2P Require Import AmzDate.
From S2P Require Import SigV4.
From S2P Require Import Nom.
From S2P Require Import ChunkedStream.
From S2P Require Import Authorization.
From S2P Require Import SigV2.
From S2P Require Import Poll.
From S2P Require Import Stream.
From S2P Require Import Body.
From S2P Require Import MultipartBuffer.
From S2P Require Import MultipartData.
From S2P Require Import Multipart.
From S2P Require Import ContentDisposition.
From S2P Require Import Form.
From S2P Require Import PostPolicy.

(** ** What the checks use of other crates *)

Class CheckDeps := {
  check_sig2 :: Sig2Deps;
  check_body :: BodyDeps;
  check_memchr :: Memchr;
  check_httparse :: Httparse;
  (** [str::parse::<HeaderName>] and [HeaderValue::from_str] of the [http] crate *)
  http_header_name : bytes -> option bytes;
  http_header_value : bytes -> option bytes;
  (** [serde_json::from_str] and [OffsetDateTime::parse] *)
  check_json : bytes -> option json;
  check_rfc3339 : bytes -> option Z;
  (** [PrimitiveDateTime::parse(s, RFC1123)], in seconds since the epoch *)
  rfc1123_parse : bytes -> option Z;
  (** [jiff]: the timestamp of a calendar date and time, in seconds since the epoch *)
  jiff_timestamp : Z -> Z -> Z -> Z -> Z -> Z -> option Z;
  (** [(now - date).to_duration(days_are_24_hours())], in nanoseconds *)
  jiff_duration_since : Z -> Z -> option Z;
  jiff_duration_since_spec : forall now date d, jiff_duration_since now date = Some d -> d = (now - date)%Z
}.

(** The dependencies of the POST policies and of the chunked streams. *)
Definition check_policy_deps `{CheckDeps} : PolicyDeps :=
  {| policy_auth := sig2_auth; serde_json_value := check_json; rfc3339_parse := check_rfc3339 |}.
Definition check_chunk_deps `{CheckDeps} : ChunkedStream.ChunkDeps :=
  {| ChunkedStream.chunk_sig_deps := auth_sig; ChunkedStream.chunk_nom := auth_nom;
     ChunkedStream.parse_header_name := http_header_name; ChunkedStream.header_value_from_str := http_header_value |}.

(** ** Header lookups (http/mod.rs) *)

(** A [HeaderMap] is the list its iterator yields: names in lower case, values as bytes. *)
Abbreviation HeaderMap := (list (bytes * bytes)) (only parsing).

(** [headers.get_all(name)]: the name is put in lower case. *)
Definition header_get_all (hs : HeaderMap) (name : bytes) : list bytes :=
  map snd (List.filter (fun h => fst h =? to_ascii_lowercase name) hs).

Definition header_value_to_str (value : bytes) : option bytes := if utf8_valid value then Some value else None.

Definition get_unique_header_str (headers : HeaderMap) (name : bytes) : option bytes :=
  match header_get_all headers name with
  | [] => None
  | value :: rest => match rest with _ :: _ => None | [] => header_value_to_str value end
  end.

(** ** Signatures (auth/signature.rs) *)

Definition Signature : Type := bytes.

Definition from_hex (value : bytes) : option Signature := if is_sha256_checksum value then Some value else None.

Section Signatures.
Context `{Sig2Deps}.

Definition Signature_from_base64 (value : bytes) : option Signature :=
  if negb (len value =? 28)%Z then None
  else if negb (base64_check value) then None
  else n ← base64_decoded_length value; if (n =? 20)%Z then Some value else None.

(** [None] is the failed debug assertion. *)
Definition from_computed (value : bytes) : option Signature :=
  if is_some (from_hex value) || is_some (Signature_from_base64 value) then Some value else None.
End Signatures.

Definition compare (left right : Signature) : bool := left =? right.

(** ** Configuration and context *)

(** The fields of [S3Config] the checks read. *)
Record S3Config := {
  presigned_url_max_skew_time_secs : Z;
  expected_region : option bytes;
  sig_v4_allowed_services : list bytes;
  enable_sig_v2 : bool;
  presigned_url_max_expires_secs : Z;
  allow_presigned_url : bool;
  allow_post_signature : bool;
  unsigned_amz_header_allowlist : list bytes;
  aws_chunked_stream_max_chunk_size : Z;
  form_max_field_size : nat;
  form_max_fields_size : Z;
  form_max_parts : Z
}.

Inductive Version := HTTP_09 | HTTP_10 | HTTP_11 | HTTP_2 | HTTP_3.

(** A parsed [Mime]: its type, its subtype and its boundary parameter. *)
Record Mime := { mime_type : bytes; mime_subtype : bytes; mime_boundary : option bytes }.

(** What [AwsChunkedStream::new] is given. *)
Record ChunkedBody := {
  cb_body : Body;
  cb_seed_signature : bytes;
  cb_amz_date : AmzDate;
  cb_region : bytes;
  cb_service : bytes;
  cb_secret_key : bytes;
  cb_decoded_content_length : Z;
  cb_unsigned : bool;
  cb_max_chunk_size : Z
}.

(** The provider is its [get_secret_key].  A body replaced by an [UploadStream] is an empty
    [req_body] with the stream in [checked_body]; [trailing_headers] says whether the handle of
    the transformed body was captured. *)
Record SignatureContext `{SigDeps} := {
  auth : option (bytes -> result S3ErrorCode bytes);
  config : S3Config;
  req_version : Version;
  req_method : bytes;
  req_uri_path : bytes;
  req_uri_authority : option bytes;
  req_body : Body;
  checked_body : option UploadStream;
  qs : option OrderedQs.OrderedQs;
  hs : HeaderMap;
  decoded_uri_path : bytes;
  raw_uri_path : bytes;
  vh_bucket : option bytes;
  content_length : option Z;
  mime : option Mime;
  decoded_content_length : option Z;
  transformed_body : option ChunkedBody;
  multipart : option Form;
  trailing_headers : bool
}.

Record CredentialsExt := {
  access_key : bytes;
  secret_key : bytes;
  cred_region : option bytes;
  cred_service : option bytes
}.

Definition MAX_STS_BODY_SIZE : Z := 8192.

(** ** Reading the headers *)

Section Headers.
Context `{CheckDeps}.

Definition extract_amz_content_sha256 (hs : HeaderMap) : result S3ErrorCode (option AmzContentSha256) :=
  match get_unique_header_str hs (str "x-amz-content-sha256") with
  | None => Ok None
  | Some val =>
      match AmzContentSha256_parse val with
      | Some x => Ok (Some x)
      | None => Err SignatureDoesNotMatch
      end
  end.

Definition extract_authorization_v4 (hs : HeaderMap) : result S3ErrorCode (option AuthorizationV4) :=
  match get_unique_header_str hs (str "authorization") with
  | None => Ok None
  | Some val =>
      match AuthorizationV4_parse val with
      | Ok x => Ok (Some x)
      | Err InvalidSignature => Err SignatureDoesNotMatch
      | Err Malformed => Err InvalidRequest
      end
  end.

(** [hs.keys()] yields a name once; looking at it again for each value changes nothing. *)
Fixpoint reject_unsigned_amz_headers (config : S3Config) (hs : HeaderMap) (signed_names : list bytes) :
    result S3ErrorCode unit :=
  match hs with
  | [] => Ok tt
  | (name, _) :: hs' =>
      if negb (starts_with (str "x-amz-") name)
         || (name =? str "x-amz-content-sha256")
         || existsb (fun allow => allow =? name) (unsigned_amz_header_allowlist config)
      then reject_unsigned_amz_headers config hs' signed_names
      else if negb (existsb (fun signed => eq_ignore_ascii_case signed name) signed_names) then Err AccessDenied
      else reject_unsigned_amz_headers config hs' signed_names
  end.

Definition extract_amz_date (hs : HeaderMap) : result S3ErrorCode (option AmzDate) :=
  match get_unique_header_str hs (str "x-amz-date") with
  | None => Ok None
  | Some val => match AmzDate_parse val with Some x => Ok (Some x) | None => Err InvalidRequest end
  end.

(** The inner loop: the pairs so far, and whether a value was valid and one was not. *)
Fixpoint collect_values (name : bytes) (values : list bytes) (headers : list header) (has_value has_invalid_value : bool) :
    list header * bool * bool :=
  match values with
  | [] => (headers, has_value, has_invalid_value)
  | value :: values' =>
      match header_value_to_str value with
      | Some value => collect_values name values' (headers ++ [(name, value)]) true has_invalid_value
      | None => collect_values name values' headers has_value true
      end
  end.

Fixpoint collect_loop (hs : HeaderMap) (names : list bytes) (on_missing : bytes -> option bytes) (headers : list header) :
    result S3ErrorCode (list header) :=
  match names with
  | [] => Ok headers
  | name :: names' =>
      let '(headers, has_value, has_invalid_value) := collect_values name (header_get_all hs name) headers false false in
      if has_invalid_value then Err SignatureDoesNotMatch
      else if negb has_value then
        match on_missing name with
        | None => Err SignatureDoesNotMatch
        | Some value => collect_loop hs names' on_missing (headers ++ [(name, value)])
        end
      else collect_loop hs names' on_missing headers
  end.

Definition collect_signed_headers (hs : HeaderMap) (names : list bytes) (on_missing : bytes -> option bytes) :
    result S3ErrorCode (list header) := collect_loop hs names on_missing [].

Fixpoint sig_v2_loop (hs : HeaderMap) (headers : list header) : result S3ErrorCode (list header) :=
  match hs with
  | [] => Ok headers
  | (name, value) :: hs' =>
      match header_value_to_str value with
      | None => if starts_with (str "x-amz-") name then Err SignatureDoesNotMatch else sig_v2_loop hs' headers
      | Some value => sig_v2_loop hs' (headers ++ [(name, value)])
      end
  end.
Definition sig_v2_headers (hs : HeaderMap) : result S3ErrorCode (list header) := sig_v2_loop hs [].

(** ** Guards *)

Definition require_auth (auth : option (bytes -> result S3ErrorCode bytes)) :
    result S3ErrorCode (bytes -> result S3ErrorCode bytes) := ok_or NotImplemented auth.

Definition has_unencoded_reserved_path_char (path : bytes) : bool :=
  existsb (fun b => negb (in_range "A" "Z" b || in_range "a" "z" b || in_range "0" "9" b ||
    bool_decide (b ∈ [x2d; x5f; x2e; x7e; x2f; x25]))) path.

(** Seconds to nanoseconds, the unit of durations. *)
Definition nanos (secs : Z) : Z := (secs * 1000000000)%Z.

Definition validate_clock_skew (request_time now : Z) (config : S3Config) : result S3ErrorCode unit :=
  duration ← ok_or InvalidRequest (jiff_duration_since now (nanos request_time));
  if (nanos (presigned_url_max_skew_time_secs config) <? Z.abs duration)%Z then Err RequestTimeTooSkewed else Ok tt.

Definition validate_sig_v4_clock_skew (amz_date : AmzDate) (now : Z) (config : S3Config) : result S3ErrorCode unit :=
  request_time ← ok_or InvalidRequest (to_time jiff_timestamp amz_date);
  validate_clock_skew request_time now config.

Definition validate_sig_v4_region (region : bytes) (config : S3Config) : result S3ErrorCode unit :=
  match expected_region config with
  | Some expected_region => if negb (region =? expected_region) then Err AuthorizationHeaderMalformed else Ok tt
  | None => Ok tt
  end.

Definition validate_sig_v4_service (service : bytes) (config : S3Config) : result S3ErrorCode unit :=
  if negb (existsb (fun allowed => allowed =? service) (sig_v4_allowed_services config)) then Err NotImplemented else Ok tt.

(** ** Verification *)

Record SignatureVerificationContext := {
  expected_signature : Signature;
  vc_raw_uri_path : bytes;
  vc_secret_key : bytes;
  vc_amz_date : AmzDate;
  vc_region : bytes;
  vc_service : bytes
}.

(** The signature of a canonical request; [None] is a panic. *)
Definition computed_signature (v : SignatureVerificationContext) (canonical_request : bytes) : option Signature :=
  string_to_sign ← create_string_to_sign canonical_request (vc_amz_date v) (vc_region v) (vc_service v);
  signature ← calculate_signature string_to_sign (vc_secret_key v) (vc_amz_date v) (vc_region v) (vc_service v);
  from_computed signature.

(** [raw_canonical_request] is only evaluated in the fallback. *)
Definition verify_with_raw_path_fallback (v : SignatureVerificationContext) (canonical_request : bytes)
    (raw_canonical_request : option bytes) : option (result S3ErrorCode Signature) :=
  signature ← computed_signature v canonical_request;
  if compare signature (expected_signature v) then Some (Ok signature)
  else if negb (has_unencoded_reserved_path_char (vc_raw_uri_path v)) then Some (Err SignatureDoesNotMatch)
  else
    canonical_request ← raw_canonical_request;
    raw_signature ← computed_signature v canonical_request;
    if negb (compare raw_signature (expected_signature v)) then Some (Err SignatureDoesNotMatch)
    else Some (Ok raw_signature).
End Headers.

(** ** The checks as handlers of the context *)

Abbreviation M := (ST SignatureContext).

(** ** Updates of the context *)

Section Updates.
Context `{SigDeps}.

Definition with_bodies (body : Body) (checked : option UploadStream) (transformed : option ChunkedBody)
    (form : option Form) (trailers : bool) (c : SignatureContext) : SignatureContext :=
  {| auth := auth c; config := config c; req_version := req_version c; req_method := req_method c;
     req_uri_path := req_uri_path c; req_uri_authority := req_uri_authority c; req_body := body;
     checked_body := checked; qs := qs c; hs := hs c; decoded_uri_path := decoded_uri_path c;
     raw_uri_path := raw_uri_path c; vh_bucket := vh_bucket c; content_length := content_length c;
     mime := mime c; decoded_content_length := decoded_content_length c; transformed_body := transformed;
     multipart := form; trailing_headers := trailers |}.

(** [mem::take(self.req_body)] *)
Definition take_body (c : SignatureContext) : SignatureContext :=
  with_bodies empty (checked_body c) (transformed_body c) (multipart c) (trailing_headers c) c.
Definition set_body (b : Body) (c : SignatureContext) : SignatureContext :=
  with_bodies b (checked_body c) (transformed_body c) (multipart c) (trailing_headers c) c.
(** [*self.req_body = Body::from(stream.into_byte_stream())] *)
Definition set_checked (s : UploadStream) (c : SignatureContext) : SignatureContext :=
  with_bodies (req_body c) (Some s) (transformed_body c) (multipart c) (trailing_headers c) c.
Definition set_transformed (b : ChunkedBody) (c : SignatureContext) : SignatureContext :=
  with_bodies (req_body c) (checked_body c) (Some b) (multipart c) true c.
Definition set_multipart (f : Form) (c : SignatureContext) : SignatureContext :=
  with_bodies (req_body c) (checked_body c) (transformed_body c) (Some f) (trailing_headers c) c.
End Updates.

Section Checks.
Context `{CheckDeps}.
Context (now : Z).

Definition query_pairs (c : SignatureContext) : list (bytes * bytes) :=
  match qs c with Some q => OrderedQs.qs q | None => [] end.

Definition signed_host_fallback (c : SignatureContext) (name : bytes) : option bytes :=
  if (name =? str "host") && match req_version c with HTTP_2 | HTTP_3 => true | _ => false end
  then req_uri_authority c else None.

Definition ensure_v2_enabled : M unit := c ← get; fail_if (negb (enable_sig_v2 (config c))) AccessDenied.
Definition ensure_presigned_url_enabled : M unit := c ← get; fail_if (negb (allow_presigned_url (config c))) AccessDenied.
Definition ensure_post_signature_enabled : M unit := c ← get; fail_if (negb (allow_post_signature (config c))) AccessDenied.

(** The length of the body: the header, or what the body announces. *)
Definition upload_length (c : SignatureContext) : result S3ErrorCode Z :=
  match content_length c with
  | Some content_length => if (content_length <=? usize_max)%Z then Ok content_length else Err InvalidRequest
  | None => ok_or MissingContentLength (exact (Body_remaining_length (req_body c)))
  end.

(** The body is replaced by one that is checked while it is read. *)
Definition check_body_hash (expected_checksum : bytes) : M unit :=
  c ← get;
  length ← lift (upload_length c);
  put (set_checked (UploadStream_new (answers (req_body c)) length expected_checksum) (take_body c)).

(** ** Signature Version 4 *)

Definition AWS4_HMAC_SHA256 : bytes := str "AWS4-HMAC-SHA256".

Definition v4_check_post_signature (multipart : Form) : M CredentialsExt :=
  c ← get;
  get_secret_key ← lift (require_auth (auth c));
  info ← lift (map_err (fun _ => InvalidRequest) (PostSignatureV4_extract (fields multipart)));
  fail_if (negb (base64_check (policy info))) InvalidRequest;;
  fail_if (negb (x_amz_algorithm info =? AWS4_HMAC_SHA256)) NotImplemented;;
  credential ← lift (ok_or InvalidRequest (CredentialV4_parse (x_amz_credential info)));
  amz_date ← lift (ok_or InvalidRequest (AmzDate_parse (x_amz_date info)));
  post_policy ← lift (map_err (fun _ => InvalidPolicyDocument) (@from_base64 check_policy_deps (policy info)));
  fail_if (negb (eq_condition_value post_policy (str "x-amz-date") =? Some (x_amz_date info))) InvalidPolicyDocument;;
  fail_if (negb (eq_condition_value post_policy (str "x-amz-credential") =? Some (x_amz_credential info))) InvalidPolicyDocument;;
  fail_if (negb (eq_condition_value post_policy (str "x-amz-algorithm") =? Some (x_amz_algorithm info))) InvalidPolicyDocument;;
  scope_date ← panic_none (fmt_date amz_date);
  fail_if (negb (date credential =? scope_date)) SignatureDoesNotMatch;;
  let region := aws_region credential in
  lift (validate_sig_v4_region region (config c));;
  lift (validate_sig_v4_clock_skew amz_date now (config c));;
  let access_key := access_key_id credential in
  secret_key ← lift (get_secret_key access_key);
  let service := aws_service credential in
  lift (validate_sig_v4_service service (config c));;
  signature ← panic_none (calculate_signature (policy info) secret_key amz_date region service ≫= from_computed);
  expected_signature ← lift (ok_or SignatureDoesNotMatch (from_hex (x_amz_signature info)));
  fail_if (negb (compare signature expected_signature)) SignatureDoesNotMatch;;
  put (set_multipart multipart c);;
  mret {| access_key := access_key; secret_key := secret_key; cred_region := Some region; cred_service := Some service |}.

(** The guards of a presigned URL before the key is looked up. *)
Definition check_presigned_expiry (config : S3Config) (amz_date : AmzDate) (expires : Z) : result S3ErrorCode unit :=
  date ← ok_or InvalidRequest (to_time jiff_timestamp amz_date);
  duration ← ok_or InvalidRequest (jiff_duration_since now (nanos date));
  if (duration <? 0)%Z && (nanos (presigned_url_max_skew_time_secs config) <? Z.abs duration)%Z
  then Err RequestTimeTooSkewed
  else if (nanos expires <? duration)%Z then Err AccessDenied else Ok tt.

Definition v4_check_presigned_url : M CredentialsExt :=
  c ← get;
  presigned_url ← lift (ok_or AuthorizationQueryParametersError
    (PresignedUrlV4_parse (query_pairs c) (presigned_url_max_expires_secs (config c))));
  fail_if (negb (pre_algorithm presigned_url =? AWS4_HMAC_SHA256)) NotImplemented;;
  scope_date ← panic_none (fmt_date (pre_amz_date presigned_url));
  let credential := pre_credential presigned_url in
  fail_if (negb (date credential =? scope_date)) SignatureDoesNotMatch;;
  let region := aws_region credential in
  amz_content_sha256 ← lift (extract_amz_content_sha256 (hs c));
  fail_if (match amz_content_sha256 with Some v => is_streaming v | None => false end) NotImplemented;;
  lift (validate_sig_v4_region region (config c));;
  lift (check_presigned_expiry (config c) (pre_amz_date presigned_url) (pre_expires presigned_url));;
  get_secret_key ← lift (require_auth (auth c));
  let access_key := access_key_id credential in
  secret_key ← lift (get_secret_key access_key);
  let service := aws_service credential in
  lift (validate_sig_v4_service service (config c));;
  expected_signature ← lift (ok_or SignatureDoesNotMatch (from_hex (pre_signature presigned_url)));
  headers ← lift (collect_signed_headers (hs c) (pre_signed_headers presigned_url) (signed_host_fallback c));
  lift (reject_unsigned_amz_headers (config c) (hs c) (pre_signed_headers presigned_url));;
  let verifier := {| expected_signature := expected_signature; vc_raw_uri_path := raw_uri_path c;
    vc_secret_key := secret_key; vc_amz_date := pre_amz_date presigned_url; vc_region := region; vc_service := service |} in
  canonical_request ← panic_none
    (create_presigned_canonical_request (req_method c) (decoded_uri_path c) (query_pairs c) headers);
  verified ← panic_none (verify_with_raw_path_fallback verifier canonical_request
    (create_presigned_canonical_request_with_raw_uri_path (req_method c) (raw_uri_path c) (query_pairs c) headers));
  lift verified;;
  match amz_content_sha256 with
  | Some (CsSingleChunk expected_checksum) => check_body_hash expected_checksum
  | _ => mret tt
  end;;
  mret {| access_key := access_key; secret_key := secret_key; cred_region := Some region; cred_service := Some service |}.

(** The payload of the canonical request; the body of an STS request is stored to hash it. *)
Definition header_payload (service : bytes) (amz_content_sha256 : option AmzContentSha256) : M Payload :=
  match amz_content_sha256 with
  | Some StreamingAws4HmacSha256Payload => mret MultipleChunks
  | Some StreamingAws4HmacSha256PayloadTrailer => mret MultipleChunksWithTrailer
  | Some UnsignedPayload => mret Unsigned
  | Some StreamingUnsignedPayloadTrailer => mret UnsignedMultipleChunksWithTrailer
  | Some (CsSingleChunk checksum) => mret (SingleChunk (hex_bytes32 checksum))
  | Some StreamingAws4EcdsaP256Sha256Payload | Some StreamingAws4EcdsaP256Sha256PayloadTrailer => lift (Err NotImplemented)
  | None =>
      if service =? str "sts" then
        c ← get;
        let '(body, r) := store_all_limited (req_body c) MAX_STS_BODY_SIZE in
        put (set_body body c);;
        body_bytes ← lift (map_err (fun _ => InvalidRequest) r);
        mret (SingleChunk (hex_sha256 body_bytes))
      else lift (Err InvalidRequest)
  end.

(** What becomes of the body once the request is verified. *)
Definition header_body (amz_content_sha256 : option AmzContentSha256) (amz_date : AmzDate)
    (region service secret_key : bytes) (signature : Signature) : M unit :=
  c ← get;
  if match amz_content_sha256 with Some v => is_streaming v | None => false end then
    fail_if (match amz_content_sha256 with Some v => has_trailer v | None => false end &&
             negb (is_some (get_unique_header_str (hs c) (str "x-amz-trailer")))) InvalidRequest;;
    decoded_content_length ← lift (ok_or MissingContentLength (decoded_content_length c));
    let unsigned := match amz_content_sha256 with Some StreamingUnsignedPayloadTrailer => true | _ => false end in
    seed_signature ← lift (ok_or InternalError (@Sha256Sum_from_hex check_chunk_deps signature));
    put (set_transformed {| cb_body := req_body c; cb_seed_signature := seed_signature; cb_amz_date := amz_date;
           cb_region := region; cb_service := service; cb_secret_key := secret_key;
           cb_decoded_content_length := decoded_content_length; cb_unsigned := unsigned;
           cb_max_chunk_size := aws_chunked_stream_max_chunk_size (config c) |} (take_body c))
  else
    match amz_content_sha256 with
    | Some (CsSingleChunk expected_checksum) => check_body_hash expected_checksum
    | Some UnsignedPayload =>
        fail_if (negb (is_some (content_length c)) && negb (is_some (exact (Body_remaining_length (req_body c)))))
          MissingContentLength
    | _ => mret tt
    end.

Definition v4_check_header_auth : M CredentialsExt :=
  c ← get;
  authorization ← lift (extract_authorization_v4 (hs c));
  authorization ← lift (ok_or MissingSecurityHeader authorization);
  fail_if (negb (auth_algorithm authorization =? AWS4_HMAC_SHA256)) NotImplemented;;
  let credential := credential authorization in
  let region := aws_region credential in
  let service := aws_service credential in
  lift (validate_sig_v4_service service (config c));;
  get_secret_key ← lift (require_auth (auth c));
  amz_date ← lift (extract_amz_date (hs c));
  amz_date ← lift (ok_or InvalidRequest amz_date);
  scope_date ← panic_none (fmt_date amz_date);
  fail_if (negb (date credential =? scope_date)) SignatureDoesNotMatch;;
  lift (validate_sig_v4_region region (config c));;
  lift (validate_sig_v4_clock_skew amz_date now (config c));;
  amz_content_sha256 ← lift (extract_amz_content_sha256 (hs c));
  fail_if ((service =? str "s3") && negb (is_some amz_content_sha256)) InvalidRequest;;
  let access_key := access_key_id credential in
  secret_key ← lift (get_secret_key access_key);
  expected_signature ← lift (ok_or SignatureDoesNotMatch (from_hex (auth_signature authorization)));
  payload ← header_payload service amz_content_sha256;
  headers ← lift (collect_signed_headers (hs c) (signed_headers authorization) (signed_host_fallback c));
  lift (reject_unsigned_amz_headers (config c) (hs c) (signed_headers authorization));;
  let verifier := {| expected_signature := expected_signature; vc_raw_uri_path := raw_uri_path c;
    vc_secret_key := secret_key; vc_amz_date := amz_date; vc_region := region; vc_service := service |} in
  canonical_request ← panic_none
    (create_canonical_request (req_method c) (decoded_uri_path c) (query_pairs c) headers payload);
  verified ← panic_none (verify_with_raw_path_fallback verifier canonical_request
    (create_canonical_request_with_raw_uri_path (req_method c) (raw_uri_path c) (query_pairs c) headers payload));
  signature ← lift verified;
  header_body amz_content_sha256 amz_date region service secret_key signature;;
  mret {| access_key := access_key; secret_key := secret_key; cred_region := Some region; cred_service := Some service |}.

(** [None] when the request is not signed this way. *)
Definition v4_check : M (option CredentialsExt) :=
  c ← get;
  if match qs c with Some q => has q (str "X-Amz-Signature") | None => false end then
    ensure_presigned_url_enabled;; cred ← v4_check_presigned_url; mret (Some cred)
  else if is_some (get_unique_header_str (hs c) (str "authorization")) then
    cred ← v4_check_header_auth; mret (Some cred)
  else mret None.

(** ** Signature Version 2 *)

Definition v2_string_to_sign (mode : Mode) (c : SignatureContext) (headers : list header) : bytes :=
  create_string_to_sign_v2 mode (req_method c) (req_uri_path c) (OrderedQs.qs <$> qs c) headers (vh_bucket c).

(** The time of a request signed by header. *)
Definition v2_request_time (hs : HeaderMap) (date : bytes) : result S3ErrorCode Z :=
  match get_unique_header_str hs (str "x-amz-date") with
  | Some x =>
      d ← ok_or InvalidRequest (AmzDate_parse x);
      ok_or InvalidRequest (to_time jiff_timestamp d)
  | None =>
      ts ← ok_or InvalidRequest (rfc1123_parse date);
      ok_or InvalidRequest (timestamp_from_second ts)
  end.

Definition v2_compare (secret_key string_to_sign : bytes) (given : bytes) : M unit :=
  signature ← panic_none (from_computed (calculate_signature_v2 secret_key string_to_sign));
  expected_signature ← lift (ok_or SignatureDoesNotMatch (Signature_from_base64 given));
  fail_if (negb (compare signature expected_signature)) SignatureDoesNotMatch.

Definition v2_credentials (access_key secret_key : bytes) : CredentialsExt :=
  {| access_key := access_key; secret_key := secret_key; cred_region := None; cred_service := Some (str "s3") |}.

Definition v2_check_header_auth (auth_v2 : AuthorizationV2) : M CredentialsExt :=
  ensure_v2_enabled;;
  c ← get;
  date ← lift (ok_or InvalidRequest
    (match get_unique_header_str (hs c) (str "date") with
     | Some date => Some date
     | None => get_unique_header_str (hs c) (str "x-amz-date")
     end));
  request_time ← lift (v2_request_time (hs c) date);
  lift (validate_clock_skew request_time now (config c));;
  get_secret_key ← lift (require_auth (auth c));
  secret_key ← lift (get_secret_key (v2_access_key auth_v2));
  headers ← lift (sig_v2_headers (hs c));
  v2_compare secret_key (v2_string_to_sign HeaderAuth c headers) (v2_signature auth_v2);;
  mret (v2_credentials (v2_access_key auth_v2) secret_key).

Definition v2_check_post_signature (multipart : Form) : M CredentialsExt :=
  ensure_v2_enabled;;
  c ← get;
  get_secret_key ← lift (require_auth (auth c));
  info ← lift (map_err (fun _ => InvalidRequest) (PostSignatureV2_extract (fields multipart)));
  fail_if (negb (base64_check (v2_policy info))) InvalidRequest;;
  secret_key ← lift (get_secret_key (v2_access_key_id info));
  v2_compare secret_key (v2_policy info) (v2_post_signature info);;
  put (set_multipart multipart c);;
  mret (v2_credentials (v2_access_key_id info) secret_key).

Definition v2_check_presigned_url : M CredentialsExt :=
  ensure_v2_enabled;;
  c ← get;
  presigned_url ← lift (ok_or InvalidRequest (PresignedUrlV2_parse (query_pairs c)));
  fail_if (nanos (expires_time presigned_url) <? now)%Z AccessDenied;;
  get_secret_key ← lift (require_auth (auth c));
  secret_key ← lift (get_secret_key (v2_url_access_key presigned_url));
  headers ← lift (sig_v2_headers (hs c));
  v2_compare secret_key (v2_string_to_sign PresignedUrl c headers) (v2_url_signature presigned_url);;
  mret (v2_credentials (v2_url_access_key presigned_url) secret_key).

Definition v2_check : M (option CredentialsExt) :=
  c ← get;
  if match qs c with Some q => has q (str "Signature") | None => false end then
    ensure_presigned_url_enabled;; cred ← v2_check_presigned_url; mret (Some cred)
  else
    match get_unique_header_str (hs c) (str "authorization") ≫= AuthorizationV2_parse with
    | Some auth_v2 => cred ← v2_check_header_auth auth_v2; mret (Some cred)
    | None => mret None
    end.

(** ** The dispatch *)

Definition events (b : Body) : list event :=
  map (fun a => match a with Wait => NotReady | Next r => Item (map_err StreamReadFailed r) end) (answers b).

Definition check_post_signature : M (option CredentialsExt) :=
  c ← get;
  mime ← lift (ok_or InvalidRequest (mime c));
  boundary ← lift (ok_or InvalidRequest (mime_boundary mime));
  let limits := {| max_field_size := form_max_field_size (config c); max_fields_size := form_max_fields_size (config c);
                   max_parts := form_max_parts (config c) |} in
  put (take_body c);;
  form ← panic_none (match transform_multipart (events (req_body c)) boundary limits (content_length c) with
                     | Ready r => Some r | Pending => None end);
  multipart ← lift (map_err (fun _ => MalformedPOSTRequest) form);
  if is_some (find_field_value multipart (str "x-amz-signature")) then
    ensure_post_signature_enabled;; cred ← v4_check_post_signature multipart; mret (Some cred)
  else if is_some (find_field_value multipart (str "signature")) then
    ensure_post_signature_enabled;; cred ← v2_check_post_signature multipart; mret (Some cred)
  else
    c ← get;
    put (set_multipart multipart c);;
    mret None.

Definition is_post_form (c : SignatureContext) : bool :=
  (req_method c =? str "POST") &&
  match mime c with
  | Some m => (mime_type m =? str "multipart") && (mime_subtype m =? str "form-data")
  | None => false
  end.

Definition check : M (option CredentialsExt) :=
  c ← get;
  if is_post_form c then check_post_signature
  else
    v2 ← v2_check;
    match v2 with
    | Some result => mret (Some result)
    | None => v4_check
    end.
End Checks.

(** ** What the guards establish *)

Section Guards.
Context `{CheckDeps}.

(** The key is the one the provider gives for the access key. *)
Definition key_of (c : SignatureContext) (access_key secret_key : bytes) : Prop :=
  exists get_secret_key, auth c = Some get_secret_key /\ get_secret_key access_key = Ok secret_key.

Definition region_ok (config : S3Config) (region : bytes) : Prop :=
  forall r, expected_region config = Some r -> region = r.

(** Every x-amz-* header but the payload hash is signed or on the allow list. *)
Definition amz_signed (config : S3Config) (hs : HeaderMap) (signed_names : list bytes) : Prop :=
  forall name value, (name, value) ∈ hs -> starts_with (str "x-amz-") name = true ->
    name = str "x-amz-content-sha256" \/ name ∈ unsigned_amz_header_allowlist config \/
    exists signed, signed ∈ signed_names /\ to_ascii_lowercase signed = to_ascii_lowercase name.

(** What is signed for a name: all values of the header, or the fallback for a missing one. *)
Definition signed_values (hs : HeaderMap) (on_missing : bytes -> option bytes) (name : bytes) : list header :=
  match header_get_all hs name with
  | [] => match on_missing name with Some v => [(name, v)] | None => [] end
  | vs => map (fun v => (name, v)) vs
  end.

Definition signed_pairs (hs : HeaderMap) (on_missing : bytes -> option bytes) (names : list bytes)
    (pairs : list header) : Prop :=
  pairs = concat (map (signed_values hs on_missing) names) /\
  Forall (fun name => Forall (fun v => utf8_valid v = true) (header_get_all hs name) /\
                      signed_values hs on_missing name <> []) names.

Lemma service_ok service config :
  validate_sig_v4_service service config = Ok tt <-> service ∈ sig_v4_allowed_services config.
Proof.
  unfold validate_sig_v4_service. rewrite list_elem_of_In.
  destruct (existsb _ _) eqn:E; simpl; split; try done; intros.
  - apply existsb_exists in E as (x & Hin & Hx). by apply bool_decide_eq_true in Hx as ->.
  - exfalso. rewrite <- not_true_iff_false in E. apply E. apply existsb_exists. exists service. by rewrite bool_decide_true.
Qed.

Lemma validate_region_ok region config : validate_sig_v4_region region config = Ok tt <-> region_ok config region.
Proof.
  unfold validate_sig_v4_region, region_ok. destruct (expected_region config) as [r|]; [|done].
  case_bool_decide as E; simpl; split; try done; [by intros _ ? [= <-]|]. intros Hr. by rewrite (Hr r) in E.
Qed.

Lemma clock_skew_ok t now config :
  validate_clock_skew t now config = Ok tt -> (Z.abs (now - nanos t) <= nanos (presigned_url_max_skew_time_secs config))%Z.
Proof.
  unfold validate_clock_skew. intros E. invert_ok. apply jiff_duration_since_spec in H0 as ->.
  by destruct (_ <? _)%Z eqn:E; reflect_bools.
Qed.

Lemma reject_unsigned_ok config hs signed_names :
  reject_unsigned_amz_headers config hs signed_names = Ok tt <-> amz_signed config hs signed_names.
Proof.
  unfold amz_signed. induction hs as [|[n v] hs IH]; cbn [reject_unsigned_amz_headers].
  { split; [by intros _ ? ? ?%elem_of_nil|done]. }
  assert (Hsplit : (forall name value, (name, value) ∈ (n, v) :: hs -> starts_with (str "x-amz-") name = true ->
      name = str "x-amz-content-sha256" \/ name ∈ unsigned_amz_header_allowlist config \/
      exists signed, signed ∈ signed_names /\ to_ascii_lowercase signed = to_ascii_lowercase name) <->
    (starts_with (str "x-amz-") n = true -> n = str "x-amz-content-sha256" \/ n ∈ unsigned_amz_header_allowlist config \/
      exists signed, signed ∈ signed_names /\ to_ascii_lowercase signed = to_ascii_lowercase n) /\
    reject_unsigned_amz_headers config hs signed_names = Ok tt).
  { rewrite IH. split.
    - intros Ha. split; [apply (Ha n v); by constructor|]. intros name value Hin. apply (Ha name value). by constructor.
    - intros [Hn Ha] name value Hin. apply elem_of_cons in Hin as [[= -> ->]|Hin]; [done|by apply (Ha name value)]. }
  rewrite Hsplit. clear Hsplit IH. set (rest := reject_unsigned_amz_headers config hs signed_names).
  assert (Hallow : existsb (fun allow => allow =? n) (unsigned_amz_header_allowlist config) = true <->
    n ∈ unsigned_amz_header_allowlist config).
  { rewrite existsb_exists, list_elem_of_In. split; [by intros (x & Hin & ->%bool_decide_eq_true)|].
    intros Hin. exists n. by rewrite bool_decide_true. }
  assert (Hsig : existsb (fun signed => eq_ignore_ascii_case signed n) signed_names = true <->
    exists signed, signed ∈ signed_names /\ to_ascii_lowercase signed = to_ascii_lowercase n).
  { rewrite existsb_exists. setoid_rewrite list_elem_of_In. unfold eq_ignore_ascii_case.
    by setoid_rewrite bool_decide_eq_true. }
  destruct (starts_with (str "x-amz-") n); cbn [negb orb]; [|by split; [split|intros [_ ?]]].
  case_bool_decide as Hcs; cbn [orb]; [by split; [split; [by left|]|intros [_ ?]]|].
  destruct (existsb _ (unsigned_amz_header_allowlist config)).
  - split; [|by intros [_ ?]]. intros Hr. split; [|done]. intros _. right. left. by apply Hallow.
  - destruct (existsb _ signed_names); cbn [negb].
    + split; [|by intros [_ ?]]. intros Hr. split; [|done]. intros _. right. right. by apply Hsig.
    + split; [done|]. intros [Hn _]. destruct (Hn eq_refl) as [?|[Hin|Hin]]; [done|by apply Hallow in Hin|by apply Hsig in Hin].
Qed.
End Guards.

(** ** The signed headers *)

Lemma collect_values_spec name vs headers hv hi :
  collect_values name vs headers hv hi =
  (headers ++ map (fun v => (name, v)) (List.filter utf8_valid vs),
   hv || existsb utf8_valid vs, hi || existsb (fun v => negb (utf8_valid v)) vs).
Proof.
  revert headers hv hi. induction vs as [|v vs IH]; intros headers hv hi; cbn [collect_values List.filter existsb map].
  - by rewrite app_nil_r, !orb_false_r.
  - unfold header_value_to_str. destruct (utf8_valid v); rewrite IH; cbn [map negb orb];
      by rewrite ?orb_true_r, ?orb_true_l, <- ?app_assoc.
Qed.

Lemma utf8_values vs : existsb (fun v => negb (utf8_valid v)) vs = false <-> Forall (fun v => utf8_valid v = true) vs.
Proof.
  induction vs as [|v vs IH]; simpl; [by split|]. rewrite orb_false_iff, negb_false_iff, IH. by rewrite Forall_cons.
Qed.

Lemma collect_loop_ok hs names on_missing headers pairs :
  collect_loop hs names on_missing headers = Ok pairs <->
  exists l, pairs = headers ++ l /\ signed_pairs hs on_missing names l.
Proof.
  unfold signed_pairs. revert headers. induction names as [|name names IH]; intros headers; cbn [collect_loop map concat].
  { split; [intros [= <-]; exists []; by rewrite app_nil_r|]. intros (l & -> & -> & _). by rewrite app_nil_r. }
  rewrite collect_values_spec. cbn [orb]. setoid_rewrite Forall_cons. set (vs := header_get_all hs name).
  destruct (existsb _ vs) eqn:Ei.
  { split; [done|]. intros (l & _ & _ & [Hu _] & _). apply utf8_values in Hu. by rewrite Ei in Hu. }
  apply utf8_values in Ei.
  assert (Hf : List.filter utf8_valid vs = vs).
  { clear -Ei. induction Ei as [|v ws Hv _ IH]; simpl; [done|]. by rewrite Hv, IH. }
  rewrite Hf. unfold signed_values at 1 3. fold vs. clearbody vs.
  assert (Hstep : forall more, more <> [] ->
    (collect_loop hs names on_missing (headers ++ more) = Ok pairs <->
     exists l, pairs = headers ++ l /\ l = more ++ concat (map (signed_values hs on_missing) names) /\
       (Forall (fun v => utf8_valid v = true) vs /\ more <> []) /\
       Forall (fun name => Forall (fun v => utf8_valid v = true) (header_get_all hs name) /\
                           signed_values hs on_missing name <> []) names)).
  { intros more Hm. rewrite IH. split.
    - intros (l & -> & -> & Hl). eexists. split; [by rewrite <- app_assoc|]. done.
    - intros (l & -> & -> & _ & Hl). eexists. split; [by rewrite <- app_assoc|]. done. }
  destruct vs as [|v vs].
  - cbn [existsb negb map app]. rewrite app_nil_r. destruct (on_missing name) as [x|]; [by apply (Hstep [(name, x)])|].
    split; [done|]. by intros (l & _ & _ & [_ ?] & _).
  - assert (Hv : existsb utf8_valid (v :: vs) = true) by (simpl; by rewrite (Forall_inv Ei)).
    rewrite Hv. cbn [negb]. by apply Hstep.
Qed.

Lemma collect_signed_ok hs names on_missing pairs :
  collect_signed_headers hs names on_missing = Ok pairs <-> signed_pairs hs on_missing names pairs.
Proof.
  unfold collect_signed_headers. rewrite collect_loop_ok. split; [by intros (l & -> & ?)|]. intros Hp. by exists pairs.
Qed.

(** ** Verification *)

Section Verify.
Context `{CheckDeps}.

Lemma hex_pair_lower c : forallb is_lowercase_hex (hex_pair c) = true.
Proof. by destruct c. Qed.

Lemma calculated_hex s key : is_sha256_checksum (hex_bytes32 (calculate_signature_with_key s key)) = true.
Proof.
  unfold calculate_signature_with_key, hex_bytes32, is_sha256_checksum. rewrite hex_simd_lower_spec.
  pose proof (hmac_sha256_length key s) as Hl. set (d := hmac_sha256 key s) in *. clearbody d.
  assert (Hx : length (concat (map hex_pair d)) = 2 * length d /\ forallb is_lowercase_hex (concat (map hex_pair d)) = true).
  { clear. induction d as [|c d [IH1 IH2]]; [done|]. cbn [map concat]. rewrite length_app, forallb_app, hex_pair_lower, IH1, IH2.
    simpl. split; [lia|done]. }
  destruct Hx as [H1 ->]. unfold len. rewrite H1, Hl. done.
Qed.

Lemma computed_v2 s key : from_computed (calculate_signature_v2 key s) = Some (calculate_signature_v2 key s).
Proof.
  unfold from_computed. assert (E : Signature_from_base64 (calculate_signature_v2 key s) = Some (calculate_signature_v2 key s)).
  { unfold Signature_from_base64, calculate_signature_v2.
    rewrite base64_encode_length, base64_check_encode, base64_length_encode.
    unfold len. rewrite hmac_sha1_length. done. }
  rewrite E. by rewrite orb_true_r.
Qed.

(** With a date that was parsed nothing panics. *)
Lemma calculate_signature_some s key d region service :
  date_ok d = true -> exists sig, calculate_signature s key d region service = Some sig /\ from_computed sig = Some sig.
Proof.
  intros Hd. unfold calculate_signature, derive_signing_key. rewrite fmt_date_ok by done.
  cbn [mbind option_bind]. eexists. split; [reflexivity|]. unfold from_computed, from_hex. by rewrite calculated_hex.
Qed.

Lemma computed_some v text :
  date_ok (vc_amz_date v) = true -> exists sig, computed_signature v text = Some sig.
Proof.
  intros Hd. unfold computed_signature.
  pose proof (string_to_sign_lines (RequestText text) (vc_amz_date v) (vc_region v) (vc_service v) Hd) as E.
  cbn [string_to_sign] in E. rewrite E. cbn [mbind option_bind].
  match goal with |- context [calculate_signature ?s ?k ?d ?r ?sv] => destruct (calculate_signature_some s k d r sv Hd) as (sig & Es & Ec) end.
  exists sig. rewrite Es. exact Ec.
Qed.

(** The expected signature is that of one of the canonical requests; the raw path is tried
    when it has a character that should have been encoded. *)
Definition signs (v : SignatureVerificationContext) (canonical : bool -> option bytes) : Prop :=
  exists raw text s, canonical raw = Some text /\
    (raw = true -> has_unencoded_reserved_path_char (vc_raw_uri_path v) = true) /\
    create_string_to_sign text (vc_amz_date v) (vc_region v) (vc_service v) = Some s /\
    calculate_signature s (vc_secret_key v) (vc_amz_date v) (vc_region v) (vc_service v) = Some (expected_signature v).

Lemma from_computed_Some s t : from_computed s = Some t -> t = s.
Proof. unfold from_computed. destruct (_ || _); [by intros [= ->]|done]. Qed.

Lemma verify_ok v text (raw : option bytes) sig :
  verify_with_raw_path_fallback v text raw = Some (Ok sig) ->
  sig = expected_signature v /\ signs v (fun r => if r then raw else Some text).
Proof.
  unfold verify_with_raw_path_fallback, compare. intros (s1 & E1 & E)%bind_Some.
  assert (Hc : forall t s, computed_signature v t = Some s -> exists u,
    create_string_to_sign t (vc_amz_date v) (vc_region v) (vc_service v) = Some u /\
    calculate_signature u (vc_secret_key v) (vc_amz_date v) (vc_region v) (vc_service v) = Some s).
  { intros t s. unfold computed_signature. intros (u & Hu & Hs)%bind_Some. apply bind_Some in Hs as (x & Hx & Hs).
    apply from_computed_Some in Hs as ->. eauto. }
  case_bool_decide as Heq.
  { injection E as <-. split; [done|]. destruct (Hc _ _ E1) as (u & Hu & Hs). exists false, text, u. rewrite <- Heq. done. }
  destruct (has_unencoded_reserved_path_char _) eqn:Er; [|done]. cbn [negb] in E.
  apply bind_Some in E as (t2 & -> & E). apply bind_Some in E as (s2 & E2 & E).
  case_bool_decide as Heq2; [|done]. injection E as <-. split; [done|].
  destruct (Hc _ _ E2) as (u & Hu & Hs). exists true, t2, u. rewrite <- Heq2. done.
Qed.

Lemma verify_some v text (raw : option bytes) :
  date_ok (vc_amz_date v) = true -> is_some raw = true -> exists r, verify_with_raw_path_fallback v text raw = Some r.
Proof.
  intros Hd Hr. unfold verify_with_raw_path_fallback. destruct (computed_some v text Hd) as [s1 ->].
  cbn [mbind option_bind]. destruct (compare _ _); [by eexists|]. destruct (negb _); [by eexists|].
  destruct raw as [t|]; [|done]. cbn [mbind option_bind]. destruct (computed_some v t Hd) as [s2 ->].
  cbn [mbind option_bind]. by destruct (negb _); eexists.
Qed.
End Verify.

(** ** What it takes to be authenticated

    The specification: the credentials of an authenticated request, with the evidence. *)

Section Spec.
Context `{CheckDeps}.
Context (now : Z).

Record scope_ok (c : SignatureContext) (cred : CredentialV4) (d : AmzDate) (sk : bytes) : Prop := {
  so_date : fmt_date d = Some (date cred);
  so_region : region_ok (config c) (aws_region cred);
  so_service : aws_service cred ∈ sig_v4_allowed_services (config c);
  so_key : key_of c (access_key_id cred) sk
}.

(** The pairs of the query, and the value that stands for a signed host that did not arrive as a
    header: the authority of an HTTP/2 or HTTP/3 request. *)
Definition arrived_query (c : SignatureContext) : list (bytes * bytes) := from_option OrderedQs.qs [] (qs c).
Definition host_fallback (c : SignatureContext) (name : bytes) : option bytes :=
  match req_version c with
  | HTTP_2 | HTTP_3 => if name =? str "host" then req_uri_authority c else None
  | _ => None
  end.

(** When a request signed by a Version 2 header says it was made: its x-amz-date, else its Date. *)
Definition v2_dated (hs : HeaderMap) (t : Z) : Prop :=
  match get_unique_header_str hs (str "x-amz-date") with
  | Some x => exists d, AmzDate_parse x = Some d /\ to_time jiff_timestamp d = Some t
  | None => exists x ts, get_unique_header_str hs (str "date") = Some x /\ rfc1123_parse x = Some ts /\
      timestamp_from_second ts = Some t
  end.

(** Every x-amz-* header is among the headers that are signed. *)
Definition amz_included (hs headers : list header) : Prop :=
  forall name value, (name, value) ∈ hs -> starts_with (str "x-amz-") name = true -> (name, value) ∈ headers.

(** What Version 2 signs of a request. *)
Definition v2_signed_text (mode : Mode) (c : SignatureContext) (headers : list header) : bytes :=
  create_string_to_sign_v2 mode (req_method c) (req_uri_path c) (OrderedQs.qs <$> qs c) headers (vh_bucket c).

(** A time is near enough to the server's. *)
Definition near (config : S3Config) (t : Z) : Prop :=
  (Z.abs (now - nanos t) <= nanos (presigned_url_max_skew_time_secs config))%Z.
Definition fresh (config : S3Config) (d : AmzDate) : Prop :=
  exists t, to_time jiff_timestamp d = Some t /\ near config t.

(** A presigned URL is used after it was made, up to the skew, and before it expires. *)
Definition unexpired (config : S3Config) (d : AmzDate) (expires : Z) : Prop :=
  exists t, to_time jiff_timestamp d = Some t /\ (now - nanos t <= nanos expires)%Z /\
    ((now < nanos t)%Z -> (nanos t - now <= nanos (presigned_url_max_skew_time_secs config))%Z).

(** The payload a content hash stands for in the canonical request. *)
Definition payload_of (cs : AmzContentSha256) : option Payload :=
  match cs with
  | CsSingleChunk checksum => Some (SingleChunk (hex_bytes32 checksum))
  | UnsignedPayload => Some Unsigned
  | StreamingUnsignedPayloadTrailer => Some UnsignedMultipleChunksWithTrailer
  | StreamingAws4HmacSha256Payload => Some MultipleChunks
  | StreamingAws4HmacSha256PayloadTrailer => Some MultipleChunksWithTrailer
  | StreamingAws4EcdsaP256Sha256Payload | StreamingAws4EcdsaP256Sha256PayloadTrailer => None
  end.

(** The payload that is signed: as declared, or the hash of the whole body of an STS request. *)
Definition signed_payload (c : SignatureContext) (service : bytes) (payload : Payload) : Prop :=
  exists o, extract_amz_content_sha256 (hs c) = Ok o /\
    match o with
    | Some cs => payload_of cs = Some payload
    | None => service = str "sts" /\
        exists x, snd (store_all_limited (req_body c) MAX_STS_BODY_SIZE) = Ok x /\ payload = SingleChunk (hex_sha256 x)
    end.

Definition v4_verifier (c : SignatureContext) (cred : CredentialV4) (d : AmzDate) (sk sig : bytes) :
    SignatureVerificationContext :=
  {| expected_signature := sig; vc_raw_uri_path := raw_uri_path c; vc_secret_key := sk; vc_amz_date := d;
     vc_region := aws_region cred; vc_service := aws_service cred |}.

Definition signed_path (c : SignatureContext) (raw : bool) : bytes := if raw then raw_uri_path c else decoded_uri_path c.

Definition v4_credentials (cred : CredentialV4) (sk : bytes) : CredentialsExt :=
  {| access_key := access_key_id cred; secret_key := sk; cred_region := Some (aws_region cred);
     cred_service := Some (aws_service cred) |}.

Definition form_limits_of (config : S3Config) : MultipartLimits :=
  {| max_field_size := form_max_field_size config; max_fields_size := form_max_fields_size config;
     max_parts := form_max_parts config |}.

(** The form the body holds. *)
Definition submitted (c : SignatureContext) (form : Form) : Prop :=
  is_post_form c = true /\ exists m b, mime c = Some m /\ mime_boundary m = Some b /\
    transform_multipart (events (req_body c)) b (form_limits_of (config c)) (content_length c) = Ready (Ok form).

(** A request signed in its Authorization header [a], at [d], with [payload] and the headers
    [pairs], under the key [sk]. *)
Record header_signed (c : SignatureContext) (a : AuthorizationV4) (d : AmzDate) (payload : Payload)
    (pairs : list header) (sk : bytes) : Prop := {
  hd_header : exists val, get_unique_header_str (hs c) (str "authorization") = Some val /\ AuthorizationV4_parse val = Ok a;
  hd_algorithm : auth_algorithm a = AWS4_HMAC_SHA256;
  hd_date : exists dv, get_unique_header_str (hs c) (str "x-amz-date") = Some dv /\ AmzDate_parse dv = Some d;
  hd_fresh : fresh (config c) d;
  hd_scope : scope_ok c (credential a) d sk;
  hd_payload : signed_payload c (aws_service (credential a)) payload;
  hd_pairs : signed_pairs (hs c) (host_fallback c) (signed_headers a) pairs;
  hd_amz : amz_signed (config c) (hs c) (signed_headers a);
  hd_signs : signs (v4_verifier c (credential a) d sk (auth_signature a))
    (fun raw => create_canonical_request_with_uri_mode (req_method c) (signed_path c raw) (arrived_query c) pairs payload raw)
}.

(** A request signed by the parameters [u] of its URL. *)
Record url_signed (c : SignatureContext) (u : PresignedUrlV4) (cs : option AmzContentSha256) (pairs : list header)
    (sk : bytes) : Prop := {
  us_parse : PresignedUrlV4_parse (arrived_query c) (presigned_url_max_expires_secs (config c)) = Some u;
  us_algorithm : pre_algorithm u = AWS4_HMAC_SHA256;
  us_payload : extract_amz_content_sha256 (hs c) = Ok cs;
  us_not_streaming : forall v, cs = Some v -> is_streaming v = false;
  us_unexpired : unexpired (config c) (pre_amz_date u) (pre_expires u);
  us_scope : scope_ok c (pre_credential u) (pre_amz_date u) sk;
  us_pairs : signed_pairs (hs c) (host_fallback c) (pre_signed_headers u) pairs;
  us_amz : amz_signed (config c) (hs c) (pre_signed_headers u);
  us_signs : signs (v4_verifier c (pre_credential u) (pre_amz_date u) sk (pre_signature u))
    (fun raw => create_presigned_canonical_request_with_uri_mode (req_method c) (signed_path c raw) (arrived_query c) pairs raw)
}.

(** A form with a Version 4 signature of its policy [p]. *)
Record form_signed (c : SignatureContext) (form : Form) (info : PostSignatureV4) (cred : CredentialV4) (d : AmzDate)
    (p : PostPolicy) (sk : bytes) : Prop := {
  fs_extract : PostSignatureV4_extract (fields form) = Ok info;
  fs_algorithm : x_amz_algorithm info = AWS4_HMAC_SHA256;
  fs_credential : CredentialV4_parse (x_amz_credential info) = Some cred;
  fs_date : AmzDate_parse (x_amz_date info) = Some d;
  fs_policy : @from_base64 check_policy_deps (policy info) = Ok p;
  fs_eq_date : eq_condition_value p (str "x-amz-date") = Some (x_amz_date info);
  fs_eq_credential : eq_condition_value p (str "x-amz-credential") = Some (x_amz_credential info);
  fs_eq_algorithm : eq_condition_value p (str "x-amz-algorithm") = Some (x_amz_algorithm info);
  fs_fresh : fresh (config c) d;
  fs_scope : scope_ok c cred d sk;
  fs_signature : calculate_signature (policy info) sk d (aws_region cred) (aws_service cred) = Some (x_amz_signature info)
}.

Inductive authenticated (c : SignatureContext) : CredentialsExt -> Prop :=
| by_v4_header a d payload pairs sk :
    header_signed c a d payload pairs sk -> authenticated c (v4_credentials (credential a) sk)
| by_v4_presigned u cs pairs sk :
    allow_presigned_url (config c) = true -> url_signed c u cs pairs sk ->
    authenticated c (v4_credentials (pre_credential u) sk)
| by_v4_post form info cred d p sk :
    submitted c form -> allow_post_signature (config c) = true -> form_signed c form info cred d p sk ->
    authenticated c (v4_credentials cred sk)
| by_v2_header val a t headers sk :
    enable_sig_v2 (config c) = true ->
    get_unique_header_str (hs c) (str "authorization") = Some val -> AuthorizationV2_parse val = Some a ->
    v2_dated (hs c) t -> near (config c) t -> key_of c (v2_access_key a) sk ->
    sig_v2_headers (hs c) = Ok headers -> amz_included (hs c) headers ->
    v2_signature a = calculate_signature_v2 sk (v2_signed_text HeaderAuth c headers) ->
    authenticated c (v2_credentials (v2_access_key a) sk)
| by_v2_presigned u headers sk :
    enable_sig_v2 (config c) = true -> allow_presigned_url (config c) = true ->
    PresignedUrlV2_parse (arrived_query c) = Some u -> (now <= nanos (expires_time u))%Z ->
    key_of c (v2_url_access_key u) sk -> sig_v2_headers (hs c) = Ok headers -> amz_included (hs c) headers ->
    v2_url_signature u = calculate_signature_v2 sk (v2_signed_text PresignedUrl c headers) ->
    authenticated c (v2_credentials (v2_url_access_key u) sk)
| by_v2_post form info sk :
    enable_sig_v2 (config c) = true -> submitted c form -> allow_post_signature (config c) = true ->
    PostSignatureV2_extract (fields form) = Ok info -> key_of c (v2_access_key_id info) sk ->
    v2_post_signature info = calculate_signature_v2 sk (v2_policy info) ->
    authenticated c (v2_credentials (v2_access_key_id info) sk).
End Spec.

(** ** Soundness *)

Section Sound.
Context `{CheckDeps}.
Context (now : Z).
Implicit Types c : SignatureContext.

Lemma extract_authorization_ok hs a :
  extract_authorization_v4 hs = Ok (Some a) ->
  exists val, get_unique_header_str hs (str "authorization") = Some val /\ AuthorizationV4_parse val = Ok a.
Proof.
  unfold extract_authorization_v4. destruct (get_unique_header_str _ _) as [val|]; [|done].
  destruct (AuthorizationV4_parse val) as [x|[]] eqn:E; try done. intros [= ->]. eauto.
Qed.

Lemma extract_date_ok hs d :
  extract_amz_date hs = Ok (Some d) ->
  exists dv, get_unique_header_str hs (str "x-amz-date") = Some dv /\ AmzDate_parse dv = Some d.
Proof.
  unfold extract_amz_date. destruct (get_unique_header_str _ _) as [val|]; [|done].
  destruct (AmzDate_parse val) as [x|] eqn:E; [|done]. intros [= ->]. eauto.
Qed.

Lemma host_fallback_eq c name : signed_host_fallback c name = host_fallback c name.
Proof. unfold signed_host_fallback, host_fallback. by destruct (name =? str "host"), (req_version c). Qed.

Lemma signed_pairs_fallback c names pairs :
  signed_pairs (hs c) (signed_host_fallback c) names pairs -> signed_pairs (hs c) (host_fallback c) names pairs.
Proof.
  assert (E : forall name, signed_values (hs c) (signed_host_fallback c) name = signed_values (hs c) (host_fallback c) name).
  { intros name. unfold signed_values. by rewrite host_fallback_eq. }
  intros [-> Hp]. split; [f_equal; by apply map_ext|]. eapply Forall_impl; [exact Hp|]. intros name [Hu Hn]. by rewrite <- E.
Qed.

Lemma v2_time_ok hs x t :
  match get_unique_header_str hs (str "date") with
  | Some date => Some date
  | None => get_unique_header_str hs (str "x-amz-date")
  end = Some x ->
  v2_request_time hs x = Ok t -> v2_dated hs t.
Proof.
  unfold v2_request_time, v2_dated. intros Hx E. destruct (get_unique_header_str hs (str "x-amz-date")) as [y|].
  - apply result_bind_ok in E as (d & Hd%ok_or_Ok & Ht%ok_or_Ok). by exists d.
  - apply result_bind_ok in E as (ts & Hd%ok_or_Ok & Ht%ok_or_Ok). exists x, ts. by destruct (get_unique_header_str hs (str "date")).
Qed.

Lemma sig_v2_loop_ok hs headers l : sig_v2_loop hs headers = Ok l ->
  (forall x, x ∈ headers -> x ∈ l) /\ amz_included hs l.
Proof.
  unfold amz_included. revert headers. induction hs as [|[n v] hs IH]; intros headers; cbn [sig_v2_loop].
  { intros [= <-]. split; [done|]. by intros ? ? ?%elem_of_nil. }
  unfold header_value_to_str. destruct (utf8_valid v).
  - intros [Hk Ha]%IH. split; [intros x Hx; apply Hk, elem_of_app; by left|]. intros name value [[= -> ->]|Hin]%elem_of_cons Hn.
    + apply Hk, elem_of_app. right. by left.
    + by apply Ha.
  - destruct (starts_with (str "x-amz-") n) eqn:En; [done|]. intros [Hk Ha]%IH. split; [done|].
    intros name value [[= -> ->]|Hin]%elem_of_cons Hn; [by rewrite En in Hn|by apply Ha].
Qed.

Lemma from_hex_ok s t : from_hex s = Some t -> t = s.
Proof. unfold from_hex. by destruct (is_sha256_checksum s); intros [= <-]. Qed.

Lemma from_base64_ok s t : Signature_from_base64 s = Some t -> t = s.
Proof.
  unfold Signature_from_base64. repeat (case_test; [done|]). intros (n & _ & E)%bind_Some.
  by destruct (n =? 20)%Z; simplify_eq.
Qed.

Lemma set_body_same c : set_body (req_body c) c = c.
Proof. by destruct c. Qed.

Lemma v4_fresh d config : validate_sig_v4_clock_skew d now config = Ok tt -> fresh now config d.
Proof.
  unfold validate_sig_v4_clock_skew. intros (t & Ht%ok_or_Ok & E%clock_skew_ok)%result_bind_ok. by exists t.
Qed.

Lemma presigned_unexpired config d expires :
  check_presigned_expiry now config d expires = Ok tt -> unexpired now config d expires.
Proof.
  unfold check_presigned_expiry. intros (t & Ht%ok_or_Ok & E)%result_bind_ok.
  apply result_bind_ok in E as (dur & Hd%ok_or_Ok%jiff_duration_since_spec & E). subst dur. exists t. split; [done|].
  destruct (_ && _) eqn:E1; [done|]. destruct (_ <? _)%Z eqn:E2 in E; [done|]. reflect_bools. split; [done|]. intros Hn.
  rewrite (proj2 (Z.ltb_lt _ 0)) in E1 by lia. cbn [andb] in E1. reflect_bools. lia.
Qed.

Lemma header_payload_ok service o c c1 p :
  header_payload service o c = Some (c1, Ok p) ->
  exists b, c1 = set_body b c /\
  match o with
  | Some cs => b = req_body c /\ payload_of cs = Some p
  | None => service = str "sts" /\
      exists x, store_all_limited (req_body c) MAX_STS_BODY_SIZE = (b, Ok x) /\ p = SingleChunk (hex_sha256 x)
  end.
Proof.
  intros E. destruct o as [cs|].
  - exists (req_body c). rewrite set_body_same. destruct cs; simpl in E; run_ok; done.
  - cbn [header_payload] in E. case_bool_decide as Hs; [|by run_ok]. run_ok.
    destruct (store_all_limited (req_body c) MAX_STS_BODY_SIZE) as [b r]. run_ok.
    destruct r as [x|]; [|done]. simpl in *. simplify_eq. exists b. eauto.
Qed.

Ltac run_all := run_ok; repeat match goal with u : unit |- _ => destruct u end.

Lemma key_of_intro c get_secret_key ak sk :
  require_auth (auth c) = Ok get_secret_key -> get_secret_key ak = Ok sk -> key_of c ak sk.
Proof. intros E%ok_or_Ok Hk. by exists get_secret_key. Qed.

(** Turns the guards of a run into what they establish. *)
Ltac guards :=
  repeat match goal with
  | H1 : extract_authorization_v4 _ = Ok ?x, H2 : ?x = Some _ |- _ => subst x; apply extract_authorization_ok in H1
  | H1 : extract_amz_date _ = Ok ?x, H2 : ?x = Some _ |- _ => subst x; apply extract_date_ok in H1
  | H1 : from_hex _ = Some _ |- _ => apply from_hex_ok in H1; subst
  | H1 : validate_sig_v4_clock_skew _ _ _ = Ok _ |- _ => apply v4_fresh in H1
  | H1 : validate_clock_skew _ _ _ = Ok _ |- _ => apply clock_skew_ok in H1
  | H1 : check_presigned_expiry _ _ _ _ = Ok _ |- _ => apply presigned_unexpired in H1
  | H1 : validate_sig_v4_region _ _ = Ok _ |- _ => apply validate_region_ok in H1
  | H1 : validate_sig_v4_service _ _ = Ok _ |- _ => apply service_ok in H1
  | H1 : collect_signed_headers _ _ _ = Ok _ |- _ => apply collect_signed_ok, signed_pairs_fallback in H1
  | H1 : v2_request_time _ _ = Ok _ |- _ => eapply v2_time_ok in H1; [|eassumption]
  | H1 : reject_unsigned_amz_headers _ _ _ = Ok _ |- _ => apply reject_unsigned_ok in H1
  | H1 : header_payload _ _ _ = Some (_, Ok _) |- _ => apply header_payload_ok in H1 as (? & -> & ?)
  | H1 : verify_with_raw_path_fallback _ _ _ = Some (Ok _) |- _ => apply verify_ok in H1 as [-> ?]
  | H1 : require_auth (auth ?c) = Ok ?f, H2 : ?f ?ak = Ok ?sk |- _ =>
      pose proof (key_of_intro c f ak sk H1 H2); clear H1 H2
  | H1 : ?x = Ok _, H2 : _ = Some ?x |- _ => subst x
  end.

Lemma signs_ext v f g : (forall raw, f raw = g raw) -> signs v f -> signs v g.
Proof. intros E (raw & text & s & Hf & Hr). exists raw, text, s. by rewrite <- E. Qed.

Lemma v4_header_sound c c' cred :
  v4_check_header_auth now c = Some (c', Ok cred) ->
  exists a d payload pairs sk o b, header_signed now c a d payload pairs sk /\ cred = v4_credentials (credential a) sk /\
    extract_amz_content_sha256 (hs c) = Ok o /\
    match o with
    | Some cs => b = req_body c /\ payload_of cs = Some payload
    | None => exists x, store_all_limited (req_body c) MAX_STS_BODY_SIZE = (b, Ok x) /\ payload = SingleChunk (hex_sha256 x)
    end /\
    header_body o d (aws_region (credential a)) (aws_service (credential a)) sk (auth_signature a) (set_body b c) =
      Some (c', Ok tt).
Proof.
  unfold v4_check_header_auth. intros E. run_all. guards.
  match goal with
  | Ha : exists val, _ /\ AuthorizationV4_parse val = Ok ?a, Hp : create_canonical_request _ _ _ ?pairs ?payload = Some _,
    Hb : header_body ?o ?d _ _ ?sk _ (set_body ?b _) = _ |- _ => exists a, d, payload, pairs, sk, o, b
  end.
  split; [|split; [reflexivity|split; [eassumption|split; [|eassumption]]]].
  - constructor; try eassumption.
    + constructor; eassumption.
    + eexists. split; [eassumption|].
      match goal with H : match ?o with _ => _ end |- _ => destruct o; [by destruct H|]; destruct H as (? & ? & Hs & ?) end.
      split; [done|]. eexists. by rewrite Hs.
    + eapply signs_ext; [|eassumption]. intros []; [reflexivity|]. symmetry. assumption.
  - match goal with H : match ?o with _ => _ end |- _ => by destruct o; [|destruct H] end.
Qed.

(** The body once it is checked while it is read. *)
Lemma check_body_hash_ok want c c' u :
  check_body_hash want c = Some (c', Ok u) ->
  exists n, upload_length c = Ok n /\
    c' = set_checked (UploadStream_new (answers (req_body c)) n want) (take_body c).
Proof. unfold check_body_hash. intros E. run_ok. eauto. Qed.

Lemma v4_presigned_sound c c' cred :
  v4_check_presigned_url now c = Some (c', Ok cred) ->
  exists u cs pairs sk, url_signed now c u cs pairs sk /\ cred = v4_credentials (pre_credential u) sk /\
    match cs with
    | Some (CsSingleChunk h) => exists n, upload_length c = Ok n /\
        c' = set_checked (UploadStream_new (answers (req_body c)) n h) (take_body c)
    | _ => c' = c
    end.
Proof.
  unfold v4_check_presigned_url. intros E. run_all. guards.
  match goal with
  | Hp : PresignedUrlV4_parse _ _ = Some ?u, Hc : create_presigned_canonical_request _ _ _ ?pairs = Some _,
    Ho : extract_amz_content_sha256 _ = Ok ?o, Hk : key_of _ _ ?sk |- _ => exists u, o, pairs, sk
  end.
  split; [|split; [reflexivity|]].
  - constructor; try eassumption.
    + by intros v ->.
    + constructor; eassumption.
    + eapply signs_ext; [|eassumption]. intros []; [reflexivity|]. symmetry. assumption.
  - match goal with H : match ?o with _ => _ end _ = Some (_, Ok _) |- _ => destruct o as [[]|] end;
      first [by run_all | match goal with H : check_body_hash _ _ = _ |- _ => by apply check_body_hash_ok in H end].
Qed.

Lemma v4_post_sound form c c' cred :
  v4_check_post_signature now form c = Some (c', Ok cred) ->
  (exists info v4 d p sk, form_signed now c form info v4 d p sk /\ cred = v4_credentials v4 sk) /\
  c' = set_multipart form c.
Proof.
  unfold v4_check_post_signature. intros E. run_all. guards. split; [|done]. eexists _, _, _, _, _. split; [|reflexivity].
  assert (Hm : forall {A B} (f : A -> S3ErrorCode) (r : result A B) b, map_err f r = Ok b -> r = Ok b) by (intros ? ? ? [] ?; simpl; congruence).
  repeat match goal with
  | H1 : map_err _ _ = Ok _ |- _ => apply Hm in H1
  | H1 : mbind from_computed _ = Some _ |- _ => apply bind_Some in H1 as (? & ? & ->%from_computed_Some)
  | H1 : negb (compare _ _) = false |- _ => apply negb_false_iff, bool_decide_eq_true in H1
  end.
  subst. constructor; try eassumption. constructor; eassumption.
Qed.

Lemma v2_compare_ok sk text given c c' u :
  v2_compare sk text given c = Some (c', Ok u) -> c' = c /\ given = calculate_signature_v2 sk text.
Proof.
  unfold v2_compare. rewrite computed_v2. intros E. run_all. simplify_eq. split; [done|].
  match goal with H1 : Signature_from_base64 _ = _ |- _ => apply from_base64_ok in H1 end. subst.
  match goal with H1 : negb (compare _ _) = false |- _ => apply negb_false_iff, bool_decide_eq_true in H1 end. done.
Qed.

Lemma v2_enabled_ok c c' u : ensure_v2_enabled c = Some (c', Ok u) -> c' = c /\ enable_sig_v2 (config c) = true.
Proof. unfold ensure_v2_enabled. intros E. run_all. split; [done|]. by apply negb_false_iff. Qed.

Lemma presigned_enabled_ok c c' u :
  ensure_presigned_url_enabled c = Some (c', Ok u) -> c' = c /\ allow_presigned_url (config c) = true.
Proof. unfold ensure_presigned_url_enabled. intros E. run_all. split; [done|]. by apply negb_false_iff. Qed.

Lemma post_enabled_ok c c' u :
  ensure_post_signature_enabled c = Some (c', Ok u) -> c' = c /\ allow_post_signature (config c) = true.
Proof. unfold ensure_post_signature_enabled. intros E. run_all. split; [done|]. by apply negb_false_iff. Qed.

Ltac enabled :=
  repeat match goal with
  | H1 : ensure_v2_enabled _ = Some (_, Ok _) |- _ => apply v2_enabled_ok in H1 as [-> ?]
  | H1 : ensure_presigned_url_enabled _ = Some (_, Ok _) |- _ => apply presigned_enabled_ok in H1 as [-> ?]
  | H1 : ensure_post_signature_enabled _ = Some (_, Ok _) |- _ => apply post_enabled_ok in H1 as [-> ?]
  | H1 : v2_compare _ _ _ _ = Some (_, Ok _) |- _ => apply v2_compare_ok in H1 as [-> ?]
  end.

Lemma v2_header_sound val a c c' cred :
  get_unique_header_str (hs c) (str "authorization") = Some val -> AuthorizationV2_parse val = Some a ->
  v2_check_header_auth now a c = Some (c', Ok cred) -> authenticated now c cred /\ c' = c.
Proof.
  intros Hv Ha. unfold v2_check_header_auth. intros E. run_all. enabled. run_all. enabled. guards. split; [|done].
  eapply by_v2_header; try eassumption. by eapply sig_v2_loop_ok.
Qed.

Lemma v2_presigned_sound c c' cred :
  allow_presigned_url (config c) = true ->
  v2_check_presigned_url now c = Some (c', Ok cred) -> authenticated now c cred /\ c' = c.
Proof.
  intros Hp. unfold v2_check_presigned_url. intros E. run_all. enabled. run_all. enabled. guards. split; [|done].
  reflect_bools. eapply by_v2_presigned; try eassumption. by eapply sig_v2_loop_ok.
Qed.

Lemma v2_post_sound form c c' cred :
  v2_check_post_signature form c = Some (c', Ok cred) ->
  (exists info sk, enable_sig_v2 (config c) = true /\ PostSignatureV2_extract (fields form) = Ok info /\
     key_of c (v2_access_key_id info) sk /\ v2_post_signature info = calculate_signature_v2 sk (v2_policy info) /\
     cred = v2_credentials (v2_access_key_id info) sk) /\
  c' = set_multipart form c.
Proof.
  unfold v2_check_post_signature. intros E. run_all. enabled. run_all. enabled. guards. split; [|done].
  match goal with H1 : map_err _ ?r = Ok _ |- _ => destruct r as [info|] eqn:Hi; [|done]; injection H1 as -> end.
  eauto 10.
Qed.
End Sound.

(** ** The checks return *)

Section Total.
Context `{CheckDeps}.
Context (now : Z).
Implicit Types c : SignatureContext.

Lemma panic_is_some {St A} (o : option A) (c : St) : is_some o = true -> returns (panic_none o) c.
Proof. intros Ho. apply panic_returns. by destruct o. Qed.

Lemma parsed_date_ok s d : AmzDate_parse s = Some d -> date_ok d = true.
Proof. by intros [Hd _]%AmzDate_parse_ok. Qed.

Lemma header_date_ok hs o d : extract_amz_date hs = Ok o -> o = Some d -> date_ok d = true.
Proof. intros E ->. apply extract_date_ok in E as (dv & _ & E). by eapply parsed_date_ok. Qed.

Lemma url_date_ok q m u : PresignedUrlV4_parse q m = Some u -> date_ok (pre_amz_date u) = true.
Proof.
  unfold PresignedUrlV4_parse. intros E. repeat (apply bind_Some in E as (? & ? & E)). repeat (case_test; [done|]).
  simplify_eq. cbn [pre_amz_date]. by eapply parsed_date_ok.
Qed.

Lemma fmt_date_some d : date_ok d = true -> is_some (fmt_date d) = true.
Proof. intros Hd. by rewrite fmt_date_ok. Qed.

Lemma canonical_some method path q headers payload raw :
  is_some (create_canonical_request_with_uri_mode method path q headers payload raw) = true.
Proof. by rewrite canonical_request_lines. Qed.

Lemma presigned_some method path q headers raw :
  is_some (create_presigned_canonical_request_with_uri_mode method path q headers raw) = true.
Proof. by rewrite presigned_request_lines. Qed.

Lemma verify_is_some v text raw :
  date_ok (vc_amz_date v) = true -> is_some raw = true -> is_some (verify_with_raw_path_fallback v text raw) = true.
Proof. intros Hd Hr. by destruct (verify_some v text raw Hd Hr) as [? ->]. Qed.

Lemma calculated_some s key d region service :
  date_ok d = true -> is_some (calculate_signature s key d region service ≫= from_computed) = true.
Proof. intros Hd. destruct (calculate_signature_some s key d region service Hd) as (sig & -> & E). simpl. by rewrite E. Qed.

Hint Resolve panic_is_some parsed_date_ok header_date_ok url_date_ok fmt_date_some canonical_some presigned_some
  verify_is_some calculated_some : total.

Lemma header_payload_returns service o c : returns (header_payload service o) c.
Proof.
  destruct o as [[]|]; cbn [header_payload]; try by eexists. case_bool_decide; [|by eexists]. steps.
  destruct (store_all_limited _ _). steps.
Qed.

Lemma check_body_hash_returns want c : returns (check_body_hash want) c.
Proof. unfold check_body_hash. steps. Qed.

Lemma header_body_returns o d region service sk sig c : returns (header_body o d region service sk sig) c.
Proof.
  unfold header_body. step. destruct (match o with Some v => is_streaming v | None => false end).
  - steps.
  - destruct o as [[]|]; try by eexists. apply check_body_hash_returns.
Qed.
Hint Resolve header_payload_returns check_body_hash_returns header_body_returns : total.

Lemma header_auth_returns c : returns (v4_check_header_auth now) c.
Proof. unfold v4_check_header_auth. steps. Qed.

Lemma presigned_returns c : returns (v4_check_presigned_url now) c.
Proof.
  unfold v4_check_presigned_url. steps.
  match goal with |- returns (match ?o with _ => _ end) _ => destruct o as [[]|] end; eauto with total; by eexists.
Qed.

Lemma v4_post_returns form c : returns (v4_check_post_signature now form) c.
Proof. unfold v4_check_post_signature. steps. Qed.

Lemma v2_compare_returns sk text given c : returns (v2_compare sk text given) c.
Proof. unfold v2_compare. rewrite computed_v2. steps. Qed.
Hint Resolve v2_compare_returns : total.

Lemma v2_header_returns a c : returns (v2_check_header_auth now a) c.
Proof. unfold v2_check_header_auth. steps. Qed.

Lemma v2_presigned_returns c : returns (v2_check_presigned_url now) c.
Proof. unfold v2_check_presigned_url. steps. Qed.

Lemma v2_post_returns form c : returns (v2_check_post_signature form) c.
Proof. unfold v2_check_post_signature. steps. Qed.
Hint Resolve header_auth_returns presigned_returns v4_post_returns v2_header_returns v2_presigned_returns
  v2_post_returns : total.

Lemma check_returns c : limits_ok (form_limits_of (config c)) -> returns (check now) c.
Proof.
  intros Hl. unfold check. step. case_test.
  - unfold check_post_signature. step. step. step. step. apply M_bind_returns.
    { apply panic_is_some. match goal with |- context [transform_multipart ?e ?b ?l ?t] =>
        destruct (transform_ready e b l t Hl) as (r & -> & _) end. done. }
    intros ? ? ?. step. case_test; [|case_test]; steps.
  - apply M_bind_returns.
    + unfold v2_check. step. case_test; [steps|]. case_test; steps.
    + intros c1 [cred|] _; [by eexists|]. unfold v4_check. step. case_test; [steps|]. case_test; steps.
Qed.
End Total.

(** ** The body of an accepted request *)

Section Accepted.
Context `{CheckDeps}.
Context (now : Z).
Implicit Types c : SignatureContext.

(** What a handler that reads the request body to its end gets, and whether the end is clean. *)
Definition read_body (c : SignatureContext) : bytes * bool :=
  match checked_body c with
  | Some s =>
      match drain up_work UploadStream_poll_next s with
      | ((_, l), Ready r) => (concat l, negb (is_some r))
      | ((_, l), Pending) => (concat l, false)
      end
  | None => let '(l, r) := body_read (req_body c) in (concat l, negb (is_some r))
  end.

(** The frames of a body as the chunked stream reads them. *)
Definition chunk_frames (b : Body) : list (result ChunkedStream.StdError bytes) :=
  omap (fun a => match a with Wait => None | Next r => Some (map_err ChunkedStream.BodyError r) end) (answers b).

(** What the transformed body delivers. *)
Definition run_chunked (b : ChunkedBody) : run :=
  @worker check_chunk_deps (chunk_frames (cb_body b)) (cb_seed_signature b) (cb_amz_date b) (cb_region b) (cb_service b)
    (cb_secret_key b) (cb_unsigned b) (cb_max_chunk_size b).

(** Only verified chunks are delivered, in a chain that starts at the signature of the request. *)
Definition chain_from (c : SignatureContext) (a : AuthorizationV4) (d : AmzDate) (sk : bytes) (b : ChunkedBody) : Prop :=
  exists seed key chunks ctx rest, hex_bytes32 seed = auth_signature a /\
    derive_signing_key sk d (aws_region (credential a)) (aws_service (credential a)) = Some key /\
    outcome (run_chunked b) <> OutOfFuel /\
    concat (yields (run_chunked b)) = concat chunks /\
    @verified check_chunk_deps (aws_chunked_stream_max_chunk_size (config c))
      (ctx_of seed d (aws_region (credential a)) (aws_service (credential a)) key) chunks
      (ok_prefix (chunk_frames (req_body c))) ctx rest.

Definition body_ok (c c' : SignatureContext) (a : AuthorizationV4) (d : AmzDate) (sk : bytes) (payload : Payload) : Prop :=
  match payload with
  | SingleChunk h => forall x, read_body c' = (x, true) -> hex_sha256 x = h
  | MultipleChunks | MultipleChunksWithTrailer =>
      exists b, transformed_body c' = Some b /\ decoded_content_length c = Some (cb_decoded_content_length b) /\
        chain_from c a d sk b
  | UnsignedMultipleChunksWithTrailer =>
      exists b, transformed_body c' = Some b /\ decoded_content_length c = Some (cb_decoded_content_length b) /\
        cb_body b = req_body c /\ cb_unsigned b = true
  | Unsigned => c' = c
  end.

(** Lengths are not negative. *)
Definition lengths_ok (c : SignatureContext) : Prop :=
  (forall n, content_length c = Some n -> (0 <= n)%Z) /\
  (forall n, exact (Body_remaining_length (req_body c)) = Some n -> (0 <= n)%Z).

Lemma upload_length_nonneg c n : lengths_ok c -> upload_length c = Ok n -> (0 <= n)%Z.
Proof.
  intros [H1 H2]. unfold upload_length. destruct (content_length c) as [m|].
  - destruct (_ <=? _)%Z; [|done]. intros [= <-]. by apply H1.
  - intros E%ok_or_Ok. by apply H2.
Qed.

Lemma read_checked c inner n want x :
  (0 <= n)%Z -> checked_body c = Some (UploadStream_new inner n want) -> read_body c = (x, true) -> sha256 x = want.
Proof.
  intros Hn Hc. unfold read_body. rewrite Hc.
  destruct (upload_drain inner n want Hn) as (s & l & r & -> & (rest & Hr1 & Hr2) & _ & Hiff & _). cbn [fst snd] in *.
  intros [= <- Hr]. destruct r; [done|]. destruct Hiff as [Ha _]. destruct (Ha eq_refl) as (_ & _ & Hw). cbn [app] in Hw.
  rewrite Hr1, (Hr2 eq_refl), app_nil_r in Hw. done.
Qed.

(** A body in memory is read as it is. *)
Lemma in_memory_read b x : bytes_of b = Some x -> remaining_limit b = None ->
  exists l, body_read b = (l, None) /\ concat l = x.
Proof.
  intros Eb Hl. rewrite body_read_eq. unfold Body.reads. rewrite Hl. unfold bytes_of in Eb.
  destruct (kind b) as [|z| | | |]; try done; injection Eb as <-; [by exists []|].
  cbn. case_bool_decide as E; cbn; [exists []; by rewrite E|exists [z]; split; [done|apply app_nil_r]].
Qed.

Lemma stored_in_memory c b x : store_all_limited (req_body c) MAX_STS_BODY_SIZE = (b, Ok x) ->
  bytes_of b = Some x /\ (remaining_limit (req_body c) = None -> remaining_limit b = None) /\
  (bytes_of (req_body c) = Some x \/ (len x <= MAX_STS_BODY_SIZE)%Z).
Proof.
  unfold store_all_limited. destruct (bytes_of (req_body c)) as [y|] eqn:Eb.
  - destruct (_ <? _)%Z; [done|]. intros [= <- <-]. auto.
  - pose proof (collect_limited_spec (req_body c) MAX_STS_BODY_SIZE) as Hc.
    destruct (collect_limited _ _) as [y|]; [|done]. intros [= <- <-]. split; [done|]. split; [done|]. right.
    destruct (body_read (req_body c)) as [l o]. destruct (_ <? _)%Z eqn:El; [done|]. reflect_bools. destruct o; [done|]. by injection Hc as ->.
Qed.

Lemma stored_read c b x : store_all_limited (req_body c) MAX_STS_BODY_SIZE = (b, Ok x) ->
  remaining_limit (req_body c) = None -> concat (body_read b).1 = x.
Proof.
  intros (Hb & Hr & _)%stored_in_memory Hl. by destruct (in_memory_read b x Hb (Hr Hl)) as (l & -> & <-).
Qed.

Lemma seed_hex sig seed : @Sha256Sum_from_hex check_chunk_deps sig = Some seed -> hex_bytes32 seed = sig.
Proof. intros E. symmetry. exact (@from_hex_Some check_chunk_deps sig seed E). Qed.

Lemma chain_ok c a d sk seed n :
  date_ok d = true -> hex_bytes32 seed = auth_signature a ->
  chain_from c a d sk
    {| cb_body := req_body c; cb_seed_signature := seed; cb_amz_date := d; cb_region := aws_region (credential a);
       cb_service := aws_service (credential a); cb_secret_key := sk; cb_decoded_content_length := n;
       cb_unsigned := false; cb_max_chunk_size := aws_chunked_stream_max_chunk_size (config c) |}.
Proof.
  intros Hd Hs. unfold chain_from, run_chunked, worker.
  cbn [cb_body cb_seed_signature cb_amz_date cb_region cb_service cb_secret_key cb_unsigned cb_max_chunk_size].
  assert (Hk : exists key, derive_signing_key sk d (aws_region (credential a)) (aws_service (credential a)) = Some key).
  { unfold derive_signing_key. rewrite fmt_date_ok by done. by eexists. }
  destruct Hk as [key Hk]. pose proof Hk as Hk'. change (@auth_sig _) with (@chunk_sig_deps check_chunk_deps) in Hk'. rewrite Hk'.
  destruct (@worker_loop_backed check_chunk_deps (S (length (ok_prefix (chunk_frames (req_body c)))))
    (aws_chunked_stream_max_chunk_size (config c)) (ctx_of seed d (aws_region (credential a)) (aws_service (credential a)) key)
    (chunk_frames (req_body c)) []) as (chunks & ctx & rest & Hy & Hv & _).
  exists seed, key, chunks, ctx, rest. split; [done|]. split; [done|]. split.
  - apply (@worker_loop_fuel check_chunk_deps). unfold flat. simpl. lia.
  - split; [exact Hy|exact Hv].
Qed.
End Accepted.

Section Final.
Context `{CheckDeps}.
Context (now : Z).
Implicit Types c : SignatureContext.

Lemma header_body_ok o d region service sk sig c c' u :
  header_body o d region service sk sig c = Some (c', Ok u) ->
  match o with
  | Some (CsSingleChunk h) => exists n, upload_length c = Ok n /\
      c' = set_checked (UploadStream_new (answers (req_body c)) n h) (take_body c)
  | Some UnsignedPayload | None => c' = c
  | Some v => exists seed n, @Sha256Sum_from_hex check_chunk_deps sig = Some seed /\ decoded_content_length c = Some n /\
      transformed_body c' = Some
        {| cb_body := req_body c; cb_seed_signature := seed; cb_amz_date := d; cb_region := region; cb_service := service;
           cb_secret_key := sk; cb_decoded_content_length := n;
           cb_unsigned := match v with StreamingUnsignedPayloadTrailer => true | _ => false end;
           cb_max_chunk_size := aws_chunked_stream_max_chunk_size (config c) |}
  end.
Proof.
  unfold header_body. intros E. run_ok. destruct o as [[]|]; cbn [is_streaming] in *; run_ok;
    first [done | by eapply check_body_hash_ok | eexists _, _; split; [eassumption|]; split; [eassumption|done]].
Qed.

(** What becomes of the body fits the payload that was signed. *)
Lemma header_body_fits c c' a d payload sk o b u :
  checked_body c = None -> remaining_limit (req_body c) = None -> lengths_ok c -> date_ok d = true ->
  match o with
  | Some cs => b = req_body c /\ payload_of cs = Some payload
  | None => exists x, store_all_limited (req_body c) MAX_STS_BODY_SIZE = (b, Ok x) /\ payload = SingleChunk (hex_sha256 x)
  end ->
  header_body o d (aws_region (credential a)) (aws_service (credential a)) sk (auth_signature a) (set_body b c) = Some (c', Ok u) ->
  body_ok c c' a d sk payload.
Proof.
  intros Hc Hl Hlen Hd Ho Hb. apply header_body_ok in Hb. destruct o as [cs|].
  - destruct Ho as [-> Hp]. rewrite set_body_same in Hb. destruct cs; try discriminate Hp; injection Hp as <-; cbn [body_ok].
    + destruct Hb as (n & Hn & ->). intros x Hx. apply (read_checked _ (answers (req_body c)) n digest) in Hx; [|by eapply upload_length_nonneg|done].
      unfold hex_sha256. by rewrite Hx.
    + done.
    + destruct Hb as (seed & n & _ & Hn & ->). eexists. split; [reflexivity|]. done.
    + destruct Hb as (seed & n & Hs & Hn & ->). eexists. split; [reflexivity|]. split; [done|]. apply chain_ok; [done|by apply seed_hex].
    + destruct Hb as (seed & n & Hs & Hn & ->). eexists. split; [reflexivity|]. split; [done|]. apply chain_ok; [done|by apply seed_hex].
  - destruct Ho as (x & Hs & ->). subst c'. cbn [body_ok]. intros y. unfold read_body. cbn [set_body with_bodies checked_body req_body].
    rewrite Hc. pose proof (stored_read c b x Hs Hl) as Hr. destruct (body_read b) as [l r]. cbn [fst] in Hr. subst x. by intros [= <- _].
Qed.

Lemma v2_check_sound c c' r :
  v2_check now c = Some (c', Ok r) ->
  c' = c /\ match r with
            | Some cred => authenticated now c cred
            | None => match qs c with Some q => has q (str "Signature") | None => false end = false
            end.
Proof.
  unfold v2_check. intros E. run_ok. destruct (match qs c with Some q => has q (str "Signature") | None => false end) eqn:Eq.
  - run_ok. match goal with H1 : ensure_presigned_url_enabled _ = _ |- _ => apply presigned_enabled_ok in H1 as [-> Hp] end.
    match goal with H1 : v2_check_presigned_url _ _ = _ |- _ => by apply v2_presigned_sound in H1 as [? ->] end.
  - destruct (get_unique_header_str (hs c) (str "authorization")) as [val|] eqn:Ev; cbn [mbind option_bind] in *; [|by run_ok].
    destruct (AuthorizationV2_parse val) as [a|] eqn:Ea; [|by run_ok]. run_ok.
    match goal with H1 : v2_check_header_auth _ _ _ = _ |- _ => by apply (v2_header_sound now val) in H1 as [? ->] end.
Qed.

Lemma v4_check_sound c c' r :
  v4_check now c = Some (c', Ok r) ->
  match r with
  | Some cred =>
      (exists u cs pairs sk, allow_presigned_url (config c) = true /\ url_signed now c u cs pairs sk /\
         cred = v4_credentials (pre_credential u) sk /\ v4_check_presigned_url now c = Some (c', Ok cred)) \/
      (exists a d payload pairs sk, header_signed now c a d payload pairs sk /\ cred = v4_credentials (credential a) sk /\
         v4_check_header_auth now c = Some (c', Ok cred))
  | None => c' = c /\ match qs c with Some q => has q (str "X-Amz-Signature") | None => false end = false /\
      get_unique_header_str (hs c) (str "authorization") = None
  end.
Proof.
  unfold v4_check. intros E. run_ok. destruct (match qs c with Some q => has q (str "X-Amz-Signature") | None => false end) eqn:Eq.
  - run_ok. match goal with H1 : ensure_presigned_url_enabled _ = _ |- _ => apply presigned_enabled_ok in H1 as [-> Hp] end.
    match goal with H1 : v4_check_presigned_url _ _ = _ |- _ =>
      pose proof (v4_presigned_sound now _ _ _ H1) as (u & cs & pairs & sk & Hu & -> & _) end. left. eauto 10.
  - destruct (get_unique_header_str (hs c) (str "authorization")) as [val|] eqn:Ev; cbn [is_some] in *; run_ok; [|done].
    match goal with H1 : v4_check_header_auth _ _ = _ |- _ =>
      pose proof (v4_header_sound now _ _ _ H1) as (a & d & payload & pairs & sk & o & b & Hh & -> & _) end. right. eauto 10.
Qed.

(** No credentials were given: the request is anonymous. *)
Definition anonymous c c' : Prop :=
  if is_post_form c then
    exists form, submitted c form /\ c' = set_multipart form (take_body c) /\
      find_field_value form (str "x-amz-signature") = None /\ find_field_value form (str "signature") = None
  else
    c' = c /\ get_unique_header_str (hs c) (str "authorization") = None /\
    forall q, qs c = Some q -> has q (str "Signature") = false /\ has q (str "X-Amz-Signature") = false.

Lemma is_some_false {A} (o : option A) : is_some o = false -> o = None.
Proof. by destruct o. Qed.

Lemma check_post_sound c c' r :
  is_post_form c = true -> check_post_signature now c = Some (c', Ok r) ->
  match r with Some cred => authenticated now c cred | None => anonymous c c' end.
Proof.
  intros Hp. unfold check_post_signature. intros E. run_ok.
  match goal with H1 : (match transform_multipart ?e ?b ?l ?t with _ => _ end) = Some ?f, H2 : map_err _ ?f = Ok ?form |- _ =>
    destruct (transform_multipart e b l t) as [[form'|]|] eqn:Et; simplify_eq/=;
    assert (Hsub : submitted c form) by (split; [done|]; eexists _, _; split_and!; eassumption) end.
  destruct (is_some (find_field_value _ (str "x-amz-signature"))) eqn:E4;
    [|destruct (is_some (find_field_value _ (str "signature"))) eqn:E2]; run_ok;
    try match goal with H1 : ensure_post_signature_enabled _ = _ |- _ => apply post_enabled_ok in H1 as [-> Hen] end.
  - match goal with H1 : v4_check_post_signature _ _ _ = _ |- _ =>
      apply v4_post_sound in H1 as ((info & v4 & d & p & sk & [] & ->) & _) end.
    eapply by_v4_post; try done. constructor; try eassumption. destruct fs_scope0. by constructor.
  - match goal with H1 : v2_check_post_signature _ _ = _ |- _ =>
      apply v2_post_sound in H1 as ((info & sk & ? & ? & ? & ? & ->) & _) end.
    by eapply by_v2_post.
  - unfold anonymous. rewrite Hp. eexists. split; [done|]. split; [done|]. split; by apply is_some_false.
Qed.
Lemma check_sound c c' r :
  check now c = Some (c', Ok r) -> match r with Some cred => authenticated now c cred | None => anonymous c c' end.
Proof.
  intros E. unfold check in E. run_ok. destruct (is_post_form c) eqn:Hp.
  { by apply (check_post_sound c c' r Hp). }
  apply M_bind_ok in H1 as (c1 & [cred|] & H1 & H2); apply v2_check_sound in H1 as [-> H1]; [by run_ok|].
  apply v4_check_sound in H2. destruct r as [cred|].
  - destruct H2 as [(u & cs & pairs & sk & Ha & Hu & -> & _)|(a & d & payload & pairs & sk & Hh & -> & _)].
    + by eapply by_v4_presigned.
    + by eapply by_v4_header.
  - destruct H2 as (-> & Hq & Hv). unfold anonymous. rewrite Hp. split; [done|]. split; [done|]. intros q Hqs.
    by rewrite Hqs in *.
Qed.
(** A form is only left behind by a POST of one, and then it is the form of the body. *)
Lemma header_body_form o d region service sk sig c c' u :
  header_body o d region service sk sig c = Some (c', Ok u) -> multipart c' = multipart c.
Proof.
  intros E. pose proof (header_body_ok _ _ _ _ _ _ _ _ _ E) as Ho. unfold header_body in E. run_ok.
  destruct o as [[]|]; cbn [is_streaming] in *; run_ok; try done; [by destruct Ho as (? & _ & ->)|by rewrite Ho..].
Qed.

Lemma header_body_limit o d region service sk sig c c' u :
  header_body o d region service sk sig c = Some (c', Ok u) -> remaining_limit (req_body c) = None ->
  remaining_limit (req_body c') = None.
Proof.
  intros E. pose proof (header_body_ok _ _ _ _ _ _ _ _ _ E) as Ho. unfold header_body in E. run_ok.
  destruct o as [[]|]; cbn [is_streaming] in *; run_ok; try done; [by destruct Ho as (? & _ & ->)|by rewrite Ho..].
Qed.

(** A form takes the place of the body it was read from. *)
Lemma check_post_left c c' r :
  check_post_signature now c = Some (c', Ok r) -> is_post_form c = true ->
  exists form, submitted c form /\ c' = set_multipart form (take_body c).
Proof.
  unfold check_post_signature. intros E Hp. run_ok.
  match goal with H1 : (match transform_multipart ?e ?b ?l ?t with _ => _ end) = Some ?f, H2 : map_err _ ?f = Ok ?form |- _ =>
    destruct (transform_multipart e b l t) as [[form'|]|] eqn:Et; simplify_eq/=;
    exists form; split; [by split; [done|]; eexists _, _; split_and!; eassumption|] end.
  destruct (is_some (find_field_value _ (str "x-amz-signature")));
    [|destruct (is_some (find_field_value _ (str "signature")))]; run_ok;
    try match goal with H1 : ensure_post_signature_enabled _ = _ |- _ => apply post_enabled_ok in H1 as [-> Hen] end.
  - match goal with H1 : v4_check_post_signature _ _ _ = _ |- _ => by apply v4_post_sound in H1 as (_ & ->) end.
  - match goal with H1 : v2_check_post_signature _ _ = _ |- _ => by apply v2_post_sound in H1 as (_ & ->) end.
  - done.
Qed.

Lemma check_form c c' r :
  check now c = Some (c', Ok r) -> multipart c = None ->
  match multipart c' with Some form => submitted c form | None => is_post_form c = false end.
Proof.
  intros E Hm. unfold check in E. run_ok. destruct (is_post_form c) eqn:Hp.
  { match goal with H1 : check_post_signature _ _ = _ |- _ => by apply check_post_left in H1 as (form & ? & ->) end. }
  apply M_bind_ok in H1 as (c1 & [cred|] & H1 & H2); apply v2_check_sound in H1 as [-> H1]; [run_ok; by rewrite Hm|].
  apply v4_check_sound in H2. destruct r as [cred|]; [|by destruct H2 as (-> & _); rewrite Hm].
  assert (Hc : multipart c' = None); [|by rewrite Hc].
  destruct H2 as [(? & ? & ? & ? & _ & _ & _ & E)|(? & ? & ? & ? & ? & _ & _ & E)].
  - apply v4_presigned_sound in E as (u & cs & ? & ? & _ & _ & Hb). destruct cs as [[]|]; [destruct Hb as (? & _ & ->)|subst c'..]; done.
  - apply v4_header_sound in E as (? & ? & ? & ? & ? & ? & b & _ & _ & _ & _ & Hb). by rewrite (header_body_form _ _ _ _ _ _ _ _ _ Hb).
Qed.
(** The check puts a body in memory only to hash it for a request without a payload hash, and then
    it is small. *)
Lemma check_in_memory c c' r x :
  check now c = Some (c', Ok r) -> checked_body c' = None -> transformed_body c' = None -> bytes_of (req_body c') = Some x ->
  bytes_of (req_body c) = Some x \/ (len x <= MAX_STS_BODY_SIZE)%Z.
Proof.
  intros E Hn Ht Hx. unfold check in E. run_ok. destruct (is_post_form c) eqn:Hp.
  { match goal with H1 : check_post_signature _ _ = _ |- _ => apply check_post_left in H1 as (form & _ & ->); [|done] end.
    injection Hx as <-. by right. }
  apply M_bind_ok in H1 as (c1 & [cred|] & H1 & H2); apply v2_check_sound in H1 as [-> H1]; [run_ok; by left|].
  apply v4_check_sound in H2. destruct r as [cred|]; [|destruct H2 as (-> & _); by left].
  destruct H2 as [(? & ? & ? & ? & _ & _ & _ & E)|(? & ? & ? & ? & ? & _ & _ & E)].
  - apply v4_presigned_sound in E as (u & cs & ? & ? & _ & _ & Hb). destruct cs as [[]|]; [destruct Hb as (? & _ & ->)|subst c'; by left..]. done.
  - apply v4_header_sound in E as (? & ? & ? & ? & ? & o & b & _ & _ & _ & Ho & Hb). apply header_body_ok in Hb.
    destruct o as [cs|]; [destruct Ho as [-> _]; rewrite set_body_same in Hb|].
    + destruct cs; try (destruct Hb as (? & ? & _ & _ & Hb); by rewrite Ht in Hb); [destruct Hb as (? & _ & ->); done|subst c'; by left].
    + subst c'. destruct Ho as (y & Hs & _). apply stored_in_memory in Hs as (Hy & _ & Hs). cbn in Hx. rewrite Hy in Hx. injection Hx as ->. done.
Qed.

(** The check does not put a limit on the body. *)
Lemma check_limit c c' r :
  check now c = Some (c', Ok r) -> remaining_limit (req_body c) = None -> remaining_limit (req_body c') = None.
Proof.
  intros E Hl. unfold check in E. run_ok. destruct (is_post_form c) eqn:Hp.
  { match goal with H1 : check_post_signature _ _ = _ |- _ => by apply check_post_left in H1 as (form & _ & ->) end. }
  apply M_bind_ok in H1 as (c1 & [cred|] & H1 & H2); apply v2_check_sound in H1 as [-> H1]; [by run_ok|].
  apply v4_check_sound in H2. destruct r as [cred|]; [|by destruct H2 as (-> & _)].
  destruct H2 as [(? & ? & ? & ? & _ & _ & _ & E)|(? & ? & ? & ? & ? & _ & _ & E)].
  - apply v4_presigned_sound in E as (u & cs & ? & ? & _ & _ & Hb). destruct cs as [[]|]; [destruct Hb as (? & _ & ->)|subst c'..]; done.
  - apply v4_header_sound in E as (? & ? & ? & ? & ? & o & b & _ & _ & _ & Ho & Hb). apply header_body_limit in Hb; [done|].
    destruct o as [cs|]; [by destruct Ho as [-> _]|]. destruct Ho as (data & Hs & _). unfold store_all_limited in Hs.
    destruct (bytes_of (req_body c)); [by injection Hs as <-|]. by destruct (collect_limited _ _); injection Hs as <-.
Qed.
End Final.

(** ** Properties *)

(** C4: the signature check always returns, and it gives credentials only to a request with the
    evidence of one of six ways of signing, with the key the provider holds for its access key:
    - a Version 4 header: the signature is that of the canonical request of its method, path, query,
      named headers and payload; x-amz-date is near the clock of the server; date, region and service
      of the scope are accepted; every x-amz-* header is named, but for the payload hash and the
      headers that the configuration exempts;
    - a Version 4 URL, when switched on: the same, with the date and the expiry of the URL;
    - a Version 4 form, when switched on: the signature is that of its policy, which repeats the date,
      credential and algorithm of the form; the date is near, and the scope is accepted;
    - a Version 2 header, when Version 2 is switched on: the signature is that of method, path,
      sub-resources and headers, every x-amz-* header among them; its x-amz-date, or else its Date, is
      near;
    - a Version 2 URL, when both are switched on: the same, before its expiry and without a date;
    - a Version 2 form, when both are switched on: the signature is that of its policy.
    Version 2 has no scope, and a Version 2 form no date here: its policy expires.  A request is passed
    on as anonymous only if nothing in it asks to be authenticated.  Anything else is an error. *)
Theorem check_decides `{CheckDeps} (now : Z) (c : SignatureContext) :
  limits_ok (form_limits_of (config c)) ->
  exists c' r, check now c = Some (c', r) /\
    match r with
    | Ok (Some cred) => authenticated now c cred
    | Ok None => anonymous c c'
    | Err _ => True
    end.
Proof.
  intros Hl. destruct (check_returns now c Hl) as [[c' [r|e]] E]; [|by exists c', (Err e)].
  exists c', (Ok r). split; [exact E|]. apply check_sound in E. by destruct r.
Qed.


(** ** A request that is accepted *)

Definition toy_check_deps : CheckDeps.
Proof.
  refine {| check_sig2 := toy_sig2_deps; check_body := ref_body_deps; check_memchr := memchr_reference;
            check_httparse := httparse_reference; http_header_name := Some; http_header_value := Some;
            check_json := fun _ => None; check_rfc3339 := fun _ => None; rfc1123_parse := fun _ => None;
            jiff_timestamp := fun y mo d h mi s => Some (d * 86400 + h * 3600 + mi * 60 + s)%Z;
            jiff_duration_since := fun now date => Some (now - date)%Z |}.
  by intros now date d [= <-].
Defined.

Definition w_config : S3Config :=
  {| presigned_url_max_skew_time_secs := 900; expected_region := Some (str "us-east-1");
     sig_v4_allowed_services := [str "s3"]; enable_sig_v2 := false; presigned_url_max_expires_secs := 604800;
     allow_presigned_url := true; allow_post_signature := true; unsigned_amz_header_allowlist := [];
     aws_chunked_stream_max_chunk_size := 1024; form_max_field_size := 100; form_max_fields_size := 1000;
     form_max_parts := 5 |}.

Definition w_date : AmzDate := {| year := 2013; month := 5; day := 24; hour := 0; minute := 0; second := 0 |}.

(** Thirty-two bytes, their own digest for the stand-in of SHA-256. *)
Definition w_data : bytes := str "0123456789abcdef0123456789abcdef".

Section CheckWitness.
#[local] Existing Instance toy_check_deps.

Definition w_signed_headers : list header :=
  [(str "host", str "h"); (str "x-amz-content-sha256", hex_bytes32 w_data); (str "x-amz-date", str "20130524T000000Z")].

(** The client's side: the signature of the request. *)
Definition w_signature (key : bytes) : bytes :=
  default [] (
    text ← create_canonical_request (str "PUT") (str "/b/k") [] w_signed_headers (SingleChunk (hex_bytes32 w_data));
    s ← create_string_to_sign text w_date (str "us-east-1") (str "s3");
    calculate_signature s key w_date (str "us-east-1") (str "s3")).

Definition w_authorization (key : bytes) : bytes :=
  str "AWS4-HMAC-SHA256 Credential=AK/20130524/us-east-1/s3/aws4_request,SignedHeaders=host;x-amz-content-sha256;x-amz-date,Signature="
  ++ w_signature key.

Definition w_request (key : bytes) (more : HeaderMap) : SignatureContext :=
  {| auth := Some (fun ak => if ak =? str "AK" then Ok (str "key") else Err InvalidAccessKeyId); config := w_config;
     req_version := HTTP_11; req_method := str "PUT"; req_uri_path := str "/b/k"; req_uri_authority := None;
     req_body := once w_data; checked_body := None; qs := None;
     hs := (str "authorization", w_authorization key) :: w_signed_headers ++ more;
     decoded_uri_path := str "/b/k"; raw_uri_path := str "/b/k"; vh_bucket := None; content_length := Some 32%Z;
     mime := None; decoded_content_length := None; transformed_body := None; multipart := None; trailing_headers := false |}.

(** The clock of the server, in nanoseconds: ten seconds later. *)
Definition w_now : Z := nanos (24 * 86400 + 10).

Definition outcome_of {A} (o : option (SignatureContext * result S3ErrorCode A)) : option (result S3ErrorCode A) :=
  snd <$> o.

(** The right key is accepted; a wrong key, an added header and a late clock are not. *)
Example checks_run :
  outcome_of (check w_now (w_request (str "key") [])) =
    Some (Ok (Some {| access_key := str "AK"; secret_key := str "key"; cred_region := Some (str "us-east-1");
                      cred_service := Some (str "s3") |})) /\
  outcome_of (check w_now (w_request (str "kez") [])) = Some (Err SignatureDoesNotMatch) /\
  outcome_of (check w_now (w_request (str "key") [(str "x-amz-copy-source", str "/b/other")])) = Some (Err AccessDenied) /\
  outcome_of (check (nanos (24 * 86400 + 901)) (w_request (str "key") [])) = Some (Err RequestTimeTooSkewed).
Proof. vm_compute. done. Qed.

Lemma check_decides_witness :
  exists c', check w_now (w_request (str "key") []) = Some (c', Ok (Some
      {| access_key := str "AK"; secret_key := str "key"; cred_region := Some (str "us-east-1");
         cred_service := Some (str "s3") |})) /\
    authenticated w_now (w_request (str "key") [])
      {| access_key := str "AK"; secret_key := str "key"; cred_region := Some (str "us-east-1");
         cred_service := Some (str "s3") |}.
Proof.
  destruct (@check_decides toy_check_deps w_now (w_request (str "key") [])) as (c' & r & E & Hr).
  { constructor; vm_compute; split; discriminate || reflexivity. }
  assert (Er : r = Ok (Some {| access_key := str "AK"; secret_key := str "key"; cred_region := Some (str "us-east-1");
         cred_service := Some (str "s3") |})).
  { pose proof (f_equal outcome_of E) as Eo. rewrite (proj1 checks_run) in Eo. by injection Eo as <-. }
  exists c'. rewrite <- Er. split; [exact E|]. rewrite Er in Hr. exact Hr.
Defined.

End CheckWitness.
