(* ===== verification/Host.v ===== *)
(** * Virtual hosts and regions (crates/s3s/src/host.rs, region.rs)

    The Host header is matched against the configured base domains; what is in front of a base
    domain is the bucket.  Ports take no part in the matching. *)

From S2P Require Import Prelude.
From S2P Require Import Str.
From S2P Require Import Net.
From S2P Require Import Path.
From S2P Require Import ErrorCode.

(** ** Regions *)

Definition Region_is_valid (s : bytes) : bool :=
  negb (s =? []) && forallb (fun b => is_ascii_lowercase b || is_ascii_digit b || (b =? "-"%byte)) s.

(** [Region::new]; [None] is [InvalidRegion]. *)
Definition Region_new (s : bytes) : option bytes := if Region_is_valid s then Some s else None.

(** ** Hosts *)

Record VirtualHost := { domain : bytes; vh_bucket : option bytes; vh_region : option bytes }.

Definition VirtualHost_new (domain : bytes) : VirtualHost := {| domain := domain; vh_bucket := None; vh_region := None |}.
Definition with_bucket (bucket : bytes) (vh : VirtualHost) : VirtualHost :=
  {| domain := domain vh; vh_bucket := Some bucket; vh_region := vh_region vh |}.
Definition with_region (region : bytes) (vh : VirtualHost) : VirtualHost :=
  {| domain := domain vh; vh_bucket := vh_bucket vh; vh_region := Some region |}.

Inductive DomainError := InvalidDomain | OverlappingSubdomains | ZeroDomains.

Definition parse_u16 (s : bytes) : option Z := parse_unsigned 65535 s.
Definition is_ok_option {A} (o : option A) : bool := match o with Some _ => true | None => false end.

Definition strip_port_suffix (host : bytes) : bytes :=
  if ends_with (str "]") host then host
  else
    match rsplit_once ":" host with
    | Some (h, port) =>
        if negb (port =? []) && forallb is_ascii_digit port && is_ok_option (parse_u16 port) then h else host
    | None => host
    end.

Definition valid_label (part : bytes) : bool :=
  negb (part =? []) && negb (existsb (fun b => negb (is_ascii_alphanumeric b) && negb (b =? "-"%byte)) part).

Definition is_valid_domain (s : bytes) : bool :=
  if s =? [] then false
  else
    match split_once ":" s with
    | Some (host, port) =>
        if port =? [] then false
        else if negb (is_ok_option (parse_u16 port)) then false
        else forallb valid_label (split "." host)
    | None => forallb valid_label (split "." s)
    end.

Definition is_subdomain_of (host base_domain : bytes) : bool :=
  match strip_suffix base_domain host with Some rest => ends_with (str ".") rest | None => false end.

Definition is_overlapping (a b : bytes) : bool :=
  let a := strip_port_suffix a in
  let b := strip_port_suffix b in
  (a =? b) || is_subdomain_of a b || is_subdomain_of b a.

Definition parse_host_header (base_domain host : bytes) : option VirtualHost :=
  let host_part := strip_port_suffix host in
  let base_part := strip_port_suffix base_domain in
  if host_part =? base_part then Some (VirtualHost_new base_domain)
  else
    match (h ← strip_suffix base_part host_part; strip_suffix (str ".") h) with
    | Some bucket => Some (with_bucket bucket (VirtualHost_new base_domain))
    | None => None
    end.

(** A [RegexSet] is what it matches. *)
Definition parse_cname_fallback (host : bytes) (path_style_hosts : bytes -> bool) : option VirtualHost :=
  if negb (is_valid_domain host) then None
  else if path_style_hosts host then Some (VirtualHost_new host)
  else
    let bucket := to_ascii_lowercase host in
    if check_bucket_name bucket then Some (with_bucket bucket (VirtualHost_new host))
    else Some (VirtualHost_new host).

(** ** The two implementations of [S3Host] *)

Record SingleDomain := { base_domain : bytes; cname_fallback : bool }.

Definition SingleDomain_new (base_domain : bytes) : result DomainError SingleDomain :=
  if negb (is_valid_domain base_domain) then Err InvalidDomain
  else Ok {| base_domain := base_domain; cname_fallback := true |}.

Definition with_cname_fallback (enabled : bool) (s : SingleDomain) : SingleDomain :=
  {| base_domain := base_domain s; cname_fallback := enabled |}.

Definition SingleDomain_parse_host_header (s : SingleDomain) (host : bytes) : result S3ErrorCode VirtualHost :=
  match parse_host_header (base_domain s) host with
  | Some vh => Ok vh
  | None =>
      if is_valid_domain host then
        if cname_fallback s then Ok (with_bucket (to_ascii_lowercase host) (VirtualHost_new host))
        else Ok (VirtualHost_new host)
      else Err InvalidRequest
  end.

Record MultiDomain := { base_domains : list bytes; path_style_hosts : bytes -> bool }.

(** The loop over the domains, with those accepted so far. *)
Fixpoint add_domains (v : list bytes) (domains : list bytes) : result DomainError (list bytes) :=
  match domains with
  | [] => Ok v
  | domain :: domains' =>
      if negb (is_valid_domain domain) then Err InvalidDomain
      else if existsb (fun other => is_overlapping domain other) v then Err OverlappingSubdomains
      else add_domains (v ++ [domain]) domains'
  end.

Definition MultiDomain_new (domains : list bytes) : result DomainError MultiDomain :=
  v ← add_domains [] domains;
  if bool_decide (v = []) then Err ZeroDomains else Ok {| base_domains := v; path_style_hosts := fun _ => false |}.

Definition with_path_style_hosts (path_style_hosts : bytes -> bool) (m : MultiDomain) : MultiDomain :=
  {| base_domains := base_domains m; path_style_hosts := path_style_hosts |}.

Fixpoint first_domain (domains : list bytes) (host : bytes) : option VirtualHost :=
  match domains with
  | [] => None
  | base_domain :: domains' =>
      match parse_host_header base_domain host with Some vh => Some vh | None => first_domain domains' host end
  end.

Definition MultiDomain_parse_host_header (m : MultiDomain) (host : bytes) : result S3ErrorCode VirtualHost :=
  match first_domain (base_domains m) host with
  | Some vh => Ok vh
  | None =>
      match parse_cname_fallback host (path_style_hosts m) with
      | Some vh => Ok vh
      | None => Err InvalidRequest
      end
  end.

(** ** Matching: lemmas *)

Lemma parse_host_header_iff base host vh :
  parse_host_header base host = Some vh <->
  (strip_port_suffix host = strip_port_suffix base /\ vh = VirtualHost_new base) \/
  (exists bucket, strip_port_suffix host = bucket ++ str "." ++ strip_port_suffix base /\
                  vh = with_bucket bucket (VirtualHost_new base)).
Proof.
  unfold parse_host_header. set (h := strip_port_suffix host). set (b := strip_port_suffix base).
  assert (Hne : forall bucket, bucket ++ str "." ++ b <> b).
  { intros bucket E. apply (f_equal length) in E. rewrite !length_app in E. simpl in E. lia. }
  case_bool_decide as E.
  - split; [intros [= <-]; by left|]. intros [[_ ->]|(bucket & Hh & _)]; [done|]. rewrite E in Hh. symmetry in Hh. by apply Hne in Hh.
  - destruct (strip_suffix b h ≫= strip_suffix (str ".")) as [bucket|] eqn:Es.
    + apply bind_Some in Es as (r & Hr%strip_suffix_Some & Hb%strip_suffix_Some). subst r. rewrite <- app_assoc in Hr. split.
      * intros [= <-]. right. by exists bucket.
      * intros [[? _]|(bucket' & Hh & ->)]; [done|]. rewrite Hr in Hh. by apply app_inv_tail in Hh as ->.
    + split; [done|]. intros [[? _]|(bucket & Hh & _)]; [done|]. exfalso. rewrite Hh, app_assoc in Es.
      rewrite (proj2 (strip_suffix_Some b _ (bucket ++ str "."))) in Es by done. cbn [mbind option_bind] in Es.
      by rewrite (proj2 (strip_suffix_Some (str ".") _ bucket)) in Es.
Qed.

Lemma subdomain_iff host base : is_subdomain_of host base = true <-> exists x, host = x ++ str "." ++ base.
Proof.
  unfold is_subdomain_of. destruct (strip_suffix base host) as [r|] eqn:E.
  - apply strip_suffix_Some in E. subst host. rewrite ends_with_true. split.
    + intros [x ->]. exists x. by rewrite <- app_assoc.
    + intros [x Hx]. exists x. rewrite app_assoc in Hx. by apply app_inv_tail in Hx.
  - split; [done|]. intros [x ->]. rewrite app_assoc in E.
    by rewrite (proj2 (strip_suffix_Some base _ (x ++ str "."))) in E.
Qed.

(** Domains that do not compete for a host. *)
Definition disjoint_domains (a b : bytes) : Prop := is_overlapping a b = false.

Lemma overlapping_sym a b : is_overlapping a b = is_overlapping b a.
Proof.
  unfold is_overlapping. set (x := strip_port_suffix a). set (y := strip_port_suffix b).
  destruct (is_subdomain_of x y), (is_subdomain_of y x); rewrite ?orb_true_r, ?orb_false_r; try done.
  apply bool_decide_ext. split; by intros ->.
Qed.

#[global] Instance disjoint_domains_sym : Symmetric disjoint_domains.
Proof. intros a b E. unfold disjoint_domains in *. by rewrite overlapping_sym. Qed.

(** Two suffixes of a host that start at a label: one is the other or a subdomain of it. *)
Lemma label_suffixes (x y a b : bytes) :
  x ++ a = y ++ b -> (x = [] \/ exists x', x = x' ++ str ".") -> (y = [] \/ exists y', y = y' ++ str ".") ->
  a = b \/ (exists z, a = z ++ str "." ++ b) \/ (exists z, b = z ++ str "." ++ a).
Proof.
  assert (Hone : forall x y a b : bytes, x ++ a = y ++ b -> (y = [] \/ exists y', y = y' ++ str ".") -> length x <= length y ->
    a = b \/ (exists z, a = z ++ str "." ++ b)).
  { clear. intros x y a b E Hy Hl. destruct (app_eq_inv _ _ _ _ E) as [(k & -> & ->)|(k & -> & ->)].
    - rewrite length_app in Hl. destruct k; [by left|]. simpl in Hl. lia.
    - destruct k as [|c k _] using rev_ind; [by left|]. right.
      destruct Hy as [Hy|[y' Hy]]; [by apply app_nil in Hy as [_ [_ ?]%app_nil]|].
      rewrite app_assoc in Hy. apply app_inj_tail in Hy as [_ ->]. exists k. by rewrite <- app_assoc. }
  intros E Hx Hy. destruct (Nat.le_ge_cases (length x) (length y)) as [Hl|Hl].
  - destruct (Hone x y a b E Hy Hl) as [|]; [by left|by right; left].
  - destruct (Hone y x b a (eq_sym E) Hx Hl) as [|]; [by left|by right; right].
Qed.

(** A host matches at most one of several domains that do not compete. *)
Lemma matches_disjoint a b host va vb :
  parse_host_header a host = Some va -> parse_host_header b host = Some vb -> ~ disjoint_domains a b.
Proof.
  rewrite !parse_host_header_iff. intros Ha Hb. unfold disjoint_domains, is_overlapping. rewrite not_false_iff_true.
  set (x := strip_port_suffix a) in *. set (y := strip_port_suffix b) in *. set (h := strip_port_suffix host) in *.
  assert (Hp : forall s v c, (h = s /\ v = VirtualHost_new c) \/
      (exists bucket, h = bucket ++ str "." ++ s /\ v = with_bucket bucket (VirtualHost_new c)) ->
    exists p, h = p ++ s /\ (p = [] \/ exists p', p = p' ++ str ".")).
  { intros s v c [[-> _]|(bk & -> & _)]; [by exists []; eauto|]. exists (bk ++ str "."). rewrite <- app_assoc. eauto. }
  apply Hp in Ha as (p & Hh & Hpa), Hb as (q & Hh' & Hqb). rewrite Hh in Hh'.
  destruct (label_suffixes p q x y Hh' Hpa Hqb) as [->|[Hs|Hs]].
  - by rewrite bool_decide_true.
  - apply subdomain_iff in Hs as ->. by rewrite orb_true_r.
  - apply subdomain_iff in Hs as ->. by rewrite orb_true_r.
Qed.

(** ** Several domains *)

Lemma ordpairs_perm {A} (R : A -> A -> Prop) `{!Symmetric R} l k : l ≡ₚ k -> ForallOrdPairs R l -> ForallOrdPairs R k.
Proof.
  induction 1 as [|x l k Hp IH|x y l|l k m _ IH1 _ IH2]; intros Hl; [done| | |by auto].
  - inversion Hl as [|? ? Hx Hr]; subst. constructor; [|by apply IH]. by rewrite <- Hp.
  - inversion Hl as [|? ? Hy Hr]; subst. inversion Hr as [|? ? Hx Hr']; subst. inversion Hy; subst.
    constructor; [by constructor|]. by constructor.
Qed.

Lemma existsb_overlapping d v :
  existsb (fun other => is_overlapping d other) v = false <-> Forall (disjoint_domains d) v.
Proof.
  induction v as [|x v IH]; simpl; [by split|]. rewrite orb_false_iff, IH, Forall_cons. done.
Qed.

Lemma add_domains_iff v ds w :
  add_domains v ds = Ok w <->
  w = v ++ ds /\ Forall (fun d => is_valid_domain d = true) ds /\ ForallOrdPairs disjoint_domains ds /\
  Forall (fun d => Forall (disjoint_domains d) v) ds.
Proof.
  revert v. induction ds as [|d ds IH]; intros v; cbn [add_domains].
  { rewrite app_nil_r. split; [intros [= <-]; by repeat constructor|]. by intros [-> _]. }
  rewrite !Forall_cons. destruct (is_valid_domain d); cbn [negb]; [|by split; [|intros (_ & [? _] & _)]].
  destruct (existsb _ v) eqn:E.
  { split; [done|]. intros (_ & _ & _ & [Hd _]). apply existsb_overlapping in Hd. by rewrite Hd in E. }
  apply existsb_overlapping in E. rewrite IH, <- app_assoc. setoid_rewrite Forall_app. setoid_rewrite Forall_singleton. split.
  - intros (-> & Hv & Hp & Hd). split; [done|]. split; [done|]. apply Forall_and in Hd as [Hd1 Hd2]. split; [|done].
    constructor; [|done]. eapply Forall_impl; [exact Hd2|]. intros x. by symmetry.
  - intros (-> & [_ Hv] & Hp & _ & Hd). inversion Hp as [|? ? Hp1 Hp2]; subst. do 3 (split; [done|]).
    apply Forall_and. split; [done|]. eapply Forall_impl; [exact Hp1|]. intros x. by symmetry.
Qed.

Lemma multi_domain_new_iff ds m :
  MultiDomain_new ds = Ok m <->
  ds <> [] /\ Forall (fun d => is_valid_domain d = true) ds /\ ForallOrdPairs disjoint_domains ds /\
  m = {| base_domains := ds; path_style_hosts := fun _ => false |}.
Proof.
  unfold MultiDomain_new. rewrite result_bind_ok. setoid_rewrite add_domains_iff. split.
  - intros (v & (-> & Hv & Hp & _) & E). cbn [app] in E. case_bool_decide; [done|]. by injection E as <-.
  - intros (Hne & Hv & Hp & ->). exists ds. rewrite bool_decide_false by done. split; [|done]. split; [done|].
    split; [done|]. split; [done|]. by apply Forall_true.
Qed.

Lemma first_domain_iff ds host vh :
  ForallOrdPairs disjoint_domains ds ->
  first_domain ds host = Some vh <-> exists b, b ∈ ds /\ parse_host_header b host = Some vh.
Proof.
  induction 1 as [|d ds Hd Hp IH]; cbn [first_domain].
  { split; [done|]. by intros (b & ?%elem_of_nil & _). }
  destruct (parse_host_header d host) as [v|] eqn:E.
  - split; [intros [= ->]; exists d; split; [by constructor|done]|].
    intros (b & Hb & Ev). apply elem_of_cons in Hb as [->|Hb]; [congruence|]. exfalso.
    rewrite Forall_forall in Hd. by apply (matches_disjoint d b host v vh E Ev), Hd.
  - rewrite IH. setoid_rewrite elem_of_cons. split; [intros (b & ? & ?); eauto|].
    intros (b & [->|?] & ?); [congruence|eauto].
Qed.

Lemma first_domain_perm ds ds' host :
  ds' ≡ₚ ds -> ForallOrdPairs disjoint_domains ds -> first_domain ds' host = first_domain ds host.
Proof.
  intros Hp Hd. assert (Hd' : ForallOrdPairs disjoint_domains ds') by (by apply (ordpairs_perm disjoint_domains ds ds')).
  assert (Hiff : forall vh, first_domain ds' host = Some vh <-> first_domain ds host = Some vh).
  { intros vh. rewrite !first_domain_iff by done. by setoid_rewrite Hp. }
  destruct (first_domain ds' host) as [v|], (first_domain ds host) as [w|]; try done.
  - symmetry. by apply Hiff.
  - destruct (Hiff v) as [Hf _]. by specialize (Hf eq_refl).
  - destruct (Hiff w) as [_ Hf]. by specialize (Hf eq_refl).
Qed.

(** ** Ports *)

(** The decimal text of a port. *)
Definition is_port (port : bytes) : bool :=
  negb (port =? []) && forallb is_ascii_digit port && is_ok_option (parse_u16 port).

Lemma port_no_bracket h port : is_port port = true -> ends_with (str "]") (h ++ ":"%byte :: port) = false.
Proof.
  intros Hp. unfold is_port in Hp. reflect_bools. apply not_true_iff_false. rewrite ends_with_true. intros [r Hr].
  destruct port as [|c port _] using rev_ind; [done|]. rewrite app_comm_cons, app_assoc in Hr.
  apply app_inj_tail in Hr as [_ ->]. by rewrite forallb_app, andb_false_r in *.
Qed.

(** A port on the host takes no part in the matching. *)
Lemma strip_port h port : is_port port = true -> strip_port_suffix (h ++ ":"%byte :: port) = h.
Proof.
  intros Hp. unfold strip_port_suffix. rewrite port_no_bracket by done.
  rewrite (proj2 (rsplit_once_Some ":" _ h port)).
  - unfold is_port in Hp. by rewrite Hp.
  - split; [done|]. intros Hin. unfold is_port in Hp. reflect_bools.
    rewrite forallb_forall in *. match goal with H : forall x, In x port -> _ |- _ => by specialize (H ":"%byte (proj1 (list_elem_of_In _ _) Hin)) end.
Qed.

(** Without a port the host is its own name. *)
Lemma strip_no_port h : ":"%byte ∉ h -> strip_port_suffix h = h.
Proof.
  intros Hc. unfold strip_port_suffix. destruct (ends_with _ h); [done|].
  destruct (rsplit_once ":" h) as [[a r]|] eqn:E; [|done]. apply rsplit_once_Some in E as [-> _]. set_solver.
Qed.

(** ** Properties *)

(** C23: the base domains of a service never compete for a host.  A list of domains is accepted
    exactly when it is not empty, every domain is valid and none is another or a subdomain of
    another; then the order they are configured in does not matter, a host is given to the one
    domain it belongs to with what is in front of it as the bucket, and a port on the host
    changes nothing. *)
Theorem multi_domain_unambiguous (ds : list bytes) (m : MultiDomain) :
  MultiDomain_new ds = Ok m ->
  ds <> [] /\ Forall (fun d => is_valid_domain d = true) ds /\ ForallOrdPairs disjoint_domains ds /\
  (forall ds', ds' ≡ₚ ds -> exists m', MultiDomain_new ds' = Ok m' /\
     forall host, MultiDomain_parse_host_header m' host = MultiDomain_parse_host_header m host) /\
  (forall base bucket port, base ∈ ds -> is_port port = true ->
     let host := bucket ++ str "." ++ strip_port_suffix base in
     MultiDomain_parse_host_header m (host ++ ":"%byte :: port) = Ok (with_bucket bucket (VirtualHost_new base)) /\
     (":"%byte ∉ host -> MultiDomain_parse_host_header m host = Ok (with_bucket bucket (VirtualHost_new base)))).
Proof.
  intros (Hne & Hv & Hp & ->)%multi_domain_new_iff. do 3 (split; [done|]). split.
  - intros ds' Hperm. eexists. split.
    + apply multi_domain_new_iff. split_and!; [by intros ->; apply Permutation_nil_l in Hperm|by rewrite Hperm| |reflexivity].
      by apply (ordpairs_perm disjoint_domains ds).
    + intros host. unfold MultiDomain_parse_host_header. cbn [base_domains path_style_hosts].
      by rewrite (first_domain_perm ds ds').
  - intros base bucket port Hb Hport host.
    assert (Hm : forall h, strip_port_suffix h = host ->
      MultiDomain_parse_host_header {| base_domains := ds; path_style_hosts := fun _ => false |} h =
        Ok (with_bucket bucket (VirtualHost_new base))).
    { intros h Hh. unfold MultiDomain_parse_host_header. cbn [base_domains].
      rewrite (proj2 (first_domain_iff ds h (with_bucket bucket (VirtualHost_new base)) Hp)); [done|].
      exists base. split; [done|]. apply parse_host_header_iff. right. by exists bucket. }
    split; [apply Hm; by apply strip_port|]. intros Hc. apply Hm. by apply strip_no_port.
Qed.

Lemma multi_domain_unambiguous_witness :
  exists m, MultiDomain_new [str "example.com:8080"; str "s3-example.com"] = Ok m /\
    MultiDomain_parse_host_header m (str "photos.example.com:19000") =
      Ok (with_bucket (str "photos") (VirtualHost_new (str "example.com:8080"))).
Proof.
  exists {| base_domains := [str "example.com:8080"; str "s3-example.com"]; path_style_hosts := fun _ => false |}.
  split; [reflexivity|].
  destruct (multi_domain_unambiguous [str "example.com:8080"; str "s3-example.com"]
    {| base_domains := [str "example.com:8080"; str "s3-example.com"]; path_style_hosts := fun _ => false |} eq_refl)
    as (_ & _ & _ & _ & H).
  apply (proj1 (H (str "example.com:8080") (str "photos") (str "19000") ltac:(by_decide) eq_refl)).
Defined.
