(* ===== verification/Request.v ===== *)
(** * Requests (crates/s3s/src/http/request.rs; the request helpers of crates/s3s/src/ops/mod.rs)

    A request with what the dispatcher keeps beside it, and the functions that read the host,
    the lengths, the media type and the query from it. *)

From S2P Require Import Prelude.
From S2P Require Import Str.
From S2P Require Import OrderedQs.
From S2P Require Import Net.
From S2P Require Import Path.
From S2P Require Import ErrorCode.
From S2P Require Import Handler.
From S2P Require Import Router.
From S2P Require Import SigV4.
From S2P Require Import Authorization.
From S2P Require Import SigV2.
From S2P Require Import Poll.
From S2P Require Import Stream.
From S2P Require Import Body.
From S2P Require Import Form.
From S2P Require Import PostPolicy.
From S2P Require Import SignatureCheck.
From S2P Require Import Host.

(** ** What the dispatcher uses of other crates *)

Class RequestDeps := {
  req_check :: CheckDeps;
  req_phf :: PhfMap;
  (** [urlencoding::decode] *)
  urlencoding_decode : bytes -> option bytes;
  (** [HeaderValue::to_str]: the same text, when it is visible ASCII *)
  header_to_str : bytes -> option bytes;
  header_to_str_spec : forall v s, header_to_str v = Some s -> s = v;
  (** [str::parse::<Mime>] *)
  mime_parse : bytes -> option Mime;
  serde_urlencoded_from_str : bytes -> option (list (bytes * bytes));
  (** [atoi::atoi::<u64>] *)
  atoi_u64 : bytes -> option Z;
  atoi_u64_spec : forall s n, atoi_u64 s = Some n -> (0 <= n < 2 ^ 64)%Z
}.

(** ** Data *)

(** The parts of a [Uri] that are read. *)
Record Uri := { uri_path : bytes; uri_query : option bytes; uri_authority : option bytes }.

Record Credentials := { cred_access_key : bytes; cred_secret_key : bytes }.

(** [trailing_headers] says whether a handle to them was captured. *)
Record S3Extensions := {
  x_s3_path : option S3Path;
  x_qs : option OrderedQs.OrderedQs;
  x_multipart : option Form;
  x_post_object_stream : option PostStream;
  x_credentials : option Credentials;
  x_region : option bytes;
  x_service : option bytes;
  x_trailing_headers : bool;
  x_post_policy : option PostPolicy
}.

Definition S3Extensions_default : S3Extensions :=
  {| x_s3_path := None; x_qs := None; x_multipart := None; x_post_object_stream := None; x_credentials := None;
     x_region := None; x_service := None; x_trailing_headers := false; x_post_policy := None |}.

(** The typed extensions of a request belong to the application. *)
Record Request {Ext : Type} := {
  version : Version;
  meth : Method;
  uri : Uri;
  headers : HeaderMap;
  extensions : Ext;
  body : Body;
  s3ext : S3Extensions
}.
Arguments Request : clear implicits.

Definition method_as_str (m : Method) : bytes :=
  match m with
  | HEAD => str "HEAD" | GET => str "GET" | POST => str "POST" | PUT => str "PUT" | DELETE => str "DELETE"
  | OtherMethod name => name
  end.

(** A method of the [http] crate: an extension method has no standard name. *)
Definition method_wf (m : Method) : bool :=
  match m with
  | OtherMethod name => negb (existsb (fun n => name =? n) [str "HEAD"; str "GET"; str "POST"; str "PUT"; str "DELETE"])
  | _ => true
  end.

(** ** Header maps *)

Definition header_contains (hs : HeaderMap) (name : bytes) : bool := negb (header_get_all hs name =? []).

(** [headers.insert]: the values of a name that is present are replaced by one, at the place of
    the first. *)
Fixpoint header_insert (hs : HeaderMap) (name value : bytes) : HeaderMap :=
  match hs with
  | [] => [(name, value)]
  | (n, v) :: hs' =>
      if n =? name then (name, value) :: List.filter (fun h => negb (fst h =? name)) hs'
      else (n, v) :: header_insert hs' name value
  end.

(** [if let Some(val) = headers.get_mut(name) { *val = value }]: the first value. *)
Fixpoint header_set_first (hs : HeaderMap) (name value : bytes) : HeaderMap :=
  match hs with
  | [] => []
  | (n, v) :: hs' => if n =? name then (n, value) :: hs' else (n, v) :: header_set_first hs' name value
  end.

(** ** Updates *)

Section Setters.
Context {Ext : Type}.
Implicit Types req : Request Ext.

Definition set_headers (hs : HeaderMap) req : Request Ext :=
  {| version := version req; meth := meth req; uri := uri req; headers := hs; extensions := extensions req;
     body := body req; s3ext := s3ext req |}.
Definition set_extensions (e : Ext) req : Request Ext :=
  {| version := version req; meth := meth req; uri := uri req; headers := headers req; extensions := e;
     body := body req; s3ext := s3ext req |}.
Definition set_req_body (b : Body) req : Request Ext :=
  {| version := version req; meth := meth req; uri := uri req; headers := headers req; extensions := extensions req;
     body := b; s3ext := s3ext req |}.
Definition set_s3ext (x : S3Extensions) req : Request Ext :=
  {| version := version req; meth := meth req; uri := uri req; headers := headers req; extensions := extensions req;
     body := body req; s3ext := x |}.

Definition modify (f : Request Ext -> Request Ext) : ST (Request Ext) unit := req ← get; put (f req).
Definition modify_ext (f : S3Extensions -> S3Extensions) : ST (Request Ext) unit :=
  modify (fun req => set_s3ext (f (s3ext req)) req).
End Setters.

Definition set_s3_path (p : option S3Path) (x : S3Extensions) : S3Extensions :=
  {| x_s3_path := p; x_qs := x_qs x; x_multipart := x_multipart x; x_post_object_stream := x_post_object_stream x;
     x_credentials := x_credentials x; x_region := x_region x; x_service := x_service x;
     x_trailing_headers := x_trailing_headers x; x_post_policy := x_post_policy x |}.
Definition set_qs (q : option OrderedQs.OrderedQs) (x : S3Extensions) : S3Extensions :=
  {| x_s3_path := x_s3_path x; x_qs := q; x_multipart := x_multipart x; x_post_object_stream := x_post_object_stream x;
     x_credentials := x_credentials x; x_region := x_region x; x_service := x_service x;
     x_trailing_headers := x_trailing_headers x; x_post_policy := x_post_policy x |}.
Definition set_form (form : option Form) (trailing : bool) (x : S3Extensions) : S3Extensions :=
  {| x_s3_path := x_s3_path x; x_qs := x_qs x; x_multipart := form; x_post_object_stream := x_post_object_stream x;
     x_credentials := x_credentials x; x_region := x_region x; x_service := x_service x;
     x_trailing_headers := trailing; x_post_policy := x_post_policy x |}.
Definition set_credentials (c : option Credentials) (region service : option bytes) (x : S3Extensions) : S3Extensions :=
  {| x_s3_path := x_s3_path x; x_qs := x_qs x; x_multipart := x_multipart x; x_post_object_stream := x_post_object_stream x;
     x_credentials := c; x_region := region; x_service := service;
     x_trailing_headers := x_trailing_headers x; x_post_policy := x_post_policy x |}.
Definition set_post (stream : option PostStream) (policy : option PostPolicy) (x : S3Extensions) : S3Extensions :=
  {| x_s3_path := x_s3_path x; x_qs := x_qs x; x_multipart := x_multipart x; x_post_object_stream := stream;
     x_credentials := x_credentials x; x_region := x_region x; x_service := x_service x;
     x_trailing_headers := x_trailing_headers x; x_post_policy := policy |}.

(** ** The host *)

Definition is_socket_addr_or_ip_addr (host : bytes) : bool := socket_addr_parses host || ip_addr_parses host.

Definition looks_like_virtual_hosted_style (host : bytes) : bool :=
  let host_part :=
    match rsplit_once ":" host with
    | Some (h, port) => if forallb is_ascii_digit port then h else host
    | None => host
    end in
  let host_no_bracket := default host_part (s ← strip_prefix (str "[") host_part; strip_suffix (str "]") s) in
  if ip_addr_parses host_no_bracket then false
  else Nat.leb 3 (length (List.filter (fun s => negb (s =? [])) (split "." host_no_bracket))).

Section Reading.
Context `{RequestDeps} {Ext : Type}.
Implicit Types req : Request Ext.

Definition extract_http2_authority req : option bytes :=
  match version req with HTTP_2 | HTTP_3 => uri_authority (uri req) | _ => None end.

Definition inject_host_header req : Request Ext :=
  if negb (header_contains (headers req) (str "host")) then
    match extract_http2_authority req ≫= http_header_value with
    | Some val => set_headers (header_insert (headers req) (str "host") val) req
    | None => req
    end
  else req.

Definition extract_host req : result S3ErrorCode (option bytes) :=
  match header_get_all (headers req) (str "host") with
  | val :: rest =>
      match rest with
      | _ :: _ => Err InvalidRequest
      | [] => host ← ok_or InvalidRequest (header_to_str val); Ok (Some host)
      end
  | [] => Ok (extract_http2_authority req)
  end.

(** ** Query, media type and lengths *)

Definition convert_parse_s3_path_error (err : ParseS3PathError) : S3ErrorCode :=
  match err with
  | Path.InvalidPath => InvalidURI
  | Path.InvalidBucketName => ErrorCode.InvalidBucketName
  | Path.KeyTooLong => KeyTooLongError
  end.

Definition extract_qs (u : Uri) : result S3ErrorCode (option OrderedQs.OrderedQs) :=
  match uri_query u with
  | None => Ok None
  | Some query =>
      match OrderedQs_parse (fun q => ok_or tt (serde_urlencoded_from_str q)) query with
      | Ok ans => Ok (Some ans)
      | Err _ => Err InvalidURI
      end
  end.

Definition extract_mime (hs : HeaderMap) : option Mime :=
  content_type ← get_unique_header_str hs (str "content-type");
  if content_type =? [] then None else mime_parse content_type.

Definition u64_max : Z := 2 ^ 64 - 1.

Definition extract_content_length req : result S3ErrorCode (option Z) :=
  match header_get_all (headers req) (str "content-length") with
  | [] => Ok None
  | val :: rest =>
      match rest with
      | _ :: _ => Err InvalidRequest
      | [] =>
          raw ← ok_or InvalidArgument (header_to_str val);
          if (raw =? []) || existsb (fun b => negb (is_ascii_digit b)) raw then Err InvalidArgument
          else n ← ok_or InvalidArgument (parse_unsigned u64_max raw); Ok (Some n)
      end
  end.

Definition signature_content_length req (content_length : option Z) (request_has_payload : bool) : option Z :=
  match content_length with
  | Some _ => content_length
  | None =>
      if negb request_has_payload &&
         match get_unique_header_str (headers req) (str "x-amz-content-sha256") with
         | Some value => (value =? EMPTY_STRING_SHA256_HASH) || (value =? str "UNSIGNED-PAYLOAD")
         | None => false
         end
      then Some 0%Z else content_length
  end.

Definition is_multipart_post req : bool :=
  match meth req with POST => true | _ => false end &&
  match extract_mime (headers req) with
  | Some mime => (mime_type mime =? str "multipart") && (mime_subtype mime =? str "form-data")
  | None => false
  end.

Definition extract_decoded_content_length (hs : HeaderMap) : result S3ErrorCode (option Z) :=
  match get_unique_header_str hs (str "x-amz-decoded-content-length") with
  | None => Ok None
  | Some val =>
      x ← ok_or InvalidRequest (n ← atoi_u64 val; if (n <=? usize_max)%Z then Some n else None);
      Ok (Some x)
  end.

Definition fmt_content_length (n : Z) : bytes := if (0 <? n)%Z then fmt_dec n else str "0".
End Reading.
