(* ===== verification/Response.v ===== *)
(** * Responses (crates/s3s/src/http/response.rs)

    A response before it is handed to the transport, and the statuses that carry no body. *)

From S2P Require Import Prelude.
From S2P Require Import Str.
From S2P Require Import ErrorCode.
From S2P Require Import SigV4.
From S2P Require Import SignatureCheck.
From S2P Require Import Body.

Section Response.
Context {Ext : Type}.

Record Response := { r_status : StatusCode; r_headers : HeaderMap; r_body : Body; r_extensions : Ext }.

Definition set_response_body (b : Body) (res : Response) : Response :=
  {| r_status := r_status res; r_headers := r_headers res; r_body := b; r_extensions := r_extensions res |}.
Definition set_response_headers (hs : HeaderMap) (res : Response) : Response :=
  {| r_status := r_status res; r_headers := hs; r_body := r_body res; r_extensions := r_extensions res |}.
Definition set_response_status (status : StatusCode) (res : Response) : Response :=
  {| r_status := status; r_headers := r_headers res; r_body := r_body res; r_extensions := r_extensions res |}.

(** [Response::with_status]: the rest is the default. *)
Definition with_status (ext : Ext) (status : StatusCode) : Response :=
  {| r_status := status; r_headers := []; r_body := empty; r_extensions := ext |}.

(** [headers.remove(name)] *)
Definition header_remove (hs : HeaderMap) (name : bytes) : HeaderMap := List.filter (fun h => negb (fst h =? name)) hs.

Definition strip_body (res : Response) : Response :=
  set_response_body empty (set_response_headers (header_remove (r_headers res) (str "transfer-encoding")) res).
End Response.
Arguments Response : clear implicits.

(** [status.is_informational()] and the statuses 204, 205 and 304. *)
Definition is_bodyless_status (status : StatusCode) : bool :=
  ((100 <=? status) && (status <? 200) || (status =? 204) || (status =? 205) || (status =? 304))%Z.
