(* ===== verification/KeepAlive.v ===== *)
(** * Keep-alive bodies (crates/s3s/src/http/keep_alive_body.rs)

    The body of a response that takes long to compute: it sends what is known at once, then a
    space at every tick of an interval while the response is being computed, then the body of the
    response, with its headers as trailers.

    The future and the interval belong to the runtime: [outcome n] is what the [n]-th poll of the
    future answers, and [tick n] whether the [n]-th poll of the interval is ready. *)

From S2P Require Import Prelude.
From S2P Require Import Str.
From S2P Require Import ErrorCode.
From S2P Require Import SigV4.
From S2P Require Import SignatureCheck.
From S2P Require Import Poll.
From S2P Require Import Stream.
From S2P Require Import Body.
From S2P Require Import Response.

(** ** Reading a body *)

Section Emits.
Context {St E F : Type} (f : pollm St (option (result E F))).

(** [n] polls of a body give these frames and this end: [None], or an error. *)
Inductive emits : nat -> St -> list F -> option E -> St -> Prop :=
| emits_end s s' : f s = (s', Ready None) -> emits 1 s [] None s'
| emits_error s s' e : f s = (s', Ready (Some (Err e))) -> emits 1 s [] (Some e) s'
| emits_frame n s s' x l r s'' : f s = (s', Ready (Some (Ok x))) -> emits n s' l r s'' -> emits (S n) s (x :: l) r s''
| emits_wait n s s' l r s'' : f s = (s', Pending) -> emits n s' l r s'' -> emits (S n) s l r s''.
End Emits.

(** ** The body *)

Section KeepAlive.
Context {Ext : Type} (outcome : nat -> poll (result bytes (Response Ext))) (tick : nat -> bool).

Record KeepAliveBody := {
  inner_polls : nat;
  initial_body : option bytes;
  response : option (Response Ext);
  interval_polls : nat;
  done_ : bool;
  allow_trailers : bool
}.

(** [KeepAliveBody::new] *)
Definition KeepAliveBody_new (initial_body : option bytes) (allow_trailers : bool) : KeepAliveBody :=
  {| inner_polls := 0; initial_body := initial_body; response := None; interval_polls := 0; done_ := false;
     allow_trailers := allow_trailers |}.

Definition set_initial (b : option bytes) (s : KeepAliveBody) : KeepAliveBody :=
  {| inner_polls := inner_polls s; initial_body := b; response := response s; interval_polls := interval_polls s;
     done_ := done_ s; allow_trailers := allow_trailers s |}.
Definition set_response (r : option (Response Ext)) (done : bool) (s : KeepAliveBody) : KeepAliveBody :=
  {| inner_polls := inner_polls s; initial_body := initial_body s; response := r; interval_polls := interval_polls s;
     done_ := done; allow_trailers := allow_trailers s |}.
Definition polled (s : KeepAliveBody) : KeepAliveBody :=
  {| inner_polls := S (inner_polls s); initial_body := initial_body s; response := response s; interval_polls := interval_polls s;
     done_ := done_ s; allow_trailers := allow_trailers s |}.
Definition ticked (s : KeepAliveBody) : KeepAliveBody :=
  {| inner_polls := inner_polls s; initial_body := initial_body s; response := response s; interval_polls := S (interval_polls s);
     done_ := done_ s; allow_trailers := allow_trailers s |}.

(** The loop when the response is there. *)
Definition poll_response (res : Response Ext) : pollm KeepAliveBody (option (result bytes Frame)) := fun s =>
  let '(b, p) := poll_frame (r_body res) in
  let res := set_response_body b res in
  match p with
  | Pending => (set_response (Some res) (done_ s) s, Pending)
  | Ready (Some (Err e)) => (set_response (Some res) (done_ s) s, Ready (Some (Err (BodyError_to_string e))))
  | Ready (Some (Ok frame)) => (set_response (Some res) (done_ s) s, Ready (Some (Ok frame)))
  | Ready None =>
      if allow_trailers s
      then (set_response (Some (set_response_headers [] res)) true s, Ready (Some (Ok (Trailers (r_headers res)))))
      else (set_response (Some res) true s, Ready None)
  end.

Definition KeepAliveBody_poll_frame : pollm KeepAliveBody (option (result bytes Frame)) := fun s =>
  if done_ s then (s, Ready None)
  else
    match initial_body s with
    | Some b => (set_initial None s, Ready (Some (Ok (Data b))))
    | None =>
        match response s with
        | Some res => poll_response res s
        | None =>
            let p := outcome (inner_polls s) in
            let s := polled s in
            match p with
            | Ready (Ok res) => poll_response res (set_response (Some res) (done_ s) s)
            | Ready (Err e) => (set_response (response s) true s, Ready (Some (Err e)))
            | Pending =>
                let t := tick (interval_polls s) in
                let s := ticked s in
                if t then (s, Ready (Some (Ok (Data (str " "))))) else (s, Pending)
            end
        end
    end.

Definition KeepAliveBody_is_end_stream (s : KeepAliveBody) : bool := done_ s.

(** ** What is read *)

(** The spaces of the ticks [k], ..., [k + n - 1]. *)
Definition spaces (k n : nat) : list Frame := map (fun _ => Data (str " ")) (List.filter tick (seq k n)).

(** A body that waits for the future, which was polled [i] times. *)
Definition waiting (i : nat) (allow : bool) : KeepAliveBody :=
  {| inner_polls := i; initial_body := None; response := None; interval_polls := i; done_ := false; allow_trailers := allow |}.

Definition trailers (allow : bool) (hs : list (bytes * bytes)) : list Frame := if allow then [Trailers hs] else [].

(** The body of the response, then the trailers. *)
Lemma response_emits k b fs r b' : emits poll_frame k b fs r b' -> forall res s,
  r_body res = b -> response s = Some res -> initial_body s = None -> done_ s = false ->
  exists s', emits KeepAliveBody_poll_frame (k + match r with None => if allow_trailers s then 1 else 0 | Some _ => 0 end) s
    (fs ++ match r with None => trailers (allow_trailers s) (r_headers res) | Some _ => [] end) (BodyError_to_string <$> r) s' /\
    done_ s' = match r with None => true | Some _ => false end.
Proof.
  induction 1 as [b b1 Ep|b b1 e Ep|n b b1 x l r b2 Ep _ IH|n b b1 l r b2 Ep _ IH]; intros res s Hb Hr Hi Hd.
  - assert (Hs : KeepAliveBody_poll_frame s = if allow_trailers s
      then (set_response (Some (set_response_headers [] (set_response_body b1 res))) true s, Ready (Some (Ok (Trailers (r_headers res)))))
      else (set_response (Some (set_response_body b1 res)) true s, Ready None)).
    { unfold KeepAliveBody_poll_frame. rewrite Hd, Hi, Hr. unfold poll_response. by rewrite Hb, Ep. }
    destruct (allow_trailers s).
    + eexists. split; [simpl; eapply emits_frame; [exact Hs|]; by apply emits_end|done].
    + eexists. split; [simpl; by apply emits_end|done].
  - exists (set_response (Some (set_response_body b1 res)) (done_ s) s). split; [|done]. cbn [app]. apply emits_error.
    unfold KeepAliveBody_poll_frame. rewrite Hd, Hi, Hr. unfold poll_response. by rewrite Hb, Ep, Hd.
  - assert (Hs : KeepAliveBody_poll_frame s = (set_response (Some (set_response_body b1 res)) false s, Ready (Some (Ok x)))).
    { unfold KeepAliveBody_poll_frame. rewrite Hd, Hi, Hr. unfold poll_response. by rewrite Hb, Ep, Hd. }
    destruct (IH (set_response_body b1 res) (set_response (Some (set_response_body b1 res)) false s) eq_refl eq_refl Hi eq_refl) as (s' & He & Hdone).
    exists s'. split; [|done]. by apply (emits_frame _ _ _ _ _ _ _ _ Hs).
  - assert (Hs : KeepAliveBody_poll_frame s = (set_response (Some (set_response_body b1 res)) false s, Pending)).
    { unfold KeepAliveBody_poll_frame. rewrite Hd, Hi, Hr. unfold poll_response. by rewrite Hb, Ep, Hd. }
    destruct (IH (set_response_body b1 res) (set_response (Some (set_response_body b1 res)) false s) eq_refl eq_refl Hi eq_refl) as (s' & He & Hdone).
    exists s'. split; [|done]. by apply (emits_wait _ _ _ _ _ _ _ Hs).
Qed.

(** The first poll that finds the future ready also polls the body of the response. *)
Lemma ready_same i allow res : outcome i = Ready (Ok res) ->
  KeepAliveBody_poll_frame (waiting i allow) = KeepAliveBody_poll_frame (set_response (Some res) false (polled (waiting i allow))).
Proof. intros Ho. unfold KeepAliveBody_poll_frame. cbn [waiting done_ initial_body response inner_polls]. by rewrite Ho. Qed.

Lemma emits_same n s1 s2 l r s' : KeepAliveBody_poll_frame s1 = KeepAliveBody_poll_frame s2 ->
  emits KeepAliveBody_poll_frame n s2 l r s' -> emits KeepAliveBody_poll_frame n s1 l r s'.
Proof. intros E He. inversion He; subst; rewrite <- E in *; by econstructor. Qed.

(** While the future is pending, a space is sent for every tick. *)
Lemma waiting_emits allow m : forall i k l r s', (forall j, i <= j < i + m -> outcome j = Pending) ->
  emits KeepAliveBody_poll_frame k (waiting (i + m) allow) l r s' ->
  emits KeepAliveBody_poll_frame (m + k) (waiting i allow) (spaces i m ++ l) r s'.
Proof.
  induction m as [|m IH]; intros i k l r s' Hp Hk; [by rewrite Nat.add_0_r in Hk|].
  assert (Hs : KeepAliveBody_poll_frame (waiting i allow) =
    if tick i then (waiting (S i) allow, Ready (Some (Ok (Data (str " "))))) else (waiting (S i) allow, Pending)).
  { unfold KeepAliveBody_poll_frame. cbn [waiting done_ initial_body response inner_polls]. by rewrite Hp by lia. }
  assert (He : emits KeepAliveBody_poll_frame (m + k) (waiting (S i) allow) (spaces (S i) m ++ l) r s').
  { apply IH; [intros j Hj; apply Hp; lia|]. by rewrite Nat.add_succ_l, <- Nat.add_succ_r. }
  unfold spaces in *. cbn [seq List.filter]. destruct (tick i); [by apply (emits_frame _ _ _ _ _ _ _ _ Hs)|by apply (emits_wait _ _ _ _ _ _ _ Hs)].
Qed.

Definition initial_frames (b : option bytes) : list Frame := match b with Some b => [Data b] | None => [] end.

Lemma initial_emits b allow k l r s' :
  emits KeepAliveBody_poll_frame k (KeepAliveBody_new None allow) l r s' ->
  emits KeepAliveBody_poll_frame (length (initial_frames b) + k) (KeepAliveBody_new b allow) (initial_frames b ++ l) r s'.
Proof. intros He. destruct b as [b|]; [|done]. cbn [initial_frames length Nat.add app]. eapply emits_frame; [|exact He]. done. Qed.
End KeepAlive.

(** ** Every body ends *)

Definition kind_size (k : Kind) : nat :=
  match k with
  | KEmpty => 0
  | Once _ => 1
  | Hyper inner | BoxBody inner | UnsyncBoxBody inner => length (frames inner)
  | DynStream inner => length (items inner)
  end.

Lemma poll_frame_size b : match poll_frame b with
  | (b', Pending) | (b', Ready (Some (Ok _))) => kind_size (kind b') < kind_size (kind b)
  | _ => True
  end.
Proof.
  destruct b as [k limit]. unfold poll_frame. cbn [kind].
  assert (Hk : match poll_kind k with (k', Pending) | (k', Ready (Some (Ok _))) => kind_size k' < kind_size k | _ => True end).
  { destruct k as [|x|[fs ? ?]|[fs ? ?]|[fs ? ?]|[xs ?]]; cbn [poll_kind].
    - done.
    - destruct (x =? []); simpl; [done|lia].
    - unfold http_poll_frame. cbn [frames]. destruct fs as [|[|[]] fs]; simpl; try done; lia.
    - unfold http_poll_frame. cbn [frames]. destruct fs as [|[|[]] fs]; simpl; try done; lia.
    - unfold http_poll_frame. cbn [frames]. destruct fs as [|[|[]] fs]; simpl; try done; lia.
    - unfold dyn_poll_next. cbn [items]. destruct xs as [|[|[]] xs]; simpl; try done; lia. }
  destruct (poll_kind k) as [k' [[[fr|e]|]|]]; cbn [poll_map fmap option_fmap option_map map_err remaining_limit kind] in *; destruct limit as [n|]; try done.
  destruct fr as [data|hs]; [|done]. destruct (n <? len data)%Z; done.
Qed.

Lemma body_emits b : exists k fs r b', emits poll_frame k b fs r b'.
Proof.
  remember (kind_size (kind b)) as n eqn:Hn. revert b Hn. induction n as [n IH] using lt_wf_ind. intros b Hn. pose proof (poll_frame_size b) as Hp.
  destruct (poll_frame b) as [b1 [[[fr|e]|]|]] eqn:E.
  - destruct (IH (kind_size (kind b1)) ltac:(lia) b1 eq_refl) as (k & fs & r & b' & He). exists (S k), (fr :: fs), r, b'. by apply (emits_frame _ _ _ _ _ _ _ _ E).
  - exists 1, [], (Some e), b1. by apply (emits_error _ _ _ _ E).
  - exists 1, [], None, b1. by apply (emits_end _ _ _ E).
  - destruct (IH (kind_size (kind b1)) ltac:(lia) b1 eq_refl) as (k & fs & r & b' & He). exists (S k), fs, r, b'. by apply (emits_wait _ _ _ _ _ _ _ E).
Qed.

(** ** Properties *)

Section Completion.
Context {Ext : Type} (outcome : nat -> poll (result bytes (Response Ext))) (tick : nat -> bool).

(** C38: A keep-alive body is live: once the future it waits for is ready, at its [n]-th poll, a
    client that keeps polling reaches the end after a known number of polls.  It has received what
    was known at the start, one space for each tick while the future was pending, then exactly the
    frames of the body of the response, and its headers as trailers when they are allowed; an error
    of the future or of that body ends it. *)
Theorem keep_alive_completes (n : nat) (initial : option bytes) (allow : bool) (out : result bytes (Response Ext)) :
  (forall i, i < n -> outcome i = Pending) -> outcome n = Ready out ->
  let start := initial_frames initial ++ spaces tick 0 n in
  let polls := length (initial_frames initial) + n in
  match out with
  | Ok res => exists k fs r b' s', emits poll_frame k (r_body res) fs r b' /\
      emits (KeepAliveBody_poll_frame outcome tick) (polls + (k + match r with None => if allow then 1 else 0 | Some _ => 0 end))
        (KeepAliveBody_new initial allow)
        (start ++ fs ++ match r with None => trailers allow (r_headers res) | Some _ => [] end) (BodyError_to_string <$> r) s' /\
      KeepAliveBody_is_end_stream s' = match r with None => true | Some _ => false end
  | Err e => exists s', emits (KeepAliveBody_poll_frame outcome tick) (polls + 1) (KeepAliveBody_new initial allow) start (Some e) s' /\
      KeepAliveBody_is_end_stream s' = true
  end.
Proof.
  intros Hp Ho start polls. unfold start, polls. destruct out as [res|e].
  - destruct (body_emits (r_body res)) as (k & fs & r & b' & He). exists k, fs, r, b'.
    destruct (response_emits outcome tick k (r_body res) fs r b' He res (set_response (Some res) false (polled (waiting n allow)))
      eq_refl eq_refl eq_refl eq_refl) as (s' & Hs & Hd).
    exists s'. split; [done|]. split; [|exact Hd]. rewrite <- app_assoc, <- Nat.add_assoc. apply initial_emits, (waiting_emits outcome tick allow n 0).
    + intros j Hj. apply Hp. lia.
    + eapply emits_same; [by apply ready_same|exact Hs].
  - exists (set_response None true (polled (waiting n allow))). split; [|done]. rewrite <- Nat.add_assoc. apply initial_emits.
    rewrite <- (app_nil_r (spaces tick 0 n)). apply (waiting_emits outcome tick allow n 0).
    + intros j Hj. apply Hp. lia.
    + apply emits_error. unfold KeepAliveBody_poll_frame. cbn [waiting done_ initial_body response inner_polls Nat.add]. by rewrite Ho.
Qed.
End Completion.

(** ** Witness *)

Definition w_response : Response unit :=
  {| r_status := 200; r_headers := [(str "key", str "value")]; r_body := Body.once (str " world"); r_extensions := tt |}.
Definition w_outcome (i : nat) : poll (result bytes (Response unit)) := if (i <? 2)%nat then Pending else Ready (Ok w_response).

Lemma keep_alive_completes_witness :
  exists k fs r b' s', emits poll_frame k (r_body w_response) fs r b' /\
    emits (KeepAliveBody_poll_frame w_outcome Nat.even) (3 + (k + match r with None => 1 | Some _ => 0 end)) (KeepAliveBody_new (Some (str "hello")) true)
      ([Data (str "hello"); Data (str " ")] ++ fs ++ match r with None => [Trailers [(str "key", str "value")]] | Some _ => [] end)
      (BodyError_to_string <$> r) s' /\
    KeepAliveBody_is_end_stream s' = match r with None => true | Some _ => false end.
Proof.
  apply (keep_alive_completes w_outcome Nat.even 2 (Some (str "hello")) true (Ok w_response)); [|done].
  intros i Hi. unfold w_outcome. by rewrite (proj2 (Nat.ltb_lt _ _)).
Defined.
