(* ===== verification/Dispatch.v ===== *)
(** * Dispatch of a request (crates/s3s/src/ops/mod.rs, access/mod.rs, access/context.rs)

    [prepare] takes a request from the transport to the operation that will handle it: host,
    path and query, the signature check, the route or the declared operation, the POST object
    form, the access check, and the limits of the body.  It composes the other files.

    The handlers are those of [Handler] on the request.  The configuration is one snapshot; the
    clock is read by the signature check ([now]) and for the expiration of a POST policy
    ([policy_now]).  The host parser, the key provider, the access check, the custom route and
    the name validation belong to the application and are functions of the [CallContext]. *)

From S2P Require Import Prelude.
From S2P Require Import Str.
From S2P Require Import OrderedQs.
From S2P Require Import Path.
From S2P Require Import ErrorCode.
From S2P Require Import Handler.
From S2P Require Import Router.
From S2P Require Import Oir.
From S2P Require Import SigV4.
From S2P Require Import ChunkedStream.
From S2P Require Import Authorization.
From S2P Require Import SigV2.
From S2P Require Import Poll.
From S2P Require Import Stream.
From S2P Require Import Body.
From S2P Require Import Form.
From S2P Require Import PostPolicy.
From S2P Require Import Blob.
From S2P Require Import SignatureCheck.
From S2P Require Import Host.
From S2P Require Import Request.

(** ** Operations *)

Inductive Op := Routed (op : Operation) | PostObject.

Definition Op_name (op : Op) : bytes := match op with Routed op => op_name op | PostObject => str "PostObject" end.

(** The traits of the operations, as each of ops/generated/ declares them. *)
Definition has_streaming_body (op : Op) : bool :=
  match op with
  | Routed (PutObject | PutObjectAnnotation | UploadPart | WriteGetObjectResponse) => true
  | _ => false
  end.

Definition needs_full_body (op : Op) : bool :=
  match op with
  | Routed
      (CompleteMultipartUpload | CreateBucket | CreateBucketMetadataConfiguration |
       CreateBucketMetadataTableConfiguration | DeleteObjects | PutBucketAbac |
       PutBucketAccelerateConfiguration | PutBucketAcl | PutBucketAnalyticsConfiguration | PutBucketCors |
       PutBucketEncryption | PutBucketIntelligentTieringConfiguration | PutBucketInventoryConfiguration |
       PutBucketLifecycleConfiguration | PutBucketLogging | PutBucketMetricsConfiguration |
       PutBucketNotificationConfiguration | PutBucketOwnershipControls | PutBucketPolicy |
       PutBucketReplication | PutBucketRequestPayment | PutBucketTagging | PutBucketVersioning |
       PutBucketWebsite | PutObjectAcl | PutObjectLegalHold | PutObjectLockConfiguration | PutObjectRetention
       | PutObjectTagging | PutPublicAccessBlock | RestoreObject | SelectObjectContent |
       UpdateBucketMetadataAnnotationTableConfiguration | UpdateBucketMetadataInventoryTableConfiguration |
       UpdateBucketMetadataJournalTableConfiguration | UpdateObjectEncryption) => true
  | _ => false
  end.

Definition has_request_payload (op : Op) : bool :=
  match op with
  | PostObject | Routed
      (CompleteMultipartUpload | CreateBucket | CreateBucketMetadataConfiguration |
       CreateBucketMetadataTableConfiguration | DeleteObjects | PutBucketAbac |
       PutBucketAccelerateConfiguration | PutBucketAcl | PutBucketAnalyticsConfiguration | PutBucketCors |
       PutBucketEncryption | PutBucketIntelligentTieringConfiguration | PutBucketInventoryConfiguration |
       PutBucketLifecycleConfiguration | PutBucketLogging | PutBucketMetricsConfiguration |
       PutBucketNotificationConfiguration | PutBucketOwnershipControls | PutBucketPolicy |
       PutBucketReplication | PutBucketRequestPayment | PutBucketTagging | PutBucketVersioning |
       PutBucketWebsite | PutObject | PutObjectAcl | PutObjectAnnotation | PutObjectLegalHold |
       PutObjectLockConfiguration | PutObjectRetention | PutObjectTagging | PutPublicAccessBlock |
       RestoreObject | SelectObjectContent | UpdateBucketMetadataAnnotationTableConfiguration |
       UpdateBucketMetadataInventoryTableConfiguration | UpdateBucketMetadataJournalTableConfiguration |
       UpdateObjectEncryption | UploadPart | WriteGetObjectResponse) => true
  | _ => false
  end.

(** ** Configuration and context *)

(** [S3Config]: the fields the signature check reads, and those read here. *)
Record Config := {
  check_config : S3Config;
  xml_max_body_size : Z;
  post_object_max_file_size : Z;
  put_object_max_size : option Z;
  custom_route_max_body_size : option Z;
  normalize_forward_slash_path : bool;
  normalize_content_length : bool;
  operation_id_routing : bool
}.

Record S3AccessContext {Ext : Type} := {
  a_credentials : option Credentials;
  a_s3_path : S3Path;
  a_s3_op : bytes;
  a_method : Method;
  a_uri : Uri;
  a_headers : HeaderMap;
  a_extensions : Ext
}.
Arguments S3AccessContext : clear implicits.

Record CallContext {Ext : Type} := {
  cc_config : Config;
  cc_host : option (bytes -> result S3ErrorCode VirtualHost);
  cc_auth : option (bytes -> result S3ErrorCode bytes);
  cc_access : option (S3AccessContext Ext -> Ext * result S3ErrorCode unit);
  cc_route : option (Method -> Uri -> HeaderMap -> Ext -> bool * Ext);
  cc_validation : option NameValidation
}.
Arguments CallContext : clear implicits.

Inductive Prepare := S3 (op : Op) | CustomRoute.

(** ** Checked bodies as bodies *)

Definition UploadStreamError_to_string (e : UploadStreamError) : bytes :=
  match e with
  | UploadUnderlying source => str "UploadStreamError: Underlying: " ++ source
  | Sha256Mismatch => str "UploadStreamError: Sha256Mismatch"
  | UploadLengthMismatch => str "UploadStreamError: LengthMismatch"
  | UploadIncomplete => str "UploadStreamError: Incomplete"
  end.

Definition exceeds (what : bytes) (n limit : Z) : bytes :=
  str "AwsChunkedStreamError: " ++ what ++ fmt_dec n ++ str " exceeds limit " ++ fmt_dec limit.

Fixpoint AwsChunkedStreamError_to_string (e : ChunkedStream.AwsChunkedStreamError) : bytes :=
  match e with
  | ChunkedStream.Underlying e => str "AwsChunkedStreamError: Underlying: " ++ StdError_to_string e
  | ChunkedStream.SignatureMismatch => str "AwsChunkedStreamError: SignatureMismatch"
  | ChunkedStream.FormatError => str "AwsChunkedStreamError: FormatError"
  | ChunkedStream.Incomplete => str "AwsChunkedStreamError: Incomplete"
  | ChunkedStream.LengthMismatch => str "AwsChunkedStreamError: LengthMismatch"
  | ChunkedStream.ChunkMetaTooLarge n limit => exceeds (str "ChunkMetaTooLarge: size ") n limit
  | ChunkedStream.ChunkDataTooLarge n limit => exceeds (str "ChunkDataTooLarge: size ") n limit
  | ChunkedStream.TrailersTooLarge n limit => exceeds (str "TrailersTooLarge: size ") n limit
  | ChunkedStream.TooManyTrailerHeaders n limit => exceeds (str "TooManyTrailerHeaders: count ") n limit
  end
with StdError_to_string (e : ChunkedStream.StdError) : bytes :=
  match e with
  | ChunkedStream.BodyError message => message
  | ChunkedStream.Boxed e => AwsChunkedStreamError_to_string e
  end.

Section Bodies.
Context `{CheckDeps}.

(** [Body::from(stream.into_byte_stream())] *)
Definition upload_body (s : UploadStream) : Body :=
  dyn_stream (boxed up_work UploadStream_poll_next UploadStreamError_to_string UploadStream_remaining_length s).

(** The same for an [AwsChunkedStream]. *)
Definition chunked_length (yields : list bytes) (n : Z) : Z :=
  fold_left (fun n data => snd (ChunkedStream.poll (Some (Ok data)) n)) yields n.

Definition chunked_body (b : ChunkedBody) : Body :=
  let run := run_chunked b in
  let last := match ChunkedStream.outcome run with ChunkedStream.Finished r => r | _ => Ok tt end in
  let '(data, e) := ChunkedStream.read_stream (ChunkedStream.yields run) last (cb_decoded_content_length b) in
  let items := map (fun d => Next (Ok d)) data ++
    match e with Some e => [Next (Err (AwsChunkedStreamError_to_string e))] | None => [] end in
  dyn_stream {| Body.items := items;
    ds_remaining_length := fun rest =>
      new_exact (chunked_length (take (length items - length rest) (ChunkedStream.yields run)) (cb_decoded_content_length b)) |}.

(** The body of the request after the check. *)
Definition body_after (c : SignatureContext) : Body :=
  match checked_body c with Some s => upload_body s | None => req_body c end.
End Bodies.

(** ** Handlers *)

Section Dispatch.
Context `{RequestDeps} {Ext : Type}.
(** The [minio] feature, and the two readings of the clock. *)
Context (minio : bool) (now policy_now : Z).
Implicit Types (req : Request Ext) (ccx : CallContext Ext) (config : Config).

(** ** Bodies *)

Definition extract_full_body (content_length : option Z) (max_body_size : Z) : ST (Request Ext) bytes :=
  req ← get;
  match bytes_of (body req) with
  | Some bytes => mret bytes
  | None =>
      let '(b, r) := store_all_limited (body req) max_body_size in
      put (set_req_body b req);;
      bytes ← lift (map_err (fun e => match e with
                                      | OfBody (BodySizeLimitExceeded _ _) => MaxMessageLengthExceeded
                                      | _ => InternalError
                                      end) r);
      if negb (bytes =? []) then
        content_length ← lift (ok_or MissingContentLength content_length);
        fail_if (negb (len bytes =? content_length)%Z) IncompleteBody;;
        mret bytes
      else mret bytes
  end.

Definition prepare_streaming_body config : ST (Request Ext) unit :=
  req ← get;
  content_length ← lift (extract_content_length req);
  let known_length :=
    match content_length with Some n => Some n | None => exact (Body_remaining_length (body req)) end in
  fail_if (match known_length, put_object_max_size config with
           | Some size, Some limit => (limit <? size)%Z
           | _, _ => false
           end) EntityTooLarge;;
  put (set_req_body (set_limit (put_object_max_size config) (body req)) req);;
  match content_length, known_length with
  | None, Some known =>
      if normalize_content_length config
      then modify (fun req => set_headers (header_insert (headers req) (str "content-length") (fmt_dec known)) req)
      else mret tt
  | _, _ => mret tt
  end.

Definition reject_custom_route_body_too_large (content_length max_body_size : option Z) : result S3ErrorCode unit :=
  match max_body_size, content_length with
  | Some max_body_size, Some content_length => if (max_body_size <? content_length)%Z then Err EntityTooLarge else Ok tt
  | _, _ => Ok tt
  end.

(** The body [call] hands to a custom route. *)
Definition custom_route_body config : ST (Request Ext) Body :=
  let max_body_size := custom_route_max_body_size config in
  req ← get;
  content_length ← lift (extract_content_length req);
  lift (reject_custom_route_body_too_large content_length max_body_size);;
  put (set_req_body empty req);;
  mret (set_limit max_body_size (body req)).

(** ** Host and path *)

Definition parse_request_host ccx (host_header : option bytes) :
    result S3ErrorCode (option VirtualHost * option bytes) :=
  match host_header, cc_host ccx with
  | Some host_header, Some s3_host =>
      if negb (is_socket_addr_or_ip_addr host_header)
      then vh ← s3_host host_header; Ok (Some vh, vh_region vh)
      else Ok (None, None)
  | _, _ => Ok (None, None)
  end.

Definition classify_request_path (decoded_uri_path : bytes) ccx (vh_bucket : option bytes) (custom_route_hit : bool)
    config : result S3ErrorCode (option S3Path) :=
  if custom_route_hit then Ok None
  else
    let validation := default AwsNameValidation (cc_validation ccx) in
    path ← map_err convert_parse_s3_path_error
      (parse_virtual_hosted_style_with_validation_and_normalization vh_bucket decoded_uri_path validation
         (normalize_forward_slash_path config));
    Ok (Some path).

(** [route.is_match(..)], which may change the extensions. *)
Definition match_custom_route ccx : ST (Request Ext) bool :=
  match cc_route ccx with
  | None => mret false
  | Some is_match =>
      req ← get;
      let '(hit, e) := is_match (meth req) (uri req) (headers req) (extensions req) in
      put (set_extensions e req);;
      mret hit
  end.

(** ** Routing *)

(** What the router sees of a request. *)
Definition router_request req : Router.Request :=
  {| Router.method := meth req; contains_key := header_contains (headers req) |}.

Definition VIRTUAL_HOSTED_STYLE_HINT : bytes :=
  str "The request appears to use virtual-hosted-style addressing (e.g., Host: bucket.domain) which may not be supported by this endpoint. If so, try path-style requests instead (e.g., /<bucket> rather than / with host bucket.domain).".

(** [None] is a panic of the router. *)
Definition resolve_operation req (s3_path : S3Path) (host_header : option bytes) ccx :
    option (result S3Error Operation) :=
  route ← resolve_route minio (router_request req) s3_path (x_qs (s3ext req));
  Some (match route with
        | Ok op => Ok op
        | Err err =>
            if (code err =? NotImplemented) && negb (is_some (cc_host ccx)) &&
               match host_header with Some h => looks_like_virtual_hosted_style h | None => false end
            then Err (with_message NotImplemented VIRTUAL_HOSTED_STYLE_HINT)
            else Err err
        end).

(** [None] is the panic of a path that was not classified. *)
Definition resolve_oir req config : option (result S3ErrorCode (option Op)) :=
  if negb (operation_id_routing config) then Some (Ok None)
  else
    match (fun q => lookup q (str "x-id")) <$> x_qs (s3ext req) with
    | Some Duplicate => Some (Err InvalidRequest)
    | Some (Single signal) =>
        s3_path ← x_s3_path (s3ext req);
        Some (match resolve_operation_by_id minio (meth req) s3_path signal with
              | Some op => Ok (Some (Routed op))
              | None => Err InvalidRequest
              end)
    | _ => Some (Ok None)
    end.

(** The operation that is resolved before the signature check, and a declaration error that is
    kept until after it. *)
Definition early_operation (custom_route_hit : bool) req config : option (option Op * option S3ErrorCode) :=
  if custom_route_hit || is_multipart_post req then Some (None, None)
  else
    oir ← resolve_oir req config;
    match oir with
    | Ok (Some op) => Some (Some op, None)
    | Ok None =>
        match x_s3_path (s3ext req) with
        | None => Some (None, None)
        | Some s3_path =>
            route ← resolve_route minio (router_request req) s3_path (x_qs (s3ext req));
            Some (match route with Ok op => Some (Routed op) | Err _ => None end, None)
        end
    | Err err => Some (None, Some err)
    end.

Definition request_has_payload (custom_route_hit : bool) req (resolved_op : option Op) : bool :=
  if custom_route_hit
  then negb (get_unique_header_str (headers req) (str "x-amz-content-sha256") =? Some EMPTY_STRING_SHA256_HASH)
  else match resolved_op with Some op => has_request_payload op | None => true end.

(** The operation of a request that was not resolved before the signature check. *)
Definition late_operation (host_header : option bytes) ccx : ST (Request Ext) Op :=
  req ← get;
  s3_path ← panic_none (x_s3_path (s3ext req));
  match x_multipart (s3ext req), meth req with
  | Some multipart, POST =>
      match s3_path with
      | Root => lift (Err NotImplemented)
      | Bucket bucket =>
          post ← panic_none
            (match @resolve_post_object check_policy_deps _ policy_now bucket multipart
                     (post_object_max_file_size (cc_config ccx)) with
             | Some (Ready r) => Some r
             | _ => None
             end);
          modify_ext (set_form (Some (fst post)) (x_trailing_headers (s3ext req)));;
          '(stream, policy) ← lift (snd post);
          modify_ext (set_post (Some stream) policy);;
          mret PostObject
      | Object _ _ => lift (Err MethodNotAllowed)
      end
  | _, _ =>
      op ← panic_none (resolve_operation req s3_path host_header ccx);
      op ← lift (map_err code op);
      mret (Routed op)
  end.

(** ** Access *)

Definition default_check (cx : S3AccessContext Ext) : result S3ErrorCode unit :=
  match a_credentials cx with Some _ => Ok tt | None => Err AccessDenied end.

Definition access_context req (op : Op) (s3_path : S3Path) : S3AccessContext Ext :=
  {| a_credentials := x_credentials (s3ext req); a_s3_path := s3_path; a_s3_op := Op_name op; a_method := meth req;
     a_uri := uri req; a_headers := headers req; a_extensions := extensions req |}.

Definition authorize ccx (op : Op) (s3_path : S3Path) : ST (Request Ext) unit :=
  match cc_auth ccx with
  | None => mret tt
  | Some _ =>
      req ← get;
      let acx := access_context req op s3_path in
      match cc_access ccx with
      | Some access => let '(e, r) := access acx in put (set_extensions e req);; lift r
      | None => lift (default_check acx)
      end
  end.

(** ** The signature check *)

(** What the check is given. *)
Definition signature_context req ccx (vh_bucket : option bytes) (content_length decoded_content_length : option Z)
    (decoded_uri_path : bytes) : SignatureContext :=
  {| auth := cc_auth ccx; SignatureCheck.config := check_config (cc_config ccx); req_version := version req;
     req_method := method_as_str (meth req); req_uri_path := uri_path (uri req);
     req_uri_authority := uri_authority (uri req); req_body := body req; checked_body := None;
     SignatureCheck.qs := x_qs (s3ext req); hs := headers req; SignatureCheck.decoded_uri_path := decoded_uri_path;
     raw_uri_path := uri_path (uri req); SignatureCheck.vh_bucket := vh_bucket;
     SignatureCheck.content_length := content_length; mime := extract_mime (headers req);
     SignatureCheck.decoded_content_length := decoded_content_length; transformed_body := None; multipart := None;
     trailing_headers := false |}.

(** [scx.check().await?]: the body is changed in any case. *)
Definition run_check (c : SignatureContext) : ST (Request Ext) (SignatureContext * option CredentialsExt) := fun req =>
  '(c', r) ← check now c;
  Some (set_req_body (body_after c') req, cred ← r; Ok (c', cred)).

Definition parse_region (region : option bytes) : result S3ErrorCode (option bytes) :=
  match region with
  | Some s => if s =? [] then Ok None else r ← ok_or InvalidRequest (Region_new s); Ok (Some r)
  | None => Ok None
  end.

Definition apply_credentials (credentials : option CredentialsExt) (vh_region : option bytes) : ST (Request Ext) unit :=
  match credentials with
  | Some cred =>
      let c := Some {| cred_access_key := access_key cred; cred_secret_key := secret_key cred |} in
      modify_ext (fun x => set_credentials c (x_region x) (x_service x) x);;
      cred_region ← lift (parse_region (cred_region cred));
      modify_ext (set_credentials c cred_region (cred_service cred))
  | None => modify_ext (set_credentials None None None)
  end;;
  req ← get;
  match x_region (s3ext req) with
  | Some _ => mret tt
  | None =>
      region ← lift (parse_region vh_region);
      modify_ext (fun x => set_credentials (x_credentials x) region (x_service x) x)
  end.

Definition verify_signature ccx (vh_bucket vh_region : option bytes) (content_length : option Z) :
    ST (Request Ext) (option Z) :=
  req ← get;
  decoded_uri_path ← lift (ok_or InvalidURI (urlencoding_decode (uri_path (uri req))));
  decoded_content_length ← lift (extract_decoded_content_length (headers req));
  '(c, credentials) ← run_check (signature_context req ccx vh_bucket content_length decoded_content_length decoded_uri_path);
  modify_ext (set_form (multipart c) (trailing_headers c));;
  apply_credentials credentials vh_region;;
  let body_changed := is_some (transformed_body c) || is_some (multipart c) in
  modify (fun req =>
    if body_changed
    then set_headers (header_set_first (headers req) (str "content-length")
           (fmt_content_length (default 0%Z decoded_content_length))) req
    else req);;
  modify (fun req => match transformed_body c with Some b => set_req_body (chunked_body b) req | None => req end);;
  mret (if body_changed then (fun _ => 0%Z) <$> content_length else content_length).

(** ** The whole preparation *)

(** The body, as the operation wants it. *)
Definition prepare_body (op : Op) (content_length : option Z) config : ST (Request Ext) unit :=
  if needs_full_body op then extract_full_body content_length (xml_max_body_size config);; mret tt
  else if has_streaming_body op then prepare_streaming_body config
  else mret tt.

(** The part of [prepare] after the signature check. *)
Definition after_check (host_header : option bytes) (resolved_op : option Op) (oir_error : option S3ErrorCode)
    (custom_route_hit : bool) (content_length : option Z) ccx : ST (Request Ext) Prepare :=
  if custom_route_hit then mret CustomRoute
  else
    lift (match oir_error with Some err => Err err | None => Ok tt end);;
    op ← (match resolved_op with Some op => mret op | None => late_operation host_header ccx end);
    req ← get;
    s3_path ← panic_none (x_s3_path (s3ext req));
    authorize ccx op s3_path;;
    prepare_body op content_length (cc_config ccx);;
    mret (S3 op).

Definition prepare ccx : ST (Request Ext) Prepare :=
  let config := cc_config ccx in
  modify inject_host_header;;
  req ← get;
  host_header ← lift (extract_host req);
  decoded_uri_path ← lift (ok_or InvalidURI (urlencoding_decode (uri_path (uri req))));
  '(vh, vh_region) ← lift (parse_request_host ccx host_header);
  custom_route_hit ← match_custom_route ccx;
  let vh_bucket := vh ≫= Host.vh_bucket in
  s3_path ← lift (classify_request_path decoded_uri_path ccx vh_bucket custom_route_hit config);
  modify_ext (set_s3_path s3_path);;
  qs ← lift (extract_qs (uri req));
  modify_ext (set_qs qs);;
  req ← get;
  content_length ← lift (extract_content_length req);
  '(resolved_op, oir_error) ← panic_none (early_operation custom_route_hit req config);
  let request_has_payload := request_has_payload custom_route_hit req resolved_op in
  let content_length_for_signature := signature_content_length req content_length request_has_payload in
  content_length ← verify_signature ccx vh_bucket vh_region content_length_for_signature;
  after_check host_header resolved_op oir_error custom_route_hit content_length ccx.
End Dispatch.

(** ** Bodies: lemmas *)

Section BodyFacts.
Context `{CheckDeps}.

(** The body made of an upload stream is read as the stream is. *)
Lemma upload_body_read s :
  exists s' l r, drain up_work UploadStream_poll_next s = ((s', l), Ready r) /\
    reads (upload_body s) = (l, Source ∘ UploadStreamError_to_string <$> r).
Proof. rewrite <- body_read_eq. apply boxed_read, upload_polls_down. Qed.

(** Reading a chunked body is reading the chunked stream. *)
Definition chunked_read (b : ChunkedBody) : list bytes * option AwsChunkedStreamError :=
  read_stream (yields (run_chunked b)) (match outcome (run_chunked b) with ChunkedStream.Finished r => r | _ => Ok tt end)
    (cb_decoded_content_length b).

Lemma chunked_body_read b :
  reads (chunked_body b) = (fst (chunked_read b), Source ∘ AwsChunkedStreamError_to_string <$> snd (chunked_read b)).
Proof.
  unfold chunked_body, chunked_read. destruct (read_stream _ _ _) as [l e]. unfold reads. cbn [dyn_stream kind remaining_limit kind_frames Body.items fst snd].
  fold (item_frames (map (fun d => Next (Ok d)) l ++ match e with Some e => [Next (Err (AwsChunkedStreamError_to_string e))] | None => [] end)).
  induction l as [|d l IH]; [by destruct e|]. cbn [map app].
  change (item_frames (Next (Ok d) :: ?k)) with (FNext (Ok (Data d)) :: item_frames k). cbn [frame_read]. by rewrite IH.
Qed.

(** What a handler that reads the checked body to a clean end gets. *)
Definition delivers (c : SignatureContext) (x : bytes) : Prop :=
  match transformed_body c with
  | Some b => exists l, chunked_read b = (l, None) /\ x = concat l
  | None => read_body c = (x, true)
  end.

Definition final_body (c : SignatureContext) : Body :=
  match transformed_body c with Some b => chunked_body b | None => body_after c end.

Lemma final_body_read c l : body_read (final_body c) = (l, None) -> delivers c (concat l).
Proof.
  rewrite body_read_eq. unfold final_body, delivers. destruct (transformed_body c) as [b|].
  - rewrite chunked_body_read. destruct (chunked_read b) as [ys [e|]]; cbn; [done|]. intros [= ->]. eauto.
  - unfold body_after, read_body. destruct (checked_body c) as [s|].
    + destruct (upload_body_read s) as (s' & ys & r & -> & ->). destruct r; [done|]. by intros [= ->].
    + rewrite <- body_read_eq. by intros ->.
Qed.

(** The checked body is in memory only if it is not read through a check. *)
Lemma final_in_memory c x : bytes_of (final_body c) = Some x ->
  transformed_body c = None /\ checked_body c = None /\ bytes_of (req_body c) = Some x.
Proof.
  unfold final_body, body_after. destruct (transformed_body c) as [b|]; [unfold chunked_body; by destruct (read_stream _ _ _)|].
  by destruct (checked_body c).
Qed.

(** A clean read under a limit is a clean read, and it is within the limit. *)
Lemma limited_read b n l :
  (0 <= n)%Z -> remaining_limit b = None -> body_read (set_limit (Some n) b) = (l, None) ->
  body_read b = (l, None) /\ (len (concat l) <= n)%Z.
Proof.
  intros Hn Hl. rewrite !body_read_eq. unfold reads. cbn [set_limit kind remaining_limit]. rewrite Hl.
  pose proof (frame_read_limit n (kind_frames (kind b)) Hn) as Hf. destruct (frame_read None _) as [ds e].
  destruct (len (concat ds) <=? n)%Z eqn:E; reflect_bools; [rewrite Hf; intros [= -> ->]; done|].
  destruct Hf as (? & ? & ? & _ & _ & ->). done.
Qed.
End BodyFacts.

(** ** The stages of the preparation: lemmas *)

Lemma header_get_all_set_first hs name value other :
  header_get_all (header_set_first hs name value) other = [] <-> header_get_all hs other = [].
Proof.
  unfold header_get_all. induction hs as [|[n v] hs IH]; [done|]. cbn [header_set_first]. case_bool_decide; simpl; [by case_bool_decide|].
  by case_bool_decide.
Qed.

Lemma header_contains_set_first hs name value other :
  header_contains (header_set_first hs name value) other = header_contains hs other.
Proof.
  unfold header_contains. f_equal. apply bool_decide_ext. apply header_get_all_set_first.
Qed.

Section Stages.
Context `{RequestDeps} {Ext : Type}.
Context (minio : bool) (now policy_now : Z).
Implicit Types (req : Request Ext) (ccx : CallContext Ext).

Lemma modify_ok f req req' u : modify f req = Some (req', Ok u) <-> req' = f req.
Proof. unfold modify. destruct u. split; [intros E; by run_ok|by intros ->]. Qed.

Lemma modify_ext_ok f req req' u : modify_ext f req = Some (req', Ok u) <-> req' = set_s3ext (f (s3ext req)) req.
Proof. unfold modify_ext. by rewrite modify_ok. Qed.

Lemma match_custom_route_ok ccx req req' hit :
  match_custom_route ccx req = Some (req', Ok hit) -> exists e, req' = set_extensions e req.
Proof.
  unfold match_custom_route. destruct (cc_route ccx) as [is_match|]; intros E; run_ok.
  - destruct (is_match _ _ _ _) as [h e]. run_ok. by exists e.
  - exists (extensions req). by destruct req.
Qed.

Lemma map_err_Ok {E F A} (f : E -> F) (r : result E A) a : map_err f r = Ok a <-> r = Ok a.
Proof. destruct r; simpl; split; congruence. Qed.

(** The credentials a check gives, as the request keeps them. *)
Definition kept (cred : CredentialsExt) : Credentials :=
  {| cred_access_key := access_key cred; cred_secret_key := secret_key cred |}.

Lemma apply_credentials_ok cred vh_region req req' u :
  apply_credentials cred vh_region req = Some (req', Ok u) ->
  exists region service, req' = set_s3ext (set_credentials (kept <$> cred) region service (s3ext req)) req.
Proof.
  unfold apply_credentials. intros E. apply M_bind_ok in E as (r1 & u1 & E1 & E2).
  assert (H1 : exists region service, r1 = set_s3ext (set_credentials (kept <$> cred) region service (s3ext req)) req).
  { destruct cred as [cred|].
    - apply M_bind_ok in E1 as (r0 & ? & ->%modify_ext_ok & E1). run_ok.
      match goal with E1 : modify_ext _ _ = _ |- _ => apply modify_ext_ok in E1; subst r1 end. by eexists _, _.
    - apply modify_ext_ok in E1. subst r1. by eexists _, _. }
  destruct H1 as (region & service & ->). run_ok. cbn [set_s3ext s3ext set_credentials x_region] in *.
  destruct region as [r|]; run_ok; [by eexists _, _|].
  match goal with E1 : modify_ext _ _ = _ |- _ => apply modify_ext_ok in E1; subst req' end. by eexists _, _.
Qed.

(** What the signature check leaves of the request. *)
Record verified_request ccx (vb : option bytes) (content_length : option Z) req (c' : SignatureContext)
    (cred : option CredentialsExt) (n : option Z) req' : Prop := {
  vr_check : exists decoded_length path, urlencoding_decode (uri_path (uri req)) = Some path /\
    extract_decoded_content_length (headers req) = Ok decoded_length /\
    check now (signature_context req ccx vb content_length decoded_length path) = Some (c', Ok cred);
  vr_version : version req' = version req;
  vr_method : meth req' = meth req;
  vr_uri : uri req' = uri req;
  vr_headers : forall name, header_contains (headers req') name = header_contains (headers req) name;
  vr_body : body req' = final_body c';
  vr_path : x_s3_path (s3ext req') = x_s3_path (s3ext req);
  vr_qs : x_qs (s3ext req') = x_qs (s3ext req);
  vr_form : x_multipart (s3ext req') = multipart c';
  vr_credentials : x_credentials (s3ext req') = kept <$> cred;
  vr_length : n = if is_some (transformed_body c') || is_some (multipart c') then (fun _ => 0%Z) <$> content_length else content_length
}.

Lemma verify_signature_ok ccx vb vr content_length req req' n :
  verify_signature now ccx vb vr content_length req = Some (req', Ok n) ->
  exists c' cred, verified_request ccx vb content_length req c' cred n req'.
Proof.
  unfold verify_signature. intros E. apply M_bind_ok in E as (r0 & x0 & E0 & E). run_ok.
  match goal with E1 : run_check _ ?c _ = _ |- _ => unfold run_check in E1; destruct (check now c) as [[c' r]|] eqn:Ec; [|done] end.
  cbn [mbind option_bind] in *. destruct r as [cred|e]; [|by simplify_eq]. simplify_eq/=. run_ok.
  repeat match goal with
  | E1 : modify_ext _ _ = Some (_, Ok _) |- _ => apply modify_ext_ok in E1; subst
  | E1 : modify _ _ = Some (_, Ok _) |- _ => apply modify_ok in E1; subst
  | E1 : apply_credentials _ _ _ = Some (_, Ok _) |- _ => apply apply_credentials_ok in E1 as (region & service & ->)
  end.
  exists c', cred. set (changed := is_some (transformed_body c') || is_some (multipart c')).
  constructor; try by destruct changed, (transformed_body c').
  - eexists _, _. split_and!; eassumption.
  - intros name. destruct changed, (transformed_body c'); try done; apply header_contains_set_first.
  - unfold final_body. by destruct changed, (transformed_body c').
  - done.
Qed.

(** How the operation of a request was found: it was declared by the x-id of the query, it is
    the first that matches in the route table, or the form of a POST was accepted for it. *)
Definition operation_found ccx (m : Method) (hs : HeaderMap) (qs : option OrderedQs.OrderedQs) (p : S3Path)
    (form : option Form) (op : Op) (x : S3Extensions) : Prop :=
  match op with
  | Routed o =>
      (operation_id_routing (cc_config ccx) = true /\
       (exists q, qs = Some q /\ lookup q (str "x-id") = Single (op_name o)) /\ o ∈ routed_ops minio m p) \/
      first_match Ok {| method := m; contains_key := header_contains hs |} qs (routes minio m p) (Err unknown_operation) = Ok o
  | PostObject =>
      m = POST /\ exists bucket f f' stream policy, p = Bucket bucket /\ form = Some f /\
        @resolve_post_object check_policy_deps _ policy_now bucket f (post_object_max_file_size (cc_config ccx)) =
          Some (Ready (f', Ok (stream, policy))) /\
        x_multipart x = Some f' /\ x_post_object_stream x = Some stream /\ x_post_policy x = policy
  end.

Lemma declared_sound m p name o :
  resolve_operation_by_id minio m p name = Some o -> name = op_name o /\ o ∈ routed_ops minio m p.
Proof. apply declared_iff. Qed.

Lemma early_operation_ok custom req ccx op err :
  early_operation minio custom req (cc_config ccx) = Some (Some op, err) ->
  err = None /\ exists p, x_s3_path (s3ext req) = Some p /\
    operation_found ccx (meth req) (headers req) (x_qs (s3ext req)) p None op (s3ext req).
Proof.
  unfold early_operation. destruct (custom || is_multipart_post req); [done|]. intros (oir & Eo & E)%bind_Some.
  destruct oir as [[o|]|e]; [| |done].
  - injection E as -> <-. split; [done|]. unfold resolve_oir in Eo. destruct (operation_id_routing (cc_config ccx)) eqn:Ei; [|done].
    destruct (x_qs (s3ext req)) as [q|]; [|done]. cbn [negb fmap option_fmap option_map] in Eo.
    destruct (lookup q (str "x-id")) as [|signal|] eqn:El; try done. apply bind_Some in Eo as (p & Hp & Eo).
    destruct (resolve_operation_by_id _ _ _ _) as [o'|] eqn:Er; [|done]. injection Eo as <-. exists p. split; [done|].
    apply declared_sound in Er as [-> Hr]. left. eauto.
  - destruct (x_s3_path (s3ext req)) as [p|]; [|done]. rewrite resolve_route_eq in E. cbn [mbind option_bind] in E.
    injection E as E <-. split; [done|]. exists p. split; [done|].
    destruct (first_match _ _ _ _ _) as [o|e] eqn:Ef; [|done]. injection E as <-. by right.
Qed.

Lemma late_operation_ok host_header ccx req req' op p :
  late_operation minio policy_now host_header ccx req = Some (req', Ok op) -> x_s3_path (s3ext req) = Some p ->
  operation_found ccx (meth req) (headers req) (x_qs (s3ext req)) p (x_multipart (s3ext req)) op (s3ext req') /\
  exists x, req' = set_s3ext x req /\ x_s3_path x = Some p /\ x_credentials x = x_credentials (s3ext req) /\
    (forall o, op = Routed o -> x = s3ext req /\ (x_multipart (s3ext req) = None \/ meth req <> POST)).
Proof.
  unfold late_operation. intros E Hp. run_ok.
  match goal with E1 : x_s3_path (s3ext req) = Some ?q, Hp : _ = Some p |- _ => rewrite Hp in E1; injection E1 as <- end.
  assert (Hroute : (op ← panic_none (resolve_operation minio req p host_header ccx);
      op ← lift (map_err code op); mret (Routed op)) req = Some (req', Ok op) -> req' = req /\ exists o, op = Routed o /\
      first_match Ok (router_request req) (x_qs (s3ext req)) (routes minio (meth req) p) (Err unknown_operation) = Ok o).
  { intros E. run_ok. match goal with E1 : map_err _ _ = Ok _ |- _ => apply map_err_Ok in E1; subst end.
    split; [done|]. eexists. split; [done|].
    match goal with E1 : resolve_operation _ _ _ _ _ = _ |- _ => unfold resolve_operation in E1; rewrite resolve_route_eq in E1;
      cbn [mbind option_bind] in E1; destruct (first_match _ _ _ _ _); [by simplify_eq|by case_match] end. }
  assert (Hr : req' = req /\ (exists o, op = Routed o /\
      first_match Ok (router_request req) (x_qs (s3ext req)) (routes minio (meth req) p) (Err unknown_operation) = Ok o) ->
    operation_found ccx (meth req) (headers req) (x_qs (s3ext req)) p (x_multipart (s3ext req)) op (s3ext req') /\
    exists x, req' = set_s3ext x req /\ x_s3_path x = Some p /\ x_credentials x = x_credentials (s3ext req) /\
      (forall o, op = Routed o -> x = s3ext req)).
  { intros (-> & o & -> & Ho). split; [by right|]. exists (s3ext req). by destruct req. }
  assert (Hr' : x_multipart (s3ext req) = None \/ meth req <> POST ->
    (op ← panic_none (resolve_operation minio req p host_header ccx); op ← lift (map_err code op); mret (Routed op)) req = Some (req', Ok op) ->
    operation_found ccx (meth req) (headers req) (x_qs (s3ext req)) p (x_multipart (s3ext req)) op (s3ext req') /\
    exists x, req' = set_s3ext x req /\ x_s3_path x = Some p /\ x_credentials x = x_credentials (s3ext req) /\
      (forall o, op = Routed o -> x = s3ext req /\ (x_multipart (s3ext req) = None \/ meth req <> POST))).
  { intros Hmp E0. destruct (Hr (Hroute E0)) as (Hf & x & ? & ? & ? & Hx). split; [done|]. exists x. split_and!; [done..|].
    intros o Ho. split; [by apply (Hx o)|done]. }
  clear Hr. rename Hr' into Hr.
  destruct (x_multipart (s3ext req)) as [f|] eqn:Ef; [|by apply Hr; [left|]].
  destruct (meth req) eqn:Em; try by apply Hr; [right|].
  clear Hroute Hr. destruct p as [|bucket|]; [by run_ok| |by run_ok]. run_ok.
  match goal with E1 : (match ?m with _ => _ end) = Some _ |- _ => destruct m as [[[f' r]|]|] eqn:Er; simplify_eq/= end.
  destruct x4 as [stream policy]. run_ok.
  repeat match goal with E1 : modify_ext _ _ = Some (_, Ok _) |- _ => apply modify_ext_ok in E1; subst end.
  split; [split; [done|]; by eexists _, _, _, _, _|]. eexists. split; [reflexivity|]. by split_and!.
Qed.

(** The access check let the operation through. *)
Definition granted ccx (cx : S3AccessContext Ext) : Prop :=
  match cc_access ccx with
  | Some access => snd (access cx) = Ok tt
  | None => is_some (a_credentials cx) = true
  end.

Lemma authorize_ok ccx op p req req' u :
  authorize ccx op p req = Some (req', Ok u) ->
  (exists e, req' = set_extensions e req) /\ (is_some (cc_auth ccx) = true -> granted ccx (access_context req op p)).
Proof.
  unfold authorize, granted. destruct (cc_auth ccx); intros E; run_ok; [|by split; [exists (extensions req); destruct req|]].
  destruct (cc_access ccx) as [access|].
  - destruct (access _) as [e0 r0] eqn:Ea. run_ok. destruct u. split; [by exists e0|done].
  - run_ok. split; [by exists (extensions req); destruct req|]. intros _.
    match goal with E1 : default_check ?cx = _ |- _ => unfold default_check in E1; by destruct (a_credentials cx) end.
Qed.

(** What the operation can read: a whole body in memory, within the limit of the configuration
    unless the transport delivered it in memory; or a stream that is cut at the limit. *)
Definition body_prepared (op : Op) (content_length : option Z) (config : Config) (b b' : Body) : Prop :=
  if needs_full_body op then
    exists x, bytes_of b' = Some x /\
      ((b' = b /\ bytes_of b = Some x) \/
       (exists l, bytes_of b = None /\ body_read b = (l, None) /\ x = concat l /\ (len x <= xml_max_body_size config)%Z /\
          (x = [] \/ content_length = Some (len x))))
  else if has_streaming_body op then b' = set_limit (put_object_max_size config) b
  else b' = b.

Lemma extract_full_body_ok n max req req' x :
  extract_full_body n max req = Some (req', Ok x) ->
  exists b', req' = set_req_body b' req /\ bytes_of b' = Some x /\
    ((b' = body req /\ bytes_of (body req) = Some x) \/
     (exists l, bytes_of (body req) = None /\ body_read (body req) = (l, None) /\ x = concat l /\ (len x <= max)%Z /\
        (x = [] \/ n = Some (len x)))).
Proof.
  unfold extract_full_body. intros E. run_ok. destruct (bytes_of (body req)) as [y|] eqn:Eb; run_ok.
  { exists (body req). split; [by destruct req|]. split; [done|]. by left. }
  unfold store_all_limited in *. rewrite Eb in *.
  match goal with E1 : context [collect_limited ?b ?l] |- _ => pose proof (collect_limited_spec b l) as Hc;
    destruct (collect_limited b l) as [y|e] end; run_ok; [|by simplify_eq/=].
  simplify_eq/=. destruct (body_read (body req)) as [l r].
  destruct (max <? len (concat l))%Z eqn:El; [done|]. reflect_bools. destruct r; [done|]. injection Hc as ->.
  exists (once x). case_bool_decide as Hx; cbn [negb] in *; run_ok; (split; [done|]); (split; [done|]); right; exists l; split_and!; try done.
  - by left.
  - right. match goal with E1 : negb (_ =? _)%Z = false |- _ => apply negb_false_iff, Z.eqb_eq in E1; by rewrite E1 end.
Qed.

Lemma prepare_streaming_body_ok config req req' u :
  prepare_streaming_body config req = Some (req', Ok u) ->
  exists hs, req' = set_headers hs (set_req_body (set_limit (put_object_max_size config) (body req)) req).
Proof.
  unfold prepare_streaming_body. intros E. run_ok.
  assert (Hk : forall r : Request Ext, r = set_headers (headers r) r) by by intros [].
  match goal with E1 : (match ?n with _ => _ end) _ = _ |- _ => destruct n as [m|] end; run_ok; [by eexists; apply Hk|].
  destruct (exact _) as [m|]; run_ok; [|by eexists; apply Hk].
  destruct (normalize_content_length config); run_ok; [|by eexists; apply Hk].
  match goal with E1 : modify _ _ = _ |- _ => apply modify_ok in E1; subst end. by eexists.
Qed.

Lemma prepare_body_ok op n config req req' u :
  prepare_body op n config req = Some (req', Ok u) ->
  exists hs b', req' = set_headers hs (set_req_body b' req) /\ body_prepared op n config (body req) b'.
Proof.
  unfold prepare_body, body_prepared. intros E. destruct (needs_full_body op); [|destruct (has_streaming_body op)].
  - run_ok. match goal with E1 : extract_full_body _ _ _ = _ |- _ => apply extract_full_body_ok in E1 as (b' & -> & Hb & Hr) end.
    eexists (headers req), b'. split; [done|]. by eexists.
  - apply prepare_streaming_body_ok in E as [hs ->]. by eexists _, _.
  - run_ok. exists (headers req), (body req). by destruct req.
Qed.

Lemma first_match_ext {A} (f : Operation -> A) m hs hs' qs l d :
  (forall name, header_contains hs' name = header_contains hs name) ->
  first_match f {| method := m; contains_key := header_contains hs' |} qs l d =
  first_match f {| method := m; contains_key := header_contains hs |} qs l d.
Proof.
  intros Hh. induction l as [|r l IH]; cbn [first_match]; [done|]. rewrite IH.
  assert (Hm : route_matches {| method := m; contains_key := header_contains hs' |} qs r =
               route_matches {| method := m; contains_key := header_contains hs |} qs r); [|by rewrite Hm].
  unfold route_matches. cbn [contains_key]. f_equal. induction (route_headers r) as [|h l' IHl]; [done|]. cbn [forallb]. by rewrite Hh, IHl.
Qed.

Lemma operation_found_headers ccx m hs hs' qs p form op x :
  (forall name, header_contains hs' name = header_contains hs name) ->
  operation_found ccx m hs' qs p form op x -> operation_found ccx m hs qs p form op x.
Proof. intros Hh. destruct op as [o|]; [|done]. intros [Hd|Hr]; [by left|right]. by rewrite <- Hr, (first_match_ext _ m hs hs'). Qed.

(** The headers as they came, with the authority of an HTTP/2 or HTTP/3 request as the Host header
    it then does not have. *)
Definition arrived_headers req (hs : HeaderMap) : Prop :=
  hs = headers req \/
  (header_get_all (headers req) (str "host") = [] /\ (version req = HTTP_2 \/ version req = HTTP_3) /\
   exists authority value, uri_authority (uri req) = Some authority /\ http_header_value authority = Some value /\
     hs = headers req ++ [(str "host", value)]).

(** The bucket that the host of the request stands for. *)
Definition hosted_bucket ccx req (bucket : option bytes) : Prop :=
  exists host vh region, extract_host (inject_host_header req) = Ok host /\ parse_request_host ccx host = Ok (vh, region) /\
    bucket = vh ≫= Host.vh_bucket.

(** The length that was announced; a request without a length and without a payload has none to check. *)
Definition announced_length req (length : option Z) : Prop :=
  exists n, extract_content_length req = Ok n /\ (length = n \/ (n = None /\ length = Some 0%Z)).

(** The signature check is made on this request: every field of the context is that of the request
    or of the configuration, and nothing is checked yet. *)
Record checks ccx req (c : SignatureContext) : Prop := {
  ck_auth : auth c = cc_auth ccx;
  ck_config : config c = check_config (cc_config ccx);
  ck_version : req_version c = version req;
  ck_method : req_method c = method_as_str (meth req);
  ck_uri_path : req_uri_path c = uri_path (uri req);
  ck_authority : req_uri_authority c = uri_authority (uri req);
  ck_path : raw_uri_path c = uri_path (uri req);
  ck_decoded : urlencoding_decode (uri_path (uri req)) = Some (decoded_uri_path c);
  ck_bucket : hosted_bucket ccx req (SignatureCheck.vh_bucket c);
  ck_headers : arrived_headers req (hs c);
  ck_qs : extract_qs (uri req) = Ok (qs c);
  ck_mime : mime c = extract_mime (headers req);
  ck_length : announced_length req (SignatureCheck.content_length c);
  ck_decoded_length : extract_decoded_content_length (headers req) = Ok (SignatureCheck.decoded_content_length c);
  ck_body : req_body c = body req;
  ck_unchecked : checked_body c = None;
  ck_untransformed : transformed_body c = None;
  ck_form : multipart c = None;
  ck_trailing : trailing_headers c = false
}.

(** What is known of a request that is handed to an operation. *)
Record handed_on ccx req (c c' : SignatureContext) (cred : option CredentialsExt) (op : Op) (p : S3Path) req' : Prop := {
  ho_credentials : x_credentials (s3ext req') = kept <$> cred;
  ho_path : x_s3_path (s3ext req') = Some p;
  ho_form : method_wf (meth req) = true -> forall o, op = Routed o -> x_multipart (s3ext req') = None;
  ho_method : meth req' = meth req;
  ho_parsed : parse_virtual_hosted_style_with_validation_and_normalization (SignatureCheck.vh_bucket c) (decoded_uri_path c)
    (default AwsNameValidation (cc_validation ccx)) (normalize_forward_slash_path (cc_config ccx)) = Ok p;
  ho_found : operation_found ccx (meth req) (hs c) (qs c) p (multipart c') op (s3ext req');
  ho_granted : is_some (cc_auth ccx) = true -> exists hs e, granted ccx
    {| a_credentials := kept <$> cred; a_s3_path := p; a_s3_op := Op_name op; a_method := meth req; a_uri := uri req;
       a_headers := hs; a_extensions := e |};
  ho_body : body_prepared op
    (if is_some (transformed_body c') || is_some (multipart c') then (fun _ => 0%Z) <$> SignatureCheck.content_length c
     else SignatureCheck.content_length c) (cc_config ccx) (final_body c') (body req')
}.

Lemma injected req :
  version (inject_host_header req) = version req /\ meth (inject_host_header req) = meth req /\
  uri (inject_host_header req) = uri req /\ body (inject_host_header req) = body req /\
  extensions (inject_host_header req) = extensions req /\ s3ext (inject_host_header req) = s3ext req.
Proof. unfold inject_host_header. by repeat case_match. Qed.

Lemma header_insert_fresh hs name value : to_ascii_lowercase name = name -> header_get_all hs name = [] ->
  header_insert hs name value = hs ++ [(name, value)].
Proof.
  intros Hl. induction hs as [|[n v] hs IH]; [done|]. unfold header_get_all in *. rewrite Hl in *. cbn [List.filter map fst header_insert app].
  case_bool_decide; [done|]. intros E. by rewrite IH.
Qed.

Lemma injected_headers req : arrived_headers req (headers (inject_host_header req)).
Proof.
  unfold inject_host_header, arrived_headers, extract_http2_authority, header_contains. rewrite negb_involutive.
  case_bool_decide as Eh; [|by left]. rewrite Eh. destruct (version req) eqn:Ev; cbn [mbind option_bind]; try (by left);
    (destruct (uri_authority (uri req)) as [a|]; cbn [mbind option_bind]; [|by left]);
    (destruct (http_header_value a) as [v|] eqn:Ea; [right|by left]); (split; [done|]); (split; [auto|]);
    exists a, v; split_and!; try done; by apply header_insert_fresh.
Qed.

(** Only the Host header is added. *)
Lemma injected_get req name : to_ascii_lowercase name <> str "host" ->
  header_get_all (headers (inject_host_header req)) name = header_get_all (headers req) name.
Proof.
  intros Hn. destruct (injected_headers req) as [->|(_ & _ & a & v & _ & _ & ->)]; [done|].
  unfold header_get_all. rewrite List.filter_app, map_app. cbn [List.filter fst]. rewrite bool_decide_eq_false_2 by by apply not_eq_sym. by rewrite app_nil_r.
Qed.

Lemma injected_unique req name : to_ascii_lowercase name <> str "host" ->
  get_unique_header_str (headers (inject_host_header req)) name = get_unique_header_str (headers req) name.
Proof. intros Hn. unfold get_unique_header_str. by rewrite injected_get. Qed.

Lemma injected_length req : extract_content_length (inject_host_header req) = extract_content_length req.
Proof. unfold extract_content_length. by rewrite injected_get. Qed.

Lemma after_check_ok host_header resolved_op oir_error ccx req r2 r3 vb n c' cred n' req' op p :
  verified_request ccx vb n r2 c' cred n' r3 ->
  after_check minio policy_now host_header resolved_op oir_error false n' ccx r3 = Some (req', Ok (S3 op)) ->
  x_s3_path (s3ext r2) = Some p -> meth r2 = meth req -> uri r2 = uri req ->
  (forall o, resolved_op = Some o -> operation_found ccx (meth r2) (headers r2) (x_qs (s3ext r2)) p None o (s3ext r2)) ->
  (method_wf (meth req) = true -> is_some (multipart c') = true -> meth r2 = POST /\ resolved_op = None) ->
  (method_wf (meth req) = true -> forall o, op = Routed o -> x_multipart (s3ext req') = None) /\ meth req' = meth req /\
  x_credentials (s3ext req') = kept <$> cred /\ x_s3_path (s3ext req') = Some p /\
  operation_found ccx (meth req) (headers r2) (x_qs (s3ext r2)) p (multipart c') op (s3ext req') /\
  (is_some (cc_auth ccx) = true -> exists hs e, granted ccx
    {| a_credentials := kept <$> cred; a_s3_path := p; a_s3_op := Op_name op; a_method := meth req; a_uri := uri req;
       a_headers := hs; a_extensions := e |}) /\
  body_prepared op n' (cc_config ccx) (final_body c') (body req').
Proof.
  intros [_ _ Hm Hu Hh Hb Hp Hq Hf Hc _] E Hpath Hmeth Huri Hres Hpost. unfold after_check in E. run_ok.
  match goal with E1 : S3 _ = S3 _ |- _ => injection E1 as -> end.
  match goal with E1 : prepare_body ?o _ _ ?r7 = _, E2 : authorize _ _ ?q ?r1 = _, E3 : _ = Some (?r1, Ok ?o), E4 : x_s3_path _ = Some ?q |- _ =>
    rename E1 into Eb, E2 into Ea, E3 into Eo, E4 into Ep, r1 into r4; set (op := o) in * end.
  assert (Hop : operation_found ccx (meth req) (headers r2) (x_qs (s3ext r2)) p (multipart c') op (s3ext r4) /\
    exists x, r4 = set_s3ext x r3 /\ x_s3_path x = Some p /\ x_credentials x = x_credentials (s3ext r3) /\
      (method_wf (meth req) = true -> forall o, op = Routed o -> x_multipart x = None)).
  { destruct resolved_op as [o|].
    - run_ok. split; [specialize (Hres _ eq_refl); rewrite <- Hmeth|exists (s3ext r3); rewrite Hp, Hf; split_and!; [by destruct r3|done..|]].
      + by destruct op; [|destruct Hres as (_ & ? & ? & ? & ? & ? & _ & ? & _)].
      + intros Hw _ _. destruct (multipart c'); [|done]. by destruct (Hpost Hw).
    - apply (late_operation_ok _ _ _ _ _ p) in Eo as [Ho (x & -> & Hx & Hxc & Hxf)]; [|by rewrite Hp].
      rewrite Hm, Hmeth, Hq, Hf in Ho. split; [by eapply operation_found_headers|]. exists x. split_and!; [done..|].
      intros Hw o Hro. destruct (Hxf o Hro) as [-> [Hn|Hn]]; [done|]. rewrite Hf in *. destruct (multipart c'); [|done].
      destruct Hpost as [Hp' _]; [done..|]. congruence. }
  destruct Hop as (Hop & x & -> & Hx & Hxc & Hxf). cbn [set_s3ext s3ext] in *. rewrite Hx in Ep. injection Ep as <-.
  apply authorize_ok in Ea as [[e ->] Hg]. apply prepare_body_ok in Eb as (hs & b' & -> & Hbody).
  cbn [set_headers set_req_body set_extensions set_s3ext s3ext body meth] in *. rewrite Hxc, Hc, <- Hb. split_and!; try done.
  { congruence. }
  intros Ha. exists (headers r3), (extensions r3). specialize (Hg Ha). unfold access_context in Hg.
  cbn [set_s3ext s3ext meth uri headers extensions] in Hg. by rewrite Hxc, Hc, Hm, Hu, Hmeth, Huri in Hg.
Qed.

(** A form is only read from the body of a POST whose operation is resolved after it. *)
Lemma post_form_late custom req ccx vb n dl path rop err :
  method_wf (meth req) = true ->
  is_post_form (signature_context req ccx vb n dl path) = true ->
  early_operation minio custom req (cc_config ccx) = Some (rop, err) -> meth req = POST /\ rop = None.
Proof.
  unfold is_post_form, early_operation, is_multipart_post. cbn [signature_context req_method mime].
  intros Hw [Hm Ht]%andb_true_iff. apply bool_decide_eq_true in Hm. assert (Hp : meth req = POST).
  { destruct (meth req); try discriminate Hm; [done|]. simpl in Hm. subst. discriminate Hw. }
  rewrite Hp, Ht, orb_true_r. by intros [= <- <-].
Qed.

Lemma prepare_ok ccx req req' out :
  prepare minio now policy_now ccx req = Some (req', Ok out) ->
  exists c c' cred, checks ccx req c /\ check now c = Some (c', Ok cred) /\
    match out with
    | CustomRoute => is_some (cc_route ccx) = true
    | S3 op => exists p, handed_on ccx req c c' cred op p req'
    end.
Proof.
  unfold prepare. intros E. apply M_bind_ok in E as (r0 & u0 & ->%modify_ok & E).
  destruct (injected req) as (Hiv & Him & Hiu & Hib & Hie & Hix). set (r1 := inject_host_header req) in *.
  apply M_bind_ok in E as (? & ? & [-> ->]%get_ok & E). apply M_bind_ok in E as (? & host & [-> Hhost]%lift_ok & E).
  apply M_bind_ok in E as (? & path & [-> Hpath]%lift_ok & E). apply ok_or_Ok in Hpath.
  apply M_bind_ok in E as (? & [vh vr] & [-> Hvh]%lift_ok & E). apply M_bind_ok in E as (? & hit & Ehit & E).
  pose proof Ehit as [e ->]%match_custom_route_ok.
  apply M_bind_ok in E as (? & p & [-> Hp]%lift_ok & E). apply M_bind_ok in E as (? & ? & ->%modify_ext_ok & E).
  apply M_bind_ok in E as (? & q & [-> Hq]%lift_ok & E). apply M_bind_ok in E as (? & ? & ->%modify_ext_ok & E).
  apply M_bind_ok in E as (? & ? & [-> ->]%get_ok & E). apply M_bind_ok in E as (? & n & [-> Hn]%lift_ok & E).
  apply M_bind_ok in E as (? & [rop oir] & [-> Hearly]%panic_none_ok & E).
  set (r2 := set_s3ext _ _) in *. apply M_bind_ok in E as (r3 & n' & Ev & E).
  apply verify_signature_ok in Ev as (c' & cred & Hv). pose proof Hv as [(dl & path' & Hpath' & Hdl & Hck) _ _ _ _ _ _ _ _ _ _].
  eexists _, c', cred. split; [|split; [exact Hck|]].
  { cbn in Hpath', Hdl. rewrite Hiu in *. constructor; cbn; try (done || congruence).
    - eexists host, vh, vr. split_and!; done.
    - apply injected_headers.
    - unfold r1, extract_mime. by rewrite injected_unique.
    - exists n. split; [by rewrite <- injected_length|]. unfold signature_content_length. destruct n; [by left|]. case_match; auto.
    - unfold extract_decoded_content_length in Hdl |- *. unfold r1 in Hdl. by rewrite injected_unique in Hdl. }
  destruct hit.
  { unfold after_check in E. run_ok. unfold match_custom_route in Ehit. by destruct (cc_route ccx). }
  destruct out as [op|]; [|by unfold after_check in E; run_ok].
  unfold classify_request_path in Hp. destruct (map_err _ _) as [p0|] eqn:Hparse; [|done]. injection Hp as <-.
  apply map_err_Ok in Hparse. exists p0.
  destruct (after_check_ok _ _ _ _ req _ _ _ _ _ _ _ _ _ p0 Hv E) as (Hfo & Hme & H1 & H2 & H3 & H4 & H5); try done.
  { intros o ->. apply early_operation_ok in Hearly as (_ & p1 & Hp1 & Ho). cbn in Hp1. by injection Hp1 as <-. }
  { intros Hw Hmp. apply check_form in Hck; [|done]. destruct (multipart c') as [form|]; [|done]. destruct Hck as [Hpf _].
    assert (Hw' : method_wf (meth r2) = true) by (cbn; congruence). by apply (post_form_late false _ _ _ _ _ _ _ _ Hw' Hpf Hearly). }
  constructor; try done; cbn in Hpath'; rewrite ?Hiu in *.
  - cbn. by simplify_eq.
  - destruct Hv as [_ _ _ _ _ _ _ _ _ _ Hlen]. rewrite Hlen in H5. exact H5.
Qed.

(** ** The preparation returns *)

Lemma modify_returns f req : returns (modify f) req.
Proof. by eexists. Qed.
Hint Resolve modify_returns : total.

Lemma apply_credentials_returns cred vr req : returns (apply_credentials cred vr) req.
Proof.
  unfold apply_credentials. apply M_bind_returns.
  - destruct cred; [|by eexists]. steps.
  - intros r u _. step. destruct (x_region _); [by eexists|]. steps.
Qed.

Lemma verify_signature_returns ccx vb vr n req :
  limits_ok (form_limits_of (check_config (cc_config ccx))) -> returns (verify_signature now ccx vb vr n) req.
Proof.
  intros Hl. unfold verify_signature. step. step. step. apply M_bind_returns.
  - unfold run_check, returns. match goal with |- context [check now ?c] => destruct (check_returns now c Hl) as [[c' r] ->] end.
    by eexists.
  - intros r [c' cred] _. step. apply M_bind_returns; [apply apply_credentials_returns|]. intros ? ? _. steps.
Qed.

Lemma late_operation_returns host_header ccx req :
  is_some (x_s3_path (s3ext req)) = true -> (0 <= post_object_max_file_size (cc_config ccx))%Z ->
  (forall f, x_multipart (s3ext req) = Some f -> is_some (stream (file f)) = true) ->
  returns (late_operation minio policy_now host_header ccx) req.
Proof.
  intros Hp Hmax Hf. unfold late_operation. step. apply M_bind_returns; [by apply panic_is_some|]. intros ? ? ?; run_ok.
  match goal with |- context [resolve_operation minio ?r ?p host_header ccx] => assert (Hroute : returns
    (op ← panic_none (resolve_operation minio r p host_header ccx); op ← lift (map_err code op); mret (Routed op)) r) end.
  { apply M_bind_returns; [|intros ? ? _; steps]. apply panic_is_some. unfold resolve_operation. by rewrite resolve_route_eq. }
  destruct (x_multipart (s3ext req)) as [f|]; [|exact Hroute]. destruct (meth req); try exact Hroute.
  match goal with |- context [match ?p with Root => _ | _ => _ end] => destruct p as [|bucket|] end; [by eexists| |by eexists].
  apply M_bind_returns.
  - apply panic_is_some. destruct (@resolve_post_ready check_policy_deps _ policy_now bucket f (post_object_max_file_size (cc_config ccx))) as [r ->]; eauto.
  - intros r [f' o] _. step. apply M_bind_returns; [by eexists|]. intros ? [s pol] _. steps.
Qed.

Lemma authorize_returns ccx op p req : returns (authorize ccx op p) req.
Proof.
  unfold authorize. destruct (cc_auth ccx); [|by eexists]. step. destruct (cc_access ccx); [|by eexists].
  destruct (_ (access_context _ _ _)). steps.
Qed.

Lemma prepare_body_returns op n config req : returns (prepare_body op n config) req.
Proof.
  unfold prepare_body. destruct (needs_full_body op); [|destruct (has_streaming_body op)]; [| |by eexists].
  - apply M_bind_returns; [|intros ? ? _; by eexists]. unfold extract_full_body. step. destruct (bytes_of _); [by eexists|].
    destruct (store_all_limited _ _). step. step. destruct (negb _); steps.
  - unfold prepare_streaming_body. step. step. step. step. repeat case_match; steps.
Qed.
Hint Resolve verify_signature_returns late_operation_returns authorize_returns prepare_body_returns : total.

Lemma early_operation_returns custom req config :
  (custom = false -> is_some (x_s3_path (s3ext req)) = true) -> is_some (early_operation minio custom req config) = true.
Proof.
  intros Hp. unfold early_operation. destruct custom; [done|]. cbn [orb]. destruct (is_multipart_post req); [done|].
  specialize (Hp eq_refl). destruct (x_s3_path (s3ext req)) as [p|] eqn:Ep; [|done]. unfold resolve_oir. rewrite Ep.
  destruct (negb _); cbn [mbind option_bind]; [by rewrite resolve_route_eq|].
  destruct (x_qs (s3ext req)) as [q|]; cbn [fmap option_fmap option_map mbind option_bind]; [|by rewrite resolve_route_eq].
  destruct (lookup q (str "x-id")); cbn [mbind option_bind]; try done; [by rewrite resolve_route_eq|].
  by destruct (resolve_operation_by_id _ _ _ _).
Qed.

(** A form that was accepted carries its file. *)
Lemma form_has_stream (c : SignatureContext) f :
  limits_ok (form_limits_of (config c)) -> submitted c f -> is_some (stream (file f)) = true.
Proof.
  intros Hl (_ & m & b & _ & _ & E). destruct (transform_ready (events (req_body c)) b _ (SignatureCheck.content_length c) Hl) as (r & Er & Hr).
  rewrite E in Er. injection Er as <-. by destruct (Hr f eq_refl).
Qed.

Lemma after_check_returns host_header resolved_op oir_error ccx custom r2 r3 vb n c' cred n' :
  limits_ok (form_limits_of (check_config (cc_config ccx))) -> (0 <= post_object_max_file_size (cc_config ccx))%Z ->
  verified_request ccx vb n r2 c' cred n' r3 -> (custom = false -> is_some (x_s3_path (s3ext r2)) = true) ->
  returns (after_check minio policy_now host_header resolved_op oir_error custom n' ccx) r3.
Proof.
  intros Hl Hmax [(dl & path & _ & _ & Hck) _ _ _ _ _ Hp _ Hf _ _] Hpath. unfold after_check. destruct custom; [by eexists|].
  specialize (Hpath eq_refl). step. destruct oir_error; [done|].
  assert (Hlate : returns (late_operation minio policy_now host_header ccx) r3).
  { apply late_operation_returns; [by rewrite Hp|done|]. intros f Ef. apply check_form in Hck; [|done]. rewrite <- Hf, Ef in Hck.
    by eapply form_has_stream in Hck. }
  destruct (x_s3_path (s3ext r2)) as [p|] eqn:Ep; [|done].
  apply M_bind_returns; [by destruct resolved_op; [eexists|]|]. intros r4 op Eo. step.
  apply M_bind_returns; [|intros ? ? ?; run_ok; steps].
  apply panic_is_some. destruct resolved_op as [o|]; [run_ok; by rewrite Hp|].
  apply (late_operation_ok _ _ _ _ _ p) in Eo as (_ & x & -> & Hx & _); [|done]. cbn. by rewrite Hx.
Qed.

Lemma prepare_returns ccx req :
  limits_ok (form_limits_of (check_config (cc_config ccx))) -> (0 <= post_object_max_file_size (cc_config ccx))%Z ->
  returns (prepare minio now policy_now ccx) req.
Proof.
  intros Hl Hmax. unfold prepare. step. step. step. step. apply M_bind_returns; [by eexists|]. intros ? [vh vr] ?; run_ok.
  apply M_bind_returns; [unfold match_custom_route; destruct (cc_route ccx); [step; destruct (_ (meth _) _ _ _); steps|by eexists]|].
  intros r1 hit Hr1. step. step. step. step. step. step.
  match goal with |- returns _ ?r => assert (Hpath : hit = false -> is_some (x_s3_path (s3ext r)) = true) end.
  { intros ->. repeat match goal with E : modify_ext _ _ = _ |- _ => apply modify_ext_ok in E; subst end. cbn.
    match goal with E : classify_request_path _ _ _ _ _ = _ |- _ => unfold classify_request_path in E; by destruct (map_err _ _); simplify_eq/= end. }
  apply M_bind_returns; [by apply panic_is_some, early_operation_returns|]. intros ? [rop oir] ?; run_ok.
  apply M_bind_returns; [by apply verify_signature_returns|]. intros r3 n' Ev.
  apply verify_signature_ok in Ev as (c' & cred & Hv). by eapply after_check_returns.
Qed.
End Stages.


(** ** Properties *)


(** C7: the preparation of a request always returns, with an operation, a custom route or an
    error: no request makes it panic, and every future in it completes.  The POST form that is
    left by the signature check carries its file, the path of a request that no custom route
    claims is classified, and the router finds an operation or an error for it. *)
Theorem prepare_total `{RequestDeps} {Ext : Type} (minio : bool) (now policy_now : Z) (ccx : CallContext Ext)
    (req : Request Ext) :
  limits_ok (form_limits_of (check_config (cc_config ccx))) -> (0 <= post_object_max_file_size (cc_config ccx))%Z ->
  exists req' r, prepare minio now policy_now ccx req = Some (req', r).
Proof. intros Hl Hm. destruct (prepare_returns minio now policy_now ccx req Hl Hm) as [[req' r] E]. by exists req', r. Qed.

(** What an operation reads of its body. *)
Lemma operation_body_facts `{RequestDeps} {Ext : Type} (minio : bool) (now policy_now : Z) (ccx : CallContext Ext)
    (req req' : Request Ext) (op : Op) :
  remaining_limit (body req) = None -> (forall n, put_object_max_size (cc_config ccx) = Some n -> (0 <= n)%Z) ->
  prepare minio now policy_now ccx req = Some (req', Ok (S3 op)) ->
  exists c c' cred, checks ccx req c /\ check now c = Some (c', Ok cred) /\
    (has_streaming_body op = true -> forall l, body_read (body req') = (l, None) ->
       delivers c' (concat l) /\ forall n, put_object_max_size (cc_config ccx) = Some n -> (len (concat l) <= n)%Z) /\
    (needs_full_body op = true -> exists x, bytes_of (body req') = Some x /\ delivers c' x /\
       (bytes_of (body req) = Some x \/ (len x <= MAX_STS_BODY_SIZE)%Z \/
        (len x <= xml_max_body_size (cc_config ccx))%Z /\ (x = [] \/ SignatureCheck.content_length c = Some (len x)))) /\
    (op = PostObject -> limits_ok (form_limits_of (check_config (cc_config ccx))) -> (0 <= post_object_max_file_size (cc_config ccx))%Z ->
       exists form post, submitted c form /\ x_post_object_stream (s3ext req') = Some post /\
       (post_size post <= post_object_max_file_size (cc_config ccx))%Z).
Proof.
  intros Hl Hpos E. destruct (prepare_ok minio now policy_now ccx req req' (S3 op) E) as (c & c' & cred & Hc & Hck & p & Ho).
  exists c, c', cred. split; [done|]. split; [done|]. destruct Ho as [_ _ _ _ _ Hop _ Hb]. unfold body_prepared in Hb.
  assert (Hnl : remaining_limit (final_body c') = None).
  { apply check_limit in Hck; [|by rewrite (ck_body _ _ _ Hc)]. unfold final_body, body_after.
    destruct (transformed_body c'); [unfold chunked_body; by destruct (read_stream _ _ _)|]. by destruct (checked_body c'). }
  split_and!.
  - intros Hs l Hr. assert (Hn : needs_full_body op = false) by (by destruct op as [[]|]). rewrite Hn, Hs in Hb. rewrite Hb in Hr.
    destruct (put_object_max_size (cc_config ccx)) as [m|].
    + apply limited_read in Hr as [Hr Hm]; [|by apply Hpos|done]. split; [by apply final_body_read|]. by intros ? [= <-].
    + replace (set_limit None (final_body c')) with (final_body c') in Hr by (unfold set_limit; destruct (final_body c'); by simpl in *; subst).
      split; [by apply final_body_read|done].
  - intros Hn. rewrite Hn in Hb. destruct Hb as (x & Hx & [[_ Hb]|(l & _ & Hr & -> & Hlen & Hcl)]); eexists; (split; [exact Hx|]).
    + destruct (in_memory_read _ _ Hb Hnl) as (l & Hr & <-). split; [by apply final_body_read|].
      rewrite <- (ck_body _ _ _ Hc). destruct (final_in_memory _ _ Hb) as (Ht & Hn' & Hm).
      destruct (check_in_memory now c c' cred _ Hck Hn' Ht Hm); auto.
    + split; [by apply final_body_read|]. right; right. split; [done|]. destruct Hcl as [Hcl|Hcl]; [by left|].
      destruct (_ || _); [|by right]. left. destruct (SignatureCheck.content_length c); [|done]. injection Hcl as Hcl. by apply len_zero.
  - intros -> Hlim Hmax. destruct Hop as (_ & bucket & f & f' & post & policy & _ & Hf & Hr & _ & Hs & _). apply check_form in Hck; [|by rewrite (ck_form _ _ _ Hc)].
    rewrite Hf in Hck. exists f, post. split; [done|]. split; [done|].
    rewrite <- (ck_config _ _ _ Hc) in Hlim. pose proof (form_has_stream c f Hlim Hck) as Hst. destruct (stream (file f)) as [fs|] eqn:Efs; [|done].
    destruct (@resolve_post_facts check_policy_deps _ policy_now bucket f fs _ Efs Hmax) as (f2 & r & Er & _ & Hok).
    rewrite Hr in Er. injection Er as -> <-. by destruct (Hok post policy eq_refl).
Qed.


(** An operation that needs the whole body is only reached with an empty one when the
    body is aws-chunked: the length it is compared with is that of the encoded body, which the
    signature check has set to zero. *)
Theorem chunked_full_body_empty `{RequestDeps} {Ext : Type} (minio : bool) (now policy_now : Z) (ccx : CallContext Ext)
    (req req' : Request Ext) (op : Op) :
  prepare minio now policy_now ccx req = Some (req', Ok (S3 op)) -> needs_full_body op = true ->
  exists c c' cred, checks ccx req c /\ check now c = Some (c', Ok cred) /\
    forall b, transformed_body c' = Some b -> bytes_of (body req') = Some [] /\ concat (fst (chunked_read b)) = [].
Proof.
  intros E Hn. destruct (prepare_ok minio now policy_now ccx req req' (S3 op) E) as (c & c' & cred & Hc & Hck & p & Ho).
  exists c, c', cred. split; [done|]. split; [done|]. intros b Hb. destruct Ho as [_ _ _ _ _ _ _ Hp]. unfold body_prepared, final_body in Hp.
  rewrite Hn, Hb in Hp. cbn [is_some orb] in Hp.
  assert (Hnb : bytes_of (chunked_body b) = None) by (unfold chunked_body; by destruct (read_stream _ _ _)).
  destruct Hp as (x & Hx & [[_ Hp]|(l & _ & Hr & -> & _ & Hl)]); [congruence|]. rewrite Hx.
  assert (Hz : concat l = []).
  { destruct Hl as [Hl|Hl]; [done|]. destruct (SignatureCheck.content_length c); [|done]. injection Hl as Hl. by apply len_zero. }
  rewrite Hz. split; [done|]. rewrite body_read_eq, chunked_body_read in Hr. by injection Hr as -> _.
Qed.

(** A whole body that is over the configured maximum is refused, and the error is
    [InternalError] when the transport streams it: the error of [http_body_util] is not the
    one that is reported as [MaxMessageLengthExceeded]. *)
Theorem oversized_body_internal_error `{RequestDeps} {Ext : Type} (req : Request Ext) (content_length : option Z)
    (op : Op) (config : Config) :
  bytes_of (body req) = None -> (xml_max_body_size config < len (concat (fst (body_read (body req)))))%Z ->
  needs_full_body op = true ->
  exists req', prepare_body op content_length config req = Some (req', Err InternalError).
Proof.
  intros Hb Hm Hn. unfold prepare_body. rewrite Hn. unfold extract_full_body, mbind, ST_bind, get. rewrite Hb.
  unfold store_all_limited. rewrite Hb, collect_limited_spec. destruct (body_read (body req)) as [l r]. cbn [fst] in Hm.
  rewrite (proj2 (Z.ltb_lt _ _) Hm). by eexists.
Qed.

(** ** Requests that are handed on *)

Definition toy_request_deps : RequestDeps.
Proof.
  refine {| req_check := toy_check_deps; req_phf := assoc_phf; urlencoding_decode := Some; header_to_str := Some;
            mime_parse := fun _ => None; serde_urlencoded_from_str := fun q => Some [(q, [])];
            atoi_u64 := fun s => match s with [c] => digit_val c | _ => None end |}.
  - congruence.
  - intros [|c [|]] n E; try done. by destruct c; vm_compute in E; simplify_eq.
Defined.

Section DispatchWitness.
#[local] Existing Instance toy_request_deps.

Definition w_dispatch_config : Config :=
  {| check_config := w_config; xml_max_body_size := 4; post_object_max_file_size := 100; put_object_max_size := Some 100%Z;
     custom_route_max_body_size := None; normalize_forward_slash_path := false; normalize_content_length := false;
     operation_id_routing := false |}.

(** A server with one key and the default access check. *)
Definition w_ccx (auth : bool) : CallContext unit :=
  {| cc_config := w_dispatch_config; cc_host := None;
     cc_auth := if auth then Some (fun ak => if ak =? str "AK" then Ok (str "key") else Err InvalidAccessKeyId) else None;
     cc_access := None; cc_route := None; cc_validation := Some {| validate_bucket_name := fun _ => true |} |}.

(** An upload, signed with [key], and a change of the tags of a bucket, not signed. *)
Definition w_put (key : bytes) : Request unit :=
  {| version := HTTP_11; meth := PUT; uri := {| uri_path := str "/b/k"; uri_query := None; uri_authority := None |};
     headers := (str "authorization", w_authorization key) :: w_signed_headers ++ [(str "content-length", str "32")];
     extensions := tt; s3ext := S3Extensions_default;
     body := http_body {| frames := [FNext (Ok (Data (take 20 w_data))); FWait; FNext (Ok (Data (drop 20 w_data)))];
                          hb_size_hint := fun _ => (0, None)%Z; hb_is_end_stream := fun _ => false |} |}.

Definition w_tag (data : bytes) : Request unit :=
  {| version := HTTP_11; meth := PUT; uri := {| uri_path := str "/b"; uri_query := Some (str "tagging"); uri_authority := None |};
     headers := [(str "host", str "h"); (str "content-length", fmt_dec (len data))];
     extensions := tt; s3ext := S3Extensions_default;
     body := http_body {| frames := [FNext (Ok (Data data))]; hb_size_hint := fun _ => (0, None)%Z;
                          hb_is_end_stream := fun _ => false |} |}.

(** The same change signed, with an aws-chunked body of [n] bytes. *)
Definition w_chunked_headers (n : bytes) : list header :=
  [(str "host", str "h"); (str "x-amz-content-sha256", str "STREAMING-UNSIGNED-PAYLOAD-TRAILER"); (str "x-amz-date", str "20130524T000000Z");
   (str "x-amz-decoded-content-length", n); (str "x-amz-trailer", str "x-amz-checksum-crc32")].

Definition w_chunked (n encoded : bytes) : Request unit :=
  {| version := HTTP_11; meth := PUT; uri := {| uri_path := str "/b"; uri_query := Some (str "tagging"); uri_authority := None |};
     headers := (str "authorization",
         str "AWS4-HMAC-SHA256 Credential=AK/20130524/us-east-1/s3/aws4_request,SignedHeaders=host;x-amz-content-sha256;x-amz-date;x-amz-decoded-content-length;x-amz-trailer,Signature="
         ++ default [] (
              text ← create_canonical_request (str "PUT") (str "/b") [(str "tagging", [])] (w_chunked_headers n) UnsignedMultipleChunksWithTrailer;
              s ← create_string_to_sign text w_date (str "us-east-1") (str "s3");
              calculate_signature s (str "key") w_date (str "us-east-1") (str "s3")))
       :: w_chunked_headers n ++ [(str "content-length", fmt_dec (len encoded))];
     extensions := tt; s3ext := S3Extensions_default;
     body := http_body {| frames := [FNext (Ok (Data encoded))]; hb_size_hint := fun _ => (0, None)%Z;
                          hb_is_end_stream := fun _ => false |} |}.

Definition crlf : bytes := [x0d; x0a].
Definition w_empty_chunks : Request unit := w_chunked (str "0") (str "0" ++ crlf ++ crlf).

Definition result_of {A} (o : option (Request unit * result S3ErrorCode A)) : option (result S3ErrorCode A) := snd <$> o.

(** The upload is accepted with the right key only; the tags are only changed by a server
    without authentication, and not with a body over the limit; when they are sent aws-chunked,
    only an empty body is accepted. *)
Example requests_run :
  result_of (prepare false w_now 0 (w_ccx true) (w_put (str "key"))) = Some (Ok (S3 (Routed PutObject))) /\
  result_of (prepare false w_now 0 (w_ccx true) (w_put (str "kez"))) = Some (Err SignatureDoesNotMatch) /\
  result_of (prepare false w_now 0 (w_ccx true) (w_tag (str "abc"))) = Some (Err AccessDenied) /\
  result_of (prepare false w_now 0 (w_ccx false) (w_tag (str "abc"))) = Some (Ok (S3 (Routed PutBucketTagging))) /\
  result_of (prepare false w_now 0 (w_ccx false) (w_tag (str "abcde"))) = Some (Err InternalError) /\
  result_of (prepare false w_now 0 (w_ccx true) w_empty_chunks) = Some (Ok (S3 (Routed PutBucketTagging))) /\
  result_of (prepare false w_now 0 (w_ccx true) (w_chunked (str "3") (str "3" ++ crlf ++ str "abc" ++ crlf ++ str "0" ++ crlf ++ crlf))) =
    Some (Err IncompleteBody).
Proof. vm_compute. done. Qed.

Lemma run_of {A} (o : option (Request unit * result S3ErrorCode A)) r : result_of o = Some r -> exists req', o = Some (req', r).
Proof. destruct o as [[req' x]|]; [|done]. intros [= ->]. eauto. Defined.


Lemma prepare_total_witness : exists req' r, prepare false w_now 0 (w_ccx true) (w_put (str "kez")) = Some (req', r).
Proof. apply (prepare_total false w_now 0 (w_ccx true) (w_put (str "kez"))); [|discriminate]. constructor; vm_compute; split; discriminate || reflexivity. Defined.


Lemma chunked_full_body_empty_witness :
  exists req' c c' cred, prepare false w_now 0 (w_ccx true) w_empty_chunks = Some (req', Ok (S3 (Routed PutBucketTagging))) /\
    check w_now c = Some (c', Ok cred) /\
    forall b, transformed_body c' = Some b -> bytes_of (body req') = Some [] /\ concat (fst (chunked_read b)) = [].
Proof.
  destruct (run_of _ _ (proj1 (proj2 (proj2 (proj2 (proj2 (proj2 requests_run))))))) as [req' E]. exists req'.
  destruct (chunked_full_body_empty false w_now 0 (w_ccx true) w_empty_chunks req' (Routed PutBucketTagging) E eq_refl)
    as (c & c' & cred & _ & Hck & Hb). exists c, c', cred. split; [exact E|]. split; [exact Hck|exact Hb].
Defined.

Lemma oversized_body_internal_error_witness :
  exists req', prepare_body (Routed PutBucketTagging) (Some 5%Z) w_dispatch_config (w_tag (str "abcde")) = Some (req', Err InternalError).
Proof. apply (oversized_body_internal_error (w_tag (str "abcde")) (Some 5%Z) (Routed PutBucketTagging) w_dispatch_config); by vm_compute. Defined.
End DispatchWitness.
