(* ===== verification/Range.v ===== *)
(** * Byte ranges (crates/s3s/src/dto/range.rs)

    The [Range] request header: its parser, its text form, and the check against the length of
    an object. *)

From S2P Require Import Prelude.
From S2P Require Import Str.

Inductive Range :=
| Int (first : Z) (last : option Z)
| Suffix (length : Z).

Inductive ParseRangeError := parse_range_error.
Inductive RangeNotSatisfiable := range_not_satisfiable.

Definition u64_max : Z := 2 ^ 64 - 1.
Definition i64_max : Z := 2 ^ 63 - 1.

(** The digits [s] starts with, and what follows them. *)
Definition digits_of (s : bytes) : bytes * bytes := break_at (fun c => negb (is_ascii_digit c)) s.

(** [u64::from_radix_10_checked] of the [atoi] crate: the number the digits at the start of the
    input denote and how many bytes were read; no number when it does not fit, and zero when
    there are no digits. *)
Class Atoi := {
  from_radix_10_checked : bytes -> option Z * nat;
  from_radix_10_spec : forall s v,
    dec_value 0 (digits_of s).1 = Some v ->
    if (v <=? u64_max)%Z then from_radix_10_checked s = (Some v, length (digits_of s).1)
    else fst (from_radix_10_checked s) = None
}.

Definition atoi_reference : Atoi.
Proof.
  refine {| from_radix_10_checked := fun s =>
    let ds := (digits_of s).1 in
    match dec_value 0 ds with
    | Some v => (if (v <=? u64_max)%Z then Some v else None, length ds)
    | None => (None, length ds)
    end |}.
  intros s v E. cbn zeta. rewrite E. by destruct (v <=? u64_max)%Z.
Defined.

Section Range.
Context `{Atoi}.

Definition parse_u64_full (s : bytes) : option Z :=
  match from_radix_10_checked s with
  | (Some x, pos) => if pos =? length s then Some x else None
  | _ => None
  end.

Definition parse_u64_once (s : bytes) : option (Z * bytes) :=
  match from_radix_10_checked s with
  | (Some x, pos) => if (0 <? pos)%nat then Some (x, drop pos s) else None
  | _ => None
  end.

Definition Range_parse (header : bytes) : result ParseRangeError Range :=
  s ← ok_or parse_range_error (strip_prefix (str "bytes=") header);
  match strip_prefix (str "-") s with
  | Some s =>
      length ← ok_or parse_range_error (parse_u64_full s);
      Ok (Suffix length)
  | None =>
      '(first, s) ← ok_or parse_range_error (parse_u64_once s);
      if (i64_max <? first)%Z then Err parse_range_error
      else
        match strip_prefix (str "-") s with
        | None => Err parse_range_error
        | Some [] => Ok (Int first None)
        | Some s =>
            last ← ok_or parse_range_error (parse_u64_full s);
            if (i64_max <? last)%Z then Err parse_range_error
            else if (last <? first)%Z then Err parse_range_error
            else Ok (Int first (Some last))
        end
  end.

Definition to_header_string (r : Range) : bytes :=
  match r with
  | Int first (Some last) => str "bytes=" ++ fmt_dec first ++ str "-" ++ fmt_dec last
  | Int first None => str "bytes=" ++ fmt_dec first ++ str "-"
  | Suffix length => str "bytes=-" ++ fmt_dec length
  end.

(** The half-open range of positions to send.  [None] is an arithmetic overflow, which panics in
    a debug build and wraps in a release one. *)
Definition checked (z : Z) : option Z := if (0 <=? z)%Z && (z <=? u64_max)%Z then Some z else None.

Definition Range_check (r : Range) (full_length : Z) : option (result RangeNotSatisfiable (Z * Z)) :=
  match r with
  | Int first last =>
      if (full_length <=? first)%Z then Some (Err range_not_satisfiable)
      else
        match last with
        | Some last =>
            m ← checked (full_length - 1);
            let last := Z.min last m in
            if (last <? first)%Z then Some (Err range_not_satisfiable)
            else e ← checked (last + 1); Some (Ok (first, e))
        | None => Some (Ok (first, full_length))
        end
  | Suffix length =>
      if (length =? 0)%Z then Some (Err range_not_satisfiable)
      else
        let length := Z.min length full_length in
        s ← checked (full_length - length);
        Some (Ok (s, full_length))
  end.

(** ** Numbers in the header *)

(** [ds] is a run of digits that denotes [n]. *)
Definition number (max : Z) (ds : bytes) (n : Z) : Prop := dec_value 0 ds = Some n /\ (n <= max)%Z.

Lemma digit_val_nonneg c v : digit_val c = Some v -> (0 <= v)%Z.
Proof. destruct c; vm_compute; intros E; simplify_eq; discriminate. Qed.

Lemma dec_value_nonneg acc s v : (0 <= acc)%Z -> dec_value acc s = Some v -> (0 <= v)%Z.
Proof.
  revert acc. induction s as [|c s IH]; intros acc Ha; simpl; [by intros [= <-]|].
  destruct (digit_val c) as [d|] eqn:E; simpl; [|done]. apply digit_val_nonneg in E. apply IH. lia.
Qed.

Lemma dec_value_total acc s : forallb is_ascii_digit s = true -> exists v, dec_value acc s = Some v.
Proof.
  revert acc. induction s as [|c s IH]; intros acc; simpl; [eauto|]. intros [Hc Hs]%andb_true_iff.
  unfold digit_val. rewrite Hc. simpl. by apply IH.
Qed.

Lemma digits_of_split s ds r :
  digits_of s = (ds, r) ->
  s = ds ++ r /\ forallb is_ascii_digit ds = true /\ match r with [] => True | c :: _ => is_ascii_digit c = false end.
Proof.
  intros (Hs & Hd & Hr)%break_at_spec. split; [done|]. split.
  - eapply forallb_impl; [|exact Hd]. intros c Hc. by apply negb_true_iff, negb_false_iff in Hc.
  - destruct r; [done|]. by apply negb_true_iff in Hr.
Qed.

Lemma digits_of_app ds r :
  forallb is_ascii_digit ds = true -> match r with [] => True | c :: _ => is_ascii_digit c = false end ->
  digits_of (ds ++ r) = (ds, r).
Proof.
  intros Hd Hr. apply break_at_app.
  - eapply forallb_impl; [|exact Hd]. intros c Hc. by rewrite Hc.
  - destruct r; [done|]. by rewrite Hr.
Qed.

Lemma from_radix_spec s x pos :
  from_radix_10_checked s = (Some x, pos) <-> number u64_max (digits_of s).1 x /\ pos = length (digits_of s).1.
Proof.
  destruct (digits_of s) as [ds r] eqn:Es. pose proof (digits_of_split _ _ _ Es) as (_ & Hd & _).
  destruct (dec_value_total 0 ds Hd) as [v Hv]. pose proof (from_radix_10_spec s v) as Hf. rewrite Es in Hf. specialize (Hf Hv).
  simpl in *. unfold number. rewrite Hv. destruct (Z.leb_spec v u64_max).
  - rewrite Hf. split; [intros [= <- <-]; done|intros [[[= ->] _] ->]; done].
  - split; [intros E; by rewrite E in Hf|intros [[[= ->] ?] _]; lia].
Qed.

Lemma parse_u64_full_spec s x : parse_u64_full s = Some x <-> number u64_max s x.
Proof.
  unfold parse_u64_full. split.
  - destruct (from_radix_10_checked s) as [[y|] pos] eqn:E; [|done]. apply from_radix_spec in E as [Hn ->].
    destruct (digits_of s) as [ds r] eqn:Es. pose proof (digits_of_split _ _ _ Es) as (-> & _). simpl in *.
    case_bool_decide as Hl; [|done]. intros [= <-]. rewrite length_app in Hl. destruct r; [|simpl in Hl; lia]. by rewrite app_nil_r.
  - intros [Hv Hm]. pose proof (dec_value_digits _ _ _ Hv) as Hd.
    assert (Es : digits_of s = (s, [])) by (rewrite <- (app_nil_r s) at 1; by apply digits_of_app).
    rewrite (proj2 (from_radix_spec s x (length s))) by (rewrite Es; done). by rewrite bool_decide_eq_true_2.
Qed.

Lemma parse_u64_once_spec s x r :
  parse_u64_once s = Some (x, r) <->
  exists ds, s = ds ++ r /\ ds <> [] /\ number u64_max ds x /\ match r with [] => True | c :: _ => is_ascii_digit c = false end.
Proof.
  unfold parse_u64_once. split.
  - destruct (from_radix_10_checked s) as [[y|] pos] eqn:E; [|done]. apply from_radix_spec in E as [Hn ->].
    destruct (digits_of s) as [ds r'] eqn:Es. pose proof (digits_of_split _ _ _ Es) as (-> & _ & Hr). simpl in *.
    destruct ds as [|c ds]; [done|]. cbn [length Nat.ltb Nat.leb]. intros [= <- Hd]. simpl in Hd. rewrite drop_app_length in Hd.
    subst r'. by exists (c :: ds).
  - intros (ds & -> & Hne & [Hv Hm] & Hr). pose proof (dec_value_digits _ _ _ Hv) as Hd.
    pose proof (digits_of_app ds r Hd Hr) as Es.
    rewrite (proj2 (from_radix_spec (ds ++ r) x (length ds))) by (rewrite Es; done).
    rewrite drop_app_length. by destruct ds.
Qed.

(** ** Claims *)

(** The header texts of a range. *)
Definition range_text (r : Range) (header : bytes) : Prop :=
  match r with
  | Suffix n => exists ds, header = str "bytes=-" ++ ds /\ number u64_max ds n
  | Int first None => exists ds, header = str "bytes=" ++ ds ++ str "-" /\ ds <> [] /\ number i64_max ds first
  | Int first (Some last) =>
      exists ds es, header = str "bytes=" ++ ds ++ str "-" ++ es /\ ds <> [] /\ es <> [] /\
        number i64_max ds first /\ number i64_max es last /\ (first <= last)%Z
  end.

Lemma strip_dash_digits ds r : ds <> [] -> forallb is_ascii_digit ds = true -> strip_prefix (str "-") (ds ++ r) = None.
Proof. destruct ds as [|c ds]; [done|]. intros _ [Hc _]%andb_true_iff. destruct c; try done. Qed.

Lemma parse_int_text ds x r :
  ds <> [] -> number i64_max ds x ->
  parse_u64_once (ds ++ str "-" ++ r) = Some (x, str "-" ++ r) /\ strip_prefix (str "-") (ds ++ str "-" ++ r) = None /\
  (i64_max <? x)%Z = false.
Proof.
  intros Hne [Hv Hm]. split_and!.
  - apply parse_u64_once_spec. exists ds. split; [done|]. split; [done|].
    split; [split; [done|unfold u64_max, i64_max in *; lia]|done].
  - apply strip_dash_digits; [done|]. by eapply dec_value_digits.
  - by apply Z.ltb_ge.
Qed.

(** Every text of a range is accepted. *)
Lemma range_parse_text header r : range_text r header -> Range_parse header = Ok r.
Proof.
  unfold Range_parse, range_text. destruct r as [first [last|]|n].
  - intros (ds & es & -> & Hd & He & Hf & [Hv Hm] & Hle). destruct (parse_int_text ds first es Hd Hf) as (E1 & E2 & E3).
    rewrite strip_prefix_app. cbn [ok_or mbind result_bind]. rewrite E2, E1. cbn [ok_or mbind result_bind].
    rewrite E3, strip_prefix_app. destruct es as [|e es]; [done|].
    rewrite (proj2 (parse_u64_full_spec (e :: es) last)) by (split; [done|unfold u64_max, i64_max in *; lia]).
    cbn [ok_or mbind result_bind]. rewrite (proj2 (Z.ltb_ge _ _)), (proj2 (Z.ltb_ge _ _)) by done. done.
  - intros (ds & -> & Hd & Hf). destruct (parse_int_text ds first [] Hd Hf) as (E1 & E2 & E3). rewrite app_nil_r in E1, E2.
    rewrite strip_prefix_app. cbn [ok_or mbind result_bind]. rewrite E2, E1. cbn [ok_or mbind result_bind]. by rewrite E3.
  - intros (ds & -> & Hn). change (str "bytes=-" ++ ds) with (str "bytes=" ++ str "-" ++ ds).
    rewrite strip_prefix_app. cbn [ok_or mbind result_bind]. rewrite strip_prefix_app.
    by rewrite (proj2 (parse_u64_full_spec ds n)).
Qed.

(** The header parser accepts exactly the texts of a range: [bytes=], then digits for the
    first and perhaps the last position, in order and within a signed 64-bit integer, or a
    dash and the digits of a suffix length within an unsigned one.  The digits of a suffix
    length may be missing, which reads as zero. *)
Theorem range_parse_iff (header : bytes) (r : Range) : Range_parse header = Ok r <-> range_text r header.
Proof.
  split; [|apply range_parse_text]. unfold Range_parse.
  intros E. apply result_bind_ok in E as (s & Hs & E). apply ok_or_Ok, strip_prefix_Some in Hs as ->.
  destruct (strip_prefix (str "-") s) as [s'|] eqn:Ed.
  - apply strip_prefix_Some in Ed as ->. apply result_bind_ok in E as (n & Hn & [= <-]).
    apply ok_or_Ok, parse_u64_full_spec in Hn. by exists s'.
  - apply result_bind_ok in E as ([first t] & Hn & E). apply ok_or_Ok, parse_u64_once_spec in Hn as (ds & -> & Hne & [Hv _] & _).
    destruct (Z.ltb_spec i64_max first); [done|]. destruct (strip_prefix (str "-") t) as [es|] eqn:Et; [|done].
    apply strip_prefix_Some in Et as ->. destruct es as [|e es]; [injection E as <-; by exists ds|].
    apply result_bind_ok in E as (last & Hl & E). apply ok_or_Ok, parse_u64_full_spec in Hl as [Hl _].
    destruct (Z.ltb_spec i64_max last); [done|]. destruct (Z.ltb_spec last first); [done|]. injection E as <-.
    by exists ds, (e :: es).
Qed.

(** A range the header can carry. *)
Definition range_ok (r : Range) : Prop :=
  match r with
  | Int first last => (0 <= first <= i64_max)%Z /\ match last with Some l => (first <= l <= i64_max)%Z | None => True end
  | Suffix n => (0 <= n <= u64_max)%Z
  end.

Lemma range_print_text r : range_ok r -> range_text r (to_header_string r).
Proof.
  assert (Hn : forall n max, (0 <= n <= max)%Z -> number max (fmt_dec n) n /\ fmt_dec n <> []).
  { intros n max Hn. destruct (fmt_dec_value n) as [Hv Hne]; [lia|]. split; [split; [done|lia]|done]. }
  destruct r as [first [last|]|n]; simpl.
  - intros [Hf Hl]. destruct (Hn first i64_max) as [H1 H2]; [lia|]. destruct (Hn last i64_max) as [H3 H4]; [lia|].
    exists (fmt_dec first), (fmt_dec last). do 5 (split; [done|]). lia.
  - intros [Hf _]. destruct (Hn first i64_max) as [H1 H2]; [lia|]. by exists (fmt_dec first).
  - intros Hf. destruct (Hn n u64_max) as [H1 H2]; [lia|]. by exists (fmt_dec n).
Qed.

(** C34: checking a range never overflows and selects exactly the positions of the object it
    asks for: on success the positions from [s] up to [e] are those below the length that the
    range covers, and a range is refused exactly when it is a suffix of length zero or covers
    no position of the object. *)
Theorem range_check_selects (r : Range) (full_length : Z) :
  range_ok r -> (0 <= full_length <= u64_max)%Z ->
  let covers i := match r with
                  | Int first last => (first <= i)%Z /\ match last with Some l => (i <= l)%Z | None => True end
                  | Suffix n => (full_length - n <= i)%Z
                  end in
  match Range_check r full_length with
  | None => False
  | Some (Ok (s, e)) => (0 <= s <= e)%Z /\ (e <= full_length)%Z /\
                        forall i, (0 <= i)%Z -> ((s <= i < e)%Z <-> (i < full_length)%Z /\ covers i)
  | Some (Err _) => r = Suffix 0 \/ forall i, (0 <= i < full_length)%Z -> ~ covers i
  end.
Proof.
  intros Hr Hf covers. unfold covers, Range_check, checked. clear covers. destruct r as [first [last|]|n]; simpl in Hr.
  - destruct (Z.leb_spec full_length first); [right; intros; lia|].
    rewrite (proj2 (Z.leb_le 0 (full_length - 1))), (proj2 (Z.leb_le (full_length - 1) u64_max)) by lia. cbn.
    destruct (Z.ltb_spec (Z.min last (full_length - 1)) first); [right; intros; lia|].
    rewrite (proj2 (Z.leb_le 0 (Z.min last (full_length - 1) + 1))), (proj2 (Z.leb_le (Z.min last (full_length - 1) + 1) u64_max)) by lia.
    cbn. split_and!; [lia|lia|lia|]. intros i Hi. lia.
  - destruct (Z.leb_spec full_length first); [right; intros; lia|]. split_and!; [lia|lia|lia|]. intros i Hi. lia.
  - destruct (Z.eqb_spec n 0) as [->|]; [by left|].
    rewrite (proj2 (Z.leb_le 0 (full_length - Z.min n full_length))), (proj2 (Z.leb_le (full_length - Z.min n full_length) u64_max)) by lia.
    cbn. split_and!; [lia|lia|lia|]. intros i Hi. lia.
Qed.

(** The text of a range parses back to it. *)
Corollary range_roundtrip r : range_ok r -> Range_parse (to_header_string r) = Ok r.
Proof. intros Hr. by apply range_parse_text, range_print_text. Qed.
End Range.

Lemma range_check_selects_witness :
  match Range_check (Int 9500 (Some 50000%Z)) 10000 with
  | Some (Ok (s, e)) => s = 9500%Z /\ e = 10000%Z /\ forall i, (0 <= i)%Z -> ((s <= i < e)%Z <-> (i < 10000)%Z /\ (9500 <= i)%Z /\ (i <= 50000)%Z)
  | _ => False
  end.
Proof.
  pose proof (range_check_selects (Int 9500 (Some 50000%Z)) 10000 ltac:(unfold range_ok, i64_max; lia) ltac:(unfold u64_max; lia)) as Hc.
  simpl in *. destruct Hc as (_ & _ & Hc). split; [reflexivity|split; [reflexivity|exact Hc]].
Defined.

Lemma range_parse_iff_witness :
  @Range_parse atoi_reference (str "bytes=0-499") = Ok (Int 0 (Some 499%Z)) /\
  @Range_parse atoi_reference (str "bytes=-") = Ok (Suffix 0).
Proof.
  split.
  - apply (proj2 (@range_parse_iff atoi_reference (str "bytes=0-499") (Int 0 (Some 499%Z)))).
    exists (str "0"), (str "499"). split; [reflexivity|]. split; [discriminate|]. split; [discriminate|].
    split; [split; [reflexivity|by_decide]|]. split; [split; [reflexivity|by_decide]|by_decide].
  - apply (proj2 (@range_parse_iff atoi_reference (str "bytes=-") (Suffix 0))).
    exists []. split; [reflexivity|]. split; [reflexivity|by_decide].
Defined.
