(* ===== verification/ETag.v ===== *)
(** * Entity tags (crates/s3s/src/dto/etag.rs, dto/etag_condition.rs, http/etag.rs)

    The [ETag] header and the conditions of [If-Match] and [If-None-Match]: their parsers, their
    text form and the two comparisons of RFC 9110. *)

From S2P Require Import Prelude.
From S2P Require Import Str.

(** ** Data *)

Inductive ETag := Strong (s : bytes) | Weak (s : bytes).
Inductive ParseETagError := InvalidFormat | InvalidChar.
Inductive ETagComparison := StrongMatch | WeakMatch | NoMatch.

Inductive ETagCondition := CondETag (etag : ETag) | Any.
Inductive ParseETagConditionError := CondInvalidFormat | CondInvalidChar | ETagError (e : ParseETagError).

#[global] Instance ETag_eq_dec : EqDecision ETag.
Proof. solve_decision. Defined.
#[global] Instance ParseETagError_eq_dec : EqDecision ParseETagError.
Proof. solve_decision. Defined.
#[global] Instance ETagComparison_eq_dec : EqDecision ETagComparison.
Proof. solve_decision. Defined.
#[global] Instance ETagCondition_eq_dec : EqDecision ETagCondition.
Proof. solve_decision. Defined.

(** ** What is used of other crates *)

(** The bytes a header value may be made of: tabs and what is neither a control nor DEL. *)
Definition header_byte (c : byte) : bool := ((32 <=? u8 c)%Z && negb (u8 c =? 127)%Z) || (u8 c =? 9)%Z.

Class ETagDeps := {
  (** [HeaderValue::try_from(Vec<u8>)] of the [http] crate *)
  header_value_try_from : bytes -> option bytes;
  header_value_spec : forall v, header_value_try_from v = if forallb header_byte v then Some v else None;
  (** [stdx::str::StrExt::from_ascii_simd] *)
  str_from_ascii_simd : bytes -> option bytes;
  str_from_ascii_spec : forall s, str_from_ascii_simd s = if forallb is_ascii s then Some s else None
}.

(** ** Entity tags *)

Definition value (e : ETag) : bytes := match e with Strong s | Weak s => s end.
Definition into_strong (e : ETag) : option bytes := match e with Strong s => Some s | Weak _ => None end.
Definition as_strong (e : ETag) : option bytes := match e with Strong s => Some s | Weak _ => None end.
Definition as_weak (e : ETag) : option bytes := match e with Weak s => Some s | Strong _ => None end.
Definition into_value (e : ETag) : bytes := match e with Strong s | Weak s => s end.
Definition into_weak (e : ETag) : option bytes := match e with Weak s => Some s | Strong _ => None end.

Definition strong_cmp (self other : ETag) : bool :=
  match self, other with
  | Strong a, Strong b => a =? b
  | _, _ => false
  end.

Definition weak_cmp (self other : ETag) : bool := value self =? value other.

Definition compare (self other : ETag) : ETagComparison :=
  if value self <>? value other then NoMatch
  else match self, other with
       | Strong _, Strong _ => StrongMatch
       | _, _ => WeakMatch
       end.

Definition check_header_value (s : bytes) : bool :=
  forallb (fun b => ((32 <=? u8 b)%Z && negb (u8 b =? 127)%Z) || (u8 b =? 9)%Z) s.

Definition is_valid_unquoted_etag (s : bytes) : bool :=
  (s <>? []) && forallb (fun b => is_ascii_alphanumeric b || (b =? "-"%byte)) s.

(** The slice patterns [[b'"', val @ .., b'"']] and [[b'W', b'/', b'"', val @ .., b'"']]: what is
    between [prefix] and the final quote. *)
Definition between (prefix src : bytes) : option bytes :=
  rest ← strip_prefix prefix src;
  strip_suffix [x22] rest.

Definition weak_prefix : bytes := ["W"%byte; "/"%byte; x22].

Section ETag.
Context `{ETagDeps}.

Definition parse_http_header (src : bytes) : result ParseETagError ETag :=
  match between [x22] src with
  | Some val =>
      if negb (check_header_value val) then Err InvalidChar
      else val ← ok_or InvalidChar (str_from_ascii_simd val); Ok (Strong val)
  | None =>
      match between weak_prefix src with
      | Some val =>
          if negb (check_header_value val) then Err InvalidChar
          else val ← ok_or InvalidChar (str_from_ascii_simd val); Ok (Weak val)
      | None =>
          if is_valid_unquoted_etag src then
            val ← ok_or InvalidChar (str_from_ascii_simd src); Ok (Strong val)
          else Err InvalidFormat
      end
  end.

(** [None] is [InvalidHeaderValue]. *)
Definition to_http_header (e : ETag) : option bytes :=
  let buf :=
    match e with
    | Strong s => [x22] ++ s ++ [x22]
    | Weak s => weak_prefix ++ s ++ [x22]
    end in
  header_value_try_from buf.

(** ** Conditions *)

Definition cond_parse_http_header (src : bytes) : result ParseETagConditionError ETagCondition :=
  if src =? str "*" then Ok Any
  else
    etag ← map_err ETagError (parse_http_header src);
    Ok (CondETag etag).

Definition cond_to_http_header (c : ETagCondition) : option bytes :=
  match c with
  | CondETag etag => to_http_header etag
  | Any => header_value_try_from (str "*")
  end.

Definition as_etag (c : ETagCondition) : option ETag :=
  match c with CondETag etag => Some etag | Any => None end.
Definition into_etag (c : ETagCondition) : option ETag :=
  match c with CondETag etag => Some etag | Any => None end.
Definition is_any (c : ETagCondition) : bool := match c with Any => true | _ => false end.
End ETag.

(** ** Parsing: lemmas *)

(** What a header denotes: the quoted form of a tag, or the bare form of a strong one. *)
Inductive etag_text : ETag -> bytes -> Prop :=
| text_strong s : etag_text (Strong s) ([x22] ++ s ++ [x22])
| text_weak s : etag_text (Weak s) (weak_prefix ++ s ++ [x22])
| text_bare s : is_valid_unquoted_etag s = true -> etag_text (Strong s) s.

(** What the value of a tag may hold to be read from a header. *)
Definition readable (s : bytes) : bool := forallb (fun c => header_byte c && is_ascii c) s.

Lemma readable_split s : readable s = check_header_value s && forallb is_ascii s.
Proof.
  change (check_header_value s) with (forallb header_byte s). unfold readable.
  induction s as [|c s IH]; [done|]. cbn [forallb]. rewrite IH.
  by destruct (header_byte c), (is_ascii c), (forallb header_byte s), (forallb is_ascii s).
Qed.

Lemma between_Some p src val : between p src = Some val <-> src = p ++ val ++ [x22].
Proof.
  unfold between. rewrite bind_Some. setoid_rewrite strip_prefix_Some. setoid_rewrite strip_suffix_Some. naive_solver.
Qed.

Lemma unquoted_readable s : is_valid_unquoted_etag s = true -> readable s = true.
Proof.
  unfold is_valid_unquoted_etag, readable. intros [_ Hs]%andb_true_iff. revert Hs. apply forallb_impl. intros c. by destruct c.
Qed.

Lemma unquoted_not_between p s : is_valid_unquoted_etag s = true -> between p s = None.
Proof.
  intros [_ Hs]%andb_true_iff. destruct (between p s) as [v|] eqn:E; [|done]. apply between_Some in E as ->.
  rewrite !forallb_app in Hs. simpl in Hs. by rewrite !andb_false_r in Hs.
Qed.

(** The tag whose text a header is, whatever its bytes. *)
Definition denoted (src : bytes) : option ETag :=
  match between [x22] src, between weak_prefix src with
  | Some val, _ => Some (Strong val)
  | None, Some val => Some (Weak val)
  | None, None => if is_valid_unquoted_etag src then Some (Strong src) else None
  end.

Lemma denoted_Some e s : denoted s = Some e <-> etag_text e s.
Proof.
  split; unfold denoted.
  - destruct (between [x22] s) as [v|] eqn:E1; [|destruct (between weak_prefix s) as [v|] eqn:E2].
    + intros [= <-]. apply between_Some in E1 as ->. constructor.
    + intros [= <-]. apply between_Some in E2 as ->. constructor.
    + destruct (is_valid_unquoted_etag s) eqn:Eu; [|done]. intros [= <-]. by constructor.
  - intros [v|v|v Hv].
    + by rewrite (proj2 (between_Some _ _ v)).
    + replace (between [x22] _) with (@None bytes) by done. by rewrite (proj2 (between_Some _ _ v)).
    + by rewrite !unquoted_not_between, Hv.
Qed.

Section Facts.
Context `{ETagDeps}.

Lemma parse_denoted src :
  parse_http_header src =
    match denoted src with
    | Some e => if readable (value e) then Ok e else Err InvalidChar
    | None => Err InvalidFormat
    end.
Proof.
  unfold parse_http_header, denoted. destruct (between [x22] src) as [v|]; [|destruct (between weak_prefix src) as [v|]].
  1,2: cbn [value]; rewrite readable_split; destruct (check_header_value v); [|done]; rewrite str_from_ascii_spec; simpl;
    by destruct (forallb is_ascii v).
  destruct (is_valid_unquoted_etag src) eqn:E; [|done]. apply unquoted_readable in E. cbn [value]. rewrite E.
  rewrite readable_split in E. apply andb_true_iff in E as [_ E]. by rewrite str_from_ascii_spec, E.
Qed.

Lemma parse_Ok e s : parse_http_header s = Ok e <-> etag_text e s /\ readable (value e) = true.
Proof.
  rewrite parse_denoted, <- denoted_Some. destruct (denoted s) as [d|]; [|naive_solver].
  destruct (readable (value d)) eqn:E; naive_solver congruence.
Qed.

Lemma to_header_Some e h :
  to_http_header e = Some h -> etag_text e h /\ forallb header_byte (value e) = true.
Proof.
  unfold to_http_header. rewrite header_value_spec. destruct (forallb _ _) eqn:E; [|done]. intros [= <-].
  destruct e; rewrite !forallb_app in E; simpl in E; rewrite andb_true_r in E; split; try done; constructor.
Qed.

Lemma to_header_None e : to_http_header e = None -> forallb header_byte (value e) = false.
Proof.
  unfold to_http_header. rewrite header_value_spec. destruct (forallb _ _) eqn:E; [done|]. intros _.
  destruct e; rewrite !forallb_app in E; simpl in E; by rewrite andb_true_r in E.
Qed.

Lemma readable_header_bytes s : readable s = true -> forallb header_byte s = true.
Proof. rewrite readable_split. by intros [? _]%andb_true_iff. Qed.

(** ** Properties *)

(** An entity tag header is accepted exactly when it is the quoted form of a strong or weak
    tag, or a bare run of letters, digits and dashes, and its value is printable ASCII (or tabs);
    a header of one of these forms with another byte is refused for that byte, and every other
    header for its form. *)
Theorem etag_parse_iff (src : bytes) (e : ETag) :
  (parse_http_header src = Ok e <-> etag_text e src /\ readable (value e) = true) /\
  (parse_http_header src = Err InvalidChar <-> exists e', etag_text e' src /\ readable (value e') = false) /\
  (parse_http_header src = Err InvalidFormat <-> forall e', ~ etag_text e' src).
Proof.
  split; [apply parse_Ok|]. rewrite parse_denoted. setoid_rewrite <- denoted_Some. destruct (denoted src) as [d|]; [|naive_solver].
  destruct (readable (value d)) eqn:E; naive_solver congruence.
Qed.

(** A tag or condition is printed exactly when its value has no control character, and what is
    printed reads back as the same tag or condition, unless the value is not ASCII, when the
    header the server itself wrote is refused; a refused condition always carries the error of
    its tag. *)
Theorem etag_roundtrip (c : ETagCondition) :
  (cond_to_http_header c = None <-> exists e, c = CondETag e /\ forallb header_byte (value e) = false) /\
  (forall h, cond_to_http_header c = Some h ->
     cond_parse_http_header h = match c with
                                | CondETag e => if forallb is_ascii (value e) then Ok c else Err (ETagError InvalidChar)
                                | Any => Ok c
                                end) /\
  (forall src err, cond_parse_http_header src = Err err -> exists e, err = ETagError e).
Proof.
  split_and!.
  - destruct c as [e|]; simpl; [|by rewrite header_value_spec; naive_solver]. split.
    + intros Hn. exists e. split; [done|]. by apply to_header_None.
    + intros (e' & [= <-] & Hb). destruct (to_http_header e) as [h|] eqn:E; [|done]. apply to_header_Some in E as [_ E]. congruence.
  - intros h. destruct c as [e|]; simpl; [|rewrite header_value_spec; by intros [= <-]].
    intros [Ht Hb]%to_header_Some. unfold cond_parse_http_header.
    assert (h <> str "*") as Hs by (by intros ->; apply denoted_Some in Ht). rewrite bool_decide_eq_false_2 by done.
    rewrite parse_denoted, (proj2 (denoted_Some e h)) by done. rewrite readable_split.
    change (check_header_value (value e)) with (forallb header_byte (value e)). rewrite Hb. simpl. by destruct (forallb is_ascii _).
  - intros src err. unfold cond_parse_http_header. destruct (src =? _); [done|]. destruct (parse_http_header src); simpl; naive_solver.
Qed.

(** The comparisons of RFC 9110: weak comparison is an equivalence, strong comparison is a
    partial one that implies it and never relates a weak tag, and [compare] reports exactly which
    of the two hold. *)
Theorem etag_comparisons (a b c : ETag) :
  weak_cmp a a = true /\ weak_cmp a b = weak_cmp b a /\
  (weak_cmp a b = true -> weak_cmp b c = true -> weak_cmp a c = true) /\
  strong_cmp a b = strong_cmp b a /\ (strong_cmp a b = true -> strong_cmp b c = true -> strong_cmp a c = true) /\
  (strong_cmp a b = true <-> weak_cmp a b = true /\ as_weak a = None /\ as_weak b = None) /\
  (compare a b = StrongMatch <-> strong_cmp a b = true) /\
  (compare a b = WeakMatch <-> weak_cmp a b = true /\ strong_cmp a b = false) /\
  (compare a b = NoMatch <-> weak_cmp a b = false).
Proof.
  unfold weak_cmp, strong_cmp, compare, as_weak.
  destruct a as [a|a], b as [b|b], c as [c|c]; cbn [value]; repeat case_bool_decide; simpl; subst; intuition congruence.
Qed.
End Facts.

(** ** Witnesses *)

Definition etag_reference : ETagDeps.
Proof.
  refine {| header_value_try_from := fun v => if forallb header_byte v then Some v else None;
            str_from_ascii_simd := fun s => if forallb is_ascii s then Some s else None |}; done.
Defined.

Lemma etag_parse_iff_witness :
  @parse_http_header etag_reference (str "d41d8cd98f00b204e9800998ecf8427e-5") = Ok (Strong (str "d41d8cd98f00b204e9800998ecf8427e-5")).
Proof.
  apply (@etag_parse_iff etag_reference). split; [|by vm_compute]. by apply text_bare; vm_compute.
Defined.

Lemma etag_roundtrip_witness :
  @cond_parse_http_header etag_reference ([x22] ++ (str "caf" ++ [xc3; xa9]) ++ [x22]) = Err (ETagError InvalidChar).
Proof.
  destruct (@etag_roundtrip etag_reference (CondETag (Strong (str "caf" ++ [xc3; xa9])))) as (_ & Hr & _).
  apply Hr. by vm_compute.
Defined.

Lemma etag_comparisons_witness :
  compare (Strong (str "x")) (Weak (str "x")) = WeakMatch /\ strong_cmp (Strong (str "x")) (Weak (str "x")) = false.
Proof.
  destruct (etag_comparisons (Strong (str "x")) (Weak (str "x")) (Weak (str "x"))) as (_ & _ & _ & _ & _ & _ & _ & [_ Hw] & _).
  split; [apply Hw; by vm_compute|by vm_compute].
Defined.
