(* ===== verification/Timestamp.v ===== *)
(** * Timestamps (crates/s3s/src/dto/timestamp.rs, utils/format.rs)

    The three text formats of a timestamp.  The calendar, and the parsers and formatters of
    format descriptions, are the [time] crate's; the format of seconds since the epoch is parsed
    by the code itself. *)

From S2P Require Import Prelude.
From S2P Require Import Str.
From S2P Require Import AmzDate.

(** ** Data *)

(** The components of a [time::OffsetDateTime], in the offset it is expressed in (in minutes). *)
Record OffsetDateTime := {
  dt_year : Z; dt_month : Z; dt_day : Z;
  dt_hour : Z; dt_minute : Z; dt_second : Z; dt_nanosecond : Z;
  dt_offset : Z
}.

#[global] Instance OffsetDateTime_eq_dec : EqDecision OffsetDateTime.
Proof. solve_decision. Defined.

Definition Timestamp : Type := OffsetDateTime.

Inductive TimestampFormat := DateTime | HttpDate | EpochSeconds.
Inductive ParseTimestampError := TimeError | IntError | Overflow | ComponentRange.

Definition leap_year (y : Z) : bool := (y mod 4 =? 0)%Z && (negb (y mod 100 =? 0)%Z || (y mod 400 =? 0)%Z).

Definition days_in_month (y m : Z) : Z :=
  if (m =? 2)%Z then (if leap_year y then 29 else 28)%Z
  else if bool_decide (m ∈ [4; 6; 9; 11]%Z) then 30%Z else 31%Z.

Definition between_Z (lo x hi : Z) : bool := (lo <=? x)%Z && (x <=? hi)%Z.

(** The dates a four-digit year can express. *)
Definition valid_time (t : OffsetDateTime) : bool :=
  between_Z 0 (dt_year t) 9999 && between_Z 1 (dt_month t) 12 && between_Z 1 (dt_day t) (days_in_month (dt_year t) (dt_month t)) &&
  between_Z 0 (dt_hour t) 23 && between_Z 0 (dt_minute t) 59 && between_Z 0 (dt_second t) 59 &&
  between_Z 0 (dt_nanosecond t) 999999999 && between_Z (-1439) (dt_offset t) 1439.

(** ** The text forms *)

(** [[year]-[month]-[day]T[hour]:[minute]:[second].[subsecond digits:3]] *)
Definition date_time_text (t : OffsetDateTime) : bytes :=
  fmt_dec_pad 4 (dt_year t) ++ str "-" ++ fmt_dec_pad 2 (dt_month t) ++ str "-" ++ fmt_dec_pad 2 (dt_day t) ++ str "T" ++
  fmt_dec_pad 2 (dt_hour t) ++ str ":" ++ fmt_dec_pad 2 (dt_minute t) ++ str ":" ++ fmt_dec_pad 2 (dt_second t) ++ str "." ++
  fmt_dec_pad 3 (dt_nanosecond t / 1000000).

(** The constant [RFC3339] of the code: a literal [Z] after the components. *)
Definition RFC3339 (t : OffsetDateTime) : bytes := date_time_text t ++ str "Z".

(** The offset as RFC 3339 has it. *)
Definition offset_text (o : Z) : bytes :=
  if (o =? 0)%Z then str "Z"
  else (if (o <? 0)%Z then str "-" else str "+") ++ fmt_dec_pad 2 (Z.abs o / 60) ++ str ":" ++ fmt_dec_pad 2 (Z.abs o mod 60).

(** ** The time crate *)

Class TimeCrate := {
  (** [OffsetDateTime::parse(s, &Rfc3339)] *)
  parse_rfc3339 : bytes -> option OffsetDateTime;
  (** [format_into(w, RFC3339)] *)
  format_rfc3339 : OffsetDateTime -> option bytes;
  (** [PrimitiveDateTime::parse(s, RFC1123)?.assume_utc()], [format_into(w, RFC1123)] *)
  parse_rfc1123 : bytes -> option OffsetDateTime;
  format_rfc1123 : OffsetDateTime -> option bytes;
  from_unix_timestamp_nanos : Z -> option OffsetDateTime;
  from_unix_timestamp : Z -> option OffsetDateTime;
  unix_timestamp_nanos : OffsetDateTime -> Z;
  (** [write!(w, "{ts}")] of the [f64] sum of whole seconds and a fraction in nanoseconds *)
  display_seconds : Z -> Z -> bytes;
  parse_rfc3339_spec : forall t, valid_time t = true -> (dt_nanosecond t mod 1000000 = 0)%Z ->
    parse_rfc3339 (date_time_text t ++ offset_text (dt_offset t)) = Some t;
  format_rfc3339_spec : forall t, valid_time t = true -> format_rfc3339 t = Some (RFC3339 t);
  rfc1123_spec : forall t, valid_time t = true -> dt_offset t = 0%Z -> dt_nanosecond t = 0%Z ->
    exists s, format_rfc1123 t = Some s /\ length s = 29 /\ forallb is_ascii s = true /\ parse_rfc1123 s = Some t
}.

(** ** Operations *)

Definition i64_min : Z := - 2 ^ 63.
Definition i64_max : Z := 2 ^ 63 - 1.
Definition u32_max : Z := 2 ^ 32 - 1.

Definition fraction_multiplier (frac_len : nat) : option Z :=
  match frac_len with
  | 1 => Some 100000000%Z
  | 2 => Some 10000000%Z
  | 3 => Some 1000000%Z
  | 4 => Some 100000%Z
  | 5 => Some 10000%Z
  | 6 => Some 1000%Z
  | 7 => Some 100%Z
  | 8 => Some 10%Z
  | 9 => Some 1%Z
  | _ => None
  end.

Section Timestamp.
Context `{TimeCrate}.

(** The outer [option] is a panic: [val * mul] is a checked product of [u32] values in debug builds. *)
Definition parse_epoch_seconds (s : bytes) : option (result ParseTimestampError OffsetDateTime) :=
  match split_once "." s with
  | Some (secs, frac) =>
      match parse_signed i64_min i64_max secs with
      | None => Some (Err IntError)
      | Some secs =>
          match parse_unsigned u32_max frac with
          | None => Some (Err IntError)
          | Some val =>
              match fraction_multiplier (length frac) with
              | None => Some (Err Overflow)
              | Some mul =>
                  if (val * mul <=? u32_max)%Z then
                    let nanos_part := (val * mul)%Z in
                    let nanos := (secs * 1000000000 + nanos_part)%Z in
                    Some (ok_or ComponentRange (from_unix_timestamp_nanos nanos))
                  else None
              end
          end
      end
  | None =>
      match parse_signed i64_min i64_max s with
      | None => Some (Err IntError)
      | Some secs => Some (ok_or ComponentRange (from_unix_timestamp secs))
      end
  end.

Definition Timestamp_parse (format : TimestampFormat) (s : bytes) : option (result ParseTimestampError Timestamp) :=
  match format with
  | DateTime => Some (ok_or TimeError (parse_rfc3339 s))
  | HttpDate => Some (ok_or TimeError (parse_rfc1123 s))
  | EpochSeconds => parse_epoch_seconds s
  end.

(** [None] is [FormatTimestampError]. *)
Definition Timestamp_format (t : Timestamp) (format : TimestampFormat) : option bytes :=
  match format with
  | DateTime => format_rfc3339 t
  | HttpDate => format_rfc1123 t
  | EpochSeconds =>
      let val := unix_timestamp_nanos t in
      Some (display_seconds (Z.quot val 1000000000) (Z.rem val 1000000000))
  end.

(** [fmt_timestamp]: the buffer holds 32 bytes, and [None] is the panic of [unwrap]. *)
Definition fmt_timestamp (t : Timestamp) (fmt : TimestampFormat) : option bytes :=
  s ← Timestamp_format t fmt;
  array_string 32 s.
End Timestamp.

Definition fmt_boolean (val : bool) : bytes := if val then str "true" else str "false".

(** [fmt_integer] and [fmt_long]: [itoa] prints a sign and the decimal digits. *)
Definition fmt_signed (n : Z) : bytes := if (n <? 0)%Z then "-"%byte :: fmt_dec (- n) else fmt_dec n.

(** ** Lemmas *)

Lemma split_once_cases c s : split_once c s = None \/ exists a r, split_once c s = Some (a, r).
Proof. destruct (split_once c s) as [[a r]|]; eauto. Qed.

Lemma dec_value_bound acc s v : dec_value acc s = Some v -> (0 <= acc)%Z -> (0 <= v < (acc + 1) * 10 ^ Z.of_nat (length s))%Z.
Proof.
  revert acc. induction s as [|c s IH]; intros acc; cbn [dec_value length].
  - intros [= <-] Ha. change (10 ^ Z.of_nat 0)%Z with 1%Z. lia.
  - unfold digit_val. destruct (is_ascii_digit c) eqn:Ec; [|done]. cbn [mbind option_bind]. intros E Ha.
    assert (Hd : (0 <= u8 c - 48 <= 9)%Z) by (clear -Ec; destruct c; try discriminate Ec; vm_compute; split; congruence).
    apply IH in E; [|lia]. rewrite Nat2Z.inj_succ, Z.pow_succ_r by lia. nia.
Qed.

Lemma parse_unsigned_bound max s v : parse_unsigned max s = Some v -> (0 <= v < 10 ^ Z.of_nat (length s))%Z.
Proof.
  destruct s as [|c s]; [done|]. unfold parse_unsigned.
  destruct (if c =? _ then s else c :: s) as [|d ds] eqn:E; [done|]. intros Hv. apply bind_Some in Hv as (w & Hw & Hm).
  destruct (w <=? max)%Z; [|done]. injection Hm as ->. apply dec_value_bound in Hw; [|lia].
  assert (Hl : length (d :: ds) <= length (c :: s)) by (rewrite <- E; destruct (c =? _); simpl; lia).
  assert (10 ^ Z.of_nat (length (d :: ds)) <= 10 ^ Z.of_nat (length (c :: s)))%Z by (apply Z.pow_le_mono_r; lia). lia.
Qed.

Lemma fraction_multiplier_spec n mul : fraction_multiplier n = Some mul -> (10 ^ Z.of_nat n * mul = 1000000000)%Z /\ (0 < mul)%Z.
Proof. by do 10 (destruct n as [|n]; [by intros [= <-]|]). Qed.

Section Facts.
Context `{TimeCrate}.

(** The product of the fraction and its unit fits: the parser does not panic. *)
Lemma parse_epoch_total s : exists r, parse_epoch_seconds s = Some r.
Proof.
  unfold parse_epoch_seconds. destruct (split_once "." s) as [[secs frac]|].
  - destruct (parse_signed _ _ secs); [|eauto]. destruct (parse_unsigned _ frac) as [v|] eqn:Ev; [|eauto].
    destruct (fraction_multiplier _) as [mul|] eqn:Em; [|eauto]. apply parse_unsigned_bound in Ev.
    apply fraction_multiplier_spec in Em as [Em Hm]. rewrite (proj2 (Z.leb_le _ _)); [eauto|]. unfold u32_max. nia.
  - destruct (parse_signed _ _ s); eauto.
Qed.

Lemma parse_total format s : exists r, Timestamp_parse format s = Some r.
Proof. destruct format; simpl; eauto using parse_epoch_total. Qed.

Lemma split_once_app a b : "."%byte ∉ a -> split_once "." (a ++ str "." ++ b) = Some (a, b).
Proof. intros Hn. by apply split_once_Some. Qed.

Definition at_utc (t : OffsetDateTime) : OffsetDateTime :=
  {| dt_year := dt_year t; dt_month := dt_month t; dt_day := dt_day t; dt_hour := dt_hour t; dt_minute := dt_minute t;
     dt_second := dt_second t; dt_nanosecond := dt_nanosecond t; dt_offset := 0 |}.

End Facts.

Lemma fmt_three n : (0 <= n < 1000)%Z -> fmt_dec_pad 3 n = dec_digit (n / 100) :: two_digits (n mod 100).
Proof.
  intros Hn. pose proof (fmt_four n ltac:(lia)) as E4. unfold fmt_dec_pad in *.
  assert (Hl : length (fmt_dec n) <= 3).
  { rewrite fmt_dec_step by lia. destruct (n <? 10)%Z; [simpl; lia|]. rewrite length_app. simpl.
    pose proof (fmt_dec_two (n / 10) ltac:(Z.to_euclidean_division_equations; lia)). lia. }
  replace (4 - length (fmt_dec n)) with (S (3 - length (fmt_dec n))) in E4 by lia. cbn [replicate app two_digits] in E4.
  injection E4 as _ E4. rewrite E4. f_equal. f_equal. rewrite Z.mod_small; [done|]. Z.to_euclidean_division_equations; lia.
Qed.

(** What the texts of a valid time are made of. *)
Lemma date_time_digits t : valid_time t = true ->
  date_time_text t =
    two_digits (dt_year t / 100) ++ two_digits (dt_year t mod 100) ++ str "-" ++ two_digits (dt_month t) ++ str "-" ++
    two_digits (dt_day t) ++ str "T" ++ two_digits (dt_hour t) ++ str ":" ++ two_digits (dt_minute t) ++ str ":" ++
    two_digits (dt_second t) ++ str "." ++
    dec_digit (dt_nanosecond t / 1000000 / 100) :: two_digits ((dt_nanosecond t / 1000000) mod 100).
Proof.
  unfold valid_time, between_Z. intros Hv. reflect_bools.
  assert (days_in_month (dt_year t) (dt_month t) <= 31)%Z by (unfold days_in_month; repeat case_match; lia).
  unfold date_time_text. rewrite fmt_four, fmt_three, !fmt_two by (Z.to_euclidean_division_equations; lia). by rewrite <- !app_assoc.
Qed.

Lemma dec_digit_ascii d : (0 <= d < 10)%Z -> is_ascii (dec_digit d) = true.
Proof.
  intros Hd. assert (d = 0 \/ d = 1 \/ d = 2 \/ d = 3 \/ d = 4 \/ d = 5 \/ d = 6 \/ d = 7 \/ d = 8 \/ d = 9)%Z as Hc by lia.
  by repeat (destruct Hc as [->|Hc]; [done|]); subst.
Qed.

Lemma two_digits_ascii n : (0 <= n < 100)%Z -> forallb is_ascii (two_digits n) = true.
Proof. intros Hn. unfold two_digits. cbn [forallb]. by rewrite !dec_digit_ascii by (Z.to_euclidean_division_equations; lia). Qed.

Lemma rfc3339_shape t : valid_time t = true -> length (RFC3339 t) = 24 /\ forallb is_ascii (RFC3339 t) = true.
Proof.
  intros Hv. unfold RFC3339. rewrite (date_time_digits t Hv). split; [done|].
  unfold valid_time, between_Z in Hv. reflect_bools.
  assert (days_in_month (dt_year t) (dt_month t) <= 31)%Z by (unfold days_in_month; repeat case_match; lia).
  rewrite !forallb_app. cbn [forallb]. rewrite !two_digits_ascii, dec_digit_ascii by (Z.to_euclidean_division_equations; lia). done.
Qed.

Section Properties.
Context `{TimeCrate}.

Lemma fmt_date_time t : valid_time t = true -> fmt_timestamp t DateTime = Some (RFC3339 t).
Proof.
  intros Hv. unfold fmt_timestamp, Timestamp_format, array_string. rewrite format_rfc3339_spec by done. cbn [mbind option_bind].
  by rewrite (proj1 (rfc3339_shape t Hv)).
Qed.

Lemma parse_rfc3339_utc t : valid_time t = true -> (dt_nanosecond t mod 1000000 = 0)%Z ->
  parse_rfc3339 (RFC3339 t) = Some (at_utc t).
Proof.
  intros Hv Hn. pose proof (parse_rfc3339_spec (at_utc t)) as E. apply E; [|done].
  unfold valid_time in *. cbn in *. reflect_bools. unfold between_Z. rewrite !andb_true_iff, !Z.leb_le. unfold between_Z in *. reflect_bools.
  split_and!; lia.
Qed.

(** A date-time of whole milliseconds is always printed, and reads back as the same
    components at offset zero: as the same instant exactly when it was expressed in UTC.  The
    offset is neither printed nor applied. *)
Theorem date_time_offset_lost (t : Timestamp) :
  valid_time t = true -> (dt_nanosecond t mod 1000000 = 0)%Z ->
  exists s, fmt_timestamp t DateTime = Some s /\ Timestamp_parse DateTime s = Some (Ok (at_utc t)) /\
    (at_utc t = t <-> dt_offset t = 0%Z).
Proof.
  intros Hv Hn. exists (RFC3339 t). split; [by apply fmt_date_time|]. simpl. rewrite parse_rfc3339_utc by done. split; [done|].
  destruct t as [y mo d h mi sec n o]; unfold at_utc; simpl. split; [by intros [= <-]|by intros ->].
Qed.

(** Seconds since the epoch: the parser never panics; a number and a fraction of one to nine
    digits is the instant that many nanoseconds after the epoch, the fraction counted forward
    also when the seconds are negative; and a fraction may start with a plus sign, which counts
    as one of its digits. *)
Theorem epoch_seconds_parse (secs frac : bytes) (n v : Z) :
  (forall s, exists r, Timestamp_parse EpochSeconds s = Some r) /\
  ("."%byte ∉ secs -> parse_signed i64_min i64_max secs = Some n -> 1 <= length frac <= 9 -> dec_value 0 frac = Some v ->
   Timestamp_parse EpochSeconds (secs ++ str "." ++ frac) =
     Some (ok_or ComponentRange (from_unix_timestamp_nanos (n * 10 ^ 9 + v * 10 ^ (9 - Z.of_nat (length frac)))))) /\
  ("."%byte ∉ secs -> parse_signed i64_min i64_max secs = Some n ->
   Timestamp_parse EpochSeconds (secs ++ str ".+5") =
     Some (ok_or ComponentRange (from_unix_timestamp_nanos (n * 10 ^ 9 + 5 * 10 ^ 7)))).
Proof.
  split; [intros s; apply parse_total|]. split; intros Hs Hn; unfold Timestamp_parse, parse_epoch_seconds.
  - intros Hl Hv. rewrite split_once_app by done. rewrite Hn. pose proof (dec_value_bound 0 frac v Hv ltac:(lia)) as Hb.
    destruct (fraction_multiplier (length frac)) as [mul|] eqn:Em.
    2:{ exfalso. revert Em. clear -Hl. destruct frac as [|a f]; simpl in *; [lia|]. by do 9 (destruct f as [|? f]; [done|simpl in *]); lia. }
    apply fraction_multiplier_spec in Em as [Em Hm].
    assert (Hle : (10 ^ Z.of_nat (length frac) <= 10 ^ 9)%Z) by (apply Z.pow_le_mono_r; lia).
    assert (Hp : parse_unsigned u32_max frac = Some v).
    { destruct frac as [|c f]; [simpl in Hl; lia|]. pose proof (dec_value_digits _ _ _ Hv) as Hd. unfold parse_unsigned.
      rewrite bool_decide_eq_false_2 by (intros ->; done). rewrite Hv. cbn [mbind option_bind].
      rewrite (proj2 (Z.leb_le _ _)); [done|]. unfold u32_max. lia. }
    rewrite Hp. assert (mul = 10 ^ (9 - Z.of_nat (length frac)))%Z as ->.
    { apply (Z.mul_reg_l _ _ (10 ^ Z.of_nat (length frac))); [apply Z.pow_nonzero; lia|]. rewrite Em, <- Z.pow_add_r by lia.
      by replace (Z.of_nat (length frac) + (9 - Z.of_nat (length frac)))%Z with 9%Z by lia. }
    rewrite (proj2 (Z.leb_le _ _)); [done|]. unfold u32_max. nia.
  - rewrite (split_once_app secs (str "+5") Hs : split_once "." (secs ++ str ".+5") = _). by rewrite Hn.
Qed.
End Properties.

(** ** Witnesses *)

(** A concrete [time] crate: the date-time format read at its fixed positions, and for the HTTP
    date a text of the same length that leaves the names out. *)
Definition reference_time (s : bytes) : option (OffsetDateTime * bytes) :=
  match s with
  | y0 :: y1 :: y2 :: y3 :: _ :: m0 :: m1 :: _ :: d0 :: d1 :: _ :: h0 :: h1 :: _ :: i0 :: i1 :: _ :: s0 :: s1 :: _ :: f0 :: f1 :: f2 :: rest =>
      year ← digit4 y0 y1 y2 y3; month ← digit2 m0 m1; day ← digit2 d0 d1; hour ← digit2 h0 h1; minute ← digit2 i0 i1;
      second ← digit2 s0 s1; fh ← digit f0; fl ← digit2 f1 f2;
      Some ({| dt_year := year; dt_month := month; dt_day := day; dt_hour := hour; dt_minute := minute; dt_second := second;
               dt_nanosecond := (fh * 100 + fl) * 1000000; dt_offset := 0 |}, rest)
  | _ => None
  end.

Definition set_offset (o : Z) (t : OffsetDateTime) : OffsetDateTime :=
  {| dt_year := dt_year t; dt_month := dt_month t; dt_day := dt_day t; dt_hour := dt_hour t; dt_minute := dt_minute t;
     dt_second := dt_second t; dt_nanosecond := dt_nanosecond t; dt_offset := o |}.

Definition reference_offset (s : bytes) : option Z :=
  match s with
  | [_] => Some 0%Z
  | [sg; h0; h1; _; m0; m1] =>
      h ← digit2 h0 h1; m ← digit2 m0 m1;
      Some (if sg =? "-"%byte then (- (60 * h + m))%Z else (60 * h + m)%Z)
  | _ => None
  end.

Lemma digit_dec d : (0 <= d < 10)%Z -> digit (dec_digit d) = Some d.
Proof. intros Hd. by apply digit_Some. Qed.

Lemma digit4_two n : (0 <= n < 10000)%Z ->
  digit4 (dec_digit (n / 100 / 10)) (dec_digit ((n / 100) mod 10)) (dec_digit (n mod 100 / 10)) (dec_digit (n mod 100 mod 10)) = Some n.
Proof.
  intros Hn. unfold digit4. rewrite !digit2_two by (Z.to_euclidean_division_equations; lia). cbn [mbind option_bind].
  f_equal. Z.to_euclidean_division_equations; lia.
Qed.

Lemma reference_time_text t rest : valid_time t = true -> (dt_nanosecond t mod 1000000 = 0)%Z ->
  reference_time (date_time_text t ++ rest) = Some (at_utc t, rest).
Proof.
  intros Hv Hn. rewrite (date_time_digits t Hv). unfold valid_time, between_Z in Hv. reflect_bools.
  assert (days_in_month (dt_year t) (dt_month t) <= 31)%Z by (unfold days_in_month; repeat case_match; lia).
  unfold two_digits. cbn [app str String.list_byte_of_string reference_time].
  change (str "-") with ["-"%byte]. change (str "T") with ["T"%byte]. change (str ":") with [":"%byte]. change (str ".") with ["."%byte].
  cbn [app reference_time].
  rewrite digit4_two, !digit2_two, digit_dec by (Z.to_euclidean_division_equations; lia). cbn [mbind option_bind].
  unfold at_utc. do 3 f_equal. Z.to_euclidean_division_equations; lia.
Qed.

Lemma reference_offset_text o : (-1439 <= o <= 1439)%Z -> reference_offset (offset_text o) = Some o.
Proof.
  intros Ho. unfold offset_text. destruct (o =? 0)%Z eqn:E0; [apply Z.eqb_eq in E0; by subst|].
  rewrite !fmt_two by (Z.to_euclidean_division_equations; lia). unfold two_digits.
  destruct (o <? 0)%Z eqn:E; reflect_bools; change (str "-") with ["-"%byte]; change (str "+") with ["+"%byte]; change (str ":") with [":"%byte];
    cbn [app reference_offset]; rewrite !digit2_two by (Z.to_euclidean_division_equations; lia); cbn [mbind option_bind].
  - change ("-"%byte =? "-"%byte) with true. cbn iota. f_equal. Z.to_euclidean_division_equations; lia.
  - change ("+"%byte =? "-"%byte) with false. cbn iota. f_equal. Z.to_euclidean_division_equations; lia.
Qed.

Definition time_reference : TimeCrate.
Proof.
  refine {| parse_rfc3339 := fun s => '(t, rest) ← reference_time s; o ← reference_offset rest; Some (set_offset o t);
            format_rfc3339 := fun t => Some (if valid_time t then RFC3339 t else []);
            parse_rfc1123 := fun s => '(t, _) ← reference_time s; Some t;
            format_rfc1123 := fun t => Some (if valid_time t then date_time_text t ++ str "   GMT" else []);
            from_unix_timestamp_nanos := fun n => Some (set_offset 0 {| dt_year := 1970; dt_month := 1; dt_day := 1; dt_hour := 0;
              dt_minute := 0; dt_second := 0; dt_nanosecond := n; dt_offset := 0 |});
            from_unix_timestamp := fun n => Some {| dt_year := 1970; dt_month := 1; dt_day := 1; dt_hour := 0;
              dt_minute := 0; dt_second := n; dt_nanosecond := 0; dt_offset := 0 |};
            unix_timestamp_nanos := dt_nanosecond;
            display_seconds := fun s _ => fmt_signed s |}.
  - intros t Hv Hn. rewrite reference_time_text by done. cbn [mbind option_bind]. rewrite reference_offset_text.
    + by destruct t.
    + unfold valid_time, between_Z in Hv. reflect_bools. lia.
  - intros t Hv. by rewrite Hv.
  - intros t Hv Ho Hn. rewrite Hv. eexists. split; [done|]. destruct (rfc3339_shape t Hv) as [Hl Ha].
    unfold RFC3339 in *. rewrite length_app in Hl. rewrite forallb_app in Ha. apply andb_true_iff in Ha as [Ha _].
    split_and!; [rewrite length_app; simpl in *; lia|by rewrite forallb_app, Ha|].
    rewrite reference_time_text by (done || by rewrite Hn). cbn [mbind option_bind]. by destruct t; simpl in *; subst.
Defined.

Definition w_cet : Timestamp :=
  {| dt_year := 2024; dt_month := 2; dt_day := 29; dt_hour := 1; dt_minute := 30; dt_second := 0; dt_nanosecond := 5000000; dt_offset := 120 |}.

Lemma date_time_offset_lost_witness :
  @Timestamp_parse time_reference DateTime (str "2024-02-29T01:30:00.005+02:00") = Some (Ok w_cet) /\
  exists t, @Timestamp_parse time_reference DateTime (default [] (@fmt_timestamp time_reference w_cet DateTime)) = Some (Ok t) /\ t <> w_cet.
Proof.
  split; [by vm_compute|]. destruct (@date_time_offset_lost time_reference w_cet) as (s & Hs & Hp & Ho); [by vm_compute|by vm_compute|].
  exists (at_utc w_cet). rewrite Hs. split; [done|]. intros E. by apply Ho in E.
Defined.

Lemma epoch_seconds_parse_witness :
  @Timestamp_parse time_reference EpochSeconds (str "-1" ++ str "." ++ str "5") =
    Some (ok_or ComponentRange (@from_unix_timestamp_nanos time_reference (-500000000))).
Proof.
  destruct (@epoch_seconds_parse time_reference (str "-1") (str "5") (-1) 5) as (_ & Hp & _).
  rewrite Hp; [done| |by vm_compute|simpl; lia|by vm_compute].
  intros Hin. repeat (apply elem_of_cons in Hin as [?|Hin]; [done|]). by apply elem_of_nil in Hin.
Defined.
