(* ===== verification/Xml.v ===== *)
(** * XML documents (crates/s3s/src/xml/de.rs, ser.rs)

    The serializer writes events; the deserializer reads them back one at a time, with one event
    peeked and one held back.  The syntax of XML is the [quick_xml] crate's: the reader gives the
    events of a text, and the writer the text of an event. *)

From S2P Require Import Prelude.
From S2P Require Import Str.
From S2P Require Import Utf8.
From S2P Require Import AmzDate.
From S2P Require Import Timestamp.

(** ** Events *)

(** An attribute as the iterator of [BytesStart] gives it: [None] when it is malformed; the value
    is [None] when it has a reference that cannot be resolved. *)
Definition Attribute : Type := option (bytes * option bytes).

Record BytesStart := { bs_name : bytes; bs_attributes : list Attribute }.

(** What the reader returns; the end of the document is the end of the list of events. *)
Inductive QEvent :=
| QStart (x : BytesStart) | QEnd (name : bytes) | QEmpty (x : BytesStart) | QText (x : bytes) | QGeneralRef (name : bytes)
| QComment | QCData (x : bytes) | QDecl | QPI | QDocType.

(** What the serializer hands to the writer: an event, or raw text. *)
Inductive Out :=
| ODecl | OStart (name : bytes) (attributes : list (bytes * bytes)) | OEnd (name : bytes) | OText (content : bytes) | ORaw (raw : bytes).

Inductive DeEvent := DStart (x : BytesStart) | DEnd (name : bytes) | DText (x : bytes) | DEof.

Inductive DeError :=
| InvalidXml | UnexpectedEof | UnexpectedStart | UnexpectedEnd | UnexpectedTagName | DeInvalidAttribute | UnexpectedAttributeName
| InvalidContent | MissingField | DuplicateField.

(** ** The quick_xml crate *)

(** The predefined entities. *)
Definition resolve_xml_entity (name : bytes) : option bytes :=
  if name =? str "lt" then Some (str "<")
  else if name =? str "gt" then Some (str ">")
  else if name =? str "amp" then Some (str "&")
  else if name =? str "apos" then Some (str "'")
  else if name =? str "quot" then Some [x22]
  else None.

(** [escape]: the name of the reference a byte is written as, if it is. *)
Definition entity_of (c : byte) : option bytes :=
  match c with
  | "<"%byte => Some (str "lt")
  | ">"%byte => Some (str "gt")
  | "&"%byte => Some (str "amp")
  | "'"%byte => Some (str "apos")
  | x22 => Some (str "quot")
  | _ => None
  end.

(** The events of a written text: a run of plain bytes is one text, each reference is another. *)
Fixpoint text_events (t : bytes) : list QEvent :=
  match t with
  | [] => []
  | c :: t' =>
      match entity_of c with
      | Some name => QGeneralRef name :: text_events t'
      | None =>
          match text_events t' with
          | QText run :: es => QText (c :: run) :: es
          | es => QText [c] :: es
          end
      end
  end.

Definition name_byte (c : byte) : bool := is_ascii_alphanumeric c || (c =? ":"%byte) || (c =? "-"%byte) || (c =? "_"%byte).
Definition name_ok (n : bytes) : bool := (n <>? []) && forallb name_byte n.

(** An attribute value that neither the writer nor the normalization of values changes. *)
Definition attr_value_ok (v : bytes) : bool :=
  utf8_valid v && forallb (fun c => negb ((c =? x09) || (c =? x0a) || (c =? x0d))) v.

Definition attrs_ok (a : list (bytes * bytes)) : bool := forallb (fun kv => name_ok (fst kv) && attr_value_ok (snd kv)) a.

(** Text that is written as it is and read as one event. *)
Definition raw_ok (r : bytes) : bool :=
  (r <>? []) && utf8_valid r && forallb (fun c => negb ((c =? "<"%byte) || (c =? "&"%byte))) r.

(** The events of something written. *)
Definition out_events (o : Out) : list QEvent :=
  match o with
  | ODecl => [QDecl]
  | OStart n a => [QStart {| bs_name := n; bs_attributes := map (fun kv => Some (fst kv, Some (snd kv))) a |}]
  | OEnd n => [QEnd n]
  | OText t => text_events t
  | ORaw r => [QText r]
  end.

(** Elements are closed in order, names are names, and no two texts are next to each other. *)
Fixpoint well_nested (stack : list bytes) (after_text : bool) (os : list Out) : bool :=
  match os with
  | [] => match stack with [] => true | _ => false end
  | ODecl :: os' => well_nested stack false os'
  | OStart n a :: os' => name_ok n && attrs_ok a && well_nested (n :: stack) false os'
  | OEnd n :: os' => match stack with m :: stack' => (m =? n) && well_nested stack' false os' | [] => false end
  | OText t :: os' => negb after_text && utf8_valid t && well_nested stack true os'
  | ORaw r :: os' => negb after_text && raw_ok r && well_nested stack true os'
  end.

Class QuickXml := {
  (** [Reader::read_event] until the end: [None] is an error. *)
  read_events : bytes -> list (option QEvent);
  (** [Writer::write_event], and [write_all] for raw text *)
  write : Out -> bytes;
  write_raw : forall r, write (ORaw r) = r;
  read_write : forall os, well_nested [] false os = true ->
    read_events (concat (map write os)) = map Some (concat (map out_events os))
}.

(** ** The serializer (ser.rs) *)

(** What a serializer writes; [None] is a panic. *)
Definition Ser : Type := option (list Out).

Definition s_event (o : Out) : Ser := Some [o].

(** [a?; b] *)
Definition s_then (a b : Ser) : Ser := x ← a; y ← b; Some (x ++ y).

(** A sequence of statements. *)
Fixpoint s_seq (l : list Ser) : Ser :=
  match l with
  | [] => Some []
  | a :: l' => s_then a (s_seq l')
  end.

Definition s_element (name : bytes) (f : Ser) : Ser := s_seq [s_event (OStart name []); f; s_event (OEnd name)].

Definition s_element_with_ns (name xmlns : bytes) (f : Ser) : Ser :=
  s_seq [s_event (OStart name [(str "xmlns", xmlns)]); f; s_event (OEnd name)].

Definition s_element_with_attrs (name : bytes) (attrs : list (bytes * bytes)) (f : Ser) : Ser :=
  s_seq [s_event (OStart name attrs); f; s_event (OEnd name)].

Section Serializer.
Context {T : Type} (serialize_content : T -> Ser).

Definition s_content (name : bytes) (val : T) : Ser := s_element name (serialize_content val).
Definition s_content_with_ns (name xmlns : bytes) (val : T) : Ser := s_element_with_ns name xmlns (serialize_content val).
Definition s_content_with_attrs (name : bytes) (attrs : list (bytes * bytes)) (val : T) : Ser :=
  s_element_with_attrs name attrs (serialize_content val).

Definition s_flattened_list (name : bytes) (iter : list T) : Ser := s_seq (map (s_content name) iter).
Definition s_list (name member_name : bytes) (iter : list T) : Ser := s_element name (s_seq (map (s_content member_name) iter)).
End Serializer.

(** [if let Some(ref val) = field { f(val)?; }] *)
Definition if_some {A} (v : option A) (f : A -> Ser) : Ser := match v with Some val => f val | None => Some [] end.

Definition s_write_raw_text (raw : bytes) : Ser := Some [ORaw raw].
Definition s_decl : Ser := s_event ODecl.

Definition ser_str (s : bytes) : Ser := s_event (OText s).
Definition ser_bool (b : bool) : Ser := s_event (OText (fmt_boolean b)).
Definition ser_i32 (n : Z) : Ser := s_event (OText (fmt_signed n)).
Definition ser_i64 (n : Z) : Ser := s_event (OText (fmt_signed n)).

(** The text of a timestamp; [str::from_ascii_simd(b).unwrap()] panics when it is not ASCII. *)
Definition ser_timestamp `{TimeCrate} (fmt : TimestampFormat) (val : Timestamp) : Ser :=
  b ← fmt_timestamp val fmt;
  if forallb is_ascii b then ser_str b else None.

Definition s_timestamp `{TimeCrate} (name : bytes) (val : Timestamp) (fmt : TimestampFormat) : Ser :=
  s_content (ser_timestamp fmt) name val.

(** ** The deserializer (de.rs) *)

Record Deserializer := {
  inner : list (option QEvent);
  peeked : option DeEvent;
  next_slot : option DeEvent
}.

(** A deserializing function: [None] is one that does not return.  After an error the
    deserializer is not used again. *)
Definition De (A : Type) : Type := Deserializer -> option (result DeError (A * Deserializer)).

#[global] Instance De_ret : MRet De := fun A a d => Some (Ok (a, d)).
#[global] Instance De_bind : MBind De := fun A B k m d =>
  match m d with
  | Some (Ok (a, d')) => k a d'
  | Some (Err e) => Some (Err e)
  | None => None
  end.
Definition throw {A} (e : DeError) : De A := fun _ => Some (Err e).
Definition de_lift {A} (r : result DeError A) : De A := fun d => Some (a ← r; Ok (a, d)).

Definition Deserializer_new `{QuickXml} (xml : bytes) : Deserializer :=
  {| inner := read_events xml; peeked := None; next_slot := None |}.

(** The text of a code point ([char::from_u32] and [to_string]). *)
Definition encode_utf8 (c : Z) : bytes :=
  if (c <? 128)%Z then [byte_of_Z c]
  else if (c <? 2048)%Z then [byte_of_Z (192 + c / 64); byte_of_Z (128 + c mod 64)]
  else if (c <? 65536)%Z then [byte_of_Z (224 + c / 4096); byte_of_Z (128 + (c / 64) mod 64); byte_of_Z (128 + c mod 64)]
  else [byte_of_Z (240 + c / 262144); byte_of_Z (128 + (c / 4096) mod 64); byte_of_Z (128 + (c / 64) mod 64); byte_of_Z (128 + c mod 64)].

Definition char_from_u32 (c : Z) : option Z :=
  if between_Z 0 c 55295 || between_Z 57344 c 1114111 then Some c else None.

Fixpoint hex_value (acc : Z) (s : bytes) : option Z :=
  match s with
  | [] => Some acc
  | c :: s' => d ← hex_val c; hex_value (acc * 16 + d)%Z s'
  end.

(** [u32::from_str_radix(hex, 16)]: a leading [+] is accepted. *)
Definition u32_from_hex (s : bytes) : option Z :=
  match s with
  | [] => None
  | c :: s' =>
      match (if c =? "+"%byte then s' else s) with
      | [] => None
      | digits => v ← hex_value 0 digits; if (v <=? u32_max)%Z then Some v else None
      end
  end.

Definition xml_char (codepoint : Z) : bool :=
  (codepoint =? 9)%Z || (codepoint =? 10)%Z || (codepoint =? 13)%Z || between_Z 32 codepoint 55295 ||
  between_Z 57344 codepoint 65533 || between_Z 1048576 codepoint 1114111.

Definition resolve_char_ref (name : bytes) : option bytes :=
  entity ← strip_prefix (str "#") name;
  if entity =? [] then None else
  codepoint ← match strip_prefix (str "x") entity with
              | Some hex => u32_from_hex hex
              | None => parse_unsigned u32_max entity
              end;
  if negb (xml_char codepoint) then None else
  c ← char_from_u32 codepoint;
  Some (encode_utf8 c).

(** The loop of [read_event] over the reader; the last component is what goes to [next_slot]. *)
Fixpoint read_inner (q : list (option QEvent)) : result DeError (DeEvent * list (option QEvent) * option DeEvent) :=
  match q with
  | [] => Ok (DEof, [], None)
  | None :: _ => Err InvalidXml
  | Some ev :: q' =>
      match ev with
      | QStart x => Ok (DStart x, q', None)
      | QEnd x => Ok (DEnd x, q', None)
      | QText x => Ok (DText x, q', None)
      | QEmpty x => Ok (DStart x, q', Some (DEnd (bs_name x)))
      | QGeneralRef name =>
          match (match resolve_xml_entity name with Some v => Some v | None => resolve_char_ref name end) with
          | Some value => Ok (DText value, q', None)
          | None => Err InvalidContent
          end
      | QComment | QCData _ | QDecl | QPI | QDocType => read_inner q'
      end
  end.

Definition read_event : De DeEvent := fun d =>
  match next_slot d with
  | Some ev => Some (Ok (ev, {| inner := inner d; peeked := peeked d; next_slot := None |}))
  | None =>
      match read_inner (inner d) with
      | Ok (ev, q, slot) => Some (Ok (ev, {| inner := q; peeked := peeked d; next_slot := slot |}))
      | Err e => Some (Err e)
      end
  end.

Definition set_peeked (p : option DeEvent) (d : Deserializer) : Deserializer :=
  {| inner := inner d; peeked := p; next_slot := next_slot d |}.

Definition next_event : De DeEvent := fun d =>
  match peeked d with
  | Some ev => Some (Ok (ev, set_peeked None d))
  | None => read_event d
  end.

Definition peek_event : De DeEvent := fun d =>
  match peeked d with
  | Some ev => Some (Ok (ev, d))
  | None =>
      match read_event d with
      | Some (Ok (ev, d')) => Some (Ok (ev, set_peeked (Some ev) d'))
      | Some (Err e) => Some (Err e)
      | None => None
      end
  end.

Definition consume_peeked : De unit := fun d => Some (Ok (tt, set_peeked None d)).

(** *** Loops *)

Definition ev_weight (q : option QEvent) : nat := match q with Some (QEmpty _) => 2 | _ => 1 end.

(** The events that are left, at most. *)
Definition size (d : Deserializer) : nat :=
  match peeked d with None | Some DEof => 0 | Some _ => 1 end + match next_slot d with Some _ => 1 | None => 0 end +
  list_sum (map ev_weight (inner d)).

(** [loop { body }] with a local state: [inl] goes on, [inr] leaves the loop. *)
Fixpoint loop_fuel {S A} (fuel : nat) (body : S -> De (S + A)) (s : S) : De A := fun d =>
  match fuel with
  | 0 => None
  | Datatypes.S n =>
      match body s d with
      | Some (Ok (inl s', d')) => loop_fuel n body s' d'
      | Some (Ok (inr a, d')) => Some (Ok (a, d'))
      | Some (Err e) => Some (Err e)
      | None => None
      end
  end.

Definition d_loop {S A} (body : S -> De (S + A)) (s : S) : De A := fun d => loop_fuel (Datatypes.S (size d)) body s d.

(** A turn of the loop of [expect_start]. *)
Definition start_step (name : bytes) (_ : unit) : De (unit + unit) :=
  ev ← next_event;
  match ev with
  | DStart x => if bs_name x <>? name then throw UnexpectedTagName else mret (inr tt)
  | DEnd _ => throw UnexpectedEnd
  | DText _ => mret (inl tt)
  | DEof => throw UnexpectedEof
  end.

Definition expect_start (name : bytes) : De unit :=
  d_loop (start_step name) tt.

(** A turn of the loop of [expect_start_any]. *)
Definition start_any_step (names : list bytes) (_ : unit) : De (unit + bytes) :=
  ev ← next_event;
  match ev with
  | DStart x => match List.find (fun n => n =? bs_name x) names with Some n => mret (inr n) | None => throw UnexpectedTagName end
  | DEnd _ => throw UnexpectedEnd
  | DText _ => mret (inl tt)
  | DEof => throw UnexpectedEof
  end.

Definition expect_start_any (names : list bytes) : De bytes :=
  d_loop (start_any_step names) tt.

(** A turn of the loop of [expect_end]. *)
Definition end_step (name : bytes) (_ : unit) : De (unit + unit) :=
  ev ← next_event;
  match ev with
  | DStart _ => throw UnexpectedStart
  | DEnd x => if x <>? name then throw UnexpectedTagName else mret (inr tt)
  | DText _ => mret (inl tt)
  | DEof => throw UnexpectedEof
  end.

Definition expect_end (name : bytes) : De unit :=
  d_loop (end_step name) tt.

(** A turn of the loop of [expect_eof]. *)
Definition eof_step (_ : unit) : De (unit + unit) :=
  ev ← next_event;
  match ev with
  | DStart _ => throw UnexpectedStart
  | DEnd _ => throw UnexpectedEnd
  | DText _ => mret (inl tt)
  | DEof => mret (inr tt)
  end.

Definition expect_eof : De unit :=
  d_loop eof_step tt.

Definition named_element {A} (name : bytes) (f : De A) : De A :=
  expect_start name;;
  ans ← f;
  expect_end name;;
  mret ans.

Definition named_element_any {A} (names : list bytes) (f : De A) : De A :=
  name ← expect_start_any names;
  ans ← f;
  expect_end name;;
  mret ans.

(** A turn of the loop of [element]. *)
Definition element_step {A} (f : bytes -> De A) (_ : unit) : De (unit + A) :=
  ev ← peek_event;
  match ev with
  | DStart start =>
      consume_peeked;;
      ans ← f (bs_name start);
      expect_end (bs_name start);;
      mret (inr ans)
  | DText _ => consume_peeked;; mret (inl tt)
  | DEnd _ | DEof => throw UnexpectedEnd
  end.

Definition element {A} (f : bytes -> De A) : De A :=
  d_loop (element_step f) tt.

(** A turn of the loop of [for_each_element_with_start]; the closure changes the variables it
    captured, the state [S]. *)
Definition each_step {S} (f : S -> bytes -> BytesStart -> De S) (s : S) : De (S + S) :=
  ev ← peek_event;
  match ev with
  | DStart start =>
      consume_peeked;;
      s' ← f s (bs_name start) start;
      expect_end (bs_name start);;
      mret (inl s')
  | DText _ => consume_peeked;; mret (inl s)
  | DEnd _ | DEof => mret (inr s)
  end.

Definition for_each_element_with_start {S} (f : S -> bytes -> BytesStart -> De S) (s : S) : De S :=
  d_loop (each_step f) s.

Definition for_each_element {S} (f : S -> bytes -> De S) (s : S) : De S :=
  for_each_element_with_start (fun s x _ => f s x) s.

(** A turn of the loop of [text]. *)
Definition text_step (buf : option bytes) : De (option bytes + option bytes) :=
  ev ← peek_event;
  match ev with
  | DStart _ => consume_peeked;; throw UnexpectedStart
  | DEnd _ => mret (inr buf)
  | DEof => match buf with None => throw UnexpectedEof | Some _ => mret (inr buf) end
  | DText s => consume_peeked;; mret (inl (Some (match buf with None => s | Some b => b ++ s end)))
  end.

Definition text {A} (f : bytes -> result DeError A) : De A :=
  buf ← d_loop text_step None;
  de_lift (f (default [] buf)).

(** A turn of the loop of [skip_element_content].  The nesting depth is a [u32], whose overflow
    needs four billion open elements. *)
Definition skip_step (depth : nat) : De (nat + unit) :=
  ev ← peek_event;
  match ev with
  | DStart _ => consume_peeked;; mret (inl (Datatypes.S depth))
  | DEnd _ => match depth with 0 => mret (inr tt) | Datatypes.S n => consume_peeked;; mret (inl n) end
  | DText _ => consume_peeked;; mret (inl depth)
  | DEof => throw UnexpectedEof
  end.

Definition skip_element_content : De unit :=
  d_loop skip_step 0.

Definition list_content {T} (content : De T) (name : bytes) : De (list T) :=
  for_each_element (fun l x =>
    if x <>? name then skip_element_content;; mret l
    else v ← content; mret (l ++ [v])) [].

(** A [None] of the timestamp parser would be a panic. *)
Definition de_timestamp `{TimeCrate} (fmt : TimestampFormat) : De Timestamp := fun d =>
  match text (fun s => Ok s) d with
  | Some (Ok (s, d')) =>
      match Timestamp_parse fmt s with
      | Some (Ok t) => Some (Ok (t, d'))
      | Some (Err _) => Some (Err InvalidContent)
      | None => None
      end
  | Some (Err e) => Some (Err e)
  | None => None
  end.

Definition de_bool : De bool :=
  text (fun s => if (s =? str "true") || (s =? str "TRUE") then Ok true
                 else if (s =? str "false") || (s =? str "FALSE") then Ok false
                 else Err InvalidContent).

Definition de_string : De bytes := text (fun s => Ok s).

(** [atoi::atoi] of the [atoi] crate for signed integers: the number at the start of the text. *)
Class AtoiSigned := {
  atoi_signed : Z -> Z -> bytes -> option Z;
  atoi_signed_spec : forall lo hi n, (lo <= n <= hi)%Z -> (lo <= 0 <= hi)%Z -> atoi_signed lo hi (fmt_signed n) = Some n
}.

Definition i32_min : Z := - 2 ^ 31.
Definition i32_max : Z := 2 ^ 31 - 1.

Definition de_i32 `{AtoiSigned} : De Z := text (fun s => ok_or InvalidContent (atoi_signed i32_min i32_max s)).
Definition de_i64 `{AtoiSigned} : De Z := text (fun s => ok_or InvalidContent (atoi_signed i64_min i64_max s)).

(** ** Termination *)

(** A deserializing function returns, and does not make the input longer. *)
Definition well {A} (m : De A) : Prop :=
  forall d, exists r, m d = Some r /\ match r with Ok (_, d') => size d' <= size d | Err _ => True end.

(** The same, for a turn of a loop: one that goes on makes the input shorter. *)
Definition well_turn {S A} (m : De (S + A)) : Prop :=
  forall d, exists r, m d = Some r /\
    match r with Ok (inl _, d') => size d' < size d | Ok (inr _, d') => size d' <= size d | Err _ => True end.

Create HintDb de.

Lemma well_ret {A} (a : A) : well (mret a).
Proof. intros d. eexists. split; [done|]. simpl. lia. Qed.

Lemma well_throw {A} e : well (throw e : De A).
Proof. intros d. by eexists. Qed.

Lemma well_lift {A} (r : result DeError A) : well (de_lift r).
Proof. intros d. unfold de_lift. eexists. split; [done|]. destruct r; simpl; lia. Qed.

Lemma well_bind {A B} (m : De A) (k : A -> De B) : well m -> (forall a, well (k a)) -> well (m ≫= k).
Proof.
  intros Hm Hk d. unfold mbind, De_bind. destruct (Hm d) as ([[a d']|e] & -> & Hs); [|by eexists].
  destruct (Hk a d') as (r & -> & Hr). eexists. split; [done|]. destruct r as [[b d2]|]; [lia|done].
Qed.

Lemma read_inner_size q ev q' slot : read_inner q = Ok (ev, q', slot) ->
  match ev with DEof => 0 | _ => 1 end + match slot with Some _ => 1 | None => 0 end + list_sum (map ev_weight q') <=
  list_sum (map ev_weight q).
Proof.
  induction q as [|[e|] q IH]; simpl; [by intros [= <- <- <-]| |done].
  destruct e; try (intros [= <- <- <-]; simpl; lia); try (intros E; apply IH in E; simpl; lia).
  destruct (resolve_xml_entity name) as [v|]; [intros [= <- <- <-]; simpl; lia|].
  destruct (resolve_char_ref name) as [v|]; [intros [= <- <- <-]; simpl; lia|done].
Qed.

(** Reading an event takes it off the input, unless it is the end of the document. *)
Lemma read_event_size d : exists r, read_event d = Some r /\
  match r with
  | Ok (ev, d') => peeked d' = peeked d /\ size d' + match ev with DEof => 0 | _ => 1 end <= size d \/ next_slot d = Some DEof /\ ev = DEof /\ size d' < size d
  | Err _ => True
  end.
Proof.
  unfold read_event. destruct (next_slot d) as [ev|] eqn:Es.
  - eexists. split; [done|]. destruct ev; [left|left|left|right]; unfold size; rewrite Es; simpl; (split; [done|lia]) || (split_and!; done || lia).
  - destruct (read_inner (inner d)) as [[[ev q] slot]|e] eqn:E; [|by eexists]. apply read_inner_size in E.
    eexists. split; [done|]. left. split; [done|]. unfold size. rewrite Es. simpl. destruct (peeked d) as [[]|]; lia.
Qed.

Lemma next_event_size d : exists r, next_event d = Some r /\
  match r with Ok (ev, d') => size d' + match ev with DEof => 0 | _ => 1 end <= size d | Err _ => True end.
Proof.
  unfold next_event. destruct (peeked d) as [ev|] eqn:Ep.
  - eexists. split; [done|]. unfold size. rewrite Ep. simpl. destruct ev; lia.
  - destruct (read_event_size d) as (r & -> & Hr). eexists. split; [done|]. destruct r as [[ev d']|]; [|done].
    destruct Hr as [[_ Hr]|(_ & -> & Hr)]; lia.
Qed.

Lemma peek_event_size d : exists r, peek_event d = Some r /\
  match r with Ok (ev, d') => peeked d' = Some ev /\ size d' <= size d | Err _ => True end.
Proof.
  unfold peek_event. destruct (peeked d) as [ev|] eqn:Ep; [by eexists|].
  destruct (read_event_size d) as (r & -> & Hr). destruct r as [[ev d']|]; [|by eexists]. eexists. split; [done|]. split; [done|].
  destruct Hr as [[Hp Hr]|(_ & -> & Hr)]; unfold size in *; simpl.
  - rewrite Hp, Ep in Hr. destruct ev; simpl in *; lia.
  - rewrite Ep in *. destruct (peeked d') as [[]|]; lia.
Qed.

(** Loops whose turns go on only with less input return, and satisfy the equation of the loop. *)
Section Loop.
Context {S A : Type} (body : S -> De (S + A)) (Hbody : forall s, well_turn (body s)).

Lemma d_loop_fuel_enough n k s d : size d < n -> size d < k -> loop_fuel n body s d = loop_fuel k body s d.
Proof.
  revert k s d. induction n as [|n IH]; intros [|k] s d Hn Hk; [lia..|]. simpl.
  destruct (Hbody s d) as (r & -> & Hr). destruct r as [[[s'|a] d']|]; [|done|done]. apply IH; lia.
Qed.

Lemma d_loop_unfold s d :
  d_loop body s d = match body s d with
                    | Some (Ok (inl s', d')) => d_loop body s' d'
                    | Some (Ok (inr a, d')) => Some (Ok (a, d'))
                    | Some (Err e) => Some (Err e)
                    | None => None
                    end.
Proof.
  unfold d_loop at 1. cbn [loop_fuel]. destruct (Hbody s d) as (r & -> & Hr). destruct r as [[[s'|a] d']|]; [|done|done].
  apply d_loop_fuel_enough; lia.
Qed.

Lemma d_loop_well s : well (d_loop body s).
Proof.
  intros d. remember (size d) as n eqn:En. revert s d En. induction n as [n IH] using lt_wf_ind. intros s d ->.
  rewrite d_loop_unfold. destruct (Hbody s d) as (r & -> & Hr). destruct r as [[[s'|a] d']|]; [|by eexists|by eexists].
  destruct (IH (size d') Hr s' d' eq_refl) as (r & -> & Hr'). eexists. split; [done|]. destruct r as [[b d2]|]; [lia|done].
Qed.
End Loop.

(** A turn that leaves the loop. *)
Definition leaves {S A} (m : De (S + A)) : Prop :=
  forall d, exists r, m d = Some r /\ match r with Ok (inl _, _) => False | Ok (inr _, d') => size d' <= size d | Err _ => True end.

Lemma leaves_ret {S A} (a : A) : leaves (mret (inr a) : De (S + A)).
Proof. intros d. eexists. split; [done|]. simpl. lia. Qed.

Lemma leaves_throw {S A} e : leaves (throw e : De (S + A)).
Proof. intros d. by eexists. Qed.

Lemma leaves_bind {S A B} (m : De B) (k : B -> De (S + A)) : well m -> (forall b, leaves (k b)) -> leaves (m ≫= k).
Proof.
  intros Hm Hk d. unfold mbind, De_bind. destruct (Hm d) as ([[b d']|e] & -> & Hs); [|by eexists].
  destruct (Hk b d') as (r & -> & Hr). eexists. split; [done|]. destruct r as [[[s|a] d2]|]; [done|lia|done].
Qed.

Lemma well_turn_next {S A} (k : DeEvent -> De (S + A)) :
  (forall ev, match ev with DEof => leaves (k ev) | _ => well (k ev) end) -> well_turn (next_event ≫= k).
Proof.
  intros Hk d. unfold mbind, De_bind. destruct (next_event_size d) as (r & -> & Hr). destruct r as [[ev d']|]; [|by eexists].
  specialize (Hk ev). destruct ev; destruct (Hk d') as (r & -> & Hr'); eexists; (split; [done|]); destruct r as [[[s|a] d2]|]; done || lia.
Qed.

(** A turn that peeks either leaves the loop or consumes what it peeked. *)
Lemma well_turn_peek {S A} (k : DeEvent -> De (S + A)) :
  (forall ev, leaves (k ev) \/ ev <> DEof /\ exists m, k ev = (consume_peeked ≫= fun _ => m) /\ well m) -> well_turn (peek_event ≫= k).
Proof.
  intros Hk d. unfold mbind, De_bind. destruct (peek_event_size d) as (r & -> & Hr). destruct r as [[ev d']|]; [|by eexists].
  destruct Hr as [Hp Hr]. destruct (Hk ev) as [Hl|(Hne & m & -> & Hm)].
  - destruct (Hl d') as (r & -> & Hr'). eexists. split; [done|]. destruct r as [[[s|a] d2]|]; done || lia.
  - unfold mbind, De_bind, consume_peeked. destruct (Hm (set_peeked None d')) as (r & -> & Hr'). eexists. split; [done|].
    assert (Hs : size (set_peeked None d') < size d') by (unfold size; rewrite Hp; simpl; destruct ev; done || lia).
    destruct r as [[[s|a] d2]|]; done || lia.
Qed.

Lemma well_next : well next_event.
Proof. intros d. destruct (next_event_size d) as (r & -> & Hr). eexists. split; [done|]. destruct r as [[ev d']|]; [lia|done]. Qed.

#[export] Hint Resolve well_ret well_throw well_lift well_bind leaves_ret leaves_throw leaves_bind : de.

Lemma start_turn name s : well_turn (start_step name s).
Proof. apply well_turn_next. intros []; try case_match; auto with de. Qed.

Lemma start_any_turn names s : well_turn (start_any_step names s).
Proof. apply well_turn_next. intros []; try case_match; auto with de. Qed.

Lemma end_turn name s : well_turn (end_step name s).
Proof. apply well_turn_next. intros []; try case_match; auto with de. Qed.

Lemma eof_turn s : well_turn (eof_step s).
Proof. apply well_turn_next. intros []; auto with de. Qed.

Lemma expect_start_well name : well (expect_start name).
Proof. apply d_loop_well, start_turn. Qed.

Lemma expect_start_any_well names : well (expect_start_any names).
Proof. apply d_loop_well, start_any_turn. Qed.

Lemma expect_end_well name : well (expect_end name).
Proof. apply d_loop_well, end_turn. Qed.

Lemma expect_eof_well : well expect_eof.
Proof. apply d_loop_well, eof_turn. Qed.

#[export] Hint Resolve expect_start_well expect_start_any_well expect_end_well expect_eof_well : de.

Lemma named_element_well {A} name (f : De A) : well f -> well (named_element name f).
Proof. unfold named_element. auto 8 with de. Qed.

Lemma named_element_any_well {A} names (f : De A) : well f -> well (named_element_any names f).
Proof. unfold named_element_any. auto 8 with de. Qed.

Lemma each_turn {S} (f : S -> bytes -> BytesStart -> De S) s : (forall s x st, well (f s x st)) -> well_turn (each_step f s).
Proof.
  intros Hf. apply well_turn_peek. intros [st|n|t|]; [right|left|right|left]; [|by auto with de| |by auto with de]; (split; [done|]);
    eexists; (split; [done|]); auto 8 with de.
Qed.

Lemma for_each_element_with_start_well {S} (f : S -> bytes -> BytesStart -> De S) s :
  (forall s x st, well (f s x st)) -> well (for_each_element_with_start f s).
Proof. intros Hf. apply d_loop_well. intros s'. by apply each_turn. Qed.

Lemma for_each_element_well {S} (f : S -> bytes -> De S) s : (forall s x, well (f s x)) -> well (for_each_element f s).
Proof. intros Hf. by apply for_each_element_with_start_well. Qed.

Lemma element_turn {A} (f : bytes -> De A) s : (forall x, well (f x)) -> well_turn (element_step f s).
Proof.
  intros Hf. apply well_turn_peek. intros [st|n|t|]; [right|left|right|left]; [|by auto with de| |by auto with de]; (split; [done|]);
    eexists; (split; [done|]); auto 8 with de.
Qed.

Lemma element_well {A} (f : bytes -> De A) : (forall x, well (f x)) -> well (element f).
Proof. intros Hf. apply d_loop_well. intros s. by apply element_turn. Qed.

Lemma text_turn s : well_turn (text_step s).
Proof.
  apply well_turn_peek. intros [st|n|t|]; [right|left|right|left]; try (by case_match; auto with de); [| |]; try by auto with de.
  all: split; [done|]; eexists; (split; [done|]); auto with de.
Qed.

Lemma text_well {A} (f : bytes -> result DeError A) : well (text f).
Proof. unfold text. apply well_bind; [apply d_loop_well, text_turn|auto with de]. Qed.

Lemma skip_turn n : well_turn (skip_step n).
Proof.
  apply well_turn_peek. intros [st|x|t|].
  - right. split; [done|]. eexists. split; [done|]. auto with de.
  - destruct n; [left; auto with de|right]. split; [done|]. eexists. split; [done|]. auto with de.
  - right. split; [done|]. eexists. split; [done|]. auto with de.
  - left. auto with de.
Qed.

Lemma skip_element_content_well : well skip_element_content.
Proof. apply d_loop_well, skip_turn. Qed.

#[export] Hint Resolve named_element_well named_element_any_well for_each_element_with_start_well for_each_element_well element_well
  text_well skip_element_content_well : de.

Lemma list_content_well {T} (content : De T) name : well content -> well (list_content content name).
Proof. intros Hc. apply for_each_element_well. intros s x. case_match; auto with de. Qed.

Lemma de_timestamp_well `{TimeCrate} fmt : well (de_timestamp fmt).
Proof.
  intros d. unfold de_timestamp. destruct (text_well (fun s => Ok s) d) as (r & -> & Hr). destruct r as [[s d']|]; [|by eexists].
  destruct (parse_total fmt s) as [r ->]. destruct r; by eexists.
Qed.

#[export] Hint Resolve list_content_well de_timestamp_well : de.

(** ** What is still to be read *)

(** The events the deserializer makes of those of the reader. *)
Fixpoint de_stream (q : list (option QEvent)) : list (result DeError DeEvent) :=
  match q with
  | [] => []
  | None :: _ => [Err InvalidXml]
  | Some ev :: q' =>
      match ev with
      | QStart x => [Ok (DStart x)]
      | QEnd x => [Ok (DEnd x)]
      | QText x => [Ok (DText x)]
      | QEmpty x => [Ok (DStart x); Ok (DEnd (bs_name x))]
      | QGeneralRef name =>
          match (match resolve_xml_entity name with Some v => Some v | None => resolve_char_ref name end) with
          | Some value => [Ok (DText value)]
          | None => [Err InvalidContent]
          end
      | QComment | QCData _ | QDecl | QPI | QDocType => []
      end ++ de_stream q'
  end.

Definition behind (d : Deserializer) : list (result DeError DeEvent) :=
  match next_slot d with Some ev => [Ok ev] | None => [] end ++ de_stream (inner d).

(** The events [evs] are what [d] has still to give. *)
Definition upcoming (d : Deserializer) (evs : list (result DeError DeEvent)) : Prop :=
  match peeked d with
  | None => behind d = evs
  | Some DEof => behind d = [] /\ evs = []
  | Some ev => evs = Ok ev :: behind d
  end.

Lemma read_inner_cons q ev r : de_stream q = Ok ev :: r ->
  exists q' slot, read_inner q = Ok (ev, q', slot) /\ match slot with Some e => [Ok e] | None => [] end ++ de_stream q' = r.
Proof.
  induction q as [|[e|] q IH]; [done| |done]. destruct e; cbn [de_stream read_inner app]; try (intros [= <- <-]; eauto); try exact IH.
  destruct (resolve_xml_entity name); [|destruct (resolve_char_ref name); [|done]]; intros [= <- <-]; eauto.
Qed.

Lemma read_inner_nil q : de_stream q = [] -> read_inner q = Ok (DEof, [], None).
Proof.
  induction q as [|[e|] q IH]; [done| |done]. destruct e; cbn [de_stream read_inner app]; try done.
  destruct (resolve_xml_entity name); [done|]. by destruct (resolve_char_ref name).
Qed.

Lemma next_cons d ev r : upcoming d (Ok ev :: r) -> exists d', next_event d = Some (Ok (ev, d')) /\ upcoming d' r.
Proof.
  unfold upcoming, next_event, behind. destruct (peeked d) as [p|] eqn:Ep.
  - intros H. assert (E : Ok p = Ok ev :> result DeError DeEvent /\ behind d = r).
    { destruct p; try (by injection H as -> ->); by destruct H. }
    destruct E as [[= ->] <-]. eexists. by split.
  - unfold read_event. destruct (next_slot d) as [e|].
    + intros [= <- <-]. eexists. split; [done|]. simpl. rewrite Ep. by unfold behind.
    + intros H. apply read_inner_cons in H as (q' & slot & -> & <-). eexists. split; [done|]. simpl. rewrite Ep. by unfold behind.
Qed.

Lemma next_nil d : upcoming d [] -> exists d', next_event d = Some (Ok (DEof, d')) /\ upcoming d' [].
Proof.
  unfold upcoming, next_event. destruct (peeked d) as [p|] eqn:Ep.
  - destruct p; [done..|]. intros [H _]. eexists. by split.
  - unfold read_event, behind. destruct (next_slot d) as [e|]; [done|]. intros H. apply read_inner_nil in H as ->. eexists. split; [done|].
    simpl. by rewrite Ep.
Qed.

Lemma peek_cons d ev r : upcoming d (Ok ev :: r) -> ev <> DEof ->
  exists d', peek_event d = Some (Ok (ev, d')) /\ upcoming d' (Ok ev :: r) /\ upcoming (set_peeked None d') r.
Proof.
  intros Hu Hne. unfold peek_event. destruct (peeked d) as [p|] eqn:Ep.
  - unfold upcoming in Hu. rewrite Ep in Hu. assert (E : p = ev /\ behind d = r).
    { destruct p; try (by injection Hu as -> ->); by destruct Hu. }
    destruct E as [-> <-]. exists d. split; [done|]. split; [|done]. unfold upcoming. rewrite Ep. by destruct ev.
  - destruct (next_cons d ev r Hu) as (d' & E & Hd). unfold next_event in E. rewrite Ep in E. rewrite E.
    assert (Hp : peeked d' = None).
    { unfold read_event in E. destruct (next_slot d); [by injection E as _ <-|]. destruct (read_inner _) as [[[? ?] ?]|]; [|done].
      by injection E as _ <-. }
    eexists. split; [done|]. unfold upcoming in *. rewrite Hp in Hd. simpl. split; [by destruct ev; rewrite <- Hd|by rewrite <- Hd].
Qed.

Lemma peek_nil d : upcoming d [] -> exists d', peek_event d = Some (Ok (DEof, d')) /\ upcoming d' [].
Proof.
  intros Hu. unfold peek_event. destruct (peeked d) as [p|] eqn:Ep.
  - unfold upcoming in Hu. rewrite Ep in Hu. destruct p; [done..|]. exists d. split; [done|]. unfold upcoming. by rewrite Ep.
  - destruct (next_nil d Hu) as (d' & E & Hd). unfold next_event in E. rewrite Ep in E. rewrite E. eexists. split; [done|].
    assert (Hp : peeked d' = None).
    { unfold read_event in E. destruct (next_slot d); [by injection E as _ <-|]. destruct (read_inner _) as [[[? ?] ?]|]; [|done].
      by injection E as _ <-. }
    unfold upcoming in Hd |- *. by rewrite Hp in Hd.
Qed.

(** ** Reading *)

(** [m] reads the content [evs] of an element, up to its end tag, as [a]. *)
Definition reads {A} (m : De A) (evs : list DeEvent) (a : A) : Prop :=
  forall d n tl, upcoming d (map Ok evs ++ Ok (DEnd n) :: tl) ->
  exists d', m d = Some (Ok (a, d')) /\ upcoming d' (Ok (DEnd n) :: tl).

Lemma bind_run {A B} (m : De A) (k : A -> De B) d a d' : m d = Some (Ok (a, d')) -> (m ≫= k) d = k a d'.
Proof. unfold mbind, De_bind. by intros ->. Qed.

Lemma reads_bind {A B} (m : De A) (k : A -> B) evs a : reads m evs a -> reads (x ← m; mret (k x)) evs (k a).
Proof. intros Hm d n tl Hu. destruct (Hm d n tl Hu) as (d' & E & Hd). exists d'. split; [|done]. by rewrite (bind_run _ _ _ _ _ E). Qed.

(** The loops, when the next event is known. *)
Lemma expect_end_cons d n tl : upcoming d (Ok (DEnd n) :: tl) -> exists d', expect_end n d = Some (Ok (tt, d')) /\ upcoming d' tl.
Proof.
  intros Hu. destruct (next_cons _ _ _ Hu) as (d' & E & Hd). exists d'. split; [|done].
  unfold expect_end. rewrite d_loop_unfold by apply end_turn. unfold end_step. rewrite (bind_run _ _ _ _ _ E).
  by rewrite bool_decide_eq_true_2.
Qed.

Lemma expect_start_cons d x tl : upcoming d (Ok (DStart x) :: tl) ->
  exists d', expect_start (bs_name x) d = Some (Ok (tt, d')) /\ upcoming d' tl.
Proof.
  intros Hu. destruct (next_cons _ _ _ Hu) as (d' & E & Hd). exists d'. split; [|done].
  unfold expect_start. rewrite d_loop_unfold by apply start_turn. unfold start_step. rewrite (bind_run _ _ _ _ _ E).
  by rewrite bool_decide_eq_true_2.
Qed.

Lemma expect_eof_nil d : upcoming d [] -> exists d', expect_eof d = Some (Ok (tt, d')).
Proof.
  intros Hu. destruct (next_nil _ Hu) as (d' & E & Hd). exists d'.
  unfold expect_eof. rewrite d_loop_unfold by apply eof_turn. unfold eof_step. by rewrite (bind_run _ _ _ _ _ E).
Qed.

(** An element read by name. *)
Lemma named_element_cons {A} (f : De A) x evs a d tl :
  reads f evs a -> upcoming d (Ok (DStart x) :: map Ok evs ++ Ok (DEnd (bs_name x)) :: tl) ->
  exists d', named_element (bs_name x) f d = Some (Ok (a, d')) /\ upcoming d' tl.
Proof.
  intros Hf Hu. destruct (expect_start_cons _ _ _ Hu) as (d1 & E1 & H1). destruct (Hf _ _ _ H1) as (d2 & E2 & H2).
  destruct (expect_end_cons _ _ _ H2) as (d3 & E3 & H3). exists d3. split; [|done]. unfold named_element.
  rewrite (bind_run _ _ _ _ _ E1), (bind_run _ _ _ _ _ E2). by rewrite (bind_run _ _ _ _ _ E3).
Qed.

Lemma named_element_any_cons {A} names (f : De A) x evs a d tl :
  bs_name x ∈ names ->
  reads f evs a -> upcoming d (Ok (DStart x) :: map Ok evs ++ Ok (DEnd (bs_name x)) :: tl) ->
  exists d', named_element_any names f d = Some (Ok (a, d')) /\ upcoming d' tl.
Proof.
  intros Hin Hf Hu. destruct (next_cons _ _ _ Hu) as (d1 & E1 & H1).
  assert (Hs : expect_start_any names d = Some (Ok (bs_name x, d1))).
  { unfold expect_start_any. rewrite d_loop_unfold by apply start_any_turn. unfold start_any_step. rewrite (bind_run _ _ _ _ _ E1).
    destruct (List.find _ names) as [n|] eqn:E.
    - apply List.find_some in E as [_ E]. apply bool_decide_eq_true in E as ->. done.
    - apply list_elem_of_In in Hin. apply (List.find_none _ _ E) in Hin. by apply bool_decide_eq_false in Hin. }
  destruct (Hf _ _ _ H1) as (d2 & E2 & H2).
  destruct (expect_end_cons _ _ _ H2) as (d3 & E3 & H3). exists d3. split; [|done]. unfold named_element_any.
  rewrite (bind_run _ _ _ _ _ Hs), (bind_run _ _ _ _ _ E2). by rewrite (bind_run _ _ _ _ _ E3).
Qed.

(** Text is read as the concatenation of its pieces. *)
Lemma text_loop ts buf d n tl :
  upcoming d (map Ok (map DText ts) ++ Ok (DEnd n) :: tl) ->
  exists d', d_loop text_step buf d = Some (Ok (match ts with [] => buf | _ => Some (default [] buf ++ concat ts) end, d')) /\
    upcoming d' (Ok (DEnd n) :: tl).
Proof.
  revert buf d. induction ts as [|t ts IH]; intros buf d Hu; rewrite d_loop_unfold by apply text_turn; unfold text_step at 1.
  - destruct (peek_cons _ _ _ Hu ltac:(done)) as (d' & E & Hd & _). rewrite (bind_run _ _ _ _ _ E). by exists d'.
  - destruct (peek_cons _ _ _ Hu ltac:(done)) as (d1 & E & _ & Hd). rewrite (bind_run _ _ _ _ _ E).
    rewrite (bind_run consume_peeked _ d1 tt (set_peeked None d1) eq_refl). cbn [mret De_ret].
    unfold mret, De_ret. destruct (IH (Some (match buf with None => t | Some b => b ++ t end)) _ Hd) as (d' & -> & Hd'). exists d'. split; [|done].
    destruct buf, ts; simpl; by rewrite ?app_nil_r, <- ?app_assoc.
Qed.

Lemma text_reads {A} (f : bytes -> result DeError A) ts a : f (concat ts) = Ok a -> reads (text f) (map DText ts) a.
Proof.
  intros Hf d n tl Hu. destruct (text_loop ts None d n tl Hu) as (d' & E & Hd). exists d'. split; [|done]. unfold text.
  rewrite (bind_run _ _ _ _ _ E). unfold de_lift. destruct ts; simpl in *; by rewrite Hf.
Qed.

(** *** Elements one after the other *)

(** [f] reads the elements [evs] one by one, from the state [s] to the state [s']. *)
Definition parses {S} (f : S -> bytes -> BytesStart -> De S) (s : S) (evs : list DeEvent) (s' : S) : Prop :=
  reads (for_each_element_with_start f s) evs s'.

Section Each.
Context {S : Type} (f : S -> bytes -> BytesStart -> De S) (Hf : forall s x st, well (f s x st)).

Lemma parses_nil s : parses f s [] s.
Proof.
  intros d n tl Hu. unfold for_each_element_with_start. rewrite d_loop_unfold by (intros; by apply each_turn). unfold each_step at 1.
  destruct (peek_cons _ _ _ Hu ltac:(done)) as (d' & E & Hd & _). rewrite (bind_run _ _ _ _ _ E). by exists d'.
Qed.

Lemma parses_cons s st body s1 evs s2 :
  reads (f s (bs_name st) st) body s1 -> parses f s1 evs s2 -> parses f s (DStart st :: body ++ DEnd (bs_name st) :: evs) s2.
Proof.
  intros Hb He d n tl Hu. unfold for_each_element_with_start. rewrite d_loop_unfold by (intros; by apply each_turn). unfold each_step at 1.
  cbn [map app] in Hu. rewrite map_app, <- app_assoc in Hu.
  destruct (peek_cons _ _ _ Hu ltac:(done)) as (d1 & E & _ & H1). rewrite (bind_run _ _ _ _ _ E). rewrite (bind_run consume_peeked _ d1 tt (set_peeked None d1) eq_refl).
  destruct (Hb _ _ _ H1) as (d2 & E2 & H2). rewrite (bind_run _ _ _ _ _ E2).
  destruct (expect_end_cons _ _ _ H2) as (d3 & E3 & H3). rewrite (bind_run _ _ _ _ _ E3). cbn [mret De_ret]. apply (He _ _ _ H3).
Qed.

(** One element at the end of the input. *)
Lemma for_each_one s st body s1 d :
  reads (f s (bs_name st) st) body s1 -> upcoming d (Ok (DStart st) :: map Ok body ++ [Ok (DEnd (bs_name st))]) ->
  exists d', for_each_element_with_start f s d = Some (Ok (s1, d')) /\ upcoming d' [].
Proof.
  intros Hb Hu. unfold for_each_element_with_start. rewrite d_loop_unfold by (intros; by apply each_turn). unfold each_step at 1.
  destruct (peek_cons _ _ _ Hu ltac:(done)) as (d1 & E & _ & H1). rewrite (bind_run _ _ _ _ _ E). rewrite (bind_run consume_peeked _ d1 tt (set_peeked None d1) eq_refl).
  destruct (Hb _ _ _ H1) as (d2 & E2 & H2). rewrite (bind_run _ _ _ _ _ E2).
  destruct (expect_end_cons _ _ _ H2) as (d3 & E3 & H3). rewrite (bind_run _ _ _ _ _ E3). cbn [mret De_ret].
  rewrite d_loop_unfold by (intros; by apply each_turn). unfold each_step at 1.
  destruct (peek_nil _ H3) as (d4 & E4 & H4). rewrite (bind_run _ _ _ _ _ E4). by exists d4.
Qed.

(** Text between elements is ignored. *)
Lemma parses_text s t evs s2 : parses f s evs s2 -> parses f s (DText t :: evs) s2.
Proof.
  intros He d n tl Hu. unfold for_each_element_with_start. rewrite d_loop_unfold by (intros; by apply each_turn). unfold each_step at 1.
  destruct (peek_cons _ _ _ Hu ltac:(done)) as (d1 & E & _ & H1). rewrite (bind_run _ _ _ _ _ E). apply (He _ _ _ H1).
Qed.
End Each.

(** *** Skipping *)

(** The content of an element: texts and elements. *)
Inductive forest : list DeEvent -> Prop :=
| forest_nil : forest []
| forest_text t evs : forest evs -> forest (DText t :: evs)
| forest_elem x n body evs : forest body -> forest evs -> forest (DStart x :: body ++ DEnd n :: evs).

Lemma skip_loop evs : forest evs -> forall depth d n tl r,
  upcoming d (map Ok evs ++ Ok (DEnd n) :: tl) ->
  (forall d', upcoming d' (Ok (DEnd n) :: tl) -> exists d2, d_loop skip_step depth d' = Some (Ok (tt, d2)) /\ r d2) ->
  exists d2, d_loop skip_step depth d = Some (Ok (tt, d2)) /\ r d2.
Proof.
  induction 1 as [|t evs _ IH|x m body evs _ IHb _ IHe]; intros depth d n tl r Hu Hk; [by apply Hk| |].
  - rewrite d_loop_unfold by apply skip_turn. unfold skip_step at 1.
    destruct (peek_cons _ _ _ Hu ltac:(done)) as (d1 & E & _ & H1). rewrite (bind_run _ _ _ _ _ E). by apply (IH _ _ n tl).
  - rewrite d_loop_unfold by apply skip_turn. unfold skip_step at 1. cbn [map app] in Hu. rewrite map_app, <- app_assoc in Hu.
    destruct (peek_cons _ _ _ Hu ltac:(done)) as (d1 & E & _ & H1). rewrite (bind_run _ _ _ _ _ E).
    apply (IHb _ _ m (map Ok evs ++ Ok (DEnd n) :: tl)); [done|]. intros d' Hd'. rewrite d_loop_unfold by apply skip_turn. unfold skip_step at 1.
    destruct (peek_cons _ _ _ Hd' ltac:(done)) as (d2 & E2 & _ & H2). rewrite (bind_run _ _ _ _ _ E2). by apply (IHe _ _ n tl).
Qed.

Lemma skip_reads evs : forest evs -> reads skip_element_content evs tt.
Proof.
  intros Hf d n tl Hu. apply (skip_loop evs Hf 0 d n tl (fun d' => upcoming d' (Ok (DEnd n) :: tl)) Hu). intros d' Hd.
  rewrite d_loop_unfold by apply skip_turn. unfold skip_step at 1.
  destruct (peek_cons _ _ _ Hd ltac:(done)) as (d2 & E2 & Hd2 & _). rewrite (bind_run _ _ _ _ _ E2). by exists d2.
Qed.

(** ** Writing, then reading *)

(** The pieces a written text is read as. *)
Fixpoint text_pieces (t : bytes) : list bytes :=
  match t with
  | [] => []
  | c :: t' =>
      match entity_of c with
      | Some _ => [c] :: text_pieces t'
      | None =>
          match t' with
          | d :: _ => match entity_of d with
                      | None => match text_pieces t' with run :: ps => (c :: run) :: ps | [] => [[c]] end
                      | Some _ => [c] :: text_pieces t'
                      end
          | [] => [[c]]
          end
      end
  end.

Lemma text_pieces_nonempty t : t <> [] -> text_pieces t <> [].
Proof. destruct t as [|c [|d t]]; [done| |]; intros _; cbn [text_pieces]; repeat case_match; done. Qed.

Lemma text_pieces_concat t : concat (text_pieces t) = t.
Proof.
  induction t as [|c t IH]; [done|]. cbn [text_pieces]. destruct (entity_of c); [cbn [concat app]; by rewrite IH|].
  destruct t as [|d t]; [done|]. destruct (entity_of d); [cbn [concat app]; by rewrite IH|].
  destruct (text_pieces (d :: t)) as [|run ps]; [by apply (f_equal length) in IH|]. cbn [concat app] in *. by rewrite IH.
Qed.

Lemma entity_resolves c name : entity_of c = Some name -> resolve_xml_entity name = Some [c].
Proof. destruct c; try done; by intros [= <-]. Qed.

(** The head of the events of a text is a run exactly when its first byte is not escaped. *)
Lemma text_events_head c t : entity_of c = None -> exists run es, text_events (c :: t) = QText run :: es.
Proof. intros E. cbn [text_events]. rewrite E. destruct (text_events t) as [|[] es]; eauto. Qed.

Lemma text_events_head_ref c t name : entity_of c = Some name -> text_events (c :: t) = QGeneralRef name :: text_events t.
Proof. intros E. cbn [text_events]. by rewrite E. Qed.

Lemma de_stream_app es q : de_stream (map Some es ++ q) = de_stream (map Some es) ++ de_stream q \/ exists e, In (Err e) (de_stream (map Some es)).
Proof.
  induction es as [|e es IH]; [by left|]. cbn [map app de_stream].
  assert (Hcons : forall l, de_stream (map Some es ++ q) = de_stream (map Some es) ++ de_stream q \/ (exists e0, In (Err e0) (de_stream (map Some es))) ->
    l ++ de_stream (map Some es ++ q) = (l ++ de_stream (map Some es)) ++ de_stream q \/ exists e0, In (Err e0) (l ++ de_stream (map Some es))).
  { intros l [->|[e0 He0]]; [left; by rewrite app_assoc|right; exists e0; apply in_or_app; by right]. }
  destruct e; apply Hcons; exact IH.
Qed.

Lemma text_stream t : de_stream (map Some (text_events t)) = map Ok (map DText (text_pieces t)).
Proof.
  induction t as [|c t IH]; [done|]. destruct (entity_of c) as [name|] eqn:E.
  - rewrite (text_events_head_ref _ _ _ E). cbn [text_pieces map de_stream]. rewrite E, (entity_resolves _ _ E), IH. done.
  - cbn [text_events text_pieces]. rewrite E. destruct t as [|d t]; [done|]. destruct (entity_of d) as [name|] eqn:Ed.
    + rewrite (text_events_head_ref _ _ _ Ed) in *. cbn [map de_stream] in *. rewrite IH. done.
    + destruct (text_events_head d t Ed) as (run & es & Et). rewrite Et in *. cbn [map de_stream app] in *.
      destruct (text_pieces (d :: t)) as [|r ps]; [done|]. injection IH as -> IH. cbn [map]. by rewrite IH.
Qed.

(** The deserializer's events of what was written. *)
Definition out_devents (o : Out) : list DeEvent :=
  match o with
  | ODecl => []
  | OStart n a => [DStart {| bs_name := n; bs_attributes := map (fun kv => Some (fst kv, Some (snd kv))) a |}]
  | OEnd n => [DEnd n]
  | OText t => map DText (text_pieces t)
  | ORaw r => [DText r]
  end.

Definition devs (os : list Out) : list DeEvent := concat (map out_devents os).

Lemma devs_app os ps : devs (os ++ ps) = devs os ++ devs ps.
Proof. unfold devs. by rewrite map_app, concat_app. Qed.

Lemma out_stream o : de_stream (map Some (out_events o)) = map Ok (out_devents o).
Proof. destruct o; try done. apply text_stream. Qed.

Lemma devs_stream os : de_stream (map Some (concat (map out_events os))) = map Ok (devs os).
Proof.
  induction os as [|o os IH]; [done|]. cbn [map concat]. unfold devs in *. cbn [map concat]. rewrite !map_app.
  destruct (de_stream_app (out_events o) (map Some (concat (map out_events os)))) as [->|[e He]]; [by rewrite out_stream, IH|].
  rewrite out_stream in He. apply in_map_iff in He as (? & ? & _). done.
Qed.

(** What a serializer may write in an element; [true] for elements only. *)
Inductive out_ok : bool -> list Out -> Prop :=
| ok_text t : utf8_valid t = true -> out_ok false [OText t]
| ok_raw r : raw_ok r = true -> out_ok false [ORaw r]
| ok_nil b : out_ok b []
| ok_elem b n a body os : name_ok n = true -> attrs_ok a = true -> out_ok false body -> out_ok true os ->
    out_ok b (OStart n a :: body ++ OEnd n :: os).

Lemma out_ok_weaken b os : out_ok true os -> out_ok b os.
Proof. inversion 1; subst; by constructor. Qed.

Lemma out_ok_app os ps : out_ok true os -> out_ok true ps -> out_ok true (os ++ ps).
Proof.
  remember true as b eqn:Eb. intros Hos Hps. revert Eb. induction Hos as [| |b|b n a body os Hn Ha Hb _ Ho IH]; try done. intros ->.
  cbn [app]. rewrite <- app_assoc. cbn [app]. constructor; auto.
Qed.

Lemma out_ok_elem n a body : name_ok n = true -> attrs_ok a = true -> out_ok false body -> out_ok true (OStart n a :: body ++ [OEnd n]).
Proof. intros. by constructor; [..|constructor]. Qed.

Lemma out_ok_nested b os : out_ok b os -> forall stack rest,
  (b = true -> well_nested stack false (os ++ rest) = well_nested stack false rest) /\
  (forall n, well_nested stack false (os ++ OEnd n :: rest) = well_nested stack false (OEnd n :: rest)).
Proof.
  induction 1 as [t Ht|r Hr|b|b n a body os Hn Ha Hb IHb Ho IHo]; intros stack rest.
  - split; [done|]. intros n. cbn [app well_nested negb]. by rewrite Ht.
  - split; [done|]. intros n. cbn [app well_nested negb]. by rewrite Hr.
  - done.
  - assert (E : forall rest, well_nested stack false ((OStart n a :: body ++ OEnd n :: os) ++ rest) = well_nested stack false (os ++ rest)).
    { intros rest0. cbn [app well_nested]. rewrite Hn, Ha, <- app_assoc. cbn [andb app]. rewrite (proj2 (IHb (n :: stack) (os ++ rest0)) n).
      cbn [well_nested]. by rewrite bool_decide_eq_true_2. }
    split; intros; rewrite E; by apply IHo.
Qed.

(** ** Round trips *)

(** What [ser] writes for a value of [wf] is read back by [de]. *)
Class RoundTrip {T} (ser : T -> Ser) (de : De T) (wf : T -> Prop) : Prop :=
  round_trip : forall v, wf v -> exists os, ser v = Some os /\ out_ok false os /\ reads de (devs os) v.

Lemma element_writes n a f os : name_ok n = true -> attrs_ok a = true -> f = Some os -> out_ok false os ->
  exists ps, s_seq [s_event (OStart n a); f; s_event (OEnd n)] = Some ps /\ out_ok true ps /\
    devs ps = DStart {| bs_name := n; bs_attributes := map (fun kv => Some (fst kv, Some (snd kv))) a |} :: devs os ++ [DEnd n].
Proof.
  intros Hn Ha -> Hos. exists (OStart n a :: os ++ [OEnd n]). split; [done|]. split; [by apply out_ok_elem|].
  change (OStart n a :: os ++ [OEnd n]) with ([OStart n a] ++ os ++ [OEnd n]). by rewrite !devs_app.
Qed.

Lemma reads_ext {A} (m m' : De A) evs a : (forall d, m d = m' d) -> reads m' evs a -> reads m evs a.
Proof. intros E Hr d n tl Hu. rewrite E. by apply Hr. Qed.

(** *** Texts *)

Lemma text_rt {T} (ser : T -> Ser) (show : T -> bytes) (f : bytes -> result DeError T) (wf : T -> Prop) :
  (forall v, ser v = ser_str (show v)) -> (forall v, wf v -> utf8_valid (show v) = true /\ f (show v) = Ok v) -> RoundTrip ser (text f) wf.
Proof.
  intros Hs Hf v Hv. destruct (Hf v Hv) as [Hu Hr]. exists [OText (show v)]. rewrite Hs. split; [done|]. split; [by constructor|].
  unfold devs. cbn [map concat out_devents]. rewrite app_nil_r. apply text_reads. by rewrite text_pieces_concat.
Qed.

(** The values that can be written and read back. *)
Definition string_wf (s : bytes) : Prop := utf8_valid s = true.
Definition bool_wf (_ : bool) : Prop := True.
Definition i32_wf (n : Z) : Prop := (i32_min <= n <= i32_max)%Z.
Definition i64_wf (n : Z) : Prop := (i64_min <= n <= i64_max)%Z.

#[global] Instance string_rt : RoundTrip ser_str de_string string_wf.
Proof. by apply (text_rt _ id). Qed.

#[global] Instance bool_rt : RoundTrip ser_bool de_bool bool_wf.
Proof. apply (text_rt _ fmt_boolean); [done|]. by intros []. Qed.

Lemma fmt_dec_ascii n : (0 <= n)%Z -> forallb is_ascii (fmt_dec n) = true.
Proof.
  intros Hn. destruct (fmt_dec_value n Hn) as [Hv _]. apply dec_value_digits in Hv. revert Hv. apply forallb_impl. intros c. by destruct c.
Qed.

Lemma fmt_signed_ascii n : forallb is_ascii (fmt_signed n) = true.
Proof. unfold fmt_signed. destruct (n <? 0)%Z eqn:E; reflect_bools; cbn [forallb]; by rewrite fmt_dec_ascii by lia. Qed.

Section Numbers.
Context `{AtoiSigned}.

#[global] Instance i32_rt : RoundTrip ser_i32 de_i32 i32_wf.
Proof.
  apply (text_rt _ fmt_signed); [done|]. intros n Hn. split; [apply ascii_utf8, fmt_signed_ascii|].
  rewrite atoi_signed_spec; [done|done|by vm_compute].
Qed.

#[global] Instance i64_rt : RoundTrip ser_i64 de_i64 i64_wf.
Proof.
  apply (text_rt _ fmt_signed); [done|]. intros n Hn. split; [apply ascii_utf8, fmt_signed_ascii|].
  rewrite atoi_signed_spec; [done|done|by vm_compute].
Qed.
End Numbers.

(** The timestamps a format can express. *)
Definition timestamp_wf (fmt : TimestampFormat) (t : Timestamp) : Prop :=
  valid_time t = true /\ dt_offset t = 0%Z /\
  match fmt with DateTime => (dt_nanosecond t mod 1000000 = 0)%Z | HttpDate => dt_nanosecond t = 0%Z | EpochSeconds => False end.

#[global] Instance timestamp_rt `{TimeCrate} fmt : RoundTrip (ser_timestamp fmt) (de_timestamp fmt) (timestamp_wf fmt).
Proof.
  intros t (Hv & Ho & Hf).
  assert (exists s, fmt_timestamp t fmt = Some s /\ forallb is_ascii s = true /\ Timestamp_parse fmt s = Some (Ok t)) as (s & Es & Ha & Ep).
  { destruct fmt; [| |done].
    - exists (RFC3339 t). rewrite fmt_date_time by done. split; [done|]. split; [by apply rfc3339_shape|]. simpl.
      rewrite parse_rfc3339_utc by done. by destruct t; simpl in *; subst.
    - destruct (rfc1123_spec t Hv Ho Hf) as (s & Hs & Hl & Ha & Hp). exists s. unfold fmt_timestamp. simpl. rewrite Hs. simpl.
      unfold array_string. rewrite Hl. split; [done|]. split; [done|]. by rewrite Hp. }
  exists [OText s]. unfold ser_timestamp. rewrite Es. simpl. rewrite Ha. split; [done|]. split; [constructor; by apply ascii_utf8|].
  intros d n tl Hu. unfold devs in Hu. cbn [map concat out_devents] in Hu. rewrite app_nil_r in Hu.
  destruct (text_reads (fun s => Ok s) (text_pieces s) s ltac:(by rewrite text_pieces_concat) d n tl Hu) as (d' & E & Hd). exists d'. split; [|done].
  unfold de_timestamp. by rewrite E, Ep.
Qed.

(** *** Lists of elements *)

Definition ser_members {T} (ser : T -> Ser) (member : bytes) (l : list T) : Ser := s_seq (map (s_content ser member) l).

Lemma devs_elem n a os : devs (OStart n a :: os ++ [OEnd n]) =
  DStart {| bs_name := n; bs_attributes := map (fun kv => Some (fst kv, Some (snd kv))) a |} :: devs os ++ [DEnd n].
Proof. change (OStart n a :: os ++ [OEnd n]) with ([OStart n a] ++ os ++ [OEnd n]). by rewrite !devs_app. Qed.

(** *** Structures *)

(** What the serializer writes for a field is read by [f] from the state [s] to the state [s']. *)
Definition field {S} (f : S -> bytes -> BytesStart -> De S) (s : S) (x : Ser) (s' : S) : Prop :=
  exists os, x = Some os /\ out_ok true os /\ forall evs s2, parses f s' evs s2 -> parses f s (devs os ++ evs) s2.

Inductive fields {S} (f : S -> bytes -> BytesStart -> De S) : S -> list Ser -> S -> Prop :=
| fields_nil s : fields f s [] s
| fields_cons s x s1 xs s2 : field f s x s1 -> fields f s1 xs s2 -> fields f s (x :: xs) s2.

Section Struct.
Context {S : Type} (f : S -> bytes -> BytesStart -> De S) (Hf : forall s x st, well (f s x st)).

Lemma fields_parse s xs s' : fields f s xs s' -> exists os, s_seq xs = Some os /\ out_ok true os /\ parses f s (devs os) s'.
Proof.
  induction 1 as [s|s x s1 xs s2 (os & -> & Hos & Hp) _ (ps & E & Hps & IH)].
  - exists []. split; [done|]. split; [constructor|]. by apply parses_nil.
  - exists (os ++ ps). cbn [s_seq]. rewrite E. split; [done|]. split; [by apply out_ok_app|]. rewrite devs_app. by apply Hp.
Qed.

(** A structure is read when its fields are, one after the other. *)
Lemma struct_rt {T} (ser : T -> Ser) (de : De T) (v : T) (s0 s1 : S) (finish : S -> De T) xs :
  ser v = s_seq xs -> (forall d, de d = (for_each_element_with_start f s0 ≫= finish) d) -> fields f s0 xs s1 ->
  (forall d, finish s1 d = Some (Ok (v, d))) -> exists os, ser v = Some os /\ out_ok false os /\ reads de (devs os) v.
Proof.
  intros Hs Hde Hfs Hfin. destruct (fields_parse _ _ _ Hfs) as (os & E & Hos & Hp). exists os. rewrite Hs. split; [done|].
  split; [by apply out_ok_weaken|]. intros d n tl Hu. destruct (Hp d n tl Hu) as (d' & Er & Hd). exists d'. split; [|done].
  by rewrite Hde, (bind_run _ _ _ _ _ Er), Hfin.
Qed.

Section Field.
Context {T : Type} (ser : T -> Ser) (de : De T) (wf : T -> Prop) `{!RoundTrip ser de wf}.

(** An element with attributes. *)
Lemma field_attrs n a s v s1 :
  name_ok n = true -> attrs_ok a = true -> wf v ->
  (forall evs, reads de evs v -> reads (f s n {| bs_name := n; bs_attributes := map (fun kv => Some (fst kv, Some (snd kv))) a |}) evs s1) ->
  field f s (s_content_with_attrs ser n a v) s1.
Proof.
  intros Hn Ha Hv Hr. destruct (round_trip v Hv) as (os & E & Hos & Hd). unfold s_content_with_attrs, s_element_with_attrs.
  destruct (element_writes n a (ser v) os Hn Ha E Hos) as (ps & Ep & Hps & Hdp). exists ps. split; [done|]. split; [done|].
  intros evs s2 Hp. rewrite Hdp. cbn [app]. rewrite <- app_assoc.
  apply (parses_cons f Hf s {| bs_name := n; bs_attributes := _ |} (devs os) s1 evs s2); [by apply Hr|done].
Qed.

Lemma field_content n s v (k : T -> S) :
  name_ok n = true -> wf v -> (forall st d, f s n st d = (x ← de; mret (k x)) d) -> field f s (s_content ser n v) (k v).
Proof.
  intros Hn Hv Hk. apply (field_attrs n [] s v); [done|done|done|]. intros evs Hr.
  apply (reads_ext _ (x ← de; mret (k x))); [done|]. by apply reads_bind.
Qed.

(** A required and an optional field, which the state [s] has not seen yet. *)
Lemma field_req n v (k : option T -> S) :
  name_ok n = true -> wf v -> (forall st d, f (k None) n st d = (x ← de; mret (k (Some x))) d) -> field f (k None) (s_content ser n v) (k (Some v)).
Proof. intros Hn Hv Hk. by apply (field_content n (k None) v (fun x => k (Some x))). Qed.

Lemma field_opt n (v : option T) (k : option T -> S) :
  name_ok n = true -> from_option wf True v -> (forall st d, f (k None) n st d = (x ← de; mret (k (Some x))) d) ->
  field f (k None) (if_some v (s_content ser n)) (k v).
Proof.
  intros Hn Hv Hk. destruct v as [v|]; [by apply field_req|]. exists []. split; [done|]. split; [constructor|done].
Qed.

(** A flattened list: one element per member, appended to what was read. *)
Lemma field_flat_from n l (k : option (list T) -> S) (l0 : list T) :
  name_ok n = true -> Forall wf l -> (forall o st d, f (k o) n st d = (x ← de; mret (k (Some (default [] o ++ [x])))) d) ->
  field f (k (Some l0)) (s_flattened_list ser n l) (k (Some (l0 ++ l))).
Proof.
  intros Hn Hl Hk. unfold s_flattened_list. revert l0. induction Hl as [|v l Hv _ IH]; intros l0.
  - exists []. rewrite app_nil_r. split; [done|]. split; [constructor|done].
  - destruct (field_content n (k (Some l0)) v (fun x => k (Some (l0 ++ [x]))) Hn Hv) as (os & E & Hos & Hp); [intros st d; by rewrite Hk|].
    destruct (IH (l0 ++ [v])) as (ps & E' & Hps & Hp'). exists (os ++ ps). cbn [map s_seq]. rewrite E, E'. split; [done|].
    split; [by apply out_ok_app|]. intros evs s2 Hs. rewrite devs_app, <- app_assoc. apply Hp, Hp'. by rewrite <- app_assoc.
Qed.

Lemma field_flat_req n l (k : option (list T) -> S) :
  name_ok n = true -> Forall wf l -> l <> [] -> (forall o st d, f (k o) n st d = (x ← de; mret (k (Some (default [] o ++ [x])))) d) ->
  field f (k None) (s_flattened_list ser n l) (k (Some l)).
Proof.
  intros Hn Hl Hne Hk. destruct Hl as [|v l Hv Hl]; [done|].
  destruct (field_content n (k None) v (fun x => k (Some [x])) Hn Hv) as (os & E & Hos & Hp); [intros st d; by rewrite Hk|].
  destruct (field_flat_from n l k [v] Hn Hl Hk) as (ps & E' & Hps & Hp').
  exists (os ++ ps). unfold s_flattened_list in *. cbn [map s_seq]. rewrite E, E'. split; [done|]. split; [by apply out_ok_app|].
  intros evs s2 Hs. rewrite devs_app, <- app_assoc. by apply Hp, Hp'.
Qed.

Lemma field_flat_opt n (v : option (list T)) (k : option (list T) -> S) :
  name_ok n = true -> from_option (fun l => Forall wf l /\ l <> []) True v ->
  (forall o st d, f (k o) n st d = (x ← de; mret (k (Some (default [] o ++ [x])))) d) ->
  field f (k None) (if_some v (s_flattened_list ser n)) (k v).
Proof.
  intros Hn Hv Hk. destruct v as [l|]; [destruct Hv; by apply field_flat_req|]. exists []. split; [done|]. split; [constructor|done].
Qed.
End Field.
End Struct.

(** A list in an element of its own. *)
Lemma members_rt {T} (ser : T -> Ser) (de : De T) (wf : T -> Prop) member :
  RoundTrip ser de wf -> name_ok member = true -> well de ->
  RoundTrip (ser_members ser member) (list_content de member) (Forall wf).
Proof.
  intros Hrt Hm Hw l Hl.
  set (f := fun (acc : list T) (x : bytes) (_ : BytesStart) =>
    if x <>? member then skip_element_content;; mret acc else v ← de; mret (acc ++ [v])).
  assert (Hf : forall s x st, well (f s x st)) by (intros; unfold f; case_match; auto with de).
  assert (Hfs : fields f [] (map (s_content ser member) l) l).
  { change l with ([] ++ l) at 2. generalize (@nil T) as acc. induction Hl as [|v l Hv Hl IH]; intros acc; [rewrite app_nil_r; constructor|].
    cbn [map]. apply (fields_cons f acc _ (acc ++ [v])).
    - apply (field_content f Hf ser de wf member acc v (fun x => acc ++ [x]) Hm Hv). intros st d. unfold f. by rewrite bool_decide_eq_true_2.
    - replace (acc ++ v :: l) with ((acc ++ [v]) ++ l) by (by rewrite <- app_assoc). apply IH. }
  destruct (fields_parse f Hf [] _ l Hfs) as (os & E & Hos & Hp). exists os. split; [done|]. split; [by apply out_ok_weaken|]. exact Hp.
Qed.

(** ** Character references *)

(** A character of XML 1.0: #x9, #xA, #xD, #x20-#xD7FF, #xE000-#xFFFD, #x10000-#x10FFFF. *)
Definition xml10_char (c : Z) : bool :=
  (c =? 9)%Z || (c =? 10)%Z || (c =? 13)%Z || between_Z 32 c 55295 || between_Z 57344 c 65533 || between_Z 65536 c 1114111.

(** A hexadecimal character reference is resolved, to the UTF-8 text of its character, exactly
    when the character is one that XML 1.0 allows and is not one of the code points 10000 to FFFFF:
    those of the supplementary planes 1 to 15, such as emoji, are refused. *)
Theorem char_ref_resolves (hex : bytes) (c : Z) : u32_from_hex hex = Some c ->
  resolve_char_ref (str "#x" ++ hex) = if xml10_char c && negb (between_Z 65536 c 1048575) then Some (encode_utf8 c) else None.
Proof.
  intros Hc. unfold resolve_char_ref.
  change (str "#x" ++ hex) with (str "#" ++ (str "x" ++ hex)). rewrite strip_prefix_app. cbn [mbind option_bind].
  rewrite bool_decide_eq_false_2 by done. rewrite strip_prefix_app, Hc. cbn [mbind option_bind].
  assert (E : xml_char c = xml10_char c && negb (between_Z 65536 c 1048575)) by (unfold xml_char, xml10_char, between_Z; lia).
  rewrite E. destruct (_ && _) eqn:Ec; [|done]. cbn [negb]. unfold char_from_u32.
  replace (between_Z 0 c 55295 || between_Z 57344 c 1114111) with true by (unfold xml10_char, between_Z in *; lia). done.
Qed.

Lemma char_ref_resolves_witness :
  u32_from_hex (str "1F600") = Some 128512%Z /\ resolve_char_ref (str "#x" ++ str "1F600") = None.
Proof. split; [by vm_compute|]. rewrite (char_ref_resolves (str "1F600") 128512); by vm_compute. Defined.
