(* ===== verification/XmlStruct.v ===== *)
(** * Structures in XML (crates/s3s/src/xml/generated.rs, the shape of its implementations; xml/mod.rs)

    The generated deserializers all have one shape: a loop over the elements that matches their
    names, each arm filling a variable, then the structure built from the variables.  An arm
    refuses a second element, or appends it to a list.  [arms] is such a match, [de_struct] the
    whole function.  The generated serializers are written out, field by field. *)

From S2P Require Import Prelude.
From S2P Require Import Str.
From S2P Require Import Utf8.
From S2P Require Import AmzDate.
From S2P Require Import Timestamp.
From S2P Require Import ETag.
From S2P Require Import Xml.

(** ** The arms of a match *)

(** The variables are a tuple, in the order of the arms. *)
Inductive arms : Type -> Type :=
| no_arms : arms unit
| arm_once {T S} (name : bytes) (content : De T) (rest : arms S) : arms (option T * S)
| arm_push {T S} (name : bytes) (content : De T) (rest : arms S) : arms (option (list T) * S).

(** [let mut field = None;] for every variable. *)
Fixpoint unset {S} (a : arms S) : S :=
  match a with
  | no_arms => tt
  | arm_once _ _ rest => (None, unset rest)
  | arm_push _ _ rest => (None, unset rest)
  end.

(** [if field.is_some() { return Err(DuplicateField) } field = Some(content?);] *)
Definition once {T} (cur : option T) (content : De T) : De (option T) :=
  match cur with Some _ => throw DuplicateField | None => v ← content; mret (Some v) end.

(** [let ans = content?; field.get_or_insert_with(List::new).push(ans);] *)
Definition push {T} (cur : option (list T)) (content : De T) : De (option (list T)) :=
  ans ← content; mret (Some (default [] cur ++ [ans])).

(** The last arm skips an unknown element, or refuses it. *)
Fixpoint run_arms {S} (skip : bool) (a : arms S) : S -> bytes -> De S :=
  match a with
  | no_arms => fun s x => if skip then skip_element_content;; mret s else throw UnexpectedTagName
  | arm_once n content rest => fun s x =>
      if x =? n then v ← once (fst s) content; mret (v, snd s) else s' ← run_arms skip rest (snd s) x; mret (fst s, s')
  | arm_push n content rest => fun s x =>
      if x =? n then v ← push (fst s) content; mret (v, snd s) else s' ← run_arms skip rest (snd s) x; mret (fst s, s')
  end.

Definition de_struct {S T} (skip : bool) (a : arms S) (finish : S -> result DeError T) : De T :=
  s ← for_each_element (run_arms skip a) (unset a);
  de_lift (finish s).

(** [field.ok_or(DeError::MissingField)?] *)
Definition required {T} (o : option T) : result DeError T := ok_or MissingField o.

(** ** Enumerated strings *)

(** The known values are constants of the type; any other text is kept. *)
Definition de_enum (known : list bytes) : De bytes :=
  text (fun s => match List.find (fun k => k =? s) known with Some k => Ok k | None => Ok s end).

#[global] Instance enum_rt known : RoundTrip ser_str (de_enum known) string_wf.
Proof.
  apply (text_rt _ id); [done|]. intros s Hs. split; [done|]. unfold id. destruct (List.find _ known) as [k|] eqn:E; [|done].
  apply List.find_some in E as [_ E]. by apply bool_decide_eq_true in E as ->.
Qed.

Lemma de_enum_well known : well (de_enum known).
Proof. apply text_well. Qed.
#[export] Hint Resolve de_enum_well : de.

(** ** Lemmas *)

Fixpoint arm_names {S} (a : arms S) : list bytes :=
  match a with
  | no_arms => []
  | arm_once n _ rest => n :: arm_names rest
  | arm_push n _ rest => n :: arm_names rest
  end.

Fixpoint arms_well {S} (a : arms S) : Prop :=
  match a with
  | no_arms => True
  | arm_once _ content rest => well content /\ arms_well rest
  | arm_push _ content rest => well content /\ arms_well rest
  end.

Lemma once_well {T} (cur : option T) content : well content -> well (once cur content).
Proof. intros H. destruct cur; simpl; auto with de. Qed.

Lemma push_well {T} (cur : option (list T)) content : well content -> well (push cur content).
Proof. intros H. unfold push. auto with de. Qed.

#[export] Hint Resolve once_well push_well : de.

Lemma run_arms_well {S} skip (a : arms S) : arms_well a -> forall s x, well (run_arms skip a s x).
Proof.
  induction a as [|T S n content rest IH|T S n content rest IH]; simpl; intros Ha s x.
  - destruct skip; auto with de.
  - destruct Ha. case_match; auto with de.
  - destruct Ha. case_match; auto with de.
Qed.

Lemma de_struct_well {S T} skip (a : arms S) (finish : S -> result DeError T) : arms_well a -> well (de_struct skip a finish).
Proof. intros Ha. apply well_bind; [|auto with de]. apply for_each_element_well. intros s x. by apply run_arms_well. Qed.

(** *** Elements that no arm reads *)

Lemma run_arms_unknown {S} skip (a : arms S) x : x ∉ arm_names a -> forall s d,
  run_arms skip a s x d = (if skip then skip_element_content;; mret s else throw UnexpectedTagName) d.
Proof.
  induction a as [|T S n content rest IH|T S n content rest IH]; simpl; intros Hx s d; [done|..];
    rewrite bool_decide_eq_false_2 by (intros ->; apply Hx; constructor); unfold mbind at 1, De_bind; rewrite IH by (intros Hin; apply Hx; by constructor);
    destruct skip; try done; unfold mbind, De_bind, mret, De_ret; destruct (skip_element_content d) as [[[[] d']|]|]; by destruct s.
Qed.

(** An element whose name is none of those a structure has is skipped with all it contains
    where the deserializer is lenient, wherever it stands between the other elements; the strict
    deserializers of nested structures refuse it. *)
Theorem unknown_element {S} (a : arms S) (s : S) (st : BytesStart) (body evs : list DeEvent) (s2 : S) :
  arms_well a -> bs_name st ∉ arm_names a ->
  (forest body -> parses (fun s x _ => run_arms true a s x) s evs s2 ->
     parses (fun s x _ => run_arms true a s x) s (DStart st :: body ++ DEnd (bs_name st) :: evs) s2) /\
  (forall d tl, upcoming d (Ok (DStart st) :: tl) -> for_each_element (run_arms false a) s d = Some (Err UnexpectedTagName)).
Proof.
  intros Ha Hn. split.
  - intros Hb Hp. apply (parses_cons _ (fun s x _ => run_arms_well true a Ha s x) s st body s); [|done].
    apply (reads_ext _ (skip_element_content;; mret s)); [by apply (run_arms_unknown true)|].
    apply (reads_bind skip_element_content (fun _ => s) body tt). by apply skip_reads.
  - intros d tl Hu. unfold for_each_element, for_each_element_with_start.
    rewrite d_loop_unfold by (intros; apply each_turn; intros; by apply run_arms_well). unfold each_step at 1.
    destruct (peek_cons _ _ _ Hu ltac:(done)) as (d1 & E & _ & H1). rewrite (bind_run _ _ _ _ _ E).
    rewrite (bind_run consume_peeked _ d1 tt (set_peeked None d1) eq_refl). unfold mbind at 1, De_bind.
    by rewrite (run_arms_unknown false) by done.
Qed.

(** What is written for each arm, and the value of its variable when that was read. *)
Inductive written : forall {S}, arms S -> list Ser -> S -> Prop :=
| w_none : written no_arms [] tt
| w_opt {T S} n ser (de : De T) wf (rest : arms S) v xs s :
    RoundTrip ser de wf -> name_ok n = true -> from_option wf True v -> written rest xs s ->
    written (arm_once n de rest) (if_some v (s_content ser n) :: xs) (v, s)
| w_req {T S} n ser (de : De T) wf (rest : arms S) v xs s :
    RoundTrip ser de wf -> name_ok n = true -> wf v -> written rest xs s ->
    written (arm_once n de rest) (s_content ser n v :: xs) (Some v, s)
| w_flat_opt {T S} n ser (de : De T) wf (rest : arms S) v xs s :
    RoundTrip ser de wf -> name_ok n = true -> from_option (fun l => Forall wf l /\ l <> []) True v -> written rest xs s ->
    written (arm_push n de rest) (if_some v (s_flattened_list ser n) :: xs) (v, s)
| w_flat_req {T S} n ser (de : De T) wf (rest : arms S) v xs s :
    RoundTrip ser de wf -> name_ok n = true -> Forall wf v -> v <> [] -> written rest xs s ->
    written (arm_push n de rest) (s_flattened_list ser n v :: xs) (Some v, s).

(** The arms of [a] are those [f] runs on the part of its state that [k] puts in place. *)
Definition runs {S S'} (f : S' -> bytes -> BytesStart -> De S') skip (a : arms S) (k : S -> S') : Prop :=
  forall s x st d, x ∈ arm_names a -> f (k s) x st d = (s1 ← run_arms skip a s x; mret (k s1)) d.

Lemma runs_head {S T S'} (f : S' -> bytes -> BytesStart -> De S') skip n (content : De T) (rest : arms S) k s st d :
  runs f skip (arm_once n content rest) k -> f (k (None, s)) n st d = (x ← content; mret (k (Some x, s))) d.
Proof.
  intros Hr. rewrite Hr by (simpl; constructor). simpl. rewrite bool_decide_eq_true_2 by done. unfold once, mbind, De_bind, mret, De_ret. simpl.
  by destruct (content d) as [[[? ?]|]|].
Qed.

Lemma runs_head_push {S T S'} (f : S' -> bytes -> BytesStart -> De S') skip n (content : De T) (rest : arms S) k o s st d :
  runs f skip (arm_push n content rest) k -> f (k (o, s)) n st d = (x ← content; mret (k (Some (default [] o ++ [x]), s))) d.
Proof.
  intros Hr. rewrite Hr by (simpl; constructor). simpl. rewrite bool_decide_eq_true_2 by done. unfold push, mbind, De_bind, mret, De_ret. simpl.
  by destruct (content d) as [[[? ?]|]|].
Qed.

Lemma runs_tail {S T S'} (f : S' -> bytes -> BytesStart -> De S') skip n (content : De T) (rest : arms S) k v :
  runs f skip (arm_once n content rest) k -> n ∉ arm_names rest -> runs f skip rest (fun s => k (v, s)).
Proof.
  intros Hr Hn s x st d Hx. rewrite Hr by (simpl; by constructor). simpl. rewrite bool_decide_eq_false_2 by (by intros ->).
  unfold mbind, De_bind, mret, De_ret. by destruct (run_arms skip rest s x d) as [[[? ?]|]|].
Qed.

Lemma runs_tail_push {S T S'} (f : S' -> bytes -> BytesStart -> De S') skip n (content : De T) (rest : arms S) k v :
  runs f skip (arm_push n content rest) k -> n ∉ arm_names rest -> runs f skip rest (fun s => k (v, s)).
Proof.
  intros Hr Hn s x st d Hx. rewrite Hr by (simpl; by constructor). simpl. rewrite bool_decide_eq_false_2 by (by intros ->).
  unfold mbind, De_bind, mret, De_ret. by destruct (run_arms skip rest s x d) as [[[? ?]|]|].
Qed.

Lemma written_fields {S S'} skip (f : S' -> bytes -> BytesStart -> De S') (a : arms S) xs s :
  (forall s x st, well (f s x st)) -> written a xs s -> NoDup (arm_names a) -> forall k, runs f skip a k -> fields f (k (unset a)) xs (k s).
Proof.
  intros Hf. induction 1; simpl; intros Hnd k Hk; [constructor|..]; apply NoDup_cons in Hnd as [Hn Hnd].
  - apply (fields_cons f _ _ (k (v, unset rest))).
    + apply (field_opt f Hf ser de wf n v (fun o => k (o, unset rest))); [done..|]. intros st d. by apply (runs_head f skip n de rest k).
    + by apply (IHwritten Hnd (fun s => k (v, s))), (runs_tail f skip n de).
  - apply (fields_cons f _ _ (k (Some v, unset rest))).
    + apply (field_req f Hf ser de wf n v (fun o => k (o, unset rest))); [done..|]. intros st d. by apply (runs_head f skip n de rest k).
    + by apply (IHwritten Hnd (fun s => k (Some v, s))), (runs_tail f skip n de).
  - apply (fields_cons f _ _ (k (v, unset rest))).
    + apply (field_flat_opt f Hf ser de wf n v (fun o => k (o, unset rest))); [done..|]. intros o st d. by apply (runs_head_push f skip n de rest k).
    + by apply (IHwritten Hnd (fun s => k (v, s))), (runs_tail_push f skip n de).
  - apply (fields_cons f _ _ (k (Some v, unset rest))).
    + apply (field_flat_req f Hf ser de wf n v (fun o => k (o, unset rest))); [done..|]. intros o st d. by apply (runs_head_push f skip n de rest k).
    + by apply (IHwritten Hnd (fun s => k (Some v, s))), (runs_tail_push f skip n de).
Qed.

(** A structure whose serializer writes one field per arm is read back. *)
Lemma struct_round_trip {S T} (ser : T -> Ser) (wf : T -> Prop) skip (a : arms S) (finish : S -> result DeError T)
    (xs : T -> list Ser) (vars : T -> S) :
  arms_well a -> bool_decide (NoDup (arm_names a)) = true ->
  (forall v, ser v = s_seq (xs v)) -> (forall v, wf v -> written a (xs v) (vars v)) -> (forall v, finish (vars v) = Ok v) ->
  RoundTrip ser (de_struct skip a finish) wf.
Proof.
  intros Ha Hnd Hs Hw Hfin v Hv. apply bool_decide_eq_true in Hnd.
  pose proof (fun s x (st : BytesStart) => run_arms_well skip a Ha s x) as Hf.
  apply (struct_rt (fun s x _ => run_arms skip a s x) Hf ser _ v (unset a) (vars v) (fun s => de_lift (finish s)) (xs v)); [done|done| |].
  - apply (written_fields skip (fun s x _ => run_arms skip a s x) a _ _ Hf (Hw v Hv) Hnd (fun s => s)). intros s x st d _.
    unfold mbind, De_bind, mret, De_ret. by destruct (run_arms skip a s x d) as [[[? ?]|]|].
  - intros d. by rewrite Hfin.
Qed.

Lemma w_ts_opt `{TimeCrate} {S} n fmt (rest : arms S) v xs s :
  name_ok n = true -> from_option (timestamp_wf fmt) True v -> written rest xs s ->
  written (arm_once n (de_timestamp fmt) rest) (if_some v (fun val => s_timestamp n val fmt) :: xs) (v, s).
Proof. intros. by apply (w_opt n (ser_timestamp fmt) _ (timestamp_wf fmt)); [apply _|..]. Qed.

Lemma w_ts_req `{TimeCrate} {S} n fmt (rest : arms S) v xs s :
  name_ok n = true -> timestamp_wf fmt v -> written rest xs s ->
  written (arm_once n (de_timestamp fmt) rest) (s_timestamp n v fmt :: xs) (Some v, s).
Proof. intros. by apply (w_req n (ser_timestamp fmt) _ (timestamp_wf fmt)); [apply _|..]. Qed.

Lemma w_list_opt {T S} n m ser (de : De T) wf (rest : arms S) v xs s :
  RoundTrip ser de wf -> well de -> name_ok n = true -> name_ok m = true -> from_option (Forall wf) True v -> written rest xs s ->
  written (arm_once n (list_content de m) rest) (if_some v (s_list ser n m) :: xs) (v, s).
Proof. intros. by apply (w_opt n (ser_members ser m) _ (Forall wf)); [apply members_rt|..]. Qed.

Lemma w_list_req {T S} n m ser (de : De T) wf (rest : arms S) v xs s :
  RoundTrip ser de wf -> well de -> name_ok n = true -> name_ok m = true -> Forall wf v -> written rest xs s ->
  written (arm_once n (list_content de m) rest) (s_list ser n m v :: xs) (Some v, s).
Proof. intros. by apply (w_req n (ser_members ser m) _ (Forall wf)); [apply members_rt|..]. Qed.

(** A structure without fields: its deserializer reads nothing. *)
Lemma empty_round_trip {T} (ser : T -> Ser) (v0 : T) (wf : T -> Prop) :
  (forall v, ser v = Some []) -> (forall v, v = v0) -> RoundTrip ser (mret v0) wf.
Proof.
  intros Hs Hv v _. exists []. rewrite Hs. split; [done|]. split; [constructor|]. intros d n tl Hu. exists d. by rewrite (Hv v).
Qed.

(** ** Automation for the generated types *)

Ltac solve_well := apply de_struct_well; simpl; repeat split; auto with de nocore.

(** The fields of a structure, in order; the conditions on them are hypotheses. *)
Ltac solve_written :=
  repeat first
    [ apply w_none
    | eapply w_opt; [typeclasses eauto|vm_compute; reflexivity|eassumption|]
    | eapply w_req; [typeclasses eauto|vm_compute; reflexivity|eassumption|]
    | eapply w_ts_opt; [vm_compute; reflexivity|eassumption|]
    | eapply w_ts_req; [vm_compute; reflexivity|eassumption|]
    | eapply w_flat_opt; [typeclasses eauto|vm_compute; reflexivity|eassumption|]
    | eapply w_flat_req; [typeclasses eauto|vm_compute; reflexivity|eassumption|eassumption|]
    | eapply w_list_opt; [typeclasses eauto|solve [auto with de nocore]|vm_compute; reflexivity|vm_compute; reflexivity|eassumption|]
    | eapply w_list_req; [typeclasses eauto|solve [auto with de nocore]|vm_compute; reflexivity|vm_compute; reflexivity|eassumption|] ].

(** The round trip of a structure, given the variables its deserializer has filled at the end. *)
Ltac solve_struct vars :=
  eapply (struct_round_trip _ _ _ _ _ _ vars);
  [ simpl; repeat split; auto with de nocore
  | vm_compute; reflexivity
  | intros; reflexivity
  | let self := fresh "self" in let H := fresh "H" in intros self H; match type of H with ?wf _ => unfold wf in H end; destruct_and? H; solve_written
  | let self := fresh "self" in intros self; destruct self; reflexivity ].

(** What the deserializers use of other crates. *)
Class XmlDeps := { xml_time :: TimeCrate; xml_atoi :: AtoiSigned; xml_etag :: ETagDeps }.

(** ** Entity tags (xml/mod.rs) *)

Section ETags.
Context `{XmlDeps}.

(** The value is written between quotes, without escaping and without its strength. *)
Definition ser_ETag (self : ETag) : Ser :=
  let val := value self in
  if (length val <=? 64)%nat then
    buf ← array_string 72 ([x22] ++ val ++ [x22]);
    s_write_raw_text buf
  else s_write_raw_text ([x22] ++ val ++ [x22]).

Definition is_roundtrippable_etag_value (val : bytes) : bool :=
  forallb (fun b => is_ascii b && (((32 <=? u8 b)%Z && negb (u8 b =? 127)%Z) || (u8 b =? 9)%Z)) val.

Definition de_ETag : De ETag :=
  val ← de_string;
  match parse_http_header val with
  | Ok v => mret v
  | Err InvalidFormat => if is_roundtrippable_etag_value val then mret (Strong val) else throw InvalidContent
  | Err _ => throw InvalidContent
  end.

Lemma de_ETag_well : well de_ETag.
Proof. apply well_bind; [apply text_well|]. intros val. repeat case_match; auto with de. Qed.

(** Bytes that are written as they are. *)
Definition unescaped (s : bytes) : bool := forallb (fun c => negb ((c =? "<"%byte) || (c =? "&"%byte))) s.

Definition ETag_wf (e : ETag) : Prop := exists v, e = Strong v /\ readable v = true /\ unescaped v = true.

Lemma ser_ETag_eq e : ser_ETag e = Some [ORaw ([x22] ++ value e ++ [x22])].
Proof.
  unfold ser_ETag. destruct (length (value e) <=? 64)%nat eqn:E; [|done]. apply Nat.leb_le in E. unfold array_string.
  rewrite (proj2 (Nat.leb_le _ _)); [done|]. rewrite !length_app. simpl. lia.
Qed.

(** Any tag whose value needs no escaping is read as the strong tag of its value. *)
Lemma etag_reads e : readable (value e) = true -> unescaped (value e) = true ->
  out_ok false [ORaw ([x22] ++ value e ++ [x22])] /\ reads de_ETag (devs [ORaw ([x22] ++ value e ++ [x22])]) (Strong (value e)).
Proof.
  intros Hr Hu. set (r := [x22] ++ value e ++ [x22]).
  assert (Ha : forallb is_ascii (value e) = true) by (rewrite readable_split in Hr; by apply andb_true_iff in Hr as [_ Hr]).
  split.
  - constructor. unfold raw_ok, r. apply andb_true_iff. split; [apply andb_true_iff; split|].
    + done.
    + apply ascii_utf8. rewrite !forallb_app, Ha. done.
    + rewrite !forallb_app. unfold unescaped in Hu. by rewrite Hu.
  - intros d n tl Hd. unfold devs in Hd. cbn [map concat out_devents app] in Hd. change [DText r] with (map DText [r]) in Hd.
    destruct (text_reads (fun s => Ok s) [r] r ltac:(by unfold concat; rewrite app_nil_r) d n tl Hd) as (d' & E & Hd'). exists d'. split; [|done].
    unfold de_ETag, de_string. rewrite (bind_run _ _ _ _ _ E).
    assert (Hp : parse_http_header r = Ok (Strong (value e))) by (apply parse_Ok; split; [apply (text_strong (value e))|done]).
    by rewrite Hp.
Qed.

#[global] Instance ETag_rt : RoundTrip ser_ETag de_ETag ETag_wf.
Proof.
  intros e (v & -> & Hr & Hu). exists [ORaw ([x22] ++ v ++ [x22])]. rewrite ser_ETag_eq. split; [done|]. by apply (etag_reads (Strong v)).
Qed.
End ETags.

#[export] Hint Resolve de_ETag_well : de.
#[global] Typeclasses Opaque ser_ETag de_ETag ser_str de_string ser_bool de_bool ser_i32 de_i32 ser_i64 de_i64 ser_timestamp de_timestamp de_enum.

Lemma de_string_well : well de_string.
Proof. apply text_well. Qed.
Lemma de_bool_well : well de_bool.
Proof. apply text_well. Qed.
Lemma de_i32_well `{AtoiSigned} : well de_i32.
Proof. apply text_well. Qed.
Lemma de_i64_well `{AtoiSigned} : well de_i64.
Proof. apply text_well. Qed.
#[export] Hint Resolve de_string_well de_bool_well de_i32_well de_i64_well : de.

(** ** Unions *)

Lemma element_reads {A} (f : bytes -> De A) st body a :
  (forall x, well (f x)) -> reads (f (bs_name st)) body a -> reads (element f) (DStart st :: body ++ [DEnd (bs_name st)]) a.
Proof.
  intros Hf Hr d n tl Hu. cbn [map app] in Hu. rewrite map_app, <- app_assoc in Hu.
  destruct (peek_cons _ _ _ Hu ltac:(done)) as (d1 & E & _ & H1). destruct (Hr _ _ _ H1) as (d2 & E2 & H2).
  destruct (expect_end_cons _ _ _ H2) as (d3 & E3 & H3). exists d3. split; [|done].
  unfold element. rewrite d_loop_unfold by (intros; by apply element_turn). unfold element_step at 1. rewrite (bind_run _ _ _ _ _ E).
  rewrite (bind_run consume_peeked _ d1 tt (set_peeked None d1) eq_refl), (bind_run _ _ _ _ _ E2). by rewrite (bind_run _ _ _ _ _ E3).
Qed.

(** The variant [c] of a union is one element. *)
Lemma variant_rt {T U} (ser : T -> Ser) (de : De T) wf (f : bytes -> De U) n v (c : T -> U) :
  RoundTrip ser de wf -> (forall x, well (f x)) -> name_ok n = true -> wf v -> (forall d, f n d = (x ← de; mret (c x)) d) ->
  exists os, s_content ser n v = Some os /\ out_ok false os /\ reads (element f) (devs os) (c v).
Proof.
  intros Hrt Hf Hn Hv Hc. destruct (round_trip v Hv) as (os & E & Hos & Hr). unfold s_content, s_element.
  destruct (element_writes n [] (ser v) os Hn eq_refl E Hos) as (ps & Ep & Hps & Hd). exists ps. split; [exact Ep|].
  split; [by apply out_ok_weaken|]. rewrite Hd. apply (element_reads f {| bs_name := n; bs_attributes := _ |} (devs os) (c v) Hf).
  apply (reads_ext _ (x ← de; mret (c x))); [done|]. by apply reads_bind.
Qed.

(** ** Documents *)

Section Documents.
Context `{QuickXml}.

(** The text of what a serializer wrote. *)
Definition document_text (x : Ser) : option bytes := os ← x; Some (concat (map write os)).

Definition deserialize_document {A} (m : De A) (xml : bytes) : option (result DeError A) :=
  match (ans ← m; expect_eof;; mret ans) (Deserializer_new xml) with
  | Some (Ok (a, _)) => Some (Ok a)
  | Some (Err e) => Some (Err e)
  | None => None
  end.

(** A document: after a declaration or not, one root element. *)
Definition document (decl : bool) (root : Ser) : Ser := s_seq ((if decl then [s_decl] else []) ++ [root]).

Definition start_of (n : bytes) (a : list (bytes * bytes)) : BytesStart :=
  {| bs_name := n; bs_attributes := map (fun kv => Some (fst kv, Some (snd kv))) a |}.

(** A root element that is written is read by what reads its events. *)
Lemma root_reads {A} n a (f : Ser) os (decl : bool) (m : De A) (v : A) :
  name_ok n = true -> attrs_ok a = true -> f = Some os -> out_ok false os ->
  (forall d, upcoming d (Ok (DStart (start_of n a)) :: map Ok (devs os) ++ [Ok (DEnd n)]) -> exists d', m d = Some (Ok (v, d')) /\ upcoming d' []) ->
  exists xml, document_text (document decl (s_element_with_attrs n a f)) = Some xml /\ deserialize_document m xml = Some (Ok v).
Proof.
  intros Hn Ha E Hos Hm. destruct (element_writes n a f os Hn Ha E Hos) as (ps & Ep & Hps & Hd).
  assert (Hw : document decl (s_element_with_attrs n a f) = Some ((if decl then [ODecl] else []) ++ ps)).
  { unfold document, s_element_with_attrs. destruct decl; cbn [app s_seq s_then s_decl s_event] in *;
      rewrite Ep; simpl; by rewrite app_nil_r. }
  rewrite Hw. eexists. split; [done|].
  assert (Hok : well_nested [] false ((if decl then [ODecl] else []) ++ ps) = true).
  { assert (E0 : well_nested [] false ps = true).
    { rewrite <- (app_nil_r ps). by rewrite (proj1 (out_ok_nested true ps Hps [] [])). }
    by destruct decl. }
  unfold deserialize_document.
  assert (Hu : upcoming (Deserializer_new (concat (map write ((if decl then [ODecl] else []) ++ ps)))) (map Ok (devs ps))).
  { unfold upcoming, Deserializer_new, behind. cbn [peeked next_slot inner]. rewrite read_write, devs_stream by done.
    destruct decl; done. }
  rewrite Hd in Hu. cbn [map] in Hu. rewrite (map_app (Ok (E := DeError))) in Hu.
  destruct (Hm _ Hu) as (d' & Em & Hd').
  destruct (expect_eof_nil _ Hd') as (d2 & Ee). rewrite (bind_run _ _ _ _ _ Em). by rewrite (bind_run _ _ _ _ _ Ee).
Qed.

(** The content of the element, written by [ser], is read by [de]. *)
Lemma element_root_reads {A} n a (f : Ser) os (decl : bool) (de : De A) (v : A) :
  name_ok n = true -> attrs_ok a = true -> f = Some os -> out_ok false os -> reads de (devs os) v ->
  exists xml, document_text (document decl (s_element_with_attrs n a f)) = Some xml /\
    deserialize_document (named_element n de) xml = Some (Ok v).
Proof.
  intros Hn Ha E Hos Hr. apply (root_reads n a f os); [done..|]. intros d Hu.
  exact (named_element_cons de _ (devs os) v d [] Hr Hu).
Qed.

Lemma deserialize_document_total {A} (m : De A) xml : well m -> exists r, deserialize_document m xml = Some r.
Proof.
  intros Hm. unfold deserialize_document.
  assert (Hw : well (ans ← m; expect_eof;; mret ans)) by auto 8 with de.
  destruct (Hw (Deserializer_new xml)) as (r & -> & _). destruct r as [[a d]|]; eauto.
Qed.

Lemma deserialize_map {A B} (m : De A) (k : A -> B) xml a :
  deserialize_document m xml = Some (Ok a) -> deserialize_document (v ← m; mret (k v)) xml = Some (Ok (k a)).
Proof.
  unfold deserialize_document, mbind, De_bind, mret, De_ret. destruct (m _) as [[[a' d]|]|]; [|done..].
  by destruct (expect_eof d) as [[[[] d']|]|]; intros [= ->].
Qed.

Section Roots.
Context {T : Type} (ser : T -> Ser) (de : De T) (wf : T -> Prop) `{!RoundTrip ser de wf}.

Lemma content_root_rt n v (decl : bool) : name_ok n = true -> wf v ->
  exists xml, document_text (document decl (s_content ser n v)) = Some xml /\ deserialize_document (named_element n de) xml = Some (Ok v).
Proof. intros Hn Hv. destruct (round_trip v Hv) as (os & E & Hos & Hr). by apply (element_root_reads n [] _ os). Qed.

Lemma content_ns_root_rt n ns v (decl : bool) : name_ok n = true -> attr_value_ok ns = true -> wf v ->
  exists xml, document_text (document decl (s_content_with_ns ser n ns v)) = Some xml /\
    deserialize_document (named_element n de) xml = Some (Ok v).
Proof.
  intros Hn Hns Hv. destruct (round_trip v Hv) as (os & E & Hos & Hr).
  apply (element_root_reads n [(str "xmlns", ns)] _ os); [done|by simpl; rewrite Hns|done..].
Qed.

Lemma content_any_root_rt n names v (decl : bool) : name_ok n = true -> n ∈ names -> wf v ->
  exists xml, document_text (document decl (s_content ser n v)) = Some xml /\
    deserialize_document (named_element_any names de) xml = Some (Ok v).
Proof.
  intros Hn Hin Hv. destruct (round_trip v Hv) as (os & E & Hos & Hr).
  apply (root_reads n [] _ os); [done..|]. intros d Hu.
  eapply (named_element_any_cons names de); [|exact Hr|exact Hu]. exact Hin.
Qed.
End Roots.
End Documents.

(** ** Witness *)

Definition status_arms : arms (option bytes * unit) := arm_once (str "Status") de_string no_arms.

Lemma unknown_element_witness :
  parses (fun s x _ => run_arms true status_arms s x) (None, tt)
    (DStart {| bs_name := str "Alpha"; bs_attributes := [] |} :: [DText (str "1")] ++ DEnd (str "Alpha") :: []) (None, tt).
Proof.
  assert (Ha : arms_well status_arms) by (simpl; auto with de).
  apply (unknown_element status_arms (None, tt) {| bs_name := str "Alpha"; bs_attributes := [] |} [DText (str "1")] [] (None, tt) Ha).
  - by apply (bool_decide_eq_true_1 (_ ∉ _)); vm_compute.
  - repeat constructor.
  - apply parses_nil. intros. by apply run_arms_well.
Defined.
