(* ===== verification/XmlDtoA.v ===== *)
(** * XML types, part A (crates/s3s/src/xml/generated.rs, the structures of dto/generated.rs)

    Each generated type with its serializer, its deserializer, the values that can be written, and
    the proofs that the deserializer returns and reads back what the serializer wrote.  Types that
    exist only with the minio feature, and the caches of tags, are left out. *)

From S2P Require Import Prelude.
From S2P Require Import Str.
From S2P Require Import Utf8.
From S2P Require Import Timestamp.
From S2P Require Import ETag.
From S2P Require Import Xml.
From S2P Require Import XmlStruct.

Definition BucketAbacStatus : Type := bytes.
Definition ser_BucketAbacStatus (self : BucketAbacStatus) : Ser := ser_str self.
Definition de_BucketAbacStatus : De BucketAbacStatus := de_enum [str "Disabled"; str "Enabled"].
#[global] Instance BucketAbacStatus_rt : RoundTrip ser_BucketAbacStatus de_BucketAbacStatus string_wf := enum_rt _.
Lemma de_BucketAbacStatus_well : well de_BucketAbacStatus.
Proof. apply de_enum_well. Qed.
#[export] Hint Resolve de_BucketAbacStatus_well : de.
#[global] Typeclasses Opaque ser_BucketAbacStatus de_BucketAbacStatus.

Record AbacStatus := mk_AbacStatus { AbacStatus_status : option BucketAbacStatus }.
Definition ser_AbacStatus (self : AbacStatus) : Ser :=
  s_seq [
    if_some (AbacStatus_status self) (s_content ser_BucketAbacStatus (str "Status"))].
Definition de_AbacStatus : De AbacStatus := de_struct true
   (arm_once (str "Status") de_BucketAbacStatus
    no_arms)
    (fun '(status, tt) =>
      Ok {| AbacStatus_status := status |}).
Definition AbacStatus_wf (self : AbacStatus) : Prop :=
  from_option string_wf True (AbacStatus_status self).
#[global] Instance AbacStatus_rt : RoundTrip ser_AbacStatus de_AbacStatus AbacStatus_wf.
Proof. solve_struct (fun self : AbacStatus => (AbacStatus_status self, tt)). Qed.
Lemma de_AbacStatus_well : well de_AbacStatus.
Proof. solve_well. Qed.
#[export] Hint Resolve de_AbacStatus_well : de.
#[global] Typeclasses Opaque ser_AbacStatus de_AbacStatus.

Definition BucketAccelerateStatus : Type := bytes.
Definition ser_BucketAccelerateStatus (self : BucketAccelerateStatus) : Ser := ser_str self.
Definition de_BucketAccelerateStatus : De BucketAccelerateStatus := de_enum [str "Enabled"; str "Suspended"].
#[global] Instance BucketAccelerateStatus_rt : RoundTrip ser_BucketAccelerateStatus de_BucketAccelerateStatus string_wf := enum_rt _.
Lemma de_BucketAccelerateStatus_well : well de_BucketAccelerateStatus.
Proof. apply de_enum_well. Qed.
#[export] Hint Resolve de_BucketAccelerateStatus_well : de.
#[global] Typeclasses Opaque ser_BucketAccelerateStatus de_BucketAccelerateStatus.

Record AccelerateConfiguration := mk_AccelerateConfiguration {
  AccelerateConfiguration_status : option BucketAccelerateStatus
}.
Definition ser_AccelerateConfiguration (self : AccelerateConfiguration) : Ser :=
  s_seq [
    if_some (AccelerateConfiguration_status self) (s_content ser_BucketAccelerateStatus (str "Status"))].
Definition de_AccelerateConfiguration : De AccelerateConfiguration := de_struct true
   (arm_once (str "Status") de_BucketAccelerateStatus
    no_arms)
    (fun '(status, tt) =>
      Ok {| AccelerateConfiguration_status := status |}).
Definition AccelerateConfiguration_wf (self : AccelerateConfiguration) : Prop :=

    from_option string_wf True (AccelerateConfiguration_status self).
#[global] Instance AccelerateConfiguration_rt : RoundTrip ser_AccelerateConfiguration de_AccelerateConfiguration AccelerateConfiguration_wf.
Proof. solve_struct (fun self : AccelerateConfiguration => (AccelerateConfiguration_status self, tt)). Qed.
Lemma de_AccelerateConfiguration_well : well de_AccelerateConfiguration.
Proof. solve_well. Qed.
#[export] Hint Resolve de_AccelerateConfiguration_well : de.
#[global] Typeclasses Opaque ser_AccelerateConfiguration de_AccelerateConfiguration.

Definition GranteeType : Type := bytes.
Definition ser_Type (self : GranteeType) : Ser := ser_str self.
Definition de_Type : De GranteeType := de_enum [str "AmazonCustomerByEmail"; str "CanonicalUser"; str "Group"].
#[global] Instance GranteeType_rt : RoundTrip ser_Type de_Type string_wf := enum_rt _.
Lemma de_Type_well : well de_Type.
Proof. apply de_enum_well. Qed.
#[export] Hint Resolve de_Type_well : de.
#[global] Typeclasses Opaque ser_Type de_Type.

Record Grantee := mk_Grantee {
  Grantee_display_name : option bytes; Grantee_email_address : option bytes; Grantee_id : option bytes; Grantee_type_ : GranteeType;
  Grantee_uri : option bytes
}.
Definition ser_Grantee (self : Grantee) : Ser :=
  s_seq [
    if_some (Grantee_display_name self) (s_content ser_str (str "DisplayName"));
    if_some (Grantee_email_address self) (s_content ser_str (str "EmailAddress"));
    if_some (Grantee_id self) (s_content ser_str (str "ID"));
    if_some (Grantee_uri self) (s_content ser_str (str "URI"))].

(** The attributes of the element of a grantee. *)
Definition grantee_attrs (val : Grantee) : list (bytes * bytes) :=
  [(str "xmlns:xsi", str "http://www.w3.org/2001/XMLSchema-instance"); (str "xsi:type", Grantee_type_ val)].

(** [for attr in start.attributes()]: the last [xsi:type] is kept. *)
Fixpoint grantee_type (type_ : option GranteeType) (attributes : list Attribute) : result DeError (option GranteeType) :=
  match attributes with
  | [] => Ok type_
  | None :: _ => Err DeInvalidAttribute
  | Some (key, v) :: rest =>
      if key =? str "xsi:type" then
        match v with Some v => grantee_type (Some v) rest | None => Err InvalidXml end
      else grantee_type type_ rest
  end.

Definition grantee_arms : arms (option bytes * (option bytes * (option bytes * (option bytes * unit)))) :=
  arm_once (str "DisplayName") de_string
   (arm_once (str "EmailAddress") de_string
    (arm_once (str "ID") de_string
     (arm_once (str "URI") de_string
      no_arms))).

(** The arm [b"Grantee"] of [Grant] and [TargetGrant]. *)
Definition de_grantee (start : BytesStart) : De Grantee :=
  type_ ← de_lift (grantee_type None (bs_attributes start));
  '(display_name, (email_address, (id, (uri, tt)))) ← for_each_element (run_arms false grantee_arms) (unset grantee_arms);
  type_ ← de_lift (required type_);
  mret {| Grantee_display_name := display_name; Grantee_email_address := email_address; Grantee_id := id; Grantee_type_ := type_;
          Grantee_uri := uri |}.

Definition Grantee_wf (self : Grantee) : Prop :=
  from_option string_wf True (Grantee_display_name self) /\ from_option string_wf True (Grantee_email_address self) /\
  from_option string_wf True (Grantee_id self) /\ from_option string_wf True (Grantee_uri self) /\
  attr_value_ok (Grantee_type_ self) = true.

Lemma grantee_arms_well : arms_well grantee_arms.
Proof. simpl. repeat split; auto with de nocore. Qed.

Lemma de_grantee_well start : well (de_grantee start).
Proof.
  unfold de_grantee. apply well_bind; [auto with de|]. intros ty. apply well_bind.
  - apply for_each_element_well. intros. apply run_arms_well, grantee_arms_well.
  - intros (a & b & c & u & []). auto with de.
Qed.
#[export] Hint Resolve de_grantee_well : de.

(** The closure of [Grant] and [TargetGrant], for a permission of type [P]. *)
Definition grant_arm {P} (de_permission : De P) (s : option Grantee * option P) (x : bytes) (start : BytesStart) :
    De (option Grantee * option P) :=
  let '(grantee, permission) := s in
  if x =? str "Grantee" then
    match grantee with Some _ => throw DuplicateField | None => g ← de_grantee start; mret (Some g, permission) end
  else if x =? str "Permission" then
    p ← once permission de_permission; mret (grantee, p)
  else throw UnexpectedTagName.

Definition grant_content {P} (ser_permission : P -> Ser) (grantee : option Grantee) (permission : option P) : list Ser :=
  [if_some grantee (fun val => s_content_with_attrs ser_Grantee (str "Grantee") (grantee_attrs val) val);
   if_some permission (s_content ser_permission (str "Permission"))].

Lemma grant_arm_well {P} (de_permission : De P) s x st : well de_permission -> well (grant_arm de_permission s x st).
Proof. intros Hp. unfold grant_arm. destruct s as [g p]. repeat case_match; auto with de. Qed.

(** A grantee is read from its element: its content, and its type from the attribute. *)
Lemma grantee_reads g : Grantee_wf g -> exists os, ser_Grantee g = Some os /\ out_ok false os /\
  reads (de_grantee {| bs_name := str "Grantee"; bs_attributes := map (fun kv => Some (fst kv, Some (snd kv))) (grantee_attrs g) |}) (devs os) g.
Proof.
  intros (H1 & H2 & H3 & H4 & H5).
  pose proof (fun s x (st : BytesStart) => run_arms_well false grantee_arms grantee_arms_well s x) as Hf.
  set (vars := (Grantee_display_name g, (Grantee_email_address g, (Grantee_id g, (Grantee_uri g, tt))))).
  assert (Hfs : fields (fun s x _ => run_arms false grantee_arms s x) (unset grantee_arms)
    [if_some (Grantee_display_name g) (s_content ser_str (str "DisplayName"));
     if_some (Grantee_email_address g) (s_content ser_str (str "EmailAddress"));
     if_some (Grantee_id g) (s_content ser_str (str "ID")); if_some (Grantee_uri g) (s_content ser_str (str "URI"))] vars).
  { apply (written_fields false (fun s x _ => run_arms false grantee_arms s x) grantee_arms _ vars Hf) with (k := fun s => s).
    - unfold grantee_arms, vars. solve_written.
    - apply (bool_decide_eq_true_1 (NoDup _)). by vm_compute.
    - intros s x st d _. unfold mbind, De_bind, mret, De_ret. by destruct (run_arms false grantee_arms s x d) as [[[? ?]|]|]. }
  destruct (fields_parse _ Hf _ _ _ Hfs) as (os & E & Hos & Hp). exists os. split; [exact E|]. split; [by apply out_ok_weaken|].
  intros d n tl Hu. destruct (Hp d n tl Hu) as (d' & Er & Hd). exists d'. split; [|done]. unfold de_grantee. cbn [bs_attributes].
  assert (Ea : grantee_type None (map (fun kv => Some (fst kv, Some (snd kv))) (grantee_attrs g)) = Ok (Some (Grantee_type_ g))) by done.
  rewrite (bind_run (de_lift _) _ d (Some (Grantee_type_ g)) d) by (by rewrite Ea).
  assert (Er' : for_each_element (run_arms false grantee_arms) (unset grantee_arms) d = Some (Ok (vars, d'))) by exact Er.
  rewrite (bind_run _ _ _ _ _ Er'). by destruct g.
Qed.

Lemma grant_round_trip {P T} (ser_permission : P -> Ser) (de_permission : De P) wf_permission (mk : option Grantee -> option P -> T)
    (grantee : T -> option Grantee) (permission : T -> option P) :
  RoundTrip ser_permission de_permission wf_permission -> well de_permission -> (forall v, mk (grantee v) (permission v) = v) ->
  RoundTrip (fun v => s_seq (grant_content ser_permission (grantee v) (permission v)))
    ('(g, p) ← for_each_element_with_start (grant_arm de_permission) (None, None); mret (mk g p))
    (fun v => from_option Grantee_wf True (grantee v) /\ from_option wf_permission True (permission v)).
Proof.
  intros Hrt Hw Hmk v [Hg Hp].
  pose proof (fun s x st => grant_arm_well de_permission s x st Hw) as Hf.
  apply (struct_rt (grant_arm de_permission) Hf (fun v => s_seq (grant_content ser_permission (grantee v) (permission v)))
    ('(g, p) ← for_each_element_with_start (grant_arm de_permission) (None, None); mret (mk g p)) v (None, None) (grantee v, permission v) (fun '(g, p) => mret (mk g p))
    (grant_content ser_permission (grantee v) (permission v))); [done|done| |by intros d; rewrite Hmk].
  apply (fields_cons _ _ _ (grantee v, None)); [|apply (fields_cons _ _ _ (grantee v, permission v)); [|constructor]].
  - destruct (grantee v) as [g|]; [|exists []; split; [done|]; split; [constructor|done]]. cbn [if_some].
    destruct (grantee_reads g Hg) as (os & E & Hos & Hr).
    assert (Ha : attrs_ok (grantee_attrs g) = true).
    { destruct Hg as (_ & _ & _ & _ & Hty). unfold attrs_ok, grantee_attrs. cbn [forallb fst snd]. by rewrite Hty. }
    destruct (element_writes (str "Grantee") _ _ os eq_refl Ha E Hos) as (ps & Ep & Hps & Hd).
    exists ps. split; [exact Ep|]. split; [done|]. intros evs s2 Hev. rewrite Hd. cbn [app]. rewrite <- app_assoc.
    apply (parses_cons _ Hf _ {| bs_name := str "Grantee"; bs_attributes := _ |} (devs os) (Some g, None)); [|done].
    apply (reads_ext _ (x ← de_grantee {| bs_name := str "Grantee"; bs_attributes := map (fun kv => Some (fst kv, Some (snd kv))) (grantee_attrs g) |}; mret (Some x, None))); [done|].
    by apply (reads_bind _ (fun x => (Some x, None))).
  - apply (field_opt _ Hf ser_permission de_permission wf_permission (str "Permission") (permission v) (fun o => (grantee v, o)));
      [done|done|]. intros st d. unfold grant_arm, once, mbind, De_bind, mret, De_ret. simpl. by destruct (de_permission d) as [[[? ?]|]|].
Qed.

Definition Permission : Type := bytes.
Definition ser_Permission (self : Permission) : Ser := ser_str self.
Definition de_Permission : De Permission := de_enum [str "FULL_CONTROL"; str "READ"; str "READ_ACP"; str "WRITE"; str "WRITE_ACP"].
#[global] Instance Permission_rt : RoundTrip ser_Permission de_Permission string_wf := enum_rt _.
Lemma de_Permission_well : well de_Permission.
Proof. apply de_enum_well. Qed.
#[export] Hint Resolve de_Permission_well : de.
#[global] Typeclasses Opaque ser_Permission de_Permission.

Record Grant := mk_Grant { Grant_grantee : option Grantee; Grant_permission : option Permission }.
Definition ser_Grant (self : Grant) : Ser := s_seq (grant_content ser_Permission (Grant_grantee self) (Grant_permission self)).
Definition de_Grant : De Grant :=
  '(grantee, permission) ← for_each_element_with_start (grant_arm de_Permission) (None, None);
  mret {| Grant_grantee := grantee; Grant_permission := permission |}.
Definition Grant_wf (self : Grant) : Prop :=
  from_option Grantee_wf True (Grant_grantee self) /\ from_option string_wf True (Grant_permission self).
#[global] Instance Grant_rt : RoundTrip ser_Grant de_Grant Grant_wf.
Proof. apply (grant_round_trip ser_Permission de_Permission string_wf mk_Grant); [apply _|auto with de|by intros []]. Qed.
Lemma de_Grant_well : well de_Grant.
Proof.
  apply well_bind; [|by intros []; auto with de]. apply for_each_element_with_start_well. intros. apply grant_arm_well. auto with de.
Qed.
#[export] Hint Resolve de_Grant_well : de.
#[global] Typeclasses Opaque ser_Grant de_Grant.

Record Owner := mk_Owner { Owner_display_name : option bytes; Owner_id : option bytes }.
Definition ser_Owner (self : Owner) : Ser :=
  s_seq [
    if_some (Owner_display_name self) (s_content ser_str (str "DisplayName"));
    if_some (Owner_id self) (s_content ser_str (str "ID"))].
Definition de_Owner : De Owner := de_struct false
   (arm_once (str "DisplayName") de_string
    (arm_once (str "ID") de_string
    no_arms))
    (fun '(display_name, (id, tt)) =>
      Ok {| Owner_display_name := display_name; Owner_id := id |}).
Definition Owner_wf (self : Owner) : Prop :=

    from_option string_wf True (Owner_display_name self) /\
    from_option string_wf True (Owner_id self).
#[global] Instance Owner_rt : RoundTrip ser_Owner de_Owner Owner_wf.
Proof. solve_struct (fun self : Owner => (Owner_display_name self, (Owner_id self, tt))). Qed.
Lemma de_Owner_well : well de_Owner.
Proof. solve_well. Qed.
#[export] Hint Resolve de_Owner_well : de.
#[global] Typeclasses Opaque ser_Owner de_Owner.

Record AccessControlPolicy := mk_AccessControlPolicy {
  AccessControlPolicy_grants : option (list Grant);
  AccessControlPolicy_owner : option Owner
}.
Definition ser_AccessControlPolicy (self : AccessControlPolicy) : Ser :=
  s_seq [
    if_some (AccessControlPolicy_grants self) (s_list ser_Grant (str "AccessControlList") (str "Grant"));
    if_some (AccessControlPolicy_owner self) (s_content ser_Owner (str "Owner"))].
Definition de_AccessControlPolicy : De AccessControlPolicy := de_struct true
   (arm_once (str "AccessControlList") (list_content de_Grant (str "Grant"))
    (arm_once (str "Owner") de_Owner
    no_arms))
    (fun '(grants, (owner, tt)) =>
      Ok {| AccessControlPolicy_grants := grants; AccessControlPolicy_owner := owner |}).
Definition AccessControlPolicy_wf (self : AccessControlPolicy) : Prop :=
  from_option (Forall Grant_wf) True (AccessControlPolicy_grants self) /\
  from_option Owner_wf True (AccessControlPolicy_owner self).
#[global] Instance AccessControlPolicy_rt : RoundTrip ser_AccessControlPolicy de_AccessControlPolicy AccessControlPolicy_wf.
Proof. solve_struct (fun self : AccessControlPolicy => (AccessControlPolicy_grants self, (AccessControlPolicy_owner self, tt))). Qed.
Lemma de_AccessControlPolicy_well : well de_AccessControlPolicy.
Proof. solve_well. Qed.
#[export] Hint Resolve de_AccessControlPolicy_well : de.
#[global] Typeclasses Opaque ser_AccessControlPolicy de_AccessControlPolicy.

Record Tag := mk_Tag { Tag_key : option bytes; Tag_value : option bytes }.
Definition ser_Tag (self : Tag) : Ser :=
  s_seq [
    if_some (Tag_key self) (s_content ser_str (str "Key"));
    if_some (Tag_value self) (s_content ser_str (str "Value"))].
Definition de_Tag : De Tag := de_struct false
   (arm_once (str "Key") de_string
    (arm_once (str "Value") de_string
    no_arms))
    (fun '(key, (value, tt)) =>
      Ok {| Tag_key := key; Tag_value := value |}).
Definition Tag_wf (self : Tag) : Prop :=

    from_option string_wf True (Tag_key self) /\
    from_option string_wf True (Tag_value self).
#[global] Instance Tag_rt : RoundTrip ser_Tag de_Tag Tag_wf.
Proof. solve_struct (fun self : Tag => (Tag_key self, (Tag_value self, tt))). Qed.
Lemma de_Tag_well : well de_Tag.
Proof. solve_well. Qed.
#[export] Hint Resolve de_Tag_well : de.
#[global] Typeclasses Opaque ser_Tag de_Tag.

Record AnalyticsAndOperator := mk_AnalyticsAndOperator {
  AnalyticsAndOperator_prefix : option bytes;
  AnalyticsAndOperator_tags : option (list Tag)
}.
Definition ser_AnalyticsAndOperator (self : AnalyticsAndOperator) : Ser :=
  s_seq [
    if_some (AnalyticsAndOperator_prefix self) (s_content ser_str (str "Prefix"));
    if_some (AnalyticsAndOperator_tags self) (s_flattened_list ser_Tag (str "Tag"))].
Definition de_AnalyticsAndOperator : De AnalyticsAndOperator := de_struct false
   (arm_once (str "Prefix") de_string
    (arm_push (str "Tag") de_Tag
    no_arms))
    (fun '(prefix, (tags, tt)) =>
      Ok {| AnalyticsAndOperator_prefix := prefix; AnalyticsAndOperator_tags := tags |}).
Definition AnalyticsAndOperator_wf (self : AnalyticsAndOperator) : Prop :=
  from_option string_wf True (AnalyticsAndOperator_prefix self) /\
  from_option (fun l => Forall Tag_wf l /\ l <> []) True (AnalyticsAndOperator_tags self).
#[global] Instance AnalyticsAndOperator_rt : RoundTrip ser_AnalyticsAndOperator de_AnalyticsAndOperator AnalyticsAndOperator_wf.
Proof. solve_struct (fun self : AnalyticsAndOperator => (AnalyticsAndOperator_prefix self, (AnalyticsAndOperator_tags self, tt))). Qed.
Lemma de_AnalyticsAndOperator_well : well de_AnalyticsAndOperator.
Proof. solve_well. Qed.
#[export] Hint Resolve de_AnalyticsAndOperator_well : de.
#[global] Typeclasses Opaque ser_AnalyticsAndOperator de_AnalyticsAndOperator.

Inductive AnalyticsFilter :=
| AnalyticsFilter_And (x : AnalyticsAndOperator)
| AnalyticsFilter_Prefix (x : bytes)
| AnalyticsFilter_Tag (x : Tag).
Definition ser_AnalyticsFilter (self : AnalyticsFilter) : Ser :=
  match self with
  | AnalyticsFilter_And x => s_content ser_AnalyticsAndOperator (str "And") x
  | AnalyticsFilter_Prefix x => s_content ser_str (str "Prefix") x
  | AnalyticsFilter_Tag x => s_content ser_Tag (str "Tag") x
  end.
Definition variant_AnalyticsFilter (x : bytes) : De AnalyticsFilter :=
  if x =? str "And" then v ← de_AnalyticsAndOperator; mret (AnalyticsFilter_And v) else
  if x =? str "Prefix" then v ← de_string; mret (AnalyticsFilter_Prefix v) else
  if x =? str "Tag" then v ← de_Tag; mret (AnalyticsFilter_Tag v) else
  throw UnexpectedTagName.
Definition de_AnalyticsFilter : De AnalyticsFilter := element variant_AnalyticsFilter.
Definition AnalyticsFilter_wf (self : AnalyticsFilter) : Prop :=
  match self with
  | AnalyticsFilter_And x => AnalyticsAndOperator_wf x
  | AnalyticsFilter_Prefix x => string_wf x
  | AnalyticsFilter_Tag x => Tag_wf x
  end.
Lemma variant_AnalyticsFilter_well x : well (variant_AnalyticsFilter x).
Proof. unfold variant_AnalyticsFilter. repeat case_match; auto with de. Qed.
#[global] Instance AnalyticsFilter_rt : RoundTrip ser_AnalyticsFilter de_AnalyticsFilter AnalyticsFilter_wf.
Proof. intros [x|x|x] Hv; by eapply variant_rt; [typeclasses eauto|apply variant_AnalyticsFilter_well|vm_compute; reflexivity|exact Hv|]. Qed.
Lemma de_AnalyticsFilter_well : well de_AnalyticsFilter.
Proof. apply element_well, variant_AnalyticsFilter_well. Qed.
#[export] Hint Resolve de_AnalyticsFilter_well : de.
#[global] Typeclasses Opaque ser_AnalyticsFilter de_AnalyticsFilter.

Definition AnalyticsS3ExportFileFormat : Type := bytes.
Definition ser_AnalyticsS3ExportFileFormat (self : AnalyticsS3ExportFileFormat) : Ser := ser_str self.
Definition de_AnalyticsS3ExportFileFormat : De AnalyticsS3ExportFileFormat := de_enum [str "CSV"].
#[global] Instance AnalyticsS3ExportFileFormat_rt : RoundTrip ser_AnalyticsS3ExportFileFormat de_AnalyticsS3ExportFileFormat string_wf := enum_rt _.
Lemma de_AnalyticsS3ExportFileFormat_well : well de_AnalyticsS3ExportFileFormat.
Proof. apply de_enum_well. Qed.
#[export] Hint Resolve de_AnalyticsS3ExportFileFormat_well : de.
#[global] Typeclasses Opaque ser_AnalyticsS3ExportFileFormat de_AnalyticsS3ExportFileFormat.

Record AnalyticsS3BucketDestination := mk_AnalyticsS3BucketDestination {
  AnalyticsS3BucketDestination_bucket : bytes;
  AnalyticsS3BucketDestination_bucket_account_id : option bytes;
  AnalyticsS3BucketDestination_format : AnalyticsS3ExportFileFormat;
  AnalyticsS3BucketDestination_prefix : option bytes
}.
Definition ser_AnalyticsS3BucketDestination (self : AnalyticsS3BucketDestination) : Ser :=
  s_seq [
    s_content ser_str (str "Bucket") (AnalyticsS3BucketDestination_bucket self);
    if_some (AnalyticsS3BucketDestination_bucket_account_id self) (s_content ser_str (str "BucketAccountId"));
    s_content ser_AnalyticsS3ExportFileFormat (str "Format") (AnalyticsS3BucketDestination_format self);
    if_some (AnalyticsS3BucketDestination_prefix self) (s_content ser_str (str "Prefix"))].
Definition de_AnalyticsS3BucketDestination : De AnalyticsS3BucketDestination := de_struct false
   (arm_once (str "Bucket") de_string
    (arm_once (str "BucketAccountId") de_string
    (arm_once (str "Format") de_AnalyticsS3ExportFileFormat
    (arm_once (str "Prefix") de_string
    no_arms))))
    (fun '(bucket, (bucket_account_id, (format, (prefix, tt)))) =>
      bucket ← required bucket;
      format ← required format;
      Ok {| AnalyticsS3BucketDestination_bucket := bucket;
         AnalyticsS3BucketDestination_bucket_account_id := bucket_account_id;
         AnalyticsS3BucketDestination_format := format;
         AnalyticsS3BucketDestination_prefix := prefix |}).
Definition AnalyticsS3BucketDestination_wf (self : AnalyticsS3BucketDestination) : Prop :=
  string_wf (AnalyticsS3BucketDestination_bucket self) /\
  from_option string_wf True (AnalyticsS3BucketDestination_bucket_account_id self) /\
  string_wf (AnalyticsS3BucketDestination_format self) /\
  from_option string_wf True (AnalyticsS3BucketDestination_prefix self).
#[global] Instance AnalyticsS3BucketDestination_rt : RoundTrip ser_AnalyticsS3BucketDestination de_AnalyticsS3BucketDestination AnalyticsS3BucketDestination_wf.
Proof. solve_struct (fun self : AnalyticsS3BucketDestination => (Some (AnalyticsS3BucketDestination_bucket self), (AnalyticsS3BucketDestination_bucket_account_id self, (Some (AnalyticsS3BucketDestination_format self), (AnalyticsS3BucketDestination_prefix self, tt))))). Qed.
Lemma de_AnalyticsS3BucketDestination_well : well de_AnalyticsS3BucketDestination.
Proof. solve_well. Qed.
#[export] Hint Resolve de_AnalyticsS3BucketDestination_well : de.
#[global] Typeclasses Opaque ser_AnalyticsS3BucketDestination de_AnalyticsS3BucketDestination.

Record AnalyticsExportDestination := mk_AnalyticsExportDestination {
  AnalyticsExportDestination_s3_bucket_destination : AnalyticsS3BucketDestination
}.
Definition ser_AnalyticsExportDestination (self : AnalyticsExportDestination) : Ser :=
  s_seq [
    s_content ser_AnalyticsS3BucketDestination (str "S3BucketDestination") (AnalyticsExportDestination_s3_bucket_destination self)].
Definition de_AnalyticsExportDestination : De AnalyticsExportDestination := de_struct false
   (arm_once (str "S3BucketDestination") de_AnalyticsS3BucketDestination
    no_arms)
    (fun '(s3_bucket_destination, tt) =>
      s3_bucket_destination ← required s3_bucket_destination;
      Ok {| AnalyticsExportDestination_s3_bucket_destination := s3_bucket_destination |}).
Definition AnalyticsExportDestination_wf (self : AnalyticsExportDestination) : Prop :=

    AnalyticsS3BucketDestination_wf (AnalyticsExportDestination_s3_bucket_destination self).
#[global] Instance AnalyticsExportDestination_rt : RoundTrip ser_AnalyticsExportDestination de_AnalyticsExportDestination AnalyticsExportDestination_wf.
Proof. solve_struct (fun self : AnalyticsExportDestination => (Some (AnalyticsExportDestination_s3_bucket_destination self), tt)). Qed.
Lemma de_AnalyticsExportDestination_well : well de_AnalyticsExportDestination.
Proof. solve_well. Qed.
#[export] Hint Resolve de_AnalyticsExportDestination_well : de.
#[global] Typeclasses Opaque ser_AnalyticsExportDestination de_AnalyticsExportDestination.

Definition StorageClassAnalysisSchemaVersion : Type := bytes.
Definition ser_StorageClassAnalysisSchemaVersion (self : StorageClassAnalysisSchemaVersion) : Ser := ser_str self.
Definition de_StorageClassAnalysisSchemaVersion : De StorageClassAnalysisSchemaVersion := de_enum [str "V_1"].
#[global] Instance StorageClassAnalysisSchemaVersion_rt : RoundTrip ser_StorageClassAnalysisSchemaVersion de_StorageClassAnalysisSchemaVersion string_wf := enum_rt _.
Lemma de_StorageClassAnalysisSchemaVersion_well : well de_StorageClassAnalysisSchemaVersion.
Proof. apply de_enum_well. Qed.
#[export] Hint Resolve de_StorageClassAnalysisSchemaVersion_well : de.
#[global] Typeclasses Opaque ser_StorageClassAnalysisSchemaVersion de_StorageClassAnalysisSchemaVersion.

Record StorageClassAnalysisDataExport := mk_StorageClassAnalysisDataExport {
  StorageClassAnalysisDataExport_destination : AnalyticsExportDestination;
  StorageClassAnalysisDataExport_output_schema_version : StorageClassAnalysisSchemaVersion
}.
Definition ser_StorageClassAnalysisDataExport (self : StorageClassAnalysisDataExport) : Ser :=
  s_seq [
    s_content ser_AnalyticsExportDestination (str "Destination") (StorageClassAnalysisDataExport_destination self);
    s_content ser_StorageClassAnalysisSchemaVersion (str "OutputSchemaVersion") (StorageClassAnalysisDataExport_output_schema_version self)].
Definition de_StorageClassAnalysisDataExport : De StorageClassAnalysisDataExport := de_struct false
   (arm_once (str "Destination") de_AnalyticsExportDestination
    (arm_once (str "OutputSchemaVersion") de_StorageClassAnalysisSchemaVersion
    no_arms))
    (fun '(destination, (output_schema_version, tt)) =>
      destination ← required destination;
      output_schema_version ← required output_schema_version;
      Ok {| StorageClassAnalysisDataExport_destination := destination;
         StorageClassAnalysisDataExport_output_schema_version := output_schema_version |}).
Definition StorageClassAnalysisDataExport_wf (self : StorageClassAnalysisDataExport) : Prop :=
  AnalyticsExportDestination_wf (StorageClassAnalysisDataExport_destination self) /\
  string_wf (StorageClassAnalysisDataExport_output_schema_version self).
#[global] Instance StorageClassAnalysisDataExport_rt : RoundTrip ser_StorageClassAnalysisDataExport de_StorageClassAnalysisDataExport StorageClassAnalysisDataExport_wf.
Proof. solve_struct (fun self : StorageClassAnalysisDataExport => (Some (StorageClassAnalysisDataExport_destination self), (Some (StorageClassAnalysisDataExport_output_schema_version self), tt))). Qed.
Lemma de_StorageClassAnalysisDataExport_well : well de_StorageClassAnalysisDataExport.
Proof. solve_well. Qed.
#[export] Hint Resolve de_StorageClassAnalysisDataExport_well : de.
#[global] Typeclasses Opaque ser_StorageClassAnalysisDataExport de_StorageClassAnalysisDataExport.

Record StorageClassAnalysis := mk_StorageClassAnalysis {
  StorageClassAnalysis_data_export : option StorageClassAnalysisDataExport
}.
Definition ser_StorageClassAnalysis (self : StorageClassAnalysis) : Ser :=
  s_seq [
    if_some (StorageClassAnalysis_data_export self) (s_content ser_StorageClassAnalysisDataExport (str "DataExport"))].
Definition de_StorageClassAnalysis : De StorageClassAnalysis := de_struct false
   (arm_once (str "DataExport") de_StorageClassAnalysisDataExport
    no_arms)
    (fun '(data_export, tt) =>
      Ok {| StorageClassAnalysis_data_export := data_export |}).
Definition StorageClassAnalysis_wf (self : StorageClassAnalysis) : Prop :=

    from_option StorageClassAnalysisDataExport_wf True (StorageClassAnalysis_data_export self).
#[global] Instance StorageClassAnalysis_rt : RoundTrip ser_StorageClassAnalysis de_StorageClassAnalysis StorageClassAnalysis_wf.
Proof. solve_struct (fun self : StorageClassAnalysis => (StorageClassAnalysis_data_export self, tt)). Qed.
Lemma de_StorageClassAnalysis_well : well de_StorageClassAnalysis.
Proof. solve_well. Qed.
#[export] Hint Resolve de_StorageClassAnalysis_well : de.
#[global] Typeclasses Opaque ser_StorageClassAnalysis de_StorageClassAnalysis.

Record AnalyticsConfiguration := mk_AnalyticsConfiguration {
  AnalyticsConfiguration_filter : option AnalyticsFilter;
  AnalyticsConfiguration_id : bytes;
  AnalyticsConfiguration_storage_class_analysis : StorageClassAnalysis
}.
Definition ser_AnalyticsConfiguration (self : AnalyticsConfiguration) : Ser :=
  s_seq [
    if_some (AnalyticsConfiguration_filter self) (s_content ser_AnalyticsFilter (str "Filter"));
    s_content ser_str (str "Id") (AnalyticsConfiguration_id self);
    s_content ser_StorageClassAnalysis (str "StorageClassAnalysis") (AnalyticsConfiguration_storage_class_analysis self)].
Definition de_AnalyticsConfiguration : De AnalyticsConfiguration := de_struct true
   (arm_once (str "Filter") de_AnalyticsFilter
    (arm_once (str "Id") de_string
    (arm_once (str "StorageClassAnalysis") de_StorageClassAnalysis
    no_arms)))
    (fun '(filter, (id, (storage_class_analysis, tt))) =>
      id ← required id;
      storage_class_analysis ← required storage_class_analysis;
      Ok {| AnalyticsConfiguration_filter := filter;
         AnalyticsConfiguration_id := id;
         AnalyticsConfiguration_storage_class_analysis := storage_class_analysis |}).
Definition AnalyticsConfiguration_wf (self : AnalyticsConfiguration) : Prop :=
  from_option AnalyticsFilter_wf True (AnalyticsConfiguration_filter self) /\
  string_wf (AnalyticsConfiguration_id self) /\
  StorageClassAnalysis_wf (AnalyticsConfiguration_storage_class_analysis self).
#[global] Instance AnalyticsConfiguration_rt : RoundTrip ser_AnalyticsConfiguration de_AnalyticsConfiguration AnalyticsConfiguration_wf.
Proof. solve_struct (fun self : AnalyticsConfiguration => (AnalyticsConfiguration_filter self, (Some (AnalyticsConfiguration_id self), (Some (AnalyticsConfiguration_storage_class_analysis self), tt)))). Qed.
Lemma de_AnalyticsConfiguration_well : well de_AnalyticsConfiguration.
Proof. solve_well. Qed.
#[export] Hint Resolve de_AnalyticsConfiguration_well : de.
#[global] Typeclasses Opaque ser_AnalyticsConfiguration de_AnalyticsConfiguration.

Definition AnnotationConfigurationState : Type := bytes.
Definition ser_AnnotationConfigurationState (self : AnnotationConfigurationState) : Ser := ser_str self.
Definition de_AnnotationConfigurationState : De AnnotationConfigurationState := de_enum [str "DISABLED"; str "ENABLED"].
#[global] Instance AnnotationConfigurationState_rt : RoundTrip ser_AnnotationConfigurationState de_AnnotationConfigurationState string_wf := enum_rt _.
Lemma de_AnnotationConfigurationState_well : well de_AnnotationConfigurationState.
Proof. apply de_enum_well. Qed.
#[export] Hint Resolve de_AnnotationConfigurationState_well : de.
#[global] Typeclasses Opaque ser_AnnotationConfigurationState de_AnnotationConfigurationState.

Definition TableSseAlgorithm : Type := bytes.
Definition ser_TableSseAlgorithm (self : TableSseAlgorithm) : Ser := ser_str self.
Definition de_TableSseAlgorithm : De TableSseAlgorithm := de_enum [str "AES256"; str "aws:kms"].
#[global] Instance TableSseAlgorithm_rt : RoundTrip ser_TableSseAlgorithm de_TableSseAlgorithm string_wf := enum_rt _.
Lemma de_TableSseAlgorithm_well : well de_TableSseAlgorithm.
Proof. apply de_enum_well. Qed.
#[export] Hint Resolve de_TableSseAlgorithm_well : de.
#[global] Typeclasses Opaque ser_TableSseAlgorithm de_TableSseAlgorithm.

Record MetadataTableEncryptionConfiguration := mk_MetadataTableEncryptionConfiguration {
  MetadataTableEncryptionConfiguration_kms_key_arn : option bytes;
  MetadataTableEncryptionConfiguration_sse_algorithm : TableSseAlgorithm
}.
Definition ser_MetadataTableEncryptionConfiguration (self : MetadataTableEncryptionConfiguration) : Ser :=
  s_seq [
    if_some (MetadataTableEncryptionConfiguration_kms_key_arn self) (s_content ser_str (str "KmsKeyArn"));
    s_content ser_TableSseAlgorithm (str "SseAlgorithm") (MetadataTableEncryptionConfiguration_sse_algorithm self)].
Definition de_MetadataTableEncryptionConfiguration : De MetadataTableEncryptionConfiguration := de_struct false
   (arm_once (str "KmsKeyArn") de_string
    (arm_once (str "SseAlgorithm") de_TableSseAlgorithm
    no_arms))
    (fun '(kms_key_arn, (sse_algorithm, tt)) =>
      sse_algorithm ← required sse_algorithm;
      Ok {| MetadataTableEncryptionConfiguration_kms_key_arn := kms_key_arn;
         MetadataTableEncryptionConfiguration_sse_algorithm := sse_algorithm |}).
Definition MetadataTableEncryptionConfiguration_wf (self : MetadataTableEncryptionConfiguration) : Prop :=
  from_option string_wf True (MetadataTableEncryptionConfiguration_kms_key_arn self) /\
  string_wf (MetadataTableEncryptionConfiguration_sse_algorithm self).
#[global] Instance MetadataTableEncryptionConfiguration_rt : RoundTrip ser_MetadataTableEncryptionConfiguration de_MetadataTableEncryptionConfiguration MetadataTableEncryptionConfiguration_wf.
Proof. solve_struct (fun self : MetadataTableEncryptionConfiguration => (MetadataTableEncryptionConfiguration_kms_key_arn self, (Some (MetadataTableEncryptionConfiguration_sse_algorithm self), tt))). Qed.
Lemma de_MetadataTableEncryptionConfiguration_well : well de_MetadataTableEncryptionConfiguration.
Proof. solve_well. Qed.
#[export] Hint Resolve de_MetadataTableEncryptionConfiguration_well : de.
#[global] Typeclasses Opaque ser_MetadataTableEncryptionConfiguration de_MetadataTableEncryptionConfiguration.

Record AnnotationTableConfigurationUpdates := mk_AnnotationTableConfigurationUpdates {
  AnnotationTableConfigurationUpdates_configuration_state : AnnotationConfigurationState;
  AnnotationTableConfigurationUpdates_encryption_configuration : option MetadataTableEncryptionConfiguration;
  AnnotationTableConfigurationUpdates_role : option bytes
}.
Definition ser_AnnotationTableConfigurationUpdates (self : AnnotationTableConfigurationUpdates) : Ser :=
  s_seq [
    s_content ser_AnnotationConfigurationState (str "ConfigurationState") (AnnotationTableConfigurationUpdates_configuration_state self);
    if_some (AnnotationTableConfigurationUpdates_encryption_configuration self) (s_content ser_MetadataTableEncryptionConfiguration (str "EncryptionConfiguration"));
    if_some (AnnotationTableConfigurationUpdates_role self) (s_content ser_str (str "Role"))].
Definition de_AnnotationTableConfigurationUpdates : De AnnotationTableConfigurationUpdates := de_struct true
   (arm_once (str "ConfigurationState") de_AnnotationConfigurationState
    (arm_once (str "EncryptionConfiguration") de_MetadataTableEncryptionConfiguration
    (arm_once (str "Role") de_string
    no_arms)))
    (fun '(configuration_state, (encryption_configuration, (role, tt))) =>
      configuration_state ← required configuration_state;
      Ok {| AnnotationTableConfigurationUpdates_configuration_state := configuration_state;
         AnnotationTableConfigurationUpdates_encryption_configuration := encryption_configuration;
         AnnotationTableConfigurationUpdates_role := role |}).
Definition AnnotationTableConfigurationUpdates_wf (self : AnnotationTableConfigurationUpdates) : Prop :=
  string_wf (AnnotationTableConfigurationUpdates_configuration_state self) /\
  from_option MetadataTableEncryptionConfiguration_wf True (AnnotationTableConfigurationUpdates_encryption_configuration self) /\
  from_option string_wf True (AnnotationTableConfigurationUpdates_role self).
#[global] Instance AnnotationTableConfigurationUpdates_rt : RoundTrip ser_AnnotationTableConfigurationUpdates de_AnnotationTableConfigurationUpdates AnnotationTableConfigurationUpdates_wf.
Proof. solve_struct (fun self : AnnotationTableConfigurationUpdates => (Some (AnnotationTableConfigurationUpdates_configuration_state self), (AnnotationTableConfigurationUpdates_encryption_configuration self, (AnnotationTableConfigurationUpdates_role self, tt)))). Qed.
Lemma de_AnnotationTableConfigurationUpdates_well : well de_AnnotationTableConfigurationUpdates.
Proof. solve_well. Qed.
#[export] Hint Resolve de_AnnotationTableConfigurationUpdates_well : de.
#[global] Typeclasses Opaque ser_AnnotationTableConfigurationUpdates de_AnnotationTableConfigurationUpdates.

Record AbortIncompleteMultipartUpload := mk_AbortIncompleteMultipartUpload {
  AbortIncompleteMultipartUpload_days_after_initiation : option Z
}.
Definition ser_AbortIncompleteMultipartUpload (self : AbortIncompleteMultipartUpload) : Ser :=
  s_seq [
    if_some (AbortIncompleteMultipartUpload_days_after_initiation self) (s_content ser_i32 (str "DaysAfterInitiation"))].
Definition de_AbortIncompleteMultipartUpload `{XmlDeps} : De AbortIncompleteMultipartUpload := de_struct false
   (arm_once (str "DaysAfterInitiation") de_i32
    no_arms)
    (fun '(days_after_initiation, tt) =>
      Ok {| AbortIncompleteMultipartUpload_days_after_initiation := days_after_initiation |}).
Definition AbortIncompleteMultipartUpload_wf (self : AbortIncompleteMultipartUpload) : Prop :=

    from_option i32_wf True (AbortIncompleteMultipartUpload_days_after_initiation self).
#[global] Instance AbortIncompleteMultipartUpload_rt `{XmlDeps} : RoundTrip ser_AbortIncompleteMultipartUpload de_AbortIncompleteMultipartUpload AbortIncompleteMultipartUpload_wf.
Proof. solve_struct (fun self : AbortIncompleteMultipartUpload => (AbortIncompleteMultipartUpload_days_after_initiation self, tt)). Qed.
Lemma de_AbortIncompleteMultipartUpload_well `{XmlDeps} : well de_AbortIncompleteMultipartUpload.
Proof. solve_well. Qed.
#[export] Hint Resolve de_AbortIncompleteMultipartUpload_well : de.
#[global] Typeclasses Opaque ser_AbortIncompleteMultipartUpload de_AbortIncompleteMultipartUpload.

Definition ExpirationStatus : Type := bytes.
Definition ser_ExpirationStatus (self : ExpirationStatus) : Ser := ser_str self.
Definition de_ExpirationStatus : De ExpirationStatus := de_enum [str "Disabled"; str "Enabled"].
#[global] Instance ExpirationStatus_rt : RoundTrip ser_ExpirationStatus de_ExpirationStatus string_wf := enum_rt _.
Lemma de_ExpirationStatus_well : well de_ExpirationStatus.
Proof. apply de_enum_well. Qed.
#[export] Hint Resolve de_ExpirationStatus_well : de.
#[global] Typeclasses Opaque ser_ExpirationStatus de_ExpirationStatus.

Record LifecycleExpiration := mk_LifecycleExpiration {
  LifecycleExpiration_date : option Timestamp;
  LifecycleExpiration_days : option Z;
  LifecycleExpiration_expired_object_delete_marker : option bool
}.
Definition ser_LifecycleExpiration `{XmlDeps} (self : LifecycleExpiration) : Ser :=
  s_seq [
    if_some (LifecycleExpiration_date self) (fun val => s_timestamp (str "Date") val DateTime);
    if_some (LifecycleExpiration_days self) (s_content ser_i32 (str "Days"));
    if_some (LifecycleExpiration_expired_object_delete_marker self) (s_content ser_bool (str "ExpiredObjectDeleteMarker"))].
Definition de_LifecycleExpiration `{XmlDeps} : De LifecycleExpiration := de_struct false
   (arm_once (str "Date") (de_timestamp DateTime)
    (arm_once (str "Days") de_i32
    (arm_once (str "ExpiredObjectDeleteMarker") de_bool
    no_arms)))
    (fun '(date, (days, (expired_object_delete_marker, tt))) =>
      Ok {| LifecycleExpiration_date := date;
         LifecycleExpiration_days := days;
         LifecycleExpiration_expired_object_delete_marker := expired_object_delete_marker |}).
Definition LifecycleExpiration_wf (self : LifecycleExpiration) : Prop :=
  from_option (timestamp_wf DateTime) True (LifecycleExpiration_date self) /\
  from_option i32_wf True (LifecycleExpiration_days self) /\
  from_option bool_wf True (LifecycleExpiration_expired_object_delete_marker self).
#[global] Instance LifecycleExpiration_rt `{XmlDeps} : RoundTrip ser_LifecycleExpiration de_LifecycleExpiration LifecycleExpiration_wf.
Proof. solve_struct (fun self : LifecycleExpiration => (LifecycleExpiration_date self, (LifecycleExpiration_days self, (LifecycleExpiration_expired_object_delete_marker self, tt)))). Qed.
Lemma de_LifecycleExpiration_well `{XmlDeps} : well de_LifecycleExpiration.
Proof. solve_well. Qed.
#[export] Hint Resolve de_LifecycleExpiration_well : de.
#[global] Typeclasses Opaque ser_LifecycleExpiration de_LifecycleExpiration.

Record LifecycleRuleAndOperator := mk_LifecycleRuleAndOperator {
  LifecycleRuleAndOperator_object_size_greater_than : option Z;
  LifecycleRuleAndOperator_object_size_less_than : option Z;
  LifecycleRuleAndOperator_prefix : option bytes;
  LifecycleRuleAndOperator_tags : option (list Tag)
}.
Definition ser_LifecycleRuleAndOperator (self : LifecycleRuleAndOperator) : Ser :=
  s_seq [
    if_some (LifecycleRuleAndOperator_object_size_greater_than self) (s_content ser_i64 (str "ObjectSizeGreaterThan"));
    if_some (LifecycleRuleAndOperator_object_size_less_than self) (s_content ser_i64 (str "ObjectSizeLessThan"));
    if_some (LifecycleRuleAndOperator_prefix self) (s_content ser_str (str "Prefix"));
    if_some (LifecycleRuleAndOperator_tags self) (s_flattened_list ser_Tag (str "Tag"))].
Definition de_LifecycleRuleAndOperator `{XmlDeps} : De LifecycleRuleAndOperator := de_struct false
   (arm_once (str "ObjectSizeGreaterThan") de_i64
    (arm_once (str "ObjectSizeLessThan") de_i64
    (arm_once (str "Prefix") de_string
    (arm_push (str "Tag") de_Tag
    no_arms))))
    (fun '(object_size_greater_than, (object_size_less_than, (prefix, (tags, tt)))) =>
      Ok {| LifecycleRuleAndOperator_object_size_greater_than := object_size_greater_than;
         LifecycleRuleAndOperator_object_size_less_than := object_size_less_than;
         LifecycleRuleAndOperator_prefix := prefix;
         LifecycleRuleAndOperator_tags := tags |}).
Definition LifecycleRuleAndOperator_wf (self : LifecycleRuleAndOperator) : Prop :=
  from_option i64_wf True (LifecycleRuleAndOperator_object_size_greater_than self) /\
  from_option i64_wf True (LifecycleRuleAndOperator_object_size_less_than self) /\
  from_option string_wf True (LifecycleRuleAndOperator_prefix self) /\
  from_option (fun l => Forall Tag_wf l /\ l <> []) True (LifecycleRuleAndOperator_tags self).
#[global] Instance LifecycleRuleAndOperator_rt `{XmlDeps} : RoundTrip ser_LifecycleRuleAndOperator de_LifecycleRuleAndOperator LifecycleRuleAndOperator_wf.
Proof. solve_struct (fun self : LifecycleRuleAndOperator => (LifecycleRuleAndOperator_object_size_greater_than self, (LifecycleRuleAndOperator_object_size_less_than self, (LifecycleRuleAndOperator_prefix self, (LifecycleRuleAndOperator_tags self, tt))))). Qed.
Lemma de_LifecycleRuleAndOperator_well `{XmlDeps} : well de_LifecycleRuleAndOperator.
Proof. solve_well. Qed.
#[export] Hint Resolve de_LifecycleRuleAndOperator_well : de.
#[global] Typeclasses Opaque ser_LifecycleRuleAndOperator de_LifecycleRuleAndOperator.

Record LifecycleRuleFilter := mk_LifecycleRuleFilter {
  LifecycleRuleFilter_and : option LifecycleRuleAndOperator;
  LifecycleRuleFilter_object_size_greater_than : option Z;
  LifecycleRuleFilter_object_size_less_than : option Z;
  LifecycleRuleFilter_prefix : option bytes;
  LifecycleRuleFilter_tag : option Tag
}.
Definition ser_LifecycleRuleFilter (self : LifecycleRuleFilter) : Ser :=
  s_seq [
    if_some (LifecycleRuleFilter_and self) (s_content ser_LifecycleRuleAndOperator (str "And"));
    if_some (LifecycleRuleFilter_object_size_greater_than self) (s_content ser_i64 (str "ObjectSizeGreaterThan"));
    if_some (LifecycleRuleFilter_object_size_less_than self) (s_content ser_i64 (str "ObjectSizeLessThan"));
    if_some (LifecycleRuleFilter_prefix self) (s_content ser_str (str "Prefix"));
    if_some (LifecycleRuleFilter_tag self) (s_content ser_Tag (str "Tag"))].
Definition de_LifecycleRuleFilter `{XmlDeps} : De LifecycleRuleFilter := de_struct false
   (arm_once (str "And") de_LifecycleRuleAndOperator
    (arm_once (str "ObjectSizeGreaterThan") de_i64
    (arm_once (str "ObjectSizeLessThan") de_i64
    (arm_once (str "Prefix") de_string
    (arm_once (str "Tag") de_Tag
    no_arms)))))
    (fun '(and_, (object_size_greater_than, (object_size_less_than, (prefix, (tag, tt))))) =>
      Ok {| LifecycleRuleFilter_and := and_;
         LifecycleRuleFilter_object_size_greater_than := object_size_greater_than;
         LifecycleRuleFilter_object_size_less_than := object_size_less_than;
         LifecycleRuleFilter_prefix := prefix;
         LifecycleRuleFilter_tag := tag |}).
Definition LifecycleRuleFilter_wf (self : LifecycleRuleFilter) : Prop :=
  from_option LifecycleRuleAndOperator_wf True (LifecycleRuleFilter_and self) /\
  from_option i64_wf True (LifecycleRuleFilter_object_size_greater_than self) /\
  from_option i64_wf True (LifecycleRuleFilter_object_size_less_than self) /\
  from_option string_wf True (LifecycleRuleFilter_prefix self) /\
  from_option Tag_wf True (LifecycleRuleFilter_tag self).
#[global] Instance LifecycleRuleFilter_rt `{XmlDeps} : RoundTrip ser_LifecycleRuleFilter de_LifecycleRuleFilter LifecycleRuleFilter_wf.
Proof. solve_struct (fun self : LifecycleRuleFilter => (LifecycleRuleFilter_and self, (LifecycleRuleFilter_object_size_greater_than self, (LifecycleRuleFilter_object_size_less_than self, (LifecycleRuleFilter_prefix self, (LifecycleRuleFilter_tag self, tt)))))). Qed.
Lemma de_LifecycleRuleFilter_well `{XmlDeps} : well de_LifecycleRuleFilter.
Proof. solve_well. Qed.
#[export] Hint Resolve de_LifecycleRuleFilter_well : de.
#[global] Typeclasses Opaque ser_LifecycleRuleFilter de_LifecycleRuleFilter.

Record NoncurrentVersionExpiration := mk_NoncurrentVersionExpiration {
  NoncurrentVersionExpiration_newer_noncurrent_versions : option Z;
  NoncurrentVersionExpiration_noncurrent_days : option Z
}.
Definition ser_NoncurrentVersionExpiration (self : NoncurrentVersionExpiration) : Ser :=
  s_seq [
    if_some (NoncurrentVersionExpiration_newer_noncurrent_versions self) (s_content ser_i32 (str "NewerNoncurrentVersions"));
    if_some (NoncurrentVersionExpiration_noncurrent_days self) (s_content ser_i32 (str "NoncurrentDays"))].
Definition de_NoncurrentVersionExpiration `{XmlDeps} : De NoncurrentVersionExpiration := de_struct false
   (arm_once (str "NewerNoncurrentVersions") de_i32
    (arm_once (str "NoncurrentDays") de_i32
    no_arms))
    (fun '(newer_noncurrent_versions, (noncurrent_days, tt)) =>
      Ok {| NoncurrentVersionExpiration_newer_noncurrent_versions := newer_noncurrent_versions;
         NoncurrentVersionExpiration_noncurrent_days := noncurrent_days |}).
Definition NoncurrentVersionExpiration_wf (self : NoncurrentVersionExpiration) : Prop :=
  from_option i32_wf True (NoncurrentVersionExpiration_newer_noncurrent_versions self) /\
  from_option i32_wf True (NoncurrentVersionExpiration_noncurrent_days self).
#[global] Instance NoncurrentVersionExpiration_rt `{XmlDeps} : RoundTrip ser_NoncurrentVersionExpiration de_NoncurrentVersionExpiration NoncurrentVersionExpiration_wf.
Proof. solve_struct (fun self : NoncurrentVersionExpiration => (NoncurrentVersionExpiration_newer_noncurrent_versions self, (NoncurrentVersionExpiration_noncurrent_days self, tt))). Qed.
Lemma de_NoncurrentVersionExpiration_well `{XmlDeps} : well de_NoncurrentVersionExpiration.
Proof. solve_well. Qed.
#[export] Hint Resolve de_NoncurrentVersionExpiration_well : de.
#[global] Typeclasses Opaque ser_NoncurrentVersionExpiration de_NoncurrentVersionExpiration.

Definition TransitionStorageClass : Type := bytes.
Definition ser_TransitionStorageClass (self : TransitionStorageClass) : Ser := ser_str self.
Definition de_TransitionStorageClass : De TransitionStorageClass := de_enum [str "DEEP_ARCHIVE"; str "GLACIER"; str "GLACIER_IR"; str "INTELLIGENT_TIERING"; str "ONEZONE_IA"; str "STANDARD_IA"].
#[global] Instance TransitionStorageClass_rt : RoundTrip ser_TransitionStorageClass de_TransitionStorageClass string_wf := enum_rt _.
Lemma de_TransitionStorageClass_well : well de_TransitionStorageClass.
Proof. apply de_enum_well. Qed.
#[export] Hint Resolve de_TransitionStorageClass_well : de.
#[global] Typeclasses Opaque ser_TransitionStorageClass de_TransitionStorageClass.

Record NoncurrentVersionTransition := mk_NoncurrentVersionTransition {
  NoncurrentVersionTransition_newer_noncurrent_versions : option Z;
  NoncurrentVersionTransition_noncurrent_days : option Z;
  NoncurrentVersionTransition_storage_class : option TransitionStorageClass
}.
Definition ser_NoncurrentVersionTransition (self : NoncurrentVersionTransition) : Ser :=
  s_seq [
    if_some (NoncurrentVersionTransition_newer_noncurrent_versions self) (s_content ser_i32 (str "NewerNoncurrentVersions"));
    if_some (NoncurrentVersionTransition_noncurrent_days self) (s_content ser_i32 (str "NoncurrentDays"));
    if_some (NoncurrentVersionTransition_storage_class self) (s_content ser_TransitionStorageClass (str "StorageClass"))].
Definition de_NoncurrentVersionTransition `{XmlDeps} : De NoncurrentVersionTransition := de_struct false
   (arm_once (str "NewerNoncurrentVersions") de_i32
    (arm_once (str "NoncurrentDays") de_i32
    (arm_once (str "StorageClass") de_TransitionStorageClass
    no_arms)))
    (fun '(newer_noncurrent_versions, (noncurrent_days, (storage_class, tt))) =>
      Ok {| NoncurrentVersionTransition_newer_noncurrent_versions := newer_noncurrent_versions;
         NoncurrentVersionTransition_noncurrent_days := noncurrent_days;
         NoncurrentVersionTransition_storage_class := storage_class |}).
Definition NoncurrentVersionTransition_wf (self : NoncurrentVersionTransition) : Prop :=
  from_option i32_wf True (NoncurrentVersionTransition_newer_noncurrent_versions self) /\
  from_option i32_wf True (NoncurrentVersionTransition_noncurrent_days self) /\
  from_option string_wf True (NoncurrentVersionTransition_storage_class self).
#[global] Instance NoncurrentVersionTransition_rt `{XmlDeps} : RoundTrip ser_NoncurrentVersionTransition de_NoncurrentVersionTransition NoncurrentVersionTransition_wf.
Proof. solve_struct (fun self : NoncurrentVersionTransition => (NoncurrentVersionTransition_newer_noncurrent_versions self, (NoncurrentVersionTransition_noncurrent_days self, (NoncurrentVersionTransition_storage_class self, tt)))). Qed.
Lemma de_NoncurrentVersionTransition_well `{XmlDeps} : well de_NoncurrentVersionTransition.
Proof. solve_well. Qed.
#[export] Hint Resolve de_NoncurrentVersionTransition_well : de.
#[global] Typeclasses Opaque ser_NoncurrentVersionTransition de_NoncurrentVersionTransition.

Record Transition := mk_Transition {
  Transition_date : option Timestamp;
  Transition_days : option Z;
  Transition_storage_class : option TransitionStorageClass
}.
Definition ser_Transition `{XmlDeps} (self : Transition) : Ser :=
  s_seq [
    if_some (Transition_date self) (fun val => s_timestamp (str "Date") val DateTime);
    if_some (Transition_days self) (s_content ser_i32 (str "Days"));
    if_some (Transition_storage_class self) (s_content ser_TransitionStorageClass (str "StorageClass"))].
Definition de_Transition `{XmlDeps} : De Transition := de_struct false
   (arm_once (str "Date") (de_timestamp DateTime)
    (arm_once (str "Days") de_i32
    (arm_once (str "StorageClass") de_TransitionStorageClass
    no_arms)))
    (fun '(date, (days, (storage_class, tt))) =>
      Ok {| Transition_date := date; Transition_days := days; Transition_storage_class := storage_class |}).
Definition Transition_wf (self : Transition) : Prop :=
  from_option (timestamp_wf DateTime) True (Transition_date self) /\
  from_option i32_wf True (Transition_days self) /\
  from_option string_wf True (Transition_storage_class self).
#[global] Instance Transition_rt `{XmlDeps} : RoundTrip ser_Transition de_Transition Transition_wf.
Proof. solve_struct (fun self : Transition => (Transition_date self, (Transition_days self, (Transition_storage_class self, tt)))). Qed.
Lemma de_Transition_well `{XmlDeps} : well de_Transition.
Proof. solve_well. Qed.
#[export] Hint Resolve de_Transition_well : de.
#[global] Typeclasses Opaque ser_Transition de_Transition.

Record LifecycleRule := mk_LifecycleRule {
  LifecycleRule_abort_incomplete_multipart_upload : option AbortIncompleteMultipartUpload;
  LifecycleRule_expiration : option LifecycleExpiration;
  LifecycleRule_filter : option LifecycleRuleFilter;
  LifecycleRule_id : option bytes;
  LifecycleRule_noncurrent_version_expiration : option NoncurrentVersionExpiration;
  LifecycleRule_noncurrent_version_transitions : option (list NoncurrentVersionTransition);
  LifecycleRule_prefix : option bytes;
  LifecycleRule_status : ExpirationStatus;
  LifecycleRule_transitions : option (list Transition)
}.
Definition ser_LifecycleRule `{XmlDeps} (self : LifecycleRule) : Ser :=
  s_seq [
    if_some (LifecycleRule_abort_incomplete_multipart_upload self) (s_content ser_AbortIncompleteMultipartUpload (str "AbortIncompleteMultipartUpload"));
    if_some (LifecycleRule_expiration self) (s_content ser_LifecycleExpiration (str "Expiration"));
    if_some (LifecycleRule_filter self) (s_content ser_LifecycleRuleFilter (str "Filter"));
    if_some (LifecycleRule_id self) (s_content ser_str (str "ID"));
    if_some (LifecycleRule_noncurrent_version_expiration self) (s_content ser_NoncurrentVersionExpiration (str "NoncurrentVersionExpiration"));
    if_some (LifecycleRule_noncurrent_version_transitions self) (s_flattened_list ser_NoncurrentVersionTransition (str "NoncurrentVersionTransition"));
    if_some (LifecycleRule_prefix self) (s_content ser_str (str "Prefix"));
    s_content ser_ExpirationStatus (str "Status") (LifecycleRule_status self);
    if_some (LifecycleRule_transitions self) (s_flattened_list ser_Transition (str "Transition"))].
Definition de_LifecycleRule `{XmlDeps} : De LifecycleRule := de_struct false
   (arm_once (str "AbortIncompleteMultipartUpload") de_AbortIncompleteMultipartUpload
    (arm_once (str "Expiration") de_LifecycleExpiration
    (arm_once (str "Filter") de_LifecycleRuleFilter
    (arm_once (str "ID") de_string
    (arm_once (str "NoncurrentVersionExpiration") de_NoncurrentVersionExpiration
    (arm_push (str "NoncurrentVersionTransition") de_NoncurrentVersionTransition
    (arm_once (str "Prefix") de_string
    (arm_once (str "Status") de_ExpirationStatus
    (arm_push (str "Transition") de_Transition
    no_arms)))))))))
    (fun '(abort_incomplete_multipart_upload, (expiration, (filter, (id, (noncurrent_version_expiration, (noncurrent_version_transitions, (prefix, (status, (transitions, tt))))))))) =>
      status ← required status;
      Ok {| LifecycleRule_abort_incomplete_multipart_upload := abort_incomplete_multipart_upload;
         LifecycleRule_expiration := expiration;
         LifecycleRule_filter := filter;
         LifecycleRule_id := id;
         LifecycleRule_noncurrent_version_expiration := noncurrent_version_expiration;
         LifecycleRule_noncurrent_version_transitions := noncurrent_version_transitions;
         LifecycleRule_prefix := prefix;
         LifecycleRule_status := status;
         LifecycleRule_transitions := transitions |}).
Definition LifecycleRule_wf (self : LifecycleRule) : Prop :=
  from_option AbortIncompleteMultipartUpload_wf True (LifecycleRule_abort_incomplete_multipart_upload self) /\
  from_option LifecycleExpiration_wf True (LifecycleRule_expiration self) /\
  from_option LifecycleRuleFilter_wf True (LifecycleRule_filter self) /\
  from_option string_wf True (LifecycleRule_id self) /\
  from_option NoncurrentVersionExpiration_wf True (LifecycleRule_noncurrent_version_expiration self) /\
  from_option (fun l => Forall NoncurrentVersionTransition_wf l /\ l <> []) True (LifecycleRule_noncurrent_version_transitions self) /\
  from_option string_wf True (LifecycleRule_prefix self) /\
  string_wf (LifecycleRule_status self) /\
  from_option (fun l => Forall Transition_wf l /\ l <> []) True (LifecycleRule_transitions self).
#[global] Instance LifecycleRule_rt `{XmlDeps} : RoundTrip ser_LifecycleRule de_LifecycleRule LifecycleRule_wf.
Proof. solve_struct (fun self : LifecycleRule => (LifecycleRule_abort_incomplete_multipart_upload self, (LifecycleRule_expiration self, (LifecycleRule_filter self, (LifecycleRule_id self, (LifecycleRule_noncurrent_version_expiration self, (LifecycleRule_noncurrent_version_transitions self, (LifecycleRule_prefix self, (Some (LifecycleRule_status self), (LifecycleRule_transitions self, tt)))))))))). Qed.
Lemma de_LifecycleRule_well `{XmlDeps} : well de_LifecycleRule.
Proof. solve_well. Qed.
#[export] Hint Resolve de_LifecycleRule_well : de.
#[global] Typeclasses Opaque ser_LifecycleRule de_LifecycleRule.

Record BucketLifecycleConfiguration := mk_BucketLifecycleConfiguration {
  BucketLifecycleConfiguration_rules : list LifecycleRule
}.
Definition ser_BucketLifecycleConfiguration `{XmlDeps} (self : BucketLifecycleConfiguration) : Ser :=
  s_seq [
    s_flattened_list ser_LifecycleRule (str "Rule") (BucketLifecycleConfiguration_rules self)].
Definition de_BucketLifecycleConfiguration `{XmlDeps} : De BucketLifecycleConfiguration := de_struct true
   (arm_push (str "Rule") de_LifecycleRule
    no_arms)
    (fun '(rules, tt) =>
      rules ← required rules;
      Ok {| BucketLifecycleConfiguration_rules := rules |}).
Definition BucketLifecycleConfiguration_wf (self : BucketLifecycleConfiguration) : Prop :=
  Forall LifecycleRule_wf (BucketLifecycleConfiguration_rules self) /\
  (BucketLifecycleConfiguration_rules self) <> [].
#[global] Instance BucketLifecycleConfiguration_rt `{XmlDeps} : RoundTrip ser_BucketLifecycleConfiguration de_BucketLifecycleConfiguration BucketLifecycleConfiguration_wf.
Proof. solve_struct (fun self : BucketLifecycleConfiguration => (Some (BucketLifecycleConfiguration_rules self), tt)). Qed.
Lemma de_BucketLifecycleConfiguration_well `{XmlDeps} : well de_BucketLifecycleConfiguration.
Proof. solve_well. Qed.
#[export] Hint Resolve de_BucketLifecycleConfiguration_well : de.
#[global] Typeclasses Opaque ser_BucketLifecycleConfiguration de_BucketLifecycleConfiguration.

Definition BucketLogsPermission : Type := bytes.
Definition ser_BucketLogsPermission (self : BucketLogsPermission) : Ser := ser_str self.
Definition de_BucketLogsPermission : De BucketLogsPermission := de_enum [str "FULL_CONTROL"; str "READ"; str "WRITE"].
#[global] Instance BucketLogsPermission_rt : RoundTrip ser_BucketLogsPermission de_BucketLogsPermission string_wf := enum_rt _.
Lemma de_BucketLogsPermission_well : well de_BucketLogsPermission.
Proof. apply de_enum_well. Qed.
#[export] Hint Resolve de_BucketLogsPermission_well : de.
#[global] Typeclasses Opaque ser_BucketLogsPermission de_BucketLogsPermission.

Record TargetGrant := mk_TargetGrant { TargetGrant_grantee : option Grantee; TargetGrant_permission : option BucketLogsPermission }.
Definition ser_TargetGrant (self : TargetGrant) : Ser := s_seq (grant_content ser_BucketLogsPermission (TargetGrant_grantee self) (TargetGrant_permission self)).
Definition de_TargetGrant : De TargetGrant :=
  '(grantee, permission) ← for_each_element_with_start (grant_arm de_BucketLogsPermission) (None, None);
  mret {| TargetGrant_grantee := grantee; TargetGrant_permission := permission |}.
Definition TargetGrant_wf (self : TargetGrant) : Prop :=
  from_option Grantee_wf True (TargetGrant_grantee self) /\ from_option string_wf True (TargetGrant_permission self).
#[global] Instance TargetGrant_rt : RoundTrip ser_TargetGrant de_TargetGrant TargetGrant_wf.
Proof. apply (grant_round_trip ser_BucketLogsPermission de_BucketLogsPermission string_wf mk_TargetGrant); [apply _|auto with de|by intros []]. Qed.
Lemma de_TargetGrant_well : well de_TargetGrant.
Proof.
  apply well_bind; [|by intros []; auto with de]. apply for_each_element_with_start_well. intros. apply grant_arm_well. auto with de.
Qed.
#[export] Hint Resolve de_TargetGrant_well : de.
#[global] Typeclasses Opaque ser_TargetGrant de_TargetGrant.

Definition PartitionDateSource : Type := bytes.
Definition ser_PartitionDateSource (self : PartitionDateSource) : Ser := ser_str self.
Definition de_PartitionDateSource : De PartitionDateSource := de_enum [str "DeliveryTime"; str "EventTime"].
#[global] Instance PartitionDateSource_rt : RoundTrip ser_PartitionDateSource de_PartitionDateSource string_wf := enum_rt _.
Lemma de_PartitionDateSource_well : well de_PartitionDateSource.
Proof. apply de_enum_well. Qed.
#[export] Hint Resolve de_PartitionDateSource_well : de.
#[global] Typeclasses Opaque ser_PartitionDateSource de_PartitionDateSource.

Record PartitionedPrefix := mk_PartitionedPrefix {
  PartitionedPrefix_partition_date_source : option PartitionDateSource
}.
Definition ser_PartitionedPrefix (self : PartitionedPrefix) : Ser :=
  s_seq [
    if_some (PartitionedPrefix_partition_date_source self) (s_content ser_PartitionDateSource (str "PartitionDateSource"))].
Definition de_PartitionedPrefix : De PartitionedPrefix := de_struct false
   (arm_once (str "PartitionDateSource") de_PartitionDateSource
    no_arms)
    (fun '(partition_date_source, tt) =>
      Ok {| PartitionedPrefix_partition_date_source := partition_date_source |}).
Definition PartitionedPrefix_wf (self : PartitionedPrefix) : Prop :=

    from_option string_wf True (PartitionedPrefix_partition_date_source self).
#[global] Instance PartitionedPrefix_rt : RoundTrip ser_PartitionedPrefix de_PartitionedPrefix PartitionedPrefix_wf.
Proof. solve_struct (fun self : PartitionedPrefix => (PartitionedPrefix_partition_date_source self, tt)). Qed.
Lemma de_PartitionedPrefix_well : well de_PartitionedPrefix.
Proof. solve_well. Qed.
#[export] Hint Resolve de_PartitionedPrefix_well : de.
#[global] Typeclasses Opaque ser_PartitionedPrefix de_PartitionedPrefix.

Record SimplePrefix := mk_SimplePrefix {}.
Definition ser_SimplePrefix (self : SimplePrefix) : Ser :=
  s_seq [].
Definition de_SimplePrefix : De SimplePrefix := mret mk_SimplePrefix.
Definition SimplePrefix_wf (_ : SimplePrefix) : Prop := True.
#[global] Instance SimplePrefix_rt : RoundTrip ser_SimplePrefix de_SimplePrefix SimplePrefix_wf.
Proof. apply empty_round_trip; [done|]. by intros []. Qed.
Lemma de_SimplePrefix_well : well de_SimplePrefix.
Proof. apply well_ret. Qed.
#[export] Hint Resolve de_SimplePrefix_well : de.
#[global] Typeclasses Opaque ser_SimplePrefix de_SimplePrefix.

Record TargetObjectKeyFormat := mk_TargetObjectKeyFormat {
  TargetObjectKeyFormat_partitioned_prefix : option PartitionedPrefix;
  TargetObjectKeyFormat_simple_prefix : option SimplePrefix
}.
Definition ser_TargetObjectKeyFormat (self : TargetObjectKeyFormat) : Ser :=
  s_seq [
    if_some (TargetObjectKeyFormat_partitioned_prefix self) (s_content ser_PartitionedPrefix (str "PartitionedPrefix"));
    if_some (TargetObjectKeyFormat_simple_prefix self) (s_content ser_SimplePrefix (str "SimplePrefix"))].
Definition de_TargetObjectKeyFormat : De TargetObjectKeyFormat := de_struct false
   (arm_once (str "PartitionedPrefix") de_PartitionedPrefix
    (arm_once (str "SimplePrefix") de_SimplePrefix
    no_arms))
    (fun '(partitioned_prefix, (simple_prefix, tt)) =>
      Ok {| TargetObjectKeyFormat_partitioned_prefix := partitioned_prefix;
         TargetObjectKeyFormat_simple_prefix := simple_prefix |}).
Definition TargetObjectKeyFormat_wf (self : TargetObjectKeyFormat) : Prop :=
  from_option PartitionedPrefix_wf True (TargetObjectKeyFormat_partitioned_prefix self) /\
  from_option SimplePrefix_wf True (TargetObjectKeyFormat_simple_prefix self).
#[global] Instance TargetObjectKeyFormat_rt : RoundTrip ser_TargetObjectKeyFormat de_TargetObjectKeyFormat TargetObjectKeyFormat_wf.
Proof. solve_struct (fun self : TargetObjectKeyFormat => (TargetObjectKeyFormat_partitioned_prefix self, (TargetObjectKeyFormat_simple_prefix self, tt))). Qed.
Lemma de_TargetObjectKeyFormat_well : well de_TargetObjectKeyFormat.
Proof. solve_well. Qed.
#[export] Hint Resolve de_TargetObjectKeyFormat_well : de.
#[global] Typeclasses Opaque ser_TargetObjectKeyFormat de_TargetObjectKeyFormat.

Record LoggingEnabled := mk_LoggingEnabled {
  LoggingEnabled_target_bucket : bytes;
  LoggingEnabled_target_grants : option (list TargetGrant);
  LoggingEnabled_target_object_key_format : option TargetObjectKeyFormat;
  LoggingEnabled_target_prefix : bytes
}.
Definition ser_LoggingEnabled (self : LoggingEnabled) : Ser :=
  s_seq [
    s_content ser_str (str "TargetBucket") (LoggingEnabled_target_bucket self);
    if_some (LoggingEnabled_target_grants self) (s_list ser_TargetGrant (str "TargetGrants") (str "Grant"));
    if_some (LoggingEnabled_target_object_key_format self) (s_content ser_TargetObjectKeyFormat (str "TargetObjectKeyFormat"));
    s_content ser_str (str "TargetPrefix") (LoggingEnabled_target_prefix self)].
Definition de_LoggingEnabled : De LoggingEnabled := de_struct false
   (arm_once (str "TargetBucket") de_string
    (arm_once (str "TargetGrants") (list_content de_TargetGrant (str "Grant"))
    (arm_once (str "TargetObjectKeyFormat") de_TargetObjectKeyFormat
    (arm_once (str "TargetPrefix") de_string
    no_arms))))
    (fun '(target_bucket, (target_grants, (target_object_key_format, (target_prefix, tt)))) =>
      target_bucket ← required target_bucket;
      target_prefix ← required target_prefix;
      Ok {| LoggingEnabled_target_bucket := target_bucket;
         LoggingEnabled_target_grants := target_grants;
         LoggingEnabled_target_object_key_format := target_object_key_format;
         LoggingEnabled_target_prefix := target_prefix |}).
Definition LoggingEnabled_wf (self : LoggingEnabled) : Prop :=
  string_wf (LoggingEnabled_target_bucket self) /\
  from_option (Forall TargetGrant_wf) True (LoggingEnabled_target_grants self) /\
  from_option TargetObjectKeyFormat_wf True (LoggingEnabled_target_object_key_format self) /\
  string_wf (LoggingEnabled_target_prefix self).
#[global] Instance LoggingEnabled_rt : RoundTrip ser_LoggingEnabled de_LoggingEnabled LoggingEnabled_wf.
Proof. solve_struct (fun self : LoggingEnabled => (Some (LoggingEnabled_target_bucket self), (LoggingEnabled_target_grants self, (LoggingEnabled_target_object_key_format self, (Some (LoggingEnabled_target_prefix self), tt))))). Qed.
Lemma de_LoggingEnabled_well : well de_LoggingEnabled.
Proof. solve_well. Qed.
#[export] Hint Resolve de_LoggingEnabled_well : de.
#[global] Typeclasses Opaque ser_LoggingEnabled de_LoggingEnabled.

Record BucketLoggingStatus := mk_BucketLoggingStatus { BucketLoggingStatus_logging_enabled : option LoggingEnabled }.
Definition ser_BucketLoggingStatus (self : BucketLoggingStatus) : Ser :=
  s_seq [
    if_some (BucketLoggingStatus_logging_enabled self) (s_content ser_LoggingEnabled (str "LoggingEnabled"))].
Definition de_BucketLoggingStatus : De BucketLoggingStatus := de_struct true
   (arm_once (str "LoggingEnabled") de_LoggingEnabled
    no_arms)
    (fun '(logging_enabled, tt) =>
      Ok {| BucketLoggingStatus_logging_enabled := logging_enabled |}).
Definition BucketLoggingStatus_wf (self : BucketLoggingStatus) : Prop :=

    from_option LoggingEnabled_wf True (BucketLoggingStatus_logging_enabled self).
#[global] Instance BucketLoggingStatus_rt : RoundTrip ser_BucketLoggingStatus de_BucketLoggingStatus BucketLoggingStatus_wf.
Proof. solve_struct (fun self : BucketLoggingStatus => (BucketLoggingStatus_logging_enabled self, tt)). Qed.
Lemma de_BucketLoggingStatus_well : well de_BucketLoggingStatus.
Proof. solve_well. Qed.
#[export] Hint Resolve de_BucketLoggingStatus_well : de.
#[global] Typeclasses Opaque ser_BucketLoggingStatus de_BucketLoggingStatus.

Record CORSRule := mk_CORSRule {
  CORSRule_allowed_headers : option (list bytes);
  CORSRule_allowed_methods : list bytes;
  CORSRule_allowed_origins : list bytes;
  CORSRule_expose_headers : option (list bytes);
  CORSRule_id : option bytes;
  CORSRule_max_age_seconds : option Z
}.
Definition ser_CORSRule (self : CORSRule) : Ser :=
  s_seq [
    if_some (CORSRule_allowed_headers self) (s_flattened_list ser_str (str "AllowedHeader"));
    s_flattened_list ser_str (str "AllowedMethod") (CORSRule_allowed_methods self);
    s_flattened_list ser_str (str "AllowedOrigin") (CORSRule_allowed_origins self);
    if_some (CORSRule_expose_headers self) (s_flattened_list ser_str (str "ExposeHeader"));
    if_some (CORSRule_id self) (s_content ser_str (str "ID"));
    if_some (CORSRule_max_age_seconds self) (s_content ser_i32 (str "MaxAgeSeconds"))].
Definition de_CORSRule `{XmlDeps} : De CORSRule := de_struct false
   (arm_push (str "AllowedHeader") de_string
    (arm_push (str "AllowedMethod") de_string
    (arm_push (str "AllowedOrigin") de_string
    (arm_push (str "ExposeHeader") de_string
    (arm_once (str "ID") de_string
    (arm_once (str "MaxAgeSeconds") de_i32
    no_arms))))))
    (fun '(allowed_headers, (allowed_methods, (allowed_origins, (expose_headers, (id, (max_age_seconds, tt)))))) =>
      allowed_methods ← required allowed_methods;
      allowed_origins ← required allowed_origins;
      Ok {| CORSRule_allowed_headers := allowed_headers;
         CORSRule_allowed_methods := allowed_methods;
         CORSRule_allowed_origins := allowed_origins;
         CORSRule_expose_headers := expose_headers;
         CORSRule_id := id;
         CORSRule_max_age_seconds := max_age_seconds |}).
Definition CORSRule_wf (self : CORSRule) : Prop :=
  from_option (fun l => Forall string_wf l /\ l <> []) True (CORSRule_allowed_headers self) /\
  Forall string_wf (CORSRule_allowed_methods self) /\
  (CORSRule_allowed_methods self) <> [] /\
  Forall string_wf (CORSRule_allowed_origins self) /\
  (CORSRule_allowed_origins self) <> [] /\
  from_option (fun l => Forall string_wf l /\ l <> []) True (CORSRule_expose_headers self) /\
  from_option string_wf True (CORSRule_id self) /\
  from_option i32_wf True (CORSRule_max_age_seconds self).
#[global] Instance CORSRule_rt `{XmlDeps} : RoundTrip ser_CORSRule de_CORSRule CORSRule_wf.
Proof. solve_struct (fun self : CORSRule => (CORSRule_allowed_headers self, (Some (CORSRule_allowed_methods self), (Some (CORSRule_allowed_origins self), (CORSRule_expose_headers self, (CORSRule_id self, (CORSRule_max_age_seconds self, tt))))))). Qed.
Lemma de_CORSRule_well `{XmlDeps} : well de_CORSRule.
Proof. solve_well. Qed.
#[export] Hint Resolve de_CORSRule_well : de.
#[global] Typeclasses Opaque ser_CORSRule de_CORSRule.

Record CORSConfiguration := mk_CORSConfiguration { CORSConfiguration_cors_rules : list CORSRule }.
Definition ser_CORSConfiguration (self : CORSConfiguration) : Ser :=
  s_seq [
    s_flattened_list ser_CORSRule (str "CORSRule") (CORSConfiguration_cors_rules self)].
Definition de_CORSConfiguration `{XmlDeps} : De CORSConfiguration := de_struct true
   (arm_push (str "CORSRule") de_CORSRule
    no_arms)
    (fun '(cors_rules, tt) =>
      cors_rules ← required cors_rules;
      Ok {| CORSConfiguration_cors_rules := cors_rules |}).
Definition CORSConfiguration_wf (self : CORSConfiguration) : Prop :=

    Forall CORSRule_wf (CORSConfiguration_cors_rules self) /\
    (CORSConfiguration_cors_rules self) <> [].
#[global] Instance CORSConfiguration_rt `{XmlDeps} : RoundTrip ser_CORSConfiguration de_CORSConfiguration CORSConfiguration_wf.
Proof. solve_struct (fun self : CORSConfiguration => (Some (CORSConfiguration_cors_rules self), tt)). Qed.
Lemma de_CORSConfiguration_well `{XmlDeps} : well de_CORSConfiguration.
Proof. solve_well. Qed.
#[export] Hint Resolve de_CORSConfiguration_well : de.
#[global] Typeclasses Opaque ser_CORSConfiguration de_CORSConfiguration.

Record CompletedPart := mk_CompletedPart {
  CompletedPart_checksum_crc32 : option bytes;
  CompletedPart_checksum_crc32c : option bytes;
  CompletedPart_checksum_crc64nvme : option bytes;
  CompletedPart_checksum_md5 : option bytes;
  CompletedPart_checksum_sha1 : option bytes;
  CompletedPart_checksum_sha256 : option bytes;
  CompletedPart_checksum_sha512 : option bytes;
  CompletedPart_checksum_xxhash128 : option bytes;
  CompletedPart_checksum_xxhash3 : option bytes;
  CompletedPart_checksum_xxhash64 : option bytes;
  CompletedPart_e_tag : option ETag;
  CompletedPart_part_number : option Z
}.
Definition ser_CompletedPart (self : CompletedPart) : Ser :=
  s_seq [
    if_some (CompletedPart_checksum_crc32 self) (s_content ser_str (str "ChecksumCRC32"));
    if_some (CompletedPart_checksum_crc32c self) (s_content ser_str (str "ChecksumCRC32C"));
    if_some (CompletedPart_checksum_crc64nvme self) (s_content ser_str (str "ChecksumCRC64NVME"));
    if_some (CompletedPart_checksum_md5 self) (s_content ser_str (str "ChecksumMD5"));
    if_some (CompletedPart_checksum_sha1 self) (s_content ser_str (str "ChecksumSHA1"));
    if_some (CompletedPart_checksum_sha256 self) (s_content ser_str (str "ChecksumSHA256"));
    if_some (CompletedPart_checksum_sha512 self) (s_content ser_str (str "ChecksumSHA512"));
    if_some (CompletedPart_checksum_xxhash128 self) (s_content ser_str (str "ChecksumXXHASH128"));
    if_some (CompletedPart_checksum_xxhash3 self) (s_content ser_str (str "ChecksumXXHASH3"));
    if_some (CompletedPart_checksum_xxhash64 self) (s_content ser_str (str "ChecksumXXHASH64"));
    if_some (CompletedPart_e_tag self) (s_content ser_ETag (str "ETag"));
    if_some (CompletedPart_part_number self) (s_content ser_i32 (str "PartNumber"))].
Definition de_CompletedPart `{XmlDeps} : De CompletedPart := de_struct false
   (arm_once (str "ChecksumCRC32") de_string
    (arm_once (str "ChecksumCRC32C") de_string
    (arm_once (str "ChecksumCRC64NVME") de_string
    (arm_once (str "ChecksumMD5") de_string
    (arm_once (str "ChecksumSHA1") de_string
    (arm_once (str "ChecksumSHA256") de_string
    (arm_once (str "ChecksumSHA512") de_string
    (arm_once (str "ChecksumXXHASH128") de_string
    (arm_once (str "ChecksumXXHASH3") de_string
    (arm_once (str "ChecksumXXHASH64") de_string
    (arm_once (str "ETag") de_ETag
    (arm_once (str "PartNumber") de_i32
    no_arms))))))))))))
    (fun '(checksum_crc32, (checksum_crc32c, (checksum_crc64nvme, (checksum_md5, (checksum_sha1, (checksum_sha256, (checksum_sha512, (checksum_xxhash128, (checksum_xxhash3, (checksum_xxhash64, (e_tag, (part_number, tt)))))))))))) =>
      Ok {| CompletedPart_checksum_crc32 := checksum_crc32;
         CompletedPart_checksum_crc32c := checksum_crc32c;
         CompletedPart_checksum_crc64nvme := checksum_crc64nvme;
         CompletedPart_checksum_md5 := checksum_md5;
         CompletedPart_checksum_sha1 := checksum_sha1;
         CompletedPart_checksum_sha256 := checksum_sha256;
         CompletedPart_checksum_sha512 := checksum_sha512;
         CompletedPart_checksum_xxhash128 := checksum_xxhash128;
         CompletedPart_checksum_xxhash3 := checksum_xxhash3;
         CompletedPart_checksum_xxhash64 := checksum_xxhash64;
         CompletedPart_e_tag := e_tag;
         CompletedPart_part_number := part_number |}).
Definition CompletedPart_wf (self : CompletedPart) : Prop :=
  from_option string_wf True (CompletedPart_checksum_crc32 self) /\
  from_option string_wf True (CompletedPart_checksum_crc32c self) /\
  from_option string_wf True (CompletedPart_checksum_crc64nvme self) /\
  from_option string_wf True (CompletedPart_checksum_md5 self) /\
  from_option string_wf True (CompletedPart_checksum_sha1 self) /\
  from_option string_wf True (CompletedPart_checksum_sha256 self) /\
  from_option string_wf True (CompletedPart_checksum_sha512 self) /\
  from_option string_wf True (CompletedPart_checksum_xxhash128 self) /\
  from_option string_wf True (CompletedPart_checksum_xxhash3 self) /\
  from_option string_wf True (CompletedPart_checksum_xxhash64 self) /\
  from_option ETag_wf True (CompletedPart_e_tag self) /\
  from_option i32_wf True (CompletedPart_part_number self).
#[global] Instance CompletedPart_rt `{XmlDeps} : RoundTrip ser_CompletedPart de_CompletedPart CompletedPart_wf.
Proof. solve_struct (fun self : CompletedPart => (CompletedPart_checksum_crc32 self, (CompletedPart_checksum_crc32c self, (CompletedPart_checksum_crc64nvme self, (CompletedPart_checksum_md5 self, (CompletedPart_checksum_sha1 self, (CompletedPart_checksum_sha256 self, (CompletedPart_checksum_sha512 self, (CompletedPart_checksum_xxhash128 self, (CompletedPart_checksum_xxhash3 self, (CompletedPart_checksum_xxhash64 self, (CompletedPart_e_tag self, (CompletedPart_part_number self, tt))))))))))))). Qed.
Lemma de_CompletedPart_well `{XmlDeps} : well de_CompletedPart.
Proof. solve_well. Qed.
#[export] Hint Resolve de_CompletedPart_well : de.
#[global] Typeclasses Opaque ser_CompletedPart de_CompletedPart.

Record CompletedMultipartUpload := mk_CompletedMultipartUpload {
  CompletedMultipartUpload_parts : option (list CompletedPart)
}.
Definition ser_CompletedMultipartUpload (self : CompletedMultipartUpload) : Ser :=
  s_seq [
    if_some (CompletedMultipartUpload_parts self) (s_flattened_list ser_CompletedPart (str "Part"))].
Definition de_CompletedMultipartUpload `{XmlDeps} : De CompletedMultipartUpload := de_struct true
   (arm_push (str "Part") de_CompletedPart
    no_arms)
    (fun '(parts, tt) =>
      Ok {| CompletedMultipartUpload_parts := parts |}).
Definition CompletedMultipartUpload_wf (self : CompletedMultipartUpload) : Prop :=

    from_option (fun l => Forall CompletedPart_wf l /\ l <> []) True (CompletedMultipartUpload_parts self).
#[global] Instance CompletedMultipartUpload_rt `{XmlDeps} : RoundTrip ser_CompletedMultipartUpload de_CompletedMultipartUpload CompletedMultipartUpload_wf.
Proof. solve_struct (fun self : CompletedMultipartUpload => (CompletedMultipartUpload_parts self, tt)). Qed.
Lemma de_CompletedMultipartUpload_well `{XmlDeps} : well de_CompletedMultipartUpload.
Proof. solve_well. Qed.
#[export] Hint Resolve de_CompletedMultipartUpload_well : de.
#[global] Typeclasses Opaque ser_CompletedMultipartUpload de_CompletedMultipartUpload.

Definition ChecksumType : Type := bytes.
Definition ser_ChecksumType (self : ChecksumType) : Ser := ser_str self.
Definition de_ChecksumType : De ChecksumType := de_enum [str "COMPOSITE"; str "FULL_OBJECT"].
#[global] Instance ChecksumType_rt : RoundTrip ser_ChecksumType de_ChecksumType string_wf := enum_rt _.
Lemma de_ChecksumType_well : well de_ChecksumType.
Proof. apply de_enum_well. Qed.
#[export] Hint Resolve de_ChecksumType_well : de.
#[global] Typeclasses Opaque ser_ChecksumType de_ChecksumType.

Record CopyObjectResult := mk_CopyObjectResult {
  CopyObjectResult_checksum_crc32 : option bytes;
  CopyObjectResult_checksum_crc32c : option bytes;
  CopyObjectResult_checksum_crc64nvme : option bytes;
  CopyObjectResult_checksum_md5 : option bytes;
  CopyObjectResult_checksum_sha1 : option bytes;
  CopyObjectResult_checksum_sha256 : option bytes;
  CopyObjectResult_checksum_sha512 : option bytes;
  CopyObjectResult_checksum_type : option ChecksumType;
  CopyObjectResult_checksum_xxhash128 : option bytes;
  CopyObjectResult_checksum_xxhash3 : option bytes;
  CopyObjectResult_checksum_xxhash64 : option bytes;
  CopyObjectResult_e_tag : option ETag;
  CopyObjectResult_last_modified : option Timestamp
}.
Definition ser_CopyObjectResult `{XmlDeps} (self : CopyObjectResult) : Ser :=
  s_seq [
    if_some (CopyObjectResult_checksum_crc32 self) (s_content ser_str (str "ChecksumCRC32"));
    if_some (CopyObjectResult_checksum_crc32c self) (s_content ser_str (str "ChecksumCRC32C"));
    if_some (CopyObjectResult_checksum_crc64nvme self) (s_content ser_str (str "ChecksumCRC64NVME"));
    if_some (CopyObjectResult_checksum_md5 self) (s_content ser_str (str "ChecksumMD5"));
    if_some (CopyObjectResult_checksum_sha1 self) (s_content ser_str (str "ChecksumSHA1"));
    if_some (CopyObjectResult_checksum_sha256 self) (s_content ser_str (str "ChecksumSHA256"));
    if_some (CopyObjectResult_checksum_sha512 self) (s_content ser_str (str "ChecksumSHA512"));
    if_some (CopyObjectResult_checksum_type self) (s_content ser_ChecksumType (str "ChecksumType"));
    if_some (CopyObjectResult_checksum_xxhash128 self) (s_content ser_str (str "ChecksumXXHASH128"));
    if_some (CopyObjectResult_checksum_xxhash3 self) (s_content ser_str (str "ChecksumXXHASH3"));
    if_some (CopyObjectResult_checksum_xxhash64 self) (s_content ser_str (str "ChecksumXXHASH64"));
    if_some (CopyObjectResult_e_tag self) (s_content ser_ETag (str "ETag"));
    if_some (CopyObjectResult_last_modified self) (fun val => s_timestamp (str "LastModified") val DateTime)].
Definition de_CopyObjectResult `{XmlDeps} : De CopyObjectResult := de_struct false
   (arm_once (str "ChecksumCRC32") de_string
    (arm_once (str "ChecksumCRC32C") de_string
    (arm_once (str "ChecksumCRC64NVME") de_string
    (arm_once (str "ChecksumMD5") de_string
    (arm_once (str "ChecksumSHA1") de_string
    (arm_once (str "ChecksumSHA256") de_string
    (arm_once (str "ChecksumSHA512") de_string
    (arm_once (str "ChecksumType") de_ChecksumType
    (arm_once (str "ChecksumXXHASH128") de_string
    (arm_once (str "ChecksumXXHASH3") de_string
    (arm_once (str "ChecksumXXHASH64") de_string
    (arm_once (str "ETag") de_ETag
    (arm_once (str "LastModified") (de_timestamp DateTime)
    no_arms)))))))))))))
    (fun '(checksum_crc32, (checksum_crc32c, (checksum_crc64nvme, (checksum_md5, (checksum_sha1, (checksum_sha256, (checksum_sha512, (checksum_type, (checksum_xxhash128, (checksum_xxhash3, (checksum_xxhash64, (e_tag, (last_modified, tt))))))))))))) =>
      Ok {| CopyObjectResult_checksum_crc32 := checksum_crc32;
         CopyObjectResult_checksum_crc32c := checksum_crc32c;
         CopyObjectResult_checksum_crc64nvme := checksum_crc64nvme;
         CopyObjectResult_checksum_md5 := checksum_md5;
         CopyObjectResult_checksum_sha1 := checksum_sha1;
         CopyObjectResult_checksum_sha256 := checksum_sha256;
         CopyObjectResult_checksum_sha512 := checksum_sha512;
         CopyObjectResult_checksum_type := checksum_type;
         CopyObjectResult_checksum_xxhash128 := checksum_xxhash128;
         CopyObjectResult_checksum_xxhash3 := checksum_xxhash3;
         CopyObjectResult_checksum_xxhash64 := checksum_xxhash64;
         CopyObjectResult_e_tag := e_tag;
         CopyObjectResult_last_modified := last_modified |}).
Definition CopyObjectResult_wf (self : CopyObjectResult) : Prop :=
  from_option string_wf True (CopyObjectResult_checksum_crc32 self) /\
  from_option string_wf True (CopyObjectResult_checksum_crc32c self) /\
  from_option string_wf True (CopyObjectResult_checksum_crc64nvme self) /\
  from_option string_wf True (CopyObjectResult_checksum_md5 self) /\
  from_option string_wf True (CopyObjectResult_checksum_sha1 self) /\
  from_option string_wf True (CopyObjectResult_checksum_sha256 self) /\
  from_option string_wf True (CopyObjectResult_checksum_sha512 self) /\
  from_option string_wf True (CopyObjectResult_checksum_type self) /\
  from_option string_wf True (CopyObjectResult_checksum_xxhash128 self) /\
  from_option string_wf True (CopyObjectResult_checksum_xxhash3 self) /\
  from_option string_wf True (CopyObjectResult_checksum_xxhash64 self) /\
  from_option ETag_wf True (CopyObjectResult_e_tag self) /\
  from_option (timestamp_wf DateTime) True (CopyObjectResult_last_modified self).
#[global] Instance CopyObjectResult_rt `{XmlDeps} : RoundTrip ser_CopyObjectResult de_CopyObjectResult CopyObjectResult_wf.
Proof. solve_struct (fun self : CopyObjectResult => (CopyObjectResult_checksum_crc32 self, (CopyObjectResult_checksum_crc32c self, (CopyObjectResult_checksum_crc64nvme self, (CopyObjectResult_checksum_md5 self, (CopyObjectResult_checksum_sha1 self, (CopyObjectResult_checksum_sha256 self, (CopyObjectResult_checksum_sha512 self, (CopyObjectResult_checksum_type self, (CopyObjectResult_checksum_xxhash128 self, (CopyObjectResult_checksum_xxhash3 self, (CopyObjectResult_checksum_xxhash64 self, (CopyObjectResult_e_tag self, (CopyObjectResult_last_modified self, tt)))))))))))))). Qed.
Lemma de_CopyObjectResult_well `{XmlDeps} : well de_CopyObjectResult.
Proof. solve_well. Qed.
#[export] Hint Resolve de_CopyObjectResult_well : de.
#[global] Typeclasses Opaque ser_CopyObjectResult de_CopyObjectResult.

Record CopyPartResult := mk_CopyPartResult {
  CopyPartResult_checksum_crc32 : option bytes;
  CopyPartResult_checksum_crc32c : option bytes;
  CopyPartResult_checksum_crc64nvme : option bytes;
  CopyPartResult_checksum_md5 : option bytes;
  CopyPartResult_checksum_sha1 : option bytes;
  CopyPartResult_checksum_sha256 : option bytes;
  CopyPartResult_checksum_sha512 : option bytes;
  CopyPartResult_checksum_xxhash128 : option bytes;
  CopyPartResult_checksum_xxhash3 : option bytes;
  CopyPartResult_checksum_xxhash64 : option bytes;
  CopyPartResult_e_tag : option ETag;
  CopyPartResult_last_modified : option Timestamp
}.
Definition ser_CopyPartResult `{XmlDeps} (self : CopyPartResult) : Ser :=
  s_seq [
    if_some (CopyPartResult_checksum_crc32 self) (s_content ser_str (str "ChecksumCRC32"));
    if_some (CopyPartResult_checksum_crc32c self) (s_content ser_str (str "ChecksumCRC32C"));
    if_some (CopyPartResult_checksum_crc64nvme self) (s_content ser_str (str "ChecksumCRC64NVME"));
    if_some (CopyPartResult_checksum_md5 self) (s_content ser_str (str "ChecksumMD5"));
    if_some (CopyPartResult_checksum_sha1 self) (s_content ser_str (str "ChecksumSHA1"));
    if_some (CopyPartResult_checksum_sha256 self) (s_content ser_str (str "ChecksumSHA256"));
    if_some (CopyPartResult_checksum_sha512 self) (s_content ser_str (str "ChecksumSHA512"));
    if_some (CopyPartResult_checksum_xxhash128 self) (s_content ser_str (str "ChecksumXXHASH128"));
    if_some (CopyPartResult_checksum_xxhash3 self) (s_content ser_str (str "ChecksumXXHASH3"));
    if_some (CopyPartResult_checksum_xxhash64 self) (s_content ser_str (str "ChecksumXXHASH64"));
    if_some (CopyPartResult_e_tag self) (s_content ser_ETag (str "ETag"));
    if_some (CopyPartResult_last_modified self) (fun val => s_timestamp (str "LastModified") val DateTime)].
Definition de_CopyPartResult `{XmlDeps} : De CopyPartResult := de_struct false
   (arm_once (str "ChecksumCRC32") de_string
    (arm_once (str "ChecksumCRC32C") de_string
    (arm_once (str "ChecksumCRC64NVME") de_string
    (arm_once (str "ChecksumMD5") de_string
    (arm_once (str "ChecksumSHA1") de_string
    (arm_once (str "ChecksumSHA256") de_string
    (arm_once (str "ChecksumSHA512") de_string
    (arm_once (str "ChecksumXXHASH128") de_string
    (arm_once (str "ChecksumXXHASH3") de_string
    (arm_once (str "ChecksumXXHASH64") de_string
    (arm_once (str "ETag") de_ETag
    (arm_once (str "LastModified") (de_timestamp DateTime)
    no_arms))))))))))))
    (fun '(checksum_crc32, (checksum_crc32c, (checksum_crc64nvme, (checksum_md5, (checksum_sha1, (checksum_sha256, (checksum_sha512, (checksum_xxhash128, (checksum_xxhash3, (checksum_xxhash64, (e_tag, (last_modified, tt)))))))))))) =>
      Ok {| CopyPartResult_checksum_crc32 := checksum_crc32;
         CopyPartResult_checksum_crc32c := checksum_crc32c;
         CopyPartResult_checksum_crc64nvme := checksum_crc64nvme;
         CopyPartResult_checksum_md5 := checksum_md5;
         CopyPartResult_checksum_sha1 := checksum_sha1;
         CopyPartResult_checksum_sha256 := checksum_sha256;
         CopyPartResult_checksum_sha512 := checksum_sha512;
         CopyPartResult_checksum_xxhash128 := checksum_xxhash128;
         CopyPartResult_checksum_xxhash3 := checksum_xxhash3;
         CopyPartResult_checksum_xxhash64 := checksum_xxhash64;
         CopyPartResult_e_tag := e_tag;
         CopyPartResult_last_modified := last_modified |}).
Definition CopyPartResult_wf (self : CopyPartResult) : Prop :=
  from_option string_wf True (CopyPartResult_checksum_crc32 self) /\
  from_option string_wf True (CopyPartResult_checksum_crc32c self) /\
  from_option string_wf True (CopyPartResult_checksum_crc64nvme self) /\
  from_option string_wf True (CopyPartResult_checksum_md5 self) /\
  from_option string_wf True (CopyPartResult_checksum_sha1 self) /\
  from_option string_wf True (CopyPartResult_checksum_sha256 self) /\
  from_option string_wf True (CopyPartResult_checksum_sha512 self) /\
  from_option string_wf True (CopyPartResult_checksum_xxhash128 self) /\
  from_option string_wf True (CopyPartResult_checksum_xxhash3 self) /\
  from_option string_wf True (CopyPartResult_checksum_xxhash64 self) /\
  from_option ETag_wf True (CopyPartResult_e_tag self) /\
  from_option (timestamp_wf DateTime) True (CopyPartResult_last_modified self).
#[global] Instance CopyPartResult_rt `{XmlDeps} : RoundTrip ser_CopyPartResult de_CopyPartResult CopyPartResult_wf.
Proof. solve_struct (fun self : CopyPartResult => (CopyPartResult_checksum_crc32 self, (CopyPartResult_checksum_crc32c self, (CopyPartResult_checksum_crc64nvme self, (CopyPartResult_checksum_md5 self, (CopyPartResult_checksum_sha1 self, (CopyPartResult_checksum_sha256 self, (CopyPartResult_checksum_sha512 self, (CopyPartResult_checksum_xxhash128 self, (CopyPartResult_checksum_xxhash3 self, (CopyPartResult_checksum_xxhash64 self, (CopyPartResult_e_tag self, (CopyPartResult_last_modified self, tt))))))))))))). Qed.
Lemma de_CopyPartResult_well `{XmlDeps} : well de_CopyPartResult.
Proof. solve_well. Qed.
#[export] Hint Resolve de_CopyPartResult_well : de.
#[global] Typeclasses Opaque ser_CopyPartResult de_CopyPartResult.

Definition BucketType : Type := bytes.
Definition ser_BucketType (self : BucketType) : Ser := ser_str self.
Definition de_BucketType : De BucketType := de_enum [str "Directory"].
#[global] Instance BucketType_rt : RoundTrip ser_BucketType de_BucketType string_wf := enum_rt _.
Lemma de_BucketType_well : well de_BucketType.
Proof. apply de_enum_well. Qed.
#[export] Hint Resolve de_BucketType_well : de.
#[global] Typeclasses Opaque ser_BucketType de_BucketType.

Definition DataRedundancy : Type := bytes.
Definition ser_DataRedundancy (self : DataRedundancy) : Ser := ser_str self.
Definition de_DataRedundancy : De DataRedundancy := de_enum [str "SingleAvailabilityZone"; str "SingleLocalZone"].
#[global] Instance DataRedundancy_rt : RoundTrip ser_DataRedundancy de_DataRedundancy string_wf := enum_rt _.
Lemma de_DataRedundancy_well : well de_DataRedundancy.
Proof. apply de_enum_well. Qed.
#[export] Hint Resolve de_DataRedundancy_well : de.
#[global] Typeclasses Opaque ser_DataRedundancy de_DataRedundancy.

Record BucketInfo := mk_BucketInfo {
  BucketInfo_data_redundancy : option DataRedundancy;
  BucketInfo_type_ : option BucketType
}.
Definition ser_BucketInfo (self : BucketInfo) : Ser :=
  s_seq [
    if_some (BucketInfo_data_redundancy self) (s_content ser_DataRedundancy (str "DataRedundancy"));
    if_some (BucketInfo_type_ self) (s_content ser_BucketType (str "Type"))].
Definition de_BucketInfo : De BucketInfo := de_struct false
   (arm_once (str "DataRedundancy") de_DataRedundancy
    (arm_once (str "Type") de_BucketType
    no_arms))
    (fun '(data_redundancy, (type_, tt)) =>
      Ok {| BucketInfo_data_redundancy := data_redundancy; BucketInfo_type_ := type_ |}).
Definition BucketInfo_wf (self : BucketInfo) : Prop :=

    from_option string_wf True (BucketInfo_data_redundancy self) /\
    from_option string_wf True (BucketInfo_type_ self).
#[global] Instance BucketInfo_rt : RoundTrip ser_BucketInfo de_BucketInfo BucketInfo_wf.
Proof. solve_struct (fun self : BucketInfo => (BucketInfo_data_redundancy self, (BucketInfo_type_ self, tt))). Qed.
Lemma de_BucketInfo_well : well de_BucketInfo.
Proof. solve_well. Qed.
#[export] Hint Resolve de_BucketInfo_well : de.
#[global] Typeclasses Opaque ser_BucketInfo de_BucketInfo.

Definition BucketLocationConstraint : Type := bytes.
Definition ser_BucketLocationConstraint (self : BucketLocationConstraint) : Ser := ser_str self.
Definition de_BucketLocationConstraint : De BucketLocationConstraint := de_enum [str "EU"; str "af-south-1"; str "ap-east-1"; str "ap-east-2"; str "ap-northeast-1"; str "ap-northeast-2"; str "ap-northeast-3"; str "ap-south-1"; str "ap-south-2"; str "ap-southeast-1"; str "ap-southeast-2"; str "ap-southeast-3"; str "ap-southeast-4"; str "ap-southeast-5"; str "ap-southeast-6"; str "ap-southeast-7"; str "ca-central-1"; str "ca-west-1"; str "cn-north-1"; str "cn-northwest-1"; str "eu-central-1"; str "eu-central-2"; str "eu-north-1"; str "eu-south-1"; str "eu-south-2"; str "eu-west-1"; str "eu-west-2"; str "eu-west-3"; str "il-central-1"; str "me-central-1"; str "me-south-1"; str "mx-central-1"; str "sa-east-1"; str "us-east-2"; str "us-gov-east-1"; str "us-gov-west-1"; str "us-west-1"; str "us-west-2"].
#[global] Instance BucketLocationConstraint_rt : RoundTrip ser_BucketLocationConstraint de_BucketLocationConstraint string_wf := enum_rt _.
Lemma de_BucketLocationConstraint_well : well de_BucketLocationConstraint.
Proof. apply de_enum_well. Qed.
#[export] Hint Resolve de_BucketLocationConstraint_well : de.
#[global] Typeclasses Opaque ser_BucketLocationConstraint de_BucketLocationConstraint.

Definition LocationType : Type := bytes.
Definition ser_LocationType (self : LocationType) : Ser := ser_str self.
Definition de_LocationType : De LocationType := de_enum [str "AvailabilityZone"; str "LocalZone"].
#[global] Instance LocationType_rt : RoundTrip ser_LocationType de_LocationType string_wf := enum_rt _.
Lemma de_LocationType_well : well de_LocationType.
Proof. apply de_enum_well. Qed.
#[export] Hint Resolve de_LocationType_well : de.
#[global] Typeclasses Opaque ser_LocationType de_LocationType.

Record LocationInfo := mk_LocationInfo { LocationInfo_name : option bytes; LocationInfo_type_ : option LocationType }.
Definition ser_LocationInfo (self : LocationInfo) : Ser :=
  s_seq [
    if_some (LocationInfo_name self) (s_content ser_str (str "Name"));
    if_some (LocationInfo_type_ self) (s_content ser_LocationType (str "Type"))].
Definition de_LocationInfo : De LocationInfo := de_struct false
   (arm_once (str "Name") de_string
    (arm_once (str "Type") de_LocationType
    no_arms))
    (fun '(name, (type_, tt)) =>
      Ok {| LocationInfo_name := name; LocationInfo_type_ := type_ |}).
Definition LocationInfo_wf (self : LocationInfo) : Prop :=

    from_option string_wf True (LocationInfo_name self) /\
    from_option string_wf True (LocationInfo_type_ self).
#[global] Instance LocationInfo_rt : RoundTrip ser_LocationInfo de_LocationInfo LocationInfo_wf.
Proof. solve_struct (fun self : LocationInfo => (LocationInfo_name self, (LocationInfo_type_ self, tt))). Qed.
Lemma de_LocationInfo_well : well de_LocationInfo.
Proof. solve_well. Qed.
#[export] Hint Resolve de_LocationInfo_well : de.
#[global] Typeclasses Opaque ser_LocationInfo de_LocationInfo.

Record CreateBucketConfiguration := mk_CreateBucketConfiguration {
  CreateBucketConfiguration_bucket : option BucketInfo;
  CreateBucketConfiguration_location : option LocationInfo;
  CreateBucketConfiguration_location_constraint : option BucketLocationConstraint;
  CreateBucketConfiguration_tags : option (list Tag)
}.
Definition ser_CreateBucketConfiguration (self : CreateBucketConfiguration) : Ser :=
  s_seq [
    if_some (CreateBucketConfiguration_bucket self) (s_content ser_BucketInfo (str "Bucket"));
    if_some (CreateBucketConfiguration_location self) (s_content ser_LocationInfo (str "Location"));
    if_some (CreateBucketConfiguration_location_constraint self) (s_content ser_BucketLocationConstraint (str "LocationConstraint"));
    if_some (CreateBucketConfiguration_tags self) (s_list ser_Tag (str "Tags") (str "Tag"))].
Definition de_CreateBucketConfiguration : De CreateBucketConfiguration := de_struct true
   (arm_once (str "Bucket") de_BucketInfo
    (arm_once (str "Location") de_LocationInfo
    (arm_once (str "LocationConstraint") de_BucketLocationConstraint
    (arm_once (str "Tags") (list_content de_Tag (str "Tag"))
    no_arms))))
    (fun '(bucket, (location, (location_constraint, (tags, tt)))) =>
      Ok {| CreateBucketConfiguration_bucket := bucket;
         CreateBucketConfiguration_location := location;
         CreateBucketConfiguration_location_constraint := location_constraint;
         CreateBucketConfiguration_tags := tags |}).
Definition CreateBucketConfiguration_wf (self : CreateBucketConfiguration) : Prop :=
  from_option BucketInfo_wf True (CreateBucketConfiguration_bucket self) /\
  from_option LocationInfo_wf True (CreateBucketConfiguration_location self) /\
  from_option string_wf True (CreateBucketConfiguration_location_constraint self) /\
  from_option (Forall Tag_wf) True (CreateBucketConfiguration_tags self).
#[global] Instance CreateBucketConfiguration_rt : RoundTrip ser_CreateBucketConfiguration de_CreateBucketConfiguration CreateBucketConfiguration_wf.
Proof. solve_struct (fun self : CreateBucketConfiguration => (CreateBucketConfiguration_bucket self, (CreateBucketConfiguration_location self, (CreateBucketConfiguration_location_constraint self, (CreateBucketConfiguration_tags self, tt))))). Qed.
Lemma de_CreateBucketConfiguration_well : well de_CreateBucketConfiguration.
Proof. solve_well. Qed.
#[export] Hint Resolve de_CreateBucketConfiguration_well : de.
#[global] Typeclasses Opaque ser_CreateBucketConfiguration de_CreateBucketConfiguration.

Record ObjectIdentifier := mk_ObjectIdentifier {
  ObjectIdentifier_e_tag : option ETag;
  ObjectIdentifier_key : bytes;
  ObjectIdentifier_last_modified_time : option Timestamp;
  ObjectIdentifier_size : option Z;
  ObjectIdentifier_version_id : option bytes
}.
Definition ser_ObjectIdentifier `{XmlDeps} (self : ObjectIdentifier) : Ser :=
  s_seq [
    if_some (ObjectIdentifier_e_tag self) (s_content ser_ETag (str "ETag"));
    s_content ser_str (str "Key") (ObjectIdentifier_key self);
    if_some (ObjectIdentifier_last_modified_time self) (fun val => s_timestamp (str "LastModifiedTime") val HttpDate);
    if_some (ObjectIdentifier_size self) (s_content ser_i64 (str "Size"));
    if_some (ObjectIdentifier_version_id self) (s_content ser_str (str "VersionId"))].
Definition de_ObjectIdentifier `{XmlDeps} : De ObjectIdentifier := de_struct false
   (arm_once (str "ETag") de_ETag
    (arm_once (str "Key") de_string
    (arm_once (str "LastModifiedTime") (de_timestamp HttpDate)
    (arm_once (str "Size") de_i64
    (arm_once (str "VersionId") de_string
    no_arms)))))
    (fun '(e_tag, (key, (last_modified_time, (size, (version_id, tt))))) =>
      key ← required key;
      Ok {| ObjectIdentifier_e_tag := e_tag;
         ObjectIdentifier_key := key;
         ObjectIdentifier_last_modified_time := last_modified_time;
         ObjectIdentifier_size := size;
         ObjectIdentifier_version_id := version_id |}).
Definition ObjectIdentifier_wf (self : ObjectIdentifier) : Prop :=
  from_option ETag_wf True (ObjectIdentifier_e_tag self) /\
  string_wf (ObjectIdentifier_key self) /\
  from_option (timestamp_wf HttpDate) True (ObjectIdentifier_last_modified_time self) /\
  from_option i64_wf True (ObjectIdentifier_size self) /\
  from_option string_wf True (ObjectIdentifier_version_id self).
#[global] Instance ObjectIdentifier_rt `{XmlDeps} : RoundTrip ser_ObjectIdentifier de_ObjectIdentifier ObjectIdentifier_wf.
Proof. solve_struct (fun self : ObjectIdentifier => (ObjectIdentifier_e_tag self, (Some (ObjectIdentifier_key self), (ObjectIdentifier_last_modified_time self, (ObjectIdentifier_size self, (ObjectIdentifier_version_id self, tt)))))). Qed.
Lemma de_ObjectIdentifier_well `{XmlDeps} : well de_ObjectIdentifier.
Proof. solve_well. Qed.
#[export] Hint Resolve de_ObjectIdentifier_well : de.
#[global] Typeclasses Opaque ser_ObjectIdentifier de_ObjectIdentifier.

Record Delete := mk_Delete { Delete_objects : list ObjectIdentifier; Delete_quiet : option bool }.
Definition ser_Delete `{XmlDeps} (self : Delete) : Ser :=
  s_seq [
    s_flattened_list ser_ObjectIdentifier (str "Object") (Delete_objects self);
    if_some (Delete_quiet self) (s_content ser_bool (str "Quiet"))].
Definition de_Delete `{XmlDeps} : De Delete := de_struct true
   (arm_push (str "Object") de_ObjectIdentifier
    (arm_once (str "Quiet") de_bool
    no_arms))
    (fun '(objects, (quiet, tt)) =>
      objects ← required objects;
      Ok {| Delete_objects := objects; Delete_quiet := quiet |}).
Definition Delete_wf (self : Delete) : Prop :=
  Forall ObjectIdentifier_wf (Delete_objects self) /\
  (Delete_objects self) <> [] /\
  from_option bool_wf True (Delete_quiet self).
#[global] Instance Delete_rt `{XmlDeps} : RoundTrip ser_Delete de_Delete Delete_wf.
Proof. solve_struct (fun self : Delete => (Some (Delete_objects self), (Delete_quiet self, tt))). Qed.
Lemma de_Delete_well `{XmlDeps} : well de_Delete.
Proof. solve_well. Qed.
#[export] Hint Resolve de_Delete_well : de.
#[global] Typeclasses Opaque ser_Delete de_Delete.

Record GetBucketAclOutput := mk_GetBucketAclOutput {
  GetBucketAclOutput_grants : option (list Grant);
  GetBucketAclOutput_owner : option Owner
}.
Definition ser_GetBucketAclOutput (self : GetBucketAclOutput) : Ser :=
  s_seq [
    if_some (GetBucketAclOutput_grants self) (s_list ser_Grant (str "AccessControlList") (str "Grant"));
    if_some (GetBucketAclOutput_owner self) (s_content ser_Owner (str "Owner"))].
Definition de_GetBucketAclOutput : De GetBucketAclOutput := de_struct false
   (arm_once (str "AccessControlList") (list_content de_Grant (str "Grant"))
    (arm_once (str "Owner") de_Owner
    no_arms))
    (fun '(grants, (owner, tt)) =>
      Ok {| GetBucketAclOutput_grants := grants; GetBucketAclOutput_owner := owner |}).
Definition GetBucketAclOutput_wf (self : GetBucketAclOutput) : Prop :=
  from_option (Forall Grant_wf) True (GetBucketAclOutput_grants self) /\
  from_option Owner_wf True (GetBucketAclOutput_owner self).
#[global] Instance GetBucketAclOutput_rt : RoundTrip ser_GetBucketAclOutput de_GetBucketAclOutput GetBucketAclOutput_wf.
Proof. solve_struct (fun self : GetBucketAclOutput => (GetBucketAclOutput_grants self, (GetBucketAclOutput_owner self, tt))). Qed.
Lemma de_GetBucketAclOutput_well : well de_GetBucketAclOutput.
Proof. solve_well. Qed.
#[export] Hint Resolve de_GetBucketAclOutput_well : de.
#[global] Typeclasses Opaque ser_GetBucketAclOutput de_GetBucketAclOutput.

Record GetBucketCorsOutput := mk_GetBucketCorsOutput { GetBucketCorsOutput_cors_rules : option (list CORSRule) }.
Definition ser_GetBucketCorsOutput (self : GetBucketCorsOutput) : Ser :=
  s_seq [
    if_some (GetBucketCorsOutput_cors_rules self) (s_flattened_list ser_CORSRule (str "CORSRule"))].
Definition de_GetBucketCorsOutput `{XmlDeps} : De GetBucketCorsOutput := de_struct false
   (arm_push (str "CORSRule") de_CORSRule
    no_arms)
    (fun '(cors_rules, tt) =>
      Ok {| GetBucketCorsOutput_cors_rules := cors_rules |}).
Definition GetBucketCorsOutput_wf (self : GetBucketCorsOutput) : Prop :=

    from_option (fun l => Forall CORSRule_wf l /\ l <> []) True (GetBucketCorsOutput_cors_rules self).
#[global] Instance GetBucketCorsOutput_rt `{XmlDeps} : RoundTrip ser_GetBucketCorsOutput de_GetBucketCorsOutput GetBucketCorsOutput_wf.
Proof. solve_struct (fun self : GetBucketCorsOutput => (GetBucketCorsOutput_cors_rules self, tt)). Qed.
Lemma de_GetBucketCorsOutput_well `{XmlDeps} : well de_GetBucketCorsOutput.
Proof. solve_well. Qed.
#[export] Hint Resolve de_GetBucketCorsOutput_well : de.
#[global] Typeclasses Opaque ser_GetBucketCorsOutput de_GetBucketCorsOutput.

Record GetBucketLoggingOutput := mk_GetBucketLoggingOutput {
  GetBucketLoggingOutput_logging_enabled : option LoggingEnabled
}.
Definition ser_GetBucketLoggingOutput (self : GetBucketLoggingOutput) : Ser :=
  s_seq [
    if_some (GetBucketLoggingOutput_logging_enabled self) (s_content ser_LoggingEnabled (str "LoggingEnabled"))].
Definition de_GetBucketLoggingOutput : De GetBucketLoggingOutput := de_struct false
   (arm_once (str "LoggingEnabled") de_LoggingEnabled
    no_arms)
    (fun '(logging_enabled, tt) =>
      Ok {| GetBucketLoggingOutput_logging_enabled := logging_enabled |}).
Definition GetBucketLoggingOutput_wf (self : GetBucketLoggingOutput) : Prop :=

    from_option LoggingEnabled_wf True (GetBucketLoggingOutput_logging_enabled self).
#[global] Instance GetBucketLoggingOutput_rt : RoundTrip ser_GetBucketLoggingOutput de_GetBucketLoggingOutput GetBucketLoggingOutput_wf.
Proof. solve_struct (fun self : GetBucketLoggingOutput => (GetBucketLoggingOutput_logging_enabled self, tt)). Qed.
Lemma de_GetBucketLoggingOutput_well : well de_GetBucketLoggingOutput.
Proof. solve_well. Qed.
#[export] Hint Resolve de_GetBucketLoggingOutput_well : de.
#[global] Typeclasses Opaque ser_GetBucketLoggingOutput de_GetBucketLoggingOutput.

Record ErrorDetails := mk_ErrorDetails {
  ErrorDetails_error_code : option bytes;
  ErrorDetails_error_message : option bytes
}.
Definition ser_ErrorDetails (self : ErrorDetails) : Ser :=
  s_seq [
    if_some (ErrorDetails_error_code self) (s_content ser_str (str "ErrorCode"));
    if_some (ErrorDetails_error_message self) (s_content ser_str (str "ErrorMessage"))].
Definition de_ErrorDetails : De ErrorDetails := de_struct false
   (arm_once (str "ErrorCode") de_string
    (arm_once (str "ErrorMessage") de_string
    no_arms))
    (fun '(error_code, (error_message, tt)) =>
      Ok {| ErrorDetails_error_code := error_code; ErrorDetails_error_message := error_message |}).
Definition ErrorDetails_wf (self : ErrorDetails) : Prop :=
  from_option string_wf True (ErrorDetails_error_code self) /\
  from_option string_wf True (ErrorDetails_error_message self).
#[global] Instance ErrorDetails_rt : RoundTrip ser_ErrorDetails de_ErrorDetails ErrorDetails_wf.
Proof. solve_struct (fun self : ErrorDetails => (ErrorDetails_error_code self, (ErrorDetails_error_message self, tt))). Qed.
Lemma de_ErrorDetails_well : well de_ErrorDetails.
Proof. solve_well. Qed.
#[export] Hint Resolve de_ErrorDetails_well : de.
#[global] Typeclasses Opaque ser_ErrorDetails de_ErrorDetails.

Record AnnotationTableConfigurationResult := mk_AnnotationTableConfigurationResult {
  AnnotationTableConfigurationResult_configuration_state : AnnotationConfigurationState;
  AnnotationTableConfigurationResult_error : option ErrorDetails;
  AnnotationTableConfigurationResult_role : option bytes;
  AnnotationTableConfigurationResult_table_arn : option bytes;
  AnnotationTableConfigurationResult_table_name : option bytes;
  AnnotationTableConfigurationResult_table_status : option bytes
}.
Definition ser_AnnotationTableConfigurationResult (self : AnnotationTableConfigurationResult) : Ser :=
  s_seq [
    s_content ser_AnnotationConfigurationState (str "ConfigurationState") (AnnotationTableConfigurationResult_configuration_state self);
    if_some (AnnotationTableConfigurationResult_error self) (s_content ser_ErrorDetails (str "Error"));
    if_some (AnnotationTableConfigurationResult_role self) (s_content ser_str (str "Role"));
    if_some (AnnotationTableConfigurationResult_table_arn self) (s_content ser_str (str "TableArn"));
    if_some (AnnotationTableConfigurationResult_table_name self) (s_content ser_str (str "TableName"));
    if_some (AnnotationTableConfigurationResult_table_status self) (s_content ser_str (str "TableStatus"))].
Definition de_AnnotationTableConfigurationResult : De AnnotationTableConfigurationResult := de_struct false
   (arm_once (str "ConfigurationState") de_AnnotationConfigurationState
    (arm_once (str "Error") de_ErrorDetails
    (arm_once (str "Role") de_string
    (arm_once (str "TableArn") de_string
    (arm_once (str "TableName") de_string
    (arm_once (str "TableStatus") de_string
    no_arms))))))
    (fun '(configuration_state, (error, (role, (table_arn, (table_name, (table_status, tt)))))) =>
      configuration_state ← required configuration_state;
      Ok {| AnnotationTableConfigurationResult_configuration_state := configuration_state;
         AnnotationTableConfigurationResult_error := error;
         AnnotationTableConfigurationResult_role := role;
         AnnotationTableConfigurationResult_table_arn := table_arn;
         AnnotationTableConfigurationResult_table_name := table_name;
         AnnotationTableConfigurationResult_table_status := table_status |}).
Definition AnnotationTableConfigurationResult_wf (self : AnnotationTableConfigurationResult) : Prop :=
  string_wf (AnnotationTableConfigurationResult_configuration_state self) /\
  from_option ErrorDetails_wf True (AnnotationTableConfigurationResult_error self) /\
  from_option string_wf True (AnnotationTableConfigurationResult_role self) /\
  from_option string_wf True (AnnotationTableConfigurationResult_table_arn self) /\
  from_option string_wf True (AnnotationTableConfigurationResult_table_name self) /\
  from_option string_wf True (AnnotationTableConfigurationResult_table_status self).
#[global] Instance AnnotationTableConfigurationResult_rt : RoundTrip ser_AnnotationTableConfigurationResult de_AnnotationTableConfigurationResult AnnotationTableConfigurationResult_wf.
Proof. solve_struct (fun self : AnnotationTableConfigurationResult => (Some (AnnotationTableConfigurationResult_configuration_state self), (AnnotationTableConfigurationResult_error self, (AnnotationTableConfigurationResult_role self, (AnnotationTableConfigurationResult_table_arn self, (AnnotationTableConfigurationResult_table_name self, (AnnotationTableConfigurationResult_table_status self, tt))))))). Qed.
Lemma de_AnnotationTableConfigurationResult_well : well de_AnnotationTableConfigurationResult.
Proof. solve_well. Qed.
#[export] Hint Resolve de_AnnotationTableConfigurationResult_well : de.
#[global] Typeclasses Opaque ser_AnnotationTableConfigurationResult de_AnnotationTableConfigurationResult.

Definition S3TablesBucketType : Type := bytes.
Definition ser_S3TablesBucketType (self : S3TablesBucketType) : Ser := ser_str self.
Definition de_S3TablesBucketType : De S3TablesBucketType := de_enum [str "aws"; str "customer"].
#[global] Instance S3TablesBucketType_rt : RoundTrip ser_S3TablesBucketType de_S3TablesBucketType string_wf := enum_rt _.
Lemma de_S3TablesBucketType_well : well de_S3TablesBucketType.
Proof. apply de_enum_well. Qed.
#[export] Hint Resolve de_S3TablesBucketType_well : de.
#[global] Typeclasses Opaque ser_S3TablesBucketType de_S3TablesBucketType.

Record DestinationResult := mk_DestinationResult {
  DestinationResult_table_bucket_arn : option bytes;
  DestinationResult_table_bucket_type : option S3TablesBucketType;
  DestinationResult_table_namespace : option bytes
}.
Definition ser_DestinationResult (self : DestinationResult) : Ser :=
  s_seq [
    if_some (DestinationResult_table_bucket_arn self) (s_content ser_str (str "TableBucketArn"));
    if_some (DestinationResult_table_bucket_type self) (s_content ser_S3TablesBucketType (str "TableBucketType"));
    if_some (DestinationResult_table_namespace self) (s_content ser_str (str "TableNamespace"))].
Definition de_DestinationResult : De DestinationResult := de_struct false
   (arm_once (str "TableBucketArn") de_string
    (arm_once (str "TableBucketType") de_S3TablesBucketType
    (arm_once (str "TableNamespace") de_string
    no_arms)))
    (fun '(table_bucket_arn, (table_bucket_type, (table_namespace, tt))) =>
      Ok {| DestinationResult_table_bucket_arn := table_bucket_arn;
         DestinationResult_table_bucket_type := table_bucket_type;
         DestinationResult_table_namespace := table_namespace |}).
Definition DestinationResult_wf (self : DestinationResult) : Prop :=
  from_option string_wf True (DestinationResult_table_bucket_arn self) /\
  from_option string_wf True (DestinationResult_table_bucket_type self) /\
  from_option string_wf True (DestinationResult_table_namespace self).
#[global] Instance DestinationResult_rt : RoundTrip ser_DestinationResult de_DestinationResult DestinationResult_wf.
Proof. solve_struct (fun self : DestinationResult => (DestinationResult_table_bucket_arn self, (DestinationResult_table_bucket_type self, (DestinationResult_table_namespace self, tt)))). Qed.
Lemma de_DestinationResult_well : well de_DestinationResult.
Proof. solve_well. Qed.
#[export] Hint Resolve de_DestinationResult_well : de.
#[global] Typeclasses Opaque ser_DestinationResult de_DestinationResult.

Definition InventoryConfigurationState : Type := bytes.
Definition ser_InventoryConfigurationState (self : InventoryConfigurationState) : Ser := ser_str self.
Definition de_InventoryConfigurationState : De InventoryConfigurationState := de_enum [str "DISABLED"; str "ENABLED"].
#[global] Instance InventoryConfigurationState_rt : RoundTrip ser_InventoryConfigurationState de_InventoryConfigurationState string_wf := enum_rt _.
Lemma de_InventoryConfigurationState_well : well de_InventoryConfigurationState.
Proof. apply de_enum_well. Qed.
#[export] Hint Resolve de_InventoryConfigurationState_well : de.
#[global] Typeclasses Opaque ser_InventoryConfigurationState de_InventoryConfigurationState.

Record InventoryTableConfigurationResult := mk_InventoryTableConfigurationResult {
  InventoryTableConfigurationResult_configuration_state : InventoryConfigurationState;
  InventoryTableConfigurationResult_error : option ErrorDetails;
  InventoryTableConfigurationResult_table_arn : option bytes;
  InventoryTableConfigurationResult_table_name : option bytes;
  InventoryTableConfigurationResult_table_status : option bytes
}.
Definition ser_InventoryTableConfigurationResult (self : InventoryTableConfigurationResult) : Ser :=
  s_seq [
    s_content ser_InventoryConfigurationState (str "ConfigurationState") (InventoryTableConfigurationResult_configuration_state self);
    if_some (InventoryTableConfigurationResult_error self) (s_content ser_ErrorDetails (str "Error"));
    if_some (InventoryTableConfigurationResult_table_arn self) (s_content ser_str (str "TableArn"));
    if_some (InventoryTableConfigurationResult_table_name self) (s_content ser_str (str "TableName"));
    if_some (InventoryTableConfigurationResult_table_status self) (s_content ser_str (str "TableStatus"))].
Definition de_InventoryTableConfigurationResult : De InventoryTableConfigurationResult := de_struct false
   (arm_once (str "ConfigurationState") de_InventoryConfigurationState
    (arm_once (str "Error") de_ErrorDetails
    (arm_once (str "TableArn") de_string
    (arm_once (str "TableName") de_string
    (arm_once (str "TableStatus") de_string
    no_arms)))))
    (fun '(configuration_state, (error, (table_arn, (table_name, (table_status, tt))))) =>
      configuration_state ← required configuration_state;
      Ok {| InventoryTableConfigurationResult_configuration_state := configuration_state;
         InventoryTableConfigurationResult_error := error;
         InventoryTableConfigurationResult_table_arn := table_arn;
         InventoryTableConfigurationResult_table_name := table_name;
         InventoryTableConfigurationResult_table_status := table_status |}).
Definition InventoryTableConfigurationResult_wf (self : InventoryTableConfigurationResult) : Prop :=
  string_wf (InventoryTableConfigurationResult_configuration_state self) /\
  from_option ErrorDetails_wf True (InventoryTableConfigurationResult_error self) /\
  from_option string_wf True (InventoryTableConfigurationResult_table_arn self) /\
  from_option string_wf True (InventoryTableConfigurationResult_table_name self) /\
  from_option string_wf True (InventoryTableConfigurationResult_table_status self).
#[global] Instance InventoryTableConfigurationResult_rt : RoundTrip ser_InventoryTableConfigurationResult de_InventoryTableConfigurationResult InventoryTableConfigurationResult_wf.
Proof. solve_struct (fun self : InventoryTableConfigurationResult => (Some (InventoryTableConfigurationResult_configuration_state self), (InventoryTableConfigurationResult_error self, (InventoryTableConfigurationResult_table_arn self, (InventoryTableConfigurationResult_table_name self, (InventoryTableConfigurationResult_table_status self, tt)))))). Qed.
Lemma de_InventoryTableConfigurationResult_well : well de_InventoryTableConfigurationResult.
Proof. solve_well. Qed.
#[export] Hint Resolve de_InventoryTableConfigurationResult_well : de.
#[global] Typeclasses Opaque ser_InventoryTableConfigurationResult de_InventoryTableConfigurationResult.

Definition ExpirationState : Type := bytes.
Definition ser_ExpirationState (self : ExpirationState) : Ser := ser_str self.
Definition de_ExpirationState : De ExpirationState := de_enum [str "DISABLED"; str "ENABLED"].
#[global] Instance ExpirationState_rt : RoundTrip ser_ExpirationState de_ExpirationState string_wf := enum_rt _.
Lemma de_ExpirationState_well : well de_ExpirationState.
Proof. apply de_enum_well. Qed.
#[export] Hint Resolve de_ExpirationState_well : de.
#[global] Typeclasses Opaque ser_ExpirationState de_ExpirationState.

Record RecordExpiration := mk_RecordExpiration {
  RecordExpiration_days : option Z;
  RecordExpiration_expiration : ExpirationState
}.
Definition ser_RecordExpiration (self : RecordExpiration) : Ser :=
  s_seq [
    if_some (RecordExpiration_days self) (s_content ser_i32 (str "Days"));
    s_content ser_ExpirationState (str "Expiration") (RecordExpiration_expiration self)].
Definition de_RecordExpiration `{XmlDeps} : De RecordExpiration := de_struct false
   (arm_once (str "Days") de_i32
    (arm_once (str "Expiration") de_ExpirationState
    no_arms))
    (fun '(days, (expiration, tt)) =>
      expiration ← required expiration;
      Ok {| RecordExpiration_days := days; RecordExpiration_expiration := expiration |}).
Definition RecordExpiration_wf (self : RecordExpiration) : Prop :=

    from_option i32_wf True (RecordExpiration_days self) /\
    string_wf (RecordExpiration_expiration self).
#[global] Instance RecordExpiration_rt `{XmlDeps} : RoundTrip ser_RecordExpiration de_RecordExpiration RecordExpiration_wf.
Proof. solve_struct (fun self : RecordExpiration => (RecordExpiration_days self, (Some (RecordExpiration_expiration self), tt))). Qed.
Lemma de_RecordExpiration_well `{XmlDeps} : well de_RecordExpiration.
Proof. solve_well. Qed.
#[export] Hint Resolve de_RecordExpiration_well : de.
#[global] Typeclasses Opaque ser_RecordExpiration de_RecordExpiration.

Record JournalTableConfigurationResult := mk_JournalTableConfigurationResult {
  JournalTableConfigurationResult_error : option ErrorDetails;
  JournalTableConfigurationResult_record_expiration : RecordExpiration;
  JournalTableConfigurationResult_table_arn : option bytes;
  JournalTableConfigurationResult_table_name : bytes;
  JournalTableConfigurationResult_table_status : bytes
}.
Definition ser_JournalTableConfigurationResult (self : JournalTableConfigurationResult) : Ser :=
  s_seq [
    if_some (JournalTableConfigurationResult_error self) (s_content ser_ErrorDetails (str "Error"));
    s_content ser_RecordExpiration (str "RecordExpiration") (JournalTableConfigurationResult_record_expiration self);
    if_some (JournalTableConfigurationResult_table_arn self) (s_content ser_str (str "TableArn"));
    s_content ser_str (str "TableName") (JournalTableConfigurationResult_table_name self);
    s_content ser_str (str "TableStatus") (JournalTableConfigurationResult_table_status self)].
Definition de_JournalTableConfigurationResult `{XmlDeps} : De JournalTableConfigurationResult := de_struct false
   (arm_once (str "Error") de_ErrorDetails
    (arm_once (str "RecordExpiration") de_RecordExpiration
    (arm_once (str "TableArn") de_string
    (arm_once (str "TableName") de_string
    (arm_once (str "TableStatus") de_string
    no_arms)))))
    (fun '(error, (record_expiration, (table_arn, (table_name, (table_status, tt))))) =>
      record_expiration ← required record_expiration;
      table_name ← required table_name;
      table_status ← required table_status;
      Ok {| JournalTableConfigurationResult_error := error;
         JournalTableConfigurationResult_record_expiration := record_expiration;
         JournalTableConfigurationResult_table_arn := table_arn;
         JournalTableConfigurationResult_table_name := table_name;
         JournalTableConfigurationResult_table_status := table_status |}).
Definition JournalTableConfigurationResult_wf (self : JournalTableConfigurationResult) : Prop :=
  from_option ErrorDetails_wf True (JournalTableConfigurationResult_error self) /\
  RecordExpiration_wf (JournalTableConfigurationResult_record_expiration self) /\
  from_option string_wf True (JournalTableConfigurationResult_table_arn self) /\
  string_wf (JournalTableConfigurationResult_table_name self) /\
  string_wf (JournalTableConfigurationResult_table_status self).
#[global] Instance JournalTableConfigurationResult_rt `{XmlDeps} : RoundTrip ser_JournalTableConfigurationResult de_JournalTableConfigurationResult JournalTableConfigurationResult_wf.
Proof. solve_struct (fun self : JournalTableConfigurationResult => (JournalTableConfigurationResult_error self, (Some (JournalTableConfigurationResult_record_expiration self), (JournalTableConfigurationResult_table_arn self, (Some (JournalTableConfigurationResult_table_name self), (Some (JournalTableConfigurationResult_table_status self), tt)))))). Qed.
Lemma de_JournalTableConfigurationResult_well `{XmlDeps} : well de_JournalTableConfigurationResult.
Proof. solve_well. Qed.
#[export] Hint Resolve de_JournalTableConfigurationResult_well : de.
#[global] Typeclasses Opaque ser_JournalTableConfigurationResult de_JournalTableConfigurationResult.

Record MetadataConfigurationResult := mk_MetadataConfigurationResult {
  MetadataConfigurationResult_annotation_table_configuration_result : option AnnotationTableConfigurationResult;
  MetadataConfigurationResult_destination_result : DestinationResult;
  MetadataConfigurationResult_inventory_table_configuration_result : option InventoryTableConfigurationResult;
  MetadataConfigurationResult_journal_table_configuration_result : option JournalTableConfigurationResult
}.
Definition ser_MetadataConfigurationResult (self : MetadataConfigurationResult) : Ser :=
  s_seq [
    if_some (MetadataConfigurationResult_annotation_table_configuration_result self) (s_content ser_AnnotationTableConfigurationResult (str "AnnotationTableConfigurationResult"));
    s_content ser_DestinationResult (str "DestinationResult") (MetadataConfigurationResult_destination_result self);
    if_some (MetadataConfigurationResult_inventory_table_configuration_result self) (s_content ser_InventoryTableConfigurationResult (str "InventoryTableConfigurationResult"));
    if_some (MetadataConfigurationResult_journal_table_configuration_result self) (s_content ser_JournalTableConfigurationResult (str "JournalTableConfigurationResult"))].
Definition de_MetadataConfigurationResult `{XmlDeps} : De MetadataConfigurationResult := de_struct false
   (arm_once (str "AnnotationTableConfigurationResult") de_AnnotationTableConfigurationResult
    (arm_once (str "DestinationResult") de_DestinationResult
    (arm_once (str "InventoryTableConfigurationResult") de_InventoryTableConfigurationResult
    (arm_once (str "JournalTableConfigurationResult") de_JournalTableConfigurationResult
    no_arms))))
    (fun '(annotation_table_configuration_result, (destination_result, (inventory_table_configuration_result, (journal_table_configuration_result, tt)))) =>
      destination_result ← required destination_result;
      Ok {| MetadataConfigurationResult_annotation_table_configuration_result := annotation_table_configuration_result;
         MetadataConfigurationResult_destination_result := destination_result;
         MetadataConfigurationResult_inventory_table_configuration_result := inventory_table_configuration_result;
         MetadataConfigurationResult_journal_table_configuration_result := journal_table_configuration_result |}).
Definition MetadataConfigurationResult_wf (self : MetadataConfigurationResult) : Prop :=
  from_option AnnotationTableConfigurationResult_wf True (MetadataConfigurationResult_annotation_table_configuration_result self) /\
  DestinationResult_wf (MetadataConfigurationResult_destination_result self) /\
  from_option InventoryTableConfigurationResult_wf True (MetadataConfigurationResult_inventory_table_configuration_result self) /\
  from_option JournalTableConfigurationResult_wf True (MetadataConfigurationResult_journal_table_configuration_result self).
#[global] Instance MetadataConfigurationResult_rt `{XmlDeps} : RoundTrip ser_MetadataConfigurationResult de_MetadataConfigurationResult MetadataConfigurationResult_wf.
Proof. solve_struct (fun self : MetadataConfigurationResult => (MetadataConfigurationResult_annotation_table_configuration_result self, (Some (MetadataConfigurationResult_destination_result self), (MetadataConfigurationResult_inventory_table_configuration_result self, (MetadataConfigurationResult_journal_table_configuration_result self, tt))))). Qed.
Lemma de_MetadataConfigurationResult_well `{XmlDeps} : well de_MetadataConfigurationResult.
Proof. solve_well. Qed.
#[export] Hint Resolve de_MetadataConfigurationResult_well : de.
#[global] Typeclasses Opaque ser_MetadataConfigurationResult de_MetadataConfigurationResult.

Record GetBucketMetadataConfigurationResult := mk_GetBucketMetadataConfigurationResult {
  GetBucketMetadataConfigurationResult_metadata_configuration_result : MetadataConfigurationResult
}.
Definition ser_GetBucketMetadataConfigurationResult (self : GetBucketMetadataConfigurationResult) : Ser :=
  s_seq [
    s_content ser_MetadataConfigurationResult (str "MetadataConfigurationResult") (GetBucketMetadataConfigurationResult_metadata_configuration_result self)].
Definition de_GetBucketMetadataConfigurationResult `{XmlDeps} : De GetBucketMetadataConfigurationResult := de_struct false
   (arm_once (str "MetadataConfigurationResult") de_MetadataConfigurationResult
    no_arms)
    (fun '(metadata_configuration_result, tt) =>
      metadata_configuration_result ← required metadata_configuration_result;
      Ok {| GetBucketMetadataConfigurationResult_metadata_configuration_result := metadata_configuration_result |}).
Definition GetBucketMetadataConfigurationResult_wf (self : GetBucketMetadataConfigurationResult) : Prop :=

    MetadataConfigurationResult_wf (GetBucketMetadataConfigurationResult_metadata_configuration_result self).
#[global] Instance GetBucketMetadataConfigurationResult_rt `{XmlDeps} : RoundTrip ser_GetBucketMetadataConfigurationResult de_GetBucketMetadataConfigurationResult GetBucketMetadataConfigurationResult_wf.
Proof. solve_struct (fun self : GetBucketMetadataConfigurationResult => (Some (GetBucketMetadataConfigurationResult_metadata_configuration_result self), tt)). Qed.
Lemma de_GetBucketMetadataConfigurationResult_well `{XmlDeps} : well de_GetBucketMetadataConfigurationResult.
Proof. solve_well. Qed.
#[export] Hint Resolve de_GetBucketMetadataConfigurationResult_well : de.
#[global] Typeclasses Opaque ser_GetBucketMetadataConfigurationResult de_GetBucketMetadataConfigurationResult.

Record S3TablesDestinationResult := mk_S3TablesDestinationResult {
  S3TablesDestinationResult_table_arn : bytes;
  S3TablesDestinationResult_table_bucket_arn : bytes;
  S3TablesDestinationResult_table_name : bytes;
  S3TablesDestinationResult_table_namespace : bytes
}.
Definition ser_S3TablesDestinationResult (self : S3TablesDestinationResult) : Ser :=
  s_seq [
    s_content ser_str (str "TableArn") (S3TablesDestinationResult_table_arn self);
    s_content ser_str (str "TableBucketArn") (S3TablesDestinationResult_table_bucket_arn self);
    s_content ser_str (str "TableName") (S3TablesDestinationResult_table_name self);
    s_content ser_str (str "TableNamespace") (S3TablesDestinationResult_table_namespace self)].
Definition de_S3TablesDestinationResult : De S3TablesDestinationResult := de_struct false
   (arm_once (str "TableArn") de_string
    (arm_once (str "TableBucketArn") de_string
    (arm_once (str "TableName") de_string
    (arm_once (str "TableNamespace") de_string
    no_arms))))
    (fun '(table_arn, (table_bucket_arn, (table_name, (table_namespace, tt)))) =>
      table_arn ← required table_arn;
      table_bucket_arn ← required table_bucket_arn;
      table_name ← required table_name;
      table_namespace ← required table_namespace;
      Ok {| S3TablesDestinationResult_table_arn := table_arn;
         S3TablesDestinationResult_table_bucket_arn := table_bucket_arn;
         S3TablesDestinationResult_table_name := table_name;
         S3TablesDestinationResult_table_namespace := table_namespace |}).
Definition S3TablesDestinationResult_wf (self : S3TablesDestinationResult) : Prop :=
  string_wf (S3TablesDestinationResult_table_arn self) /\
  string_wf (S3TablesDestinationResult_table_bucket_arn self) /\
  string_wf (S3TablesDestinationResult_table_name self) /\
  string_wf (S3TablesDestinationResult_table_namespace self).
#[global] Instance S3TablesDestinationResult_rt : RoundTrip ser_S3TablesDestinationResult de_S3TablesDestinationResult S3TablesDestinationResult_wf.
Proof. solve_struct (fun self : S3TablesDestinationResult => (Some (S3TablesDestinationResult_table_arn self), (Some (S3TablesDestinationResult_table_bucket_arn self), (Some (S3TablesDestinationResult_table_name self), (Some (S3TablesDestinationResult_table_namespace self), tt))))). Qed.
Lemma de_S3TablesDestinationResult_well : well de_S3TablesDestinationResult.
Proof. solve_well. Qed.
#[export] Hint Resolve de_S3TablesDestinationResult_well : de.
#[global] Typeclasses Opaque ser_S3TablesDestinationResult de_S3TablesDestinationResult.

Record MetadataTableConfigurationResult := mk_MetadataTableConfigurationResult {
  MetadataTableConfigurationResult_s3_tables_destination_result : S3TablesDestinationResult
}.
Definition ser_MetadataTableConfigurationResult (self : MetadataTableConfigurationResult) : Ser :=
  s_seq [
    s_content ser_S3TablesDestinationResult (str "S3TablesDestinationResult") (MetadataTableConfigurationResult_s3_tables_destination_result self)].
Definition de_MetadataTableConfigurationResult : De MetadataTableConfigurationResult := de_struct false
   (arm_once (str "S3TablesDestinationResult") de_S3TablesDestinationResult
    no_arms)
    (fun '(s3_tables_destination_result, tt) =>
      s3_tables_destination_result ← required s3_tables_destination_result;
      Ok {| MetadataTableConfigurationResult_s3_tables_destination_result := s3_tables_destination_result |}).
Definition MetadataTableConfigurationResult_wf (self : MetadataTableConfigurationResult) : Prop :=

    S3TablesDestinationResult_wf (MetadataTableConfigurationResult_s3_tables_destination_result self).
#[global] Instance MetadataTableConfigurationResult_rt : RoundTrip ser_MetadataTableConfigurationResult de_MetadataTableConfigurationResult MetadataTableConfigurationResult_wf.
Proof. solve_struct (fun self : MetadataTableConfigurationResult => (Some (MetadataTableConfigurationResult_s3_tables_destination_result self), tt)). Qed.
Lemma de_MetadataTableConfigurationResult_well : well de_MetadataTableConfigurationResult.
Proof. solve_well. Qed.
#[export] Hint Resolve de_MetadataTableConfigurationResult_well : de.
#[global] Typeclasses Opaque ser_MetadataTableConfigurationResult de_MetadataTableConfigurationResult.

Record GetBucketMetadataTableConfigurationResult := mk_GetBucketMetadataTableConfigurationResult {
  GetBucketMetadataTableConfigurationResult_error : option ErrorDetails;
  GetBucketMetadataTableConfigurationResult_metadata_table_configuration_result : MetadataTableConfigurationResult;
  GetBucketMetadataTableConfigurationResult_status : bytes
}.
Definition ser_GetBucketMetadataTableConfigurationResult (self : GetBucketMetadataTableConfigurationResult) : Ser :=
  s_seq [
    if_some (GetBucketMetadataTableConfigurationResult_error self) (s_content ser_ErrorDetails (str "Error"));
    s_content ser_MetadataTableConfigurationResult (str "MetadataTableConfigurationResult") (GetBucketMetadataTableConfigurationResult_metadata_table_configuration_result self);
    s_content ser_str (str "Status") (GetBucketMetadataTableConfigurationResult_status self)].
Definition de_GetBucketMetadataTableConfigurationResult : De GetBucketMetadataTableConfigurationResult := de_struct false
   (arm_once (str "Error") de_ErrorDetails
    (arm_once (str "MetadataTableConfigurationResult") de_MetadataTableConfigurationResult
    (arm_once (str "Status") de_string
    no_arms)))
    (fun '(error, (metadata_table_configuration_result, (status, tt))) =>
      metadata_table_configuration_result ← required metadata_table_configuration_result;
      status ← required status;
      Ok {| GetBucketMetadataTableConfigurationResult_error := error;
         GetBucketMetadataTableConfigurationResult_metadata_table_configuration_result := metadata_table_configuration_result;
         GetBucketMetadataTableConfigurationResult_status := status |}).
Definition GetBucketMetadataTableConfigurationResult_wf (self : GetBucketMetadataTableConfigurationResult) : Prop :=
  from_option ErrorDetails_wf True (GetBucketMetadataTableConfigurationResult_error self) /\
  MetadataTableConfigurationResult_wf (GetBucketMetadataTableConfigurationResult_metadata_table_configuration_result self) /\
  string_wf (GetBucketMetadataTableConfigurationResult_status self).
#[global] Instance GetBucketMetadataTableConfigurationResult_rt : RoundTrip ser_GetBucketMetadataTableConfigurationResult de_GetBucketMetadataTableConfigurationResult GetBucketMetadataTableConfigurationResult_wf.
Proof. solve_struct (fun self : GetBucketMetadataTableConfigurationResult => (GetBucketMetadataTableConfigurationResult_error self, (Some (GetBucketMetadataTableConfigurationResult_metadata_table_configuration_result self), (Some (GetBucketMetadataTableConfigurationResult_status self), tt)))). Qed.
Lemma de_GetBucketMetadataTableConfigurationResult_well : well de_GetBucketMetadataTableConfigurationResult.
Proof. solve_well. Qed.
#[export] Hint Resolve de_GetBucketMetadataTableConfigurationResult_well : de.
#[global] Typeclasses Opaque ser_GetBucketMetadataTableConfigurationResult de_GetBucketMetadataTableConfigurationResult.
