(* ===== verification/XmlDtoB.v ===== *)
(** * XML types, part B (crates/s3s/src/xml/generated.rs, the structures of dto/generated.rs)

    Each generated type with its serializer, its deserializer, the values that can be written, and
    the proofs that the deserializer returns and reads back what the serializer wrote.  Types that
    exist only with the minio feature, and the caches of tags, are left out. *)

From S2P Require Import Prelude.
From S2P Require Import Str.
From S2P Require Import Utf8.
From S2P Require Import Timestamp.
From S2P Require Import ETag.
From S2P Require Import Xml.
From S2P Require Import XmlStruct.
From S2P Require Import XmlDtoA.

Record EventBridgeConfiguration := mk_EventBridgeConfiguration {}.
Definition ser_EventBridgeConfiguration (self : EventBridgeConfiguration) : Ser :=
  s_seq [].
Definition de_EventBridgeConfiguration : De EventBridgeConfiguration := mret mk_EventBridgeConfiguration.
Definition EventBridgeConfiguration_wf (_ : EventBridgeConfiguration) : Prop := True.
#[global] Instance EventBridgeConfiguration_rt : RoundTrip ser_EventBridgeConfiguration de_EventBridgeConfiguration EventBridgeConfiguration_wf.
Proof. apply empty_round_trip; [done|]. by intros []. Qed.
Lemma de_EventBridgeConfiguration_well : well de_EventBridgeConfiguration.
Proof. apply well_ret. Qed.
#[export] Hint Resolve de_EventBridgeConfiguration_well : de.
#[global] Typeclasses Opaque ser_EventBridgeConfiguration de_EventBridgeConfiguration.

Definition FilterRuleName : Type := bytes.
Definition ser_FilterRuleName (self : FilterRuleName) : Ser := ser_str self.
Definition de_FilterRuleName : De FilterRuleName := de_enum [str "prefix"; str "suffix"].
#[global] Instance FilterRuleName_rt : RoundTrip ser_FilterRuleName de_FilterRuleName string_wf := enum_rt _.
Lemma de_FilterRuleName_well : well de_FilterRuleName.
Proof. apply de_enum_well. Qed.
#[export] Hint Resolve de_FilterRuleName_well : de.
#[global] Typeclasses Opaque ser_FilterRuleName de_FilterRuleName.

Record FilterRule := mk_FilterRule { FilterRule_name : option FilterRuleName; FilterRule_value : option bytes }.
Definition ser_FilterRule (self : FilterRule) : Ser :=
  s_seq [
    if_some (FilterRule_name self) (s_content ser_FilterRuleName (str "Name"));
    if_some (FilterRule_value self) (s_content ser_str (str "Value"))].
Definition de_FilterRule : De FilterRule := de_struct false
   (arm_once (str "Name") de_FilterRuleName
    (arm_once (str "Value") de_string
    no_arms))
    (fun '(name, (value, tt)) =>
      Ok {| FilterRule_name := name; FilterRule_value := value |}).
Definition FilterRule_wf (self : FilterRule) : Prop :=

    from_option string_wf True (FilterRule_name self) /\
    from_option string_wf True (FilterRule_value self).
#[global] Instance FilterRule_rt : RoundTrip ser_FilterRule de_FilterRule FilterRule_wf.
Proof. solve_struct (fun self : FilterRule => (FilterRule_name self, (FilterRule_value self, tt))). Qed.
Lemma de_FilterRule_well : well de_FilterRule.
Proof. solve_well. Qed.
#[export] Hint Resolve de_FilterRule_well : de.
#[global] Typeclasses Opaque ser_FilterRule de_FilterRule.

Record S3KeyFilter := mk_S3KeyFilter { S3KeyFilter_filter_rules : option (list FilterRule) }.
Definition ser_S3KeyFilter (self : S3KeyFilter) : Ser :=
  s_seq [
    if_some (S3KeyFilter_filter_rules self) (s_flattened_list ser_FilterRule (str "FilterRule"))].
Definition de_S3KeyFilter : De S3KeyFilter := de_struct false
   (arm_push (str "FilterRule") de_FilterRule
    no_arms)
    (fun '(filter_rules, tt) =>
      Ok {| S3KeyFilter_filter_rules := filter_rules |}).
Definition S3KeyFilter_wf (self : S3KeyFilter) : Prop :=

    from_option (fun l => Forall FilterRule_wf l /\ l <> []) True (S3KeyFilter_filter_rules self).
#[global] Instance S3KeyFilter_rt : RoundTrip ser_S3KeyFilter de_S3KeyFilter S3KeyFilter_wf.
Proof. solve_struct (fun self : S3KeyFilter => (S3KeyFilter_filter_rules self, tt)). Qed.
Lemma de_S3KeyFilter_well : well de_S3KeyFilter.
Proof. solve_well. Qed.
#[export] Hint Resolve de_S3KeyFilter_well : de.
#[global] Typeclasses Opaque ser_S3KeyFilter de_S3KeyFilter.

Record NotificationConfigurationFilter := mk_NotificationConfigurationFilter {
  NotificationConfigurationFilter_key : option S3KeyFilter
}.
Definition ser_NotificationConfigurationFilter (self : NotificationConfigurationFilter) : Ser :=
  s_seq [
    if_some (NotificationConfigurationFilter_key self) (s_content ser_S3KeyFilter (str "S3Key"))].
Definition de_NotificationConfigurationFilter : De NotificationConfigurationFilter := de_struct false
   (arm_once (str "S3Key") de_S3KeyFilter
    no_arms)
    (fun '(key, tt) =>
      Ok {| NotificationConfigurationFilter_key := key |}).
Definition NotificationConfigurationFilter_wf (self : NotificationConfigurationFilter) : Prop :=

    from_option S3KeyFilter_wf True (NotificationConfigurationFilter_key self).
#[global] Instance NotificationConfigurationFilter_rt : RoundTrip ser_NotificationConfigurationFilter de_NotificationConfigurationFilter NotificationConfigurationFilter_wf.
Proof. solve_struct (fun self : NotificationConfigurationFilter => (NotificationConfigurationFilter_key self, tt)). Qed.
Lemma de_NotificationConfigurationFilter_well : well de_NotificationConfigurationFilter.
Proof. solve_well. Qed.
#[export] Hint Resolve de_NotificationConfigurationFilter_well : de.
#[global] Typeclasses Opaque ser_NotificationConfigurationFilter de_NotificationConfigurationFilter.

Record LambdaFunctionConfiguration := mk_LambdaFunctionConfiguration {
  LambdaFunctionConfiguration_events : list bytes;
  LambdaFunctionConfiguration_filter : option NotificationConfigurationFilter;
  LambdaFunctionConfiguration_id : option bytes;
  LambdaFunctionConfiguration_lambda_function_arn : bytes
}.
Definition ser_LambdaFunctionConfiguration (self : LambdaFunctionConfiguration) : Ser :=
  s_seq [
    s_flattened_list ser_str (str "Event") (LambdaFunctionConfiguration_events self);
    if_some (LambdaFunctionConfiguration_filter self) (s_content ser_NotificationConfigurationFilter (str "Filter"));
    if_some (LambdaFunctionConfiguration_id self) (s_content ser_str (str "Id"));
    s_content ser_str (str "CloudFunction") (LambdaFunctionConfiguration_lambda_function_arn self)].
Definition de_LambdaFunctionConfiguration : De LambdaFunctionConfiguration := de_struct false
   (arm_push (str "Event") de_string
    (arm_once (str "Filter") de_NotificationConfigurationFilter
    (arm_once (str "Id") de_string
    (arm_once (str "CloudFunction") de_string
    no_arms))))
    (fun '(events, (filter, (id, (lambda_function_arn, tt)))) =>
      events ← required events;
      lambda_function_arn ← required lambda_function_arn;
      Ok {| LambdaFunctionConfiguration_events := events;
         LambdaFunctionConfiguration_filter := filter;
         LambdaFunctionConfiguration_id := id;
         LambdaFunctionConfiguration_lambda_function_arn := lambda_function_arn |}).
Definition LambdaFunctionConfiguration_wf (self : LambdaFunctionConfiguration) : Prop :=
  Forall string_wf (LambdaFunctionConfiguration_events self) /\
  (LambdaFunctionConfiguration_events self) <> [] /\
  from_option NotificationConfigurationFilter_wf True (LambdaFunctionConfiguration_filter self) /\
  from_option string_wf True (LambdaFunctionConfiguration_id self) /\
  string_wf (LambdaFunctionConfiguration_lambda_function_arn self).
#[global] Instance LambdaFunctionConfiguration_rt : RoundTrip ser_LambdaFunctionConfiguration de_LambdaFunctionConfiguration LambdaFunctionConfiguration_wf.
Proof. solve_struct (fun self : LambdaFunctionConfiguration => (Some (LambdaFunctionConfiguration_events self), (LambdaFunctionConfiguration_filter self, (LambdaFunctionConfiguration_id self, (Some (LambdaFunctionConfiguration_lambda_function_arn self), tt))))). Qed.
Lemma de_LambdaFunctionConfiguration_well : well de_LambdaFunctionConfiguration.
Proof. solve_well. Qed.
#[export] Hint Resolve de_LambdaFunctionConfiguration_well : de.
#[global] Typeclasses Opaque ser_LambdaFunctionConfiguration de_LambdaFunctionConfiguration.

Record QueueConfiguration := mk_QueueConfiguration {
  QueueConfiguration_events : list bytes;
  QueueConfiguration_filter : option NotificationConfigurationFilter;
  QueueConfiguration_id : option bytes;
  QueueConfiguration_queue_arn : bytes
}.
Definition ser_QueueConfiguration (self : QueueConfiguration) : Ser :=
  s_seq [
    s_flattened_list ser_str (str "Event") (QueueConfiguration_events self);
    if_some (QueueConfiguration_filter self) (s_content ser_NotificationConfigurationFilter (str "Filter"));
    if_some (QueueConfiguration_id self) (s_content ser_str (str "Id"));
    s_content ser_str (str "Queue") (QueueConfiguration_queue_arn self)].
Definition de_QueueConfiguration : De QueueConfiguration := de_struct false
   (arm_push (str "Event") de_string
    (arm_once (str "Filter") de_NotificationConfigurationFilter
    (arm_once (str "Id") de_string
    (arm_once (str "Queue") de_string
    no_arms))))
    (fun '(events, (filter, (id, (queue_arn, tt)))) =>
      events ← required events;
      queue_arn ← required queue_arn;
      Ok {| QueueConfiguration_events := events;
         QueueConfiguration_filter := filter;
         QueueConfiguration_id := id;
         QueueConfiguration_queue_arn := queue_arn |}).
Definition QueueConfiguration_wf (self : QueueConfiguration) : Prop :=
  Forall string_wf (QueueConfiguration_events self) /\
  (QueueConfiguration_events self) <> [] /\
  from_option NotificationConfigurationFilter_wf True (QueueConfiguration_filter self) /\
  from_option string_wf True (QueueConfiguration_id self) /\
  string_wf (QueueConfiguration_queue_arn self).
#[global] Instance QueueConfiguration_rt : RoundTrip ser_QueueConfiguration de_QueueConfiguration QueueConfiguration_wf.
Proof. solve_struct (fun self : QueueConfiguration => (Some (QueueConfiguration_events self), (QueueConfiguration_filter self, (QueueConfiguration_id self, (Some (QueueConfiguration_queue_arn self), tt))))). Qed.
Lemma de_QueueConfiguration_well : well de_QueueConfiguration.
Proof. solve_well. Qed.
#[export] Hint Resolve de_QueueConfiguration_well : de.
#[global] Typeclasses Opaque ser_QueueConfiguration de_QueueConfiguration.

Record TopicConfiguration := mk_TopicConfiguration {
  TopicConfiguration_events : list bytes;
  TopicConfiguration_filter : option NotificationConfigurationFilter;
  TopicConfiguration_id : option bytes;
  TopicConfiguration_topic_arn : bytes
}.
Definition ser_TopicConfiguration (self : TopicConfiguration) : Ser :=
  s_seq [
    s_flattened_list ser_str (str "Event") (TopicConfiguration_events self);
    if_some (TopicConfiguration_filter self) (s_content ser_NotificationConfigurationFilter (str "Filter"));
    if_some (TopicConfiguration_id self) (s_content ser_str (str "Id"));
    s_content ser_str (str "Topic") (TopicConfiguration_topic_arn self)].
Definition de_TopicConfiguration : De TopicConfiguration := de_struct false
   (arm_push (str "Event") de_string
    (arm_once (str "Filter") de_NotificationConfigurationFilter
    (arm_once (str "Id") de_string
    (arm_once (str "Topic") de_string
    no_arms))))
    (fun '(events, (filter, (id, (topic_arn, tt)))) =>
      events ← required events;
      topic_arn ← required topic_arn;
      Ok {| TopicConfiguration_events := events;
         TopicConfiguration_filter := filter;
         TopicConfiguration_id := id;
         TopicConfiguration_topic_arn := topic_arn |}).
Definition TopicConfiguration_wf (self : TopicConfiguration) : Prop :=
  Forall string_wf (TopicConfiguration_events self) /\
  (TopicConfiguration_events self) <> [] /\
  from_option NotificationConfigurationFilter_wf True (TopicConfiguration_filter self) /\
  from_option string_wf True (TopicConfiguration_id self) /\
  string_wf (TopicConfiguration_topic_arn self).
#[global] Instance TopicConfiguration_rt : RoundTrip ser_TopicConfiguration de_TopicConfiguration TopicConfiguration_wf.
Proof. solve_struct (fun self : TopicConfiguration => (Some (TopicConfiguration_events self), (TopicConfiguration_filter self, (TopicConfiguration_id self, (Some (TopicConfiguration_topic_arn self), tt))))). Qed.
Lemma de_TopicConfiguration_well : well de_TopicConfiguration.
Proof. solve_well. Qed.
#[export] Hint Resolve de_TopicConfiguration_well : de.
#[global] Typeclasses Opaque ser_TopicConfiguration de_TopicConfiguration.

Record GetBucketNotificationConfigurationOutput := mk_GetBucketNotificationConfigurationOutput {
  GetBucketNotificationConfigurationOutput_event_bridge_configuration : option EventBridgeConfiguration;
  GetBucketNotificationConfigurationOutput_lambda_function_configurations : option (list LambdaFunctionConfiguration);
  GetBucketNotificationConfigurationOutput_queue_configurations : option (list QueueConfiguration);
  GetBucketNotificationConfigurationOutput_topic_configurations : option (list TopicConfiguration)
}.
Definition ser_GetBucketNotificationConfigurationOutput (self : GetBucketNotificationConfigurationOutput) : Ser :=
  s_seq [
    if_some (GetBucketNotificationConfigurationOutput_event_bridge_configuration self) (s_content ser_EventBridgeConfiguration (str "EventBridgeConfiguration"));
    if_some (GetBucketNotificationConfigurationOutput_lambda_function_configurations self) (s_flattened_list ser_LambdaFunctionConfiguration (str "CloudFunctionConfiguration"));
    if_some (GetBucketNotificationConfigurationOutput_queue_configurations self) (s_flattened_list ser_QueueConfiguration (str "QueueConfiguration"));
    if_some (GetBucketNotificationConfigurationOutput_topic_configurations self) (s_flattened_list ser_TopicConfiguration (str "TopicConfiguration"))].
Definition de_GetBucketNotificationConfigurationOutput : De GetBucketNotificationConfigurationOutput := de_struct false
   (arm_once (str "EventBridgeConfiguration") de_EventBridgeConfiguration
    (arm_push (str "CloudFunctionConfiguration") de_LambdaFunctionConfiguration
    (arm_push (str "QueueConfiguration") de_QueueConfiguration
    (arm_push (str "TopicConfiguration") de_TopicConfiguration
    no_arms))))
    (fun '(event_bridge_configuration, (lambda_function_configurations, (queue_configurations, (topic_configurations, tt)))) =>
      Ok {| GetBucketNotificationConfigurationOutput_event_bridge_configuration := event_bridge_configuration;
         GetBucketNotificationConfigurationOutput_lambda_function_configurations := lambda_function_configurations;
         GetBucketNotificationConfigurationOutput_queue_configurations := queue_configurations;
         GetBucketNotificationConfigurationOutput_topic_configurations := topic_configurations |}).
Definition GetBucketNotificationConfigurationOutput_wf (self : GetBucketNotificationConfigurationOutput) : Prop :=
  from_option EventBridgeConfiguration_wf True (GetBucketNotificationConfigurationOutput_event_bridge_configuration self) /\
  from_option (fun l => Forall LambdaFunctionConfiguration_wf l /\ l <> []) True (GetBucketNotificationConfigurationOutput_lambda_function_configurations self) /\
  from_option (fun l => Forall QueueConfiguration_wf l /\ l <> []) True (GetBucketNotificationConfigurationOutput_queue_configurations self) /\
  from_option (fun l => Forall TopicConfiguration_wf l /\ l <> []) True (GetBucketNotificationConfigurationOutput_topic_configurations self).
#[global] Instance GetBucketNotificationConfigurationOutput_rt : RoundTrip ser_GetBucketNotificationConfigurationOutput de_GetBucketNotificationConfigurationOutput GetBucketNotificationConfigurationOutput_wf.
Proof. solve_struct (fun self : GetBucketNotificationConfigurationOutput => (GetBucketNotificationConfigurationOutput_event_bridge_configuration self, (GetBucketNotificationConfigurationOutput_lambda_function_configurations self, (GetBucketNotificationConfigurationOutput_queue_configurations self, (GetBucketNotificationConfigurationOutput_topic_configurations self, tt))))). Qed.
Lemma de_GetBucketNotificationConfigurationOutput_well : well de_GetBucketNotificationConfigurationOutput.
Proof. solve_well. Qed.
#[export] Hint Resolve de_GetBucketNotificationConfigurationOutput_well : de.
#[global] Typeclasses Opaque ser_GetBucketNotificationConfigurationOutput de_GetBucketNotificationConfigurationOutput.

Definition Payer : Type := bytes.
Definition ser_Payer (self : Payer) : Ser := ser_str self.
Definition de_Payer : De Payer := de_enum [str "BucketOwner"; str "Requester"].
#[global] Instance Payer_rt : RoundTrip ser_Payer de_Payer string_wf := enum_rt _.
Lemma de_Payer_well : well de_Payer.
Proof. apply de_enum_well. Qed.
#[export] Hint Resolve de_Payer_well : de.
#[global] Typeclasses Opaque ser_Payer de_Payer.

Record GetBucketRequestPaymentOutput := mk_GetBucketRequestPaymentOutput {
  GetBucketRequestPaymentOutput_payer : option Payer
}.
Definition ser_GetBucketRequestPaymentOutput (self : GetBucketRequestPaymentOutput) : Ser :=
  s_seq [
    if_some (GetBucketRequestPaymentOutput_payer self) (s_content ser_Payer (str "Payer"))].
Definition de_GetBucketRequestPaymentOutput : De GetBucketRequestPaymentOutput := de_struct false
   (arm_once (str "Payer") de_Payer
    no_arms)
    (fun '(payer, tt) =>
      Ok {| GetBucketRequestPaymentOutput_payer := payer |}).
Definition GetBucketRequestPaymentOutput_wf (self : GetBucketRequestPaymentOutput) : Prop :=

    from_option string_wf True (GetBucketRequestPaymentOutput_payer self).
#[global] Instance GetBucketRequestPaymentOutput_rt : RoundTrip ser_GetBucketRequestPaymentOutput de_GetBucketRequestPaymentOutput GetBucketRequestPaymentOutput_wf.
Proof. solve_struct (fun self : GetBucketRequestPaymentOutput => (GetBucketRequestPaymentOutput_payer self, tt)). Qed.
Lemma de_GetBucketRequestPaymentOutput_well : well de_GetBucketRequestPaymentOutput.
Proof. solve_well. Qed.
#[export] Hint Resolve de_GetBucketRequestPaymentOutput_well : de.
#[global] Typeclasses Opaque ser_GetBucketRequestPaymentOutput de_GetBucketRequestPaymentOutput.

Record GetBucketTaggingOutput := mk_GetBucketTaggingOutput { GetBucketTaggingOutput_tag_set : list Tag }.
Definition ser_GetBucketTaggingOutput (self : GetBucketTaggingOutput) : Ser :=
  s_seq [
    s_list ser_Tag (str "TagSet") (str "Tag") (GetBucketTaggingOutput_tag_set self)].
Definition de_GetBucketTaggingOutput : De GetBucketTaggingOutput := de_struct false
   (arm_once (str "TagSet") (list_content de_Tag (str "Tag"))
    no_arms)
    (fun '(tag_set, tt) =>
      tag_set ← required tag_set;
      Ok {| GetBucketTaggingOutput_tag_set := tag_set |}).
Definition GetBucketTaggingOutput_wf (self : GetBucketTaggingOutput) : Prop :=

    Forall Tag_wf (GetBucketTaggingOutput_tag_set self).
#[global] Instance GetBucketTaggingOutput_rt : RoundTrip ser_GetBucketTaggingOutput de_GetBucketTaggingOutput GetBucketTaggingOutput_wf.
Proof. solve_struct (fun self : GetBucketTaggingOutput => (Some (GetBucketTaggingOutput_tag_set self), tt)). Qed.
Lemma de_GetBucketTaggingOutput_well : well de_GetBucketTaggingOutput.
Proof. solve_well. Qed.
#[export] Hint Resolve de_GetBucketTaggingOutput_well : de.
#[global] Typeclasses Opaque ser_GetBucketTaggingOutput de_GetBucketTaggingOutput.

Definition BucketVersioningStatus : Type := bytes.
Definition ser_BucketVersioningStatus (self : BucketVersioningStatus) : Ser := ser_str self.
Definition de_BucketVersioningStatus : De BucketVersioningStatus := de_enum [str "Enabled"; str "Suspended"].
#[global] Instance BucketVersioningStatus_rt : RoundTrip ser_BucketVersioningStatus de_BucketVersioningStatus string_wf := enum_rt _.
Lemma de_BucketVersioningStatus_well : well de_BucketVersioningStatus.
Proof. apply de_enum_well. Qed.
#[export] Hint Resolve de_BucketVersioningStatus_well : de.
#[global] Typeclasses Opaque ser_BucketVersioningStatus de_BucketVersioningStatus.

Definition MFADeleteStatus : Type := bytes.
Definition ser_MFADeleteStatus (self : MFADeleteStatus) : Ser := ser_str self.
Definition de_MFADeleteStatus : De MFADeleteStatus := de_enum [str "Disabled"; str "Enabled"].
#[global] Instance MFADeleteStatus_rt : RoundTrip ser_MFADeleteStatus de_MFADeleteStatus string_wf := enum_rt _.
Lemma de_MFADeleteStatus_well : well de_MFADeleteStatus.
Proof. apply de_enum_well. Qed.
#[export] Hint Resolve de_MFADeleteStatus_well : de.
#[global] Typeclasses Opaque ser_MFADeleteStatus de_MFADeleteStatus.

Record GetBucketVersioningOutput := mk_GetBucketVersioningOutput {
  GetBucketVersioningOutput_mfa_delete : option MFADeleteStatus;
  GetBucketVersioningOutput_status : option BucketVersioningStatus
}.
Definition ser_GetBucketVersioningOutput (self : GetBucketVersioningOutput) : Ser :=
  s_seq [
    if_some (GetBucketVersioningOutput_mfa_delete self) (s_content ser_MFADeleteStatus (str "MfaDelete"));
    if_some (GetBucketVersioningOutput_status self) (s_content ser_BucketVersioningStatus (str "Status"))].
Definition de_GetBucketVersioningOutput : De GetBucketVersioningOutput := de_struct false
   (arm_once (str "MfaDelete") de_MFADeleteStatus
    (arm_once (str "Status") de_BucketVersioningStatus
    no_arms))
    (fun '(mfa_delete, (status, tt)) =>
      Ok {| GetBucketVersioningOutput_mfa_delete := mfa_delete; GetBucketVersioningOutput_status := status |}).
Definition GetBucketVersioningOutput_wf (self : GetBucketVersioningOutput) : Prop :=
  from_option string_wf True (GetBucketVersioningOutput_mfa_delete self) /\
  from_option string_wf True (GetBucketVersioningOutput_status self).
#[global] Instance GetBucketVersioningOutput_rt : RoundTrip ser_GetBucketVersioningOutput de_GetBucketVersioningOutput GetBucketVersioningOutput_wf.
Proof. solve_struct (fun self : GetBucketVersioningOutput => (GetBucketVersioningOutput_mfa_delete self, (GetBucketVersioningOutput_status self, tt))). Qed.
Lemma de_GetBucketVersioningOutput_well : well de_GetBucketVersioningOutput.
Proof. solve_well. Qed.
#[export] Hint Resolve de_GetBucketVersioningOutput_well : de.
#[global] Typeclasses Opaque ser_GetBucketVersioningOutput de_GetBucketVersioningOutput.

Record ErrorDocument := mk_ErrorDocument { ErrorDocument_key : bytes }.
Definition ser_ErrorDocument (self : ErrorDocument) : Ser :=
  s_seq [
    s_content ser_str (str "Key") (ErrorDocument_key self)].
Definition de_ErrorDocument : De ErrorDocument := de_struct false
   (arm_once (str "Key") de_string
    no_arms)
    (fun '(key, tt) =>
      key ← required key;
      Ok {| ErrorDocument_key := key |}).
Definition ErrorDocument_wf (self : ErrorDocument) : Prop :=
  string_wf (ErrorDocument_key self).
#[global] Instance ErrorDocument_rt : RoundTrip ser_ErrorDocument de_ErrorDocument ErrorDocument_wf.
Proof. solve_struct (fun self : ErrorDocument => (Some (ErrorDocument_key self), tt)). Qed.
Lemma de_ErrorDocument_well : well de_ErrorDocument.
Proof. solve_well. Qed.
#[export] Hint Resolve de_ErrorDocument_well : de.
#[global] Typeclasses Opaque ser_ErrorDocument de_ErrorDocument.

Record IndexDocument := mk_IndexDocument { IndexDocument_suffix : bytes }.
Definition ser_IndexDocument (self : IndexDocument) : Ser :=
  s_seq [
    s_content ser_str (str "Suffix") (IndexDocument_suffix self)].
Definition de_IndexDocument : De IndexDocument := de_struct false
   (arm_once (str "Suffix") de_string
    no_arms)
    (fun '(suffix, tt) =>
      suffix ← required suffix;
      Ok {| IndexDocument_suffix := suffix |}).
Definition IndexDocument_wf (self : IndexDocument) : Prop :=
  string_wf (IndexDocument_suffix self).
#[global] Instance IndexDocument_rt : RoundTrip ser_IndexDocument de_IndexDocument IndexDocument_wf.
Proof. solve_struct (fun self : IndexDocument => (Some (IndexDocument_suffix self), tt)). Qed.
Lemma de_IndexDocument_well : well de_IndexDocument.
Proof. solve_well. Qed.
#[export] Hint Resolve de_IndexDocument_well : de.
#[global] Typeclasses Opaque ser_IndexDocument de_IndexDocument.

Definition Protocol : Type := bytes.
Definition ser_Protocol (self : Protocol) : Ser := ser_str self.
Definition de_Protocol : De Protocol := de_enum [str "http"; str "https"].
#[global] Instance Protocol_rt : RoundTrip ser_Protocol de_Protocol string_wf := enum_rt _.
Lemma de_Protocol_well : well de_Protocol.
Proof. apply de_enum_well. Qed.
#[export] Hint Resolve de_Protocol_well : de.
#[global] Typeclasses Opaque ser_Protocol de_Protocol.

Record RedirectAllRequestsTo := mk_RedirectAllRequestsTo {
  RedirectAllRequestsTo_host_name : bytes;
  RedirectAllRequestsTo_protocol : option Protocol
}.
Definition ser_RedirectAllRequestsTo (self : RedirectAllRequestsTo) : Ser :=
  s_seq [
    s_content ser_str (str "HostName") (RedirectAllRequestsTo_host_name self);
    if_some (RedirectAllRequestsTo_protocol self) (s_content ser_Protocol (str "Protocol"))].
Definition de_RedirectAllRequestsTo : De RedirectAllRequestsTo := de_struct false
   (arm_once (str "HostName") de_string
    (arm_once (str "Protocol") de_Protocol
    no_arms))
    (fun '(host_name, (protocol, tt)) =>
      host_name ← required host_name;
      Ok {| RedirectAllRequestsTo_host_name := host_name; RedirectAllRequestsTo_protocol := protocol |}).
Definition RedirectAllRequestsTo_wf (self : RedirectAllRequestsTo) : Prop :=
  string_wf (RedirectAllRequestsTo_host_name self) /\
  from_option string_wf True (RedirectAllRequestsTo_protocol self).
#[global] Instance RedirectAllRequestsTo_rt : RoundTrip ser_RedirectAllRequestsTo de_RedirectAllRequestsTo RedirectAllRequestsTo_wf.
Proof. solve_struct (fun self : RedirectAllRequestsTo => (Some (RedirectAllRequestsTo_host_name self), (RedirectAllRequestsTo_protocol self, tt))). Qed.
Lemma de_RedirectAllRequestsTo_well : well de_RedirectAllRequestsTo.
Proof. solve_well. Qed.
#[export] Hint Resolve de_RedirectAllRequestsTo_well : de.
#[global] Typeclasses Opaque ser_RedirectAllRequestsTo de_RedirectAllRequestsTo.

Record Condition := mk_Condition {
  Condition_http_error_code_returned_equals : option bytes;
  Condition_key_prefix_equals : option bytes
}.
Definition ser_Condition (self : Condition) : Ser :=
  s_seq [
    if_some (Condition_http_error_code_returned_equals self) (s_content ser_str (str "HttpErrorCodeReturnedEquals"));
    if_some (Condition_key_prefix_equals self) (s_content ser_str (str "KeyPrefixEquals"))].
Definition de_Condition : De Condition := de_struct false
   (arm_once (str "HttpErrorCodeReturnedEquals") de_string
    (arm_once (str "KeyPrefixEquals") de_string
    no_arms))
    (fun '(http_error_code_returned_equals, (key_prefix_equals, tt)) =>
      Ok {| Condition_http_error_code_returned_equals := http_error_code_returned_equals;
         Condition_key_prefix_equals := key_prefix_equals |}).
Definition Condition_wf (self : Condition) : Prop :=
  from_option string_wf True (Condition_http_error_code_returned_equals self) /\
  from_option string_wf True (Condition_key_prefix_equals self).
#[global] Instance Condition_rt : RoundTrip ser_Condition de_Condition Condition_wf.
Proof. solve_struct (fun self : Condition => (Condition_http_error_code_returned_equals self, (Condition_key_prefix_equals self, tt))). Qed.
Lemma de_Condition_well : well de_Condition.
Proof. solve_well. Qed.
#[export] Hint Resolve de_Condition_well : de.
#[global] Typeclasses Opaque ser_Condition de_Condition.

Record Redirect := mk_Redirect {
  Redirect_host_name : option bytes;
  Redirect_http_redirect_code : option bytes;
  Redirect_protocol : option Protocol;
  Redirect_replace_key_prefix_with : option bytes;
  Redirect_replace_key_with : option bytes
}.
Definition ser_Redirect (self : Redirect) : Ser :=
  s_seq [
    if_some (Redirect_host_name self) (s_content ser_str (str "HostName"));
    if_some (Redirect_http_redirect_code self) (s_content ser_str (str "HttpRedirectCode"));
    if_some (Redirect_protocol self) (s_content ser_Protocol (str "Protocol"));
    if_some (Redirect_replace_key_prefix_with self) (s_content ser_str (str "ReplaceKeyPrefixWith"));
    if_some (Redirect_replace_key_with self) (s_content ser_str (str "ReplaceKeyWith"))].
Definition de_Redirect : De Redirect := de_struct false
   (arm_once (str "HostName") de_string
    (arm_once (str "HttpRedirectCode") de_string
    (arm_once (str "Protocol") de_Protocol
    (arm_once (str "ReplaceKeyPrefixWith") de_string
    (arm_once (str "ReplaceKeyWith") de_string
    no_arms)))))
    (fun '(host_name, (http_redirect_code, (protocol, (replace_key_prefix_with, (replace_key_with, tt))))) =>
      Ok {| Redirect_host_name := host_name;
         Redirect_http_redirect_code := http_redirect_code;
         Redirect_protocol := protocol;
         Redirect_replace_key_prefix_with := replace_key_prefix_with;
         Redirect_replace_key_with := replace_key_with |}).
Definition Redirect_wf (self : Redirect) : Prop :=
  from_option string_wf True (Redirect_host_name self) /\
  from_option string_wf True (Redirect_http_redirect_code self) /\
  from_option string_wf True (Redirect_protocol self) /\
  from_option string_wf True (Redirect_replace_key_prefix_with self) /\
  from_option string_wf True (Redirect_replace_key_with self).
#[global] Instance Redirect_rt : RoundTrip ser_Redirect de_Redirect Redirect_wf.
Proof. solve_struct (fun self : Redirect => (Redirect_host_name self, (Redirect_http_redirect_code self, (Redirect_protocol self, (Redirect_replace_key_prefix_with self, (Redirect_replace_key_with self, tt)))))). Qed.
Lemma de_Redirect_well : well de_Redirect.
Proof. solve_well. Qed.
#[export] Hint Resolve de_Redirect_well : de.
#[global] Typeclasses Opaque ser_Redirect de_Redirect.

Record RoutingRule := mk_RoutingRule { RoutingRule_condition : option Condition; RoutingRule_redirect : Redirect }.
Definition ser_RoutingRule (self : RoutingRule) : Ser :=
  s_seq [
    if_some (RoutingRule_condition self) (s_content ser_Condition (str "Condition"));
    s_content ser_Redirect (str "Redirect") (RoutingRule_redirect self)].
Definition de_RoutingRule : De RoutingRule := de_struct false
   (arm_once (str "Condition") de_Condition
    (arm_once (str "Redirect") de_Redirect
    no_arms))
    (fun '(condition, (redirect, tt)) =>
      redirect ← required redirect;
      Ok {| RoutingRule_condition := condition; RoutingRule_redirect := redirect |}).
Definition RoutingRule_wf (self : RoutingRule) : Prop :=

    from_option Condition_wf True (RoutingRule_condition self) /\
    Redirect_wf (RoutingRule_redirect self).
#[global] Instance RoutingRule_rt : RoundTrip ser_RoutingRule de_RoutingRule RoutingRule_wf.
Proof. solve_struct (fun self : RoutingRule => (RoutingRule_condition self, (Some (RoutingRule_redirect self), tt))). Qed.
Lemma de_RoutingRule_well : well de_RoutingRule.
Proof. solve_well. Qed.
#[export] Hint Resolve de_RoutingRule_well : de.
#[global] Typeclasses Opaque ser_RoutingRule de_RoutingRule.

Record GetBucketWebsiteOutput := mk_GetBucketWebsiteOutput {
  GetBucketWebsiteOutput_error_document : option ErrorDocument;
  GetBucketWebsiteOutput_index_document : option IndexDocument;
  GetBucketWebsiteOutput_redirect_all_requests_to : option RedirectAllRequestsTo;
  GetBucketWebsiteOutput_routing_rules : option (list RoutingRule)
}.
Definition ser_GetBucketWebsiteOutput (self : GetBucketWebsiteOutput) : Ser :=
  s_seq [
    if_some (GetBucketWebsiteOutput_error_document self) (s_content ser_ErrorDocument (str "ErrorDocument"));
    if_some (GetBucketWebsiteOutput_index_document self) (s_content ser_IndexDocument (str "IndexDocument"));
    if_some (GetBucketWebsiteOutput_redirect_all_requests_to self) (s_content ser_RedirectAllRequestsTo (str "RedirectAllRequestsTo"));
    if_some (GetBucketWebsiteOutput_routing_rules self) (s_list ser_RoutingRule (str "RoutingRules") (str "RoutingRule"))].
Definition de_GetBucketWebsiteOutput : De GetBucketWebsiteOutput := de_struct false
   (arm_once (str "ErrorDocument") de_ErrorDocument
    (arm_once (str "IndexDocument") de_IndexDocument
    (arm_once (str "RedirectAllRequestsTo") de_RedirectAllRequestsTo
    (arm_once (str "RoutingRules") (list_content de_RoutingRule (str "RoutingRule"))
    no_arms))))
    (fun '(error_document, (index_document, (redirect_all_requests_to, (routing_rules, tt)))) =>
      Ok {| GetBucketWebsiteOutput_error_document := error_document;
         GetBucketWebsiteOutput_index_document := index_document;
         GetBucketWebsiteOutput_redirect_all_requests_to := redirect_all_requests_to;
         GetBucketWebsiteOutput_routing_rules := routing_rules |}).
Definition GetBucketWebsiteOutput_wf (self : GetBucketWebsiteOutput) : Prop :=
  from_option ErrorDocument_wf True (GetBucketWebsiteOutput_error_document self) /\
  from_option IndexDocument_wf True (GetBucketWebsiteOutput_index_document self) /\
  from_option RedirectAllRequestsTo_wf True (GetBucketWebsiteOutput_redirect_all_requests_to self) /\
  from_option (Forall RoutingRule_wf) True (GetBucketWebsiteOutput_routing_rules self).
#[global] Instance GetBucketWebsiteOutput_rt : RoundTrip ser_GetBucketWebsiteOutput de_GetBucketWebsiteOutput GetBucketWebsiteOutput_wf.
Proof. solve_struct (fun self : GetBucketWebsiteOutput => (GetBucketWebsiteOutput_error_document self, (GetBucketWebsiteOutput_index_document self, (GetBucketWebsiteOutput_redirect_all_requests_to self, (GetBucketWebsiteOutput_routing_rules self, tt))))). Qed.
Lemma de_GetBucketWebsiteOutput_well : well de_GetBucketWebsiteOutput.
Proof. solve_well. Qed.
#[export] Hint Resolve de_GetBucketWebsiteOutput_well : de.
#[global] Typeclasses Opaque ser_GetBucketWebsiteOutput de_GetBucketWebsiteOutput.

Record IntelligentTieringAndOperator := mk_IntelligentTieringAndOperator {
  IntelligentTieringAndOperator_prefix : option bytes;
  IntelligentTieringAndOperator_tags : option (list Tag)
}.
Definition ser_IntelligentTieringAndOperator (self : IntelligentTieringAndOperator) : Ser :=
  s_seq [
    if_some (IntelligentTieringAndOperator_prefix self) (s_content ser_str (str "Prefix"));
    if_some (IntelligentTieringAndOperator_tags self) (s_flattened_list ser_Tag (str "Tag"))].
Definition de_IntelligentTieringAndOperator : De IntelligentTieringAndOperator := de_struct false
   (arm_once (str "Prefix") de_string
    (arm_push (str "Tag") de_Tag
    no_arms))
    (fun '(prefix, (tags, tt)) =>
      Ok {| IntelligentTieringAndOperator_prefix := prefix; IntelligentTieringAndOperator_tags := tags |}).
Definition IntelligentTieringAndOperator_wf (self : IntelligentTieringAndOperator) : Prop :=
  from_option string_wf True (IntelligentTieringAndOperator_prefix self) /\
  from_option (fun l => Forall Tag_wf l /\ l <> []) True (IntelligentTieringAndOperator_tags self).
#[global] Instance IntelligentTieringAndOperator_rt : RoundTrip ser_IntelligentTieringAndOperator de_IntelligentTieringAndOperator IntelligentTieringAndOperator_wf.
Proof. solve_struct (fun self : IntelligentTieringAndOperator => (IntelligentTieringAndOperator_prefix self, (IntelligentTieringAndOperator_tags self, tt))). Qed.
Lemma de_IntelligentTieringAndOperator_well : well de_IntelligentTieringAndOperator.
Proof. solve_well. Qed.
#[export] Hint Resolve de_IntelligentTieringAndOperator_well : de.
#[global] Typeclasses Opaque ser_IntelligentTieringAndOperator de_IntelligentTieringAndOperator.

Record IntelligentTieringFilter := mk_IntelligentTieringFilter {
  IntelligentTieringFilter_and : option IntelligentTieringAndOperator;
  IntelligentTieringFilter_prefix : option bytes;
  IntelligentTieringFilter_tag : option Tag
}.
Definition ser_IntelligentTieringFilter (self : IntelligentTieringFilter) : Ser :=
  s_seq [
    if_some (IntelligentTieringFilter_and self) (s_content ser_IntelligentTieringAndOperator (str "And"));
    if_some (IntelligentTieringFilter_prefix self) (s_content ser_str (str "Prefix"));
    if_some (IntelligentTieringFilter_tag self) (s_content ser_Tag (str "Tag"))].
Definition de_IntelligentTieringFilter : De IntelligentTieringFilter := de_struct false
   (arm_once (str "And") de_IntelligentTieringAndOperator
    (arm_once (str "Prefix") de_string
    (arm_once (str "Tag") de_Tag
    no_arms)))
    (fun '(and_, (prefix, (tag, tt))) =>
      Ok {| IntelligentTieringFilter_and := and_;
         IntelligentTieringFilter_prefix := prefix;
         IntelligentTieringFilter_tag := tag |}).
Definition IntelligentTieringFilter_wf (self : IntelligentTieringFilter) : Prop :=
  from_option IntelligentTieringAndOperator_wf True (IntelligentTieringFilter_and self) /\
  from_option string_wf True (IntelligentTieringFilter_prefix self) /\
  from_option Tag_wf True (IntelligentTieringFilter_tag self).
#[global] Instance IntelligentTieringFilter_rt : RoundTrip ser_IntelligentTieringFilter de_IntelligentTieringFilter IntelligentTieringFilter_wf.
Proof. solve_struct (fun self : IntelligentTieringFilter => (IntelligentTieringFilter_and self, (IntelligentTieringFilter_prefix self, (IntelligentTieringFilter_tag self, tt)))). Qed.
Lemma de_IntelligentTieringFilter_well : well de_IntelligentTieringFilter.
Proof. solve_well. Qed.
#[export] Hint Resolve de_IntelligentTieringFilter_well : de.
#[global] Typeclasses Opaque ser_IntelligentTieringFilter de_IntelligentTieringFilter.

Definition IntelligentTieringStatus : Type := bytes.
Definition ser_IntelligentTieringStatus (self : IntelligentTieringStatus) : Ser := ser_str self.
Definition de_IntelligentTieringStatus : De IntelligentTieringStatus := de_enum [str "Disabled"; str "Enabled"].
#[global] Instance IntelligentTieringStatus_rt : RoundTrip ser_IntelligentTieringStatus de_IntelligentTieringStatus string_wf := enum_rt _.
Lemma de_IntelligentTieringStatus_well : well de_IntelligentTieringStatus.
Proof. apply de_enum_well. Qed.
#[export] Hint Resolve de_IntelligentTieringStatus_well : de.
#[global] Typeclasses Opaque ser_IntelligentTieringStatus de_IntelligentTieringStatus.

Definition IntelligentTieringAccessTier : Type := bytes.
Definition ser_IntelligentTieringAccessTier (self : IntelligentTieringAccessTier) : Ser := ser_str self.
Definition de_IntelligentTieringAccessTier : De IntelligentTieringAccessTier := de_enum [str "ARCHIVE_ACCESS"; str "DEEP_ARCHIVE_ACCESS"].
#[global] Instance IntelligentTieringAccessTier_rt : RoundTrip ser_IntelligentTieringAccessTier de_IntelligentTieringAccessTier string_wf := enum_rt _.
Lemma de_IntelligentTieringAccessTier_well : well de_IntelligentTieringAccessTier.
Proof. apply de_enum_well. Qed.
#[export] Hint Resolve de_IntelligentTieringAccessTier_well : de.
#[global] Typeclasses Opaque ser_IntelligentTieringAccessTier de_IntelligentTieringAccessTier.

Record Tiering := mk_Tiering { Tiering_access_tier : IntelligentTieringAccessTier; Tiering_days : Z }.
Definition ser_Tiering (self : Tiering) : Ser :=
  s_seq [
    s_content ser_IntelligentTieringAccessTier (str "AccessTier") (Tiering_access_tier self);
    s_content ser_i32 (str "Days") (Tiering_days self)].
Definition de_Tiering `{XmlDeps} : De Tiering := de_struct false
   (arm_once (str "AccessTier") de_IntelligentTieringAccessTier
    (arm_once (str "Days") de_i32
    no_arms))
    (fun '(access_tier, (days, tt)) =>
      access_tier ← required access_tier;
      days ← required days;
      Ok {| Tiering_access_tier := access_tier; Tiering_days := days |}).
Definition Tiering_wf (self : Tiering) : Prop :=
  string_wf (Tiering_access_tier self) /\ i32_wf (Tiering_days self).
#[global] Instance Tiering_rt `{XmlDeps} : RoundTrip ser_Tiering de_Tiering Tiering_wf.
Proof. solve_struct (fun self : Tiering => (Some (Tiering_access_tier self), (Some (Tiering_days self), tt))). Qed.
Lemma de_Tiering_well `{XmlDeps} : well de_Tiering.
Proof. solve_well. Qed.
#[export] Hint Resolve de_Tiering_well : de.
#[global] Typeclasses Opaque ser_Tiering de_Tiering.

Record IntelligentTieringConfiguration := mk_IntelligentTieringConfiguration {
  IntelligentTieringConfiguration_filter : option IntelligentTieringFilter;
  IntelligentTieringConfiguration_id : bytes;
  IntelligentTieringConfiguration_status : IntelligentTieringStatus;
  IntelligentTieringConfiguration_tierings : list Tiering
}.
Definition ser_IntelligentTieringConfiguration (self : IntelligentTieringConfiguration) : Ser :=
  s_seq [
    if_some (IntelligentTieringConfiguration_filter self) (s_content ser_IntelligentTieringFilter (str "Filter"));
    s_content ser_str (str "Id") (IntelligentTieringConfiguration_id self);
    s_content ser_IntelligentTieringStatus (str "Status") (IntelligentTieringConfiguration_status self);
    s_flattened_list ser_Tiering (str "Tiering") (IntelligentTieringConfiguration_tierings self)].
Definition de_IntelligentTieringConfiguration `{XmlDeps} : De IntelligentTieringConfiguration := de_struct true
   (arm_once (str "Filter") de_IntelligentTieringFilter
    (arm_once (str "Id") de_string
    (arm_once (str "Status") de_IntelligentTieringStatus
    (arm_push (str "Tiering") de_Tiering
    no_arms))))
    (fun '(filter, (id, (status, (tierings, tt)))) =>
      id ← required id;
      status ← required status;
      tierings ← required tierings;
      Ok {| IntelligentTieringConfiguration_filter := filter;
         IntelligentTieringConfiguration_id := id;
         IntelligentTieringConfiguration_status := status;
         IntelligentTieringConfiguration_tierings := tierings |}).
Definition IntelligentTieringConfiguration_wf (self : IntelligentTieringConfiguration) : Prop :=
  from_option IntelligentTieringFilter_wf True (IntelligentTieringConfiguration_filter self) /\
  string_wf (IntelligentTieringConfiguration_id self) /\
  string_wf (IntelligentTieringConfiguration_status self) /\
  Forall Tiering_wf (IntelligentTieringConfiguration_tierings self) /\
  (IntelligentTieringConfiguration_tierings self) <> [].
#[global] Instance IntelligentTieringConfiguration_rt `{XmlDeps} : RoundTrip ser_IntelligentTieringConfiguration de_IntelligentTieringConfiguration IntelligentTieringConfiguration_wf.
Proof. solve_struct (fun self : IntelligentTieringConfiguration => (IntelligentTieringConfiguration_filter self, (Some (IntelligentTieringConfiguration_id self), (Some (IntelligentTieringConfiguration_status self), (Some (IntelligentTieringConfiguration_tierings self), tt))))). Qed.
Lemma de_IntelligentTieringConfiguration_well `{XmlDeps} : well de_IntelligentTieringConfiguration.
Proof. solve_well. Qed.
#[export] Hint Resolve de_IntelligentTieringConfiguration_well : de.
#[global] Typeclasses Opaque ser_IntelligentTieringConfiguration de_IntelligentTieringConfiguration.

Record SSEKMS := mk_SSEKMS { SSEKMS_key_id : bytes }.
Definition ser_SSEKMS (self : SSEKMS) : Ser :=
  s_seq [s_content ser_str (str "KeyId") (SSEKMS_key_id self)].
Definition de_SSEKMS : De SSEKMS := de_struct false
   (arm_once (str "KeyId") de_string
    no_arms)
    (fun '(key_id, tt) =>
      key_id ← required key_id;
      Ok {| SSEKMS_key_id := key_id |}).
Definition SSEKMS_wf (self : SSEKMS) : Prop :=
  string_wf (SSEKMS_key_id self).
#[global] Instance SSEKMS_rt : RoundTrip ser_SSEKMS de_SSEKMS SSEKMS_wf.
Proof. solve_struct (fun self : SSEKMS => (Some (SSEKMS_key_id self), tt)). Qed.
Lemma de_SSEKMS_well : well de_SSEKMS.
Proof. solve_well. Qed.
#[export] Hint Resolve de_SSEKMS_well : de.
#[global] Typeclasses Opaque ser_SSEKMS de_SSEKMS.

Record SSES3 := mk_SSES3 {}.
Definition ser_SSES3 (self : SSES3) : Ser :=
  s_seq [].
Definition de_SSES3 : De SSES3 := mret mk_SSES3.
Definition SSES3_wf (_ : SSES3) : Prop := True.
#[global] Instance SSES3_rt : RoundTrip ser_SSES3 de_SSES3 SSES3_wf.
Proof. apply empty_round_trip; [done|]. by intros []. Qed.
Lemma de_SSES3_well : well de_SSES3.
Proof. apply well_ret. Qed.
#[export] Hint Resolve de_SSES3_well : de.
#[global] Typeclasses Opaque ser_SSES3 de_SSES3.

Record InventoryEncryption := mk_InventoryEncryption {
  InventoryEncryption_ssekms : option SSEKMS;
  InventoryEncryption_sses3 : option SSES3
}.
Definition ser_InventoryEncryption (self : InventoryEncryption) : Ser :=
  s_seq [
    if_some (InventoryEncryption_ssekms self) (s_content ser_SSEKMS (str "SSE-KMS"));
    if_some (InventoryEncryption_sses3 self) (s_content ser_SSES3 (str "SSE-S3"))].
Definition de_InventoryEncryption : De InventoryEncryption := de_struct false
   (arm_once (str "SSE-KMS") de_SSEKMS
    (arm_once (str "SSE-S3") de_SSES3
    no_arms))
    (fun '(ssekms, (sses3, tt)) =>
      Ok {| InventoryEncryption_ssekms := ssekms; InventoryEncryption_sses3 := sses3 |}).
Definition InventoryEncryption_wf (self : InventoryEncryption) : Prop :=
  from_option SSEKMS_wf True (InventoryEncryption_ssekms self) /\
  from_option SSES3_wf True (InventoryEncryption_sses3 self).
#[global] Instance InventoryEncryption_rt : RoundTrip ser_InventoryEncryption de_InventoryEncryption InventoryEncryption_wf.
Proof. solve_struct (fun self : InventoryEncryption => (InventoryEncryption_ssekms self, (InventoryEncryption_sses3 self, tt))). Qed.
Lemma de_InventoryEncryption_well : well de_InventoryEncryption.
Proof. solve_well. Qed.
#[export] Hint Resolve de_InventoryEncryption_well : de.
#[global] Typeclasses Opaque ser_InventoryEncryption de_InventoryEncryption.

Definition InventoryFormat : Type := bytes.
Definition ser_InventoryFormat (self : InventoryFormat) : Ser := ser_str self.
Definition de_InventoryFormat : De InventoryFormat := de_enum [str "CSV"; str "ORC"; str "Parquet"].
#[global] Instance InventoryFormat_rt : RoundTrip ser_InventoryFormat de_InventoryFormat string_wf := enum_rt _.
Lemma de_InventoryFormat_well : well de_InventoryFormat.
Proof. apply de_enum_well. Qed.
#[export] Hint Resolve de_InventoryFormat_well : de.
#[global] Typeclasses Opaque ser_InventoryFormat de_InventoryFormat.

Record InventoryS3BucketDestination := mk_InventoryS3BucketDestination {
  InventoryS3BucketDestination_account_id : option bytes;
  InventoryS3BucketDestination_bucket : bytes;
  InventoryS3BucketDestination_encryption : option InventoryEncryption;
  InventoryS3BucketDestination_format : InventoryFormat;
  InventoryS3BucketDestination_prefix : option bytes
}.
Definition ser_InventoryS3BucketDestination (self : InventoryS3BucketDestination) : Ser :=
  s_seq [
    if_some (InventoryS3BucketDestination_account_id self) (s_content ser_str (str "AccountId"));
    s_content ser_str (str "Bucket") (InventoryS3BucketDestination_bucket self);
    if_some (InventoryS3BucketDestination_encryption self) (s_content ser_InventoryEncryption (str "Encryption"));
    s_content ser_InventoryFormat (str "Format") (InventoryS3BucketDestination_format self);
    if_some (InventoryS3BucketDestination_prefix self) (s_content ser_str (str "Prefix"))].
Definition de_InventoryS3BucketDestination : De InventoryS3BucketDestination := de_struct false
   (arm_once (str "AccountId") de_string
    (arm_once (str "Bucket") de_string
    (arm_once (str "Encryption") de_InventoryEncryption
    (arm_once (str "Format") de_InventoryFormat
    (arm_once (str "Prefix") de_string
    no_arms)))))
    (fun '(account_id, (bucket, (encryption, (format, (prefix, tt))))) =>
      bucket ← required bucket;
      format ← required format;
      Ok {| InventoryS3BucketDestination_account_id := account_id;
         InventoryS3BucketDestination_bucket := bucket;
         InventoryS3BucketDestination_encryption := encryption;
         InventoryS3BucketDestination_format := format;
         InventoryS3BucketDestination_prefix := prefix |}).
Definition InventoryS3BucketDestination_wf (self : InventoryS3BucketDestination) : Prop :=
  from_option string_wf True (InventoryS3BucketDestination_account_id self) /\
  string_wf (InventoryS3BucketDestination_bucket self) /\
  from_option InventoryEncryption_wf True (InventoryS3BucketDestination_encryption self) /\
  string_wf (InventoryS3BucketDestination_format self) /\
  from_option string_wf True (InventoryS3BucketDestination_prefix self).
#[global] Instance InventoryS3BucketDestination_rt : RoundTrip ser_InventoryS3BucketDestination de_InventoryS3BucketDestination InventoryS3BucketDestination_wf.
Proof. solve_struct (fun self : InventoryS3BucketDestination => (InventoryS3BucketDestination_account_id self, (Some (InventoryS3BucketDestination_bucket self), (InventoryS3BucketDestination_encryption self, (Some (InventoryS3BucketDestination_format self), (InventoryS3BucketDestination_prefix self, tt)))))). Qed.
Lemma de_InventoryS3BucketDestination_well : well de_InventoryS3BucketDestination.
Proof. solve_well. Qed.
#[export] Hint Resolve de_InventoryS3BucketDestination_well : de.
#[global] Typeclasses Opaque ser_InventoryS3BucketDestination de_InventoryS3BucketDestination.

Record InventoryDestination := mk_InventoryDestination {
  InventoryDestination_s3_bucket_destination : InventoryS3BucketDestination
}.
Definition ser_InventoryDestination (self : InventoryDestination) : Ser :=
  s_seq [
    s_content ser_InventoryS3BucketDestination (str "S3BucketDestination") (InventoryDestination_s3_bucket_destination self)].
Definition de_InventoryDestination : De InventoryDestination := de_struct false
   (arm_once (str "S3BucketDestination") de_InventoryS3BucketDestination
    no_arms)
    (fun '(s3_bucket_destination, tt) =>
      s3_bucket_destination ← required s3_bucket_destination;
      Ok {| InventoryDestination_s3_bucket_destination := s3_bucket_destination |}).
Definition InventoryDestination_wf (self : InventoryDestination) : Prop :=

    InventoryS3BucketDestination_wf (InventoryDestination_s3_bucket_destination self).
#[global] Instance InventoryDestination_rt : RoundTrip ser_InventoryDestination de_InventoryDestination InventoryDestination_wf.
Proof. solve_struct (fun self : InventoryDestination => (Some (InventoryDestination_s3_bucket_destination self), tt)). Qed.
Lemma de_InventoryDestination_well : well de_InventoryDestination.
Proof. solve_well. Qed.
#[export] Hint Resolve de_InventoryDestination_well : de.
#[global] Typeclasses Opaque ser_InventoryDestination de_InventoryDestination.

Record InventoryFilter := mk_InventoryFilter { InventoryFilter_prefix : bytes }.
Definition ser_InventoryFilter (self : InventoryFilter) : Ser :=
  s_seq [
    s_content ser_str (str "Prefix") (InventoryFilter_prefix self)].
Definition de_InventoryFilter : De InventoryFilter := de_struct false
   (arm_once (str "Prefix") de_string
    no_arms)
    (fun '(prefix, tt) =>
      prefix ← required prefix;
      Ok {| InventoryFilter_prefix := prefix |}).
Definition InventoryFilter_wf (self : InventoryFilter) : Prop :=
  string_wf (InventoryFilter_prefix self).
#[global] Instance InventoryFilter_rt : RoundTrip ser_InventoryFilter de_InventoryFilter InventoryFilter_wf.
Proof. solve_struct (fun self : InventoryFilter => (Some (InventoryFilter_prefix self), tt)). Qed.
Lemma de_InventoryFilter_well : well de_InventoryFilter.
Proof. solve_well. Qed.
#[export] Hint Resolve de_InventoryFilter_well : de.
#[global] Typeclasses Opaque ser_InventoryFilter de_InventoryFilter.

Definition InventoryIncludedObjectVersions : Type := bytes.
Definition ser_InventoryIncludedObjectVersions (self : InventoryIncludedObjectVersions) : Ser := ser_str self.
Definition de_InventoryIncludedObjectVersions : De InventoryIncludedObjectVersions := de_enum [str "All"; str "Current"].
#[global] Instance InventoryIncludedObjectVersions_rt : RoundTrip ser_InventoryIncludedObjectVersions de_InventoryIncludedObjectVersions string_wf := enum_rt _.
Lemma de_InventoryIncludedObjectVersions_well : well de_InventoryIncludedObjectVersions.
Proof. apply de_enum_well. Qed.
#[export] Hint Resolve de_InventoryIncludedObjectVersions_well : de.
#[global] Typeclasses Opaque ser_InventoryIncludedObjectVersions de_InventoryIncludedObjectVersions.

Definition InventoryOptionalField : Type := bytes.
Definition ser_InventoryOptionalField (self : InventoryOptionalField) : Ser := ser_str self.
Definition de_InventoryOptionalField : De InventoryOptionalField := de_enum [str "BucketKeyStatus"; str "ChecksumAlgorithm"; str "ETag"; str "EncryptionStatus"; str "IntelligentTieringAccessTier"; str "IsMultipartUploaded"; str "LastModifiedDate"; str "LifecycleExpirationDate"; str "ObjectAccessControlList"; str "ObjectLockLegalHoldStatus"; str "ObjectLockMode"; str "ObjectLockRetainUntilDate"; str "ObjectOwner"; str "ReplicationStatus"; str "Size"; str "StorageClass"].
#[global] Instance InventoryOptionalField_rt : RoundTrip ser_InventoryOptionalField de_InventoryOptionalField string_wf := enum_rt _.
Lemma de_InventoryOptionalField_well : well de_InventoryOptionalField.
Proof. apply de_enum_well. Qed.
#[export] Hint Resolve de_InventoryOptionalField_well : de.
#[global] Typeclasses Opaque ser_InventoryOptionalField de_InventoryOptionalField.

Definition InventoryFrequency : Type := bytes.
Definition ser_InventoryFrequency (self : InventoryFrequency) : Ser := ser_str self.
Definition de_InventoryFrequency : De InventoryFrequency := de_enum [str "Daily"; str "Weekly"].
#[global] Instance InventoryFrequency_rt : RoundTrip ser_InventoryFrequency de_InventoryFrequency string_wf := enum_rt _.
Lemma de_InventoryFrequency_well : well de_InventoryFrequency.
Proof. apply de_enum_well. Qed.
#[export] Hint Resolve de_InventoryFrequency_well : de.
#[global] Typeclasses Opaque ser_InventoryFrequency de_InventoryFrequency.

Record InventorySchedule := mk_InventorySchedule { InventorySchedule_frequency : InventoryFrequency }.
Definition ser_InventorySchedule (self : InventorySchedule) : Ser :=
  s_seq [
    s_content ser_InventoryFrequency (str "Frequency") (InventorySchedule_frequency self)].
Definition de_InventorySchedule : De InventorySchedule := de_struct false
   (arm_once (str "Frequency") de_InventoryFrequency
    no_arms)
    (fun '(frequency, tt) =>
      frequency ← required frequency;
      Ok {| InventorySchedule_frequency := frequency |}).
Definition InventorySchedule_wf (self : InventorySchedule) : Prop :=
  string_wf (InventorySchedule_frequency self).
#[global] Instance InventorySchedule_rt : RoundTrip ser_InventorySchedule de_InventorySchedule InventorySchedule_wf.
Proof. solve_struct (fun self : InventorySchedule => (Some (InventorySchedule_frequency self), tt)). Qed.
Lemma de_InventorySchedule_well : well de_InventorySchedule.
Proof. solve_well. Qed.
#[export] Hint Resolve de_InventorySchedule_well : de.
#[global] Typeclasses Opaque ser_InventorySchedule de_InventorySchedule.

Record InventoryConfiguration := mk_InventoryConfiguration {
  InventoryConfiguration_destination : InventoryDestination;
  InventoryConfiguration_filter : option InventoryFilter;
  InventoryConfiguration_id : bytes;
  InventoryConfiguration_included_object_versions : InventoryIncludedObjectVersions;
  InventoryConfiguration_is_enabled : bool;
  InventoryConfiguration_optional_fields : option (list InventoryOptionalField);
  InventoryConfiguration_schedule : InventorySchedule
}.
Definition ser_InventoryConfiguration (self : InventoryConfiguration) : Ser :=
  s_seq [
    s_content ser_InventoryDestination (str "Destination") (InventoryConfiguration_destination self);
    if_some (InventoryConfiguration_filter self) (s_content ser_InventoryFilter (str "Filter"));
    s_content ser_str (str "Id") (InventoryConfiguration_id self);
    s_content ser_InventoryIncludedObjectVersions (str "IncludedObjectVersions") (InventoryConfiguration_included_object_versions self);
    s_content ser_bool (str "IsEnabled") (InventoryConfiguration_is_enabled self);
    if_some (InventoryConfiguration_optional_fields self) (s_list ser_InventoryOptionalField (str "OptionalFields") (str "Field"));
    s_content ser_InventorySchedule (str "Schedule") (InventoryConfiguration_schedule self)].
Definition de_InventoryConfiguration : De InventoryConfiguration := de_struct true
   (arm_once (str "Destination") de_InventoryDestination
    (arm_once (str "Filter") de_InventoryFilter
    (arm_once (str "Id") de_string
    (arm_once (str "IncludedObjectVersions") de_InventoryIncludedObjectVersions
    (arm_once (str "IsEnabled") de_bool
    (arm_once (str "OptionalFields") (list_content de_InventoryOptionalField (str "Field"))
    (arm_once (str "Schedule") de_InventorySchedule
    no_arms)))))))
    (fun '(destination, (filter, (id, (included_object_versions, (is_enabled, (optional_fields, (schedule, tt))))))) =>
      destination ← required destination;
      id ← required id;
      included_object_versions ← required included_object_versions;
      is_enabled ← required is_enabled;
      schedule ← required schedule;
      Ok {| InventoryConfiguration_destination := destination;
         InventoryConfiguration_filter := filter;
         InventoryConfiguration_id := id;
         InventoryConfiguration_included_object_versions := included_object_versions;
         InventoryConfiguration_is_enabled := is_enabled;
         InventoryConfiguration_optional_fields := optional_fields;
         InventoryConfiguration_schedule := schedule |}).
Definition InventoryConfiguration_wf (self : InventoryConfiguration) : Prop :=
  InventoryDestination_wf (InventoryConfiguration_destination self) /\
  from_option InventoryFilter_wf True (InventoryConfiguration_filter self) /\
  string_wf (InventoryConfiguration_id self) /\
  string_wf (InventoryConfiguration_included_object_versions self) /\
  bool_wf (InventoryConfiguration_is_enabled self) /\
  from_option (Forall string_wf) True (InventoryConfiguration_optional_fields self) /\
  InventorySchedule_wf (InventoryConfiguration_schedule self).
#[global] Instance InventoryConfiguration_rt : RoundTrip ser_InventoryConfiguration de_InventoryConfiguration InventoryConfiguration_wf.
Proof. solve_struct (fun self : InventoryConfiguration => (Some (InventoryConfiguration_destination self), (InventoryConfiguration_filter self, (Some (InventoryConfiguration_id self), (Some (InventoryConfiguration_included_object_versions self), (Some (InventoryConfiguration_is_enabled self), (InventoryConfiguration_optional_fields self, (Some (InventoryConfiguration_schedule self), tt)))))))). Qed.
Lemma de_InventoryConfiguration_well : well de_InventoryConfiguration.
Proof. solve_well. Qed.
#[export] Hint Resolve de_InventoryConfiguration_well : de.
#[global] Typeclasses Opaque ser_InventoryConfiguration de_InventoryConfiguration.

Record InventoryTableConfigurationUpdates := mk_InventoryTableConfigurationUpdates {
  InventoryTableConfigurationUpdates_configuration_state : InventoryConfigurationState;
  InventoryTableConfigurationUpdates_encryption_configuration : option MetadataTableEncryptionConfiguration
}.
Definition ser_InventoryTableConfigurationUpdates (self : InventoryTableConfigurationUpdates) : Ser :=
  s_seq [
    s_content ser_InventoryConfigurationState (str "ConfigurationState") (InventoryTableConfigurationUpdates_configuration_state self);
    if_some (InventoryTableConfigurationUpdates_encryption_configuration self) (s_content ser_MetadataTableEncryptionConfiguration (str "EncryptionConfiguration"))].
Definition de_InventoryTableConfigurationUpdates : De InventoryTableConfigurationUpdates := de_struct true
   (arm_once (str "ConfigurationState") de_InventoryConfigurationState
    (arm_once (str "EncryptionConfiguration") de_MetadataTableEncryptionConfiguration
    no_arms))
    (fun '(configuration_state, (encryption_configuration, tt)) =>
      configuration_state ← required configuration_state;
      Ok {| InventoryTableConfigurationUpdates_configuration_state := configuration_state;
         InventoryTableConfigurationUpdates_encryption_configuration := encryption_configuration |}).
Definition InventoryTableConfigurationUpdates_wf (self : InventoryTableConfigurationUpdates) : Prop :=
  string_wf (InventoryTableConfigurationUpdates_configuration_state self) /\
  from_option MetadataTableEncryptionConfiguration_wf True (InventoryTableConfigurationUpdates_encryption_configuration self).
#[global] Instance InventoryTableConfigurationUpdates_rt : RoundTrip ser_InventoryTableConfigurationUpdates de_InventoryTableConfigurationUpdates InventoryTableConfigurationUpdates_wf.
Proof. solve_struct (fun self : InventoryTableConfigurationUpdates => (Some (InventoryTableConfigurationUpdates_configuration_state self), (InventoryTableConfigurationUpdates_encryption_configuration self, tt))). Qed.
Lemma de_InventoryTableConfigurationUpdates_well : well de_InventoryTableConfigurationUpdates.
Proof. solve_well. Qed.
#[export] Hint Resolve de_InventoryTableConfigurationUpdates_well : de.
#[global] Typeclasses Opaque ser_InventoryTableConfigurationUpdates de_InventoryTableConfigurationUpdates.

Record JournalTableConfigurationUpdates := mk_JournalTableConfigurationUpdates {
  JournalTableConfigurationUpdates_record_expiration : RecordExpiration
}.
Definition ser_JournalTableConfigurationUpdates (self : JournalTableConfigurationUpdates) : Ser :=
  s_seq [
    s_content ser_RecordExpiration (str "RecordExpiration") (JournalTableConfigurationUpdates_record_expiration self)].
Definition de_JournalTableConfigurationUpdates `{XmlDeps} : De JournalTableConfigurationUpdates := de_struct true
   (arm_once (str "RecordExpiration") de_RecordExpiration
    no_arms)
    (fun '(record_expiration, tt) =>
      record_expiration ← required record_expiration;
      Ok {| JournalTableConfigurationUpdates_record_expiration := record_expiration |}).
Definition JournalTableConfigurationUpdates_wf (self : JournalTableConfigurationUpdates) : Prop :=

    RecordExpiration_wf (JournalTableConfigurationUpdates_record_expiration self).
#[global] Instance JournalTableConfigurationUpdates_rt `{XmlDeps} : RoundTrip ser_JournalTableConfigurationUpdates de_JournalTableConfigurationUpdates JournalTableConfigurationUpdates_wf.
Proof. solve_struct (fun self : JournalTableConfigurationUpdates => (Some (JournalTableConfigurationUpdates_record_expiration self), tt)). Qed.
Lemma de_JournalTableConfigurationUpdates_well `{XmlDeps} : well de_JournalTableConfigurationUpdates.
Proof. solve_well. Qed.
#[export] Hint Resolve de_JournalTableConfigurationUpdates_well : de.
#[global] Typeclasses Opaque ser_JournalTableConfigurationUpdates de_JournalTableConfigurationUpdates.

Record ListBucketAnalyticsConfigurationsOutput := mk_ListBucketAnalyticsConfigurationsOutput {
  ListBucketAnalyticsConfigurationsOutput_analytics_configuration_list : option (list AnalyticsConfiguration);
  ListBucketAnalyticsConfigurationsOutput_continuation_token : option bytes;
  ListBucketAnalyticsConfigurationsOutput_is_truncated : option bool;
  ListBucketAnalyticsConfigurationsOutput_next_continuation_token : option bytes
}.
Definition ser_ListBucketAnalyticsConfigurationsOutput (self : ListBucketAnalyticsConfigurationsOutput) : Ser :=
  s_seq [
    if_some (ListBucketAnalyticsConfigurationsOutput_analytics_configuration_list self) (s_flattened_list ser_AnalyticsConfiguration (str "AnalyticsConfiguration"));
    if_some (ListBucketAnalyticsConfigurationsOutput_continuation_token self) (s_content ser_str (str "ContinuationToken"));
    if_some (ListBucketAnalyticsConfigurationsOutput_is_truncated self) (s_content ser_bool (str "IsTruncated"));
    if_some (ListBucketAnalyticsConfigurationsOutput_next_continuation_token self) (s_content ser_str (str "NextContinuationToken"))].
Definition de_ListBucketAnalyticsConfigurationsOutput : De ListBucketAnalyticsConfigurationsOutput := de_struct false
   (arm_push (str "AnalyticsConfiguration") de_AnalyticsConfiguration
    (arm_once (str "ContinuationToken") de_string
    (arm_once (str "IsTruncated") de_bool
    (arm_once (str "NextContinuationToken") de_string
    no_arms))))
    (fun '(analytics_configuration_list, (continuation_token, (is_truncated, (next_continuation_token, tt)))) =>
      Ok {| ListBucketAnalyticsConfigurationsOutput_analytics_configuration_list := analytics_configuration_list;
         ListBucketAnalyticsConfigurationsOutput_continuation_token := continuation_token;
         ListBucketAnalyticsConfigurationsOutput_is_truncated := is_truncated;
         ListBucketAnalyticsConfigurationsOutput_next_continuation_token := next_continuation_token |}).
Definition ListBucketAnalyticsConfigurationsOutput_wf (self : ListBucketAnalyticsConfigurationsOutput) : Prop :=
  from_option (fun l => Forall AnalyticsConfiguration_wf l /\ l <> []) True (ListBucketAnalyticsConfigurationsOutput_analytics_configuration_list self) /\
  from_option string_wf True (ListBucketAnalyticsConfigurationsOutput_continuation_token self) /\
  from_option bool_wf True (ListBucketAnalyticsConfigurationsOutput_is_truncated self) /\
  from_option string_wf True (ListBucketAnalyticsConfigurationsOutput_next_continuation_token self).
#[global] Instance ListBucketAnalyticsConfigurationsOutput_rt : RoundTrip ser_ListBucketAnalyticsConfigurationsOutput de_ListBucketAnalyticsConfigurationsOutput ListBucketAnalyticsConfigurationsOutput_wf.
Proof. solve_struct (fun self : ListBucketAnalyticsConfigurationsOutput => (ListBucketAnalyticsConfigurationsOutput_analytics_configuration_list self, (ListBucketAnalyticsConfigurationsOutput_continuation_token self, (ListBucketAnalyticsConfigurationsOutput_is_truncated self, (ListBucketAnalyticsConfigurationsOutput_next_continuation_token self, tt))))). Qed.
Lemma de_ListBucketAnalyticsConfigurationsOutput_well : well de_ListBucketAnalyticsConfigurationsOutput.
Proof. solve_well. Qed.
#[export] Hint Resolve de_ListBucketAnalyticsConfigurationsOutput_well : de.
#[global] Typeclasses Opaque ser_ListBucketAnalyticsConfigurationsOutput de_ListBucketAnalyticsConfigurationsOutput.

Record ListBucketIntelligentTieringConfigurationsOutput := mk_ListBucketIntelligentTieringConfigurationsOutput {
  ListBucketIntelligentTieringConfigurationsOutput_continuation_token : option bytes;
  ListBucketIntelligentTieringConfigurationsOutput_intelligent_tiering_configuration_list : option (list IntelligentTieringConfiguration);
  ListBucketIntelligentTieringConfigurationsOutput_is_truncated : option bool;
  ListBucketIntelligentTieringConfigurationsOutput_next_continuation_token : option bytes
}.
Definition ser_ListBucketIntelligentTieringConfigurationsOutput (self : ListBucketIntelligentTieringConfigurationsOutput) : Ser :=
  s_seq [
    if_some (ListBucketIntelligentTieringConfigurationsOutput_continuation_token self) (s_content ser_str (str "ContinuationToken"));
    if_some (ListBucketIntelligentTieringConfigurationsOutput_intelligent_tiering_configuration_list self) (s_flattened_list ser_IntelligentTieringConfiguration (str "IntelligentTieringConfiguration"));
    if_some (ListBucketIntelligentTieringConfigurationsOutput_is_truncated self) (s_content ser_bool (str "IsTruncated"));
    if_some (ListBucketIntelligentTieringConfigurationsOutput_next_continuation_token self) (s_content ser_str (str "NextContinuationToken"))].
Definition de_ListBucketIntelligentTieringConfigurationsOutput `{XmlDeps} : De ListBucketIntelligentTieringConfigurationsOutput := de_struct false
   (arm_once (str "ContinuationToken") de_string
    (arm_push (str "IntelligentTieringConfiguration") de_IntelligentTieringConfiguration
    (arm_once (str "IsTruncated") de_bool
    (arm_once (str "NextContinuationToken") de_string
    no_arms))))
    (fun '(continuation_token, (intelligent_tiering_configuration_list, (is_truncated, (next_continuation_token, tt)))) =>
      Ok {| ListBucketIntelligentTieringConfigurationsOutput_continuation_token := continuation_token;
         ListBucketIntelligentTieringConfigurationsOutput_intelligent_tiering_configuration_list := intelligent_tiering_configuration_list;
         ListBucketIntelligentTieringConfigurationsOutput_is_truncated := is_truncated;
         ListBucketIntelligentTieringConfigurationsOutput_next_continuation_token := next_continuation_token |}).
Definition ListBucketIntelligentTieringConfigurationsOutput_wf (self : ListBucketIntelligentTieringConfigurationsOutput) : Prop :=
  from_option string_wf True (ListBucketIntelligentTieringConfigurationsOutput_continuation_token self) /\
  from_option (fun l => Forall IntelligentTieringConfiguration_wf l /\ l <> []) True (ListBucketIntelligentTieringConfigurationsOutput_intelligent_tiering_configuration_list self) /\
  from_option bool_wf True (ListBucketIntelligentTieringConfigurationsOutput_is_truncated self) /\
  from_option string_wf True (ListBucketIntelligentTieringConfigurationsOutput_next_continuation_token self).
#[global] Instance ListBucketIntelligentTieringConfigurationsOutput_rt `{XmlDeps} : RoundTrip ser_ListBucketIntelligentTieringConfigurationsOutput de_ListBucketIntelligentTieringConfigurationsOutput ListBucketIntelligentTieringConfigurationsOutput_wf.
Proof. solve_struct (fun self : ListBucketIntelligentTieringConfigurationsOutput => (ListBucketIntelligentTieringConfigurationsOutput_continuation_token self, (ListBucketIntelligentTieringConfigurationsOutput_intelligent_tiering_configuration_list self, (ListBucketIntelligentTieringConfigurationsOutput_is_truncated self, (ListBucketIntelligentTieringConfigurationsOutput_next_continuation_token self, tt))))). Qed.
Lemma de_ListBucketIntelligentTieringConfigurationsOutput_well `{XmlDeps} : well de_ListBucketIntelligentTieringConfigurationsOutput.
Proof. solve_well. Qed.
#[export] Hint Resolve de_ListBucketIntelligentTieringConfigurationsOutput_well : de.
#[global] Typeclasses Opaque ser_ListBucketIntelligentTieringConfigurationsOutput de_ListBucketIntelligentTieringConfigurationsOutput.

Record ListBucketInventoryConfigurationsOutput := mk_ListBucketInventoryConfigurationsOutput {
  ListBucketInventoryConfigurationsOutput_continuation_token : option bytes;
  ListBucketInventoryConfigurationsOutput_inventory_configuration_list : option (list InventoryConfiguration);
  ListBucketInventoryConfigurationsOutput_is_truncated : option bool;
  ListBucketInventoryConfigurationsOutput_next_continuation_token : option bytes
}.
Definition ser_ListBucketInventoryConfigurationsOutput (self : ListBucketInventoryConfigurationsOutput) : Ser :=
  s_seq [
    if_some (ListBucketInventoryConfigurationsOutput_continuation_token self) (s_content ser_str (str "ContinuationToken"));
    if_some (ListBucketInventoryConfigurationsOutput_inventory_configuration_list self) (s_flattened_list ser_InventoryConfiguration (str "InventoryConfiguration"));
    if_some (ListBucketInventoryConfigurationsOutput_is_truncated self) (s_content ser_bool (str "IsTruncated"));
    if_some (ListBucketInventoryConfigurationsOutput_next_continuation_token self) (s_content ser_str (str "NextContinuationToken"))].
Definition de_ListBucketInventoryConfigurationsOutput : De ListBucketInventoryConfigurationsOutput := de_struct false
   (arm_once (str "ContinuationToken") de_string
    (arm_push (str "InventoryConfiguration") de_InventoryConfiguration
    (arm_once (str "IsTruncated") de_bool
    (arm_once (str "NextContinuationToken") de_string
    no_arms))))
    (fun '(continuation_token, (inventory_configuration_list, (is_truncated, (next_continuation_token, tt)))) =>
      Ok {| ListBucketInventoryConfigurationsOutput_continuation_token := continuation_token;
         ListBucketInventoryConfigurationsOutput_inventory_configuration_list := inventory_configuration_list;
         ListBucketInventoryConfigurationsOutput_is_truncated := is_truncated;
         ListBucketInventoryConfigurationsOutput_next_continuation_token := next_continuation_token |}).
Definition ListBucketInventoryConfigurationsOutput_wf (self : ListBucketInventoryConfigurationsOutput) : Prop :=
  from_option string_wf True (ListBucketInventoryConfigurationsOutput_continuation_token self) /\
  from_option (fun l => Forall InventoryConfiguration_wf l /\ l <> []) True (ListBucketInventoryConfigurationsOutput_inventory_configuration_list self) /\
  from_option bool_wf True (ListBucketInventoryConfigurationsOutput_is_truncated self) /\
  from_option string_wf True (ListBucketInventoryConfigurationsOutput_next_continuation_token self).
#[global] Instance ListBucketInventoryConfigurationsOutput_rt : RoundTrip ser_ListBucketInventoryConfigurationsOutput de_ListBucketInventoryConfigurationsOutput ListBucketInventoryConfigurationsOutput_wf.
Proof. solve_struct (fun self : ListBucketInventoryConfigurationsOutput => (ListBucketInventoryConfigurationsOutput_continuation_token self, (ListBucketInventoryConfigurationsOutput_inventory_configuration_list self, (ListBucketInventoryConfigurationsOutput_is_truncated self, (ListBucketInventoryConfigurationsOutput_next_continuation_token self, tt))))). Qed.
Lemma de_ListBucketInventoryConfigurationsOutput_well : well de_ListBucketInventoryConfigurationsOutput.
Proof. solve_well. Qed.
#[export] Hint Resolve de_ListBucketInventoryConfigurationsOutput_well : de.
#[global] Typeclasses Opaque ser_ListBucketInventoryConfigurationsOutput de_ListBucketInventoryConfigurationsOutput.

Record MetricsAndOperator := mk_MetricsAndOperator {
  MetricsAndOperator_access_point_arn : option bytes;
  MetricsAndOperator_prefix : option bytes;
  MetricsAndOperator_tags : option (list Tag)
}.
Definition ser_MetricsAndOperator (self : MetricsAndOperator) : Ser :=
  s_seq [
    if_some (MetricsAndOperator_access_point_arn self) (s_content ser_str (str "AccessPointArn"));
    if_some (MetricsAndOperator_prefix self) (s_content ser_str (str "Prefix"));
    if_some (MetricsAndOperator_tags self) (s_flattened_list ser_Tag (str "Tag"))].
Definition de_MetricsAndOperator : De MetricsAndOperator := de_struct false
   (arm_once (str "AccessPointArn") de_string
    (arm_once (str "Prefix") de_string
    (arm_push (str "Tag") de_Tag
    no_arms)))
    (fun '(access_point_arn, (prefix, (tags, tt))) =>
      Ok {| MetricsAndOperator_access_point_arn := access_point_arn;
         MetricsAndOperator_prefix := prefix;
         MetricsAndOperator_tags := tags |}).
Definition MetricsAndOperator_wf (self : MetricsAndOperator) : Prop :=
  from_option string_wf True (MetricsAndOperator_access_point_arn self) /\
  from_option string_wf True (MetricsAndOperator_prefix self) /\
  from_option (fun l => Forall Tag_wf l /\ l <> []) True (MetricsAndOperator_tags self).
#[global] Instance MetricsAndOperator_rt : RoundTrip ser_MetricsAndOperator de_MetricsAndOperator MetricsAndOperator_wf.
Proof. solve_struct (fun self : MetricsAndOperator => (MetricsAndOperator_access_point_arn self, (MetricsAndOperator_prefix self, (MetricsAndOperator_tags self, tt)))). Qed.
Lemma de_MetricsAndOperator_well : well de_MetricsAndOperator.
Proof. solve_well. Qed.
#[export] Hint Resolve de_MetricsAndOperator_well : de.
#[global] Typeclasses Opaque ser_MetricsAndOperator de_MetricsAndOperator.

Inductive MetricsFilter :=
| MetricsFilter_AccessPointArn (x : bytes)
| MetricsFilter_And (x : MetricsAndOperator)
| MetricsFilter_Prefix (x : bytes)
| MetricsFilter_Tag (x : Tag).
Definition ser_MetricsFilter (self : MetricsFilter) : Ser :=
  match self with
  | MetricsFilter_AccessPointArn x => s_content ser_str (str "AccessPointArn") x
  | MetricsFilter_And x => s_content ser_MetricsAndOperator (str "And") x
  | MetricsFilter_Prefix x => s_content ser_str (str "Prefix") x
  | MetricsFilter_Tag x => s_content ser_Tag (str "Tag") x
  end.
Definition variant_MetricsFilter (x : bytes) : De MetricsFilter :=
  if x =? str "AccessPointArn" then v ← de_string; mret (MetricsFilter_AccessPointArn v) else
  if x =? str "And" then v ← de_MetricsAndOperator; mret (MetricsFilter_And v) else
  if x =? str "Prefix" then v ← de_string; mret (MetricsFilter_Prefix v) else
  if x =? str "Tag" then v ← de_Tag; mret (MetricsFilter_Tag v) else
  throw UnexpectedTagName.
Definition de_MetricsFilter : De MetricsFilter := element variant_MetricsFilter.
Definition MetricsFilter_wf (self : MetricsFilter) : Prop :=
  match self with
  | MetricsFilter_AccessPointArn x => string_wf x
  | MetricsFilter_And x => MetricsAndOperator_wf x
  | MetricsFilter_Prefix x => string_wf x
  | MetricsFilter_Tag x => Tag_wf x
  end.
Lemma variant_MetricsFilter_well x : well (variant_MetricsFilter x).
Proof. unfold variant_MetricsFilter. repeat case_match; auto with de. Qed.
#[global] Instance MetricsFilter_rt : RoundTrip ser_MetricsFilter de_MetricsFilter MetricsFilter_wf.
Proof. intros [x|x|x|x] Hv; by eapply variant_rt; [typeclasses eauto|apply variant_MetricsFilter_well|vm_compute; reflexivity|exact Hv|]. Qed.
Lemma de_MetricsFilter_well : well de_MetricsFilter.
Proof. apply element_well, variant_MetricsFilter_well. Qed.
#[export] Hint Resolve de_MetricsFilter_well : de.
#[global] Typeclasses Opaque ser_MetricsFilter de_MetricsFilter.

Record MetricsConfiguration := mk_MetricsConfiguration {
  MetricsConfiguration_filter : option MetricsFilter;
  MetricsConfiguration_id : bytes
}.
Definition ser_MetricsConfiguration (self : MetricsConfiguration) : Ser :=
  s_seq [
    if_some (MetricsConfiguration_filter self) (s_content ser_MetricsFilter (str "Filter"));
    s_content ser_str (str "Id") (MetricsConfiguration_id self)].
Definition de_MetricsConfiguration : De MetricsConfiguration := de_struct true
   (arm_once (str "Filter") de_MetricsFilter
    (arm_once (str "Id") de_string
    no_arms))
    (fun '(filter, (id, tt)) =>
      id ← required id;
      Ok {| MetricsConfiguration_filter := filter; MetricsConfiguration_id := id |}).
Definition MetricsConfiguration_wf (self : MetricsConfiguration) : Prop :=

    from_option MetricsFilter_wf True (MetricsConfiguration_filter self) /\
    string_wf (MetricsConfiguration_id self).
#[global] Instance MetricsConfiguration_rt : RoundTrip ser_MetricsConfiguration de_MetricsConfiguration MetricsConfiguration_wf.
Proof. solve_struct (fun self : MetricsConfiguration => (MetricsConfiguration_filter self, (Some (MetricsConfiguration_id self), tt))). Qed.
Lemma de_MetricsConfiguration_well : well de_MetricsConfiguration.
Proof. solve_well. Qed.
#[export] Hint Resolve de_MetricsConfiguration_well : de.
#[global] Typeclasses Opaque ser_MetricsConfiguration de_MetricsConfiguration.

Record ListBucketMetricsConfigurationsOutput := mk_ListBucketMetricsConfigurationsOutput {
  ListBucketMetricsConfigurationsOutput_continuation_token : option bytes;
  ListBucketMetricsConfigurationsOutput_is_truncated : option bool;
  ListBucketMetricsConfigurationsOutput_metrics_configuration_list : option (list MetricsConfiguration);
  ListBucketMetricsConfigurationsOutput_next_continuation_token : option bytes
}.
Definition ser_ListBucketMetricsConfigurationsOutput (self : ListBucketMetricsConfigurationsOutput) : Ser :=
  s_seq [
    if_some (ListBucketMetricsConfigurationsOutput_continuation_token self) (s_content ser_str (str "ContinuationToken"));
    if_some (ListBucketMetricsConfigurationsOutput_is_truncated self) (s_content ser_bool (str "IsTruncated"));
    if_some (ListBucketMetricsConfigurationsOutput_metrics_configuration_list self) (s_flattened_list ser_MetricsConfiguration (str "MetricsConfiguration"));
    if_some (ListBucketMetricsConfigurationsOutput_next_continuation_token self) (s_content ser_str (str "NextContinuationToken"))].
Definition de_ListBucketMetricsConfigurationsOutput : De ListBucketMetricsConfigurationsOutput := de_struct false
   (arm_once (str "ContinuationToken") de_string
    (arm_once (str "IsTruncated") de_bool
    (arm_push (str "MetricsConfiguration") de_MetricsConfiguration
    (arm_once (str "NextContinuationToken") de_string
    no_arms))))
    (fun '(continuation_token, (is_truncated, (metrics_configuration_list, (next_continuation_token, tt)))) =>
      Ok {| ListBucketMetricsConfigurationsOutput_continuation_token := continuation_token;
         ListBucketMetricsConfigurationsOutput_is_truncated := is_truncated;
         ListBucketMetricsConfigurationsOutput_metrics_configuration_list := metrics_configuration_list;
         ListBucketMetricsConfigurationsOutput_next_continuation_token := next_continuation_token |}).
Definition ListBucketMetricsConfigurationsOutput_wf (self : ListBucketMetricsConfigurationsOutput) : Prop :=
  from_option string_wf True (ListBucketMetricsConfigurationsOutput_continuation_token self) /\
  from_option bool_wf True (ListBucketMetricsConfigurationsOutput_is_truncated self) /\
  from_option (fun l => Forall MetricsConfiguration_wf l /\ l <> []) True (ListBucketMetricsConfigurationsOutput_metrics_configuration_list self) /\
  from_option string_wf True (ListBucketMetricsConfigurationsOutput_next_continuation_token self).
#[global] Instance ListBucketMetricsConfigurationsOutput_rt : RoundTrip ser_ListBucketMetricsConfigurationsOutput de_ListBucketMetricsConfigurationsOutput ListBucketMetricsConfigurationsOutput_wf.
Proof. solve_struct (fun self : ListBucketMetricsConfigurationsOutput => (ListBucketMetricsConfigurationsOutput_continuation_token self, (ListBucketMetricsConfigurationsOutput_is_truncated self, (ListBucketMetricsConfigurationsOutput_metrics_configuration_list self, (ListBucketMetricsConfigurationsOutput_next_continuation_token self, tt))))). Qed.
Lemma de_ListBucketMetricsConfigurationsOutput_well : well de_ListBucketMetricsConfigurationsOutput.
Proof. solve_well. Qed.
#[export] Hint Resolve de_ListBucketMetricsConfigurationsOutput_well : de.
#[global] Typeclasses Opaque ser_ListBucketMetricsConfigurationsOutput de_ListBucketMetricsConfigurationsOutput.

Record Bucket := mk_Bucket {
  Bucket_bucket_arn : option bytes;
  Bucket_bucket_region : option bytes;
  Bucket_creation_date : option Timestamp;
  Bucket_name : option bytes
}.
Definition ser_Bucket `{XmlDeps} (self : Bucket) : Ser :=
  s_seq [
    if_some (Bucket_bucket_arn self) (s_content ser_str (str "BucketArn"));
    if_some (Bucket_bucket_region self) (s_content ser_str (str "BucketRegion"));
    if_some (Bucket_creation_date self) (fun val => s_timestamp (str "CreationDate") val DateTime);
    if_some (Bucket_name self) (s_content ser_str (str "Name"))].
Definition de_Bucket `{XmlDeps} : De Bucket := de_struct false
   (arm_once (str "BucketArn") de_string
    (arm_once (str "BucketRegion") de_string
    (arm_once (str "CreationDate") (de_timestamp DateTime)
    (arm_once (str "Name") de_string
    no_arms))))
    (fun '(bucket_arn, (bucket_region, (creation_date, (name, tt)))) =>
      Ok {| Bucket_bucket_arn := bucket_arn;
         Bucket_bucket_region := bucket_region;
         Bucket_creation_date := creation_date;
         Bucket_name := name |}).
Definition Bucket_wf (self : Bucket) : Prop :=
  from_option string_wf True (Bucket_bucket_arn self) /\
  from_option string_wf True (Bucket_bucket_region self) /\
  from_option (timestamp_wf DateTime) True (Bucket_creation_date self) /\
  from_option string_wf True (Bucket_name self).
#[global] Instance Bucket_rt `{XmlDeps} : RoundTrip ser_Bucket de_Bucket Bucket_wf.
Proof. solve_struct (fun self : Bucket => (Bucket_bucket_arn self, (Bucket_bucket_region self, (Bucket_creation_date self, (Bucket_name self, tt))))). Qed.
Lemma de_Bucket_well `{XmlDeps} : well de_Bucket.
Proof. solve_well. Qed.
#[export] Hint Resolve de_Bucket_well : de.
#[global] Typeclasses Opaque ser_Bucket de_Bucket.

Record ListBucketsOutput := mk_ListBucketsOutput {
  ListBucketsOutput_buckets : option (list Bucket);
  ListBucketsOutput_continuation_token : option bytes;
  ListBucketsOutput_owner : option Owner;
  ListBucketsOutput_prefix : option bytes
}.
Definition ser_ListBucketsOutput `{XmlDeps} (self : ListBucketsOutput) : Ser :=
  s_seq [
    if_some (ListBucketsOutput_buckets self) (s_list ser_Bucket (str "Buckets") (str "Bucket"));
    if_some (ListBucketsOutput_continuation_token self) (s_content ser_str (str "ContinuationToken"));
    if_some (ListBucketsOutput_owner self) (s_content ser_Owner (str "Owner"));
    if_some (ListBucketsOutput_prefix self) (s_content ser_str (str "Prefix"))].
Definition de_ListBucketsOutput `{XmlDeps} : De ListBucketsOutput := de_struct false
   (arm_once (str "Buckets") (list_content de_Bucket (str "Bucket"))
    (arm_once (str "ContinuationToken") de_string
    (arm_once (str "Owner") de_Owner
    (arm_once (str "Prefix") de_string
    no_arms))))
    (fun '(buckets, (continuation_token, (owner, (prefix, tt)))) =>
      Ok {| ListBucketsOutput_buckets := buckets;
         ListBucketsOutput_continuation_token := continuation_token;
         ListBucketsOutput_owner := owner;
         ListBucketsOutput_prefix := prefix |}).
Definition ListBucketsOutput_wf (self : ListBucketsOutput) : Prop :=
  from_option (Forall Bucket_wf) True (ListBucketsOutput_buckets self) /\
  from_option string_wf True (ListBucketsOutput_continuation_token self) /\
  from_option Owner_wf True (ListBucketsOutput_owner self) /\
  from_option string_wf True (ListBucketsOutput_prefix self).
#[global] Instance ListBucketsOutput_rt `{XmlDeps} : RoundTrip ser_ListBucketsOutput de_ListBucketsOutput ListBucketsOutput_wf.
Proof. solve_struct (fun self : ListBucketsOutput => (ListBucketsOutput_buckets self, (ListBucketsOutput_continuation_token self, (ListBucketsOutput_owner self, (ListBucketsOutput_prefix self, tt))))). Qed.
Lemma de_ListBucketsOutput_well `{XmlDeps} : well de_ListBucketsOutput.
Proof. solve_well. Qed.
#[export] Hint Resolve de_ListBucketsOutput_well : de.
#[global] Typeclasses Opaque ser_ListBucketsOutput de_ListBucketsOutput.

Record ListDirectoryBucketsOutput := mk_ListDirectoryBucketsOutput {
  ListDirectoryBucketsOutput_buckets : option (list Bucket);
  ListDirectoryBucketsOutput_continuation_token : option bytes
}.
Definition ser_ListDirectoryBucketsOutput `{XmlDeps} (self : ListDirectoryBucketsOutput) : Ser :=
  s_seq [
    if_some (ListDirectoryBucketsOutput_buckets self) (s_list ser_Bucket (str "Buckets") (str "Bucket"));
    if_some (ListDirectoryBucketsOutput_continuation_token self) (s_content ser_str (str "ContinuationToken"))].
Definition de_ListDirectoryBucketsOutput `{XmlDeps} : De ListDirectoryBucketsOutput := de_struct false
   (arm_once (str "Buckets") (list_content de_Bucket (str "Bucket"))
    (arm_once (str "ContinuationToken") de_string
    no_arms))
    (fun '(buckets, (continuation_token, tt)) =>
      Ok {| ListDirectoryBucketsOutput_buckets := buckets;
         ListDirectoryBucketsOutput_continuation_token := continuation_token |}).
Definition ListDirectoryBucketsOutput_wf (self : ListDirectoryBucketsOutput) : Prop :=
  from_option (Forall Bucket_wf) True (ListDirectoryBucketsOutput_buckets self) /\
  from_option string_wf True (ListDirectoryBucketsOutput_continuation_token self).
#[global] Instance ListDirectoryBucketsOutput_rt `{XmlDeps} : RoundTrip ser_ListDirectoryBucketsOutput de_ListDirectoryBucketsOutput ListDirectoryBucketsOutput_wf.
Proof. solve_struct (fun self : ListDirectoryBucketsOutput => (ListDirectoryBucketsOutput_buckets self, (ListDirectoryBucketsOutput_continuation_token self, tt))). Qed.
Lemma de_ListDirectoryBucketsOutput_well `{XmlDeps} : well de_ListDirectoryBucketsOutput.
Proof. solve_well. Qed.
#[export] Hint Resolve de_ListDirectoryBucketsOutput_well : de.
#[global] Typeclasses Opaque ser_ListDirectoryBucketsOutput de_ListDirectoryBucketsOutput.

Record AnnotationTableConfiguration := mk_AnnotationTableConfiguration {
  AnnotationTableConfiguration_configuration_state : AnnotationConfigurationState;
  AnnotationTableConfiguration_encryption_configuration : option MetadataTableEncryptionConfiguration;
  AnnotationTableConfiguration_role : option bytes
}.
Definition ser_AnnotationTableConfiguration (self : AnnotationTableConfiguration) : Ser :=
  s_seq [
    s_content ser_AnnotationConfigurationState (str "ConfigurationState") (AnnotationTableConfiguration_configuration_state self);
    if_some (AnnotationTableConfiguration_encryption_configuration self) (s_content ser_MetadataTableEncryptionConfiguration (str "EncryptionConfiguration"));
    if_some (AnnotationTableConfiguration_role self) (s_content ser_str (str "Role"))].
Definition de_AnnotationTableConfiguration : De AnnotationTableConfiguration := de_struct false
   (arm_once (str "ConfigurationState") de_AnnotationConfigurationState
    (arm_once (str "EncryptionConfiguration") de_MetadataTableEncryptionConfiguration
    (arm_once (str "Role") de_string
    no_arms)))
    (fun '(configuration_state, (encryption_configuration, (role, tt))) =>
      configuration_state ← required configuration_state;
      Ok {| AnnotationTableConfiguration_configuration_state := configuration_state;
         AnnotationTableConfiguration_encryption_configuration := encryption_configuration;
         AnnotationTableConfiguration_role := role |}).
Definition AnnotationTableConfiguration_wf (self : AnnotationTableConfiguration) : Prop :=
  string_wf (AnnotationTableConfiguration_configuration_state self) /\
  from_option MetadataTableEncryptionConfiguration_wf True (AnnotationTableConfiguration_encryption_configuration self) /\
  from_option string_wf True (AnnotationTableConfiguration_role self).
#[global] Instance AnnotationTableConfiguration_rt : RoundTrip ser_AnnotationTableConfiguration de_AnnotationTableConfiguration AnnotationTableConfiguration_wf.
Proof. solve_struct (fun self : AnnotationTableConfiguration => (Some (AnnotationTableConfiguration_configuration_state self), (AnnotationTableConfiguration_encryption_configuration self, (AnnotationTableConfiguration_role self, tt)))). Qed.
Lemma de_AnnotationTableConfiguration_well : well de_AnnotationTableConfiguration.
Proof. solve_well. Qed.
#[export] Hint Resolve de_AnnotationTableConfiguration_well : de.
#[global] Typeclasses Opaque ser_AnnotationTableConfiguration de_AnnotationTableConfiguration.

Record InventoryTableConfiguration := mk_InventoryTableConfiguration {
  InventoryTableConfiguration_configuration_state : InventoryConfigurationState;
  InventoryTableConfiguration_encryption_configuration : option MetadataTableEncryptionConfiguration
}.
Definition ser_InventoryTableConfiguration (self : InventoryTableConfiguration) : Ser :=
  s_seq [
    s_content ser_InventoryConfigurationState (str "ConfigurationState") (InventoryTableConfiguration_configuration_state self);
    if_some (InventoryTableConfiguration_encryption_configuration self) (s_content ser_MetadataTableEncryptionConfiguration (str "EncryptionConfiguration"))].
Definition de_InventoryTableConfiguration : De InventoryTableConfiguration := de_struct false
   (arm_once (str "ConfigurationState") de_InventoryConfigurationState
    (arm_once (str "EncryptionConfiguration") de_MetadataTableEncryptionConfiguration
    no_arms))
    (fun '(configuration_state, (encryption_configuration, tt)) =>
      configuration_state ← required configuration_state;
      Ok {| InventoryTableConfiguration_configuration_state := configuration_state;
         InventoryTableConfiguration_encryption_configuration := encryption_configuration |}).
Definition InventoryTableConfiguration_wf (self : InventoryTableConfiguration) : Prop :=
  string_wf (InventoryTableConfiguration_configuration_state self) /\
  from_option MetadataTableEncryptionConfiguration_wf True (InventoryTableConfiguration_encryption_configuration self).
#[global] Instance InventoryTableConfiguration_rt : RoundTrip ser_InventoryTableConfiguration de_InventoryTableConfiguration InventoryTableConfiguration_wf.
Proof. solve_struct (fun self : InventoryTableConfiguration => (Some (InventoryTableConfiguration_configuration_state self), (InventoryTableConfiguration_encryption_configuration self, tt))). Qed.
Lemma de_InventoryTableConfiguration_well : well de_InventoryTableConfiguration.
Proof. solve_well. Qed.
#[export] Hint Resolve de_InventoryTableConfiguration_well : de.
#[global] Typeclasses Opaque ser_InventoryTableConfiguration de_InventoryTableConfiguration.

Record JournalTableConfiguration := mk_JournalTableConfiguration {
  JournalTableConfiguration_encryption_configuration : option MetadataTableEncryptionConfiguration;
  JournalTableConfiguration_record_expiration : RecordExpiration
}.
Definition ser_JournalTableConfiguration (self : JournalTableConfiguration) : Ser :=
  s_seq [
    if_some (JournalTableConfiguration_encryption_configuration self) (s_content ser_MetadataTableEncryptionConfiguration (str "EncryptionConfiguration"));
    s_content ser_RecordExpiration (str "RecordExpiration") (JournalTableConfiguration_record_expiration self)].
Definition de_JournalTableConfiguration `{XmlDeps} : De JournalTableConfiguration := de_struct false
   (arm_once (str "EncryptionConfiguration") de_MetadataTableEncryptionConfiguration
    (arm_once (str "RecordExpiration") de_RecordExpiration
    no_arms))
    (fun '(encryption_configuration, (record_expiration, tt)) =>
      record_expiration ← required record_expiration;
      Ok {| JournalTableConfiguration_encryption_configuration := encryption_configuration;
         JournalTableConfiguration_record_expiration := record_expiration |}).
Definition JournalTableConfiguration_wf (self : JournalTableConfiguration) : Prop :=
  from_option MetadataTableEncryptionConfiguration_wf True (JournalTableConfiguration_encryption_configuration self) /\
  RecordExpiration_wf (JournalTableConfiguration_record_expiration self).
#[global] Instance JournalTableConfiguration_rt `{XmlDeps} : RoundTrip ser_JournalTableConfiguration de_JournalTableConfiguration JournalTableConfiguration_wf.
Proof. solve_struct (fun self : JournalTableConfiguration => (JournalTableConfiguration_encryption_configuration self, (Some (JournalTableConfiguration_record_expiration self), tt))). Qed.
Lemma de_JournalTableConfiguration_well `{XmlDeps} : well de_JournalTableConfiguration.
Proof. solve_well. Qed.
#[export] Hint Resolve de_JournalTableConfiguration_well : de.
#[global] Typeclasses Opaque ser_JournalTableConfiguration de_JournalTableConfiguration.

Record MetadataConfiguration := mk_MetadataConfiguration {
  MetadataConfiguration_annotation_table_configuration : option AnnotationTableConfiguration;
  MetadataConfiguration_inventory_table_configuration : option InventoryTableConfiguration;
  MetadataConfiguration_journal_table_configuration : JournalTableConfiguration
}.
Definition ser_MetadataConfiguration (self : MetadataConfiguration) : Ser :=
  s_seq [
    if_some (MetadataConfiguration_annotation_table_configuration self) (s_content ser_AnnotationTableConfiguration (str "AnnotationTableConfiguration"));
    if_some (MetadataConfiguration_inventory_table_configuration self) (s_content ser_InventoryTableConfiguration (str "InventoryTableConfiguration"));
    s_content ser_JournalTableConfiguration (str "JournalTableConfiguration") (MetadataConfiguration_journal_table_configuration self)].
Definition de_MetadataConfiguration `{XmlDeps} : De MetadataConfiguration := de_struct true
   (arm_once (str "AnnotationTableConfiguration") de_AnnotationTableConfiguration
    (arm_once (str "InventoryTableConfiguration") de_InventoryTableConfiguration
    (arm_once (str "JournalTableConfiguration") de_JournalTableConfiguration
    no_arms)))
    (fun '(annotation_table_configuration, (inventory_table_configuration, (journal_table_configuration, tt))) =>
      journal_table_configuration ← required journal_table_configuration;
      Ok {| MetadataConfiguration_annotation_table_configuration := annotation_table_configuration;
         MetadataConfiguration_inventory_table_configuration := inventory_table_configuration;
         MetadataConfiguration_journal_table_configuration := journal_table_configuration |}).
Definition MetadataConfiguration_wf (self : MetadataConfiguration) : Prop :=
  from_option AnnotationTableConfiguration_wf True (MetadataConfiguration_annotation_table_configuration self) /\
  from_option InventoryTableConfiguration_wf True (MetadataConfiguration_inventory_table_configuration self) /\
  JournalTableConfiguration_wf (MetadataConfiguration_journal_table_configuration self).
#[global] Instance MetadataConfiguration_rt `{XmlDeps} : RoundTrip ser_MetadataConfiguration de_MetadataConfiguration MetadataConfiguration_wf.
Proof. solve_struct (fun self : MetadataConfiguration => (MetadataConfiguration_annotation_table_configuration self, (MetadataConfiguration_inventory_table_configuration self, (Some (MetadataConfiguration_journal_table_configuration self), tt)))). Qed.
Lemma de_MetadataConfiguration_well `{XmlDeps} : well de_MetadataConfiguration.
Proof. solve_well. Qed.
#[export] Hint Resolve de_MetadataConfiguration_well : de.
#[global] Typeclasses Opaque ser_MetadataConfiguration de_MetadataConfiguration.

Record S3TablesDestination := mk_S3TablesDestination {
  S3TablesDestination_table_bucket_arn : bytes;
  S3TablesDestination_table_name : bytes
}.
Definition ser_S3TablesDestination (self : S3TablesDestination) : Ser :=
  s_seq [
    s_content ser_str (str "TableBucketArn") (S3TablesDestination_table_bucket_arn self);
    s_content ser_str (str "TableName") (S3TablesDestination_table_name self)].
Definition de_S3TablesDestination : De S3TablesDestination := de_struct false
   (arm_once (str "TableBucketArn") de_string
    (arm_once (str "TableName") de_string
    no_arms))
    (fun '(table_bucket_arn, (table_name, tt)) =>
      table_bucket_arn ← required table_bucket_arn;
      table_name ← required table_name;
      Ok {| S3TablesDestination_table_bucket_arn := table_bucket_arn; S3TablesDestination_table_name := table_name |}).
Definition S3TablesDestination_wf (self : S3TablesDestination) : Prop :=

    string_wf (S3TablesDestination_table_bucket_arn self) /\
    string_wf (S3TablesDestination_table_name self).
#[global] Instance S3TablesDestination_rt : RoundTrip ser_S3TablesDestination de_S3TablesDestination S3TablesDestination_wf.
Proof. solve_struct (fun self : S3TablesDestination => (Some (S3TablesDestination_table_bucket_arn self), (Some (S3TablesDestination_table_name self), tt))). Qed.
Lemma de_S3TablesDestination_well : well de_S3TablesDestination.
Proof. solve_well. Qed.
#[export] Hint Resolve de_S3TablesDestination_well : de.
#[global] Typeclasses Opaque ser_S3TablesDestination de_S3TablesDestination.

Record MetadataTableConfiguration := mk_MetadataTableConfiguration {
  MetadataTableConfiguration_s3_tables_destination : S3TablesDestination
}.
Definition ser_MetadataTableConfiguration (self : MetadataTableConfiguration) : Ser :=
  s_seq [
    s_content ser_S3TablesDestination (str "S3TablesDestination") (MetadataTableConfiguration_s3_tables_destination self)].
Definition de_MetadataTableConfiguration : De MetadataTableConfiguration := de_struct true
   (arm_once (str "S3TablesDestination") de_S3TablesDestination
    no_arms)
    (fun '(s3_tables_destination, tt) =>
      s3_tables_destination ← required s3_tables_destination;
      Ok {| MetadataTableConfiguration_s3_tables_destination := s3_tables_destination |}).
Definition MetadataTableConfiguration_wf (self : MetadataTableConfiguration) : Prop :=

    S3TablesDestination_wf (MetadataTableConfiguration_s3_tables_destination self).
#[global] Instance MetadataTableConfiguration_rt : RoundTrip ser_MetadataTableConfiguration de_MetadataTableConfiguration MetadataTableConfiguration_wf.
Proof. solve_struct (fun self : MetadataTableConfiguration => (Some (MetadataTableConfiguration_s3_tables_destination self), tt)). Qed.
Lemma de_MetadataTableConfiguration_well : well de_MetadataTableConfiguration.
Proof. solve_well. Qed.
#[export] Hint Resolve de_MetadataTableConfiguration_well : de.
#[global] Typeclasses Opaque ser_MetadataTableConfiguration de_MetadataTableConfiguration.

Record NotificationConfiguration := mk_NotificationConfiguration {
  NotificationConfiguration_event_bridge_configuration : option EventBridgeConfiguration;
  NotificationConfiguration_lambda_function_configurations : option (list LambdaFunctionConfiguration);
  NotificationConfiguration_queue_configurations : option (list QueueConfiguration);
  NotificationConfiguration_topic_configurations : option (list TopicConfiguration)
}.
Definition ser_NotificationConfiguration (self : NotificationConfiguration) : Ser :=
  s_seq [
    if_some (NotificationConfiguration_event_bridge_configuration self) (s_content ser_EventBridgeConfiguration (str "EventBridgeConfiguration"));
    if_some (NotificationConfiguration_lambda_function_configurations self) (s_flattened_list ser_LambdaFunctionConfiguration (str "CloudFunctionConfiguration"));
    if_some (NotificationConfiguration_queue_configurations self) (s_flattened_list ser_QueueConfiguration (str "QueueConfiguration"));
    if_some (NotificationConfiguration_topic_configurations self) (s_flattened_list ser_TopicConfiguration (str "TopicConfiguration"))].
Definition de_NotificationConfiguration : De NotificationConfiguration := de_struct true
   (arm_once (str "EventBridgeConfiguration") de_EventBridgeConfiguration
    (arm_push (str "CloudFunctionConfiguration") de_LambdaFunctionConfiguration
    (arm_push (str "QueueConfiguration") de_QueueConfiguration
    (arm_push (str "TopicConfiguration") de_TopicConfiguration
    no_arms))))
    (fun '(event_bridge_configuration, (lambda_function_configurations, (queue_configurations, (topic_configurations, tt)))) =>
      Ok {| NotificationConfiguration_event_bridge_configuration := event_bridge_configuration;
         NotificationConfiguration_lambda_function_configurations := lambda_function_configurations;
         NotificationConfiguration_queue_configurations := queue_configurations;
         NotificationConfiguration_topic_configurations := topic_configurations |}).
Definition NotificationConfiguration_wf (self : NotificationConfiguration) : Prop :=
  from_option EventBridgeConfiguration_wf True (NotificationConfiguration_event_bridge_configuration self) /\
  from_option (fun l => Forall LambdaFunctionConfiguration_wf l /\ l <> []) True (NotificationConfiguration_lambda_function_configurations self) /\
  from_option (fun l => Forall QueueConfiguration_wf l /\ l <> []) True (NotificationConfiguration_queue_configurations self) /\
  from_option (fun l => Forall TopicConfiguration_wf l /\ l <> []) True (NotificationConfiguration_topic_configurations self).
#[global] Instance NotificationConfiguration_rt : RoundTrip ser_NotificationConfiguration de_NotificationConfiguration NotificationConfiguration_wf.
Proof. solve_struct (fun self : NotificationConfiguration => (NotificationConfiguration_event_bridge_configuration self, (NotificationConfiguration_lambda_function_configurations self, (NotificationConfiguration_queue_configurations self, (NotificationConfiguration_topic_configurations self, tt))))). Qed.
Lemma de_NotificationConfiguration_well : well de_NotificationConfiguration.
Proof. solve_well. Qed.
#[export] Hint Resolve de_NotificationConfiguration_well : de.
#[global] Typeclasses Opaque ser_NotificationConfiguration de_NotificationConfiguration.

Record SSEKMSEncryption := mk_SSEKMSEncryption {
  SSEKMSEncryption_bucket_key_enabled : option bool;
  SSEKMSEncryption_kms_key_arn : bytes
}.
Definition ser_SSEKMSEncryption (self : SSEKMSEncryption) : Ser :=
  s_seq [
    if_some (SSEKMSEncryption_bucket_key_enabled self) (s_content ser_bool (str "BucketKeyEnabled"));
    s_content ser_str (str "KMSKeyArn") (SSEKMSEncryption_kms_key_arn self)].
Definition de_SSEKMSEncryption : De SSEKMSEncryption := de_struct false
   (arm_once (str "BucketKeyEnabled") de_bool
    (arm_once (str "KMSKeyArn") de_string
    no_arms))
    (fun '(bucket_key_enabled, (kms_key_arn, tt)) =>
      kms_key_arn ← required kms_key_arn;
      Ok {| SSEKMSEncryption_bucket_key_enabled := bucket_key_enabled; SSEKMSEncryption_kms_key_arn := kms_key_arn |}).
Definition SSEKMSEncryption_wf (self : SSEKMSEncryption) : Prop :=
  from_option bool_wf True (SSEKMSEncryption_bucket_key_enabled self) /\
  string_wf (SSEKMSEncryption_kms_key_arn self).
#[global] Instance SSEKMSEncryption_rt : RoundTrip ser_SSEKMSEncryption de_SSEKMSEncryption SSEKMSEncryption_wf.
Proof. solve_struct (fun self : SSEKMSEncryption => (SSEKMSEncryption_bucket_key_enabled self, (Some (SSEKMSEncryption_kms_key_arn self), tt))). Qed.
Lemma de_SSEKMSEncryption_well : well de_SSEKMSEncryption.
Proof. solve_well. Qed.
#[export] Hint Resolve de_SSEKMSEncryption_well : de.
#[global] Typeclasses Opaque ser_SSEKMSEncryption de_SSEKMSEncryption.

Inductive ObjectEncryption :=
| ObjectEncryption_SSEKMS (x : SSEKMSEncryption).
Definition ser_ObjectEncryption (self : ObjectEncryption) : Ser :=
  match self with
  | ObjectEncryption_SSEKMS x => s_content ser_SSEKMSEncryption (str "SSE-KMS") x
  end.
Definition variant_ObjectEncryption (x : bytes) : De ObjectEncryption :=
  if x =? str "SSE-KMS" then v ← de_SSEKMSEncryption; mret (ObjectEncryption_SSEKMS v) else
  throw UnexpectedTagName.
Definition de_ObjectEncryption : De ObjectEncryption := element variant_ObjectEncryption.
Definition ObjectEncryption_wf (self : ObjectEncryption) : Prop :=
  match self with
  | ObjectEncryption_SSEKMS x => SSEKMSEncryption_wf x
  end.
Lemma variant_ObjectEncryption_well x : well (variant_ObjectEncryption x).
Proof. unfold variant_ObjectEncryption. repeat case_match; auto with de. Qed.
#[global] Instance ObjectEncryption_rt : RoundTrip ser_ObjectEncryption de_ObjectEncryption ObjectEncryption_wf.
Proof. intros [x] Hv; by eapply variant_rt; [typeclasses eauto|apply variant_ObjectEncryption_well|vm_compute; reflexivity|exact Hv|]. Qed.
Lemma de_ObjectEncryption_well : well de_ObjectEncryption.
Proof. apply element_well, variant_ObjectEncryption_well. Qed.
#[export] Hint Resolve de_ObjectEncryption_well : de.
#[global] Typeclasses Opaque ser_ObjectEncryption de_ObjectEncryption.

Definition ObjectLockEnabled : Type := bytes.
Definition ser_ObjectLockEnabled (self : ObjectLockEnabled) : Ser := ser_str self.
Definition de_ObjectLockEnabled : De ObjectLockEnabled := de_enum [str "Enabled"].
#[global] Instance ObjectLockEnabled_rt : RoundTrip ser_ObjectLockEnabled de_ObjectLockEnabled string_wf := enum_rt _.
Lemma de_ObjectLockEnabled_well : well de_ObjectLockEnabled.
Proof. apply de_enum_well. Qed.
#[export] Hint Resolve de_ObjectLockEnabled_well : de.
#[global] Typeclasses Opaque ser_ObjectLockEnabled de_ObjectLockEnabled.

Definition ObjectLockRetentionMode : Type := bytes.
Definition ser_ObjectLockRetentionMode (self : ObjectLockRetentionMode) : Ser := ser_str self.
Definition de_ObjectLockRetentionMode : De ObjectLockRetentionMode := de_enum [str "COMPLIANCE"; str "GOVERNANCE"].
#[global] Instance ObjectLockRetentionMode_rt : RoundTrip ser_ObjectLockRetentionMode de_ObjectLockRetentionMode string_wf := enum_rt _.
Lemma de_ObjectLockRetentionMode_well : well de_ObjectLockRetentionMode.
Proof. apply de_enum_well. Qed.
#[export] Hint Resolve de_ObjectLockRetentionMode_well : de.
#[global] Typeclasses Opaque ser_ObjectLockRetentionMode de_ObjectLockRetentionMode.

Record DefaultRetention := mk_DefaultRetention {
  DefaultRetention_days : option Z;
  DefaultRetention_mode : option ObjectLockRetentionMode;
  DefaultRetention_years : option Z
}.
Definition ser_DefaultRetention (self : DefaultRetention) : Ser :=
  s_seq [
    if_some (DefaultRetention_days self) (s_content ser_i32 (str "Days"));
    if_some (DefaultRetention_mode self) (s_content ser_ObjectLockRetentionMode (str "Mode"));
    if_some (DefaultRetention_years self) (s_content ser_i32 (str "Years"))].
Definition de_DefaultRetention `{XmlDeps} : De DefaultRetention := de_struct false
   (arm_once (str "Days") de_i32
    (arm_once (str "Mode") de_ObjectLockRetentionMode
    (arm_once (str "Years") de_i32
    no_arms)))
    (fun '(days, (mode, (years, tt))) =>
      Ok {| DefaultRetention_days := days; DefaultRetention_mode := mode; DefaultRetention_years := years |}).
Definition DefaultRetention_wf (self : DefaultRetention) : Prop :=
  from_option i32_wf True (DefaultRetention_days self) /\
  from_option string_wf True (DefaultRetention_mode self) /\
  from_option i32_wf True (DefaultRetention_years self).
#[global] Instance DefaultRetention_rt `{XmlDeps} : RoundTrip ser_DefaultRetention de_DefaultRetention DefaultRetention_wf.
Proof. solve_struct (fun self : DefaultRetention => (DefaultRetention_days self, (DefaultRetention_mode self, (DefaultRetention_years self, tt)))). Qed.
Lemma de_DefaultRetention_well `{XmlDeps} : well de_DefaultRetention.
Proof. solve_well. Qed.
#[export] Hint Resolve de_DefaultRetention_well : de.
#[global] Typeclasses Opaque ser_DefaultRetention de_DefaultRetention.

Record ObjectLockRule := mk_ObjectLockRule { ObjectLockRule_default_retention : option DefaultRetention }.
Definition ser_ObjectLockRule (self : ObjectLockRule) : Ser :=
  s_seq [
    if_some (ObjectLockRule_default_retention self) (s_content ser_DefaultRetention (str "DefaultRetention"))].
Definition de_ObjectLockRule `{XmlDeps} : De ObjectLockRule := de_struct false
   (arm_once (str "DefaultRetention") de_DefaultRetention
    no_arms)
    (fun '(default_retention, tt) =>
      Ok {| ObjectLockRule_default_retention := default_retention |}).
Definition ObjectLockRule_wf (self : ObjectLockRule) : Prop :=

    from_option DefaultRetention_wf True (ObjectLockRule_default_retention self).
#[global] Instance ObjectLockRule_rt `{XmlDeps} : RoundTrip ser_ObjectLockRule de_ObjectLockRule ObjectLockRule_wf.
Proof. solve_struct (fun self : ObjectLockRule => (ObjectLockRule_default_retention self, tt)). Qed.
Lemma de_ObjectLockRule_well `{XmlDeps} : well de_ObjectLockRule.
Proof. solve_well. Qed.
#[export] Hint Resolve de_ObjectLockRule_well : de.
#[global] Typeclasses Opaque ser_ObjectLockRule de_ObjectLockRule.

Record ObjectLockConfiguration := mk_ObjectLockConfiguration {
  ObjectLockConfiguration_object_lock_enabled : option ObjectLockEnabled;
  ObjectLockConfiguration_rule : option ObjectLockRule
}.
Definition ser_ObjectLockConfiguration (self : ObjectLockConfiguration) : Ser :=
  s_seq [
    if_some (ObjectLockConfiguration_object_lock_enabled self) (s_content ser_ObjectLockEnabled (str "ObjectLockEnabled"));
    if_some (ObjectLockConfiguration_rule self) (s_content ser_ObjectLockRule (str "Rule"))].
Definition de_ObjectLockConfiguration `{XmlDeps} : De ObjectLockConfiguration := de_struct true
   (arm_once (str "ObjectLockEnabled") de_ObjectLockEnabled
    (arm_once (str "Rule") de_ObjectLockRule
    no_arms))
    (fun '(object_lock_enabled, (rule, tt)) =>
      Ok {| ObjectLockConfiguration_object_lock_enabled := object_lock_enabled; ObjectLockConfiguration_rule := rule |}).
Definition ObjectLockConfiguration_wf (self : ObjectLockConfiguration) : Prop :=
  from_option string_wf True (ObjectLockConfiguration_object_lock_enabled self) /\
  from_option ObjectLockRule_wf True (ObjectLockConfiguration_rule self).
#[global] Instance ObjectLockConfiguration_rt `{XmlDeps} : RoundTrip ser_ObjectLockConfiguration de_ObjectLockConfiguration ObjectLockConfiguration_wf.
Proof. solve_struct (fun self : ObjectLockConfiguration => (ObjectLockConfiguration_object_lock_enabled self, (ObjectLockConfiguration_rule self, tt))). Qed.
Lemma de_ObjectLockConfiguration_well `{XmlDeps} : well de_ObjectLockConfiguration.
Proof. solve_well. Qed.
#[export] Hint Resolve de_ObjectLockConfiguration_well : de.
#[global] Typeclasses Opaque ser_ObjectLockConfiguration de_ObjectLockConfiguration.

Definition ObjectLockLegalHoldStatus : Type := bytes.
Definition ser_ObjectLockLegalHoldStatus (self : ObjectLockLegalHoldStatus) : Ser := ser_str self.
Definition de_ObjectLockLegalHoldStatus : De ObjectLockLegalHoldStatus := de_enum [str "OFF"; str "ON"].
#[global] Instance ObjectLockLegalHoldStatus_rt : RoundTrip ser_ObjectLockLegalHoldStatus de_ObjectLockLegalHoldStatus string_wf := enum_rt _.
Lemma de_ObjectLockLegalHoldStatus_well : well de_ObjectLockLegalHoldStatus.
Proof. apply de_enum_well. Qed.
#[export] Hint Resolve de_ObjectLockLegalHoldStatus_well : de.
#[global] Typeclasses Opaque ser_ObjectLockLegalHoldStatus de_ObjectLockLegalHoldStatus.

Record ObjectLockLegalHold := mk_ObjectLockLegalHold {
  ObjectLockLegalHold_status : option ObjectLockLegalHoldStatus
}.
Definition ser_ObjectLockLegalHold (self : ObjectLockLegalHold) : Ser :=
  s_seq [
    if_some (ObjectLockLegalHold_status self) (s_content ser_ObjectLockLegalHoldStatus (str "Status"))].
Definition de_ObjectLockLegalHold : De ObjectLockLegalHold := de_struct true
   (arm_once (str "Status") de_ObjectLockLegalHoldStatus
    no_arms)
    (fun '(status, tt) =>
      Ok {| ObjectLockLegalHold_status := status |}).
Definition ObjectLockLegalHold_wf (self : ObjectLockLegalHold) : Prop :=

    from_option string_wf True (ObjectLockLegalHold_status self).
#[global] Instance ObjectLockLegalHold_rt : RoundTrip ser_ObjectLockLegalHold de_ObjectLockLegalHold ObjectLockLegalHold_wf.
Proof. solve_struct (fun self : ObjectLockLegalHold => (ObjectLockLegalHold_status self, tt)). Qed.
Lemma de_ObjectLockLegalHold_well : well de_ObjectLockLegalHold.
Proof. solve_well. Qed.
#[export] Hint Resolve de_ObjectLockLegalHold_well : de.
#[global] Typeclasses Opaque ser_ObjectLockLegalHold de_ObjectLockLegalHold.

Record ObjectLockRetention := mk_ObjectLockRetention {
  ObjectLockRetention_mode : option ObjectLockRetentionMode;
  ObjectLockRetention_retain_until_date : option Timestamp
}.
Definition ser_ObjectLockRetention `{XmlDeps} (self : ObjectLockRetention) : Ser :=
  s_seq [
    if_some (ObjectLockRetention_mode self) (s_content ser_ObjectLockRetentionMode (str "Mode"));
    if_some (ObjectLockRetention_retain_until_date self) (fun val => s_timestamp (str "RetainUntilDate") val DateTime)].
Definition de_ObjectLockRetention `{XmlDeps} : De ObjectLockRetention := de_struct true
   (arm_once (str "Mode") de_ObjectLockRetentionMode
    (arm_once (str "RetainUntilDate") (de_timestamp DateTime)
    no_arms))
    (fun '(mode, (retain_until_date, tt)) =>
      Ok {| ObjectLockRetention_mode := mode; ObjectLockRetention_retain_until_date := retain_until_date |}).
Definition ObjectLockRetention_wf (self : ObjectLockRetention) : Prop :=
  from_option string_wf True (ObjectLockRetention_mode self) /\
  from_option (timestamp_wf DateTime) True (ObjectLockRetention_retain_until_date self).
#[global] Instance ObjectLockRetention_rt `{XmlDeps} : RoundTrip ser_ObjectLockRetention de_ObjectLockRetention ObjectLockRetention_wf.
Proof. solve_struct (fun self : ObjectLockRetention => (ObjectLockRetention_mode self, (ObjectLockRetention_retain_until_date self, tt))). Qed.
Lemma de_ObjectLockRetention_well `{XmlDeps} : well de_ObjectLockRetention.
Proof. solve_well. Qed.
#[export] Hint Resolve de_ObjectLockRetention_well : de.
#[global] Typeclasses Opaque ser_ObjectLockRetention de_ObjectLockRetention.

Definition ObjectOwnership : Type := bytes.
Definition ser_ObjectOwnership (self : ObjectOwnership) : Ser := ser_str self.
Definition de_ObjectOwnership : De ObjectOwnership := de_enum [str "BucketOwnerEnforced"; str "BucketOwnerPreferred"; str "ObjectWriter"].
#[global] Instance ObjectOwnership_rt : RoundTrip ser_ObjectOwnership de_ObjectOwnership string_wf := enum_rt _.
Lemma de_ObjectOwnership_well : well de_ObjectOwnership.
Proof. apply de_enum_well. Qed.
#[export] Hint Resolve de_ObjectOwnership_well : de.
#[global] Typeclasses Opaque ser_ObjectOwnership de_ObjectOwnership.

Record OwnershipControlsRule := mk_OwnershipControlsRule { OwnershipControlsRule_object_ownership : ObjectOwnership }.
Definition ser_OwnershipControlsRule (self : OwnershipControlsRule) : Ser :=
  s_seq [
    s_content ser_ObjectOwnership (str "ObjectOwnership") (OwnershipControlsRule_object_ownership self)].
Definition de_OwnershipControlsRule : De OwnershipControlsRule := de_struct false
   (arm_once (str "ObjectOwnership") de_ObjectOwnership
    no_arms)
    (fun '(object_ownership, tt) =>
      object_ownership ← required object_ownership;
      Ok {| OwnershipControlsRule_object_ownership := object_ownership |}).
Definition OwnershipControlsRule_wf (self : OwnershipControlsRule) : Prop :=

    string_wf (OwnershipControlsRule_object_ownership self).
#[global] Instance OwnershipControlsRule_rt : RoundTrip ser_OwnershipControlsRule de_OwnershipControlsRule OwnershipControlsRule_wf.
Proof. solve_struct (fun self : OwnershipControlsRule => (Some (OwnershipControlsRule_object_ownership self), tt)). Qed.
Lemma de_OwnershipControlsRule_well : well de_OwnershipControlsRule.
Proof. solve_well. Qed.
#[export] Hint Resolve de_OwnershipControlsRule_well : de.
#[global] Typeclasses Opaque ser_OwnershipControlsRule de_OwnershipControlsRule.

Record OwnershipControls := mk_OwnershipControls { OwnershipControls_rules : list OwnershipControlsRule }.
Definition ser_OwnershipControls (self : OwnershipControls) : Ser :=
  s_seq [
    s_flattened_list ser_OwnershipControlsRule (str "Rule") (OwnershipControls_rules self)].
Definition de_OwnershipControls : De OwnershipControls := de_struct true
   (arm_push (str "Rule") de_OwnershipControlsRule
    no_arms)
    (fun '(rules, tt) =>
      rules ← required rules;
      Ok {| OwnershipControls_rules := rules |}).
Definition OwnershipControls_wf (self : OwnershipControls) : Prop :=

    Forall OwnershipControlsRule_wf (OwnershipControls_rules self) /\
    (OwnershipControls_rules self) <> [].
#[global] Instance OwnershipControls_rt : RoundTrip ser_OwnershipControls de_OwnershipControls OwnershipControls_wf.
Proof. solve_struct (fun self : OwnershipControls => (Some (OwnershipControls_rules self), tt)). Qed.
Lemma de_OwnershipControls_well : well de_OwnershipControls.
Proof. solve_well. Qed.
#[export] Hint Resolve de_OwnershipControls_well : de.
#[global] Typeclasses Opaque ser_OwnershipControls de_OwnershipControls.

Record PolicyStatus := mk_PolicyStatus { PolicyStatus_is_public : option bool }.
Definition ser_PolicyStatus (self : PolicyStatus) : Ser :=
  s_seq [
    if_some (PolicyStatus_is_public self) (s_content ser_bool (str "IsPublic"))].
Definition de_PolicyStatus : De PolicyStatus := de_struct false
   (arm_once (str "IsPublic") de_bool
    no_arms)
    (fun '(is_public, tt) =>
      Ok {| PolicyStatus_is_public := is_public |}).
Definition PolicyStatus_wf (self : PolicyStatus) : Prop :=
  from_option bool_wf True (PolicyStatus_is_public self).
#[global] Instance PolicyStatus_rt : RoundTrip ser_PolicyStatus de_PolicyStatus PolicyStatus_wf.
Proof. solve_struct (fun self : PolicyStatus => (PolicyStatus_is_public self, tt)). Qed.
Lemma de_PolicyStatus_well : well de_PolicyStatus.
Proof. solve_well. Qed.
#[export] Hint Resolve de_PolicyStatus_well : de.
#[global] Typeclasses Opaque ser_PolicyStatus de_PolicyStatus.

Record Progress := mk_Progress {
  Progress_bytes_processed : option Z;
  Progress_bytes_returned : option Z;
  Progress_bytes_scanned : option Z
}.
Definition ser_Progress (self : Progress) : Ser :=
  s_seq [
    if_some (Progress_bytes_processed self) (s_content ser_i64 (str "BytesProcessed"));
    if_some (Progress_bytes_returned self) (s_content ser_i64 (str "BytesReturned"));
    if_some (Progress_bytes_scanned self) (s_content ser_i64 (str "BytesScanned"))].
Definition de_Progress `{XmlDeps} : De Progress := de_struct false
   (arm_once (str "BytesProcessed") de_i64
    (arm_once (str "BytesReturned") de_i64
    (arm_once (str "BytesScanned") de_i64
    no_arms)))
    (fun '(bytes_processed, (bytes_returned, (bytes_scanned, tt))) =>
      Ok {| Progress_bytes_processed := bytes_processed;
         Progress_bytes_returned := bytes_returned;
         Progress_bytes_scanned := bytes_scanned |}).
Definition Progress_wf (self : Progress) : Prop :=
  from_option i64_wf True (Progress_bytes_processed self) /\
  from_option i64_wf True (Progress_bytes_returned self) /\
  from_option i64_wf True (Progress_bytes_scanned self).
#[global] Instance Progress_rt `{XmlDeps} : RoundTrip ser_Progress de_Progress Progress_wf.
Proof. solve_struct (fun self : Progress => (Progress_bytes_processed self, (Progress_bytes_returned self, (Progress_bytes_scanned self, tt)))). Qed.
Lemma de_Progress_well `{XmlDeps} : well de_Progress.
Proof. solve_well. Qed.
#[export] Hint Resolve de_Progress_well : de.
#[global] Typeclasses Opaque ser_Progress de_Progress.

Record PublicAccessBlockConfiguration := mk_PublicAccessBlockConfiguration {
  PublicAccessBlockConfiguration_block_public_acls : option bool;
  PublicAccessBlockConfiguration_block_public_policy : option bool;
  PublicAccessBlockConfiguration_ignore_public_acls : option bool;
  PublicAccessBlockConfiguration_restrict_public_buckets : option bool
}.
Definition ser_PublicAccessBlockConfiguration (self : PublicAccessBlockConfiguration) : Ser :=
  s_seq [
    if_some (PublicAccessBlockConfiguration_block_public_acls self) (s_content ser_bool (str "BlockPublicAcls"));
    if_some (PublicAccessBlockConfiguration_block_public_policy self) (s_content ser_bool (str "BlockPublicPolicy"));
    if_some (PublicAccessBlockConfiguration_ignore_public_acls self) (s_content ser_bool (str "IgnorePublicAcls"));
    if_some (PublicAccessBlockConfiguration_restrict_public_buckets self) (s_content ser_bool (str "RestrictPublicBuckets"))].
Definition de_PublicAccessBlockConfiguration : De PublicAccessBlockConfiguration := de_struct true
   (arm_once (str "BlockPublicAcls") de_bool
    (arm_once (str "BlockPublicPolicy") de_bool
    (arm_once (str "IgnorePublicAcls") de_bool
    (arm_once (str "RestrictPublicBuckets") de_bool
    no_arms))))
    (fun '(block_public_acls, (block_public_policy, (ignore_public_acls, (restrict_public_buckets, tt)))) =>
      Ok {| PublicAccessBlockConfiguration_block_public_acls := block_public_acls;
         PublicAccessBlockConfiguration_block_public_policy := block_public_policy;
         PublicAccessBlockConfiguration_ignore_public_acls := ignore_public_acls;
         PublicAccessBlockConfiguration_restrict_public_buckets := restrict_public_buckets |}).
Definition PublicAccessBlockConfiguration_wf (self : PublicAccessBlockConfiguration) : Prop :=
  from_option bool_wf True (PublicAccessBlockConfiguration_block_public_acls self) /\
  from_option bool_wf True (PublicAccessBlockConfiguration_block_public_policy self) /\
  from_option bool_wf True (PublicAccessBlockConfiguration_ignore_public_acls self) /\
  from_option bool_wf True (PublicAccessBlockConfiguration_restrict_public_buckets self).
#[global] Instance PublicAccessBlockConfiguration_rt : RoundTrip ser_PublicAccessBlockConfiguration de_PublicAccessBlockConfiguration PublicAccessBlockConfiguration_wf.
Proof. solve_struct (fun self : PublicAccessBlockConfiguration => (PublicAccessBlockConfiguration_block_public_acls self, (PublicAccessBlockConfiguration_block_public_policy self, (PublicAccessBlockConfiguration_ignore_public_acls self, (PublicAccessBlockConfiguration_restrict_public_buckets self, tt))))). Qed.
Lemma de_PublicAccessBlockConfiguration_well : well de_PublicAccessBlockConfiguration.
Proof. solve_well. Qed.
#[export] Hint Resolve de_PublicAccessBlockConfiguration_well : de.
#[global] Typeclasses Opaque ser_PublicAccessBlockConfiguration de_PublicAccessBlockConfiguration.

Definition DeleteMarkerReplicationStatus : Type := bytes.
Definition ser_DeleteMarkerReplicationStatus (self : DeleteMarkerReplicationStatus) : Ser := ser_str self.
Definition de_DeleteMarkerReplicationStatus : De DeleteMarkerReplicationStatus := de_enum [str "Disabled"; str "Enabled"].
#[global] Instance DeleteMarkerReplicationStatus_rt : RoundTrip ser_DeleteMarkerReplicationStatus de_DeleteMarkerReplicationStatus string_wf := enum_rt _.
Lemma de_DeleteMarkerReplicationStatus_well : well de_DeleteMarkerReplicationStatus.
Proof. apply de_enum_well. Qed.
#[export] Hint Resolve de_DeleteMarkerReplicationStatus_well : de.
#[global] Typeclasses Opaque ser_DeleteMarkerReplicationStatus de_DeleteMarkerReplicationStatus.

Record DeleteMarkerReplication := mk_DeleteMarkerReplication {
  DeleteMarkerReplication_status : option DeleteMarkerReplicationStatus
}.
Definition ser_DeleteMarkerReplication (self : DeleteMarkerReplication) : Ser :=
  s_seq [
    if_some (DeleteMarkerReplication_status self) (s_content ser_DeleteMarkerReplicationStatus (str "Status"))].
Definition de_DeleteMarkerReplication : De DeleteMarkerReplication := de_struct false
   (arm_once (str "Status") de_DeleteMarkerReplicationStatus
    no_arms)
    (fun '(status, tt) =>
      Ok {| DeleteMarkerReplication_status := status |}).
Definition DeleteMarkerReplication_wf (self : DeleteMarkerReplication) : Prop :=

    from_option string_wf True (DeleteMarkerReplication_status self).
#[global] Instance DeleteMarkerReplication_rt : RoundTrip ser_DeleteMarkerReplication de_DeleteMarkerReplication DeleteMarkerReplication_wf.
Proof. solve_struct (fun self : DeleteMarkerReplication => (DeleteMarkerReplication_status self, tt)). Qed.
Lemma de_DeleteMarkerReplication_well : well de_DeleteMarkerReplication.
Proof. solve_well. Qed.
#[export] Hint Resolve de_DeleteMarkerReplication_well : de.
#[global] Typeclasses Opaque ser_DeleteMarkerReplication de_DeleteMarkerReplication.

Definition OwnerOverride : Type := bytes.
Definition ser_OwnerOverride (self : OwnerOverride) : Ser := ser_str self.
Definition de_OwnerOverride : De OwnerOverride := de_enum [str "Destination"].
#[global] Instance OwnerOverride_rt : RoundTrip ser_OwnerOverride de_OwnerOverride string_wf := enum_rt _.
Lemma de_OwnerOverride_well : well de_OwnerOverride.
Proof. apply de_enum_well. Qed.
#[export] Hint Resolve de_OwnerOverride_well : de.
#[global] Typeclasses Opaque ser_OwnerOverride de_OwnerOverride.

Record AccessControlTranslation := mk_AccessControlTranslation { AccessControlTranslation_owner : OwnerOverride }.
Definition ser_AccessControlTranslation (self : AccessControlTranslation) : Ser :=
  s_seq [
    s_content ser_OwnerOverride (str "Owner") (AccessControlTranslation_owner self)].
Definition de_AccessControlTranslation : De AccessControlTranslation := de_struct false
   (arm_once (str "Owner") de_OwnerOverride
    no_arms)
    (fun '(owner, tt) =>
      owner ← required owner;
      Ok {| AccessControlTranslation_owner := owner |}).
Definition AccessControlTranslation_wf (self : AccessControlTranslation) : Prop :=

    string_wf (AccessControlTranslation_owner self).
#[global] Instance AccessControlTranslation_rt : RoundTrip ser_AccessControlTranslation de_AccessControlTranslation AccessControlTranslation_wf.
Proof. solve_struct (fun self : AccessControlTranslation => (Some (AccessControlTranslation_owner self), tt)). Qed.
Lemma de_AccessControlTranslation_well : well de_AccessControlTranslation.
Proof. solve_well. Qed.
#[export] Hint Resolve de_AccessControlTranslation_well : de.
#[global] Typeclasses Opaque ser_AccessControlTranslation de_AccessControlTranslation.

Record EncryptionConfiguration := mk_EncryptionConfiguration {
  EncryptionConfiguration_replica_kms_key_id : option bytes
}.
Definition ser_EncryptionConfiguration (self : EncryptionConfiguration) : Ser :=
  s_seq [
    if_some (EncryptionConfiguration_replica_kms_key_id self) (s_content ser_str (str "ReplicaKmsKeyID"))].
Definition de_EncryptionConfiguration : De EncryptionConfiguration := de_struct false
   (arm_once (str "ReplicaKmsKeyID") de_string
    no_arms)
    (fun '(replica_kms_key_id, tt) =>
      Ok {| EncryptionConfiguration_replica_kms_key_id := replica_kms_key_id |}).
Definition EncryptionConfiguration_wf (self : EncryptionConfiguration) : Prop :=

    from_option string_wf True (EncryptionConfiguration_replica_kms_key_id self).
#[global] Instance EncryptionConfiguration_rt : RoundTrip ser_EncryptionConfiguration de_EncryptionConfiguration EncryptionConfiguration_wf.
Proof. solve_struct (fun self : EncryptionConfiguration => (EncryptionConfiguration_replica_kms_key_id self, tt)). Qed.
Lemma de_EncryptionConfiguration_well : well de_EncryptionConfiguration.
Proof. solve_well. Qed.
#[export] Hint Resolve de_EncryptionConfiguration_well : de.
#[global] Typeclasses Opaque ser_EncryptionConfiguration de_EncryptionConfiguration.

Definition MetricsStatus : Type := bytes.
Definition ser_MetricsStatus (self : MetricsStatus) : Ser := ser_str self.
Definition de_MetricsStatus : De MetricsStatus := de_enum [str "Disabled"; str "Enabled"].
#[global] Instance MetricsStatus_rt : RoundTrip ser_MetricsStatus de_MetricsStatus string_wf := enum_rt _.
Lemma de_MetricsStatus_well : well de_MetricsStatus.
Proof. apply de_enum_well. Qed.
#[export] Hint Resolve de_MetricsStatus_well : de.
#[global] Typeclasses Opaque ser_MetricsStatus de_MetricsStatus.

Record ReplicationTimeValue := mk_ReplicationTimeValue { ReplicationTimeValue_minutes : option Z }.
Definition ser_ReplicationTimeValue (self : ReplicationTimeValue) : Ser :=
  s_seq [
    if_some (ReplicationTimeValue_minutes self) (s_content ser_i32 (str "Minutes"))].
Definition de_ReplicationTimeValue `{XmlDeps} : De ReplicationTimeValue := de_struct false
   (arm_once (str "Minutes") de_i32
    no_arms)
    (fun '(minutes, tt) =>
      Ok {| ReplicationTimeValue_minutes := minutes |}).
Definition ReplicationTimeValue_wf (self : ReplicationTimeValue) : Prop :=

    from_option i32_wf True (ReplicationTimeValue_minutes self).
#[global] Instance ReplicationTimeValue_rt `{XmlDeps} : RoundTrip ser_ReplicationTimeValue de_ReplicationTimeValue ReplicationTimeValue_wf.
Proof. solve_struct (fun self : ReplicationTimeValue => (ReplicationTimeValue_minutes self, tt)). Qed.
Lemma de_ReplicationTimeValue_well `{XmlDeps} : well de_ReplicationTimeValue.
Proof. solve_well. Qed.
#[export] Hint Resolve de_ReplicationTimeValue_well : de.
#[global] Typeclasses Opaque ser_ReplicationTimeValue de_ReplicationTimeValue.

Record Metrics := mk_Metrics {
  Metrics_event_threshold : option ReplicationTimeValue;
  Metrics_status : MetricsStatus
}.
Definition ser_Metrics (self : Metrics) : Ser :=
  s_seq [
    if_some (Metrics_event_threshold self) (s_content ser_ReplicationTimeValue (str "EventThreshold"));
    s_content ser_MetricsStatus (str "Status") (Metrics_status self)].
Definition de_Metrics `{XmlDeps} : De Metrics := de_struct false
   (arm_once (str "EventThreshold") de_ReplicationTimeValue
    (arm_once (str "Status") de_MetricsStatus
    no_arms))
    (fun '(event_threshold, (status, tt)) =>
      status ← required status;
      Ok {| Metrics_event_threshold := event_threshold; Metrics_status := status |}).
Definition Metrics_wf (self : Metrics) : Prop :=

    from_option ReplicationTimeValue_wf True (Metrics_event_threshold self) /\
    string_wf (Metrics_status self).
#[global] Instance Metrics_rt `{XmlDeps} : RoundTrip ser_Metrics de_Metrics Metrics_wf.
Proof. solve_struct (fun self : Metrics => (Metrics_event_threshold self, (Some (Metrics_status self), tt))). Qed.
Lemma de_Metrics_well `{XmlDeps} : well de_Metrics.
Proof. solve_well. Qed.
#[export] Hint Resolve de_Metrics_well : de.
#[global] Typeclasses Opaque ser_Metrics de_Metrics.
