(* ===== verification/XmlDtoC.v ===== *)
(** * XML types, part C (crates/s3s/src/xml/generated.rs, the structures of dto/generated.rs)

    Each generated type with its serializer, its deserializer, the values that can be written, and
    the proofs that the deserializer returns and reads back what the serializer wrote.  Types that
    exist only with the minio feature, and the caches of tags, are left out. *)

From S2P Require Import Prelude.
From S2P Require Import Str.
From S2P Require Import Utf8.
From S2P Require Import Timestamp.
From S2P Require Import ETag.
From S2P Require Import Xml.
From S2P Require Import XmlStruct.
From S2P Require Import XmlDtoA.
From S2P Require Import XmlDtoB.

Definition ReplicationTimeStatus : Type := bytes.
Definition ser_ReplicationTimeStatus (self : ReplicationTimeStatus) : Ser := ser_str self.
Definition de_ReplicationTimeStatus : De ReplicationTimeStatus := de_enum [str "Disabled"; str "Enabled"].
#[global] Instance ReplicationTimeStatus_rt : RoundTrip ser_ReplicationTimeStatus de_ReplicationTimeStatus string_wf := enum_rt _.
Lemma de_ReplicationTimeStatus_well : well de_ReplicationTimeStatus.
Proof. apply de_enum_well. Qed.
#[export] Hint Resolve de_ReplicationTimeStatus_well : de.
#[global] Typeclasses Opaque ser_ReplicationTimeStatus de_ReplicationTimeStatus.

Record ReplicationTime := mk_ReplicationTime {
  ReplicationTime_status : ReplicationTimeStatus;
  ReplicationTime_time : ReplicationTimeValue
}.
Definition ser_ReplicationTime (self : ReplicationTime) : Ser :=
  s_seq [
    s_content ser_ReplicationTimeStatus (str "Status") (ReplicationTime_status self);
    s_content ser_ReplicationTimeValue (str "Time") (ReplicationTime_time self)].
Definition de_ReplicationTime `{XmlDeps} : De ReplicationTime := de_struct false
   (arm_once (str "Status") de_ReplicationTimeStatus
    (arm_once (str "Time") de_ReplicationTimeValue
    no_arms))
    (fun '(status, (time, tt)) =>
      status ← required status;
      time ← required time;
      Ok {| ReplicationTime_status := status; ReplicationTime_time := time |}).
Definition ReplicationTime_wf (self : ReplicationTime) : Prop :=

    string_wf (ReplicationTime_status self) /\
    ReplicationTimeValue_wf (ReplicationTime_time self).
#[global] Instance ReplicationTime_rt `{XmlDeps} : RoundTrip ser_ReplicationTime de_ReplicationTime ReplicationTime_wf.
Proof. solve_struct (fun self : ReplicationTime => (Some (ReplicationTime_status self), (Some (ReplicationTime_time self), tt))). Qed.
Lemma de_ReplicationTime_well `{XmlDeps} : well de_ReplicationTime.
Proof. solve_well. Qed.
#[export] Hint Resolve de_ReplicationTime_well : de.
#[global] Typeclasses Opaque ser_ReplicationTime de_ReplicationTime.

Definition StorageClass : Type := bytes.
Definition ser_StorageClass (self : StorageClass) : Ser := ser_str self.
Definition de_StorageClass : De StorageClass := de_enum [str "AWS_BACKUP_LOW_COST_WARM"; str "AWS_BACKUP_WARM"; str "DEEP_ARCHIVE"; str "EXPRESS_ONEZONE"; str "FSX_ONTAP"; str "FSX_OPENZFS"; str "GLACIER"; str "GLACIER_IR"; str "INTELLIGENT_TIERING"; str "ONEZONE_IA"; str "OUTPOSTS"; str "REDUCED_REDUNDANCY"; str "SNOW"; str "STANDARD"; str "STANDARD_IA"].
#[global] Instance StorageClass_rt : RoundTrip ser_StorageClass de_StorageClass string_wf := enum_rt _.
Lemma de_StorageClass_well : well de_StorageClass.
Proof. apply de_enum_well. Qed.
#[export] Hint Resolve de_StorageClass_well : de.
#[global] Typeclasses Opaque ser_StorageClass de_StorageClass.

Record Destination := mk_Destination {
  Destination_access_control_translation : option AccessControlTranslation;
  Destination_account : option bytes;
  Destination_bucket : bytes;
  Destination_encryption_configuration : option EncryptionConfiguration;
  Destination_metrics : option Metrics;
  Destination_replication_time : option ReplicationTime;
  Destination_storage_class : option StorageClass
}.
Definition ser_Destination (self : Destination) : Ser :=
  s_seq [
    if_some (Destination_access_control_translation self) (s_content ser_AccessControlTranslation (str "AccessControlTranslation"));
    if_some (Destination_account self) (s_content ser_str (str "Account"));
    s_content ser_str (str "Bucket") (Destination_bucket self);
    if_some (Destination_encryption_configuration self) (s_content ser_EncryptionConfiguration (str "EncryptionConfiguration"));
    if_some (Destination_metrics self) (s_content ser_Metrics (str "Metrics"));
    if_some (Destination_replication_time self) (s_content ser_ReplicationTime (str "ReplicationTime"));
    if_some (Destination_storage_class self) (s_content ser_StorageClass (str "StorageClass"))].
Definition de_Destination `{XmlDeps} : De Destination := de_struct false
   (arm_once (str "AccessControlTranslation") de_AccessControlTranslation
    (arm_once (str "Account") de_string
    (arm_once (str "Bucket") de_string
    (arm_once (str "EncryptionConfiguration") de_EncryptionConfiguration
    (arm_once (str "Metrics") de_Metrics
    (arm_once (str "ReplicationTime") de_ReplicationTime
    (arm_once (str "StorageClass") de_StorageClass
    no_arms)))))))
    (fun '(access_control_translation, (account, (bucket, (encryption_configuration, (metrics, (replication_time, (storage_class, tt))))))) =>
      bucket ← required bucket;
      Ok {| Destination_access_control_translation := access_control_translation;
         Destination_account := account;
         Destination_bucket := bucket;
         Destination_encryption_configuration := encryption_configuration;
         Destination_metrics := metrics;
         Destination_replication_time := replication_time;
         Destination_storage_class := storage_class |}).
Definition Destination_wf (self : Destination) : Prop :=
  from_option AccessControlTranslation_wf True (Destination_access_control_translation self) /\
  from_option string_wf True (Destination_account self) /\
  string_wf (Destination_bucket self) /\
  from_option EncryptionConfiguration_wf True (Destination_encryption_configuration self) /\
  from_option Metrics_wf True (Destination_metrics self) /\
  from_option ReplicationTime_wf True (Destination_replication_time self) /\
  from_option string_wf True (Destination_storage_class self).
#[global] Instance Destination_rt `{XmlDeps} : RoundTrip ser_Destination de_Destination Destination_wf.
Proof. solve_struct (fun self : Destination => (Destination_access_control_translation self, (Destination_account self, (Some (Destination_bucket self), (Destination_encryption_configuration self, (Destination_metrics self, (Destination_replication_time self, (Destination_storage_class self, tt)))))))). Qed.
Lemma de_Destination_well `{XmlDeps} : well de_Destination.
Proof. solve_well. Qed.
#[export] Hint Resolve de_Destination_well : de.
#[global] Typeclasses Opaque ser_Destination de_Destination.

Definition ExistingObjectReplicationStatus : Type := bytes.
Definition ser_ExistingObjectReplicationStatus (self : ExistingObjectReplicationStatus) : Ser := ser_str self.
Definition de_ExistingObjectReplicationStatus : De ExistingObjectReplicationStatus := de_enum [str "Disabled"; str "Enabled"].
#[global] Instance ExistingObjectReplicationStatus_rt : RoundTrip ser_ExistingObjectReplicationStatus de_ExistingObjectReplicationStatus string_wf := enum_rt _.
Lemma de_ExistingObjectReplicationStatus_well : well de_ExistingObjectReplicationStatus.
Proof. apply de_enum_well. Qed.
#[export] Hint Resolve de_ExistingObjectReplicationStatus_well : de.
#[global] Typeclasses Opaque ser_ExistingObjectReplicationStatus de_ExistingObjectReplicationStatus.

Record ExistingObjectReplication := mk_ExistingObjectReplication {
  ExistingObjectReplication_status : ExistingObjectReplicationStatus
}.
Definition ser_ExistingObjectReplication (self : ExistingObjectReplication) : Ser :=
  s_seq [
    s_content ser_ExistingObjectReplicationStatus (str "Status") (ExistingObjectReplication_status self)].
Definition de_ExistingObjectReplication : De ExistingObjectReplication := de_struct false
   (arm_once (str "Status") de_ExistingObjectReplicationStatus
    no_arms)
    (fun '(status, tt) =>
      status ← required status;
      Ok {| ExistingObjectReplication_status := status |}).
Definition ExistingObjectReplication_wf (self : ExistingObjectReplication) : Prop :=

    string_wf (ExistingObjectReplication_status self).
#[global] Instance ExistingObjectReplication_rt : RoundTrip ser_ExistingObjectReplication de_ExistingObjectReplication ExistingObjectReplication_wf.
Proof. solve_struct (fun self : ExistingObjectReplication => (Some (ExistingObjectReplication_status self), tt)). Qed.
Lemma de_ExistingObjectReplication_well : well de_ExistingObjectReplication.
Proof. solve_well. Qed.
#[export] Hint Resolve de_ExistingObjectReplication_well : de.
#[global] Typeclasses Opaque ser_ExistingObjectReplication de_ExistingObjectReplication.

Record ReplicationRuleAndOperator := mk_ReplicationRuleAndOperator {
  ReplicationRuleAndOperator_prefix : option bytes;
  ReplicationRuleAndOperator_tags : option (list Tag)
}.
Definition ser_ReplicationRuleAndOperator (self : ReplicationRuleAndOperator) : Ser :=
  s_seq [
    if_some (ReplicationRuleAndOperator_prefix self) (s_content ser_str (str "Prefix"));
    if_some (ReplicationRuleAndOperator_tags self) (s_flattened_list ser_Tag (str "Tag"))].
Definition de_ReplicationRuleAndOperator : De ReplicationRuleAndOperator := de_struct false
   (arm_once (str "Prefix") de_string
    (arm_push (str "Tag") de_Tag
    no_arms))
    (fun '(prefix, (tags, tt)) =>
      Ok {| ReplicationRuleAndOperator_prefix := prefix; ReplicationRuleAndOperator_tags := tags |}).
Definition ReplicationRuleAndOperator_wf (self : ReplicationRuleAndOperator) : Prop :=
  from_option string_wf True (ReplicationRuleAndOperator_prefix self) /\
  from_option (fun l => Forall Tag_wf l /\ l <> []) True (ReplicationRuleAndOperator_tags self).
#[global] Instance ReplicationRuleAndOperator_rt : RoundTrip ser_ReplicationRuleAndOperator de_ReplicationRuleAndOperator ReplicationRuleAndOperator_wf.
Proof. solve_struct (fun self : ReplicationRuleAndOperator => (ReplicationRuleAndOperator_prefix self, (ReplicationRuleAndOperator_tags self, tt))). Qed.
Lemma de_ReplicationRuleAndOperator_well : well de_ReplicationRuleAndOperator.
Proof. solve_well. Qed.
#[export] Hint Resolve de_ReplicationRuleAndOperator_well : de.
#[global] Typeclasses Opaque ser_ReplicationRuleAndOperator de_ReplicationRuleAndOperator.

Record ReplicationRuleFilter := mk_ReplicationRuleFilter {
  ReplicationRuleFilter_and : option ReplicationRuleAndOperator;
  ReplicationRuleFilter_prefix : option bytes;
  ReplicationRuleFilter_tag : option Tag
}.
Definition ser_ReplicationRuleFilter (self : ReplicationRuleFilter) : Ser :=
  s_seq [
    if_some (ReplicationRuleFilter_and self) (s_content ser_ReplicationRuleAndOperator (str "And"));
    if_some (ReplicationRuleFilter_prefix self) (s_content ser_str (str "Prefix"));
    if_some (ReplicationRuleFilter_tag self) (s_content ser_Tag (str "Tag"))].
Definition de_ReplicationRuleFilter : De ReplicationRuleFilter := de_struct false
   (arm_once (str "And") de_ReplicationRuleAndOperator
    (arm_once (str "Prefix") de_string
    (arm_once (str "Tag") de_Tag
    no_arms)))
    (fun '(and_, (prefix, (tag, tt))) =>
      Ok {| ReplicationRuleFilter_and := and_;
         ReplicationRuleFilter_prefix := prefix;
         ReplicationRuleFilter_tag := tag |}).
Definition ReplicationRuleFilter_wf (self : ReplicationRuleFilter) : Prop :=
  from_option ReplicationRuleAndOperator_wf True (ReplicationRuleFilter_and self) /\
  from_option string_wf True (ReplicationRuleFilter_prefix self) /\
  from_option Tag_wf True (ReplicationRuleFilter_tag self).
#[global] Instance ReplicationRuleFilter_rt : RoundTrip ser_ReplicationRuleFilter de_ReplicationRuleFilter ReplicationRuleFilter_wf.
Proof. solve_struct (fun self : ReplicationRuleFilter => (ReplicationRuleFilter_and self, (ReplicationRuleFilter_prefix self, (ReplicationRuleFilter_tag self, tt)))). Qed.
Lemma de_ReplicationRuleFilter_well : well de_ReplicationRuleFilter.
Proof. solve_well. Qed.
#[export] Hint Resolve de_ReplicationRuleFilter_well : de.
#[global] Typeclasses Opaque ser_ReplicationRuleFilter de_ReplicationRuleFilter.

Definition ReplicationRuleStatus : Type := bytes.
Definition ser_ReplicationRuleStatus (self : ReplicationRuleStatus) : Ser := ser_str self.
Definition de_ReplicationRuleStatus : De ReplicationRuleStatus := de_enum [str "Disabled"; str "Enabled"].
#[global] Instance ReplicationRuleStatus_rt : RoundTrip ser_ReplicationRuleStatus de_ReplicationRuleStatus string_wf := enum_rt _.
Lemma de_ReplicationRuleStatus_well : well de_ReplicationRuleStatus.
Proof. apply de_enum_well. Qed.
#[export] Hint Resolve de_ReplicationRuleStatus_well : de.
#[global] Typeclasses Opaque ser_ReplicationRuleStatus de_ReplicationRuleStatus.

Definition ReplicaModificationsStatus : Type := bytes.
Definition ser_ReplicaModificationsStatus (self : ReplicaModificationsStatus) : Ser := ser_str self.
Definition de_ReplicaModificationsStatus : De ReplicaModificationsStatus := de_enum [str "Disabled"; str "Enabled"].
#[global] Instance ReplicaModificationsStatus_rt : RoundTrip ser_ReplicaModificationsStatus de_ReplicaModificationsStatus string_wf := enum_rt _.
Lemma de_ReplicaModificationsStatus_well : well de_ReplicaModificationsStatus.
Proof. apply de_enum_well. Qed.
#[export] Hint Resolve de_ReplicaModificationsStatus_well : de.
#[global] Typeclasses Opaque ser_ReplicaModificationsStatus de_ReplicaModificationsStatus.

Record ReplicaModifications := mk_ReplicaModifications { ReplicaModifications_status : ReplicaModificationsStatus }.
Definition ser_ReplicaModifications (self : ReplicaModifications) : Ser :=
  s_seq [
    s_content ser_ReplicaModificationsStatus (str "Status") (ReplicaModifications_status self)].
Definition de_ReplicaModifications : De ReplicaModifications := de_struct false
   (arm_once (str "Status") de_ReplicaModificationsStatus
    no_arms)
    (fun '(status, tt) =>
      status ← required status;
      Ok {| ReplicaModifications_status := status |}).
Definition ReplicaModifications_wf (self : ReplicaModifications) : Prop :=

    string_wf (ReplicaModifications_status self).
#[global] Instance ReplicaModifications_rt : RoundTrip ser_ReplicaModifications de_ReplicaModifications ReplicaModifications_wf.
Proof. solve_struct (fun self : ReplicaModifications => (Some (ReplicaModifications_status self), tt)). Qed.
Lemma de_ReplicaModifications_well : well de_ReplicaModifications.
Proof. solve_well. Qed.
#[export] Hint Resolve de_ReplicaModifications_well : de.
#[global] Typeclasses Opaque ser_ReplicaModifications de_ReplicaModifications.

Definition SseKmsEncryptedObjectsStatus : Type := bytes.
Definition ser_SseKmsEncryptedObjectsStatus (self : SseKmsEncryptedObjectsStatus) : Ser := ser_str self.
Definition de_SseKmsEncryptedObjectsStatus : De SseKmsEncryptedObjectsStatus := de_enum [str "Disabled"; str "Enabled"].
#[global] Instance SseKmsEncryptedObjectsStatus_rt : RoundTrip ser_SseKmsEncryptedObjectsStatus de_SseKmsEncryptedObjectsStatus string_wf := enum_rt _.
Lemma de_SseKmsEncryptedObjectsStatus_well : well de_SseKmsEncryptedObjectsStatus.
Proof. apply de_enum_well. Qed.
#[export] Hint Resolve de_SseKmsEncryptedObjectsStatus_well : de.
#[global] Typeclasses Opaque ser_SseKmsEncryptedObjectsStatus de_SseKmsEncryptedObjectsStatus.

Record SseKmsEncryptedObjects := mk_SseKmsEncryptedObjects {
  SseKmsEncryptedObjects_status : SseKmsEncryptedObjectsStatus
}.
Definition ser_SseKmsEncryptedObjects (self : SseKmsEncryptedObjects) : Ser :=
  s_seq [
    s_content ser_SseKmsEncryptedObjectsStatus (str "Status") (SseKmsEncryptedObjects_status self)].
Definition de_SseKmsEncryptedObjects : De SseKmsEncryptedObjects := de_struct false
   (arm_once (str "Status") de_SseKmsEncryptedObjectsStatus
    no_arms)
    (fun '(status, tt) =>
      status ← required status;
      Ok {| SseKmsEncryptedObjects_status := status |}).
Definition SseKmsEncryptedObjects_wf (self : SseKmsEncryptedObjects) : Prop :=

    string_wf (SseKmsEncryptedObjects_status self).
#[global] Instance SseKmsEncryptedObjects_rt : RoundTrip ser_SseKmsEncryptedObjects de_SseKmsEncryptedObjects SseKmsEncryptedObjects_wf.
Proof. solve_struct (fun self : SseKmsEncryptedObjects => (Some (SseKmsEncryptedObjects_status self), tt)). Qed.
Lemma de_SseKmsEncryptedObjects_well : well de_SseKmsEncryptedObjects.
Proof. solve_well. Qed.
#[export] Hint Resolve de_SseKmsEncryptedObjects_well : de.
#[global] Typeclasses Opaque ser_SseKmsEncryptedObjects de_SseKmsEncryptedObjects.

Record SourceSelectionCriteria := mk_SourceSelectionCriteria {
  SourceSelectionCriteria_replica_modifications : option ReplicaModifications;
  SourceSelectionCriteria_sse_kms_encrypted_objects : option SseKmsEncryptedObjects
}.
Definition ser_SourceSelectionCriteria (self : SourceSelectionCriteria) : Ser :=
  s_seq [
    if_some (SourceSelectionCriteria_replica_modifications self) (s_content ser_ReplicaModifications (str "ReplicaModifications"));
    if_some (SourceSelectionCriteria_sse_kms_encrypted_objects self) (s_content ser_SseKmsEncryptedObjects (str "SseKmsEncryptedObjects"))].
Definition de_SourceSelectionCriteria : De SourceSelectionCriteria := de_struct false
   (arm_once (str "ReplicaModifications") de_ReplicaModifications
    (arm_once (str "SseKmsEncryptedObjects") de_SseKmsEncryptedObjects
    no_arms))
    (fun '(replica_modifications, (sse_kms_encrypted_objects, tt)) =>
      Ok {| SourceSelectionCriteria_replica_modifications := replica_modifications;
         SourceSelectionCriteria_sse_kms_encrypted_objects := sse_kms_encrypted_objects |}).
Definition SourceSelectionCriteria_wf (self : SourceSelectionCriteria) : Prop :=
  from_option ReplicaModifications_wf True (SourceSelectionCriteria_replica_modifications self) /\
  from_option SseKmsEncryptedObjects_wf True (SourceSelectionCriteria_sse_kms_encrypted_objects self).
#[global] Instance SourceSelectionCriteria_rt : RoundTrip ser_SourceSelectionCriteria de_SourceSelectionCriteria SourceSelectionCriteria_wf.
Proof. solve_struct (fun self : SourceSelectionCriteria => (SourceSelectionCriteria_replica_modifications self, (SourceSelectionCriteria_sse_kms_encrypted_objects self, tt))). Qed.
Lemma de_SourceSelectionCriteria_well : well de_SourceSelectionCriteria.
Proof. solve_well. Qed.
#[export] Hint Resolve de_SourceSelectionCriteria_well : de.
#[global] Typeclasses Opaque ser_SourceSelectionCriteria de_SourceSelectionCriteria.

Record ReplicationRule := mk_ReplicationRule {
  ReplicationRule_delete_marker_replication : option DeleteMarkerReplication;
  ReplicationRule_destination : Destination;
  ReplicationRule_existing_object_replication : option ExistingObjectReplication;
  ReplicationRule_filter : option ReplicationRuleFilter;
  ReplicationRule_id : option bytes;
  ReplicationRule_prefix : option bytes;
  ReplicationRule_priority : option Z;
  ReplicationRule_source_selection_criteria : option SourceSelectionCriteria;
  ReplicationRule_status : ReplicationRuleStatus
}.
Definition ser_ReplicationRule (self : ReplicationRule) : Ser :=
  s_seq [
    if_some (ReplicationRule_delete_marker_replication self) (s_content ser_DeleteMarkerReplication (str "DeleteMarkerReplication"));
    s_content ser_Destination (str "Destination") (ReplicationRule_destination self);
    if_some (ReplicationRule_existing_object_replication self) (s_content ser_ExistingObjectReplication (str "ExistingObjectReplication"));
    if_some (ReplicationRule_filter self) (s_content ser_ReplicationRuleFilter (str "Filter"));
    if_some (ReplicationRule_id self) (s_content ser_str (str "ID"));
    if_some (ReplicationRule_prefix self) (s_content ser_str (str "Prefix"));
    if_some (ReplicationRule_priority self) (s_content ser_i32 (str "Priority"));
    if_some (ReplicationRule_source_selection_criteria self) (s_content ser_SourceSelectionCriteria (str "SourceSelectionCriteria"));
    s_content ser_ReplicationRuleStatus (str "Status") (ReplicationRule_status self)].
Definition de_ReplicationRule `{XmlDeps} : De ReplicationRule := de_struct false
   (arm_once (str "DeleteMarkerReplication") de_DeleteMarkerReplication
    (arm_once (str "Destination") de_Destination
    (arm_once (str "ExistingObjectReplication") de_ExistingObjectReplication
    (arm_once (str "Filter") de_ReplicationRuleFilter
    (arm_once (str "ID") de_string
    (arm_once (str "Prefix") de_string
    (arm_once (str "Priority") de_i32
    (arm_once (str "SourceSelectionCriteria") de_SourceSelectionCriteria
    (arm_once (str "Status") de_ReplicationRuleStatus
    no_arms)))))))))
    (fun '(delete_marker_replication, (destination, (existing_object_replication, (filter, (id, (prefix, (priority, (source_selection_criteria, (status, tt))))))))) =>
      destination ← required destination;
      status ← required status;
      Ok {| ReplicationRule_delete_marker_replication := delete_marker_replication;
         ReplicationRule_destination := destination;
         ReplicationRule_existing_object_replication := existing_object_replication;
         ReplicationRule_filter := filter;
         ReplicationRule_id := id;
         ReplicationRule_prefix := prefix;
         ReplicationRule_priority := priority;
         ReplicationRule_source_selection_criteria := source_selection_criteria;
         ReplicationRule_status := status |}).
Definition ReplicationRule_wf (self : ReplicationRule) : Prop :=
  from_option DeleteMarkerReplication_wf True (ReplicationRule_delete_marker_replication self) /\
  Destination_wf (ReplicationRule_destination self) /\
  from_option ExistingObjectReplication_wf True (ReplicationRule_existing_object_replication self) /\
  from_option ReplicationRuleFilter_wf True (ReplicationRule_filter self) /\
  from_option string_wf True (ReplicationRule_id self) /\
  from_option string_wf True (ReplicationRule_prefix self) /\
  from_option i32_wf True (ReplicationRule_priority self) /\
  from_option SourceSelectionCriteria_wf True (ReplicationRule_source_selection_criteria self) /\
  string_wf (ReplicationRule_status self).
#[global] Instance ReplicationRule_rt `{XmlDeps} : RoundTrip ser_ReplicationRule de_ReplicationRule ReplicationRule_wf.
Proof. solve_struct (fun self : ReplicationRule => (ReplicationRule_delete_marker_replication self, (Some (ReplicationRule_destination self), (ReplicationRule_existing_object_replication self, (ReplicationRule_filter self, (ReplicationRule_id self, (ReplicationRule_prefix self, (ReplicationRule_priority self, (ReplicationRule_source_selection_criteria self, (Some (ReplicationRule_status self), tt)))))))))). Qed.
Lemma de_ReplicationRule_well `{XmlDeps} : well de_ReplicationRule.
Proof. solve_well. Qed.
#[export] Hint Resolve de_ReplicationRule_well : de.
#[global] Typeclasses Opaque ser_ReplicationRule de_ReplicationRule.

Record ReplicationConfiguration := mk_ReplicationConfiguration {
  ReplicationConfiguration_role : bytes;
  ReplicationConfiguration_rules : list ReplicationRule
}.
Definition ser_ReplicationConfiguration (self : ReplicationConfiguration) : Ser :=
  s_seq [
    s_content ser_str (str "Role") (ReplicationConfiguration_role self);
    s_flattened_list ser_ReplicationRule (str "Rule") (ReplicationConfiguration_rules self)].
Definition de_ReplicationConfiguration `{XmlDeps} : De ReplicationConfiguration := de_struct true
   (arm_once (str "Role") de_string
    (arm_push (str "Rule") de_ReplicationRule
    no_arms))
    (fun '(role, (rules, tt)) =>
      role ← required role;
      rules ← required rules;
      Ok {| ReplicationConfiguration_role := role; ReplicationConfiguration_rules := rules |}).
Definition ReplicationConfiguration_wf (self : ReplicationConfiguration) : Prop :=
  string_wf (ReplicationConfiguration_role self) /\
  Forall ReplicationRule_wf (ReplicationConfiguration_rules self) /\
  (ReplicationConfiguration_rules self) <> [].
#[global] Instance ReplicationConfiguration_rt `{XmlDeps} : RoundTrip ser_ReplicationConfiguration de_ReplicationConfiguration ReplicationConfiguration_wf.
Proof. solve_struct (fun self : ReplicationConfiguration => (Some (ReplicationConfiguration_role self), (Some (ReplicationConfiguration_rules self), tt))). Qed.
Lemma de_ReplicationConfiguration_well `{XmlDeps} : well de_ReplicationConfiguration.
Proof. solve_well. Qed.
#[export] Hint Resolve de_ReplicationConfiguration_well : de.
#[global] Typeclasses Opaque ser_ReplicationConfiguration de_ReplicationConfiguration.

Record RequestPaymentConfiguration := mk_RequestPaymentConfiguration { RequestPaymentConfiguration_payer : Payer }.
Definition ser_RequestPaymentConfiguration (self : RequestPaymentConfiguration) : Ser :=
  s_seq [
    s_content ser_Payer (str "Payer") (RequestPaymentConfiguration_payer self)].
Definition de_RequestPaymentConfiguration : De RequestPaymentConfiguration := de_struct true
   (arm_once (str "Payer") de_Payer
    no_arms)
    (fun '(payer, tt) =>
      payer ← required payer;
      Ok {| RequestPaymentConfiguration_payer := payer |}).
Definition RequestPaymentConfiguration_wf (self : RequestPaymentConfiguration) : Prop :=

    string_wf (RequestPaymentConfiguration_payer self).
#[global] Instance RequestPaymentConfiguration_rt : RoundTrip ser_RequestPaymentConfiguration de_RequestPaymentConfiguration RequestPaymentConfiguration_wf.
Proof. solve_struct (fun self : RequestPaymentConfiguration => (Some (RequestPaymentConfiguration_payer self), tt)). Qed.
Lemma de_RequestPaymentConfiguration_well : well de_RequestPaymentConfiguration.
Proof. solve_well. Qed.
#[export] Hint Resolve de_RequestPaymentConfiguration_well : de.
#[global] Typeclasses Opaque ser_RequestPaymentConfiguration de_RequestPaymentConfiguration.

Definition Tier : Type := bytes.
Definition ser_Tier (self : Tier) : Ser := ser_str self.
Definition de_Tier : De Tier := de_enum [str "Bulk"; str "Expedited"; str "Standard"].
#[global] Instance Tier_rt : RoundTrip ser_Tier de_Tier string_wf := enum_rt _.
Lemma de_Tier_well : well de_Tier.
Proof. apply de_enum_well. Qed.
#[export] Hint Resolve de_Tier_well : de.
#[global] Typeclasses Opaque ser_Tier de_Tier.

Record GlacierJobParameters := mk_GlacierJobParameters { GlacierJobParameters_tier : Tier }.
Definition ser_GlacierJobParameters (self : GlacierJobParameters) : Ser :=
  s_seq [
    s_content ser_Tier (str "Tier") (GlacierJobParameters_tier self)].
Definition de_GlacierJobParameters : De GlacierJobParameters := de_struct false
   (arm_once (str "Tier") de_Tier
    no_arms)
    (fun '(tier, tt) =>
      tier ← required tier;
      Ok {| GlacierJobParameters_tier := tier |}).
Definition GlacierJobParameters_wf (self : GlacierJobParameters) : Prop :=

    string_wf (GlacierJobParameters_tier self).
#[global] Instance GlacierJobParameters_rt : RoundTrip ser_GlacierJobParameters de_GlacierJobParameters GlacierJobParameters_wf.
Proof. solve_struct (fun self : GlacierJobParameters => (Some (GlacierJobParameters_tier self), tt)). Qed.
Lemma de_GlacierJobParameters_well : well de_GlacierJobParameters.
Proof. solve_well. Qed.
#[export] Hint Resolve de_GlacierJobParameters_well : de.
#[global] Typeclasses Opaque ser_GlacierJobParameters de_GlacierJobParameters.

Definition ServerSideEncryption : Type := bytes.
Definition ser_ServerSideEncryption (self : ServerSideEncryption) : Ser := ser_str self.
Definition de_ServerSideEncryption : De ServerSideEncryption := de_enum [str "AES256"; str "aws:backup"; str "aws:fsx"; str "aws:kms"; str "aws:kms:dsse"].
#[global] Instance ServerSideEncryption_rt : RoundTrip ser_ServerSideEncryption de_ServerSideEncryption string_wf := enum_rt _.
Lemma de_ServerSideEncryption_well : well de_ServerSideEncryption.
Proof. apply de_enum_well. Qed.
#[export] Hint Resolve de_ServerSideEncryption_well : de.
#[global] Typeclasses Opaque ser_ServerSideEncryption de_ServerSideEncryption.

Record Encryption := mk_Encryption {
  Encryption_encryption_type : ServerSideEncryption;
  Encryption_kms_context : option bytes;
  Encryption_kms_key_id : option bytes
}.
Definition ser_Encryption (self : Encryption) : Ser :=
  s_seq [
    s_content ser_ServerSideEncryption (str "EncryptionType") (Encryption_encryption_type self);
    if_some (Encryption_kms_context self) (s_content ser_str (str "KMSContext"));
    if_some (Encryption_kms_key_id self) (s_content ser_str (str "KMSKeyId"))].
Definition de_Encryption : De Encryption := de_struct false
   (arm_once (str "EncryptionType") de_ServerSideEncryption
    (arm_once (str "KMSContext") de_string
    (arm_once (str "KMSKeyId") de_string
    no_arms)))
    (fun '(encryption_type, (kms_context, (kms_key_id, tt))) =>
      encryption_type ← required encryption_type;
      Ok {| Encryption_encryption_type := encryption_type;
         Encryption_kms_context := kms_context;
         Encryption_kms_key_id := kms_key_id |}).
Definition Encryption_wf (self : Encryption) : Prop :=
  string_wf (Encryption_encryption_type self) /\
  from_option string_wf True (Encryption_kms_context self) /\
  from_option string_wf True (Encryption_kms_key_id self).
#[global] Instance Encryption_rt : RoundTrip ser_Encryption de_Encryption Encryption_wf.
Proof. solve_struct (fun self : Encryption => (Some (Encryption_encryption_type self), (Encryption_kms_context self, (Encryption_kms_key_id self, tt)))). Qed.
Lemma de_Encryption_well : well de_Encryption.
Proof. solve_well. Qed.
#[export] Hint Resolve de_Encryption_well : de.
#[global] Typeclasses Opaque ser_Encryption de_Encryption.

Record MetadataEntry := mk_MetadataEntry { MetadataEntry_name : option bytes; MetadataEntry_value : option bytes }.
Definition ser_MetadataEntry (self : MetadataEntry) : Ser :=
  s_seq [
    if_some (MetadataEntry_name self) (s_content ser_str (str "Name"));
    if_some (MetadataEntry_value self) (s_content ser_str (str "Value"))].
Definition de_MetadataEntry : De MetadataEntry := de_struct false
   (arm_once (str "Name") de_string
    (arm_once (str "Value") de_string
    no_arms))
    (fun '(name, (value, tt)) =>
      Ok {| MetadataEntry_name := name; MetadataEntry_value := value |}).
Definition MetadataEntry_wf (self : MetadataEntry) : Prop :=

    from_option string_wf True (MetadataEntry_name self) /\
    from_option string_wf True (MetadataEntry_value self).
#[global] Instance MetadataEntry_rt : RoundTrip ser_MetadataEntry de_MetadataEntry MetadataEntry_wf.
Proof. solve_struct (fun self : MetadataEntry => (MetadataEntry_name self, (MetadataEntry_value self, tt))). Qed.
Lemma de_MetadataEntry_well : well de_MetadataEntry.
Proof. solve_well. Qed.
#[export] Hint Resolve de_MetadataEntry_well : de.
#[global] Typeclasses Opaque ser_MetadataEntry de_MetadataEntry.

Definition ObjectCannedACL : Type := bytes.
Definition ser_ObjectCannedACL (self : ObjectCannedACL) : Ser := ser_str self.
Definition de_ObjectCannedACL : De ObjectCannedACL := de_enum [str "authenticated-read"; str "aws-exec-read"; str "bucket-owner-full-control"; str "bucket-owner-read"; str "private"; str "public-read"; str "public-read-write"].
#[global] Instance ObjectCannedACL_rt : RoundTrip ser_ObjectCannedACL de_ObjectCannedACL string_wf := enum_rt _.
Lemma de_ObjectCannedACL_well : well de_ObjectCannedACL.
Proof. apply de_enum_well. Qed.
#[export] Hint Resolve de_ObjectCannedACL_well : de.
#[global] Typeclasses Opaque ser_ObjectCannedACL de_ObjectCannedACL.

Record Tagging := mk_Tagging { Tagging_tag_set : list Tag }.
Definition ser_Tagging (self : Tagging) : Ser :=
  s_seq [
    s_list ser_Tag (str "TagSet") (str "Tag") (Tagging_tag_set self)].
Definition de_Tagging : De Tagging := de_struct true
   (arm_once (str "TagSet") (list_content de_Tag (str "Tag"))
    no_arms)
    (fun '(tag_set, tt) =>
      tag_set ← required tag_set;
      Ok {| Tagging_tag_set := tag_set |}).
Definition Tagging_wf (self : Tagging) : Prop :=
  Forall Tag_wf (Tagging_tag_set self).
#[global] Instance Tagging_rt : RoundTrip ser_Tagging de_Tagging Tagging_wf.
Proof. solve_struct (fun self : Tagging => (Some (Tagging_tag_set self), tt)). Qed.
Lemma de_Tagging_well : well de_Tagging.
Proof. solve_well. Qed.
#[export] Hint Resolve de_Tagging_well : de.
#[global] Typeclasses Opaque ser_Tagging de_Tagging.

Record S3Location := mk_S3Location {
  S3Location_access_control_list : option (list Grant);
  S3Location_bucket_name : bytes;
  S3Location_canned_acl : option ObjectCannedACL;
  S3Location_encryption : option Encryption;
  S3Location_prefix : bytes;
  S3Location_storage_class : option StorageClass;
  S3Location_tagging : option Tagging;
  S3Location_user_metadata : option (list MetadataEntry)
}.
Definition ser_S3Location (self : S3Location) : Ser :=
  s_seq [
    if_some (S3Location_access_control_list self) (s_list ser_Grant (str "AccessControlList") (str "Grant"));
    s_content ser_str (str "BucketName") (S3Location_bucket_name self);
    if_some (S3Location_canned_acl self) (s_content ser_ObjectCannedACL (str "CannedACL"));
    if_some (S3Location_encryption self) (s_content ser_Encryption (str "Encryption"));
    s_content ser_str (str "Prefix") (S3Location_prefix self);
    if_some (S3Location_storage_class self) (s_content ser_StorageClass (str "StorageClass"));
    if_some (S3Location_tagging self) (s_content ser_Tagging (str "Tagging"));
    if_some (S3Location_user_metadata self) (s_list ser_MetadataEntry (str "UserMetadata") (str "MetadataEntry"))].
Definition de_S3Location : De S3Location := de_struct false
   (arm_once (str "AccessControlList") (list_content de_Grant (str "Grant"))
    (arm_once (str "BucketName") de_string
    (arm_once (str "CannedACL") de_ObjectCannedACL
    (arm_once (str "Encryption") de_Encryption
    (arm_once (str "Prefix") de_string
    (arm_once (str "StorageClass") de_StorageClass
    (arm_once (str "Tagging") de_Tagging
    (arm_once (str "UserMetadata") (list_content de_MetadataEntry (str "MetadataEntry"))
    no_arms))))))))
    (fun '(access_control_list, (bucket_name, (canned_acl, (encryption, (prefix, (storage_class, (tagging, (user_metadata, tt)))))))) =>
      bucket_name ← required bucket_name;
      prefix ← required prefix;
      Ok {| S3Location_access_control_list := access_control_list;
         S3Location_bucket_name := bucket_name;
         S3Location_canned_acl := canned_acl;
         S3Location_encryption := encryption;
         S3Location_prefix := prefix;
         S3Location_storage_class := storage_class;
         S3Location_tagging := tagging;
         S3Location_user_metadata := user_metadata |}).
Definition S3Location_wf (self : S3Location) : Prop :=
  from_option (Forall Grant_wf) True (S3Location_access_control_list self) /\
  string_wf (S3Location_bucket_name self) /\
  from_option string_wf True (S3Location_canned_acl self) /\
  from_option Encryption_wf True (S3Location_encryption self) /\
  string_wf (S3Location_prefix self) /\
  from_option string_wf True (S3Location_storage_class self) /\
  from_option Tagging_wf True (S3Location_tagging self) /\
  from_option (Forall MetadataEntry_wf) True (S3Location_user_metadata self).
#[global] Instance S3Location_rt : RoundTrip ser_S3Location de_S3Location S3Location_wf.
Proof. solve_struct (fun self : S3Location => (S3Location_access_control_list self, (Some (S3Location_bucket_name self), (S3Location_canned_acl self, (S3Location_encryption self, (Some (S3Location_prefix self), (S3Location_storage_class self, (S3Location_tagging self, (S3Location_user_metadata self, tt))))))))). Qed.
Lemma de_S3Location_well : well de_S3Location.
Proof. solve_well. Qed.
#[export] Hint Resolve de_S3Location_well : de.
#[global] Typeclasses Opaque ser_S3Location de_S3Location.

Record OutputLocation := mk_OutputLocation { OutputLocation_s3 : option S3Location }.
Definition ser_OutputLocation (self : OutputLocation) : Ser :=
  s_seq [
    if_some (OutputLocation_s3 self) (s_content ser_S3Location (str "S3"))].
Definition de_OutputLocation : De OutputLocation := de_struct false
   (arm_once (str "S3") de_S3Location
    no_arms)
    (fun '(s3, tt) =>
      Ok {| OutputLocation_s3 := s3 |}).
Definition OutputLocation_wf (self : OutputLocation) : Prop :=

    from_option S3Location_wf True (OutputLocation_s3 self).
#[global] Instance OutputLocation_rt : RoundTrip ser_OutputLocation de_OutputLocation OutputLocation_wf.
Proof. solve_struct (fun self : OutputLocation => (OutputLocation_s3 self, tt)). Qed.
Lemma de_OutputLocation_well : well de_OutputLocation.
Proof. solve_well. Qed.
#[export] Hint Resolve de_OutputLocation_well : de.
#[global] Typeclasses Opaque ser_OutputLocation de_OutputLocation.

Definition RestoreRequestType : Type := bytes.
Definition ser_RestoreRequestType (self : RestoreRequestType) : Ser := ser_str self.
Definition de_RestoreRequestType : De RestoreRequestType := de_enum [str "SELECT"].
#[global] Instance RestoreRequestType_rt : RoundTrip ser_RestoreRequestType de_RestoreRequestType string_wf := enum_rt _.
Lemma de_RestoreRequestType_well : well de_RestoreRequestType.
Proof. apply de_enum_well. Qed.
#[export] Hint Resolve de_RestoreRequestType_well : de.
#[global] Typeclasses Opaque ser_RestoreRequestType de_RestoreRequestType.

Definition ExpressionType : Type := bytes.
Definition ser_ExpressionType (self : ExpressionType) : Ser := ser_str self.
Definition de_ExpressionType : De ExpressionType := de_enum [str "SQL"].
#[global] Instance ExpressionType_rt : RoundTrip ser_ExpressionType de_ExpressionType string_wf := enum_rt _.
Lemma de_ExpressionType_well : well de_ExpressionType.
Proof. apply de_enum_well. Qed.
#[export] Hint Resolve de_ExpressionType_well : de.
#[global] Typeclasses Opaque ser_ExpressionType de_ExpressionType.

Definition FileHeaderInfo : Type := bytes.
Definition ser_FileHeaderInfo (self : FileHeaderInfo) : Ser := ser_str self.
Definition de_FileHeaderInfo : De FileHeaderInfo := de_enum [str "IGNORE"; str "NONE"; str "USE"].
#[global] Instance FileHeaderInfo_rt : RoundTrip ser_FileHeaderInfo de_FileHeaderInfo string_wf := enum_rt _.
Lemma de_FileHeaderInfo_well : well de_FileHeaderInfo.
Proof. apply de_enum_well. Qed.
#[export] Hint Resolve de_FileHeaderInfo_well : de.
#[global] Typeclasses Opaque ser_FileHeaderInfo de_FileHeaderInfo.

Record CSVInput := mk_CSVInput {
  CSVInput_allow_quoted_record_delimiter : option bool;
  CSVInput_comments : option bytes;
  CSVInput_field_delimiter : option bytes;
  CSVInput_file_header_info : option FileHeaderInfo;
  CSVInput_quote_character : option bytes;
  CSVInput_quote_escape_character : option bytes;
  CSVInput_record_delimiter : option bytes
}.
Definition ser_CSVInput (self : CSVInput) : Ser :=
  s_seq [
    if_some (CSVInput_allow_quoted_record_delimiter self) (s_content ser_bool (str "AllowQuotedRecordDelimiter"));
    if_some (CSVInput_comments self) (s_content ser_str (str "Comments"));
    if_some (CSVInput_field_delimiter self) (s_content ser_str (str "FieldDelimiter"));
    if_some (CSVInput_file_header_info self) (s_content ser_FileHeaderInfo (str "FileHeaderInfo"));
    if_some (CSVInput_quote_character self) (s_content ser_str (str "QuoteCharacter"));
    if_some (CSVInput_quote_escape_character self) (s_content ser_str (str "QuoteEscapeCharacter"));
    if_some (CSVInput_record_delimiter self) (s_content ser_str (str "RecordDelimiter"))].
Definition de_CSVInput : De CSVInput := de_struct false
   (arm_once (str "AllowQuotedRecordDelimiter") de_bool
    (arm_once (str "Comments") de_string
    (arm_once (str "FieldDelimiter") de_string
    (arm_once (str "FileHeaderInfo") de_FileHeaderInfo
    (arm_once (str "QuoteCharacter") de_string
    (arm_once (str "QuoteEscapeCharacter") de_string
    (arm_once (str "RecordDelimiter") de_string
    no_arms)))))))
    (fun '(allow_quoted_record_delimiter, (comments, (field_delimiter, (file_header_info, (quote_character, (quote_escape_character, (record_delimiter, tt))))))) =>
      Ok {| CSVInput_allow_quoted_record_delimiter := allow_quoted_record_delimiter;
         CSVInput_comments := comments;
         CSVInput_field_delimiter := field_delimiter;
         CSVInput_file_header_info := file_header_info;
         CSVInput_quote_character := quote_character;
         CSVInput_quote_escape_character := quote_escape_character;
         CSVInput_record_delimiter := record_delimiter |}).
Definition CSVInput_wf (self : CSVInput) : Prop :=
  from_option bool_wf True (CSVInput_allow_quoted_record_delimiter self) /\
  from_option string_wf True (CSVInput_comments self) /\
  from_option string_wf True (CSVInput_field_delimiter self) /\
  from_option string_wf True (CSVInput_file_header_info self) /\
  from_option string_wf True (CSVInput_quote_character self) /\
  from_option string_wf True (CSVInput_quote_escape_character self) /\
  from_option string_wf True (CSVInput_record_delimiter self).
#[global] Instance CSVInput_rt : RoundTrip ser_CSVInput de_CSVInput CSVInput_wf.
Proof. solve_struct (fun self : CSVInput => (CSVInput_allow_quoted_record_delimiter self, (CSVInput_comments self, (CSVInput_field_delimiter self, (CSVInput_file_header_info self, (CSVInput_quote_character self, (CSVInput_quote_escape_character self, (CSVInput_record_delimiter self, tt)))))))). Qed.
Lemma de_CSVInput_well : well de_CSVInput.
Proof. solve_well. Qed.
#[export] Hint Resolve de_CSVInput_well : de.
#[global] Typeclasses Opaque ser_CSVInput de_CSVInput.

Definition CompressionType : Type := bytes.
Definition ser_CompressionType (self : CompressionType) : Ser := ser_str self.
Definition de_CompressionType : De CompressionType := de_enum [str "BZIP2"; str "GZIP"; str "NONE"].
#[global] Instance CompressionType_rt : RoundTrip ser_CompressionType de_CompressionType string_wf := enum_rt _.
Lemma de_CompressionType_well : well de_CompressionType.
Proof. apply de_enum_well. Qed.
#[export] Hint Resolve de_CompressionType_well : de.
#[global] Typeclasses Opaque ser_CompressionType de_CompressionType.

Definition JSONType : Type := bytes.
Definition ser_JSONType (self : JSONType) : Ser := ser_str self.
Definition de_JSONType : De JSONType := de_enum [str "DOCUMENT"; str "LINES"].
#[global] Instance JSONType_rt : RoundTrip ser_JSONType de_JSONType string_wf := enum_rt _.
Lemma de_JSONType_well : well de_JSONType.
Proof. apply de_enum_well. Qed.
#[export] Hint Resolve de_JSONType_well : de.
#[global] Typeclasses Opaque ser_JSONType de_JSONType.

Record JSONInput := mk_JSONInput { JSONInput_type_ : option JSONType }.
Definition ser_JSONInput (self : JSONInput) : Ser :=
  s_seq [
    if_some (JSONInput_type_ self) (s_content ser_JSONType (str "Type"))].
Definition de_JSONInput : De JSONInput := de_struct false
   (arm_once (str "Type") de_JSONType
    no_arms)
    (fun '(type_, tt) =>
      Ok {| JSONInput_type_ := type_ |}).
Definition JSONInput_wf (self : JSONInput) : Prop :=
  from_option string_wf True (JSONInput_type_ self).
#[global] Instance JSONInput_rt : RoundTrip ser_JSONInput de_JSONInput JSONInput_wf.
Proof. solve_struct (fun self : JSONInput => (JSONInput_type_ self, tt)). Qed.
Lemma de_JSONInput_well : well de_JSONInput.
Proof. solve_well. Qed.
#[export] Hint Resolve de_JSONInput_well : de.
#[global] Typeclasses Opaque ser_JSONInput de_JSONInput.

Record ParquetInput := mk_ParquetInput {}.
Definition ser_ParquetInput (self : ParquetInput) : Ser :=
  s_seq [].
Definition de_ParquetInput : De ParquetInput := mret mk_ParquetInput.
Definition ParquetInput_wf (_ : ParquetInput) : Prop := True.
#[global] Instance ParquetInput_rt : RoundTrip ser_ParquetInput de_ParquetInput ParquetInput_wf.
Proof. apply empty_round_trip; [done|]. by intros []. Qed.
Lemma de_ParquetInput_well : well de_ParquetInput.
Proof. apply well_ret. Qed.
#[export] Hint Resolve de_ParquetInput_well : de.
#[global] Typeclasses Opaque ser_ParquetInput de_ParquetInput.

Record InputSerialization := mk_InputSerialization {
  InputSerialization_csv : option CSVInput;
  InputSerialization_compression_type : option CompressionType;
  InputSerialization_json : option JSONInput;
  InputSerialization_parquet : option ParquetInput
}.
Definition ser_InputSerialization (self : InputSerialization) : Ser :=
  s_seq [
    if_some (InputSerialization_csv self) (s_content ser_CSVInput (str "CSV"));
    if_some (InputSerialization_compression_type self) (s_content ser_CompressionType (str "CompressionType"));
    if_some (InputSerialization_json self) (s_content ser_JSONInput (str "JSON"));
    if_some (InputSerialization_parquet self) (s_content ser_ParquetInput (str "Parquet"))].
Definition de_InputSerialization : De InputSerialization := de_struct false
   (arm_once (str "CSV") de_CSVInput
    (arm_once (str "CompressionType") de_CompressionType
    (arm_once (str "JSON") de_JSONInput
    (arm_once (str "Parquet") de_ParquetInput
    no_arms))))
    (fun '(csv, (compression_type, (json, (parquet, tt)))) =>
      Ok {| InputSerialization_csv := csv;
         InputSerialization_compression_type := compression_type;
         InputSerialization_json := json;
         InputSerialization_parquet := parquet |}).
Definition InputSerialization_wf (self : InputSerialization) : Prop :=
  from_option CSVInput_wf True (InputSerialization_csv self) /\
  from_option string_wf True (InputSerialization_compression_type self) /\
  from_option JSONInput_wf True (InputSerialization_json self) /\
  from_option ParquetInput_wf True (InputSerialization_parquet self).
#[global] Instance InputSerialization_rt : RoundTrip ser_InputSerialization de_InputSerialization InputSerialization_wf.
Proof. solve_struct (fun self : InputSerialization => (InputSerialization_csv self, (InputSerialization_compression_type self, (InputSerialization_json self, (InputSerialization_parquet self, tt))))). Qed.
Lemma de_InputSerialization_well : well de_InputSerialization.
Proof. solve_well. Qed.
#[export] Hint Resolve de_InputSerialization_well : de.
#[global] Typeclasses Opaque ser_InputSerialization de_InputSerialization.

Definition QuoteFields : Type := bytes.
Definition ser_QuoteFields (self : QuoteFields) : Ser := ser_str self.
Definition de_QuoteFields : De QuoteFields := de_enum [str "ALWAYS"; str "ASNEEDED"].
#[global] Instance QuoteFields_rt : RoundTrip ser_QuoteFields de_QuoteFields string_wf := enum_rt _.
Lemma de_QuoteFields_well : well de_QuoteFields.
Proof. apply de_enum_well. Qed.
#[export] Hint Resolve de_QuoteFields_well : de.
#[global] Typeclasses Opaque ser_QuoteFields de_QuoteFields.

Record CSVOutput := mk_CSVOutput {
  CSVOutput_field_delimiter : option bytes;
  CSVOutput_quote_character : option bytes;
  CSVOutput_quote_escape_character : option bytes;
  CSVOutput_quote_fields : option QuoteFields;
  CSVOutput_record_delimiter : option bytes
}.
Definition ser_CSVOutput (self : CSVOutput) : Ser :=
  s_seq [
    if_some (CSVOutput_field_delimiter self) (s_content ser_str (str "FieldDelimiter"));
    if_some (CSVOutput_quote_character self) (s_content ser_str (str "QuoteCharacter"));
    if_some (CSVOutput_quote_escape_character self) (s_content ser_str (str "QuoteEscapeCharacter"));
    if_some (CSVOutput_quote_fields self) (s_content ser_QuoteFields (str "QuoteFields"));
    if_some (CSVOutput_record_delimiter self) (s_content ser_str (str "RecordDelimiter"))].
Definition de_CSVOutput : De CSVOutput := de_struct false
   (arm_once (str "FieldDelimiter") de_string
    (arm_once (str "QuoteCharacter") de_string
    (arm_once (str "QuoteEscapeCharacter") de_string
    (arm_once (str "QuoteFields") de_QuoteFields
    (arm_once (str "RecordDelimiter") de_string
    no_arms)))))
    (fun '(field_delimiter, (quote_character, (quote_escape_character, (quote_fields, (record_delimiter, tt))))) =>
      Ok {| CSVOutput_field_delimiter := field_delimiter;
         CSVOutput_quote_character := quote_character;
         CSVOutput_quote_escape_character := quote_escape_character;
         CSVOutput_quote_fields := quote_fields;
         CSVOutput_record_delimiter := record_delimiter |}).
Definition CSVOutput_wf (self : CSVOutput) : Prop :=
  from_option string_wf True (CSVOutput_field_delimiter self) /\
  from_option string_wf True (CSVOutput_quote_character self) /\
  from_option string_wf True (CSVOutput_quote_escape_character self) /\
  from_option string_wf True (CSVOutput_quote_fields self) /\
  from_option string_wf True (CSVOutput_record_delimiter self).
#[global] Instance CSVOutput_rt : RoundTrip ser_CSVOutput de_CSVOutput CSVOutput_wf.
Proof. solve_struct (fun self : CSVOutput => (CSVOutput_field_delimiter self, (CSVOutput_quote_character self, (CSVOutput_quote_escape_character self, (CSVOutput_quote_fields self, (CSVOutput_record_delimiter self, tt)))))). Qed.
Lemma de_CSVOutput_well : well de_CSVOutput.
Proof. solve_well. Qed.
#[export] Hint Resolve de_CSVOutput_well : de.
#[global] Typeclasses Opaque ser_CSVOutput de_CSVOutput.

Record JSONOutput := mk_JSONOutput { JSONOutput_record_delimiter : option bytes }.
Definition ser_JSONOutput (self : JSONOutput) : Ser :=
  s_seq [
    if_some (JSONOutput_record_delimiter self) (s_content ser_str (str "RecordDelimiter"))].
Definition de_JSONOutput : De JSONOutput := de_struct false
   (arm_once (str "RecordDelimiter") de_string
    no_arms)
    (fun '(record_delimiter, tt) =>
      Ok {| JSONOutput_record_delimiter := record_delimiter |}).
Definition JSONOutput_wf (self : JSONOutput) : Prop :=

    from_option string_wf True (JSONOutput_record_delimiter self).
#[global] Instance JSONOutput_rt : RoundTrip ser_JSONOutput de_JSONOutput JSONOutput_wf.
Proof. solve_struct (fun self : JSONOutput => (JSONOutput_record_delimiter self, tt)). Qed.
Lemma de_JSONOutput_well : well de_JSONOutput.
Proof. solve_well. Qed.
#[export] Hint Resolve de_JSONOutput_well : de.
#[global] Typeclasses Opaque ser_JSONOutput de_JSONOutput.

Record OutputSerialization := mk_OutputSerialization {
  OutputSerialization_csv : option CSVOutput;
  OutputSerialization_json : option JSONOutput
}.
Definition ser_OutputSerialization (self : OutputSerialization) : Ser :=
  s_seq [
    if_some (OutputSerialization_csv self) (s_content ser_CSVOutput (str "CSV"));
    if_some (OutputSerialization_json self) (s_content ser_JSONOutput (str "JSON"))].
Definition de_OutputSerialization : De OutputSerialization := de_struct false
   (arm_once (str "CSV") de_CSVOutput
    (arm_once (str "JSON") de_JSONOutput
    no_arms))
    (fun '(csv, (json, tt)) =>
      Ok {| OutputSerialization_csv := csv; OutputSerialization_json := json |}).
Definition OutputSerialization_wf (self : OutputSerialization) : Prop :=
  from_option CSVOutput_wf True (OutputSerialization_csv self) /\
  from_option JSONOutput_wf True (OutputSerialization_json self).
#[global] Instance OutputSerialization_rt : RoundTrip ser_OutputSerialization de_OutputSerialization OutputSerialization_wf.
Proof. solve_struct (fun self : OutputSerialization => (OutputSerialization_csv self, (OutputSerialization_json self, tt))). Qed.
Lemma de_OutputSerialization_well : well de_OutputSerialization.
Proof. solve_well. Qed.
#[export] Hint Resolve de_OutputSerialization_well : de.
#[global] Typeclasses Opaque ser_OutputSerialization de_OutputSerialization.

Record SelectParameters := mk_SelectParameters {
  SelectParameters_expression : bytes;
  SelectParameters_expression_type : ExpressionType;
  SelectParameters_input_serialization : InputSerialization;
  SelectParameters_output_serialization : OutputSerialization
}.
Definition ser_SelectParameters (self : SelectParameters) : Ser :=
  s_seq [
    s_content ser_str (str "Expression") (SelectParameters_expression self);
    s_content ser_ExpressionType (str "ExpressionType") (SelectParameters_expression_type self);
    s_content ser_InputSerialization (str "InputSerialization") (SelectParameters_input_serialization self);
    s_content ser_OutputSerialization (str "OutputSerialization") (SelectParameters_output_serialization self)].
Definition de_SelectParameters : De SelectParameters := de_struct false
   (arm_once (str "Expression") de_string
    (arm_once (str "ExpressionType") de_ExpressionType
    (arm_once (str "InputSerialization") de_InputSerialization
    (arm_once (str "OutputSerialization") de_OutputSerialization
    no_arms))))
    (fun '(expression, (expression_type, (input_serialization, (output_serialization, tt)))) =>
      expression ← required expression;
      expression_type ← required expression_type;
      input_serialization ← required input_serialization;
      output_serialization ← required output_serialization;
      Ok {| SelectParameters_expression := expression;
         SelectParameters_expression_type := expression_type;
         SelectParameters_input_serialization := input_serialization;
         SelectParameters_output_serialization := output_serialization |}).
Definition SelectParameters_wf (self : SelectParameters) : Prop :=
  string_wf (SelectParameters_expression self) /\
  string_wf (SelectParameters_expression_type self) /\
  InputSerialization_wf (SelectParameters_input_serialization self) /\
  OutputSerialization_wf (SelectParameters_output_serialization self).
#[global] Instance SelectParameters_rt : RoundTrip ser_SelectParameters de_SelectParameters SelectParameters_wf.
Proof. solve_struct (fun self : SelectParameters => (Some (SelectParameters_expression self), (Some (SelectParameters_expression_type self), (Some (SelectParameters_input_serialization self), (Some (SelectParameters_output_serialization self), tt))))). Qed.
Lemma de_SelectParameters_well : well de_SelectParameters.
Proof. solve_well. Qed.
#[export] Hint Resolve de_SelectParameters_well : de.
#[global] Typeclasses Opaque ser_SelectParameters de_SelectParameters.

Record RestoreRequest := mk_RestoreRequest {
  RestoreRequest_days : option Z;
  RestoreRequest_description : option bytes;
  RestoreRequest_glacier_job_parameters : option GlacierJobParameters;
  RestoreRequest_output_location : option OutputLocation;
  RestoreRequest_select_parameters : option SelectParameters;
  RestoreRequest_tier : option Tier;
  RestoreRequest_type_ : option RestoreRequestType
}.
Definition ser_RestoreRequest (self : RestoreRequest) : Ser :=
  s_seq [
    if_some (RestoreRequest_days self) (s_content ser_i32 (str "Days"));
    if_some (RestoreRequest_description self) (s_content ser_str (str "Description"));
    if_some (RestoreRequest_glacier_job_parameters self) (s_content ser_GlacierJobParameters (str "GlacierJobParameters"));
    if_some (RestoreRequest_output_location self) (s_content ser_OutputLocation (str "OutputLocation"));
    if_some (RestoreRequest_select_parameters self) (s_content ser_SelectParameters (str "SelectParameters"));
    if_some (RestoreRequest_tier self) (s_content ser_Tier (str "Tier"));
    if_some (RestoreRequest_type_ self) (s_content ser_RestoreRequestType (str "Type"))].
Definition de_RestoreRequest `{XmlDeps} : De RestoreRequest := de_struct true
   (arm_once (str "Days") de_i32
    (arm_once (str "Description") de_string
    (arm_once (str "GlacierJobParameters") de_GlacierJobParameters
    (arm_once (str "OutputLocation") de_OutputLocation
    (arm_once (str "SelectParameters") de_SelectParameters
    (arm_once (str "Tier") de_Tier
    (arm_once (str "Type") de_RestoreRequestType
    no_arms)))))))
    (fun '(days, (description, (glacier_job_parameters, (output_location, (select_parameters, (tier, (type_, tt))))))) =>
      Ok {| RestoreRequest_days := days;
         RestoreRequest_description := description;
         RestoreRequest_glacier_job_parameters := glacier_job_parameters;
         RestoreRequest_output_location := output_location;
         RestoreRequest_select_parameters := select_parameters;
         RestoreRequest_tier := tier;
         RestoreRequest_type_ := type_ |}).
Definition RestoreRequest_wf (self : RestoreRequest) : Prop :=
  from_option i32_wf True (RestoreRequest_days self) /\
  from_option string_wf True (RestoreRequest_description self) /\
  from_option GlacierJobParameters_wf True (RestoreRequest_glacier_job_parameters self) /\
  from_option OutputLocation_wf True (RestoreRequest_output_location self) /\
  from_option SelectParameters_wf True (RestoreRequest_select_parameters self) /\
  from_option string_wf True (RestoreRequest_tier self) /\
  from_option string_wf True (RestoreRequest_type_ self).
#[global] Instance RestoreRequest_rt `{XmlDeps} : RoundTrip ser_RestoreRequest de_RestoreRequest RestoreRequest_wf.
Proof. solve_struct (fun self : RestoreRequest => (RestoreRequest_days self, (RestoreRequest_description self, (RestoreRequest_glacier_job_parameters self, (RestoreRequest_output_location self, (RestoreRequest_select_parameters self, (RestoreRequest_tier self, (RestoreRequest_type_ self, tt)))))))). Qed.
Lemma de_RestoreRequest_well `{XmlDeps} : well de_RestoreRequest.
Proof. solve_well. Qed.
#[export] Hint Resolve de_RestoreRequest_well : de.
#[global] Typeclasses Opaque ser_RestoreRequest de_RestoreRequest.

Record RequestProgress := mk_RequestProgress { RequestProgress_enabled : option bool }.
Definition ser_RequestProgress (self : RequestProgress) : Ser :=
  s_seq [
    if_some (RequestProgress_enabled self) (s_content ser_bool (str "Enabled"))].
Definition de_RequestProgress : De RequestProgress := de_struct false
   (arm_once (str "Enabled") de_bool
    no_arms)
    (fun '(enabled, tt) =>
      Ok {| RequestProgress_enabled := enabled |}).
Definition RequestProgress_wf (self : RequestProgress) : Prop :=

    from_option bool_wf True (RequestProgress_enabled self).
#[global] Instance RequestProgress_rt : RoundTrip ser_RequestProgress de_RequestProgress RequestProgress_wf.
Proof. solve_struct (fun self : RequestProgress => (RequestProgress_enabled self, tt)). Qed.
Lemma de_RequestProgress_well : well de_RequestProgress.
Proof. solve_well. Qed.
#[export] Hint Resolve de_RequestProgress_well : de.
#[global] Typeclasses Opaque ser_RequestProgress de_RequestProgress.

Record ScanRange := mk_ScanRange { ScanRange_end : option Z; ScanRange_start : option Z }.
Definition ser_ScanRange (self : ScanRange) : Ser :=
  s_seq [
    if_some (ScanRange_end self) (s_content ser_i64 (str "End"));
    if_some (ScanRange_start self) (s_content ser_i64 (str "Start"))].
Definition de_ScanRange `{XmlDeps} : De ScanRange := de_struct false
   (arm_once (str "End") de_i64
    (arm_once (str "Start") de_i64
    no_arms))
    (fun '(end_, (start, tt)) =>
      Ok {| ScanRange_end := end_; ScanRange_start := start |}).
Definition ScanRange_wf (self : ScanRange) : Prop :=

    from_option i64_wf True (ScanRange_end self) /\
    from_option i64_wf True (ScanRange_start self).
#[global] Instance ScanRange_rt `{XmlDeps} : RoundTrip ser_ScanRange de_ScanRange ScanRange_wf.
Proof. solve_struct (fun self : ScanRange => (ScanRange_end self, (ScanRange_start self, tt))). Qed.
Lemma de_ScanRange_well `{XmlDeps} : well de_ScanRange.
Proof. solve_well. Qed.
#[export] Hint Resolve de_ScanRange_well : de.
#[global] Typeclasses Opaque ser_ScanRange de_ScanRange.

Record SelectObjectContentRequest := mk_SelectObjectContentRequest {
  SelectObjectContentRequest_expression : bytes;
  SelectObjectContentRequest_expression_type : ExpressionType;
  SelectObjectContentRequest_input_serialization : InputSerialization;
  SelectObjectContentRequest_output_serialization : OutputSerialization;
  SelectObjectContentRequest_request_progress : option RequestProgress;
  SelectObjectContentRequest_scan_range : option ScanRange
}.
Definition ser_SelectObjectContentRequest (self : SelectObjectContentRequest) : Ser :=
  s_seq [
    s_content ser_str (str "Expression") (SelectObjectContentRequest_expression self);
    s_content ser_ExpressionType (str "ExpressionType") (SelectObjectContentRequest_expression_type self);
    s_content ser_InputSerialization (str "InputSerialization") (SelectObjectContentRequest_input_serialization self);
    s_content ser_OutputSerialization (str "OutputSerialization") (SelectObjectContentRequest_output_serialization self);
    if_some (SelectObjectContentRequest_request_progress self) (s_content ser_RequestProgress (str "RequestProgress"));
    if_some (SelectObjectContentRequest_scan_range self) (s_content ser_ScanRange (str "ScanRange"))].
Definition de_SelectObjectContentRequest `{XmlDeps} : De SelectObjectContentRequest := de_struct true
   (arm_once (str "Expression") de_string
    (arm_once (str "ExpressionType") de_ExpressionType
    (arm_once (str "InputSerialization") de_InputSerialization
    (arm_once (str "OutputSerialization") de_OutputSerialization
    (arm_once (str "RequestProgress") de_RequestProgress
    (arm_once (str "ScanRange") de_ScanRange
    no_arms))))))
    (fun '(expression, (expression_type, (input_serialization, (output_serialization, (request_progress, (scan_range, tt)))))) =>
      expression ← required expression;
      expression_type ← required expression_type;
      input_serialization ← required input_serialization;
      output_serialization ← required output_serialization;
      Ok {| SelectObjectContentRequest_expression := expression;
         SelectObjectContentRequest_expression_type := expression_type;
         SelectObjectContentRequest_input_serialization := input_serialization;
         SelectObjectContentRequest_output_serialization := output_serialization;
         SelectObjectContentRequest_request_progress := request_progress;
         SelectObjectContentRequest_scan_range := scan_range |}).
Definition SelectObjectContentRequest_wf (self : SelectObjectContentRequest) : Prop :=
  string_wf (SelectObjectContentRequest_expression self) /\
  string_wf (SelectObjectContentRequest_expression_type self) /\
  InputSerialization_wf (SelectObjectContentRequest_input_serialization self) /\
  OutputSerialization_wf (SelectObjectContentRequest_output_serialization self) /\
  from_option RequestProgress_wf True (SelectObjectContentRequest_request_progress self) /\
  from_option ScanRange_wf True (SelectObjectContentRequest_scan_range self).
#[global] Instance SelectObjectContentRequest_rt `{XmlDeps} : RoundTrip ser_SelectObjectContentRequest de_SelectObjectContentRequest SelectObjectContentRequest_wf.
Proof. solve_struct (fun self : SelectObjectContentRequest => (Some (SelectObjectContentRequest_expression self), (Some (SelectObjectContentRequest_expression_type self), (Some (SelectObjectContentRequest_input_serialization self), (Some (SelectObjectContentRequest_output_serialization self), (SelectObjectContentRequest_request_progress self, (SelectObjectContentRequest_scan_range self, tt))))))). Qed.
Lemma de_SelectObjectContentRequest_well `{XmlDeps} : well de_SelectObjectContentRequest.
Proof. solve_well. Qed.
#[export] Hint Resolve de_SelectObjectContentRequest_well : de.
#[global] Typeclasses Opaque ser_SelectObjectContentRequest de_SelectObjectContentRequest.

Definition EncryptionType : Type := bytes.
Definition ser_EncryptionType (self : EncryptionType) : Ser := ser_str self.
Definition de_EncryptionType : De EncryptionType := de_enum [str "NONE"; str "SSE-C"].
#[global] Instance EncryptionType_rt : RoundTrip ser_EncryptionType de_EncryptionType string_wf := enum_rt _.
Lemma de_EncryptionType_well : well de_EncryptionType.
Proof. apply de_enum_well. Qed.
#[export] Hint Resolve de_EncryptionType_well : de.
#[global] Typeclasses Opaque ser_EncryptionType de_EncryptionType.

Record BlockedEncryptionTypes := mk_BlockedEncryptionTypes {
  BlockedEncryptionTypes_encryption_type : option (list EncryptionType)
}.
Definition ser_BlockedEncryptionTypes (self : BlockedEncryptionTypes) : Ser :=
  s_seq [
    if_some (BlockedEncryptionTypes_encryption_type self) (s_flattened_list ser_EncryptionType (str "EncryptionType"))].
Definition de_BlockedEncryptionTypes : De BlockedEncryptionTypes := de_struct false
   (arm_push (str "EncryptionType") de_EncryptionType
    no_arms)
    (fun '(encryption_type, tt) =>
      Ok {| BlockedEncryptionTypes_encryption_type := encryption_type |}).
Definition BlockedEncryptionTypes_wf (self : BlockedEncryptionTypes) : Prop :=

    from_option (fun l => Forall string_wf l /\ l <> []) True (BlockedEncryptionTypes_encryption_type self).
#[global] Instance BlockedEncryptionTypes_rt : RoundTrip ser_BlockedEncryptionTypes de_BlockedEncryptionTypes BlockedEncryptionTypes_wf.
Proof. solve_struct (fun self : BlockedEncryptionTypes => (BlockedEncryptionTypes_encryption_type self, tt)). Qed.
Lemma de_BlockedEncryptionTypes_well : well de_BlockedEncryptionTypes.
Proof. solve_well. Qed.
#[export] Hint Resolve de_BlockedEncryptionTypes_well : de.
#[global] Typeclasses Opaque ser_BlockedEncryptionTypes de_BlockedEncryptionTypes.

Record ServerSideEncryptionByDefault := mk_ServerSideEncryptionByDefault {
  ServerSideEncryptionByDefault_kms_master_key_id : option bytes;
  ServerSideEncryptionByDefault_sse_algorithm : ServerSideEncryption
}.
Definition ser_ServerSideEncryptionByDefault (self : ServerSideEncryptionByDefault) : Ser :=
  s_seq [
    if_some (ServerSideEncryptionByDefault_kms_master_key_id self) (s_content ser_str (str "KMSMasterKeyID"));
    s_content ser_ServerSideEncryption (str "SSEAlgorithm") (ServerSideEncryptionByDefault_sse_algorithm self)].
Definition de_ServerSideEncryptionByDefault : De ServerSideEncryptionByDefault := de_struct false
   (arm_once (str "KMSMasterKeyID") de_string
    (arm_once (str "SSEAlgorithm") de_ServerSideEncryption
    no_arms))
    (fun '(kms_master_key_id, (sse_algorithm, tt)) =>
      sse_algorithm ← required sse_algorithm;
      Ok {| ServerSideEncryptionByDefault_kms_master_key_id := kms_master_key_id;
         ServerSideEncryptionByDefault_sse_algorithm := sse_algorithm |}).
Definition ServerSideEncryptionByDefault_wf (self : ServerSideEncryptionByDefault) : Prop :=
  from_option string_wf True (ServerSideEncryptionByDefault_kms_master_key_id self) /\
  string_wf (ServerSideEncryptionByDefault_sse_algorithm self).
#[global] Instance ServerSideEncryptionByDefault_rt : RoundTrip ser_ServerSideEncryptionByDefault de_ServerSideEncryptionByDefault ServerSideEncryptionByDefault_wf.
Proof. solve_struct (fun self : ServerSideEncryptionByDefault => (ServerSideEncryptionByDefault_kms_master_key_id self, (Some (ServerSideEncryptionByDefault_sse_algorithm self), tt))). Qed.
Lemma de_ServerSideEncryptionByDefault_well : well de_ServerSideEncryptionByDefault.
Proof. solve_well. Qed.
#[export] Hint Resolve de_ServerSideEncryptionByDefault_well : de.
#[global] Typeclasses Opaque ser_ServerSideEncryptionByDefault de_ServerSideEncryptionByDefault.

Record ServerSideEncryptionRule := mk_ServerSideEncryptionRule {
  ServerSideEncryptionRule_apply_server_side_encryption_by_default : option ServerSideEncryptionByDefault;
  ServerSideEncryptionRule_blocked_encryption_types : option BlockedEncryptionTypes;
  ServerSideEncryptionRule_bucket_key_enabled : option bool
}.
Definition ser_ServerSideEncryptionRule (self : ServerSideEncryptionRule) : Ser :=
  s_seq [
    if_some (ServerSideEncryptionRule_apply_server_side_encryption_by_default self) (s_content ser_ServerSideEncryptionByDefault (str "ApplyServerSideEncryptionByDefault"));
    if_some (ServerSideEncryptionRule_blocked_encryption_types self) (s_content ser_BlockedEncryptionTypes (str "BlockedEncryptionTypes"));
    if_some (ServerSideEncryptionRule_bucket_key_enabled self) (s_content ser_bool (str "BucketKeyEnabled"))].
Definition de_ServerSideEncryptionRule : De ServerSideEncryptionRule := de_struct false
   (arm_once (str "ApplyServerSideEncryptionByDefault") de_ServerSideEncryptionByDefault
    (arm_once (str "BlockedEncryptionTypes") de_BlockedEncryptionTypes
    (arm_once (str "BucketKeyEnabled") de_bool
    no_arms)))
    (fun '(apply_server_side_encryption_by_default, (blocked_encryption_types, (bucket_key_enabled, tt))) =>
      Ok {| ServerSideEncryptionRule_apply_server_side_encryption_by_default := apply_server_side_encryption_by_default;
         ServerSideEncryptionRule_blocked_encryption_types := blocked_encryption_types;
         ServerSideEncryptionRule_bucket_key_enabled := bucket_key_enabled |}).
Definition ServerSideEncryptionRule_wf (self : ServerSideEncryptionRule) : Prop :=
  from_option ServerSideEncryptionByDefault_wf True (ServerSideEncryptionRule_apply_server_side_encryption_by_default self) /\
  from_option BlockedEncryptionTypes_wf True (ServerSideEncryptionRule_blocked_encryption_types self) /\
  from_option bool_wf True (ServerSideEncryptionRule_bucket_key_enabled self).
#[global] Instance ServerSideEncryptionRule_rt : RoundTrip ser_ServerSideEncryptionRule de_ServerSideEncryptionRule ServerSideEncryptionRule_wf.
Proof. solve_struct (fun self : ServerSideEncryptionRule => (ServerSideEncryptionRule_apply_server_side_encryption_by_default self, (ServerSideEncryptionRule_blocked_encryption_types self, (ServerSideEncryptionRule_bucket_key_enabled self, tt)))). Qed.
Lemma de_ServerSideEncryptionRule_well : well de_ServerSideEncryptionRule.
Proof. solve_well. Qed.
#[export] Hint Resolve de_ServerSideEncryptionRule_well : de.
#[global] Typeclasses Opaque ser_ServerSideEncryptionRule de_ServerSideEncryptionRule.

Record ServerSideEncryptionConfiguration := mk_ServerSideEncryptionConfiguration {
  ServerSideEncryptionConfiguration_rules : list ServerSideEncryptionRule
}.
Definition ser_ServerSideEncryptionConfiguration (self : ServerSideEncryptionConfiguration) : Ser :=
  s_seq [
    s_flattened_list ser_ServerSideEncryptionRule (str "Rule") (ServerSideEncryptionConfiguration_rules self)].
Definition de_ServerSideEncryptionConfiguration : De ServerSideEncryptionConfiguration := de_struct true
   (arm_push (str "Rule") de_ServerSideEncryptionRule
    no_arms)
    (fun '(rules, tt) =>
      rules ← required rules;
      Ok {| ServerSideEncryptionConfiguration_rules := rules |}).
Definition ServerSideEncryptionConfiguration_wf (self : ServerSideEncryptionConfiguration) : Prop :=
  Forall ServerSideEncryptionRule_wf (ServerSideEncryptionConfiguration_rules self) /\
  (ServerSideEncryptionConfiguration_rules self) <> [].
#[global] Instance ServerSideEncryptionConfiguration_rt : RoundTrip ser_ServerSideEncryptionConfiguration de_ServerSideEncryptionConfiguration ServerSideEncryptionConfiguration_wf.
Proof. solve_struct (fun self : ServerSideEncryptionConfiguration => (Some (ServerSideEncryptionConfiguration_rules self), tt)). Qed.
Lemma de_ServerSideEncryptionConfiguration_well : well de_ServerSideEncryptionConfiguration.
Proof. solve_well. Qed.
#[export] Hint Resolve de_ServerSideEncryptionConfiguration_well : de.
#[global] Typeclasses Opaque ser_ServerSideEncryptionConfiguration de_ServerSideEncryptionConfiguration.

Record Stats := mk_Stats {
  Stats_bytes_processed : option Z;
  Stats_bytes_returned : option Z;
  Stats_bytes_scanned : option Z
}.
Definition ser_Stats (self : Stats) : Ser :=
  s_seq [
    if_some (Stats_bytes_processed self) (s_content ser_i64 (str "BytesProcessed"));
    if_some (Stats_bytes_returned self) (s_content ser_i64 (str "BytesReturned"));
    if_some (Stats_bytes_scanned self) (s_content ser_i64 (str "BytesScanned"))].
Definition de_Stats `{XmlDeps} : De Stats := de_struct false
   (arm_once (str "BytesProcessed") de_i64
    (arm_once (str "BytesReturned") de_i64
    (arm_once (str "BytesScanned") de_i64
    no_arms)))
    (fun '(bytes_processed, (bytes_returned, (bytes_scanned, tt))) =>
      Ok {| Stats_bytes_processed := bytes_processed;
         Stats_bytes_returned := bytes_returned;
         Stats_bytes_scanned := bytes_scanned |}).
Definition Stats_wf (self : Stats) : Prop :=
  from_option i64_wf True (Stats_bytes_processed self) /\
  from_option i64_wf True (Stats_bytes_returned self) /\
  from_option i64_wf True (Stats_bytes_scanned self).
#[global] Instance Stats_rt `{XmlDeps} : RoundTrip ser_Stats de_Stats Stats_wf.
Proof. solve_struct (fun self : Stats => (Stats_bytes_processed self, (Stats_bytes_returned self, (Stats_bytes_scanned self, tt)))). Qed.
Lemma de_Stats_well `{XmlDeps} : well de_Stats.
Proof. solve_well. Qed.
#[export] Hint Resolve de_Stats_well : de.
#[global] Typeclasses Opaque ser_Stats de_Stats.

Definition MFADelete : Type := bytes.
Definition ser_MFADelete (self : MFADelete) : Ser := ser_str self.
Definition de_MFADelete : De MFADelete := de_enum [str "Disabled"; str "Enabled"].
#[global] Instance MFADelete_rt : RoundTrip ser_MFADelete de_MFADelete string_wf := enum_rt _.
Lemma de_MFADelete_well : well de_MFADelete.
Proof. apply de_enum_well. Qed.
#[export] Hint Resolve de_MFADelete_well : de.
#[global] Typeclasses Opaque ser_MFADelete de_MFADelete.

Record VersioningConfiguration := mk_VersioningConfiguration {
  VersioningConfiguration_mfa_delete : option MFADelete;
  VersioningConfiguration_status : option BucketVersioningStatus
}.
Definition ser_VersioningConfiguration (self : VersioningConfiguration) : Ser :=
  s_seq [
    if_some (VersioningConfiguration_mfa_delete self) (s_content ser_MFADelete (str "MfaDelete"));
    if_some (VersioningConfiguration_status self) (s_content ser_BucketVersioningStatus (str "Status"))].
Definition de_VersioningConfiguration : De VersioningConfiguration := de_struct true
   (arm_once (str "MfaDelete") de_MFADelete
    (arm_once (str "Status") de_BucketVersioningStatus
    no_arms))
    (fun '(mfa_delete, (status, tt)) =>
      Ok {| VersioningConfiguration_mfa_delete := mfa_delete; VersioningConfiguration_status := status |}).
Definition VersioningConfiguration_wf (self : VersioningConfiguration) : Prop :=
  from_option string_wf True (VersioningConfiguration_mfa_delete self) /\
  from_option string_wf True (VersioningConfiguration_status self).
#[global] Instance VersioningConfiguration_rt : RoundTrip ser_VersioningConfiguration de_VersioningConfiguration VersioningConfiguration_wf.
Proof. solve_struct (fun self : VersioningConfiguration => (VersioningConfiguration_mfa_delete self, (VersioningConfiguration_status self, tt))). Qed.
Lemma de_VersioningConfiguration_well : well de_VersioningConfiguration.
Proof. solve_well. Qed.
#[export] Hint Resolve de_VersioningConfiguration_well : de.
#[global] Typeclasses Opaque ser_VersioningConfiguration de_VersioningConfiguration.

Record WebsiteConfiguration := mk_WebsiteConfiguration {
  WebsiteConfiguration_error_document : option ErrorDocument;
  WebsiteConfiguration_index_document : option IndexDocument;
  WebsiteConfiguration_redirect_all_requests_to : option RedirectAllRequestsTo;
  WebsiteConfiguration_routing_rules : option (list RoutingRule)
}.
Definition ser_WebsiteConfiguration (self : WebsiteConfiguration) : Ser :=
  s_seq [
    if_some (WebsiteConfiguration_error_document self) (s_content ser_ErrorDocument (str "ErrorDocument"));
    if_some (WebsiteConfiguration_index_document self) (s_content ser_IndexDocument (str "IndexDocument"));
    if_some (WebsiteConfiguration_redirect_all_requests_to self) (s_content ser_RedirectAllRequestsTo (str "RedirectAllRequestsTo"));
    if_some (WebsiteConfiguration_routing_rules self) (s_list ser_RoutingRule (str "RoutingRules") (str "RoutingRule"))].
Definition de_WebsiteConfiguration : De WebsiteConfiguration := de_struct true
   (arm_once (str "ErrorDocument") de_ErrorDocument
    (arm_once (str "IndexDocument") de_IndexDocument
    (arm_once (str "RedirectAllRequestsTo") de_RedirectAllRequestsTo
    (arm_once (str "RoutingRules") (list_content de_RoutingRule (str "RoutingRule"))
    no_arms))))
    (fun '(error_document, (index_document, (redirect_all_requests_to, (routing_rules, tt)))) =>
      Ok {| WebsiteConfiguration_error_document := error_document;
         WebsiteConfiguration_index_document := index_document;
         WebsiteConfiguration_redirect_all_requests_to := redirect_all_requests_to;
         WebsiteConfiguration_routing_rules := routing_rules |}).
Definition WebsiteConfiguration_wf (self : WebsiteConfiguration) : Prop :=
  from_option ErrorDocument_wf True (WebsiteConfiguration_error_document self) /\
  from_option IndexDocument_wf True (WebsiteConfiguration_index_document self) /\
  from_option RedirectAllRequestsTo_wf True (WebsiteConfiguration_redirect_all_requests_to self) /\
  from_option (Forall RoutingRule_wf) True (WebsiteConfiguration_routing_rules self).
#[global] Instance WebsiteConfiguration_rt : RoundTrip ser_WebsiteConfiguration de_WebsiteConfiguration WebsiteConfiguration_wf.
Proof. solve_struct (fun self : WebsiteConfiguration => (WebsiteConfiguration_error_document self, (WebsiteConfiguration_index_document self, (WebsiteConfiguration_redirect_all_requests_to self, (WebsiteConfiguration_routing_rules self, tt))))). Qed.
Lemma de_WebsiteConfiguration_well : well de_WebsiteConfiguration.
Proof. solve_well. Qed.
#[export] Hint Resolve de_WebsiteConfiguration_well : de.
#[global] Typeclasses Opaque ser_WebsiteConfiguration de_WebsiteConfiguration.

Definition ChecksumAlgorithm : Type := bytes.
Definition ser_ChecksumAlgorithm (self : ChecksumAlgorithm) : Ser := ser_str self.
Definition de_ChecksumAlgorithm : De ChecksumAlgorithm := de_enum [str "CRC32"; str "CRC32C"; str "CRC64NVME"; str "MD5"; str "SHA1"; str "SHA256"; str "SHA512"; str "XXHASH128"; str "XXHASH3"; str "XXHASH64"].
#[global] Instance ChecksumAlgorithm_rt : RoundTrip ser_ChecksumAlgorithm de_ChecksumAlgorithm string_wf := enum_rt _.
Lemma de_ChecksumAlgorithm_well : well de_ChecksumAlgorithm.
Proof. apply de_enum_well. Qed.
#[export] Hint Resolve de_ChecksumAlgorithm_well : de.
#[global] Typeclasses Opaque ser_ChecksumAlgorithm de_ChecksumAlgorithm.

Definition ReplicationStatus : Type := bytes.
Definition ser_ReplicationStatus (self : ReplicationStatus) : Ser := ser_str self.
Definition de_ReplicationStatus : De ReplicationStatus := de_enum [str "COMPLETE"; str "COMPLETED"; str "FAILED"; str "PENDING"; str "REPLICA"].
#[global] Instance ReplicationStatus_rt : RoundTrip ser_ReplicationStatus de_ReplicationStatus string_wf := enum_rt _.
Lemma de_ReplicationStatus_well : well de_ReplicationStatus.
Proof. apply de_enum_well. Qed.
#[export] Hint Resolve de_ReplicationStatus_well : de.
#[global] Typeclasses Opaque ser_ReplicationStatus de_ReplicationStatus.

Record AnnotationEntry := mk_AnnotationEntry {
  AnnotationEntry_annotation_name : bytes;
  AnnotationEntry_checksum_algorithm : option (list ChecksumAlgorithm);
  AnnotationEntry_e_tag : option ETag;
  AnnotationEntry_last_modified : Timestamp;
  AnnotationEntry_replication_status : option ReplicationStatus;
  AnnotationEntry_size : Z
}.
Definition ser_AnnotationEntry `{XmlDeps} (self : AnnotationEntry) : Ser :=
  s_seq [
    s_content ser_str (str "AnnotationName") (AnnotationEntry_annotation_name self);
    if_some (AnnotationEntry_checksum_algorithm self) (s_flattened_list ser_ChecksumAlgorithm (str "ChecksumAlgorithm"));
    if_some (AnnotationEntry_e_tag self) (s_content ser_ETag (str "ETag"));
    s_timestamp (str "LastModified") (AnnotationEntry_last_modified self) DateTime;
    if_some (AnnotationEntry_replication_status self) (s_content ser_ReplicationStatus (str "ReplicationStatus"));
    s_content ser_i64 (str "Size") (AnnotationEntry_size self)].
Definition de_AnnotationEntry `{XmlDeps} : De AnnotationEntry := de_struct false
   (arm_once (str "AnnotationName") de_string
    (arm_push (str "ChecksumAlgorithm") de_ChecksumAlgorithm
    (arm_once (str "ETag") de_ETag
    (arm_once (str "LastModified") (de_timestamp DateTime)
    (arm_once (str "ReplicationStatus") de_ReplicationStatus
    (arm_once (str "Size") de_i64
    no_arms))))))
    (fun '(annotation_name, (checksum_algorithm, (e_tag, (last_modified, (replication_status, (size, tt)))))) =>
      annotation_name ← required annotation_name;
      last_modified ← required last_modified;
      size ← required size;
      Ok {| AnnotationEntry_annotation_name := annotation_name;
         AnnotationEntry_checksum_algorithm := checksum_algorithm;
         AnnotationEntry_e_tag := e_tag;
         AnnotationEntry_last_modified := last_modified;
         AnnotationEntry_replication_status := replication_status;
         AnnotationEntry_size := size |}).
Definition AnnotationEntry_wf (self : AnnotationEntry) : Prop :=
  string_wf (AnnotationEntry_annotation_name self) /\
  from_option (fun l => Forall string_wf l /\ l <> []) True (AnnotationEntry_checksum_algorithm self) /\
  from_option ETag_wf True (AnnotationEntry_e_tag self) /\
  (timestamp_wf DateTime) (AnnotationEntry_last_modified self) /\
  from_option string_wf True (AnnotationEntry_replication_status self) /\
  i64_wf (AnnotationEntry_size self).
#[global] Instance AnnotationEntry_rt `{XmlDeps} : RoundTrip ser_AnnotationEntry de_AnnotationEntry AnnotationEntry_wf.
Proof. solve_struct (fun self : AnnotationEntry => (Some (AnnotationEntry_annotation_name self), (AnnotationEntry_checksum_algorithm self, (AnnotationEntry_e_tag self, (Some (AnnotationEntry_last_modified self), (AnnotationEntry_replication_status self, (Some (AnnotationEntry_size self), tt))))))). Qed.
Lemma de_AnnotationEntry_well `{XmlDeps} : well de_AnnotationEntry.
Proof. solve_well. Qed.
#[export] Hint Resolve de_AnnotationEntry_well : de.
#[global] Typeclasses Opaque ser_AnnotationEntry de_AnnotationEntry.

Record AssumedRoleUser := mk_AssumedRoleUser { AssumedRoleUser_arn : bytes; AssumedRoleUser_assumed_role_id : bytes }.
Definition ser_AssumedRoleUser (self : AssumedRoleUser) : Ser :=
  s_seq [
    s_content ser_str (str "Arn") (AssumedRoleUser_arn self);
    s_content ser_str (str "AssumedRoleId") (AssumedRoleUser_assumed_role_id self)].
Definition de_AssumedRoleUser : De AssumedRoleUser := de_struct false
   (arm_once (str "Arn") de_string
    (arm_once (str "AssumedRoleId") de_string
    no_arms))
    (fun '(arn, (assumed_role_id, tt)) =>
      arn ← required arn;
      assumed_role_id ← required assumed_role_id;
      Ok {| AssumedRoleUser_arn := arn; AssumedRoleUser_assumed_role_id := assumed_role_id |}).
Definition AssumedRoleUser_wf (self : AssumedRoleUser) : Prop :=

    string_wf (AssumedRoleUser_arn self) /\
    string_wf (AssumedRoleUser_assumed_role_id self).
#[global] Instance AssumedRoleUser_rt : RoundTrip ser_AssumedRoleUser de_AssumedRoleUser AssumedRoleUser_wf.
Proof. solve_struct (fun self : AssumedRoleUser => (Some (AssumedRoleUser_arn self), (Some (AssumedRoleUser_assumed_role_id self), tt))). Qed.
Lemma de_AssumedRoleUser_well : well de_AssumedRoleUser.
Proof. solve_well. Qed.
#[export] Hint Resolve de_AssumedRoleUser_well : de.
#[global] Typeclasses Opaque ser_AssumedRoleUser de_AssumedRoleUser.

Record Credentials := mk_Credentials {
  Credentials_access_key_id : bytes;
  Credentials_expiration : Timestamp;
  Credentials_secret_access_key : bytes;
  Credentials_session_token : bytes
}.
Definition ser_Credentials `{XmlDeps} (self : Credentials) : Ser :=
  s_seq [
    s_content ser_str (str "AccessKeyId") (Credentials_access_key_id self);
    s_timestamp (str "Expiration") (Credentials_expiration self) DateTime;
    s_content ser_str (str "SecretAccessKey") (Credentials_secret_access_key self);
    s_content ser_str (str "SessionToken") (Credentials_session_token self)].
Definition de_Credentials `{XmlDeps} : De Credentials := de_struct false
   (arm_once (str "AccessKeyId") de_string
    (arm_once (str "Expiration") (de_timestamp DateTime)
    (arm_once (str "SecretAccessKey") de_string
    (arm_once (str "SessionToken") de_string
    no_arms))))
    (fun '(access_key_id, (expiration, (secret_access_key, (session_token, tt)))) =>
      access_key_id ← required access_key_id;
      expiration ← required expiration;
      secret_access_key ← required secret_access_key;
      session_token ← required session_token;
      Ok {| Credentials_access_key_id := access_key_id;
         Credentials_expiration := expiration;
         Credentials_secret_access_key := secret_access_key;
         Credentials_session_token := session_token |}).
Definition Credentials_wf (self : Credentials) : Prop :=
  string_wf (Credentials_access_key_id self) /\
  (timestamp_wf DateTime) (Credentials_expiration self) /\
  string_wf (Credentials_secret_access_key self) /\
  string_wf (Credentials_session_token self).
#[global] Instance Credentials_rt `{XmlDeps} : RoundTrip ser_Credentials de_Credentials Credentials_wf.
Proof. solve_struct (fun self : Credentials => (Some (Credentials_access_key_id self), (Some (Credentials_expiration self), (Some (Credentials_secret_access_key self), (Some (Credentials_session_token self), tt))))). Qed.
Lemma de_Credentials_well `{XmlDeps} : well de_Credentials.
Proof. solve_well. Qed.
#[export] Hint Resolve de_Credentials_well : de.
#[global] Typeclasses Opaque ser_Credentials de_Credentials.

Record AssumeRoleOutput := mk_AssumeRoleOutput {
  AssumeRoleOutput_assumed_role_user : option AssumedRoleUser;
  AssumeRoleOutput_credentials : option Credentials;
  AssumeRoleOutput_packed_policy_size : option Z;
  AssumeRoleOutput_source_identity : option bytes
}.
Definition ser_AssumeRoleOutput `{XmlDeps} (self : AssumeRoleOutput) : Ser :=
  s_seq [
    if_some (AssumeRoleOutput_assumed_role_user self) (s_content ser_AssumedRoleUser (str "AssumedRoleUser"));
    if_some (AssumeRoleOutput_credentials self) (s_content ser_Credentials (str "Credentials"));
    if_some (AssumeRoleOutput_packed_policy_size self) (s_content ser_i32 (str "PackedPolicySize"));
    if_some (AssumeRoleOutput_source_identity self) (s_content ser_str (str "SourceIdentity"))].
Definition de_AssumeRoleOutput `{XmlDeps} : De AssumeRoleOutput := de_struct false
   (arm_once (str "AssumedRoleUser") de_AssumedRoleUser
    (arm_once (str "Credentials") de_Credentials
    (arm_once (str "PackedPolicySize") de_i32
    (arm_once (str "SourceIdentity") de_string
    no_arms))))
    (fun '(assumed_role_user, (credentials, (packed_policy_size, (source_identity, tt)))) =>
      Ok {| AssumeRoleOutput_assumed_role_user := assumed_role_user;
         AssumeRoleOutput_credentials := credentials;
         AssumeRoleOutput_packed_policy_size := packed_policy_size;
         AssumeRoleOutput_source_identity := source_identity |}).
Definition AssumeRoleOutput_wf (self : AssumeRoleOutput) : Prop :=
  from_option AssumedRoleUser_wf True (AssumeRoleOutput_assumed_role_user self) /\
  from_option Credentials_wf True (AssumeRoleOutput_credentials self) /\
  from_option i32_wf True (AssumeRoleOutput_packed_policy_size self) /\
  from_option string_wf True (AssumeRoleOutput_source_identity self).
#[global] Instance AssumeRoleOutput_rt `{XmlDeps} : RoundTrip ser_AssumeRoleOutput de_AssumeRoleOutput AssumeRoleOutput_wf.
Proof. solve_struct (fun self : AssumeRoleOutput => (AssumeRoleOutput_assumed_role_user self, (AssumeRoleOutput_credentials self, (AssumeRoleOutput_packed_policy_size self, (AssumeRoleOutput_source_identity self, tt))))). Qed.
Lemma de_AssumeRoleOutput_well `{XmlDeps} : well de_AssumeRoleOutput.
Proof. solve_well. Qed.
#[export] Hint Resolve de_AssumeRoleOutput_well : de.
#[global] Typeclasses Opaque ser_AssumeRoleOutput de_AssumeRoleOutput.

Record Checksum := mk_Checksum {
  Checksum_checksum_crc32 : option bytes;
  Checksum_checksum_crc32c : option bytes;
  Checksum_checksum_crc64nvme : option bytes;
  Checksum_checksum_md5 : option bytes;
  Checksum_checksum_sha1 : option bytes;
  Checksum_checksum_sha256 : option bytes;
  Checksum_checksum_sha512 : option bytes;
  Checksum_checksum_type : option ChecksumType;
  Checksum_checksum_xxhash128 : option bytes;
  Checksum_checksum_xxhash3 : option bytes;
  Checksum_checksum_xxhash64 : option bytes
}.
Definition ser_Checksum (self : Checksum) : Ser :=
  s_seq [
    if_some (Checksum_checksum_crc32 self) (s_content ser_str (str "ChecksumCRC32"));
    if_some (Checksum_checksum_crc32c self) (s_content ser_str (str "ChecksumCRC32C"));
    if_some (Checksum_checksum_crc64nvme self) (s_content ser_str (str "ChecksumCRC64NVME"));
    if_some (Checksum_checksum_md5 self) (s_content ser_str (str "ChecksumMD5"));
    if_some (Checksum_checksum_sha1 self) (s_content ser_str (str "ChecksumSHA1"));
    if_some (Checksum_checksum_sha256 self) (s_content ser_str (str "ChecksumSHA256"));
    if_some (Checksum_checksum_sha512 self) (s_content ser_str (str "ChecksumSHA512"));
    if_some (Checksum_checksum_type self) (s_content ser_ChecksumType (str "ChecksumType"));
    if_some (Checksum_checksum_xxhash128 self) (s_content ser_str (str "ChecksumXXHASH128"));
    if_some (Checksum_checksum_xxhash3 self) (s_content ser_str (str "ChecksumXXHASH3"));
    if_some (Checksum_checksum_xxhash64 self) (s_content ser_str (str "ChecksumXXHASH64"))].
Definition de_Checksum : De Checksum := de_struct false
   (arm_once (str "ChecksumCRC32") de_string
    (arm_once (str "ChecksumCRC32C") de_string
    (arm_once (str "ChecksumCRC64NVME") de_string
    (arm_once (str "ChecksumMD5") de_string
    (arm_once (str "ChecksumSHA1") de_string
    (arm_once (str "ChecksumSHA256") de_string
    (arm_once (str "ChecksumSHA512") de_string
    (arm_once (str "ChecksumType") de_ChecksumType
    (arm_once (str "ChecksumXXHASH128") de_string
    (arm_once (str "ChecksumXXHASH3") de_string
    (arm_once (str "ChecksumXXHASH64") de_string
    no_arms)))))))))))
    (fun '(checksum_crc32, (checksum_crc32c, (checksum_crc64nvme, (checksum_md5, (checksum_sha1, (checksum_sha256, (checksum_sha512, (checksum_type, (checksum_xxhash128, (checksum_xxhash3, (checksum_xxhash64, tt))))))))))) =>
      Ok {| Checksum_checksum_crc32 := checksum_crc32;
         Checksum_checksum_crc32c := checksum_crc32c;
         Checksum_checksum_crc64nvme := checksum_crc64nvme;
         Checksum_checksum_md5 := checksum_md5;
         Checksum_checksum_sha1 := checksum_sha1;
         Checksum_checksum_sha256 := checksum_sha256;
         Checksum_checksum_sha512 := checksum_sha512;
         Checksum_checksum_type := checksum_type;
         Checksum_checksum_xxhash128 := checksum_xxhash128;
         Checksum_checksum_xxhash3 := checksum_xxhash3;
         Checksum_checksum_xxhash64 := checksum_xxhash64 |}).
Definition Checksum_wf (self : Checksum) : Prop :=
  from_option string_wf True (Checksum_checksum_crc32 self) /\
  from_option string_wf True (Checksum_checksum_crc32c self) /\
  from_option string_wf True (Checksum_checksum_crc64nvme self) /\
  from_option string_wf True (Checksum_checksum_md5 self) /\
  from_option string_wf True (Checksum_checksum_sha1 self) /\
  from_option string_wf True (Checksum_checksum_sha256 self) /\
  from_option string_wf True (Checksum_checksum_sha512 self) /\
  from_option string_wf True (Checksum_checksum_type self) /\
  from_option string_wf True (Checksum_checksum_xxhash128 self) /\
  from_option string_wf True (Checksum_checksum_xxhash3 self) /\
  from_option string_wf True (Checksum_checksum_xxhash64 self).
#[global] Instance Checksum_rt : RoundTrip ser_Checksum de_Checksum Checksum_wf.
Proof. solve_struct (fun self : Checksum => (Checksum_checksum_crc32 self, (Checksum_checksum_crc32c self, (Checksum_checksum_crc64nvme self, (Checksum_checksum_md5 self, (Checksum_checksum_sha1 self, (Checksum_checksum_sha256 self, (Checksum_checksum_sha512 self, (Checksum_checksum_type self, (Checksum_checksum_xxhash128 self, (Checksum_checksum_xxhash3 self, (Checksum_checksum_xxhash64 self, tt)))))))))))). Qed.
Lemma de_Checksum_well : well de_Checksum.
Proof. solve_well. Qed.
#[export] Hint Resolve de_Checksum_well : de.
#[global] Typeclasses Opaque ser_Checksum de_Checksum.

Record CommonPrefix := mk_CommonPrefix { CommonPrefix_prefix : option bytes }.
Definition ser_CommonPrefix (self : CommonPrefix) : Ser :=
  s_seq [
    if_some (CommonPrefix_prefix self) (s_content ser_str (str "Prefix"))].
Definition de_CommonPrefix : De CommonPrefix := de_struct false
   (arm_once (str "Prefix") de_string
    no_arms)
    (fun '(prefix, tt) =>
      Ok {| CommonPrefix_prefix := prefix |}).
Definition CommonPrefix_wf (self : CommonPrefix) : Prop :=
  from_option string_wf True (CommonPrefix_prefix self).
#[global] Instance CommonPrefix_rt : RoundTrip ser_CommonPrefix de_CommonPrefix CommonPrefix_wf.
Proof. solve_struct (fun self : CommonPrefix => (CommonPrefix_prefix self, tt)). Qed.
Lemma de_CommonPrefix_well : well de_CommonPrefix.
Proof. solve_well. Qed.
#[export] Hint Resolve de_CommonPrefix_well : de.
#[global] Typeclasses Opaque ser_CommonPrefix de_CommonPrefix.

Record DeleteMarkerEntry := mk_DeleteMarkerEntry {
  DeleteMarkerEntry_is_latest : option bool;
  DeleteMarkerEntry_key : option bytes;
  DeleteMarkerEntry_last_modified : option Timestamp;
  DeleteMarkerEntry_owner : option Owner;
  DeleteMarkerEntry_version_id : option bytes
}.
Definition ser_DeleteMarkerEntry `{XmlDeps} (self : DeleteMarkerEntry) : Ser :=
  s_seq [
    if_some (DeleteMarkerEntry_is_latest self) (s_content ser_bool (str "IsLatest"));
    if_some (DeleteMarkerEntry_key self) (s_content ser_str (str "Key"));
    if_some (DeleteMarkerEntry_last_modified self) (fun val => s_timestamp (str "LastModified") val DateTime);
    if_some (DeleteMarkerEntry_owner self) (s_content ser_Owner (str "Owner"));
    if_some (DeleteMarkerEntry_version_id self) (s_content ser_str (str "VersionId"))].
Definition de_DeleteMarkerEntry `{XmlDeps} : De DeleteMarkerEntry := de_struct false
   (arm_once (str "IsLatest") de_bool
    (arm_once (str "Key") de_string
    (arm_once (str "LastModified") (de_timestamp DateTime)
    (arm_once (str "Owner") de_Owner
    (arm_once (str "VersionId") de_string
    no_arms)))))
    (fun '(is_latest, (key, (last_modified, (owner, (version_id, tt))))) =>
      Ok {| DeleteMarkerEntry_is_latest := is_latest;
         DeleteMarkerEntry_key := key;
         DeleteMarkerEntry_last_modified := last_modified;
         DeleteMarkerEntry_owner := owner;
         DeleteMarkerEntry_version_id := version_id |}).
Definition DeleteMarkerEntry_wf (self : DeleteMarkerEntry) : Prop :=
  from_option bool_wf True (DeleteMarkerEntry_is_latest self) /\
  from_option string_wf True (DeleteMarkerEntry_key self) /\
  from_option (timestamp_wf DateTime) True (DeleteMarkerEntry_last_modified self) /\
  from_option Owner_wf True (DeleteMarkerEntry_owner self) /\
  from_option string_wf True (DeleteMarkerEntry_version_id self).
#[global] Instance DeleteMarkerEntry_rt `{XmlDeps} : RoundTrip ser_DeleteMarkerEntry de_DeleteMarkerEntry DeleteMarkerEntry_wf.
Proof. solve_struct (fun self : DeleteMarkerEntry => (DeleteMarkerEntry_is_latest self, (DeleteMarkerEntry_key self, (DeleteMarkerEntry_last_modified self, (DeleteMarkerEntry_owner self, (DeleteMarkerEntry_version_id self, tt)))))). Qed.
Lemma de_DeleteMarkerEntry_well `{XmlDeps} : well de_DeleteMarkerEntry.
Proof. solve_well. Qed.
#[export] Hint Resolve de_DeleteMarkerEntry_well : de.
#[global] Typeclasses Opaque ser_DeleteMarkerEntry de_DeleteMarkerEntry.

Record DeletedObject := mk_DeletedObject {
  DeletedObject_delete_marker : option bool;
  DeletedObject_delete_marker_version_id : option bytes;
  DeletedObject_key : option bytes;
  DeletedObject_version_id : option bytes
}.
Definition ser_DeletedObject (self : DeletedObject) : Ser :=
  s_seq [
    if_some (DeletedObject_delete_marker self) (s_content ser_bool (str "DeleteMarker"));
    if_some (DeletedObject_delete_marker_version_id self) (s_content ser_str (str "DeleteMarkerVersionId"));
    if_some (DeletedObject_key self) (s_content ser_str (str "Key"));
    if_some (DeletedObject_version_id self) (s_content ser_str (str "VersionId"))].
Definition de_DeletedObject : De DeletedObject := de_struct false
   (arm_once (str "DeleteMarker") de_bool
    (arm_once (str "DeleteMarkerVersionId") de_string
    (arm_once (str "Key") de_string
    (arm_once (str "VersionId") de_string
    no_arms))))
    (fun '(delete_marker, (delete_marker_version_id, (key, (version_id, tt)))) =>
      Ok {| DeletedObject_delete_marker := delete_marker;
         DeletedObject_delete_marker_version_id := delete_marker_version_id;
         DeletedObject_key := key;
         DeletedObject_version_id := version_id |}).
Definition DeletedObject_wf (self : DeletedObject) : Prop :=
  from_option bool_wf True (DeletedObject_delete_marker self) /\
  from_option string_wf True (DeletedObject_delete_marker_version_id self) /\
  from_option string_wf True (DeletedObject_key self) /\
  from_option string_wf True (DeletedObject_version_id self).
#[global] Instance DeletedObject_rt : RoundTrip ser_DeletedObject de_DeletedObject DeletedObject_wf.
Proof. solve_struct (fun self : DeletedObject => (DeletedObject_delete_marker self, (DeletedObject_delete_marker_version_id self, (DeletedObject_key self, (DeletedObject_version_id self, tt))))). Qed.
Lemma de_DeletedObject_well : well de_DeletedObject.
Proof. solve_well. Qed.
#[export] Hint Resolve de_DeletedObject_well : de.
#[global] Typeclasses Opaque ser_DeletedObject de_DeletedObject.

Definition EncodingType : Type := bytes.
Definition ser_EncodingType (self : EncodingType) : Ser := ser_str self.
Definition de_EncodingType : De EncodingType := de_enum [str "url"].
#[global] Instance EncodingType_rt : RoundTrip ser_EncodingType de_EncodingType string_wf := enum_rt _.
Lemma de_EncodingType_well : well de_EncodingType.
Proof. apply de_enum_well. Qed.
#[export] Hint Resolve de_EncodingType_well : de.
#[global] Typeclasses Opaque ser_EncodingType de_EncodingType.

Record DeleteError := mk_DeleteError {
  DeleteError_code : option bytes;
  DeleteError_key : option bytes;
  DeleteError_message : option bytes;
  DeleteError_version_id : option bytes
}.
Definition ser_Error (self : DeleteError) : Ser :=
  s_seq [
    if_some (DeleteError_code self) (s_content ser_str (str "Code"));
    if_some (DeleteError_key self) (s_content ser_str (str "Key"));
    if_some (DeleteError_message self) (s_content ser_str (str "Message"));
    if_some (DeleteError_version_id self) (s_content ser_str (str "VersionId"))].
Definition de_Error : De DeleteError := de_struct false
   (arm_once (str "Code") de_string
    (arm_once (str "Key") de_string
    (arm_once (str "Message") de_string
    (arm_once (str "VersionId") de_string
    no_arms))))
    (fun '(code, (key, (message, (version_id, tt)))) =>
      Ok {| DeleteError_code := code;
         DeleteError_key := key;
         DeleteError_message := message;
         DeleteError_version_id := version_id |}).
Definition DeleteError_wf (self : DeleteError) : Prop :=
  from_option string_wf True (DeleteError_code self) /\
  from_option string_wf True (DeleteError_key self) /\
  from_option string_wf True (DeleteError_message self) /\
  from_option string_wf True (DeleteError_version_id self).
#[global] Instance DeleteError_rt : RoundTrip ser_Error de_Error DeleteError_wf.
Proof. solve_struct (fun self : DeleteError => (DeleteError_code self, (DeleteError_key self, (DeleteError_message self, (DeleteError_version_id self, tt))))). Qed.
Lemma de_Error_well : well de_Error.
Proof. solve_well. Qed.
#[export] Hint Resolve de_Error_well : de.
#[global] Typeclasses Opaque ser_Error de_Error.

Record GetBucketLocationOutput := mk_GetBucketLocationOutput {
  GetBucketLocationOutput_location_constraint : option BucketLocationConstraint
}.
Definition ser_GetBucketLocationOutput (self : GetBucketLocationOutput) : Ser :=
  s_seq [
    if_some (GetBucketLocationOutput_location_constraint self) (s_content ser_BucketLocationConstraint (str "LocationConstraint"))].
Definition de_GetBucketLocationOutput : De GetBucketLocationOutput := de_struct false
   (arm_once (str "LocationConstraint") de_BucketLocationConstraint
    no_arms)
    (fun '(location_constraint, tt) =>
      Ok {| GetBucketLocationOutput_location_constraint := location_constraint |}).
Definition GetBucketLocationOutput_wf (self : GetBucketLocationOutput) : Prop :=

    from_option string_wf True (GetBucketLocationOutput_location_constraint self).
#[global] Instance GetBucketLocationOutput_rt : RoundTrip ser_GetBucketLocationOutput de_GetBucketLocationOutput GetBucketLocationOutput_wf.
Proof. solve_struct (fun self : GetBucketLocationOutput => (GetBucketLocationOutput_location_constraint self, tt)). Qed.
Lemma de_GetBucketLocationOutput_well : well de_GetBucketLocationOutput.
Proof. solve_well. Qed.
#[export] Hint Resolve de_GetBucketLocationOutput_well : de.
#[global] Typeclasses Opaque ser_GetBucketLocationOutput de_GetBucketLocationOutput.

Record ObjectPart := mk_ObjectPart {
  ObjectPart_checksum_crc32 : option bytes;
  ObjectPart_checksum_crc32c : option bytes;
  ObjectPart_checksum_crc64nvme : option bytes;
  ObjectPart_checksum_md5 : option bytes;
  ObjectPart_checksum_sha1 : option bytes;
  ObjectPart_checksum_sha256 : option bytes;
  ObjectPart_checksum_sha512 : option bytes;
  ObjectPart_checksum_xxhash128 : option bytes;
  ObjectPart_checksum_xxhash3 : option bytes;
  ObjectPart_checksum_xxhash64 : option bytes;
  ObjectPart_part_number : option Z;
  ObjectPart_size : option Z
}.
Definition ser_ObjectPart (self : ObjectPart) : Ser :=
  s_seq [
    if_some (ObjectPart_checksum_crc32 self) (s_content ser_str (str "ChecksumCRC32"));
    if_some (ObjectPart_checksum_crc32c self) (s_content ser_str (str "ChecksumCRC32C"));
    if_some (ObjectPart_checksum_crc64nvme self) (s_content ser_str (str "ChecksumCRC64NVME"));
    if_some (ObjectPart_checksum_md5 self) (s_content ser_str (str "ChecksumMD5"));
    if_some (ObjectPart_checksum_sha1 self) (s_content ser_str (str "ChecksumSHA1"));
    if_some (ObjectPart_checksum_sha256 self) (s_content ser_str (str "ChecksumSHA256"));
    if_some (ObjectPart_checksum_sha512 self) (s_content ser_str (str "ChecksumSHA512"));
    if_some (ObjectPart_checksum_xxhash128 self) (s_content ser_str (str "ChecksumXXHASH128"));
    if_some (ObjectPart_checksum_xxhash3 self) (s_content ser_str (str "ChecksumXXHASH3"));
    if_some (ObjectPart_checksum_xxhash64 self) (s_content ser_str (str "ChecksumXXHASH64"));
    if_some (ObjectPart_part_number self) (s_content ser_i32 (str "PartNumber"));
    if_some (ObjectPart_size self) (s_content ser_i64 (str "Size"))].
Definition de_ObjectPart `{XmlDeps} : De ObjectPart := de_struct false
   (arm_once (str "ChecksumCRC32") de_string
    (arm_once (str "ChecksumCRC32C") de_string
    (arm_once (str "ChecksumCRC64NVME") de_string
    (arm_once (str "ChecksumMD5") de_string
    (arm_once (str "ChecksumSHA1") de_string
    (arm_once (str "ChecksumSHA256") de_string
    (arm_once (str "ChecksumSHA512") de_string
    (arm_once (str "ChecksumXXHASH128") de_string
    (arm_once (str "ChecksumXXHASH3") de_string
    (arm_once (str "ChecksumXXHASH64") de_string
    (arm_once (str "PartNumber") de_i32
    (arm_once (str "Size") de_i64
    no_arms))))))))))))
    (fun '(checksum_crc32, (checksum_crc32c, (checksum_crc64nvme, (checksum_md5, (checksum_sha1, (checksum_sha256, (checksum_sha512, (checksum_xxhash128, (checksum_xxhash3, (checksum_xxhash64, (part_number, (size, tt)))))))))))) =>
      Ok {| ObjectPart_checksum_crc32 := checksum_crc32;
         ObjectPart_checksum_crc32c := checksum_crc32c;
         ObjectPart_checksum_crc64nvme := checksum_crc64nvme;
         ObjectPart_checksum_md5 := checksum_md5;
         ObjectPart_checksum_sha1 := checksum_sha1;
         ObjectPart_checksum_sha256 := checksum_sha256;
         ObjectPart_checksum_sha512 := checksum_sha512;
         ObjectPart_checksum_xxhash128 := checksum_xxhash128;
         ObjectPart_checksum_xxhash3 := checksum_xxhash3;
         ObjectPart_checksum_xxhash64 := checksum_xxhash64;
         ObjectPart_part_number := part_number;
         ObjectPart_size := size |}).
Definition ObjectPart_wf (self : ObjectPart) : Prop :=
  from_option string_wf True (ObjectPart_checksum_crc32 self) /\
  from_option string_wf True (ObjectPart_checksum_crc32c self) /\
  from_option string_wf True (ObjectPart_checksum_crc64nvme self) /\
  from_option string_wf True (ObjectPart_checksum_md5 self) /\
  from_option string_wf True (ObjectPart_checksum_sha1 self) /\
  from_option string_wf True (ObjectPart_checksum_sha256 self) /\
  from_option string_wf True (ObjectPart_checksum_sha512 self) /\
  from_option string_wf True (ObjectPart_checksum_xxhash128 self) /\
  from_option string_wf True (ObjectPart_checksum_xxhash3 self) /\
  from_option string_wf True (ObjectPart_checksum_xxhash64 self) /\
  from_option i32_wf True (ObjectPart_part_number self) /\
  from_option i64_wf True (ObjectPart_size self).
#[global] Instance ObjectPart_rt `{XmlDeps} : RoundTrip ser_ObjectPart de_ObjectPart ObjectPart_wf.
Proof. solve_struct (fun self : ObjectPart => (ObjectPart_checksum_crc32 self, (ObjectPart_checksum_crc32c self, (ObjectPart_checksum_crc64nvme self, (ObjectPart_checksum_md5 self, (ObjectPart_checksum_sha1 self, (ObjectPart_checksum_sha256 self, (ObjectPart_checksum_sha512 self, (ObjectPart_checksum_xxhash128 self, (ObjectPart_checksum_xxhash3 self, (ObjectPart_checksum_xxhash64 self, (ObjectPart_part_number self, (ObjectPart_size self, tt))))))))))))). Qed.
Lemma de_ObjectPart_well `{XmlDeps} : well de_ObjectPart.
Proof. solve_well. Qed.
#[export] Hint Resolve de_ObjectPart_well : de.
#[global] Typeclasses Opaque ser_ObjectPart de_ObjectPart.

Record GetObjectAttributesParts := mk_GetObjectAttributesParts {
  GetObjectAttributesParts_is_truncated : option bool;
  GetObjectAttributesParts_max_parts : option Z;
  GetObjectAttributesParts_next_part_number_marker : option Z;
  GetObjectAttributesParts_part_number_marker : option Z;
  GetObjectAttributesParts_parts : option (list ObjectPart);
  GetObjectAttributesParts_total_parts_count : option Z
}.
Definition ser_GetObjectAttributesParts (self : GetObjectAttributesParts) : Ser :=
  s_seq [
    if_some (GetObjectAttributesParts_is_truncated self) (s_content ser_bool (str "IsTruncated"));
    if_some (GetObjectAttributesParts_max_parts self) (s_content ser_i32 (str "MaxParts"));
    if_some (GetObjectAttributesParts_next_part_number_marker self) (s_content ser_i32 (str "NextPartNumberMarker"));
    if_some (GetObjectAttributesParts_part_number_marker self) (s_content ser_i32 (str "PartNumberMarker"));
    if_some (GetObjectAttributesParts_parts self) (s_flattened_list ser_ObjectPart (str "Part"));
    if_some (GetObjectAttributesParts_total_parts_count self) (s_content ser_i32 (str "PartsCount"))].
Definition de_GetObjectAttributesParts `{XmlDeps} : De GetObjectAttributesParts := de_struct false
   (arm_once (str "IsTruncated") de_bool
    (arm_once (str "MaxParts") de_i32
    (arm_once (str "NextPartNumberMarker") de_i32
    (arm_once (str "PartNumberMarker") de_i32
    (arm_push (str "Part") de_ObjectPart
    (arm_once (str "PartsCount") de_i32
    no_arms))))))
    (fun '(is_truncated, (max_parts, (next_part_number_marker, (part_number_marker, (parts, (total_parts_count, tt)))))) =>
      Ok {| GetObjectAttributesParts_is_truncated := is_truncated;
         GetObjectAttributesParts_max_parts := max_parts;
         GetObjectAttributesParts_next_part_number_marker := next_part_number_marker;
         GetObjectAttributesParts_part_number_marker := part_number_marker;
         GetObjectAttributesParts_parts := parts;
         GetObjectAttributesParts_total_parts_count := total_parts_count |}).
Definition GetObjectAttributesParts_wf (self : GetObjectAttributesParts) : Prop :=
  from_option bool_wf True (GetObjectAttributesParts_is_truncated self) /\
  from_option i32_wf True (GetObjectAttributesParts_max_parts self) /\
  from_option i32_wf True (GetObjectAttributesParts_next_part_number_marker self) /\
  from_option i32_wf True (GetObjectAttributesParts_part_number_marker self) /\
  from_option (fun l => Forall ObjectPart_wf l /\ l <> []) True (GetObjectAttributesParts_parts self) /\
  from_option i32_wf True (GetObjectAttributesParts_total_parts_count self).
#[global] Instance GetObjectAttributesParts_rt `{XmlDeps} : RoundTrip ser_GetObjectAttributesParts de_GetObjectAttributesParts GetObjectAttributesParts_wf.
Proof. solve_struct (fun self : GetObjectAttributesParts => (GetObjectAttributesParts_is_truncated self, (GetObjectAttributesParts_max_parts self, (GetObjectAttributesParts_next_part_number_marker self, (GetObjectAttributesParts_part_number_marker self, (GetObjectAttributesParts_parts self, (GetObjectAttributesParts_total_parts_count self, tt))))))). Qed.
Lemma de_GetObjectAttributesParts_well `{XmlDeps} : well de_GetObjectAttributesParts.
Proof. solve_well. Qed.
#[export] Hint Resolve de_GetObjectAttributesParts_well : de.
#[global] Typeclasses Opaque ser_GetObjectAttributesParts de_GetObjectAttributesParts.

Record Initiator := mk_Initiator { Initiator_display_name : option bytes; Initiator_id : option bytes }.
Definition ser_Initiator (self : Initiator) : Ser :=
  s_seq [
    if_some (Initiator_display_name self) (s_content ser_str (str "DisplayName"));
    if_some (Initiator_id self) (s_content ser_str (str "ID"))].
Definition de_Initiator : De Initiator := de_struct false
   (arm_once (str "DisplayName") de_string
    (arm_once (str "ID") de_string
    no_arms))
    (fun '(display_name, (id, tt)) =>
      Ok {| Initiator_display_name := display_name; Initiator_id := id |}).
Definition Initiator_wf (self : Initiator) : Prop :=

    from_option string_wf True (Initiator_display_name self) /\
    from_option string_wf True (Initiator_id self).
#[global] Instance Initiator_rt : RoundTrip ser_Initiator de_Initiator Initiator_wf.
Proof. solve_struct (fun self : Initiator => (Initiator_display_name self, (Initiator_id self, tt))). Qed.
Lemma de_Initiator_well : well de_Initiator.
Proof. solve_well. Qed.
#[export] Hint Resolve de_Initiator_well : de.
#[global] Typeclasses Opaque ser_Initiator de_Initiator.

Record MultipartUpload := mk_MultipartUpload {
  MultipartUpload_checksum_algorithm : option ChecksumAlgorithm;
  MultipartUpload_checksum_type : option ChecksumType;
  MultipartUpload_initiated : option Timestamp;
  MultipartUpload_initiator : option Initiator;
  MultipartUpload_key : option bytes;
  MultipartUpload_owner : option Owner;
  MultipartUpload_storage_class : option StorageClass;
  MultipartUpload_upload_id : option bytes
}.
Definition ser_MultipartUpload `{XmlDeps} (self : MultipartUpload) : Ser :=
  s_seq [
    if_some (MultipartUpload_checksum_algorithm self) (s_content ser_ChecksumAlgorithm (str "ChecksumAlgorithm"));
    if_some (MultipartUpload_checksum_type self) (s_content ser_ChecksumType (str "ChecksumType"));
    if_some (MultipartUpload_initiated self) (fun val => s_timestamp (str "Initiated") val DateTime);
    if_some (MultipartUpload_initiator self) (s_content ser_Initiator (str "Initiator"));
    if_some (MultipartUpload_key self) (s_content ser_str (str "Key"));
    if_some (MultipartUpload_owner self) (s_content ser_Owner (str "Owner"));
    if_some (MultipartUpload_storage_class self) (s_content ser_StorageClass (str "StorageClass"));
    if_some (MultipartUpload_upload_id self) (s_content ser_str (str "UploadId"))].
Definition de_MultipartUpload `{XmlDeps} : De MultipartUpload := de_struct false
   (arm_once (str "ChecksumAlgorithm") de_ChecksumAlgorithm
    (arm_once (str "ChecksumType") de_ChecksumType
    (arm_once (str "Initiated") (de_timestamp DateTime)
    (arm_once (str "Initiator") de_Initiator
    (arm_once (str "Key") de_string
    (arm_once (str "Owner") de_Owner
    (arm_once (str "StorageClass") de_StorageClass
    (arm_once (str "UploadId") de_string
    no_arms))))))))
    (fun '(checksum_algorithm, (checksum_type, (initiated, (initiator, (key, (owner, (storage_class, (upload_id, tt)))))))) =>
      Ok {| MultipartUpload_checksum_algorithm := checksum_algorithm;
         MultipartUpload_checksum_type := checksum_type;
         MultipartUpload_initiated := initiated;
         MultipartUpload_initiator := initiator;
         MultipartUpload_key := key;
         MultipartUpload_owner := owner;
         MultipartUpload_storage_class := storage_class;
         MultipartUpload_upload_id := upload_id |}).
Definition MultipartUpload_wf (self : MultipartUpload) : Prop :=
  from_option string_wf True (MultipartUpload_checksum_algorithm self) /\
  from_option string_wf True (MultipartUpload_checksum_type self) /\
  from_option (timestamp_wf DateTime) True (MultipartUpload_initiated self) /\
  from_option Initiator_wf True (MultipartUpload_initiator self) /\
  from_option string_wf True (MultipartUpload_key self) /\
  from_option Owner_wf True (MultipartUpload_owner self) /\
  from_option string_wf True (MultipartUpload_storage_class self) /\
  from_option string_wf True (MultipartUpload_upload_id self).
#[global] Instance MultipartUpload_rt `{XmlDeps} : RoundTrip ser_MultipartUpload de_MultipartUpload MultipartUpload_wf.
Proof. solve_struct (fun self : MultipartUpload => (MultipartUpload_checksum_algorithm self, (MultipartUpload_checksum_type self, (MultipartUpload_initiated self, (MultipartUpload_initiator self, (MultipartUpload_key self, (MultipartUpload_owner self, (MultipartUpload_storage_class self, (MultipartUpload_upload_id self, tt))))))))). Qed.
Lemma de_MultipartUpload_well `{XmlDeps} : well de_MultipartUpload.
Proof. solve_well. Qed.
#[export] Hint Resolve de_MultipartUpload_well : de.
#[global] Typeclasses Opaque ser_MultipartUpload de_MultipartUpload.

Definition ObjectStorageClass : Type := bytes.
Definition ser_ObjectStorageClass (self : ObjectStorageClass) : Ser := ser_str self.
Definition de_ObjectStorageClass : De ObjectStorageClass := de_enum [str "AWS_BACKUP_LOW_COST_WARM"; str "AWS_BACKUP_WARM"; str "DEEP_ARCHIVE"; str "EXPRESS_ONEZONE"; str "FSX_ONTAP"; str "FSX_OPENZFS"; str "GLACIER"; str "GLACIER_IR"; str "INTELLIGENT_TIERING"; str "ONEZONE_IA"; str "OUTPOSTS"; str "REDUCED_REDUNDANCY"; str "SNOW"; str "STANDARD"; str "STANDARD_IA"].
#[global] Instance ObjectStorageClass_rt : RoundTrip ser_ObjectStorageClass de_ObjectStorageClass string_wf := enum_rt _.
Lemma de_ObjectStorageClass_well : well de_ObjectStorageClass.
Proof. apply de_enum_well. Qed.
#[export] Hint Resolve de_ObjectStorageClass_well : de.
#[global] Typeclasses Opaque ser_ObjectStorageClass de_ObjectStorageClass.

Record RestoreStatus := mk_RestoreStatus {
  RestoreStatus_is_restore_in_progress : option bool;
  RestoreStatus_restore_expiry_date : option Timestamp
}.
Definition ser_RestoreStatus `{XmlDeps} (self : RestoreStatus) : Ser :=
  s_seq [
    if_some (RestoreStatus_is_restore_in_progress self) (s_content ser_bool (str "IsRestoreInProgress"));
    if_some (RestoreStatus_restore_expiry_date self) (fun val => s_timestamp (str "RestoreExpiryDate") val DateTime)].
Definition de_RestoreStatus `{XmlDeps} : De RestoreStatus := de_struct false
   (arm_once (str "IsRestoreInProgress") de_bool
    (arm_once (str "RestoreExpiryDate") (de_timestamp DateTime)
    no_arms))
    (fun '(is_restore_in_progress, (restore_expiry_date, tt)) =>
      Ok {| RestoreStatus_is_restore_in_progress := is_restore_in_progress;
         RestoreStatus_restore_expiry_date := restore_expiry_date |}).
Definition RestoreStatus_wf (self : RestoreStatus) : Prop :=
  from_option bool_wf True (RestoreStatus_is_restore_in_progress self) /\
  from_option (timestamp_wf DateTime) True (RestoreStatus_restore_expiry_date self).
#[global] Instance RestoreStatus_rt `{XmlDeps} : RoundTrip ser_RestoreStatus de_RestoreStatus RestoreStatus_wf.
Proof. solve_struct (fun self : RestoreStatus => (RestoreStatus_is_restore_in_progress self, (RestoreStatus_restore_expiry_date self, tt))). Qed.
Lemma de_RestoreStatus_well `{XmlDeps} : well de_RestoreStatus.
Proof. solve_well. Qed.
#[export] Hint Resolve de_RestoreStatus_well : de.
#[global] Typeclasses Opaque ser_RestoreStatus de_RestoreStatus.

Record Object := mk_Object {
  Object_checksum_algorithm : option (list ChecksumAlgorithm);
  Object_checksum_type : option ChecksumType;
  Object_e_tag : option ETag;
  Object_key : option bytes;
  Object_last_modified : option Timestamp;
  Object_owner : option Owner;
  Object_restore_status : option RestoreStatus;
  Object_size : option Z;
  Object_storage_class : option ObjectStorageClass
}.
Definition ser_Object `{XmlDeps} (self : Object) : Ser :=
  s_seq [
    if_some (Object_checksum_algorithm self) (s_flattened_list ser_ChecksumAlgorithm (str "ChecksumAlgorithm"));
    if_some (Object_checksum_type self) (s_content ser_ChecksumType (str "ChecksumType"));
    if_some (Object_e_tag self) (s_content ser_ETag (str "ETag"));
    if_some (Object_key self) (s_content ser_str (str "Key"));
    if_some (Object_last_modified self) (fun val => s_timestamp (str "LastModified") val DateTime);
    if_some (Object_owner self) (s_content ser_Owner (str "Owner"));
    if_some (Object_restore_status self) (s_content ser_RestoreStatus (str "RestoreStatus"));
    if_some (Object_size self) (s_content ser_i64 (str "Size"));
    if_some (Object_storage_class self) (s_content ser_ObjectStorageClass (str "StorageClass"))].
Definition de_Object `{XmlDeps} : De Object := de_struct false
   (arm_push (str "ChecksumAlgorithm") de_ChecksumAlgorithm
    (arm_once (str "ChecksumType") de_ChecksumType
    (arm_once (str "ETag") de_ETag
    (arm_once (str "Key") de_string
    (arm_once (str "LastModified") (de_timestamp DateTime)
    (arm_once (str "Owner") de_Owner
    (arm_once (str "RestoreStatus") de_RestoreStatus
    (arm_once (str "Size") de_i64
    (arm_once (str "StorageClass") de_ObjectStorageClass
    no_arms)))))))))
    (fun '(checksum_algorithm, (checksum_type, (e_tag, (key, (last_modified, (owner, (restore_status, (size, (storage_class, tt))))))))) =>
      Ok {| Object_checksum_algorithm := checksum_algorithm;
         Object_checksum_type := checksum_type;
         Object_e_tag := e_tag;
         Object_key := key;
         Object_last_modified := last_modified;
         Object_owner := owner;
         Object_restore_status := restore_status;
         Object_size := size;
         Object_storage_class := storage_class |}).
Definition Object_wf (self : Object) : Prop :=
  from_option (fun l => Forall string_wf l /\ l <> []) True (Object_checksum_algorithm self) /\
  from_option string_wf True (Object_checksum_type self) /\
  from_option ETag_wf True (Object_e_tag self) /\
  from_option string_wf True (Object_key self) /\
  from_option (timestamp_wf DateTime) True (Object_last_modified self) /\
  from_option Owner_wf True (Object_owner self) /\
  from_option RestoreStatus_wf True (Object_restore_status self) /\
  from_option i64_wf True (Object_size self) /\
  from_option string_wf True (Object_storage_class self).
#[global] Instance Object_rt `{XmlDeps} : RoundTrip ser_Object de_Object Object_wf.
Proof. solve_struct (fun self : Object => (Object_checksum_algorithm self, (Object_checksum_type self, (Object_e_tag self, (Object_key self, (Object_last_modified self, (Object_owner self, (Object_restore_status self, (Object_size self, (Object_storage_class self, tt)))))))))). Qed.
Lemma de_Object_well `{XmlDeps} : well de_Object.
Proof. solve_well. Qed.
#[export] Hint Resolve de_Object_well : de.
#[global] Typeclasses Opaque ser_Object de_Object.

Definition ObjectVersionStorageClass : Type := bytes.
Definition ser_ObjectVersionStorageClass (self : ObjectVersionStorageClass) : Ser := ser_str self.
Definition de_ObjectVersionStorageClass : De ObjectVersionStorageClass := de_enum [str "STANDARD"].
#[global] Instance ObjectVersionStorageClass_rt : RoundTrip ser_ObjectVersionStorageClass de_ObjectVersionStorageClass string_wf := enum_rt _.
Lemma de_ObjectVersionStorageClass_well : well de_ObjectVersionStorageClass.
Proof. apply de_enum_well. Qed.
#[export] Hint Resolve de_ObjectVersionStorageClass_well : de.
#[global] Typeclasses Opaque ser_ObjectVersionStorageClass de_ObjectVersionStorageClass.

Record ObjectVersion := mk_ObjectVersion {
  ObjectVersion_checksum_algorithm : option (list ChecksumAlgorithm);
  ObjectVersion_checksum_type : option ChecksumType;
  ObjectVersion_e_tag : option ETag;
  ObjectVersion_is_latest : option bool;
  ObjectVersion_key : option bytes;
  ObjectVersion_last_modified : option Timestamp;
  ObjectVersion_owner : option Owner;
  ObjectVersion_restore_status : option RestoreStatus;
  ObjectVersion_size : option Z;
  ObjectVersion_storage_class : option ObjectVersionStorageClass;
  ObjectVersion_version_id : option bytes
}.
Definition ser_ObjectVersion `{XmlDeps} (self : ObjectVersion) : Ser :=
  s_seq [
    if_some (ObjectVersion_checksum_algorithm self) (s_flattened_list ser_ChecksumAlgorithm (str "ChecksumAlgorithm"));
    if_some (ObjectVersion_checksum_type self) (s_content ser_ChecksumType (str "ChecksumType"));
    if_some (ObjectVersion_e_tag self) (s_content ser_ETag (str "ETag"));
    if_some (ObjectVersion_is_latest self) (s_content ser_bool (str "IsLatest"));
    if_some (ObjectVersion_key self) (s_content ser_str (str "Key"));
    if_some (ObjectVersion_last_modified self) (fun val => s_timestamp (str "LastModified") val DateTime);
    if_some (ObjectVersion_owner self) (s_content ser_Owner (str "Owner"));
    if_some (ObjectVersion_restore_status self) (s_content ser_RestoreStatus (str "RestoreStatus"));
    if_some (ObjectVersion_size self) (s_content ser_i64 (str "Size"));
    if_some (ObjectVersion_storage_class self) (s_content ser_ObjectVersionStorageClass (str "StorageClass"));
    if_some (ObjectVersion_version_id self) (s_content ser_str (str "VersionId"))].
Definition de_ObjectVersion `{XmlDeps} : De ObjectVersion := de_struct false
   (arm_push (str "ChecksumAlgorithm") de_ChecksumAlgorithm
    (arm_once (str "ChecksumType") de_ChecksumType
    (arm_once (str "ETag") de_ETag
    (arm_once (str "IsLatest") de_bool
    (arm_once (str "Key") de_string
    (arm_once (str "LastModified") (de_timestamp DateTime)
    (arm_once (str "Owner") de_Owner
    (arm_once (str "RestoreStatus") de_RestoreStatus
    (arm_once (str "Size") de_i64
    (arm_once (str "StorageClass") de_ObjectVersionStorageClass
    (arm_once (str "VersionId") de_string
    no_arms)))))))))))
    (fun '(checksum_algorithm, (checksum_type, (e_tag, (is_latest, (key, (last_modified, (owner, (restore_status, (size, (storage_class, (version_id, tt))))))))))) =>
      Ok {| ObjectVersion_checksum_algorithm := checksum_algorithm;
         ObjectVersion_checksum_type := checksum_type;
         ObjectVersion_e_tag := e_tag;
         ObjectVersion_is_latest := is_latest;
         ObjectVersion_key := key;
         ObjectVersion_last_modified := last_modified;
         ObjectVersion_owner := owner;
         ObjectVersion_restore_status := restore_status;
         ObjectVersion_size := size;
         ObjectVersion_storage_class := storage_class;
         ObjectVersion_version_id := version_id |}).
Definition ObjectVersion_wf (self : ObjectVersion) : Prop :=
  from_option (fun l => Forall string_wf l /\ l <> []) True (ObjectVersion_checksum_algorithm self) /\
  from_option string_wf True (ObjectVersion_checksum_type self) /\
  from_option ETag_wf True (ObjectVersion_e_tag self) /\
  from_option bool_wf True (ObjectVersion_is_latest self) /\
  from_option string_wf True (ObjectVersion_key self) /\
  from_option (timestamp_wf DateTime) True (ObjectVersion_last_modified self) /\
  from_option Owner_wf True (ObjectVersion_owner self) /\
  from_option RestoreStatus_wf True (ObjectVersion_restore_status self) /\
  from_option i64_wf True (ObjectVersion_size self) /\
  from_option string_wf True (ObjectVersion_storage_class self) /\
  from_option string_wf True (ObjectVersion_version_id self).
#[global] Instance ObjectVersion_rt `{XmlDeps} : RoundTrip ser_ObjectVersion de_ObjectVersion ObjectVersion_wf.
Proof. solve_struct (fun self : ObjectVersion => (ObjectVersion_checksum_algorithm self, (ObjectVersion_checksum_type self, (ObjectVersion_e_tag self, (ObjectVersion_is_latest self, (ObjectVersion_key self, (ObjectVersion_last_modified self, (ObjectVersion_owner self, (ObjectVersion_restore_status self, (ObjectVersion_size self, (ObjectVersion_storage_class self, (ObjectVersion_version_id self, tt)))))))))))). Qed.
Lemma de_ObjectVersion_well `{XmlDeps} : well de_ObjectVersion.
Proof. solve_well. Qed.
#[export] Hint Resolve de_ObjectVersion_well : de.
#[global] Typeclasses Opaque ser_ObjectVersion de_ObjectVersion.

Record PartInfo := mk_PartInfo {
  PartInfo_checksum_crc32 : option bytes;
  PartInfo_checksum_crc32c : option bytes;
  PartInfo_checksum_crc64nvme : option bytes;
  PartInfo_checksum_md5 : option bytes;
  PartInfo_checksum_sha1 : option bytes;
  PartInfo_checksum_sha256 : option bytes;
  PartInfo_checksum_sha512 : option bytes;
  PartInfo_checksum_xxhash128 : option bytes;
  PartInfo_checksum_xxhash3 : option bytes;
  PartInfo_checksum_xxhash64 : option bytes;
  PartInfo_e_tag : option ETag;
  PartInfo_last_modified : option Timestamp;
  PartInfo_part_number : option Z;
  PartInfo_size : option Z
}.
Definition ser_Part `{XmlDeps} (self : PartInfo) : Ser :=
  s_seq [
    if_some (PartInfo_checksum_crc32 self) (s_content ser_str (str "ChecksumCRC32"));
    if_some (PartInfo_checksum_crc32c self) (s_content ser_str (str "ChecksumCRC32C"));
    if_some (PartInfo_checksum_crc64nvme self) (s_content ser_str (str "ChecksumCRC64NVME"));
    if_some (PartInfo_checksum_md5 self) (s_content ser_str (str "ChecksumMD5"));
    if_some (PartInfo_checksum_sha1 self) (s_content ser_str (str "ChecksumSHA1"));
    if_some (PartInfo_checksum_sha256 self) (s_content ser_str (str "ChecksumSHA256"));
    if_some (PartInfo_checksum_sha512 self) (s_content ser_str (str "ChecksumSHA512"));
    if_some (PartInfo_checksum_xxhash128 self) (s_content ser_str (str "ChecksumXXHASH128"));
    if_some (PartInfo_checksum_xxhash3 self) (s_content ser_str (str "ChecksumXXHASH3"));
    if_some (PartInfo_checksum_xxhash64 self) (s_content ser_str (str "ChecksumXXHASH64"));
    if_some (PartInfo_e_tag self) (s_content ser_ETag (str "ETag"));
    if_some (PartInfo_last_modified self) (fun val => s_timestamp (str "LastModified") val DateTime);
    if_some (PartInfo_part_number self) (s_content ser_i32 (str "PartNumber"));
    if_some (PartInfo_size self) (s_content ser_i64 (str "Size"))].
Definition de_Part `{XmlDeps} : De PartInfo := de_struct false
   (arm_once (str "ChecksumCRC32") de_string
    (arm_once (str "ChecksumCRC32C") de_string
    (arm_once (str "ChecksumCRC64NVME") de_string
    (arm_once (str "ChecksumMD5") de_string
    (arm_once (str "ChecksumSHA1") de_string
    (arm_once (str "ChecksumSHA256") de_string
    (arm_once (str "ChecksumSHA512") de_string
    (arm_once (str "ChecksumXXHASH128") de_string
    (arm_once (str "ChecksumXXHASH3") de_string
    (arm_once (str "ChecksumXXHASH64") de_string
    (arm_once (str "ETag") de_ETag
    (arm_once (str "LastModified") (de_timestamp DateTime)
    (arm_once (str "PartNumber") de_i32
    (arm_once (str "Size") de_i64
    no_arms))))))))))))))
    (fun '(checksum_crc32, (checksum_crc32c, (checksum_crc64nvme, (checksum_md5, (checksum_sha1, (checksum_sha256, (checksum_sha512, (checksum_xxhash128, (checksum_xxhash3, (checksum_xxhash64, (e_tag, (last_modified, (part_number, (size, tt)))))))))))))) =>
      Ok {| PartInfo_checksum_crc32 := checksum_crc32;
         PartInfo_checksum_crc32c := checksum_crc32c;
         PartInfo_checksum_crc64nvme := checksum_crc64nvme;
         PartInfo_checksum_md5 := checksum_md5;
         PartInfo_checksum_sha1 := checksum_sha1;
         PartInfo_checksum_sha256 := checksum_sha256;
         PartInfo_checksum_sha512 := checksum_sha512;
         PartInfo_checksum_xxhash128 := checksum_xxhash128;
         PartInfo_checksum_xxhash3 := checksum_xxhash3;
         PartInfo_checksum_xxhash64 := checksum_xxhash64;
         PartInfo_e_tag := e_tag;
         PartInfo_last_modified := last_modified;
         PartInfo_part_number := part_number;
         PartInfo_size := size |}).
Definition PartInfo_wf (self : PartInfo) : Prop :=
  from_option string_wf True (PartInfo_checksum_crc32 self) /\
  from_option string_wf True (PartInfo_checksum_crc32c self) /\
  from_option string_wf True (PartInfo_checksum_crc64nvme self) /\
  from_option string_wf True (PartInfo_checksum_md5 self) /\
  from_option string_wf True (PartInfo_checksum_sha1 self) /\
  from_option string_wf True (PartInfo_checksum_sha256 self) /\
  from_option string_wf True (PartInfo_checksum_sha512 self) /\
  from_option string_wf True (PartInfo_checksum_xxhash128 self) /\
  from_option string_wf True (PartInfo_checksum_xxhash3 self) /\
  from_option string_wf True (PartInfo_checksum_xxhash64 self) /\
  from_option ETag_wf True (PartInfo_e_tag self) /\
  from_option (timestamp_wf DateTime) True (PartInfo_last_modified self) /\
  from_option i32_wf True (PartInfo_part_number self) /\
  from_option i64_wf True (PartInfo_size self).
#[global] Instance PartInfo_rt `{XmlDeps} : RoundTrip ser_Part de_Part PartInfo_wf.
Proof. solve_struct (fun self : PartInfo => (PartInfo_checksum_crc32 self, (PartInfo_checksum_crc32c self, (PartInfo_checksum_crc64nvme self, (PartInfo_checksum_md5 self, (PartInfo_checksum_sha1 self, (PartInfo_checksum_sha256 self, (PartInfo_checksum_sha512 self, (PartInfo_checksum_xxhash128 self, (PartInfo_checksum_xxhash3 self, (PartInfo_checksum_xxhash64 self, (PartInfo_e_tag self, (PartInfo_last_modified self, (PartInfo_part_number self, (PartInfo_size self, tt))))))))))))))). Qed.
Lemma de_Part_well `{XmlDeps} : well de_Part.
Proof. solve_well. Qed.
#[export] Hint Resolve de_Part_well : de.
#[global] Typeclasses Opaque ser_Part de_Part.

Record SessionCredentials := mk_SessionCredentials {
  SessionCredentials_access_key_id : bytes;
  SessionCredentials_expiration : Timestamp;
  SessionCredentials_secret_access_key : bytes;
  SessionCredentials_session_token : bytes
}.
Definition ser_SessionCredentials `{XmlDeps} (self : SessionCredentials) : Ser :=
  s_seq [
    s_content ser_str (str "AccessKeyId") (SessionCredentials_access_key_id self);
    s_timestamp (str "Expiration") (SessionCredentials_expiration self) DateTime;
    s_content ser_str (str "SecretAccessKey") (SessionCredentials_secret_access_key self);
    s_content ser_str (str "SessionToken") (SessionCredentials_session_token self)].
Definition de_SessionCredentials `{XmlDeps} : De SessionCredentials := de_struct false
   (arm_once (str "AccessKeyId") de_string
    (arm_once (str "Expiration") (de_timestamp DateTime)
    (arm_once (str "SecretAccessKey") de_string
    (arm_once (str "SessionToken") de_string
    no_arms))))
    (fun '(access_key_id, (expiration, (secret_access_key, (session_token, tt)))) =>
      access_key_id ← required access_key_id;
      expiration ← required expiration;
      secret_access_key ← required secret_access_key;
      session_token ← required session_token;
      Ok {| SessionCredentials_access_key_id := access_key_id;
         SessionCredentials_expiration := expiration;
         SessionCredentials_secret_access_key := secret_access_key;
         SessionCredentials_session_token := session_token |}).
Definition SessionCredentials_wf (self : SessionCredentials) : Prop :=
  string_wf (SessionCredentials_access_key_id self) /\
  (timestamp_wf DateTime) (SessionCredentials_expiration self) /\
  string_wf (SessionCredentials_secret_access_key self) /\
  string_wf (SessionCredentials_session_token self).
#[global] Instance SessionCredentials_rt `{XmlDeps} : RoundTrip ser_SessionCredentials de_SessionCredentials SessionCredentials_wf.
Proof. solve_struct (fun self : SessionCredentials => (Some (SessionCredentials_access_key_id self), (Some (SessionCredentials_expiration self), (Some (SessionCredentials_secret_access_key self), (Some (SessionCredentials_session_token self), tt))))). Qed.
Lemma de_SessionCredentials_well `{XmlDeps} : well de_SessionCredentials.
Proof. solve_well. Qed.
#[export] Hint Resolve de_SessionCredentials_well : de.
#[global] Typeclasses Opaque ser_SessionCredentials de_SessionCredentials.
