(* ===== verification/XmlOutputs.v ===== *)
(** * XML outputs (crates/s3s/src/xml/generated.rs, the structures that are only written)

    The outputs of operations that have fields in headers as well: there is no deserializer for
    them, a part of the fields is written to the body.  A client that takes exactly the elements
    named in the arms [arms_X], and refuses any other and a second one of a field that is no
    flattened list, finds the fields of the output that belong to the body, [vars_X].  The future
    of [CompleteMultipartUploadOutput] is not part of its document and is left out here. *)

From S2P Require Import Prelude.
From S2P Require Import Str.
From S2P Require Import Utf8.
From S2P Require Import Timestamp.
From S2P Require Import ETag.
From S2P Require Import Xml.
From S2P Require Import XmlStruct.
From S2P Require Import XmlDtoA.
From S2P Require Import XmlDtoB.
From S2P Require Import XmlDtoC.

(** The document of a value, read by its arms, is the view of the value. *)
Class ReadsAs {T S} (ser : T -> Ser) (a : arms S) (vars : T -> S) (wf : T -> Prop) : Prop :=
  reads_as v : wf v -> exists os, ser v = Some os /\ out_ok false os /\ reads (de_struct false a Ok) (devs os) (vars v).

Lemma written_reads {T S} (ser : T -> Ser) (a : arms S) (vars : T -> S) (wf : T -> Prop) (xs : T -> list Ser) :
  arms_well a -> bool_decide (NoDup (arm_names a)) = true ->
  (forall v, ser v = s_seq (xs v)) -> (forall v, wf v -> written a (xs v) (vars v)) -> ReadsAs ser a vars wf.
Proof.
  intros Ha Hnd Hs Hw v Hv. rewrite Hs. apply bool_decide_eq_true in Hnd.
  pose proof (fun s x (st : BytesStart) => run_arms_well false a Ha s x) as Hf.
  apply (struct_rt (fun s x _ => run_arms false a s x) Hf (fun _ => s_seq (xs v)) _ (vars v) (unset a) (vars v) (fun s => de_lift (Ok s)) (xs v));
    [done|done| |done].
  apply (written_fields false (fun s x _ => run_arms false a s x) a _ _ Hf (Hw v Hv) Hnd (fun s => s)). intros s x st d _.
  unfold mbind, De_bind, mret, De_ret. by destruct (run_arms false a s x d) as [[[? ?]|]|].
Qed.

(** A field that is written as a string it contains. *)
Lemma w_opt_of {A S} n (show : A -> bytes) (rest : arms S) v xs s :
  name_ok n = true -> from_option string_wf True (show <$> v) -> written rest xs s ->
  written (arm_once n de_string rest) (if_some v (fun val => s_content ser_str n (show val)) :: xs) (show <$> v, s).
Proof.
  intros Hn Hv Hr. replace (if_some v _) with (if_some (show <$> v) (s_content ser_str n)) by (by destruct v).
  by apply (w_opt n ser_str _ string_wf); [apply _|..].
Qed.

Ltac solve_output :=
  eapply written_reads;
  [ simpl; repeat split; auto with de nocore
  | vm_compute; reflexivity
  | intros; reflexivity
  | let self := fresh "self" in let H := fresh "H" in intros self H;
    match type of H with ?wf _ => unfold wf in H end; destruct_and? H;
    match goal with |- written ?a ?xs (?vars _) => unfold vars; let a' := eval hnf in a in change a with a' end;
    solve_written; try (eapply w_opt_of; [vm_compute; reflexivity|eassumption|]; solve_written) ].

Definition RequestCharged : Type := bytes.
Definition TransitionDefaultMinimumObjectSize : Type := bytes.

Record CompleteMultipartUploadOutput := mk_CompleteMultipartUploadOutput {
  CompleteMultipartUploadOutput_bucket : option bytes;
  CompleteMultipartUploadOutput_bucket_key_enabled : option bool;
  CompleteMultipartUploadOutput_checksum_crc32 : option bytes;
  CompleteMultipartUploadOutput_checksum_crc32c : option bytes;
  CompleteMultipartUploadOutput_checksum_crc64nvme : option bytes;
  CompleteMultipartUploadOutput_checksum_md5 : option bytes;
  CompleteMultipartUploadOutput_checksum_sha1 : option bytes;
  CompleteMultipartUploadOutput_checksum_sha256 : option bytes;
  CompleteMultipartUploadOutput_checksum_sha512 : option bytes;
  CompleteMultipartUploadOutput_checksum_type : option ChecksumType;
  CompleteMultipartUploadOutput_checksum_xxhash128 : option bytes;
  CompleteMultipartUploadOutput_checksum_xxhash3 : option bytes;
  CompleteMultipartUploadOutput_checksum_xxhash64 : option bytes;
  CompleteMultipartUploadOutput_e_tag : option ETag;
  CompleteMultipartUploadOutput_expiration : option bytes;
  CompleteMultipartUploadOutput_key : option bytes;
  CompleteMultipartUploadOutput_location : option bytes;
  CompleteMultipartUploadOutput_request_charged : option RequestCharged;
  CompleteMultipartUploadOutput_ssekms_key_id : option bytes;
  CompleteMultipartUploadOutput_server_side_encryption : option ServerSideEncryption;
  CompleteMultipartUploadOutput_version_id : option bytes
}.
Definition ser_CompleteMultipartUploadOutput (self : CompleteMultipartUploadOutput) : Ser :=
  s_seq [
    if_some (CompleteMultipartUploadOutput_bucket self) (s_content ser_str (str "Bucket"));
    if_some (CompleteMultipartUploadOutput_checksum_crc32 self) (s_content ser_str (str "ChecksumCRC32"));
    if_some (CompleteMultipartUploadOutput_checksum_crc32c self) (s_content ser_str (str "ChecksumCRC32C"));
    if_some (CompleteMultipartUploadOutput_checksum_crc64nvme self) (s_content ser_str (str "ChecksumCRC64NVME"));
    if_some (CompleteMultipartUploadOutput_checksum_md5 self) (s_content ser_str (str "ChecksumMD5"));
    if_some (CompleteMultipartUploadOutput_checksum_sha1 self) (s_content ser_str (str "ChecksumSHA1"));
    if_some (CompleteMultipartUploadOutput_checksum_sha256 self) (s_content ser_str (str "ChecksumSHA256"));
    if_some (CompleteMultipartUploadOutput_checksum_sha512 self) (s_content ser_str (str "ChecksumSHA512"));
    if_some (CompleteMultipartUploadOutput_checksum_type self) (s_content ser_ChecksumType (str "ChecksumType"));
    if_some (CompleteMultipartUploadOutput_checksum_xxhash128 self) (s_content ser_str (str "ChecksumXXHASH128"));
    if_some (CompleteMultipartUploadOutput_checksum_xxhash3 self) (s_content ser_str (str "ChecksumXXHASH3"));
    if_some (CompleteMultipartUploadOutput_checksum_xxhash64 self) (s_content ser_str (str "ChecksumXXHASH64"));
    if_some (CompleteMultipartUploadOutput_e_tag self) (s_content ser_ETag (str "ETag"));
    if_some (CompleteMultipartUploadOutput_key self) (s_content ser_str (str "Key"));
    if_some (CompleteMultipartUploadOutput_location self) (s_content ser_str (str "Location"))].
Definition arms_CompleteMultipartUploadOutput `{XmlDeps} :=
   (arm_once (str "Bucket") de_string
    (arm_once (str "ChecksumCRC32") de_string
    (arm_once (str "ChecksumCRC32C") de_string
    (arm_once (str "ChecksumCRC64NVME") de_string
    (arm_once (str "ChecksumMD5") de_string
    (arm_once (str "ChecksumSHA1") de_string
    (arm_once (str "ChecksumSHA256") de_string
    (arm_once (str "ChecksumSHA512") de_string
    (arm_once (str "ChecksumType") de_ChecksumType
    (arm_once (str "ChecksumXXHASH128") de_string
    (arm_once (str "ChecksumXXHASH3") de_string
    (arm_once (str "ChecksumXXHASH64") de_string
    (arm_once (str "ETag") de_ETag
    (arm_once (str "Key") de_string
    (arm_once (str "Location") de_string
    no_arms))))))))))))))).
Definition CompleteMultipartUploadOutput_wf (self : CompleteMultipartUploadOutput) : Prop :=
  from_option string_wf True (CompleteMultipartUploadOutput_bucket self) /\
  from_option string_wf True (CompleteMultipartUploadOutput_checksum_crc32 self) /\
  from_option string_wf True (CompleteMultipartUploadOutput_checksum_crc32c self) /\
  from_option string_wf True (CompleteMultipartUploadOutput_checksum_crc64nvme self) /\
  from_option string_wf True (CompleteMultipartUploadOutput_checksum_md5 self) /\
  from_option string_wf True (CompleteMultipartUploadOutput_checksum_sha1 self) /\
  from_option string_wf True (CompleteMultipartUploadOutput_checksum_sha256 self) /\
  from_option string_wf True (CompleteMultipartUploadOutput_checksum_sha512 self) /\
  from_option string_wf True (CompleteMultipartUploadOutput_checksum_type self) /\
  from_option string_wf True (CompleteMultipartUploadOutput_checksum_xxhash128 self) /\
  from_option string_wf True (CompleteMultipartUploadOutput_checksum_xxhash3 self) /\
  from_option string_wf True (CompleteMultipartUploadOutput_checksum_xxhash64 self) /\
  from_option ETag_wf True (CompleteMultipartUploadOutput_e_tag self) /\
  from_option string_wf True (CompleteMultipartUploadOutput_key self) /\
  from_option string_wf True (CompleteMultipartUploadOutput_location self).
Definition vars_CompleteMultipartUploadOutput (self : CompleteMultipartUploadOutput) := (CompleteMultipartUploadOutput_bucket self, (CompleteMultipartUploadOutput_checksum_crc32 self, (CompleteMultipartUploadOutput_checksum_crc32c self, (CompleteMultipartUploadOutput_checksum_crc64nvme self, (CompleteMultipartUploadOutput_checksum_md5 self, (CompleteMultipartUploadOutput_checksum_sha1 self, (CompleteMultipartUploadOutput_checksum_sha256 self, (CompleteMultipartUploadOutput_checksum_sha512 self, (CompleteMultipartUploadOutput_checksum_type self, (CompleteMultipartUploadOutput_checksum_xxhash128 self, (CompleteMultipartUploadOutput_checksum_xxhash3 self, (CompleteMultipartUploadOutput_checksum_xxhash64 self, (CompleteMultipartUploadOutput_e_tag self, (CompleteMultipartUploadOutput_key self, (CompleteMultipartUploadOutput_location self, tt))))))))))))))).
#[global] Instance CompleteMultipartUploadOutput_reads `{XmlDeps} : ReadsAs ser_CompleteMultipartUploadOutput arms_CompleteMultipartUploadOutput vars_CompleteMultipartUploadOutput CompleteMultipartUploadOutput_wf.
Proof. solve_output. Qed.
#[global] Typeclasses Opaque ser_CompleteMultipartUploadOutput.

Record CreateMultipartUploadOutput := mk_CreateMultipartUploadOutput {
  CreateMultipartUploadOutput_abort_date : option Timestamp;
  CreateMultipartUploadOutput_abort_rule_id : option bytes;
  CreateMultipartUploadOutput_bucket : option bytes;
  CreateMultipartUploadOutput_bucket_key_enabled : option bool;
  CreateMultipartUploadOutput_checksum_algorithm : option ChecksumAlgorithm;
  CreateMultipartUploadOutput_checksum_type : option ChecksumType;
  CreateMultipartUploadOutput_key : option bytes;
  CreateMultipartUploadOutput_request_charged : option RequestCharged;
  CreateMultipartUploadOutput_sse_customer_algorithm : option bytes;
  CreateMultipartUploadOutput_sse_customer_key_md5 : option bytes;
  CreateMultipartUploadOutput_ssekms_encryption_context : option bytes;
  CreateMultipartUploadOutput_ssekms_key_id : option bytes;
  CreateMultipartUploadOutput_server_side_encryption : option ServerSideEncryption;
  CreateMultipartUploadOutput_upload_id : option bytes
}.
Definition ser_CreateMultipartUploadOutput (self : CreateMultipartUploadOutput) : Ser :=
  s_seq [
    if_some (CreateMultipartUploadOutput_bucket self) (s_content ser_str (str "Bucket"));
    if_some (CreateMultipartUploadOutput_key self) (s_content ser_str (str "Key"));
    if_some (CreateMultipartUploadOutput_upload_id self) (s_content ser_str (str "UploadId"))].
Definition arms_CreateMultipartUploadOutput :=
   (arm_once (str "Bucket") de_string
    (arm_once (str "Key") de_string
    (arm_once (str "UploadId") de_string
    no_arms))).
Definition CreateMultipartUploadOutput_wf (self : CreateMultipartUploadOutput) : Prop :=
  from_option string_wf True (CreateMultipartUploadOutput_bucket self) /\
  from_option string_wf True (CreateMultipartUploadOutput_key self) /\
  from_option string_wf True (CreateMultipartUploadOutput_upload_id self).
Definition vars_CreateMultipartUploadOutput (self : CreateMultipartUploadOutput) := (CreateMultipartUploadOutput_bucket self, (CreateMultipartUploadOutput_key self, (CreateMultipartUploadOutput_upload_id self, tt))).
#[global] Instance CreateMultipartUploadOutput_reads : ReadsAs ser_CreateMultipartUploadOutput arms_CreateMultipartUploadOutput vars_CreateMultipartUploadOutput CreateMultipartUploadOutput_wf.
Proof. solve_output. Qed.
#[global] Typeclasses Opaque ser_CreateMultipartUploadOutput.

Record CreateSessionOutput := mk_CreateSessionOutput {
  CreateSessionOutput_bucket_key_enabled : option bool;
  CreateSessionOutput_credentials : SessionCredentials;
  CreateSessionOutput_ssekms_encryption_context : option bytes;
  CreateSessionOutput_ssekms_key_id : option bytes;
  CreateSessionOutput_server_side_encryption : option ServerSideEncryption
}.
Definition ser_CreateSessionOutput `{XmlDeps} (self : CreateSessionOutput) : Ser :=
  s_seq [
    s_content ser_SessionCredentials (str "Credentials") (CreateSessionOutput_credentials self)].
Definition arms_CreateSessionOutput `{XmlDeps} :=
   (arm_once (str "Credentials") de_SessionCredentials
    no_arms).
Definition CreateSessionOutput_wf (self : CreateSessionOutput) : Prop :=
  SessionCredentials_wf (CreateSessionOutput_credentials self).
Definition vars_CreateSessionOutput (self : CreateSessionOutput) := (Some (CreateSessionOutput_credentials self), tt).
#[global] Instance CreateSessionOutput_reads `{XmlDeps} : ReadsAs ser_CreateSessionOutput arms_CreateSessionOutput vars_CreateSessionOutput CreateSessionOutput_wf.
Proof. solve_output. Qed.
#[global] Typeclasses Opaque ser_CreateSessionOutput.

Record DeleteObjectsOutput := mk_DeleteObjectsOutput {
  DeleteObjectsOutput_deleted : option (list DeletedObject);
  DeleteObjectsOutput_errors : option (list DeleteError);
  DeleteObjectsOutput_request_charged : option RequestCharged
}.
Definition ser_DeleteObjectsOutput (self : DeleteObjectsOutput) : Ser :=
  s_seq [
    if_some (DeleteObjectsOutput_deleted self) (s_flattened_list ser_DeletedObject (str "Deleted"));
    if_some (DeleteObjectsOutput_errors self) (s_flattened_list ser_Error (str "Error"))].
Definition arms_DeleteObjectsOutput :=
   (arm_push (str "Deleted") de_DeletedObject
    (arm_push (str "Error") de_Error
    no_arms)).
Definition DeleteObjectsOutput_wf (self : DeleteObjectsOutput) : Prop :=
  from_option (fun l => Forall DeletedObject_wf l /\ l <> []) True (DeleteObjectsOutput_deleted self) /\
  from_option (fun l => Forall DeleteError_wf l /\ l <> []) True (DeleteObjectsOutput_errors self).
Definition vars_DeleteObjectsOutput (self : DeleteObjectsOutput) := (DeleteObjectsOutput_deleted self, (DeleteObjectsOutput_errors self, tt)).
#[global] Instance DeleteObjectsOutput_reads : ReadsAs ser_DeleteObjectsOutput arms_DeleteObjectsOutput vars_DeleteObjectsOutput DeleteObjectsOutput_wf.
Proof. solve_output. Qed.
#[global] Typeclasses Opaque ser_DeleteObjectsOutput.

Record GetBucketAccelerateConfigurationOutput := mk_GetBucketAccelerateConfigurationOutput {
  GetBucketAccelerateConfigurationOutput_request_charged : option RequestCharged;
  GetBucketAccelerateConfigurationOutput_status : option BucketAccelerateStatus
}.
Definition ser_GetBucketAccelerateConfigurationOutput (self : GetBucketAccelerateConfigurationOutput) : Ser :=
  s_seq [
    if_some (GetBucketAccelerateConfigurationOutput_status self) (s_content ser_BucketAccelerateStatus (str "Status"))].
Definition arms_GetBucketAccelerateConfigurationOutput :=
   (arm_once (str "Status") de_BucketAccelerateStatus
    no_arms).
Definition GetBucketAccelerateConfigurationOutput_wf (self : GetBucketAccelerateConfigurationOutput) : Prop :=
  from_option string_wf True (GetBucketAccelerateConfigurationOutput_status self).
Definition vars_GetBucketAccelerateConfigurationOutput (self : GetBucketAccelerateConfigurationOutput) := (GetBucketAccelerateConfigurationOutput_status self, tt).
#[global] Instance GetBucketAccelerateConfigurationOutput_reads : ReadsAs ser_GetBucketAccelerateConfigurationOutput arms_GetBucketAccelerateConfigurationOutput vars_GetBucketAccelerateConfigurationOutput GetBucketAccelerateConfigurationOutput_wf.
Proof. solve_output. Qed.
#[global] Typeclasses Opaque ser_GetBucketAccelerateConfigurationOutput.

Record GetBucketLifecycleConfigurationOutput := mk_GetBucketLifecycleConfigurationOutput {
  GetBucketLifecycleConfigurationOutput_rules : option (list LifecycleRule);
  GetBucketLifecycleConfigurationOutput_transition_default_minimum_object_size : option TransitionDefaultMinimumObjectSize
}.
Definition ser_GetBucketLifecycleConfigurationOutput `{XmlDeps} (self : GetBucketLifecycleConfigurationOutput) : Ser :=
  s_seq [
    if_some (GetBucketLifecycleConfigurationOutput_rules self) (s_flattened_list ser_LifecycleRule (str "Rule"))].
Definition arms_GetBucketLifecycleConfigurationOutput `{XmlDeps} :=
   (arm_push (str "Rule") de_LifecycleRule
    no_arms).
Definition GetBucketLifecycleConfigurationOutput_wf (self : GetBucketLifecycleConfigurationOutput) : Prop :=
  from_option (fun l => Forall LifecycleRule_wf l /\ l <> []) True (GetBucketLifecycleConfigurationOutput_rules self).
Definition vars_GetBucketLifecycleConfigurationOutput (self : GetBucketLifecycleConfigurationOutput) := (GetBucketLifecycleConfigurationOutput_rules self, tt).
#[global] Instance GetBucketLifecycleConfigurationOutput_reads `{XmlDeps} : ReadsAs ser_GetBucketLifecycleConfigurationOutput arms_GetBucketLifecycleConfigurationOutput vars_GetBucketLifecycleConfigurationOutput GetBucketLifecycleConfigurationOutput_wf.
Proof. solve_output. Qed.
#[global] Typeclasses Opaque ser_GetBucketLifecycleConfigurationOutput.

Record GetObjectAclOutput := mk_GetObjectAclOutput {
  GetObjectAclOutput_grants : option (list Grant);
  GetObjectAclOutput_owner : option Owner;
  GetObjectAclOutput_request_charged : option RequestCharged
}.
Definition ser_GetObjectAclOutput (self : GetObjectAclOutput) : Ser :=
  s_seq [
    if_some (GetObjectAclOutput_grants self) (s_list ser_Grant (str "AccessControlList") (str "Grant"));
    if_some (GetObjectAclOutput_owner self) (s_content ser_Owner (str "Owner"))].
Definition arms_GetObjectAclOutput :=
   (arm_once (str "AccessControlList") (list_content de_Grant (str "Grant"))
    (arm_once (str "Owner") de_Owner
    no_arms)).
Definition GetObjectAclOutput_wf (self : GetObjectAclOutput) : Prop :=
  from_option (Forall Grant_wf) True (GetObjectAclOutput_grants self) /\
  from_option Owner_wf True (GetObjectAclOutput_owner self).
Definition vars_GetObjectAclOutput (self : GetObjectAclOutput) := (GetObjectAclOutput_grants self, (GetObjectAclOutput_owner self, tt)).
#[global] Instance GetObjectAclOutput_reads : ReadsAs ser_GetObjectAclOutput arms_GetObjectAclOutput vars_GetObjectAclOutput GetObjectAclOutput_wf.
Proof. solve_output. Qed.
#[global] Typeclasses Opaque ser_GetObjectAclOutput.

Record GetObjectAttributesOutput := mk_GetObjectAttributesOutput {
  GetObjectAttributesOutput_checksum : option Checksum;
  GetObjectAttributesOutput_delete_marker : option bool;
  GetObjectAttributesOutput_e_tag : option ETag;
  GetObjectAttributesOutput_last_modified : option Timestamp;
  GetObjectAttributesOutput_object_parts : option GetObjectAttributesParts;
  GetObjectAttributesOutput_object_size : option Z;
  GetObjectAttributesOutput_request_charged : option RequestCharged;
  GetObjectAttributesOutput_storage_class : option StorageClass;
  GetObjectAttributesOutput_version_id : option bytes
}.
Definition ser_GetObjectAttributesOutput (self : GetObjectAttributesOutput) : Ser :=
  s_seq [
    if_some (GetObjectAttributesOutput_checksum self) (s_content ser_Checksum (str "Checksum"));
    if_some (GetObjectAttributesOutput_e_tag self) (fun val => s_content ser_str (str "ETag") (value val));
    if_some (GetObjectAttributesOutput_object_parts self) (s_content ser_GetObjectAttributesParts (str "ObjectParts"));
    if_some (GetObjectAttributesOutput_object_size self) (s_content ser_i64 (str "ObjectSize"));
    if_some (GetObjectAttributesOutput_storage_class self) (s_content ser_StorageClass (str "StorageClass"))].
Definition arms_GetObjectAttributesOutput `{XmlDeps} :=
   (arm_once (str "Checksum") de_Checksum
    (arm_once (str "ETag") de_string
    (arm_once (str "ObjectParts") de_GetObjectAttributesParts
    (arm_once (str "ObjectSize") de_i64
    (arm_once (str "StorageClass") de_StorageClass
    no_arms))))).
Definition GetObjectAttributesOutput_wf (self : GetObjectAttributesOutput) : Prop :=
  from_option Checksum_wf True (GetObjectAttributesOutput_checksum self) /\
  from_option string_wf True (value <$> (GetObjectAttributesOutput_e_tag self)) /\
  from_option GetObjectAttributesParts_wf True (GetObjectAttributesOutput_object_parts self) /\
  from_option i64_wf True (GetObjectAttributesOutput_object_size self) /\
  from_option string_wf True (GetObjectAttributesOutput_storage_class self).
Definition vars_GetObjectAttributesOutput (self : GetObjectAttributesOutput) := (GetObjectAttributesOutput_checksum self, (value <$> (GetObjectAttributesOutput_e_tag self), (GetObjectAttributesOutput_object_parts self, (GetObjectAttributesOutput_object_size self, (GetObjectAttributesOutput_storage_class self, tt))))).
#[global] Instance GetObjectAttributesOutput_reads `{XmlDeps} : ReadsAs ser_GetObjectAttributesOutput arms_GetObjectAttributesOutput vars_GetObjectAttributesOutput GetObjectAttributesOutput_wf.
Proof. solve_output. Qed.
#[global] Typeclasses Opaque ser_GetObjectAttributesOutput.

Record GetObjectTaggingOutput := mk_GetObjectTaggingOutput {
  GetObjectTaggingOutput_tag_set : list Tag;
  GetObjectTaggingOutput_version_id : option bytes
}.
Definition ser_GetObjectTaggingOutput (self : GetObjectTaggingOutput) : Ser :=
  s_seq [
    s_list ser_Tag (str "TagSet") (str "Tag") (GetObjectTaggingOutput_tag_set self)].
Definition arms_GetObjectTaggingOutput :=
   (arm_once (str "TagSet") (list_content de_Tag (str "Tag"))
    no_arms).
Definition GetObjectTaggingOutput_wf (self : GetObjectTaggingOutput) : Prop :=
  Forall Tag_wf (GetObjectTaggingOutput_tag_set self).
Definition vars_GetObjectTaggingOutput (self : GetObjectTaggingOutput) := (Some (GetObjectTaggingOutput_tag_set self), tt).
#[global] Instance GetObjectTaggingOutput_reads : ReadsAs ser_GetObjectTaggingOutput arms_GetObjectTaggingOutput vars_GetObjectTaggingOutput GetObjectTaggingOutput_wf.
Proof. solve_output. Qed.
#[global] Typeclasses Opaque ser_GetObjectTaggingOutput.

Record ListMultipartUploadsOutput := mk_ListMultipartUploadsOutput {
  ListMultipartUploadsOutput_bucket : option bytes;
  ListMultipartUploadsOutput_common_prefixes : option (list CommonPrefix);
  ListMultipartUploadsOutput_delimiter : option bytes;
  ListMultipartUploadsOutput_encoding_type : option EncodingType;
  ListMultipartUploadsOutput_is_truncated : option bool;
  ListMultipartUploadsOutput_key_marker : option bytes;
  ListMultipartUploadsOutput_max_uploads : option Z;
  ListMultipartUploadsOutput_next_key_marker : option bytes;
  ListMultipartUploadsOutput_next_upload_id_marker : option bytes;
  ListMultipartUploadsOutput_prefix : option bytes;
  ListMultipartUploadsOutput_request_charged : option RequestCharged;
  ListMultipartUploadsOutput_upload_id_marker : option bytes;
  ListMultipartUploadsOutput_uploads : option (list MultipartUpload)
}.
Definition ser_ListMultipartUploadsOutput `{XmlDeps} (self : ListMultipartUploadsOutput) : Ser :=
  s_seq [
    if_some (ListMultipartUploadsOutput_bucket self) (s_content ser_str (str "Bucket"));
    if_some (ListMultipartUploadsOutput_common_prefixes self) (s_flattened_list ser_CommonPrefix (str "CommonPrefixes"));
    if_some (ListMultipartUploadsOutput_delimiter self) (s_content ser_str (str "Delimiter"));
    if_some (ListMultipartUploadsOutput_encoding_type self) (s_content ser_EncodingType (str "EncodingType"));
    if_some (ListMultipartUploadsOutput_is_truncated self) (s_content ser_bool (str "IsTruncated"));
    if_some (ListMultipartUploadsOutput_key_marker self) (s_content ser_str (str "KeyMarker"));
    if_some (ListMultipartUploadsOutput_max_uploads self) (s_content ser_i32 (str "MaxUploads"));
    if_some (ListMultipartUploadsOutput_next_key_marker self) (s_content ser_str (str "NextKeyMarker"));
    if_some (ListMultipartUploadsOutput_next_upload_id_marker self) (s_content ser_str (str "NextUploadIdMarker"));
    if_some (ListMultipartUploadsOutput_prefix self) (s_content ser_str (str "Prefix"));
    if_some (ListMultipartUploadsOutput_upload_id_marker self) (s_content ser_str (str "UploadIdMarker"));
    if_some (ListMultipartUploadsOutput_uploads self) (s_flattened_list ser_MultipartUpload (str "Upload"))].
Definition arms_ListMultipartUploadsOutput `{XmlDeps} :=
   (arm_once (str "Bucket") de_string
    (arm_push (str "CommonPrefixes") de_CommonPrefix
    (arm_once (str "Delimiter") de_string
    (arm_once (str "EncodingType") de_EncodingType
    (arm_once (str "IsTruncated") de_bool
    (arm_once (str "KeyMarker") de_string
    (arm_once (str "MaxUploads") de_i32
    (arm_once (str "NextKeyMarker") de_string
    (arm_once (str "NextUploadIdMarker") de_string
    (arm_once (str "Prefix") de_string
    (arm_once (str "UploadIdMarker") de_string
    (arm_push (str "Upload") de_MultipartUpload
    no_arms)))))))))))).
Definition ListMultipartUploadsOutput_wf (self : ListMultipartUploadsOutput) : Prop :=
  from_option string_wf True (ListMultipartUploadsOutput_bucket self) /\
  from_option (fun l => Forall CommonPrefix_wf l /\ l <> []) True (ListMultipartUploadsOutput_common_prefixes self) /\
  from_option string_wf True (ListMultipartUploadsOutput_delimiter self) /\
  from_option string_wf True (ListMultipartUploadsOutput_encoding_type self) /\
  from_option bool_wf True (ListMultipartUploadsOutput_is_truncated self) /\
  from_option string_wf True (ListMultipartUploadsOutput_key_marker self) /\
  from_option i32_wf True (ListMultipartUploadsOutput_max_uploads self) /\
  from_option string_wf True (ListMultipartUploadsOutput_next_key_marker self) /\
  from_option string_wf True (ListMultipartUploadsOutput_next_upload_id_marker self) /\
  from_option string_wf True (ListMultipartUploadsOutput_prefix self) /\
  from_option string_wf True (ListMultipartUploadsOutput_upload_id_marker self) /\
  from_option (fun l => Forall MultipartUpload_wf l /\ l <> []) True (ListMultipartUploadsOutput_uploads self).
Definition vars_ListMultipartUploadsOutput (self : ListMultipartUploadsOutput) := (ListMultipartUploadsOutput_bucket self, (ListMultipartUploadsOutput_common_prefixes self, (ListMultipartUploadsOutput_delimiter self, (ListMultipartUploadsOutput_encoding_type self, (ListMultipartUploadsOutput_is_truncated self, (ListMultipartUploadsOutput_key_marker self, (ListMultipartUploadsOutput_max_uploads self, (ListMultipartUploadsOutput_next_key_marker self, (ListMultipartUploadsOutput_next_upload_id_marker self, (ListMultipartUploadsOutput_prefix self, (ListMultipartUploadsOutput_upload_id_marker self, (ListMultipartUploadsOutput_uploads self, tt)))))))))))).
#[global] Instance ListMultipartUploadsOutput_reads `{XmlDeps} : ReadsAs ser_ListMultipartUploadsOutput arms_ListMultipartUploadsOutput vars_ListMultipartUploadsOutput ListMultipartUploadsOutput_wf.
Proof. solve_output. Qed.
#[global] Typeclasses Opaque ser_ListMultipartUploadsOutput.

Record ListObjectAnnotationsOutput := mk_ListObjectAnnotationsOutput {
  ListObjectAnnotationsOutput_annotation_count : option Z;
  ListObjectAnnotationsOutput_annotation_prefix : option bytes;
  ListObjectAnnotationsOutput_annotations : option (list AnnotationEntry);
  ListObjectAnnotationsOutput_bucket : option bytes;
  ListObjectAnnotationsOutput_continuation_token : option bytes;
  ListObjectAnnotationsOutput_key : option bytes;
  ListObjectAnnotationsOutput_max_annotation_results : option Z;
  ListObjectAnnotationsOutput_next_continuation_token : option bytes;
  ListObjectAnnotationsOutput_object_version_id : option bytes;
  ListObjectAnnotationsOutput_request_charged : option RequestCharged
}.
Definition ser_ListObjectAnnotationsOutput `{XmlDeps} (self : ListObjectAnnotationsOutput) : Ser :=
  s_seq [
    if_some (ListObjectAnnotationsOutput_annotation_count self) (s_content ser_i32 (str "AnnotationCount"));
    if_some (ListObjectAnnotationsOutput_annotation_prefix self) (s_content ser_str (str "AnnotationPrefix"));
    if_some (ListObjectAnnotationsOutput_annotations self) (s_list ser_AnnotationEntry (str "Annotations") (str "AnnotationEntry"));
    if_some (ListObjectAnnotationsOutput_bucket self) (s_content ser_str (str "Bucket"));
    if_some (ListObjectAnnotationsOutput_continuation_token self) (s_content ser_str (str "ContinuationToken"));
    if_some (ListObjectAnnotationsOutput_key self) (s_content ser_str (str "Key"));
    if_some (ListObjectAnnotationsOutput_max_annotation_results self) (s_content ser_i32 (str "MaxAnnotationResults"));
    if_some (ListObjectAnnotationsOutput_next_continuation_token self) (s_content ser_str (str "NextContinuationToken"))].
Definition arms_ListObjectAnnotationsOutput `{XmlDeps} :=
   (arm_once (str "AnnotationCount") de_i32
    (arm_once (str "AnnotationPrefix") de_string
    (arm_once (str "Annotations") (list_content de_AnnotationEntry (str "AnnotationEntry"))
    (arm_once (str "Bucket") de_string
    (arm_once (str "ContinuationToken") de_string
    (arm_once (str "Key") de_string
    (arm_once (str "MaxAnnotationResults") de_i32
    (arm_once (str "NextContinuationToken") de_string
    no_arms)))))))).
Definition ListObjectAnnotationsOutput_wf (self : ListObjectAnnotationsOutput) : Prop :=
  from_option i32_wf True (ListObjectAnnotationsOutput_annotation_count self) /\
  from_option string_wf True (ListObjectAnnotationsOutput_annotation_prefix self) /\
  from_option (Forall AnnotationEntry_wf) True (ListObjectAnnotationsOutput_annotations self) /\
  from_option string_wf True (ListObjectAnnotationsOutput_bucket self) /\
  from_option string_wf True (ListObjectAnnotationsOutput_continuation_token self) /\
  from_option string_wf True (ListObjectAnnotationsOutput_key self) /\
  from_option i32_wf True (ListObjectAnnotationsOutput_max_annotation_results self) /\
  from_option string_wf True (ListObjectAnnotationsOutput_next_continuation_token self).
Definition vars_ListObjectAnnotationsOutput (self : ListObjectAnnotationsOutput) := (ListObjectAnnotationsOutput_annotation_count self, (ListObjectAnnotationsOutput_annotation_prefix self, (ListObjectAnnotationsOutput_annotations self, (ListObjectAnnotationsOutput_bucket self, (ListObjectAnnotationsOutput_continuation_token self, (ListObjectAnnotationsOutput_key self, (ListObjectAnnotationsOutput_max_annotation_results self, (ListObjectAnnotationsOutput_next_continuation_token self, tt)))))))).
#[global] Instance ListObjectAnnotationsOutput_reads `{XmlDeps} : ReadsAs ser_ListObjectAnnotationsOutput arms_ListObjectAnnotationsOutput vars_ListObjectAnnotationsOutput ListObjectAnnotationsOutput_wf.
Proof. solve_output. Qed.
#[global] Typeclasses Opaque ser_ListObjectAnnotationsOutput.

Record ListObjectVersionsOutput := mk_ListObjectVersionsOutput {
  ListObjectVersionsOutput_common_prefixes : option (list CommonPrefix);
  ListObjectVersionsOutput_delete_markers : option (list DeleteMarkerEntry);
  ListObjectVersionsOutput_delimiter : option bytes;
  ListObjectVersionsOutput_encoding_type : option EncodingType;
  ListObjectVersionsOutput_is_truncated : option bool;
  ListObjectVersionsOutput_key_marker : option bytes;
  ListObjectVersionsOutput_max_keys : option Z;
  ListObjectVersionsOutput_name : option bytes;
  ListObjectVersionsOutput_next_key_marker : option bytes;
  ListObjectVersionsOutput_next_version_id_marker : option bytes;
  ListObjectVersionsOutput_prefix : option bytes;
  ListObjectVersionsOutput_request_charged : option RequestCharged;
  ListObjectVersionsOutput_version_id_marker : option bytes;
  ListObjectVersionsOutput_versions : option (list ObjectVersion)
}.
Definition ser_ListObjectVersionsOutput `{XmlDeps} (self : ListObjectVersionsOutput) : Ser :=
  s_seq [
    if_some (ListObjectVersionsOutput_common_prefixes self) (s_flattened_list ser_CommonPrefix (str "CommonPrefixes"));
    if_some (ListObjectVersionsOutput_delete_markers self) (s_flattened_list ser_DeleteMarkerEntry (str "DeleteMarker"));
    if_some (ListObjectVersionsOutput_delimiter self) (s_content ser_str (str "Delimiter"));
    if_some (ListObjectVersionsOutput_encoding_type self) (s_content ser_EncodingType (str "EncodingType"));
    if_some (ListObjectVersionsOutput_is_truncated self) (s_content ser_bool (str "IsTruncated"));
    if_some (ListObjectVersionsOutput_key_marker self) (s_content ser_str (str "KeyMarker"));
    if_some (ListObjectVersionsOutput_max_keys self) (s_content ser_i32 (str "MaxKeys"));
    if_some (ListObjectVersionsOutput_name self) (s_content ser_str (str "Name"));
    if_some (ListObjectVersionsOutput_next_key_marker self) (s_content ser_str (str "NextKeyMarker"));
    if_some (ListObjectVersionsOutput_next_version_id_marker self) (s_content ser_str (str "NextVersionIdMarker"));
    if_some (ListObjectVersionsOutput_prefix self) (s_content ser_str (str "Prefix"));
    if_some (ListObjectVersionsOutput_version_id_marker self) (s_content ser_str (str "VersionIdMarker"));
    if_some (ListObjectVersionsOutput_versions self) (s_flattened_list ser_ObjectVersion (str "Version"))].
Definition arms_ListObjectVersionsOutput `{XmlDeps} :=
   (arm_push (str "CommonPrefixes") de_CommonPrefix
    (arm_push (str "DeleteMarker") de_DeleteMarkerEntry
    (arm_once (str "Delimiter") de_string
    (arm_once (str "EncodingType") de_EncodingType
    (arm_once (str "IsTruncated") de_bool
    (arm_once (str "KeyMarker") de_string
    (arm_once (str "MaxKeys") de_i32
    (arm_once (str "Name") de_string
    (arm_once (str "NextKeyMarker") de_string
    (arm_once (str "NextVersionIdMarker") de_string
    (arm_once (str "Prefix") de_string
    (arm_once (str "VersionIdMarker") de_string
    (arm_push (str "Version") de_ObjectVersion
    no_arms))))))))))))).
Definition ListObjectVersionsOutput_wf (self : ListObjectVersionsOutput) : Prop :=
  from_option (fun l => Forall CommonPrefix_wf l /\ l <> []) True (ListObjectVersionsOutput_common_prefixes self) /\
  from_option (fun l => Forall DeleteMarkerEntry_wf l /\ l <> []) True (ListObjectVersionsOutput_delete_markers self) /\
  from_option string_wf True (ListObjectVersionsOutput_delimiter self) /\
  from_option string_wf True (ListObjectVersionsOutput_encoding_type self) /\
  from_option bool_wf True (ListObjectVersionsOutput_is_truncated self) /\
  from_option string_wf True (ListObjectVersionsOutput_key_marker self) /\
  from_option i32_wf True (ListObjectVersionsOutput_max_keys self) /\
  from_option string_wf True (ListObjectVersionsOutput_name self) /\
  from_option string_wf True (ListObjectVersionsOutput_next_key_marker self) /\
  from_option string_wf True (ListObjectVersionsOutput_next_version_id_marker self) /\
  from_option string_wf True (ListObjectVersionsOutput_prefix self) /\
  from_option string_wf True (ListObjectVersionsOutput_version_id_marker self) /\
  from_option (fun l => Forall ObjectVersion_wf l /\ l <> []) True (ListObjectVersionsOutput_versions self).
Definition vars_ListObjectVersionsOutput (self : ListObjectVersionsOutput) := (ListObjectVersionsOutput_common_prefixes self, (ListObjectVersionsOutput_delete_markers self, (ListObjectVersionsOutput_delimiter self, (ListObjectVersionsOutput_encoding_type self, (ListObjectVersionsOutput_is_truncated self, (ListObjectVersionsOutput_key_marker self, (ListObjectVersionsOutput_max_keys self, (ListObjectVersionsOutput_name self, (ListObjectVersionsOutput_next_key_marker self, (ListObjectVersionsOutput_next_version_id_marker self, (ListObjectVersionsOutput_prefix self, (ListObjectVersionsOutput_version_id_marker self, (ListObjectVersionsOutput_versions self, tt))))))))))))).
#[global] Instance ListObjectVersionsOutput_reads `{XmlDeps} : ReadsAs ser_ListObjectVersionsOutput arms_ListObjectVersionsOutput vars_ListObjectVersionsOutput ListObjectVersionsOutput_wf.
Proof. solve_output. Qed.
#[global] Typeclasses Opaque ser_ListObjectVersionsOutput.

Record ListObjectsOutput := mk_ListObjectsOutput {
  ListObjectsOutput_name : option bytes;
  ListObjectsOutput_prefix : option bytes;
  ListObjectsOutput_marker : option bytes;
  ListObjectsOutput_max_keys : option Z;
  ListObjectsOutput_is_truncated : option bool;
  ListObjectsOutput_contents : option (list Object);
  ListObjectsOutput_common_prefixes : option (list CommonPrefix);
  ListObjectsOutput_delimiter : option bytes;
  ListObjectsOutput_next_marker : option bytes;
  ListObjectsOutput_encoding_type : option EncodingType;
  ListObjectsOutput_request_charged : option RequestCharged
}.
Definition ser_ListObjectsOutput `{XmlDeps} (self : ListObjectsOutput) : Ser :=
  s_seq [
    if_some (ListObjectsOutput_name self) (s_content ser_str (str "Name"));
    if_some (ListObjectsOutput_prefix self) (s_content ser_str (str "Prefix"));
    if_some (ListObjectsOutput_marker self) (s_content ser_str (str "Marker"));
    if_some (ListObjectsOutput_max_keys self) (s_content ser_i32 (str "MaxKeys"));
    if_some (ListObjectsOutput_is_truncated self) (s_content ser_bool (str "IsTruncated"));
    if_some (ListObjectsOutput_contents self) (s_flattened_list ser_Object (str "Contents"));
    if_some (ListObjectsOutput_common_prefixes self) (s_flattened_list ser_CommonPrefix (str "CommonPrefixes"));
    if_some (ListObjectsOutput_delimiter self) (s_content ser_str (str "Delimiter"));
    if_some (ListObjectsOutput_next_marker self) (s_content ser_str (str "NextMarker"));
    if_some (ListObjectsOutput_encoding_type self) (s_content ser_EncodingType (str "EncodingType"))].
Definition arms_ListObjectsOutput `{XmlDeps} :=
   (arm_once (str "Name") de_string
    (arm_once (str "Prefix") de_string
    (arm_once (str "Marker") de_string
    (arm_once (str "MaxKeys") de_i32
    (arm_once (str "IsTruncated") de_bool
    (arm_push (str "Contents") de_Object
    (arm_push (str "CommonPrefixes") de_CommonPrefix
    (arm_once (str "Delimiter") de_string
    (arm_once (str "NextMarker") de_string
    (arm_once (str "EncodingType") de_EncodingType
    no_arms)))))))))).
Definition ListObjectsOutput_wf (self : ListObjectsOutput) : Prop :=
  from_option string_wf True (ListObjectsOutput_name self) /\
  from_option string_wf True (ListObjectsOutput_prefix self) /\
  from_option string_wf True (ListObjectsOutput_marker self) /\
  from_option i32_wf True (ListObjectsOutput_max_keys self) /\
  from_option bool_wf True (ListObjectsOutput_is_truncated self) /\
  from_option (fun l => Forall Object_wf l /\ l <> []) True (ListObjectsOutput_contents self) /\
  from_option (fun l => Forall CommonPrefix_wf l /\ l <> []) True (ListObjectsOutput_common_prefixes self) /\
  from_option string_wf True (ListObjectsOutput_delimiter self) /\
  from_option string_wf True (ListObjectsOutput_next_marker self) /\
  from_option string_wf True (ListObjectsOutput_encoding_type self).
Definition vars_ListObjectsOutput (self : ListObjectsOutput) := (ListObjectsOutput_name self, (ListObjectsOutput_prefix self, (ListObjectsOutput_marker self, (ListObjectsOutput_max_keys self, (ListObjectsOutput_is_truncated self, (ListObjectsOutput_contents self, (ListObjectsOutput_common_prefixes self, (ListObjectsOutput_delimiter self, (ListObjectsOutput_next_marker self, (ListObjectsOutput_encoding_type self, tt)))))))))).
#[global] Instance ListObjectsOutput_reads `{XmlDeps} : ReadsAs ser_ListObjectsOutput arms_ListObjectsOutput vars_ListObjectsOutput ListObjectsOutput_wf.
Proof. solve_output. Qed.
#[global] Typeclasses Opaque ser_ListObjectsOutput.

Record ListObjectsV2Output := mk_ListObjectsV2Output {
  ListObjectsV2Output_name : option bytes;
  ListObjectsV2Output_prefix : option bytes;
  ListObjectsV2Output_max_keys : option Z;
  ListObjectsV2Output_key_count : option Z;
  ListObjectsV2Output_continuation_token : option bytes;
  ListObjectsV2Output_is_truncated : option bool;
  ListObjectsV2Output_next_continuation_token : option bytes;
  ListObjectsV2Output_contents : option (list Object);
  ListObjectsV2Output_common_prefixes : option (list CommonPrefix);
  ListObjectsV2Output_delimiter : option bytes;
  ListObjectsV2Output_encoding_type : option EncodingType;
  ListObjectsV2Output_start_after : option bytes;
  ListObjectsV2Output_request_charged : option RequestCharged
}.
Definition ser_ListObjectsV2Output `{XmlDeps} (self : ListObjectsV2Output) : Ser :=
  s_seq [
    if_some (ListObjectsV2Output_name self) (s_content ser_str (str "Name"));
    if_some (ListObjectsV2Output_prefix self) (s_content ser_str (str "Prefix"));
    if_some (ListObjectsV2Output_max_keys self) (s_content ser_i32 (str "MaxKeys"));
    if_some (ListObjectsV2Output_key_count self) (s_content ser_i32 (str "KeyCount"));
    if_some (ListObjectsV2Output_continuation_token self) (s_content ser_str (str "ContinuationToken"));
    if_some (ListObjectsV2Output_is_truncated self) (s_content ser_bool (str "IsTruncated"));
    if_some (ListObjectsV2Output_next_continuation_token self) (s_content ser_str (str "NextContinuationToken"));
    if_some (ListObjectsV2Output_contents self) (s_flattened_list ser_Object (str "Contents"));
    if_some (ListObjectsV2Output_common_prefixes self) (s_flattened_list ser_CommonPrefix (str "CommonPrefixes"));
    if_some (ListObjectsV2Output_delimiter self) (s_content ser_str (str "Delimiter"));
    if_some (ListObjectsV2Output_encoding_type self) (s_content ser_EncodingType (str "EncodingType"));
    if_some (ListObjectsV2Output_start_after self) (s_content ser_str (str "StartAfter"))].
Definition arms_ListObjectsV2Output `{XmlDeps} :=
   (arm_once (str "Name") de_string
    (arm_once (str "Prefix") de_string
    (arm_once (str "MaxKeys") de_i32
    (arm_once (str "KeyCount") de_i32
    (arm_once (str "ContinuationToken") de_string
    (arm_once (str "IsTruncated") de_bool
    (arm_once (str "NextContinuationToken") de_string
    (arm_push (str "Contents") de_Object
    (arm_push (str "CommonPrefixes") de_CommonPrefix
    (arm_once (str "Delimiter") de_string
    (arm_once (str "EncodingType") de_EncodingType
    (arm_once (str "StartAfter") de_string
    no_arms)))))))))))).
Definition ListObjectsV2Output_wf (self : ListObjectsV2Output) : Prop :=
  from_option string_wf True (ListObjectsV2Output_name self) /\
  from_option string_wf True (ListObjectsV2Output_prefix self) /\
  from_option i32_wf True (ListObjectsV2Output_max_keys self) /\
  from_option i32_wf True (ListObjectsV2Output_key_count self) /\
  from_option string_wf True (ListObjectsV2Output_continuation_token self) /\
  from_option bool_wf True (ListObjectsV2Output_is_truncated self) /\
  from_option string_wf True (ListObjectsV2Output_next_continuation_token self) /\
  from_option (fun l => Forall Object_wf l /\ l <> []) True (ListObjectsV2Output_contents self) /\
  from_option (fun l => Forall CommonPrefix_wf l /\ l <> []) True (ListObjectsV2Output_common_prefixes self) /\
  from_option string_wf True (ListObjectsV2Output_delimiter self) /\
  from_option string_wf True (ListObjectsV2Output_encoding_type self) /\
  from_option string_wf True (ListObjectsV2Output_start_after self).
Definition vars_ListObjectsV2Output (self : ListObjectsV2Output) := (ListObjectsV2Output_name self, (ListObjectsV2Output_prefix self, (ListObjectsV2Output_max_keys self, (ListObjectsV2Output_key_count self, (ListObjectsV2Output_continuation_token self, (ListObjectsV2Output_is_truncated self, (ListObjectsV2Output_next_continuation_token self, (ListObjectsV2Output_contents self, (ListObjectsV2Output_common_prefixes self, (ListObjectsV2Output_delimiter self, (ListObjectsV2Output_encoding_type self, (ListObjectsV2Output_start_after self, tt)))))))))))).
#[global] Instance ListObjectsV2Output_reads `{XmlDeps} : ReadsAs ser_ListObjectsV2Output arms_ListObjectsV2Output vars_ListObjectsV2Output ListObjectsV2Output_wf.
Proof. solve_output. Qed.
#[global] Typeclasses Opaque ser_ListObjectsV2Output.

Record ListPartsOutput := mk_ListPartsOutput {
  ListPartsOutput_abort_date : option Timestamp;
  ListPartsOutput_abort_rule_id : option bytes;
  ListPartsOutput_bucket : option bytes;
  ListPartsOutput_checksum_algorithm : option ChecksumAlgorithm;
  ListPartsOutput_checksum_type : option ChecksumType;
  ListPartsOutput_initiator : option Initiator;
  ListPartsOutput_is_truncated : option bool;
  ListPartsOutput_key : option bytes;
  ListPartsOutput_max_parts : option Z;
  ListPartsOutput_next_part_number_marker : option Z;
  ListPartsOutput_owner : option Owner;
  ListPartsOutput_part_number_marker : option Z;
  ListPartsOutput_parts : option (list PartInfo);
  ListPartsOutput_request_charged : option RequestCharged;
  ListPartsOutput_storage_class : option StorageClass;
  ListPartsOutput_upload_id : option bytes
}.
Definition ser_ListPartsOutput `{XmlDeps} (self : ListPartsOutput) : Ser :=
  s_seq [
    if_some (ListPartsOutput_bucket self) (s_content ser_str (str "Bucket"));
    if_some (ListPartsOutput_checksum_algorithm self) (s_content ser_ChecksumAlgorithm (str "ChecksumAlgorithm"));
    if_some (ListPartsOutput_checksum_type self) (s_content ser_ChecksumType (str "ChecksumType"));
    if_some (ListPartsOutput_initiator self) (s_content ser_Initiator (str "Initiator"));
    if_some (ListPartsOutput_is_truncated self) (s_content ser_bool (str "IsTruncated"));
    if_some (ListPartsOutput_key self) (s_content ser_str (str "Key"));
    if_some (ListPartsOutput_max_parts self) (s_content ser_i32 (str "MaxParts"));
    if_some (ListPartsOutput_next_part_number_marker self) (s_content ser_i32 (str "NextPartNumberMarker"));
    if_some (ListPartsOutput_owner self) (s_content ser_Owner (str "Owner"));
    if_some (ListPartsOutput_part_number_marker self) (s_content ser_i32 (str "PartNumberMarker"));
    if_some (ListPartsOutput_parts self) (s_flattened_list ser_Part (str "Part"));
    if_some (ListPartsOutput_storage_class self) (s_content ser_StorageClass (str "StorageClass"));
    if_some (ListPartsOutput_upload_id self) (s_content ser_str (str "UploadId"))].
Definition arms_ListPartsOutput `{XmlDeps} :=
   (arm_once (str "Bucket") de_string
    (arm_once (str "ChecksumAlgorithm") de_ChecksumAlgorithm
    (arm_once (str "ChecksumType") de_ChecksumType
    (arm_once (str "Initiator") de_Initiator
    (arm_once (str "IsTruncated") de_bool
    (arm_once (str "Key") de_string
    (arm_once (str "MaxParts") de_i32
    (arm_once (str "NextPartNumberMarker") de_i32
    (arm_once (str "Owner") de_Owner
    (arm_once (str "PartNumberMarker") de_i32
    (arm_push (str "Part") de_Part
    (arm_once (str "StorageClass") de_StorageClass
    (arm_once (str "UploadId") de_string
    no_arms))))))))))))).
Definition ListPartsOutput_wf (self : ListPartsOutput) : Prop :=
  from_option string_wf True (ListPartsOutput_bucket self) /\
  from_option string_wf True (ListPartsOutput_checksum_algorithm self) /\
  from_option string_wf True (ListPartsOutput_checksum_type self) /\
  from_option Initiator_wf True (ListPartsOutput_initiator self) /\
  from_option bool_wf True (ListPartsOutput_is_truncated self) /\
  from_option string_wf True (ListPartsOutput_key self) /\
  from_option i32_wf True (ListPartsOutput_max_parts self) /\
  from_option i32_wf True (ListPartsOutput_next_part_number_marker self) /\
  from_option Owner_wf True (ListPartsOutput_owner self) /\
  from_option i32_wf True (ListPartsOutput_part_number_marker self) /\
  from_option (fun l => Forall PartInfo_wf l /\ l <> []) True (ListPartsOutput_parts self) /\
  from_option string_wf True (ListPartsOutput_storage_class self) /\
  from_option string_wf True (ListPartsOutput_upload_id self).
Definition vars_ListPartsOutput (self : ListPartsOutput) := (ListPartsOutput_bucket self, (ListPartsOutput_checksum_algorithm self, (ListPartsOutput_checksum_type self, (ListPartsOutput_initiator self, (ListPartsOutput_is_truncated self, (ListPartsOutput_key self, (ListPartsOutput_max_parts self, (ListPartsOutput_next_part_number_marker self, (ListPartsOutput_owner self, (ListPartsOutput_part_number_marker self, (ListPartsOutput_parts self, (ListPartsOutput_storage_class self, (ListPartsOutput_upload_id self, tt))))))))))))).
#[global] Instance ListPartsOutput_reads `{XmlDeps} : ReadsAs ser_ListPartsOutput arms_ListPartsOutput vars_ListPartsOutput ListPartsOutput_wf.
Proof. solve_output. Qed.
#[global] Typeclasses Opaque ser_ListPartsOutput.

Record PutObjectAnnotationOutput := mk_PutObjectAnnotationOutput {
  PutObjectAnnotationOutput_annotation_name : option bytes;
  PutObjectAnnotationOutput_checksum_crc32 : option bytes;
  PutObjectAnnotationOutput_checksum_crc32c : option bytes;
  PutObjectAnnotationOutput_checksum_crc64nvme : option bytes;
  PutObjectAnnotationOutput_checksum_md5 : option bytes;
  PutObjectAnnotationOutput_checksum_sha1 : option bytes;
  PutObjectAnnotationOutput_checksum_sha256 : option bytes;
  PutObjectAnnotationOutput_checksum_sha512 : option bytes;
  PutObjectAnnotationOutput_checksum_type : option ChecksumType;
  PutObjectAnnotationOutput_checksum_xxhash128 : option bytes;
  PutObjectAnnotationOutput_checksum_xxhash3 : option bytes;
  PutObjectAnnotationOutput_checksum_xxhash64 : option bytes;
  PutObjectAnnotationOutput_e_tag : option ETag;
  PutObjectAnnotationOutput_key : option bytes;
  PutObjectAnnotationOutput_object_version_id : option bytes;
  PutObjectAnnotationOutput_request_charged : option RequestCharged;
  PutObjectAnnotationOutput_server_side_encryption : option ServerSideEncryption
}.
Definition ser_PutObjectAnnotationOutput (self : PutObjectAnnotationOutput) : Ser :=
  s_seq [
    if_some (PutObjectAnnotationOutput_annotation_name self) (s_content ser_str (str "AnnotationName"));
    if_some (PutObjectAnnotationOutput_key self) (s_content ser_str (str "Key"))].
Definition arms_PutObjectAnnotationOutput :=
   (arm_once (str "AnnotationName") de_string
    (arm_once (str "Key") de_string
    no_arms)).
Definition PutObjectAnnotationOutput_wf (self : PutObjectAnnotationOutput) : Prop :=
  from_option string_wf True (PutObjectAnnotationOutput_annotation_name self) /\
  from_option string_wf True (PutObjectAnnotationOutput_key self).
Definition vars_PutObjectAnnotationOutput (self : PutObjectAnnotationOutput) := (PutObjectAnnotationOutput_annotation_name self, (PutObjectAnnotationOutput_key self, tt)).
#[global] Instance PutObjectAnnotationOutput_reads : ReadsAs ser_PutObjectAnnotationOutput arms_PutObjectAnnotationOutput vars_PutObjectAnnotationOutput PutObjectAnnotationOutput_wf.
Proof. solve_output. Qed.
#[global] Typeclasses Opaque ser_PutObjectAnnotationOutput.
