(* ===== verification/XmlReference.v ===== *)
(** * A reader and a writer of XML for the witnesses

    The part of the syntax that the serializers write: tags, attributes, text, references and the
    declaration.  The reader goes through the text byte by byte; it satisfies what is assumed of
    the [quick_xml] crate. *)

From S2P Require Import Prelude.
From S2P Require Import Str.
From S2P Require Import Utf8.
From S2P Require Import Timestamp.
From S2P Require Import ETag.
From S2P Require Import Xml.
From S2P Require Import XmlStruct.

(** ** Writing *)

Definition escape (t : bytes) : bytes :=
  concat (map (fun c => match entity_of c with Some name => "&"%byte :: name ++ [";"%byte] | None => [c] end) t).

Definition attribute_text (kv : bytes * bytes) : bytes := str " " ++ fst kv ++ str "=" ++ [x22] ++ escape (snd kv) ++ [x22].

Definition write_ref (o : Out) : bytes :=
  match o with
  | ODecl => str "<?" ++ str "xml version='1.0' encoding='UTF-8'?" ++ str ">"
  | OStart n a => str "<" ++ (n ++ concat (map attribute_text a)) ++ str ">"
  | OEnd n => str "<" ++ (str "/" ++ n) ++ str ">"
  | OText t => escape t
  | ORaw r => r
  end.

(** ** Attributes *)

(** The value of an attribute: its references resolved. *)
Fixpoint unescape (ref : option bytes) (s : bytes) : option bytes :=
  match s, ref with
  | [], None => Some []
  | [], Some _ => None
  | c :: s', None => if c =? "&"%byte then unescape (Some []) s' else r ← unescape None s'; Some (c :: r)
  | c :: s', Some name =>
      if c =? ";"%byte then v ← resolve_xml_entity name; r ← unescape None s'; Some (v ++ r) else unescape (Some (name ++ [c])) s'
  end.

Inductive attr_mode := InKey (key : bytes) | AfterKey (key : bytes) | InValue (key value : bytes) | AfterValue.

Fixpoint read_attrs (m : attr_mode) (s : bytes) : list Attribute :=
  match s with
  | [] => match m with AfterValue => [] | _ => [None] end
  | c :: s' =>
      match m with
      | AfterValue => if c =? " "%byte then read_attrs (InKey []) s' else [None]
      | InKey k => if c =? "="%byte then read_attrs (AfterKey k) s' else read_attrs (InKey (k ++ [c])) s'
      | AfterKey k => if c =? x22 then read_attrs (InValue k []) s' else [None]
      | InValue k v =>
          if c =? x22 then Some (k, unescape None v) :: read_attrs AfterValue s' else read_attrs (InValue k (v ++ [c])) s'
      end
  end.

(** The name, up to the first space. *)
Definition read_start (s : bytes) : BytesStart :=
  let (n, rest) := break_at (fun c => c =? " "%byte) s in {| bs_name := n; bs_attributes := read_attrs AfterValue rest |}.

Definition read_tag (s : bytes) : option QEvent :=
  match s with
  | "?"%byte :: _ => Some QDecl
  | "/"%byte :: n => Some (QEnd n)
  | _ => Some (QStart (read_start s))
  end.

(** ** Reading *)

Inductive mode := InText (acc : bytes) | InTag (acc : bytes) | InRef (acc : bytes).

Definition text_event (acc : bytes) : list (option QEvent) := if acc =? [] then [] else [Some (QText acc)].

Fixpoint tokens (m : mode) (s : bytes) : list (option QEvent) :=
  match s with
  | [] => match m with InText acc => text_event acc | _ => [None] end
  | c :: s' =>
      match m with
      | InText acc =>
          if c =? "<"%byte then text_event acc ++ tokens (InTag []) s'
          else if c =? "&"%byte then text_event acc ++ tokens (InRef []) s'
          else tokens (InText (acc ++ [c])) s'
      | InTag acc => if c =? ">"%byte then read_tag acc :: tokens (InText []) s' else tokens (InTag (acc ++ [c])) s'
      | InRef acc => if c =? ";"%byte then Some (QGeneralRef acc) :: tokens (InText []) s' else tokens (InRef (acc ++ [c])) s'
      end
  end.

(** ** Lemmas *)

Definition without (cs : list byte) (s : bytes) : bool := forallb (fun c => negb (bool_decide (c ∈ cs))) s.

Lemma without_cons cs c s : without cs (c :: s) = true -> c ∉ cs /\ without cs s = true.
Proof. unfold without. simpl. intros [Hc Hs]%andb_true_iff. split; [|done]. by apply negb_true_iff, bool_decide_eq_false in Hc. Qed.

Lemma without_app cs s t : without cs (s ++ t) = without cs s && without cs t.
Proof. apply forallb_app. Qed.

Lemma without_weaken cs ds s : forallb (fun c => bool_decide (c ∈ ds)) cs = true -> without ds s = true -> without cs s = true.
Proof.
  unfold without. rewrite !forallb_forall. intros Hsub Hs c Hc. specialize (Hs c Hc). apply negb_true_iff, bool_decide_eq_false in Hs.
  apply negb_true_iff, bool_decide_eq_false. intros Hin. apply Hs, (bool_decide_eq_true_1 (c ∈ ds)), Hsub. by apply list_elem_of_In.
Qed.

Lemma name_without n : forallb name_byte n = true -> without (str "<>/? =&;" ++ [x22]) n = true.
Proof.
  unfold without. rewrite !forallb_forall. intros Hn c Hc. specialize (Hn c Hc). clear -Hn. destruct c; try discriminate Hn; by vm_compute.
Qed.

Lemma entity_name c name : entity_of c = Some name -> without (str "<>/? =&;" ++ [x22]) name = true.
Proof. intros E. destruct c; try discriminate E; injection E as <-; by vm_compute. Qed.

Lemma entity_none c : entity_of c = None -> c ∉ str "<>&" ++ [x22].
Proof. intros E. apply (bool_decide_eq_true_1 (_ ∉ _)). destruct c; try discriminate E; by vm_compute. Qed.

Lemma escape_without t : without (str "<>" ++ [x22]) (escape t) = true.
Proof.
  induction t as [|c t IH]; [done|]. unfold escape. cbn [map concat]. fold (escape t). rewrite without_app, IH, andb_true_r.
  destruct (entity_of c) as [name|] eqn:E.
  - cbn [app]. change (without _ ("&"%byte :: name ++ [";"%byte])) with (without (str "<>" ++ [x22]) (name ++ [";"%byte])).
    rewrite without_app, andb_true_r. apply (without_weaken _ (str "<>/? =&;" ++ [x22])); [by vm_compute|]. by apply (entity_name c).
  - apply entity_none in E. unfold without. simpl. rewrite bool_decide_eq_false_2; [done|]. set_solver.
Qed.

Lemma tokens_tag s acc rest : without (str ">") s = true ->
  tokens (InTag acc) (s ++ str ">" ++ rest) = read_tag (acc ++ s) :: tokens (InText []) rest.
Proof.
  revert acc. induction s as [|c s IH]; intros acc Hs; [by rewrite app_nil_r|]. apply without_cons in Hs as [Hc Hs].
  cbn [app tokens]. rewrite bool_decide_eq_false_2 by (intros ->; apply Hc; by constructor). rewrite IH by done. by rewrite <- app_assoc.
Qed.

Lemma tokens_ref s acc rest : without (str ";") s = true ->
  tokens (InRef acc) (s ++ str ";" ++ rest) = Some (QGeneralRef (acc ++ s)) :: tokens (InText []) rest.
Proof.
  revert acc. induction s as [|c s IH]; intros acc Hs; [by rewrite app_nil_r|]. apply without_cons in Hs as [Hc Hs].
  cbn [app tokens]. rewrite bool_decide_eq_false_2 by (intros ->; apply Hc; by constructor). rewrite IH by done. by rewrite <- app_assoc.
Qed.

(** *** Attributes *)

Lemma unescape_name name acc s c : without (str ";") name = true -> resolve_xml_entity (acc ++ name) = Some [c] ->
  unescape (Some acc) (name ++ str ";" ++ s) = (r ← unescape None s; Some (c :: r)).
Proof.
  revert acc. induction name as [|x name IH]; intros acc Hn Hr.
  - rewrite app_nil_r in Hr. change ([] ++ str ";" ++ s) with (";"%byte :: s). cbn [unescape].
    rewrite bool_decide_eq_true_2 by done. by rewrite Hr.
  - apply without_cons in Hn as [Hx Hn]. cbn [app unescape]. rewrite bool_decide_eq_false_2 by (intros ->; apply Hx; by constructor).
    apply IH; [done|]. by rewrite <- app_assoc.
Qed.

Lemma unescape_escape t : unescape None (escape t) = Some t.
Proof.
  induction t as [|c t IH]; [done|]. unfold escape. cbn [map concat]. fold (escape t). destruct (entity_of c) as [name|] eqn:E.
  - cbn [app unescape]. rewrite bool_decide_eq_true_2 by done. rewrite <- app_assoc.
    assert (Hn : without (str ";") name = true) by (apply (without_weaken _ (str "<>/? =&;" ++ [x22])); [by vm_compute|by apply (entity_name c)]).
    change ([";"%byte] ++ escape t) with (str ";" ++ escape t). rewrite (unescape_name name [] (escape t) c) by (done || by apply entity_resolves).
    by rewrite IH.
  - apply entity_none in E. cbn [app unescape]. rewrite bool_decide_eq_false_2; [by rewrite IH|]. intros ->. apply E. by apply (bool_decide_eq_true_1 (_ ∈ _)); vm_compute.
Qed.

Lemma read_key k acc rest : without (str "=") k = true ->
  read_attrs (InKey acc) (k ++ str "=" ++ rest) = read_attrs (AfterKey (acc ++ k)) rest.
Proof.
  revert acc. induction k as [|c k IH]; intros acc Hk; [by rewrite app_nil_r|]. apply without_cons in Hk as [Hc Hk].
  cbn [app read_attrs]. rewrite bool_decide_eq_false_2 by (intros ->; apply Hc; by constructor). rewrite IH by done. by rewrite <- app_assoc.
Qed.

Lemma read_value k v acc rest : without [x22] v = true ->
  read_attrs (InValue k acc) (v ++ x22 :: rest) = Some (k, unescape None (acc ++ v)) :: read_attrs AfterValue rest.
Proof.
  revert acc. induction v as [|c v IH]; intros acc Hv; [by rewrite app_nil_r|]. apply without_cons in Hv as [Hc Hv].
  cbn [app read_attrs]. rewrite bool_decide_eq_false_2 by (intros ->; apply Hc; by constructor). rewrite IH by done. by rewrite <- app_assoc.
Qed.

Lemma name_ok_without n cs : name_ok n = true -> forallb (fun c => bool_decide (c ∈ str "<>/? =&;" ++ [x22])) cs = true -> without cs n = true.
Proof. intros [_ Hn]%andb_true_iff Hcs. by apply (without_weaken _ _ _ Hcs), name_without. Qed.

Lemma read_attributes a : attrs_ok a = true ->
  read_attrs AfterValue (concat (map attribute_text a)) = map (fun kv => Some (fst kv, Some (snd kv))) a.
Proof.
  induction a as [|[k v] a IH]; [done|]. unfold attrs_ok. cbn [forallb map concat fst snd]. intros [[Hk Hv]%andb_true_iff Ha]%andb_true_iff.
  unfold attribute_text at 1. cbn [fst snd]. rewrite <- !app_assoc. change (str " " ++ ?r) with (" "%byte :: r). cbn [read_attrs].
  rewrite bool_decide_eq_true_2 by done. rewrite read_key by (by apply name_ok_without).
  change ([x22] ++ escape v ++ ?r) with (x22 :: (escape v ++ r)). cbn [read_attrs app]. rewrite bool_decide_eq_true_2 by done.
  rewrite read_value by (apply (without_weaken _ (str "<>" ++ [x22])); [by vm_compute|apply escape_without]). cbn [app].
  by rewrite unescape_escape, IH.
Qed.

Lemma attributes_without a : attrs_ok a = true -> without (str ">") (concat (map attribute_text a)) = true.
Proof.
  induction a as [|[k v] a IH]; [done|]. unfold attrs_ok. cbn [forallb map concat fst snd]. intros [[Hk Hv]%andb_true_iff Ha]%andb_true_iff.
  rewrite without_app, IH, andb_true_r by done. unfold attribute_text. cbn [fst snd]. rewrite !without_app. repeat (apply andb_true_iff; split); try by vm_compute.
  - by apply name_ok_without.
  - apply (without_weaken _ (str "<>" ++ [x22])); [by vm_compute|apply escape_without].
Qed.

Lemma read_start_tag n a : name_ok n = true -> attrs_ok a = true ->
  read_tag (n ++ concat (map attribute_text a)) = Some (QStart {| bs_name := n; bs_attributes := map (fun kv => Some (fst kv, Some (snd kv))) a |}).
Proof.
  intros Hn Ha. assert (Hs : read_start (n ++ concat (map attribute_text a)) = {| bs_name := n; bs_attributes := map (fun kv => Some (fst kv, Some (snd kv))) a |}).
  { assert (Hb : break_at (fun c => c =? " "%byte) (n ++ concat (map attribute_text a)) = (n, concat (map attribute_text a))).
    { pose proof (name_ok_without n (str " ") Hn ltac:(by vm_compute)) as Hw. clear Hn. induction n as [|c n IH].
      - by destruct a as [|[k v] a].
      - apply without_cons in Hw as [Hc Hw]. cbn [app break_at]. rewrite bool_decide_eq_false_2 by (intros ->; apply Hc; by constructor).
        by rewrite IH. }
    unfold read_start. by rewrite Hb, read_attributes. }
  rewrite <- Hs. pose proof (name_ok_without n (str "/?") Hn ltac:(by vm_compute)) as Hw. destruct n as [|c n]; [done|].
  apply without_cons in Hw as [Hc _]. cbn [app]. unfold read_tag.
  destruct c; try reflexivity; exfalso; apply Hc; by apply (bool_decide_eq_true_1 (_ ∈ _)); vm_compute.
Qed.

(** *** Text *)

(** The events of the text [t] after the plain bytes [acc]. *)
Definition flush (acc t : bytes) : list QEvent :=
  match text_events t with
  | QText run :: es => QText (acc ++ run) :: es
  | es => (if acc =? [] then [] else [QText acc]) ++ es
  end.

(** The end of the input, or a tag. *)
Definition at_tag (rest : bytes) : Prop := rest = [] \/ exists r, rest = "<"%byte :: r.

Lemma tokens_flush acc rest : at_tag rest -> tokens (InText acc) rest = text_event acc ++ tokens (InText []) rest.
Proof. intros [->|[r ->]]; [by rewrite app_nil_r|done]. Qed.

Lemma text_event_map acc : text_event acc = map Some (if acc =? [] then [] else [QText acc]).
Proof. unfold text_event. by destruct (acc =? []). Qed.

Lemma flush_plain acc c t : entity_of c = None -> flush acc (c :: t) = flush (acc ++ [c]) t.
Proof.
  intros E. unfold flush. cbn [text_events]. rewrite E. assert (Ha : (acc ++ [c] =? []) = false) by (by apply bool_decide_eq_false_2; destruct acc).
  destruct (text_events t) as [|[] es] eqn:Et; rewrite ?Ha; cbn [app]; try done. by rewrite <- app_assoc.
Qed.

Lemma flush_ref acc c name t : entity_of c = Some name ->
  flush acc (c :: t) = (if acc =? [] then [] else [QText acc]) ++ QGeneralRef name :: flush [] t.
Proof. intros E. unfold flush. cbn [text_events]. rewrite E. f_equal. f_equal. by destruct (text_events t) as [|[] es]. Qed.

Lemma tokens_text t acc rest : at_tag rest ->
  tokens (InText acc) (escape t ++ rest) = map Some (flush acc t) ++ tokens (InText []) rest.
Proof.
  intros Hrest. revert acc. induction t as [|c t IH]; intros acc.
  - cbn [escape map concat app]. rewrite tokens_flush by done. unfold flush. simpl. by rewrite app_nil_r, text_event_map.
  - unfold escape. cbn [map concat]. fold (escape t). destruct (entity_of c) as [name|] eqn:E.
    + rewrite (flush_ref _ _ _ _ E), map_app. cbn [app tokens map].
      rewrite bool_decide_eq_false_2, bool_decide_eq_true_2 by done. rewrite <- !app_assoc, text_event_map.
      assert (Hn : without (str ";") name = true) by (apply (without_weaken _ (str "<>/? =&;" ++ [x22])); [by vm_compute|by apply (entity_name c)]).
      change ([";"%byte] ++ escape t ++ rest) with (str ";" ++ escape t ++ rest). rewrite tokens_ref by done. cbn [app]. by rewrite IH.
    + rewrite (flush_plain _ _ _ E). apply entity_none in E. cbn [app tokens].
      rewrite !bool_decide_eq_false_2 by (intros ->; apply E; by apply (bool_decide_eq_true_1 (_ ∈ _)); vm_compute). apply IH.
Qed.

Lemma flush_nil t : flush [] t = text_events t.
Proof. unfold flush. by destruct (text_events t) as [|[] es]. Qed.

Lemma tokens_raw r acc rest : at_tag rest -> without (str "<&") r = true ->
  tokens (InText acc) (r ++ rest) = text_event (acc ++ r) ++ tokens (InText []) rest.
Proof.
  intros Hrest. revert acc. induction r as [|c r IH]; intros acc Hr; [by rewrite app_nil_r; apply tokens_flush|]. apply without_cons in Hr as [Hc Hr].
  cbn [app tokens]. rewrite !bool_decide_eq_false_2 by (intros ->; apply Hc; by apply (bool_decide_eq_true_1 (_ ∈ _)); vm_compute).
  rewrite IH by done. by rewrite <- app_assoc.
Qed.

(** ** The documents that are written are read *)

Lemma at_tag_written stack os : well_nested stack true os = true -> at_tag (concat (map write_ref os)).
Proof. destruct os as [|[] os]; simpl; intros Hw; try done; [by left|right; eauto..]. Qed.

Lemma raw_without r : forallb (fun c => negb ((c =? "<"%byte) || (c =? "&"%byte))) r = true -> without (str "<&") r = true.
Proof.
  unfold without. rewrite !forallb_forall. intros Hr c Hc. specialize (Hr c Hc). clear -Hr. destruct c; try discriminate Hr; by vm_compute.
Qed.

Lemma tokens_written os : forall stack b, Forall (fun n => name_ok n = true) stack -> well_nested stack b os = true ->
  tokens (InText []) (concat (map write_ref os)) = map Some (concat (map out_events os)).
Proof.
  induction os as [|o os IH]; intros stack b Hst Hw; [done|]. cbn [map concat]. rewrite map_app. destruct o as [|n a|n|t|r]; cbn [well_nested] in Hw.
  - unfold write_ref at 1. rewrite <- !app_assoc.
    change (str "<?" ++ ?x ++ str ">" ++ ?y) with ("<"%byte :: (("?"%byte :: x) ++ str ">" ++ y)). cbn [tokens].
    rewrite bool_decide_eq_true_2 by done. rewrite tokens_tag by (by vm_compute). cbn [app]. by rewrite (IH _ _ Hst Hw).
  - apply andb_true_iff in Hw as [[Hn Ha]%andb_true_iff Hw]. unfold write_ref at 1. rewrite <- !app_assoc. rewrite (app_assoc n).
    change (str "<" ++ ?x) with ("<"%byte :: x). cbn [tokens]. rewrite bool_decide_eq_true_2 by done.
    rewrite tokens_tag by (rewrite without_app, attributes_without by done; rewrite andb_true_r; by apply name_ok_without).
    cbn [app]. rewrite read_start_tag by done. by rewrite (IH _ _ (Forall_cons_2 _ _ _ Hn Hst) Hw).
  - destruct stack as [|m stack]; [done|]. apply andb_true_iff in Hw as [Hm Hw]. apply bool_decide_eq_true in Hm as ->.
    apply Forall_cons in Hst as [Hn Hst]. unfold write_ref at 1. rewrite <- !app_assoc.
    change (str "<" ++ str "/" ++ ?x) with ("<"%byte :: ((str "/" ++ n) ++ str ">" ++ concat (map write_ref os))).
    cbn [tokens]. rewrite bool_decide_eq_true_2 by done.
    rewrite tokens_tag by (rewrite without_app; by rewrite (name_ok_without n) by (done || by vm_compute)).
    cbn [app]. by rewrite (IH _ _ Hst Hw).
  - apply andb_true_iff in Hw as [_ Hw]. cbn [write_ref out_events]. rewrite tokens_text by (by eapply at_tag_written).
    rewrite flush_nil. f_equal. by apply (IH stack true).
  - apply andb_true_iff in Hw as [[_ Hr]%andb_true_iff Hw]. unfold raw_ok in Hr. apply andb_true_iff in Hr as [[Hne _]%andb_true_iff Hr].
    cbn [write_ref out_events]. rewrite tokens_raw by (by eapply at_tag_written || by apply raw_without).
    cbn [app]. unfold text_event. apply negb_true_iff in Hne. rewrite Hne. cbn [map app]. f_equal. by apply (IH stack true).
Qed.

(** ** Instances *)

Definition quick_xml_reference : QuickXml.
Proof.
  refine {| read_events := tokens (InText []); write := write_ref |}; [done|]. intros os Hw. by apply (tokens_written os [] false).
Defined.

(** The number at the start of the text. *)
Definition atoi_text (s : bytes) : bytes :=
  let digits := fun s => fst (break_at (fun c => negb (is_ascii_digit c)) s) in
  match s with
  | c :: s' => if (c =? "-"%byte) || (c =? "+"%byte) then c :: digits s' else digits s
  | [] => []
  end.

Lemma break_at_all f s : forallb (fun c => negb (f c)) s = true -> break_at f s = (s, []).
Proof. induction s as [|c s IH]; [done|]. simpl. intros [Hc Hs]%andb_true_iff. apply negb_true_iff in Hc. by rewrite Hc, IH. Qed.

Lemma digits_fmt n : (0 <= n)%Z -> fst (break_at (fun c => negb (is_ascii_digit c)) (fmt_dec n)) = fmt_dec n.
Proof.
  intros Hn. destruct (fmt_dec_value n Hn) as [Hv _]. apply dec_value_digits in Hv. rewrite break_at_all; [done|].
  rewrite forallb_forall in *. intros c Hc. by rewrite negb_involutive, Hv.
Qed.

Lemma parse_signed_fmt lo hi n : (lo <= n <= hi)%Z -> parse_signed lo hi (atoi_text (fmt_signed n)) = Some n.
Proof.
  intros Hn. unfold fmt_signed. destruct (n <? 0)%Z eqn:E; reflect_bools; assert (Hb : ((lo <=? n) && (n <=? hi))%Z = true) by lia.
  - unfold atoi_text. rewrite bool_decide_eq_true_2 by done. cbn [orb]. rewrite digits_fmt by lia. unfold parse_signed.
    rewrite bool_decide_eq_true_2 by done. cbn [orb]. destruct (fmt_dec_value (- n) ltac:(lia)) as [Hv Hne].
    destruct (fmt_dec (- n)) as [|c s]; [done|]. rewrite Hv. cbn [mbind option_bind]. by rewrite Z.opp_involutive, Hb.
  - destruct (fmt_dec_value n ltac:(lia)) as [Hv Hne]. pose proof (digits_fmt n ltac:(lia)) as Hd.
    destruct (fmt_dec n) as [|c s] eqn:Ef; [done|]. pose proof (dec_value_digits _ _ _ Hv) as Hs. simpl in Hs. apply andb_true_iff in Hs as [Hc _].
    assert (Hm : (c =? "-"%byte) = false) by (apply bool_decide_eq_false_2; by intros ->).
    assert (Hp : (c =? "+"%byte) = false) by (apply bool_decide_eq_false_2; by intros ->).
    unfold atoi_text. rewrite Hm, Hp. cbn [orb]. rewrite Hd. unfold parse_signed. rewrite Hm, Hp. cbn [orb]. rewrite Hv. cbn [mbind option_bind].
    by rewrite Hb.
Qed.

Definition atoi_signed_reference : AtoiSigned.
Proof. refine {| atoi_signed := fun lo hi s => parse_signed lo hi (atoi_text s) |}. intros lo hi n Hn _. by apply parse_signed_fmt. Defined.

Definition xml_reference : XmlDeps := {| xml_time := time_reference; xml_atoi := atoi_signed_reference; xml_etag := etag_reference |}.

Example reads_a_document :
  @read_events quick_xml_reference (str "<a x=" ++ [x22] ++ str "1&lt;2" ++ [x22] ++ str "> p&amp;q<b></b></a>") =
  map Some [QStart {| bs_name := str "a"; bs_attributes := [Some (str "x", Some (str "1<2"))] |}; QText (str " p"); QGeneralRef (str "amp");
            QText (str "q"); QStart {| bs_name := str "b"; bs_attributes := [] |}; QEnd (str "b"); QEnd (str "a")].
Proof. by vm_compute. Qed.
