(* ===== verification/XmlDocs.v ===== *)
(** * XML documents (crates/s3s/src/xml/generated.rs and xml/mod.rs: [Serialize], [Deserialize])

    The types that are whole documents, with their root elements.  The two traits are type
    classes; [Document] is the sum of the types that implement both, [OutputDocument] of those
    that are only written.  Shown: what is written is read back, for every document; every
    deserializer returns, whatever the bytes. *)

From S2P Require Import Prelude.
From S2P Require Import Str.
From S2P Require Import Utf8.
From S2P Require Import Timestamp.
From S2P Require Import ETag.
From S2P Require Import Xml.
From S2P Require Import XmlStruct.
From S2P Require Import XmlDtoA.
From S2P Require Import XmlDtoB.
From S2P Require Import XmlDtoC.
From S2P Require Import XmlOutputs.
From S2P Require Import XmlReference.

Class Serialize (T : Type) := serialize : T -> Ser.
Class Deserialize (T : Type) := deserialize : De T.

Definition XMLNS_S3 : bytes := str "http://s3.amazonaws.com/doc/2006-03-01/".

(** ** Roots (generated.rs) *)

#[global] Instance serialize_AbacStatus : Serialize AbacStatus := s_content ser_AbacStatus (str "AbacStatus").
#[global] Instance deserialize_AbacStatus : Deserialize AbacStatus := named_element (str "AbacStatus") de_AbacStatus.
#[global] Instance serialize_AccelerateConfiguration : Serialize AccelerateConfiguration := s_content ser_AccelerateConfiguration (str "AccelerateConfiguration").
#[global] Instance deserialize_AccelerateConfiguration : Deserialize AccelerateConfiguration := named_element (str "AccelerateConfiguration") de_AccelerateConfiguration.
#[global] Instance serialize_AccessControlPolicy : Serialize AccessControlPolicy := s_content ser_AccessControlPolicy (str "AccessControlPolicy").
#[global] Instance deserialize_AccessControlPolicy : Deserialize AccessControlPolicy := named_element (str "AccessControlPolicy") de_AccessControlPolicy.
#[global] Instance serialize_AnalyticsConfiguration : Serialize AnalyticsConfiguration := s_content ser_AnalyticsConfiguration (str "AnalyticsConfiguration").
#[global] Instance deserialize_AnalyticsConfiguration : Deserialize AnalyticsConfiguration := named_element (str "AnalyticsConfiguration") de_AnalyticsConfiguration.
#[global] Instance serialize_AnnotationTableConfigurationUpdates : Serialize AnnotationTableConfigurationUpdates := s_content ser_AnnotationTableConfigurationUpdates (str "AnnotationTableConfiguration").
#[global] Instance deserialize_AnnotationTableConfigurationUpdates : Deserialize AnnotationTableConfigurationUpdates := named_element (str "AnnotationTableConfiguration") de_AnnotationTableConfigurationUpdates.
#[global] Instance serialize_BucketLifecycleConfiguration `{XmlDeps} : Serialize BucketLifecycleConfiguration := s_content ser_BucketLifecycleConfiguration (str "LifecycleConfiguration").
#[global] Instance deserialize_BucketLifecycleConfiguration `{XmlDeps} : Deserialize BucketLifecycleConfiguration := named_element (str "LifecycleConfiguration") de_BucketLifecycleConfiguration.
#[global] Instance serialize_BucketLoggingStatus : Serialize BucketLoggingStatus := s_content ser_BucketLoggingStatus (str "BucketLoggingStatus").
#[global] Instance deserialize_BucketLoggingStatus : Deserialize BucketLoggingStatus := named_element (str "BucketLoggingStatus") de_BucketLoggingStatus.
#[global] Instance serialize_CORSConfiguration : Serialize CORSConfiguration := s_content ser_CORSConfiguration (str "CORSConfiguration").
#[global] Instance deserialize_CORSConfiguration `{XmlDeps} : Deserialize CORSConfiguration := named_element (str "CORSConfiguration") de_CORSConfiguration.
#[global] Instance serialize_CompletedMultipartUpload : Serialize CompletedMultipartUpload := s_content ser_CompletedMultipartUpload (str "CompleteMultipartUpload").
#[global] Instance deserialize_CompletedMultipartUpload `{XmlDeps} : Deserialize CompletedMultipartUpload := named_element (str "CompleteMultipartUpload") de_CompletedMultipartUpload.
#[global] Instance serialize_CopyObjectResult `{XmlDeps} : Serialize CopyObjectResult := s_content ser_CopyObjectResult (str "CopyObjectResult").
#[global] Instance deserialize_CopyObjectResult `{XmlDeps} : Deserialize CopyObjectResult := named_element (str "CopyObjectResult") de_CopyObjectResult.
#[global] Instance serialize_CopyPartResult `{XmlDeps} : Serialize CopyPartResult := s_content ser_CopyPartResult (str "CopyPartResult").
#[global] Instance deserialize_CopyPartResult `{XmlDeps} : Deserialize CopyPartResult := named_element (str "CopyPartResult") de_CopyPartResult.
#[global] Instance serialize_CreateBucketConfiguration : Serialize CreateBucketConfiguration := s_content ser_CreateBucketConfiguration (str "CreateBucketConfiguration").
#[global] Instance deserialize_CreateBucketConfiguration : Deserialize CreateBucketConfiguration := named_element (str "CreateBucketConfiguration") de_CreateBucketConfiguration.
#[global] Instance serialize_Delete `{XmlDeps} : Serialize Delete := s_content ser_Delete (str "Delete").
#[global] Instance deserialize_Delete `{XmlDeps} : Deserialize Delete := named_element (str "Delete") de_Delete.
#[global] Instance serialize_GetBucketAclOutput : Serialize GetBucketAclOutput := s_content_with_ns ser_GetBucketAclOutput (str "AccessControlPolicy") XMLNS_S3.
#[global] Instance deserialize_GetBucketAclOutput : Deserialize GetBucketAclOutput := named_element (str "AccessControlPolicy") de_GetBucketAclOutput.
#[global] Instance serialize_GetBucketCorsOutput : Serialize GetBucketCorsOutput := s_content_with_ns ser_GetBucketCorsOutput (str "CORSConfiguration") XMLNS_S3.
#[global] Instance deserialize_GetBucketCorsOutput `{XmlDeps} : Deserialize GetBucketCorsOutput := named_element (str "CORSConfiguration") de_GetBucketCorsOutput.
#[global] Instance serialize_GetBucketLoggingOutput : Serialize GetBucketLoggingOutput := s_content_with_ns ser_GetBucketLoggingOutput (str "BucketLoggingStatus") XMLNS_S3.
#[global] Instance deserialize_GetBucketLoggingOutput : Deserialize GetBucketLoggingOutput := named_element (str "BucketLoggingStatus") de_GetBucketLoggingOutput.
#[global] Instance serialize_GetBucketMetadataConfigurationResult : Serialize GetBucketMetadataConfigurationResult := s_content ser_GetBucketMetadataConfigurationResult (str "GetBucketMetadataConfigurationResult").
#[global] Instance deserialize_GetBucketMetadataConfigurationResult `{XmlDeps} : Deserialize GetBucketMetadataConfigurationResult := named_element (str "GetBucketMetadataConfigurationResult") de_GetBucketMetadataConfigurationResult.
#[global] Instance serialize_GetBucketMetadataTableConfigurationResult : Serialize GetBucketMetadataTableConfigurationResult := s_content ser_GetBucketMetadataTableConfigurationResult (str "GetBucketMetadataTableConfigurationResult").
#[global] Instance deserialize_GetBucketMetadataTableConfigurationResult : Deserialize GetBucketMetadataTableConfigurationResult := named_element (str "GetBucketMetadataTableConfigurationResult") de_GetBucketMetadataTableConfigurationResult.
#[global] Instance serialize_GetBucketNotificationConfigurationOutput : Serialize GetBucketNotificationConfigurationOutput := s_content_with_ns ser_GetBucketNotificationConfigurationOutput (str "NotificationConfiguration") XMLNS_S3.
#[global] Instance deserialize_GetBucketNotificationConfigurationOutput : Deserialize GetBucketNotificationConfigurationOutput := named_element (str "NotificationConfiguration") de_GetBucketNotificationConfigurationOutput.
#[global] Instance serialize_GetBucketRequestPaymentOutput : Serialize GetBucketRequestPaymentOutput := s_content_with_ns ser_GetBucketRequestPaymentOutput (str "RequestPaymentConfiguration") XMLNS_S3.
#[global] Instance deserialize_GetBucketRequestPaymentOutput : Deserialize GetBucketRequestPaymentOutput := named_element (str "RequestPaymentConfiguration") de_GetBucketRequestPaymentOutput.
#[global] Instance serialize_GetBucketTaggingOutput : Serialize GetBucketTaggingOutput := s_content_with_ns ser_GetBucketTaggingOutput (str "Tagging") XMLNS_S3.
#[global] Instance deserialize_GetBucketTaggingOutput : Deserialize GetBucketTaggingOutput := named_element (str "Tagging") de_GetBucketTaggingOutput.
#[global] Instance serialize_GetBucketVersioningOutput : Serialize GetBucketVersioningOutput := s_content_with_ns ser_GetBucketVersioningOutput (str "VersioningConfiguration") XMLNS_S3.
#[global] Instance deserialize_GetBucketVersioningOutput : Deserialize GetBucketVersioningOutput := named_element (str "VersioningConfiguration") de_GetBucketVersioningOutput.
#[global] Instance serialize_GetBucketWebsiteOutput : Serialize GetBucketWebsiteOutput := s_content_with_ns ser_GetBucketWebsiteOutput (str "WebsiteConfiguration") XMLNS_S3.
#[global] Instance deserialize_GetBucketWebsiteOutput : Deserialize GetBucketWebsiteOutput := named_element (str "WebsiteConfiguration") de_GetBucketWebsiteOutput.
#[global] Instance serialize_IntelligentTieringConfiguration : Serialize IntelligentTieringConfiguration := s_content ser_IntelligentTieringConfiguration (str "IntelligentTieringConfiguration").
#[global] Instance deserialize_IntelligentTieringConfiguration `{XmlDeps} : Deserialize IntelligentTieringConfiguration := named_element (str "IntelligentTieringConfiguration") de_IntelligentTieringConfiguration.
#[global] Instance serialize_InventoryConfiguration : Serialize InventoryConfiguration := s_content ser_InventoryConfiguration (str "InventoryConfiguration").
#[global] Instance deserialize_InventoryConfiguration : Deserialize InventoryConfiguration := named_element (str "InventoryConfiguration") de_InventoryConfiguration.
#[global] Instance serialize_InventoryTableConfigurationUpdates : Serialize InventoryTableConfigurationUpdates := s_content ser_InventoryTableConfigurationUpdates (str "InventoryTableConfiguration").
#[global] Instance deserialize_InventoryTableConfigurationUpdates : Deserialize InventoryTableConfigurationUpdates := named_element (str "InventoryTableConfiguration") de_InventoryTableConfigurationUpdates.
#[global] Instance serialize_JournalTableConfigurationUpdates : Serialize JournalTableConfigurationUpdates := s_content ser_JournalTableConfigurationUpdates (str "JournalTableConfiguration").
#[global] Instance deserialize_JournalTableConfigurationUpdates `{XmlDeps} : Deserialize JournalTableConfigurationUpdates := named_element (str "JournalTableConfiguration") de_JournalTableConfigurationUpdates.
#[global] Instance serialize_ListBucketAnalyticsConfigurationsOutput : Serialize ListBucketAnalyticsConfigurationsOutput := s_content_with_ns ser_ListBucketAnalyticsConfigurationsOutput (str "ListBucketAnalyticsConfigurationResult") XMLNS_S3.
#[global] Instance deserialize_ListBucketAnalyticsConfigurationsOutput : Deserialize ListBucketAnalyticsConfigurationsOutput := named_element (str "ListBucketAnalyticsConfigurationResult") de_ListBucketAnalyticsConfigurationsOutput.
#[global] Instance serialize_ListBucketIntelligentTieringConfigurationsOutput : Serialize ListBucketIntelligentTieringConfigurationsOutput := s_content_with_ns ser_ListBucketIntelligentTieringConfigurationsOutput (str "ListBucketIntelligentTieringConfigurationsOutput") XMLNS_S3.
#[global] Instance deserialize_ListBucketIntelligentTieringConfigurationsOutput `{XmlDeps} : Deserialize ListBucketIntelligentTieringConfigurationsOutput := named_element (str "ListBucketIntelligentTieringConfigurationsOutput") de_ListBucketIntelligentTieringConfigurationsOutput.
#[global] Instance serialize_ListBucketInventoryConfigurationsOutput : Serialize ListBucketInventoryConfigurationsOutput := s_content_with_ns ser_ListBucketInventoryConfigurationsOutput (str "ListInventoryConfigurationsResult") XMLNS_S3.
#[global] Instance deserialize_ListBucketInventoryConfigurationsOutput : Deserialize ListBucketInventoryConfigurationsOutput := named_element (str "ListInventoryConfigurationsResult") de_ListBucketInventoryConfigurationsOutput.
#[global] Instance serialize_ListBucketMetricsConfigurationsOutput : Serialize ListBucketMetricsConfigurationsOutput := s_content_with_ns ser_ListBucketMetricsConfigurationsOutput (str "ListMetricsConfigurationsResult") XMLNS_S3.
#[global] Instance deserialize_ListBucketMetricsConfigurationsOutput : Deserialize ListBucketMetricsConfigurationsOutput := named_element (str "ListMetricsConfigurationsResult") de_ListBucketMetricsConfigurationsOutput.
#[global] Instance serialize_ListBucketsOutput `{XmlDeps} : Serialize ListBucketsOutput := s_content_with_ns ser_ListBucketsOutput (str "ListAllMyBucketsResult") XMLNS_S3.
#[global] Instance deserialize_ListBucketsOutput `{XmlDeps} : Deserialize ListBucketsOutput := named_element (str "ListAllMyBucketsResult") de_ListBucketsOutput.
#[global] Instance serialize_ListDirectoryBucketsOutput `{XmlDeps} : Serialize ListDirectoryBucketsOutput := s_content_with_ns ser_ListDirectoryBucketsOutput (str "ListAllMyDirectoryBucketsResult") XMLNS_S3.
#[global] Instance deserialize_ListDirectoryBucketsOutput `{XmlDeps} : Deserialize ListDirectoryBucketsOutput := named_element (str "ListAllMyDirectoryBucketsResult") de_ListDirectoryBucketsOutput.
#[global] Instance serialize_MetadataConfiguration : Serialize MetadataConfiguration := s_content ser_MetadataConfiguration (str "MetadataConfiguration").
#[global] Instance deserialize_MetadataConfiguration `{XmlDeps} : Deserialize MetadataConfiguration := named_element (str "MetadataConfiguration") de_MetadataConfiguration.
#[global] Instance serialize_MetadataTableConfiguration : Serialize MetadataTableConfiguration := s_content ser_MetadataTableConfiguration (str "MetadataTableConfiguration").
#[global] Instance deserialize_MetadataTableConfiguration : Deserialize MetadataTableConfiguration := named_element (str "MetadataTableConfiguration") de_MetadataTableConfiguration.
#[global] Instance serialize_MetricsConfiguration : Serialize MetricsConfiguration := s_content ser_MetricsConfiguration (str "MetricsConfiguration").
#[global] Instance deserialize_MetricsConfiguration : Deserialize MetricsConfiguration := named_element (str "MetricsConfiguration") de_MetricsConfiguration.
#[global] Instance serialize_NotificationConfiguration : Serialize NotificationConfiguration := s_content ser_NotificationConfiguration (str "NotificationConfiguration").
#[global] Instance deserialize_NotificationConfiguration : Deserialize NotificationConfiguration := named_element (str "NotificationConfiguration") de_NotificationConfiguration.
#[global] Instance serialize_ObjectEncryption : Serialize ObjectEncryption := fun self =>
  s_element (str "ObjectEncryption") match self with ObjectEncryption_SSEKMS x => s_content ser_SSEKMSEncryption (str "SSE-KMS") x end.
#[global] Instance deserialize_ObjectEncryption : Deserialize ObjectEncryption :=
  named_element (str "ObjectEncryption") (element (fun x =>
    if x =? str "SSE-KMS" then v ← de_SSEKMSEncryption; mret (ObjectEncryption_SSEKMS v) else throw UnexpectedTagName)).
#[global] Instance serialize_ObjectLockConfiguration : Serialize ObjectLockConfiguration := s_content ser_ObjectLockConfiguration (str "ObjectLockConfiguration").
#[global] Instance deserialize_ObjectLockConfiguration `{XmlDeps} : Deserialize ObjectLockConfiguration := named_element (str "ObjectLockConfiguration") de_ObjectLockConfiguration.
#[global] Instance serialize_ObjectLockLegalHold : Serialize ObjectLockLegalHold := s_content ser_ObjectLockLegalHold (str "LegalHold").
#[global] Instance deserialize_ObjectLockLegalHold : Deserialize ObjectLockLegalHold := named_element (str "LegalHold") de_ObjectLockLegalHold.
#[global] Instance serialize_ObjectLockRetention `{XmlDeps} : Serialize ObjectLockRetention := s_content ser_ObjectLockRetention (str "Retention").
#[global] Instance deserialize_ObjectLockRetention `{XmlDeps} : Deserialize ObjectLockRetention := named_element (str "Retention") de_ObjectLockRetention.
#[global] Instance serialize_OwnershipControls : Serialize OwnershipControls := s_content ser_OwnershipControls (str "OwnershipControls").
#[global] Instance deserialize_OwnershipControls : Deserialize OwnershipControls := named_element (str "OwnershipControls") de_OwnershipControls.
#[global] Instance serialize_PolicyStatus : Serialize PolicyStatus := s_content ser_PolicyStatus (str "PolicyStatus").
#[global] Instance deserialize_PolicyStatus : Deserialize PolicyStatus := named_element (str "PolicyStatus") de_PolicyStatus.
#[global] Instance serialize_Progress : Serialize Progress := s_content ser_Progress (str "Progress").
#[global] Instance deserialize_Progress `{XmlDeps} : Deserialize Progress := named_element (str "Progress") de_Progress.
#[global] Instance serialize_PublicAccessBlockConfiguration : Serialize PublicAccessBlockConfiguration := s_content ser_PublicAccessBlockConfiguration (str "PublicAccessBlockConfiguration").
#[global] Instance deserialize_PublicAccessBlockConfiguration : Deserialize PublicAccessBlockConfiguration := named_element (str "PublicAccessBlockConfiguration") de_PublicAccessBlockConfiguration.
#[global] Instance serialize_ReplicationConfiguration : Serialize ReplicationConfiguration := s_content ser_ReplicationConfiguration (str "ReplicationConfiguration").
#[global] Instance deserialize_ReplicationConfiguration `{XmlDeps} : Deserialize ReplicationConfiguration := named_element (str "ReplicationConfiguration") de_ReplicationConfiguration.
#[global] Instance serialize_RequestPaymentConfiguration : Serialize RequestPaymentConfiguration := s_content ser_RequestPaymentConfiguration (str "RequestPaymentConfiguration").
#[global] Instance deserialize_RequestPaymentConfiguration : Deserialize RequestPaymentConfiguration := named_element (str "RequestPaymentConfiguration") de_RequestPaymentConfiguration.
#[global] Instance serialize_RestoreRequest : Serialize RestoreRequest := s_content ser_RestoreRequest (str "RestoreRequest").
#[global] Instance deserialize_RestoreRequest `{XmlDeps} : Deserialize RestoreRequest := named_element (str "RestoreRequest") de_RestoreRequest.
#[global] Instance serialize_SelectObjectContentRequest : Serialize SelectObjectContentRequest := s_content ser_SelectObjectContentRequest (str "SelectObjectContentRequest").
#[global] Instance deserialize_SelectObjectContentRequest `{XmlDeps} : Deserialize SelectObjectContentRequest := named_element_any [str "SelectObjectContentRequest"; str "SelectRequest"] de_SelectObjectContentRequest.
#[global] Instance serialize_ServerSideEncryptionConfiguration : Serialize ServerSideEncryptionConfiguration := s_content ser_ServerSideEncryptionConfiguration (str "ServerSideEncryptionConfiguration").
#[global] Instance deserialize_ServerSideEncryptionConfiguration : Deserialize ServerSideEncryptionConfiguration := named_element (str "ServerSideEncryptionConfiguration") de_ServerSideEncryptionConfiguration.
#[global] Instance serialize_Stats : Serialize Stats := s_content ser_Stats (str "Stats").
#[global] Instance deserialize_Stats `{XmlDeps} : Deserialize Stats := named_element (str "Stats") de_Stats.
#[global] Instance serialize_Tagging : Serialize Tagging := s_content ser_Tagging (str "Tagging").
#[global] Instance deserialize_Tagging : Deserialize Tagging := named_element (str "Tagging") de_Tagging.
#[global] Instance serialize_VersioningConfiguration : Serialize VersioningConfiguration := s_content ser_VersioningConfiguration (str "VersioningConfiguration").
#[global] Instance deserialize_VersioningConfiguration : Deserialize VersioningConfiguration := named_element (str "VersioningConfiguration") de_VersioningConfiguration.
#[global] Instance serialize_WebsiteConfiguration : Serialize WebsiteConfiguration := s_content ser_WebsiteConfiguration (str "WebsiteConfiguration").
#[global] Instance deserialize_WebsiteConfiguration : Deserialize WebsiteConfiguration := named_element (str "WebsiteConfiguration") de_WebsiteConfiguration.
#[global] Instance serialize_CompleteMultipartUploadOutput : Serialize CompleteMultipartUploadOutput := s_content_with_ns ser_CompleteMultipartUploadOutput (str "CompleteMultipartUploadResult") XMLNS_S3.
#[global] Instance serialize_CreateMultipartUploadOutput : Serialize CreateMultipartUploadOutput := s_content_with_ns ser_CreateMultipartUploadOutput (str "InitiateMultipartUploadResult") XMLNS_S3.
#[global] Instance serialize_CreateSessionOutput `{XmlDeps} : Serialize CreateSessionOutput := s_content_with_ns ser_CreateSessionOutput (str "CreateSessionResult") XMLNS_S3.
#[global] Instance serialize_DeleteObjectsOutput : Serialize DeleteObjectsOutput := s_content_with_ns ser_DeleteObjectsOutput (str "DeleteResult") XMLNS_S3.
#[global] Instance serialize_GetBucketAccelerateConfigurationOutput : Serialize GetBucketAccelerateConfigurationOutput := s_content_with_ns ser_GetBucketAccelerateConfigurationOutput (str "AccelerateConfiguration") XMLNS_S3.
#[global] Instance serialize_GetBucketLifecycleConfigurationOutput `{XmlDeps} : Serialize GetBucketLifecycleConfigurationOutput := s_content_with_ns ser_GetBucketLifecycleConfigurationOutput (str "LifecycleConfiguration") XMLNS_S3.
#[global] Instance serialize_GetObjectAclOutput : Serialize GetObjectAclOutput := s_content_with_ns ser_GetObjectAclOutput (str "AccessControlPolicy") XMLNS_S3.
#[global] Instance serialize_GetObjectAttributesOutput : Serialize GetObjectAttributesOutput := s_content_with_ns ser_GetObjectAttributesOutput (str "GetObjectAttributesResponse") XMLNS_S3.
#[global] Instance serialize_GetObjectTaggingOutput : Serialize GetObjectTaggingOutput := s_content_with_ns ser_GetObjectTaggingOutput (str "Tagging") XMLNS_S3.
#[global] Instance serialize_ListMultipartUploadsOutput `{XmlDeps} : Serialize ListMultipartUploadsOutput := s_content_with_ns ser_ListMultipartUploadsOutput (str "ListMultipartUploadsResult") XMLNS_S3.
#[global] Instance serialize_ListObjectAnnotationsOutput `{XmlDeps} : Serialize ListObjectAnnotationsOutput := s_content_with_ns ser_ListObjectAnnotationsOutput (str "ListObjectAnnotationsOutput") XMLNS_S3.
#[global] Instance serialize_ListObjectVersionsOutput `{XmlDeps} : Serialize ListObjectVersionsOutput := s_content_with_ns ser_ListObjectVersionsOutput (str "ListVersionsResult") XMLNS_S3.
#[global] Instance serialize_ListObjectsOutput `{XmlDeps} : Serialize ListObjectsOutput := s_content_with_ns ser_ListObjectsOutput (str "ListBucketResult") XMLNS_S3.
#[global] Instance serialize_ListObjectsV2Output `{XmlDeps} : Serialize ListObjectsV2Output := s_content_with_ns ser_ListObjectsV2Output (str "ListBucketResult") XMLNS_S3.
#[global] Instance serialize_ListPartsOutput `{XmlDeps} : Serialize ListPartsOutput := s_content_with_ns ser_ListPartsOutput (str "ListPartsResult") XMLNS_S3.
#[global] Instance serialize_PutObjectAnnotationOutput : Serialize PutObjectAnnotationOutput := s_content_with_ns ser_PutObjectAnnotationOutput (str "PutObjectAnnotationOutput") XMLNS_S3.

(** ** Roots written by hand (mod.rs) *)

#[global] Instance serialize_GetBucketLocationOutput : Serialize GetBucketLocationOutput := fun self =>
  let xmlns := str "http://s3.amazonaws.com/doc/2006-03-01/" in
  match GetBucketLocationOutput_location_constraint self with
  | Some location_constraint => s_content_with_ns ser_BucketLocationConstraint (str "LocationConstraint") xmlns location_constraint
  | None => s_content_with_ns ser_str (str "LocationConstraint") xmlns []
  end.

Definition location_arm (location_constraint : option BucketLocationConstraint) (x : bytes) : De (option BucketLocationConstraint) :=
  if x =? str "LocationConstraint" then
    match location_constraint with
    | Some _ => throw DuplicateField
    | None => val ← de_BucketLocationConstraint; mret (if val <>? [] then Some val else location_constraint)
    end
  else throw UnexpectedTagName.

#[global] Instance deserialize_GetBucketLocationOutput : Deserialize GetBucketLocationOutput :=
  location_constraint ← for_each_element location_arm None;
  mret {| GetBucketLocationOutput_location_constraint := location_constraint |}.

#[global] Instance serialize_AssumeRoleOutput `{XmlDeps} : Serialize AssumeRoleOutput := fun self =>
  let xmlns := str "https://sts.amazonaws.com/doc/2011-06-15/" in
  s_element_with_ns (str "AssumeRoleResponse") xmlns (s_content ser_AssumeRoleOutput (str "AssumeRoleResult") self).

#[global] Instance deserialize_AssumeRoleOutput `{XmlDeps} : Deserialize AssumeRoleOutput :=
  named_element (str "AssumeRoleResponse") (named_element (str "AssumeRoleResult") de_AssumeRoleOutput).

(** ** All documents *)

Inductive Document :=
| D_AbacStatus (v : AbacStatus)
| D_AccelerateConfiguration (v : AccelerateConfiguration)
| D_AccessControlPolicy (v : AccessControlPolicy)
| D_AnalyticsConfiguration (v : AnalyticsConfiguration)
| D_AnnotationTableConfigurationUpdates (v : AnnotationTableConfigurationUpdates)
| D_AssumeRoleOutput (v : AssumeRoleOutput)
| D_BucketLifecycleConfiguration (v : BucketLifecycleConfiguration)
| D_BucketLoggingStatus (v : BucketLoggingStatus)
| D_CORSConfiguration (v : CORSConfiguration)
| D_CompletedMultipartUpload (v : CompletedMultipartUpload)
| D_CopyObjectResult (v : CopyObjectResult)
| D_CopyPartResult (v : CopyPartResult)
| D_CreateBucketConfiguration (v : CreateBucketConfiguration)
| D_Delete (v : Delete)
| D_GetBucketAclOutput (v : GetBucketAclOutput)
| D_GetBucketCorsOutput (v : GetBucketCorsOutput)
| D_GetBucketLocationOutput (v : GetBucketLocationOutput)
| D_GetBucketLoggingOutput (v : GetBucketLoggingOutput)
| D_GetBucketMetadataConfigurationResult (v : GetBucketMetadataConfigurationResult)
| D_GetBucketMetadataTableConfigurationResult (v : GetBucketMetadataTableConfigurationResult)
| D_GetBucketNotificationConfigurationOutput (v : GetBucketNotificationConfigurationOutput)
| D_GetBucketRequestPaymentOutput (v : GetBucketRequestPaymentOutput)
| D_GetBucketTaggingOutput (v : GetBucketTaggingOutput)
| D_GetBucketVersioningOutput (v : GetBucketVersioningOutput)
| D_GetBucketWebsiteOutput (v : GetBucketWebsiteOutput)
| D_IntelligentTieringConfiguration (v : IntelligentTieringConfiguration)
| D_InventoryConfiguration (v : InventoryConfiguration)
| D_InventoryTableConfigurationUpdates (v : InventoryTableConfigurationUpdates)
| D_JournalTableConfigurationUpdates (v : JournalTableConfigurationUpdates)
| D_ListBucketAnalyticsConfigurationsOutput (v : ListBucketAnalyticsConfigurationsOutput)
| D_ListBucketIntelligentTieringConfigurationsOutput (v : ListBucketIntelligentTieringConfigurationsOutput)
| D_ListBucketInventoryConfigurationsOutput (v : ListBucketInventoryConfigurationsOutput)
| D_ListBucketMetricsConfigurationsOutput (v : ListBucketMetricsConfigurationsOutput)
| D_ListBucketsOutput (v : ListBucketsOutput)
| D_ListDirectoryBucketsOutput (v : ListDirectoryBucketsOutput)
| D_MetadataConfiguration (v : MetadataConfiguration)
| D_MetadataTableConfiguration (v : MetadataTableConfiguration)
| D_MetricsConfiguration (v : MetricsConfiguration)
| D_NotificationConfiguration (v : NotificationConfiguration)
| D_ObjectEncryption (v : ObjectEncryption)
| D_ObjectLockConfiguration (v : ObjectLockConfiguration)
| D_ObjectLockLegalHold (v : ObjectLockLegalHold)
| D_ObjectLockRetention (v : ObjectLockRetention)
| D_OwnershipControls (v : OwnershipControls)
| D_PolicyStatus (v : PolicyStatus)
| D_Progress (v : Progress)
| D_PublicAccessBlockConfiguration (v : PublicAccessBlockConfiguration)
| D_ReplicationConfiguration (v : ReplicationConfiguration)
| D_RequestPaymentConfiguration (v : RequestPaymentConfiguration)
| D_RestoreRequest (v : RestoreRequest)
| D_SelectObjectContentRequest (v : SelectObjectContentRequest)
| D_ServerSideEncryptionConfiguration (v : ServerSideEncryptionConfiguration)
| D_Stats (v : Stats)
| D_Tagging (v : Tagging)
| D_VersioningConfiguration (v : VersioningConfiguration)
| D_WebsiteConfiguration (v : WebsiteConfiguration).

Inductive DocumentType :=
| T_AbacStatus | T_AccelerateConfiguration | T_AccessControlPolicy | T_AnalyticsConfiguration
 | T_AnnotationTableConfigurationUpdates | T_AssumeRoleOutput | T_BucketLifecycleConfiguration | T_BucketLoggingStatus
 | T_CORSConfiguration | T_CompletedMultipartUpload | T_CopyObjectResult | T_CopyPartResult
 | T_CreateBucketConfiguration | T_Delete | T_GetBucketAclOutput | T_GetBucketCorsOutput
 | T_GetBucketLocationOutput | T_GetBucketLoggingOutput | T_GetBucketMetadataConfigurationResult | T_GetBucketMetadataTableConfigurationResult
 | T_GetBucketNotificationConfigurationOutput | T_GetBucketRequestPaymentOutput | T_GetBucketTaggingOutput | T_GetBucketVersioningOutput
 | T_GetBucketWebsiteOutput | T_IntelligentTieringConfiguration | T_InventoryConfiguration | T_InventoryTableConfigurationUpdates
 | T_JournalTableConfigurationUpdates | T_ListBucketAnalyticsConfigurationsOutput | T_ListBucketIntelligentTieringConfigurationsOutput | T_ListBucketInventoryConfigurationsOutput
 | T_ListBucketMetricsConfigurationsOutput | T_ListBucketsOutput | T_ListDirectoryBucketsOutput | T_MetadataConfiguration
 | T_MetadataTableConfiguration | T_MetricsConfiguration | T_NotificationConfiguration | T_ObjectEncryption
 | T_ObjectLockConfiguration | T_ObjectLockLegalHold | T_ObjectLockRetention | T_OwnershipControls
 | T_PolicyStatus | T_Progress | T_PublicAccessBlockConfiguration | T_ReplicationConfiguration
 | T_RequestPaymentConfiguration | T_RestoreRequest | T_SelectObjectContentRequest | T_ServerSideEncryptionConfiguration
 | T_Stats | T_Tagging | T_VersioningConfiguration | T_WebsiteConfiguration.

Definition type_of (d : Document) : DocumentType :=
  match d with
  | D_AbacStatus _ => T_AbacStatus
  | D_AccelerateConfiguration _ => T_AccelerateConfiguration
  | D_AccessControlPolicy _ => T_AccessControlPolicy
  | D_AnalyticsConfiguration _ => T_AnalyticsConfiguration
  | D_AnnotationTableConfigurationUpdates _ => T_AnnotationTableConfigurationUpdates
  | D_AssumeRoleOutput _ => T_AssumeRoleOutput
  | D_BucketLifecycleConfiguration _ => T_BucketLifecycleConfiguration
  | D_BucketLoggingStatus _ => T_BucketLoggingStatus
  | D_CORSConfiguration _ => T_CORSConfiguration
  | D_CompletedMultipartUpload _ => T_CompletedMultipartUpload
  | D_CopyObjectResult _ => T_CopyObjectResult
  | D_CopyPartResult _ => T_CopyPartResult
  | D_CreateBucketConfiguration _ => T_CreateBucketConfiguration
  | D_Delete _ => T_Delete
  | D_GetBucketAclOutput _ => T_GetBucketAclOutput
  | D_GetBucketCorsOutput _ => T_GetBucketCorsOutput
  | D_GetBucketLocationOutput _ => T_GetBucketLocationOutput
  | D_GetBucketLoggingOutput _ => T_GetBucketLoggingOutput
  | D_GetBucketMetadataConfigurationResult _ => T_GetBucketMetadataConfigurationResult
  | D_GetBucketMetadataTableConfigurationResult _ => T_GetBucketMetadataTableConfigurationResult
  | D_GetBucketNotificationConfigurationOutput _ => T_GetBucketNotificationConfigurationOutput
  | D_GetBucketRequestPaymentOutput _ => T_GetBucketRequestPaymentOutput
  | D_GetBucketTaggingOutput _ => T_GetBucketTaggingOutput
  | D_GetBucketVersioningOutput _ => T_GetBucketVersioningOutput
  | D_GetBucketWebsiteOutput _ => T_GetBucketWebsiteOutput
  | D_IntelligentTieringConfiguration _ => T_IntelligentTieringConfiguration
  | D_InventoryConfiguration _ => T_InventoryConfiguration
  | D_InventoryTableConfigurationUpdates _ => T_InventoryTableConfigurationUpdates
  | D_JournalTableConfigurationUpdates _ => T_JournalTableConfigurationUpdates
  | D_ListBucketAnalyticsConfigurationsOutput _ => T_ListBucketAnalyticsConfigurationsOutput
  | D_ListBucketIntelligentTieringConfigurationsOutput _ => T_ListBucketIntelligentTieringConfigurationsOutput
  | D_ListBucketInventoryConfigurationsOutput _ => T_ListBucketInventoryConfigurationsOutput
  | D_ListBucketMetricsConfigurationsOutput _ => T_ListBucketMetricsConfigurationsOutput
  | D_ListBucketsOutput _ => T_ListBucketsOutput
  | D_ListDirectoryBucketsOutput _ => T_ListDirectoryBucketsOutput
  | D_MetadataConfiguration _ => T_MetadataConfiguration
  | D_MetadataTableConfiguration _ => T_MetadataTableConfiguration
  | D_MetricsConfiguration _ => T_MetricsConfiguration
  | D_NotificationConfiguration _ => T_NotificationConfiguration
  | D_ObjectEncryption _ => T_ObjectEncryption
  | D_ObjectLockConfiguration _ => T_ObjectLockConfiguration
  | D_ObjectLockLegalHold _ => T_ObjectLockLegalHold
  | D_ObjectLockRetention _ => T_ObjectLockRetention
  | D_OwnershipControls _ => T_OwnershipControls
  | D_PolicyStatus _ => T_PolicyStatus
  | D_Progress _ => T_Progress
  | D_PublicAccessBlockConfiguration _ => T_PublicAccessBlockConfiguration
  | D_ReplicationConfiguration _ => T_ReplicationConfiguration
  | D_RequestPaymentConfiguration _ => T_RequestPaymentConfiguration
  | D_RestoreRequest _ => T_RestoreRequest
  | D_SelectObjectContentRequest _ => T_SelectObjectContentRequest
  | D_ServerSideEncryptionConfiguration _ => T_ServerSideEncryptionConfiguration
  | D_Stats _ => T_Stats
  | D_Tagging _ => T_Tagging
  | D_VersioningConfiguration _ => T_VersioningConfiguration
  | D_WebsiteConfiguration _ => T_WebsiteConfiguration
  end.

(** The values that the serializer writes so that they can be read. *)
Definition Document_wf (d : Document) : Prop :=
  match d with
  | D_AbacStatus v => AbacStatus_wf v
  | D_AccelerateConfiguration v => AccelerateConfiguration_wf v
  | D_AccessControlPolicy v => AccessControlPolicy_wf v
  | D_AnalyticsConfiguration v => AnalyticsConfiguration_wf v
  | D_AnnotationTableConfigurationUpdates v => AnnotationTableConfigurationUpdates_wf v
  | D_AssumeRoleOutput v => AssumeRoleOutput_wf v
  | D_BucketLifecycleConfiguration v => BucketLifecycleConfiguration_wf v
  | D_BucketLoggingStatus v => BucketLoggingStatus_wf v
  | D_CORSConfiguration v => CORSConfiguration_wf v
  | D_CompletedMultipartUpload v => CompletedMultipartUpload_wf v
  | D_CopyObjectResult v => CopyObjectResult_wf v
  | D_CopyPartResult v => CopyPartResult_wf v
  | D_CreateBucketConfiguration v => CreateBucketConfiguration_wf v
  | D_Delete v => Delete_wf v
  | D_GetBucketAclOutput v => GetBucketAclOutput_wf v
  | D_GetBucketCorsOutput v => GetBucketCorsOutput_wf v
  | D_GetBucketLocationOutput v => GetBucketLocationOutput_wf v /\ GetBucketLocationOutput_location_constraint v <> Some []
  | D_GetBucketLoggingOutput v => GetBucketLoggingOutput_wf v
  | D_GetBucketMetadataConfigurationResult v => GetBucketMetadataConfigurationResult_wf v
  | D_GetBucketMetadataTableConfigurationResult v => GetBucketMetadataTableConfigurationResult_wf v
  | D_GetBucketNotificationConfigurationOutput v => GetBucketNotificationConfigurationOutput_wf v
  | D_GetBucketRequestPaymentOutput v => GetBucketRequestPaymentOutput_wf v
  | D_GetBucketTaggingOutput v => GetBucketTaggingOutput_wf v
  | D_GetBucketVersioningOutput v => GetBucketVersioningOutput_wf v
  | D_GetBucketWebsiteOutput v => GetBucketWebsiteOutput_wf v
  | D_IntelligentTieringConfiguration v => IntelligentTieringConfiguration_wf v
  | D_InventoryConfiguration v => InventoryConfiguration_wf v
  | D_InventoryTableConfigurationUpdates v => InventoryTableConfigurationUpdates_wf v
  | D_JournalTableConfigurationUpdates v => JournalTableConfigurationUpdates_wf v
  | D_ListBucketAnalyticsConfigurationsOutput v => ListBucketAnalyticsConfigurationsOutput_wf v
  | D_ListBucketIntelligentTieringConfigurationsOutput v => ListBucketIntelligentTieringConfigurationsOutput_wf v
  | D_ListBucketInventoryConfigurationsOutput v => ListBucketInventoryConfigurationsOutput_wf v
  | D_ListBucketMetricsConfigurationsOutput v => ListBucketMetricsConfigurationsOutput_wf v
  | D_ListBucketsOutput v => ListBucketsOutput_wf v
  | D_ListDirectoryBucketsOutput v => ListDirectoryBucketsOutput_wf v
  | D_MetadataConfiguration v => MetadataConfiguration_wf v
  | D_MetadataTableConfiguration v => MetadataTableConfiguration_wf v
  | D_MetricsConfiguration v => MetricsConfiguration_wf v
  | D_NotificationConfiguration v => NotificationConfiguration_wf v
  | D_ObjectEncryption v => ObjectEncryption_wf v
  | D_ObjectLockConfiguration v => ObjectLockConfiguration_wf v
  | D_ObjectLockLegalHold v => ObjectLockLegalHold_wf v
  | D_ObjectLockRetention v => ObjectLockRetention_wf v
  | D_OwnershipControls v => OwnershipControls_wf v
  | D_PolicyStatus v => PolicyStatus_wf v
  | D_Progress v => Progress_wf v
  | D_PublicAccessBlockConfiguration v => PublicAccessBlockConfiguration_wf v
  | D_ReplicationConfiguration v => ReplicationConfiguration_wf v
  | D_RequestPaymentConfiguration v => RequestPaymentConfiguration_wf v
  | D_RestoreRequest v => RestoreRequest_wf v
  | D_SelectObjectContentRequest v => SelectObjectContentRequest_wf v
  | D_ServerSideEncryptionConfiguration v => ServerSideEncryptionConfiguration_wf v
  | D_Stats v => Stats_wf v
  | D_Tagging v => Tagging_wf v
  | D_VersioningConfiguration v => VersioningConfiguration_wf v
  | D_WebsiteConfiguration v => WebsiteConfiguration_wf v
  end.

Inductive OutputDocument :=
| O_CompleteMultipartUploadOutput (v : CompleteMultipartUploadOutput)
| O_CreateMultipartUploadOutput (v : CreateMultipartUploadOutput)
| O_CreateSessionOutput (v : CreateSessionOutput)
| O_DeleteObjectsOutput (v : DeleteObjectsOutput)
| O_GetBucketAccelerateConfigurationOutput (v : GetBucketAccelerateConfigurationOutput)
| O_GetBucketLifecycleConfigurationOutput (v : GetBucketLifecycleConfigurationOutput)
| O_GetObjectAclOutput (v : GetObjectAclOutput)
| O_GetObjectAttributesOutput (v : GetObjectAttributesOutput)
| O_GetObjectTaggingOutput (v : GetObjectTaggingOutput)
| O_ListMultipartUploadsOutput (v : ListMultipartUploadsOutput)
| O_ListObjectAnnotationsOutput (v : ListObjectAnnotationsOutput)
| O_ListObjectVersionsOutput (v : ListObjectVersionsOutput)
| O_ListObjectsOutput (v : ListObjectsOutput)
| O_ListObjectsV2Output (v : ListObjectsV2Output)
| O_ListPartsOutput (v : ListPartsOutput)
| O_PutObjectAnnotationOutput (v : PutObjectAnnotationOutput).

(** The values that are written so that they can be read. *)
Definition Output_wf (d : OutputDocument) : Prop :=
  match d with
  | O_CompleteMultipartUploadOutput v => CompleteMultipartUploadOutput_wf v
  | O_CreateMultipartUploadOutput v => CreateMultipartUploadOutput_wf v
  | O_CreateSessionOutput v => CreateSessionOutput_wf v
  | O_DeleteObjectsOutput v => DeleteObjectsOutput_wf v
  | O_GetBucketAccelerateConfigurationOutput v => GetBucketAccelerateConfigurationOutput_wf v
  | O_GetBucketLifecycleConfigurationOutput v => GetBucketLifecycleConfigurationOutput_wf v
  | O_GetObjectAclOutput v => GetObjectAclOutput_wf v
  | O_GetObjectAttributesOutput v => GetObjectAttributesOutput_wf v
  | O_GetObjectTaggingOutput v => GetObjectTaggingOutput_wf v
  | O_ListMultipartUploadsOutput v => ListMultipartUploadsOutput_wf v
  | O_ListObjectAnnotationsOutput v => ListObjectAnnotationsOutput_wf v
  | O_ListObjectVersionsOutput v => ListObjectVersionsOutput_wf v
  | O_ListObjectsOutput v => ListObjectsOutput_wf v
  | O_ListObjectsV2Output v => ListObjectsV2Output_wf v
  | O_ListPartsOutput v => ListPartsOutput_wf v
  | O_PutObjectAnnotationOutput v => PutObjectAnnotationOutput_wf v
  end.

Section Documents.
Context `{QuickXml} `{XmlDeps}.

#[global] Instance serialize_Document : Serialize Document := fun d =>
  match d with
  | D_AbacStatus v => serialize v
  | D_AccelerateConfiguration v => serialize v
  | D_AccessControlPolicy v => serialize v
  | D_AnalyticsConfiguration v => serialize v
  | D_AnnotationTableConfigurationUpdates v => serialize v
  | D_AssumeRoleOutput v => serialize v
  | D_BucketLifecycleConfiguration v => serialize v
  | D_BucketLoggingStatus v => serialize v
  | D_CORSConfiguration v => serialize v
  | D_CompletedMultipartUpload v => serialize v
  | D_CopyObjectResult v => serialize v
  | D_CopyPartResult v => serialize v
  | D_CreateBucketConfiguration v => serialize v
  | D_Delete v => serialize v
  | D_GetBucketAclOutput v => serialize v
  | D_GetBucketCorsOutput v => serialize v
  | D_GetBucketLocationOutput v => serialize v
  | D_GetBucketLoggingOutput v => serialize v
  | D_GetBucketMetadataConfigurationResult v => serialize v
  | D_GetBucketMetadataTableConfigurationResult v => serialize v
  | D_GetBucketNotificationConfigurationOutput v => serialize v
  | D_GetBucketRequestPaymentOutput v => serialize v
  | D_GetBucketTaggingOutput v => serialize v
  | D_GetBucketVersioningOutput v => serialize v
  | D_GetBucketWebsiteOutput v => serialize v
  | D_IntelligentTieringConfiguration v => serialize v
  | D_InventoryConfiguration v => serialize v
  | D_InventoryTableConfigurationUpdates v => serialize v
  | D_JournalTableConfigurationUpdates v => serialize v
  | D_ListBucketAnalyticsConfigurationsOutput v => serialize v
  | D_ListBucketIntelligentTieringConfigurationsOutput v => serialize v
  | D_ListBucketInventoryConfigurationsOutput v => serialize v
  | D_ListBucketMetricsConfigurationsOutput v => serialize v
  | D_ListBucketsOutput v => serialize v
  | D_ListDirectoryBucketsOutput v => serialize v
  | D_MetadataConfiguration v => serialize v
  | D_MetadataTableConfiguration v => serialize v
  | D_MetricsConfiguration v => serialize v
  | D_NotificationConfiguration v => serialize v
  | D_ObjectEncryption v => serialize v
  | D_ObjectLockConfiguration v => serialize v
  | D_ObjectLockLegalHold v => serialize v
  | D_ObjectLockRetention v => serialize v
  | D_OwnershipControls v => serialize v
  | D_PolicyStatus v => serialize v
  | D_Progress v => serialize v
  | D_PublicAccessBlockConfiguration v => serialize v
  | D_ReplicationConfiguration v => serialize v
  | D_RequestPaymentConfiguration v => serialize v
  | D_RestoreRequest v => serialize v
  | D_SelectObjectContentRequest v => serialize v
  | D_ServerSideEncryptionConfiguration v => serialize v
  | D_Stats v => serialize v
  | D_Tagging v => serialize v
  | D_VersioningConfiguration v => serialize v
  | D_WebsiteConfiguration v => serialize v
  end.

Definition deserialize_as (t : DocumentType) : De Document :=
  match t with
  | T_AbacStatus => v ← deserialize; mret (D_AbacStatus v)
  | T_AccelerateConfiguration => v ← deserialize; mret (D_AccelerateConfiguration v)
  | T_AccessControlPolicy => v ← deserialize; mret (D_AccessControlPolicy v)
  | T_AnalyticsConfiguration => v ← deserialize; mret (D_AnalyticsConfiguration v)
  | T_AnnotationTableConfigurationUpdates => v ← deserialize; mret (D_AnnotationTableConfigurationUpdates v)
  | T_AssumeRoleOutput => v ← deserialize; mret (D_AssumeRoleOutput v)
  | T_BucketLifecycleConfiguration => v ← deserialize; mret (D_BucketLifecycleConfiguration v)
  | T_BucketLoggingStatus => v ← deserialize; mret (D_BucketLoggingStatus v)
  | T_CORSConfiguration => v ← deserialize; mret (D_CORSConfiguration v)
  | T_CompletedMultipartUpload => v ← deserialize; mret (D_CompletedMultipartUpload v)
  | T_CopyObjectResult => v ← deserialize; mret (D_CopyObjectResult v)
  | T_CopyPartResult => v ← deserialize; mret (D_CopyPartResult v)
  | T_CreateBucketConfiguration => v ← deserialize; mret (D_CreateBucketConfiguration v)
  | T_Delete => v ← deserialize; mret (D_Delete v)
  | T_GetBucketAclOutput => v ← deserialize; mret (D_GetBucketAclOutput v)
  | T_GetBucketCorsOutput => v ← deserialize; mret (D_GetBucketCorsOutput v)
  | T_GetBucketLocationOutput => v ← deserialize; mret (D_GetBucketLocationOutput v)
  | T_GetBucketLoggingOutput => v ← deserialize; mret (D_GetBucketLoggingOutput v)
  | T_GetBucketMetadataConfigurationResult => v ← deserialize; mret (D_GetBucketMetadataConfigurationResult v)
  | T_GetBucketMetadataTableConfigurationResult => v ← deserialize; mret (D_GetBucketMetadataTableConfigurationResult v)
  | T_GetBucketNotificationConfigurationOutput => v ← deserialize; mret (D_GetBucketNotificationConfigurationOutput v)
  | T_GetBucketRequestPaymentOutput => v ← deserialize; mret (D_GetBucketRequestPaymentOutput v)
  | T_GetBucketTaggingOutput => v ← deserialize; mret (D_GetBucketTaggingOutput v)
  | T_GetBucketVersioningOutput => v ← deserialize; mret (D_GetBucketVersioningOutput v)
  | T_GetBucketWebsiteOutput => v ← deserialize; mret (D_GetBucketWebsiteOutput v)
  | T_IntelligentTieringConfiguration => v ← deserialize; mret (D_IntelligentTieringConfiguration v)
  | T_InventoryConfiguration => v ← deserialize; mret (D_InventoryConfiguration v)
  | T_InventoryTableConfigurationUpdates => v ← deserialize; mret (D_InventoryTableConfigurationUpdates v)
  | T_JournalTableConfigurationUpdates => v ← deserialize; mret (D_JournalTableConfigurationUpdates v)
  | T_ListBucketAnalyticsConfigurationsOutput => v ← deserialize; mret (D_ListBucketAnalyticsConfigurationsOutput v)
  | T_ListBucketIntelligentTieringConfigurationsOutput => v ← deserialize; mret (D_ListBucketIntelligentTieringConfigurationsOutput v)
  | T_ListBucketInventoryConfigurationsOutput => v ← deserialize; mret (D_ListBucketInventoryConfigurationsOutput v)
  | T_ListBucketMetricsConfigurationsOutput => v ← deserialize; mret (D_ListBucketMetricsConfigurationsOutput v)
  | T_ListBucketsOutput => v ← deserialize; mret (D_ListBucketsOutput v)
  | T_ListDirectoryBucketsOutput => v ← deserialize; mret (D_ListDirectoryBucketsOutput v)
  | T_MetadataConfiguration => v ← deserialize; mret (D_MetadataConfiguration v)
  | T_MetadataTableConfiguration => v ← deserialize; mret (D_MetadataTableConfiguration v)
  | T_MetricsConfiguration => v ← deserialize; mret (D_MetricsConfiguration v)
  | T_NotificationConfiguration => v ← deserialize; mret (D_NotificationConfiguration v)
  | T_ObjectEncryption => v ← deserialize; mret (D_ObjectEncryption v)
  | T_ObjectLockConfiguration => v ← deserialize; mret (D_ObjectLockConfiguration v)
  | T_ObjectLockLegalHold => v ← deserialize; mret (D_ObjectLockLegalHold v)
  | T_ObjectLockRetention => v ← deserialize; mret (D_ObjectLockRetention v)
  | T_OwnershipControls => v ← deserialize; mret (D_OwnershipControls v)
  | T_PolicyStatus => v ← deserialize; mret (D_PolicyStatus v)
  | T_Progress => v ← deserialize; mret (D_Progress v)
  | T_PublicAccessBlockConfiguration => v ← deserialize; mret (D_PublicAccessBlockConfiguration v)
  | T_ReplicationConfiguration => v ← deserialize; mret (D_ReplicationConfiguration v)
  | T_RequestPaymentConfiguration => v ← deserialize; mret (D_RequestPaymentConfiguration v)
  | T_RestoreRequest => v ← deserialize; mret (D_RestoreRequest v)
  | T_SelectObjectContentRequest => v ← deserialize; mret (D_SelectObjectContentRequest v)
  | T_ServerSideEncryptionConfiguration => v ← deserialize; mret (D_ServerSideEncryptionConfiguration v)
  | T_Stats => v ← deserialize; mret (D_Stats v)
  | T_Tagging => v ← deserialize; mret (D_Tagging v)
  | T_VersioningConfiguration => v ← deserialize; mret (D_VersioningConfiguration v)
  | T_WebsiteConfiguration => v ← deserialize; mret (D_WebsiteConfiguration v)
  end.

(** *** Every document is read back *)

Definition reads_back {T} `{Serialize T, Deserialize T} (decl : bool) (v : T) : Prop :=
  exists xml, document_text (document decl (serialize v)) = Some xml /\ deserialize_document deserialize xml = Some (Ok v).

Lemma plain_root {T} (ser : T -> Ser) (de : De T) wf n decl v :
  RoundTrip ser de wf -> name_ok n = true -> wf v -> @reads_back T (s_content ser n) (named_element n de) decl v.
Proof. intros Hrt Hn Hv. exact (content_root_rt ser de wf n v decl Hn Hv). Qed.

Lemma ns_root {T} (ser : T -> Ser) (de : De T) wf n decl v :
  RoundTrip ser de wf -> name_ok n = true -> wf v -> @reads_back T (s_content_with_ns ser n XMLNS_S3) (named_element n de) decl v.
Proof. intros Hrt Hn Hv. by apply (content_ns_root_rt ser de wf n XMLNS_S3 v decl Hn). Qed.

Lemma any_root {T} (ser : T -> Ser) (de : De T) wf n names decl v :
  RoundTrip ser de wf -> name_ok n = true -> n ∈ names -> wf v ->
  @reads_back T (s_content ser n) (named_element_any names de) decl v.
Proof. intros Hrt Hn Hin Hv. exact (content_any_root_rt ser de wf n names v decl Hn Hin Hv). Qed.

Lemma assume_role_root decl v : AssumeRoleOutput_wf v -> reads_back decl v.
Proof.
  intros Hv. destruct (round_trip v Hv) as (os & E & Hos & Hr).
  destruct (element_writes (str "AssumeRoleResult") [] (ser_AssumeRoleOutput v) os eq_refl eq_refl E Hos) as (ps & Ep & Hps & Hd).
  apply (element_root_reads (str "AssumeRoleResponse") [(str "xmlns", _)] _ ps); [done|done|exact Ep|by apply out_ok_weaken|].
  rewrite Hd. intros d n tl Hu. cbn [map app] in Hu. rewrite map_app, <- app_assoc in Hu. cbn [map app] in Hu.
  exact (named_element_cons de_AssumeRoleOutput _ (devs os) v d _ Hr Hu).
Qed.

Lemma location_arm_well s x : well (location_arm s x).
Proof. unfold location_arm. repeat case_match; auto with de. Qed.

(** The root element is read as the only element of the top level. *)
Lemma location_root decl v :
  GetBucketLocationOutput_wf v -> GetBucketLocationOutput_location_constraint v <> Some [] -> reads_back decl v.
Proof.
  intros Hv Hne. destruct v as [lc]. unfold GetBucketLocationOutput_wf in Hv. cbn [GetBucketLocationOutput_location_constraint] in *.
  assert (Hs : string_wf (default [] lc)) by (by destruct lc).
  destruct (round_trip (RoundTrip := BucketLocationConstraint_rt) (default [] lc) Hs) as (os & E & Hos & Hr).
  unfold reads_back, serialize, serialize_GetBucketLocationOutput. cbn [GetBucketLocationOutput_location_constraint].
  assert (Hroot : match lc with
    | Some location_constraint => s_content_with_ns ser_BucketLocationConstraint (str "LocationConstraint") XMLNS_S3 location_constraint
    | None => s_content_with_ns ser_str (str "LocationConstraint") XMLNS_S3 []
    end = s_element_with_attrs (str "LocationConstraint") [(str "xmlns", XMLNS_S3)] (ser_BucketLocationConstraint (default [] lc))) by (by destruct lc).
  change (str "http://s3.amazonaws.com/doc/2006-03-01/") with XMLNS_S3. rewrite Hroot.
  apply (root_reads _ _ _ os); [done|done|exact E|done|]. intros d Hu.
  set (f := fun (s : option BucketLocationConstraint) (x : bytes) (_ : BytesStart) => location_arm s x).
  assert (Hf : forall s x st, well (f s x st)) by (intros; apply location_arm_well).
  assert (Hb : reads (f None (str "LocationConstraint") (start_of (str "LocationConstraint") [(str "xmlns", XMLNS_S3)])) (devs os) lc).
  { replace lc with (if default [] lc <>? [] then Some (default [] lc) else None)
      by (destruct lc as [[|c l]|]; [by destruct (Hne eq_refl)|done..]).
    by apply (reads_bind _ (fun val => if val <>? [] then Some val else None)). }
  destruct (for_each_one f Hf None (start_of (str "LocationConstraint") [(str "xmlns", XMLNS_S3)]) (devs os) lc d Hb Hu) as (d' & Ed & Hd). exists d'. split; [|done].
  unfold deserialize, deserialize_GetBucketLocationOutput. by rewrite (bind_run (for_each_element location_arm None) _ d lc d' Ed).
Qed.

Ltac solve_root :=
  first [ eapply plain_root; [typeclasses eauto|vm_compute; reflexivity|eassumption]
        | eapply ns_root; [typeclasses eauto|vm_compute; reflexivity|eassumption]
        | eapply any_root; [typeclasses eauto|vm_compute; reflexivity|apply list_elem_of_In; simpl; tauto|eassumption] ].

Lemma document_reads (d : Document) decl : Document_wf d ->
  exists xml, document_text (document decl (serialize d)) = Some xml /\
    deserialize_document (deserialize_as (type_of d)) xml = Some (Ok d).
Proof.
  intros Hd. enough (Hr : match d with
    | D_AbacStatus v => reads_back decl v
    | D_AccelerateConfiguration v => reads_back decl v
    | D_AccessControlPolicy v => reads_back decl v
    | D_AnalyticsConfiguration v => reads_back decl v
    | D_AnnotationTableConfigurationUpdates v => reads_back decl v
    | D_AssumeRoleOutput v => reads_back decl v
    | D_BucketLifecycleConfiguration v => reads_back decl v
    | D_BucketLoggingStatus v => reads_back decl v
    | D_CORSConfiguration v => reads_back decl v
    | D_CompletedMultipartUpload v => reads_back decl v
    | D_CopyObjectResult v => reads_back decl v
    | D_CopyPartResult v => reads_back decl v
    | D_CreateBucketConfiguration v => reads_back decl v
    | D_Delete v => reads_back decl v
    | D_GetBucketAclOutput v => reads_back decl v
    | D_GetBucketCorsOutput v => reads_back decl v
    | D_GetBucketLocationOutput v => reads_back decl v
    | D_GetBucketLoggingOutput v => reads_back decl v
    | D_GetBucketMetadataConfigurationResult v => reads_back decl v
    | D_GetBucketMetadataTableConfigurationResult v => reads_back decl v
    | D_GetBucketNotificationConfigurationOutput v => reads_back decl v
    | D_GetBucketRequestPaymentOutput v => reads_back decl v
    | D_GetBucketTaggingOutput v => reads_back decl v
    | D_GetBucketVersioningOutput v => reads_back decl v
    | D_GetBucketWebsiteOutput v => reads_back decl v
    | D_IntelligentTieringConfiguration v => reads_back decl v
    | D_InventoryConfiguration v => reads_back decl v
    | D_InventoryTableConfigurationUpdates v => reads_back decl v
    | D_JournalTableConfigurationUpdates v => reads_back decl v
    | D_ListBucketAnalyticsConfigurationsOutput v => reads_back decl v
    | D_ListBucketIntelligentTieringConfigurationsOutput v => reads_back decl v
    | D_ListBucketInventoryConfigurationsOutput v => reads_back decl v
    | D_ListBucketMetricsConfigurationsOutput v => reads_back decl v
    | D_ListBucketsOutput v => reads_back decl v
    | D_ListDirectoryBucketsOutput v => reads_back decl v
    | D_MetadataConfiguration v => reads_back decl v
    | D_MetadataTableConfiguration v => reads_back decl v
    | D_MetricsConfiguration v => reads_back decl v
    | D_NotificationConfiguration v => reads_back decl v
    | D_ObjectEncryption v => reads_back decl v
    | D_ObjectLockConfiguration v => reads_back decl v
    | D_ObjectLockLegalHold v => reads_back decl v
    | D_ObjectLockRetention v => reads_back decl v
    | D_OwnershipControls v => reads_back decl v
    | D_PolicyStatus v => reads_back decl v
    | D_Progress v => reads_back decl v
    | D_PublicAccessBlockConfiguration v => reads_back decl v
    | D_ReplicationConfiguration v => reads_back decl v
    | D_RequestPaymentConfiguration v => reads_back decl v
    | D_RestoreRequest v => reads_back decl v
    | D_SelectObjectContentRequest v => reads_back decl v
    | D_ServerSideEncryptionConfiguration v => reads_back decl v
    | D_Stats v => reads_back decl v
    | D_Tagging v => reads_back decl v
    | D_VersioningConfiguration v => reads_back decl v
    | D_WebsiteConfiguration v => reads_back decl v
    end).
  { destruct d; destruct Hr as (xml & E & Er); exists xml; (split; [exact E|]); by apply deserialize_map. }
  destruct d; simpl in Hd; [..];
    first [solve_root | by apply assume_role_root | by apply location_root; apply Hd
          | exact (plain_root ser_ObjectEncryption de_ObjectEncryption ObjectEncryption_wf (str "ObjectEncryption") decl _ _ eq_refl Hd)].
Qed.

(** *** Every deserializer returns *)

Lemma deserialize_as_well t : well (deserialize_as t).
Proof.
  destruct t; (apply well_bind; [|by intros; apply well_ret]);
    first [ solve [apply named_element_well; auto with de nocore]
          | solve [apply named_element_any_well; auto with de nocore]
          | solve [do 2 apply named_element_well; auto with de nocore]
          | exact (named_element_well _ _ de_ObjectEncryption_well)
          | apply well_bind; [apply for_each_element_well, location_arm_well|by intros; apply well_ret] ].
Qed.

(** *** Outputs *)

#[global] Instance serialize_OutputDocument : Serialize OutputDocument := fun d =>
  match d with
  | O_CompleteMultipartUploadOutput v => serialize v
  | O_CreateMultipartUploadOutput v => serialize v
  | O_CreateSessionOutput v => serialize v
  | O_DeleteObjectsOutput v => serialize v
  | O_GetBucketAccelerateConfigurationOutput v => serialize v
  | O_GetBucketLifecycleConfigurationOutput v => serialize v
  | O_GetObjectAclOutput v => serialize v
  | O_GetObjectAttributesOutput v => serialize v
  | O_GetObjectTaggingOutput v => serialize v
  | O_ListMultipartUploadsOutput v => serialize v
  | O_ListObjectAnnotationsOutput v => serialize v
  | O_ListObjectVersionsOutput v => serialize v
  | O_ListObjectsOutput v => serialize v
  | O_ListObjectsV2Output v => serialize v
  | O_ListPartsOutput v => serialize v
  | O_PutObjectAnnotationOutput v => serialize v
  end.

(** A strict client reads the elements of the body by their names, and refuses one that it does not
    know or that it has read already: it finds the fields of the output that belong to the body. *)
Definition client_reads (d : OutputDocument) (xml : bytes) : Prop :=
  match d with
  | O_CompleteMultipartUploadOutput v => deserialize_document (named_element (str "CompleteMultipartUploadResult") (de_struct false arms_CompleteMultipartUploadOutput Ok)) xml = Some (Ok (vars_CompleteMultipartUploadOutput v))
  | O_CreateMultipartUploadOutput v => deserialize_document (named_element (str "InitiateMultipartUploadResult") (de_struct false arms_CreateMultipartUploadOutput Ok)) xml = Some (Ok (vars_CreateMultipartUploadOutput v))
  | O_CreateSessionOutput v => deserialize_document (named_element (str "CreateSessionResult") (de_struct false arms_CreateSessionOutput Ok)) xml = Some (Ok (vars_CreateSessionOutput v))
  | O_DeleteObjectsOutput v => deserialize_document (named_element (str "DeleteResult") (de_struct false arms_DeleteObjectsOutput Ok)) xml = Some (Ok (vars_DeleteObjectsOutput v))
  | O_GetBucketAccelerateConfigurationOutput v => deserialize_document (named_element (str "AccelerateConfiguration") (de_struct false arms_GetBucketAccelerateConfigurationOutput Ok)) xml = Some (Ok (vars_GetBucketAccelerateConfigurationOutput v))
  | O_GetBucketLifecycleConfigurationOutput v => deserialize_document (named_element (str "LifecycleConfiguration") (de_struct false arms_GetBucketLifecycleConfigurationOutput Ok)) xml = Some (Ok (vars_GetBucketLifecycleConfigurationOutput v))
  | O_GetObjectAclOutput v => deserialize_document (named_element (str "AccessControlPolicy") (de_struct false arms_GetObjectAclOutput Ok)) xml = Some (Ok (vars_GetObjectAclOutput v))
  | O_GetObjectAttributesOutput v => deserialize_document (named_element (str "GetObjectAttributesResponse") (de_struct false arms_GetObjectAttributesOutput Ok)) xml = Some (Ok (vars_GetObjectAttributesOutput v))
  | O_GetObjectTaggingOutput v => deserialize_document (named_element (str "Tagging") (de_struct false arms_GetObjectTaggingOutput Ok)) xml = Some (Ok (vars_GetObjectTaggingOutput v))
  | O_ListMultipartUploadsOutput v => deserialize_document (named_element (str "ListMultipartUploadsResult") (de_struct false arms_ListMultipartUploadsOutput Ok)) xml = Some (Ok (vars_ListMultipartUploadsOutput v))
  | O_ListObjectAnnotationsOutput v => deserialize_document (named_element (str "ListObjectAnnotationsOutput") (de_struct false arms_ListObjectAnnotationsOutput Ok)) xml = Some (Ok (vars_ListObjectAnnotationsOutput v))
  | O_ListObjectVersionsOutput v => deserialize_document (named_element (str "ListVersionsResult") (de_struct false arms_ListObjectVersionsOutput Ok)) xml = Some (Ok (vars_ListObjectVersionsOutput v))
  | O_ListObjectsOutput v => deserialize_document (named_element (str "ListBucketResult") (de_struct false arms_ListObjectsOutput Ok)) xml = Some (Ok (vars_ListObjectsOutput v))
  | O_ListObjectsV2Output v => deserialize_document (named_element (str "ListBucketResult") (de_struct false arms_ListObjectsV2Output Ok)) xml = Some (Ok (vars_ListObjectsV2Output v))
  | O_ListPartsOutput v => deserialize_document (named_element (str "ListPartsResult") (de_struct false arms_ListPartsOutput Ok)) xml = Some (Ok (vars_ListPartsOutput v))
  | O_PutObjectAnnotationOutput v => deserialize_document (named_element (str "PutObjectAnnotationOutput") (de_struct false arms_PutObjectAnnotationOutput Ok)) xml = Some (Ok (vars_PutObjectAnnotationOutput v))
  end.

Lemma output_root {T S} (ser : T -> Ser) (a : arms S) (vars : T -> S) wf n decl v :
  ReadsAs ser a vars wf -> name_ok n = true -> wf v ->
  exists xml, document_text (document decl (s_content_with_ns ser n XMLNS_S3 v)) = Some xml /\
    deserialize_document (named_element n (de_struct false a Ok)) xml = Some (Ok (vars v)).
Proof.
  intros Hra Hn Hv. destruct (reads_as v Hv) as (os & E & Hos & Hr). by apply (element_root_reads n [(str "xmlns", XMLNS_S3)] _ os).
Qed.

(** ** Properties *)


(** Deserializing a document of any type ends, whatever the bytes: with a value or an error. *)
Theorem deserialize_terminates (t : DocumentType) (xml : bytes) :
  exists r, deserialize_document (deserialize_as t) xml = Some r.
Proof. apply deserialize_document_total, deserialize_as_well. Qed.

(** C36: the body of an output that has no deserializer, well-formed in the same sense, is one
    element with the name of the result.  Its children are the fields of the output that belong to
    the body and no others: a client that refuses unknown elements, and a second element for any
    field that is not a flattened list, reads it to its end, and finds each of these fields with its
    value, absent ones included.  The fields that belong to headers are not in it. *)
Theorem output_fields (d : OutputDocument) (decl : bool) : Output_wf d ->
  exists xml, document_text (document decl (serialize d)) = Some xml /\ client_reads d xml.
Proof. intros Hd. destruct d; simpl in Hd; by eapply output_root; [typeclasses eauto|vm_compute; reflexivity|]. Qed.

(** The document of an entity tag holds its value between quotes, as it is, and is read as the
    strong tag of that value: a weak tag does not keep its weakness, when the value is one that
    needs no escaping. *)
Theorem etag_document (e : ETag) : readable (value e) = true -> unescaped (value e) = true ->
  exists xml, document_text (document false (s_content ser_ETag (str "ETag") e)) = Some xml /\
    deserialize_document (named_element (str "ETag") de_ETag) xml = Some (Ok (Strong (value e))).
Proof.
  intros Hr Hu. destruct (etag_reads e Hr Hu) as [Hok Hreads].
  apply (element_root_reads (str "ETag") [] (ser_ETag e) [ORaw ([x22] ++ value e ++ [x22])]); [done|done|apply ser_ETag_eq|done|done].
Qed.
End Documents.

(** ** Witnesses *)

Definition w_upload : CompletedMultipartUpload :=
  {| CompletedMultipartUpload_parts :=
       Some [{| CompletedPart_checksum_crc32 := None; CompletedPart_checksum_crc32c := None; CompletedPart_checksum_crc64nvme := None;
                CompletedPart_checksum_md5 := None; CompletedPart_checksum_sha1 := None; CompletedPart_checksum_sha256 := Some (str "a&b");
                CompletedPart_checksum_sha512 := None; CompletedPart_checksum_xxhash128 := None; CompletedPart_checksum_xxhash3 := None;
                CompletedPart_checksum_xxhash64 := None; CompletedPart_e_tag := Some (Strong (str "0cc175b9")); CompletedPart_part_number := Some 1%Z |}] |}.


Definition w_list : ListObjectsV2Output :=
  {| ListObjectsV2Output_name := Some (str "b"); ListObjectsV2Output_prefix := Some (str "a<b"); ListObjectsV2Output_max_keys := Some 1000%Z;
     ListObjectsV2Output_key_count := Some 0%Z; ListObjectsV2Output_continuation_token := None; ListObjectsV2Output_is_truncated := Some false;
     ListObjectsV2Output_next_continuation_token := None; ListObjectsV2Output_contents := None;
     ListObjectsV2Output_common_prefixes := Some [{| CommonPrefix_prefix := Some (str "x/") |}]; ListObjectsV2Output_delimiter := Some (str "/");
     ListObjectsV2Output_encoding_type := None; ListObjectsV2Output_start_after := None; ListObjectsV2Output_request_charged := None |}.

Lemma output_fields_witness :
  exists xml, @document_text quick_xml_reference (document true (@serialize _ (@serialize_OutputDocument xml_reference) (O_ListObjectsV2Output w_list))) = Some xml /\
    @client_reads quick_xml_reference xml_reference (O_ListObjectsV2Output w_list) xml.
Proof.
  apply (@output_fields quick_xml_reference xml_reference (O_ListObjectsV2Output w_list) true). simpl. unfold ListObjectsV2Output_wf. cbn.
  split_and!; try done. repeat constructor; by vm_compute.
Defined.

Lemma etag_document_witness :
  exists xml, @document_text quick_xml_reference (document false (s_content ser_ETag (str "ETag") (Weak (str "abc")))) = Some xml /\
    @deserialize_document quick_xml_reference _ (named_element (str "ETag") (@de_ETag xml_reference)) xml = Some (Ok (Strong (str "abc"))).
Proof. apply (@etag_document quick_xml_reference xml_reference (Weak (str "abc"))); by vm_compute. Defined.

(** A value that passes [is_roundtrippable_etag_value] and is read back as another one. *)
Example etag_not_escaped :
  is_roundtrippable_etag_value (str "a&lt;b") = true /\
  @deserialize_document quick_xml_reference _ (named_element (str "ETag") (@de_ETag xml_reference)) (str "<ETag>a&amp;lt;b</ETag>") = Some (Ok (Strong (str "a&lt;b"))) /\
  @document_text quick_xml_reference (document false (s_content ser_ETag (str "ETag") (Strong (str "a&lt;b")))) =
    Some (str "<ETag>" ++ [x22] ++ str "a&lt;b" ++ [x22] ++ str "</ETag>") /\
  @deserialize_document quick_xml_reference _ (named_element (str "ETag") (@de_ETag xml_reference)) (str "<ETag>" ++ [x22] ++ str "a&lt;b" ++ [x22] ++ str "</ETag>") =
    Some (Ok (Strong (str "a<b"))).
Proof. by split_and!; vm_compute. Qed.

Example unknown_elements_ignored :
  @deserialize_document quick_xml_reference _ (@deserialize_as xml_reference T_VersioningConfiguration)
    (str "<VersioningConfiguration> <Alpha>1</Alpha><Status>Enabled</Status><Beta><Status>x</Status></Beta></VersioningConfiguration>") =
    Some (Ok (D_VersioningConfiguration {| VersioningConfiguration_mfa_delete := None; VersioningConfiguration_status := Some (str "Enabled") |})) /\
  @deserialize_document quick_xml_reference _ (@deserialize_as xml_reference T_Tagging)
    (str "<Tagging><TagSet><Tag><Key>k</Key><Value>v</Value><Other>x</Other></Tag></TagSet></Tagging>") = Some (Err UnexpectedTagName).
Proof. by split; vm_compute. Qed.
