(* ===== verification/EventStream.v ===== *)
(** * Event streams (crates/s3s/src/dto/event_stream.rs; [Crc32] of crates/s3s/src/crypto.rs)

    The events of a select response, each a message in the binary framing of event streams: a
    prelude with two lengths and its checksum, headers, a payload and the checksum of all.
    [Wrapper] turns a stream of events into a stream of bytes.  The reader of messages at the end
    is the specification: it checks both checksums and returns what is left of the input. *)

From S2P Require Import Prelude.
From S2P Require Import Str.
From S2P Require Import Utf8.
From S2P Require Import ErrorCode.
From S2P Require Import SigV4.
From S2P Require Import Poll.
From S2P Require Import Stream.
From S2P Require Import Body.
From S2P Require Import Timestamp.
From S2P Require Import ETag.
From S2P Require Import Xml.
From S2P Require Import XmlStruct.
From S2P Require Import XmlDtoA.
From S2P Require Import XmlDtoB.
From S2P Require Import XmlDtoC.
From S2P Require Import XmlOutputs.
From S2P Require Import XmlReference.
From S2P Require Import XmlDocs.

(** ** Numbers as bytes *)

(** [to_be_bytes], [put_u8], [put_u16], [put_u32]: [n] bytes, the most significant first. *)
Fixpoint be_bytes (n : nat) (v : Z) : bytes :=
  match n with
  | 0 => []
  | S n' => be_bytes n' (v / 256) ++ [byte_of_Z (v mod 256)]
  end.

Definition be_value (s : bytes) : Z := fold_left (fun acc b => acc * 256 + u8 b)%Z s 0%Z.

Definition u16_max : Z := 2 ^ 16 - 1.
Definition u8_max : Z := 2 ^ 8 - 1.

(** ** Checksums (crypto.rs) *)

(** The CRC-32 digest of the [crc_fast] crate: its value depends on the bytes it was fed, however
    they were split. *)
Class CrcFast := {
  Digest : Type;
  digest_new : Digest;
  digest_update : Digest -> bytes -> Digest;
  digest_finalize : Digest -> Z;
  digest_update_app : forall d a b, digest_update (digest_update d a) b = digest_update d (a ++ b)
}.

Section Crc32.
Context `{CrcFast}.

Definition Crc32_update (h : Digest) (data : bytes) : Digest := digest_update h data.
Definition Crc32_finalize (h : Digest) : bytes := be_bytes 4 (digest_finalize h mod 2 ^ 32).
Definition checksum_u32 (data : bytes) : Z := (digest_finalize (digest_update digest_new data) mod 2 ^ 32)%Z.
End Crc32.

(** ** Messages *)

Record Header := { header_name : bytes; header_value : bytes }.
Record Message := { m_headers : list Header; m_payload : option bytes }.

Definition PRELUDE_BYTE_LENGTH : Z := 12.
Definition MESSAGE_CRC_BYTE_LENGTH : Z := 4.
Definition MESSAGE_OVERHEAD_BYTE_LENGTH : Z := PRELUDE_BYTE_LENGTH + MESSAGE_CRC_BYTE_LENGTH.

Inductive SerError := LengthOverflow | IntOverflow.

Definition SerError_to_string (e : SerError) : bytes :=
  match e with
  | LengthOverflow => str "Message Serialization: LengthOverflow"
  | IntOverflow => str "Message Serialization: IntOverflow: out of range integral type conversion attempted"
  end.

(** [usize::checked_add] *)
Definition checked_add (a b : Z) : option Z := if (a + b <=? usize_max)%Z then Some (a + b)%Z else None.

(** [uN::try_from(usize)] *)
Definition try_from_usize (max n : Z) : result SerError Z := if (n <=? max)%Z then Ok n else Err IntOverflow.

Fixpoint headers_len (acc : Z) (hs : list Header) : option Z :=
  match hs with
  | [] => Some acc
  | h :: hs' =>
      acc ← checked_add acc (1 + 1 + 2);
      acc ← checked_add acc (len (header_name h));
      acc ← checked_add acc (len (header_value h));
      headers_len acc hs'
  end.

Fixpoint put_headers (buf : bytes) (hs : list Header) : result SerError bytes :=
  match hs with
  | [] => Ok buf
  | h :: hs' =>
      header_name_byte_length ← try_from_usize u8_max (len (header_name h));
      value_string_byte_length ← try_from_usize u16_max (len (header_value h));
      put_headers (buf ++ be_bytes 1 header_name_byte_length ++ header_name h ++
                   be_bytes 1 7 ++ be_bytes 2 value_string_byte_length ++ header_value h) hs'
  end.

Section Serialize.
Context `{CrcFast}.

Definition serialize_chunks (self : Message) : result SerError (list bytes) :=
  let headers_len := headers_len 0 (m_headers self) in
  let payload_len := from_option len 0%Z (m_payload self) in
  let total_len := acc ← headers_len; acc ← checked_add acc MESSAGE_OVERHEAD_BYTE_LENGTH; checked_add acc payload_len in
  total_len ← ok_or LengthOverflow total_len;
  total_byte_length ← try_from_usize u32_max total_len;
  headers_len ← ok_or LengthOverflow headers_len;
  headers_byte_length ← try_from_usize u32_max headers_len;
  let payload := match m_payload self with Some p => if p =? [] then None else Some p | None => None end in
  let buf := be_bytes 4 total_byte_length ++ be_bytes 4 headers_byte_length in
  let prelude_crc := checksum_u32 buf in
  let buf := buf ++ be_bytes 4 prelude_crc in
  buf ← put_headers buf (m_headers self);
  match payload with
  | Some payload =>
      let message_crc := Crc32_update (Crc32_update digest_new buf) payload in
      Ok [buf; payload; Crc32_finalize message_crc]
  | None =>
      let message_crc := checksum_u32 buf in
      Ok [buf ++ be_bytes 4 message_crc]
  end.
End Serialize.

(** ** Events *)

Record RecordsEvent := { RecordsEvent_payload : option bytes }.
Record ProgressEvent := { ProgressEvent_details : option Progress }.
Record StatsEvent := { StatsEvent_details : option Stats }.

Inductive SelectObjectContentEvent :=
| Event_Cont | Event_End | Event_Progress (e : ProgressEvent) | Event_Records (e : RecordsEvent) | Event_Stats (e : StatsEvent).

Definition EVENT_TYPE : bytes := str ":event-type".
Definition MESSAGE_TYPE : bytes := str ":message-type".
Definition CONTENT_TYPE : bytes := str ":content-type".

Definition const_headers (hs : list (bytes * bytes)) : list Header :=
  map (fun '(name, value) => {| header_name := name; header_value := value |}) hs.

Section Events.
Context `{QuickXml}.

(** [None] is the panic of [expect]. *)
Definition xml_payload {T} `{Serialize T} (val : T) : option bytes := document_text (document true (serialize val)).

(** [self.details.as_ref().map(xml_payload)] *)
Definition details_payload {T} `{Serialize T} (details : option T) : option (option bytes) :=
  match details with Some d => p ← xml_payload d; Some (Some p) | None => Some None end.

Definition into_message (e : SelectObjectContentEvent) : option Message :=
  match e with
  | Event_Cont =>
      Some {| m_headers := const_headers [(EVENT_TYPE, str "Cont"); (MESSAGE_TYPE, str "event")]; m_payload := None |}
  | Event_End =>
      Some {| m_headers := const_headers [(EVENT_TYPE, str "End"); (MESSAGE_TYPE, str "event")]; m_payload := None |}
  | Event_Progress e =>
      payload ← details_payload (ProgressEvent_details e);
      Some {| m_headers := const_headers [(EVENT_TYPE, str "Progress"); (CONTENT_TYPE, str "text/xml"); (MESSAGE_TYPE, str "event")];
              m_payload := payload |}
  | Event_Records e =>
      Some {| m_headers := const_headers [(EVENT_TYPE, str "Records"); (CONTENT_TYPE, str "application/octet-stream"); (MESSAGE_TYPE, str "event")];
              m_payload := RecordsEvent_payload e |}
  | Event_Stats e =>
      payload ← details_payload (StatsEvent_details e);
      Some {| m_headers := const_headers [(EVENT_TYPE, str "Stats"); (CONTENT_TYPE, str "text/xml"); (MESSAGE_TYPE, str "event")];
              m_payload := payload |}
  end.

(** [None] is [unreachable!]. *)
Definition request_level_error (e : S3Error) : option Message :=
  code ← match as_static_str (code e) with
         | Some s => Some s
         | None => match code e with Custom s => Some s | _ => None end
         end;
  let message := default [] (ErrorCode.message e) in
  Some {| m_headers := const_headers [(str ":error-code", code); (str ":error-message", message); (MESSAGE_TYPE, str "error")];
          m_payload := None |}.

Definition message_of (ev : result S3Error SelectObjectContentEvent) : option Message :=
  match ev with Ok event => into_message event | Err err => request_level_error err end.

Context `{CrcFast}.

Definition event_into_chunks (ev : result S3Error SelectObjectContentEvent) : option (result SerError (list bytes)) :=
  serialize_chunks <$> message_of ev.

(** ** The byte stream *)

(** What the application's stream answers to a poll; after the last answer it has ended. *)
Inductive event_answer := EWait | EItem (ev : result S3Error SelectObjectContentEvent).

Record Wrapper := { w_inner : list event_answer; pending : list bytes; pending_idx : nat }.

Definition into_byte_stream (stream : list event_answer) : Wrapper := {| w_inner := stream; pending := []; pending_idx := 0 |}.

(** [None] is an index out of range. *)
Definition next_pending (w : Wrapper) : option (option bytes * Wrapper) :=
  let clear inner := {| w_inner := inner; pending := []; pending_idx := 0 |} in
  if pending_idx w =? length (pending w) then Some (None, clear (w_inner w))
  else
    bytes ← pending w !! pending_idx w;
    let pending' := <[pending_idx w := []]> (pending w) in
    let idx := S (pending_idx w) in
    Some (Some bytes, if idx =? length pending' then clear (w_inner w)
                      else {| w_inner := w_inner w; pending := pending'; pending_idx := idx |}).

(** The loop of [poll_next]; a turn that goes on has taken an event.  [None] is a panic. *)
Fixpoint wrapper_poll (inner : list event_answer) (w : Wrapper) : option (Wrapper * poll (option (result bytes bytes))) :=
  '(o, w) ← next_pending w;
  match o with
  | Some bytes => Some (w, Ready (Some (Ok bytes)))
  | None =>
      let after rest := {| w_inner := rest; pending := pending w; pending_idx := pending_idx w |} in
      match inner with
      | [] => Some (w, Ready None)
      | EWait :: rest => Some (after rest, Pending)
      | EItem ev :: rest =>
          r ← event_into_chunks ev;
          match r with
          | Ok chunks => wrapper_poll rest {| w_inner := rest; pending := chunks; pending_idx := 0 |}
          | Err err => Some (after rest, Ready (Some (Err (SerError_to_string err))))
          end
      end
  end.

Definition Wrapper_poll_next (w : Wrapper) : option (Wrapper * poll (option (result bytes bytes))) := wrapper_poll (w_inner w) w.
End Events.

(** ** Reading messages *)

Fixpoint read_headers (fuel : nat) (s : bytes) : option (list Header) :=
  match s, fuel with
  | [], _ => Some []
  | _, 0 => None
  | n :: s, S fuel' =>
      let name := take (Z.to_nat (u8 n)) s in
      match drop (Z.to_nat (u8 n)) s with
      | t :: l1 :: l2 :: s =>
          let value_len := Z.to_nat (be_value [l1; l2]) in
          if (len name =? u8 n)%Z && (u8 t =? 7)%Z && (value_len <=? length s)%nat then
            hs ← read_headers fuel' (drop value_len s);
            Some ({| header_name := name; header_value := take value_len s |} :: hs)
          else None
      | _ => None
      end
  end.

(** One message at the start of the data, and the data after it. *)
Definition read_message `{CrcFast} (data : bytes) : option (Message * bytes) :=
  let total := be_value (take 4 data) in
  let headers_length := be_value (take 4 (drop 4 data)) in
  if (len data <? 16)%Z || (total <? 16 + headers_length)%Z || (len data <? total)%Z then None
  else
    let body := take (Z.to_nat total - 4) data in
    let crc := take 4 (drop (Z.to_nat total - 4) data) in
    if (be_value (take 4 (drop 8 data)) =? checksum_u32 (take 8 data))%Z && (be_value crc =? checksum_u32 body)%Z then
      hs ← read_headers (Z.to_nat headers_length) (take (Z.to_nat headers_length) (drop 12 body));
      let payload := drop (12 + Z.to_nat headers_length) body in
      Some ({| m_headers := hs; m_payload := if payload =? [] then None else Some payload |}, drop (Z.to_nat total) data)
    else None.

(** ** Lemmas *)

Lemma be_bytes_length n v : length (be_bytes n v) = n.
Proof. revert v. induction n as [|n IH]; intros v; [done|]. cbn [be_bytes]. rewrite length_app, IH. simpl. lia. Qed.

Lemma be_value_snoc s b : be_value (s ++ [b]) = (be_value s * 256 + u8 b)%Z.
Proof. unfold be_value. by rewrite fold_left_app. Qed.

Lemma be_value_bytes n v : (0 <= v < 256 ^ Z.of_nat n)%Z -> be_value (be_bytes n v) = v.
Proof.
  revert v. induction n as [|n IH]; intros v Hv; [change (be_value (be_bytes 0 v)) with 0%Z; simpl in Hv; lia|]. cbn [be_bytes]. rewrite Nat2Z.inj_succ, Z.pow_succ_r in Hv by lia.
  rewrite be_value_snoc, IH, u8_byte_of_Z, Z.mod_mod by (Z.to_euclidean_division_equations; lia).
  Z.to_euclidean_division_equations; lia.
Qed.

Definition header_text (h : Header) : bytes :=
  be_bytes 1 (len (header_name h)) ++ header_name h ++ be_bytes 1 7 ++ be_bytes 2 (len (header_value h)) ++ header_value h.

Definition header_fits (h : Header) : bool := (len (header_name h) <=? u8_max)%Z && (len (header_value h) <=? u16_max)%Z.

Lemma put_headers_eq hs buf :
  put_headers buf hs = if forallb header_fits hs then Ok (buf ++ concat (map header_text hs)) else Err IntOverflow.
Proof.
  revert buf. induction hs as [|h hs IH]; intros buf; [by rewrite app_nil_r|]. cbn [put_headers forallb map concat].
  unfold header_fits at 1, try_from_usize. destruct (_ <=? u8_max)%Z; [|done]. cbn [mbind result_bind]. destruct (_ <=? u16_max)%Z; [|done].
  cbn [mbind result_bind andb]. rewrite IH. destruct (forallb header_fits hs); [|done]. f_equal. unfold header_text. by rewrite <- !app_assoc.
Qed.

Lemma header_text_length h : len (header_text h) = (4 + len (header_name h) + len (header_value h))%Z.
Proof. unfold header_text, len. rewrite !length_app, !be_bytes_length. lia. Qed.

Lemma checked_add_ok a b : (a + b <= usize_max)%Z -> checked_add a b = Some (a + b)%Z.
Proof. intros Hs. unfold checked_add. by rewrite (proj2 (Z.leb_le _ _)). Qed.

Lemma headers_len_eq hs acc : (0 <= acc <= usize_max)%Z ->
  headers_len acc hs = (let n := acc + len (concat (map header_text hs)) in if n <=? usize_max then Some n else None)%Z.
Proof.
  revert acc. induction hs as [|h hs IH]; intros acc Ha; cbn [headers_len map concat].
  - change (len []) with 0%Z. rewrite Z.add_0_r. cbv zeta. rewrite (proj2 (Z.leb_le _ _)) by lia. done.
  - rewrite len_app, header_text_length.
    assert (0 <= len (header_name h) /\ 0 <= len (header_value h) /\ 0 <= len (concat (map header_text hs)))%Z as (Hn & Hv & Hl) by (unfold len; lia).
    cbv zeta. destruct (Z.le_gt_cases (acc + (4 + len (header_name h) + len (header_value h) + len (concat (map header_text hs)))) usize_max) as [Hs|Hs].
    + rewrite !checked_add_ok by lia. cbn [mbind option_bind]. rewrite checked_add_ok by lia. cbn [mbind option_bind].
      rewrite checked_add_ok by lia. cbn [mbind option_bind]. rewrite IH by lia. cbv zeta.
      rewrite !(proj2 (Z.leb_le _ _)) by lia. f_equal. lia.
    + rewrite (proj2 (Z.leb_gt _ _)) by lia. unfold checked_add.
      repeat (case_match; reflect_bools; cbn [mbind option_bind]; [|done]). rewrite IH by lia. cbv zeta. rewrite (proj2 (Z.leb_gt _ _)) by lia. done.
Qed.

(** *** Serializing *)

Definition message_length (m : Message) : Z := (16 + len (concat (map header_text (m_headers m))) + from_option len 0 (m_payload m))%Z.

(** The lengths fit in the fields of the format. *)
Definition message_fits (m : Message) : bool := forallb header_fits (m_headers m) && (message_length m <=? u32_max)%Z.

Lemma total_len_eq n p : (0 <= n)%Z -> (0 <= p)%Z ->
  (acc ← (if n <=? usize_max then Some n else None); acc ← checked_add acc MESSAGE_OVERHEAD_BYTE_LENGTH; checked_add acc p)%Z =
  (if 16 + n + p <=? usize_max then Some (16 + n + p) else None)%Z.
Proof.
  intros Hn Hp. unfold checked_add, MESSAGE_OVERHEAD_BYTE_LENGTH, PRELUDE_BYTE_LENGTH, MESSAGE_CRC_BYTE_LENGTH.
  destruct (Z.leb_spec (16 + n + p) usize_max).
  - rewrite (proj2 (Z.leb_le n _)) by lia. cbn [mbind option_bind]. rewrite (proj2 (Z.leb_le (n + (12 + 4)) _)) by lia. cbn [mbind option_bind].
    rewrite (proj2 (Z.leb_le (n + (12 + 4) + p) _)) by lia. f_equal. lia.
  - destruct (n <=? usize_max)%Z; [|done]. cbn [mbind option_bind]. destruct (n + (12 + 4) <=? usize_max)%Z; [|done]. cbn [mbind option_bind].
    by rewrite (proj2 (Z.leb_gt _ _)) by lia.
Qed.

Section Facts.
Context `{CrcFast}.

(** Everything before the payload. *)
Definition message_head (m : Message) : bytes :=
  let lengths := be_bytes 4 (message_length m) ++ be_bytes 4 (len (concat (map header_text (m_headers m)))) in
  lengths ++ be_bytes 4 (checksum_u32 lengths) ++ concat (map header_text (m_headers m)).

Definition message_body (m : Message) : bytes := message_head m ++ default [] (m_payload m).

Definition message_text (m : Message) : bytes := message_body m ++ be_bytes 4 (checksum_u32 (message_body m)).

Lemma serialize_chunks_eq m :
  if message_fits m then exists chunks, serialize_chunks m = Ok chunks /\ concat chunks = message_text m /\ chunks <> []
  else exists e, serialize_chunks m = Err e.
Proof.
  unfold message_fits, serialize_chunks. rewrite headers_len_eq by (unfold usize_max; lia). rewrite Z.add_0_l. cbv zeta.
  assert (Hl : (0 <= len (concat (map header_text (m_headers m))))%Z) by (unfold len; lia).
  assert (Hp : (0 <= from_option len 0 (m_payload m))%Z) by (destruct (m_payload m); simpl; unfold len; lia).
  set (n := len (concat (map header_text (m_headers m)))) in *. set (p := from_option len 0%Z (m_payload m)) in *.
  assert (Hm : message_length m = (16 + n + p)%Z) by done.
  rewrite total_len_eq by done. rewrite <- Hm. assert (Hu : (u32_max < usize_max)%Z) by (unfold u32_max, usize_max; lia).
  destruct (Z.leb_spec (message_length m) u32_max) as [Hf|Hf].
  2:{ rewrite andb_false_r. destruct (message_length m <=? usize_max)%Z; cbn [ok_or mbind result_bind]; [|by eexists].
      unfold try_from_usize. destruct (Z.leb_spec (message_length m) u32_max); [lia|]. by eexists. }
  rewrite andb_true_r, (proj2 (Z.leb_le (message_length m) usize_max)), (proj2 (Z.leb_le n usize_max)) by lia. cbn [ok_or mbind result_bind].
  unfold try_from_usize. rewrite (proj2 (Z.leb_le (message_length m) u32_max)), (proj2 (Z.leb_le n u32_max)) by lia. cbn [mbind result_bind].
  rewrite put_headers_eq.
  destruct (forallb header_fits (m_headers m)); [|by eexists]. cbn [mbind result_bind].
  rewrite <- app_assoc. assert (Hh : (be_bytes 4 (message_length m) ++ be_bytes 4 n) ++
    be_bytes 4 (checksum_u32 (be_bytes 4 (message_length m) ++ be_bytes 4 n)) ++ concat (map header_text (m_headers m)) = message_head m) by done.
  rewrite Hh. unfold message_text, message_body. destruct (m_payload m) as [[|c s]|]; cbn [default id].
  - rewrite bool_decide_eq_true_2 by done. eexists. split; [done|]. split; [|done]. cbn [concat]. by rewrite !app_nil_r.
  - rewrite bool_decide_eq_false_2 by done. eexists. split; [done|]. split; [|done]. cbn [concat]. rewrite app_nil_r, <- app_assoc.
    unfold Crc32_finalize, Crc32_update, checksum_u32. by rewrite digest_update_app.
  - eexists. split; [done|]. split; [|done]. cbn [concat]. by rewrite !app_nil_r.
Qed.

(** *** Reading *)

Lemma read_headers_text hs fuel : forallb header_fits hs = true -> length (concat (map header_text hs)) <= fuel ->
  read_headers fuel (concat (map header_text hs)) = Some hs.
Proof.
  revert fuel. induction hs as [|h hs IH]; intros fuel Hf Hl; [by destruct fuel|]. cbn [forallb] in Hf. apply andb_true_iff in Hf as [Hh Hf].
  cbn [map concat] in Hl |- *. rewrite length_app in Hl. pose proof (header_text_length h) as Hhl. unfold len in Hhl.
  destruct fuel as [|fuel]; [lia|]. unfold header_fits, u8_max, u16_max in Hh. apply andb_true_iff in Hh as [Hn Hv]. apply Z.leb_le in Hn, Hv.
  assert (0 <= len (header_name h) /\ 0 <= len (header_value h))%Z as [Hn0 Hv0] by (unfold len; lia).
  unfold header_text. rewrite <- !app_assoc. set (rest := concat (map header_text hs)) in *.
  assert (E1 : be_bytes 1 (len (header_name h)) = [byte_of_Z (len (header_name h))]) by (cbn [be_bytes app]; by rewrite Z.mod_small by lia).
  rewrite E1. assert (E2 : exists l1 l2, be_bytes 2 (len (header_value h)) = [l1; l2]) by (by eexists _, _). destruct E2 as (l1 & l2 & E2).
  rewrite E2. cbn [app read_headers]. rewrite u8_byte_of_Z, Z.mod_small by lia.
  assert (Hnl : Z.to_nat (len (header_name h)) = length (header_name h)) by (unfold len; lia). rewrite Hnl.
  rewrite drop_app_length, take_app_length. change (be_bytes 1 7) with [x07]. cbn [app].
  rewrite <- E2, be_value_bytes by (simpl; lia). replace (Z.to_nat (len (header_value h))) with (length (header_value h)) by (unfold len; lia).
  rewrite Z.eqb_refl. change (u8 x07 =? 7)%Z with true. rewrite (proj2 (Nat.leb_le _ _)) by (rewrite length_app; lia). cbn [andb].
  rewrite drop_app_length, take_app_length, IH by (done || lia). by destruct h.
Qed.

(** What a reader gets of a message: an empty payload is no payload. *)
Definition received (m : Message) : Message :=
  {| m_headers := m_headers m; m_payload := match m_payload m with Some p => if p =? [] then None else Some p | None => None end |}.

Lemma message_text_length m : len (message_text m) = message_length m.
Proof.
  unfold message_text, message_body, message_head, message_length, len. rewrite !length_app, !be_bytes_length.
  destruct (m_payload m); simpl; lia.
Qed.

Lemma read_message_text m rest : message_fits m = true -> read_message (message_text m ++ rest) = Some (received m, rest).
Proof.
  intros Hf. apply andb_true_iff in Hf as [Hh Hl]. apply Z.leb_le in Hl. unfold read_message. cbv zeta.
  set (n := len (concat (map header_text (m_headers m)))). set (lengths := be_bytes 4 (message_length m) ++ be_bytes 4 n).
  assert (Hn : (0 <= n)%Z) by (unfold n, len; lia). assert (Hmin : (16 + n <= message_length m)%Z) by (unfold message_length; fold n; destruct (m_payload m); simpl; unfold len; lia).
  assert (Hb : length (message_body m) = Z.to_nat (message_length m) - 4).
  { pose proof (message_text_length m) as E. unfold message_text, len in E. rewrite length_app, be_bytes_length in E. lia. }
  assert (Hlen : length lengths = 8) by (unfold lengths; by rewrite length_app, !be_bytes_length).
  assert (Hu : (u32_max = 2 ^ 32 - 1)%Z) by done.
  assert (Hc : (0 <= checksum_u32 lengths < 2 ^ 32)%Z) by (apply Z.mod_pos_bound; lia).
  assert (Hc2 : (0 <= checksum_u32 (message_body m) < 2 ^ 32)%Z) by (apply Z.mod_pos_bound; lia).
  set (hs := concat (map header_text (m_headers m))) in *. set (payload := default [] (m_payload m)).
  assert (Hbody : message_body m = lengths ++ be_bytes 4 (checksum_u32 lengths) ++ hs ++ payload).
  { unfold message_body, message_head. cbv zeta. by rewrite <- !app_assoc. }
  set (crc := be_bytes 4 (checksum_u32 (message_body m))).
  assert (Et : message_text m ++ rest = message_body m ++ crc ++ rest) by (unfold message_text; by rewrite <- app_assoc).
  assert (T1 : take 4 (message_text m ++ rest) = be_bytes 4 (message_length m)).
  { rewrite Et, Hbody. unfold lengths. rewrite <- !app_assoc. by rewrite take_app_length' by (by rewrite be_bytes_length). }
  assert (T2 : take 4 (drop 4 (message_text m ++ rest)) = be_bytes 4 n).
  { rewrite Et, Hbody. unfold lengths. rewrite <- !app_assoc. rewrite drop_app_length' by (by rewrite be_bytes_length).
    by rewrite take_app_length' by (by rewrite be_bytes_length). }
  assert (T3 : take 8 (message_text m ++ rest) = lengths /\ take 4 (drop 8 (message_text m ++ rest)) = be_bytes 4 (checksum_u32 lengths)).
  { rewrite Et, Hbody, <- !app_assoc. rewrite take_app_length', drop_app_length' by done. by rewrite take_app_length' by (by rewrite be_bytes_length). }
  destruct T3 as [T3 T4]. rewrite T1, T2, T3, T4. rewrite !be_value_bytes by (simpl; lia).
  assert (Hd : len (message_text m ++ rest) = (message_length m + len rest)%Z) by (by rewrite len_app, message_text_length).
  assert (0 <= len rest)%Z by (unfold len; lia). rewrite Hd.
  rewrite !(proj2 (Z.ltb_ge _ _)) by lia. cbn [orb].
  assert (T5 : take (Z.to_nat (message_length m) - 4) (message_text m ++ rest) = message_body m) by (rewrite Et; by rewrite take_app_length').
  assert (T6 : take 4 (drop (Z.to_nat (message_length m) - 4) (message_text m ++ rest)) = crc).
  { rewrite Et, drop_app_length' by done. by rewrite take_app_length' by (by unfold crc; rewrite be_bytes_length). }
  rewrite T5, T6. unfold crc. rewrite be_value_bytes by (simpl; lia). rewrite !Z.eqb_refl. cbn [andb].
  assert (Hp : length (lengths ++ be_bytes 4 (checksum_u32 lengths)) = 12) by (by rewrite length_app, Hlen, be_bytes_length).
  assert (Hnn : Z.to_nat n = length hs) by (unfold n, len; lia).
  rewrite Hbody, app_assoc, Hnn. rewrite (drop_app_length' _ (hs ++ payload) 12) by done. rewrite take_app_length.
  assert (Hr : read_headers (length hs) hs = Some (m_headers m)) by (by apply read_headers_text). rewrite Hr. cbn [mbind option_bind].
  rewrite (app_assoc _ hs), (drop_app_length' _ payload (12 + length hs)) by (rewrite length_app, Hp; lia).
  assert (Hrest : drop (Z.to_nat (message_length m)) (message_text m ++ rest) = rest).
  { apply drop_app_length'. pose proof (message_text_length m) as E. unfold len in E. lia. }
  rewrite Hrest. unfold received, payload. by destruct (m_payload m) as [[|c s]|].
Qed.
End Facts.

(** ** The stream of bytes *)

Section Streams.
Context `{QuickXml} `{CrcFast}.

(** What a reader of the stream gets, and how it ends: [None], or the message of an error. *)
Inductive yields : Wrapper -> list bytes -> option bytes -> Prop :=
| yields_end w w' : Wrapper_poll_next w = Some (w', Ready None) -> yields w [] None
| yields_error w w' e : Wrapper_poll_next w = Some (w', Ready (Some (Err e))) -> yields w [] (Some e)
| yields_data w w' b l r : Wrapper_poll_next w = Some (w', Ready (Some (Ok b))) -> yields w' l r -> yields w (b :: l) r
| yields_wait w w' l r : Wrapper_poll_next w = Some (w', Pending) -> yields w' l r -> yields w l r.

Lemma yields_same w1 w2 l r : Wrapper_poll_next w1 = Wrapper_poll_next w2 -> yields w2 l r -> yields w1 l r.
Proof. intros E Hy. inversion Hy; subst; rewrite <- E in *; by econstructor. Qed.

(** A wrapper that has the chunks [left] to deliver before it asks for an event. *)
Definition holds (w : Wrapper) (left : list bytes) : Prop :=
  left = drop (pending_idx w) (pending w) /\ (pending_idx w < length (pending w) \/ pending w = [] /\ pending_idx w = 0).

Lemma poll_left w b left : holds w (b :: left) ->
  exists w', Wrapper_poll_next w = Some (w', Ready (Some (Ok b))) /\ w_inner w' = w_inner w /\ holds w' left.
Proof.
  intros [E [Hi|[Hp Hi]]]; [|rewrite Hp, Hi in E; done]. destruct w as [inner pend idx]. cbn [pending pending_idx w_inner] in *.
  symmetry in E. assert (Hb : pend !! idx = Some b) by (rewrite <- (Nat.add_0_r idx), <- lookup_drop, E; done).
  assert (Hl : drop (S idx) pend = left) by (rewrite <- (Nat.add_1_r idx), <- drop_drop, E; done).
  assert (Hpoll : next_pending {| w_inner := inner; pending := pend; pending_idx := idx |} =
    Some (Some b, if S idx =? length pend then into_byte_stream inner else {| w_inner := inner; pending := <[idx := []]> pend; pending_idx := S idx |})).
  { unfold next_pending. cbn [pending pending_idx w_inner]. rewrite bool_decide_eq_false_2 by lia. rewrite Hb. cbn [mbind option_bind].
    by rewrite length_insert. }
  exists (if S idx =? length pend then into_byte_stream inner else {| w_inner := inner; pending := <[idx := []]> pend; pending_idx := S idx |}).
  split.
  { unfold Wrapper_poll_next. cbn [w_inner]. destruct inner; cbn [wrapper_poll]; rewrite Hpoll; done. }
  case_bool_decide as Hc.
  - split; [done|]. split; [|by right]. cbn [into_byte_stream pending pending_idx]. rewrite Hc, drop_all in Hl. by rewrite <- Hl.
  - split; [done|]. split; [|left; cbn; rewrite length_insert; lia]. cbn [pending pending_idx]. rewrite drop_insert_lt by lia. done.
Qed.

Lemma yields_left left w l r : holds w left -> yields (into_byte_stream (w_inner w)) l r -> yields w (left ++ l) r.
Proof.
  revert w. induction left as [|b left IH]; intros w Hw Hy.
  - destruct Hw as [E [Hi|[Hp Hi]]]; [apply (f_equal length) in E; rewrite length_drop in E; simpl in E; lia|].
    destruct w as [inner pend idx]; cbn in *; by subst.
  - destruct (poll_left w b left Hw) as (w' & Ep & Ei & Hw'). apply (yields_data w w' b _ r Ep). apply IH; [done|]. by rewrite Ei.
Qed.

(** The messages that are sent: those of the events, up to the first that does not fit. *)
Fixpoint sent (stream : list event_answer) : list Message * bool :=
  match stream with
  | [] => ([], true)
  | EWait :: rest => sent rest
  | EItem ev :: rest =>
      match message_of ev with
      | Some m => if message_fits m then let '(ms, ok) := sent rest in (m :: ms, ok) else ([], false)
      | None => ([], false)
      end
  end.

(** *** No event makes the stream panic *)

Lemma details_total {T} `{Serialize T} (details : option T) : (forall v : T, is_Some (serialize v)) -> is_Some (details_payload details).
Proof.
  intros Hs. destruct details as [d|]; [|by eexists]. destruct (Hs d) as [os E]. unfold details_payload, xml_payload, document_text, document.
  cbn [app s_seq s_then s_decl s_event]. rewrite E. by eexists.
Qed.

Lemma message_of_total ev : is_Some (message_of ev).
Proof.
  destruct ev as [[| |[d]|e|[d]]|e]; cbn [message_of into_message]; try by eexists.
  - destruct (details_total (ProgressEvent_details {| ProgressEvent_details := d |})) as [p ->]; [|by eexists].
    intros [[a|] [b|] [c|]]; by eexists.
  - destruct (details_total (StatsEvent_details {| StatsEvent_details := d |})) as [p ->]; [|by eexists].
    intros [[a|] [b|] [c|]]; by eexists.
  - unfold request_level_error. destruct (as_static_str (code e)) as [s|] eqn:E; [by eexists|].
    destruct (is_static (code e)) eqn:Es; [by rewrite as_static_str_name in E|]. by destruct (code e).
Qed.

Lemma poll_item ev rest m : message_of ev = Some m ->
  Wrapper_poll_next (into_byte_stream (EItem ev :: rest)) =
  match serialize_chunks m with
  | Ok chunks => Wrapper_poll_next {| w_inner := rest; pending := chunks; pending_idx := 0 |}
  | Err err => Some (into_byte_stream rest, Ready (Some (Err (SerError_to_string err))))
  end.
Proof.
  intros Em. transitivity (r ← event_into_chunks ev;
    match r with
    | Ok chunks => Wrapper_poll_next {| w_inner := rest; pending := chunks; pending_idx := 0 |}
    | Err err => Some (into_byte_stream rest, Ready (Some (Err (SerError_to_string err))))
    end); [reflexivity|]. unfold event_into_chunks. rewrite Em. done.
Qed.

Lemma item_chunks ev rest m : message_of ev = Some m ->
  (message_fits m = true -> exists chunks, concat chunks = message_text m /\
     forall l r, yields (into_byte_stream rest) l r -> yields (into_byte_stream (EItem ev :: rest)) (chunks ++ l) r) /\
  (message_fits m = false -> exists e, yields (into_byte_stream (EItem ev :: rest)) [] (Some e)).
Proof.
  intros Em. pose proof (serialize_chunks_eq m) as Hs. split; intros Hf; rewrite Hf in Hs.
  - destruct Hs as (chunks & Es & Hc & Hne). exists chunks. split; [done|]. intros l r Hy.
    apply (yields_same _ {| w_inner := rest; pending := chunks; pending_idx := 0 |}).
    + rewrite (poll_item ev rest m Em). by rewrite Es.
    + apply yields_left; [|done]. split; [done|]. left. cbn. destruct chunks; [done|simpl; lia].
  - destruct Hs as [e Es]. eexists. eapply yields_error. rewrite (poll_item ev rest m Em), Es. done.
Qed.

(** Reads messages until the data is used up. *)
Fixpoint read_messages (fuel : nat) (data : bytes) : option (list Message) :=
  match data, fuel with
  | [], _ => Some []
  | _, 0 => None
  | _, S fuel' => '(m, rest) ← read_message data; ms ← read_messages fuel' rest; Some (m :: ms)
  end.

Lemma read_messages_text ms fuel : forallb message_fits ms = true -> length ms <= fuel ->
  read_messages fuel (concat (map message_text ms)) = Some (map received ms).
Proof.
  revert fuel. induction ms as [|m ms IH]; intros fuel Hf Hl; [by destruct fuel|]. cbn [forallb] in Hf. apply andb_true_iff in Hf as [Hm Hf].
  destruct fuel as [|fuel]; [simpl in Hl; lia|]. cbn [map concat]. pose proof (read_message_text m (concat (map message_text ms)) Hm) as Hr.
  destruct (message_text m ++ concat (map message_text ms)) as [|c data] eqn:E.
  - by apply app_nil in E as [E _]; unfold message_text in E; apply app_nil in E as [_ E].
  - cbn [read_messages]. rewrite Hr. cbn [mbind option_bind]. simpl in Hl. rewrite IH by (done || lia). done.
Qed.

Lemma message_text_nonempty m : message_text m <> [].
Proof. intros E. unfold message_text in E. by apply app_nil in E as [_ E]. Qed.

Lemma messages_length ms : length ms <= length (concat (map message_text ms)).
Proof.
  induction ms as [|m ms IH]; [done|]. cbn [map concat]. rewrite length_app.
  pose proof (message_text_nonempty m). destruct (message_text m); [done|]. simpl in *. lia.
Qed.

Lemma stream_yields stream : exists l r, yields (into_byte_stream stream) l r /\
  concat l = concat (map message_text (sent stream).1) /\ (r = None <-> (sent stream).2 = true) /\ forallb message_fits (sent stream).1 = true.
Proof.
  induction stream as [|[|ev] rest (l & r & Hy & Hc & Hr & Hf)].
  - exists [], None. split; [by eapply yields_end|]. done.
  - exists l, r. split; [|done]. eapply yields_wait; [|exact Hy]. done.
  - destruct (message_of_total ev) as [m Em]. destruct (item_chunks ev rest m Em) as [Hok Hno]. cbn [sent]. rewrite Em.
    destruct (message_fits m) eqn:Hm.
    + destruct (Hok eq_refl) as (chunks & Hch & Hyy). exists (chunks ++ l), r. destruct (sent rest) as [ms ok]. cbn [fst snd] in *.
      split; [by apply Hyy|]. split; [|split; [done|]].
      * cbn [map concat]. by rewrite concat_app, Hch, Hc.
      * cbn [forallb]. by rewrite Hm, Hf.
    + destruct (Hno eq_refl) as [e Hyy]. exists [], (Some e). done.
Qed.

(** The byte stream of a select response ends, without a panic, for every stream of events:
    its bytes are a sequence of messages that a reader of the format, which checks both checksums
    of each, reads as exactly the messages of the events, in order.  The stream fails exactly at
    the first event with a header or a total length that the format has no room for; what came
    before it has been delivered. *)
Theorem event_stream_messages (stream : list event_answer) :
  exists l r, yields (into_byte_stream stream) l r /\
    read_messages (length (concat l)) (concat l) = Some (map received (sent stream).1) /\
    (r = None <-> (sent stream).2 = true).
Proof.
  destruct (stream_yields stream) as (l & r & Hy & Hc & Hr & Hf). exists l, r. split; [done|]. split; [|done]. rewrite Hc.
  apply read_messages_text; [done|]. apply messages_length.
Qed.
End Streams.

(** ** Events, as a client receives them *)

Inductive Received := ReceivedError (code message : bytes) | ReceivedEvent (e : SelectObjectContentEvent).

Definition header_of (name : bytes) (m : Message) : option bytes :=
  header_value <$> List.find (fun h => header_name h =? name) (m_headers m).

Section Client.
Context `{QuickXml} `{XmlDeps} `{CrcFast}.

(** The details of a progress or statistics event: no payload, or a document. *)
Definition details_of {T} `{Deserialize T} (payload : option bytes) : option (option T) :=
  match payload with
  | None => Some None
  | Some xml => match deserialize_document deserialize xml with Some (Ok d) => Some (Some d) | _ => None end
  end.

(** The event of a type with a payload. *)
Definition event_named (t : bytes) (payload : option bytes) : option Received :=
  if t =? str "Cont" then Some (ReceivedEvent Event_Cont)
  else if t =? str "End" then Some (ReceivedEvent Event_End)
  else if t =? str "Records" then Some (ReceivedEvent (Event_Records {| RecordsEvent_payload := payload |}))
  else if t =? str "Progress" then
    d ← details_of payload; Some (ReceivedEvent (Event_Progress {| ProgressEvent_details := d |}))
  else if t =? str "Stats" then
    d ← details_of payload; Some (ReceivedEvent (Event_Stats {| StatsEvent_details := d |}))
  else None.

(** The event or error a message stands for. *)
Definition event_of (m : Message) : option Received :=
  if header_of MESSAGE_TYPE m =? Some (str "error") then
    code ← header_of (str ":error-code") m;
    message ← header_of (str ":error-message") m;
    Some (ReceivedError code message)
  else
    t ← header_of EVENT_TYPE m;
    event_named t (m_payload m).

(** What a client should get for an event: empty records are records without payload. *)
Definition expected (ev : result S3Error SelectObjectContentEvent) : Received :=
  match ev with
  | Err e => ReceivedError (default [] (as_str (code e))) (default [] (ErrorCode.message e))
  | Ok (Event_Records {| RecordsEvent_payload := Some [] |}) => ReceivedEvent (Event_Records {| RecordsEvent_payload := None |})
  | Ok e => ReceivedEvent e
  end.

(** Counters are 64-bit integers. *)
Definition event_wf (ev : result S3Error SelectObjectContentEvent) : Prop :=
  match ev with
  | Ok (Event_Progress e) => from_option Progress_wf True (ProgressEvent_details e)
  | Ok (Event_Stats e) => from_option Stats_wf True (StatsEvent_details e)
  | _ => True
  end.

Lemma no_document {T} (de : De T) n : deserialize_document (named_element n de) [] = Some (Err UnexpectedEof).
Proof.
  assert (Hr : read_events [] = []) by exact (read_write [] eq_refl). unfold deserialize_document, Deserializer_new. by rewrite Hr.
Qed.

Lemma details_received {T} `{Serialize T} n (de : De T) (d : T) :
  let D : Deserialize T := named_element n de in
  reads_back true d -> exists xml, xml_payload d = Some xml /\ xml <> [] /\ @details_of T D (Some xml) = Some (Some d).
Proof.
  intros D (xml & E & Hd). exists xml. split; [done|]. split; [|by unfold details_of; rewrite Hd].
  intros ->. unfold D, deserialize in Hd. by rewrite no_document in Hd.
Qed.

Lemma event_received ev m : message_of ev = Some m -> event_wf ev -> event_of (received m) = Some (expected ev).
Proof.
  destruct ev as [[| |[d]|[p]|[d]]|e]; cbn [message_of into_message event_wf]; intros Em Hwf.
  - injection Em as <-. done.
  - injection Em as <-. done.
  - destruct d as [d|]; cbn [ProgressEvent_details details_payload from_option] in *; [|by injection Em as <-].
    destruct (details_received (str "Progress") de_Progress d) as (xml & Ex & Hne & Hd).
    { apply (plain_root ser_Progress de_Progress Progress_wf (str "Progress") true d); [typeclasses eauto|done|exact Hwf]. }
    rewrite Ex in Em. injection Em as <-. change (event_named (str "Progress") (if xml =? [] then None else Some xml) = Some (expected (Ok (Event_Progress {| ProgressEvent_details := Some d |})))).
    rewrite bool_decide_eq_false_2 by done. change (@details_of _ deserialize_Progress (Some xml) = Some (Some d)) in Hd.
    unfold event_named. rewrite Hd. done.
  - injection Em as <-. by destruct p as [[|c p]|].
  - destruct d as [d|]; cbn [StatsEvent_details details_payload from_option] in *; [|by injection Em as <-].
    destruct (details_received (str "Stats") de_Stats d) as (xml & Ex & Hne & Hd).
    { apply (plain_root ser_Stats de_Stats Stats_wf (str "Stats") true d); [typeclasses eauto|done|exact Hwf]. }
    rewrite Ex in Em. injection Em as <-. change (event_named (str "Stats") (if xml =? [] then None else Some xml) = Some (expected (Ok (Event_Stats {| StatsEvent_details := Some d |})))).
    rewrite bool_decide_eq_false_2 by done. change (@details_of _ deserialize_Stats (Some xml) = Some (Some d)) in Hd.
    unfold event_named. rewrite Hd. done.
  - unfold request_level_error in Em. cbn [expected]. unfold as_str.
    destruct (as_static_str (code e)) as [s|]; [by injection Em as <-|]. destruct (code e); try done. by injection Em as <-.
Qed.

Definition items_of (stream : list event_answer) : list (result S3Error SelectObjectContentEvent) :=
  omap (fun a => match a with EItem ev => Some ev | EWait => None end) stream.

(** An event that the format has room for, with counters in range. *)
Definition sendable (ev : result S3Error SelectObjectContentEvent) : Prop :=
  event_wf ev /\ forall m, message_of ev = Some m -> message_fits m = true.

Lemma sent_events stream : Forall sendable (items_of stream) ->
  (sent stream).2 = true /\ mapM event_of (map received (sent stream).1) = Some (map expected (items_of stream)).
Proof.
  induction stream as [|[|ev] rest IH]; [done|exact IH|]. unfold items_of. cbn [omap list_omap]. fold (items_of rest). intros [[Hwf Hfit] Hrest]%Forall_cons.
  destruct (IH Hrest) as [Hok Hm]. destruct (message_of_total ev) as [m Em]. cbn [sent]. rewrite Em, (Hfit m Em). destruct (sent rest) as [ms ok]. cbn [fst snd] in *.
  split; [done|]. cbn [map mapM]. rewrite (event_received ev m Em Hwf). cbn [mbind option_bind]. by rewrite Hm.
Qed.

(** C37: A client of a select request receives the events of the application: when every event
    fits the format, the byte stream ends cleanly, and reading its messages and decoding each gives
    the same events in the same order, errors as error messages with their code and text, and
    progress and statistics with their counters; only empty records lose their empty payload. *)
Theorem select_events_received (stream : list event_answer) : Forall sendable (items_of stream) ->
  exists l, yields (into_byte_stream stream) l None /\
    (ms ← read_messages (length (concat l)) (concat l); mapM event_of ms) = Some (map expected (items_of stream)).
Proof.
  intros Hs. destruct (sent_events stream Hs) as [Hok Hm]. destruct (stream_yields stream) as (l & r & Hy & Hc & Hr & Hf).
  rewrite (proj2 Hr Hok) in Hy. exists l. split; [done|]. rewrite Hc, read_messages_text; [exact Hm|done|apply messages_length].
Qed.
End Client.

(** ** Witnesses *)

(** A sum of the bytes in place of the checksum. *)
Definition crc_reference : CrcFast.
Proof.
  refine {| Digest := Z; digest_new := 0%Z; digest_update := fun d s => fold_left (fun acc b => acc * 31 + u8 b)%Z s d; digest_finalize := id |}.
  intros d a b. by rewrite fold_left_app.
Defined.

Definition w_events : list event_answer :=
  [EItem (Ok (Event_Records {| RecordsEvent_payload := Some (str "a,b") |})); EWait;
   EItem (Ok (Event_Progress {| ProgressEvent_details := Some {| Progress_bytes_processed := Some 7%Z; Progress_bytes_returned := None; Progress_bytes_scanned := Some 9%Z |} |}));
   EItem (Err {| code := InternalError; message := Some (str "oops"); request_id := None; status_code := None; error_headers := None |}); EItem (Ok Event_End)].

Lemma select_events_received_witness :
  exists l, @yields quick_xml_reference crc_reference (into_byte_stream w_events) l None /\
    (ms ← @read_messages crc_reference (length (concat l)) (concat l); mapM (@event_of quick_xml_reference xml_reference) ms) =
      Some (map expected (items_of w_events)).
Proof.
  apply (@select_events_received quick_xml_reference xml_reference crc_reference w_events).
  repeat constructor; try (intros m [= <-]; by vm_compute); cbn; unfold i64_wf; by vm_compute.
Defined.
