(* ===== verification/CopySource.v ===== *)
(** * Copy sources (crates/s3s/src/dto/copy_source.rs)

    The [x-amz-copy-source] header: a bucket and key, or the ARN of an access point or of an
    outpost, with an optional version; its parser and its text form. *)

From S2P Require Import Prelude.
From S2P Require Import Str.
From S2P Require Import Utf8.
From S2P Require Import Path.

(** ** The urlencoding crate *)

(** What [urlencoding::encode] leaves as it is. *)
Definition url_plain (c : byte) : bool :=
  is_ascii_alphanumeric c || (c =? "-"%byte) || (c =? "_"%byte) || (c =? "."%byte) || (c =? "~"%byte).

(** [encode] writes every other byte as [%] and two hexadecimal digits; [decode] reads such
    escapes, keeps every other byte, and accepts the result when it is UTF-8. *)
Class UrlEncoding := {
  url_encode : bytes -> bytes;
  decode_binary : bytes -> bytes;
  url_decode : bytes -> option bytes;
  url_encode_spec : forall s, url_encode s = concat (map (fun c =>
    if url_plain c then [c] else ["%"%byte; hex_upper (u8 c / 16); hex_upper (u8 c mod 16)]) s);
  url_decode_spec : forall s, url_decode s = if utf8_valid (decode_binary s) then Some (decode_binary s) else None;
  decode_binary_nil : decode_binary [] = [];
  decode_binary_raw : forall c s, c <> "%"%byte -> decode_binary (c :: s) = c :: decode_binary s;
  decode_binary_escape : forall h l hi lo s, hex_val h = Some hi -> hex_val l = Some lo ->
    decode_binary ("%"%byte :: h :: l :: s) = byte_of_Z (16 * hi + lo) :: decode_binary s
}.

(** ** Data *)

Inductive CopySource :=
| CsBucket (bucket key : bytes) (version_id : option bytes)
| AccessPoint (partition region account_id access_point_name key : bytes) (version_id : option bytes)
| Outpost (partition region account_id outpost_id key : bytes) (version_id : option bytes).

Inductive ParseCopySourceError :=
| PatternMismatch | CsInvalidBucketName | InvalidKey | InvalidEncoding | InvalidArn | InvalidAccessPointName | InvalidAccountId.

(** ** Operations *)

Definition check_access_point_name (name : bytes) : bool :=
  if negb ((3 <=? length name)%nat && (length name <=? 63)%nat) then false
  else if negb (forallb (fun b => is_ascii_lowercase b || is_ascii_digit b || (b =? "-"%byte)) name) then false
  else if match head name with Some first => negb (is_ascii_lowercase first || is_ascii_digit first) | None => true end then false
  else if match last name with Some last => negb (is_ascii_lowercase last || is_ascii_digit last) | None => true end then false
  else if contains (str "--") name then false
  else true.

Definition check_account_id (id : bytes) : bool := (length id =? 12) && forallb is_ascii_digit id.

Section CopySource.
Context `{UrlEncoding}.

Definition version_marker : bytes := str "?versionId=".

Definition extract_version_id (header : bytes) : result ParseCopySourceError (bytes * option bytes) :=
  match find_sub version_marker header with
  | Some idx =>
      let path := take idx header in
      let version_part := drop idx header in
      match strip_prefix version_marker version_part with
      | Some version_id_raw =>
          version_id ← ok_or InvalidEncoding (url_decode version_id_raw);
          Ok (path, Some version_id)
      | None => Ok (path, None)
      end
  | None => Ok (header, None)
  end.

(** The segments after the first are each preceded by a slash. *)
Definition encode_path (s : bytes) : bytes :=
  snd (fold_left (fun '(i, buf) seg => (S i, buf ++ (if (0 <? i)%nat then ["/"%byte] else []) ++ url_encode seg))
    (split "/" s) (0, [])).

Definition parse_access_point_resource (resource partition region account_id : bytes) (version_id : option bytes) :
    result ParseCopySourceError CopySource :=
  rest ← ok_or InvalidArn (strip_prefix (str "accesspoint/") resource);
  '(name, key) ← ok_or InvalidArn (split_once_str (str "/object/") rest);
  if negb (check_access_point_name name) then Err InvalidAccessPointName
  else if (key =? []) || negb (check_key key) then Err InvalidKey
  else Ok (AccessPoint partition region account_id name key version_id).

Definition parse_outpost_resource (resource partition region account_id : bytes) (version_id : option bytes) :
    result ParseCopySourceError CopySource :=
  rest ← ok_or InvalidArn (strip_prefix (str "outpost/") resource);
  '(outpost_id, key) ← ok_or InvalidArn (split_once_str (str "/object/") rest);
  if outpost_id =? [] then Err InvalidArn
  else if (key =? []) || negb (check_key key) then Err InvalidKey
  else Ok (Outpost partition region account_id outpost_id key version_id).

Definition is_partition (p : bytes) : bool := (p =? str "aws") || (p =? str "aws-cn") || (p =? str "aws-us-gov").

Definition parse_arn (arn : bytes) (version_id : option bytes) : result ParseCopySourceError CopySource :=
  match splitn 6 ":" arn with
  | [p0; partition; service; region; account_id; resource] =>
      if p0 <>? str "arn" then Err InvalidArn
      else if negb (is_partition partition) then Err InvalidArn
      else if region =? [] then Err InvalidArn
      else if negb (check_account_id account_id) then Err InvalidAccountId
      else if service =? str "s3" then parse_access_point_resource resource partition region account_id version_id
      else if service =? str "s3-outposts" then parse_outpost_resource resource partition region account_id version_id
      else Err InvalidArn
  | _ => Err InvalidArn
  end.

Definition CopySource_parse (header : bytes) : result ParseCopySourceError CopySource :=
  '(path_part, version_id) ← extract_version_id header;
  decoded0 ← ok_or InvalidEncoding (url_decode path_part);
  let decoded := default decoded0 (strip_prefix ["/"%byte] decoded0) in
  if starts_with (str "arn:") decoded then parse_arn decoded version_id
  else
    match split_once "/" decoded with
    | None => Err PatternMismatch
    | Some (bucket, key) =>
        if negb (check_bucket_name bucket) then Err CsInvalidBucketName
        else if negb (check_key key) then Err InvalidKey
        else Ok (CsBucket bucket key version_id)
    end.

Definition format_version (version_id : option bytes) : bytes :=
  match version_id with
  | Some version_id => version_marker ++ url_encode version_id
  | None => []
  end.

Definition format_to_string (cs : CopySource) : bytes :=
  match cs with
  | CsBucket bucket key version_id =>
      let encoded_key := encode_path key in
      bucket ++ str "/" ++ encoded_key ++ format_version version_id
  | AccessPoint partition region account_id access_point_name key version_id =>
      let encoded_key := encode_path key in
      str "arn:" ++ partition ++ str ":s3:" ++ region ++ str ":" ++ account_id ++ str ":accesspoint/" ++ access_point_name ++
        str "/object/" ++ encoded_key ++ format_version version_id
  | Outpost partition region account_id outpost_id key version_id =>
      let encoded_key := encode_path key in
      str "arn:" ++ partition ++ str ":s3-outposts:" ++ region ++ str ":" ++ account_id ++ str ":outpost/" ++ outpost_id ++
        str "/object/" ++ encoded_key ++ format_version version_id
  end.

(** [header_to_str] is [HeaderValue::to_str] of the [http] crate. *)
Definition cs_try_from_header_value (header_to_str : bytes -> option bytes) (val : bytes) :
    result ParseCopySourceError CopySource :=
  header ← ok_or InvalidEncoding (header_to_str val);
  CopySource_parse header.
End CopySource.

(** ** Escapes: lemmas *)

Definition url_escape (c : byte) : bytes :=
  if url_plain c then [c] else ["%"%byte; hex_upper (u8 c / 16); hex_upper (u8 c mod 16)].

(** The bytes an encoded path is made of. *)
Definition path_byte (c : byte) : bool := url_plain c || (c =? "%"%byte) || (c =? "/"%byte).

Lemma escape_hex c : hex_val (hex_upper (u8 c / 16)) = Some (u8 c / 16)%Z /\ hex_val (hex_upper (u8 c mod 16)) = Some (u8 c mod 16)%Z.
Proof. by destruct c. Qed.

Lemma escape_byte c : byte_of_Z (16 * (u8 c / 16) + u8 c mod 16) = c.
Proof. by destruct c. Qed.

Lemma url_plain_no_percent c : url_plain c = true -> c <> "%"%byte.
Proof. by destruct c. Qed.

Lemma url_escape_bytes c : forallb path_byte (url_escape c) = true.
Proof. by destruct c. Qed.

Lemma path_byte_ascii c : path_byte c = true -> is_ascii c = true.
Proof. by destruct c. Qed.

Lemma plain_path_byte c : url_plain c = true -> path_byte c = true.
Proof. unfold path_byte. by intros ->. Qed.

Section Escapes.
Context `{UrlEncoding}.

Lemma decode_escape c t : decode_binary (url_escape c ++ t) = c :: decode_binary t.
Proof.
  unfold url_escape. destruct (url_plain c) eqn:E.
  - by apply decode_binary_raw, url_plain_no_percent.
  - destruct (escape_hex c). cbn [app]. erewrite decode_binary_escape by done. by rewrite escape_byte.
Qed.

Lemma decode_encode_app s t : decode_binary (url_encode s ++ t) = s ++ decode_binary t.
Proof.
  rewrite url_encode_spec. induction s as [|c s IH]; [done|]. cbn [map concat]. fold (url_escape c).
  by rewrite <- app_assoc, decode_escape, IH.
Qed.

Lemma decode_raw_app s t : "%"%byte ∉ s -> decode_binary (s ++ t) = s ++ decode_binary t.
Proof.
  induction s as [|c s IH]; [done|]. intros [Hc Hs]%not_elem_of_cons. cbn [app]. rewrite decode_binary_raw by done. by rewrite IH.
Qed.

Lemma url_encode_bytes s : forallb path_byte (url_encode s) = true.
Proof.
  rewrite url_encode_spec. induction s as [|c s IH]; [done|]. cbn [map concat].
  fold (url_escape c). by rewrite forallb_app, url_escape_bytes, IH.
Qed.

Lemma encode_path_loop ws i buf :
  snd (fold_left (fun '(i, buf) seg => (S i, buf ++ (if (0 <? i)%nat then ["/"%byte] else []) ++ url_encode seg)) ws (S i, buf)) =
  buf ++ concat (map (fun w => "/"%byte :: url_encode w) ws).
Proof. revert i buf. induction ws as [|w ws IH]; intros i buf; simpl; [by rewrite app_nil_r|]. rewrite IH. by rewrite <- app_assoc. Qed.

Lemma join_concat (w : bytes) ws : join ["/"%byte] (w :: ws) = w ++ concat (map (cons "/"%byte) ws).
Proof. revert w. induction ws as [|x ws IH]; intros w; [by simpl; rewrite app_nil_r|]. cbn [join map concat] in *. by rewrite IH. Qed.

Lemma encode_path_eq s : exists w ws, s = w ++ concat (map (cons "/"%byte) ws) /\
  encode_path s = url_encode w ++ concat (map (fun w => "/"%byte :: url_encode w) ws).
Proof.
  pose proof (split_nonempty "/" s) as Hne. pose proof (join_split "/" s) as Hj. unfold encode_path.
  destruct (split "/" s) as [|w ws]; [done|]. exists w, ws. split; [by rewrite <- join_concat|].
  cbn [fold_left]. by rewrite encode_path_loop.
Qed.

Lemma decode_encode_path s t : decode_binary (encode_path s ++ t) = s ++ decode_binary t.
Proof.
  destruct (encode_path_eq s) as (w & ws & -> & ->). rewrite <- !app_assoc, decode_encode_app. f_equal.
  induction ws as [|x ws IH]; [done|]. cbn [map concat app]. rewrite decode_binary_raw by done.
  by rewrite <- !app_assoc, decode_encode_app, IH.
Qed.

Lemma encode_path_bytes s : forallb path_byte (encode_path s) = true.
Proof.
  destruct (encode_path_eq s) as (w & ws & -> & ->). rewrite forallb_app, url_encode_bytes. cbn [andb].
  induction ws as [|x ws IH]; [done|]. cbn [map concat]. by rewrite forallb_app, IH; cbn [forallb]; rewrite url_encode_bytes.
Qed.

(** An encoded version is split off a path without question marks. *)
Lemma extract_format path v :
  "?"%byte ∉ path -> from_option utf8_valid true v = true ->
  extract_version_id (path ++ format_version v) = Ok (path, v).
Proof.
  intros Hp Hv. unfold extract_version_id. destruct v as [v|]; cbn [format_version].
  - rewrite (find_sub_head "?" (str "versionId=") path (url_encode v) Hp : find_sub version_marker (path ++ version_marker ++ _) = _).
    rewrite take_app_length, drop_app_length, strip_prefix_app.
    pose proof (decode_encode_app v []) as E. rewrite decode_binary_nil, !app_nil_r in E.
    rewrite url_decode_spec, E. by rewrite (Hv : utf8_valid v = true).
  - rewrite app_nil_r. change version_marker with ("?"%byte :: str "versionId="). by rewrite find_sub_notin.
Qed.
End Escapes.

(** ** Well-formed sources *)

Record arn_ok (partition region account_id key : bytes) : Prop := {
  arn_partition : is_partition partition = true;
  arn_region : region <> [] /\ ":"%byte ∉ region /\ utf8_valid region = true;
  arn_account : check_account_id account_id = true;
  arn_key : key <> []
}.

Definition text_key (key : bytes) (version_id : option bytes) : Prop :=
  (len key <= 1024)%Z /\ utf8_valid key = true /\ from_option utf8_valid true version_id = true.

Definition well_formed (cs : CopySource) : Prop :=
  match cs with
  | CsBucket bucket key version_id => check_bucket_name bucket = true /\ text_key key version_id
  | AccessPoint partition region account_id name key version_id =>
      arn_ok partition region account_id key /\ check_access_point_name name = true /\ text_key key version_id
  | Outpost partition region account_id outpost_id key version_id =>
      arn_ok partition region account_id key /\ outpost_id <> [] /\ text_key key version_id
  end.

(** The parts that are printed without encoding are made of bytes that need none. *)
Definition printable (cs : CopySource) : bool :=
  match cs with
  | CsBucket _ _ _ => true
  | AccessPoint _ region _ _ _ _ => forallb url_plain region
  | Outpost _ region _ outpost_id _ _ => forallb url_plain region && forallb url_plain outpost_id
  end.

Lemma forallb_notin_byte (p : byte -> bool) c s : p c = false -> forallb p s = true -> c ∉ s.
Proof. intros Hc Hs Hin. rewrite forallb_forall in Hs. apply list_elem_of_In, Hs in Hin. congruence. Qed.

Lemma account_plain id : check_account_id id = true -> forallb url_plain id = true.
Proof. intros [_ Hd]%andb_true_iff. revert Hd. apply forallb_impl. intros c. by destruct c. Qed.

Lemma partition_plain p : is_partition p = true -> forallb url_plain p = true.
Proof. unfold is_partition. rewrite !orb_true_iff, !bool_decide_eq_true. by intros [[->| ->]| ->]. Qed.

Lemma access_point_plain name : check_access_point_name name = true -> forallb url_plain name = true.
Proof.
  unfold check_access_point_name. intros H. case_match; [done|]. destruct (forallb _ name) eqn:E; [|done].
  revert E. apply forallb_impl. intros c. by destruct c.
Qed.

Lemma bucket_plain name : check_bucket_name name = true -> forallb url_plain name = true.
Proof. intros (_ & E & _)%check_bucket_name_spec. revert E. apply forallb_impl. intros c. by destruct c. Qed.

Lemma plain_ascii s : forallb url_plain s = true -> forallb is_ascii s = true.
Proof. apply forallb_impl. intros c Hc. by apply path_byte_ascii, plain_path_byte. Qed.

Lemma bucket_not_arn bucket key : check_bucket_name bucket = true -> starts_with (str "arn:") (bucket ++ "/"%byte :: key) = false.
Proof.
  intros Hb. pose proof (bucket_plain _ Hb) as Hp. apply check_bucket_name_spec in Hb as (Hl & _).
  destruct (starts_with _ _) eqn:E; [|done]. apply starts_with_true in E as [r E].
  destruct bucket as [|a [|b [|c [|d t]]]]; simpl in Hl; try lia; [done|]. injection E as -> -> -> -> _.
  done.
Qed.

Lemma splitn_step n c w s : c ∉ w -> splitn (S (S n)) c (w ++ c :: s) = w :: splitn (S n) c s.
Proof. intros Hn. cbn [splitn]. by rewrite (proj2 (split_once_Some c (w ++ c :: s) w s)). Qed.

Lemma splitn_arn a b c d e f :
  ":"%byte ∉ a -> ":"%byte ∉ b -> ":"%byte ∉ c -> ":"%byte ∉ d -> ":"%byte ∉ e ->
  splitn 6 ":" (a ++ ":"%byte :: b ++ ":"%byte :: c ++ ":"%byte :: d ++ ":"%byte :: e ++ ":"%byte :: f) = [a; b; c; d; e; f].
Proof. intros. by rewrite !splitn_step. Qed.

Section WellFormed.
Context `{UrlEncoding}.

Lemma split_object o key : "/"%byte ∉ o -> split_once_str (str "/object/") (o ++ str "/object/" ++ key) = Some (o, key).
Proof.
  intros Hn. unfold split_once_str.
  rewrite (find_sub_head "/" (str "object/") o key Hn : find_sub (str "/object/") (o ++ str "/object/" ++ key) = _).
  rewrite take_app_length, <- drop_drop, drop_app_length. done.
Qed.

(** A path of bytes that need no encoding followed by an encoded key decodes to the path and the key. *)
Lemma parse_path path key v :
  forallb is_ascii path = true -> "?"%byte ∉ path -> "%"%byte ∉ path -> text_key key v ->
  extract_version_id (path ++ encode_path key ++ format_version v) = Ok (path ++ encode_path key, v) /\
  url_decode (path ++ encode_path key) = Some (path ++ key).
Proof.
  intros Ha Hq Hn (_ & Hk & Hv). split.
  - rewrite app_assoc. apply extract_format; [|done]. apply not_elem_of_app. split; [done|].
    by apply (forallb_notin_byte path_byte); [|apply encode_path_bytes].
  - rewrite url_decode_spec, decode_raw_app by done.
    pose proof (decode_encode_path key []) as E. rewrite decode_binary_nil, !app_nil_r in E.
    by rewrite E, utf8_ascii_app, Hk.
Qed.
End WellFormed.

(** ** Printing then parsing: lemmas *)

Definition arn_path (service kind partition region account_id name : bytes) : bytes :=
  str "arn:" ++ partition ++ str ":" ++ service ++ str ":" ++ region ++ str ":" ++ account_id ++ str ":" ++ kind ++
  name ++ str "/object/".

Definition arn_byte (c : byte) : bool := url_plain c || (c =? ":"%byte) || (c =? "/"%byte).

Lemma plain_arn_byte s : forallb url_plain s = true -> forallb arn_byte s = true.
Proof. apply forallb_impl. unfold arn_byte. by intros c ->. Qed.

Lemma arn_path_bytes service kind p r a n :
  forallb arn_byte service = true -> forallb arn_byte kind = true -> is_partition p = true -> check_account_id a = true ->
  forallb url_plain r = true -> forallb url_plain n = true ->
  forallb arn_byte (arn_path service kind p r a n) = true.
Proof.
  intros Hs Hk Hp%partition_plain%plain_arn_byte Ha%account_plain%plain_arn_byte Hr%plain_arn_byte Hn%plain_arn_byte.
  unfold arn_path. by rewrite !forallb_app, Hs, Hk, Hp, Ha, Hr, Hn.
Qed.

Section RoundTrip.
Context `{UrlEncoding}.

Lemma parse_arn_path service kind p r a n key v :
  arn_ok p r a key -> ":"%byte ∉ service ->
  parse_arn (arn_path service kind p r a n ++ key) v =
    let resource := kind ++ n ++ str "/object/" ++ key in
    if service =? str "s3" then parse_access_point_resource resource p r a v
    else if service =? str "s3-outposts" then parse_outpost_resource resource p r a v
    else Err InvalidArn.
Proof.
  intros [Hp (Hr & Hrc & _) Ha _] Hs. unfold parse_arn.
  replace (arn_path service kind p r a n ++ key) with (str "arn" ++ ":"%byte :: p ++ ":"%byte :: service ++ ":"%byte :: r ++
    ":"%byte :: a ++ ":"%byte :: kind ++ n ++ str "/object/" ++ key) by (unfold arn_path; by rewrite <- !app_assoc).
  rewrite splitn_arn.
  - rewrite (bool_decide_eq_false_2 (r = [])) by done. by rewrite Hp, Ha.
  - by apply (forallb_notin_byte url_plain).
  - by apply (forallb_notin_byte url_plain), partition_plain.
  - done.
  - done.
  - by apply (forallb_notin_byte url_plain), account_plain.
Qed.

(** What is printed as an ARN goes to the parser of ARNs. *)
Lemma parse_arn_text service kind p r a n key v :
  forallb arn_byte service = true -> forallb arn_byte kind = true -> arn_ok p r a key ->
  forallb url_plain r = true -> forallb url_plain n = true -> text_key key v ->
  CopySource_parse (arn_path service kind p r a n ++ encode_path key ++ format_version v) =
    parse_arn (arn_path service kind p r a n ++ key) v.
Proof.
  intros Hs Hk Hok Hr Hn Ht.
  assert (Hb : forallb arn_byte (arn_path service kind p r a n) = true) by (by destruct Hok; apply arn_path_bytes).
  destruct (parse_path (arn_path service kind p r a n) key v) as [E1 E2].
  - revert Hb. apply forallb_impl. intros c. by destruct c.
  - by apply (forallb_notin_byte arn_byte).
  - by apply (forallb_notin_byte arn_byte).
  - done.
  - unfold CopySource_parse. rewrite E1. cbn [mbind result_bind]. by rewrite E2.
Qed.

Lemma parse_bucket_text bucket key v :
  check_bucket_name bucket = true -> text_key key v ->
  CopySource_parse ((bucket ++ str "/") ++ encode_path key ++ format_version v) = Ok (CsBucket bucket key v).
Proof.
  intros Hb Ht. pose proof (bucket_plain _ Hb) as Hp.
  destruct (parse_path (bucket ++ str "/") key v) as [E1 E2].
  - by rewrite forallb_app, plain_ascii.
  - apply (forallb_notin_byte path_byte); [done|]. rewrite forallb_app, andb_true_r. revert Hp. apply forallb_impl, plain_path_byte.
  - apply not_elem_of_app. split; [by apply (forallb_notin_byte url_plain)|]. apply (forallb_notin_byte (fun c => c =? "/"%byte)); done.
  - done.
  - unfold CopySource_parse. rewrite E1. cbn [mbind result_bind]. rewrite E2. cbn [ok_or mbind result_bind]. rewrite <- app_assoc.
    assert (Hs : "/"%byte ∉ bucket) by (by apply (forallb_notin_byte url_plain)).
    assert (Hd : strip_prefix ["/"%byte] (bucket ++ str "/" ++ key) = None).
    { apply check_bucket_name_spec in Hb as (Hl & _). destruct bucket as [|c bucket]; [simpl in Hl; lia|].
      apply not_elem_of_cons in Hs as [Hc _]. cbn. by rewrite bool_decide_eq_false_2. }
    rewrite Hd. cbn [default]. rewrite (bucket_not_arn bucket key Hb : starts_with _ (bucket ++ str "/" ++ key) = false).
    rewrite (proj2 (split_once_Some "/" (bucket ++ str "/" ++ key) bucket key)) by done.
    rewrite Hb. simpl. by rewrite (proj2 (check_key_true key) (proj1 Ht)).
Qed.

Lemma format_parse cs : well_formed cs -> printable cs = true -> CopySource_parse (format_to_string cs) = Ok cs.
Proof.
  destruct cs as [b k v|p r a n k v|p r a o k v]; cbn [well_formed printable].
  - intros [Hb Ht] _. rewrite <- parse_bucket_text by done. f_equal. cbn [format_to_string]. by rewrite <- !app_assoc.
  - intros (Hok & Hn & Ht) Hr. pose proof (access_point_plain _ Hn) as Hnp.
    transitivity (CopySource_parse (arn_path (str "s3") (str "accesspoint/") p r a n ++ encode_path k ++ format_version v)).
    { f_equal. unfold arn_path. cbn [format_to_string]. by rewrite <- !app_assoc. }
    rewrite parse_arn_text by done. rewrite parse_arn_path by (done || by apply (forallb_notin_byte url_plain)). cbn zeta. simpl (_ =? _). unfold parse_access_point_resource.
    rewrite strip_prefix_app. cbn [ok_or mbind result_bind]. rewrite split_object by (by apply (forallb_notin_byte url_plain)).
    cbn [ok_or mbind result_bind].
    rewrite Hn, bool_decide_eq_false_2 by apply Hok. simpl. by rewrite (proj2 (check_key_true k) (proj1 Ht)).
  - intros (Hok & Hn & Ht) [Hr Hnp]%andb_true_iff.
    transitivity (CopySource_parse (arn_path (str "s3-outposts") (str "outpost/") p r a o ++ encode_path k ++ format_version v)).
    { f_equal. unfold arn_path. cbn [format_to_string]. by rewrite <- !app_assoc. }
    rewrite parse_arn_text by done. rewrite parse_arn_path by (done || by apply (forallb_notin_byte url_plain)). cbn zeta. simpl (_ =? _). unfold parse_outpost_resource.
    rewrite strip_prefix_app. cbn [ok_or mbind result_bind]. rewrite split_object by (by apply (forallb_notin_byte url_plain)).
    cbn [ok_or mbind result_bind].
    rewrite !bool_decide_eq_false_2 by (done || apply Hok). simpl. by rewrite (proj2 (check_key_true k) (proj1 Ht)).
Qed.
End RoundTrip.

(** ** Parsing: lemmas *)

Lemma splitn_six s a b c d e f :
  splitn 6 ":" s = [a; b; c; d; e; f] -> utf8_valid s = true ->
  ":"%byte ∉ d /\ utf8_valid d = true /\ utf8_valid f = true.
Proof.
  assert (Hc : is_ascii ":" = true) by done.
  assert (Hstep : forall n t w ws, ws <> [] -> splitn (S (S n)) ":" t = w :: ws -> utf8_valid t = true ->
    exists r, splitn (S n) ":" r = ws /\ ":"%byte ∉ w /\ utf8_valid w = true /\ utf8_valid r = true).
  { intros n t w ws Hne. cbn [splitn]. destruct (split_once ":" t) as [[x r]|] eqn:E; [|by intros [= _ <-]].
    apply split_once_Some in E as [-> Hn]. intros [= <- Hws] Hu. apply utf8_around in Hu as [Hx Hr]; [|done]. by exists r. }
  intros E0 H0.
  apply Hstep in E0 as (r1 & E1 & _ & _ & H1); [|done|done]. apply Hstep in E1 as (r2 & E2 & _ & _ & H2); [|done|done].
  apply Hstep in E2 as (r3 & E3 & _ & _ & H3); [|done|done]. apply Hstep in E3 as (r4 & E4 & Hd & Hu & H4); [|done|done].
  apply Hstep in E4 as (r5 & E5 & _ & _ & H5); [|done|done]. cbn [splitn] in E5. by injection E5 as ->.
Qed.

Lemma split_object_utf8 s o key :
  split_once_str (str "/object/") s = Some (o, key) -> utf8_valid s = true -> utf8_valid key = true.
Proof.
  unfold split_once_str. destruct (find_sub _ s) as [i|] eqn:E; [|done]. intros [= <- <-] Hu.
  apply find_sub_Some in E as (E & _). rewrite E in Hu. apply (utf8_around _ "/" (str "object/" ++ _)) in Hu as [_ Hu]; [|done].
  by rewrite utf8_ascii_app in Hu.
Qed.

Lemma resource_utf8 p s rest : strip_prefix p s = Some rest -> forallb is_ascii p = true -> utf8_valid s = true -> utf8_valid rest = true.
Proof. intros ->%strip_prefix_Some Hp. by rewrite utf8_ascii_app. Qed.

Section Parsing.
Context `{UrlEncoding}.

Lemma url_decode_utf8 s d : url_decode s = Some d -> utf8_valid d = true.
Proof. rewrite url_decode_spec. destruct (utf8_valid _) eqn:E; [|done]. by intros [= <-]. Qed.

Lemma extract_text h path v : extract_version_id h = Ok (path, v) -> from_option utf8_valid true v = true.
Proof.
  unfold extract_version_id. destruct (find_sub _ h); [|by intros [= _ <-]]. destruct (strip_prefix _ _) as [raw|]; [|by intros [= _ <-]].
  destruct (url_decode raw) as [d|] eqn:E; [|done]. intros [= _ <-]. simpl. by apply url_decode_utf8 in E.
Qed.

(** The checks common to the two kinds of ARN. *)
Lemma resource_ok kind (resource : bytes) v (mk : bytes -> bytes -> CopySource) bad (ok : bytes -> bool) cs :
  (rest ← ok_or InvalidArn (strip_prefix kind resource);
   '(name, key) ← ok_or InvalidArn (split_once_str (str "/object/") rest);
   if negb (ok name) then Err bad
   else if (key =? []) || negb (check_key key) then Err InvalidKey
   else Ok (mk name key)) = Ok cs ->
  forallb is_ascii kind = true -> utf8_valid resource = true -> from_option utf8_valid true v = true ->
  exists name key, cs = mk name key /\ ok name = true /\ key <> [] /\ text_key key v.
Proof.
  intros E Hk Hu Hv. destruct (strip_prefix kind resource) as [rest|] eqn:E1; [|done]. cbn [ok_or mbind result_bind] in E.
  pose proof (resource_utf8 _ _ _ E1 Hk Hu) as Hr. destruct (split_once_str _ rest) as [[name key]|] eqn:E2; [|done].
  cbn [ok_or mbind result_bind] in E. apply split_object_utf8 in E2; [|done]. destruct (ok name) eqn:E3; [|done]. simpl in E.
  case_bool_decide; [done|]. destruct (check_key key) eqn:E4; [|done]. injection E as <-. apply check_key_true in E4. by exists name, key.
Qed.

Lemma parse_arn_ok s v cs :
  parse_arn s v = Ok cs -> utf8_valid s = true -> from_option utf8_valid true v = true -> well_formed cs.
Proof.
  unfold parse_arn. intros E Hs Hv. destruct (splitn 6 ":" s) as [|p0 [|p [|svc [|r [|a [|res [|]]]]]]] eqn:Es; try done.
  destruct (splitn_six _ _ _ _ _ _ _ Es Hs) as (Hc & Hr & Hres).
  destruct (p0 <>? _); [done|]. destruct (is_partition p) eqn:Ep; [|done]. cbn [negb] in E. case_bool_decide as Er; [done|].
  destruct (check_account_id a) eqn:Ea; [|done]. cbn [negb] in E. destruct (svc =? str "s3"); [|destruct (svc =? _); [|done]].
  - destruct (resource_ok (str "accesspoint/") res v (fun n k => AccessPoint p r a n k v) _ check_access_point_name cs E)
      as (n & k & -> & Hn & Hk & Ht); done.
  - destruct (resource_ok (str "outpost/") res v (fun n k => Outpost p r a n k v) InvalidArn (fun o => o <>? []) cs)
      as (n & k & -> & Hn & Hk & Ht); [|done..|].
    + rewrite <- E. unfold parse_outpost_resource. destruct (strip_prefix _ res) as [rest|]; [|done]. cbn [ok_or mbind result_bind].
      destruct (split_once_str _ rest) as [[o k]|]; [|done]. cbn [ok_or mbind result_bind]. by rewrite negb_involutive.
    + split; [done|]. split; [|done]. intros ->. done.
Qed.

Lemma parse_ok h cs : CopySource_parse h = Ok cs -> well_formed cs.
Proof.
  unfold CopySource_parse. destruct (extract_version_id h) as [[path v]|] eqn:E1; [|done]. cbn [mbind result_bind].
  pose proof (extract_text _ _ _ E1) as Hv. destruct (url_decode path) as [d0|] eqn:E2; [|done]. cbn [ok_or mbind result_bind].
  assert (Hd : utf8_valid (default d0 (strip_prefix ["/"%byte] d0)) = true).
  { apply url_decode_utf8 in E2. destruct (strip_prefix _ d0) as [d|] eqn:E; [|done]. by apply resource_utf8 in E. }
  generalize dependent (default d0 (strip_prefix ["/"%byte] d0)). intros d Hd. destruct (starts_with _ d); [intros E; by eapply parse_arn_ok|].
  destruct (split_once "/" d) as [[b k]|] eqn:E3; [|done]. apply split_once_Some in E3 as [-> _].
  apply utf8_around in Hd as [_ Hk]; [|done]. destruct (check_bucket_name b) eqn:Eb; [|done].
  destruct (check_key k) eqn:Ek; [|done]. intros [= <-]. apply check_key_true in Ek. done.
Qed.

(** ** Properties *)

(** Every copy source the parser accepts is well formed: a valid bucket name, or an ARN of a
    known partition with a region, a twelve-digit account and a valid access point name or a
    non-empty outpost; its key is text of at most 1024 bytes, not empty in an ARN, and its
    version is text.  A header that is not text is refused before it is parsed. *)
Theorem copy_source_well_formed (header_to_str : bytes -> option bytes) (val : bytes) :
  (forall cs, cs_try_from_header_value header_to_str val = Ok cs -> well_formed cs) /\
  (header_to_str val = None -> cs_try_from_header_value header_to_str val = Err InvalidEncoding).
Proof.
  unfold cs_try_from_header_value. destruct (header_to_str val) as [h|]; split; try done. intros cs. apply parse_ok.
Qed.

(** Printing a well-formed copy source and parsing it gives it back, when the parts that are
    printed as they are need no encoding: always for a bucket and key, whatever text the key and
    the version are. *)
Theorem copy_source_roundtrip (cs : CopySource) :
  well_formed cs -> printable cs = true -> CopySource_parse (format_to_string cs) = Ok cs.
Proof. apply format_parse. Qed.
End Parsing.

(** ** Witnesses *)

Fixpoint reference_decode (fuel : nat) (s : bytes) : bytes :=
  match fuel, s with
  | S fuel', c :: s' =>
      match s' with
      | h :: l :: s2 =>
          match (if c =? "%"%byte then hi ← hex_val h; lo ← hex_val l; Some (byte_of_Z (16 * hi + lo)) else None) with
          | Some d => d :: reference_decode fuel' s2
          | None => c :: reference_decode fuel' s'
          end
      | _ => c :: reference_decode fuel' s'
      end
  | _, _ => []
  end.

Lemma reference_decode_fuel f g s : length s <= f -> length s <= g -> reference_decode f s = reference_decode g s.
Proof.
  revert g s. induction f as [|f IH]; intros g [|c s] Hf Hg; simpl in *; try lia; try (by destruct g).
  destruct g as [|g]; [lia|]. cbn [reference_decode]. destruct s as [|h [|l s]]; [f_equal; apply IH; simpl in *; lia..|].
  destruct (if c =? "%"%byte then _ else _); f_equal; apply IH; simpl in *; lia.
Qed.

Definition url_reference : UrlEncoding.
Proof.
  refine {| url_encode := fun s => concat (map url_escape s);
            decode_binary := fun s => reference_decode (length s) s;
            url_decode := fun s => let d := reference_decode (length s) s in if utf8_valid d then Some d else None |}; try done.
  - intros c s Hc. destruct s as [|h [|l s]]; [done|done|]. cbn [length reference_decode]. by rewrite bool_decide_eq_false_2.
  - intros h l hi lo s Hh Hl. cbn [length]. remember (S (S (length s))) as f eqn:Ef.
    cbn [reference_decode]. rewrite bool_decide_eq_true_2 by done. rewrite Hh, Hl.
    cbn [mbind option_bind]. f_equal. apply reference_decode_fuel; lia.
Defined.

Definition w_source : CopySource :=
  AccessPoint (str "aws") (str "us-west-2") (str "123456789012") (str "my-ap") (str "a b/c?versionId=" ++ [xc3; xa9]) (Some (str "v/1")).

Lemma copy_source_well_formed_witness :
  well_formed w_source /\
  @cs_try_from_header_value url_reference (fun _ => None) [xff] = Err InvalidEncoding.
Proof.
  split; [|by apply (@copy_source_well_formed url_reference (fun _ => None) [xff])].
  apply (@copy_source_well_formed url_reference Some
    (str "/arn:aws:s3:us-west-2:123456789012:accesspoint/my-ap/object/a%20b/c%3fversionId=%C3%A9?versionId=v%2F1")).
  by vm_compute.
Defined.

Lemma copy_source_roundtrip_witness :
  @CopySource_parse url_reference
    (str "arn:aws:s3:us-west-2:123456789012:accesspoint/my-ap/object/a%20b/c%3FversionId%3D%C3%A9?versionId=v%2F1") = Ok w_source.
Proof.
  rewrite <- (@copy_source_roundtrip url_reference w_source); [by vm_compute| |by vm_compute].
  split; [|split; [by vm_compute|by split; [vm_compute; congruence|]]].
  split; [by vm_compute| |by vm_compute|done]. split; [done|]. split; [|by vm_compute]. by apply (forallb_notin_byte url_plain).
Defined.

(** ** A region is not encoded when it is printed *)

(** The region is free text, as the outpost is, and is printed without encoding: the text of an
    accepted copy source may then denote another one. *)
Theorem region_not_preserved :
  exists h cs cs', @CopySource_parse url_reference h = Ok cs /\
    @CopySource_parse url_reference (@format_to_string url_reference cs) = Ok cs' /\ cs' <> cs.
Proof.
  exists (str "arn:aws:s3:x%2541:123456789012:accesspoint/my-ap/object/k"),
    (AccessPoint (str "aws") (str "x%41") (str "123456789012") (str "my-ap") (str "k") None),
    (AccessPoint (str "aws") (str "xA") (str "123456789012") (str "my-ap") (str "k") None).
  split_and!; [by vm_compute..|done].
Qed.
