(* ===== verification/Rfc2047.v ===== *)
(** * Encoded words (crates/s3s-rfc2047)

    RFC 2047 encoding of header values: text that is not plain ASCII becomes a sequence of
    base64 words of bounded length, cut at character boundaries; the decoder also reads
    quoted-printable words. *)

From S2P Require Import Prelude.
From S2P Require Import Str.
From S2P Require Import Utf8.

(** ** The base64 crate *)

Definition is_base64_char (c : byte) : bool :=
  is_ascii_alphanumeric c || (c =? "+"%byte) || (c =? "/"%byte) || (c =? "="%byte).

(** [base64_simd::STANDARD]: four characters of the alphabet for three bytes, padded. *)
Class Base64 := {
  encode_to_string : bytes -> bytes;
  decode_to_vec : bytes -> option bytes;
  decode_encode : forall b, decode_to_vec (encode_to_string b) = Some b;
  encoded_length : forall b, length (encode_to_string b) = 4 * ((length b + 2) `div` 3);
  encoded_alphabet : forall b, forallb is_base64_char (encode_to_string b) = true
}.

(** ** Definitions *)

Inductive EncodeError := EncInputTooLarge | InvalidUtf8Boundary.
Inductive DecodeError :=
| DecInputTooLarge | DecInvalidFormat | Base64Error | InvalidHex | DecInvalidUtf8 | UnsupportedEncoding.

Definition MAX_ENCODED_WORD_LEN : nat := 75.
Definition PREFIX : bytes := str "=?UTF-8?B?".
Definition SUFFIX : bytes := str "?=".
Definition MAX_INPUT_LEN : Z := 1024 * 1024.

Definition is_ascii_header_safe (s : bytes) : bool :=
  forallb (fun b => is_ascii b && in_range x20 xff b && negb (b =? x7f)) s.

(** [while end > i && !s.is_char_boundary(end) { end -= 1 }] *)
Fixpoint char_boundary_before (s : bytes) (i end_ : nat) : nat :=
  match end_ with
  | 0 => 0
  | S end' => if (i <? end_)%nat && negb (is_char_boundary s end_) then char_boundary_before s i end' else end_
  end.

(** [s.get(i..end)] *)
Definition str_get (s : bytes) (i end_ : nat) : option bytes :=
  if (i <=? end_)%nat && is_char_boundary s i && is_char_boundary s end_ then Some (take (end_ - i) (drop i s)) else None.

Section Encode.
Context `{Base64}.

Definition word_of (chunk : bytes) : bytes := PREFIX ++ encode_to_string chunk ++ SUFFIX.

(** A turn goes on from a later position, so the length of the text is enough fuel. *)
Fixpoint encode_words (fuel : nat) (s : bytes) (max_input_bytes i : nat) (result_ : bytes) : result EncodeError bytes :=
  match fuel with
  | 0 => Ok result_
  | S fuel' =>
      if (i <? length s)%nat then
        let end_ := char_boundary_before s i (Nat.min (i + max_input_bytes) (length s)) in
        if (end_ <=? i)%nat then Err InvalidUtf8Boundary
        else
          chunk ← ok_or InvalidUtf8Boundary (str_get s i end_);
          let result_ := if result_ =? [] then result_ else result_ ++ str " " in
          encode_words fuel' s max_input_bytes end_ (result_ ++ word_of chunk)
      else Ok result_
  end.

Definition div_ceil (n k : nat) : nat := (n + (k - 1)) `div` k.

Definition encode (s : bytes) : result EncodeError bytes :=
  if (MAX_INPUT_LEN <? len s)%Z then Err EncInputTooLarge
  else if is_ascii_header_safe s then Ok s
  else
    let overhead := length PREFIX + length SUFFIX in
    let max_encoded_text_len := MAX_ENCODED_WORD_LEN - overhead in
    let max_input_bytes := max_encoded_text_len `div` 4 * 3 in
    let estimated_encoded_len := div_ceil (length s * 4) 3 in
    if (estimated_encoded_len + overhead <=? MAX_ENCODED_WORD_LEN)%nat then Ok (word_of s)
    else encode_words (S (length s)) s max_input_bytes 0 [].

(** [chars.next()] *)
Definition next_char (s : bytes) : option (bytes * bytes) :=
  match s with
  | [] => None
  | a :: _ =>
      let n := if is_ascii a then 1 else if in_range xc0 xdf a then 2 else if in_range xe0 xef a then 3 else 4 in
      Some (take n s, drop n s)
  end.

(** [c.to_digit(16)] *)
Definition to_digit (c : bytes) : option Z := match c with [b] => hex_val b | _ => None end.

Fixpoint quoted_loop (fuel : nat) (s : bytes) : result DecodeError bytes :=
  match fuel with
  | 0 => Ok []
  | S fuel' =>
      match next_char s with
      | None => Ok []
      | Some (c, s) =>
          if c =? str "=" then
            '(h1, s) ← ok_or DecInvalidFormat (next_char s);
            '(h2, s) ← ok_or DecInvalidFormat (next_char s);
            high ← ok_or InvalidHex (to_digit h1);
            low ← ok_or InvalidHex (to_digit h2);
            rest ← quoted_loop fuel' s;
            Ok (byte_of_Z (Z.lor (Z.shiftl high 4) low) :: rest)
          else if c =? str "_" then rest ← quoted_loop fuel' s; Ok (x20 :: rest)
          else if forallb is_ascii c then rest ← quoted_loop fuel' s; Ok (c ++ rest)
          else Err DecInvalidFormat
      end
  end.
Definition decode_quoted_printable (s : bytes) : result DecodeError bytes := quoted_loop (S (length s)) s.

Definition looks_encoded (s : bytes) : bool := starts_with (str "=?") s && ends_with (str "?=") s.

Definition decode_single_word (s : bytes) : result DecodeError bytes :=
  let s := trim s in
  if negb (looks_encoded s) then Err DecInvalidFormat
  else
    inner ← ok_or DecInvalidFormat (s ← strip_prefix (str "=?") s; strip_suffix (str "?=") s);
    match splitn 3 "?" inner with
    | [_charset; encoding; encoded_text] =>
        decoded_bytes ←
          (if to_ascii_uppercase encoding =? str "B" then ok_or Base64Error (decode_to_vec encoded_text)
           else if to_ascii_uppercase encoding =? str "Q" then decode_quoted_printable encoded_text
           else Err UnsupportedEncoding);
        if utf8_valid decoded_bytes then Ok decoded_bytes else Err DecInvalidUtf8
    | _ => Err DecInvalidFormat
    end.

Fixpoint decode_words (parts : list bytes) (result_ : bytes) : result DecodeError bytes :=
  match parts with
  | [] => Ok result_
  | part :: parts' =>
      if negb (looks_encoded part) then decode_words parts' result_
      else decoded ← decode_single_word part; decode_words parts' (result_ ++ decoded)
  end.

Definition decode (s : bytes) : result DecodeError bytes :=
  if (MAX_INPUT_LEN <? len s)%Z then Err DecInputTooLarge
  else
    let s := trim s in
    if negb (looks_encoded s) then Ok s
    else
      let encoded_word_count := length (List.filter looks_encoded (split_whitespace s)) in
      if (1 <? encoded_word_count)%nat then
        result_ ← decode_words (split_whitespace s) [];
        if result_ =? [] then Err DecInvalidFormat
        else if utf8_valid result_ then Ok result_ else Err DecInvalidUtf8
      else decode_single_word s.
End Encode.

(** ** The encoder: lemmas *)

Lemma boundary_before_spec s i j end_ :
  i < j <= end_ -> is_char_boundary s j = true ->
  i < char_boundary_before s i end_ <= end_ /\ is_char_boundary s (char_boundary_before s i end_) = true.
Proof.
  intros Hj Hb. induction end_ as [|n IH]; [lia|]. cbn [char_boundary_before].
  rewrite (proj2 (Nat.ltb_lt i (S n))) by lia. cbn [andb]. destruct (is_char_boundary s (S n)) eqn:E; cbn [negb]; [split; [lia|done]|].
  destruct (decide (j = S n)) as [->|]; [congruence|]. destruct IH as [H1 H2]; [lia|]. split; [lia|done].
Qed.

Lemma next_boundary s i n :
  utf8_valid s = true -> i < length s -> 4 <= n ->
  let e := char_boundary_before s i (Nat.min (i + n) (length s)) in
  i < e <= Nat.min (i + n) (length s) /\ is_char_boundary s e = true.
Proof.
  intros Hv Hi Hn. destruct (decide (length s <= i + n)) as [Hle|Hgt].
  - rewrite Nat.min_r by lia. apply (boundary_before_spec s i (length s)); [lia|]. unfold is_char_boundary.
    by rewrite (bool_decide_eq_true_2 (length s = length s)), orb_true_r.
  - rewrite Nat.min_l by lia. destruct (boundary_near s Hv (i + n)) as (j & c & Hj & Hc & Hcont); [lia|].
    apply (boundary_before_spec s i j); [lia|]. unfold is_char_boundary. by rewrite Hc, Hcont, !orb_true_r.
Qed.

Lemma join_snoc sep (acc w : bytes) ws : join sep (acc :: w :: ws) = join sep ((acc ++ sep ++ w) :: ws).
Proof. destruct ws; simpl; [done|]. by rewrite <- !app_assoc. Qed.

Section EncodeFacts.
Context `{Base64}.

Lemma word_nonempty chunk : word_of chunk <> [].
Proof. done. Qed.

(** The words of a text: non-empty pieces of it that are text, of at most [n] bytes. *)
Definition pieces (n : nat) (s : bytes) (chunks : list bytes) : Prop :=
  concat chunks = s /\ Forall (fun ch => utf8_valid ch = true /\ 0 < length ch <= n) chunks.

Lemma encode_loop_spec fuel s n i acc :
  utf8_valid s = true -> 4 <= n -> is_char_boundary s i = true -> i <= length s < i + fuel ->
  exists chunks, pieces n (drop i s) chunks /\
    encode_words fuel s n i acc = Ok (join (str " ") ((if acc =? [] then [] else [acc]) ++ map word_of chunks)).
Proof.
  intros Hv Hn. revert i acc. induction fuel as [|fuel IH]; intros i acc Hb Hi; [lia|]. cbn [encode_words].
  destruct (i <? length s)%nat eqn:E; [apply Nat.ltb_lt in E|apply Nat.ltb_ge in E].
  2:{ exists []. rewrite drop_ge by lia. split; [by repeat constructor|]. case_bool_decide as Ha; simpl; [by rewrite Ha|done]. }
  destruct (next_boundary s i n Hv E Hn) as [He Hbe]. set (e := char_boundary_before _ _ _) in *.
  rewrite (proj2 (Nat.leb_gt e i)) by lia. unfold str_get. rewrite (proj2 (Nat.leb_le i e)), Hb, Hbe by lia. cbn [andb ok_or mbind result_bind].
  set (chunk := take (e - i) (drop i s)).
  set (acc' := (if acc =? [] then acc else acc ++ str " ") ++ word_of chunk).
  destruct (IH e acc' Hbe ltac:(lia)) as (chunks & [Hc Hf] & ->). exists (chunk :: chunks). split.
  - split; cbn [concat].
    + rewrite Hc. unfold chunk. rewrite <- (take_drop (e - i) (drop i s)) at 2. f_equal. rewrite drop_drop. f_equal. lia.
    + constructor; [|done]. assert (Hl : length chunk = e - i) by (unfold chunk; rewrite length_take, length_drop; lia).
      split; [|lia]. destruct (utf8_cut s Hv i Hb) as [_ Hd]. destruct (utf8_cut (drop i s) Hd (e - i)) as [Ht _]; [|done].
      destruct (utf8_cut s Hv e Hbe) as [Hte _].
      unfold is_char_boundary in *. rewrite length_drop, lookup_drop. replace (i + (e - i)) with e by lia.
      rewrite !orb_true_iff, !bool_decide_eq_true in *. destruct_or! Hbe; [lia|left; right; lia|by right].
  - assert (Hne : acc' <> []) by (unfold acc'; by intros [_ ?]%app_nil).
    rewrite (bool_decide_eq_false_2 _ Hne). cbn [map app]. unfold acc'. case_bool_decide as Ha; [by rewrite Ha|].
    cbn [app]. by rewrite join_snoc, <- app_assoc.
Qed.
End EncodeFacts.

(** ** The decoder: lemmas *)

(** Characters of encoded words are not white space. *)
Definition plain (c : byte) : bool := in_range x21 x7e c.

Lemma strip_plain c s : plain c = true -> strip_any white_space (c :: s) = None.
Proof. by destruct c. Qed.
Lemma strip_plain_rev c s : plain c = true -> strip_any (map reverse white_space) (c :: s) = None.
Proof. by destruct c. Qed.

Lemma trim_ends c mid d : plain c = true -> plain d = true -> trim (c :: mid ++ [d]) = c :: mid ++ [d].
Proof.
  intros Hc Hd. unfold trim, trim_start. cbn [length trim_start_with]. rewrite strip_plain by done. unfold trim_end.
  change (c :: mid ++ [d]) with ((c :: mid) ++ [d]). rewrite reverse_snoc, length_app, Nat.add_comm. cbn [length Nat.add trim_start_with].
  rewrite strip_plain_rev by done. rewrite <- reverse_snoc. apply reverse_involutive.
Qed.

Lemma trim_plain s : s <> [] -> forallb plain s = true -> trim s = s.
Proof.
  destruct s as [|c s]; [done|]. intros _ Hp. cbn [forallb] in Hp. apply andb_true_iff in Hp as [Hc Hp].
  destruct s as [|d mid _] using rev_ind.
  - unfold trim, trim_start. cbn [length trim_start_with]. rewrite strip_plain by done. unfold trim_end.
    change (reverse [c]) with [c]. cbn [length trim_start_with]. by rewrite strip_plain_rev.
  - rewrite forallb_app in Hp. apply andb_true_iff in Hp as [_ Hd]. apply trim_ends; [done|]. cbn in Hd. by rewrite andb_true_r in Hd.
Qed.

Lemma split_ws_word w cur s fuel :
  forallb plain w = true -> split_ws_from (length w + fuel) cur (w ++ s) = split_ws_from fuel (reverse w ++ cur) s.
Proof.
  revert cur. induction w as [|c w IH]; intros cur Hp; [done|]. cbn [forallb] in Hp. apply andb_true_iff in Hp as [Hc Hp].
  cbn [length Nat.add app split_ws_from]. rewrite strip_plain by done. rewrite IH by done. by rewrite reverse_cons, <- app_assoc.
Qed.

(** Words with single spaces between them are split again. *)
Lemma split_join_words ws :
  Forall (fun w => w <> [] /\ forallb plain w = true) ws -> split_whitespace (join (str " ") ws) = ws.
Proof.
  intros Hw. unfold split_whitespace.
  assert (Hflush : forall w, w <> [] -> flush_word (reverse w ++ []) = [w]).
  { intros w Hne. rewrite app_nil_r. destruct (reverse w) as [|c r] eqn:Er.
    - apply (f_equal reverse) in Er. by rewrite reverse_involutive in Er.
    - cbn [flush_word]. by rewrite <- Er, reverse_involutive. }
  assert (Hs : forall fuel, length (join (str " ") ws) < fuel -> split_ws_from fuel [] (join (str " ") ws) = ws); [|by apply Hs; lia].
  induction Hw as [|w ws [Hne Hp] Hw IH]; intros fuel Hf; [by destruct fuel|].
  destruct ws as [|w2 ws].
  - cbn [join] in *. rewrite <- (app_nil_r w) at 1. replace fuel with (length w + S (fuel - length w - 1)) by lia.
    rewrite split_ws_word by done. cbn [split_ws_from strip_any]. by apply Hflush.
  - change (join (str " ") (w :: w2 :: ws)) with (w ++ str " " ++ join (str " ") (w2 :: ws)) in *.
    rewrite !length_app in Hf. change (length (str " ")) with 1 in Hf.
    replace fuel with (length w + S (fuel - length w - 1)) by lia. rewrite split_ws_word by done.
    cbn [split_ws_from]. change (strip_any white_space (str " " ++ ?x)) with (Some x). cbv iota. rewrite Hflush by done.
    rewrite IH by lia. done.
Qed.

Section DecodeFacts.
Context `{Base64}.

Lemma word_plain chunk : forallb plain (word_of chunk) = true.
Proof.
  unfold word_of. rewrite !forallb_app. apply andb_true_iff. split; [done|]. apply andb_true_iff. split; [|done].
  apply (forallb_impl is_base64_char); [|apply encoded_alphabet]. by intros [].
Qed.

Lemma word_looks_encoded chunk : looks_encoded (word_of chunk) = true.
Proof.
  unfold looks_encoded. apply andb_true_iff. split.
  - apply starts_with_true. by exists (drop 2 (word_of chunk)).
  - apply ends_with_true. unfold word_of. rewrite app_assoc. by eexists.
Qed.

Lemma decode_word chunk : utf8_valid chunk = true -> decode_single_word (word_of chunk) = Ok chunk.
Proof.
  intros Hv. unfold decode_single_word. rewrite trim_plain by (done || apply word_plain).
  rewrite word_looks_encoded. cbn [negb].
  assert (E1 : strip_prefix (str "=?") (word_of chunk) = Some (str "UTF-8?B?" ++ encode_to_string chunk ++ SUFFIX)) by reflexivity.
  rewrite E1. cbn [mbind option_bind].
  assert (E2 : strip_suffix (str "?=") (str "UTF-8?B?" ++ encode_to_string chunk ++ SUFFIX) = Some (str "UTF-8?B?" ++ encode_to_string chunk)).
  { apply strip_suffix_Some. by rewrite <- app_assoc. }
  rewrite E2. cbn [ok_or mbind result_bind].
  assert (E3 : splitn 3 "?" (str "UTF-8?B?" ++ encode_to_string chunk) = [str "UTF-8"; str "B"; encode_to_string chunk]) by reflexivity.
  rewrite E3. change (to_ascii_uppercase (str "B") =? str "B") with true. cbv iota. rewrite decode_encode. cbn [ok_or mbind result_bind].
  by rewrite Hv.
Qed.

Lemma decode_words_words chunks acc :
  Forall (fun ch => utf8_valid ch = true) chunks -> decode_words (map word_of chunks) acc = Ok (acc ++ concat chunks).
Proof.
  intros Hc. revert acc. induction Hc as [|ch chunks Hch Hc IH]; intros acc; cbn [map decode_words concat]; [by rewrite app_nil_r|].
  rewrite word_looks_encoded. cbn [negb]. rewrite decode_word by done. cbn [mbind result_bind]. by rewrite IH, app_assoc.
Qed.

Lemma joined_ends chunks : chunks <> [] -> exists mid, join (str " ") (map word_of chunks) = str "=?" ++ mid ++ str "?=".
Proof.
  induction chunks as [|ch chunks IH]; [done|]. intros _. destruct chunks as [|ch2 chunks].
  - exists (str "UTF-8?B?" ++ encode_to_string ch). cbn [map join]. unfold word_of. by rewrite <- app_assoc.
  - destruct IH as [mid Hm]; [done|]. change (join (str " ") (map word_of (ch :: ch2 :: chunks))) with
      (word_of ch ++ str " " ++ join (str " ") (map word_of (ch2 :: chunks))). rewrite Hm.
    exists (str "UTF-8?B?" ++ encode_to_string ch ++ SUFFIX ++ str " " ++ str "=?" ++ mid). unfold word_of. by rewrite <- !app_assoc.
Qed.

(** Decoding the words of a text gives the text. *)
Lemma decode_joined n s chunks :
  pieces n s chunks -> chunks <> [] -> utf8_valid s = true ->
  (len (join (str " ") (map word_of chunks)) <= MAX_INPUT_LEN)%Z ->
  decode (join (str " ") (map word_of chunks)) = Ok s.
Proof.
  intros [Hc Hf] Hne Hv Hl. unfold decode. rewrite (proj2 (Z.ltb_ge _ _)) by lia.
  assert (Hw : Forall (fun w => w <> [] /\ forallb plain w = true) (map word_of chunks)).
  { apply Forall_map, Forall_forall. intros ch _. split; [done|apply word_plain]. }
  assert (Hcount : forall l, List.filter looks_encoded (map word_of l) = map word_of l).
  { induction l as [|ch l IH]; [done|]. cbn [map List.filter]. by rewrite word_looks_encoded, IH. }
  destruct (joined_ends chunks Hne) as [mid Hm].
  assert (Ht : trim (join (str " ") (map word_of chunks)) = join (str " ") (map word_of chunks)).
  { rewrite Hm. change (str "?=") with (str "?" ++ str "="). rewrite (app_assoc mid). apply (trim_ends "=" (x3f :: mid ++ str "?") "="); done. }
  rewrite Ht. replace (looks_encoded (join (str " ") (map word_of chunks))) with true.
  2:{ symmetry. unfold looks_encoded. rewrite Hm. rewrite starts_with_app. apply ends_with_true. rewrite app_assoc. by eexists. }
  cbn [negb]. rewrite split_join_words, Hcount, length_map by done.
  assert (Hu : Forall (fun ch => utf8_valid ch = true) chunks) by (eapply Forall_impl; [exact Hf|]; by intros ? []).
  destruct (1 <? length chunks)%nat eqn:E1.
  - rewrite decode_words_words by done. cbn [app mbind result_bind]. rewrite Hc, Hv.
    case_bool_decide as Hs; [|done]. subst s. destruct chunks as [|ch chunks]; [done|]. apply Forall_cons in Hf as [[_ Hf] _].
    cbn [concat] in Hs. apply app_nil in Hs as [-> _]. simpl in Hf. lia.
  - destruct chunks as [|ch [|]]; [done| |done]. cbn [map join]. cbn [concat] in Hc. rewrite app_nil_r in Hc. subst ch.
    by apply decode_word.
Qed.
End DecodeFacts.

(** ** Base64 by its definition *)

Definition b64_alphabet : bytes := str "ABCDEFGHIJKLMNOPQRSTUVWXYZabcdefghijklmnopqrstuvwxyz0123456789+/".
Definition b64_char (n : Z) : byte := default "A"%byte (b64_alphabet !! Z.to_nat n).
Definition b64_val (c : byte) : option Z := Z.of_nat <$> (fst <$> list_find (fun d => d = c) b64_alphabet).

Definition sextet (k n : Z) : byte := b64_char ((n / 64 ^ k) mod 64).

Fixpoint ref_encode (s : bytes) : bytes :=
  match s with
  | a :: b :: c :: rest =>
      let n := (u8 a * 65536 + u8 b * 256 + u8 c)%Z in
      [sextet 3 n; sextet 2 n; sextet 1 n; sextet 0 n] ++ ref_encode rest
  | [a; b] => let n := (u8 a * 65536 + u8 b * 256)%Z in [sextet 3 n; sextet 2 n; sextet 1 n; "="%byte]
  | [a] => let n := (u8 a * 65536)%Z in [sextet 3 n; sextet 2 n; "="%byte; "="%byte]
  | [] => []
  end.

Fixpoint ref_decode (s : bytes) : option bytes :=
  match s with
  | [] => Some []
  | a :: b :: c :: d :: rest =>
      x ← b64_val a; y ← b64_val b;
      if c =? "="%byte then Some [byte_of_Z (x * 4 + y / 16)]
      else
        z ← b64_val c;
        if d =? "="%byte then Some [byte_of_Z (x * 4 + y / 16); byte_of_Z (y mod 16 * 16 + z / 4)]
        else
          w ← b64_val d;
          tail ← ref_decode rest;
          Some ([byte_of_Z (x * 4 + y / 16); byte_of_Z (y mod 16 * 16 + z / 4); byte_of_Z (z mod 4 * 64 + w)] ++ tail)
  | _ => None
  end.

Lemma sextet_cases (P : Z -> Prop) n : (0 <= n < 64)%Z -> Forall P (Z.of_nat <$> seq 0 64) -> P n.
Proof.
  intros Hn HP. rewrite Forall_forall in HP. apply HP. apply list_elem_of_fmap. exists (Z.to_nat n). split; [lia|]. apply elem_of_seq. lia.
Qed.

Lemma ref_val_char n : (0 <= n < 64)%Z -> b64_val (b64_char n) = Some n.
Proof. intros Hn. apply (sextet_cases (fun n => b64_val (b64_char n) = Some n) n Hn). by repeat constructor. Qed.

Lemma b64_char_alphabet n : (0 <= n < 64)%Z -> is_base64_char (b64_char n) = true /\ (b64_char n =? "="%byte) = false.
Proof.
  intros Hn. apply (sextet_cases (fun n => is_base64_char (b64_char n) = true /\ (b64_char n =? "="%byte) = false) n Hn). by repeat constructor.
Qed.

Lemma sextet_val k n : b64_val (sextet k n) = Some ((n / 64 ^ k) mod 64)%Z.
Proof. apply ref_val_char, Z.mod_pos_bound. lia. Qed.
Lemma sextet_ok k n : is_base64_char (sextet k n) = true /\ (sextet k n =? "="%byte) = false.
Proof. apply b64_char_alphabet, Z.mod_pos_bound. lia. Qed.

Lemma sextets x y z w :
  (0 <= x < 64)%Z -> (0 <= y < 64)%Z -> (0 <= z < 64)%Z -> (0 <= w < 64)%Z ->
  let s k := ((((x * 64 + y) * 64 + z) * 64 + w) / 64 ^ k mod 64)%Z in s 3%Z = x /\ s 2%Z = y /\ s 1%Z = z /\ s 0%Z = w.
Proof.
  intros Hx Hy Hz Hw s. subst s. cbv beta. change (64 ^ 3)%Z with (64 * 64 * 64)%Z. change (64 ^ 2)%Z with (64 * 64)%Z.
  change (64 ^ 1)%Z with 64%Z. change (64 ^ 0)%Z with 1%Z. rewrite <- !Z.div_div, Z.div_1_r by lia.
  assert (Hd : forall q r, (0 <= r < 64)%Z -> ((q * 64 + r) / 64 = q)%Z) by (intros q r Hr; rewrite Z.div_add_l, Z.div_small by lia; lia).
  assert (Hm : forall q r, (0 <= r < 64)%Z -> ((q * 64 + r) mod 64 = r)%Z).
  { intros q r Hr. by rewrite Z.add_comm, Z.mod_add, Z.mod_small by lia. }
  rewrite !Hd, !Hm, (Z.mod_small x) by lia. done.
Qed.

(** The three bytes of a group, from its four sextets. *)
Lemma group_bytes a b c :
  (0 <= a < 256)%Z -> (0 <= b < 256)%Z -> (0 <= c < 256)%Z ->
  let n := (a * 65536 + b * 256 + c)%Z in
  let s k := ((n / 64 ^ k) mod 64)%Z in
  (s 3 * 4 + s 2 / 16 = a /\ s 2 mod 16 * 16 + s 1 / 4 = b /\ s 1 mod 4 * 64 + s 0 = c)%Z.
Proof.
  intros Ha Hb Hc n s.
  destruct (sextets (a / 4) (a mod 4 * 16 + b / 16) (b mod 16 * 4 + c / 64) (c mod 64)) as (H3 & H2 & H1 & H0);
    try (Z.to_euclidean_division_equations; lia).
  assert (Hn : ((((a / 4) * 64 + (a mod 4 * 16 + b / 16)) * 64 + (b mod 16 * 4 + c / 64)) * 64 + c mod 64 = n)%Z)
    by (subst n; Z.to_euclidean_division_equations; lia).
  rewrite Hn in *. subst s. cbv beta. rewrite H3, H2, H1, H0. split_and!; Z.to_euclidean_division_equations; lia.
Qed.

Lemma ref_roundtrip s : ref_decode (ref_encode s) = Some s.
Proof.
  remember (length s) as n eqn:En. revert s En. induction n as [n IH] using lt_wf_ind. intros s ->.
  assert (Hb : forall a b c : byte, _) by (intros a b c; exact (group_bytes (u8 a) (u8 b) (u8 c) (u8_range a) (u8_range b) (u8_range c))).
  destruct s as [|a [|b [|c s]]]; [done|..]; cbn [ref_encode app ref_decode]; rewrite !sextet_val; cbn [mbind option_bind].
  - destruct (Hb a x00 x00) as (H1 & _). change (u8 x00) with 0%Z in H1. rewrite !Z.mul_0_l, !Z.add_0_r in H1. rewrite H1.
    by rewrite byte_of_Z_u8.
  - rewrite (proj2 (sextet_ok 1 _)). destruct (Hb a b x00) as (H1 & H2 & _). change (u8 x00) with 0%Z in *. rewrite !Z.add_0_r in *.
    rewrite H1, H2. by rewrite !byte_of_Z_u8.
  - rewrite (proj2 (sextet_ok 1 _)), (proj2 (sextet_ok 0 _)). rewrite (IH (length s)) by (simpl; lia || done). cbn [mbind option_bind app].
    destruct (Hb a b c) as (H1 & H2 & H3). by rewrite H1, H2, H3, !byte_of_Z_u8.
Qed.

Lemma ref_length s : length (ref_encode s) = 4 * ((length s + 2) `div` 3).
Proof.
  remember (length s) as n eqn:En. revert s En. induction n as [n IH] using lt_wf_ind. intros s ->.
  destruct s as [|a [|b [|c s]]]; [done..|]. cbn [ref_encode]. rewrite length_app, (IH (length s)) by (simpl; lia || done).
  change (length (a :: b :: c :: s) + 2) with (1 * 3 + (length s + 2)). rewrite Nat.div_add_l by lia. simpl. lia.
Qed.

Lemma ref_alphabet s : forallb is_base64_char (ref_encode s) = true.
Proof.
  remember (length s) as n eqn:En. revert s En. induction n as [n IH] using lt_wf_ind. intros s ->.
  destruct s as [|a [|b [|c s]]]; [done|..]; cbn [ref_encode]; rewrite ?forallb_app; cbn [forallb];
    rewrite !(proj1 (sextet_ok _ _)); [done..|]. cbn [andb]. by apply (IH (length s)); [simpl; lia|].
Qed.

Definition base64_reference : Base64 :=
  {| encode_to_string := ref_encode; decode_to_vec := ref_decode; decode_encode := ref_roundtrip;
     encoded_length := ref_length; encoded_alphabet := ref_alphabet |}.

(** ** Properties *)

Section Words.
Context `{Base64}.

(** Text that needs encoding becomes words of pieces of it. *)
Lemma encode_pieces s :
  utf8_valid s = true -> (len s <= MAX_INPUT_LEN)%Z -> is_ascii_header_safe s = false ->
  exists chunks, encode s = Ok (join (str " ") (map word_of chunks)) /\ chunks <> [] /\
    ((chunks = [s] /\ length s <= 47) \/ (pieces 45 s chunks /\ 47 < length s)).
Proof.
  intros Hv Hl Hs. unfold encode. rewrite (proj2 (Z.ltb_ge _ _)) by lia. rewrite Hs.
  change (length PREFIX + length SUFFIX) with 12. change ((MAX_ENCODED_WORD_LEN - 12) `div` 4 * 3) with 45.
  change MAX_ENCODED_WORD_LEN with 75. unfold div_ceil. pose proof (Nat.div_mod_eq (length s * 4 + (3 - 1)) 3) as Hd.
  pose proof (Nat.mod_upper_bound (length s * 4 + (3 - 1)) 3) as Hm.
  destruct ((length s * 4 + (3 - 1)) `div` 3 + 12 <=? 75)%nat eqn:E; [apply Nat.leb_le in E|apply Nat.leb_gt in E].
  - exists [s]. split; [done|]. split; [done|]. left. split; [done|]. lia.
  - destruct (encode_loop_spec (S (length s)) s 45 0 []) as (chunks & Hp & ->); [done|lia|done|lia|].
    exists chunks. split; [done|]. split; [|right; split; [done|lia]]. intros ->. destruct Hp as [Hc _]. rewrite drop_0 in Hc.
    rewrite <- Hc in Hs. done.
Qed.

Lemma word_length chunk : length (word_of chunk) = 12 + 4 * ((length chunk + 2) `div` 3).
Proof. unfold word_of. rewrite !length_app, encoded_length. change (length PREFIX) with 10. change (length SUFFIX) with 2. lia. Qed.
End Words.

(** Decoding inverts encoding.  Text that is not plain ASCII is always encoded, never
    refused for its character boundaries, and decodes to the same text, when the encoded form
    is within the limit of the decoder; plain ASCII is left as it is. *)
Theorem encode_decode `{Base64} (s : bytes) :
  utf8_valid s = true -> (len s <= MAX_INPUT_LEN)%Z ->
  if is_ascii_header_safe s then encode s = Ok s
  else exists e, encode s = Ok e /\ ((len e <= MAX_INPUT_LEN)%Z -> decode e = Ok s).
Proof.
  intros Hv Hl. destruct (is_ascii_header_safe s) eqn:Hs.
  { unfold encode. by rewrite (proj2 (Z.ltb_ge _ _)), Hs by lia. }
  destruct (encode_pieces s Hv Hl Hs) as (chunks & -> & Hne & Hp). eexists. split; [done|]. intros He.
  destruct Hp as [[-> _]|[Hp _]]; [|by eapply decode_joined].
  apply (decode_joined (length s) s [s]); [|done|done|done]. split; [apply app_nil_r|]. constructor; [|done]. split; [done|].
  destruct s; [done|]. simpl. lia.
Qed.

(** The words of an encoded text are cut at character boundaries, and each is at most 75
    characters long, as RFC 2047 demands; except a text of 46 or 47 bytes, which becomes one
    word of 76. *)
Theorem encoded_words_bounded `{Base64} (s : bytes) :
  utf8_valid s = true -> (len s <= MAX_INPUT_LEN)%Z -> is_ascii_header_safe s = false ->
  exists chunks, encode s = Ok (join (str " ") (map word_of chunks)) /\ concat chunks = s /\
    Forall (fun ch => utf8_valid ch = true /\
      (length (word_of ch) <= 75 \/ (chunks = [s] /\ 46 <= length s <= 47 /\ length (word_of ch) = 76))) chunks.
Proof.
  intros Hv Hl Hs. destruct (encode_pieces s Hv Hl Hs) as (chunks & He & _ & Hp). exists chunks. split; [done|].
  destruct Hp as [[-> Hlen]|[[Hc Hf] _]].
  - split; [apply app_nil_r|]. constructor; [|done]. split; [done|]. rewrite word_length.
    pose proof (Nat.div_mod_eq (length s + 2) 3). pose proof (Nat.mod_upper_bound (length s + 2) 3).
    destruct (decide (length s <= 45)); [left; lia|right]. split; [done|]. lia.
  - split; [done|]. eapply Forall_impl; [exact Hf|]. intros ch [Hu Hch]. split; [done|]. left. rewrite word_length.
    pose proof (Nat.div_mod_eq (length ch + 2) 3). pose proof (Nat.mod_upper_bound (length ch + 2) 3). lia.
Qed.

(** Forty-six bytes of text with a character that is not ASCII, and sixty. *)
Definition w_text (n : nat) : bytes := [xc3; xa9] ++ replicate n "a"%byte.

Lemma encode_decode_witness :
  exists e, @encode base64_reference (w_text 58) = Ok e /\ @decode base64_reference e = Ok (w_text 58) /\ length (split " " e) = 2.
Proof.
  pose proof (@encode_decode base64_reference (w_text 58) eq_refl ltac:(by vm_compute)) as He.
  change (is_ascii_header_safe (w_text 58)) with false in He. destruct He as (e & He & Hd). exists e.
  assert (Hv : e = default [] (match @encode base64_reference (w_text 58) with Ok x => Some x | Err _ => None end)) by by rewrite He.
  split; [exact He|]. split; [apply Hd; rewrite Hv; by vm_compute|]. rewrite Hv. vm_compute. reflexivity.
Defined.

Lemma encoded_words_bounded_witness :
  exists chunks, @encode base64_reference (w_text 44) = Ok (join (str " ") (map (@word_of base64_reference) chunks)) /\
    concat chunks = w_text 44 /\ length (join (str " ") (map (@word_of base64_reference) chunks)) = 76.
Proof.
  destruct (@encoded_words_bounded base64_reference (w_text 44) eq_refl ltac:(by vm_compute) eq_refl) as (chunks & He & Hc & _).
  exists chunks. split; [exact He|]. split; [exact Hc|].
  assert (Hv : Ok (join (str " ") (map (@word_of base64_reference) chunks)) = Ok (@word_of base64_reference (w_text 44)) :> result EncodeError bytes).
  { rewrite <- He. vm_compute. reflexivity. }
  injection Hv as ->. vm_compute. reflexivity.
Defined.
