(* ===== verification/HeaderNames.v ===== *)
(** * Header names (crates/s3s/src/header/generated.rs)

    The names of the headers of the interface, in the lower case of a [HeaderName]. *)

From S2P Require Import Prelude.
From S2P Require Import Str.

Definition CACHE_CONTROL : bytes := str "cache-control".
Definition CONTENT_DISPOSITION : bytes := str "content-disposition".
Definition CONTENT_ENCODING : bytes := str "content-encoding".
Definition CONTENT_LANGUAGE : bytes := str "content-language".
Definition CONTENT_LENGTH : bytes := str "content-length".
Definition CONTENT_MD5 : bytes := str "content-md5".
Definition CONTENT_RANGE : bytes := str "content-range".
Definition CONTENT_TYPE : bytes := str "content-type".
Definition ETAG : bytes := str "etag".
Definition EXPIRES : bytes := str "expires".
Definition IF_MATCH : bytes := str "if-match".
Definition IF_MODIFIED_SINCE : bytes := str "if-modified-since".
Definition IF_NONE_MATCH : bytes := str "if-none-match".
Definition IF_UNMODIFIED_SINCE : bytes := str "if-unmodified-since".
Definition LAST_MODIFIED : bytes := str "last-modified".
Definition LOCATION : bytes := str "location".
Definition RANGE : bytes := str "range".
Definition ACCEPT_RANGES : bytes := str "accept-ranges".
Definition AUTHORIZATION : bytes := str "authorization".
Definition HOST : bytes := str "host".
Definition X_AMZ_ABORT_DATE : bytes := str "x-amz-abort-date".
Definition X_AMZ_ABORT_RULE_ID : bytes := str "x-amz-abort-rule-id".
Definition X_AMZ_ACCESS_POINT_ALIAS : bytes := str "x-amz-access-point-alias".
Definition X_AMZ_ACL : bytes := str "x-amz-acl".
Definition X_AMZ_ARCHIVE_STATUS : bytes := str "x-amz-archive-status".
Definition X_AMZ_BUCKET_ARN : bytes := str "x-amz-bucket-arn".
Definition X_AMZ_BUCKET_LOCATION_NAME : bytes := str "x-amz-bucket-location-name".
Definition X_AMZ_BUCKET_LOCATION_TYPE : bytes := str "x-amz-bucket-location-type".
Definition X_AMZ_BUCKET_NAMESPACE : bytes := str "x-amz-bucket-namespace".
Definition X_AMZ_BUCKET_OBJECT_LOCK_ENABLED : bytes := str "x-amz-bucket-object-lock-enabled".
Definition X_AMZ_BUCKET_OBJECT_LOCK_TOKEN : bytes := str "x-amz-bucket-object-lock-token".
Definition X_AMZ_BUCKET_REGION : bytes := str "x-amz-bucket-region".
Definition X_AMZ_BYPASS_GOVERNANCE_RETENTION : bytes := str "x-amz-bypass-governance-retention".
Definition X_AMZ_CHECKSUM_ALGORITHM : bytes := str "x-amz-checksum-algorithm".
Definition X_AMZ_CHECKSUM_CRC32 : bytes := str "x-amz-checksum-crc32".
Definition X_AMZ_CHECKSUM_CRC32C : bytes := str "x-amz-checksum-crc32c".
Definition X_AMZ_CHECKSUM_CRC64NVME : bytes := str "x-amz-checksum-crc64nvme".
Definition X_AMZ_CHECKSUM_MD5 : bytes := str "x-amz-checksum-md5".
Definition X_AMZ_CHECKSUM_MODE : bytes := str "x-amz-checksum-mode".
Definition X_AMZ_CHECKSUM_SHA1 : bytes := str "x-amz-checksum-sha1".
Definition X_AMZ_CHECKSUM_SHA256 : bytes := str "x-amz-checksum-sha256".
Definition X_AMZ_CHECKSUM_SHA512 : bytes := str "x-amz-checksum-sha512".
Definition X_AMZ_CHECKSUM_TYPE : bytes := str "x-amz-checksum-type".
Definition X_AMZ_CHECKSUM_XXHASH128 : bytes := str "x-amz-checksum-xxhash128".
Definition X_AMZ_CHECKSUM_XXHASH3 : bytes := str "x-amz-checksum-xxhash3".
Definition X_AMZ_CHECKSUM_XXHASH64 : bytes := str "x-amz-checksum-xxhash64".
Definition X_AMZ_CLIENT_TOKEN : bytes := str "x-amz-client-token".
Definition X_AMZ_CONFIRM_REMOVE_SELF_BUCKET_ACCESS : bytes := str "x-amz-confirm-remove-self-bucket-access".
Definition X_AMZ_CONTENT_SHA256 : bytes := str "x-amz-content-sha256".
Definition X_AMZ_COPY_SOURCE : bytes := str "x-amz-copy-source".
Definition X_AMZ_COPY_SOURCE_IF_MATCH : bytes := str "x-amz-copy-source-if-match".
Definition X_AMZ_COPY_SOURCE_IF_MODIFIED_SINCE : bytes := str "x-amz-copy-source-if-modified-since".
Definition X_AMZ_COPY_SOURCE_IF_NONE_MATCH : bytes := str "x-amz-copy-source-if-none-match".
Definition X_AMZ_COPY_SOURCE_IF_UNMODIFIED_SINCE : bytes := str "x-amz-copy-source-if-unmodified-since".
Definition X_AMZ_COPY_SOURCE_RANGE : bytes := str "x-amz-copy-source-range".
Definition X_AMZ_COPY_SOURCE_SERVER_SIDE_ENCRYPTION_CUSTOMER_ALGORITHM : bytes := str "x-amz-copy-source-server-side-encryption-customer-algorithm".
Definition X_AMZ_COPY_SOURCE_SERVER_SIDE_ENCRYPTION_CUSTOMER_KEY : bytes := str "x-amz-copy-source-server-side-encryption-customer-key".
Definition X_AMZ_COPY_SOURCE_SERVER_SIDE_ENCRYPTION_CUSTOMER_KEY_MD5 : bytes := str "x-amz-copy-source-server-side-encryption-customer-key-md5".
Definition X_AMZ_COPY_SOURCE_VERSION_ID : bytes := str "x-amz-copy-source-version-id".
Definition X_AMZ_CREATE_SESSION_MODE : bytes := str "x-amz-create-session-mode".
Definition X_AMZ_DATE : bytes := str "x-amz-date".
Definition X_AMZ_DECODED_CONTENT_LENGTH : bytes := str "x-amz-decoded-content-length".
Definition X_AMZ_DELETE_MARKER : bytes := str "x-amz-delete-marker".
Definition X_AMZ_EXPECTED_BUCKET_OWNER : bytes := str "x-amz-expected-bucket-owner".
Definition X_AMZ_EXPIRATION : bytes := str "x-amz-expiration".
Definition X_AMZ_FWD_ERROR_CODE : bytes := str "x-amz-fwd-error-code".
Definition X_AMZ_FWD_ERROR_MESSAGE : bytes := str "x-amz-fwd-error-message".
Definition X_AMZ_FWD_HEADER_CACHE_CONTROL : bytes := str "x-amz-fwd-header-cache-control".
Definition X_AMZ_FWD_HEADER_CONTENT_DISPOSITION : bytes := str "x-amz-fwd-header-content-disposition".
Definition X_AMZ_FWD_HEADER_CONTENT_ENCODING : bytes := str "x-amz-fwd-header-content-encoding".
Definition X_AMZ_FWD_HEADER_CONTENT_LANGUAGE : bytes := str "x-amz-fwd-header-content-language".
Definition X_AMZ_FWD_HEADER_CONTENT_RANGE : bytes := str "x-amz-fwd-header-content-range".
Definition X_AMZ_FWD_HEADER_CONTENT_TYPE : bytes := str "x-amz-fwd-header-content-type".
Definition X_AMZ_FWD_HEADER_E_TAG : bytes := str "x-amz-fwd-header-etag".
Definition X_AMZ_FWD_HEADER_EXPIRES : bytes := str "x-amz-fwd-header-expires".
Definition X_AMZ_FWD_HEADER_LAST_MODIFIED : bytes := str "x-amz-fwd-header-last-modified".
Definition X_AMZ_FWD_HEADER_ACCEPT_RANGES : bytes := str "x-amz-fwd-header-accept-ranges".
Definition X_AMZ_FWD_HEADER_X_AMZ_CHECKSUM_CRC32 : bytes := str "x-amz-fwd-header-x-amz-checksum-crc32".
Definition X_AMZ_FWD_HEADER_X_AMZ_CHECKSUM_CRC32C : bytes := str "x-amz-fwd-header-x-amz-checksum-crc32c".
Definition X_AMZ_FWD_HEADER_X_AMZ_CHECKSUM_CRC64NVME : bytes := str "x-amz-fwd-header-x-amz-checksum-crc64nvme".
Definition X_AMZ_FWD_HEADER_X_AMZ_CHECKSUM_MD5 : bytes := str "x-amz-fwd-header-x-amz-checksum-md5".
Definition X_AMZ_FWD_HEADER_X_AMZ_CHECKSUM_SHA1 : bytes := str "x-amz-fwd-header-x-amz-checksum-sha1".
Definition X_AMZ_FWD_HEADER_X_AMZ_CHECKSUM_SHA256 : bytes := str "x-amz-fwd-header-x-amz-checksum-sha256".
Definition X_AMZ_FWD_HEADER_X_AMZ_CHECKSUM_SHA512 : bytes := str "x-amz-fwd-header-x-amz-checksum-sha512".
Definition X_AMZ_FWD_HEADER_X_AMZ_CHECKSUM_XXHASH128 : bytes := str "x-amz-fwd-header-x-amz-checksum-xxhash128".
Definition X_AMZ_FWD_HEADER_X_AMZ_CHECKSUM_XXHASH3 : bytes := str "x-amz-fwd-header-x-amz-checksum-xxhash3".
Definition X_AMZ_FWD_HEADER_X_AMZ_CHECKSUM_XXHASH64 : bytes := str "x-amz-fwd-header-x-amz-checksum-xxhash64".
Definition X_AMZ_FWD_HEADER_X_AMZ_DELETE_MARKER : bytes := str "x-amz-fwd-header-x-amz-delete-marker".
Definition X_AMZ_FWD_HEADER_X_AMZ_EXPIRATION : bytes := str "x-amz-fwd-header-x-amz-expiration".
Definition X_AMZ_FWD_HEADER_X_AMZ_MISSING_META : bytes := str "x-amz-fwd-header-x-amz-missing-meta".
Definition X_AMZ_FWD_HEADER_X_AMZ_MP_PARTS_COUNT : bytes := str "x-amz-fwd-header-x-amz-mp-parts-count".
Definition X_AMZ_FWD_HEADER_X_AMZ_OBJECT_LOCK_LEGAL_HOLD : bytes := str "x-amz-fwd-header-x-amz-object-lock-legal-hold".
Definition X_AMZ_FWD_HEADER_X_AMZ_OBJECT_LOCK_MODE : bytes := str "x-amz-fwd-header-x-amz-object-lock-mode".
Definition X_AMZ_FWD_HEADER_X_AMZ_OBJECT_LOCK_RETAIN_UNTIL_DATE : bytes := str "x-amz-fwd-header-x-amz-object-lock-retain-until-date".
Definition X_AMZ_FWD_HEADER_X_AMZ_REPLICATION_STATUS : bytes := str "x-amz-fwd-header-x-amz-replication-status".
Definition X_AMZ_FWD_HEADER_X_AMZ_REQUEST_CHARGED : bytes := str "x-amz-fwd-header-x-amz-request-charged".
Definition X_AMZ_FWD_HEADER_X_AMZ_RESTORE : bytes := str "x-amz-fwd-header-x-amz-restore".
Definition X_AMZ_FWD_HEADER_X_AMZ_SERVER_SIDE_ENCRYPTION : bytes := str "x-amz-fwd-header-x-amz-server-side-encryption".
Definition X_AMZ_FWD_HEADER_X_AMZ_SERVER_SIDE_ENCRYPTION_AWS_KMS_KEY_ID : bytes := str "x-amz-fwd-header-x-amz-server-side-encryption-aws-kms-key-id".
Definition X_AMZ_FWD_HEADER_X_AMZ_SERVER_SIDE_ENCRYPTION_BUCKET_KEY_ENABLED : bytes := str "x-amz-fwd-header-x-amz-server-side-encryption-bucket-key-enabled".
Definition X_AMZ_FWD_HEADER_X_AMZ_SERVER_SIDE_ENCRYPTION_CUSTOMER_ALGORITHM : bytes := str "x-amz-fwd-header-x-amz-server-side-encryption-customer-algorithm".
Definition X_AMZ_FWD_HEADER_X_AMZ_SERVER_SIDE_ENCRYPTION_CUSTOMER_KEY_MD5 : bytes := str "x-amz-fwd-header-x-amz-server-side-encryption-customer-key-md5".
Definition X_AMZ_FWD_HEADER_X_AMZ_STORAGE_CLASS : bytes := str "x-amz-fwd-header-x-amz-storage-class".
Definition X_AMZ_FWD_HEADER_X_AMZ_TAGGING_COUNT : bytes := str "x-amz-fwd-header-x-amz-tagging-count".
Definition X_AMZ_FWD_HEADER_X_AMZ_VERSION_ID : bytes := str "x-amz-fwd-header-x-amz-version-id".
Definition X_AMZ_FWD_STATUS : bytes := str "x-amz-fwd-status".
Definition X_AMZ_GRANT_FULL_CONTROL : bytes := str "x-amz-grant-full-control".
Definition X_AMZ_GRANT_READ : bytes := str "x-amz-grant-read".
Definition X_AMZ_GRANT_READ_ACP : bytes := str "x-amz-grant-read-acp".
Definition X_AMZ_GRANT_WRITE : bytes := str "x-amz-grant-write".
Definition X_AMZ_GRANT_WRITE_ACP : bytes := str "x-amz-grant-write-acp".
Definition X_AMZ_ID_2 : bytes := str "x-amz-id-2".
Definition X_AMZ_IF_MATCH_INITIATED_TIME : bytes := str "x-amz-if-match-initiated-time".
Definition X_AMZ_IF_MATCH_LAST_MODIFIED_TIME : bytes := str "x-amz-if-match-last-modified-time".
Definition X_AMZ_IF_MATCH_SIZE : bytes := str "x-amz-if-match-size".
Definition X_AMZ_MAX_PARTS : bytes := str "x-amz-max-parts".
Definition X_AMZ_METADATA_DIRECTIVE : bytes := str "x-amz-metadata-directive".
Definition X_AMZ_MFA : bytes := str "x-amz-mfa".
Definition X_AMZ_MISSING_META : bytes := str "x-amz-missing-meta".
Definition X_AMZ_MP_OBJECT_SIZE : bytes := str "x-amz-mp-object-size".
Definition X_AMZ_MP_PARTS_COUNT : bytes := str "x-amz-mp-parts-count".
Definition X_AMZ_OBJECT_ANNOTATION_DIRECTIVE : bytes := str "x-amz-object-annotation-directive".
Definition X_AMZ_OBJECT_ATTRIBUTES : bytes := str "x-amz-object-attributes".
Definition X_AMZ_OBJECT_IF_MATCH : bytes := str "x-amz-object-if-match".
Definition X_AMZ_OBJECT_LOCK_LEGAL_HOLD : bytes := str "x-amz-object-lock-legal-hold".
Definition X_AMZ_OBJECT_LOCK_MODE : bytes := str "x-amz-object-lock-mode".
Definition X_AMZ_OBJECT_LOCK_RETAIN_UNTIL_DATE : bytes := str "x-amz-object-lock-retain-until-date".
Definition X_AMZ_OBJECT_OWNERSHIP : bytes := str "x-amz-object-ownership".
Definition X_AMZ_OBJECT_SIZE : bytes := str "x-amz-object-size".
Definition X_AMZ_OBJECT_VERSION_ID : bytes := str "x-amz-object-version-id".
Definition X_AMZ_OPTIONAL_OBJECT_ATTRIBUTES : bytes := str "x-amz-optional-object-attributes".
Definition X_AMZ_PART_NUMBER_MARKER : bytes := str "x-amz-part-number-marker".
Definition X_AMZ_RENAME_SOURCE : bytes := str "x-amz-rename-source".
Definition X_AMZ_RENAME_SOURCE_IF_MATCH : bytes := str "x-amz-rename-source-if-match".
Definition X_AMZ_RENAME_SOURCE_IF_MODIFIED_SINCE : bytes := str "x-amz-rename-source-if-modified-since".
Definition X_AMZ_RENAME_SOURCE_IF_NONE_MATCH : bytes := str "x-amz-rename-source-if-none-match".
Definition X_AMZ_RENAME_SOURCE_IF_UNMODIFIED_SINCE : bytes := str "x-amz-rename-source-if-unmodified-since".
Definition X_AMZ_REPLICATION_STATUS : bytes := str "x-amz-replication-status".
Definition X_AMZ_REQUEST_CHARGED : bytes := str "x-amz-request-charged".
Definition X_AMZ_REQUEST_ID : bytes := str "x-amz-request-id".
Definition X_AMZ_REQUEST_PAYER : bytes := str "x-amz-request-payer".
Definition X_AMZ_REQUEST_ROUTE : bytes := str "x-amz-request-route".
Definition X_AMZ_REQUEST_TOKEN : bytes := str "x-amz-request-token".
Definition X_AMZ_RESTORE : bytes := str "x-amz-restore".
Definition X_AMZ_RESTORE_OUTPUT_PATH : bytes := str "x-amz-restore-output-path".
Definition X_AMZ_SDK_CHECKSUM_ALGORITHM : bytes := str "x-amz-sdk-checksum-algorithm".
Definition X_AMZ_SERVER_SIDE_ENCRYPTION : bytes := str "x-amz-server-side-encryption".
Definition X_AMZ_SERVER_SIDE_ENCRYPTION_AWS_KMS_KEY_ID : bytes := str "x-amz-server-side-encryption-aws-kms-key-id".
Definition X_AMZ_SERVER_SIDE_ENCRYPTION_BUCKET_KEY_ENABLED : bytes := str "x-amz-server-side-encryption-bucket-key-enabled".
Definition X_AMZ_SERVER_SIDE_ENCRYPTION_CONTEXT : bytes := str "x-amz-server-side-encryption-context".
Definition X_AMZ_SERVER_SIDE_ENCRYPTION_CUSTOMER_ALGORITHM : bytes := str "x-amz-server-side-encryption-customer-algorithm".
Definition X_AMZ_SERVER_SIDE_ENCRYPTION_CUSTOMER_KEY : bytes := str "x-amz-server-side-encryption-customer-key".
Definition X_AMZ_SERVER_SIDE_ENCRYPTION_CUSTOMER_KEY_MD5 : bytes := str "x-amz-server-side-encryption-customer-key-md5".
Definition X_AMZ_SKIP_DESTINATION_VALIDATION : bytes := str "x-amz-skip-destination-validation".
Definition X_AMZ_SOURCE_EXPECTED_BUCKET_OWNER : bytes := str "x-amz-source-expected-bucket-owner".
Definition X_AMZ_STORAGE_CLASS : bytes := str "x-amz-storage-class".
Definition X_AMZ_TAGGING : bytes := str "x-amz-tagging".
Definition X_AMZ_TAGGING_COUNT : bytes := str "x-amz-tagging-count".
Definition X_AMZ_TAGGING_DIRECTIVE : bytes := str "x-amz-tagging-directive".
Definition X_AMZ_TRANSITION_DEFAULT_MINIMUM_OBJECT_SIZE : bytes := str "x-amz-transition-default-minimum-object-size".
Definition X_AMZ_VERSION_ID : bytes := str "x-amz-version-id".
Definition X_AMZ_WEBSITE_REDIRECT_LOCATION : bytes := str "x-amz-website-redirect-location".
Definition X_AMZ_WRITE_OFFSET_BYTES : bytes := str "x-amz-write-offset-bytes".
Definition X_MINIO_FORCE_DELETE : bytes := str "x-minio-force-delete".
