(* ===== verification/HttpDe.v ===== *)
(** * Typed access to a request (crates/s3s/src/http/de.rs)

    The functions the operations decode their inputs with: headers, query parameters, the path,
    the body and the fields of a form, each as a value of its type or an error.

    A function that reads the request is a handler that leaves it as it is ([ask]); the path and
    the body are taken out of it.  [wp] is the weakest precondition of a handler: it returns, with
    a value and a request that satisfy [Q], or with an error that satisfies [E]. *)

From S2P Require Import Prelude.
From S2P Require Import Str.
From S2P Require Import Utf8.
From S2P Require Import OrderedQs.
From S2P Require Import Path.
From S2P Require Import ErrorCode.
From S2P Require Import Handler.
From S2P Require Import SigV4.
From S2P Require Import SignatureCheck.
From S2P Require Import Poll.
From S2P Require Import Stream.
From S2P Require Import Body.
From S2P Require Import Form.
From S2P Require Import Blob.
From S2P Require Import Request.
From S2P Require Import Range.
From S2P Require Import ETag.
From S2P Require Import Timestamp.
From S2P Require Import Xml.
From S2P Require Import XmlStruct.
From S2P Require Import XmlDtoA.
From S2P Require Import XmlDtoB.
From S2P Require Import XmlDtoC.
From S2P Require Import XmlDocs.
From S2P Require Import CopySource.
From S2P Require Import Rfc2047.
From S2P Require Import HeaderNames.

(** What is used of other crates: the HTTP types, the calendar, the XML reader and writer, and
    the decoders of numbers, escapes and base64. *)
Class HttpDeps := {
  hd_request :: RequestDeps;
  hd_xml :: XmlDeps;
  hd_quick :: QuickXml;
  hd_atoi :: Atoi;
  hd_url :: UrlEncoding;
  hd_base64 :: Base64
}.

(** [Result::ok] *)
Definition ok {E A} (r : result E A) : option A := match r with Ok a => Some a | Err _ => None end.

(** ** Weakest preconditions *)

Section Wp.
Context {St A : Type}.

Definition wp (m : ST St A) (Q : A -> St -> Prop) (E : S3ErrorCode -> Prop) (c : St) : Prop :=
  match m c with
  | Some (c', Ok a) => Q a c'
  | Some (_, Err e) => E e
  | None => False
  end.

Lemma wp_returns (m : ST St A) Q E c : wp m Q E c -> returns m c.
Proof. unfold wp, returns. destruct (m c) as [[c' []]|]; eauto. done. Qed.

Lemma wp_mono (m : ST St A) (Q Q' : A -> St -> Prop) (E : S3ErrorCode -> Prop) c :
  wp m Q E c -> (forall a c', Q a c' -> Q' a c') -> wp m Q' E c.
Proof. unfold wp. destruct (m c) as [[c' []]|]; auto. Qed.

Lemma wp_error (m : ST St A) Q (E : S3ErrorCode -> Prop) c c' e : wp m Q E c -> m c = Some (c', Err e) -> E e.
Proof. unfold wp. intros Hw E0. by rewrite E0 in Hw. Qed.

Lemma wp_ok (m : ST St A) Q E c c' a : wp m Q E c -> m c = Some (c', Ok a) -> Q a c'.
Proof. unfold wp. intros Hw E0. by rewrite E0 in Hw. Qed.
End Wp.

Section WpRules.
Context {St A B : Type}.
Implicit Types (Q : A -> St -> Prop) (E : S3ErrorCode -> Prop).

Lemma wp_bind (m : ST St B) (k : B -> ST St A) Q E c : wp m (fun b => wp (k b) Q E) E c -> wp (m ≫= k) Q E c.
Proof. unfold wp, mbind, ST_bind. by destruct (m c) as [[c' []]|]. Qed.

Lemma wp_ret (a : A) Q E c : Q a c -> wp (mret a) Q E c.
Proof. done. Qed.

Lemma wp_lift (r : result S3ErrorCode A) Q E c :
  match r with Ok a => Q a c | Err e => E e end -> wp (lift r) Q E c.
Proof. unfold wp, lift. by destruct r. Qed.

Lemma wp_panic (o : option A) Q E c : match o with Some a => Q a c | None => False end -> wp (panic_none o) Q E c.
Proof. unfold wp, panic_none. by destruct o. Qed.
End WpRules.

Section WpState.
Context {St : Type}.

Lemma wp_get (Q : St -> St -> Prop) E (c : St) : Q c c -> wp get Q E c.
Proof. done. Qed.

Lemma wp_put (Q : unit -> St -> Prop) E (c d : St) : Q tt d -> wp (put d) Q E c.
Proof. done. Qed.
End WpState.

(** ** Values of headers *)

(** [TryFromHeaderValue]; the reason of a failure is not kept. *)
Section HeaderValues.
Context `{HttpDeps}.

Definition hv_bool (val : bytes) : option bool :=
  if (val =? str "true") || (val =? str "True") then Some true
  else if (val =? str "false") || (val =? str "False") then Some false
  else None.
Definition hv_i32 (val : bytes) : option Z := atoi_signed i32_min i32_max val.
Definition hv_i64 (val : bytes) : option Z := atoi_signed i64_min i64_max val.
Definition hv_string (val : bytes) : option bytes := header_to_str val.
(** The enumerated strings of the interface keep any text. *)
Definition hv_enum (val : bytes) : option bytes := header_to_str val.
Definition hv_ETag (val : bytes) : option ETag := ok (parse_http_header val).
Definition hv_ETagCondition (val : bytes) : option ETagCondition := ok (cond_parse_http_header val).
Definition hv_Range (val : bytes) : option Range := header ← str_from_ascii_simd val; ok (Range_parse header).
Definition hv_CopySource (val : bytes) : option CopySource := ok (cs_try_from_header_value header_to_str val).
End HeaderValues.

(** [FromStr] of the types of query parameters and form fields. *)
Definition fs_bool (s : bytes) : option bool :=
  if s =? str "true" then Some true else if s =? str "false" then Some false else None.
Definition fs_i32 (s : bytes) : option Z := parse_signed i32_min i32_max s.
Definition fs_i64 (s : bytes) : option Z := parse_signed i64_min i64_max s.
Definition fs_string (s : bytes) : option bytes := Some s.
Definition fs_enum (s : bytes) : option bytes := Some s.
Definition fs_ETag `{ETagDeps} (s : bytes) : option ETag := ok (parse_http_header s).
Definition fs_ETagCondition `{ETagDeps} (s : bytes) : option ETagCondition := ok (cond_parse_http_header s).

(** ** Metadata *)

(** [HashMap<MetadataKey, MetadataValue>], as the entries its iterator yields. *)
Definition Metadata : Type := list (bytes * bytes).

(** [metadata.insert(key, value)] *)
Fixpoint metadata_insert (key value : bytes) (m : Metadata) : Metadata :=
  match m with
  | [] => [(key, value)]
  | (k, v) :: m' => if k =? key then (k, value) :: m' else (k, v) :: metadata_insert key value m'
  end.

(** [map.keys()]: each name once. *)
Fixpoint header_keys (seen : list bytes) (hs : HeaderMap) : list bytes :=
  match hs with
  | [] => []
  | (n, _) :: hs' => if existsb (fun s => s =? n) seen then header_keys seen hs' else n :: header_keys (n :: seen) hs'
  end.

Section De.
Context `{HttpDeps} {Ext : Type}.
Implicit Types req : Request Ext.

(** A function on a borrowed request. *)
Definition ask {A} (f : Request Ext -> result S3ErrorCode A) : ST (Request Ext) A := fun req => Some (req, f req).

(** ** Headers *)

Definition missing_header : S3ErrorCode := InvalidRequest.
Definition duplicate_header : S3ErrorCode := InvalidRequest.
Definition invalid_header : S3ErrorCode := InvalidArgument.

Definition get_required_header (name : bytes) req : result S3ErrorCode bytes :=
  match header_get_all (headers req) name with
  | [] => Err missing_header
  | [val] => if val =? [] then Err missing_header else Ok val
  | _ => Err duplicate_header
  end.

Definition get_optional_header (name : bytes) req : result S3ErrorCode (option bytes) :=
  match header_get_all (headers req) name with
  | [] => Ok None
  | [val] => if val =? [] then Ok None else Ok (Some val)
  | _ => Err duplicate_header
  end.

Definition parse_header {T} (conv : bytes -> option T) (name : bytes) req : result S3ErrorCode T :=
  val ← get_required_header name req;
  ok_or invalid_header (conv val).

Definition parse_opt_header {T} (conv : bytes -> option T) (name : bytes) req : result S3ErrorCode (option T) :=
  val ← get_optional_header name req;
  match val with
  | None => Ok None
  | Some val => ans ← ok_or invalid_header (conv val); Ok (Some ans)
  end.

Definition checksum_trailers : list (bytes * bytes) :=
  [(X_AMZ_CHECKSUM_CRC32, str "CRC32"); (X_AMZ_CHECKSUM_CRC32C, str "CRC32C"); (X_AMZ_CHECKSUM_SHA1, str "SHA1");
   (X_AMZ_CHECKSUM_SHA256, str "SHA256"); (X_AMZ_CHECKSUM_CRC64NVME, str "CRC64NVME");
   (X_AMZ_CHECKSUM_SHA512, str "SHA512"); (X_AMZ_CHECKSUM_MD5, str "MD5"); (X_AMZ_CHECKSUM_XXHASH64, str "XXHASH64");
   (X_AMZ_CHECKSUM_XXHASH3, str "XXHASH3"); (X_AMZ_CHECKSUM_XXHASH128, str "XXHASH128")].

Fixpoint trailer_algorithm (ans : option bytes) (fields : list bytes) : result S3ErrorCode (option bytes) :=
  match fields with
  | [] => Ok ans
  | field :: fields' =>
      match List.find (fun hv => eq_ignore_ascii_case field (fst hv)) checksum_trailers with
      | Some (_, v) => if is_some ans then Err invalid_header else trailer_algorithm (Some v) fields'
      | None => trailer_algorithm ans fields'
      end
  end.

Definition parse_checksum_algorithm_header req : result S3ErrorCode (option bytes) :=
  ans ← parse_opt_header hv_enum X_AMZ_CHECKSUM_ALGORITHM req;
  if is_some ans then Ok ans
  else
    trailer_value ← get_optional_header (str "x-amz-trailer") req;
    match trailer_value with
    | None => Ok None
    | Some trailer_value =>
        trailer ← ok_or invalid_header (header_to_str trailer_value);
        trailer_algorithm None (List.filter (fun name => negb (name =? [])) (map trim (split "," trailer)))
    end.

(** [None] is a panic of the parser. *)
Definition parse_opt_header_timestamp (name : bytes) (fmt : TimestampFormat) : ST (Request Ext) (option Timestamp) :=
  val ← ask (get_optional_header name);
  match val with
  | None => mret None
  | Some val =>
      s ← lift (ok_or invalid_header (header_to_str val));
      r ← panic_none (Timestamp_parse fmt s);
      ans ← lift (map_err (fun _ => invalid_header) r);
      mret (Some ans)
  end.

Fixpoint convert_all {T} (conv : bytes -> option T) (vals : list bytes) : result S3ErrorCode (list T) :=
  match vals with
  | [] => Ok []
  | val :: vals' => ans ← ok_or invalid_header (conv val); list ← convert_all conv vals'; Ok (ans :: list)
  end.

Definition parse_list_header {T} (conv : bytes -> option T) (name : bytes) req : result S3ErrorCode (list T) :=
  list ← convert_all conv (header_get_all (headers req) name);
  match list with [] => Err missing_header | _ => Ok list end.

Definition parse_opt_list_header {T} (conv : bytes -> option T) (name : bytes) req : result S3ErrorCode (option (list T)) :=
  list ← convert_all conv (header_get_all (headers req) name);
  match list with [] => Ok None | _ => Ok (Some list) end.

(** ** Query parameters *)

Definition missing_query : S3ErrorCode := InvalidRequest.
Definition duplicate_query : S3ErrorCode := InvalidRequest.
Definition invalid_query : S3ErrorCode := InvalidArgument.

(** The values of a parameter; no query is as good as an empty one. *)
Definition query_values (name : bytes) req : list bytes :=
  match x_qs (s3ext req) with Some qs => get_all qs name | None => [] end.

Definition parse_query {T} (from_str : bytes -> option T) (name : bytes) req : result S3ErrorCode T :=
  match query_values name req with
  | [] => Err missing_query
  | [val] => ok_or invalid_query (from_str val)
  | _ => Err duplicate_query
  end.

Definition parse_opt_query {T} (from_str : bytes -> option T) (name : bytes) req : result S3ErrorCode (option T) :=
  match query_values name req with
  | [] => Ok None
  | [val] => ans ← ok_or invalid_query (from_str val); Ok (Some ans)
  | _ => Err duplicate_query
  end.

Definition parse_opt_query_joined (name separator : bytes) req : option bytes :=
  match query_values name req with
  | [] => None
  | first :: rest => Some (fold_left (fun joined value => joined ++ separator ++ value) rest first)
  end.

Definition parse_opt_query_timestamp (name : bytes) (fmt : TimestampFormat) : ST (Request Ext) (option Timestamp) :=
  req ← get;
  match query_values name req with
  | [] => mret None
  | [val] =>
      r ← panic_none (Timestamp_parse fmt val);
      ans ← lift (map_err (fun _ => invalid_query) r);
      mret (Some ans)
  | _ => lift (Err duplicate_query)
  end.

(** ** The path *)

(** [None] is the panic of a path of another shape. *)
Definition unwrap_bucket : ST (Request Ext) bytes :=
  req ← get;
  modify_ext (set_s3_path None);;
  panic_none (match x_s3_path (s3ext req) with Some (Path.Bucket bucket) => Some bucket | _ => None end).

Definition unwrap_object : ST (Request Ext) (bytes * bytes) :=
  req ← get;
  modify_ext (set_s3_path None);;
  panic_none (match x_s3_path (s3ext req) with Some (Path.Object bucket key) => Some (bucket, key) | _ => None end).

(** ** The body *)

Definition malformed_xml : S3ErrorCode := MalformedXML.

Definition deserialize_xml {T} `{Deserialize T} (bytes : bytes) : option (result S3ErrorCode T) :=
  map_err (fun _ => malformed_xml) <$> deserialize_document (deserialize : De T) bytes.

(** [req.body.take_bytes().expect(..)] *)
Definition take_full_body : ST (Request Ext) bytes :=
  req ← get;
  let '(b, bytes) := take_bytes (body req) in
  put (set_req_body b req);;
  panic_none bytes.

Definition take_xml_body {T} `{Deserialize T} : ST (Request Ext) T :=
  bytes ← take_full_body;
  if bytes =? [] then lift (Err MissingRequestBodyError)
  else r ← panic_none (deserialize_xml bytes); lift r.

Definition take_opt_xml_body {T} `{Deserialize T} : ST (Request Ext) (option T) :=
  bytes ← take_full_body;
  if bytes =? [] then mret None
  else r ← panic_none (deserialize_xml bytes); ans ← lift r; mret (Some ans).

(** The body of the operations for which a missing one is a malformed one. *)
Definition required_xml_body {T} `{Deserialize T} : ST (Request Ext) (option T) := fun req =>
  match take_xml_body (T := T) req with
  | Some (req', Ok body) => Some (req', Ok (Some body))
  | Some (req', Err e) => Some (req', Err (if e =? MissingRequestBodyError then MalformedXML else e))
  | None => None
  end.

Definition take_string_body : ST (Request Ext) bytes :=
  bytes ← take_full_body;
  if utf8_valid bytes then mret bytes else lift (Err InvalidRequest).

Definition take_stream_body : ST (Request Ext) StreamingBlob :=
  req ← get;
  put (set_req_body empty req);;
  mret (blob_of_body (body req)).

(** ** Metadata and forms *)

(** A name comes from the keys of the map, so it has a value. *)
Fixpoint metadata_of (hs : HeaderMap) (keys : list bytes) (metadata : Metadata) : result S3ErrorCode Metadata :=
  match keys with
  | [] => Ok metadata
  | name :: keys' =>
      match strip_prefix (str "x-amz-meta-") name with
      | None => metadata_of hs keys' metadata
      | Some key =>
          if key =? [] then metadata_of hs keys' metadata
          else
            match header_get_all hs name with
            | [val] =>
                if utf8_valid val then
                  val ← map_err (fun _ => invalid_header) (decode val);
                  metadata_of hs keys' (metadata_insert key val metadata)
                else Err invalid_header
            | _ => Err duplicate_header
            end
      end
  end.

Definition parse_opt_metadata req : result S3ErrorCode (option Metadata) :=
  metadata ← metadata_of (headers req) (header_keys [] (headers req)) [];
  Ok (match metadata with [] => None | _ => Some metadata end).

Definition parse_field_value {T} (from_str : bytes -> option T) (m : Form) (name : bytes) : result S3ErrorCode (option T) :=
  match find_field_value m name with
  | None => Ok None
  | Some val => ans ← ok_or InvalidArgument (from_str val); Ok (Some ans)
  end.

(** [None] is a panic of the parser. *)
Definition parse_field_value_timestamp (m : Form) (name : bytes) (fmt : TimestampFormat) :
    option (result S3ErrorCode (option Timestamp)) :=
  match find_field_value m name with
  | None => Some (Ok None)
  | Some val => r ← Timestamp_parse fmt val; Some (ans ← map_err (fun _ => InvalidArgument) r; Ok (Some ans))
  end.
End De.

(** ** Faults of the client *)

(** The errors of decoding. *)
Definition client_fault (e : S3ErrorCode) : Prop :=
  e = InvalidRequest \/ e = InvalidArgument \/ e = MalformedXML \/ e = MissingRequestBodyError.

Lemma client_fault_status e : client_fault e -> code_status e = Some BAD_REQUEST.
Proof. by intros [-> | [-> | [-> | ->]]]. Qed.

Create HintDb faults.

Section Faults.
Context {A : Type}.

(** A result that is an error only by the fault of the client. *)
Definition fault (r : result S3ErrorCode A) : Prop := match r with Ok _ => True | Err e => client_fault e end.

Lemma fault_bind {B} (r : result S3ErrorCode B) (k : B -> result S3ErrorCode A) :
  match r with Ok _ => True | Err e => client_fault e end -> (forall b, fault (k b)) -> fault (r ≫= k).
Proof. destruct r; [|done]. intros _ Hk. apply Hk. Qed.

Lemma fault_ok_or e (o : option A) : client_fault e -> fault (ok_or e o).
Proof. by destruct o. Qed.
End Faults.
#[export] Hint Extern 1 (client_fault _) => (unfold client_fault; tauto) : faults.
#[export] Hint Extern 1 (fault (Err _)) => (unfold fault, client_fault; tauto) : faults.
#[export] Hint Extern 1 (wp (lift (Err _)) _ _ _) => (unfold wp, lift, client_fault; tauto) : faults.

Section FaultFacts.
Context `{HttpDeps} {Ext : Type}.
Implicit Types req : Request Ext.

Lemma required_header_fault name req : fault (get_required_header name req).
Proof. unfold get_required_header. destruct (header_get_all _ _) as [|v []]; [by left| |by left]. case_bool_decide; [by left|done]. Qed.

Lemma optional_header_fault name req : fault (get_optional_header name req).
Proof. unfold get_optional_header. destruct (header_get_all _ _) as [|v []]; [done| |by left]. by case_bool_decide. Qed.

Lemma parse_header_fault {T} (conv : bytes -> option T) name req : fault (parse_header conv name req).
Proof. apply fault_bind; [apply required_header_fault|]. intros v. apply fault_ok_or. auto with faults. Qed.

Lemma parse_opt_header_fault {T} (conv : bytes -> option T) name req : fault (parse_opt_header conv name req).
Proof.
  apply fault_bind; [apply optional_header_fault|]. intros [v|]; [|done]. apply fault_bind; [apply fault_ok_or; auto with faults|done].
Qed.

Lemma trailer_fault ans l : fault (trailer_algorithm ans l).
Proof.
  revert ans. induction l as [|f l IH]; intros ans; [done|]. cbn [trailer_algorithm]. destruct (List.find _ _) as [[h v]|]; [|done].
  destruct (is_some ans); [auto with faults|done].
Qed.

Lemma checksum_algorithm_fault req : fault (parse_checksum_algorithm_header req).
Proof.
  apply fault_bind; [apply parse_opt_header_fault|]. intros ans. destruct (is_some ans); [done|].
  apply fault_bind; [apply optional_header_fault|]. intros [v|]; [|done]. apply fault_bind; [apply fault_ok_or; auto with faults|].
  intros t. apply trailer_fault.
Qed.

Lemma convert_all_fault {T} (conv : bytes -> option T) l : fault (convert_all conv l).
Proof.
  induction l as [|v l IH]; [done|]. apply fault_bind; [apply fault_ok_or; auto with faults|]. intros a. by apply fault_bind.
Qed.

Lemma parse_list_header_fault {T} (conv : bytes -> option T) name req : fault (parse_list_header conv name req).
Proof. apply fault_bind; [apply convert_all_fault|]. intros []; [by left|done]. Qed.

Lemma parse_opt_list_header_fault {T} (conv : bytes -> option T) name req : fault (parse_opt_list_header conv name req).
Proof. apply fault_bind; [apply convert_all_fault|]. by intros []. Qed.

Lemma parse_query_fault {T} (from_str : bytes -> option T) name req : fault (parse_query from_str name req).
Proof. unfold parse_query. destruct (query_values _ _) as [|v []]; [by left| |by left]. apply fault_ok_or. auto with faults. Qed.

Lemma parse_opt_query_fault {T} (from_str : bytes -> option T) name req : fault (parse_opt_query from_str name req).
Proof.
  unfold parse_opt_query. destruct (query_values _ _) as [|v []]; [done| |by left]. apply fault_bind; [apply fault_ok_or; auto with faults|done].
Qed.

Lemma metadata_of_fault hs keys m : fault (metadata_of hs keys m).
Proof.
  revert m. induction keys as [|n keys IH]; intros m; [done|]. cbn [metadata_of]. destruct (strip_prefix _ n) as [key|]; [|done].
  case_bool_decide; [done|]. destruct (header_get_all hs n) as [|v []]; [by left| |by left]. destruct (utf8_valid v); [|auto with faults].
  apply fault_bind; [|done]. destruct (decode v); simpl; auto with faults.
Qed.

Lemma parse_opt_metadata_fault req : fault (parse_opt_metadata req).
Proof. apply fault_bind; [apply metadata_of_fault|]. done. Qed.

Lemma parse_field_value_fault {T} (from_str : bytes -> option T) m name : fault (parse_field_value from_str m name).
Proof.
  unfold parse_field_value. destruct (find_field_value m name); [|done]. apply fault_bind; [apply fault_ok_or; auto with faults|done].
Qed.
End FaultFacts.

#[export] Hint Resolve parse_header_fault parse_opt_header_fault checksum_algorithm_fault parse_list_header_fault
  parse_opt_list_header_fault parse_query_fault parse_opt_query_fault parse_opt_metadata_fault parse_field_value_fault : faults.

(** ** Decoding steps *)

Section Steps.
Context `{HttpDeps} {Ext : Type}.
Implicit Types req : Request Ext.

Lemma wp_ask {A} {B} (f : Request Ext -> result S3ErrorCode B) (k : B -> ST (Request Ext) A) (Q : A -> Request Ext -> Prop) req :
  fault (f req) -> (forall b, wp (k b) Q client_fault req) -> wp (ask f ≫= k) Q client_fault req.
Proof. intros Hf Hk. apply wp_bind. unfold wp, ask. destruct (f req); [apply Hk|done]. Qed.

Lemma wp_lift_fault {A} {B} (r : result S3ErrorCode B) (k : B -> ST (Request Ext) A) (Q : A -> Request Ext -> Prop) req :
  fault r -> (forall b, wp (k b) Q client_fault req) -> wp (lift r ≫= k) Q client_fault req.
Proof. intros Hf Hk. apply wp_bind, wp_lift. by destruct r. Qed.

Lemma wp_header_timestamp {A} name fmt (k : option Timestamp -> ST (Request Ext) A) (Q : A -> Request Ext -> Prop) req :
  (forall b, wp (k b) Q client_fault req) -> wp (parse_opt_header_timestamp name fmt ≫= k) Q client_fault req.
Proof.
  intros Hk. apply wp_bind. unfold parse_opt_header_timestamp. apply wp_ask; [apply optional_header_fault|]. intros [v|]; [|apply Hk].
  apply wp_bind, wp_lift. destruct (header_to_str v) as [s|]; simpl; [|auto with faults]. apply wp_bind, wp_panic.
  destruct (parse_total fmt s) as [r ->]. apply wp_bind, wp_lift. destruct r; simpl; [apply Hk|auto with faults].
Qed.

Lemma wp_query_timestamp {A} name fmt (k : option Timestamp -> ST (Request Ext) A) (Q : A -> Request Ext -> Prop) req :
  (forall b, wp (k b) Q client_fault req) -> wp (parse_opt_query_timestamp name fmt ≫= k) Q client_fault req.
Proof.
  intros Hk. apply wp_bind. unfold parse_opt_query_timestamp. apply wp_bind, wp_get.
  destruct (query_values name req) as [|v []]; [apply Hk| |by left]. apply wp_bind, wp_panic.
  destruct (parse_total fmt v) as [r ->]. apply wp_bind, wp_lift. destruct r; simpl; [apply Hk|auto with faults].
Qed.

(** The request without its path, and without its body. *)
Definition without_path req : Request Ext := set_s3ext (set_s3_path None (s3ext req)) req.
Definition without_body req : Request Ext := set_req_body (fst (take_bytes (body req))) req.

Lemma wp_unwrap_bucket {A} (k : bytes -> ST (Request Ext) A) (Q : A -> Request Ext -> Prop) req b :
  x_s3_path (s3ext req) = Some (Path.Bucket b) -> wp (k b) Q client_fault (without_path req) -> wp (unwrap_bucket ≫= k) Q client_fault req.
Proof. intros Hp Hk. apply wp_bind. unfold unwrap_bucket. apply wp_bind, wp_get, wp_bind, wp_bind, wp_get, wp_put, wp_panic. by rewrite Hp. Qed.

Lemma wp_unwrap_object {A} (k : bytes * bytes -> ST (Request Ext) A) (Q : A -> Request Ext -> Prop) req b key :
  x_s3_path (s3ext req) = Some (Path.Object b key) -> wp (k (b, key)) Q client_fault (without_path req) ->
  wp (unwrap_object ≫= k) Q client_fault req.
Proof. intros Hp Hk. apply wp_bind. unfold unwrap_object. apply wp_bind, wp_get, wp_bind, wp_bind, wp_get, wp_put, wp_panic. by rewrite Hp. Qed.

Lemma wp_full_body {B} (k : bytes -> ST (Request Ext) B) (Q : B -> Request Ext -> Prop) E req x :
  bytes_of (body req) = Some x -> wp (k x) Q E (without_body req) -> wp (take_full_body ≫= k) Q E req.
Proof. intros Hb Hk. apply wp_bind. unfold take_full_body. apply wp_bind, wp_get, wp_bind, wp_put, wp_panic. by rewrite Hb. Qed.

(** Reading the document of a type ends. *)
Definition reads_documents (T : Type) `{Deserialize T} : Prop := well (deserialize : De T).

Lemma wp_deserialize {T} `{Deserialize T} x (Q : T -> Request Ext -> Prop) req : reads_documents T ->
  (forall b, Q b req) -> wp (r ← panic_none (deserialize_xml x); lift r) Q client_fault req.
Proof.
  intros Hw Hk. apply wp_bind, wp_panic. unfold deserialize_xml.
  destruct (deserialize_document_total (deserialize : De T) x Hw) as [r ->]. apply wp_lift. destruct r; simpl; [apply Hk|auto with faults].
Qed.

Lemma wp_take_xml {T} `{Deserialize T} (Q : T -> Request Ext -> Prop) req x : reads_documents T ->
  bytes_of (body req) = Some x -> (forall b, Q b (without_body req)) -> wp take_xml_body Q client_fault req.
Proof.
  intros Hw Hb Hk. unfold take_xml_body. apply (wp_full_body _ _ _ _ x Hb). case_bool_decide; [auto with faults|by apply wp_deserialize].
Qed.

Lemma wp_xml_body {A} {T} `{Deserialize T} (k : T -> ST (Request Ext) A) (Q : A -> Request Ext -> Prop) req x : reads_documents T ->
  bytes_of (body req) = Some x -> (forall b, wp (k b) Q client_fault (without_body req)) -> wp (take_xml_body ≫= k) Q client_fault req.
Proof. intros Hw Hb Hk. by apply wp_bind, (wp_take_xml _ _ x). Qed.

Lemma wp_opt_xml_body {A} {T} `{Deserialize T} (k : option T -> ST (Request Ext) A) (Q : A -> Request Ext -> Prop) req x : reads_documents T ->
  bytes_of (body req) = Some x -> (forall b, wp (k b) Q client_fault (without_body req)) -> wp (take_opt_xml_body ≫= k) Q client_fault req.
Proof.
  intros Hw Hb Hk. apply wp_bind. unfold take_opt_xml_body. apply (wp_full_body _ _ _ _ x Hb). case_bool_decide; [apply Hk|].
  apply wp_bind, wp_panic. unfold deserialize_xml.
  destruct (deserialize_document_total (deserialize : De T) x Hw) as [r ->]. apply wp_bind, wp_lift. destruct r; simpl; [apply Hk|auto with faults].
Qed.

Lemma wp_required_xml_body {A} {T} `{Deserialize T} (k : option T -> ST (Request Ext) A) (Q : A -> Request Ext -> Prop) req x : reads_documents T ->
  bytes_of (body req) = Some x -> (forall b, wp (k b) Q client_fault (without_body req)) -> wp (required_xml_body ≫= k) Q client_fault req.
Proof.
  intros Hw Hb Hk. apply wp_bind. unfold required_xml_body, wp at 1.
  pose proof (wp_take_xml (fun _ r => r = without_body req) req x Hw Hb (fun _ => eq_refl)) as Ht. unfold wp in Ht.
  destruct (take_xml_body req) as [[req' [b|e]]|]; [subst; apply Hk| |done]. case_bool_decide; [auto with faults|done].
Qed.

Lemma wp_string_body {A} (k : bytes -> ST (Request Ext) A) (Q : A -> Request Ext -> Prop) req x :
  bytes_of (body req) = Some x -> (forall b, wp (k b) Q client_fault (without_body req)) -> wp (take_string_body ≫= k) Q client_fault req.
Proof.
  intros Hb Hk. apply wp_bind. unfold take_string_body. apply (wp_full_body _ _ _ _ x Hb). destruct (utf8_valid x); [apply Hk|auto with faults].
Qed.

Lemma wp_stream_body {A} (k : StreamingBlob -> ST (Request Ext) A) (Q : A -> Request Ext -> Prop) req :
  wp (k (blob_of_body (body req))) Q client_fault (set_req_body empty req) -> wp (take_stream_body ≫= k) Q client_fault req.
Proof. intros Hk. apply wp_bind. unfold take_stream_body. by apply wp_bind, wp_get, wp_bind, wp_put, wp_ret. Qed.
End Steps.

(** Documents are read by functions that end. *)
Ltac solve_reads :=
  unfold reads_documents, deserialize;
  first [ solve [apply named_element_well; auto with de nocore]
        | solve [apply named_element_any_well; auto with de nocore]
        | solve [do 2 apply named_element_well; auto with de nocore]
        | exact (named_element_well _ _ de_ObjectEncryption_well) ].

(** One field after the other. *)
Ltac decode_fields :=
  repeat first
    [ apply wp_ask; [solve [auto with faults]|intros ?]
    | apply wp_lift_fault; [solve [auto with faults]|intros ?]
    | apply wp_header_timestamp; intros ?
    | apply wp_query_timestamp; intros ?
    | eapply wp_unwrap_bucket; [eassumption|]
    | eapply wp_unwrap_object; [eassumption|]
    | eapply wp_xml_body; [solve_reads|eassumption|intros ?]
    | eapply wp_opt_xml_body; [solve_reads|eassumption|intros ?]
    | eapply wp_required_xml_body; [solve_reads|eassumption|intros ?]
    | eapply wp_string_body; [eassumption|intros ?]
    | apply wp_stream_body ];
  try done.
