(* ===== verification/HttpSer.v ===== *)
(** * Building a response (crates/s3s/src/http/ser.rs; the serialization of errors in
    crates/s3s/src/error/mod.rs and crates/s3s/src/ops/mod.rs)

    The functions the operations encode their outputs with, as handlers that change a response:
    headers, XML documents, streams, and the error document.  [None] is a panic: of the calendar,
    when a time cannot be printed. *)

From S2P Require Import Prelude.
From S2P Require Import Str.
From S2P Require Import Utf8.
From S2P Require Import ErrorCode.
From S2P Require Import Handler.
From S2P Require Import Router.
From S2P Require Import SigV4.
From S2P Require Import SignatureCheck.
From S2P Require Import Poll.
From S2P Require Import Stream.
From S2P Require Import Body.
From S2P Require Import Blob.
From S2P Require Import Request.
From S2P Require Import Response.
From S2P Require Import KeepAlive.
From S2P Require Import ETag.
From S2P Require Import Timestamp.
From S2P Require Import Xml.
From S2P Require Import XmlStruct.
From S2P Require Import XmlDocs.
From S2P Require Import EventStream.
From S2P Require Import Rfc2047.
From S2P Require Import HeaderNames.
From S2P Require Import HttpDe.

(** The typed extensions of the [http] crate. *)
Class Extensions (Ext : Type) := { ext_default : Ext; ext_extend : Ext -> Ext -> Ext }.

(** ** Values of headers *)

(** [TryIntoHeaderValue] *)
Section HeaderValues.
Context `{HttpDeps}.

Definition ih_bool (b : bool) : option bytes := Some (if b then str "true" else str "false").
Definition ih_i32 (n : Z) : option bytes := Some (fmt_signed n).
Definition ih_i64 (n : Z) : option bytes := Some (fmt_signed n).
Definition ih_string (s : bytes) : option bytes := header_value_try_from s.
Definition ih_enum (s : bytes) : option bytes := header_value_try_from s.
Definition ih_ETag (e : ETag) : option bytes := to_http_header e.
End HeaderValues.

Definition APPLICATION_XML : bytes := str "application/xml".
Definition TRANSFER_ENCODING : bytes := str "transfer-encoding".
Definition TRANSFER_ENCODING_CHUNKED : bytes := str "chunked".

(** A byte that XML 1.0 does not allow in any document. *)
Definition control_character (b : byte) : bool :=
  (u8 b <? 32)%Z && negb ((b =? x09) || (b =? x0a) || (b =? x0d)).

Definition reject_control_characters (buf : bytes) : result S3ErrorCode unit :=
  if existsb control_character buf then Err InternalError else Ok tt.

(** [a.extend(b)]: the first value of a name replaces those of [a], the others are appended. *)
Fixpoint extend_from (seen : list bytes) (hs new : HeaderMap) : HeaderMap :=
  match new with
  | [] => hs
  | (n, v) :: new' =>
      if existsb (fun s => s =? n) seen then extend_from seen (hs ++ [(n, v)]) new'
      else extend_from (n :: seen) (header_insert hs n v) new'
  end.
Definition header_extend (hs new : HeaderMap) : HeaderMap := extend_from [] hs new.

(** ** The error document *)

(** [None] is an error code without a text, which does not exist. *)
Definition ser_S3Error (self : S3Error) : Ser :=
  code ← as_str (code self);
  s_seq [s_content ser_str (str "Code") code;
         if_some (ErrorCode.message self) (s_content ser_str (str "Message"));
         if_some (ErrorCode.request_id self) (s_content ser_str (str "RequestId"))].
#[global] Instance serialize_S3Error : Serialize S3Error := s_content ser_S3Error (str "Error").

Section Ser.
Context `{HttpDeps} {Ext : Type} `{Extensions Ext}.
Implicit Types res : Response Ext.

Definition update (f : Response Ext -> Response Ext) : ST (Response Ext) unit := res ← get; put (f res).

(** [res.headers.insert(name, value)] *)
Definition insert_header (name value : bytes) : ST (Response Ext) unit :=
  update (fun res => set_response_headers (header_insert (r_headers res) name value) res).

(** The response a function builds from one with this status. *)
Definition respond_from (m : ST (Response Ext) unit) res : option (result S3ErrorCode (Response Ext)) :=
  '(res, r) ← m res;
  Some (_ ← r; Ok res).
Definition respond (status : StatusCode) (m : ST (Response Ext) unit) : option (result S3ErrorCode (Response Ext)) :=
  respond_from m (with_status ext_default status).

(** ** Headers *)

Definition add_opt_header {V} (try_into : V -> option bytes) (name : bytes) (value : option V) : ST (Response Ext) unit :=
  match value with
  | Some value => val ← lift (ok_or InternalError (try_into value)); insert_header name val
  | None => mret tt
  end.

Definition add_opt_header_timestamp (name : bytes) (value : option Timestamp) (fmt : TimestampFormat) : ST (Response Ext) unit :=
  match value with
  | Some value =>
      s ← panic_none (fmt_timestamp value fmt);
      val ← lift (ok_or InternalError (header_value_try_from s));
      insert_header name val
  | None => mret tt
  end.

Fixpoint add_metadata (map : Metadata) : ST (Response Ext) unit :=
  match map with
  | [] => mret tt
  | (key, val) :: map' =>
      name ← lift (ok_or InternalError (http_header_name (str "x-amz-meta-" ++ key)));
      s ← lift (map_err (fun _ => InternalError) (encode val));
      value ← lift (ok_or InternalError (header_value_try_from s));
      insert_header name value;;
      add_metadata map'
  end.

Definition add_opt_metadata (metadata : option Metadata) : ST (Response Ext) unit :=
  match metadata with Some map => add_metadata map | None => mret tt end.

(** ** Bodies *)

Definition set_body (b : Body) : ST (Response Ext) unit := update (set_response_body b).

Definition set_xml_document (decl : bool) {T} `{Serialize T} (val : T) : ST (Response Ext) unit :=
  buf ← panic_none (document_text (document decl (serialize val)));
  lift (reject_control_characters buf);;
  set_body (Body.once buf);;
  insert_header CONTENT_TYPE APPLICATION_XML.

Definition set_xml_body {T} `{Serialize T} (val : T) : ST (Response Ext) unit := set_xml_document true val.
Definition set_xml_body_no_decl {T} `{Serialize T} (val : T) : ST (Response Ext) unit := set_xml_document false val.

Definition set_stream_body (stream : StreamingBlob) : ST (Response Ext) unit := set_body (into_body stream).

(** What the polls of the stream of a select response answer: an event gives at most three
    chunks, so the fuel is enough.  [None] is a panic of the stream, which does not happen. *)
Fixpoint event_items `{CrcFast} (fuel : nat) (w : Wrapper) : option (list answer) :=
  match fuel with
  | 0 => Some []
  | S fuel' =>
      '(w, p) ← Wrapper_poll_next w;
      match p with
      | Pending => l ← event_items fuel' w; Some (Wait :: l)
      | Ready (Some r) => l ← event_items fuel' w; Some (Next r :: l)
      | Ready None => Some []
      end
  end.

(** The default length of a byte stream is not known. *)
Definition event_stream `{CrcFast} (stream : list event_answer) : option DynByteStream :=
  l ← event_items (4 * length stream + 1) (into_byte_stream stream);
  Some {| Body.items := l; ds_remaining_length := fun _ => unknown |}.

Definition set_event_stream_body `{CrcFast} (stream : list event_answer) : ST (Response Ext) unit :=
  s ← panic_none (event_stream stream);
  set_body (dyn_stream s);;
  insert_header TRANSFER_ENCODING TRANSFER_ENCODING_CHUNKED.

(** ** Keep-alive bodies *)

(** A future of the application: how many polls it is pending, and what it gives; and which polls
    of the timer are ready meanwhile. *)
Record Future {A : Type} := { fut_pending : nat; fut_result : A; fut_ticks : nat -> bool }.

Definition fut_outcome {A} (f : Future (A := A)) (n : nat) : poll A :=
  if (n <? fut_pending f)%nat then Pending else Ready (fut_result f).

Section Frames.
Context {St : Type} (f : pollm St (option (result bytes Frame))).

(** What the polls of a body answer, up to its end or first error. *)
Fixpoint unfold_frames (fuel : nat) (s : St) : list frame_answer :=
  match fuel with
  | 0 => []
  | S fuel' =>
      match f s with
      | (s', Pending) => FWait :: unfold_frames fuel' s'
      | (s', Ready (Some (Ok x))) => FNext (Ok x) :: unfold_frames fuel' s'
      | (_, Ready (Some (Err e))) => [FNext (Err e)]
      | (_, Ready None) => []
      end
  end.
End Frames.

(** Enough polls to reach the end of the body. *)
Definition keep_alive_polls (f : Future (A := result bytes (Response Ext))) : nat :=
  fut_pending f + 4 + match fut_result f with Ok res => kind_size (kind (r_body res)) | Err _ => 0 end.

(** [Body::http_body(KeepAliveBody::new(..))]: a body of unknown length. *)
Definition keep_alive_body (f : Future (A := result bytes (Response Ext))) (initial : option bytes) (allow_trailers : bool) : Body :=
  Body.http_body
    {| frames := unfold_frames (KeepAliveBody_poll_frame (fut_outcome f) (fut_ticks f)) (keep_alive_polls f)
         (KeepAliveBody_new initial allow_trailers);
       hb_size_hint := fun _ => (0%Z, None);
       hb_is_end_stream := fun rest => match rest with [] => true | _ => false end |}.

Definition set_keep_alive_xml_body (f : Future (A := result bytes (Response Ext))) : ST (Response Ext) unit :=
  buf ← panic_none (document_text s_decl);
  set_body (keep_alive_body f (Some buf) true);;
  insert_header CONTENT_TYPE APPLICATION_XML;;
  insert_header TRANSFER_ENCODING TRANSFER_ENCODING_CHUNKED.

(** ** Errors *)

Definition serialize_error (e : S3Error) (no_decl : bool) : option (result S3ErrorCode (Response Ext)) :=
  let status := default INTERNAL_SERVER_ERROR (error_status e) in
  let bodyless := is_bodyless_status status in
  respond status
    ((if negb bodyless then if no_decl then set_xml_body_no_decl e else set_xml_body e else mret tt);;
     (match error_headers e with Some headers => update (set_response_headers headers) | None => mret tt end);;
     if bodyless
     then update (fun res => strip_body (set_response_headers
            (header_remove (header_remove (r_headers res) CONTENT_LENGTH) CONTENT_TYPE) res))
     else mret tt).

Definition serialize_error_for_method (method : Method) (e : S3Error) (no_decl : bool) :
    option (result S3ErrorCode (Response Ext)) :=
  r ← serialize_error e no_decl;
  Some (res ← r; Ok (match method with HEAD => strip_body res | _ => res end)).
End Ser.
