(* ===== verification/OpsTypes.v ===== *)
(** * Inputs and outputs of the operations (crates/s3s/src/dto/generated.rs)

    The record of the parameters of each operation and that of its result, beside those of the
    documents.  An enumerated string is its text. *)

From S2P Require Import Prelude.
From S2P Require Import Str.
From S2P Require Import ErrorCode.
From S2P Require Import Handler.
From S2P Require Import SigV4.
From S2P Require Import SignatureCheck.
From S2P Require Import Poll.
From S2P Require Import Stream.
From S2P Require Import Body.
From S2P Require Import Form.
From S2P Require Import PostPolicy.
From S2P Require Import Blob.
From S2P Require Import Request.
From S2P Require Import Response.
From S2P Require Import Range.
From S2P Require Import ETag.
From S2P Require Import Timestamp.
From S2P Require Import Xml.
From S2P Require Import XmlStruct.
From S2P Require Import XmlDtoA.
From S2P Require Import XmlDtoB.
From S2P Require Import XmlDtoC.
From S2P Require Import XmlOutputs.
From S2P Require Import XmlDocs.
From S2P Require Import EventStream.
From S2P Require Import CopySource.
From S2P Require Import HeaderNames.
From S2P Require Import HttpDe.
From S2P Require Import HttpSer.

Definition RequestPayer : Type := bytes.
Definition AnnotationDirective : Type := bytes.
Definition MetadataDirective : Type := bytes.
Definition ObjectLockMode : Type := bytes.
Definition TaggingDirective : Type := bytes.
Definition BucketCannedACL : Type := bytes.
Definition BucketNamespace : Type := bytes.
Definition SessionMode : Type := bytes.
Definition ChecksumMode : Type := bytes.
Definition ObjectAttributes : Type := bytes.
Definition ArchiveStatus : Type := bytes.
Definition OptionalObjectAttributes : Type := bytes.

(** ** Inputs *)

Record AbortMultipartUploadInput := mk_AbortMultipartUploadInput {
  AbortMultipartUploadInput_bucket : bytes;
  AbortMultipartUploadInput_expected_bucket_owner : option bytes;
  AbortMultipartUploadInput_if_match_initiated_time : option Timestamp;
  AbortMultipartUploadInput_key : bytes;
  AbortMultipartUploadInput_request_payer : option RequestPayer;
  AbortMultipartUploadInput_upload_id : bytes
}.

Record CompleteMultipartUploadInput := mk_CompleteMultipartUploadInput {
  CompleteMultipartUploadInput_bucket : bytes;
  CompleteMultipartUploadInput_checksum_crc32 : option bytes;
  CompleteMultipartUploadInput_checksum_crc32c : option bytes;
  CompleteMultipartUploadInput_checksum_crc64nvme : option bytes;
  CompleteMultipartUploadInput_checksum_md5 : option bytes;
  CompleteMultipartUploadInput_checksum_sha1 : option bytes;
  CompleteMultipartUploadInput_checksum_sha256 : option bytes;
  CompleteMultipartUploadInput_checksum_sha512 : option bytes;
  CompleteMultipartUploadInput_checksum_type : option ChecksumType;
  CompleteMultipartUploadInput_checksum_xxhash128 : option bytes;
  CompleteMultipartUploadInput_checksum_xxhash3 : option bytes;
  CompleteMultipartUploadInput_checksum_xxhash64 : option bytes;
  CompleteMultipartUploadInput_expected_bucket_owner : option bytes;
  CompleteMultipartUploadInput_if_match : option ETagCondition;
  CompleteMultipartUploadInput_if_none_match : option ETagCondition;
  CompleteMultipartUploadInput_key : bytes;
  CompleteMultipartUploadInput_mpu_object_size : option Z;
  CompleteMultipartUploadInput_multipart_upload : option CompletedMultipartUpload;
  CompleteMultipartUploadInput_request_payer : option RequestPayer;
  CompleteMultipartUploadInput_sse_customer_algorithm : option bytes;
  CompleteMultipartUploadInput_sse_customer_key : option bytes;
  CompleteMultipartUploadInput_sse_customer_key_md5 : option bytes;
  CompleteMultipartUploadInput_upload_id : bytes
}.

Record CopyObjectInput := mk_CopyObjectInput {
  CopyObjectInput_acl : option ObjectCannedACL;
  CopyObjectInput_annotation_directive : option AnnotationDirective;
  CopyObjectInput_bucket : bytes;
  CopyObjectInput_bucket_key_enabled : option bool;
  CopyObjectInput_cache_control : option bytes;
  CopyObjectInput_checksum_algorithm : option ChecksumAlgorithm;
  CopyObjectInput_content_disposition : option bytes;
  CopyObjectInput_content_encoding : option bytes;
  CopyObjectInput_content_language : option bytes;
  CopyObjectInput_content_type : option bytes;
  CopyObjectInput_copy_source : CopySource;
  CopyObjectInput_copy_source_if_match : option ETagCondition;
  CopyObjectInput_copy_source_if_modified_since : option Timestamp;
  CopyObjectInput_copy_source_if_none_match : option ETagCondition;
  CopyObjectInput_copy_source_if_unmodified_since : option Timestamp;
  CopyObjectInput_copy_source_sse_customer_algorithm : option bytes;
  CopyObjectInput_copy_source_sse_customer_key : option bytes;
  CopyObjectInput_copy_source_sse_customer_key_md5 : option bytes;
  CopyObjectInput_expected_bucket_owner : option bytes;
  CopyObjectInput_expected_source_bucket_owner : option bytes;
  CopyObjectInput_expires : option bytes;
  CopyObjectInput_grant_full_control : option bytes;
  CopyObjectInput_grant_read : option bytes;
  CopyObjectInput_grant_read_acp : option bytes;
  CopyObjectInput_grant_write_acp : option bytes;
  CopyObjectInput_if_match : option ETagCondition;
  CopyObjectInput_if_none_match : option ETagCondition;
  CopyObjectInput_key : bytes;
  CopyObjectInput_metadata : option Metadata;
  CopyObjectInput_metadata_directive : option MetadataDirective;
  CopyObjectInput_object_lock_legal_hold_status : option ObjectLockLegalHoldStatus;
  CopyObjectInput_object_lock_mode : option ObjectLockMode;
  CopyObjectInput_object_lock_retain_until_date : option Timestamp;
  CopyObjectInput_request_payer : option RequestPayer;
  CopyObjectInput_sse_customer_algorithm : option bytes;
  CopyObjectInput_sse_customer_key : option bytes;
  CopyObjectInput_sse_customer_key_md5 : option bytes;
  CopyObjectInput_ssekms_encryption_context : option bytes;
  CopyObjectInput_ssekms_key_id : option bytes;
  CopyObjectInput_server_side_encryption : option ServerSideEncryption;
  CopyObjectInput_storage_class : option StorageClass;
  CopyObjectInput_tagging : option bytes;
  CopyObjectInput_tagging_directive : option TaggingDirective;
  CopyObjectInput_website_redirect_location : option bytes
}.

Record CreateBucketInput := mk_CreateBucketInput {
  CreateBucketInput_acl : option BucketCannedACL;
  CreateBucketInput_bucket : bytes;
  CreateBucketInput_bucket_namespace : option BucketNamespace;
  CreateBucketInput_create_bucket_configuration : option CreateBucketConfiguration;
  CreateBucketInput_grant_full_control : option bytes;
  CreateBucketInput_grant_read : option bytes;
  CreateBucketInput_grant_read_acp : option bytes;
  CreateBucketInput_grant_write : option bytes;
  CreateBucketInput_grant_write_acp : option bytes;
  CreateBucketInput_object_lock_enabled_for_bucket : option bool;
  CreateBucketInput_object_ownership : option ObjectOwnership
}.

Record CreateBucketMetadataConfigurationInput := mk_CreateBucketMetadataConfigurationInput {
  CreateBucketMetadataConfigurationInput_bucket : bytes;
  CreateBucketMetadataConfigurationInput_checksum_algorithm : option ChecksumAlgorithm;
  CreateBucketMetadataConfigurationInput_content_md5 : option bytes;
  CreateBucketMetadataConfigurationInput_expected_bucket_owner : option bytes;
  CreateBucketMetadataConfigurationInput_metadata_configuration : MetadataConfiguration
}.

Record CreateBucketMetadataTableConfigurationInput := mk_CreateBucketMetadataTableConfigurationInput {
  CreateBucketMetadataTableConfigurationInput_bucket : bytes;
  CreateBucketMetadataTableConfigurationInput_checksum_algorithm : option ChecksumAlgorithm;
  CreateBucketMetadataTableConfigurationInput_content_md5 : option bytes;
  CreateBucketMetadataTableConfigurationInput_expected_bucket_owner : option bytes;
  CreateBucketMetadataTableConfigurationInput_metadata_table_configuration : MetadataTableConfiguration
}.

Record CreateMultipartUploadInput := mk_CreateMultipartUploadInput {
  CreateMultipartUploadInput_acl : option ObjectCannedACL;
  CreateMultipartUploadInput_bucket : bytes;
  CreateMultipartUploadInput_bucket_key_enabled : option bool;
  CreateMultipartUploadInput_cache_control : option bytes;
  CreateMultipartUploadInput_checksum_algorithm : option ChecksumAlgorithm;
  CreateMultipartUploadInput_checksum_type : option ChecksumType;
  CreateMultipartUploadInput_content_disposition : option bytes;
  CreateMultipartUploadInput_content_encoding : option bytes;
  CreateMultipartUploadInput_content_language : option bytes;
  CreateMultipartUploadInput_content_type : option bytes;
  CreateMultipartUploadInput_expected_bucket_owner : option bytes;
  CreateMultipartUploadInput_expires : option bytes;
  CreateMultipartUploadInput_grant_full_control : option bytes;
  CreateMultipartUploadInput_grant_read : option bytes;
  CreateMultipartUploadInput_grant_read_acp : option bytes;
  CreateMultipartUploadInput_grant_write_acp : option bytes;
  CreateMultipartUploadInput_key : bytes;
  CreateMultipartUploadInput_metadata : option Metadata;
  CreateMultipartUploadInput_object_lock_legal_hold_status : option ObjectLockLegalHoldStatus;
  CreateMultipartUploadInput_object_lock_mode : option ObjectLockMode;
  CreateMultipartUploadInput_object_lock_retain_until_date : option Timestamp;
  CreateMultipartUploadInput_request_payer : option RequestPayer;
  CreateMultipartUploadInput_sse_customer_algorithm : option bytes;
  CreateMultipartUploadInput_sse_customer_key : option bytes;
  CreateMultipartUploadInput_sse_customer_key_md5 : option bytes;
  CreateMultipartUploadInput_ssekms_encryption_context : option bytes;
  CreateMultipartUploadInput_ssekms_key_id : option bytes;
  CreateMultipartUploadInput_server_side_encryption : option ServerSideEncryption;
  CreateMultipartUploadInput_storage_class : option StorageClass;
  CreateMultipartUploadInput_tagging : option bytes;
  CreateMultipartUploadInput_website_redirect_location : option bytes
}.

Record CreateSessionInput := mk_CreateSessionInput {
  CreateSessionInput_bucket : bytes;
  CreateSessionInput_bucket_key_enabled : option bool;
  CreateSessionInput_ssekms_encryption_context : option bytes;
  CreateSessionInput_ssekms_key_id : option bytes;
  CreateSessionInput_server_side_encryption : option ServerSideEncryption;
  CreateSessionInput_session_mode : option SessionMode
}.

Record DeleteBucketInput := mk_DeleteBucketInput {
  DeleteBucketInput_bucket : bytes;
  DeleteBucketInput_expected_bucket_owner : option bytes
}.

Record DeleteBucketAnalyticsConfigurationInput := mk_DeleteBucketAnalyticsConfigurationInput {
  DeleteBucketAnalyticsConfigurationInput_bucket : bytes;
  DeleteBucketAnalyticsConfigurationInput_expected_bucket_owner : option bytes;
  DeleteBucketAnalyticsConfigurationInput_id : bytes
}.

Record DeleteBucketCorsInput := mk_DeleteBucketCorsInput {
  DeleteBucketCorsInput_bucket : bytes;
  DeleteBucketCorsInput_expected_bucket_owner : option bytes
}.

Record DeleteBucketEncryptionInput := mk_DeleteBucketEncryptionInput {
  DeleteBucketEncryptionInput_bucket : bytes;
  DeleteBucketEncryptionInput_expected_bucket_owner : option bytes
}.

Record DeleteBucketIntelligentTieringConfigurationInput := mk_DeleteBucketIntelligentTieringConfigurationInput {
  DeleteBucketIntelligentTieringConfigurationInput_bucket : bytes;
  DeleteBucketIntelligentTieringConfigurationInput_expected_bucket_owner : option bytes;
  DeleteBucketIntelligentTieringConfigurationInput_id : bytes
}.

Record DeleteBucketInventoryConfigurationInput := mk_DeleteBucketInventoryConfigurationInput {
  DeleteBucketInventoryConfigurationInput_bucket : bytes;
  DeleteBucketInventoryConfigurationInput_expected_bucket_owner : option bytes;
  DeleteBucketInventoryConfigurationInput_id : bytes
}.

Record DeleteBucketLifecycleInput := mk_DeleteBucketLifecycleInput {
  DeleteBucketLifecycleInput_bucket : bytes;
  DeleteBucketLifecycleInput_expected_bucket_owner : option bytes
}.

Record DeleteBucketMetadataConfigurationInput := mk_DeleteBucketMetadataConfigurationInput {
  DeleteBucketMetadataConfigurationInput_bucket : bytes;
  DeleteBucketMetadataConfigurationInput_expected_bucket_owner : option bytes
}.

Record DeleteBucketMetadataTableConfigurationInput := mk_DeleteBucketMetadataTableConfigurationInput {
  DeleteBucketMetadataTableConfigurationInput_bucket : bytes;
  DeleteBucketMetadataTableConfigurationInput_expected_bucket_owner : option bytes
}.

Record DeleteBucketMetricsConfigurationInput := mk_DeleteBucketMetricsConfigurationInput {
  DeleteBucketMetricsConfigurationInput_bucket : bytes;
  DeleteBucketMetricsConfigurationInput_expected_bucket_owner : option bytes;
  DeleteBucketMetricsConfigurationInput_id : bytes
}.

Record DeleteBucketOwnershipControlsInput := mk_DeleteBucketOwnershipControlsInput {
  DeleteBucketOwnershipControlsInput_bucket : bytes;
  DeleteBucketOwnershipControlsInput_expected_bucket_owner : option bytes
}.

Record DeleteBucketPolicyInput := mk_DeleteBucketPolicyInput {
  DeleteBucketPolicyInput_bucket : bytes;
  DeleteBucketPolicyInput_expected_bucket_owner : option bytes
}.

Record DeleteBucketReplicationInput := mk_DeleteBucketReplicationInput {
  DeleteBucketReplicationInput_bucket : bytes;
  DeleteBucketReplicationInput_expected_bucket_owner : option bytes
}.

Record DeleteBucketTaggingInput := mk_DeleteBucketTaggingInput {
  DeleteBucketTaggingInput_bucket : bytes;
  DeleteBucketTaggingInput_expected_bucket_owner : option bytes
}.

Record DeleteBucketWebsiteInput := mk_DeleteBucketWebsiteInput {
  DeleteBucketWebsiteInput_bucket : bytes;
  DeleteBucketWebsiteInput_expected_bucket_owner : option bytes
}.

Record DeleteObjectInput := mk_DeleteObjectInput {
  DeleteObjectInput_bucket : bytes;
  DeleteObjectInput_bypass_governance_retention : option bool;
  DeleteObjectInput_expected_bucket_owner : option bytes;
  DeleteObjectInput_if_match : option ETagCondition;
  DeleteObjectInput_if_match_last_modified_time : option Timestamp;
  DeleteObjectInput_if_match_size : option Z;
  DeleteObjectInput_key : bytes;
  DeleteObjectInput_mfa : option bytes;
  DeleteObjectInput_request_payer : option RequestPayer;
  DeleteObjectInput_version_id : option bytes
}.

Record DeleteObjectAnnotationInput := mk_DeleteObjectAnnotationInput {
  DeleteObjectAnnotationInput_annotation_name : bytes;
  DeleteObjectAnnotationInput_bucket : bytes;
  DeleteObjectAnnotationInput_expected_bucket_owner : option bytes;
  DeleteObjectAnnotationInput_key : bytes;
  DeleteObjectAnnotationInput_object_if_match : option bytes;
  DeleteObjectAnnotationInput_request_payer : option RequestPayer;
  DeleteObjectAnnotationInput_version_id : option bytes
}.

Record DeleteObjectTaggingInput := mk_DeleteObjectTaggingInput {
  DeleteObjectTaggingInput_bucket : bytes;
  DeleteObjectTaggingInput_expected_bucket_owner : option bytes;
  DeleteObjectTaggingInput_key : bytes;
  DeleteObjectTaggingInput_version_id : option bytes
}.

Record DeleteObjectsInput := mk_DeleteObjectsInput {
  DeleteObjectsInput_bucket : bytes;
  DeleteObjectsInput_bypass_governance_retention : option bool;
  DeleteObjectsInput_checksum_algorithm : option ChecksumAlgorithm;
  DeleteObjectsInput_delete : Delete;
  DeleteObjectsInput_expected_bucket_owner : option bytes;
  DeleteObjectsInput_mfa : option bytes;
  DeleteObjectsInput_request_payer : option RequestPayer
}.

Record DeletePublicAccessBlockInput := mk_DeletePublicAccessBlockInput {
  DeletePublicAccessBlockInput_bucket : bytes;
  DeletePublicAccessBlockInput_expected_bucket_owner : option bytes
}.

Record GetBucketAbacInput := mk_GetBucketAbacInput {
  GetBucketAbacInput_bucket : bytes;
  GetBucketAbacInput_expected_bucket_owner : option bytes
}.

Record GetBucketAccelerateConfigurationInput := mk_GetBucketAccelerateConfigurationInput {
  GetBucketAccelerateConfigurationInput_bucket : bytes;
  GetBucketAccelerateConfigurationInput_expected_bucket_owner : option bytes;
  GetBucketAccelerateConfigurationInput_request_payer : option RequestPayer
}.

Record GetBucketAclInput := mk_GetBucketAclInput {
  GetBucketAclInput_bucket : bytes;
  GetBucketAclInput_expected_bucket_owner : option bytes
}.

Record GetBucketAnalyticsConfigurationInput := mk_GetBucketAnalyticsConfigurationInput {
  GetBucketAnalyticsConfigurationInput_bucket : bytes;
  GetBucketAnalyticsConfigurationInput_expected_bucket_owner : option bytes;
  GetBucketAnalyticsConfigurationInput_id : bytes
}.

Record GetBucketCorsInput := mk_GetBucketCorsInput {
  GetBucketCorsInput_bucket : bytes;
  GetBucketCorsInput_expected_bucket_owner : option bytes
}.

Record GetBucketEncryptionInput := mk_GetBucketEncryptionInput {
  GetBucketEncryptionInput_bucket : bytes;
  GetBucketEncryptionInput_expected_bucket_owner : option bytes
}.

Record GetBucketIntelligentTieringConfigurationInput := mk_GetBucketIntelligentTieringConfigurationInput {
  GetBucketIntelligentTieringConfigurationInput_bucket : bytes;
  GetBucketIntelligentTieringConfigurationInput_expected_bucket_owner : option bytes;
  GetBucketIntelligentTieringConfigurationInput_id : bytes
}.

Record GetBucketInventoryConfigurationInput := mk_GetBucketInventoryConfigurationInput {
  GetBucketInventoryConfigurationInput_bucket : bytes;
  GetBucketInventoryConfigurationInput_expected_bucket_owner : option bytes;
  GetBucketInventoryConfigurationInput_id : bytes
}.

Record GetBucketLifecycleConfigurationInput := mk_GetBucketLifecycleConfigurationInput {
  GetBucketLifecycleConfigurationInput_bucket : bytes;
  GetBucketLifecycleConfigurationInput_expected_bucket_owner : option bytes
}.

Record GetBucketLocationInput := mk_GetBucketLocationInput {
  GetBucketLocationInput_bucket : bytes;
  GetBucketLocationInput_expected_bucket_owner : option bytes
}.

Record GetBucketLoggingInput := mk_GetBucketLoggingInput {
  GetBucketLoggingInput_bucket : bytes;
  GetBucketLoggingInput_expected_bucket_owner : option bytes
}.

Record GetBucketMetadataConfigurationInput := mk_GetBucketMetadataConfigurationInput {
  GetBucketMetadataConfigurationInput_bucket : bytes;
  GetBucketMetadataConfigurationInput_expected_bucket_owner : option bytes
}.

Record GetBucketMetadataTableConfigurationInput := mk_GetBucketMetadataTableConfigurationInput {
  GetBucketMetadataTableConfigurationInput_bucket : bytes;
  GetBucketMetadataTableConfigurationInput_expected_bucket_owner : option bytes
}.

Record GetBucketMetricsConfigurationInput := mk_GetBucketMetricsConfigurationInput {
  GetBucketMetricsConfigurationInput_bucket : bytes;
  GetBucketMetricsConfigurationInput_expected_bucket_owner : option bytes;
  GetBucketMetricsConfigurationInput_id : bytes
}.

Record GetBucketNotificationConfigurationInput := mk_GetBucketNotificationConfigurationInput {
  GetBucketNotificationConfigurationInput_bucket : bytes;
  GetBucketNotificationConfigurationInput_expected_bucket_owner : option bytes
}.

Record GetBucketOwnershipControlsInput := mk_GetBucketOwnershipControlsInput {
  GetBucketOwnershipControlsInput_bucket : bytes;
  GetBucketOwnershipControlsInput_expected_bucket_owner : option bytes
}.

Record GetBucketPolicyInput := mk_GetBucketPolicyInput {
  GetBucketPolicyInput_bucket : bytes;
  GetBucketPolicyInput_expected_bucket_owner : option bytes
}.

Record GetBucketPolicyStatusInput := mk_GetBucketPolicyStatusInput {
  GetBucketPolicyStatusInput_bucket : bytes;
  GetBucketPolicyStatusInput_expected_bucket_owner : option bytes
}.

Record GetBucketReplicationInput := mk_GetBucketReplicationInput {
  GetBucketReplicationInput_bucket : bytes;
  GetBucketReplicationInput_expected_bucket_owner : option bytes
}.

Record GetBucketRequestPaymentInput := mk_GetBucketRequestPaymentInput {
  GetBucketRequestPaymentInput_bucket : bytes;
  GetBucketRequestPaymentInput_expected_bucket_owner : option bytes
}.

Record GetBucketTaggingInput := mk_GetBucketTaggingInput {
  GetBucketTaggingInput_bucket : bytes;
  GetBucketTaggingInput_expected_bucket_owner : option bytes
}.

Record GetBucketVersioningInput := mk_GetBucketVersioningInput {
  GetBucketVersioningInput_bucket : bytes;
  GetBucketVersioningInput_expected_bucket_owner : option bytes
}.

Record GetBucketWebsiteInput := mk_GetBucketWebsiteInput {
  GetBucketWebsiteInput_bucket : bytes;
  GetBucketWebsiteInput_expected_bucket_owner : option bytes
}.

Record GetObjectInput := mk_GetObjectInput {
  GetObjectInput_bucket : bytes;
  GetObjectInput_checksum_mode : option ChecksumMode;
  GetObjectInput_expected_bucket_owner : option bytes;
  GetObjectInput_if_match : option ETagCondition;
  GetObjectInput_if_modified_since : option Timestamp;
  GetObjectInput_if_none_match : option ETagCondition;
  GetObjectInput_if_unmodified_since : option Timestamp;
  GetObjectInput_key : bytes;
  GetObjectInput_part_number : option Z;
  GetObjectInput_range : option Range;
  GetObjectInput_request_payer : option RequestPayer;
  GetObjectInput_response_cache_control : option bytes;
  GetObjectInput_response_content_disposition : option bytes;
  GetObjectInput_response_content_encoding : option bytes;
  GetObjectInput_response_content_language : option bytes;
  GetObjectInput_response_content_type : option bytes;
  GetObjectInput_response_expires : option Timestamp;
  GetObjectInput_sse_customer_algorithm : option bytes;
  GetObjectInput_sse_customer_key : option bytes;
  GetObjectInput_sse_customer_key_md5 : option bytes;
  GetObjectInput_version_id : option bytes
}.

Record GetObjectAclInput := mk_GetObjectAclInput {
  GetObjectAclInput_bucket : bytes;
  GetObjectAclInput_expected_bucket_owner : option bytes;
  GetObjectAclInput_key : bytes;
  GetObjectAclInput_request_payer : option RequestPayer;
  GetObjectAclInput_version_id : option bytes
}.

Record GetObjectAnnotationInput := mk_GetObjectAnnotationInput {
  GetObjectAnnotationInput_annotation_name : bytes;
  GetObjectAnnotationInput_bucket : bytes;
  GetObjectAnnotationInput_checksum_mode : option ChecksumMode;
  GetObjectAnnotationInput_expected_bucket_owner : option bytes;
  GetObjectAnnotationInput_key : bytes;
  GetObjectAnnotationInput_request_payer : option RequestPayer;
  GetObjectAnnotationInput_version_id : option bytes
}.

Record GetObjectAttributesInput := mk_GetObjectAttributesInput {
  GetObjectAttributesInput_bucket : bytes;
  GetObjectAttributesInput_expected_bucket_owner : option bytes;
  GetObjectAttributesInput_key : bytes;
  GetObjectAttributesInput_max_parts : option Z;
  GetObjectAttributesInput_object_attributes : list ObjectAttributes;
  GetObjectAttributesInput_part_number_marker : option Z;
  GetObjectAttributesInput_request_payer : option RequestPayer;
  GetObjectAttributesInput_sse_customer_algorithm : option bytes;
  GetObjectAttributesInput_sse_customer_key : option bytes;
  GetObjectAttributesInput_sse_customer_key_md5 : option bytes;
  GetObjectAttributesInput_version_id : option bytes
}.

Record GetObjectLegalHoldInput := mk_GetObjectLegalHoldInput {
  GetObjectLegalHoldInput_bucket : bytes;
  GetObjectLegalHoldInput_expected_bucket_owner : option bytes;
  GetObjectLegalHoldInput_key : bytes;
  GetObjectLegalHoldInput_request_payer : option RequestPayer;
  GetObjectLegalHoldInput_version_id : option bytes
}.

Record GetObjectLockConfigurationInput := mk_GetObjectLockConfigurationInput {
  GetObjectLockConfigurationInput_bucket : bytes;
  GetObjectLockConfigurationInput_expected_bucket_owner : option bytes
}.

Record GetObjectRetentionInput := mk_GetObjectRetentionInput {
  GetObjectRetentionInput_bucket : bytes;
  GetObjectRetentionInput_expected_bucket_owner : option bytes;
  GetObjectRetentionInput_key : bytes;
  GetObjectRetentionInput_request_payer : option RequestPayer;
  GetObjectRetentionInput_version_id : option bytes
}.

Record GetObjectTaggingInput := mk_GetObjectTaggingInput {
  GetObjectTaggingInput_bucket : bytes;
  GetObjectTaggingInput_expected_bucket_owner : option bytes;
  GetObjectTaggingInput_key : bytes;
  GetObjectTaggingInput_request_payer : option RequestPayer;
  GetObjectTaggingInput_version_id : option bytes
}.

Record GetObjectTorrentInput := mk_GetObjectTorrentInput {
  GetObjectTorrentInput_bucket : bytes;
  GetObjectTorrentInput_expected_bucket_owner : option bytes;
  GetObjectTorrentInput_key : bytes;
  GetObjectTorrentInput_request_payer : option RequestPayer
}.

Record GetPublicAccessBlockInput := mk_GetPublicAccessBlockInput {
  GetPublicAccessBlockInput_bucket : bytes;
  GetPublicAccessBlockInput_expected_bucket_owner : option bytes
}.

Record HeadBucketInput := mk_HeadBucketInput {
  HeadBucketInput_bucket : bytes;
  HeadBucketInput_expected_bucket_owner : option bytes
}.

Record HeadObjectInput := mk_HeadObjectInput {
  HeadObjectInput_bucket : bytes;
  HeadObjectInput_checksum_mode : option ChecksumMode;
  HeadObjectInput_expected_bucket_owner : option bytes;
  HeadObjectInput_if_match : option ETagCondition;
  HeadObjectInput_if_modified_since : option Timestamp;
  HeadObjectInput_if_none_match : option ETagCondition;
  HeadObjectInput_if_unmodified_since : option Timestamp;
  HeadObjectInput_key : bytes;
  HeadObjectInput_part_number : option Z;
  HeadObjectInput_range : option Range;
  HeadObjectInput_request_payer : option RequestPayer;
  HeadObjectInput_response_cache_control : option bytes;
  HeadObjectInput_response_content_disposition : option bytes;
  HeadObjectInput_response_content_encoding : option bytes;
  HeadObjectInput_response_content_language : option bytes;
  HeadObjectInput_response_content_type : option bytes;
  HeadObjectInput_response_expires : option Timestamp;
  HeadObjectInput_sse_customer_algorithm : option bytes;
  HeadObjectInput_sse_customer_key : option bytes;
  HeadObjectInput_sse_customer_key_md5 : option bytes;
  HeadObjectInput_version_id : option bytes
}.

Record ListBucketAnalyticsConfigurationsInput := mk_ListBucketAnalyticsConfigurationsInput {
  ListBucketAnalyticsConfigurationsInput_bucket : bytes;
  ListBucketAnalyticsConfigurationsInput_continuation_token : option bytes;
  ListBucketAnalyticsConfigurationsInput_expected_bucket_owner : option bytes
}.

Record ListBucketIntelligentTieringConfigurationsInput := mk_ListBucketIntelligentTieringConfigurationsInput {
  ListBucketIntelligentTieringConfigurationsInput_bucket : bytes;
  ListBucketIntelligentTieringConfigurationsInput_continuation_token : option bytes;
  ListBucketIntelligentTieringConfigurationsInput_expected_bucket_owner : option bytes
}.

Record ListBucketInventoryConfigurationsInput := mk_ListBucketInventoryConfigurationsInput {
  ListBucketInventoryConfigurationsInput_bucket : bytes;
  ListBucketInventoryConfigurationsInput_continuation_token : option bytes;
  ListBucketInventoryConfigurationsInput_expected_bucket_owner : option bytes
}.

Record ListBucketMetricsConfigurationsInput := mk_ListBucketMetricsConfigurationsInput {
  ListBucketMetricsConfigurationsInput_bucket : bytes;
  ListBucketMetricsConfigurationsInput_continuation_token : option bytes;
  ListBucketMetricsConfigurationsInput_expected_bucket_owner : option bytes
}.

Record ListBucketsInput := mk_ListBucketsInput {
  ListBucketsInput_bucket_region : option bytes;
  ListBucketsInput_continuation_token : option bytes;
  ListBucketsInput_max_buckets : option Z;
  ListBucketsInput_prefix : option bytes
}.

Record ListDirectoryBucketsInput := mk_ListDirectoryBucketsInput {
  ListDirectoryBucketsInput_continuation_token : option bytes;
  ListDirectoryBucketsInput_max_directory_buckets : option Z
}.

Record ListMultipartUploadsInput := mk_ListMultipartUploadsInput {
  ListMultipartUploadsInput_bucket : bytes;
  ListMultipartUploadsInput_delimiter : option bytes;
  ListMultipartUploadsInput_encoding_type : option EncodingType;
  ListMultipartUploadsInput_expected_bucket_owner : option bytes;
  ListMultipartUploadsInput_key_marker : option bytes;
  ListMultipartUploadsInput_max_uploads : option Z;
  ListMultipartUploadsInput_prefix : option bytes;
  ListMultipartUploadsInput_request_payer : option RequestPayer;
  ListMultipartUploadsInput_upload_id_marker : option bytes
}.

Record ListObjectAnnotationsInput := mk_ListObjectAnnotationsInput {
  ListObjectAnnotationsInput_annotation_prefix : option bytes;
  ListObjectAnnotationsInput_bucket : bytes;
  ListObjectAnnotationsInput_continuation_token : option bytes;
  ListObjectAnnotationsInput_expected_bucket_owner : option bytes;
  ListObjectAnnotationsInput_key : bytes;
  ListObjectAnnotationsInput_max_annotation_results : option Z;
  ListObjectAnnotationsInput_request_payer : option RequestPayer;
  ListObjectAnnotationsInput_version_id : option bytes
}.

Record ListObjectVersionsInput := mk_ListObjectVersionsInput {
  ListObjectVersionsInput_bucket : bytes;
  ListObjectVersionsInput_delimiter : option bytes;
  ListObjectVersionsInput_encoding_type : option EncodingType;
  ListObjectVersionsInput_expected_bucket_owner : option bytes;
  ListObjectVersionsInput_key_marker : option bytes;
  ListObjectVersionsInput_max_keys : option Z;
  ListObjectVersionsInput_optional_object_attributes : option (list OptionalObjectAttributes);
  ListObjectVersionsInput_prefix : option bytes;
  ListObjectVersionsInput_request_payer : option RequestPayer;
  ListObjectVersionsInput_version_id_marker : option bytes
}.

Record ListObjectsInput := mk_ListObjectsInput {
  ListObjectsInput_bucket : bytes;
  ListObjectsInput_delimiter : option bytes;
  ListObjectsInput_encoding_type : option EncodingType;
  ListObjectsInput_expected_bucket_owner : option bytes;
  ListObjectsInput_marker : option bytes;
  ListObjectsInput_max_keys : option Z;
  ListObjectsInput_optional_object_attributes : option (list OptionalObjectAttributes);
  ListObjectsInput_prefix : option bytes;
  ListObjectsInput_request_payer : option RequestPayer
}.

Record ListObjectsV2Input := mk_ListObjectsV2Input {
  ListObjectsV2Input_bucket : bytes;
  ListObjectsV2Input_continuation_token : option bytes;
  ListObjectsV2Input_delimiter : option bytes;
  ListObjectsV2Input_encoding_type : option EncodingType;
  ListObjectsV2Input_expected_bucket_owner : option bytes;
  ListObjectsV2Input_fetch_owner : option bool;
  ListObjectsV2Input_max_keys : option Z;
  ListObjectsV2Input_optional_object_attributes : option (list OptionalObjectAttributes);
  ListObjectsV2Input_prefix : option bytes;
  ListObjectsV2Input_request_payer : option RequestPayer;
  ListObjectsV2Input_start_after : option bytes
}.

Record ListPartsInput := mk_ListPartsInput {
  ListPartsInput_bucket : bytes;
  ListPartsInput_expected_bucket_owner : option bytes;
  ListPartsInput_key : bytes;
  ListPartsInput_max_parts : option Z;
  ListPartsInput_part_number_marker : option Z;
  ListPartsInput_request_payer : option RequestPayer;
  ListPartsInput_sse_customer_algorithm : option bytes;
  ListPartsInput_sse_customer_key : option bytes;
  ListPartsInput_sse_customer_key_md5 : option bytes;
  ListPartsInput_upload_id : bytes
}.

Record PostObjectInput := mk_PostObjectInput {
  PostObjectInput_acl : option ObjectCannedACL;
  PostObjectInput_body : option StreamingBlob;
  PostObjectInput_bucket : bytes;
  PostObjectInput_bucket_key_enabled : option bool;
  PostObjectInput_cache_control : option bytes;
  PostObjectInput_checksum_algorithm : option ChecksumAlgorithm;
  PostObjectInput_checksum_crc32 : option bytes;
  PostObjectInput_checksum_crc32c : option bytes;
  PostObjectInput_checksum_crc64nvme : option bytes;
  PostObjectInput_checksum_md5 : option bytes;
  PostObjectInput_checksum_sha1 : option bytes;
  PostObjectInput_checksum_sha256 : option bytes;
  PostObjectInput_checksum_sha512 : option bytes;
  PostObjectInput_checksum_xxhash128 : option bytes;
  PostObjectInput_checksum_xxhash3 : option bytes;
  PostObjectInput_checksum_xxhash64 : option bytes;
  PostObjectInput_content_disposition : option bytes;
  PostObjectInput_content_encoding : option bytes;
  PostObjectInput_content_language : option bytes;
  PostObjectInput_content_length : option Z;
  PostObjectInput_content_md5 : option bytes;
  PostObjectInput_content_type : option bytes;
  PostObjectInput_expected_bucket_owner : option bytes;
  PostObjectInput_expires : option bytes;
  PostObjectInput_grant_full_control : option bytes;
  PostObjectInput_grant_read : option bytes;
  PostObjectInput_grant_read_acp : option bytes;
  PostObjectInput_grant_write_acp : option bytes;
  PostObjectInput_if_match : option ETagCondition;
  PostObjectInput_if_none_match : option ETagCondition;
  PostObjectInput_key : bytes;
  PostObjectInput_metadata : option Metadata;
  PostObjectInput_object_lock_legal_hold_status : option ObjectLockLegalHoldStatus;
  PostObjectInput_object_lock_mode : option ObjectLockMode;
  PostObjectInput_object_lock_retain_until_date : option Timestamp;
  PostObjectInput_request_payer : option RequestPayer;
  PostObjectInput_sse_customer_algorithm : option bytes;
  PostObjectInput_sse_customer_key : option bytes;
  PostObjectInput_sse_customer_key_md5 : option bytes;
  PostObjectInput_ssekms_encryption_context : option bytes;
  PostObjectInput_ssekms_key_id : option bytes;
  PostObjectInput_server_side_encryption : option ServerSideEncryption;
  PostObjectInput_storage_class : option StorageClass;
  PostObjectInput_tagging : option bytes;
  PostObjectInput_website_redirect_location : option bytes;
  PostObjectInput_write_offset_bytes : option Z;
  PostObjectInput_success_action_redirect : option bytes;
  PostObjectInput_success_action_status : option Z;
  PostObjectInput_policy : option PostPolicy
}.

Record PutBucketAbacInput := mk_PutBucketAbacInput {
  PutBucketAbacInput_abac_status : AbacStatus;
  PutBucketAbacInput_bucket : bytes;
  PutBucketAbacInput_checksum_algorithm : option ChecksumAlgorithm;
  PutBucketAbacInput_content_md5 : option bytes;
  PutBucketAbacInput_expected_bucket_owner : option bytes
}.

Record PutBucketAccelerateConfigurationInput := mk_PutBucketAccelerateConfigurationInput {
  PutBucketAccelerateConfigurationInput_accelerate_configuration : AccelerateConfiguration;
  PutBucketAccelerateConfigurationInput_bucket : bytes;
  PutBucketAccelerateConfigurationInput_checksum_algorithm : option ChecksumAlgorithm;
  PutBucketAccelerateConfigurationInput_expected_bucket_owner : option bytes
}.

Record PutBucketAclInput := mk_PutBucketAclInput {
  PutBucketAclInput_acl : option BucketCannedACL;
  PutBucketAclInput_access_control_policy : option AccessControlPolicy;
  PutBucketAclInput_bucket : bytes;
  PutBucketAclInput_checksum_algorithm : option ChecksumAlgorithm;
  PutBucketAclInput_content_md5 : option bytes;
  PutBucketAclInput_expected_bucket_owner : option bytes;
  PutBucketAclInput_grant_full_control : option bytes;
  PutBucketAclInput_grant_read : option bytes;
  PutBucketAclInput_grant_read_acp : option bytes;
  PutBucketAclInput_grant_write : option bytes;
  PutBucketAclInput_grant_write_acp : option bytes
}.

Record PutBucketAnalyticsConfigurationInput := mk_PutBucketAnalyticsConfigurationInput {
  PutBucketAnalyticsConfigurationInput_analytics_configuration : AnalyticsConfiguration;
  PutBucketAnalyticsConfigurationInput_bucket : bytes;
  PutBucketAnalyticsConfigurationInput_expected_bucket_owner : option bytes;
  PutBucketAnalyticsConfigurationInput_id : bytes
}.

Record PutBucketCorsInput := mk_PutBucketCorsInput {
  PutBucketCorsInput_bucket : bytes;
  PutBucketCorsInput_cors_configuration : CORSConfiguration;
  PutBucketCorsInput_checksum_algorithm : option ChecksumAlgorithm;
  PutBucketCorsInput_content_md5 : option bytes;
  PutBucketCorsInput_expected_bucket_owner : option bytes
}.

Record PutBucketEncryptionInput := mk_PutBucketEncryptionInput {
  PutBucketEncryptionInput_bucket : bytes;
  PutBucketEncryptionInput_checksum_algorithm : option ChecksumAlgorithm;
  PutBucketEncryptionInput_content_md5 : option bytes;
  PutBucketEncryptionInput_expected_bucket_owner : option bytes;
  PutBucketEncryptionInput_server_side_encryption_configuration : ServerSideEncryptionConfiguration
}.

Record PutBucketIntelligentTieringConfigurationInput := mk_PutBucketIntelligentTieringConfigurationInput {
  PutBucketIntelligentTieringConfigurationInput_bucket : bytes;
  PutBucketIntelligentTieringConfigurationInput_expected_bucket_owner : option bytes;
  PutBucketIntelligentTieringConfigurationInput_id : bytes;
  PutBucketIntelligentTieringConfigurationInput_intelligent_tiering_configuration : IntelligentTieringConfiguration
}.

Record PutBucketInventoryConfigurationInput := mk_PutBucketInventoryConfigurationInput {
  PutBucketInventoryConfigurationInput_bucket : bytes;
  PutBucketInventoryConfigurationInput_expected_bucket_owner : option bytes;
  PutBucketInventoryConfigurationInput_id : bytes;
  PutBucketInventoryConfigurationInput_inventory_configuration : InventoryConfiguration
}.

Record PutBucketLifecycleConfigurationInput := mk_PutBucketLifecycleConfigurationInput {
  PutBucketLifecycleConfigurationInput_bucket : bytes;
  PutBucketLifecycleConfigurationInput_checksum_algorithm : option ChecksumAlgorithm;
  PutBucketLifecycleConfigurationInput_expected_bucket_owner : option bytes;
  PutBucketLifecycleConfigurationInput_lifecycle_configuration : option BucketLifecycleConfiguration;
  PutBucketLifecycleConfigurationInput_transition_default_minimum_object_size : option TransitionDefaultMinimumObjectSize
}.

Record PutBucketLoggingInput := mk_PutBucketLoggingInput {
  PutBucketLoggingInput_bucket : bytes;
  PutBucketLoggingInput_bucket_logging_status : BucketLoggingStatus;
  PutBucketLoggingInput_checksum_algorithm : option ChecksumAlgorithm;
  PutBucketLoggingInput_content_md5 : option bytes;
  PutBucketLoggingInput_expected_bucket_owner : option bytes
}.

Record PutBucketMetricsConfigurationInput := mk_PutBucketMetricsConfigurationInput {
  PutBucketMetricsConfigurationInput_bucket : bytes;
  PutBucketMetricsConfigurationInput_expected_bucket_owner : option bytes;
  PutBucketMetricsConfigurationInput_id : bytes;
  PutBucketMetricsConfigurationInput_metrics_configuration : MetricsConfiguration
}.

Record PutBucketNotificationConfigurationInput := mk_PutBucketNotificationConfigurationInput {
  PutBucketNotificationConfigurationInput_bucket : bytes;
  PutBucketNotificationConfigurationInput_expected_bucket_owner : option bytes;
  PutBucketNotificationConfigurationInput_notification_configuration : NotificationConfiguration;
  PutBucketNotificationConfigurationInput_skip_destination_validation : option bool
}.

Record PutBucketOwnershipControlsInput := mk_PutBucketOwnershipControlsInput {
  PutBucketOwnershipControlsInput_bucket : bytes;
  PutBucketOwnershipControlsInput_checksum_algorithm : option ChecksumAlgorithm;
  PutBucketOwnershipControlsInput_content_md5 : option bytes;
  PutBucketOwnershipControlsInput_expected_bucket_owner : option bytes;
  PutBucketOwnershipControlsInput_ownership_controls : OwnershipControls
}.

Record PutBucketPolicyInput := mk_PutBucketPolicyInput {
  PutBucketPolicyInput_bucket : bytes;
  PutBucketPolicyInput_checksum_algorithm : option ChecksumAlgorithm;
  PutBucketPolicyInput_confirm_remove_self_bucket_access : option bool;
  PutBucketPolicyInput_content_md5 : option bytes;
  PutBucketPolicyInput_expected_bucket_owner : option bytes;
  PutBucketPolicyInput_policy : bytes
}.

Record PutBucketReplicationInput := mk_PutBucketReplicationInput {
  PutBucketReplicationInput_bucket : bytes;
  PutBucketReplicationInput_checksum_algorithm : option ChecksumAlgorithm;
  PutBucketReplicationInput_content_md5 : option bytes;
  PutBucketReplicationInput_expected_bucket_owner : option bytes;
  PutBucketReplicationInput_replication_configuration : ReplicationConfiguration;
  PutBucketReplicationInput_token : option bytes
}.

Record PutBucketRequestPaymentInput := mk_PutBucketRequestPaymentInput {
  PutBucketRequestPaymentInput_bucket : bytes;
  PutBucketRequestPaymentInput_checksum_algorithm : option ChecksumAlgorithm;
  PutBucketRequestPaymentInput_content_md5 : option bytes;
  PutBucketRequestPaymentInput_expected_bucket_owner : option bytes;
  PutBucketRequestPaymentInput_request_payment_configuration : RequestPaymentConfiguration
}.

Record PutBucketTaggingInput := mk_PutBucketTaggingInput {
  PutBucketTaggingInput_bucket : bytes;
  PutBucketTaggingInput_checksum_algorithm : option ChecksumAlgorithm;
  PutBucketTaggingInput_content_md5 : option bytes;
  PutBucketTaggingInput_expected_bucket_owner : option bytes;
  PutBucketTaggingInput_tagging : Tagging
}.

Record PutBucketVersioningInput := mk_PutBucketVersioningInput {
  PutBucketVersioningInput_bucket : bytes;
  PutBucketVersioningInput_checksum_algorithm : option ChecksumAlgorithm;
  PutBucketVersioningInput_content_md5 : option bytes;
  PutBucketVersioningInput_expected_bucket_owner : option bytes;
  PutBucketVersioningInput_mfa : option bytes;
  PutBucketVersioningInput_versioning_configuration : VersioningConfiguration
}.

Record PutBucketWebsiteInput := mk_PutBucketWebsiteInput {
  PutBucketWebsiteInput_bucket : bytes;
  PutBucketWebsiteInput_checksum_algorithm : option ChecksumAlgorithm;
  PutBucketWebsiteInput_content_md5 : option bytes;
  PutBucketWebsiteInput_expected_bucket_owner : option bytes;
  PutBucketWebsiteInput_website_configuration : WebsiteConfiguration
}.

Record PutObjectInput := mk_PutObjectInput {
  PutObjectInput_acl : option ObjectCannedACL;
  PutObjectInput_body : option StreamingBlob;
  PutObjectInput_bucket : bytes;
  PutObjectInput_bucket_key_enabled : option bool;
  PutObjectInput_cache_control : option bytes;
  PutObjectInput_checksum_algorithm : option ChecksumAlgorithm;
  PutObjectInput_checksum_crc32 : option bytes;
  PutObjectInput_checksum_crc32c : option bytes;
  PutObjectInput_checksum_crc64nvme : option bytes;
  PutObjectInput_checksum_md5 : option bytes;
  PutObjectInput_checksum_sha1 : option bytes;
  PutObjectInput_checksum_sha256 : option bytes;
  PutObjectInput_checksum_sha512 : option bytes;
  PutObjectInput_checksum_xxhash128 : option bytes;
  PutObjectInput_checksum_xxhash3 : option bytes;
  PutObjectInput_checksum_xxhash64 : option bytes;
  PutObjectInput_content_disposition : option bytes;
  PutObjectInput_content_encoding : option bytes;
  PutObjectInput_content_language : option bytes;
  PutObjectInput_content_length : option Z;
  PutObjectInput_content_md5 : option bytes;
  PutObjectInput_content_type : option bytes;
  PutObjectInput_expected_bucket_owner : option bytes;
  PutObjectInput_expires : option bytes;
  PutObjectInput_grant_full_control : option bytes;
  PutObjectInput_grant_read : option bytes;
  PutObjectInput_grant_read_acp : option bytes;
  PutObjectInput_grant_write_acp : option bytes;
  PutObjectInput_if_match : option ETagCondition;
  PutObjectInput_if_none_match : option ETagCondition;
  PutObjectInput_key : bytes;
  PutObjectInput_metadata : option Metadata;
  PutObjectInput_object_lock_legal_hold_status : option ObjectLockLegalHoldStatus;
  PutObjectInput_object_lock_mode : option ObjectLockMode;
  PutObjectInput_object_lock_retain_until_date : option Timestamp;
  PutObjectInput_request_payer : option RequestPayer;
  PutObjectInput_sse_customer_algorithm : option bytes;
  PutObjectInput_sse_customer_key : option bytes;
  PutObjectInput_sse_customer_key_md5 : option bytes;
  PutObjectInput_ssekms_encryption_context : option bytes;
  PutObjectInput_ssekms_key_id : option bytes;
  PutObjectInput_server_side_encryption : option ServerSideEncryption;
  PutObjectInput_storage_class : option StorageClass;
  PutObjectInput_tagging : option bytes;
  PutObjectInput_website_redirect_location : option bytes;
  PutObjectInput_write_offset_bytes : option Z
}.

Record PutObjectAclInput := mk_PutObjectAclInput {
  PutObjectAclInput_acl : option ObjectCannedACL;
  PutObjectAclInput_access_control_policy : option AccessControlPolicy;
  PutObjectAclInput_bucket : bytes;
  PutObjectAclInput_checksum_algorithm : option ChecksumAlgorithm;
  PutObjectAclInput_content_md5 : option bytes;
  PutObjectAclInput_expected_bucket_owner : option bytes;
  PutObjectAclInput_grant_full_control : option bytes;
  PutObjectAclInput_grant_read : option bytes;
  PutObjectAclInput_grant_read_acp : option bytes;
  PutObjectAclInput_grant_write : option bytes;
  PutObjectAclInput_grant_write_acp : option bytes;
  PutObjectAclInput_key : bytes;
  PutObjectAclInput_request_payer : option RequestPayer;
  PutObjectAclInput_version_id : option bytes
}.

Record PutObjectAnnotationInput := mk_PutObjectAnnotationInput {
  PutObjectAnnotationInput_annotation_name : bytes;
  PutObjectAnnotationInput_annotation_payload : option StreamingBlob;
  PutObjectAnnotationInput_bucket : bytes;
  PutObjectAnnotationInput_checksum_algorithm : option ChecksumAlgorithm;
  PutObjectAnnotationInput_checksum_crc32 : option bytes;
  PutObjectAnnotationInput_checksum_crc32c : option bytes;
  PutObjectAnnotationInput_checksum_crc64nvme : option bytes;
  PutObjectAnnotationInput_checksum_md5 : option bytes;
  PutObjectAnnotationInput_checksum_sha1 : option bytes;
  PutObjectAnnotationInput_checksum_sha256 : option bytes;
  PutObjectAnnotationInput_checksum_sha512 : option bytes;
  PutObjectAnnotationInput_checksum_xxhash128 : option bytes;
  PutObjectAnnotationInput_checksum_xxhash3 : option bytes;
  PutObjectAnnotationInput_checksum_xxhash64 : option bytes;
  PutObjectAnnotationInput_content_md5 : option bytes;
  PutObjectAnnotationInput_expected_bucket_owner : option bytes;
  PutObjectAnnotationInput_key : bytes;
  PutObjectAnnotationInput_object_if_match : option bytes;
  PutObjectAnnotationInput_request_payer : option RequestPayer;
  PutObjectAnnotationInput_version_id : option bytes
}.

Record PutObjectLegalHoldInput := mk_PutObjectLegalHoldInput {
  PutObjectLegalHoldInput_bucket : bytes;
  PutObjectLegalHoldInput_checksum_algorithm : option ChecksumAlgorithm;
  PutObjectLegalHoldInput_content_md5 : option bytes;
  PutObjectLegalHoldInput_expected_bucket_owner : option bytes;
  PutObjectLegalHoldInput_key : bytes;
  PutObjectLegalHoldInput_legal_hold : option ObjectLockLegalHold;
  PutObjectLegalHoldInput_request_payer : option RequestPayer;
  PutObjectLegalHoldInput_version_id : option bytes
}.

Record PutObjectLockConfigurationInput := mk_PutObjectLockConfigurationInput {
  PutObjectLockConfigurationInput_bucket : bytes;
  PutObjectLockConfigurationInput_checksum_algorithm : option ChecksumAlgorithm;
  PutObjectLockConfigurationInput_content_md5 : option bytes;
  PutObjectLockConfigurationInput_expected_bucket_owner : option bytes;
  PutObjectLockConfigurationInput_object_lock_configuration : option ObjectLockConfiguration;
  PutObjectLockConfigurationInput_request_payer : option RequestPayer;
  PutObjectLockConfigurationInput_token : option bytes
}.

Record PutObjectRetentionInput := mk_PutObjectRetentionInput {
  PutObjectRetentionInput_bucket : bytes;
  PutObjectRetentionInput_bypass_governance_retention : option bool;
  PutObjectRetentionInput_checksum_algorithm : option ChecksumAlgorithm;
  PutObjectRetentionInput_content_md5 : option bytes;
  PutObjectRetentionInput_expected_bucket_owner : option bytes;
  PutObjectRetentionInput_key : bytes;
  PutObjectRetentionInput_request_payer : option RequestPayer;
  PutObjectRetentionInput_retention : option ObjectLockRetention;
  PutObjectRetentionInput_version_id : option bytes
}.

Record PutObjectTaggingInput := mk_PutObjectTaggingInput {
  PutObjectTaggingInput_bucket : bytes;
  PutObjectTaggingInput_checksum_algorithm : option ChecksumAlgorithm;
  PutObjectTaggingInput_content_md5 : option bytes;
  PutObjectTaggingInput_expected_bucket_owner : option bytes;
  PutObjectTaggingInput_key : bytes;
  PutObjectTaggingInput_request_payer : option RequestPayer;
  PutObjectTaggingInput_tagging : Tagging;
  PutObjectTaggingInput_version_id : option bytes
}.

Record PutPublicAccessBlockInput := mk_PutPublicAccessBlockInput {
  PutPublicAccessBlockInput_bucket : bytes;
  PutPublicAccessBlockInput_checksum_algorithm : option ChecksumAlgorithm;
  PutPublicAccessBlockInput_content_md5 : option bytes;
  PutPublicAccessBlockInput_expected_bucket_owner : option bytes;
  PutPublicAccessBlockInput_public_access_block_configuration : PublicAccessBlockConfiguration
}.

Record RenameObjectInput := mk_RenameObjectInput {
  RenameObjectInput_bucket : bytes;
  RenameObjectInput_client_token : option bytes;
  RenameObjectInput_destination_if_match : option ETagCondition;
  RenameObjectInput_destination_if_modified_since : option Timestamp;
  RenameObjectInput_destination_if_none_match : option ETagCondition;
  RenameObjectInput_destination_if_unmodified_since : option Timestamp;
  RenameObjectInput_key : bytes;
  RenameObjectInput_rename_source : bytes;
  RenameObjectInput_source_if_match : option bytes;
  RenameObjectInput_source_if_modified_since : option Timestamp;
  RenameObjectInput_source_if_none_match : option bytes;
  RenameObjectInput_source_if_unmodified_since : option Timestamp
}.

Record RestoreObjectInput := mk_RestoreObjectInput {
  RestoreObjectInput_bucket : bytes;
  RestoreObjectInput_checksum_algorithm : option ChecksumAlgorithm;
  RestoreObjectInput_expected_bucket_owner : option bytes;
  RestoreObjectInput_key : bytes;
  RestoreObjectInput_request_payer : option RequestPayer;
  RestoreObjectInput_restore_request : option RestoreRequest;
  RestoreObjectInput_version_id : option bytes
}.

Record SelectObjectContentInput := mk_SelectObjectContentInput {
  SelectObjectContentInput_bucket : bytes;
  SelectObjectContentInput_expected_bucket_owner : option bytes;
  SelectObjectContentInput_key : bytes;
  SelectObjectContentInput_sse_customer_algorithm : option bytes;
  SelectObjectContentInput_sse_customer_key : option bytes;
  SelectObjectContentInput_sse_customer_key_md5 : option bytes;
  SelectObjectContentInput_request : SelectObjectContentRequest
}.

Record UpdateBucketMetadataAnnotationTableConfigurationInput := mk_UpdateBucketMetadataAnnotationTableConfigurationInput {
  UpdateBucketMetadataAnnotationTableConfigurationInput_annotation_table_configuration : AnnotationTableConfigurationUpdates;
  UpdateBucketMetadataAnnotationTableConfigurationInput_bucket : bytes;
  UpdateBucketMetadataAnnotationTableConfigurationInput_checksum_algorithm : option ChecksumAlgorithm;
  UpdateBucketMetadataAnnotationTableConfigurationInput_content_md5 : option bytes;
  UpdateBucketMetadataAnnotationTableConfigurationInput_expected_bucket_owner : option bytes
}.

Record UpdateBucketMetadataInventoryTableConfigurationInput := mk_UpdateBucketMetadataInventoryTableConfigurationInput {
  UpdateBucketMetadataInventoryTableConfigurationInput_bucket : bytes;
  UpdateBucketMetadataInventoryTableConfigurationInput_checksum_algorithm : option ChecksumAlgorithm;
  UpdateBucketMetadataInventoryTableConfigurationInput_content_md5 : option bytes;
  UpdateBucketMetadataInventoryTableConfigurationInput_expected_bucket_owner : option bytes;
  UpdateBucketMetadataInventoryTableConfigurationInput_inventory_table_configuration : InventoryTableConfigurationUpdates
}.

Record UpdateBucketMetadataJournalTableConfigurationInput := mk_UpdateBucketMetadataJournalTableConfigurationInput {
  UpdateBucketMetadataJournalTableConfigurationInput_bucket : bytes;
  UpdateBucketMetadataJournalTableConfigurationInput_checksum_algorithm : option ChecksumAlgorithm;
  UpdateBucketMetadataJournalTableConfigurationInput_content_md5 : option bytes;
  UpdateBucketMetadataJournalTableConfigurationInput_expected_bucket_owner : option bytes;
  UpdateBucketMetadataJournalTableConfigurationInput_journal_table_configuration : JournalTableConfigurationUpdates
}.

Record UpdateObjectEncryptionInput := mk_UpdateObjectEncryptionInput {
  UpdateObjectEncryptionInput_bucket : bytes;
  UpdateObjectEncryptionInput_checksum_algorithm : option ChecksumAlgorithm;
  UpdateObjectEncryptionInput_content_md5 : option bytes;
  UpdateObjectEncryptionInput_expected_bucket_owner : option bytes;
  UpdateObjectEncryptionInput_key : bytes;
  UpdateObjectEncryptionInput_object_encryption : ObjectEncryption;
  UpdateObjectEncryptionInput_request_payer : option RequestPayer;
  UpdateObjectEncryptionInput_version_id : option bytes
}.

Record UploadPartInput := mk_UploadPartInput {
  UploadPartInput_body : option StreamingBlob;
  UploadPartInput_bucket : bytes;
  UploadPartInput_checksum_algorithm : option ChecksumAlgorithm;
  UploadPartInput_checksum_crc32 : option bytes;
  UploadPartInput_checksum_crc32c : option bytes;
  UploadPartInput_checksum_crc64nvme : option bytes;
  UploadPartInput_checksum_md5 : option bytes;
  UploadPartInput_checksum_sha1 : option bytes;
  UploadPartInput_checksum_sha256 : option bytes;
  UploadPartInput_checksum_sha512 : option bytes;
  UploadPartInput_checksum_xxhash128 : option bytes;
  UploadPartInput_checksum_xxhash3 : option bytes;
  UploadPartInput_checksum_xxhash64 : option bytes;
  UploadPartInput_content_length : option Z;
  UploadPartInput_content_md5 : option bytes;
  UploadPartInput_expected_bucket_owner : option bytes;
  UploadPartInput_key : bytes;
  UploadPartInput_part_number : Z;
  UploadPartInput_request_payer : option RequestPayer;
  UploadPartInput_sse_customer_algorithm : option bytes;
  UploadPartInput_sse_customer_key : option bytes;
  UploadPartInput_sse_customer_key_md5 : option bytes;
  UploadPartInput_upload_id : bytes
}.

Record UploadPartCopyInput := mk_UploadPartCopyInput {
  UploadPartCopyInput_bucket : bytes;
  UploadPartCopyInput_copy_source : CopySource;
  UploadPartCopyInput_copy_source_if_match : option ETagCondition;
  UploadPartCopyInput_copy_source_if_modified_since : option Timestamp;
  UploadPartCopyInput_copy_source_if_none_match : option ETagCondition;
  UploadPartCopyInput_copy_source_if_unmodified_since : option Timestamp;
  UploadPartCopyInput_copy_source_range : option bytes;
  UploadPartCopyInput_copy_source_sse_customer_algorithm : option bytes;
  UploadPartCopyInput_copy_source_sse_customer_key : option bytes;
  UploadPartCopyInput_copy_source_sse_customer_key_md5 : option bytes;
  UploadPartCopyInput_expected_bucket_owner : option bytes;
  UploadPartCopyInput_expected_source_bucket_owner : option bytes;
  UploadPartCopyInput_key : bytes;
  UploadPartCopyInput_part_number : Z;
  UploadPartCopyInput_request_payer : option RequestPayer;
  UploadPartCopyInput_sse_customer_algorithm : option bytes;
  UploadPartCopyInput_sse_customer_key : option bytes;
  UploadPartCopyInput_sse_customer_key_md5 : option bytes;
  UploadPartCopyInput_upload_id : bytes
}.

Record WriteGetObjectResponseInput := mk_WriteGetObjectResponseInput {
  WriteGetObjectResponseInput_accept_ranges : option bytes;
  WriteGetObjectResponseInput_body : option StreamingBlob;
  WriteGetObjectResponseInput_bucket_key_enabled : option bool;
  WriteGetObjectResponseInput_cache_control : option bytes;
  WriteGetObjectResponseInput_checksum_crc32 : option bytes;
  WriteGetObjectResponseInput_checksum_crc32c : option bytes;
  WriteGetObjectResponseInput_checksum_crc64nvme : option bytes;
  WriteGetObjectResponseInput_checksum_md5 : option bytes;
  WriteGetObjectResponseInput_checksum_sha1 : option bytes;
  WriteGetObjectResponseInput_checksum_sha256 : option bytes;
  WriteGetObjectResponseInput_checksum_sha512 : option bytes;
  WriteGetObjectResponseInput_checksum_xxhash128 : option bytes;
  WriteGetObjectResponseInput_checksum_xxhash3 : option bytes;
  WriteGetObjectResponseInput_checksum_xxhash64 : option bytes;
  WriteGetObjectResponseInput_content_disposition : option bytes;
  WriteGetObjectResponseInput_content_encoding : option bytes;
  WriteGetObjectResponseInput_content_language : option bytes;
  WriteGetObjectResponseInput_content_length : option Z;
  WriteGetObjectResponseInput_content_range : option bytes;
  WriteGetObjectResponseInput_content_type : option bytes;
  WriteGetObjectResponseInput_delete_marker : option bool;
  WriteGetObjectResponseInput_e_tag : option ETag;
  WriteGetObjectResponseInput_error_code : option bytes;
  WriteGetObjectResponseInput_error_message : option bytes;
  WriteGetObjectResponseInput_expiration : option bytes;
  WriteGetObjectResponseInput_expires : option bytes;
  WriteGetObjectResponseInput_last_modified : option Timestamp;
  WriteGetObjectResponseInput_metadata : option Metadata;
  WriteGetObjectResponseInput_missing_meta : option Z;
  WriteGetObjectResponseInput_object_lock_legal_hold_status : option ObjectLockLegalHoldStatus;
  WriteGetObjectResponseInput_object_lock_mode : option ObjectLockMode;
  WriteGetObjectResponseInput_object_lock_retain_until_date : option Timestamp;
  WriteGetObjectResponseInput_parts_count : option Z;
  WriteGetObjectResponseInput_replication_status : option ReplicationStatus;
  WriteGetObjectResponseInput_request_charged : option RequestCharged;
  WriteGetObjectResponseInput_request_route : bytes;
  WriteGetObjectResponseInput_request_token : bytes;
  WriteGetObjectResponseInput_restore : option bytes;
  WriteGetObjectResponseInput_sse_customer_algorithm : option bytes;
  WriteGetObjectResponseInput_sse_customer_key_md5 : option bytes;
  WriteGetObjectResponseInput_ssekms_key_id : option bytes;
  WriteGetObjectResponseInput_server_side_encryption : option ServerSideEncryption;
  WriteGetObjectResponseInput_status_code : option Z;
  WriteGetObjectResponseInput_storage_class : option StorageClass;
  WriteGetObjectResponseInput_tag_count : option Z;
  WriteGetObjectResponseInput_version_id : option bytes
}.

(** ** Outputs *)

Record AbortMultipartUploadOutput := mk_AbortMultipartUploadOutput {
  AbortMultipartUploadOutput_request_charged : option RequestCharged
}.

Record CopyObjectOutput := mk_CopyObjectOutput {
  CopyObjectOutput_bucket_key_enabled : option bool;
  CopyObjectOutput_copy_object_result : option CopyObjectResult;
  CopyObjectOutput_copy_source_version_id : option bytes;
  CopyObjectOutput_expiration : option bytes;
  CopyObjectOutput_request_charged : option RequestCharged;
  CopyObjectOutput_sse_customer_algorithm : option bytes;
  CopyObjectOutput_sse_customer_key_md5 : option bytes;
  CopyObjectOutput_ssekms_encryption_context : option bytes;
  CopyObjectOutput_ssekms_key_id : option bytes;
  CopyObjectOutput_server_side_encryption : option ServerSideEncryption;
  CopyObjectOutput_version_id : option bytes
}.

Record CreateBucketOutput := mk_CreateBucketOutput {
  CreateBucketOutput_bucket_arn : option bytes;
  CreateBucketOutput_location : option bytes
}.

Record CreateBucketMetadataConfigurationOutput := mk_CreateBucketMetadataConfigurationOutput {}.

Record CreateBucketMetadataTableConfigurationOutput := mk_CreateBucketMetadataTableConfigurationOutput {}.

Record DeleteBucketOutput := mk_DeleteBucketOutput {}.

Record DeleteBucketAnalyticsConfigurationOutput := mk_DeleteBucketAnalyticsConfigurationOutput {}.

Record DeleteBucketCorsOutput := mk_DeleteBucketCorsOutput {}.

Record DeleteBucketEncryptionOutput := mk_DeleteBucketEncryptionOutput {}.

Record DeleteBucketIntelligentTieringConfigurationOutput := mk_DeleteBucketIntelligentTieringConfigurationOutput {}.

Record DeleteBucketInventoryConfigurationOutput := mk_DeleteBucketInventoryConfigurationOutput {}.

Record DeleteBucketLifecycleOutput := mk_DeleteBucketLifecycleOutput {}.

Record DeleteBucketMetadataConfigurationOutput := mk_DeleteBucketMetadataConfigurationOutput {}.

Record DeleteBucketMetadataTableConfigurationOutput := mk_DeleteBucketMetadataTableConfigurationOutput {}.

Record DeleteBucketMetricsConfigurationOutput := mk_DeleteBucketMetricsConfigurationOutput {}.

Record DeleteBucketOwnershipControlsOutput := mk_DeleteBucketOwnershipControlsOutput {}.

Record DeleteBucketPolicyOutput := mk_DeleteBucketPolicyOutput {}.

Record DeleteBucketReplicationOutput := mk_DeleteBucketReplicationOutput {}.

Record DeleteBucketTaggingOutput := mk_DeleteBucketTaggingOutput {}.

Record DeleteBucketWebsiteOutput := mk_DeleteBucketWebsiteOutput {}.

Record DeleteObjectOutput := mk_DeleteObjectOutput {
  DeleteObjectOutput_delete_marker : option bool;
  DeleteObjectOutput_request_charged : option RequestCharged;
  DeleteObjectOutput_version_id : option bytes
}.

Record DeleteObjectAnnotationOutput := mk_DeleteObjectAnnotationOutput {
  DeleteObjectAnnotationOutput_object_version_id : option bytes;
  DeleteObjectAnnotationOutput_request_charged : option RequestCharged
}.

Record DeleteObjectTaggingOutput := mk_DeleteObjectTaggingOutput {
  DeleteObjectTaggingOutput_version_id : option bytes
}.

Record DeletePublicAccessBlockOutput := mk_DeletePublicAccessBlockOutput {}.

Record GetBucketAbacOutput := mk_GetBucketAbacOutput { GetBucketAbacOutput_abac_status : option AbacStatus }.

Record GetBucketAnalyticsConfigurationOutput := mk_GetBucketAnalyticsConfigurationOutput {
  GetBucketAnalyticsConfigurationOutput_analytics_configuration : option AnalyticsConfiguration
}.

Record GetBucketEncryptionOutput := mk_GetBucketEncryptionOutput {
  GetBucketEncryptionOutput_server_side_encryption_configuration : option ServerSideEncryptionConfiguration
}.

Record GetBucketIntelligentTieringConfigurationOutput := mk_GetBucketIntelligentTieringConfigurationOutput {
  GetBucketIntelligentTieringConfigurationOutput_intelligent_tiering_configuration : option IntelligentTieringConfiguration
}.

Record GetBucketInventoryConfigurationOutput := mk_GetBucketInventoryConfigurationOutput {
  GetBucketInventoryConfigurationOutput_inventory_configuration : option InventoryConfiguration
}.

Record GetBucketMetadataConfigurationOutput := mk_GetBucketMetadataConfigurationOutput {
  GetBucketMetadataConfigurationOutput_get_bucket_metadata_configuration_result : option GetBucketMetadataConfigurationResult
}.

Record GetBucketMetadataTableConfigurationOutput := mk_GetBucketMetadataTableConfigurationOutput {
  GetBucketMetadataTableConfigurationOutput_get_bucket_metadata_table_configuration_result : option GetBucketMetadataTableConfigurationResult
}.

Record GetBucketMetricsConfigurationOutput := mk_GetBucketMetricsConfigurationOutput {
  GetBucketMetricsConfigurationOutput_metrics_configuration : option MetricsConfiguration
}.

Record GetBucketOwnershipControlsOutput := mk_GetBucketOwnershipControlsOutput {
  GetBucketOwnershipControlsOutput_ownership_controls : option OwnershipControls
}.

Record GetBucketPolicyOutput := mk_GetBucketPolicyOutput { GetBucketPolicyOutput_policy : option bytes }.

Record GetBucketPolicyStatusOutput := mk_GetBucketPolicyStatusOutput {
  GetBucketPolicyStatusOutput_policy_status : option PolicyStatus
}.

Record GetBucketReplicationOutput := mk_GetBucketReplicationOutput {
  GetBucketReplicationOutput_replication_configuration : option ReplicationConfiguration
}.

Record GetObjectOutput := mk_GetObjectOutput {
  GetObjectOutput_accept_ranges : option bytes;
  GetObjectOutput_body : option StreamingBlob;
  GetObjectOutput_bucket_key_enabled : option bool;
  GetObjectOutput_cache_control : option bytes;
  GetObjectOutput_checksum_crc32 : option bytes;
  GetObjectOutput_checksum_crc32c : option bytes;
  GetObjectOutput_checksum_crc64nvme : option bytes;
  GetObjectOutput_checksum_md5 : option bytes;
  GetObjectOutput_checksum_sha1 : option bytes;
  GetObjectOutput_checksum_sha256 : option bytes;
  GetObjectOutput_checksum_sha512 : option bytes;
  GetObjectOutput_checksum_type : option ChecksumType;
  GetObjectOutput_checksum_xxhash128 : option bytes;
  GetObjectOutput_checksum_xxhash3 : option bytes;
  GetObjectOutput_checksum_xxhash64 : option bytes;
  GetObjectOutput_content_disposition : option bytes;
  GetObjectOutput_content_encoding : option bytes;
  GetObjectOutput_content_language : option bytes;
  GetObjectOutput_content_length : option Z;
  GetObjectOutput_content_range : option bytes;
  GetObjectOutput_content_type : option bytes;
  GetObjectOutput_delete_marker : option bool;
  GetObjectOutput_e_tag : option ETag;
  GetObjectOutput_expiration : option bytes;
  GetObjectOutput_expires : option bytes;
  GetObjectOutput_last_modified : option Timestamp;
  GetObjectOutput_metadata : option Metadata;
  GetObjectOutput_missing_meta : option Z;
  GetObjectOutput_object_lock_legal_hold_status : option ObjectLockLegalHoldStatus;
  GetObjectOutput_object_lock_mode : option ObjectLockMode;
  GetObjectOutput_object_lock_retain_until_date : option Timestamp;
  GetObjectOutput_parts_count : option Z;
  GetObjectOutput_replication_status : option ReplicationStatus;
  GetObjectOutput_request_charged : option RequestCharged;
  GetObjectOutput_restore : option bytes;
  GetObjectOutput_sse_customer_algorithm : option bytes;
  GetObjectOutput_sse_customer_key_md5 : option bytes;
  GetObjectOutput_ssekms_key_id : option bytes;
  GetObjectOutput_server_side_encryption : option ServerSideEncryption;
  GetObjectOutput_storage_class : option StorageClass;
  GetObjectOutput_tag_count : option Z;
  GetObjectOutput_version_id : option bytes;
  GetObjectOutput_website_redirect_location : option bytes
}.

Record GetObjectAnnotationOutput := mk_GetObjectAnnotationOutput {
  GetObjectAnnotationOutput_annotation_payload : option StreamingBlob;
  GetObjectAnnotationOutput_checksum_crc32 : option bytes;
  GetObjectAnnotationOutput_checksum_crc32c : option bytes;
  GetObjectAnnotationOutput_checksum_crc64nvme : option bytes;
  GetObjectAnnotationOutput_checksum_md5 : option bytes;
  GetObjectAnnotationOutput_checksum_sha1 : option bytes;
  GetObjectAnnotationOutput_checksum_sha256 : option bytes;
  GetObjectAnnotationOutput_checksum_sha512 : option bytes;
  GetObjectAnnotationOutput_checksum_type : option ChecksumType;
  GetObjectAnnotationOutput_checksum_xxhash128 : option bytes;
  GetObjectAnnotationOutput_checksum_xxhash3 : option bytes;
  GetObjectAnnotationOutput_checksum_xxhash64 : option bytes;
  GetObjectAnnotationOutput_content_length : option Z;
  GetObjectAnnotationOutput_e_tag : option ETag;
  GetObjectAnnotationOutput_last_modified : option Timestamp;
  GetObjectAnnotationOutput_object_version_id : option bytes;
  GetObjectAnnotationOutput_replication_status : option ReplicationStatus;
  GetObjectAnnotationOutput_request_charged : option RequestCharged;
  GetObjectAnnotationOutput_server_side_encryption : option ServerSideEncryption
}.

Record GetObjectLegalHoldOutput := mk_GetObjectLegalHoldOutput {
  GetObjectLegalHoldOutput_legal_hold : option ObjectLockLegalHold
}.

Record GetObjectLockConfigurationOutput := mk_GetObjectLockConfigurationOutput {
  GetObjectLockConfigurationOutput_object_lock_configuration : option ObjectLockConfiguration
}.

Record GetObjectRetentionOutput := mk_GetObjectRetentionOutput {
  GetObjectRetentionOutput_retention : option ObjectLockRetention
}.

Record GetObjectTorrentOutput := mk_GetObjectTorrentOutput {
  GetObjectTorrentOutput_body : option StreamingBlob;
  GetObjectTorrentOutput_request_charged : option RequestCharged
}.

Record GetPublicAccessBlockOutput := mk_GetPublicAccessBlockOutput {
  GetPublicAccessBlockOutput_public_access_block_configuration : option PublicAccessBlockConfiguration
}.

Record HeadBucketOutput := mk_HeadBucketOutput {
  HeadBucketOutput_access_point_alias : option bool;
  HeadBucketOutput_bucket_arn : option bytes;
  HeadBucketOutput_bucket_location_name : option bytes;
  HeadBucketOutput_bucket_location_type : option LocationType;
  HeadBucketOutput_bucket_region : option bytes
}.

Record HeadObjectOutput := mk_HeadObjectOutput {
  HeadObjectOutput_accept_ranges : option bytes;
  HeadObjectOutput_archive_status : option ArchiveStatus;
  HeadObjectOutput_bucket_key_enabled : option bool;
  HeadObjectOutput_cache_control : option bytes;
  HeadObjectOutput_checksum_crc32 : option bytes;
  HeadObjectOutput_checksum_crc32c : option bytes;
  HeadObjectOutput_checksum_crc64nvme : option bytes;
  HeadObjectOutput_checksum_md5 : option bytes;
  HeadObjectOutput_checksum_sha1 : option bytes;
  HeadObjectOutput_checksum_sha256 : option bytes;
  HeadObjectOutput_checksum_sha512 : option bytes;
  HeadObjectOutput_checksum_type : option ChecksumType;
  HeadObjectOutput_checksum_xxhash128 : option bytes;
  HeadObjectOutput_checksum_xxhash3 : option bytes;
  HeadObjectOutput_checksum_xxhash64 : option bytes;
  HeadObjectOutput_content_disposition : option bytes;
  HeadObjectOutput_content_encoding : option bytes;
  HeadObjectOutput_content_language : option bytes;
  HeadObjectOutput_content_length : option Z;
  HeadObjectOutput_content_range : option bytes;
  HeadObjectOutput_content_type : option bytes;
  HeadObjectOutput_delete_marker : option bool;
  HeadObjectOutput_e_tag : option ETag;
  HeadObjectOutput_expiration : option bytes;
  HeadObjectOutput_expires : option bytes;
  HeadObjectOutput_last_modified : option Timestamp;
  HeadObjectOutput_metadata : option Metadata;
  HeadObjectOutput_missing_meta : option Z;
  HeadObjectOutput_object_lock_legal_hold_status : option ObjectLockLegalHoldStatus;
  HeadObjectOutput_object_lock_mode : option ObjectLockMode;
  HeadObjectOutput_object_lock_retain_until_date : option Timestamp;
  HeadObjectOutput_parts_count : option Z;
  HeadObjectOutput_replication_status : option ReplicationStatus;
  HeadObjectOutput_request_charged : option RequestCharged;
  HeadObjectOutput_restore : option bytes;
  HeadObjectOutput_sse_customer_algorithm : option bytes;
  HeadObjectOutput_sse_customer_key_md5 : option bytes;
  HeadObjectOutput_ssekms_key_id : option bytes;
  HeadObjectOutput_server_side_encryption : option ServerSideEncryption;
  HeadObjectOutput_storage_class : option StorageClass;
  HeadObjectOutput_tag_count : option Z;
  HeadObjectOutput_version_id : option bytes;
  HeadObjectOutput_website_redirect_location : option bytes
}.

Record PostObjectOutput := mk_PostObjectOutput {
  PostObjectOutput_bucket_key_enabled : option bool;
  PostObjectOutput_checksum_crc32 : option bytes;
  PostObjectOutput_checksum_crc32c : option bytes;
  PostObjectOutput_checksum_crc64nvme : option bytes;
  PostObjectOutput_checksum_md5 : option bytes;
  PostObjectOutput_checksum_sha1 : option bytes;
  PostObjectOutput_checksum_sha256 : option bytes;
  PostObjectOutput_checksum_sha512 : option bytes;
  PostObjectOutput_checksum_type : option ChecksumType;
  PostObjectOutput_checksum_xxhash128 : option bytes;
  PostObjectOutput_checksum_xxhash3 : option bytes;
  PostObjectOutput_checksum_xxhash64 : option bytes;
  PostObjectOutput_e_tag : option ETag;
  PostObjectOutput_expiration : option bytes;
  PostObjectOutput_request_charged : option RequestCharged;
  PostObjectOutput_sse_customer_algorithm : option bytes;
  PostObjectOutput_sse_customer_key_md5 : option bytes;
  PostObjectOutput_ssekms_encryption_context : option bytes;
  PostObjectOutput_ssekms_key_id : option bytes;
  PostObjectOutput_server_side_encryption : option ServerSideEncryption;
  PostObjectOutput_size : option Z;
  PostObjectOutput_version_id : option bytes
}.

Record PutBucketAbacOutput := mk_PutBucketAbacOutput {}.

Record PutBucketAccelerateConfigurationOutput := mk_PutBucketAccelerateConfigurationOutput {}.

Record PutBucketAclOutput := mk_PutBucketAclOutput {}.

Record PutBucketAnalyticsConfigurationOutput := mk_PutBucketAnalyticsConfigurationOutput {}.

Record PutBucketCorsOutput := mk_PutBucketCorsOutput {}.

Record PutBucketEncryptionOutput := mk_PutBucketEncryptionOutput {}.

Record PutBucketIntelligentTieringConfigurationOutput := mk_PutBucketIntelligentTieringConfigurationOutput {}.

Record PutBucketInventoryConfigurationOutput := mk_PutBucketInventoryConfigurationOutput {}.

Record PutBucketLifecycleConfigurationOutput := mk_PutBucketLifecycleConfigurationOutput {
  PutBucketLifecycleConfigurationOutput_transition_default_minimum_object_size : option TransitionDefaultMinimumObjectSize
}.

Record PutBucketLoggingOutput := mk_PutBucketLoggingOutput {}.

Record PutBucketMetricsConfigurationOutput := mk_PutBucketMetricsConfigurationOutput {}.

Record PutBucketNotificationConfigurationOutput := mk_PutBucketNotificationConfigurationOutput {}.

Record PutBucketOwnershipControlsOutput := mk_PutBucketOwnershipControlsOutput {}.

Record PutBucketPolicyOutput := mk_PutBucketPolicyOutput {}.

Record PutBucketReplicationOutput := mk_PutBucketReplicationOutput {}.

Record PutBucketRequestPaymentOutput := mk_PutBucketRequestPaymentOutput {}.

Record PutBucketTaggingOutput := mk_PutBucketTaggingOutput {}.

Record PutBucketVersioningOutput := mk_PutBucketVersioningOutput {}.

Record PutBucketWebsiteOutput := mk_PutBucketWebsiteOutput {}.

Record PutObjectOutput := mk_PutObjectOutput {
  PutObjectOutput_bucket_key_enabled : option bool;
  PutObjectOutput_checksum_crc32 : option bytes;
  PutObjectOutput_checksum_crc32c : option bytes;
  PutObjectOutput_checksum_crc64nvme : option bytes;
  PutObjectOutput_checksum_md5 : option bytes;
  PutObjectOutput_checksum_sha1 : option bytes;
  PutObjectOutput_checksum_sha256 : option bytes;
  PutObjectOutput_checksum_sha512 : option bytes;
  PutObjectOutput_checksum_type : option ChecksumType;
  PutObjectOutput_checksum_xxhash128 : option bytes;
  PutObjectOutput_checksum_xxhash3 : option bytes;
  PutObjectOutput_checksum_xxhash64 : option bytes;
  PutObjectOutput_e_tag : option ETag;
  PutObjectOutput_expiration : option bytes;
  PutObjectOutput_request_charged : option RequestCharged;
  PutObjectOutput_sse_customer_algorithm : option bytes;
  PutObjectOutput_sse_customer_key_md5 : option bytes;
  PutObjectOutput_ssekms_encryption_context : option bytes;
  PutObjectOutput_ssekms_key_id : option bytes;
  PutObjectOutput_server_side_encryption : option ServerSideEncryption;
  PutObjectOutput_size : option Z;
  PutObjectOutput_version_id : option bytes
}.

Record PutObjectAclOutput := mk_PutObjectAclOutput { PutObjectAclOutput_request_charged : option RequestCharged }.

Record PutObjectLegalHoldOutput := mk_PutObjectLegalHoldOutput {
  PutObjectLegalHoldOutput_request_charged : option RequestCharged
}.

Record PutObjectLockConfigurationOutput := mk_PutObjectLockConfigurationOutput {
  PutObjectLockConfigurationOutput_request_charged : option RequestCharged
}.

Record PutObjectRetentionOutput := mk_PutObjectRetentionOutput {
  PutObjectRetentionOutput_request_charged : option RequestCharged
}.

Record PutObjectTaggingOutput := mk_PutObjectTaggingOutput { PutObjectTaggingOutput_version_id : option bytes }.

Record PutPublicAccessBlockOutput := mk_PutPublicAccessBlockOutput {}.

Record RenameObjectOutput := mk_RenameObjectOutput {}.

Record RestoreObjectOutput := mk_RestoreObjectOutput {
  RestoreObjectOutput_request_charged : option RequestCharged;
  RestoreObjectOutput_restore_output_path : option bytes
}.

Record SelectObjectContentOutput := mk_SelectObjectContentOutput {
  SelectObjectContentOutput_payload : option (list event_answer)
}.

Record UpdateBucketMetadataAnnotationTableConfigurationOutput := mk_UpdateBucketMetadataAnnotationTableConfigurationOutput {}.

Record UpdateBucketMetadataInventoryTableConfigurationOutput := mk_UpdateBucketMetadataInventoryTableConfigurationOutput {}.

Record UpdateBucketMetadataJournalTableConfigurationOutput := mk_UpdateBucketMetadataJournalTableConfigurationOutput {}.

Record UpdateObjectEncryptionOutput := mk_UpdateObjectEncryptionOutput {
  UpdateObjectEncryptionOutput_request_charged : option RequestCharged
}.

Record UploadPartOutput := mk_UploadPartOutput {
  UploadPartOutput_bucket_key_enabled : option bool;
  UploadPartOutput_checksum_crc32 : option bytes;
  UploadPartOutput_checksum_crc32c : option bytes;
  UploadPartOutput_checksum_crc64nvme : option bytes;
  UploadPartOutput_checksum_md5 : option bytes;
  UploadPartOutput_checksum_sha1 : option bytes;
  UploadPartOutput_checksum_sha256 : option bytes;
  UploadPartOutput_checksum_sha512 : option bytes;
  UploadPartOutput_checksum_xxhash128 : option bytes;
  UploadPartOutput_checksum_xxhash3 : option bytes;
  UploadPartOutput_checksum_xxhash64 : option bytes;
  UploadPartOutput_e_tag : option ETag;
  UploadPartOutput_request_charged : option RequestCharged;
  UploadPartOutput_sse_customer_algorithm : option bytes;
  UploadPartOutput_sse_customer_key_md5 : option bytes;
  UploadPartOutput_ssekms_key_id : option bytes;
  UploadPartOutput_server_side_encryption : option ServerSideEncryption
}.

Record UploadPartCopyOutput := mk_UploadPartCopyOutput {
  UploadPartCopyOutput_bucket_key_enabled : option bool;
  UploadPartCopyOutput_copy_part_result : option CopyPartResult;
  UploadPartCopyOutput_copy_source_version_id : option bytes;
  UploadPartCopyOutput_request_charged : option RequestCharged;
  UploadPartCopyOutput_sse_customer_algorithm : option bytes;
  UploadPartCopyOutput_sse_customer_key_md5 : option bytes;
  UploadPartCopyOutput_ssekms_key_id : option bytes;
  UploadPartCopyOutput_server_side_encryption : option ServerSideEncryption
}.

Record WriteGetObjectResponseOutput := mk_WriteGetObjectResponseOutput {}.

(** The answer to a completed upload: an output, and the future of one when the upload goes on.
    A future inside its result is not used. *)
Record CompleteMultipartUploadAnswer := {
  cmu_output : CompleteMultipartUploadOutput;
  cmu_future : option (Future (A := result S3Error CompleteMultipartUploadOutput))
}.

Definition put_object_input_into_post_object_input (x : PutObjectInput) : PostObjectInput :=
  {| PostObjectInput_acl := PutObjectInput_acl x;
     PostObjectInput_body := PutObjectInput_body x;
     PostObjectInput_bucket := PutObjectInput_bucket x;
     PostObjectInput_bucket_key_enabled := PutObjectInput_bucket_key_enabled x;
     PostObjectInput_cache_control := PutObjectInput_cache_control x;
     PostObjectInput_checksum_algorithm := PutObjectInput_checksum_algorithm x;
     PostObjectInput_checksum_crc32 := PutObjectInput_checksum_crc32 x;
     PostObjectInput_checksum_crc32c := PutObjectInput_checksum_crc32c x;
     PostObjectInput_checksum_crc64nvme := PutObjectInput_checksum_crc64nvme x;
     PostObjectInput_checksum_md5 := PutObjectInput_checksum_md5 x;
     PostObjectInput_checksum_sha1 := PutObjectInput_checksum_sha1 x;
     PostObjectInput_checksum_sha256 := PutObjectInput_checksum_sha256 x;
     PostObjectInput_checksum_sha512 := PutObjectInput_checksum_sha512 x;
     PostObjectInput_checksum_xxhash128 := PutObjectInput_checksum_xxhash128 x;
     PostObjectInput_checksum_xxhash3 := PutObjectInput_checksum_xxhash3 x;
     PostObjectInput_checksum_xxhash64 := PutObjectInput_checksum_xxhash64 x;
     PostObjectInput_content_disposition := PutObjectInput_content_disposition x;
     PostObjectInput_content_encoding := PutObjectInput_content_encoding x;
     PostObjectInput_content_language := PutObjectInput_content_language x;
     PostObjectInput_content_length := PutObjectInput_content_length x;
     PostObjectInput_content_md5 := PutObjectInput_content_md5 x;
     PostObjectInput_content_type := PutObjectInput_content_type x;
     PostObjectInput_expected_bucket_owner := PutObjectInput_expected_bucket_owner x;
     PostObjectInput_expires := PutObjectInput_expires x;
     PostObjectInput_grant_full_control := PutObjectInput_grant_full_control x;
     PostObjectInput_grant_read := PutObjectInput_grant_read x;
     PostObjectInput_grant_read_acp := PutObjectInput_grant_read_acp x;
     PostObjectInput_grant_write_acp := PutObjectInput_grant_write_acp x;
     PostObjectInput_if_match := PutObjectInput_if_match x;
     PostObjectInput_if_none_match := PutObjectInput_if_none_match x;
     PostObjectInput_key := PutObjectInput_key x;
     PostObjectInput_metadata := PutObjectInput_metadata x;
     PostObjectInput_object_lock_legal_hold_status := PutObjectInput_object_lock_legal_hold_status x;
     PostObjectInput_object_lock_mode := PutObjectInput_object_lock_mode x;
     PostObjectInput_object_lock_retain_until_date := PutObjectInput_object_lock_retain_until_date x;
     PostObjectInput_request_payer := PutObjectInput_request_payer x;
     PostObjectInput_sse_customer_algorithm := PutObjectInput_sse_customer_algorithm x;
     PostObjectInput_sse_customer_key := PutObjectInput_sse_customer_key x;
     PostObjectInput_sse_customer_key_md5 := PutObjectInput_sse_customer_key_md5 x;
     PostObjectInput_ssekms_encryption_context := PutObjectInput_ssekms_encryption_context x;
     PostObjectInput_ssekms_key_id := PutObjectInput_ssekms_key_id x;
     PostObjectInput_server_side_encryption := PutObjectInput_server_side_encryption x;
     PostObjectInput_storage_class := PutObjectInput_storage_class x;
     PostObjectInput_tagging := PutObjectInput_tagging x;
     PostObjectInput_website_redirect_location := PutObjectInput_website_redirect_location x;
     PostObjectInput_write_offset_bytes := PutObjectInput_write_offset_bytes x;
     PostObjectInput_success_action_redirect := None;
     PostObjectInput_success_action_status := None;
     PostObjectInput_policy := None |}.

Definition post_object_input_into_put_object_input (x : PostObjectInput) : PutObjectInput :=
  {| PutObjectInput_acl := PostObjectInput_acl x;
     PutObjectInput_body := PostObjectInput_body x;
     PutObjectInput_bucket := PostObjectInput_bucket x;
     PutObjectInput_bucket_key_enabled := PostObjectInput_bucket_key_enabled x;
     PutObjectInput_cache_control := PostObjectInput_cache_control x;
     PutObjectInput_checksum_algorithm := PostObjectInput_checksum_algorithm x;
     PutObjectInput_checksum_crc32 := PostObjectInput_checksum_crc32 x;
     PutObjectInput_checksum_crc32c := PostObjectInput_checksum_crc32c x;
     PutObjectInput_checksum_crc64nvme := PostObjectInput_checksum_crc64nvme x;
     PutObjectInput_checksum_md5 := PostObjectInput_checksum_md5 x;
     PutObjectInput_checksum_sha1 := PostObjectInput_checksum_sha1 x;
     PutObjectInput_checksum_sha256 := PostObjectInput_checksum_sha256 x;
     PutObjectInput_checksum_sha512 := PostObjectInput_checksum_sha512 x;
     PutObjectInput_checksum_xxhash128 := PostObjectInput_checksum_xxhash128 x;
     PutObjectInput_checksum_xxhash3 := PostObjectInput_checksum_xxhash3 x;
     PutObjectInput_checksum_xxhash64 := PostObjectInput_checksum_xxhash64 x;
     PutObjectInput_content_disposition := PostObjectInput_content_disposition x;
     PutObjectInput_content_encoding := PostObjectInput_content_encoding x;
     PutObjectInput_content_language := PostObjectInput_content_language x;
     PutObjectInput_content_length := PostObjectInput_content_length x;
     PutObjectInput_content_md5 := PostObjectInput_content_md5 x;
     PutObjectInput_content_type := PostObjectInput_content_type x;
     PutObjectInput_expected_bucket_owner := PostObjectInput_expected_bucket_owner x;
     PutObjectInput_expires := PostObjectInput_expires x;
     PutObjectInput_grant_full_control := PostObjectInput_grant_full_control x;
     PutObjectInput_grant_read := PostObjectInput_grant_read x;
     PutObjectInput_grant_read_acp := PostObjectInput_grant_read_acp x;
     PutObjectInput_grant_write_acp := PostObjectInput_grant_write_acp x;
     PutObjectInput_if_match := PostObjectInput_if_match x;
     PutObjectInput_if_none_match := PostObjectInput_if_none_match x;
     PutObjectInput_key := PostObjectInput_key x;
     PutObjectInput_metadata := PostObjectInput_metadata x;
     PutObjectInput_object_lock_legal_hold_status := PostObjectInput_object_lock_legal_hold_status x;
     PutObjectInput_object_lock_mode := PostObjectInput_object_lock_mode x;
     PutObjectInput_object_lock_retain_until_date := PostObjectInput_object_lock_retain_until_date x;
     PutObjectInput_request_payer := PostObjectInput_request_payer x;
     PutObjectInput_sse_customer_algorithm := PostObjectInput_sse_customer_algorithm x;
     PutObjectInput_sse_customer_key := PostObjectInput_sse_customer_key x;
     PutObjectInput_sse_customer_key_md5 := PostObjectInput_sse_customer_key_md5 x;
     PutObjectInput_ssekms_encryption_context := PostObjectInput_ssekms_encryption_context x;
     PutObjectInput_ssekms_key_id := PostObjectInput_ssekms_key_id x;
     PutObjectInput_server_side_encryption := PostObjectInput_server_side_encryption x;
     PutObjectInput_storage_class := PostObjectInput_storage_class x;
     PutObjectInput_tagging := PostObjectInput_tagging x;
     PutObjectInput_website_redirect_location := PostObjectInput_website_redirect_location x;
     PutObjectInput_write_offset_bytes := PostObjectInput_write_offset_bytes x |}.

(** The three fields of a POST that are set apart. *)
Definition set_post_fields (redirect : option bytes) (status : option Z) (policy : option PostPolicy) (x : PostObjectInput) : PostObjectInput :=
  {| PostObjectInput_acl := PostObjectInput_acl x;
     PostObjectInput_body := PostObjectInput_body x;
     PostObjectInput_bucket := PostObjectInput_bucket x;
     PostObjectInput_bucket_key_enabled := PostObjectInput_bucket_key_enabled x;
     PostObjectInput_cache_control := PostObjectInput_cache_control x;
     PostObjectInput_checksum_algorithm := PostObjectInput_checksum_algorithm x;
     PostObjectInput_checksum_crc32 := PostObjectInput_checksum_crc32 x;
     PostObjectInput_checksum_crc32c := PostObjectInput_checksum_crc32c x;
     PostObjectInput_checksum_crc64nvme := PostObjectInput_checksum_crc64nvme x;
     PostObjectInput_checksum_md5 := PostObjectInput_checksum_md5 x;
     PostObjectInput_checksum_sha1 := PostObjectInput_checksum_sha1 x;
     PostObjectInput_checksum_sha256 := PostObjectInput_checksum_sha256 x;
     PostObjectInput_checksum_sha512 := PostObjectInput_checksum_sha512 x;
     PostObjectInput_checksum_xxhash128 := PostObjectInput_checksum_xxhash128 x;
     PostObjectInput_checksum_xxhash3 := PostObjectInput_checksum_xxhash3 x;
     PostObjectInput_checksum_xxhash64 := PostObjectInput_checksum_xxhash64 x;
     PostObjectInput_content_disposition := PostObjectInput_content_disposition x;
     PostObjectInput_content_encoding := PostObjectInput_content_encoding x;
     PostObjectInput_content_language := PostObjectInput_content_language x;
     PostObjectInput_content_length := PostObjectInput_content_length x;
     PostObjectInput_content_md5 := PostObjectInput_content_md5 x;
     PostObjectInput_content_type := PostObjectInput_content_type x;
     PostObjectInput_expected_bucket_owner := PostObjectInput_expected_bucket_owner x;
     PostObjectInput_expires := PostObjectInput_expires x;
     PostObjectInput_grant_full_control := PostObjectInput_grant_full_control x;
     PostObjectInput_grant_read := PostObjectInput_grant_read x;
     PostObjectInput_grant_read_acp := PostObjectInput_grant_read_acp x;
     PostObjectInput_grant_write_acp := PostObjectInput_grant_write_acp x;
     PostObjectInput_if_match := PostObjectInput_if_match x;
     PostObjectInput_if_none_match := PostObjectInput_if_none_match x;
     PostObjectInput_key := PostObjectInput_key x;
     PostObjectInput_metadata := PostObjectInput_metadata x;
     PostObjectInput_object_lock_legal_hold_status := PostObjectInput_object_lock_legal_hold_status x;
     PostObjectInput_object_lock_mode := PostObjectInput_object_lock_mode x;
     PostObjectInput_object_lock_retain_until_date := PostObjectInput_object_lock_retain_until_date x;
     PostObjectInput_request_payer := PostObjectInput_request_payer x;
     PostObjectInput_sse_customer_algorithm := PostObjectInput_sse_customer_algorithm x;
     PostObjectInput_sse_customer_key := PostObjectInput_sse_customer_key x;
     PostObjectInput_sse_customer_key_md5 := PostObjectInput_sse_customer_key_md5 x;
     PostObjectInput_ssekms_encryption_context := PostObjectInput_ssekms_encryption_context x;
     PostObjectInput_ssekms_key_id := PostObjectInput_ssekms_key_id x;
     PostObjectInput_server_side_encryption := PostObjectInput_server_side_encryption x;
     PostObjectInput_storage_class := PostObjectInput_storage_class x;
     PostObjectInput_tagging := PostObjectInput_tagging x;
     PostObjectInput_website_redirect_location := PostObjectInput_website_redirect_location x;
     PostObjectInput_write_offset_bytes := PostObjectInput_write_offset_bytes x;
     PostObjectInput_success_action_redirect := redirect;
     PostObjectInput_success_action_status := status;
     PostObjectInput_policy := policy |}.
