(* ===== verification/OpsDe.v ===== *)
(** * Decoding the inputs of the operations (crates/s3s/src/ops/generated/)

    [deserialize_http] of each operation, in the build without the [minio] feature.  An operation
    decodes every request with a path of its shape and, when it has a document, a body in memory:
    it returns an input, or an error that is the fault of the client. *)

From S2P Require Import Prelude.
From S2P Require Import Str.
From S2P Require Import Path.
From S2P Require Import ErrorCode.
From S2P Require Import Handler.
From S2P Require Import SigV4.
From S2P Require Import SignatureCheck.
From S2P Require Import Poll.
From S2P Require Import Stream.
From S2P Require Import Body.
From S2P Require Import Form.
From S2P Require Import PostPolicy.
From S2P Require Import Blob.
From S2P Require Import Request.
From S2P Require Import Response.
From S2P Require Import Range.
From S2P Require Import ETag.
From S2P Require Import Timestamp.
From S2P Require Import Xml.
From S2P Require Import XmlStruct.
From S2P Require Import XmlDtoA.
From S2P Require Import XmlDtoB.
From S2P Require Import XmlDtoC.
From S2P Require Import XmlOutputs.
From S2P Require Import XmlDocs.
From S2P Require Import EventStream.
From S2P Require Import CopySource.
From S2P Require Import HeaderNames.
From S2P Require Import HttpDe.
From S2P Require Import HttpSer.
From S2P Require Import OpsTypes.

(** The metadata of a form: of fields with the same name the last counts. *)
Fixpoint form_metadata (fields : list (bytes * bytes)) (metadata : Metadata) : option Metadata :=
  match fields with
  | [] => match metadata with [] => None | _ => Some metadata end
  | (name, value) :: fields' =>
      match strip_prefix (str "x-amz-meta-") name with
      | Some key => form_metadata fields' (if key =? [] then metadata else metadata_insert key value metadata)
      | None => form_metadata fields' metadata
      end
  end.

Section Decode.
Context `{HttpDeps} {Ext : Type}.
Implicit Types req : Request Ext.

Definition AbortMultipartUpload_deserialize_http : ST (Request Ext) AbortMultipartUploadInput :=
  '(bucket, key) ← unwrap_object;
  expected_bucket_owner ← ask (parse_opt_header hv_string X_AMZ_EXPECTED_BUCKET_OWNER);
  if_match_initiated_time ← parse_opt_header_timestamp X_AMZ_IF_MATCH_INITIATED_TIME HttpDate;
  request_payer ← ask (parse_opt_header hv_enum X_AMZ_REQUEST_PAYER);
  upload_id ← ask (parse_query fs_string (str "uploadId"));
  mret {| AbortMultipartUploadInput_bucket := bucket;
          AbortMultipartUploadInput_expected_bucket_owner := expected_bucket_owner;
          AbortMultipartUploadInput_if_match_initiated_time := if_match_initiated_time;
          AbortMultipartUploadInput_key := key;
          AbortMultipartUploadInput_request_payer := request_payer;
          AbortMultipartUploadInput_upload_id := upload_id |}.

Definition CompleteMultipartUpload_deserialize_http : ST (Request Ext) CompleteMultipartUploadInput :=
  '(bucket, key) ← unwrap_object;
  checksum_crc32 ← ask (parse_opt_header hv_string X_AMZ_CHECKSUM_CRC32);
  checksum_crc32c ← ask (parse_opt_header hv_string X_AMZ_CHECKSUM_CRC32C);
  checksum_crc64nvme ← ask (parse_opt_header hv_string X_AMZ_CHECKSUM_CRC64NVME);
  checksum_md5 ← ask (parse_opt_header hv_string X_AMZ_CHECKSUM_MD5);
  checksum_sha1 ← ask (parse_opt_header hv_string X_AMZ_CHECKSUM_SHA1);
  checksum_sha256 ← ask (parse_opt_header hv_string X_AMZ_CHECKSUM_SHA256);
  checksum_sha512 ← ask (parse_opt_header hv_string X_AMZ_CHECKSUM_SHA512);
  checksum_type ← ask (parse_opt_header hv_enum X_AMZ_CHECKSUM_TYPE);
  checksum_xxhash128 ← ask (parse_opt_header hv_string X_AMZ_CHECKSUM_XXHASH128);
  checksum_xxhash3 ← ask (parse_opt_header hv_string X_AMZ_CHECKSUM_XXHASH3);
  checksum_xxhash64 ← ask (parse_opt_header hv_string X_AMZ_CHECKSUM_XXHASH64);
  expected_bucket_owner ← ask (parse_opt_header hv_string X_AMZ_EXPECTED_BUCKET_OWNER);
  if_match ← ask (parse_opt_header hv_ETagCondition IF_MATCH);
  if_none_match ← ask (parse_opt_header hv_ETagCondition IF_NONE_MATCH);
  mpu_object_size ← ask (parse_opt_header hv_i64 X_AMZ_MP_OBJECT_SIZE);
  multipart_upload ← required_xml_body (T := CompletedMultipartUpload);
  request_payer ← ask (parse_opt_header hv_enum X_AMZ_REQUEST_PAYER);
  sse_customer_algorithm ← ask (parse_opt_header hv_string X_AMZ_SERVER_SIDE_ENCRYPTION_CUSTOMER_ALGORITHM);
  sse_customer_key ← ask (parse_opt_header hv_string X_AMZ_SERVER_SIDE_ENCRYPTION_CUSTOMER_KEY);
  sse_customer_key_md5 ← ask (parse_opt_header hv_string X_AMZ_SERVER_SIDE_ENCRYPTION_CUSTOMER_KEY_MD5);
  upload_id ← ask (parse_query fs_string (str "uploadId"));
  mret {| CompleteMultipartUploadInput_bucket := bucket;
          CompleteMultipartUploadInput_checksum_crc32 := checksum_crc32;
          CompleteMultipartUploadInput_checksum_crc32c := checksum_crc32c;
          CompleteMultipartUploadInput_checksum_crc64nvme := checksum_crc64nvme;
          CompleteMultipartUploadInput_checksum_md5 := checksum_md5;
          CompleteMultipartUploadInput_checksum_sha1 := checksum_sha1;
          CompleteMultipartUploadInput_checksum_sha256 := checksum_sha256;
          CompleteMultipartUploadInput_checksum_sha512 := checksum_sha512;
          CompleteMultipartUploadInput_checksum_type := checksum_type;
          CompleteMultipartUploadInput_checksum_xxhash128 := checksum_xxhash128;
          CompleteMultipartUploadInput_checksum_xxhash3 := checksum_xxhash3;
          CompleteMultipartUploadInput_checksum_xxhash64 := checksum_xxhash64;
          CompleteMultipartUploadInput_expected_bucket_owner := expected_bucket_owner;
          CompleteMultipartUploadInput_if_match := if_match;
          CompleteMultipartUploadInput_if_none_match := if_none_match;
          CompleteMultipartUploadInput_key := key;
          CompleteMultipartUploadInput_mpu_object_size := mpu_object_size;
          CompleteMultipartUploadInput_multipart_upload := multipart_upload;
          CompleteMultipartUploadInput_request_payer := request_payer;
          CompleteMultipartUploadInput_sse_customer_algorithm := sse_customer_algorithm;
          CompleteMultipartUploadInput_sse_customer_key := sse_customer_key;
          CompleteMultipartUploadInput_sse_customer_key_md5 := sse_customer_key_md5;
          CompleteMultipartUploadInput_upload_id := upload_id |}.

Definition CopyObject_deserialize_http : ST (Request Ext) CopyObjectInput :=
  '(bucket, key) ← unwrap_object;
  acl ← ask (parse_opt_header hv_enum X_AMZ_ACL);
  annotation_directive ← ask (parse_opt_header hv_enum X_AMZ_OBJECT_ANNOTATION_DIRECTIVE);
  bucket_key_enabled ← ask (parse_opt_header hv_bool X_AMZ_SERVER_SIDE_ENCRYPTION_BUCKET_KEY_ENABLED);
  cache_control ← ask (parse_opt_header hv_string CACHE_CONTROL);
  checksum_algorithm ← ask parse_checksum_algorithm_header;
  content_disposition ← ask (parse_opt_header hv_string CONTENT_DISPOSITION);
  content_encoding ← ask (parse_opt_header hv_string CONTENT_ENCODING);
  content_language ← ask (parse_opt_header hv_string CONTENT_LANGUAGE);
  content_type ← ask (parse_opt_header hv_string CONTENT_TYPE);
  copy_source ← ask (parse_header hv_CopySource X_AMZ_COPY_SOURCE);
  copy_source_if_match ← ask (parse_opt_header hv_ETagCondition X_AMZ_COPY_SOURCE_IF_MATCH);
  copy_source_if_modified_since ← parse_opt_header_timestamp X_AMZ_COPY_SOURCE_IF_MODIFIED_SINCE HttpDate;
  copy_source_if_none_match ← ask (parse_opt_header hv_ETagCondition X_AMZ_COPY_SOURCE_IF_NONE_MATCH);
  copy_source_if_unmodified_since ← parse_opt_header_timestamp X_AMZ_COPY_SOURCE_IF_UNMODIFIED_SINCE HttpDate;
  copy_source_sse_customer_algorithm ← ask (parse_opt_header hv_string X_AMZ_COPY_SOURCE_SERVER_SIDE_ENCRYPTION_CUSTOMER_ALGORITHM);
  copy_source_sse_customer_key ← ask (parse_opt_header hv_string X_AMZ_COPY_SOURCE_SERVER_SIDE_ENCRYPTION_CUSTOMER_KEY);
  copy_source_sse_customer_key_md5 ← ask (parse_opt_header hv_string X_AMZ_COPY_SOURCE_SERVER_SIDE_ENCRYPTION_CUSTOMER_KEY_MD5);
  expected_bucket_owner ← ask (parse_opt_header hv_string X_AMZ_EXPECTED_BUCKET_OWNER);
  expected_source_bucket_owner ← ask (parse_opt_header hv_string X_AMZ_SOURCE_EXPECTED_BUCKET_OWNER);
  expires ← ask (parse_opt_header hv_string EXPIRES);
  grant_full_control ← ask (parse_opt_header hv_string X_AMZ_GRANT_FULL_CONTROL);
  grant_read ← ask (parse_opt_header hv_string X_AMZ_GRANT_READ);
  grant_read_acp ← ask (parse_opt_header hv_string X_AMZ_GRANT_READ_ACP);
  grant_write_acp ← ask (parse_opt_header hv_string X_AMZ_GRANT_WRITE_ACP);
  if_match ← ask (parse_opt_header hv_ETagCondition IF_MATCH);
  if_none_match ← ask (parse_opt_header hv_ETagCondition IF_NONE_MATCH);
  metadata ← ask parse_opt_metadata;
  metadata_directive ← ask (parse_opt_header hv_enum X_AMZ_METADATA_DIRECTIVE);
  object_lock_legal_hold_status ← ask (parse_opt_header hv_enum X_AMZ_OBJECT_LOCK_LEGAL_HOLD);
  object_lock_mode ← ask (parse_opt_header hv_enum X_AMZ_OBJECT_LOCK_MODE);
  object_lock_retain_until_date ← parse_opt_header_timestamp X_AMZ_OBJECT_LOCK_RETAIN_UNTIL_DATE DateTime;
  request_payer ← ask (parse_opt_header hv_enum X_AMZ_REQUEST_PAYER);
  sse_customer_algorithm ← ask (parse_opt_header hv_string X_AMZ_SERVER_SIDE_ENCRYPTION_CUSTOMER_ALGORITHM);
  sse_customer_key ← ask (parse_opt_header hv_string X_AMZ_SERVER_SIDE_ENCRYPTION_CUSTOMER_KEY);
  sse_customer_key_md5 ← ask (parse_opt_header hv_string X_AMZ_SERVER_SIDE_ENCRYPTION_CUSTOMER_KEY_MD5);
  ssekms_encryption_context ← ask (parse_opt_header hv_string X_AMZ_SERVER_SIDE_ENCRYPTION_CONTEXT);
  ssekms_key_id ← ask (parse_opt_header hv_string X_AMZ_SERVER_SIDE_ENCRYPTION_AWS_KMS_KEY_ID);
  server_side_encryption ← ask (parse_opt_header hv_enum X_AMZ_SERVER_SIDE_ENCRYPTION);
  storage_class ← ask (parse_opt_header hv_enum X_AMZ_STORAGE_CLASS);
  tagging ← ask (parse_opt_header hv_string X_AMZ_TAGGING);
  tagging_directive ← ask (parse_opt_header hv_enum X_AMZ_TAGGING_DIRECTIVE);
  website_redirect_location ← ask (parse_opt_header hv_string X_AMZ_WEBSITE_REDIRECT_LOCATION);
  mret {| CopyObjectInput_acl := acl;
          CopyObjectInput_annotation_directive := annotation_directive;
          CopyObjectInput_bucket := bucket;
          CopyObjectInput_bucket_key_enabled := bucket_key_enabled;
          CopyObjectInput_cache_control := cache_control;
          CopyObjectInput_checksum_algorithm := checksum_algorithm;
          CopyObjectInput_content_disposition := content_disposition;
          CopyObjectInput_content_encoding := content_encoding;
          CopyObjectInput_content_language := content_language;
          CopyObjectInput_content_type := content_type;
          CopyObjectInput_copy_source := copy_source;
          CopyObjectInput_copy_source_if_match := copy_source_if_match;
          CopyObjectInput_copy_source_if_modified_since := copy_source_if_modified_since;
          CopyObjectInput_copy_source_if_none_match := copy_source_if_none_match;
          CopyObjectInput_copy_source_if_unmodified_since := copy_source_if_unmodified_since;
          CopyObjectInput_copy_source_sse_customer_algorithm := copy_source_sse_customer_algorithm;
          CopyObjectInput_copy_source_sse_customer_key := copy_source_sse_customer_key;
          CopyObjectInput_copy_source_sse_customer_key_md5 := copy_source_sse_customer_key_md5;
          CopyObjectInput_expected_bucket_owner := expected_bucket_owner;
          CopyObjectInput_expected_source_bucket_owner := expected_source_bucket_owner;
          CopyObjectInput_expires := expires;
          CopyObjectInput_grant_full_control := grant_full_control;
          CopyObjectInput_grant_read := grant_read;
          CopyObjectInput_grant_read_acp := grant_read_acp;
          CopyObjectInput_grant_write_acp := grant_write_acp;
          CopyObjectInput_if_match := if_match;
          CopyObjectInput_if_none_match := if_none_match;
          CopyObjectInput_key := key;
          CopyObjectInput_metadata := metadata;
          CopyObjectInput_metadata_directive := metadata_directive;
          CopyObjectInput_object_lock_legal_hold_status := object_lock_legal_hold_status;
          CopyObjectInput_object_lock_mode := object_lock_mode;
          CopyObjectInput_object_lock_retain_until_date := object_lock_retain_until_date;
          CopyObjectInput_request_payer := request_payer;
          CopyObjectInput_sse_customer_algorithm := sse_customer_algorithm;
          CopyObjectInput_sse_customer_key := sse_customer_key;
          CopyObjectInput_sse_customer_key_md5 := sse_customer_key_md5;
          CopyObjectInput_ssekms_encryption_context := ssekms_encryption_context;
          CopyObjectInput_ssekms_key_id := ssekms_key_id;
          CopyObjectInput_server_side_encryption := server_side_encryption;
          CopyObjectInput_storage_class := storage_class;
          CopyObjectInput_tagging := tagging;
          CopyObjectInput_tagging_directive := tagging_directive;
          CopyObjectInput_website_redirect_location := website_redirect_location |}.

Definition CreateBucket_deserialize_http : ST (Request Ext) CreateBucketInput :=
  bucket ← unwrap_bucket;
  acl ← ask (parse_opt_header hv_enum X_AMZ_ACL);
  bucket_namespace ← ask (parse_opt_header hv_enum X_AMZ_BUCKET_NAMESPACE);
  create_bucket_configuration ← take_opt_xml_body (T := CreateBucketConfiguration);
  grant_full_control ← ask (parse_opt_header hv_string X_AMZ_GRANT_FULL_CONTROL);
  grant_read ← ask (parse_opt_header hv_string X_AMZ_GRANT_READ);
  grant_read_acp ← ask (parse_opt_header hv_string X_AMZ_GRANT_READ_ACP);
  grant_write ← ask (parse_opt_header hv_string X_AMZ_GRANT_WRITE);
  grant_write_acp ← ask (parse_opt_header hv_string X_AMZ_GRANT_WRITE_ACP);
  object_lock_enabled_for_bucket ← ask (parse_opt_header hv_bool X_AMZ_BUCKET_OBJECT_LOCK_ENABLED);
  object_ownership ← ask (parse_opt_header hv_enum X_AMZ_OBJECT_OWNERSHIP);
  mret {| CreateBucketInput_acl := acl;
          CreateBucketInput_bucket := bucket;
          CreateBucketInput_bucket_namespace := bucket_namespace;
          CreateBucketInput_create_bucket_configuration := create_bucket_configuration;
          CreateBucketInput_grant_full_control := grant_full_control;
          CreateBucketInput_grant_read := grant_read;
          CreateBucketInput_grant_read_acp := grant_read_acp;
          CreateBucketInput_grant_write := grant_write;
          CreateBucketInput_grant_write_acp := grant_write_acp;
          CreateBucketInput_object_lock_enabled_for_bucket := object_lock_enabled_for_bucket;
          CreateBucketInput_object_ownership := object_ownership |}.

Definition CreateBucketMetadataConfiguration_deserialize_http : ST (Request Ext) CreateBucketMetadataConfigurationInput :=
  bucket ← unwrap_bucket;
  checksum_algorithm ← ask parse_checksum_algorithm_header;
  content_md5 ← ask (parse_opt_header hv_string CONTENT_MD5);
  expected_bucket_owner ← ask (parse_opt_header hv_string X_AMZ_EXPECTED_BUCKET_OWNER);
  metadata_configuration ← take_xml_body (T := MetadataConfiguration);
  mret {| CreateBucketMetadataConfigurationInput_bucket := bucket;
          CreateBucketMetadataConfigurationInput_checksum_algorithm := checksum_algorithm;
          CreateBucketMetadataConfigurationInput_content_md5 := content_md5;
          CreateBucketMetadataConfigurationInput_expected_bucket_owner := expected_bucket_owner;
          CreateBucketMetadataConfigurationInput_metadata_configuration := metadata_configuration |}.

Definition CreateBucketMetadataTableConfiguration_deserialize_http : ST (Request Ext) CreateBucketMetadataTableConfigurationInput :=
  bucket ← unwrap_bucket;
  checksum_algorithm ← ask parse_checksum_algorithm_header;
  content_md5 ← ask (parse_opt_header hv_string CONTENT_MD5);
  expected_bucket_owner ← ask (parse_opt_header hv_string X_AMZ_EXPECTED_BUCKET_OWNER);
  metadata_table_configuration ← take_xml_body (T := MetadataTableConfiguration);
  mret {| CreateBucketMetadataTableConfigurationInput_bucket := bucket;
          CreateBucketMetadataTableConfigurationInput_checksum_algorithm := checksum_algorithm;
          CreateBucketMetadataTableConfigurationInput_content_md5 := content_md5;
          CreateBucketMetadataTableConfigurationInput_expected_bucket_owner := expected_bucket_owner;
          CreateBucketMetadataTableConfigurationInput_metadata_table_configuration := metadata_table_configuration |}.

Definition CreateMultipartUpload_deserialize_http : ST (Request Ext) CreateMultipartUploadInput :=
  '(bucket, key) ← unwrap_object;
  acl ← ask (parse_opt_header hv_enum X_AMZ_ACL);
  bucket_key_enabled ← ask (parse_opt_header hv_bool X_AMZ_SERVER_SIDE_ENCRYPTION_BUCKET_KEY_ENABLED);
  cache_control ← ask (parse_opt_header hv_string CACHE_CONTROL);
  checksum_algorithm ← ask parse_checksum_algorithm_header;
  checksum_type ← ask (parse_opt_header hv_enum X_AMZ_CHECKSUM_TYPE);
  content_disposition ← ask (parse_opt_header hv_string CONTENT_DISPOSITION);
  content_encoding ← ask (parse_opt_header hv_string CONTENT_ENCODING);
  content_language ← ask (parse_opt_header hv_string CONTENT_LANGUAGE);
  content_type ← ask (parse_opt_header hv_string CONTENT_TYPE);
  expected_bucket_owner ← ask (parse_opt_header hv_string X_AMZ_EXPECTED_BUCKET_OWNER);
  expires ← ask (parse_opt_header hv_string EXPIRES);
  grant_full_control ← ask (parse_opt_header hv_string X_AMZ_GRANT_FULL_CONTROL);
  grant_read ← ask (parse_opt_header hv_string X_AMZ_GRANT_READ);
  grant_read_acp ← ask (parse_opt_header hv_string X_AMZ_GRANT_READ_ACP);
  grant_write_acp ← ask (parse_opt_header hv_string X_AMZ_GRANT_WRITE_ACP);
  metadata ← ask parse_opt_metadata;
  object_lock_legal_hold_status ← ask (parse_opt_header hv_enum X_AMZ_OBJECT_LOCK_LEGAL_HOLD);
  object_lock_mode ← ask (parse_opt_header hv_enum X_AMZ_OBJECT_LOCK_MODE);
  object_lock_retain_until_date ← parse_opt_header_timestamp X_AMZ_OBJECT_LOCK_RETAIN_UNTIL_DATE DateTime;
  request_payer ← ask (parse_opt_header hv_enum X_AMZ_REQUEST_PAYER);
  sse_customer_algorithm ← ask (parse_opt_header hv_string X_AMZ_SERVER_SIDE_ENCRYPTION_CUSTOMER_ALGORITHM);
  sse_customer_key ← ask (parse_opt_header hv_string X_AMZ_SERVER_SIDE_ENCRYPTION_CUSTOMER_KEY);
  sse_customer_key_md5 ← ask (parse_opt_header hv_string X_AMZ_SERVER_SIDE_ENCRYPTION_CUSTOMER_KEY_MD5);
  ssekms_encryption_context ← ask (parse_opt_header hv_string X_AMZ_SERVER_SIDE_ENCRYPTION_CONTEXT);
  ssekms_key_id ← ask (parse_opt_header hv_string X_AMZ_SERVER_SIDE_ENCRYPTION_AWS_KMS_KEY_ID);
  server_side_encryption ← ask (parse_opt_header hv_enum X_AMZ_SERVER_SIDE_ENCRYPTION);
  storage_class ← ask (parse_opt_header hv_enum X_AMZ_STORAGE_CLASS);
  tagging ← ask (parse_opt_header hv_string X_AMZ_TAGGING);
  website_redirect_location ← ask (parse_opt_header hv_string X_AMZ_WEBSITE_REDIRECT_LOCATION);
  mret {| CreateMultipartUploadInput_acl := acl;
          CreateMultipartUploadInput_bucket := bucket;
          CreateMultipartUploadInput_bucket_key_enabled := bucket_key_enabled;
          CreateMultipartUploadInput_cache_control := cache_control;
          CreateMultipartUploadInput_checksum_algorithm := checksum_algorithm;
          CreateMultipartUploadInput_checksum_type := checksum_type;
          CreateMultipartUploadInput_content_disposition := content_disposition;
          CreateMultipartUploadInput_content_encoding := content_encoding;
          CreateMultipartUploadInput_content_language := content_language;
          CreateMultipartUploadInput_content_type := content_type;
          CreateMultipartUploadInput_expected_bucket_owner := expected_bucket_owner;
          CreateMultipartUploadInput_expires := expires;
          CreateMultipartUploadInput_grant_full_control := grant_full_control;
          CreateMultipartUploadInput_grant_read := grant_read;
          CreateMultipartUploadInput_grant_read_acp := grant_read_acp;
          CreateMultipartUploadInput_grant_write_acp := grant_write_acp;
          CreateMultipartUploadInput_key := key;
          CreateMultipartUploadInput_metadata := metadata;
          CreateMultipartUploadInput_object_lock_legal_hold_status := object_lock_legal_hold_status;
          CreateMultipartUploadInput_object_lock_mode := object_lock_mode;
          CreateMultipartUploadInput_object_lock_retain_until_date := object_lock_retain_until_date;
          CreateMultipartUploadInput_request_payer := request_payer;
          CreateMultipartUploadInput_sse_customer_algorithm := sse_customer_algorithm;
          CreateMultipartUploadInput_sse_customer_key := sse_customer_key;
          CreateMultipartUploadInput_sse_customer_key_md5 := sse_customer_key_md5;
          CreateMultipartUploadInput_ssekms_encryption_context := ssekms_encryption_context;
          CreateMultipartUploadInput_ssekms_key_id := ssekms_key_id;
          CreateMultipartUploadInput_server_side_encryption := server_side_encryption;
          CreateMultipartUploadInput_storage_class := storage_class;
          CreateMultipartUploadInput_tagging := tagging;
          CreateMultipartUploadInput_website_redirect_location := website_redirect_location |}.

Definition CreateSession_deserialize_http : ST (Request Ext) CreateSessionInput :=
  bucket ← unwrap_bucket;
  bucket_key_enabled ← ask (parse_opt_header hv_bool X_AMZ_SERVER_SIDE_ENCRYPTION_BUCKET_KEY_ENABLED);
  ssekms_encryption_context ← ask (parse_opt_header hv_string X_AMZ_SERVER_SIDE_ENCRYPTION_CONTEXT);
  ssekms_key_id ← ask (parse_opt_header hv_string X_AMZ_SERVER_SIDE_ENCRYPTION_AWS_KMS_KEY_ID);
  server_side_encryption ← ask (parse_opt_header hv_enum X_AMZ_SERVER_SIDE_ENCRYPTION);
  session_mode ← ask (parse_opt_header hv_enum X_AMZ_CREATE_SESSION_MODE);
  mret {| CreateSessionInput_bucket := bucket;
          CreateSessionInput_bucket_key_enabled := bucket_key_enabled;
          CreateSessionInput_ssekms_encryption_context := ssekms_encryption_context;
          CreateSessionInput_ssekms_key_id := ssekms_key_id;
          CreateSessionInput_server_side_encryption := server_side_encryption;
          CreateSessionInput_session_mode := session_mode |}.

Definition DeleteBucket_deserialize_http : ST (Request Ext) DeleteBucketInput :=
  bucket ← unwrap_bucket;
  expected_bucket_owner ← ask (parse_opt_header hv_string X_AMZ_EXPECTED_BUCKET_OWNER);
  mret {| DeleteBucketInput_bucket := bucket; DeleteBucketInput_expected_bucket_owner := expected_bucket_owner |}.

Definition DeleteBucketAnalyticsConfiguration_deserialize_http : ST (Request Ext) DeleteBucketAnalyticsConfigurationInput :=
  bucket ← unwrap_bucket;
  expected_bucket_owner ← ask (parse_opt_header hv_string X_AMZ_EXPECTED_BUCKET_OWNER);
  id ← ask (parse_query fs_string (str "id"));
  mret {| DeleteBucketAnalyticsConfigurationInput_bucket := bucket;
          DeleteBucketAnalyticsConfigurationInput_expected_bucket_owner := expected_bucket_owner;
          DeleteBucketAnalyticsConfigurationInput_id := id |}.

Definition DeleteBucketCors_deserialize_http : ST (Request Ext) DeleteBucketCorsInput :=
  bucket ← unwrap_bucket;
  expected_bucket_owner ← ask (parse_opt_header hv_string X_AMZ_EXPECTED_BUCKET_OWNER);
  mret {| DeleteBucketCorsInput_bucket := bucket;
          DeleteBucketCorsInput_expected_bucket_owner := expected_bucket_owner |}.

Definition DeleteBucketEncryption_deserialize_http : ST (Request Ext) DeleteBucketEncryptionInput :=
  bucket ← unwrap_bucket;
  expected_bucket_owner ← ask (parse_opt_header hv_string X_AMZ_EXPECTED_BUCKET_OWNER);
  mret {| DeleteBucketEncryptionInput_bucket := bucket;
          DeleteBucketEncryptionInput_expected_bucket_owner := expected_bucket_owner |}.

Definition DeleteBucketIntelligentTieringConfiguration_deserialize_http : ST (Request Ext) DeleteBucketIntelligentTieringConfigurationInput :=
  bucket ← unwrap_bucket;
  expected_bucket_owner ← ask (parse_opt_header hv_string X_AMZ_EXPECTED_BUCKET_OWNER);
  id ← ask (parse_query fs_string (str "id"));
  mret {| DeleteBucketIntelligentTieringConfigurationInput_bucket := bucket;
          DeleteBucketIntelligentTieringConfigurationInput_expected_bucket_owner := expected_bucket_owner;
          DeleteBucketIntelligentTieringConfigurationInput_id := id |}.

Definition DeleteBucketInventoryConfiguration_deserialize_http : ST (Request Ext) DeleteBucketInventoryConfigurationInput :=
  bucket ← unwrap_bucket;
  expected_bucket_owner ← ask (parse_opt_header hv_string X_AMZ_EXPECTED_BUCKET_OWNER);
  id ← ask (parse_query fs_string (str "id"));
  mret {| DeleteBucketInventoryConfigurationInput_bucket := bucket;
          DeleteBucketInventoryConfigurationInput_expected_bucket_owner := expected_bucket_owner;
          DeleteBucketInventoryConfigurationInput_id := id |}.

Definition DeleteBucketLifecycle_deserialize_http : ST (Request Ext) DeleteBucketLifecycleInput :=
  bucket ← unwrap_bucket;
  expected_bucket_owner ← ask (parse_opt_header hv_string X_AMZ_EXPECTED_BUCKET_OWNER);
  mret {| DeleteBucketLifecycleInput_bucket := bucket;
          DeleteBucketLifecycleInput_expected_bucket_owner := expected_bucket_owner |}.

Definition DeleteBucketMetadataConfiguration_deserialize_http : ST (Request Ext) DeleteBucketMetadataConfigurationInput :=
  bucket ← unwrap_bucket;
  expected_bucket_owner ← ask (parse_opt_header hv_string X_AMZ_EXPECTED_BUCKET_OWNER);
  mret {| DeleteBucketMetadataConfigurationInput_bucket := bucket;
          DeleteBucketMetadataConfigurationInput_expected_bucket_owner := expected_bucket_owner |}.

Definition DeleteBucketMetadataTableConfiguration_deserialize_http : ST (Request Ext) DeleteBucketMetadataTableConfigurationInput :=
  bucket ← unwrap_bucket;
  expected_bucket_owner ← ask (parse_opt_header hv_string X_AMZ_EXPECTED_BUCKET_OWNER);
  mret {| DeleteBucketMetadataTableConfigurationInput_bucket := bucket;
          DeleteBucketMetadataTableConfigurationInput_expected_bucket_owner := expected_bucket_owner |}.

Definition DeleteBucketMetricsConfiguration_deserialize_http : ST (Request Ext) DeleteBucketMetricsConfigurationInput :=
  bucket ← unwrap_bucket;
  expected_bucket_owner ← ask (parse_opt_header hv_string X_AMZ_EXPECTED_BUCKET_OWNER);
  id ← ask (parse_query fs_string (str "id"));
  mret {| DeleteBucketMetricsConfigurationInput_bucket := bucket;
          DeleteBucketMetricsConfigurationInput_expected_bucket_owner := expected_bucket_owner;
          DeleteBucketMetricsConfigurationInput_id := id |}.

Definition DeleteBucketOwnershipControls_deserialize_http : ST (Request Ext) DeleteBucketOwnershipControlsInput :=
  bucket ← unwrap_bucket;
  expected_bucket_owner ← ask (parse_opt_header hv_string X_AMZ_EXPECTED_BUCKET_OWNER);
  mret {| DeleteBucketOwnershipControlsInput_bucket := bucket;
          DeleteBucketOwnershipControlsInput_expected_bucket_owner := expected_bucket_owner |}.

Definition DeleteBucketPolicy_deserialize_http : ST (Request Ext) DeleteBucketPolicyInput :=
  bucket ← unwrap_bucket;
  expected_bucket_owner ← ask (parse_opt_header hv_string X_AMZ_EXPECTED_BUCKET_OWNER);
  mret {| DeleteBucketPolicyInput_bucket := bucket;
          DeleteBucketPolicyInput_expected_bucket_owner := expected_bucket_owner |}.

Definition DeleteBucketReplication_deserialize_http : ST (Request Ext) DeleteBucketReplicationInput :=
  bucket ← unwrap_bucket;
  expected_bucket_owner ← ask (parse_opt_header hv_string X_AMZ_EXPECTED_BUCKET_OWNER);
  mret {| DeleteBucketReplicationInput_bucket := bucket;
          DeleteBucketReplicationInput_expected_bucket_owner := expected_bucket_owner |}.

Definition DeleteBucketTagging_deserialize_http : ST (Request Ext) DeleteBucketTaggingInput :=
  bucket ← unwrap_bucket;
  expected_bucket_owner ← ask (parse_opt_header hv_string X_AMZ_EXPECTED_BUCKET_OWNER);
  mret {| DeleteBucketTaggingInput_bucket := bucket;
          DeleteBucketTaggingInput_expected_bucket_owner := expected_bucket_owner |}.

Definition DeleteBucketWebsite_deserialize_http : ST (Request Ext) DeleteBucketWebsiteInput :=
  bucket ← unwrap_bucket;
  expected_bucket_owner ← ask (parse_opt_header hv_string X_AMZ_EXPECTED_BUCKET_OWNER);
  mret {| DeleteBucketWebsiteInput_bucket := bucket;
          DeleteBucketWebsiteInput_expected_bucket_owner := expected_bucket_owner |}.

Definition DeleteObject_deserialize_http : ST (Request Ext) DeleteObjectInput :=
  '(bucket, key) ← unwrap_object;
  bypass_governance_retention ← ask (parse_opt_header hv_bool X_AMZ_BYPASS_GOVERNANCE_RETENTION);
  expected_bucket_owner ← ask (parse_opt_header hv_string X_AMZ_EXPECTED_BUCKET_OWNER);
  if_match ← ask (parse_opt_header hv_ETagCondition IF_MATCH);
  if_match_last_modified_time ← parse_opt_header_timestamp X_AMZ_IF_MATCH_LAST_MODIFIED_TIME HttpDate;
  if_match_size ← ask (parse_opt_header hv_i64 X_AMZ_IF_MATCH_SIZE);
  mfa ← ask (parse_opt_header hv_string X_AMZ_MFA);
  request_payer ← ask (parse_opt_header hv_enum X_AMZ_REQUEST_PAYER);
  version_id ← ask (parse_opt_query fs_string (str "versionId"));
  mret {| DeleteObjectInput_bucket := bucket;
          DeleteObjectInput_bypass_governance_retention := bypass_governance_retention;
          DeleteObjectInput_expected_bucket_owner := expected_bucket_owner;
          DeleteObjectInput_if_match := if_match;
          DeleteObjectInput_if_match_last_modified_time := if_match_last_modified_time;
          DeleteObjectInput_if_match_size := if_match_size;
          DeleteObjectInput_key := key;
          DeleteObjectInput_mfa := mfa;
          DeleteObjectInput_request_payer := request_payer;
          DeleteObjectInput_version_id := version_id |}.

Definition DeleteObjectAnnotation_deserialize_http : ST (Request Ext) DeleteObjectAnnotationInput :=
  '(bucket, key) ← unwrap_object;
  annotation_name ← ask (parse_query fs_string (str "annotationName"));
  expected_bucket_owner ← ask (parse_opt_header hv_string X_AMZ_EXPECTED_BUCKET_OWNER);
  object_if_match ← ask (parse_opt_header hv_string X_AMZ_OBJECT_IF_MATCH);
  request_payer ← ask (parse_opt_header hv_enum X_AMZ_REQUEST_PAYER);
  version_id ← ask (parse_opt_query fs_string (str "versionId"));
  mret {| DeleteObjectAnnotationInput_annotation_name := annotation_name;
          DeleteObjectAnnotationInput_bucket := bucket;
          DeleteObjectAnnotationInput_expected_bucket_owner := expected_bucket_owner;
          DeleteObjectAnnotationInput_key := key;
          DeleteObjectAnnotationInput_object_if_match := object_if_match;
          DeleteObjectAnnotationInput_request_payer := request_payer;
          DeleteObjectAnnotationInput_version_id := version_id |}.

Definition DeleteObjectTagging_deserialize_http : ST (Request Ext) DeleteObjectTaggingInput :=
  '(bucket, key) ← unwrap_object;
  expected_bucket_owner ← ask (parse_opt_header hv_string X_AMZ_EXPECTED_BUCKET_OWNER);
  version_id ← ask (parse_opt_query fs_string (str "versionId"));
  mret {| DeleteObjectTaggingInput_bucket := bucket;
          DeleteObjectTaggingInput_expected_bucket_owner := expected_bucket_owner;
          DeleteObjectTaggingInput_key := key;
          DeleteObjectTaggingInput_version_id := version_id |}.

Definition DeleteObjects_deserialize_http : ST (Request Ext) DeleteObjectsInput :=
  bucket ← unwrap_bucket;
  bypass_governance_retention ← ask (parse_opt_header hv_bool X_AMZ_BYPASS_GOVERNANCE_RETENTION);
  checksum_algorithm ← ask parse_checksum_algorithm_header;
  delete ← take_xml_body (T := Delete);
  expected_bucket_owner ← ask (parse_opt_header hv_string X_AMZ_EXPECTED_BUCKET_OWNER);
  mfa ← ask (parse_opt_header hv_string X_AMZ_MFA);
  request_payer ← ask (parse_opt_header hv_enum X_AMZ_REQUEST_PAYER);
  mret {| DeleteObjectsInput_bucket := bucket;
          DeleteObjectsInput_bypass_governance_retention := bypass_governance_retention;
          DeleteObjectsInput_checksum_algorithm := checksum_algorithm;
          DeleteObjectsInput_delete := delete;
          DeleteObjectsInput_expected_bucket_owner := expected_bucket_owner;
          DeleteObjectsInput_mfa := mfa;
          DeleteObjectsInput_request_payer := request_payer |}.

Definition DeletePublicAccessBlock_deserialize_http : ST (Request Ext) DeletePublicAccessBlockInput :=
  bucket ← unwrap_bucket;
  expected_bucket_owner ← ask (parse_opt_header hv_string X_AMZ_EXPECTED_BUCKET_OWNER);
  mret {| DeletePublicAccessBlockInput_bucket := bucket;
          DeletePublicAccessBlockInput_expected_bucket_owner := expected_bucket_owner |}.

Definition GetBucketAbac_deserialize_http : ST (Request Ext) GetBucketAbacInput :=
  bucket ← unwrap_bucket;
  expected_bucket_owner ← ask (parse_opt_header hv_string X_AMZ_EXPECTED_BUCKET_OWNER);
  mret {| GetBucketAbacInput_bucket := bucket; GetBucketAbacInput_expected_bucket_owner := expected_bucket_owner |}.

Definition GetBucketAccelerateConfiguration_deserialize_http : ST (Request Ext) GetBucketAccelerateConfigurationInput :=
  bucket ← unwrap_bucket;
  expected_bucket_owner ← ask (parse_opt_header hv_string X_AMZ_EXPECTED_BUCKET_OWNER);
  request_payer ← ask (parse_opt_header hv_enum X_AMZ_REQUEST_PAYER);
  mret {| GetBucketAccelerateConfigurationInput_bucket := bucket;
          GetBucketAccelerateConfigurationInput_expected_bucket_owner := expected_bucket_owner;
          GetBucketAccelerateConfigurationInput_request_payer := request_payer |}.

Definition GetBucketAcl_deserialize_http : ST (Request Ext) GetBucketAclInput :=
  bucket ← unwrap_bucket;
  expected_bucket_owner ← ask (parse_opt_header hv_string X_AMZ_EXPECTED_BUCKET_OWNER);
  mret {| GetBucketAclInput_bucket := bucket; GetBucketAclInput_expected_bucket_owner := expected_bucket_owner |}.

Definition GetBucketAnalyticsConfiguration_deserialize_http : ST (Request Ext) GetBucketAnalyticsConfigurationInput :=
  bucket ← unwrap_bucket;
  expected_bucket_owner ← ask (parse_opt_header hv_string X_AMZ_EXPECTED_BUCKET_OWNER);
  id ← ask (parse_query fs_string (str "id"));
  mret {| GetBucketAnalyticsConfigurationInput_bucket := bucket;
          GetBucketAnalyticsConfigurationInput_expected_bucket_owner := expected_bucket_owner;
          GetBucketAnalyticsConfigurationInput_id := id |}.

Definition GetBucketCors_deserialize_http : ST (Request Ext) GetBucketCorsInput :=
  bucket ← unwrap_bucket;
  expected_bucket_owner ← ask (parse_opt_header hv_string X_AMZ_EXPECTED_BUCKET_OWNER);
  mret {| GetBucketCorsInput_bucket := bucket; GetBucketCorsInput_expected_bucket_owner := expected_bucket_owner |}.

Definition GetBucketEncryption_deserialize_http : ST (Request Ext) GetBucketEncryptionInput :=
  bucket ← unwrap_bucket;
  expected_bucket_owner ← ask (parse_opt_header hv_string X_AMZ_EXPECTED_BUCKET_OWNER);
  mret {| GetBucketEncryptionInput_bucket := bucket;
          GetBucketEncryptionInput_expected_bucket_owner := expected_bucket_owner |}.

Definition GetBucketIntelligentTieringConfiguration_deserialize_http : ST (Request Ext) GetBucketIntelligentTieringConfigurationInput :=
  bucket ← unwrap_bucket;
  expected_bucket_owner ← ask (parse_opt_header hv_string X_AMZ_EXPECTED_BUCKET_OWNER);
  id ← ask (parse_query fs_string (str "id"));
  mret {| GetBucketIntelligentTieringConfigurationInput_bucket := bucket;
          GetBucketIntelligentTieringConfigurationInput_expected_bucket_owner := expected_bucket_owner;
          GetBucketIntelligentTieringConfigurationInput_id := id |}.

Definition GetBucketInventoryConfiguration_deserialize_http : ST (Request Ext) GetBucketInventoryConfigurationInput :=
  bucket ← unwrap_bucket;
  expected_bucket_owner ← ask (parse_opt_header hv_string X_AMZ_EXPECTED_BUCKET_OWNER);
  id ← ask (parse_query fs_string (str "id"));
  mret {| GetBucketInventoryConfigurationInput_bucket := bucket;
          GetBucketInventoryConfigurationInput_expected_bucket_owner := expected_bucket_owner;
          GetBucketInventoryConfigurationInput_id := id |}.

Definition GetBucketLifecycleConfiguration_deserialize_http : ST (Request Ext) GetBucketLifecycleConfigurationInput :=
  bucket ← unwrap_bucket;
  expected_bucket_owner ← ask (parse_opt_header hv_string X_AMZ_EXPECTED_BUCKET_OWNER);
  mret {| GetBucketLifecycleConfigurationInput_bucket := bucket;
          GetBucketLifecycleConfigurationInput_expected_bucket_owner := expected_bucket_owner |}.

Definition GetBucketLocation_deserialize_http : ST (Request Ext) GetBucketLocationInput :=
  bucket ← unwrap_bucket;
  expected_bucket_owner ← ask (parse_opt_header hv_string X_AMZ_EXPECTED_BUCKET_OWNER);
  mret {| GetBucketLocationInput_bucket := bucket;
          GetBucketLocationInput_expected_bucket_owner := expected_bucket_owner |}.

Definition GetBucketLogging_deserialize_http : ST (Request Ext) GetBucketLoggingInput :=
  bucket ← unwrap_bucket;
  expected_bucket_owner ← ask (parse_opt_header hv_string X_AMZ_EXPECTED_BUCKET_OWNER);
  mret {| GetBucketLoggingInput_bucket := bucket;
          GetBucketLoggingInput_expected_bucket_owner := expected_bucket_owner |}.

Definition GetBucketMetadataConfiguration_deserialize_http : ST (Request Ext) GetBucketMetadataConfigurationInput :=
  bucket ← unwrap_bucket;
  expected_bucket_owner ← ask (parse_opt_header hv_string X_AMZ_EXPECTED_BUCKET_OWNER);
  mret {| GetBucketMetadataConfigurationInput_bucket := bucket;
          GetBucketMetadataConfigurationInput_expected_bucket_owner := expected_bucket_owner |}.

Definition GetBucketMetadataTableConfiguration_deserialize_http : ST (Request Ext) GetBucketMetadataTableConfigurationInput :=
  bucket ← unwrap_bucket;
  expected_bucket_owner ← ask (parse_opt_header hv_string X_AMZ_EXPECTED_BUCKET_OWNER);
  mret {| GetBucketMetadataTableConfigurationInput_bucket := bucket;
          GetBucketMetadataTableConfigurationInput_expected_bucket_owner := expected_bucket_owner |}.

Definition GetBucketMetricsConfiguration_deserialize_http : ST (Request Ext) GetBucketMetricsConfigurationInput :=
  bucket ← unwrap_bucket;
  expected_bucket_owner ← ask (parse_opt_header hv_string X_AMZ_EXPECTED_BUCKET_OWNER);
  id ← ask (parse_query fs_string (str "id"));
  mret {| GetBucketMetricsConfigurationInput_bucket := bucket;
          GetBucketMetricsConfigurationInput_expected_bucket_owner := expected_bucket_owner;
          GetBucketMetricsConfigurationInput_id := id |}.

Definition GetBucketNotificationConfiguration_deserialize_http : ST (Request Ext) GetBucketNotificationConfigurationInput :=
  bucket ← unwrap_bucket;
  expected_bucket_owner ← ask (parse_opt_header hv_string X_AMZ_EXPECTED_BUCKET_OWNER);
  mret {| GetBucketNotificationConfigurationInput_bucket := bucket;
          GetBucketNotificationConfigurationInput_expected_bucket_owner := expected_bucket_owner |}.

Definition GetBucketOwnershipControls_deserialize_http : ST (Request Ext) GetBucketOwnershipControlsInput :=
  bucket ← unwrap_bucket;
  expected_bucket_owner ← ask (parse_opt_header hv_string X_AMZ_EXPECTED_BUCKET_OWNER);
  mret {| GetBucketOwnershipControlsInput_bucket := bucket;
          GetBucketOwnershipControlsInput_expected_bucket_owner := expected_bucket_owner |}.

Definition GetBucketPolicy_deserialize_http : ST (Request Ext) GetBucketPolicyInput :=
  bucket ← unwrap_bucket;
  expected_bucket_owner ← ask (parse_opt_header hv_string X_AMZ_EXPECTED_BUCKET_OWNER);
  mret {| GetBucketPolicyInput_bucket := bucket; GetBucketPolicyInput_expected_bucket_owner := expected_bucket_owner |}.

Definition GetBucketPolicyStatus_deserialize_http : ST (Request Ext) GetBucketPolicyStatusInput :=
  bucket ← unwrap_bucket;
  expected_bucket_owner ← ask (parse_opt_header hv_string X_AMZ_EXPECTED_BUCKET_OWNER);
  mret {| GetBucketPolicyStatusInput_bucket := bucket;
          GetBucketPolicyStatusInput_expected_bucket_owner := expected_bucket_owner |}.

Definition GetBucketReplication_deserialize_http : ST (Request Ext) GetBucketReplicationInput :=
  bucket ← unwrap_bucket;
  expected_bucket_owner ← ask (parse_opt_header hv_string X_AMZ_EXPECTED_BUCKET_OWNER);
  mret {| GetBucketReplicationInput_bucket := bucket;
          GetBucketReplicationInput_expected_bucket_owner := expected_bucket_owner |}.

Definition GetBucketRequestPayment_deserialize_http : ST (Request Ext) GetBucketRequestPaymentInput :=
  bucket ← unwrap_bucket;
  expected_bucket_owner ← ask (parse_opt_header hv_string X_AMZ_EXPECTED_BUCKET_OWNER);
  mret {| GetBucketRequestPaymentInput_bucket := bucket;
          GetBucketRequestPaymentInput_expected_bucket_owner := expected_bucket_owner |}.

Definition GetBucketTagging_deserialize_http : ST (Request Ext) GetBucketTaggingInput :=
  bucket ← unwrap_bucket;
  expected_bucket_owner ← ask (parse_opt_header hv_string X_AMZ_EXPECTED_BUCKET_OWNER);
  mret {| GetBucketTaggingInput_bucket := bucket;
          GetBucketTaggingInput_expected_bucket_owner := expected_bucket_owner |}.

Definition GetBucketVersioning_deserialize_http : ST (Request Ext) GetBucketVersioningInput :=
  bucket ← unwrap_bucket;
  expected_bucket_owner ← ask (parse_opt_header hv_string X_AMZ_EXPECTED_BUCKET_OWNER);
  mret {| GetBucketVersioningInput_bucket := bucket;
          GetBucketVersioningInput_expected_bucket_owner := expected_bucket_owner |}.

Definition GetBucketWebsite_deserialize_http : ST (Request Ext) GetBucketWebsiteInput :=
  bucket ← unwrap_bucket;
  expected_bucket_owner ← ask (parse_opt_header hv_string X_AMZ_EXPECTED_BUCKET_OWNER);
  mret {| GetBucketWebsiteInput_bucket := bucket;
          GetBucketWebsiteInput_expected_bucket_owner := expected_bucket_owner |}.

Definition GetObject_deserialize_http : ST (Request Ext) GetObjectInput :=
  '(bucket, key) ← unwrap_object;
  checksum_mode ← ask (parse_opt_header hv_enum X_AMZ_CHECKSUM_MODE);
  expected_bucket_owner ← ask (parse_opt_header hv_string X_AMZ_EXPECTED_BUCKET_OWNER);
  if_match ← ask (parse_opt_header hv_ETagCondition IF_MATCH);
  if_modified_since ← parse_opt_header_timestamp IF_MODIFIED_SINCE HttpDate;
  if_none_match ← ask (parse_opt_header hv_ETagCondition IF_NONE_MATCH);
  if_unmodified_since ← parse_opt_header_timestamp IF_UNMODIFIED_SINCE HttpDate;
  part_number ← ask (parse_opt_query fs_i32 (str "partNumber"));
  range ← ask (parse_opt_header hv_Range RANGE);
  request_payer ← ask (parse_opt_header hv_enum X_AMZ_REQUEST_PAYER);
  response_cache_control ← ask (parse_opt_query fs_string (str "response-cache-control"));
  response_content_disposition ← ask (parse_opt_query fs_string (str "response-content-disposition"));
  response_content_encoding ← ask (parse_opt_query fs_string (str "response-content-encoding"));
  response_content_language ← ask (parse_opt_query fs_string (str "response-content-language"));
  response_content_type ← ask (parse_opt_query fs_string (str "response-content-type"));
  response_expires ← parse_opt_query_timestamp (str "response-expires") HttpDate;
  sse_customer_algorithm ← ask (parse_opt_header hv_string X_AMZ_SERVER_SIDE_ENCRYPTION_CUSTOMER_ALGORITHM);
  sse_customer_key ← ask (parse_opt_header hv_string X_AMZ_SERVER_SIDE_ENCRYPTION_CUSTOMER_KEY);
  sse_customer_key_md5 ← ask (parse_opt_header hv_string X_AMZ_SERVER_SIDE_ENCRYPTION_CUSTOMER_KEY_MD5);
  version_id ← ask (parse_opt_query fs_string (str "versionId"));
  mret {| GetObjectInput_bucket := bucket;
          GetObjectInput_checksum_mode := checksum_mode;
          GetObjectInput_expected_bucket_owner := expected_bucket_owner;
          GetObjectInput_if_match := if_match;
          GetObjectInput_if_modified_since := if_modified_since;
          GetObjectInput_if_none_match := if_none_match;
          GetObjectInput_if_unmodified_since := if_unmodified_since;
          GetObjectInput_key := key;
          GetObjectInput_part_number := part_number;
          GetObjectInput_range := range;
          GetObjectInput_request_payer := request_payer;
          GetObjectInput_response_cache_control := response_cache_control;
          GetObjectInput_response_content_disposition := response_content_disposition;
          GetObjectInput_response_content_encoding := response_content_encoding;
          GetObjectInput_response_content_language := response_content_language;
          GetObjectInput_response_content_type := response_content_type;
          GetObjectInput_response_expires := response_expires;
          GetObjectInput_sse_customer_algorithm := sse_customer_algorithm;
          GetObjectInput_sse_customer_key := sse_customer_key;
          GetObjectInput_sse_customer_key_md5 := sse_customer_key_md5;
          GetObjectInput_version_id := version_id |}.

Definition GetObjectAcl_deserialize_http : ST (Request Ext) GetObjectAclInput :=
  '(bucket, key) ← unwrap_object;
  expected_bucket_owner ← ask (parse_opt_header hv_string X_AMZ_EXPECTED_BUCKET_OWNER);
  request_payer ← ask (parse_opt_header hv_enum X_AMZ_REQUEST_PAYER);
  version_id ← ask (parse_opt_query fs_string (str "versionId"));
  mret {| GetObjectAclInput_bucket := bucket;
          GetObjectAclInput_expected_bucket_owner := expected_bucket_owner;
          GetObjectAclInput_key := key;
          GetObjectAclInput_request_payer := request_payer;
          GetObjectAclInput_version_id := version_id |}.

Definition GetObjectAnnotation_deserialize_http : ST (Request Ext) GetObjectAnnotationInput :=
  '(bucket, key) ← unwrap_object;
  annotation_name ← ask (parse_query fs_string (str "annotationName"));
  checksum_mode ← ask (parse_opt_header hv_enum X_AMZ_CHECKSUM_MODE);
  expected_bucket_owner ← ask (parse_opt_header hv_string X_AMZ_EXPECTED_BUCKET_OWNER);
  request_payer ← ask (parse_opt_header hv_enum X_AMZ_REQUEST_PAYER);
  version_id ← ask (parse_opt_query fs_string (str "versionId"));
  mret {| GetObjectAnnotationInput_annotation_name := annotation_name;
          GetObjectAnnotationInput_bucket := bucket;
          GetObjectAnnotationInput_checksum_mode := checksum_mode;
          GetObjectAnnotationInput_expected_bucket_owner := expected_bucket_owner;
          GetObjectAnnotationInput_key := key;
          GetObjectAnnotationInput_request_payer := request_payer;
          GetObjectAnnotationInput_version_id := version_id |}.

Definition GetObjectAttributes_deserialize_http : ST (Request Ext) GetObjectAttributesInput :=
  '(bucket, key) ← unwrap_object;
  expected_bucket_owner ← ask (parse_opt_header hv_string X_AMZ_EXPECTED_BUCKET_OWNER);
  max_parts ← ask (parse_opt_header hv_i32 X_AMZ_MAX_PARTS);
  object_attributes ← ask (parse_list_header hv_enum X_AMZ_OBJECT_ATTRIBUTES);
  part_number_marker ← ask (parse_opt_header hv_i32 X_AMZ_PART_NUMBER_MARKER);
  request_payer ← ask (parse_opt_header hv_enum X_AMZ_REQUEST_PAYER);
  sse_customer_algorithm ← ask (parse_opt_header hv_string X_AMZ_SERVER_SIDE_ENCRYPTION_CUSTOMER_ALGORITHM);
  sse_customer_key ← ask (parse_opt_header hv_string X_AMZ_SERVER_SIDE_ENCRYPTION_CUSTOMER_KEY);
  sse_customer_key_md5 ← ask (parse_opt_header hv_string X_AMZ_SERVER_SIDE_ENCRYPTION_CUSTOMER_KEY_MD5);
  version_id ← ask (parse_opt_query fs_string (str "versionId"));
  mret {| GetObjectAttributesInput_bucket := bucket;
          GetObjectAttributesInput_expected_bucket_owner := expected_bucket_owner;
          GetObjectAttributesInput_key := key;
          GetObjectAttributesInput_max_parts := max_parts;
          GetObjectAttributesInput_object_attributes := object_attributes;
          GetObjectAttributesInput_part_number_marker := part_number_marker;
          GetObjectAttributesInput_request_payer := request_payer;
          GetObjectAttributesInput_sse_customer_algorithm := sse_customer_algorithm;
          GetObjectAttributesInput_sse_customer_key := sse_customer_key;
          GetObjectAttributesInput_sse_customer_key_md5 := sse_customer_key_md5;
          GetObjectAttributesInput_version_id := version_id |}.

Definition GetObjectLegalHold_deserialize_http : ST (Request Ext) GetObjectLegalHoldInput :=
  '(bucket, key) ← unwrap_object;
  expected_bucket_owner ← ask (parse_opt_header hv_string X_AMZ_EXPECTED_BUCKET_OWNER);
  request_payer ← ask (parse_opt_header hv_enum X_AMZ_REQUEST_PAYER);
  version_id ← ask (parse_opt_query fs_string (str "versionId"));
  mret {| GetObjectLegalHoldInput_bucket := bucket;
          GetObjectLegalHoldInput_expected_bucket_owner := expected_bucket_owner;
          GetObjectLegalHoldInput_key := key;
          GetObjectLegalHoldInput_request_payer := request_payer;
          GetObjectLegalHoldInput_version_id := version_id |}.

Definition GetObjectLockConfiguration_deserialize_http : ST (Request Ext) GetObjectLockConfigurationInput :=
  bucket ← unwrap_bucket;
  expected_bucket_owner ← ask (parse_opt_header hv_string X_AMZ_EXPECTED_BUCKET_OWNER);
  mret {| GetObjectLockConfigurationInput_bucket := bucket;
          GetObjectLockConfigurationInput_expected_bucket_owner := expected_bucket_owner |}.

Definition GetObjectRetention_deserialize_http : ST (Request Ext) GetObjectRetentionInput :=
  '(bucket, key) ← unwrap_object;
  expected_bucket_owner ← ask (parse_opt_header hv_string X_AMZ_EXPECTED_BUCKET_OWNER);
  request_payer ← ask (parse_opt_header hv_enum X_AMZ_REQUEST_PAYER);
  version_id ← ask (parse_opt_query fs_string (str "versionId"));
  mret {| GetObjectRetentionInput_bucket := bucket;
          GetObjectRetentionInput_expected_bucket_owner := expected_bucket_owner;
          GetObjectRetentionInput_key := key;
          GetObjectRetentionInput_request_payer := request_payer;
          GetObjectRetentionInput_version_id := version_id |}.

Definition GetObjectTagging_deserialize_http : ST (Request Ext) GetObjectTaggingInput :=
  '(bucket, key) ← unwrap_object;
  expected_bucket_owner ← ask (parse_opt_header hv_string X_AMZ_EXPECTED_BUCKET_OWNER);
  request_payer ← ask (parse_opt_header hv_enum X_AMZ_REQUEST_PAYER);
  version_id ← ask (parse_opt_query fs_string (str "versionId"));
  mret {| GetObjectTaggingInput_bucket := bucket;
          GetObjectTaggingInput_expected_bucket_owner := expected_bucket_owner;
          GetObjectTaggingInput_key := key;
          GetObjectTaggingInput_request_payer := request_payer;
          GetObjectTaggingInput_version_id := version_id |}.

Definition GetObjectTorrent_deserialize_http : ST (Request Ext) GetObjectTorrentInput :=
  '(bucket, key) ← unwrap_object;
  expected_bucket_owner ← ask (parse_opt_header hv_string X_AMZ_EXPECTED_BUCKET_OWNER);
  request_payer ← ask (parse_opt_header hv_enum X_AMZ_REQUEST_PAYER);
  mret {| GetObjectTorrentInput_bucket := bucket;
          GetObjectTorrentInput_expected_bucket_owner := expected_bucket_owner;
          GetObjectTorrentInput_key := key;
          GetObjectTorrentInput_request_payer := request_payer |}.

Definition GetPublicAccessBlock_deserialize_http : ST (Request Ext) GetPublicAccessBlockInput :=
  bucket ← unwrap_bucket;
  expected_bucket_owner ← ask (parse_opt_header hv_string X_AMZ_EXPECTED_BUCKET_OWNER);
  mret {| GetPublicAccessBlockInput_bucket := bucket;
          GetPublicAccessBlockInput_expected_bucket_owner := expected_bucket_owner |}.

Definition HeadBucket_deserialize_http : ST (Request Ext) HeadBucketInput :=
  bucket ← unwrap_bucket;
  expected_bucket_owner ← ask (parse_opt_header hv_string X_AMZ_EXPECTED_BUCKET_OWNER);
  mret {| HeadBucketInput_bucket := bucket; HeadBucketInput_expected_bucket_owner := expected_bucket_owner |}.

Definition HeadObject_deserialize_http : ST (Request Ext) HeadObjectInput :=
  '(bucket, key) ← unwrap_object;
  checksum_mode ← ask (parse_opt_header hv_enum X_AMZ_CHECKSUM_MODE);
  expected_bucket_owner ← ask (parse_opt_header hv_string X_AMZ_EXPECTED_BUCKET_OWNER);
  if_match ← ask (parse_opt_header hv_ETagCondition IF_MATCH);
  if_modified_since ← parse_opt_header_timestamp IF_MODIFIED_SINCE HttpDate;
  if_none_match ← ask (parse_opt_header hv_ETagCondition IF_NONE_MATCH);
  if_unmodified_since ← parse_opt_header_timestamp IF_UNMODIFIED_SINCE HttpDate;
  part_number ← ask (parse_opt_query fs_i32 (str "partNumber"));
  range ← ask (parse_opt_header hv_Range RANGE);
  request_payer ← ask (parse_opt_header hv_enum X_AMZ_REQUEST_PAYER);
  response_cache_control ← ask (parse_opt_query fs_string (str "response-cache-control"));
  response_content_disposition ← ask (parse_opt_query fs_string (str "response-content-disposition"));
  response_content_encoding ← ask (parse_opt_query fs_string (str "response-content-encoding"));
  response_content_language ← ask (parse_opt_query fs_string (str "response-content-language"));
  response_content_type ← ask (parse_opt_query fs_string (str "response-content-type"));
  response_expires ← parse_opt_query_timestamp (str "response-expires") HttpDate;
  sse_customer_algorithm ← ask (parse_opt_header hv_string X_AMZ_SERVER_SIDE_ENCRYPTION_CUSTOMER_ALGORITHM);
  sse_customer_key ← ask (parse_opt_header hv_string X_AMZ_SERVER_SIDE_ENCRYPTION_CUSTOMER_KEY);
  sse_customer_key_md5 ← ask (parse_opt_header hv_string X_AMZ_SERVER_SIDE_ENCRYPTION_CUSTOMER_KEY_MD5);
  version_id ← ask (parse_opt_query fs_string (str "versionId"));
  mret {| HeadObjectInput_bucket := bucket;
          HeadObjectInput_checksum_mode := checksum_mode;
          HeadObjectInput_expected_bucket_owner := expected_bucket_owner;
          HeadObjectInput_if_match := if_match;
          HeadObjectInput_if_modified_since := if_modified_since;
          HeadObjectInput_if_none_match := if_none_match;
          HeadObjectInput_if_unmodified_since := if_unmodified_since;
          HeadObjectInput_key := key;
          HeadObjectInput_part_number := part_number;
          HeadObjectInput_range := range;
          HeadObjectInput_request_payer := request_payer;
          HeadObjectInput_response_cache_control := response_cache_control;
          HeadObjectInput_response_content_disposition := response_content_disposition;
          HeadObjectInput_response_content_encoding := response_content_encoding;
          HeadObjectInput_response_content_language := response_content_language;
          HeadObjectInput_response_content_type := response_content_type;
          HeadObjectInput_response_expires := response_expires;
          HeadObjectInput_sse_customer_algorithm := sse_customer_algorithm;
          HeadObjectInput_sse_customer_key := sse_customer_key;
          HeadObjectInput_sse_customer_key_md5 := sse_customer_key_md5;
          HeadObjectInput_version_id := version_id |}.

Definition ListBucketAnalyticsConfigurations_deserialize_http : ST (Request Ext) ListBucketAnalyticsConfigurationsInput :=
  bucket ← unwrap_bucket;
  continuation_token ← ask (parse_opt_query fs_string (str "continuation-token"));
  expected_bucket_owner ← ask (parse_opt_header hv_string X_AMZ_EXPECTED_BUCKET_OWNER);
  mret {| ListBucketAnalyticsConfigurationsInput_bucket := bucket;
          ListBucketAnalyticsConfigurationsInput_continuation_token := continuation_token;
          ListBucketAnalyticsConfigurationsInput_expected_bucket_owner := expected_bucket_owner |}.

Definition ListBucketIntelligentTieringConfigurations_deserialize_http : ST (Request Ext) ListBucketIntelligentTieringConfigurationsInput :=
  bucket ← unwrap_bucket;
  continuation_token ← ask (parse_opt_query fs_string (str "continuation-token"));
  expected_bucket_owner ← ask (parse_opt_header hv_string X_AMZ_EXPECTED_BUCKET_OWNER);
  mret {| ListBucketIntelligentTieringConfigurationsInput_bucket := bucket;
          ListBucketIntelligentTieringConfigurationsInput_continuation_token := continuation_token;
          ListBucketIntelligentTieringConfigurationsInput_expected_bucket_owner := expected_bucket_owner |}.

Definition ListBucketInventoryConfigurations_deserialize_http : ST (Request Ext) ListBucketInventoryConfigurationsInput :=
  bucket ← unwrap_bucket;
  continuation_token ← ask (parse_opt_query fs_string (str "continuation-token"));
  expected_bucket_owner ← ask (parse_opt_header hv_string X_AMZ_EXPECTED_BUCKET_OWNER);
  mret {| ListBucketInventoryConfigurationsInput_bucket := bucket;
          ListBucketInventoryConfigurationsInput_continuation_token := continuation_token;
          ListBucketInventoryConfigurationsInput_expected_bucket_owner := expected_bucket_owner |}.

Definition ListBucketMetricsConfigurations_deserialize_http : ST (Request Ext) ListBucketMetricsConfigurationsInput :=
  bucket ← unwrap_bucket;
  continuation_token ← ask (parse_opt_query fs_string (str "continuation-token"));
  expected_bucket_owner ← ask (parse_opt_header hv_string X_AMZ_EXPECTED_BUCKET_OWNER);
  mret {| ListBucketMetricsConfigurationsInput_bucket := bucket;
          ListBucketMetricsConfigurationsInput_continuation_token := continuation_token;
          ListBucketMetricsConfigurationsInput_expected_bucket_owner := expected_bucket_owner |}.

Definition ListBuckets_deserialize_http : ST (Request Ext) ListBucketsInput :=
  bucket_region ← ask (parse_opt_query fs_string (str "bucket-region"));
  continuation_token ← ask (parse_opt_query fs_string (str "continuation-token"));
  max_buckets ← ask (parse_opt_query fs_i32 (str "max-buckets"));
  prefix ← ask (parse_opt_query fs_string (str "prefix"));
  mret {| ListBucketsInput_bucket_region := bucket_region;
          ListBucketsInput_continuation_token := continuation_token;
          ListBucketsInput_max_buckets := max_buckets;
          ListBucketsInput_prefix := prefix |}.

Definition ListDirectoryBuckets_deserialize_http : ST (Request Ext) ListDirectoryBucketsInput :=
  continuation_token ← ask (parse_opt_query fs_string (str "continuation-token"));
  max_directory_buckets ← ask (parse_opt_query fs_i32 (str "max-directory-buckets"));
  mret {| ListDirectoryBucketsInput_continuation_token := continuation_token;
          ListDirectoryBucketsInput_max_directory_buckets := max_directory_buckets |}.

Definition ListMultipartUploads_deserialize_http : ST (Request Ext) ListMultipartUploadsInput :=
  bucket ← unwrap_bucket;
  delimiter ← ask (parse_opt_query fs_string (str "delimiter"));
  encoding_type ← ask (parse_opt_query fs_enum (str "encoding-type"));
  expected_bucket_owner ← ask (parse_opt_header hv_string X_AMZ_EXPECTED_BUCKET_OWNER);
  key_marker ← ask (parse_opt_query fs_string (str "key-marker"));
  max_uploads ← ask (parse_opt_query fs_i32 (str "max-uploads"));
  prefix ← ask (parse_opt_query fs_string (str "prefix"));
  request_payer ← ask (parse_opt_header hv_enum X_AMZ_REQUEST_PAYER);
  upload_id_marker ← ask (parse_opt_query fs_string (str "upload-id-marker"));
  mret {| ListMultipartUploadsInput_bucket := bucket;
          ListMultipartUploadsInput_delimiter := delimiter;
          ListMultipartUploadsInput_encoding_type := encoding_type;
          ListMultipartUploadsInput_expected_bucket_owner := expected_bucket_owner;
          ListMultipartUploadsInput_key_marker := key_marker;
          ListMultipartUploadsInput_max_uploads := max_uploads;
          ListMultipartUploadsInput_prefix := prefix;
          ListMultipartUploadsInput_request_payer := request_payer;
          ListMultipartUploadsInput_upload_id_marker := upload_id_marker |}.

Definition ListObjectAnnotations_deserialize_http : ST (Request Ext) ListObjectAnnotationsInput :=
  '(bucket, key) ← unwrap_object;
  annotation_prefix ← ask (parse_opt_query fs_string (str "annotation-prefix"));
  continuation_token ← ask (parse_opt_query fs_string (str "continuation-token"));
  expected_bucket_owner ← ask (parse_opt_header hv_string X_AMZ_EXPECTED_BUCKET_OWNER);
  max_annotation_results ← ask (parse_opt_query fs_i32 (str "max-annotation-results"));
  request_payer ← ask (parse_opt_header hv_enum X_AMZ_REQUEST_PAYER);
  version_id ← ask (parse_opt_query fs_string (str "versionId"));
  mret {| ListObjectAnnotationsInput_annotation_prefix := annotation_prefix;
          ListObjectAnnotationsInput_bucket := bucket;
          ListObjectAnnotationsInput_continuation_token := continuation_token;
          ListObjectAnnotationsInput_expected_bucket_owner := expected_bucket_owner;
          ListObjectAnnotationsInput_key := key;
          ListObjectAnnotationsInput_max_annotation_results := max_annotation_results;
          ListObjectAnnotationsInput_request_payer := request_payer;
          ListObjectAnnotationsInput_version_id := version_id |}.

Definition ListObjectVersions_deserialize_http : ST (Request Ext) ListObjectVersionsInput :=
  bucket ← unwrap_bucket;
  delimiter ← ask (parse_opt_query fs_string (str "delimiter"));
  encoding_type ← ask (parse_opt_query fs_enum (str "encoding-type"));
  expected_bucket_owner ← ask (parse_opt_header hv_string X_AMZ_EXPECTED_BUCKET_OWNER);
  key_marker ← ask (parse_opt_query fs_string (str "key-marker"));
  max_keys ← ask (parse_opt_query fs_i32 (str "max-keys"));
  optional_object_attributes ← ask (parse_opt_list_header hv_enum X_AMZ_OPTIONAL_OBJECT_ATTRIBUTES);
  prefix ← ask (parse_opt_query fs_string (str "prefix"));
  request_payer ← ask (parse_opt_header hv_enum X_AMZ_REQUEST_PAYER);
  version_id_marker ← ask (parse_opt_query fs_string (str "version-id-marker"));
  mret {| ListObjectVersionsInput_bucket := bucket;
          ListObjectVersionsInput_delimiter := delimiter;
          ListObjectVersionsInput_encoding_type := encoding_type;
          ListObjectVersionsInput_expected_bucket_owner := expected_bucket_owner;
          ListObjectVersionsInput_key_marker := key_marker;
          ListObjectVersionsInput_max_keys := max_keys;
          ListObjectVersionsInput_optional_object_attributes := optional_object_attributes;
          ListObjectVersionsInput_prefix := prefix;
          ListObjectVersionsInput_request_payer := request_payer;
          ListObjectVersionsInput_version_id_marker := version_id_marker |}.

Definition ListObjects_deserialize_http : ST (Request Ext) ListObjectsInput :=
  bucket ← unwrap_bucket;
  delimiter ← ask (parse_opt_query fs_string (str "delimiter"));
  encoding_type ← ask (parse_opt_query fs_enum (str "encoding-type"));
  expected_bucket_owner ← ask (parse_opt_header hv_string X_AMZ_EXPECTED_BUCKET_OWNER);
  marker ← ask (parse_opt_query fs_string (str "marker"));
  max_keys ← ask (parse_opt_query fs_i32 (str "max-keys"));
  optional_object_attributes ← ask (parse_opt_list_header hv_enum X_AMZ_OPTIONAL_OBJECT_ATTRIBUTES);
  prefix ← ask (parse_opt_query fs_string (str "prefix"));
  request_payer ← ask (parse_opt_header hv_enum X_AMZ_REQUEST_PAYER);
  mret {| ListObjectsInput_bucket := bucket;
          ListObjectsInput_delimiter := delimiter;
          ListObjectsInput_encoding_type := encoding_type;
          ListObjectsInput_expected_bucket_owner := expected_bucket_owner;
          ListObjectsInput_marker := marker;
          ListObjectsInput_max_keys := max_keys;
          ListObjectsInput_optional_object_attributes := optional_object_attributes;
          ListObjectsInput_prefix := prefix;
          ListObjectsInput_request_payer := request_payer |}.

Definition ListObjectsV2_deserialize_http : ST (Request Ext) ListObjectsV2Input :=
  bucket ← unwrap_bucket;
  continuation_token ← ask (parse_opt_query fs_string (str "continuation-token"));
  delimiter ← ask (parse_opt_query fs_string (str "delimiter"));
  encoding_type ← ask (parse_opt_query fs_enum (str "encoding-type"));
  expected_bucket_owner ← ask (parse_opt_header hv_string X_AMZ_EXPECTED_BUCKET_OWNER);
  fetch_owner ← ask (parse_opt_query fs_bool (str "fetch-owner"));
  max_keys ← ask (parse_opt_query fs_i32 (str "max-keys"));
  optional_object_attributes ← ask (parse_opt_list_header hv_enum X_AMZ_OPTIONAL_OBJECT_ATTRIBUTES);
  prefix ← ask (parse_opt_query fs_string (str "prefix"));
  request_payer ← ask (parse_opt_header hv_enum X_AMZ_REQUEST_PAYER);
  start_after ← ask (parse_opt_query fs_string (str "start-after"));
  mret {| ListObjectsV2Input_bucket := bucket;
          ListObjectsV2Input_continuation_token := continuation_token;
          ListObjectsV2Input_delimiter := delimiter;
          ListObjectsV2Input_encoding_type := encoding_type;
          ListObjectsV2Input_expected_bucket_owner := expected_bucket_owner;
          ListObjectsV2Input_fetch_owner := fetch_owner;
          ListObjectsV2Input_max_keys := max_keys;
          ListObjectsV2Input_optional_object_attributes := optional_object_attributes;
          ListObjectsV2Input_prefix := prefix;
          ListObjectsV2Input_request_payer := request_payer;
          ListObjectsV2Input_start_after := start_after |}.

Definition ListParts_deserialize_http : ST (Request Ext) ListPartsInput :=
  '(bucket, key) ← unwrap_object;
  expected_bucket_owner ← ask (parse_opt_header hv_string X_AMZ_EXPECTED_BUCKET_OWNER);
  max_parts ← ask (parse_opt_query fs_i32 (str "max-parts"));
  part_number_marker ← ask (parse_opt_query fs_i32 (str "part-number-marker"));
  request_payer ← ask (parse_opt_header hv_enum X_AMZ_REQUEST_PAYER);
  sse_customer_algorithm ← ask (parse_opt_header hv_string X_AMZ_SERVER_SIDE_ENCRYPTION_CUSTOMER_ALGORITHM);
  sse_customer_key ← ask (parse_opt_header hv_string X_AMZ_SERVER_SIDE_ENCRYPTION_CUSTOMER_KEY);
  sse_customer_key_md5 ← ask (parse_opt_header hv_string X_AMZ_SERVER_SIDE_ENCRYPTION_CUSTOMER_KEY_MD5);
  upload_id ← ask (parse_query fs_string (str "uploadId"));
  mret {| ListPartsInput_bucket := bucket;
          ListPartsInput_expected_bucket_owner := expected_bucket_owner;
          ListPartsInput_key := key;
          ListPartsInput_max_parts := max_parts;
          ListPartsInput_part_number_marker := part_number_marker;
          ListPartsInput_request_payer := request_payer;
          ListPartsInput_sse_customer_algorithm := sse_customer_algorithm;
          ListPartsInput_sse_customer_key := sse_customer_key;
          ListPartsInput_sse_customer_key_md5 := sse_customer_key_md5;
          ListPartsInput_upload_id := upload_id |}.

Definition PutBucketAbac_deserialize_http : ST (Request Ext) PutBucketAbacInput :=
  bucket ← unwrap_bucket;
  abac_status ← take_xml_body (T := AbacStatus);
  checksum_algorithm ← ask parse_checksum_algorithm_header;
  content_md5 ← ask (parse_opt_header hv_string CONTENT_MD5);
  expected_bucket_owner ← ask (parse_opt_header hv_string X_AMZ_EXPECTED_BUCKET_OWNER);
  mret {| PutBucketAbacInput_abac_status := abac_status;
          PutBucketAbacInput_bucket := bucket;
          PutBucketAbacInput_checksum_algorithm := checksum_algorithm;
          PutBucketAbacInput_content_md5 := content_md5;
          PutBucketAbacInput_expected_bucket_owner := expected_bucket_owner |}.

Definition PutBucketAccelerateConfiguration_deserialize_http : ST (Request Ext) PutBucketAccelerateConfigurationInput :=
  bucket ← unwrap_bucket;
  accelerate_configuration ← take_xml_body (T := AccelerateConfiguration);
  checksum_algorithm ← ask parse_checksum_algorithm_header;
  expected_bucket_owner ← ask (parse_opt_header hv_string X_AMZ_EXPECTED_BUCKET_OWNER);
  mret {| PutBucketAccelerateConfigurationInput_accelerate_configuration := accelerate_configuration;
          PutBucketAccelerateConfigurationInput_bucket := bucket;
          PutBucketAccelerateConfigurationInput_checksum_algorithm := checksum_algorithm;
          PutBucketAccelerateConfigurationInput_expected_bucket_owner := expected_bucket_owner |}.

Definition PutBucketAcl_deserialize_http : ST (Request Ext) PutBucketAclInput :=
  bucket ← unwrap_bucket;
  acl ← ask (parse_opt_header hv_enum X_AMZ_ACL);
  access_control_policy ← take_opt_xml_body (T := AccessControlPolicy);
  checksum_algorithm ← ask parse_checksum_algorithm_header;
  content_md5 ← ask (parse_opt_header hv_string CONTENT_MD5);
  expected_bucket_owner ← ask (parse_opt_header hv_string X_AMZ_EXPECTED_BUCKET_OWNER);
  grant_full_control ← ask (parse_opt_header hv_string X_AMZ_GRANT_FULL_CONTROL);
  grant_read ← ask (parse_opt_header hv_string X_AMZ_GRANT_READ);
  grant_read_acp ← ask (parse_opt_header hv_string X_AMZ_GRANT_READ_ACP);
  grant_write ← ask (parse_opt_header hv_string X_AMZ_GRANT_WRITE);
  grant_write_acp ← ask (parse_opt_header hv_string X_AMZ_GRANT_WRITE_ACP);
  mret {| PutBucketAclInput_acl := acl;
          PutBucketAclInput_access_control_policy := access_control_policy;
          PutBucketAclInput_bucket := bucket;
          PutBucketAclInput_checksum_algorithm := checksum_algorithm;
          PutBucketAclInput_content_md5 := content_md5;
          PutBucketAclInput_expected_bucket_owner := expected_bucket_owner;
          PutBucketAclInput_grant_full_control := grant_full_control;
          PutBucketAclInput_grant_read := grant_read;
          PutBucketAclInput_grant_read_acp := grant_read_acp;
          PutBucketAclInput_grant_write := grant_write;
          PutBucketAclInput_grant_write_acp := grant_write_acp |}.

Definition PutBucketAnalyticsConfiguration_deserialize_http : ST (Request Ext) PutBucketAnalyticsConfigurationInput :=
  bucket ← unwrap_bucket;
  analytics_configuration ← take_xml_body (T := AnalyticsConfiguration);
  expected_bucket_owner ← ask (parse_opt_header hv_string X_AMZ_EXPECTED_BUCKET_OWNER);
  id ← ask (parse_query fs_string (str "id"));
  mret {| PutBucketAnalyticsConfigurationInput_analytics_configuration := analytics_configuration;
          PutBucketAnalyticsConfigurationInput_bucket := bucket;
          PutBucketAnalyticsConfigurationInput_expected_bucket_owner := expected_bucket_owner;
          PutBucketAnalyticsConfigurationInput_id := id |}.

Definition PutBucketCors_deserialize_http : ST (Request Ext) PutBucketCorsInput :=
  bucket ← unwrap_bucket;
  cors_configuration ← take_xml_body (T := CORSConfiguration);
  checksum_algorithm ← ask parse_checksum_algorithm_header;
  content_md5 ← ask (parse_opt_header hv_string CONTENT_MD5);
  expected_bucket_owner ← ask (parse_opt_header hv_string X_AMZ_EXPECTED_BUCKET_OWNER);
  mret {| PutBucketCorsInput_bucket := bucket;
          PutBucketCorsInput_cors_configuration := cors_configuration;
          PutBucketCorsInput_checksum_algorithm := checksum_algorithm;
          PutBucketCorsInput_content_md5 := content_md5;
          PutBucketCorsInput_expected_bucket_owner := expected_bucket_owner |}.

Definition PutBucketEncryption_deserialize_http : ST (Request Ext) PutBucketEncryptionInput :=
  bucket ← unwrap_bucket;
  checksum_algorithm ← ask parse_checksum_algorithm_header;
  content_md5 ← ask (parse_opt_header hv_string CONTENT_MD5);
  expected_bucket_owner ← ask (parse_opt_header hv_string X_AMZ_EXPECTED_BUCKET_OWNER);
  server_side_encryption_configuration ← take_xml_body (T := ServerSideEncryptionConfiguration);
  mret {| PutBucketEncryptionInput_bucket := bucket;
          PutBucketEncryptionInput_checksum_algorithm := checksum_algorithm;
          PutBucketEncryptionInput_content_md5 := content_md5;
          PutBucketEncryptionInput_expected_bucket_owner := expected_bucket_owner;
          PutBucketEncryptionInput_server_side_encryption_configuration := server_side_encryption_configuration |}.

Definition PutBucketIntelligentTieringConfiguration_deserialize_http : ST (Request Ext) PutBucketIntelligentTieringConfigurationInput :=
  bucket ← unwrap_bucket;
  expected_bucket_owner ← ask (parse_opt_header hv_string X_AMZ_EXPECTED_BUCKET_OWNER);
  id ← ask (parse_query fs_string (str "id"));
  intelligent_tiering_configuration ← take_xml_body (T := IntelligentTieringConfiguration);
  mret {| PutBucketIntelligentTieringConfigurationInput_bucket := bucket;
          PutBucketIntelligentTieringConfigurationInput_expected_bucket_owner := expected_bucket_owner;
          PutBucketIntelligentTieringConfigurationInput_id := id;
          PutBucketIntelligentTieringConfigurationInput_intelligent_tiering_configuration := intelligent_tiering_configuration |}.

Definition PutBucketInventoryConfiguration_deserialize_http : ST (Request Ext) PutBucketInventoryConfigurationInput :=
  bucket ← unwrap_bucket;
  expected_bucket_owner ← ask (parse_opt_header hv_string X_AMZ_EXPECTED_BUCKET_OWNER);
  id ← ask (parse_query fs_string (str "id"));
  inventory_configuration ← take_xml_body (T := InventoryConfiguration);
  mret {| PutBucketInventoryConfigurationInput_bucket := bucket;
          PutBucketInventoryConfigurationInput_expected_bucket_owner := expected_bucket_owner;
          PutBucketInventoryConfigurationInput_id := id;
          PutBucketInventoryConfigurationInput_inventory_configuration := inventory_configuration |}.

Definition PutBucketLifecycleConfiguration_deserialize_http : ST (Request Ext) PutBucketLifecycleConfigurationInput :=
  bucket ← unwrap_bucket;
  checksum_algorithm ← ask parse_checksum_algorithm_header;
  expected_bucket_owner ← ask (parse_opt_header hv_string X_AMZ_EXPECTED_BUCKET_OWNER);
  lifecycle_configuration ← take_opt_xml_body (T := BucketLifecycleConfiguration);
  transition_default_minimum_object_size ← ask (parse_opt_header hv_enum X_AMZ_TRANSITION_DEFAULT_MINIMUM_OBJECT_SIZE);
  mret {| PutBucketLifecycleConfigurationInput_bucket := bucket;
          PutBucketLifecycleConfigurationInput_checksum_algorithm := checksum_algorithm;
          PutBucketLifecycleConfigurationInput_expected_bucket_owner := expected_bucket_owner;
          PutBucketLifecycleConfigurationInput_lifecycle_configuration := lifecycle_configuration;
          PutBucketLifecycleConfigurationInput_transition_default_minimum_object_size := transition_default_minimum_object_size |}.

Definition PutBucketLogging_deserialize_http : ST (Request Ext) PutBucketLoggingInput :=
  bucket ← unwrap_bucket;
  bucket_logging_status ← take_xml_body (T := BucketLoggingStatus);
  checksum_algorithm ← ask parse_checksum_algorithm_header;
  content_md5 ← ask (parse_opt_header hv_string CONTENT_MD5);
  expected_bucket_owner ← ask (parse_opt_header hv_string X_AMZ_EXPECTED_BUCKET_OWNER);
  mret {| PutBucketLoggingInput_bucket := bucket;
          PutBucketLoggingInput_bucket_logging_status := bucket_logging_status;
          PutBucketLoggingInput_checksum_algorithm := checksum_algorithm;
          PutBucketLoggingInput_content_md5 := content_md5;
          PutBucketLoggingInput_expected_bucket_owner := expected_bucket_owner |}.

Definition PutBucketMetricsConfiguration_deserialize_http : ST (Request Ext) PutBucketMetricsConfigurationInput :=
  bucket ← unwrap_bucket;
  expected_bucket_owner ← ask (parse_opt_header hv_string X_AMZ_EXPECTED_BUCKET_OWNER);
  id ← ask (parse_query fs_string (str "id"));
  metrics_configuration ← take_xml_body (T := MetricsConfiguration);
  mret {| PutBucketMetricsConfigurationInput_bucket := bucket;
          PutBucketMetricsConfigurationInput_expected_bucket_owner := expected_bucket_owner;
          PutBucketMetricsConfigurationInput_id := id;
          PutBucketMetricsConfigurationInput_metrics_configuration := metrics_configuration |}.

Definition PutBucketNotificationConfiguration_deserialize_http : ST (Request Ext) PutBucketNotificationConfigurationInput :=
  bucket ← unwrap_bucket;
  expected_bucket_owner ← ask (parse_opt_header hv_string X_AMZ_EXPECTED_BUCKET_OWNER);
  notification_configuration ← take_xml_body (T := NotificationConfiguration);
  skip_destination_validation ← ask (parse_opt_header hv_bool X_AMZ_SKIP_DESTINATION_VALIDATION);
  mret {| PutBucketNotificationConfigurationInput_bucket := bucket;
          PutBucketNotificationConfigurationInput_expected_bucket_owner := expected_bucket_owner;
          PutBucketNotificationConfigurationInput_notification_configuration := notification_configuration;
          PutBucketNotificationConfigurationInput_skip_destination_validation := skip_destination_validation |}.

Definition PutBucketOwnershipControls_deserialize_http : ST (Request Ext) PutBucketOwnershipControlsInput :=
  bucket ← unwrap_bucket;
  checksum_algorithm ← ask parse_checksum_algorithm_header;
  content_md5 ← ask (parse_opt_header hv_string CONTENT_MD5);
  expected_bucket_owner ← ask (parse_opt_header hv_string X_AMZ_EXPECTED_BUCKET_OWNER);
  ownership_controls ← take_xml_body (T := OwnershipControls);
  mret {| PutBucketOwnershipControlsInput_bucket := bucket;
          PutBucketOwnershipControlsInput_checksum_algorithm := checksum_algorithm;
          PutBucketOwnershipControlsInput_content_md5 := content_md5;
          PutBucketOwnershipControlsInput_expected_bucket_owner := expected_bucket_owner;
          PutBucketOwnershipControlsInput_ownership_controls := ownership_controls |}.

Definition PutBucketPolicy_deserialize_http : ST (Request Ext) PutBucketPolicyInput :=
  bucket ← unwrap_bucket;
  checksum_algorithm ← ask parse_checksum_algorithm_header;
  confirm_remove_self_bucket_access ← ask (parse_opt_header hv_bool X_AMZ_CONFIRM_REMOVE_SELF_BUCKET_ACCESS);
  content_md5 ← ask (parse_opt_header hv_string CONTENT_MD5);
  expected_bucket_owner ← ask (parse_opt_header hv_string X_AMZ_EXPECTED_BUCKET_OWNER);
  policy ← take_string_body;
  mret {| PutBucketPolicyInput_bucket := bucket;
          PutBucketPolicyInput_checksum_algorithm := checksum_algorithm;
          PutBucketPolicyInput_confirm_remove_self_bucket_access := confirm_remove_self_bucket_access;
          PutBucketPolicyInput_content_md5 := content_md5;
          PutBucketPolicyInput_expected_bucket_owner := expected_bucket_owner;
          PutBucketPolicyInput_policy := policy |}.

Definition PutBucketReplication_deserialize_http : ST (Request Ext) PutBucketReplicationInput :=
  bucket ← unwrap_bucket;
  checksum_algorithm ← ask parse_checksum_algorithm_header;
  content_md5 ← ask (parse_opt_header hv_string CONTENT_MD5);
  expected_bucket_owner ← ask (parse_opt_header hv_string X_AMZ_EXPECTED_BUCKET_OWNER);
  replication_configuration ← take_xml_body (T := ReplicationConfiguration);
  token ← ask (parse_opt_header hv_string X_AMZ_BUCKET_OBJECT_LOCK_TOKEN);
  mret {| PutBucketReplicationInput_bucket := bucket;
          PutBucketReplicationInput_checksum_algorithm := checksum_algorithm;
          PutBucketReplicationInput_content_md5 := content_md5;
          PutBucketReplicationInput_expected_bucket_owner := expected_bucket_owner;
          PutBucketReplicationInput_replication_configuration := replication_configuration;
          PutBucketReplicationInput_token := token |}.

Definition PutBucketRequestPayment_deserialize_http : ST (Request Ext) PutBucketRequestPaymentInput :=
  bucket ← unwrap_bucket;
  checksum_algorithm ← ask parse_checksum_algorithm_header;
  content_md5 ← ask (parse_opt_header hv_string CONTENT_MD5);
  expected_bucket_owner ← ask (parse_opt_header hv_string X_AMZ_EXPECTED_BUCKET_OWNER);
  request_payment_configuration ← take_xml_body (T := RequestPaymentConfiguration);
  mret {| PutBucketRequestPaymentInput_bucket := bucket;
          PutBucketRequestPaymentInput_checksum_algorithm := checksum_algorithm;
          PutBucketRequestPaymentInput_content_md5 := content_md5;
          PutBucketRequestPaymentInput_expected_bucket_owner := expected_bucket_owner;
          PutBucketRequestPaymentInput_request_payment_configuration := request_payment_configuration |}.

Definition PutBucketTagging_deserialize_http : ST (Request Ext) PutBucketTaggingInput :=
  bucket ← unwrap_bucket;
  checksum_algorithm ← ask parse_checksum_algorithm_header;
  content_md5 ← ask (parse_opt_header hv_string CONTENT_MD5);
  expected_bucket_owner ← ask (parse_opt_header hv_string X_AMZ_EXPECTED_BUCKET_OWNER);
  tagging ← take_xml_body (T := Tagging);
  mret {| PutBucketTaggingInput_bucket := bucket;
          PutBucketTaggingInput_checksum_algorithm := checksum_algorithm;
          PutBucketTaggingInput_content_md5 := content_md5;
          PutBucketTaggingInput_expected_bucket_owner := expected_bucket_owner;
          PutBucketTaggingInput_tagging := tagging |}.

Definition PutBucketVersioning_deserialize_http : ST (Request Ext) PutBucketVersioningInput :=
  bucket ← unwrap_bucket;
  checksum_algorithm ← ask parse_checksum_algorithm_header;
  content_md5 ← ask (parse_opt_header hv_string CONTENT_MD5);
  expected_bucket_owner ← ask (parse_opt_header hv_string X_AMZ_EXPECTED_BUCKET_OWNER);
  mfa ← ask (parse_opt_header hv_string X_AMZ_MFA);
  versioning_configuration ← take_xml_body (T := VersioningConfiguration);
  mret {| PutBucketVersioningInput_bucket := bucket;
          PutBucketVersioningInput_checksum_algorithm := checksum_algorithm;
          PutBucketVersioningInput_content_md5 := content_md5;
          PutBucketVersioningInput_expected_bucket_owner := expected_bucket_owner;
          PutBucketVersioningInput_mfa := mfa;
          PutBucketVersioningInput_versioning_configuration := versioning_configuration |}.

Definition PutBucketWebsite_deserialize_http : ST (Request Ext) PutBucketWebsiteInput :=
  bucket ← unwrap_bucket;
  checksum_algorithm ← ask parse_checksum_algorithm_header;
  content_md5 ← ask (parse_opt_header hv_string CONTENT_MD5);
  expected_bucket_owner ← ask (parse_opt_header hv_string X_AMZ_EXPECTED_BUCKET_OWNER);
  website_configuration ← take_xml_body (T := WebsiteConfiguration);
  mret {| PutBucketWebsiteInput_bucket := bucket;
          PutBucketWebsiteInput_checksum_algorithm := checksum_algorithm;
          PutBucketWebsiteInput_content_md5 := content_md5;
          PutBucketWebsiteInput_expected_bucket_owner := expected_bucket_owner;
          PutBucketWebsiteInput_website_configuration := website_configuration |}.

Definition PutObject_deserialize_http_multipart (m : Form) : ST (Request Ext) PutObjectInput :=
  bucket ← unwrap_bucket;
  key ← lift (parse_field_value fs_string m (str "key"));
  key ← lift (ok_or InvalidRequest key);
  req ← get;
  modify_ext (set_post None (x_post_policy (s3ext req)));;
  body_stream ← lift (ok_or InternalError (x_post_object_stream (s3ext req)));
  let body_stream := post_stream body_stream in
  content_length ← lift (match exact (ds_remaining_length body_stream (items body_stream)) with
    | Some n => if (n <=? i64_max)%Z then Ok (Some n) else Err InvalidArgument
    | None => Ok None
    end);
  let content_length := match content_length with Some n => if (n =? 0)%Z then None else Some n | None => None end in
  let body := Some (blob_of_stream body_stream) in
  acl ← lift (parse_field_value fs_enum m (str "x-amz-acl"));
  bucket_key_enabled ← lift (parse_field_value fs_bool m (str "x-amz-server-side-encryption-bucket-key-enabled"));
  cache_control ← lift (parse_field_value fs_string m (str "cache-control"));
  checksum_algorithm ← lift (parse_field_value fs_enum m (str "x-amz-sdk-checksum-algorithm"));
  checksum_crc32 ← lift (parse_field_value fs_string m (str "x-amz-checksum-crc32"));
  checksum_crc32c ← lift (parse_field_value fs_string m (str "x-amz-checksum-crc32c"));
  checksum_crc64nvme ← lift (parse_field_value fs_string m (str "x-amz-checksum-crc64nvme"));
  checksum_md5 ← lift (parse_field_value fs_string m (str "x-amz-checksum-md5"));
  checksum_sha1 ← lift (parse_field_value fs_string m (str "x-amz-checksum-sha1"));
  checksum_sha256 ← lift (parse_field_value fs_string m (str "x-amz-checksum-sha256"));
  checksum_sha512 ← lift (parse_field_value fs_string m (str "x-amz-checksum-sha512"));
  checksum_xxhash128 ← lift (parse_field_value fs_string m (str "x-amz-checksum-xxhash128"));
  checksum_xxhash3 ← lift (parse_field_value fs_string m (str "x-amz-checksum-xxhash3"));
  checksum_xxhash64 ← lift (parse_field_value fs_string m (str "x-amz-checksum-xxhash64"));
  content_disposition ← lift (parse_field_value fs_string m (str "content-disposition"));
  content_encoding ← lift (parse_field_value fs_string m (str "content-encoding"));
  content_language ← lift (parse_field_value fs_string m (str "content-language"));
  content_md5 ← lift (parse_field_value fs_string m (str "content-md5"));
  content_type ← lift (parse_field_value fs_string m (str "content-type"));
  expected_bucket_owner ← lift (parse_field_value fs_string m (str "x-amz-expected-bucket-owner"));
  expires ← lift (parse_field_value fs_string m (str "expires"));
  grant_full_control ← lift (parse_field_value fs_string m (str "x-amz-grant-full-control"));
  grant_read ← lift (parse_field_value fs_string m (str "x-amz-grant-read"));
  grant_read_acp ← lift (parse_field_value fs_string m (str "x-amz-grant-read-acp"));
  grant_write_acp ← lift (parse_field_value fs_string m (str "x-amz-grant-write-acp"));
  if_match ← lift (parse_field_value fs_ETagCondition m (str "if-match"));
  if_none_match ← lift (parse_field_value fs_ETagCondition m (str "if-none-match"));
  let metadata := form_metadata (Form.fields m) [] in
  object_lock_legal_hold_status ← lift (parse_field_value fs_enum m (str "x-amz-object-lock-legal-hold"));
  object_lock_mode ← lift (parse_field_value fs_enum m (str "x-amz-object-lock-mode"));
  r ← panic_none (parse_field_value_timestamp m (str "x-amz-object-lock-retain-until-date") DateTime);
  object_lock_retain_until_date ← lift r;
  request_payer ← lift (parse_field_value fs_enum m (str "x-amz-request-payer"));
  sse_customer_algorithm ← lift (parse_field_value fs_string m (str "x-amz-server-side-encryption-customer-algorithm"));
  sse_customer_key ← lift (parse_field_value fs_string m (str "x-amz-server-side-encryption-customer-key"));
  sse_customer_key_md5 ← lift (parse_field_value fs_string m (str "x-amz-server-side-encryption-customer-key-md5"));
  ssekms_encryption_context ← lift (parse_field_value fs_string m (str "x-amz-server-side-encryption-context"));
  ssekms_key_id ← lift (parse_field_value fs_string m (str "x-amz-server-side-encryption-aws-kms-key-id"));
  server_side_encryption ← lift (parse_field_value fs_enum m (str "x-amz-server-side-encryption"));
  storage_class ← lift (parse_field_value fs_enum m (str "x-amz-storage-class"));
  tagging ← lift (parse_field_value fs_string m (str "x-amz-tagging"));
  website_redirect_location ← lift (parse_field_value fs_string m (str "x-amz-website-redirect-location"));
  write_offset_bytes ← lift (parse_field_value fs_i64 m (str "x-amz-write-offset-bytes"));
  mret {| PutObjectInput_acl := acl;
          PutObjectInput_body := body;
          PutObjectInput_bucket := bucket;
          PutObjectInput_bucket_key_enabled := bucket_key_enabled;
          PutObjectInput_cache_control := cache_control;
          PutObjectInput_checksum_algorithm := checksum_algorithm;
          PutObjectInput_checksum_crc32 := checksum_crc32;
          PutObjectInput_checksum_crc32c := checksum_crc32c;
          PutObjectInput_checksum_crc64nvme := checksum_crc64nvme;
          PutObjectInput_checksum_md5 := checksum_md5;
          PutObjectInput_checksum_sha1 := checksum_sha1;
          PutObjectInput_checksum_sha256 := checksum_sha256;
          PutObjectInput_checksum_sha512 := checksum_sha512;
          PutObjectInput_checksum_xxhash128 := checksum_xxhash128;
          PutObjectInput_checksum_xxhash3 := checksum_xxhash3;
          PutObjectInput_checksum_xxhash64 := checksum_xxhash64;
          PutObjectInput_content_disposition := content_disposition;
          PutObjectInput_content_encoding := content_encoding;
          PutObjectInput_content_language := content_language;
          PutObjectInput_content_length := content_length;
          PutObjectInput_content_md5 := content_md5;
          PutObjectInput_content_type := content_type;
          PutObjectInput_expected_bucket_owner := expected_bucket_owner;
          PutObjectInput_expires := expires;
          PutObjectInput_grant_full_control := grant_full_control;
          PutObjectInput_grant_read := grant_read;
          PutObjectInput_grant_read_acp := grant_read_acp;
          PutObjectInput_grant_write_acp := grant_write_acp;
          PutObjectInput_if_match := if_match;
          PutObjectInput_if_none_match := if_none_match;
          PutObjectInput_key := key;
          PutObjectInput_metadata := metadata;
          PutObjectInput_object_lock_legal_hold_status := object_lock_legal_hold_status;
          PutObjectInput_object_lock_mode := object_lock_mode;
          PutObjectInput_object_lock_retain_until_date := object_lock_retain_until_date;
          PutObjectInput_request_payer := request_payer;
          PutObjectInput_sse_customer_algorithm := sse_customer_algorithm;
          PutObjectInput_sse_customer_key := sse_customer_key;
          PutObjectInput_sse_customer_key_md5 := sse_customer_key_md5;
          PutObjectInput_ssekms_encryption_context := ssekms_encryption_context;
          PutObjectInput_ssekms_key_id := ssekms_key_id;
          PutObjectInput_server_side_encryption := server_side_encryption;
          PutObjectInput_storage_class := storage_class;
          PutObjectInput_tagging := tagging;
          PutObjectInput_website_redirect_location := website_redirect_location;
          PutObjectInput_write_offset_bytes := write_offset_bytes |}.

Definition PutObject_deserialize_http : ST (Request Ext) PutObjectInput :=
  req ← get;
  modify_ext (set_form None (x_trailing_headers (s3ext req)));;
  match x_multipart (s3ext req) with
  | Some m => PutObject_deserialize_http_multipart m
  | None =>
  '(bucket, key) ← unwrap_object;
  acl ← ask (parse_opt_header hv_enum X_AMZ_ACL);
  body ← take_stream_body;
  let body := Some body in
  bucket_key_enabled ← ask (parse_opt_header hv_bool X_AMZ_SERVER_SIDE_ENCRYPTION_BUCKET_KEY_ENABLED);
  cache_control ← ask (parse_opt_header hv_string CACHE_CONTROL);
  checksum_algorithm ← ask parse_checksum_algorithm_header;
  checksum_crc32 ← ask (parse_opt_header hv_string X_AMZ_CHECKSUM_CRC32);
  checksum_crc32c ← ask (parse_opt_header hv_string X_AMZ_CHECKSUM_CRC32C);
  checksum_crc64nvme ← ask (parse_opt_header hv_string X_AMZ_CHECKSUM_CRC64NVME);
  checksum_md5 ← ask (parse_opt_header hv_string X_AMZ_CHECKSUM_MD5);
  checksum_sha1 ← ask (parse_opt_header hv_string X_AMZ_CHECKSUM_SHA1);
  checksum_sha256 ← ask (parse_opt_header hv_string X_AMZ_CHECKSUM_SHA256);
  checksum_sha512 ← ask (parse_opt_header hv_string X_AMZ_CHECKSUM_SHA512);
  checksum_xxhash128 ← ask (parse_opt_header hv_string X_AMZ_CHECKSUM_XXHASH128);
  checksum_xxhash3 ← ask (parse_opt_header hv_string X_AMZ_CHECKSUM_XXHASH3);
  checksum_xxhash64 ← ask (parse_opt_header hv_string X_AMZ_CHECKSUM_XXHASH64);
  content_disposition ← ask (parse_opt_header hv_string CONTENT_DISPOSITION);
  content_encoding ← ask (parse_opt_header hv_string CONTENT_ENCODING);
  content_language ← ask (parse_opt_header hv_string CONTENT_LANGUAGE);
  content_length ← ask (parse_opt_header hv_i64 CONTENT_LENGTH);
  content_md5 ← ask (parse_opt_header hv_string CONTENT_MD5);
  content_type ← ask (parse_opt_header hv_string CONTENT_TYPE);
  expected_bucket_owner ← ask (parse_opt_header hv_string X_AMZ_EXPECTED_BUCKET_OWNER);
  expires ← ask (parse_opt_header hv_string EXPIRES);
  grant_full_control ← ask (parse_opt_header hv_string X_AMZ_GRANT_FULL_CONTROL);
  grant_read ← ask (parse_opt_header hv_string X_AMZ_GRANT_READ);
  grant_read_acp ← ask (parse_opt_header hv_string X_AMZ_GRANT_READ_ACP);
  grant_write_acp ← ask (parse_opt_header hv_string X_AMZ_GRANT_WRITE_ACP);
  if_match ← ask (parse_opt_header hv_ETagCondition IF_MATCH);
  if_none_match ← ask (parse_opt_header hv_ETagCondition IF_NONE_MATCH);
  metadata ← ask parse_opt_metadata;
  object_lock_legal_hold_status ← ask (parse_opt_header hv_enum X_AMZ_OBJECT_LOCK_LEGAL_HOLD);
  object_lock_mode ← ask (parse_opt_header hv_enum X_AMZ_OBJECT_LOCK_MODE);
  object_lock_retain_until_date ← parse_opt_header_timestamp X_AMZ_OBJECT_LOCK_RETAIN_UNTIL_DATE DateTime;
  request_payer ← ask (parse_opt_header hv_enum X_AMZ_REQUEST_PAYER);
  sse_customer_algorithm ← ask (parse_opt_header hv_string X_AMZ_SERVER_SIDE_ENCRYPTION_CUSTOMER_ALGORITHM);
  sse_customer_key ← ask (parse_opt_header hv_string X_AMZ_SERVER_SIDE_ENCRYPTION_CUSTOMER_KEY);
  sse_customer_key_md5 ← ask (parse_opt_header hv_string X_AMZ_SERVER_SIDE_ENCRYPTION_CUSTOMER_KEY_MD5);
  ssekms_encryption_context ← ask (parse_opt_header hv_string X_AMZ_SERVER_SIDE_ENCRYPTION_CONTEXT);
  ssekms_key_id ← ask (parse_opt_header hv_string X_AMZ_SERVER_SIDE_ENCRYPTION_AWS_KMS_KEY_ID);
  server_side_encryption ← ask (parse_opt_header hv_enum X_AMZ_SERVER_SIDE_ENCRYPTION);
  storage_class ← ask (parse_opt_header hv_enum X_AMZ_STORAGE_CLASS);
  tagging ← ask (parse_opt_header hv_string X_AMZ_TAGGING);
  website_redirect_location ← ask (parse_opt_header hv_string X_AMZ_WEBSITE_REDIRECT_LOCATION);
  write_offset_bytes ← ask (parse_opt_header hv_i64 X_AMZ_WRITE_OFFSET_BYTES);
  mret {| PutObjectInput_acl := acl;
          PutObjectInput_body := body;
          PutObjectInput_bucket := bucket;
          PutObjectInput_bucket_key_enabled := bucket_key_enabled;
          PutObjectInput_cache_control := cache_control;
          PutObjectInput_checksum_algorithm := checksum_algorithm;
          PutObjectInput_checksum_crc32 := checksum_crc32;
          PutObjectInput_checksum_crc32c := checksum_crc32c;
          PutObjectInput_checksum_crc64nvme := checksum_crc64nvme;
          PutObjectInput_checksum_md5 := checksum_md5;
          PutObjectInput_checksum_sha1 := checksum_sha1;
          PutObjectInput_checksum_sha256 := checksum_sha256;
          PutObjectInput_checksum_sha512 := checksum_sha512;
          PutObjectInput_checksum_xxhash128 := checksum_xxhash128;
          PutObjectInput_checksum_xxhash3 := checksum_xxhash3;
          PutObjectInput_checksum_xxhash64 := checksum_xxhash64;
          PutObjectInput_content_disposition := content_disposition;
          PutObjectInput_content_encoding := content_encoding;
          PutObjectInput_content_language := content_language;
          PutObjectInput_content_length := content_length;
          PutObjectInput_content_md5 := content_md5;
          PutObjectInput_content_type := content_type;
          PutObjectInput_expected_bucket_owner := expected_bucket_owner;
          PutObjectInput_expires := expires;
          PutObjectInput_grant_full_control := grant_full_control;
          PutObjectInput_grant_read := grant_read;
          PutObjectInput_grant_read_acp := grant_read_acp;
          PutObjectInput_grant_write_acp := grant_write_acp;
          PutObjectInput_if_match := if_match;
          PutObjectInput_if_none_match := if_none_match;
          PutObjectInput_key := key;
          PutObjectInput_metadata := metadata;
          PutObjectInput_object_lock_legal_hold_status := object_lock_legal_hold_status;
          PutObjectInput_object_lock_mode := object_lock_mode;
          PutObjectInput_object_lock_retain_until_date := object_lock_retain_until_date;
          PutObjectInput_request_payer := request_payer;
          PutObjectInput_sse_customer_algorithm := sse_customer_algorithm;
          PutObjectInput_sse_customer_key := sse_customer_key;
          PutObjectInput_sse_customer_key_md5 := sse_customer_key_md5;
          PutObjectInput_ssekms_encryption_context := ssekms_encryption_context;
          PutObjectInput_ssekms_key_id := ssekms_key_id;
          PutObjectInput_server_side_encryption := server_side_encryption;
          PutObjectInput_storage_class := storage_class;
          PutObjectInput_tagging := tagging;
          PutObjectInput_website_redirect_location := website_redirect_location;
          PutObjectInput_write_offset_bytes := write_offset_bytes |}
  end.

Definition PutObjectAcl_deserialize_http : ST (Request Ext) PutObjectAclInput :=
  '(bucket, key) ← unwrap_object;
  acl ← ask (parse_opt_header hv_enum X_AMZ_ACL);
  access_control_policy ← take_opt_xml_body (T := AccessControlPolicy);
  checksum_algorithm ← ask parse_checksum_algorithm_header;
  content_md5 ← ask (parse_opt_header hv_string CONTENT_MD5);
  expected_bucket_owner ← ask (parse_opt_header hv_string X_AMZ_EXPECTED_BUCKET_OWNER);
  grant_full_control ← ask (parse_opt_header hv_string X_AMZ_GRANT_FULL_CONTROL);
  grant_read ← ask (parse_opt_header hv_string X_AMZ_GRANT_READ);
  grant_read_acp ← ask (parse_opt_header hv_string X_AMZ_GRANT_READ_ACP);
  grant_write ← ask (parse_opt_header hv_string X_AMZ_GRANT_WRITE);
  grant_write_acp ← ask (parse_opt_header hv_string X_AMZ_GRANT_WRITE_ACP);
  request_payer ← ask (parse_opt_header hv_enum X_AMZ_REQUEST_PAYER);
  version_id ← ask (parse_opt_query fs_string (str "versionId"));
  mret {| PutObjectAclInput_acl := acl;
          PutObjectAclInput_access_control_policy := access_control_policy;
          PutObjectAclInput_bucket := bucket;
          PutObjectAclInput_checksum_algorithm := checksum_algorithm;
          PutObjectAclInput_content_md5 := content_md5;
          PutObjectAclInput_expected_bucket_owner := expected_bucket_owner;
          PutObjectAclInput_grant_full_control := grant_full_control;
          PutObjectAclInput_grant_read := grant_read;
          PutObjectAclInput_grant_read_acp := grant_read_acp;
          PutObjectAclInput_grant_write := grant_write;
          PutObjectAclInput_grant_write_acp := grant_write_acp;
          PutObjectAclInput_key := key;
          PutObjectAclInput_request_payer := request_payer;
          PutObjectAclInput_version_id := version_id |}.

Definition PutObjectAnnotation_deserialize_http : ST (Request Ext) PutObjectAnnotationInput :=
  '(bucket, key) ← unwrap_object;
  annotation_name ← ask (parse_query fs_string (str "annotationName"));
  annotation_payload ← take_stream_body;
  let annotation_payload := Some annotation_payload in
  checksum_algorithm ← ask parse_checksum_algorithm_header;
  checksum_crc32 ← ask (parse_opt_header hv_string X_AMZ_CHECKSUM_CRC32);
  checksum_crc32c ← ask (parse_opt_header hv_string X_AMZ_CHECKSUM_CRC32C);
  checksum_crc64nvme ← ask (parse_opt_header hv_string X_AMZ_CHECKSUM_CRC64NVME);
  checksum_md5 ← ask (parse_opt_header hv_string X_AMZ_CHECKSUM_MD5);
  checksum_sha1 ← ask (parse_opt_header hv_string X_AMZ_CHECKSUM_SHA1);
  checksum_sha256 ← ask (parse_opt_header hv_string X_AMZ_CHECKSUM_SHA256);
  checksum_sha512 ← ask (parse_opt_header hv_string X_AMZ_CHECKSUM_SHA512);
  checksum_xxhash128 ← ask (parse_opt_header hv_string X_AMZ_CHECKSUM_XXHASH128);
  checksum_xxhash3 ← ask (parse_opt_header hv_string X_AMZ_CHECKSUM_XXHASH3);
  checksum_xxhash64 ← ask (parse_opt_header hv_string X_AMZ_CHECKSUM_XXHASH64);
  content_md5 ← ask (parse_opt_header hv_string CONTENT_MD5);
  expected_bucket_owner ← ask (parse_opt_header hv_string X_AMZ_EXPECTED_BUCKET_OWNER);
  object_if_match ← ask (parse_opt_header hv_string X_AMZ_OBJECT_IF_MATCH);
  request_payer ← ask (parse_opt_header hv_enum X_AMZ_REQUEST_PAYER);
  version_id ← ask (parse_opt_query fs_string (str "versionId"));
  mret {| PutObjectAnnotationInput_annotation_name := annotation_name;
          PutObjectAnnotationInput_annotation_payload := annotation_payload;
          PutObjectAnnotationInput_bucket := bucket;
          PutObjectAnnotationInput_checksum_algorithm := checksum_algorithm;
          PutObjectAnnotationInput_checksum_crc32 := checksum_crc32;
          PutObjectAnnotationInput_checksum_crc32c := checksum_crc32c;
          PutObjectAnnotationInput_checksum_crc64nvme := checksum_crc64nvme;
          PutObjectAnnotationInput_checksum_md5 := checksum_md5;
          PutObjectAnnotationInput_checksum_sha1 := checksum_sha1;
          PutObjectAnnotationInput_checksum_sha256 := checksum_sha256;
          PutObjectAnnotationInput_checksum_sha512 := checksum_sha512;
          PutObjectAnnotationInput_checksum_xxhash128 := checksum_xxhash128;
          PutObjectAnnotationInput_checksum_xxhash3 := checksum_xxhash3;
          PutObjectAnnotationInput_checksum_xxhash64 := checksum_xxhash64;
          PutObjectAnnotationInput_content_md5 := content_md5;
          PutObjectAnnotationInput_expected_bucket_owner := expected_bucket_owner;
          PutObjectAnnotationInput_key := key;
          PutObjectAnnotationInput_object_if_match := object_if_match;
          PutObjectAnnotationInput_request_payer := request_payer;
          PutObjectAnnotationInput_version_id := version_id |}.

Definition PutObjectLegalHold_deserialize_http : ST (Request Ext) PutObjectLegalHoldInput :=
  '(bucket, key) ← unwrap_object;
  checksum_algorithm ← ask parse_checksum_algorithm_header;
  content_md5 ← ask (parse_opt_header hv_string CONTENT_MD5);
  expected_bucket_owner ← ask (parse_opt_header hv_string X_AMZ_EXPECTED_BUCKET_OWNER);
  legal_hold ← required_xml_body (T := ObjectLockLegalHold);
  request_payer ← ask (parse_opt_header hv_enum X_AMZ_REQUEST_PAYER);
  version_id ← ask (parse_opt_query fs_string (str "versionId"));
  mret {| PutObjectLegalHoldInput_bucket := bucket;
          PutObjectLegalHoldInput_checksum_algorithm := checksum_algorithm;
          PutObjectLegalHoldInput_content_md5 := content_md5;
          PutObjectLegalHoldInput_expected_bucket_owner := expected_bucket_owner;
          PutObjectLegalHoldInput_key := key;
          PutObjectLegalHoldInput_legal_hold := legal_hold;
          PutObjectLegalHoldInput_request_payer := request_payer;
          PutObjectLegalHoldInput_version_id := version_id |}.

Definition PutObjectLockConfiguration_deserialize_http : ST (Request Ext) PutObjectLockConfigurationInput :=
  bucket ← unwrap_bucket;
  checksum_algorithm ← ask parse_checksum_algorithm_header;
  content_md5 ← ask (parse_opt_header hv_string CONTENT_MD5);
  expected_bucket_owner ← ask (parse_opt_header hv_string X_AMZ_EXPECTED_BUCKET_OWNER);
  object_lock_configuration ← take_opt_xml_body (T := ObjectLockConfiguration);
  request_payer ← ask (parse_opt_header hv_enum X_AMZ_REQUEST_PAYER);
  token ← ask (parse_opt_header hv_string X_AMZ_BUCKET_OBJECT_LOCK_TOKEN);
  mret {| PutObjectLockConfigurationInput_bucket := bucket;
          PutObjectLockConfigurationInput_checksum_algorithm := checksum_algorithm;
          PutObjectLockConfigurationInput_content_md5 := content_md5;
          PutObjectLockConfigurationInput_expected_bucket_owner := expected_bucket_owner;
          PutObjectLockConfigurationInput_object_lock_configuration := object_lock_configuration;
          PutObjectLockConfigurationInput_request_payer := request_payer;
          PutObjectLockConfigurationInput_token := token |}.

Definition PutObjectRetention_deserialize_http : ST (Request Ext) PutObjectRetentionInput :=
  '(bucket, key) ← unwrap_object;
  bypass_governance_retention ← ask (parse_opt_header hv_bool X_AMZ_BYPASS_GOVERNANCE_RETENTION);
  checksum_algorithm ← ask parse_checksum_algorithm_header;
  content_md5 ← ask (parse_opt_header hv_string CONTENT_MD5);
  expected_bucket_owner ← ask (parse_opt_header hv_string X_AMZ_EXPECTED_BUCKET_OWNER);
  request_payer ← ask (parse_opt_header hv_enum X_AMZ_REQUEST_PAYER);
  retention ← required_xml_body (T := ObjectLockRetention);
  version_id ← ask (parse_opt_query fs_string (str "versionId"));
  mret {| PutObjectRetentionInput_bucket := bucket;
          PutObjectRetentionInput_bypass_governance_retention := bypass_governance_retention;
          PutObjectRetentionInput_checksum_algorithm := checksum_algorithm;
          PutObjectRetentionInput_content_md5 := content_md5;
          PutObjectRetentionInput_expected_bucket_owner := expected_bucket_owner;
          PutObjectRetentionInput_key := key;
          PutObjectRetentionInput_request_payer := request_payer;
          PutObjectRetentionInput_retention := retention;
          PutObjectRetentionInput_version_id := version_id |}.

Definition PutObjectTagging_deserialize_http : ST (Request Ext) PutObjectTaggingInput :=
  '(bucket, key) ← unwrap_object;
  checksum_algorithm ← ask parse_checksum_algorithm_header;
  content_md5 ← ask (parse_opt_header hv_string CONTENT_MD5);
  expected_bucket_owner ← ask (parse_opt_header hv_string X_AMZ_EXPECTED_BUCKET_OWNER);
  request_payer ← ask (parse_opt_header hv_enum X_AMZ_REQUEST_PAYER);
  tagging ← take_xml_body (T := Tagging);
  version_id ← ask (parse_opt_query fs_string (str "versionId"));
  mret {| PutObjectTaggingInput_bucket := bucket;
          PutObjectTaggingInput_checksum_algorithm := checksum_algorithm;
          PutObjectTaggingInput_content_md5 := content_md5;
          PutObjectTaggingInput_expected_bucket_owner := expected_bucket_owner;
          PutObjectTaggingInput_key := key;
          PutObjectTaggingInput_request_payer := request_payer;
          PutObjectTaggingInput_tagging := tagging;
          PutObjectTaggingInput_version_id := version_id |}.

Definition PutPublicAccessBlock_deserialize_http : ST (Request Ext) PutPublicAccessBlockInput :=
  bucket ← unwrap_bucket;
  checksum_algorithm ← ask parse_checksum_algorithm_header;
  content_md5 ← ask (parse_opt_header hv_string CONTENT_MD5);
  expected_bucket_owner ← ask (parse_opt_header hv_string X_AMZ_EXPECTED_BUCKET_OWNER);
  public_access_block_configuration ← take_xml_body (T := PublicAccessBlockConfiguration);
  mret {| PutPublicAccessBlockInput_bucket := bucket;
          PutPublicAccessBlockInput_checksum_algorithm := checksum_algorithm;
          PutPublicAccessBlockInput_content_md5 := content_md5;
          PutPublicAccessBlockInput_expected_bucket_owner := expected_bucket_owner;
          PutPublicAccessBlockInput_public_access_block_configuration := public_access_block_configuration |}.

Definition RenameObject_deserialize_http : ST (Request Ext) RenameObjectInput :=
  '(bucket, key) ← unwrap_object;
  client_token ← ask (parse_opt_header hv_string X_AMZ_CLIENT_TOKEN);
  destination_if_match ← ask (parse_opt_header hv_ETagCondition IF_MATCH);
  destination_if_modified_since ← parse_opt_header_timestamp IF_MODIFIED_SINCE HttpDate;
  destination_if_none_match ← ask (parse_opt_header hv_ETagCondition IF_NONE_MATCH);
  destination_if_unmodified_since ← parse_opt_header_timestamp IF_UNMODIFIED_SINCE HttpDate;
  rename_source ← ask (parse_header hv_string X_AMZ_RENAME_SOURCE);
  source_if_match ← ask (parse_opt_header hv_string X_AMZ_RENAME_SOURCE_IF_MATCH);
  source_if_modified_since ← parse_opt_header_timestamp X_AMZ_RENAME_SOURCE_IF_MODIFIED_SINCE HttpDate;
  source_if_none_match ← ask (parse_opt_header hv_string X_AMZ_RENAME_SOURCE_IF_NONE_MATCH);
  source_if_unmodified_since ← parse_opt_header_timestamp X_AMZ_RENAME_SOURCE_IF_UNMODIFIED_SINCE HttpDate;
  mret {| RenameObjectInput_bucket := bucket;
          RenameObjectInput_client_token := client_token;
          RenameObjectInput_destination_if_match := destination_if_match;
          RenameObjectInput_destination_if_modified_since := destination_if_modified_since;
          RenameObjectInput_destination_if_none_match := destination_if_none_match;
          RenameObjectInput_destination_if_unmodified_since := destination_if_unmodified_since;
          RenameObjectInput_key := key;
          RenameObjectInput_rename_source := rename_source;
          RenameObjectInput_source_if_match := source_if_match;
          RenameObjectInput_source_if_modified_since := source_if_modified_since;
          RenameObjectInput_source_if_none_match := source_if_none_match;
          RenameObjectInput_source_if_unmodified_since := source_if_unmodified_since |}.

Definition RestoreObject_deserialize_http : ST (Request Ext) RestoreObjectInput :=
  '(bucket, key) ← unwrap_object;
  checksum_algorithm ← ask parse_checksum_algorithm_header;
  expected_bucket_owner ← ask (parse_opt_header hv_string X_AMZ_EXPECTED_BUCKET_OWNER);
  request_payer ← ask (parse_opt_header hv_enum X_AMZ_REQUEST_PAYER);
  restore_request ← take_opt_xml_body (T := RestoreRequest);
  version_id ← ask (parse_opt_query fs_string (str "versionId"));
  mret {| RestoreObjectInput_bucket := bucket;
          RestoreObjectInput_checksum_algorithm := checksum_algorithm;
          RestoreObjectInput_expected_bucket_owner := expected_bucket_owner;
          RestoreObjectInput_key := key;
          RestoreObjectInput_request_payer := request_payer;
          RestoreObjectInput_restore_request := restore_request;
          RestoreObjectInput_version_id := version_id |}.

Definition SelectObjectContent_deserialize_http : ST (Request Ext) SelectObjectContentInput :=
  '(bucket, key) ← unwrap_object;
  expected_bucket_owner ← ask (parse_opt_header hv_string X_AMZ_EXPECTED_BUCKET_OWNER);
  sse_customer_algorithm ← ask (parse_opt_header hv_string X_AMZ_SERVER_SIDE_ENCRYPTION_CUSTOMER_ALGORITHM);
  sse_customer_key ← ask (parse_opt_header hv_string X_AMZ_SERVER_SIDE_ENCRYPTION_CUSTOMER_KEY);
  sse_customer_key_md5 ← ask (parse_opt_header hv_string X_AMZ_SERVER_SIDE_ENCRYPTION_CUSTOMER_KEY_MD5);
  request ← take_xml_body (T := SelectObjectContentRequest);
  mret {| SelectObjectContentInput_bucket := bucket;
          SelectObjectContentInput_expected_bucket_owner := expected_bucket_owner;
          SelectObjectContentInput_key := key;
          SelectObjectContentInput_sse_customer_algorithm := sse_customer_algorithm;
          SelectObjectContentInput_sse_customer_key := sse_customer_key;
          SelectObjectContentInput_sse_customer_key_md5 := sse_customer_key_md5;
          SelectObjectContentInput_request := request |}.

Definition UpdateBucketMetadataAnnotationTableConfiguration_deserialize_http : ST (Request Ext) UpdateBucketMetadataAnnotationTableConfigurationInput :=
  bucket ← unwrap_bucket;
  annotation_table_configuration ← take_xml_body (T := AnnotationTableConfigurationUpdates);
  checksum_algorithm ← ask parse_checksum_algorithm_header;
  content_md5 ← ask (parse_opt_header hv_string CONTENT_MD5);
  expected_bucket_owner ← ask (parse_opt_header hv_string X_AMZ_EXPECTED_BUCKET_OWNER);
  mret {| UpdateBucketMetadataAnnotationTableConfigurationInput_annotation_table_configuration := annotation_table_configuration;
          UpdateBucketMetadataAnnotationTableConfigurationInput_bucket := bucket;
          UpdateBucketMetadataAnnotationTableConfigurationInput_checksum_algorithm := checksum_algorithm;
          UpdateBucketMetadataAnnotationTableConfigurationInput_content_md5 := content_md5;
          UpdateBucketMetadataAnnotationTableConfigurationInput_expected_bucket_owner := expected_bucket_owner |}.

Definition UpdateBucketMetadataInventoryTableConfiguration_deserialize_http : ST (Request Ext) UpdateBucketMetadataInventoryTableConfigurationInput :=
  bucket ← unwrap_bucket;
  checksum_algorithm ← ask parse_checksum_algorithm_header;
  content_md5 ← ask (parse_opt_header hv_string CONTENT_MD5);
  expected_bucket_owner ← ask (parse_opt_header hv_string X_AMZ_EXPECTED_BUCKET_OWNER);
  inventory_table_configuration ← take_xml_body (T := InventoryTableConfigurationUpdates);
  mret {| UpdateBucketMetadataInventoryTableConfigurationInput_bucket := bucket;
          UpdateBucketMetadataInventoryTableConfigurationInput_checksum_algorithm := checksum_algorithm;
          UpdateBucketMetadataInventoryTableConfigurationInput_content_md5 := content_md5;
          UpdateBucketMetadataInventoryTableConfigurationInput_expected_bucket_owner := expected_bucket_owner;
          UpdateBucketMetadataInventoryTableConfigurationInput_inventory_table_configuration := inventory_table_configuration |}.

Definition UpdateBucketMetadataJournalTableConfiguration_deserialize_http : ST (Request Ext) UpdateBucketMetadataJournalTableConfigurationInput :=
  bucket ← unwrap_bucket;
  checksum_algorithm ← ask parse_checksum_algorithm_header;
  content_md5 ← ask (parse_opt_header hv_string CONTENT_MD5);
  expected_bucket_owner ← ask (parse_opt_header hv_string X_AMZ_EXPECTED_BUCKET_OWNER);
  journal_table_configuration ← take_xml_body (T := JournalTableConfigurationUpdates);
  mret {| UpdateBucketMetadataJournalTableConfigurationInput_bucket := bucket;
          UpdateBucketMetadataJournalTableConfigurationInput_checksum_algorithm := checksum_algorithm;
          UpdateBucketMetadataJournalTableConfigurationInput_content_md5 := content_md5;
          UpdateBucketMetadataJournalTableConfigurationInput_expected_bucket_owner := expected_bucket_owner;
          UpdateBucketMetadataJournalTableConfigurationInput_journal_table_configuration := journal_table_configuration |}.

Definition UpdateObjectEncryption_deserialize_http : ST (Request Ext) UpdateObjectEncryptionInput :=
  '(bucket, key) ← unwrap_object;
  checksum_algorithm ← ask parse_checksum_algorithm_header;
  content_md5 ← ask (parse_opt_header hv_string CONTENT_MD5);
  expected_bucket_owner ← ask (parse_opt_header hv_string X_AMZ_EXPECTED_BUCKET_OWNER);
  object_encryption ← take_xml_body (T := ObjectEncryption);
  request_payer ← ask (parse_opt_header hv_enum X_AMZ_REQUEST_PAYER);
  version_id ← ask (parse_opt_query fs_string (str "versionId"));
  mret {| UpdateObjectEncryptionInput_bucket := bucket;
          UpdateObjectEncryptionInput_checksum_algorithm := checksum_algorithm;
          UpdateObjectEncryptionInput_content_md5 := content_md5;
          UpdateObjectEncryptionInput_expected_bucket_owner := expected_bucket_owner;
          UpdateObjectEncryptionInput_key := key;
          UpdateObjectEncryptionInput_object_encryption := object_encryption;
          UpdateObjectEncryptionInput_request_payer := request_payer;
          UpdateObjectEncryptionInput_version_id := version_id |}.

Definition UploadPart_deserialize_http : ST (Request Ext) UploadPartInput :=
  '(bucket, key) ← unwrap_object;
  body ← take_stream_body;
  let body := Some body in
  checksum_algorithm ← ask parse_checksum_algorithm_header;
  checksum_crc32 ← ask (parse_opt_header hv_string X_AMZ_CHECKSUM_CRC32);
  checksum_crc32c ← ask (parse_opt_header hv_string X_AMZ_CHECKSUM_CRC32C);
  checksum_crc64nvme ← ask (parse_opt_header hv_string X_AMZ_CHECKSUM_CRC64NVME);
  checksum_md5 ← ask (parse_opt_header hv_string X_AMZ_CHECKSUM_MD5);
  checksum_sha1 ← ask (parse_opt_header hv_string X_AMZ_CHECKSUM_SHA1);
  checksum_sha256 ← ask (parse_opt_header hv_string X_AMZ_CHECKSUM_SHA256);
  checksum_sha512 ← ask (parse_opt_header hv_string X_AMZ_CHECKSUM_SHA512);
  checksum_xxhash128 ← ask (parse_opt_header hv_string X_AMZ_CHECKSUM_XXHASH128);
  checksum_xxhash3 ← ask (parse_opt_header hv_string X_AMZ_CHECKSUM_XXHASH3);
  checksum_xxhash64 ← ask (parse_opt_header hv_string X_AMZ_CHECKSUM_XXHASH64);
  content_length ← ask (parse_opt_header hv_i64 CONTENT_LENGTH);
  content_md5 ← ask (parse_opt_header hv_string CONTENT_MD5);
  expected_bucket_owner ← ask (parse_opt_header hv_string X_AMZ_EXPECTED_BUCKET_OWNER);
  part_number ← ask (parse_query fs_i32 (str "partNumber"));
  request_payer ← ask (parse_opt_header hv_enum X_AMZ_REQUEST_PAYER);
  sse_customer_algorithm ← ask (parse_opt_header hv_string X_AMZ_SERVER_SIDE_ENCRYPTION_CUSTOMER_ALGORITHM);
  sse_customer_key ← ask (parse_opt_header hv_string X_AMZ_SERVER_SIDE_ENCRYPTION_CUSTOMER_KEY);
  sse_customer_key_md5 ← ask (parse_opt_header hv_string X_AMZ_SERVER_SIDE_ENCRYPTION_CUSTOMER_KEY_MD5);
  upload_id ← ask (parse_query fs_string (str "uploadId"));
  mret {| UploadPartInput_body := body;
          UploadPartInput_bucket := bucket;
          UploadPartInput_checksum_algorithm := checksum_algorithm;
          UploadPartInput_checksum_crc32 := checksum_crc32;
          UploadPartInput_checksum_crc32c := checksum_crc32c;
          UploadPartInput_checksum_crc64nvme := checksum_crc64nvme;
          UploadPartInput_checksum_md5 := checksum_md5;
          UploadPartInput_checksum_sha1 := checksum_sha1;
          UploadPartInput_checksum_sha256 := checksum_sha256;
          UploadPartInput_checksum_sha512 := checksum_sha512;
          UploadPartInput_checksum_xxhash128 := checksum_xxhash128;
          UploadPartInput_checksum_xxhash3 := checksum_xxhash3;
          UploadPartInput_checksum_xxhash64 := checksum_xxhash64;
          UploadPartInput_content_length := content_length;
          UploadPartInput_content_md5 := content_md5;
          UploadPartInput_expected_bucket_owner := expected_bucket_owner;
          UploadPartInput_key := key;
          UploadPartInput_part_number := part_number;
          UploadPartInput_request_payer := request_payer;
          UploadPartInput_sse_customer_algorithm := sse_customer_algorithm;
          UploadPartInput_sse_customer_key := sse_customer_key;
          UploadPartInput_sse_customer_key_md5 := sse_customer_key_md5;
          UploadPartInput_upload_id := upload_id |}.

Definition UploadPartCopy_deserialize_http : ST (Request Ext) UploadPartCopyInput :=
  '(bucket, key) ← unwrap_object;
  copy_source ← ask (parse_header hv_CopySource X_AMZ_COPY_SOURCE);
  copy_source_if_match ← ask (parse_opt_header hv_ETagCondition X_AMZ_COPY_SOURCE_IF_MATCH);
  copy_source_if_modified_since ← parse_opt_header_timestamp X_AMZ_COPY_SOURCE_IF_MODIFIED_SINCE HttpDate;
  copy_source_if_none_match ← ask (parse_opt_header hv_ETagCondition X_AMZ_COPY_SOURCE_IF_NONE_MATCH);
  copy_source_if_unmodified_since ← parse_opt_header_timestamp X_AMZ_COPY_SOURCE_IF_UNMODIFIED_SINCE HttpDate;
  copy_source_range ← ask (parse_opt_header hv_string X_AMZ_COPY_SOURCE_RANGE);
  copy_source_sse_customer_algorithm ← ask (parse_opt_header hv_string X_AMZ_COPY_SOURCE_SERVER_SIDE_ENCRYPTION_CUSTOMER_ALGORITHM);
  copy_source_sse_customer_key ← ask (parse_opt_header hv_string X_AMZ_COPY_SOURCE_SERVER_SIDE_ENCRYPTION_CUSTOMER_KEY);
  copy_source_sse_customer_key_md5 ← ask (parse_opt_header hv_string X_AMZ_COPY_SOURCE_SERVER_SIDE_ENCRYPTION_CUSTOMER_KEY_MD5);
  expected_bucket_owner ← ask (parse_opt_header hv_string X_AMZ_EXPECTED_BUCKET_OWNER);
  expected_source_bucket_owner ← ask (parse_opt_header hv_string X_AMZ_SOURCE_EXPECTED_BUCKET_OWNER);
  part_number ← ask (parse_query fs_i32 (str "partNumber"));
  request_payer ← ask (parse_opt_header hv_enum X_AMZ_REQUEST_PAYER);
  sse_customer_algorithm ← ask (parse_opt_header hv_string X_AMZ_SERVER_SIDE_ENCRYPTION_CUSTOMER_ALGORITHM);
  sse_customer_key ← ask (parse_opt_header hv_string X_AMZ_SERVER_SIDE_ENCRYPTION_CUSTOMER_KEY);
  sse_customer_key_md5 ← ask (parse_opt_header hv_string X_AMZ_SERVER_SIDE_ENCRYPTION_CUSTOMER_KEY_MD5);
  upload_id ← ask (parse_query fs_string (str "uploadId"));
  mret {| UploadPartCopyInput_bucket := bucket;
          UploadPartCopyInput_copy_source := copy_source;
          UploadPartCopyInput_copy_source_if_match := copy_source_if_match;
          UploadPartCopyInput_copy_source_if_modified_since := copy_source_if_modified_since;
          UploadPartCopyInput_copy_source_if_none_match := copy_source_if_none_match;
          UploadPartCopyInput_copy_source_if_unmodified_since := copy_source_if_unmodified_since;
          UploadPartCopyInput_copy_source_range := copy_source_range;
          UploadPartCopyInput_copy_source_sse_customer_algorithm := copy_source_sse_customer_algorithm;
          UploadPartCopyInput_copy_source_sse_customer_key := copy_source_sse_customer_key;
          UploadPartCopyInput_copy_source_sse_customer_key_md5 := copy_source_sse_customer_key_md5;
          UploadPartCopyInput_expected_bucket_owner := expected_bucket_owner;
          UploadPartCopyInput_expected_source_bucket_owner := expected_source_bucket_owner;
          UploadPartCopyInput_key := key;
          UploadPartCopyInput_part_number := part_number;
          UploadPartCopyInput_request_payer := request_payer;
          UploadPartCopyInput_sse_customer_algorithm := sse_customer_algorithm;
          UploadPartCopyInput_sse_customer_key := sse_customer_key;
          UploadPartCopyInput_sse_customer_key_md5 := sse_customer_key_md5;
          UploadPartCopyInput_upload_id := upload_id |}.

Definition WriteGetObjectResponse_deserialize_http : ST (Request Ext) WriteGetObjectResponseInput :=
  accept_ranges ← ask (parse_opt_header hv_string X_AMZ_FWD_HEADER_ACCEPT_RANGES);
  body ← take_stream_body;
  let body := Some body in
  bucket_key_enabled ← ask (parse_opt_header hv_bool X_AMZ_FWD_HEADER_X_AMZ_SERVER_SIDE_ENCRYPTION_BUCKET_KEY_ENABLED);
  cache_control ← ask (parse_opt_header hv_string X_AMZ_FWD_HEADER_CACHE_CONTROL);
  checksum_crc32 ← ask (parse_opt_header hv_string X_AMZ_FWD_HEADER_X_AMZ_CHECKSUM_CRC32);
  checksum_crc32c ← ask (parse_opt_header hv_string X_AMZ_FWD_HEADER_X_AMZ_CHECKSUM_CRC32C);
  checksum_crc64nvme ← ask (parse_opt_header hv_string X_AMZ_FWD_HEADER_X_AMZ_CHECKSUM_CRC64NVME);
  checksum_md5 ← ask (parse_opt_header hv_string X_AMZ_FWD_HEADER_X_AMZ_CHECKSUM_MD5);
  checksum_sha1 ← ask (parse_opt_header hv_string X_AMZ_FWD_HEADER_X_AMZ_CHECKSUM_SHA1);
  checksum_sha256 ← ask (parse_opt_header hv_string X_AMZ_FWD_HEADER_X_AMZ_CHECKSUM_SHA256);
  checksum_sha512 ← ask (parse_opt_header hv_string X_AMZ_FWD_HEADER_X_AMZ_CHECKSUM_SHA512);
  checksum_xxhash128 ← ask (parse_opt_header hv_string X_AMZ_FWD_HEADER_X_AMZ_CHECKSUM_XXHASH128);
  checksum_xxhash3 ← ask (parse_opt_header hv_string X_AMZ_FWD_HEADER_X_AMZ_CHECKSUM_XXHASH3);
  checksum_xxhash64 ← ask (parse_opt_header hv_string X_AMZ_FWD_HEADER_X_AMZ_CHECKSUM_XXHASH64);
  content_disposition ← ask (parse_opt_header hv_string X_AMZ_FWD_HEADER_CONTENT_DISPOSITION);
  content_encoding ← ask (parse_opt_header hv_string X_AMZ_FWD_HEADER_CONTENT_ENCODING);
  content_language ← ask (parse_opt_header hv_string X_AMZ_FWD_HEADER_CONTENT_LANGUAGE);
  content_length ← ask (parse_opt_header hv_i64 CONTENT_LENGTH);
  content_range ← ask (parse_opt_header hv_string X_AMZ_FWD_HEADER_CONTENT_RANGE);
  content_type ← ask (parse_opt_header hv_string X_AMZ_FWD_HEADER_CONTENT_TYPE);
  delete_marker ← ask (parse_opt_header hv_bool X_AMZ_FWD_HEADER_X_AMZ_DELETE_MARKER);
  e_tag ← ask (parse_opt_header hv_ETag X_AMZ_FWD_HEADER_E_TAG);
  error_code ← ask (parse_opt_header hv_string X_AMZ_FWD_ERROR_CODE);
  error_message ← ask (parse_opt_header hv_string X_AMZ_FWD_ERROR_MESSAGE);
  expiration ← ask (parse_opt_header hv_string X_AMZ_FWD_HEADER_X_AMZ_EXPIRATION);
  expires ← ask (parse_opt_header hv_string X_AMZ_FWD_HEADER_EXPIRES);
  last_modified ← parse_opt_header_timestamp X_AMZ_FWD_HEADER_LAST_MODIFIED HttpDate;
  metadata ← ask parse_opt_metadata;
  missing_meta ← ask (parse_opt_header hv_i32 X_AMZ_FWD_HEADER_X_AMZ_MISSING_META);
  object_lock_legal_hold_status ← ask (parse_opt_header hv_enum X_AMZ_FWD_HEADER_X_AMZ_OBJECT_LOCK_LEGAL_HOLD);
  object_lock_mode ← ask (parse_opt_header hv_enum X_AMZ_FWD_HEADER_X_AMZ_OBJECT_LOCK_MODE);
  object_lock_retain_until_date ← parse_opt_header_timestamp X_AMZ_FWD_HEADER_X_AMZ_OBJECT_LOCK_RETAIN_UNTIL_DATE DateTime;
  parts_count ← ask (parse_opt_header hv_i32 X_AMZ_FWD_HEADER_X_AMZ_MP_PARTS_COUNT);
  replication_status ← ask (parse_opt_header hv_enum X_AMZ_FWD_HEADER_X_AMZ_REPLICATION_STATUS);
  request_charged ← ask (parse_opt_header hv_enum X_AMZ_FWD_HEADER_X_AMZ_REQUEST_CHARGED);
  request_route ← ask (parse_header hv_string X_AMZ_REQUEST_ROUTE);
  request_token ← ask (parse_header hv_string X_AMZ_REQUEST_TOKEN);
  restore ← ask (parse_opt_header hv_string X_AMZ_FWD_HEADER_X_AMZ_RESTORE);
  sse_customer_algorithm ← ask (parse_opt_header hv_string X_AMZ_FWD_HEADER_X_AMZ_SERVER_SIDE_ENCRYPTION_CUSTOMER_ALGORITHM);
  sse_customer_key_md5 ← ask (parse_opt_header hv_string X_AMZ_FWD_HEADER_X_AMZ_SERVER_SIDE_ENCRYPTION_CUSTOMER_KEY_MD5);
  ssekms_key_id ← ask (parse_opt_header hv_string X_AMZ_FWD_HEADER_X_AMZ_SERVER_SIDE_ENCRYPTION_AWS_KMS_KEY_ID);
  server_side_encryption ← ask (parse_opt_header hv_enum X_AMZ_FWD_HEADER_X_AMZ_SERVER_SIDE_ENCRYPTION);
  status_code ← ask (parse_opt_header hv_i32 X_AMZ_FWD_STATUS);
  storage_class ← ask (parse_opt_header hv_enum X_AMZ_FWD_HEADER_X_AMZ_STORAGE_CLASS);
  tag_count ← ask (parse_opt_header hv_i32 X_AMZ_FWD_HEADER_X_AMZ_TAGGING_COUNT);
  version_id ← ask (parse_opt_header hv_string X_AMZ_FWD_HEADER_X_AMZ_VERSION_ID);
  mret {| WriteGetObjectResponseInput_accept_ranges := accept_ranges;
          WriteGetObjectResponseInput_body := body;
          WriteGetObjectResponseInput_bucket_key_enabled := bucket_key_enabled;
          WriteGetObjectResponseInput_cache_control := cache_control;
          WriteGetObjectResponseInput_checksum_crc32 := checksum_crc32;
          WriteGetObjectResponseInput_checksum_crc32c := checksum_crc32c;
          WriteGetObjectResponseInput_checksum_crc64nvme := checksum_crc64nvme;
          WriteGetObjectResponseInput_checksum_md5 := checksum_md5;
          WriteGetObjectResponseInput_checksum_sha1 := checksum_sha1;
          WriteGetObjectResponseInput_checksum_sha256 := checksum_sha256;
          WriteGetObjectResponseInput_checksum_sha512 := checksum_sha512;
          WriteGetObjectResponseInput_checksum_xxhash128 := checksum_xxhash128;
          WriteGetObjectResponseInput_checksum_xxhash3 := checksum_xxhash3;
          WriteGetObjectResponseInput_checksum_xxhash64 := checksum_xxhash64;
          WriteGetObjectResponseInput_content_disposition := content_disposition;
          WriteGetObjectResponseInput_content_encoding := content_encoding;
          WriteGetObjectResponseInput_content_language := content_language;
          WriteGetObjectResponseInput_content_length := content_length;
          WriteGetObjectResponseInput_content_range := content_range;
          WriteGetObjectResponseInput_content_type := content_type;
          WriteGetObjectResponseInput_delete_marker := delete_marker;
          WriteGetObjectResponseInput_e_tag := e_tag;
          WriteGetObjectResponseInput_error_code := error_code;
          WriteGetObjectResponseInput_error_message := error_message;
          WriteGetObjectResponseInput_expiration := expiration;
          WriteGetObjectResponseInput_expires := expires;
          WriteGetObjectResponseInput_last_modified := last_modified;
          WriteGetObjectResponseInput_metadata := metadata;
          WriteGetObjectResponseInput_missing_meta := missing_meta;
          WriteGetObjectResponseInput_object_lock_legal_hold_status := object_lock_legal_hold_status;
          WriteGetObjectResponseInput_object_lock_mode := object_lock_mode;
          WriteGetObjectResponseInput_object_lock_retain_until_date := object_lock_retain_until_date;
          WriteGetObjectResponseInput_parts_count := parts_count;
          WriteGetObjectResponseInput_replication_status := replication_status;
          WriteGetObjectResponseInput_request_charged := request_charged;
          WriteGetObjectResponseInput_request_route := request_route;
          WriteGetObjectResponseInput_request_token := request_token;
          WriteGetObjectResponseInput_restore := restore;
          WriteGetObjectResponseInput_sse_customer_algorithm := sse_customer_algorithm;
          WriteGetObjectResponseInput_sse_customer_key_md5 := sse_customer_key_md5;
          WriteGetObjectResponseInput_ssekms_key_id := ssekms_key_id;
          WriteGetObjectResponseInput_server_side_encryption := server_side_encryption;
          WriteGetObjectResponseInput_status_code := status_code;
          WriteGetObjectResponseInput_storage_class := storage_class;
          WriteGetObjectResponseInput_tag_count := tag_count;
          WriteGetObjectResponseInput_version_id := version_id |}.

Definition PostObject_deserialize_http : ST (Request Ext) PostObjectInput :=
  req ← get;
  modify_ext (set_form None (x_trailing_headers (s3ext req)));;
  m ← lift (ok_or InvalidRequest (x_multipart (s3ext req)));
  success_action_redirect ← lift (parse_field_value fs_string m (str "success_action_redirect"));
  success_action_redirect ← (match success_action_redirect with
                             | Some v => mret (Some v)
                             | None => lift (parse_field_value fs_string m (str "redirect"))
                             end);
  success_action_status ← lift (parse_field_value fs_i32 m (str "success_action_status"));
  req ← get;
  let policy := x_post_policy (s3ext req) in
  modify_ext (set_post (x_post_object_stream (s3ext req)) None);;
  put_input ← PutObject_deserialize_http_multipart m;
  mret (set_post_fields success_action_redirect success_action_status policy (put_object_input_into_post_object_input put_input)).

(** ** Decoding returns *)

Lemma AbortMultipartUpload_decodes req b key : x_s3_path (s3ext req) = Some (Path.Object b key) -> wp AbortMultipartUpload_deserialize_http (fun _ _ => True) client_fault req.
Proof. intros. unfold AbortMultipartUpload_deserialize_http. decode_fields. Qed.

Lemma CompleteMultipartUpload_decodes req b key x : x_s3_path (s3ext req) = Some (Path.Object b key) -> bytes_of (body req) = Some x -> wp CompleteMultipartUpload_deserialize_http (fun _ _ => True) client_fault req.
Proof. intros. unfold CompleteMultipartUpload_deserialize_http. decode_fields. Qed.

Lemma CopyObject_decodes req b key : x_s3_path (s3ext req) = Some (Path.Object b key) -> wp CopyObject_deserialize_http (fun _ _ => True) client_fault req.
Proof. intros. unfold CopyObject_deserialize_http. decode_fields. Qed.

Lemma CreateBucket_decodes req b x : x_s3_path (s3ext req) = Some (Path.Bucket b) -> bytes_of (body req) = Some x -> wp CreateBucket_deserialize_http (fun _ _ => True) client_fault req.
Proof. intros. unfold CreateBucket_deserialize_http. decode_fields. Qed.

Lemma CreateBucketMetadataConfiguration_decodes req b x : x_s3_path (s3ext req) = Some (Path.Bucket b) -> bytes_of (body req) = Some x -> wp CreateBucketMetadataConfiguration_deserialize_http (fun _ _ => True) client_fault req.
Proof. intros. unfold CreateBucketMetadataConfiguration_deserialize_http. decode_fields. Qed.

Lemma CreateBucketMetadataTableConfiguration_decodes req b x : x_s3_path (s3ext req) = Some (Path.Bucket b) -> bytes_of (body req) = Some x -> wp CreateBucketMetadataTableConfiguration_deserialize_http (fun _ _ => True) client_fault req.
Proof. intros. unfold CreateBucketMetadataTableConfiguration_deserialize_http. decode_fields. Qed.

Lemma CreateMultipartUpload_decodes req b key : x_s3_path (s3ext req) = Some (Path.Object b key) -> wp CreateMultipartUpload_deserialize_http (fun _ _ => True) client_fault req.
Proof. intros. unfold CreateMultipartUpload_deserialize_http. decode_fields. Qed.

Lemma CreateSession_decodes req b : x_s3_path (s3ext req) = Some (Path.Bucket b) -> wp CreateSession_deserialize_http (fun _ _ => True) client_fault req.
Proof. intros. unfold CreateSession_deserialize_http. decode_fields. Qed.

Lemma DeleteBucket_decodes req b : x_s3_path (s3ext req) = Some (Path.Bucket b) -> wp DeleteBucket_deserialize_http (fun _ _ => True) client_fault req.
Proof. intros. unfold DeleteBucket_deserialize_http. decode_fields. Qed.

Lemma DeleteBucketAnalyticsConfiguration_decodes req b : x_s3_path (s3ext req) = Some (Path.Bucket b) -> wp DeleteBucketAnalyticsConfiguration_deserialize_http (fun _ _ => True) client_fault req.
Proof. intros. unfold DeleteBucketAnalyticsConfiguration_deserialize_http. decode_fields. Qed.

Lemma DeleteBucketCors_decodes req b : x_s3_path (s3ext req) = Some (Path.Bucket b) -> wp DeleteBucketCors_deserialize_http (fun _ _ => True) client_fault req.
Proof. intros. unfold DeleteBucketCors_deserialize_http. decode_fields. Qed.

Lemma DeleteBucketEncryption_decodes req b : x_s3_path (s3ext req) = Some (Path.Bucket b) -> wp DeleteBucketEncryption_deserialize_http (fun _ _ => True) client_fault req.
Proof. intros. unfold DeleteBucketEncryption_deserialize_http. decode_fields. Qed.

Lemma DeleteBucketIntelligentTieringConfiguration_decodes req b : x_s3_path (s3ext req) = Some (Path.Bucket b) -> wp DeleteBucketIntelligentTieringConfiguration_deserialize_http (fun _ _ => True) client_fault req.
Proof. intros. unfold DeleteBucketIntelligentTieringConfiguration_deserialize_http. decode_fields. Qed.

Lemma DeleteBucketInventoryConfiguration_decodes req b : x_s3_path (s3ext req) = Some (Path.Bucket b) -> wp DeleteBucketInventoryConfiguration_deserialize_http (fun _ _ => True) client_fault req.
Proof. intros. unfold DeleteBucketInventoryConfiguration_deserialize_http. decode_fields. Qed.

Lemma DeleteBucketLifecycle_decodes req b : x_s3_path (s3ext req) = Some (Path.Bucket b) -> wp DeleteBucketLifecycle_deserialize_http (fun _ _ => True) client_fault req.
Proof. intros. unfold DeleteBucketLifecycle_deserialize_http. decode_fields. Qed.

Lemma DeleteBucketMetadataConfiguration_decodes req b : x_s3_path (s3ext req) = Some (Path.Bucket b) -> wp DeleteBucketMetadataConfiguration_deserialize_http (fun _ _ => True) client_fault req.
Proof. intros. unfold DeleteBucketMetadataConfiguration_deserialize_http. decode_fields. Qed.

Lemma DeleteBucketMetadataTableConfiguration_decodes req b : x_s3_path (s3ext req) = Some (Path.Bucket b) -> wp DeleteBucketMetadataTableConfiguration_deserialize_http (fun _ _ => True) client_fault req.
Proof. intros. unfold DeleteBucketMetadataTableConfiguration_deserialize_http. decode_fields. Qed.

Lemma DeleteBucketMetricsConfiguration_decodes req b : x_s3_path (s3ext req) = Some (Path.Bucket b) -> wp DeleteBucketMetricsConfiguration_deserialize_http (fun _ _ => True) client_fault req.
Proof. intros. unfold DeleteBucketMetricsConfiguration_deserialize_http. decode_fields. Qed.

Lemma DeleteBucketOwnershipControls_decodes req b : x_s3_path (s3ext req) = Some (Path.Bucket b) -> wp DeleteBucketOwnershipControls_deserialize_http (fun _ _ => True) client_fault req.
Proof. intros. unfold DeleteBucketOwnershipControls_deserialize_http. decode_fields. Qed.

Lemma DeleteBucketPolicy_decodes req b : x_s3_path (s3ext req) = Some (Path.Bucket b) -> wp DeleteBucketPolicy_deserialize_http (fun _ _ => True) client_fault req.
Proof. intros. unfold DeleteBucketPolicy_deserialize_http. decode_fields. Qed.

Lemma DeleteBucketReplication_decodes req b : x_s3_path (s3ext req) = Some (Path.Bucket b) -> wp DeleteBucketReplication_deserialize_http (fun _ _ => True) client_fault req.
Proof. intros. unfold DeleteBucketReplication_deserialize_http. decode_fields. Qed.

Lemma DeleteBucketTagging_decodes req b : x_s3_path (s3ext req) = Some (Path.Bucket b) -> wp DeleteBucketTagging_deserialize_http (fun _ _ => True) client_fault req.
Proof. intros. unfold DeleteBucketTagging_deserialize_http. decode_fields. Qed.

Lemma DeleteBucketWebsite_decodes req b : x_s3_path (s3ext req) = Some (Path.Bucket b) -> wp DeleteBucketWebsite_deserialize_http (fun _ _ => True) client_fault req.
Proof. intros. unfold DeleteBucketWebsite_deserialize_http. decode_fields. Qed.

Lemma DeleteObject_decodes req b key : x_s3_path (s3ext req) = Some (Path.Object b key) -> wp DeleteObject_deserialize_http (fun _ _ => True) client_fault req.
Proof. intros. unfold DeleteObject_deserialize_http. decode_fields. Qed.

Lemma DeleteObjectAnnotation_decodes req b key : x_s3_path (s3ext req) = Some (Path.Object b key) -> wp DeleteObjectAnnotation_deserialize_http (fun _ _ => True) client_fault req.
Proof. intros. unfold DeleteObjectAnnotation_deserialize_http. decode_fields. Qed.

Lemma DeleteObjectTagging_decodes req b key : x_s3_path (s3ext req) = Some (Path.Object b key) -> wp DeleteObjectTagging_deserialize_http (fun _ _ => True) client_fault req.
Proof. intros. unfold DeleteObjectTagging_deserialize_http. decode_fields. Qed.

Lemma DeleteObjects_decodes req b x : x_s3_path (s3ext req) = Some (Path.Bucket b) -> bytes_of (body req) = Some x -> wp DeleteObjects_deserialize_http (fun _ _ => True) client_fault req.
Proof. intros. unfold DeleteObjects_deserialize_http. decode_fields. Qed.

Lemma DeletePublicAccessBlock_decodes req b : x_s3_path (s3ext req) = Some (Path.Bucket b) -> wp DeletePublicAccessBlock_deserialize_http (fun _ _ => True) client_fault req.
Proof. intros. unfold DeletePublicAccessBlock_deserialize_http. decode_fields. Qed.

Lemma GetBucketAbac_decodes req b : x_s3_path (s3ext req) = Some (Path.Bucket b) -> wp GetBucketAbac_deserialize_http (fun _ _ => True) client_fault req.
Proof. intros. unfold GetBucketAbac_deserialize_http. decode_fields. Qed.

Lemma GetBucketAccelerateConfiguration_decodes req b : x_s3_path (s3ext req) = Some (Path.Bucket b) -> wp GetBucketAccelerateConfiguration_deserialize_http (fun _ _ => True) client_fault req.
Proof. intros. unfold GetBucketAccelerateConfiguration_deserialize_http. decode_fields. Qed.

Lemma GetBucketAcl_decodes req b : x_s3_path (s3ext req) = Some (Path.Bucket b) -> wp GetBucketAcl_deserialize_http (fun _ _ => True) client_fault req.
Proof. intros. unfold GetBucketAcl_deserialize_http. decode_fields. Qed.

Lemma GetBucketAnalyticsConfiguration_decodes req b : x_s3_path (s3ext req) = Some (Path.Bucket b) -> wp GetBucketAnalyticsConfiguration_deserialize_http (fun _ _ => True) client_fault req.
Proof. intros. unfold GetBucketAnalyticsConfiguration_deserialize_http. decode_fields. Qed.

Lemma GetBucketCors_decodes req b : x_s3_path (s3ext req) = Some (Path.Bucket b) -> wp GetBucketCors_deserialize_http (fun _ _ => True) client_fault req.
Proof. intros. unfold GetBucketCors_deserialize_http. decode_fields. Qed.

Lemma GetBucketEncryption_decodes req b : x_s3_path (s3ext req) = Some (Path.Bucket b) -> wp GetBucketEncryption_deserialize_http (fun _ _ => True) client_fault req.
Proof. intros. unfold GetBucketEncryption_deserialize_http. decode_fields. Qed.

Lemma GetBucketIntelligentTieringConfiguration_decodes req b : x_s3_path (s3ext req) = Some (Path.Bucket b) -> wp GetBucketIntelligentTieringConfiguration_deserialize_http (fun _ _ => True) client_fault req.
Proof. intros. unfold GetBucketIntelligentTieringConfiguration_deserialize_http. decode_fields. Qed.

Lemma GetBucketInventoryConfiguration_decodes req b : x_s3_path (s3ext req) = Some (Path.Bucket b) -> wp GetBucketInventoryConfiguration_deserialize_http (fun _ _ => True) client_fault req.
Proof. intros. unfold GetBucketInventoryConfiguration_deserialize_http. decode_fields. Qed.

Lemma GetBucketLifecycleConfiguration_decodes req b : x_s3_path (s3ext req) = Some (Path.Bucket b) -> wp GetBucketLifecycleConfiguration_deserialize_http (fun _ _ => True) client_fault req.
Proof. intros. unfold GetBucketLifecycleConfiguration_deserialize_http. decode_fields. Qed.

Lemma GetBucketLocation_decodes req b : x_s3_path (s3ext req) = Some (Path.Bucket b) -> wp GetBucketLocation_deserialize_http (fun _ _ => True) client_fault req.
Proof. intros. unfold GetBucketLocation_deserialize_http. decode_fields. Qed.

Lemma GetBucketLogging_decodes req b : x_s3_path (s3ext req) = Some (Path.Bucket b) -> wp GetBucketLogging_deserialize_http (fun _ _ => True) client_fault req.
Proof. intros. unfold GetBucketLogging_deserialize_http. decode_fields. Qed.

Lemma GetBucketMetadataConfiguration_decodes req b : x_s3_path (s3ext req) = Some (Path.Bucket b) -> wp GetBucketMetadataConfiguration_deserialize_http (fun _ _ => True) client_fault req.
Proof. intros. unfold GetBucketMetadataConfiguration_deserialize_http. decode_fields. Qed.

Lemma GetBucketMetadataTableConfiguration_decodes req b : x_s3_path (s3ext req) = Some (Path.Bucket b) -> wp GetBucketMetadataTableConfiguration_deserialize_http (fun _ _ => True) client_fault req.
Proof. intros. unfold GetBucketMetadataTableConfiguration_deserialize_http. decode_fields. Qed.

Lemma GetBucketMetricsConfiguration_decodes req b : x_s3_path (s3ext req) = Some (Path.Bucket b) -> wp GetBucketMetricsConfiguration_deserialize_http (fun _ _ => True) client_fault req.
Proof. intros. unfold GetBucketMetricsConfiguration_deserialize_http. decode_fields. Qed.

Lemma GetBucketNotificationConfiguration_decodes req b : x_s3_path (s3ext req) = Some (Path.Bucket b) -> wp GetBucketNotificationConfiguration_deserialize_http (fun _ _ => True) client_fault req.
Proof. intros. unfold GetBucketNotificationConfiguration_deserialize_http. decode_fields. Qed.

Lemma GetBucketOwnershipControls_decodes req b : x_s3_path (s3ext req) = Some (Path.Bucket b) -> wp GetBucketOwnershipControls_deserialize_http (fun _ _ => True) client_fault req.
Proof. intros. unfold GetBucketOwnershipControls_deserialize_http. decode_fields. Qed.

Lemma GetBucketPolicy_decodes req b : x_s3_path (s3ext req) = Some (Path.Bucket b) -> wp GetBucketPolicy_deserialize_http (fun _ _ => True) client_fault req.
Proof. intros. unfold GetBucketPolicy_deserialize_http. decode_fields. Qed.

Lemma GetBucketPolicyStatus_decodes req b : x_s3_path (s3ext req) = Some (Path.Bucket b) -> wp GetBucketPolicyStatus_deserialize_http (fun _ _ => True) client_fault req.
Proof. intros. unfold GetBucketPolicyStatus_deserialize_http. decode_fields. Qed.

Lemma GetBucketReplication_decodes req b : x_s3_path (s3ext req) = Some (Path.Bucket b) -> wp GetBucketReplication_deserialize_http (fun _ _ => True) client_fault req.
Proof. intros. unfold GetBucketReplication_deserialize_http. decode_fields. Qed.

Lemma GetBucketRequestPayment_decodes req b : x_s3_path (s3ext req) = Some (Path.Bucket b) -> wp GetBucketRequestPayment_deserialize_http (fun _ _ => True) client_fault req.
Proof. intros. unfold GetBucketRequestPayment_deserialize_http. decode_fields. Qed.

Lemma GetBucketTagging_decodes req b : x_s3_path (s3ext req) = Some (Path.Bucket b) -> wp GetBucketTagging_deserialize_http (fun _ _ => True) client_fault req.
Proof. intros. unfold GetBucketTagging_deserialize_http. decode_fields. Qed.

Lemma GetBucketVersioning_decodes req b : x_s3_path (s3ext req) = Some (Path.Bucket b) -> wp GetBucketVersioning_deserialize_http (fun _ _ => True) client_fault req.
Proof. intros. unfold GetBucketVersioning_deserialize_http. decode_fields. Qed.

Lemma GetBucketWebsite_decodes req b : x_s3_path (s3ext req) = Some (Path.Bucket b) -> wp GetBucketWebsite_deserialize_http (fun _ _ => True) client_fault req.
Proof. intros. unfold GetBucketWebsite_deserialize_http. decode_fields. Qed.

Lemma GetObject_decodes req b key : x_s3_path (s3ext req) = Some (Path.Object b key) -> wp GetObject_deserialize_http (fun _ _ => True) client_fault req.
Proof. intros. unfold GetObject_deserialize_http. decode_fields. Qed.

Lemma GetObjectAcl_decodes req b key : x_s3_path (s3ext req) = Some (Path.Object b key) -> wp GetObjectAcl_deserialize_http (fun _ _ => True) client_fault req.
Proof. intros. unfold GetObjectAcl_deserialize_http. decode_fields. Qed.

Lemma GetObjectAnnotation_decodes req b key : x_s3_path (s3ext req) = Some (Path.Object b key) -> wp GetObjectAnnotation_deserialize_http (fun _ _ => True) client_fault req.
Proof. intros. unfold GetObjectAnnotation_deserialize_http. decode_fields. Qed.

Lemma GetObjectAttributes_decodes req b key : x_s3_path (s3ext req) = Some (Path.Object b key) -> wp GetObjectAttributes_deserialize_http (fun _ _ => True) client_fault req.
Proof. intros. unfold GetObjectAttributes_deserialize_http. decode_fields. Qed.

Lemma GetObjectLegalHold_decodes req b key : x_s3_path (s3ext req) = Some (Path.Object b key) -> wp GetObjectLegalHold_deserialize_http (fun _ _ => True) client_fault req.
Proof. intros. unfold GetObjectLegalHold_deserialize_http. decode_fields. Qed.

Lemma GetObjectLockConfiguration_decodes req b : x_s3_path (s3ext req) = Some (Path.Bucket b) -> wp GetObjectLockConfiguration_deserialize_http (fun _ _ => True) client_fault req.
Proof. intros. unfold GetObjectLockConfiguration_deserialize_http. decode_fields. Qed.

Lemma GetObjectRetention_decodes req b key : x_s3_path (s3ext req) = Some (Path.Object b key) -> wp GetObjectRetention_deserialize_http (fun _ _ => True) client_fault req.
Proof. intros. unfold GetObjectRetention_deserialize_http. decode_fields. Qed.

Lemma GetObjectTagging_decodes req b key : x_s3_path (s3ext req) = Some (Path.Object b key) -> wp GetObjectTagging_deserialize_http (fun _ _ => True) client_fault req.
Proof. intros. unfold GetObjectTagging_deserialize_http. decode_fields. Qed.

Lemma GetObjectTorrent_decodes req b key : x_s3_path (s3ext req) = Some (Path.Object b key) -> wp GetObjectTorrent_deserialize_http (fun _ _ => True) client_fault req.
Proof. intros. unfold GetObjectTorrent_deserialize_http. decode_fields. Qed.

Lemma GetPublicAccessBlock_decodes req b : x_s3_path (s3ext req) = Some (Path.Bucket b) -> wp GetPublicAccessBlock_deserialize_http (fun _ _ => True) client_fault req.
Proof. intros. unfold GetPublicAccessBlock_deserialize_http. decode_fields. Qed.

Lemma HeadBucket_decodes req b : x_s3_path (s3ext req) = Some (Path.Bucket b) -> wp HeadBucket_deserialize_http (fun _ _ => True) client_fault req.
Proof. intros. unfold HeadBucket_deserialize_http. decode_fields. Qed.

Lemma HeadObject_decodes req b key : x_s3_path (s3ext req) = Some (Path.Object b key) -> wp HeadObject_deserialize_http (fun _ _ => True) client_fault req.
Proof. intros. unfold HeadObject_deserialize_http. decode_fields. Qed.

Lemma ListBucketAnalyticsConfigurations_decodes req b : x_s3_path (s3ext req) = Some (Path.Bucket b) -> wp ListBucketAnalyticsConfigurations_deserialize_http (fun _ _ => True) client_fault req.
Proof. intros. unfold ListBucketAnalyticsConfigurations_deserialize_http. decode_fields. Qed.

Lemma ListBucketIntelligentTieringConfigurations_decodes req b : x_s3_path (s3ext req) = Some (Path.Bucket b) -> wp ListBucketIntelligentTieringConfigurations_deserialize_http (fun _ _ => True) client_fault req.
Proof. intros. unfold ListBucketIntelligentTieringConfigurations_deserialize_http. decode_fields. Qed.

Lemma ListBucketInventoryConfigurations_decodes req b : x_s3_path (s3ext req) = Some (Path.Bucket b) -> wp ListBucketInventoryConfigurations_deserialize_http (fun _ _ => True) client_fault req.
Proof. intros. unfold ListBucketInventoryConfigurations_deserialize_http. decode_fields. Qed.

Lemma ListBucketMetricsConfigurations_decodes req b : x_s3_path (s3ext req) = Some (Path.Bucket b) -> wp ListBucketMetricsConfigurations_deserialize_http (fun _ _ => True) client_fault req.
Proof. intros. unfold ListBucketMetricsConfigurations_deserialize_http. decode_fields. Qed.

Lemma ListBuckets_decodes req : wp ListBuckets_deserialize_http (fun _ _ => True) client_fault req.
Proof. intros. unfold ListBuckets_deserialize_http. decode_fields. Qed.

Lemma ListDirectoryBuckets_decodes req : wp ListDirectoryBuckets_deserialize_http (fun _ _ => True) client_fault req.
Proof. intros. unfold ListDirectoryBuckets_deserialize_http. decode_fields. Qed.

Lemma ListMultipartUploads_decodes req b : x_s3_path (s3ext req) = Some (Path.Bucket b) -> wp ListMultipartUploads_deserialize_http (fun _ _ => True) client_fault req.
Proof. intros. unfold ListMultipartUploads_deserialize_http. decode_fields. Qed.

Lemma ListObjectAnnotations_decodes req b key : x_s3_path (s3ext req) = Some (Path.Object b key) -> wp ListObjectAnnotations_deserialize_http (fun _ _ => True) client_fault req.
Proof. intros. unfold ListObjectAnnotations_deserialize_http. decode_fields. Qed.

Lemma ListObjectVersions_decodes req b : x_s3_path (s3ext req) = Some (Path.Bucket b) -> wp ListObjectVersions_deserialize_http (fun _ _ => True) client_fault req.
Proof. intros. unfold ListObjectVersions_deserialize_http. decode_fields. Qed.

Lemma ListObjects_decodes req b : x_s3_path (s3ext req) = Some (Path.Bucket b) -> wp ListObjects_deserialize_http (fun _ _ => True) client_fault req.
Proof. intros. unfold ListObjects_deserialize_http. decode_fields. Qed.

Lemma ListObjectsV2_decodes req b : x_s3_path (s3ext req) = Some (Path.Bucket b) -> wp ListObjectsV2_deserialize_http (fun _ _ => True) client_fault req.
Proof. intros. unfold ListObjectsV2_deserialize_http. decode_fields. Qed.

Lemma ListParts_decodes req b key : x_s3_path (s3ext req) = Some (Path.Object b key) -> wp ListParts_deserialize_http (fun _ _ => True) client_fault req.
Proof. intros. unfold ListParts_deserialize_http. decode_fields. Qed.

Lemma PutBucketAbac_decodes req b x : x_s3_path (s3ext req) = Some (Path.Bucket b) -> bytes_of (body req) = Some x -> wp PutBucketAbac_deserialize_http (fun _ _ => True) client_fault req.
Proof. intros. unfold PutBucketAbac_deserialize_http. decode_fields. Qed.

Lemma PutBucketAccelerateConfiguration_decodes req b x : x_s3_path (s3ext req) = Some (Path.Bucket b) -> bytes_of (body req) = Some x -> wp PutBucketAccelerateConfiguration_deserialize_http (fun _ _ => True) client_fault req.
Proof. intros. unfold PutBucketAccelerateConfiguration_deserialize_http. decode_fields. Qed.

Lemma PutBucketAcl_decodes req b x : x_s3_path (s3ext req) = Some (Path.Bucket b) -> bytes_of (body req) = Some x -> wp PutBucketAcl_deserialize_http (fun _ _ => True) client_fault req.
Proof. intros. unfold PutBucketAcl_deserialize_http. decode_fields. Qed.

Lemma PutBucketAnalyticsConfiguration_decodes req b x : x_s3_path (s3ext req) = Some (Path.Bucket b) -> bytes_of (body req) = Some x -> wp PutBucketAnalyticsConfiguration_deserialize_http (fun _ _ => True) client_fault req.
Proof. intros. unfold PutBucketAnalyticsConfiguration_deserialize_http. decode_fields. Qed.

Lemma PutBucketCors_decodes req b x : x_s3_path (s3ext req) = Some (Path.Bucket b) -> bytes_of (body req) = Some x -> wp PutBucketCors_deserialize_http (fun _ _ => True) client_fault req.
Proof. intros. unfold PutBucketCors_deserialize_http. decode_fields. Qed.

Lemma PutBucketEncryption_decodes req b x : x_s3_path (s3ext req) = Some (Path.Bucket b) -> bytes_of (body req) = Some x -> wp PutBucketEncryption_deserialize_http (fun _ _ => True) client_fault req.
Proof. intros. unfold PutBucketEncryption_deserialize_http. decode_fields. Qed.

Lemma PutBucketIntelligentTieringConfiguration_decodes req b x : x_s3_path (s3ext req) = Some (Path.Bucket b) -> bytes_of (body req) = Some x -> wp PutBucketIntelligentTieringConfiguration_deserialize_http (fun _ _ => True) client_fault req.
Proof. intros. unfold PutBucketIntelligentTieringConfiguration_deserialize_http. decode_fields. Qed.

Lemma PutBucketInventoryConfiguration_decodes req b x : x_s3_path (s3ext req) = Some (Path.Bucket b) -> bytes_of (body req) = Some x -> wp PutBucketInventoryConfiguration_deserialize_http (fun _ _ => True) client_fault req.
Proof. intros. unfold PutBucketInventoryConfiguration_deserialize_http. decode_fields. Qed.

Lemma PutBucketLifecycleConfiguration_decodes req b x : x_s3_path (s3ext req) = Some (Path.Bucket b) -> bytes_of (body req) = Some x -> wp PutBucketLifecycleConfiguration_deserialize_http (fun _ _ => True) client_fault req.
Proof. intros. unfold PutBucketLifecycleConfiguration_deserialize_http. decode_fields. Qed.

Lemma PutBucketLogging_decodes req b x : x_s3_path (s3ext req) = Some (Path.Bucket b) -> bytes_of (body req) = Some x -> wp PutBucketLogging_deserialize_http (fun _ _ => True) client_fault req.
Proof. intros. unfold PutBucketLogging_deserialize_http. decode_fields. Qed.

Lemma PutBucketMetricsConfiguration_decodes req b x : x_s3_path (s3ext req) = Some (Path.Bucket b) -> bytes_of (body req) = Some x -> wp PutBucketMetricsConfiguration_deserialize_http (fun _ _ => True) client_fault req.
Proof. intros. unfold PutBucketMetricsConfiguration_deserialize_http. decode_fields. Qed.

Lemma PutBucketNotificationConfiguration_decodes req b x : x_s3_path (s3ext req) = Some (Path.Bucket b) -> bytes_of (body req) = Some x -> wp PutBucketNotificationConfiguration_deserialize_http (fun _ _ => True) client_fault req.
Proof. intros. unfold PutBucketNotificationConfiguration_deserialize_http. decode_fields. Qed.

Lemma PutBucketOwnershipControls_decodes req b x : x_s3_path (s3ext req) = Some (Path.Bucket b) -> bytes_of (body req) = Some x -> wp PutBucketOwnershipControls_deserialize_http (fun _ _ => True) client_fault req.
Proof. intros. unfold PutBucketOwnershipControls_deserialize_http. decode_fields. Qed.

Lemma PutBucketPolicy_decodes req b x : x_s3_path (s3ext req) = Some (Path.Bucket b) -> bytes_of (body req) = Some x -> wp PutBucketPolicy_deserialize_http (fun _ _ => True) client_fault req.
Proof. intros. unfold PutBucketPolicy_deserialize_http. decode_fields. Qed.

Lemma PutBucketReplication_decodes req b x : x_s3_path (s3ext req) = Some (Path.Bucket b) -> bytes_of (body req) = Some x -> wp PutBucketReplication_deserialize_http (fun _ _ => True) client_fault req.
Proof. intros. unfold PutBucketReplication_deserialize_http. decode_fields. Qed.

Lemma PutBucketRequestPayment_decodes req b x : x_s3_path (s3ext req) = Some (Path.Bucket b) -> bytes_of (body req) = Some x -> wp PutBucketRequestPayment_deserialize_http (fun _ _ => True) client_fault req.
Proof. intros. unfold PutBucketRequestPayment_deserialize_http. decode_fields. Qed.

Lemma PutBucketTagging_decodes req b x : x_s3_path (s3ext req) = Some (Path.Bucket b) -> bytes_of (body req) = Some x -> wp PutBucketTagging_deserialize_http (fun _ _ => True) client_fault req.
Proof. intros. unfold PutBucketTagging_deserialize_http. decode_fields. Qed.

Lemma PutBucketVersioning_decodes req b x : x_s3_path (s3ext req) = Some (Path.Bucket b) -> bytes_of (body req) = Some x -> wp PutBucketVersioning_deserialize_http (fun _ _ => True) client_fault req.
Proof. intros. unfold PutBucketVersioning_deserialize_http. decode_fields. Qed.

Lemma PutBucketWebsite_decodes req b x : x_s3_path (s3ext req) = Some (Path.Bucket b) -> bytes_of (body req) = Some x -> wp PutBucketWebsite_deserialize_http (fun _ _ => True) client_fault req.
Proof. intros. unfold PutBucketWebsite_deserialize_http. decode_fields. Qed.

Lemma PutObjectAcl_decodes req b key x : x_s3_path (s3ext req) = Some (Path.Object b key) -> bytes_of (body req) = Some x -> wp PutObjectAcl_deserialize_http (fun _ _ => True) client_fault req.
Proof. intros. unfold PutObjectAcl_deserialize_http. decode_fields. Qed.

Lemma PutObjectAnnotation_decodes req b key : x_s3_path (s3ext req) = Some (Path.Object b key) -> wp PutObjectAnnotation_deserialize_http (fun _ _ => True) client_fault req.
Proof. intros. unfold PutObjectAnnotation_deserialize_http. decode_fields. Qed.

Lemma PutObjectLegalHold_decodes req b key x : x_s3_path (s3ext req) = Some (Path.Object b key) -> bytes_of (body req) = Some x -> wp PutObjectLegalHold_deserialize_http (fun _ _ => True) client_fault req.
Proof. intros. unfold PutObjectLegalHold_deserialize_http. decode_fields. Qed.

Lemma PutObjectLockConfiguration_decodes req b x : x_s3_path (s3ext req) = Some (Path.Bucket b) -> bytes_of (body req) = Some x -> wp PutObjectLockConfiguration_deserialize_http (fun _ _ => True) client_fault req.
Proof. intros. unfold PutObjectLockConfiguration_deserialize_http. decode_fields. Qed.

Lemma PutObjectRetention_decodes req b key x : x_s3_path (s3ext req) = Some (Path.Object b key) -> bytes_of (body req) = Some x -> wp PutObjectRetention_deserialize_http (fun _ _ => True) client_fault req.
Proof. intros. unfold PutObjectRetention_deserialize_http. decode_fields. Qed.

Lemma PutObjectTagging_decodes req b key x : x_s3_path (s3ext req) = Some (Path.Object b key) -> bytes_of (body req) = Some x -> wp PutObjectTagging_deserialize_http (fun _ _ => True) client_fault req.
Proof. intros. unfold PutObjectTagging_deserialize_http. decode_fields. Qed.

Lemma PutPublicAccessBlock_decodes req b x : x_s3_path (s3ext req) = Some (Path.Bucket b) -> bytes_of (body req) = Some x -> wp PutPublicAccessBlock_deserialize_http (fun _ _ => True) client_fault req.
Proof. intros. unfold PutPublicAccessBlock_deserialize_http. decode_fields. Qed.

Lemma RenameObject_decodes req b key : x_s3_path (s3ext req) = Some (Path.Object b key) -> wp RenameObject_deserialize_http (fun _ _ => True) client_fault req.
Proof. intros. unfold RenameObject_deserialize_http. decode_fields. Qed.

Lemma RestoreObject_decodes req b key x : x_s3_path (s3ext req) = Some (Path.Object b key) -> bytes_of (body req) = Some x -> wp RestoreObject_deserialize_http (fun _ _ => True) client_fault req.
Proof. intros. unfold RestoreObject_deserialize_http. decode_fields. Qed.

Lemma SelectObjectContent_decodes req b key x : x_s3_path (s3ext req) = Some (Path.Object b key) -> bytes_of (body req) = Some x -> wp SelectObjectContent_deserialize_http (fun _ _ => True) client_fault req.
Proof. intros. unfold SelectObjectContent_deserialize_http. decode_fields. Qed.

Lemma UpdateBucketMetadataAnnotationTableConfiguration_decodes req b x : x_s3_path (s3ext req) = Some (Path.Bucket b) -> bytes_of (body req) = Some x -> wp UpdateBucketMetadataAnnotationTableConfiguration_deserialize_http (fun _ _ => True) client_fault req.
Proof. intros. unfold UpdateBucketMetadataAnnotationTableConfiguration_deserialize_http. decode_fields. Qed.

Lemma UpdateBucketMetadataInventoryTableConfiguration_decodes req b x : x_s3_path (s3ext req) = Some (Path.Bucket b) -> bytes_of (body req) = Some x -> wp UpdateBucketMetadataInventoryTableConfiguration_deserialize_http (fun _ _ => True) client_fault req.
Proof. intros. unfold UpdateBucketMetadataInventoryTableConfiguration_deserialize_http. decode_fields. Qed.

Lemma UpdateBucketMetadataJournalTableConfiguration_decodes req b x : x_s3_path (s3ext req) = Some (Path.Bucket b) -> bytes_of (body req) = Some x -> wp UpdateBucketMetadataJournalTableConfiguration_deserialize_http (fun _ _ => True) client_fault req.
Proof. intros. unfold UpdateBucketMetadataJournalTableConfiguration_deserialize_http. decode_fields. Qed.

Lemma UpdateObjectEncryption_decodes req b key x : x_s3_path (s3ext req) = Some (Path.Object b key) -> bytes_of (body req) = Some x -> wp UpdateObjectEncryption_deserialize_http (fun _ _ => True) client_fault req.
Proof. intros. unfold UpdateObjectEncryption_deserialize_http. decode_fields. Qed.

Lemma UploadPart_decodes req b key : x_s3_path (s3ext req) = Some (Path.Object b key) -> wp UploadPart_deserialize_http (fun _ _ => True) client_fault req.
Proof. intros. unfold UploadPart_deserialize_http. decode_fields. Qed.

Lemma UploadPartCopy_decodes req b key : x_s3_path (s3ext req) = Some (Path.Object b key) -> wp UploadPartCopy_deserialize_http (fun _ _ => True) client_fault req.
Proof. intros. unfold UploadPartCopy_deserialize_http. decode_fields. Qed.

Lemma WriteGetObjectResponse_decodes req : wp WriteGetObjectResponse_deserialize_http (fun _ _ => True) client_fault req.
Proof. intros. unfold WriteGetObjectResponse_deserialize_http. decode_fields. Qed.

(** ** Forms *)

Lemma wp_modify_ext {A} (f : S3Extensions -> S3Extensions) (k : unit -> ST (Request Ext) A) Q E req :
  wp (k tt) Q E (set_s3ext (f (s3ext req)) req) -> wp (modify_ext f ≫= k) Q E req.
Proof. done. Qed.

Lemma PutObject_multipart_decodes m req b s :
  x_s3_path (s3ext req) = Some (Path.Bucket b) -> x_post_object_stream (s3ext req) = Some s ->
  wp (PutObject_deserialize_http_multipart m) (fun _ _ => True) client_fault req.
Proof.
  intros Hp Hs. unfold PutObject_deserialize_http_multipart. decode_fields. apply wp_lift_fault; [apply fault_ok_or; auto with faults|]. intros ?.
  apply wp_bind, wp_get, wp_modify_ext, wp_bind, wp_lift. cbn. rewrite Hs. cbn.
  apply wp_lift_fault; [destruct (exact _); [|done]; case_match; simpl; auto with faults|]. intros ?. decode_fields.
  apply wp_bind, wp_panic. unfold parse_field_value_timestamp. destruct (find_field_value m _) as [v|].
  - destruct (parse_total DateTime v) as [r ->]. cbn [mbind option_bind]. apply wp_lift_fault; [destruct r; simpl; auto with faults|].
    intros ?. decode_fields.
  - apply wp_lift_fault; [done|]. intros ?. decode_fields.
Qed.

Lemma PutObject_decodes req b key : x_s3_path (s3ext req) = Some (Path.Object b key) -> x_multipart (s3ext req) = None ->
  wp PutObject_deserialize_http (fun _ _ => True) client_fault req.
Proof.
  intros Hp Hm. unfold PutObject_deserialize_http. apply wp_bind, wp_get, wp_modify_ext. rewrite Hm. decode_fields.
Qed.

(** The body of an upload is the stream of the body of the request. *)
Lemma PutObject_body req req' input : x_multipart (s3ext req) = None ->
  PutObject_deserialize_http req = Some (req', Ok input) -> PutObjectInput_body input = Some (blob_of_body (body req)).
Proof.
  intros Hm E. unfold PutObject_deserialize_http in E. apply M_bind_ok in E as (? & ? & [-> ->]%get_ok & E).
  apply M_bind_ok in E as (r1 & [] & E1 & E). injection E1 as <-. rewrite Hm in E.
  apply M_bind_ok in E as (r2 & [bkt k] & E2 & E). unfold unwrap_object in E2.
  apply M_bind_ok in E2 as (? & ? & [-> ->]%get_ok & E2). apply M_bind_ok in E2 as (? & [] & E3 & [-> _]%panic_none_ok).
  injection E3 as <-. apply M_bind_ok in E as (r3 & acl & E3 & E). injection E3 as <- _.
  apply M_bind_ok in E as (r4 & bl & E4 & E). injection E4 as <- <-.
  repeat match goal with E : (mbind _ _) _ = Some (_, Ok input) |- _ => apply M_bind_ok in E; destruct E as (? & ? & _ & E) end.
  by apply M_ret_ok in E as [_ ->].
Qed.

Lemma PostObject_decodes req b m s : x_s3_path (s3ext req) = Some (Path.Bucket b) -> x_multipart (s3ext req) = Some m ->
  x_post_object_stream (s3ext req) = Some s -> wp PostObject_deserialize_http (fun _ _ => True) client_fault req.
Proof.
  intros Hp Hm Hs. unfold PostObject_deserialize_http. apply wp_bind, wp_get, wp_modify_ext. rewrite Hm. cbn [ok_or].
  apply wp_bind, wp_lift. decode_fields. apply wp_bind.
  match goal with |- wp _ ?K _ _ => assert (Hk : forall a, K a (set_s3ext (set_form None (x_trailing_headers (s3ext req)) (s3ext req)) req)) end.
  { intros r. decode_fields. apply wp_bind, wp_get, wp_modify_ext, wp_bind.
    apply (wp_mono _ (fun _ _ => True)); [by apply (PutObject_multipart_decodes m _ b s)|done]. }
  case_match; [apply Hk|]. pose proof (parse_field_value_fault fs_string m (str "redirect")) as Hf. apply wp_lift.
  destruct (parse_field_value fs_string m (str "redirect")); [apply Hk|done].
Qed.

End Decode.
