(* ===== verification/OpsSer.v ===== *)
(** * Encoding the outputs of the operations (crates/s3s/src/ops/generated/, ops/multipart.rs)

    [serialize_http] of each operation: its status, its body and its headers. *)

From S2P Require Import Prelude.
From S2P Require Import Str.
From S2P Require Import ErrorCode.
From S2P Require Import Handler.
From S2P Require Import SigV4.
From S2P Require Import SignatureCheck.
From S2P Require Import Poll.
From S2P Require Import Stream.
From S2P Require Import Body.
From S2P Require Import Form.
From S2P Require Import PostPolicy.
From S2P Require Import Blob.
From S2P Require Import Request.
From S2P Require Import Response.
From S2P Require Import Range.
From S2P Require Import ETag.
From S2P Require Import Timestamp.
From S2P Require Import Xml.
From S2P Require Import XmlStruct.
From S2P Require Import XmlDtoA.
From S2P Require Import XmlDtoB.
From S2P Require Import XmlDtoC.
From S2P Require Import XmlOutputs.
From S2P Require Import XmlDocs.
From S2P Require Import EventStream.
From S2P Require Import CopySource.
From S2P Require Import HeaderNames.
From S2P Require Import HttpDe.
From S2P Require Import HttpSer.
From S2P Require Import OpsTypes.

(** [url::Url::parse] and [query_pairs_mut().append_pair(..)] of the [url] crate: the text of the
    address with the pairs added to its query, or [None]. *)
Class UrlCrate := { url_append : bytes -> list (bytes * bytes) -> option bytes }.

Record PostResponse := { pr_location : bytes; pr_bucket : bytes; pr_key : bytes; pr_etag : bytes }.
Definition ser_PostResponse (self : PostResponse) : Ser :=
  s_seq [s_content ser_str (str "Location") (pr_location self); s_content ser_str (str "Bucket") (pr_bucket self);
         s_content ser_str (str "Key") (pr_key self); s_content ser_str (str "ETag") (pr_etag self)].
#[global] Instance serialize_PostResponse : Serialize PostResponse := s_content ser_PostResponse (str "PostResponse").

Section Encode.
Context `{HttpDeps} {Ext : Type} `{Extensions Ext} `{CrcFast} `{UrlCrate}.

Definition AbortMultipartUpload_serialize_http (x : AbortMultipartUploadOutput) : option (result S3ErrorCode (Response Ext)) :=
  respond 204 (
    add_opt_header ih_enum X_AMZ_REQUEST_CHARGED (AbortMultipartUploadOutput_request_charged x)).

Definition CopyObject_serialize_http (x : CopyObjectOutput) : option (result S3ErrorCode (Response Ext)) :=
  respond 200 (
    (match CopyObjectOutput_copy_object_result x with Some val => set_xml_body val | None => mret tt end);;
    add_opt_header ih_bool X_AMZ_SERVER_SIDE_ENCRYPTION_BUCKET_KEY_ENABLED (CopyObjectOutput_bucket_key_enabled x);;
    add_opt_header ih_string X_AMZ_COPY_SOURCE_VERSION_ID (CopyObjectOutput_copy_source_version_id x);;
    add_opt_header ih_string X_AMZ_EXPIRATION (CopyObjectOutput_expiration x);;
    add_opt_header ih_enum X_AMZ_REQUEST_CHARGED (CopyObjectOutput_request_charged x);;
    add_opt_header ih_string X_AMZ_SERVER_SIDE_ENCRYPTION_CUSTOMER_ALGORITHM (CopyObjectOutput_sse_customer_algorithm x);;
    add_opt_header ih_string X_AMZ_SERVER_SIDE_ENCRYPTION_CUSTOMER_KEY_MD5 (CopyObjectOutput_sse_customer_key_md5 x);;
    add_opt_header ih_string X_AMZ_SERVER_SIDE_ENCRYPTION_CONTEXT (CopyObjectOutput_ssekms_encryption_context x);;
    add_opt_header ih_string X_AMZ_SERVER_SIDE_ENCRYPTION_AWS_KMS_KEY_ID (CopyObjectOutput_ssekms_key_id x);;
    add_opt_header ih_enum X_AMZ_SERVER_SIDE_ENCRYPTION (CopyObjectOutput_server_side_encryption x);;
    add_opt_header ih_string X_AMZ_VERSION_ID (CopyObjectOutput_version_id x)).

Definition CreateBucket_serialize_http (x : CreateBucketOutput) : option (result S3ErrorCode (Response Ext)) :=
  respond 200 (
    add_opt_header ih_string X_AMZ_BUCKET_ARN (CreateBucketOutput_bucket_arn x);;
    add_opt_header ih_string LOCATION (CreateBucketOutput_location x)).

Definition CreateBucketMetadataConfiguration_serialize_http (_ : CreateBucketMetadataConfigurationOutput) : option (result S3ErrorCode (Response Ext)) := respond 200 (mret tt).

Definition CreateBucketMetadataTableConfiguration_serialize_http (_ : CreateBucketMetadataTableConfigurationOutput) : option (result S3ErrorCode (Response Ext)) := respond 200 (mret tt).

Definition CreateMultipartUpload_serialize_http (x : CreateMultipartUploadOutput) : option (result S3ErrorCode (Response Ext)) :=
  respond 200 (
    set_xml_body x;;
    add_opt_header_timestamp X_AMZ_ABORT_DATE (CreateMultipartUploadOutput_abort_date x) HttpDate;;
    add_opt_header ih_string X_AMZ_ABORT_RULE_ID (CreateMultipartUploadOutput_abort_rule_id x);;
    add_opt_header ih_bool X_AMZ_SERVER_SIDE_ENCRYPTION_BUCKET_KEY_ENABLED (CreateMultipartUploadOutput_bucket_key_enabled x);;
    add_opt_header ih_enum X_AMZ_CHECKSUM_ALGORITHM (CreateMultipartUploadOutput_checksum_algorithm x);;
    add_opt_header ih_enum X_AMZ_CHECKSUM_TYPE (CreateMultipartUploadOutput_checksum_type x);;
    add_opt_header ih_enum X_AMZ_REQUEST_CHARGED (CreateMultipartUploadOutput_request_charged x);;
    add_opt_header ih_string X_AMZ_SERVER_SIDE_ENCRYPTION_CUSTOMER_ALGORITHM (CreateMultipartUploadOutput_sse_customer_algorithm x);;
    add_opt_header ih_string X_AMZ_SERVER_SIDE_ENCRYPTION_CUSTOMER_KEY_MD5 (CreateMultipartUploadOutput_sse_customer_key_md5 x);;
    add_opt_header ih_string X_AMZ_SERVER_SIDE_ENCRYPTION_CONTEXT (CreateMultipartUploadOutput_ssekms_encryption_context x);;
    add_opt_header ih_string X_AMZ_SERVER_SIDE_ENCRYPTION_AWS_KMS_KEY_ID (CreateMultipartUploadOutput_ssekms_key_id x);;
    add_opt_header ih_enum X_AMZ_SERVER_SIDE_ENCRYPTION (CreateMultipartUploadOutput_server_side_encryption x)).

Definition CreateSession_serialize_http (x : CreateSessionOutput) : option (result S3ErrorCode (Response Ext)) :=
  respond 200 (
    set_xml_body x;;
    add_opt_header ih_bool X_AMZ_SERVER_SIDE_ENCRYPTION_BUCKET_KEY_ENABLED (CreateSessionOutput_bucket_key_enabled x);;
    add_opt_header ih_string X_AMZ_SERVER_SIDE_ENCRYPTION_CONTEXT (CreateSessionOutput_ssekms_encryption_context x);;
    add_opt_header ih_string X_AMZ_SERVER_SIDE_ENCRYPTION_AWS_KMS_KEY_ID (CreateSessionOutput_ssekms_key_id x);;
    add_opt_header ih_enum X_AMZ_SERVER_SIDE_ENCRYPTION (CreateSessionOutput_server_side_encryption x)).

Definition DeleteBucket_serialize_http (_ : DeleteBucketOutput) : option (result S3ErrorCode (Response Ext)) := respond 204 (mret tt).

Definition DeleteBucketAnalyticsConfiguration_serialize_http (_ : DeleteBucketAnalyticsConfigurationOutput) : option (result S3ErrorCode (Response Ext)) := respond 204 (mret tt).

Definition DeleteBucketCors_serialize_http (_ : DeleteBucketCorsOutput) : option (result S3ErrorCode (Response Ext)) := respond 204 (mret tt).

Definition DeleteBucketEncryption_serialize_http (_ : DeleteBucketEncryptionOutput) : option (result S3ErrorCode (Response Ext)) := respond 204 (mret tt).

Definition DeleteBucketIntelligentTieringConfiguration_serialize_http (_ : DeleteBucketIntelligentTieringConfigurationOutput) : option (result S3ErrorCode (Response Ext)) := respond 204 (mret tt).

Definition DeleteBucketInventoryConfiguration_serialize_http (_ : DeleteBucketInventoryConfigurationOutput) : option (result S3ErrorCode (Response Ext)) := respond 204 (mret tt).

Definition DeleteBucketLifecycle_serialize_http (_ : DeleteBucketLifecycleOutput) : option (result S3ErrorCode (Response Ext)) := respond 204 (mret tt).

Definition DeleteBucketMetadataConfiguration_serialize_http (_ : DeleteBucketMetadataConfigurationOutput) : option (result S3ErrorCode (Response Ext)) := respond 204 (mret tt).

Definition DeleteBucketMetadataTableConfiguration_serialize_http (_ : DeleteBucketMetadataTableConfigurationOutput) : option (result S3ErrorCode (Response Ext)) := respond 204 (mret tt).

Definition DeleteBucketMetricsConfiguration_serialize_http (_ : DeleteBucketMetricsConfigurationOutput) : option (result S3ErrorCode (Response Ext)) := respond 204 (mret tt).

Definition DeleteBucketOwnershipControls_serialize_http (_ : DeleteBucketOwnershipControlsOutput) : option (result S3ErrorCode (Response Ext)) := respond 204 (mret tt).

Definition DeleteBucketPolicy_serialize_http (_ : DeleteBucketPolicyOutput) : option (result S3ErrorCode (Response Ext)) := respond 204 (mret tt).

Definition DeleteBucketReplication_serialize_http (_ : DeleteBucketReplicationOutput) : option (result S3ErrorCode (Response Ext)) := respond 204 (mret tt).

Definition DeleteBucketTagging_serialize_http (_ : DeleteBucketTaggingOutput) : option (result S3ErrorCode (Response Ext)) := respond 204 (mret tt).

Definition DeleteBucketWebsite_serialize_http (_ : DeleteBucketWebsiteOutput) : option (result S3ErrorCode (Response Ext)) := respond 204 (mret tt).

Definition DeleteObject_serialize_http (x : DeleteObjectOutput) : option (result S3ErrorCode (Response Ext)) :=
  respond 204 (
    add_opt_header ih_bool X_AMZ_DELETE_MARKER (DeleteObjectOutput_delete_marker x);;
    add_opt_header ih_enum X_AMZ_REQUEST_CHARGED (DeleteObjectOutput_request_charged x);;
    add_opt_header ih_string X_AMZ_VERSION_ID (DeleteObjectOutput_version_id x)).

Definition DeleteObjectAnnotation_serialize_http (x : DeleteObjectAnnotationOutput) : option (result S3ErrorCode (Response Ext)) :=
  respond 204 (
    add_opt_header ih_string X_AMZ_OBJECT_VERSION_ID (DeleteObjectAnnotationOutput_object_version_id x);;
    add_opt_header ih_enum X_AMZ_REQUEST_CHARGED (DeleteObjectAnnotationOutput_request_charged x)).

Definition DeleteObjectTagging_serialize_http (x : DeleteObjectTaggingOutput) : option (result S3ErrorCode (Response Ext)) :=
  respond 204 (
    add_opt_header ih_string X_AMZ_VERSION_ID (DeleteObjectTaggingOutput_version_id x)).

Definition DeleteObjects_serialize_http (x : DeleteObjectsOutput) : option (result S3ErrorCode (Response Ext)) :=
  respond 200 (
    set_xml_body x;;
    add_opt_header ih_enum X_AMZ_REQUEST_CHARGED (DeleteObjectsOutput_request_charged x)).

Definition DeletePublicAccessBlock_serialize_http (_ : DeletePublicAccessBlockOutput) : option (result S3ErrorCode (Response Ext)) := respond 204 (mret tt).

Definition GetBucketAbac_serialize_http (x : GetBucketAbacOutput) : option (result S3ErrorCode (Response Ext)) :=
  respond 200 (
    (match GetBucketAbacOutput_abac_status x with Some val => set_xml_body val | None => mret tt end)).

Definition GetBucketAccelerateConfiguration_serialize_http (x : GetBucketAccelerateConfigurationOutput) : option (result S3ErrorCode (Response Ext)) :=
  respond 200 (
    set_xml_body x;;
    add_opt_header ih_enum X_AMZ_REQUEST_CHARGED (GetBucketAccelerateConfigurationOutput_request_charged x)).

Definition GetBucketAcl_serialize_http (x : GetBucketAclOutput) : option (result S3ErrorCode (Response Ext)) :=
  respond 200 (
    set_xml_body x).

Definition GetBucketAnalyticsConfiguration_serialize_http (x : GetBucketAnalyticsConfigurationOutput) : option (result S3ErrorCode (Response Ext)) :=
  respond 200 (
    (match GetBucketAnalyticsConfigurationOutput_analytics_configuration x with Some val => set_xml_body val | None => mret tt end)).

Definition GetBucketCors_serialize_http (x : GetBucketCorsOutput) : option (result S3ErrorCode (Response Ext)) :=
  respond 200 (
    set_xml_body x).

Definition GetBucketEncryption_serialize_http (x : GetBucketEncryptionOutput) : option (result S3ErrorCode (Response Ext)) :=
  respond 200 (
    (match GetBucketEncryptionOutput_server_side_encryption_configuration x with Some val => set_xml_body val | None => mret tt end)).

Definition GetBucketIntelligentTieringConfiguration_serialize_http (x : GetBucketIntelligentTieringConfigurationOutput) : option (result S3ErrorCode (Response Ext)) :=
  respond 200 (
    (match GetBucketIntelligentTieringConfigurationOutput_intelligent_tiering_configuration x with Some val => set_xml_body val | None => mret tt end)).

Definition GetBucketInventoryConfiguration_serialize_http (x : GetBucketInventoryConfigurationOutput) : option (result S3ErrorCode (Response Ext)) :=
  respond 200 (
    (match GetBucketInventoryConfigurationOutput_inventory_configuration x with Some val => set_xml_body val | None => mret tt end)).

Definition GetBucketLifecycleConfiguration_serialize_http (x : GetBucketLifecycleConfigurationOutput) : option (result S3ErrorCode (Response Ext)) :=
  respond 200 (
    set_xml_body x;;
    add_opt_header ih_enum X_AMZ_TRANSITION_DEFAULT_MINIMUM_OBJECT_SIZE (GetBucketLifecycleConfigurationOutput_transition_default_minimum_object_size x)).

Definition GetBucketLocation_serialize_http (x : GetBucketLocationOutput) : option (result S3ErrorCode (Response Ext)) :=
  respond 200 (
    set_xml_body x).

Definition GetBucketLogging_serialize_http (x : GetBucketLoggingOutput) : option (result S3ErrorCode (Response Ext)) :=
  respond 200 (
    set_xml_body x).

Definition GetBucketMetadataConfiguration_serialize_http (x : GetBucketMetadataConfigurationOutput) : option (result S3ErrorCode (Response Ext)) :=
  respond 200 (
    (match GetBucketMetadataConfigurationOutput_get_bucket_metadata_configuration_result x with Some val => set_xml_body val | None => mret tt end)).

Definition GetBucketMetadataTableConfiguration_serialize_http (x : GetBucketMetadataTableConfigurationOutput) : option (result S3ErrorCode (Response Ext)) :=
  respond 200 (
    (match GetBucketMetadataTableConfigurationOutput_get_bucket_metadata_table_configuration_result x with Some val => set_xml_body val | None => mret tt end)).

Definition GetBucketMetricsConfiguration_serialize_http (x : GetBucketMetricsConfigurationOutput) : option (result S3ErrorCode (Response Ext)) :=
  respond 200 (
    (match GetBucketMetricsConfigurationOutput_metrics_configuration x with Some val => set_xml_body val | None => mret tt end)).

Definition GetBucketNotificationConfiguration_serialize_http (x : GetBucketNotificationConfigurationOutput) : option (result S3ErrorCode (Response Ext)) :=
  respond 200 (
    set_xml_body x).

Definition GetBucketOwnershipControls_serialize_http (x : GetBucketOwnershipControlsOutput) : option (result S3ErrorCode (Response Ext)) :=
  respond 200 (
    (match GetBucketOwnershipControlsOutput_ownership_controls x with Some val => set_xml_body val | None => mret tt end)).

Definition GetBucketPolicy_serialize_http (x : GetBucketPolicyOutput) : option (result S3ErrorCode (Response Ext)) :=
  respond 200 (
    (match GetBucketPolicyOutput_policy x with Some val => set_body (Body.once val) | None => mret tt end)).

Definition GetBucketPolicyStatus_serialize_http (x : GetBucketPolicyStatusOutput) : option (result S3ErrorCode (Response Ext)) :=
  respond 200 (
    (match GetBucketPolicyStatusOutput_policy_status x with Some val => set_xml_body val | None => mret tt end)).

Definition GetBucketReplication_serialize_http (x : GetBucketReplicationOutput) : option (result S3ErrorCode (Response Ext)) :=
  respond 200 (
    (match GetBucketReplicationOutput_replication_configuration x with Some val => set_xml_body val | None => mret tt end)).

Definition GetBucketRequestPayment_serialize_http (x : GetBucketRequestPaymentOutput) : option (result S3ErrorCode (Response Ext)) :=
  respond 200 (
    set_xml_body x).

Definition GetBucketTagging_serialize_http (x : GetBucketTaggingOutput) : option (result S3ErrorCode (Response Ext)) :=
  respond 200 (
    set_xml_body x).

Definition GetBucketVersioning_serialize_http (x : GetBucketVersioningOutput) : option (result S3ErrorCode (Response Ext)) :=
  respond 200 (
    set_xml_body x).

Definition GetBucketWebsite_serialize_http (x : GetBucketWebsiteOutput) : option (result S3ErrorCode (Response Ext)) :=
  respond 200 (
    set_xml_body x).

Definition GetObject_serialize_http (x : GetObjectOutput) : option (result S3ErrorCode (Response Ext)) :=
  respond 200 (
    (if is_some (GetObjectOutput_content_range x) then update (set_response_status 206) else mret tt);;
    (match GetObjectOutput_body x with Some val => set_stream_body val | None => mret tt end);;
    add_opt_header ih_string ACCEPT_RANGES (GetObjectOutput_accept_ranges x);;
    add_opt_header ih_bool X_AMZ_SERVER_SIDE_ENCRYPTION_BUCKET_KEY_ENABLED (GetObjectOutput_bucket_key_enabled x);;
    add_opt_header ih_string CACHE_CONTROL (GetObjectOutput_cache_control x);;
    add_opt_header ih_string X_AMZ_CHECKSUM_CRC32 (GetObjectOutput_checksum_crc32 x);;
    add_opt_header ih_string X_AMZ_CHECKSUM_CRC32C (GetObjectOutput_checksum_crc32c x);;
    add_opt_header ih_string X_AMZ_CHECKSUM_CRC64NVME (GetObjectOutput_checksum_crc64nvme x);;
    add_opt_header ih_string X_AMZ_CHECKSUM_MD5 (GetObjectOutput_checksum_md5 x);;
    add_opt_header ih_string X_AMZ_CHECKSUM_SHA1 (GetObjectOutput_checksum_sha1 x);;
    add_opt_header ih_string X_AMZ_CHECKSUM_SHA256 (GetObjectOutput_checksum_sha256 x);;
    add_opt_header ih_string X_AMZ_CHECKSUM_SHA512 (GetObjectOutput_checksum_sha512 x);;
    add_opt_header ih_enum X_AMZ_CHECKSUM_TYPE (GetObjectOutput_checksum_type x);;
    add_opt_header ih_string X_AMZ_CHECKSUM_XXHASH128 (GetObjectOutput_checksum_xxhash128 x);;
    add_opt_header ih_string X_AMZ_CHECKSUM_XXHASH3 (GetObjectOutput_checksum_xxhash3 x);;
    add_opt_header ih_string X_AMZ_CHECKSUM_XXHASH64 (GetObjectOutput_checksum_xxhash64 x);;
    add_opt_header ih_string CONTENT_DISPOSITION (GetObjectOutput_content_disposition x);;
    add_opt_header ih_string CONTENT_ENCODING (GetObjectOutput_content_encoding x);;
    add_opt_header ih_string CONTENT_LANGUAGE (GetObjectOutput_content_language x);;
    add_opt_header ih_i64 CONTENT_LENGTH (GetObjectOutput_content_length x);;
    add_opt_header ih_string CONTENT_RANGE (GetObjectOutput_content_range x);;
    add_opt_header ih_string CONTENT_TYPE (GetObjectOutput_content_type x);;
    add_opt_header ih_bool X_AMZ_DELETE_MARKER (GetObjectOutput_delete_marker x);;
    add_opt_header ih_ETag ETAG (GetObjectOutput_e_tag x);;
    add_opt_header ih_string X_AMZ_EXPIRATION (GetObjectOutput_expiration x);;
    add_opt_header ih_string EXPIRES (GetObjectOutput_expires x);;
    add_opt_header_timestamp LAST_MODIFIED (GetObjectOutput_last_modified x) HttpDate;;
    add_opt_metadata (GetObjectOutput_metadata x);;
    add_opt_header ih_i32 X_AMZ_MISSING_META (GetObjectOutput_missing_meta x);;
    add_opt_header ih_enum X_AMZ_OBJECT_LOCK_LEGAL_HOLD (GetObjectOutput_object_lock_legal_hold_status x);;
    add_opt_header ih_enum X_AMZ_OBJECT_LOCK_MODE (GetObjectOutput_object_lock_mode x);;
    add_opt_header_timestamp X_AMZ_OBJECT_LOCK_RETAIN_UNTIL_DATE (GetObjectOutput_object_lock_retain_until_date x) DateTime;;
    add_opt_header ih_i32 X_AMZ_MP_PARTS_COUNT (GetObjectOutput_parts_count x);;
    add_opt_header ih_enum X_AMZ_REPLICATION_STATUS (GetObjectOutput_replication_status x);;
    add_opt_header ih_enum X_AMZ_REQUEST_CHARGED (GetObjectOutput_request_charged x);;
    add_opt_header ih_string X_AMZ_RESTORE (GetObjectOutput_restore x);;
    add_opt_header ih_string X_AMZ_SERVER_SIDE_ENCRYPTION_CUSTOMER_ALGORITHM (GetObjectOutput_sse_customer_algorithm x);;
    add_opt_header ih_string X_AMZ_SERVER_SIDE_ENCRYPTION_CUSTOMER_KEY_MD5 (GetObjectOutput_sse_customer_key_md5 x);;
    add_opt_header ih_string X_AMZ_SERVER_SIDE_ENCRYPTION_AWS_KMS_KEY_ID (GetObjectOutput_ssekms_key_id x);;
    add_opt_header ih_enum X_AMZ_SERVER_SIDE_ENCRYPTION (GetObjectOutput_server_side_encryption x);;
    add_opt_header ih_enum X_AMZ_STORAGE_CLASS (GetObjectOutput_storage_class x);;
    add_opt_header ih_i32 X_AMZ_TAGGING_COUNT (GetObjectOutput_tag_count x);;
    add_opt_header ih_string X_AMZ_VERSION_ID (GetObjectOutput_version_id x);;
    add_opt_header ih_string X_AMZ_WEBSITE_REDIRECT_LOCATION (GetObjectOutput_website_redirect_location x)).

Definition GetObjectAcl_serialize_http (x : GetObjectAclOutput) : option (result S3ErrorCode (Response Ext)) :=
  respond 200 (
    set_xml_body x;;
    add_opt_header ih_enum X_AMZ_REQUEST_CHARGED (GetObjectAclOutput_request_charged x)).

Definition GetObjectAnnotation_serialize_http (x : GetObjectAnnotationOutput) : option (result S3ErrorCode (Response Ext)) :=
  respond 200 (
    (match GetObjectAnnotationOutput_annotation_payload x with Some val => set_stream_body val | None => mret tt end);;
    add_opt_header ih_string X_AMZ_CHECKSUM_CRC32 (GetObjectAnnotationOutput_checksum_crc32 x);;
    add_opt_header ih_string X_AMZ_CHECKSUM_CRC32C (GetObjectAnnotationOutput_checksum_crc32c x);;
    add_opt_header ih_string X_AMZ_CHECKSUM_CRC64NVME (GetObjectAnnotationOutput_checksum_crc64nvme x);;
    add_opt_header ih_string X_AMZ_CHECKSUM_MD5 (GetObjectAnnotationOutput_checksum_md5 x);;
    add_opt_header ih_string X_AMZ_CHECKSUM_SHA1 (GetObjectAnnotationOutput_checksum_sha1 x);;
    add_opt_header ih_string X_AMZ_CHECKSUM_SHA256 (GetObjectAnnotationOutput_checksum_sha256 x);;
    add_opt_header ih_string X_AMZ_CHECKSUM_SHA512 (GetObjectAnnotationOutput_checksum_sha512 x);;
    add_opt_header ih_enum X_AMZ_CHECKSUM_TYPE (GetObjectAnnotationOutput_checksum_type x);;
    add_opt_header ih_string X_AMZ_CHECKSUM_XXHASH128 (GetObjectAnnotationOutput_checksum_xxhash128 x);;
    add_opt_header ih_string X_AMZ_CHECKSUM_XXHASH3 (GetObjectAnnotationOutput_checksum_xxhash3 x);;
    add_opt_header ih_string X_AMZ_CHECKSUM_XXHASH64 (GetObjectAnnotationOutput_checksum_xxhash64 x);;
    add_opt_header ih_i64 CONTENT_LENGTH (GetObjectAnnotationOutput_content_length x);;
    add_opt_header ih_ETag ETAG (GetObjectAnnotationOutput_e_tag x);;
    add_opt_header_timestamp LAST_MODIFIED (GetObjectAnnotationOutput_last_modified x) HttpDate;;
    add_opt_header ih_string X_AMZ_OBJECT_VERSION_ID (GetObjectAnnotationOutput_object_version_id x);;
    add_opt_header ih_enum X_AMZ_REPLICATION_STATUS (GetObjectAnnotationOutput_replication_status x);;
    add_opt_header ih_enum X_AMZ_REQUEST_CHARGED (GetObjectAnnotationOutput_request_charged x);;
    add_opt_header ih_enum X_AMZ_SERVER_SIDE_ENCRYPTION (GetObjectAnnotationOutput_server_side_encryption x)).

Definition GetObjectAttributes_serialize_http (x : GetObjectAttributesOutput) : option (result S3ErrorCode (Response Ext)) :=
  respond 200 (
    set_xml_body x;;
    add_opt_header ih_bool X_AMZ_DELETE_MARKER (GetObjectAttributesOutput_delete_marker x);;
    add_opt_header_timestamp LAST_MODIFIED (GetObjectAttributesOutput_last_modified x) HttpDate;;
    add_opt_header ih_enum X_AMZ_REQUEST_CHARGED (GetObjectAttributesOutput_request_charged x);;
    add_opt_header ih_string X_AMZ_VERSION_ID (GetObjectAttributesOutput_version_id x)).

Definition GetObjectLegalHold_serialize_http (x : GetObjectLegalHoldOutput) : option (result S3ErrorCode (Response Ext)) :=
  respond 200 (
    (match GetObjectLegalHoldOutput_legal_hold x with Some val => set_xml_body val | None => mret tt end)).

Definition GetObjectLockConfiguration_serialize_http (x : GetObjectLockConfigurationOutput) : option (result S3ErrorCode (Response Ext)) :=
  respond 200 (
    (match GetObjectLockConfigurationOutput_object_lock_configuration x with Some val => set_xml_body val | None => mret tt end)).

Definition GetObjectRetention_serialize_http (x : GetObjectRetentionOutput) : option (result S3ErrorCode (Response Ext)) :=
  respond 200 (
    (match GetObjectRetentionOutput_retention x with Some val => set_xml_body val | None => mret tt end)).

Definition GetObjectTagging_serialize_http (x : GetObjectTaggingOutput) : option (result S3ErrorCode (Response Ext)) :=
  respond 200 (
    set_xml_body x;;
    add_opt_header ih_string X_AMZ_VERSION_ID (GetObjectTaggingOutput_version_id x)).

Definition GetObjectTorrent_serialize_http (x : GetObjectTorrentOutput) : option (result S3ErrorCode (Response Ext)) :=
  respond 200 (
    (match GetObjectTorrentOutput_body x with Some val => set_stream_body val | None => mret tt end);;
    add_opt_header ih_enum X_AMZ_REQUEST_CHARGED (GetObjectTorrentOutput_request_charged x)).

Definition GetPublicAccessBlock_serialize_http (x : GetPublicAccessBlockOutput) : option (result S3ErrorCode (Response Ext)) :=
  respond 200 (
    (match GetPublicAccessBlockOutput_public_access_block_configuration x with Some val => set_xml_body val | None => mret tt end)).

Definition HeadBucket_serialize_http (x : HeadBucketOutput) : option (result S3ErrorCode (Response Ext)) :=
  respond 200 (
    add_opt_header ih_bool X_AMZ_ACCESS_POINT_ALIAS (HeadBucketOutput_access_point_alias x);;
    add_opt_header ih_string X_AMZ_BUCKET_ARN (HeadBucketOutput_bucket_arn x);;
    add_opt_header ih_string X_AMZ_BUCKET_LOCATION_NAME (HeadBucketOutput_bucket_location_name x);;
    add_opt_header ih_enum X_AMZ_BUCKET_LOCATION_TYPE (HeadBucketOutput_bucket_location_type x);;
    add_opt_header ih_string X_AMZ_BUCKET_REGION (HeadBucketOutput_bucket_region x)).

Definition HeadObject_serialize_http (x : HeadObjectOutput) : option (result S3ErrorCode (Response Ext)) :=
  respond 200 (
    add_opt_header ih_string ACCEPT_RANGES (HeadObjectOutput_accept_ranges x);;
    add_opt_header ih_enum X_AMZ_ARCHIVE_STATUS (HeadObjectOutput_archive_status x);;
    add_opt_header ih_bool X_AMZ_SERVER_SIDE_ENCRYPTION_BUCKET_KEY_ENABLED (HeadObjectOutput_bucket_key_enabled x);;
    add_opt_header ih_string CACHE_CONTROL (HeadObjectOutput_cache_control x);;
    add_opt_header ih_string X_AMZ_CHECKSUM_CRC32 (HeadObjectOutput_checksum_crc32 x);;
    add_opt_header ih_string X_AMZ_CHECKSUM_CRC32C (HeadObjectOutput_checksum_crc32c x);;
    add_opt_header ih_string X_AMZ_CHECKSUM_CRC64NVME (HeadObjectOutput_checksum_crc64nvme x);;
    add_opt_header ih_string X_AMZ_CHECKSUM_MD5 (HeadObjectOutput_checksum_md5 x);;
    add_opt_header ih_string X_AMZ_CHECKSUM_SHA1 (HeadObjectOutput_checksum_sha1 x);;
    add_opt_header ih_string X_AMZ_CHECKSUM_SHA256 (HeadObjectOutput_checksum_sha256 x);;
    add_opt_header ih_string X_AMZ_CHECKSUM_SHA512 (HeadObjectOutput_checksum_sha512 x);;
    add_opt_header ih_enum X_AMZ_CHECKSUM_TYPE (HeadObjectOutput_checksum_type x);;
    add_opt_header ih_string X_AMZ_CHECKSUM_XXHASH128 (HeadObjectOutput_checksum_xxhash128 x);;
    add_opt_header ih_string X_AMZ_CHECKSUM_XXHASH3 (HeadObjectOutput_checksum_xxhash3 x);;
    add_opt_header ih_string X_AMZ_CHECKSUM_XXHASH64 (HeadObjectOutput_checksum_xxhash64 x);;
    add_opt_header ih_string CONTENT_DISPOSITION (HeadObjectOutput_content_disposition x);;
    add_opt_header ih_string CONTENT_ENCODING (HeadObjectOutput_content_encoding x);;
    add_opt_header ih_string CONTENT_LANGUAGE (HeadObjectOutput_content_language x);;
    add_opt_header ih_i64 CONTENT_LENGTH (HeadObjectOutput_content_length x);;
    add_opt_header ih_string CONTENT_RANGE (HeadObjectOutput_content_range x);;
    add_opt_header ih_string CONTENT_TYPE (HeadObjectOutput_content_type x);;
    add_opt_header ih_bool X_AMZ_DELETE_MARKER (HeadObjectOutput_delete_marker x);;
    add_opt_header ih_ETag ETAG (HeadObjectOutput_e_tag x);;
    add_opt_header ih_string X_AMZ_EXPIRATION (HeadObjectOutput_expiration x);;
    add_opt_header ih_string EXPIRES (HeadObjectOutput_expires x);;
    add_opt_header_timestamp LAST_MODIFIED (HeadObjectOutput_last_modified x) HttpDate;;
    add_opt_metadata (HeadObjectOutput_metadata x);;
    add_opt_header ih_i32 X_AMZ_MISSING_META (HeadObjectOutput_missing_meta x);;
    add_opt_header ih_enum X_AMZ_OBJECT_LOCK_LEGAL_HOLD (HeadObjectOutput_object_lock_legal_hold_status x);;
    add_opt_header ih_enum X_AMZ_OBJECT_LOCK_MODE (HeadObjectOutput_object_lock_mode x);;
    add_opt_header_timestamp X_AMZ_OBJECT_LOCK_RETAIN_UNTIL_DATE (HeadObjectOutput_object_lock_retain_until_date x) DateTime;;
    add_opt_header ih_i32 X_AMZ_MP_PARTS_COUNT (HeadObjectOutput_parts_count x);;
    add_opt_header ih_enum X_AMZ_REPLICATION_STATUS (HeadObjectOutput_replication_status x);;
    add_opt_header ih_enum X_AMZ_REQUEST_CHARGED (HeadObjectOutput_request_charged x);;
    add_opt_header ih_string X_AMZ_RESTORE (HeadObjectOutput_restore x);;
    add_opt_header ih_string X_AMZ_SERVER_SIDE_ENCRYPTION_CUSTOMER_ALGORITHM (HeadObjectOutput_sse_customer_algorithm x);;
    add_opt_header ih_string X_AMZ_SERVER_SIDE_ENCRYPTION_CUSTOMER_KEY_MD5 (HeadObjectOutput_sse_customer_key_md5 x);;
    add_opt_header ih_string X_AMZ_SERVER_SIDE_ENCRYPTION_AWS_KMS_KEY_ID (HeadObjectOutput_ssekms_key_id x);;
    add_opt_header ih_enum X_AMZ_SERVER_SIDE_ENCRYPTION (HeadObjectOutput_server_side_encryption x);;
    add_opt_header ih_enum X_AMZ_STORAGE_CLASS (HeadObjectOutput_storage_class x);;
    add_opt_header ih_i32 X_AMZ_TAGGING_COUNT (HeadObjectOutput_tag_count x);;
    add_opt_header ih_string X_AMZ_VERSION_ID (HeadObjectOutput_version_id x);;
    add_opt_header ih_string X_AMZ_WEBSITE_REDIRECT_LOCATION (HeadObjectOutput_website_redirect_location x)).

Definition ListBucketAnalyticsConfigurations_serialize_http (x : ListBucketAnalyticsConfigurationsOutput) : option (result S3ErrorCode (Response Ext)) :=
  respond 200 (
    set_xml_body x).

Definition ListBucketIntelligentTieringConfigurations_serialize_http (x : ListBucketIntelligentTieringConfigurationsOutput) : option (result S3ErrorCode (Response Ext)) :=
  respond 200 (
    set_xml_body x).

Definition ListBucketInventoryConfigurations_serialize_http (x : ListBucketInventoryConfigurationsOutput) : option (result S3ErrorCode (Response Ext)) :=
  respond 200 (
    set_xml_body x).

Definition ListBucketMetricsConfigurations_serialize_http (x : ListBucketMetricsConfigurationsOutput) : option (result S3ErrorCode (Response Ext)) :=
  respond 200 (
    set_xml_body x).

Definition ListBuckets_serialize_http (x : ListBucketsOutput) : option (result S3ErrorCode (Response Ext)) :=
  respond 200 (
    set_xml_body x).

Definition ListDirectoryBuckets_serialize_http (x : ListDirectoryBucketsOutput) : option (result S3ErrorCode (Response Ext)) :=
  respond 200 (
    set_xml_body x).

Definition ListMultipartUploads_serialize_http (x : ListMultipartUploadsOutput) : option (result S3ErrorCode (Response Ext)) :=
  respond 200 (
    set_xml_body x;;
    add_opt_header ih_enum X_AMZ_REQUEST_CHARGED (ListMultipartUploadsOutput_request_charged x)).

Definition ListObjectAnnotations_serialize_http (x : ListObjectAnnotationsOutput) : option (result S3ErrorCode (Response Ext)) :=
  respond 200 (
    set_xml_body x;;
    add_opt_header ih_string X_AMZ_OBJECT_VERSION_ID (ListObjectAnnotationsOutput_object_version_id x);;
    add_opt_header ih_enum X_AMZ_REQUEST_CHARGED (ListObjectAnnotationsOutput_request_charged x)).

Definition ListObjectVersions_serialize_http (x : ListObjectVersionsOutput) : option (result S3ErrorCode (Response Ext)) :=
  respond 200 (
    set_xml_body x;;
    add_opt_header ih_enum X_AMZ_REQUEST_CHARGED (ListObjectVersionsOutput_request_charged x)).

Definition ListObjects_serialize_http (x : ListObjectsOutput) : option (result S3ErrorCode (Response Ext)) :=
  respond 200 (
    set_xml_body x;;
    add_opt_header ih_enum X_AMZ_REQUEST_CHARGED (ListObjectsOutput_request_charged x)).

Definition ListObjectsV2_serialize_http (x : ListObjectsV2Output) : option (result S3ErrorCode (Response Ext)) :=
  respond 200 (
    set_xml_body x;;
    add_opt_header ih_enum X_AMZ_REQUEST_CHARGED (ListObjectsV2Output_request_charged x)).

Definition ListParts_serialize_http (x : ListPartsOutput) : option (result S3ErrorCode (Response Ext)) :=
  respond 200 (
    set_xml_body x;;
    add_opt_header_timestamp X_AMZ_ABORT_DATE (ListPartsOutput_abort_date x) HttpDate;;
    add_opt_header ih_string X_AMZ_ABORT_RULE_ID (ListPartsOutput_abort_rule_id x);;
    add_opt_header ih_enum X_AMZ_REQUEST_CHARGED (ListPartsOutput_request_charged x)).

Definition PutBucketAbac_serialize_http (_ : PutBucketAbacOutput) : option (result S3ErrorCode (Response Ext)) := respond 200 (mret tt).

Definition PutBucketAccelerateConfiguration_serialize_http (_ : PutBucketAccelerateConfigurationOutput) : option (result S3ErrorCode (Response Ext)) := respond 200 (mret tt).

Definition PutBucketAcl_serialize_http (_ : PutBucketAclOutput) : option (result S3ErrorCode (Response Ext)) := respond 200 (mret tt).

Definition PutBucketAnalyticsConfiguration_serialize_http (_ : PutBucketAnalyticsConfigurationOutput) : option (result S3ErrorCode (Response Ext)) := respond 200 (mret tt).

Definition PutBucketCors_serialize_http (_ : PutBucketCorsOutput) : option (result S3ErrorCode (Response Ext)) := respond 200 (mret tt).

Definition PutBucketEncryption_serialize_http (_ : PutBucketEncryptionOutput) : option (result S3ErrorCode (Response Ext)) := respond 200 (mret tt).

Definition PutBucketIntelligentTieringConfiguration_serialize_http (_ : PutBucketIntelligentTieringConfigurationOutput) : option (result S3ErrorCode (Response Ext)) := respond 200 (mret tt).

Definition PutBucketInventoryConfiguration_serialize_http (_ : PutBucketInventoryConfigurationOutput) : option (result S3ErrorCode (Response Ext)) := respond 200 (mret tt).

Definition PutBucketLifecycleConfiguration_serialize_http (x : PutBucketLifecycleConfigurationOutput) : option (result S3ErrorCode (Response Ext)) :=
  respond 200 (
    add_opt_header ih_enum X_AMZ_TRANSITION_DEFAULT_MINIMUM_OBJECT_SIZE (PutBucketLifecycleConfigurationOutput_transition_default_minimum_object_size x)).

Definition PutBucketLogging_serialize_http (_ : PutBucketLoggingOutput) : option (result S3ErrorCode (Response Ext)) := respond 200 (mret tt).

Definition PutBucketMetricsConfiguration_serialize_http (_ : PutBucketMetricsConfigurationOutput) : option (result S3ErrorCode (Response Ext)) := respond 200 (mret tt).

Definition PutBucketNotificationConfiguration_serialize_http (_ : PutBucketNotificationConfigurationOutput) : option (result S3ErrorCode (Response Ext)) := respond 200 (mret tt).

Definition PutBucketOwnershipControls_serialize_http (_ : PutBucketOwnershipControlsOutput) : option (result S3ErrorCode (Response Ext)) := respond 200 (mret tt).

Definition PutBucketPolicy_serialize_http (_ : PutBucketPolicyOutput) : option (result S3ErrorCode (Response Ext)) := respond 204 (mret tt).

Definition PutBucketReplication_serialize_http (_ : PutBucketReplicationOutput) : option (result S3ErrorCode (Response Ext)) := respond 200 (mret tt).

Definition PutBucketRequestPayment_serialize_http (_ : PutBucketRequestPaymentOutput) : option (result S3ErrorCode (Response Ext)) := respond 200 (mret tt).

Definition PutBucketTagging_serialize_http (_ : PutBucketTaggingOutput) : option (result S3ErrorCode (Response Ext)) := respond 200 (mret tt).

Definition PutBucketVersioning_serialize_http (_ : PutBucketVersioningOutput) : option (result S3ErrorCode (Response Ext)) := respond 200 (mret tt).

Definition PutBucketWebsite_serialize_http (_ : PutBucketWebsiteOutput) : option (result S3ErrorCode (Response Ext)) := respond 200 (mret tt).

Definition PutObject_serialize_http (x : PutObjectOutput) : option (result S3ErrorCode (Response Ext)) :=
  respond 200 (
    add_opt_header ih_bool X_AMZ_SERVER_SIDE_ENCRYPTION_BUCKET_KEY_ENABLED (PutObjectOutput_bucket_key_enabled x);;
    add_opt_header ih_string X_AMZ_CHECKSUM_CRC32 (PutObjectOutput_checksum_crc32 x);;
    add_opt_header ih_string X_AMZ_CHECKSUM_CRC32C (PutObjectOutput_checksum_crc32c x);;
    add_opt_header ih_string X_AMZ_CHECKSUM_CRC64NVME (PutObjectOutput_checksum_crc64nvme x);;
    add_opt_header ih_string X_AMZ_CHECKSUM_MD5 (PutObjectOutput_checksum_md5 x);;
    add_opt_header ih_string X_AMZ_CHECKSUM_SHA1 (PutObjectOutput_checksum_sha1 x);;
    add_opt_header ih_string X_AMZ_CHECKSUM_SHA256 (PutObjectOutput_checksum_sha256 x);;
    add_opt_header ih_string X_AMZ_CHECKSUM_SHA512 (PutObjectOutput_checksum_sha512 x);;
    add_opt_header ih_enum X_AMZ_CHECKSUM_TYPE (PutObjectOutput_checksum_type x);;
    add_opt_header ih_string X_AMZ_CHECKSUM_XXHASH128 (PutObjectOutput_checksum_xxhash128 x);;
    add_opt_header ih_string X_AMZ_CHECKSUM_XXHASH3 (PutObjectOutput_checksum_xxhash3 x);;
    add_opt_header ih_string X_AMZ_CHECKSUM_XXHASH64 (PutObjectOutput_checksum_xxhash64 x);;
    add_opt_header ih_ETag ETAG (PutObjectOutput_e_tag x);;
    add_opt_header ih_string X_AMZ_EXPIRATION (PutObjectOutput_expiration x);;
    add_opt_header ih_enum X_AMZ_REQUEST_CHARGED (PutObjectOutput_request_charged x);;
    add_opt_header ih_string X_AMZ_SERVER_SIDE_ENCRYPTION_CUSTOMER_ALGORITHM (PutObjectOutput_sse_customer_algorithm x);;
    add_opt_header ih_string X_AMZ_SERVER_SIDE_ENCRYPTION_CUSTOMER_KEY_MD5 (PutObjectOutput_sse_customer_key_md5 x);;
    add_opt_header ih_string X_AMZ_SERVER_SIDE_ENCRYPTION_CONTEXT (PutObjectOutput_ssekms_encryption_context x);;
    add_opt_header ih_string X_AMZ_SERVER_SIDE_ENCRYPTION_AWS_KMS_KEY_ID (PutObjectOutput_ssekms_key_id x);;
    add_opt_header ih_enum X_AMZ_SERVER_SIDE_ENCRYPTION (PutObjectOutput_server_side_encryption x);;
    add_opt_header ih_i64 X_AMZ_OBJECT_SIZE (PutObjectOutput_size x);;
    add_opt_header ih_string X_AMZ_VERSION_ID (PutObjectOutput_version_id x)).

Definition PutObjectAcl_serialize_http (x : PutObjectAclOutput) : option (result S3ErrorCode (Response Ext)) :=
  respond 200 (
    add_opt_header ih_enum X_AMZ_REQUEST_CHARGED (PutObjectAclOutput_request_charged x)).

Definition PutObjectAnnotation_serialize_http (x : PutObjectAnnotationOutput) : option (result S3ErrorCode (Response Ext)) :=
  respond 200 (
    set_xml_body x;;
    add_opt_header ih_string X_AMZ_CHECKSUM_CRC32 (PutObjectAnnotationOutput_checksum_crc32 x);;
    add_opt_header ih_string X_AMZ_CHECKSUM_CRC32C (PutObjectAnnotationOutput_checksum_crc32c x);;
    add_opt_header ih_string X_AMZ_CHECKSUM_CRC64NVME (PutObjectAnnotationOutput_checksum_crc64nvme x);;
    add_opt_header ih_string X_AMZ_CHECKSUM_MD5 (PutObjectAnnotationOutput_checksum_md5 x);;
    add_opt_header ih_string X_AMZ_CHECKSUM_SHA1 (PutObjectAnnotationOutput_checksum_sha1 x);;
    add_opt_header ih_string X_AMZ_CHECKSUM_SHA256 (PutObjectAnnotationOutput_checksum_sha256 x);;
    add_opt_header ih_string X_AMZ_CHECKSUM_SHA512 (PutObjectAnnotationOutput_checksum_sha512 x);;
    add_opt_header ih_enum X_AMZ_CHECKSUM_TYPE (PutObjectAnnotationOutput_checksum_type x);;
    add_opt_header ih_string X_AMZ_CHECKSUM_XXHASH128 (PutObjectAnnotationOutput_checksum_xxhash128 x);;
    add_opt_header ih_string X_AMZ_CHECKSUM_XXHASH3 (PutObjectAnnotationOutput_checksum_xxhash3 x);;
    add_opt_header ih_string X_AMZ_CHECKSUM_XXHASH64 (PutObjectAnnotationOutput_checksum_xxhash64 x);;
    add_opt_header ih_ETag ETAG (PutObjectAnnotationOutput_e_tag x);;
    add_opt_header ih_string X_AMZ_OBJECT_VERSION_ID (PutObjectAnnotationOutput_object_version_id x);;
    add_opt_header ih_enum X_AMZ_REQUEST_CHARGED (PutObjectAnnotationOutput_request_charged x);;
    add_opt_header ih_enum X_AMZ_SERVER_SIDE_ENCRYPTION (PutObjectAnnotationOutput_server_side_encryption x)).

Definition PutObjectLegalHold_serialize_http (x : PutObjectLegalHoldOutput) : option (result S3ErrorCode (Response Ext)) :=
  respond 200 (
    add_opt_header ih_enum X_AMZ_REQUEST_CHARGED (PutObjectLegalHoldOutput_request_charged x)).

Definition PutObjectLockConfiguration_serialize_http (x : PutObjectLockConfigurationOutput) : option (result S3ErrorCode (Response Ext)) :=
  respond 200 (
    add_opt_header ih_enum X_AMZ_REQUEST_CHARGED (PutObjectLockConfigurationOutput_request_charged x)).

Definition PutObjectRetention_serialize_http (x : PutObjectRetentionOutput) : option (result S3ErrorCode (Response Ext)) :=
  respond 200 (
    add_opt_header ih_enum X_AMZ_REQUEST_CHARGED (PutObjectRetentionOutput_request_charged x)).

Definition PutObjectTagging_serialize_http (x : PutObjectTaggingOutput) : option (result S3ErrorCode (Response Ext)) :=
  respond 200 (
    add_opt_header ih_string X_AMZ_VERSION_ID (PutObjectTaggingOutput_version_id x)).

Definition PutPublicAccessBlock_serialize_http (_ : PutPublicAccessBlockOutput) : option (result S3ErrorCode (Response Ext)) := respond 200 (mret tt).

Definition RenameObject_serialize_http (_ : RenameObjectOutput) : option (result S3ErrorCode (Response Ext)) := respond 200 (mret tt).

Definition RestoreObject_serialize_http (x : RestoreObjectOutput) : option (result S3ErrorCode (Response Ext)) :=
  respond 200 (
    add_opt_header ih_enum X_AMZ_REQUEST_CHARGED (RestoreObjectOutput_request_charged x);;
    add_opt_header ih_string X_AMZ_RESTORE_OUTPUT_PATH (RestoreObjectOutput_restore_output_path x)).

Definition SelectObjectContent_serialize_http (x : SelectObjectContentOutput) : option (result S3ErrorCode (Response Ext)) :=
  respond 200 (
    (match SelectObjectContentOutput_payload x with Some val => set_event_stream_body val | None => mret tt end)).

Definition UpdateBucketMetadataAnnotationTableConfiguration_serialize_http (_ : UpdateBucketMetadataAnnotationTableConfigurationOutput) : option (result S3ErrorCode (Response Ext)) := respond 200 (mret tt).

Definition UpdateBucketMetadataInventoryTableConfiguration_serialize_http (_ : UpdateBucketMetadataInventoryTableConfigurationOutput) : option (result S3ErrorCode (Response Ext)) := respond 200 (mret tt).

Definition UpdateBucketMetadataJournalTableConfiguration_serialize_http (_ : UpdateBucketMetadataJournalTableConfigurationOutput) : option (result S3ErrorCode (Response Ext)) := respond 200 (mret tt).

Definition UpdateObjectEncryption_serialize_http (x : UpdateObjectEncryptionOutput) : option (result S3ErrorCode (Response Ext)) :=
  respond 200 (
    add_opt_header ih_enum X_AMZ_REQUEST_CHARGED (UpdateObjectEncryptionOutput_request_charged x)).

Definition UploadPart_serialize_http (x : UploadPartOutput) : option (result S3ErrorCode (Response Ext)) :=
  respond 200 (
    add_opt_header ih_bool X_AMZ_SERVER_SIDE_ENCRYPTION_BUCKET_KEY_ENABLED (UploadPartOutput_bucket_key_enabled x);;
    add_opt_header ih_string X_AMZ_CHECKSUM_CRC32 (UploadPartOutput_checksum_crc32 x);;
    add_opt_header ih_string X_AMZ_CHECKSUM_CRC32C (UploadPartOutput_checksum_crc32c x);;
    add_opt_header ih_string X_AMZ_CHECKSUM_CRC64NVME (UploadPartOutput_checksum_crc64nvme x);;
    add_opt_header ih_string X_AMZ_CHECKSUM_MD5 (UploadPartOutput_checksum_md5 x);;
    add_opt_header ih_string X_AMZ_CHECKSUM_SHA1 (UploadPartOutput_checksum_sha1 x);;
    add_opt_header ih_string X_AMZ_CHECKSUM_SHA256 (UploadPartOutput_checksum_sha256 x);;
    add_opt_header ih_string X_AMZ_CHECKSUM_SHA512 (UploadPartOutput_checksum_sha512 x);;
    add_opt_header ih_string X_AMZ_CHECKSUM_XXHASH128 (UploadPartOutput_checksum_xxhash128 x);;
    add_opt_header ih_string X_AMZ_CHECKSUM_XXHASH3 (UploadPartOutput_checksum_xxhash3 x);;
    add_opt_header ih_string X_AMZ_CHECKSUM_XXHASH64 (UploadPartOutput_checksum_xxhash64 x);;
    add_opt_header ih_ETag ETAG (UploadPartOutput_e_tag x);;
    add_opt_header ih_enum X_AMZ_REQUEST_CHARGED (UploadPartOutput_request_charged x);;
    add_opt_header ih_string X_AMZ_SERVER_SIDE_ENCRYPTION_CUSTOMER_ALGORITHM (UploadPartOutput_sse_customer_algorithm x);;
    add_opt_header ih_string X_AMZ_SERVER_SIDE_ENCRYPTION_CUSTOMER_KEY_MD5 (UploadPartOutput_sse_customer_key_md5 x);;
    add_opt_header ih_string X_AMZ_SERVER_SIDE_ENCRYPTION_AWS_KMS_KEY_ID (UploadPartOutput_ssekms_key_id x);;
    add_opt_header ih_enum X_AMZ_SERVER_SIDE_ENCRYPTION (UploadPartOutput_server_side_encryption x)).

Definition UploadPartCopy_serialize_http (x : UploadPartCopyOutput) : option (result S3ErrorCode (Response Ext)) :=
  respond 200 (
    (match UploadPartCopyOutput_copy_part_result x with Some val => set_xml_body val | None => mret tt end);;
    add_opt_header ih_bool X_AMZ_SERVER_SIDE_ENCRYPTION_BUCKET_KEY_ENABLED (UploadPartCopyOutput_bucket_key_enabled x);;
    add_opt_header ih_string X_AMZ_COPY_SOURCE_VERSION_ID (UploadPartCopyOutput_copy_source_version_id x);;
    add_opt_header ih_enum X_AMZ_REQUEST_CHARGED (UploadPartCopyOutput_request_charged x);;
    add_opt_header ih_string X_AMZ_SERVER_SIDE_ENCRYPTION_CUSTOMER_ALGORITHM (UploadPartCopyOutput_sse_customer_algorithm x);;
    add_opt_header ih_string X_AMZ_SERVER_SIDE_ENCRYPTION_CUSTOMER_KEY_MD5 (UploadPartCopyOutput_sse_customer_key_md5 x);;
    add_opt_header ih_string X_AMZ_SERVER_SIDE_ENCRYPTION_AWS_KMS_KEY_ID (UploadPartCopyOutput_ssekms_key_id x);;
    add_opt_header ih_enum X_AMZ_SERVER_SIDE_ENCRYPTION (UploadPartCopyOutput_server_side_encryption x)).

Definition WriteGetObjectResponse_serialize_http (_ : WriteGetObjectResponseOutput) : option (result S3ErrorCode (Response Ext)) := respond 200 (mret tt).

(** ** Multipart uploads (ops/multipart.rs) *)

Definition add_complete_multipart_headers (x : CompleteMultipartUploadOutput) : ST (Response Ext) unit :=
  add_opt_header ih_bool X_AMZ_SERVER_SIDE_ENCRYPTION_BUCKET_KEY_ENABLED (CompleteMultipartUploadOutput_bucket_key_enabled x);;
  add_opt_header ih_string X_AMZ_EXPIRATION (CompleteMultipartUploadOutput_expiration x);;
  add_opt_header ih_enum X_AMZ_REQUEST_CHARGED (CompleteMultipartUploadOutput_request_charged x);;
  add_opt_header ih_string X_AMZ_SERVER_SIDE_ENCRYPTION_AWS_KMS_KEY_ID (CompleteMultipartUploadOutput_ssekms_key_id x);;
  add_opt_header ih_enum X_AMZ_SERVER_SIDE_ENCRYPTION (CompleteMultipartUploadOutput_server_side_encryption x);;
  add_opt_header ih_string X_AMZ_VERSION_ID (CompleteMultipartUploadOutput_version_id x).

(** The texts of the errors a body ends with. *)
Context (error_text : S3ErrorCode -> bytes).

(** The future of the response: the document without a declaration, or that of the error.
    [None] is a panic when the result is printed. *)
Definition complete_response (r : result S3Error CompleteMultipartUploadOutput) : option (result bytes (Response Ext)) :=
  r ← (match r with
       | Ok val => respond 200 (set_xml_body_no_decl val;; add_complete_multipart_headers val)
       | Err err => serialize_error err true
       end);
  Some (map_err error_text r).

Definition CompleteMultipartUpload_serialize_http (x : CompleteMultipartUploadAnswer) : option (result S3ErrorCode (Response Ext)) :=
  respond 200
    ((match cmu_future x with
      | Some f =>
          r ← panic_none (complete_response (fut_result f));
          set_keep_alive_xml_body {| fut_pending := fut_pending f; fut_result := r; fut_ticks := fut_ticks f |}
      | None => set_xml_body (cmu_output x)
      end);;
     add_complete_multipart_headers (cmu_output x)).

(** ** Headers of GetObject (ops/get_object.rs) *)

Definition add (map : HeaderMap) (name : bytes) (value : option bytes) : result S3ErrorCode HeaderMap :=
  match value with
  | Some value => value ← ok_or InvalidRequest (http_header_value value); Ok (header_insert map name value)
  | None => Ok map
  end.

(** [None] is a panic of the calendar. *)
Definition add_ts (map : HeaderMap) (name : bytes) (value : option Timestamp) : option (result S3ErrorCode HeaderMap) :=
  match value with
  | Some value =>
      s ← fmt_timestamp value HttpDate;
      Some (value ← ok_or InvalidRequest (header_value_try_from s); Ok (header_insert map name value))
  | None => Some (Ok map)
  end.

Definition extract_overridden_response_headers (input : GetObjectInput) : option (result S3ErrorCode HeaderMap) :=
  match (map ← add [] CONTENT_TYPE (GetObjectInput_response_content_type input);
         add map CONTENT_LANGUAGE (GetObjectInput_response_content_language input)) with
  | Err e => Some (Err e)
  | Ok map =>
      r ← add_ts map EXPIRES (GetObjectInput_response_expires input);
      Some (map ← r;
            map ← add map CACHE_CONTROL (GetObjectInput_response_cache_control input);
            map ← add map CONTENT_DISPOSITION (GetObjectInput_response_content_disposition input);
            add map CONTENT_ENCODING (GetObjectInput_response_content_encoding input))
  end.

Definition merge_custom_headers (resp : Response Ext) (headers : HeaderMap) : Response Ext :=
  let resp := set_response_headers (header_extend (r_headers resp) headers) resp in
  match header_get_all (r_headers resp) TRANSFER_ENCODING with
  | val :: _ => if val =? str "chunked" then set_response_headers (header_remove (r_headers resp) CONTENT_LENGTH) resp else resp
  | [] => resp
  end.

(** ** POST object (ops/generated/post_object.rs, dto/post_response.rs) *)

(** [char::is_control] of some character of a text: U+0000 to U+001F and U+007F to U+009F. *)
Fixpoint any_control (s : bytes) : bool :=
  match s with
  | [] => false
  | b :: s' =>
      (u8 b <? 32)%Z || (u8 b =? 127)%Z ||
      ((b =? xc2) && match s' with c :: _ => (128 <=? u8 c)%Z && (u8 c <=? 159)%Z | [] => false end) || any_control s'
  end.

Definition PostObject_serialize_http (bucket key : bytes) (success_action_redirect : option bytes)
    (success_action_status : option Z) (output : PostObjectOutput) : option (result S3ErrorCode (Response Ext)) :=
  let etag_str := from_option value [] (PostObjectOutput_e_tag output) in
  match success_action_redirect with
  | Some redirect_url =>
      if any_control redirect_url then Some (Err InvalidArgument)
      else
        match url_append redirect_url [(str "bucket", bucket); (str "key", key); (str "etag", etag_str)] with
        | None => Some (Err InvalidArgument)
        | Some url =>
            match http_header_value url with
            | None => Some (Err InternalError)
            | Some v => respond 303 (insert_header LOCATION v)
            end
        end
  | None =>
      match success_action_status with
      | Some 200%Z => respond 200 (mret tt)
      | Some 201%Z =>
          respond 201 (set_xml_body {| pr_location := str "/" ++ bucket ++ str "/" ++ key; pr_bucket := bucket; pr_key := key; pr_etag := etag_str |})
      | _ => respond 204 (mret tt)
      end
  end.

End Encode.
