(* ===== verification/OpsTable.v ===== *)
(** * The table of operations (crates/s3s/src/ops/generated/mod.rs)

    The input and the output of each operation as types that depend on it, and the functions that
    decode and encode them.  [ListenBucketNotification] belongs to the [minio] feature: in this
    build it has no input. *)

From S2P Require Import Prelude.
From S2P Require Import Str.
From S2P Require Import Path.
From S2P Require Import ErrorCode.
From S2P Require Import Handler.
From S2P Require Import Router.
From S2P Require Import Oir.
From S2P Require Import SigV4.
From S2P Require Import SignatureCheck.
From S2P Require Import Poll.
From S2P Require Import Stream.
From S2P Require Import Body.
From S2P Require Import Form.
From S2P Require Import PostPolicy.
From S2P Require Import Blob.
From S2P Require Import Request.
From S2P Require Import Response.
From S2P Require Import Range.
From S2P Require Import ETag.
From S2P Require Import Timestamp.
From S2P Require Import Xml.
From S2P Require Import XmlStruct.
From S2P Require Import XmlDtoA.
From S2P Require Import XmlDtoB.
From S2P Require Import XmlDtoC.
From S2P Require Import XmlOutputs.
From S2P Require Import XmlDocs.
From S2P Require Import EventStream.
From S2P Require Import CopySource.
From S2P Require Import HeaderNames.
From S2P Require Import HttpDe.
From S2P Require Import HttpSer.
From S2P Require Import OpsTypes.
From S2P Require Import OpsDe.
From S2P Require Import OpsSer.
From S2P Require Import Dispatch.

Definition Input (op : Op) : Type :=
  match op with
  | Routed AbortMultipartUpload => AbortMultipartUploadInput
  | Routed CompleteMultipartUpload => CompleteMultipartUploadInput
  | Routed CopyObject => CopyObjectInput
  | Routed CreateBucket => CreateBucketInput
  | Routed CreateBucketMetadataConfiguration => CreateBucketMetadataConfigurationInput
  | Routed CreateBucketMetadataTableConfiguration => CreateBucketMetadataTableConfigurationInput
  | Routed CreateMultipartUpload => CreateMultipartUploadInput
  | Routed CreateSession => CreateSessionInput
  | Routed DeleteBucket => DeleteBucketInput
  | Routed DeleteBucketAnalyticsConfiguration => DeleteBucketAnalyticsConfigurationInput
  | Routed DeleteBucketCors => DeleteBucketCorsInput
  | Routed DeleteBucketEncryption => DeleteBucketEncryptionInput
  | Routed DeleteBucketIntelligentTieringConfiguration => DeleteBucketIntelligentTieringConfigurationInput
  | Routed DeleteBucketInventoryConfiguration => DeleteBucketInventoryConfigurationInput
  | Routed DeleteBucketLifecycle => DeleteBucketLifecycleInput
  | Routed DeleteBucketMetadataConfiguration => DeleteBucketMetadataConfigurationInput
  | Routed DeleteBucketMetadataTableConfiguration => DeleteBucketMetadataTableConfigurationInput
  | Routed DeleteBucketMetricsConfiguration => DeleteBucketMetricsConfigurationInput
  | Routed DeleteBucketOwnershipControls => DeleteBucketOwnershipControlsInput
  | Routed DeleteBucketPolicy => DeleteBucketPolicyInput
  | Routed DeleteBucketReplication => DeleteBucketReplicationInput
  | Routed DeleteBucketTagging => DeleteBucketTaggingInput
  | Routed DeleteBucketWebsite => DeleteBucketWebsiteInput
  | Routed DeleteObject => DeleteObjectInput
  | Routed DeleteObjectAnnotation => DeleteObjectAnnotationInput
  | Routed DeleteObjectTagging => DeleteObjectTaggingInput
  | Routed DeleteObjects => DeleteObjectsInput
  | Routed DeletePublicAccessBlock => DeletePublicAccessBlockInput
  | Routed GetBucketAbac => GetBucketAbacInput
  | Routed GetBucketAccelerateConfiguration => GetBucketAccelerateConfigurationInput
  | Routed GetBucketAcl => GetBucketAclInput
  | Routed GetBucketAnalyticsConfiguration => GetBucketAnalyticsConfigurationInput
  | Routed GetBucketCors => GetBucketCorsInput
  | Routed GetBucketEncryption => GetBucketEncryptionInput
  | Routed GetBucketIntelligentTieringConfiguration => GetBucketIntelligentTieringConfigurationInput
  | Routed GetBucketInventoryConfiguration => GetBucketInventoryConfigurationInput
  | Routed GetBucketLifecycleConfiguration => GetBucketLifecycleConfigurationInput
  | Routed GetBucketLocation => GetBucketLocationInput
  | Routed GetBucketLogging => GetBucketLoggingInput
  | Routed GetBucketMetadataConfiguration => GetBucketMetadataConfigurationInput
  | Routed GetBucketMetadataTableConfiguration => GetBucketMetadataTableConfigurationInput
  | Routed GetBucketMetricsConfiguration => GetBucketMetricsConfigurationInput
  | Routed GetBucketNotificationConfiguration => GetBucketNotificationConfigurationInput
  | Routed GetBucketOwnershipControls => GetBucketOwnershipControlsInput
  | Routed GetBucketPolicy => GetBucketPolicyInput
  | Routed GetBucketPolicyStatus => GetBucketPolicyStatusInput
  | Routed GetBucketReplication => GetBucketReplicationInput
  | Routed GetBucketRequestPayment => GetBucketRequestPaymentInput
  | Routed GetBucketTagging => GetBucketTaggingInput
  | Routed GetBucketVersioning => GetBucketVersioningInput
  | Routed GetBucketWebsite => GetBucketWebsiteInput
  | Routed GetObject => GetObjectInput
  | Routed GetObjectAcl => GetObjectAclInput
  | Routed GetObjectAnnotation => GetObjectAnnotationInput
  | Routed GetObjectAttributes => GetObjectAttributesInput
  | Routed GetObjectLegalHold => GetObjectLegalHoldInput
  | Routed GetObjectLockConfiguration => GetObjectLockConfigurationInput
  | Routed GetObjectRetention => GetObjectRetentionInput
  | Routed GetObjectTagging => GetObjectTaggingInput
  | Routed GetObjectTorrent => GetObjectTorrentInput
  | Routed GetPublicAccessBlock => GetPublicAccessBlockInput
  | Routed HeadBucket => HeadBucketInput
  | Routed HeadObject => HeadObjectInput
  | Routed ListBucketAnalyticsConfigurations => ListBucketAnalyticsConfigurationsInput
  | Routed ListBucketIntelligentTieringConfigurations => ListBucketIntelligentTieringConfigurationsInput
  | Routed ListBucketInventoryConfigurations => ListBucketInventoryConfigurationsInput
  | Routed ListBucketMetricsConfigurations => ListBucketMetricsConfigurationsInput
  | Routed ListBuckets => ListBucketsInput
  | Routed ListDirectoryBuckets => ListDirectoryBucketsInput
  | Routed ListMultipartUploads => ListMultipartUploadsInput
  | Routed ListObjectAnnotations => ListObjectAnnotationsInput
  | Routed ListObjectVersions => ListObjectVersionsInput
  | Routed ListObjects => ListObjectsInput
  | Routed ListObjectsV2 => ListObjectsV2Input
  | Routed ListParts => ListPartsInput
  | Routed PutBucketAbac => PutBucketAbacInput
  | Routed PutBucketAccelerateConfiguration => PutBucketAccelerateConfigurationInput
  | Routed PutBucketAcl => PutBucketAclInput
  | Routed PutBucketAnalyticsConfiguration => PutBucketAnalyticsConfigurationInput
  | Routed PutBucketCors => PutBucketCorsInput
  | Routed PutBucketEncryption => PutBucketEncryptionInput
  | Routed PutBucketIntelligentTieringConfiguration => PutBucketIntelligentTieringConfigurationInput
  | Routed PutBucketInventoryConfiguration => PutBucketInventoryConfigurationInput
  | Routed PutBucketLifecycleConfiguration => PutBucketLifecycleConfigurationInput
  | Routed PutBucketLogging => PutBucketLoggingInput
  | Routed PutBucketMetricsConfiguration => PutBucketMetricsConfigurationInput
  | Routed PutBucketNotificationConfiguration => PutBucketNotificationConfigurationInput
  | Routed PutBucketOwnershipControls => PutBucketOwnershipControlsInput
  | Routed PutBucketPolicy => PutBucketPolicyInput
  | Routed PutBucketReplication => PutBucketReplicationInput
  | Routed PutBucketRequestPayment => PutBucketRequestPaymentInput
  | Routed PutBucketTagging => PutBucketTaggingInput
  | Routed PutBucketVersioning => PutBucketVersioningInput
  | Routed PutBucketWebsite => PutBucketWebsiteInput
  | Routed PutObject => PutObjectInput
  | Routed PutObjectAcl => PutObjectAclInput
  | Routed PutObjectAnnotation => PutObjectAnnotationInput
  | Routed PutObjectLegalHold => PutObjectLegalHoldInput
  | Routed PutObjectLockConfiguration => PutObjectLockConfigurationInput
  | Routed PutObjectRetention => PutObjectRetentionInput
  | Routed PutObjectTagging => PutObjectTaggingInput
  | Routed PutPublicAccessBlock => PutPublicAccessBlockInput
  | Routed RenameObject => RenameObjectInput
  | Routed RestoreObject => RestoreObjectInput
  | Routed SelectObjectContent => SelectObjectContentInput
  | Routed UpdateBucketMetadataAnnotationTableConfiguration => UpdateBucketMetadataAnnotationTableConfigurationInput
  | Routed UpdateBucketMetadataInventoryTableConfiguration => UpdateBucketMetadataInventoryTableConfigurationInput
  | Routed UpdateBucketMetadataJournalTableConfiguration => UpdateBucketMetadataJournalTableConfigurationInput
  | Routed UpdateObjectEncryption => UpdateObjectEncryptionInput
  | Routed UploadPart => UploadPartInput
  | Routed UploadPartCopy => UploadPartCopyInput
  | Routed WriteGetObjectResponse => WriteGetObjectResponseInput
  | Routed ListenBucketNotification => Empty_set
  | PostObject => PostObjectInput
  end.

Definition Output (op : Op) : Type :=
  match op with
  | Routed AbortMultipartUpload => AbortMultipartUploadOutput
  | Routed CompleteMultipartUpload => CompleteMultipartUploadAnswer
  | Routed CopyObject => CopyObjectOutput
  | Routed CreateBucket => CreateBucketOutput
  | Routed CreateBucketMetadataConfiguration => CreateBucketMetadataConfigurationOutput
  | Routed CreateBucketMetadataTableConfiguration => CreateBucketMetadataTableConfigurationOutput
  | Routed CreateMultipartUpload => CreateMultipartUploadOutput
  | Routed CreateSession => CreateSessionOutput
  | Routed DeleteBucket => DeleteBucketOutput
  | Routed DeleteBucketAnalyticsConfiguration => DeleteBucketAnalyticsConfigurationOutput
  | Routed DeleteBucketCors => DeleteBucketCorsOutput
  | Routed DeleteBucketEncryption => DeleteBucketEncryptionOutput
  | Routed DeleteBucketIntelligentTieringConfiguration => DeleteBucketIntelligentTieringConfigurationOutput
  | Routed DeleteBucketInventoryConfiguration => DeleteBucketInventoryConfigurationOutput
  | Routed DeleteBucketLifecycle => DeleteBucketLifecycleOutput
  | Routed DeleteBucketMetadataConfiguration => DeleteBucketMetadataConfigurationOutput
  | Routed DeleteBucketMetadataTableConfiguration => DeleteBucketMetadataTableConfigurationOutput
  | Routed DeleteBucketMetricsConfiguration => DeleteBucketMetricsConfigurationOutput
  | Routed DeleteBucketOwnershipControls => DeleteBucketOwnershipControlsOutput
  | Routed DeleteBucketPolicy => DeleteBucketPolicyOutput
  | Routed DeleteBucketReplication => DeleteBucketReplicationOutput
  | Routed DeleteBucketTagging => DeleteBucketTaggingOutput
  | Routed DeleteBucketWebsite => DeleteBucketWebsiteOutput
  | Routed DeleteObject => DeleteObjectOutput
  | Routed DeleteObjectAnnotation => DeleteObjectAnnotationOutput
  | Routed DeleteObjectTagging => DeleteObjectTaggingOutput
  | Routed DeleteObjects => DeleteObjectsOutput
  | Routed DeletePublicAccessBlock => DeletePublicAccessBlockOutput
  | Routed GetBucketAbac => GetBucketAbacOutput
  | Routed GetBucketAccelerateConfiguration => GetBucketAccelerateConfigurationOutput
  | Routed GetBucketAcl => GetBucketAclOutput
  | Routed GetBucketAnalyticsConfiguration => GetBucketAnalyticsConfigurationOutput
  | Routed GetBucketCors => GetBucketCorsOutput
  | Routed GetBucketEncryption => GetBucketEncryptionOutput
  | Routed GetBucketIntelligentTieringConfiguration => GetBucketIntelligentTieringConfigurationOutput
  | Routed GetBucketInventoryConfiguration => GetBucketInventoryConfigurationOutput
  | Routed GetBucketLifecycleConfiguration => GetBucketLifecycleConfigurationOutput
  | Routed GetBucketLocation => GetBucketLocationOutput
  | Routed GetBucketLogging => GetBucketLoggingOutput
  | Routed GetBucketMetadataConfiguration => GetBucketMetadataConfigurationOutput
  | Routed GetBucketMetadataTableConfiguration => GetBucketMetadataTableConfigurationOutput
  | Routed GetBucketMetricsConfiguration => GetBucketMetricsConfigurationOutput
  | Routed GetBucketNotificationConfiguration => GetBucketNotificationConfigurationOutput
  | Routed GetBucketOwnershipControls => GetBucketOwnershipControlsOutput
  | Routed GetBucketPolicy => GetBucketPolicyOutput
  | Routed GetBucketPolicyStatus => GetBucketPolicyStatusOutput
  | Routed GetBucketReplication => GetBucketReplicationOutput
  | Routed GetBucketRequestPayment => GetBucketRequestPaymentOutput
  | Routed GetBucketTagging => GetBucketTaggingOutput
  | Routed GetBucketVersioning => GetBucketVersioningOutput
  | Routed GetBucketWebsite => GetBucketWebsiteOutput
  | Routed GetObject => GetObjectOutput
  | Routed GetObjectAcl => GetObjectAclOutput
  | Routed GetObjectAnnotation => GetObjectAnnotationOutput
  | Routed GetObjectAttributes => GetObjectAttributesOutput
  | Routed GetObjectLegalHold => GetObjectLegalHoldOutput
  | Routed GetObjectLockConfiguration => GetObjectLockConfigurationOutput
  | Routed GetObjectRetention => GetObjectRetentionOutput
  | Routed GetObjectTagging => GetObjectTaggingOutput
  | Routed GetObjectTorrent => GetObjectTorrentOutput
  | Routed GetPublicAccessBlock => GetPublicAccessBlockOutput
  | Routed HeadBucket => HeadBucketOutput
  | Routed HeadObject => HeadObjectOutput
  | Routed ListBucketAnalyticsConfigurations => ListBucketAnalyticsConfigurationsOutput
  | Routed ListBucketIntelligentTieringConfigurations => ListBucketIntelligentTieringConfigurationsOutput
  | Routed ListBucketInventoryConfigurations => ListBucketInventoryConfigurationsOutput
  | Routed ListBucketMetricsConfigurations => ListBucketMetricsConfigurationsOutput
  | Routed ListBuckets => ListBucketsOutput
  | Routed ListDirectoryBuckets => ListDirectoryBucketsOutput
  | Routed ListMultipartUploads => ListMultipartUploadsOutput
  | Routed ListObjectAnnotations => ListObjectAnnotationsOutput
  | Routed ListObjectVersions => ListObjectVersionsOutput
  | Routed ListObjects => ListObjectsOutput
  | Routed ListObjectsV2 => ListObjectsV2Output
  | Routed ListParts => ListPartsOutput
  | Routed PutBucketAbac => PutBucketAbacOutput
  | Routed PutBucketAccelerateConfiguration => PutBucketAccelerateConfigurationOutput
  | Routed PutBucketAcl => PutBucketAclOutput
  | Routed PutBucketAnalyticsConfiguration => PutBucketAnalyticsConfigurationOutput
  | Routed PutBucketCors => PutBucketCorsOutput
  | Routed PutBucketEncryption => PutBucketEncryptionOutput
  | Routed PutBucketIntelligentTieringConfiguration => PutBucketIntelligentTieringConfigurationOutput
  | Routed PutBucketInventoryConfiguration => PutBucketInventoryConfigurationOutput
  | Routed PutBucketLifecycleConfiguration => PutBucketLifecycleConfigurationOutput
  | Routed PutBucketLogging => PutBucketLoggingOutput
  | Routed PutBucketMetricsConfiguration => PutBucketMetricsConfigurationOutput
  | Routed PutBucketNotificationConfiguration => PutBucketNotificationConfigurationOutput
  | Routed PutBucketOwnershipControls => PutBucketOwnershipControlsOutput
  | Routed PutBucketPolicy => PutBucketPolicyOutput
  | Routed PutBucketReplication => PutBucketReplicationOutput
  | Routed PutBucketRequestPayment => PutBucketRequestPaymentOutput
  | Routed PutBucketTagging => PutBucketTaggingOutput
  | Routed PutBucketVersioning => PutBucketVersioningOutput
  | Routed PutBucketWebsite => PutBucketWebsiteOutput
  | Routed PutObject => PutObjectOutput
  | Routed PutObjectAcl => PutObjectAclOutput
  | Routed PutObjectAnnotation => PutObjectAnnotationOutput
  | Routed PutObjectLegalHold => PutObjectLegalHoldOutput
  | Routed PutObjectLockConfiguration => PutObjectLockConfigurationOutput
  | Routed PutObjectRetention => PutObjectRetentionOutput
  | Routed PutObjectTagging => PutObjectTaggingOutput
  | Routed PutPublicAccessBlock => PutPublicAccessBlockOutput
  | Routed RenameObject => RenameObjectOutput
  | Routed RestoreObject => RestoreObjectOutput
  | Routed SelectObjectContent => SelectObjectContentOutput
  | Routed UpdateBucketMetadataAnnotationTableConfiguration => UpdateBucketMetadataAnnotationTableConfigurationOutput
  | Routed UpdateBucketMetadataInventoryTableConfiguration => UpdateBucketMetadataInventoryTableConfigurationOutput
  | Routed UpdateBucketMetadataJournalTableConfiguration => UpdateBucketMetadataJournalTableConfigurationOutput
  | Routed UpdateObjectEncryption => UpdateObjectEncryptionOutput
  | Routed UploadPart => UploadPartOutput
  | Routed UploadPartCopy => UploadPartCopyOutput
  | Routed WriteGetObjectResponse => WriteGetObjectResponseOutput
  | Routed ListenBucketNotification => Empty_set
  | PostObject => PostObjectOutput
  end.

Definition deserialize_http `{HttpDeps} {Ext} (op : Op) : ST (Request Ext) (Input op) :=
  match op with
  | Routed AbortMultipartUpload => AbortMultipartUpload_deserialize_http
  | Routed CompleteMultipartUpload => CompleteMultipartUpload_deserialize_http
  | Routed CopyObject => CopyObject_deserialize_http
  | Routed CreateBucket => CreateBucket_deserialize_http
  | Routed CreateBucketMetadataConfiguration => CreateBucketMetadataConfiguration_deserialize_http
  | Routed CreateBucketMetadataTableConfiguration => CreateBucketMetadataTableConfiguration_deserialize_http
  | Routed CreateMultipartUpload => CreateMultipartUpload_deserialize_http
  | Routed CreateSession => CreateSession_deserialize_http
  | Routed DeleteBucket => DeleteBucket_deserialize_http
  | Routed DeleteBucketAnalyticsConfiguration => DeleteBucketAnalyticsConfiguration_deserialize_http
  | Routed DeleteBucketCors => DeleteBucketCors_deserialize_http
  | Routed DeleteBucketEncryption => DeleteBucketEncryption_deserialize_http
  | Routed DeleteBucketIntelligentTieringConfiguration => DeleteBucketIntelligentTieringConfiguration_deserialize_http
  | Routed DeleteBucketInventoryConfiguration => DeleteBucketInventoryConfiguration_deserialize_http
  | Routed DeleteBucketLifecycle => DeleteBucketLifecycle_deserialize_http
  | Routed DeleteBucketMetadataConfiguration => DeleteBucketMetadataConfiguration_deserialize_http
  | Routed DeleteBucketMetadataTableConfiguration => DeleteBucketMetadataTableConfiguration_deserialize_http
  | Routed DeleteBucketMetricsConfiguration => DeleteBucketMetricsConfiguration_deserialize_http
  | Routed DeleteBucketOwnershipControls => DeleteBucketOwnershipControls_deserialize_http
  | Routed DeleteBucketPolicy => DeleteBucketPolicy_deserialize_http
  | Routed DeleteBucketReplication => DeleteBucketReplication_deserialize_http
  | Routed DeleteBucketTagging => DeleteBucketTagging_deserialize_http
  | Routed DeleteBucketWebsite => DeleteBucketWebsite_deserialize_http
  | Routed DeleteObject => DeleteObject_deserialize_http
  | Routed DeleteObjectAnnotation => DeleteObjectAnnotation_deserialize_http
  | Routed DeleteObjectTagging => DeleteObjectTagging_deserialize_http
  | Routed DeleteObjects => DeleteObjects_deserialize_http
  | Routed DeletePublicAccessBlock => DeletePublicAccessBlock_deserialize_http
  | Routed GetBucketAbac => GetBucketAbac_deserialize_http
  | Routed GetBucketAccelerateConfiguration => GetBucketAccelerateConfiguration_deserialize_http
  | Routed GetBucketAcl => GetBucketAcl_deserialize_http
  | Routed GetBucketAnalyticsConfiguration => GetBucketAnalyticsConfiguration_deserialize_http
  | Routed GetBucketCors => GetBucketCors_deserialize_http
  | Routed GetBucketEncryption => GetBucketEncryption_deserialize_http
  | Routed GetBucketIntelligentTieringConfiguration => GetBucketIntelligentTieringConfiguration_deserialize_http
  | Routed GetBucketInventoryConfiguration => GetBucketInventoryConfiguration_deserialize_http
  | Routed GetBucketLifecycleConfiguration => GetBucketLifecycleConfiguration_deserialize_http
  | Routed GetBucketLocation => GetBucketLocation_deserialize_http
  | Routed GetBucketLogging => GetBucketLogging_deserialize_http
  | Routed GetBucketMetadataConfiguration => GetBucketMetadataConfiguration_deserialize_http
  | Routed GetBucketMetadataTableConfiguration => GetBucketMetadataTableConfiguration_deserialize_http
  | Routed GetBucketMetricsConfiguration => GetBucketMetricsConfiguration_deserialize_http
  | Routed GetBucketNotificationConfiguration => GetBucketNotificationConfiguration_deserialize_http
  | Routed GetBucketOwnershipControls => GetBucketOwnershipControls_deserialize_http
  | Routed GetBucketPolicy => GetBucketPolicy_deserialize_http
  | Routed GetBucketPolicyStatus => GetBucketPolicyStatus_deserialize_http
  | Routed GetBucketReplication => GetBucketReplication_deserialize_http
  | Routed GetBucketRequestPayment => GetBucketRequestPayment_deserialize_http
  | Routed GetBucketTagging => GetBucketTagging_deserialize_http
  | Routed GetBucketVersioning => GetBucketVersioning_deserialize_http
  | Routed GetBucketWebsite => GetBucketWebsite_deserialize_http
  | Routed GetObject => GetObject_deserialize_http
  | Routed GetObjectAcl => GetObjectAcl_deserialize_http
  | Routed GetObjectAnnotation => GetObjectAnnotation_deserialize_http
  | Routed GetObjectAttributes => GetObjectAttributes_deserialize_http
  | Routed GetObjectLegalHold => GetObjectLegalHold_deserialize_http
  | Routed GetObjectLockConfiguration => GetObjectLockConfiguration_deserialize_http
  | Routed GetObjectRetention => GetObjectRetention_deserialize_http
  | Routed GetObjectTagging => GetObjectTagging_deserialize_http
  | Routed GetObjectTorrent => GetObjectTorrent_deserialize_http
  | Routed GetPublicAccessBlock => GetPublicAccessBlock_deserialize_http
  | Routed HeadBucket => HeadBucket_deserialize_http
  | Routed HeadObject => HeadObject_deserialize_http
  | Routed ListBucketAnalyticsConfigurations => ListBucketAnalyticsConfigurations_deserialize_http
  | Routed ListBucketIntelligentTieringConfigurations => ListBucketIntelligentTieringConfigurations_deserialize_http
  | Routed ListBucketInventoryConfigurations => ListBucketInventoryConfigurations_deserialize_http
  | Routed ListBucketMetricsConfigurations => ListBucketMetricsConfigurations_deserialize_http
  | Routed ListBuckets => ListBuckets_deserialize_http
  | Routed ListDirectoryBuckets => ListDirectoryBuckets_deserialize_http
  | Routed ListMultipartUploads => ListMultipartUploads_deserialize_http
  | Routed ListObjectAnnotations => ListObjectAnnotations_deserialize_http
  | Routed ListObjectVersions => ListObjectVersions_deserialize_http
  | Routed ListObjects => ListObjects_deserialize_http
  | Routed ListObjectsV2 => ListObjectsV2_deserialize_http
  | Routed ListParts => ListParts_deserialize_http
  | Routed PutBucketAbac => PutBucketAbac_deserialize_http
  | Routed PutBucketAccelerateConfiguration => PutBucketAccelerateConfiguration_deserialize_http
  | Routed PutBucketAcl => PutBucketAcl_deserialize_http
  | Routed PutBucketAnalyticsConfiguration => PutBucketAnalyticsConfiguration_deserialize_http
  | Routed PutBucketCors => PutBucketCors_deserialize_http
  | Routed PutBucketEncryption => PutBucketEncryption_deserialize_http
  | Routed PutBucketIntelligentTieringConfiguration => PutBucketIntelligentTieringConfiguration_deserialize_http
  | Routed PutBucketInventoryConfiguration => PutBucketInventoryConfiguration_deserialize_http
  | Routed PutBucketLifecycleConfiguration => PutBucketLifecycleConfiguration_deserialize_http
  | Routed PutBucketLogging => PutBucketLogging_deserialize_http
  | Routed PutBucketMetricsConfiguration => PutBucketMetricsConfiguration_deserialize_http
  | Routed PutBucketNotificationConfiguration => PutBucketNotificationConfiguration_deserialize_http
  | Routed PutBucketOwnershipControls => PutBucketOwnershipControls_deserialize_http
  | Routed PutBucketPolicy => PutBucketPolicy_deserialize_http
  | Routed PutBucketReplication => PutBucketReplication_deserialize_http
  | Routed PutBucketRequestPayment => PutBucketRequestPayment_deserialize_http
  | Routed PutBucketTagging => PutBucketTagging_deserialize_http
  | Routed PutBucketVersioning => PutBucketVersioning_deserialize_http
  | Routed PutBucketWebsite => PutBucketWebsite_deserialize_http
  | Routed PutObject => PutObject_deserialize_http
  | Routed PutObjectAcl => PutObjectAcl_deserialize_http
  | Routed PutObjectAnnotation => PutObjectAnnotation_deserialize_http
  | Routed PutObjectLegalHold => PutObjectLegalHold_deserialize_http
  | Routed PutObjectLockConfiguration => PutObjectLockConfiguration_deserialize_http
  | Routed PutObjectRetention => PutObjectRetention_deserialize_http
  | Routed PutObjectTagging => PutObjectTagging_deserialize_http
  | Routed PutPublicAccessBlock => PutPublicAccessBlock_deserialize_http
  | Routed RenameObject => RenameObject_deserialize_http
  | Routed RestoreObject => RestoreObject_deserialize_http
  | Routed SelectObjectContent => SelectObjectContent_deserialize_http
  | Routed UpdateBucketMetadataAnnotationTableConfiguration => UpdateBucketMetadataAnnotationTableConfiguration_deserialize_http
  | Routed UpdateBucketMetadataInventoryTableConfiguration => UpdateBucketMetadataInventoryTableConfiguration_deserialize_http
  | Routed UpdateBucketMetadataJournalTableConfiguration => UpdateBucketMetadataJournalTableConfiguration_deserialize_http
  | Routed UpdateObjectEncryption => UpdateObjectEncryption_deserialize_http
  | Routed UploadPart => UploadPart_deserialize_http
  | Routed UploadPartCopy => UploadPartCopy_deserialize_http
  | Routed WriteGetObjectResponse => WriteGetObjectResponse_deserialize_http
  | Routed ListenBucketNotification => panic_none None
  | PostObject => PostObject_deserialize_http
  end.

(** The encoding of the operations whose response depends on the output alone. *)
Definition serialize_http `{HttpDeps} {Ext} `{Extensions Ext} `{CrcFast} (error_text : S3ErrorCode -> bytes) (o : Operation) :
    Output (Routed o) -> option (result S3ErrorCode (Response Ext)) :=
  match o with
  | AbortMultipartUpload => AbortMultipartUpload_serialize_http
  | CompleteMultipartUpload => CompleteMultipartUpload_serialize_http error_text
  | CopyObject => CopyObject_serialize_http
  | CreateBucket => CreateBucket_serialize_http
  | CreateBucketMetadataConfiguration => CreateBucketMetadataConfiguration_serialize_http
  | CreateBucketMetadataTableConfiguration => CreateBucketMetadataTableConfiguration_serialize_http
  | CreateMultipartUpload => CreateMultipartUpload_serialize_http
  | CreateSession => CreateSession_serialize_http
  | DeleteBucket => DeleteBucket_serialize_http
  | DeleteBucketAnalyticsConfiguration => DeleteBucketAnalyticsConfiguration_serialize_http
  | DeleteBucketCors => DeleteBucketCors_serialize_http
  | DeleteBucketEncryption => DeleteBucketEncryption_serialize_http
  | DeleteBucketIntelligentTieringConfiguration => DeleteBucketIntelligentTieringConfiguration_serialize_http
  | DeleteBucketInventoryConfiguration => DeleteBucketInventoryConfiguration_serialize_http
  | DeleteBucketLifecycle => DeleteBucketLifecycle_serialize_http
  | DeleteBucketMetadataConfiguration => DeleteBucketMetadataConfiguration_serialize_http
  | DeleteBucketMetadataTableConfiguration => DeleteBucketMetadataTableConfiguration_serialize_http
  | DeleteBucketMetricsConfiguration => DeleteBucketMetricsConfiguration_serialize_http
  | DeleteBucketOwnershipControls => DeleteBucketOwnershipControls_serialize_http
  | DeleteBucketPolicy => DeleteBucketPolicy_serialize_http
  | DeleteBucketReplication => DeleteBucketReplication_serialize_http
  | DeleteBucketTagging => DeleteBucketTagging_serialize_http
  | DeleteBucketWebsite => DeleteBucketWebsite_serialize_http
  | DeleteObject => DeleteObject_serialize_http
  | DeleteObjectAnnotation => DeleteObjectAnnotation_serialize_http
  | DeleteObjectTagging => DeleteObjectTagging_serialize_http
  | DeleteObjects => DeleteObjects_serialize_http
  | DeletePublicAccessBlock => DeletePublicAccessBlock_serialize_http
  | GetBucketAbac => GetBucketAbac_serialize_http
  | GetBucketAccelerateConfiguration => GetBucketAccelerateConfiguration_serialize_http
  | GetBucketAcl => GetBucketAcl_serialize_http
  | GetBucketAnalyticsConfiguration => GetBucketAnalyticsConfiguration_serialize_http
  | GetBucketCors => GetBucketCors_serialize_http
  | GetBucketEncryption => GetBucketEncryption_serialize_http
  | GetBucketIntelligentTieringConfiguration => GetBucketIntelligentTieringConfiguration_serialize_http
  | GetBucketInventoryConfiguration => GetBucketInventoryConfiguration_serialize_http
  | GetBucketLifecycleConfiguration => GetBucketLifecycleConfiguration_serialize_http
  | GetBucketLocation => GetBucketLocation_serialize_http
  | GetBucketLogging => GetBucketLogging_serialize_http
  | GetBucketMetadataConfiguration => GetBucketMetadataConfiguration_serialize_http
  | GetBucketMetadataTableConfiguration => GetBucketMetadataTableConfiguration_serialize_http
  | GetBucketMetricsConfiguration => GetBucketMetricsConfiguration_serialize_http
  | GetBucketNotificationConfiguration => GetBucketNotificationConfiguration_serialize_http
  | GetBucketOwnershipControls => GetBucketOwnershipControls_serialize_http
  | GetBucketPolicy => GetBucketPolicy_serialize_http
  | GetBucketPolicyStatus => GetBucketPolicyStatus_serialize_http
  | GetBucketReplication => GetBucketReplication_serialize_http
  | GetBucketRequestPayment => GetBucketRequestPayment_serialize_http
  | GetBucketTagging => GetBucketTagging_serialize_http
  | GetBucketVersioning => GetBucketVersioning_serialize_http
  | GetBucketWebsite => GetBucketWebsite_serialize_http
  | GetObject => GetObject_serialize_http
  | GetObjectAcl => GetObjectAcl_serialize_http
  | GetObjectAnnotation => GetObjectAnnotation_serialize_http
  | GetObjectAttributes => GetObjectAttributes_serialize_http
  | GetObjectLegalHold => GetObjectLegalHold_serialize_http
  | GetObjectLockConfiguration => GetObjectLockConfiguration_serialize_http
  | GetObjectRetention => GetObjectRetention_serialize_http
  | GetObjectTagging => GetObjectTagging_serialize_http
  | GetObjectTorrent => GetObjectTorrent_serialize_http
  | GetPublicAccessBlock => GetPublicAccessBlock_serialize_http
  | HeadBucket => HeadBucket_serialize_http
  | HeadObject => HeadObject_serialize_http
  | ListBucketAnalyticsConfigurations => ListBucketAnalyticsConfigurations_serialize_http
  | ListBucketIntelligentTieringConfigurations => ListBucketIntelligentTieringConfigurations_serialize_http
  | ListBucketInventoryConfigurations => ListBucketInventoryConfigurations_serialize_http
  | ListBucketMetricsConfigurations => ListBucketMetricsConfigurations_serialize_http
  | ListBuckets => ListBuckets_serialize_http
  | ListDirectoryBuckets => ListDirectoryBuckets_serialize_http
  | ListMultipartUploads => ListMultipartUploads_serialize_http
  | ListObjectAnnotations => ListObjectAnnotations_serialize_http
  | ListObjectVersions => ListObjectVersions_serialize_http
  | ListObjects => ListObjects_serialize_http
  | ListObjectsV2 => ListObjectsV2_serialize_http
  | ListParts => ListParts_serialize_http
  | PutBucketAbac => PutBucketAbac_serialize_http
  | PutBucketAccelerateConfiguration => PutBucketAccelerateConfiguration_serialize_http
  | PutBucketAcl => PutBucketAcl_serialize_http
  | PutBucketAnalyticsConfiguration => PutBucketAnalyticsConfiguration_serialize_http
  | PutBucketCors => PutBucketCors_serialize_http
  | PutBucketEncryption => PutBucketEncryption_serialize_http
  | PutBucketIntelligentTieringConfiguration => PutBucketIntelligentTieringConfiguration_serialize_http
  | PutBucketInventoryConfiguration => PutBucketInventoryConfiguration_serialize_http
  | PutBucketLifecycleConfiguration => PutBucketLifecycleConfiguration_serialize_http
  | PutBucketLogging => PutBucketLogging_serialize_http
  | PutBucketMetricsConfiguration => PutBucketMetricsConfiguration_serialize_http
  | PutBucketNotificationConfiguration => PutBucketNotificationConfiguration_serialize_http
  | PutBucketOwnershipControls => PutBucketOwnershipControls_serialize_http
  | PutBucketPolicy => PutBucketPolicy_serialize_http
  | PutBucketReplication => PutBucketReplication_serialize_http
  | PutBucketRequestPayment => PutBucketRequestPayment_serialize_http
  | PutBucketTagging => PutBucketTagging_serialize_http
  | PutBucketVersioning => PutBucketVersioning_serialize_http
  | PutBucketWebsite => PutBucketWebsite_serialize_http
  | PutObject => PutObject_serialize_http
  | PutObjectAcl => PutObjectAcl_serialize_http
  | PutObjectAnnotation => PutObjectAnnotation_serialize_http
  | PutObjectLegalHold => PutObjectLegalHold_serialize_http
  | PutObjectLockConfiguration => PutObjectLockConfiguration_serialize_http
  | PutObjectRetention => PutObjectRetention_serialize_http
  | PutObjectTagging => PutObjectTagging_serialize_http
  | PutPublicAccessBlock => PutPublicAccessBlock_serialize_http
  | RenameObject => RenameObject_serialize_http
  | RestoreObject => RestoreObject_serialize_http
  | SelectObjectContent => SelectObjectContent_serialize_http
  | UpdateBucketMetadataAnnotationTableConfiguration => UpdateBucketMetadataAnnotationTableConfiguration_serialize_http
  | UpdateBucketMetadataInventoryTableConfiguration => UpdateBucketMetadataInventoryTableConfiguration_serialize_http
  | UpdateBucketMetadataJournalTableConfiguration => UpdateBucketMetadataJournalTableConfiguration_serialize_http
  | UpdateObjectEncryption => UpdateObjectEncryption_serialize_http
  | UploadPart => UploadPart_serialize_http
  | UploadPartCopy => UploadPartCopy_serialize_http
  | WriteGetObjectResponse => WriteGetObjectResponse_serialize_http
  | ListenBucketNotification => fun x => match x with end
  end.

(** ** The paths of the operations *)

(** The operations that take a bucket, and those that take an object, from the path. *)
Definition takes_bucket (op : Op) : bool :=
  match op with
  | PostObject => true
  | Routed
     (CreateBucket | CreateBucketMetadataConfiguration | CreateBucketMetadataTableConfiguration | CreateSession |
      DeleteBucket | DeleteBucketAnalyticsConfiguration | DeleteBucketCors | DeleteBucketEncryption |
      DeleteBucketIntelligentTieringConfiguration | DeleteBucketInventoryConfiguration | DeleteBucketLifecycle |
      DeleteBucketMetadataConfiguration | DeleteBucketMetadataTableConfiguration | DeleteBucketMetricsConfiguration |
      DeleteBucketOwnershipControls | DeleteBucketPolicy | DeleteBucketReplication | DeleteBucketTagging |
      DeleteBucketWebsite | DeleteObjects | DeletePublicAccessBlock | GetBucketAbac |
      GetBucketAccelerateConfiguration | GetBucketAcl | GetBucketAnalyticsConfiguration | GetBucketCors |
      GetBucketEncryption | GetBucketIntelligentTieringConfiguration | GetBucketInventoryConfiguration |
      GetBucketLifecycleConfiguration | GetBucketLocation | GetBucketLogging | GetBucketMetadataConfiguration |
      GetBucketMetadataTableConfiguration | GetBucketMetricsConfiguration | GetBucketNotificationConfiguration |
      GetBucketOwnershipControls | GetBucketPolicy | GetBucketPolicyStatus | GetBucketReplication |
      GetBucketRequestPayment | GetBucketTagging | GetBucketVersioning | GetBucketWebsite |
      GetObjectLockConfiguration | GetPublicAccessBlock | HeadBucket | ListBucketAnalyticsConfigurations |
      ListBucketIntelligentTieringConfigurations | ListBucketInventoryConfigurations |
      ListBucketMetricsConfigurations | ListMultipartUploads | ListObjectVersions | ListObjects | ListObjectsV2 |
      PutBucketAbac | PutBucketAccelerateConfiguration | PutBucketAcl | PutBucketAnalyticsConfiguration |
      PutBucketCors | PutBucketEncryption | PutBucketIntelligentTieringConfiguration |
      PutBucketInventoryConfiguration | PutBucketLifecycleConfiguration | PutBucketLogging |
      PutBucketMetricsConfiguration | PutBucketNotificationConfiguration | PutBucketOwnershipControls |
      PutBucketPolicy | PutBucketReplication | PutBucketRequestPayment | PutBucketTagging | PutBucketVersioning |
      PutBucketWebsite | PutObjectLockConfiguration | PutPublicAccessBlock |
      UpdateBucketMetadataAnnotationTableConfiguration | UpdateBucketMetadataInventoryTableConfiguration |
      UpdateBucketMetadataJournalTableConfiguration) => true
  | _ => false
  end.
Definition takes_object (op : Op) : bool :=
  match op with
  | Routed
     (AbortMultipartUpload | CompleteMultipartUpload | CopyObject | CreateMultipartUpload | DeleteObject |
      DeleteObjectAnnotation | DeleteObjectTagging | GetObject | GetObjectAcl | GetObjectAnnotation |
      GetObjectAttributes | GetObjectLegalHold | GetObjectRetention | GetObjectTagging | GetObjectTorrent |
      HeadObject | ListObjectAnnotations | ListParts | PutObject | PutObjectAcl | PutObjectAnnotation |
      PutObjectLegalHold | PutObjectRetention | PutObjectTagging | RenameObject | RestoreObject |
      SelectObjectContent | UpdateObjectEncryption | UploadPart | UploadPartCopy) => true
  | _ => false
  end.

Definition path_fits (op : Op) (p : S3Path) : bool :=
  match p with
  | Path.Bucket _ => negb (takes_object op)
  | Path.Object _ _ => negb (takes_bucket op)
  | Path.Root => negb (takes_bucket op) && negb (takes_object op)
  end.

Lemma routed_paths m p o : o ∈ routed_ops false m p -> path_fits (Routed o) p = true /\ o <> ListenBucketNotification.
Proof.
  assert (Hl : forallb (fun o => path_fits (Routed o) p && match o with ListenBucketNotification => false | _ => true end) (routed_ops false m p) = true).
  { destruct m, p; vm_compute; reflexivity. }
  intros Ho%list_elem_of_In. rewrite forallb_forall in Hl. apply Hl, andb_true_iff in Ho as [Hp Hn]. split; [done|]. by intros ->.
Qed.

(** ** Decoding *)

(** What an operation finds in a request that is handed to it. *)
Record decodable {Ext} (op : Op) (req : Request Ext) : Prop := {
  dc_path : exists p, x_s3_path (s3ext req) = Some p /\ path_fits op p = true;
  dc_exists : op <> Routed ListenBucketNotification;
  dc_body : needs_full_body op = true -> exists x, bytes_of (body req) = Some x;
  dc_form : op <> PostObject -> x_multipart (s3ext req) = None;
  dc_post : op = PostObject -> exists m s, x_multipart (s3ext req) = Some m /\ x_post_object_stream (s3ext req) = Some s /\
    exists b, x_s3_path (s3ext req) = Some (Path.Bucket b)
}.

Create HintDb decodes.
#[export] Hint Resolve AbortMultipartUpload_decodes CompleteMultipartUpload_decodes CopyObject_decodes : decodes.
#[export] Hint Resolve CreateBucket_decodes CreateBucketMetadataConfiguration_decodes CreateBucketMetadataTableConfiguration_decodes : decodes.
#[export] Hint Resolve CreateMultipartUpload_decodes CreateSession_decodes DeleteBucket_decodes : decodes.
#[export] Hint Resolve DeleteBucketAnalyticsConfiguration_decodes DeleteBucketCors_decodes DeleteBucketEncryption_decodes : decodes.
#[export] Hint Resolve DeleteBucketIntelligentTieringConfiguration_decodes DeleteBucketInventoryConfiguration_decodes DeleteBucketLifecycle_decodes : decodes.
#[export] Hint Resolve DeleteBucketMetadataConfiguration_decodes DeleteBucketMetadataTableConfiguration_decodes DeleteBucketMetricsConfiguration_decodes : decodes.
#[export] Hint Resolve DeleteBucketOwnershipControls_decodes DeleteBucketPolicy_decodes DeleteBucketReplication_decodes : decodes.
#[export] Hint Resolve DeleteBucketTagging_decodes DeleteBucketWebsite_decodes DeleteObject_decodes : decodes.
#[export] Hint Resolve DeleteObjectAnnotation_decodes DeleteObjectTagging_decodes DeleteObjects_decodes : decodes.
#[export] Hint Resolve DeletePublicAccessBlock_decodes GetBucketAbac_decodes GetBucketAccelerateConfiguration_decodes : decodes.
#[export] Hint Resolve GetBucketAcl_decodes GetBucketAnalyticsConfiguration_decodes GetBucketCors_decodes : decodes.
#[export] Hint Resolve GetBucketEncryption_decodes GetBucketIntelligentTieringConfiguration_decodes GetBucketInventoryConfiguration_decodes : decodes.
#[export] Hint Resolve GetBucketLifecycleConfiguration_decodes GetBucketLocation_decodes GetBucketLogging_decodes : decodes.
#[export] Hint Resolve GetBucketMetadataConfiguration_decodes GetBucketMetadataTableConfiguration_decodes GetBucketMetricsConfiguration_decodes : decodes.
#[export] Hint Resolve GetBucketNotificationConfiguration_decodes GetBucketOwnershipControls_decodes GetBucketPolicy_decodes : decodes.
#[export] Hint Resolve GetBucketPolicyStatus_decodes GetBucketReplication_decodes GetBucketRequestPayment_decodes : decodes.
#[export] Hint Resolve GetBucketTagging_decodes GetBucketVersioning_decodes GetBucketWebsite_decodes : decodes.
#[export] Hint Resolve GetObject_decodes GetObjectAcl_decodes GetObjectAnnotation_decodes : decodes.
#[export] Hint Resolve GetObjectAttributes_decodes GetObjectLegalHold_decodes GetObjectLockConfiguration_decodes : decodes.
#[export] Hint Resolve GetObjectRetention_decodes GetObjectTagging_decodes GetObjectTorrent_decodes : decodes.
#[export] Hint Resolve GetPublicAccessBlock_decodes HeadBucket_decodes HeadObject_decodes : decodes.
#[export] Hint Resolve ListBucketAnalyticsConfigurations_decodes ListBucketIntelligentTieringConfigurations_decodes ListBucketInventoryConfigurations_decodes : decodes.
#[export] Hint Resolve ListBucketMetricsConfigurations_decodes ListBuckets_decodes ListDirectoryBuckets_decodes : decodes.
#[export] Hint Resolve ListMultipartUploads_decodes ListObjectAnnotations_decodes ListObjectVersions_decodes : decodes.
#[export] Hint Resolve ListObjects_decodes ListObjectsV2_decodes ListParts_decodes : decodes.
#[export] Hint Resolve PutBucketAbac_decodes PutBucketAccelerateConfiguration_decodes PutBucketAcl_decodes : decodes.
#[export] Hint Resolve PutBucketAnalyticsConfiguration_decodes PutBucketCors_decodes PutBucketEncryption_decodes : decodes.
#[export] Hint Resolve PutBucketIntelligentTieringConfiguration_decodes PutBucketInventoryConfiguration_decodes PutBucketLifecycleConfiguration_decodes : decodes.
#[export] Hint Resolve PutBucketLogging_decodes PutBucketMetricsConfiguration_decodes PutBucketNotificationConfiguration_decodes : decodes.
#[export] Hint Resolve PutBucketOwnershipControls_decodes PutBucketPolicy_decodes PutBucketReplication_decodes : decodes.
#[export] Hint Resolve PutBucketRequestPayment_decodes PutBucketTagging_decodes PutBucketVersioning_decodes : decodes.
#[export] Hint Resolve PutBucketWebsite_decodes PutObject_decodes PutObjectAcl_decodes : decodes.
#[export] Hint Resolve PutObjectAnnotation_decodes PutObjectLegalHold_decodes PutObjectLockConfiguration_decodes : decodes.
#[export] Hint Resolve PutObjectRetention_decodes PutObjectTagging_decodes PutPublicAccessBlock_decodes : decodes.
#[export] Hint Resolve RenameObject_decodes RestoreObject_decodes SelectObjectContent_decodes : decodes.
#[export] Hint Resolve UpdateBucketMetadataAnnotationTableConfiguration_decodes UpdateBucketMetadataInventoryTableConfiguration_decodes UpdateBucketMetadataJournalTableConfiguration_decodes : decodes.
#[export] Hint Resolve UpdateObjectEncryption_decodes UploadPart_decodes UploadPartCopy_decodes : decodes.
#[export] Hint Resolve WriteGetObjectResponse_decodes : decodes.

(** Every operation decodes such a request, or reports a fault of the client. *)
Lemma decodes `{HttpDeps} {Ext} (op : Op) (req : Request Ext) :
  decodable op req -> wp (deserialize_http op) (fun _ _ => True) client_fault req.
Proof.
  intros [(p & Hp & Hf) He Hb Hm Hpost]. destruct op as [o|].
  - specialize (Hm ltac:(done)). clear Hpost. destruct o; try done; cbn in Hf, Hb; cbn [deserialize_http];
      (destruct p; try discriminate Hf); try (destruct (Hb eq_refl) as [x Hx]);
      eauto with decodes nocore.
  - destruct (Hpost eq_refl) as (m & s & Hm' & Hs & b & Hpb). exact (PostObject_decodes req b m s Hpb Hm' Hs).
Qed.
