(* ===== verification/OpsWrites.v ===== *)
(** * Every output is encoded (crates/s3s/src/ops/generated/)

    No output of the application makes the encoding of a response panic: a response or an error
    comes out, whatever the fields hold.  The one thing that could panic is the printing of a
    time; [PrintsTimes] is what the [time] crate promises of it. *)

From S2P Require Import Prelude.
From S2P Require Import Str.
From S2P Require Import ErrorCode.
From S2P Require Import AmzDate.
From S2P Require Import Handler.
From S2P Require Import Router.
From S2P Require Import SigV4.
From S2P Require Import SignatureCheck.
From S2P Require Import Poll.
From S2P Require Import Stream.
From S2P Require Import Body.
From S2P Require Import Form.
From S2P Require Import PostPolicy.
From S2P Require Import Blob.
From S2P Require Import Request.
From S2P Require Import Response.
From S2P Require Import KeepAlive.
From S2P Require Import Range.
From S2P Require Import ETag.
From S2P Require Import Timestamp.
From S2P Require Import Xml.
From S2P Require Import XmlStruct.
From S2P Require Import XmlDtoA.
From S2P Require Import XmlDtoB.
From S2P Require Import XmlDtoC.
From S2P Require Import XmlOutputs.
From S2P Require Import XmlDocs.
From S2P Require Import EventStream.
From S2P Require Import CopySource.
From S2P Require Import HeaderNames.
From S2P Require Import HttpDe.
From S2P Require Import HttpSer.
From S2P Require Import OpsTypes.
From S2P Require Import OpsSer.
From S2P Require Import Dispatch.
From S2P Require Import OpsTable.

(** A time the crate can hold is printed in at most 32 ASCII characters, as a date. *)
Class PrintsTimes `{TimeCrate} : Prop :=
  prints_time : forall t fmt, fmt <> EpochSeconds -> exists s, fmt_timestamp t fmt = Some s /\ forallb is_ascii s = true.

(** ** Documents *)

Definition writes (s : Ser) : Prop := exists os, s = Some os.

Section Writes.
Lemma writes_some os : writes (Some os).
Proof. by exists os. Qed.

Lemma writes_seq l : Forall writes l -> writes (s_seq l).
Proof. induction 1 as [|s l [os ->] _ [os' IH]]; [by eexists|]. cbn [s_seq]. rewrite IH. by eexists. Qed.

Lemma writes_element n f : writes f -> writes (s_element n f).
Proof. intros Hf. apply writes_seq. repeat constructor; [apply writes_some|done|apply writes_some]. Qed.

Lemma writes_element_ns n ns f : writes f -> writes (s_element_with_ns n ns f).
Proof. intros Hf. apply writes_seq. repeat constructor; [apply writes_some|done|apply writes_some]. Qed.

Lemma writes_element_attrs n a f : writes f -> writes (s_element_with_attrs n a f).
Proof. intros Hf. apply writes_seq. repeat constructor; [apply writes_some|done|apply writes_some]. Qed.

Lemma writes_if_some {A} (v : option A) f : (forall a, writes (f a)) -> writes (if_some v f).
Proof. intros Hf. destruct v; [apply Hf|apply writes_some]. Qed.

Lemma writes_map {A} (f : A -> Ser) l : (forall a, writes (f a)) -> writes (s_seq (map f l)).
Proof. intros Hf. apply writes_seq, Forall_forall. intros s (a & -> & _)%list_elem_of_fmap. apply Hf. Qed.

Lemma writes_flattened {A} (f : A -> Ser) n l : (forall a, writes (f a)) -> writes (s_flattened_list f n l).
Proof. intros Hf. apply writes_map. intros a. by apply writes_element. Qed.

Lemma writes_list {A} (f : A -> Ser) n mn l : (forall a, writes (f a)) -> writes (s_list f n mn l).
Proof. intros Hf. apply writes_element, writes_map. intros a. by apply writes_element. Qed.

Lemma writes_timestamp `{PrintsTimes} fmt t : fmt <> EpochSeconds -> writes (ser_timestamp fmt t).
Proof. intros Hf. unfold ser_timestamp. destruct (prints_time t fmt Hf) as (s & -> & Ha). cbn [mbind option_bind]. rewrite Ha. apply writes_some. Qed.

Lemma writes_ETag e : writes (ser_ETag e).
Proof. eexists. apply ser_ETag_eq. Qed.
End Writes.

(** By the rules, and by the definition where there is none. *)
Ltac solve_writes :=
  repeat first
    [ progress intros
    | apply writes_some
    | apply writes_timestamp; discriminate
    | apply writes_ETag
    | apply writes_if_some
    | apply writes_flattened
    | apply writes_list
    | apply writes_element
    | apply writes_element_ns
    | apply writes_element_attrs
    | apply writes_map
    | apply writes_seq
    | apply Forall_nil; exact I
    | apply Forall_cons; split
    | match goal with |- writes (match ?x with _ => _ end) => destruct x end
    | match goal with |- writes ?s => let s' := eval hnf in s in progress change (writes s') end ].

(** ** Responses *)

Section Safe.
Context `{HttpDeps} {Ext : Type} `{Extensions Ext} `{CrcFast} `{UrlCrate} `{!PrintsTimes}.

(** A step that never panics. *)
Definition safe {A} (m : ST (Response Ext) A) : Prop := forall res, returns m res.

Lemma safe_bind {A B} (m : ST (Response Ext) A) (k : A -> ST (Response Ext) B) : safe m -> (forall a, safe (k a)) -> safe (m ≫= k).
Proof.
  intros Hm Hk res. destruct (Hm res) as [[res' [a|e]] E]; unfold returns, mbind, ST_bind; rewrite E; [apply Hk|by eexists].
Qed.

Lemma safe_ret {A} (a : A) : safe (mret a).
Proof. intros res. by eexists. Qed.

Lemma safe_lift {A} (r : result S3ErrorCode A) : safe (lift r).
Proof. intros res. by eexists. Qed.

Lemma safe_panic {A} (o : option A) : (exists a, o = Some a) -> safe (panic_none o).
Proof. intros [a ->] res. by eexists. Qed.

Lemma safe_update f : safe (update f).
Proof. intros res. by eexists. Qed.

Lemma safe_opt_header {V} (conv : V -> option bytes) n v : safe (add_opt_header conv n v).
Proof. destruct v; [|apply safe_ret]. apply safe_bind; [apply safe_lift|]. intros x. apply safe_update. Qed.

Lemma safe_opt_header_timestamp n v fmt : fmt <> EpochSeconds -> safe (add_opt_header_timestamp n v fmt).
Proof.
  intros Hf. destruct v as [v|]; [|apply safe_ret]. cbn [add_opt_header_timestamp]. destruct (prints_time v fmt Hf) as (s & -> & _).
  apply safe_bind; [by apply safe_panic; eexists|]. intros x. apply safe_bind; [apply safe_lift|]. intros y. apply safe_update.
Qed.

Lemma safe_opt_metadata m : safe (add_opt_metadata m).
Proof.
  destruct m as [m|]; [|apply safe_ret]. cbn [add_opt_metadata]. induction m as [|[k v] m IH]; [apply safe_ret|]. cbn [add_metadata].
  repeat first [apply safe_bind; [first [apply safe_lift|apply safe_update]|]; intros ?]. exact IH.
Qed.

Lemma safe_xml_document decl {T} `{Serialize T} (v : T) : writes (serialize v) -> safe (set_xml_document decl v).
Proof.
  intros [os E]. unfold set_xml_document. apply safe_bind.
  { apply safe_panic. unfold document_text, document. destruct decl; cbn; rewrite E; by eexists. }
  intros x. apply safe_bind; [apply safe_lift|]. intros y. apply safe_bind; [apply safe_update|]. intros z. apply safe_update.
Qed.

Lemma respond_safe status m : safe m -> exists r, respond (Ext := Ext) status m = Some r.
Proof. intros Hm. unfold respond, respond_from. destruct (Hm (with_status ext_default status)) as [[res r] ->]. by eexists. Qed.
End Safe.

(** ** Event streams *)

Section EventBodies.
Context `{HttpDeps} `{CrcFast}.

Definition pending_in_range (w : Wrapper) : Prop := pending_idx w <= length (pending w).

(** What is left to send: an event gives at most three chunks. *)
Definition event_work (w : Wrapper) : nat := 4 * length (w_inner w) + (length (pending w) - pending_idx w).

Lemma next_pending_spec w : pending_in_range w -> exists o w', next_pending w = Some (o, w') /\ pending_in_range w' /\ w_inner w' = w_inner w /\
  match o with Some _ => event_work w' < event_work w | None => event_work w' = 4 * length (w_inner w) end.
Proof.
  unfold pending_in_range, next_pending, event_work. intros Hr. case_bool_decide; [eexists _, _; split_and!; [done|simpl; lia|done|simpl; lia]|].
  destruct (lookup_lt_is_Some_2 (pending w) (pending_idx w)) as [b ->]; [lia|]. cbn [mbind option_bind]. rewrite length_insert.
  eexists _, _. split; [done|]. case_bool_decide; simpl; rewrite ?length_insert; split_and!; try done; lia.
Qed.

Lemma event_chunks ev : exists r, event_into_chunks ev = Some r /\ forall chunks, r = Ok chunks -> length chunks <= 3.
Proof.
  unfold event_into_chunks. destruct (message_of_total ev) as [m ->]. eexists. split; [done|]. unfold serialize_chunks. intros chunks E.
  repeat match type of E with (?m ≫= _) = Ok _ => destruct m; [cbn [mbind result_bind] in E|done] end.
  case_match; injection E as <-; simpl; lia.
Qed.

Lemma wrapper_poll_spec inner w : w_inner w = inner -> pending_in_range w -> exists w' p, wrapper_poll inner w = Some (w', p) /\ pending_in_range w' /\
  match p with Pending | Ready (Some (Ok _)) => event_work w' < event_work w | _ => True end.
Proof.
  revert w. induction inner as [|a inner IH]; intros w Hi Hr; cbn [wrapper_poll];
    destruct (next_pending_spec w Hr) as (o & w1 & -> & Hr1 & Hi1 & Hw1); cbn [mbind option_bind];
    (destruct o as [b|]; [by eexists _, _|]); rewrite Hi in Hi1, Hw1.
  { by eexists _, _. }
  assert (Hle : event_work w1 <= event_work w) by (rewrite Hw1; unfold event_work; rewrite Hi; lia).
  destruct a as [|ev].
  - eexists _, _. split; [done|]. split; [exact Hr1|]. unfold event_work in *. cbn [w_inner pending pending_idx]. rewrite Hi1 in Hle. simpl in Hle. lia.
  - destruct (event_chunks ev) as (r & -> & Hc). cbn [mbind option_bind]. destruct r as [chunks|]; [|by eexists _, _].
    specialize (Hc _ eq_refl).
    destruct (IH {| w_inner := inner; pending := chunks; pending_idx := 0 |} eq_refl) as (w' & p & E & Hr' & Hw'); [unfold pending_in_range; simpl; lia|].
    exists w', p. split; [done|]. split; [done|].
    assert (event_work {| w_inner := inner; pending := chunks; pending_idx := 0 |} < event_work w).
    { unfold event_work in *. rewrite Hi. simpl. lia. }
    destruct p as [[[]|]|]; lia || done.
Qed.

Lemma event_items_total fuel w : pending_in_range w -> exists l, event_items fuel w = Some l.
Proof.
  revert w. induction fuel as [|fuel IH]; intros w Hr; [by eexists|]. cbn [event_items]. unfold Wrapper_poll_next.
  destruct (wrapper_poll_spec (w_inner w) w eq_refl Hr) as (w' & p & -> & Hr' & _). cbn [mbind option_bind].
  destruct p as [[r|]|]; [|by eexists|]; destruct (IH w' Hr') as [l ->]; by eexists.
Qed.

(** The fuel is enough: the body reads as the stream does. *)
Lemma event_items_read w l r : yields w l r -> pending_in_range w -> forall fuel items, event_work w < fuel -> event_items fuel w = Some items ->
  frame_read None (item_frames items) = (l, Source <$> r).
Proof.
  induction 1 as [w w' E|w w' e E|w w' b l r E Hy IH|w w' l r E Hy IH]; intros Hr [|fuel] items Hf; try lia; cbn [event_items];
    rewrite E; cbn [mbind option_bind]; pose proof (wrapper_poll_spec (w_inner w) w eq_refl Hr) as (w1 & p1 & E1 & Hr1 & Hw1);
    unfold Wrapper_poll_next in E; rewrite E in E1; injection E1 as <- <-.
  - by intros [= <-].
  - destruct (event_items fuel w'); [|done]. by intros [= <-].
  - destruct (event_items fuel w') as [k|] eqn:Ek; [|done]. intros [= <-]. specialize (IH Hr1 fuel k ltac:(lia) Ek).
    change (item_frames (Next (Ok b) :: k)) with (FNext (Ok (Data b)) :: item_frames k). cbn [frame_read]. by rewrite IH.
  - destruct (event_items fuel w') as [k|] eqn:Ek; [|done]. intros [= <-]. exact (IH Hr1 fuel k ltac:(lia) Ek).
Qed.

Lemma event_stream_read stream : exists s l r, event_stream stream = Some s /\ yields (into_byte_stream stream) l r /\
  body_read (dyn_stream s) = (l, Source <$> r).
Proof.
  destruct (stream_yields stream) as (l & r & Hy & _). unfold event_stream.
  assert (Hr : pending_in_range (into_byte_stream stream)) by (unfold pending_in_range; simpl; lia).
  destruct (event_items_total (4 * length stream + 1) (into_byte_stream stream) Hr) as [k E]. rewrite E. eexists _, l, r.
  split; [done|]. split; [done|]. rewrite body_read_eq.
  apply (event_items_read _ _ _ Hy Hr (4 * length stream + 1)); [unfold event_work; simpl; lia|done].
Qed.
End EventBodies.

Create HintDb writes.

Section Encodes.
Context `{HttpDeps} {Ext : Type} `{Extensions Ext} `{CrcFast} `{UrlCrate} `{!PrintsTimes}.

Lemma safe_event_stream stream : safe (Ext := Ext) (set_event_stream_body stream).
Proof.
  unfold set_event_stream_body. destruct (event_stream_read stream) as (s & _ & _ & -> & _).
  apply safe_bind; [by apply safe_panic; eexists|]. intros x. apply safe_bind; [apply safe_update|]. intros y. apply safe_update.
Qed.

Lemma safe_keep_alive f : safe (Ext := Ext) (set_keep_alive_xml_body f).
Proof.
  unfold set_keep_alive_xml_body. apply safe_bind; [by apply safe_panic; eexists|]. intros x.
  apply safe_bind; [apply safe_update|]. intros y. apply safe_bind; [apply safe_update|]. intros z. apply safe_update.
Qed.

Ltac solve_safe :=
  repeat first
    [ apply safe_opt_header
    | apply safe_opt_header_timestamp; discriminate
    | apply safe_opt_metadata
    | apply safe_ret
    | apply safe_lift
    | apply safe_update
    | apply safe_event_stream
    | apply safe_keep_alive
    | apply safe_xml_document; first [assumption | solve_writes]
    | apply safe_panic; eauto with writes
    | apply safe_bind; [|intros ?]
    | match goal with |- safe (match ?x with _ => _ end) => destruct x end ].

Lemma ser_S3Error_writes e : writes (ser_S3Error e).
Proof.
  unfold ser_S3Error. destruct (as_str (code e)) as [c|] eqn:Ec; [cbn [mbind option_bind]; solve_writes|].
  unfold as_str in Ec. destruct (as_static_str (code e)) eqn:Es; [done|]. destruct (is_static (code e)) eqn:Hs; [|by destruct (code e)].
  apply as_str_name in Hs. unfold as_str in Hs. by rewrite Es, Ec in Hs.
Qed.

Lemma serialize_error_returns e no_decl : exists r, serialize_error (Ext := Ext) e no_decl = Some r.
Proof.
  apply respond_safe. assert (Hw : writes (serialize e)).
  { apply writes_element, ser_S3Error_writes. }
  destruct no_decl; solve_safe.
Qed.

Lemma complete_response_returns error_text r : exists v, complete_response (Ext := Ext) error_text r = Some v.
Proof.
  unfold complete_response. destruct r as [val|err]; [|destruct (serialize_error_returns err true) as [v ->]; by eexists].
  edestruct (respond_safe 200) as [v ->]; [|by eexists]. solve_safe.
Qed.

#[local] Hint Resolve complete_response_returns : writes.

(** A response or an error, for every output of every operation. *)
Lemma serialize_http_returns error_text o (x : Output (Routed o)) : exists r, serialize_http (Ext := Ext) error_text o x = Some r.
Proof.
  destruct o; cbn [serialize_http]; try destruct x; apply respond_safe; solve_safe.
Qed.

Lemma PostObject_serialize_returns bucket key redirect status x :
  exists r, PostObject_serialize_http (Ext := Ext) bucket key redirect status x = Some r.
Proof.
  unfold PostObject_serialize_http. destruct redirect as [u|].
  - destruct (any_control u); [by eexists|]. destruct (url_append _ _); [|by eexists]. destruct (http_header_value _); [|by eexists].
    apply respond_safe. solve_safe.
  - repeat (case_match; try (by eexists)); apply respond_safe; solve_safe.
Qed.

Lemma add_ts_returns map n v : exists r, add_ts map n v = Some r.
Proof. destruct v as [v|]; [|by eexists]. cbn [add_ts]. destruct (prints_time v HttpDate ltac:(done)) as (s & -> & _). by eexists. Qed.

Lemma overridden_headers_return x : exists r, extract_overridden_response_headers x = Some r.
Proof.
  unfold extract_overridden_response_headers. destruct (_ ≫= _) as [m|]; [|by eexists].
  destruct (add_ts_returns m EXPIRES (GetObjectInput_response_expires x)) as [r ->]. by eexists.
Qed.
End Encodes.

(** The reference prints every time. *)
Lemma reference_prints_times : @PrintsTimes time_reference.
Proof.
  intros t [| |] Hf; [| |done]; unfold fmt_timestamp, Timestamp_format; cbn [format_rfc3339 format_rfc1123 time_reference mbind option_bind].
  - destruct (valid_time t) eqn:Hv; [|by eexists]. destruct (rfc3339_shape t Hv) as [Hl Ha]. exists (RFC3339 t). split; [|done].
    unfold array_string. by rewrite Hl.
  - destruct (valid_time t) eqn:Hv; [|by eexists]. destruct (rfc3339_shape t Hv) as [Hl Ha]. unfold RFC3339 in *.
    rewrite length_app in Hl. rewrite forallb_app in Ha. apply andb_true_iff in Ha as [Ha _].
    exists (date_time_text t ++ str "   GMT"). split; [|by rewrite forallb_app, Ha]. unfold array_string.
    assert (Hn : length (date_time_text t ++ str "   GMT") <= 32) by (rewrite length_app; simpl in *; lia).
    by rewrite (proj2 (Nat.leb_le _ _) Hn).
Qed.
