(* ===== verification/OpsFrame.v ===== *)
(** * What is left of a request when it is decoded (crates/s3s/src/ops/)

    The preparation of a request keeps its method, and decoding the input of an operation takes
    the path, the form and the body out of it but leaves its head and the verified credentials,
    so that the application is given those of the request that was checked. *)

From S2P Require Import Prelude.
From S2P Require Import Str.
From S2P Require Import ErrorCode.
From S2P Require Import AmzDate.
From S2P Require Import Handler.
From S2P Require Import Router.
From S2P Require Import SigV4.
From S2P Require Import SignatureCheck.
From S2P Require Import Poll.
From S2P Require Import Stream.
From S2P Require Import Body.
From S2P Require Import Form.
From S2P Require Import PostPolicy.
From S2P Require Import Blob.
From S2P Require Import Request.
From S2P Require Import Response.
From S2P Require Import KeepAlive.
From S2P Require Import Range.
From S2P Require Import ETag.
From S2P Require Import Timestamp.
From S2P Require Import Xml.
From S2P Require Import XmlStruct.
From S2P Require Import XmlDtoA.
From S2P Require Import XmlDtoB.
From S2P Require Import XmlDtoC.
From S2P Require Import XmlOutputs.
From S2P Require Import XmlDocs.
From S2P Require Import EventStream.
From S2P Require Import CopySource.
From S2P Require Import HeaderNames.
From S2P Require Import HttpDe.
From S2P Require Import HttpSer.
From S2P Require Import OpsTypes.
From S2P Require Import OpsDe.
From S2P Require Import OpsSer.
From S2P Require Import Dispatch.
From S2P Require Import OpsTable.

(** ** What a handler keeps *)

Section Keeps.
Context {Ext X : Type} (pr : Request Ext -> X) (M : X).

(** A handler leaves this part of the request as it is, also when it fails. *)
Definition keeps {A} (m : ST (Request Ext) A) : Prop :=
  forall req req' r, pr req = M -> m req = Some (req', r) -> pr req' = M.

Lemma keeps_bind {A B} (m : ST (Request Ext) A) (k : A -> ST (Request Ext) B) :
  keeps m -> (forall a, keeps (k a)) -> keeps (m ≫= k).
Proof.
  intros Hm Hk req req' r Hq. unfold mbind, ST_bind. destruct (m req) as [[req1 [a|e]]|] eqn:E; [|by intros [= <- _]; eapply Hm|done].
  apply Hk. by eapply Hm.
Qed.

Lemma keeps_get {A} (k : Request Ext -> ST (Request Ext) A) : (forall req, pr req = M -> keeps (k req)) -> keeps (get ≫= k).
Proof. intros Hk req req' r Hq. unfold mbind, ST_bind, get. by apply Hk. Qed.

Lemma keeps_put req : pr req = M -> keeps (put req).
Proof. by intros Hq ? ? ? _ [= <- _]. Qed.

Lemma keeps_pure {A} (m : ST (Request Ext) A) : (forall req, m req = None \/ exists r, m req = Some (req, r)) -> keeps m.
Proof. intros Hm req req' r Hq E. destruct (Hm req) as [Hn|[r' Hr]]; congruence. Qed.

Lemma keeps_ret {A} (a : A) : keeps (mret a).
Proof. apply keeps_pure. intros req. right. by eexists. Qed.
Lemma keeps_lift {A} (r : result S3ErrorCode A) : keeps (lift r).
Proof. apply keeps_pure. intros req. right. by eexists. Qed.
Lemma keeps_ask {A} (f : Request Ext -> result S3ErrorCode A) : keeps (ask f).
Proof. apply keeps_pure. intros req. right. by eexists. Qed.
Lemma keeps_panic {A} (o : option A) : keeps (panic_none o).
Proof. apply keeps_pure. intros req. destruct o; [right; by eexists|by left]. Qed.
Lemma keeps_modify f : (forall req, pr (f req) = pr req) -> keeps (modify f).
Proof. intros Hf. apply keeps_get. intros req Hq. apply keeps_put. by rewrite Hf. Qed.
End Keeps.

Ltac solve_keeps :=
  repeat lazymatch goal with
  | |- keeps _ _ (mret _) => apply keeps_ret
  | |- keeps _ _ (lift _) => apply keeps_lift
  | |- keeps _ _ (ask _) => apply keeps_ask
  | |- keeps _ _ (panic_none _) => apply keeps_panic
  | |- keeps _ _ (modify_ext _) => apply keeps_modify; intros ?; done
  | |- keeps _ _ (modify _) => apply keeps_modify; intros ?; repeat case_match; done
  | |- keeps _ _ (put _) => apply keeps_put; done
  | |- keeps _ _ (get ≫= _) => apply keeps_get; intros ? ?
  | |- keeps _ _ (_ ≫= _) => apply keeps_bind; [solve [eauto with keeps nocore]|intros ?] || (apply keeps_bind; [|intros ?])
  | |- keeps _ _ (match ?x with _ => _ end) => destruct x
  end.

Create HintDb keeps.

(** ** The preparation keeps the method *)

Section Method.
Context `{RequestDeps} {Ext : Type}.

Lemma keeps_check now c M : keeps meth M (run_check (Ext := Ext) now c).
Proof. intros req req' r Hq. unfold run_check. destruct (check now c) as [[c' o]|]; [|done]. by intros [= <- _]. Qed.

Lemma match_custom_route_keeps M (ccx : CallContext Ext) : keeps meth M (match_custom_route ccx).
Proof. unfold match_custom_route. solve_keeps. Qed.

Lemma apply_credentials_keeps M cred region : keeps meth M (apply_credentials (Ext := Ext) cred region).
Proof. unfold apply_credentials. solve_keeps. Qed.

Lemma verify_signature_keeps M now (ccx : CallContext Ext) vb vr n : keeps meth M (verify_signature now ccx vb vr n).
Proof.
  unfold verify_signature. apply keeps_get. intros req Hq. apply keeps_bind; [apply keeps_lift|]. intros path. apply keeps_bind; [apply keeps_lift|].
  intros dl. apply keeps_bind; [apply keeps_check|]. intros [c' cred]. apply keeps_bind; [apply keeps_modify; done|]. intros _.
  apply keeps_bind; [apply apply_credentials_keeps|]. intros _. solve_keeps.
Qed.

Lemma late_operation_keeps M minio policy_now host (ccx : CallContext Ext) : keeps meth M (late_operation minio policy_now host ccx).
Proof.
  unfold late_operation. apply keeps_get. intros req Hq. apply keeps_bind; [apply keeps_panic|]. intros p.
  assert (Hr : keeps (Ext := Ext) meth M (op ← panic_none (resolve_operation minio req p host ccx); op ← lift (map_err code op); mret (Routed op))) by solve_keeps.
  destruct (x_multipart (s3ext req)); [|exact Hr]. destruct (meth req); try exact Hr. destruct p; [apply keeps_lift| |apply keeps_lift].
  solve_keeps.
Qed.

Lemma authorize_keeps M (ccx : CallContext Ext) op p : keeps meth M (authorize ccx op p).
Proof. unfold authorize. solve_keeps. Qed.

Lemma prepare_body_keeps M op n config : keeps meth M (prepare_body (Ext := Ext) op n config).
Proof.
  unfold prepare_body. destruct (needs_full_body op); [|destruct (has_streaming_body op); [|apply keeps_ret]].
  - apply keeps_bind; [|intros; apply keeps_ret]. unfold extract_full_body, fail_if. solve_keeps.
  - unfold prepare_streaming_body, fail_if. apply keeps_get. intros req Hq. apply keeps_bind; [apply keeps_lift|]. intros cl.
    apply keeps_bind; [apply keeps_lift|]. intros _. solve_keeps.
Qed.

Lemma after_check_keeps M minio policy_now host op err hit n (ccx : CallContext Ext) : keeps meth M (after_check minio policy_now host op err hit n ccx).
Proof.
  unfold after_check. destruct hit; [apply keeps_ret|]. apply keeps_bind; [apply keeps_lift|]. intros _.
  apply keeps_bind; [destruct op; [apply keeps_ret|apply late_operation_keeps]|]. intros o. apply keeps_get. intros req Hq.
  apply keeps_bind; [apply keeps_panic|]. intros p. apply keeps_bind; [apply authorize_keeps|]. intros _.
  apply keeps_bind; [apply prepare_body_keeps|]. intros _. apply keeps_ret.
Qed.

Lemma prepare_method minio now policy_now ccx req req' r :
  prepare (Ext := Ext) minio now policy_now ccx req = Some (req', r) -> meth req' = meth req.
Proof.
  revert req'. assert (Hk : keeps meth (meth req) (prepare minio now policy_now ccx)); [|intros req' E; by eapply Hk].
  unfold prepare. cbv zeta. apply keeps_bind; [apply keeps_modify; intros r0; by destruct (injected r0) as (_ & -> & _)|]. intros _.
  apply keeps_get. intros r1 Hr1. do 2 (apply keeps_bind; [apply keeps_lift|]; intros ?). apply keeps_bind; [apply keeps_lift|]. intros [vh vr].
  apply keeps_bind; [apply match_custom_route_keeps|]. intros hit. do 2 (apply keeps_bind; [apply keeps_lift|]; intros ?; apply keeps_bind; [apply keeps_modify; done|]; intros ?).
  apply keeps_get. intros r2 Hr2. apply keeps_bind; [apply keeps_lift|]. intros n. apply keeps_bind; [apply keeps_panic|]. intros [rop err].
  apply keeps_bind; [apply verify_signature_keeps|]. intros n'. apply after_check_keeps.
Qed.
End Method.

(** ** Decoding keeps the head and the credentials *)

Section Frame.
Context `{HttpDeps} {Ext : Type}.

(** What [build_s3_request] copies. *)
Definition frame (req : Request Ext) :=
  (meth req, uri req, headers req, extensions req, x_credentials (s3ext req), x_region (s3ext req), x_service (s3ext req),
   x_trailing_headers (s3ext req)).

Section Steps.
Context (F : Method * Uri * HeaderMap * Ext * option Request.Credentials * option bytes * option bytes * bool).

Lemma unwrap_bucket_frame : keeps frame F unwrap_bucket.
Proof. unfold unwrap_bucket. solve_keeps. Qed.
Lemma unwrap_object_frame : keeps frame F unwrap_object.
Proof. unfold unwrap_object. solve_keeps. Qed.
Lemma header_timestamp_frame n fmt : keeps frame F (parse_opt_header_timestamp n fmt).
Proof. unfold parse_opt_header_timestamp. solve_keeps. Qed.
Lemma query_timestamp_frame n fmt : keeps frame F (parse_opt_query_timestamp n fmt).
Proof. unfold parse_opt_query_timestamp. solve_keeps. Qed.
Lemma full_body_frame : keeps frame F take_full_body.
Proof. unfold take_full_body. solve_keeps. Qed.
#[local] Hint Resolve full_body_frame : keeps.
Lemma xml_body_frame {T} `{Deserialize T} : keeps frame F (take_xml_body (T := T)).
Proof. unfold take_xml_body. solve_keeps. Qed.
Lemma opt_xml_body_frame {T} `{Deserialize T} : keeps frame F (take_opt_xml_body (T := T)).
Proof. unfold take_opt_xml_body. solve_keeps. Qed.
Lemma required_xml_body_frame {T} `{Deserialize T} : keeps frame F (required_xml_body (T := T)).
Proof.
  intros req req' r Hq. unfold required_xml_body. destruct (take_xml_body req) as [[req1 [b|e]]|] eqn:E; [| |done];
    intros [= <- _]; by eapply xml_body_frame.
Qed.
Lemma string_body_frame : keeps frame F take_string_body.
Proof. unfold take_string_body. solve_keeps. Qed.
Lemma stream_body_frame : keeps frame F take_stream_body.
Proof. unfold take_stream_body. solve_keeps. Qed.
#[local] Hint Resolve unwrap_bucket_frame unwrap_object_frame header_timestamp_frame query_timestamp_frame : keeps.
#[local] Hint Resolve xml_body_frame opt_xml_body_frame required_xml_body_frame string_body_frame stream_body_frame : keeps.

Lemma set_form_frame req : frame req = F -> keeps frame F (modify_ext (set_form None (x_trailing_headers (s3ext req)))).
Proof. intros Hr. apply keeps_get. intros c Hc. apply keeps_put. rewrite <- Hr in *. injection Hc. intros. unfold frame. simpl. congruence. Qed.
#[local] Hint Resolve set_form_frame : keeps.

Lemma multipart_frame m : keeps frame F (PutObject_deserialize_http_multipart m).
Proof. unfold PutObject_deserialize_http_multipart. solve_keeps. Qed.
#[local] Hint Resolve multipart_frame : keeps.

Lemma deserialize_http_keeps op : keeps frame F (deserialize_http op).
Proof.
  destruct op as [o|]; [destruct o|]; cbn [deserialize_http];
    try (match goal with |- keeps _ _ (?f _ _) => unfold f | |- keeps _ _ (?f _) => unfold f end); solve_keeps; auto with keeps.
Qed.
End Steps.

Lemma deserialize_http_frame op req req' r : deserialize_http op req = Some (req', r) -> frame req' = frame req.
Proof. by apply deserialize_http_keeps. Qed.
End Frame.
