(* ===== verification/Service.v ===== *)
(** * The service (crates/s3s/src/service.rs, protocol.rs, route.rs, s3_trait.rs,
    access/generated.rs; the calls of crates/s3s/src/ops/mod.rs and crates/s3s/src/ops/generated/)

    A request is prepared by [prepare], decoded by the operation it is for, shown to the access
    check of that operation, answered by the application and encoded; an error at any stage
    becomes an error document.

    The application is a [Service]: its S3 implementation and its custom route, which run on a state
    of their own, [App], and its access checks, as functions of what they are given.  [None] is a
    panic.  A call takes the state of the application and leaves the one it then has, so how often
    and when the application is asked is part of what a call is.  The handlers report error codes;
    [error_of] is the error that carries the code, with the texts and headers it has. *)

From S2P Require Import Prelude.
From S2P Require Import Str.
From S2P Require Import Path.
From S2P Require Import ErrorCode.
From S2P Require Import Handler.
From S2P Require Import Router.
From S2P Require Import Oir.
From S2P Require Import SigV4.
From S2P Require Import SignatureCheck.
From S2P Require Import Poll.
From S2P Require Import Stream.
From S2P Require Import Body.
From S2P Require Import Form.
From S2P Require Import PostPolicy.
From S2P Require Import Blob.
From S2P Require Import Host.
From S2P Require Import Request.
From S2P Require Import Response.
From S2P Require Import KeepAlive.
From S2P Require Import Range.
From S2P Require Import ETag.
From S2P Require Import Timestamp.
From S2P Require Import Xml.
From S2P Require Import XmlStruct.
From S2P Require Import XmlReference.
From S2P Require Import XmlDocs.
From S2P Require Import EventStream.
From S2P Require Import Rfc2047.
From S2P Require Import CopySource.
From S2P Require Import HeaderNames.
From S2P Require Import HttpDe.
From S2P Require Import HttpSer.
From S2P Require Import OpsTypes.
From S2P Require Import OpsDe.
From S2P Require Import OpsSer.
From S2P Require Import Dispatch.
From S2P Require Import OpsTable.
From S2P Require Import OpsWrites.
From S2P Require Import OpsFrame.

(** ** Requests and responses of the application (protocol.rs) *)

Record S3Request {Ext T : Type} := {
  q_input : T;
  q_method : Method;
  q_uri : Uri;
  q_headers : HeaderMap;
  q_extensions : Ext;
  q_credentials : option Credentials;
  q_region : option bytes;
  q_service : option bytes;
  q_trailing_headers : bool
}.
Arguments S3Request : clear implicits.

Record S3Response {Ext T : Type} := {
  p_output : T;
  p_status : option StatusCode;
  p_headers : HeaderMap;
  p_extensions : Ext
}.
Arguments S3Response : clear implicits.

Section Protocol.
Context {Ext T U : Type}.

Definition map_input (f : T -> U) (q : S3Request Ext T) : S3Request Ext U :=
  {| q_input := f (q_input q); q_method := q_method q; q_uri := q_uri q; q_headers := q_headers q;
     q_extensions := q_extensions q; q_credentials := q_credentials q; q_region := q_region q; q_service := q_service q;
     q_trailing_headers := q_trailing_headers q |}.

Definition map_output (f : T -> U) (p : S3Response Ext T) : S3Response Ext U :=
  {| p_output := f (p_output p); p_status := p_status p; p_headers := p_headers p; p_extensions := p_extensions p |}.

(** [S3Response::with_status] *)
Definition response_with_status `{Extensions Ext} (output : T) (status : StatusCode) : S3Response Ext T :=
  {| p_output := output; p_status := Some status; p_headers := []; p_extensions := ext_default |}.
End Protocol.

(** The text of the [minio]-free conversion of outputs. *)
Definition put_object_output_into_post_object_output (x : PutObjectOutput) : PostObjectOutput :=
  {| PostObjectOutput_bucket_key_enabled := PutObjectOutput_bucket_key_enabled x;
     PostObjectOutput_checksum_crc32 := PutObjectOutput_checksum_crc32 x;
     PostObjectOutput_checksum_crc32c := PutObjectOutput_checksum_crc32c x;
     PostObjectOutput_checksum_crc64nvme := PutObjectOutput_checksum_crc64nvme x;
     PostObjectOutput_checksum_md5 := PutObjectOutput_checksum_md5 x;
     PostObjectOutput_checksum_sha1 := PutObjectOutput_checksum_sha1 x;
     PostObjectOutput_checksum_sha256 := PutObjectOutput_checksum_sha256 x;
     PostObjectOutput_checksum_sha512 := PutObjectOutput_checksum_sha512 x;
     PostObjectOutput_checksum_type := PutObjectOutput_checksum_type x;
     PostObjectOutput_checksum_xxhash128 := PutObjectOutput_checksum_xxhash128 x;
     PostObjectOutput_checksum_xxhash3 := PutObjectOutput_checksum_xxhash3 x;
     PostObjectOutput_checksum_xxhash64 := PutObjectOutput_checksum_xxhash64 x;
     PostObjectOutput_e_tag := PutObjectOutput_e_tag x;
     PostObjectOutput_expiration := PutObjectOutput_expiration x;
     PostObjectOutput_request_charged := PutObjectOutput_request_charged x;
     PostObjectOutput_sse_customer_algorithm := PutObjectOutput_sse_customer_algorithm x;
     PostObjectOutput_sse_customer_key_md5 := PutObjectOutput_sse_customer_key_md5 x;
     PostObjectOutput_ssekms_encryption_context := PutObjectOutput_ssekms_encryption_context x;
     PostObjectOutput_ssekms_key_id := PutObjectOutput_ssekms_key_id x;
     PostObjectOutput_server_side_encryption := PutObjectOutput_server_side_encryption x;
     PostObjectOutput_size := PutObjectOutput_size x;
     PostObjectOutput_version_id := PutObjectOutput_version_id x |}.

(** ** Runs of the application *)

(** A value, an error, or a panic. *)
Definition outcome (A : Type) : Type := option (result S3Error A).
#[global] Instance outcome_ret : MRet outcome := fun A a => Some (Ok a).
#[global] Instance outcome_bind : MBind outcome := fun A B k m =>
  match m with Some (Ok a) => k a | Some (Err e) => Some (Err e) | None => None end.

(** A computation on the state of the application that may fail or panic. *)
Definition run (App A : Type) : Type := App -> option (App * result S3Error A).
#[global] Instance run_ret App : MRet (run App) := fun A a w => Some (w, Ok a).
#[global] Instance run_bind App : MBind (run App) := fun A B k m w =>
  match m w with Some (w', Ok a) => k a w' | Some (w', Err e) => Some (w', Err e) | None => None end.

(** What does not ask the application; the result of asking it; and an error that is dealt with. *)
Definition quiet {App A} (o : outcome A) : run App A := fun w => match o with Some r => Some (w, r) | None => None end.
Definition attempt {App A} (m : run App A) : run App (result S3Error A) := fun w => '(w', r) ← m w; Some (w', Ok r).
Definition catch {App A} (m : run App A) (h : S3Error -> run App A) : run App A := fun w =>
  match m w with Some (w', Err e) => h e w' | r => r end.

(** ** The application *)

Section Application.
Context `{PhfMap} {Ext App : Type}.

(** The [S3] trait: a handler for each operation. *)
Definition S3 : Type := forall op : Op, S3Request Ext (Input op) -> run App (S3Response Ext (Output op)).

Definition not_implemented (op : Op) : S3Error := with_message NotImplemented (Op_name op ++ str " is not implemented yet").

(** The default of [post_object], from [put_object]. *)
Definition default_post_object (put_object : S3Request Ext PutObjectInput -> run App (S3Response Ext PutObjectOutput))
    (req : S3Request Ext PostObjectInput) : run App (S3Response Ext PostObjectOutput) :=
  resp ← put_object (map_input post_object_input_into_put_object_input req);
  mret (map_output put_object_output_into_post_object_output resp).

(** [Err(s3_error!(NotImplemented, ..))] *)
Definition unimplemented (op : Op) {A} : run App A := quiet (Some (Err (not_implemented op))).

Definition S3_default : S3 := fun op =>
  match op with
  | PostObject => default_post_object (fun _ => unimplemented (Routed PutObject))
  | Routed o => fun _ => unimplemented (Routed o)
  end.

(** The checks of [S3Access] for the operations: they may change the request. *)
Definition S3Access : Type := forall op : Op, S3Request Ext (Input op) -> S3Request Ext (Input op) * result S3Error unit.
Definition S3Access_default : S3Access := fun _ req => (req, Ok tt).

(** [S3Route::check_access] by default *)
Definition default_check_access (req : S3Request Ext Body) : S3Request Ext Body * result S3Error unit :=
  (req, match q_credentials req with
        | Some _ => Ok tt
        | None => Err (with_message AccessDenied (str "Signature is required"))
        end).

(** [S3Service]; the per-operation checks belong to the access provider of the context, and the
    last two fields to its route. *)
Record Service := {
  sv_ccx : CallContext Ext;
  sv_s3 : S3;
  sv_access : S3Access;
  sv_check_access : S3Request Ext Body -> S3Request Ext Body * result S3Error unit;
  sv_route_call : S3Request Ext Body -> run App (S3Response Ext Body)
}.
End Application.
Arguments S3 : clear implicits.
Arguments S3Access : clear implicits.
Arguments Service : clear implicits.

(** The errors behind the codes. *)
Class ErrorTexts := {
  error_of : S3ErrorCode -> S3Error;
  error_of_code : forall c, code (error_of c) = c;
  (** the text of an error in a body that fails *)
  error_text : S3ErrorCode -> bytes
}.

(** ** Calls *)

Section Calls.
Context `{HttpDeps} `{CrcFast} `{UrlCrate} `{ErrorTexts} {Ext App : Type} `{Extensions Ext}.
Context (now policy_now : Z).
Implicit Types (req : Request Ext) (sv : Service Ext App).

Definition raise {A} (o : option (result S3ErrorCode A)) : outcome A := map_err error_of <$> o.

(** [build_s3_request]: the request keeps its method. *)
Definition build_s3_request {T} (input : T) req : S3Request Ext T :=
  let x := s3ext req in
  {| q_input := input; q_method := meth req; q_uri := uri req; q_headers := headers req; q_extensions := extensions req;
     q_credentials := x_credentials x; q_region := x_region x; q_service := x_service x;
     q_trailing_headers := x_trailing_headers x |}.

Definition decode (op : Op) req : outcome (S3Request Ext (Input op)) :=
  match deserialize_http op req with
  | Some (req, Ok input) => Some (Ok (build_s3_request input req))
  | Some (_, Err e) => Some (Err (error_of e))
  | None => None
  end.

(** [if let Some(access) = ccx.access { access.op(&mut s3_req).await?; }] *)
Definition check_op_access sv (op : Op) (s3_req : S3Request Ext (Input op)) : outcome (S3Request Ext (Input op)) :=
  if is_some (cc_access (sv_ccx sv)) then
    let '(s3_req, r) := sv_access sv op s3_req in
    Some (_ ← r; Ok s3_req)
  else mret s3_req.

Definition set_response_extensions (e : Ext) (res : Response Ext) : Response Ext :=
  {| r_status := r_status res; r_headers := r_headers res; r_body := r_body res; r_extensions := e |}.

(** [resp.headers.extend(..); resp.extensions.extend(..)] *)
Definition with_custom {T} (s3_resp : S3Response Ext T) (resp : Response Ext) : Response Ext :=
  set_response_extensions (ext_extend (r_extensions resp) (p_extensions s3_resp))
    (set_response_headers (header_extend (r_headers resp) (p_headers s3_resp)) resp).

(** [call] of the operations that are generated alike. *)
Definition generic_call sv (o : Operation) req : run App (Response Ext) :=
  s3_req ← quiet (decode (Routed o) req);
  s3_req ← quiet (check_op_access sv (Routed o) s3_req);
  result ← attempt (sv_s3 sv (Routed o) s3_req);
  match result with
  | Err err => quiet (raise (serialize_error err false))
  | Ok s3_resp => resp ← quiet (raise (serialize_http error_text o (p_output s3_resp))); mret (with_custom s3_resp resp)
  end.

Definition get_object_call sv req : run App (Response Ext) :=
  s3_req ← quiet (decode (Routed GetObject) req);
  s3_req ← quiet (check_op_access sv (Routed GetObject) s3_req);
  overridden_headers ← quiet (raise (extract_overridden_response_headers (q_input s3_req)));
  result ← attempt (sv_s3 sv (Routed GetObject) s3_req);
  match result with
  | Err err => quiet (raise (serialize_error err false))
  | Ok s3_resp =>
      resp ← quiet (raise (GetObject_serialize_http (p_output s3_resp)));
      let resp := set_response_headers (header_extend (r_headers resp) overridden_headers) resp in
      let resp := merge_custom_headers resp (p_headers s3_resp) in
      mret (set_response_extensions (ext_extend (r_extensions resp) (p_extensions s3_resp)) resp)
  end.

Definition post_object_call sv req : run App (Response Ext) :=
  post_req ← quiet (decode PostObject req);
  let post_input := q_input post_req in
  let success_action_redirect := PostObjectInput_success_action_redirect post_input in
  let success_action_status := PostObjectInput_success_action_status post_input in
  let bucket := PostObjectInput_bucket post_input in
  let key := PostObjectInput_key post_input in
  let put_req := map_input post_object_input_into_put_object_input post_req in
  put_req ← quiet (check_op_access sv (Routed PutObject) put_req);
  let post_req := map_input put_object_input_into_post_object_input put_req in
  let post_req := map_input (fun x =>
    set_post_fields success_action_redirect success_action_status (PostObjectInput_policy x) x) post_req in
  post_req ← quiet (check_op_access sv PostObject post_req);
  result ← attempt (sv_s3 sv PostObject post_req);
  match result with
  | Err err => quiet (raise (serialize_error err false))
  | Ok s3_resp =>
      resp ← quiet (raise (PostObject_serialize_http bucket key success_action_redirect success_action_status (p_output s3_resp)));
      mret (with_custom s3_resp resp)
  end.

Definition op_call sv (op : Op) req : run App (Response Ext) :=
  match op with
  | PostObject => post_object_call sv req
  | Routed GetObject => get_object_call sv req
  | Routed o => generic_call sv o req
  end.

(** [Response { status: s3_resp.status.unwrap_or_default(), .. }] *)
Definition route_response (s3_resp : S3Response Ext Body) : Response Ext :=
  {| r_status := default 200%Z (p_status s3_resp); r_headers := p_headers s3_resp; r_body := p_output s3_resp;
     r_extensions := p_extensions s3_resp |}.

(** The branch of a custom route. *)
Definition route_call sv req : run App (Response Ext) :=
  let config := cc_config (sv_ccx sv) in
  content_length ← quiet (raise (Some (extract_content_length req)));
  match reject_custom_route_body_too_large content_length (custom_route_max_body_size config) with
  | Err e => quiet (raise (serialize_error_for_method (meth req) (error_of e) false))
  | Ok _ =>
      let s3_req := build_s3_request (set_limit (custom_route_max_body_size config) (body req)) req in
      let '(s3_req, r) := sv_check_access sv s3_req in
      result ← attempt (quiet (Some r);; sv_route_call sv s3_req);
      match result with
      | Ok s3_resp => mret (route_response s3_resp)
      | Err err => quiet (raise (serialize_error_for_method (meth req) err false))
      end
  end.

(** [ops::call] *)
Definition call sv req : run App (Response Ext) :=
  match prepare false now policy_now (sv_ccx sv) req with
  | None => quiet None
  | Some (req, Err err) => quiet (raise (serialize_error_for_method (meth req) (error_of err) false))
  | Some (req, Ok (Dispatch.S3 op)) =>
      catch (op_call sv op req) (fun err => quiet (raise (serialize_error_for_method (meth req) err false)))
  | Some (req, Ok CustomRoute) => route_call sv req
  end.

(** [S3Service::call]: an error has no response, and the connection is aborted. *)
Inductive HttpError := from_std_error (err : S3Error).

Definition S3Service_call sv req : App -> option (App * result HttpError (Response Ext)) := fun w =>
  '(w', r) ← call sv (set_s3ext S3Extensions_default req) w;
  Some (w', map_err from_std_error r).
End Calls.

(** ** Errors as responses *)

Section ErrorResponses.
Context `{HttpDeps} {Ext : Type} `{Extensions Ext}.

(** The text of the document of an error, and whether XML allows its characters. *)
Definition error_document (e : S3Error) : bytes := default [] (document_text (document true (serialize e))).
Definition clean (e : S3Error) : bool := negb (existsb control_character (error_document e)).

(** The status of an error; and the response it becomes, when its document can be sent. *)
Definition response_status (e : S3Error) : StatusCode := default INTERNAL_SERVER_ERROR (error_status e).

Definition error_response (e : S3Error) : Response Ext :=
  if is_bodyless_status (response_status e)
  then {| r_status := response_status e;
          r_headers := header_remove (header_remove (header_remove (default [] (error_headers e)) CONTENT_LENGTH) CONTENT_TYPE) TRANSFER_ENCODING;
          r_body := Body.empty; r_extensions := ext_default |}
  else {| r_status := response_status e; r_headers := default [(CONTENT_TYPE, APPLICATION_XML)] (error_headers e);
          r_body := Body.once (error_document e); r_extensions := ext_default |}.

Definition sendable (e : S3Error) : bool := is_bodyless_status (response_status e) || clean e.

Lemma error_document_writes e : document_text (document true (serialize e)) = Some (error_document e).
Proof.
  unfold error_document. destruct (ser_S3Error_writes e) as [os E]. unfold serialize, serialize_S3Error, document.
  by cbn; rewrite E.
Qed.

Lemma serialize_error_eq e :
  serialize_error (Ext := Ext) e false = Some (if sendable e then Ok (error_response e) else Err InternalError).
Proof.
  unfold serialize_error, sendable, error_response, response_status. set (st := default _ (error_status e)).
  destruct (is_bodyless_status st); cbn [negb orb].
  - unfold respond, respond_from. by destruct (error_headers e).
  - unfold set_xml_body, set_xml_document, respond, respond_from, mbind at 1, ST_bind at 1.
    unfold clean, reject_control_characters. cbv [mbind ST_bind panic_none lift option_bind].
    rewrite error_document_writes. destruct (existsb _ _); [done|]. cbn. by destruct (error_headers e).
Qed.

Lemma serialize_error_for_method_eq m e :
  serialize_error_for_method (Ext := Ext) m e false =
  Some (if sendable e then Ok (match m with HEAD => strip_body (error_response e) | _ => error_response e end) else Err InternalError).
Proof. unfold serialize_error_for_method. rewrite serialize_error_eq. simpl. by destruct (sendable e). Qed.
End ErrorResponses.

(** ** What the application is asked *)

Section Invocations.
Context `{HttpDeps} `{CrcFast} `{UrlCrate} `{ErrorTexts} {Ext App : Type} `{Extensions Ext}.
Context (now policy_now : Z).
Implicit Types (req : Request Ext) (sv : Service Ext App).

Definition with_s3 (s3 : S3 Ext App) sv : Service Ext App :=
  {| sv_ccx := sv_ccx sv; sv_s3 := s3; sv_access := sv_access sv; sv_check_access := sv_check_access sv;
     sv_route_call := sv_route_call sv |}.

(** What a handler is called with, and what is made of its response. *)
Record Invocation := {
  inv_op : Op;
  inv_request : S3Request Ext (Input inv_op);
  inv_render : S3Response Ext (Output inv_op) -> outcome (Response Ext)
}.

Definition invoke_routed sv (o : Operation) req : outcome Invocation :=
  s3_req ← decode (Routed o) req;
  s3_req ← check_op_access sv (Routed o) s3_req;
  mret {| inv_op := Routed o; inv_request := s3_req;
          inv_render := fun p => resp ← raise (serialize_http error_text o (p_output p)); mret (with_custom p resp) |}.

Definition invoke_get_object sv req : outcome Invocation :=
  s3_req ← decode (Routed GetObject) req;
  s3_req ← check_op_access sv (Routed GetObject) s3_req;
  overridden_headers ← raise (extract_overridden_response_headers (q_input s3_req));
  mret {| inv_op := Routed GetObject; inv_request := s3_req;
          inv_render := fun p =>
            resp ← raise (GetObject_serialize_http (p_output p));
            let resp := set_response_headers (header_extend (r_headers resp) overridden_headers) resp in
            let resp := merge_custom_headers resp (p_headers p) in
            mret (set_response_extensions (ext_extend (r_extensions resp) (p_extensions p)) resp) |}.

(** The request of a POST form: as the access check of [put_object] leaves it, with the fields
    of the form that decide the response. *)
Definition post_request (x : PostObjectInput) (q : S3Request Ext PutObjectInput) : S3Request Ext PostObjectInput :=
  map_input (fun y => set_post_fields (PostObjectInput_success_action_redirect x) (PostObjectInput_success_action_status x)
                        (PostObjectInput_policy y) y)
    (map_input put_object_input_into_post_object_input q).

Definition invoke_post_object sv req : outcome Invocation :=
  post_req ← decode PostObject req;
  let x := q_input post_req in
  put_req ← check_op_access sv (Routed PutObject) (map_input post_object_input_into_put_object_input post_req);
  post_req ← check_op_access sv PostObject (post_request x put_req);
  mret {| inv_op := PostObject; inv_request := post_req;
          inv_render := fun p =>
            resp ← raise (PostObject_serialize_http (PostObjectInput_bucket x) (PostObjectInput_key x)
                     (PostObjectInput_success_action_redirect x) (PostObjectInput_success_action_status x) (p_output p));
            mret (with_custom p resp) |}.

Definition invoke sv (op : Op) req : outcome Invocation :=
  match op with
  | PostObject => invoke_post_object sv req
  | Routed GetObject => invoke_get_object sv req
  | Routed o => invoke_routed sv o req
  end.

(** The invocation a request leads to, if it leads to one. *)
Definition invocation sv req : option Invocation :=
  match prepare false now policy_now (sv_ccx sv) req with
  | Some (req', Ok (Dispatch.S3 op)) => match invoke sv op req' with Some (Ok i) => Some i | _ => None end
  | _ => None
  end.

(** The response that is made of what the handler of an invocation answers. *)
Definition response_to (i : Invocation) (r : result S3Error (S3Response Ext (Output (inv_op i)))) : outcome (Response Ext) :=
  match r with
  | Err err => raise (serialize_error err false)
  | Ok p => inv_render i p
  end.

(** The error that ends a call. *)
Definition fallback (m : Method) (r : outcome (Response Ext)) : outcome (Response Ext) :=
  match r with Some (Err err) => raise (serialize_error_for_method m err false) | r => r end.

(** The handler is asked once, and the state it leaves is the state that is left. *)
Definition asked (s3 : S3 Ext App) (i : Invocation) : run App (Response Ext) := fun w =>
  '(w', r) ← s3 (inv_op i) (inv_request i) w; quiet (response_to i r) w'.

Lemma quiet_ok {A B} (a : A) (k : A -> run App B) w : (quiet (Some (Ok a)) ≫= k) w = k a w.
Proof. done. Qed.

Lemma quiet_steps {A B} (o : outcome A) (k k' : A -> run App B) w :
  (forall a, k a w = k' a w) -> (quiet o ≫= k) w = (quiet o ≫= k') w.
Proof. intros E. unfold quiet, mbind, run_bind. destruct o as [[a|e]|]; [|done..]. cbn. apply E. Qed.

Lemma quiet_assoc {A B C} (o : outcome A) (f : A -> outcome B) (k : B -> run App C) w :
  (quiet (o ≫= f) ≫= k) w = (quiet o ≫= fun a => quiet (f a) ≫= k) w.
Proof. by destruct o as [[a|e]|]. Qed.

Lemma attempt_asked i (s3 : S3 Ext App) (k : result S3Error (S3Response Ext (Output (inv_op i))) -> run App (Response Ext)) w :
  (forall r w', k r w' = quiet (response_to i r) w') ->
  (attempt (s3 (inv_op i) (inv_request i)) ≫= k) w = asked s3 i w.
Proof.
  intros E. unfold attempt, asked, mbind, run_bind. destruct (s3 _ _ w) as [[w' r]|]; [|done]. cbn. apply E.
Qed.

Lemma quiet_render {A B} (o : outcome A) (f : A -> B) w : (a ← quiet o; (mret (f a) : run App B)) w = quiet (a ← o; mret (f a)) w.
Proof. by destruct o as [[a|e]|]. Qed.

Lemma generic_call_invokes sv o req w : generic_call sv o req w = (i ← quiet (invoke_routed sv o req); asked (sv_s3 sv) i) w.
Proof.
  unfold generic_call, invoke_routed. rewrite quiet_assoc. apply quiet_steps. intros q. rewrite quiet_assoc. apply quiet_steps. intros q'.
  set (i := {| inv_op := _ |}). apply (attempt_asked i). intros [p|e] w'; [apply quiet_render|done].
Qed.

(** An operation asks the application once, with the request its invocation has. *)
Lemma op_call_invokes sv op req w : op_call sv op req w = (i ← quiet (invoke sv op req); asked (sv_s3 sv) i) w.
Proof.
  destruct op as [o|].
  - assert (Hg : get_object_call sv req w = (i ← quiet (invoke_get_object sv req); asked (sv_s3 sv) i) w).
    { unfold get_object_call, invoke_get_object. rewrite quiet_assoc. apply quiet_steps. intros q. rewrite quiet_assoc. apply quiet_steps. intros q'.
      rewrite quiet_assoc. apply quiet_steps. intros hs. set (i := {| inv_op := _ |}). apply (attempt_asked i).
      intros [p|e] w'; [cbv zeta; apply quiet_render|done]. }
    destruct o; try apply generic_call_invokes. exact Hg.
  - cbn [op_call invoke]. unfold post_object_call, invoke_post_object. rewrite quiet_assoc. apply quiet_steps. intros q.
    cbv zeta. rewrite quiet_assoc. apply quiet_steps. intros q'. rewrite quiet_assoc. apply quiet_steps. intros q''.
    set (i := {| inv_op := _ |}). apply (attempt_asked i). intros [p|e] w'; [apply quiet_render|done].
Qed.

Lemma invoke_op sv op req i : invoke sv op req = Some (Ok i) -> inv_op i = op.
Proof.
  intros E. assert (Hr : forall o, invoke_routed sv o req = Some (Ok i) -> inv_op i = Routed o).
  { intros o. unfold invoke_routed. destruct (decode _ _) as [[q|]|]; [|done..]. cbn [mbind outcome_bind].
    destruct (check_op_access _ _ _) as [[q'|]|]; [|done..]. by intros [= <-]. }
  destruct op as [o|].
  - destruct o; try exact (Hr _ E). cbn [invoke] in E. unfold invoke_get_object in E. destruct (decode _ _) as [[q|]|]; [|done..].
    cbn [mbind outcome_bind] in E. destruct (check_op_access _ _ _) as [[q'|]|]; [|done..].
    cbn [mbind outcome_bind] in E. destruct (raise _) as [[hs|]|]; [|done..]. by injection E as <-.
  - cbn [invoke] in E. unfold invoke_post_object in E. destruct (decode _ _) as [[q|]|]; [|done..]. cbn [mbind outcome_bind] in E.
    destruct (check_op_access _ _ _) as [[q'|]|]; [|done..]. cbn [mbind outcome_bind] in E.
    destruct (check_op_access _ _ _) as [[q''|]|]; [|done..]. by injection E as <-.
Qed.

Lemma invoke_with_s3 sv s3 op req : invoke (with_s3 s3 sv) op req = invoke sv op req.
Proof. by destruct op as [[]|]. Qed.

(** A call, by what the application is asked. *)
Lemma call_invokes sv req i w : invocation sv req = Some i ->
  call now policy_now sv req w =
  ('(w', r) ← sv_s3 sv (inv_op i) (inv_request i) w; quiet (fallback (meth req) (response_to i r)) w').
Proof.
  unfold invocation, call. destruct (prepare _ _ _ _ _) as [[req' [[op|]|e]]|] eqn:E; try done.
  destruct (prepare_ok _ _ _ _ _ _ _ E) as (c & c' & cred & _ & _ & p & Ho).
  destruct (invoke sv op req') as [[i'|]|] eqn:Ei; [|done..]. intros [= ->]. unfold catch. rewrite op_call_invokes, Ei.
  rewrite <- (ho_method _ _ _ _ _ _ _ _ _ _ Ho), quiet_ok. unfold asked.
  destruct (sv_s3 sv _ _ w) as [[w' r]|]; [|done]. cbn. unfold quiet, fallback. by destruct (response_to i r) as [[]|].
Qed.

(** Without an invocation no handler is asked. *)
Lemma call_uninvoked sv s3 req w : invocation sv req = None -> call now policy_now (with_s3 s3 sv) req w = call now policy_now sv req w.
Proof.
  unfold invocation, call. cbn [with_s3 sv_ccx]. destruct (prepare _ _ _ _ _) as [[req' [[op|]|e]]|] eqn:E; try done.
  unfold catch. rewrite !op_call_invokes, invoke_with_s3. by destruct (invoke sv op req') as [[i'|]|].
Qed.

(** Then only the custom route may change the state, in one run, after its access check. *)
Lemma call_quiet sv req w w' r : invocation sv req = None -> call now policy_now sv req w = Some (w', r) ->
  w' = w \/ (is_some (cc_route (sv_ccx sv)) = true /\
    exists q q' x, sv_check_access sv q = (q', Ok tt) /\ sv_route_call sv q' w = Some (w', x)).
Proof.
  assert (Hq : forall A (o : outcome A) x, quiet o w = Some (w', x) -> w' = w) by (intros A [y|] x; cbn; congruence).
  unfold invocation, call. destruct (prepare _ _ _ _ _) as [[req' [[op|]|e]]|] eqn:E; [..|done].
  - unfold catch. rewrite op_call_invokes. destruct (invoke sv op req') as [[i'|]|]; [done|..]; [|done]. intros _ Hr. left. exact (Hq _ _ _ Hr).
  - intros _. destruct (prepare_ok _ _ _ _ _ _ _ E) as (c & c' & cred & _ & _ & Hroute).
    unfold route_call. destruct (extract_content_length req') as [n|e]; [|intros [= <- _]; by left]. change (raise (Some (Ok n))) with (Some (Ok n) : outcome (option Z)). rewrite quiet_ok.
    destruct (reject_custom_route_body_too_large _ _); [|intros Hr; left; by eapply Hq].
    match goal with |- context [sv_check_access sv ?x] => set (q := x) end. destruct (sv_check_access sv q) as [q' [[]|e]] eqn:Ea.
    + unfold attempt, mbind, run_bind. cbn. destruct (sv_route_call sv q' w) as [[w1 x]|] eqn:Er; [|done]. cbn. intros Hx. right.
      split; [done|]. exists q, q', x. split; [done|]. rewrite Er. destruct x as [p|e1]; [by injection Hx as <- _|].
      f_equal. f_equal. destruct (raise _); [|done]. by injection Hx as -> _.
    + intros Hr. left. exact (Hq _ _ _ Hr).
  - intros _ Hr. left. by eapply Hq.
Qed.

Lemma invocation_with_s3 sv s3 req : invocation (with_s3 s3 sv) req = invocation sv req.
Proof. unfold invocation. cbn [with_s3 sv_ccx]. repeat (case_match; try done). all: rewrite invoke_with_s3 in *; by simplify_eq. Qed.
End Invocations.

(** ** From the dispatch to the operation *)

Section Linked.
Context `{HttpDeps} `{CrcFast} `{UrlCrate} `{ErrorTexts} {Ext App : Type} `{Extensions Ext}.
Context (now policy_now : Z).
Implicit Types (req : Request Ext) (sv : Service Ext App).

Lemma first_match_routed {E} r qs minio m p (e : E) o :
  first_match Ok r qs (routes minio m p) (Err e) = Ok o -> o ∈ routed_ops minio m p.
Proof.
  unfold routed_ops. induction (routes minio m p) as [|x l IH]; [done|]. cbn [first_match map].
  destruct (route_matches r qs x); [intros [= <-]; left|]. intros Ho. right. by apply IH.
Qed.

(** What is handed to an operation is what it expects: the path has its shape, the body is in
    memory if it needs it whole, and a form is there exactly for the POST of one. *)
Lemma prepared_decodable ccx req req' op : method_wf (meth req) = true ->
  prepare false now policy_now ccx req = Some (req', Ok (Dispatch.S3 op)) -> decodable op req'.
Proof.
  intros Hw E. destruct (prepare_ok _ _ _ _ _ _ _ E) as (c & c' & cred & _ & _ & p & [_ Hp Hf _ _ Ho _ Hb]).
  unfold operation_found in Ho. constructor.
  - exists p. split; [done|]. destruct op as [o|]; [|by destruct Ho as (_ & b & f & f' & s & pol & -> & _)].
    destruct Ho as [(_ & _ & Ho)|Ho%first_match_routed]; by apply routed_paths in Ho as [Ho _].
  - destruct op as [o|]; [|done]. intros [= ->].
    destruct Ho as [(_ & _ & Ho)|Ho%first_match_routed]; by apply routed_paths in Ho as [_ Ho].
  - intros Hn. unfold body_prepared in Hb. rewrite Hn in Hb. destruct Hb as (x & Hx & _). by exists x.
  - intros Hn. destruct op as [o|]; [|done]. by apply (Hf Hw o).
  - intros ->. destruct Ho as (_ & b & f & f' & s & pol & -> & _ & _ & Hm & Hs & _). exists f', s. split_and!; [done..|]. by exists b.
Qed.

(** Why a request does not reach the application, and the error it is answered with. *)
Inductive refusal sv req : S3Error -> Prop :=
| refused_early req' c :
    prepare false now policy_now (sv_ccx sv) req = Some (req', Err c) -> refusal sv req (error_of c)
| refused_input op req' req'' c :
    prepare false now policy_now (sv_ccx sv) req = Some (req', Ok (Dispatch.S3 op)) ->
    deserialize_http op req' = Some (req'', Err c) -> client_fault c -> refusal sv req (error_of c)
| refused_access op checked req' q e :
    prepare false now policy_now (sv_ccx sv) req = Some (req', Ok (Dispatch.S3 op)) ->
    is_some (cc_access (sv_ccx sv)) = true -> snd (sv_access sv checked q) = Err e -> refusal sv req e
| refused_override req' x c :
    prepare false now policy_now (sv_ccx sv) req = Some (req', Ok (Dispatch.S3 (Routed GetObject))) ->
    extract_overridden_response_headers x = Some (Err c) -> refusal sv req (error_of c).

(** The error of an operation that was not invoked. *)
Definition not_invoked sv (op : Op) req (e : S3Error) : Prop :=
  (exists req' c, deserialize_http op req = Some (req', Err c) /\ client_fault c /\ e = error_of c) \/
  (is_some (cc_access (sv_ccx sv)) = true /\ exists checked q, snd (sv_access sv checked q) = Err e) \/
  (op = Routed GetObject /\ exists x c, extract_overridden_response_headers x = Some (Err c) /\ e = error_of c).

Lemma decode_cases sv op req : decodable op req ->
  (exists q, decode op req = Some (Ok q)) \/ (exists e, decode op req = Some (Err e) /\ not_invoked sv op req e).
Proof.
  intros Hd%decodes. unfold wp in Hd. unfold decode, not_invoked.
  destruct (deserialize_http op req) as [[req' [x|c]]|]; [left|right|done]; [by eexists|]. eexists. split; [done|]. left. eauto.
Qed.

Lemma access_cases sv op checked (q : S3Request Ext (Input checked)) req :
  (exists q', check_op_access sv checked q = Some (Ok q')) \/
  (exists e, check_op_access sv checked q = Some (Err e) /\ not_invoked sv op req e).
Proof.
  unfold check_op_access, not_invoked. destruct (is_some (cc_access (sv_ccx sv))) eqn:Ha; [|by left; eexists].
  destruct (sv_access sv checked q) as [q' [u|e]] eqn:E; [left; by eexists|right]. exists e. split; [done|]. right; left.
  split; [done|]. exists checked, q. by rewrite E.
Qed.

Context `{!PrintsTimes}.

(** An operation that is handed a request invokes the application, or knows why not. *)
Lemma invoke_cases sv op req : decodable op req ->
  (exists i, invoke sv op req = Some (Ok i)) \/ (exists e, invoke sv op req = Some (Err e) /\ not_invoked sv op req e).
Proof.
  intros Hd. pose proof (decode_cases sv op req Hd) as Hdec. destruct op as [o|].
  - assert (Hg : (exists i, invoke_routed sv o req = Some (Ok i)) \/
      (exists e, invoke_routed sv o req = Some (Err e) /\ not_invoked sv (Routed o) req e)).
    { unfold invoke_routed. destruct Hdec as [[q ->]|(e & -> & He)]; [|right; by exists e]. cbn [mbind outcome_bind].
      destruct (access_cases sv (Routed o) (Routed o) q req) as [[q' ->]|(e & -> & He)]; [left; by eexists|right; by exists e]. }
    destruct o; try exact Hg. cbn [invoke]. clear Hg. unfold invoke_get_object.
    destruct Hdec as [[q ->]|(e & -> & He)]; [|right; by exists e]. cbn [mbind outcome_bind].
    destruct (access_cases sv (Routed GetObject) (Routed GetObject) q req) as [[q' ->]|(e & -> & He)]; [|right; by exists e].
    cbn [mbind outcome_bind]. destruct (overridden_headers_return (q_input q')) as [[hs|c] E]; rewrite E; [left; by eexists|right].
    eexists. split; [done|]. right; right. split; [done|]. eauto.
  - cbn [invoke]. unfold invoke_post_object. destruct Hdec as [[q ->]|(e & -> & He)]; [|right; by exists e]. cbn [mbind outcome_bind].
    match goal with |- context [check_op_access sv ?o ?x] => destruct (access_cases sv PostObject o x req) as [[q' ->]|(e & -> & He)] end;
      [|right; by exists e]. cbn [mbind outcome_bind].
    match goal with |- context [check_op_access sv ?o ?x] => destruct (access_cases sv PostObject o x req) as [[q'' ->]|(e & -> & He)] end;
      [left; by eexists|right; by exists e].
Qed.

(** What the application answers is turned into a response, or into an error. *)
Lemma render_returns sv op req i : invoke sv op req = Some (Ok i) -> forall p, exists v, inv_render i p = Some v.
Proof.
  assert (Hraise : forall A B (o : option (result S3ErrorCode A)) (k : A -> B), (exists r, o = Some r) ->
    exists v, (a ← raise o; mret (k a)) = Some v).
  { intros A B o k [[a|e] ->]; by eexists. }
  intros E p. assert (Hr : forall o, invoke_routed sv o req = Some (Ok i) -> exists v, inv_render i p = Some v).
  { intros o. unfold invoke_routed. destruct (decode _ _) as [[q|]|]; [|done..]. cbn [mbind outcome_bind].
    destruct (check_op_access _ _ _) as [[q'|]|]; [|done..]. intros [= <-]. apply Hraise, serialize_http_returns. }
  destruct op as [o|].
  - destruct o; try exact (Hr _ E). cbn [invoke] in E. unfold invoke_get_object in E. destruct (decode _ _) as [[q|]|]; [|done..].
    cbn [mbind outcome_bind] in E. destruct (check_op_access _ _ _) as [[q'|]|]; [|done..].
    cbn [mbind outcome_bind] in E. destruct (raise _) as [[hs|]|]; [|done..]. injection E as <-. cbn [inv_render].
    cbv zeta. apply Hraise. exact (serialize_http_returns error_text GetObject (p_output p)).
  - cbn [invoke] in E. unfold invoke_post_object in E. destruct (decode _ _) as [[q|]|]; [|done..]. cbn [mbind outcome_bind] in E.
    destruct (check_op_access _ _ _) as [[q'|]|]; [|done..]. cbn [mbind outcome_bind] in E.
    destruct (check_op_access _ _ _) as [[q''|]|]; [|done..]. injection E as <-. apply Hraise, PostObject_serialize_returns.
Qed.
End Linked.

(** ** What the application is given *)

Section Given.
Context `{HttpDeps} `{CrcFast} `{UrlCrate} `{ErrorTexts} {Ext App : Type} `{Extensions Ext}.
Context (now policy_now : Z).
Implicit Types (req : Request Ext) (sv : Service Ext App).

Lemma decode_request op req q : decode op req = Some (Ok q) ->
  exists req' x, deserialize_http op req = Some (req', Ok x) /\ q = build_s3_request x req.
Proof.
  unfold decode. destruct (deserialize_http op req) as [[req' [x|e]]|] eqn:E; [|done..]. intros [= <-]. exists req', x. split; [done|].
  apply deserialize_http_frame in E. unfold frame in E. injection E as Hm Hu Hh He Hc Hr Hs Ht. unfold build_s3_request. by rewrite Hm, Hu, Hh, He, Hc, Hr, Hs, Ht.
Qed.

Lemma check_op_access_none sv op q : cc_access (sv_ccx sv) = None -> check_op_access sv op q = Some (Ok q).
Proof. unfold check_op_access. by intros ->. Qed.

(** The request part of an invocation, for an operation that was decoded to it. *)
Definition head {T} (q : S3Request Ext T) :=
  (q_method q, q_uri q, q_headers q, q_extensions q, q_credentials q, q_region q, q_service q, q_trailing_headers q).

Lemma invoked_head sv op req i : cc_access (sv_ccx sv) = None -> invoke sv op req = Some (Ok i) ->
  head (inv_request i) = frame req.
Proof.
  intros Ha. assert (Hr : forall o, invoke_routed sv o req = Some (Ok i) -> head (inv_request i) = frame req).
  { intros o. unfold invoke_routed. destruct (decode _ _) as [[q|]|] eqn:E; [|done..]. cbn [mbind outcome_bind].
    rewrite check_op_access_none by done. cbn [mbind outcome_bind]. intros [= <-]. by apply decode_request in E as (req' & x & _ & ->). }
  intros Ei. destruct op as [o|].
  - destruct o; try exact (Hr _ Ei). cbn [invoke] in Ei. unfold invoke_get_object in Ei. destruct (decode _ _) as [[q|]|] eqn:E; [|done..].
    cbn [mbind outcome_bind] in Ei. rewrite check_op_access_none in Ei by done. cbn [mbind outcome_bind] in Ei.
    destruct (raise _) as [[hs|]|]; [|done..]. injection Ei as <-. by apply decode_request in E as (req' & x & _ & ->).
  - cbn [invoke] in Ei. unfold invoke_post_object in Ei. destruct (decode _ _) as [[q|]|] eqn:E; [|done..]. cbn [mbind outcome_bind] in Ei.
    rewrite (check_op_access_none _ (Routed PutObject)) in Ei by done. cbn [mbind outcome_bind] in Ei.
    rewrite check_op_access_none in Ei by done. injection Ei as <-. by apply decode_request in E as (req' & x & _ & ->).
Qed.

(** The requests of the two uploads. *)
Definition put_object_request (i : Invocation (Ext := Ext)) : option (S3Request Ext PutObjectInput) :=
  match inv_op i as op return S3Request Ext (Input op) -> option (S3Request Ext PutObjectInput) with
  | Routed PutObject => Some
  | _ => fun _ => None
  end (inv_request i).

Definition post_object_request (i : Invocation (Ext := Ext)) : option (S3Request Ext PostObjectInput) :=
  match inv_op i as op return S3Request Ext (Input op) -> option (S3Request Ext PostObjectInput) with
  | PostObject => Some
  | _ => fun _ => None
  end (inv_request i).

Lemma invocation_inv sv req i : invocation now policy_now sv req = Some i ->
  exists req', prepare false now policy_now (sv_ccx sv) req = Some (req', Ok (Dispatch.S3 (inv_op i))) /\
    invoke sv (inv_op i) req' = Some (Ok i).
Proof.
  unfold invocation. destruct (prepare _ _ _ _ _) as [[req' [[op|]|e]]|]; try done. destruct (invoke sv op req') as [[i'|]|] eqn:Ei; [|done..].
  intros [= ->]. pose proof (invoke_op sv op req' i Ei) as ->. by exists req'.
Qed.

Lemma put_invoked sv req i q : cc_access (sv_ccx sv) = None -> put_object_request i = Some q ->
  invocation now policy_now sv req = Some i ->
  exists req' req'' x, prepare false now policy_now (sv_ccx sv) req = Some (req', Ok (Dispatch.S3 (Routed PutObject))) /\
    PutObject_deserialize_http req' = Some (req'', Ok x) /\ q = build_s3_request x req'.
Proof.
  intros Ha Hq (req' & E & Ei)%invocation_inv. assert (Ho : inv_op i = Routed PutObject) by (by destruct i as [[[]|] ? ?]).
  rewrite Ho in E, Ei. cbn [invoke] in Ei. unfold invoke_routed in Ei. destruct (decode _ _) as [[q'|]|] eqn:Ed; [|done..].
  cbn [mbind outcome_bind] in Ei. rewrite check_op_access_none in Ei by done. injection Ei as <-. injection Hq as ->.
  apply decode_request in Ed as (req'' & x & Ed & ->). by exists req', req'', x.
Qed.

Lemma post_invoked sv req i q : cc_access (sv_ccx sv) = None -> post_object_request i = Some q ->
  invocation now policy_now sv req = Some i ->
  exists req' req'' x, prepare false now policy_now (sv_ccx sv) req = Some (req', Ok (Dispatch.S3 PostObject)) /\
    PostObject_deserialize_http req' = Some (req'', Ok x) /\
    q_input q = set_post_fields (PostObjectInput_success_action_redirect x) (PostObjectInput_success_action_status x) None
      (put_object_input_into_post_object_input (post_object_input_into_put_object_input x)).
Proof.
  intros Ha Hq (req' & E & Ei)%invocation_inv. assert (Ho : inv_op i = PostObject) by (by destruct i as [[[]|] ? ?]).
  rewrite Ho in E, Ei. cbn [invoke] in Ei. unfold invoke_post_object in Ei. destruct (decode _ _) as [[q'|]|] eqn:Ed; [|done..].
  cbn [mbind outcome_bind] in Ei. rewrite (check_op_access_none _ (Routed PutObject)) in Ei by done. cbn [mbind outcome_bind] in Ei.
  rewrite check_op_access_none in Ei by done. injection Ei as <-. injection Hq as <-.
  apply decode_request in Ed as (req'' & x & Ed & ->). by exists req', req'', x.
Qed.

(** ** Properties *)

(** The answer to a request that ends with an error. *)
Definition report (m : Method) (e : S3Error) : result S3Error (Response Ext) :=
  if sendable e then Ok (match m with HEAD => strip_body (error_response e) | _ => error_response e end)
  else Err (error_of InternalError).

Lemma fallback_report m e : fallback m (Some (Err e)) = Some (report m e).
Proof. unfold fallback. rewrite serialize_error_for_method_eq. unfold report. by destruct (sendable e). Qed.

Lemma report_quiet m e (w : App) : quiet (raise (serialize_error_for_method m e false)) w = Some (w, report m e).
Proof. pose proof (fallback_report m e) as Hf. unfold fallback in Hf. by rewrite Hf. Qed.

(** A request that leads to an invocation was checked, and the handler is given what was. *)
Lemma invocation_checked sv req i : invocation now policy_now sv req = Some i ->
  exists c c' cred p req',
    checks (sv_ccx sv) req c /\ check now c = Some (c', Ok cred) /\
    (match cred with Some cr => authenticated now c cr | None => anonymous c c' end) /\
    handed_on false policy_now (sv_ccx sv) req c c' cred (inv_op i) p req' /\
    (is_some (cc_auth (sv_ccx sv)) = true -> cc_access (sv_ccx sv) = None -> exists cr, cred = Some cr) /\
    (cc_access (sv_ccx sv) = None -> head (inv_request i) = frame req' /\ q_credentials (inv_request i) = kept <$> cred).
Proof.
  intros (req' & E & Ei)%invocation_inv. pose proof (prepare_ok _ _ _ _ _ _ _ E) as (c & c' & cred & Hc & Hck & p & Ho).
  exists c, c', cred, p, req'. split; [done|]. split; [done|]. split; [by apply check_sound in Hck|]. split; [done|]. split.
  - intros Ha Hn. destruct (ho_granted _ _ _ _ _ _ _ _ _ _ Ho Ha) as (hs & e & Hg). unfold granted in Hg. rewrite Hn in Hg. destruct cred; [eauto|done].
  - intros Ha. pose proof (invoked_head _ _ _ _ Ha Ei) as Hh. split; [done|]. rewrite <- (ho_credentials _ _ _ _ _ _ _ _ _ _ Ho).
    unfold head, frame in Hh. by injection Hh.
Qed.

(** A check of the application let the request through. *)
Lemma access_let sv op q q' : check_op_access sv op q = Some (Ok q') -> is_some (cc_access (sv_ccx sv)) = true -> sv_access sv op q = (q', Ok tt).
Proof.
  unfold check_op_access. intros E Ha. rewrite Ha in E. destruct (sv_access sv op q) as [q1 [[]|e]]; [|done]. by injection E as ->.
Qed.

Lemma invocation_access sv req i : invocation now policy_now sv req = Some i ->
  is_some (cc_access (sv_ccx sv)) = true -> exists q, sv_access sv (inv_op i) q = (inv_request i, Ok tt).
Proof.
  intros (req' & _ & Ei)%invocation_inv Ha. revert Ei. generalize (inv_op i) at 1. intros op Ei.
  assert (Hr : forall o, invoke_routed sv o req' = Some (Ok i) -> exists q, sv_access sv (inv_op i) q = (inv_request i, Ok tt)).
  { intros o. unfold invoke_routed. destruct (decode _ _) as [[q|]|]; [|done..]. cbn [mbind outcome_bind].
    destruct (check_op_access _ _ _) as [[q'|]|] eqn:E; [|done..]. intros [= <-]. exists q. by apply access_let. }
  destruct op as [o|].
  - destruct o; try exact (Hr _ Ei). cbn [invoke] in Ei. unfold invoke_get_object in Ei. destruct (decode _ _) as [[q|]|]; [|done..].
    cbn [mbind outcome_bind] in Ei. destruct (check_op_access _ _ _) as [[q'|]|] eqn:E; [|done..].
    cbn [mbind outcome_bind] in Ei. destruct (raise _) as [[hs|]|]; [|done..]. injection Ei as <-. exists q. by apply access_let.
  - cbn [invoke] in Ei. unfold invoke_post_object in Ei. destruct (decode _ _) as [[q|]|]; [|done..]. cbn [mbind outcome_bind] in Ei.
    destruct (check_op_access _ _ _) as [[q'|]|]; [|done..]. cbn [mbind outcome_bind] in Ei.
    destruct (check_op_access sv PostObject _) as [[q''|]|] eqn:E; [|done..]. injection Ei as <-. eexists. by apply access_let.
Qed.

(** The blob of a put, read to a clean end, is what the check delivers. *)
Lemma put_delivers sv req i q :
  method_wf (meth req) = true -> remaining_limit (body req) = None ->
  (forall n, put_object_max_size (cc_config (sv_ccx sv)) = Some n -> (0 <= n)%Z) ->
  cc_access (sv_ccx sv) = None -> invocation now policy_now sv req = Some i -> put_object_request i = Some q ->
  exists b c c' cred, PutObjectInput_body (q_input q) = Some b /\ checks (sv_ccx sv) req c /\ check now c = Some (c', Ok cred) /\
    forall l, blob_read b = (l, None) ->
      delivers c' (concat l) /\ forall n, put_object_max_size (cc_config (sv_ccx sv)) = Some n -> (len (concat l) <= n)%Z.
Proof.
  intros Hw Hl Hn Ha Hi Hq. destruct (put_invoked sv req i q Ha Hq Hi) as (req' & req'' & x & Ep & Ed & ->).
  pose proof (prepared_decodable now policy_now _ _ _ _ Hw Ep) as [_ _ _ Hf _].
  apply PutObject_body in Ed; [|by apply Hf]. exists (blob_of_body (body req')).
  destruct (operation_body_facts false now policy_now (sv_ccx sv) req req' (Routed PutObject) Hl Hn Ep) as (c & c' & cred & Hc & Hck & Hb & _).
  exists c, c', cred. split; [done|]. split; [done|]. split; [done|]. intros l. rewrite blob_of_body_read. intros E.
  apply (Hb eq_refl). destruct (body_read (body req')) as [l' r]. destruct r; by injection E as ->.
Qed.

(** C1: the application is asked at most once for a request, and only for one that was let through.
    - A request with an invocation runs exactly the handler of that invocation, once and from the
      state the application had, and the state that the handler leaves is the state that is left:
      nothing else runs before or after it.  The answer is made of what the handler returns.
      - The signature check was made on this request and passed; the operation and the path are those
        that were routed from it.
      - With an authentication provider the access check of the service allowed it, and, unless the
        application has its own check, it carries verified credentials.
      - With a check of the application, that check of the operation let the request of the handler
        through; without one, the handler is given the head and the credentials of the request that
        was checked.
    - A request without one runs no handler, whatever the handlers are; only a custom route may then
      change the state of the application, in one run after its own access check. *)
Theorem application_mediated sv req :
  match invocation now policy_now sv req with
  | None =>
      (forall (s3 : S3 Ext App) w, call now policy_now (with_s3 s3 sv) req w = call now policy_now sv req w) /\
      (forall w w' r, call now policy_now sv req w = Some (w', r) ->
         w' = w \/ (is_some (cc_route (sv_ccx sv)) = true /\
           exists q q' x, sv_check_access sv q = (q', Ok tt) /\ sv_route_call sv q' w = Some (w', x)))
  | Some i =>
      (forall w, call now policy_now sv req w =
         ('(w', r) ← sv_s3 sv (inv_op i) (inv_request i) w; quiet (fallback (meth req) (response_to i r)) w')) /\
      (is_some (cc_access (sv_ccx sv)) = true -> exists q, sv_access sv (inv_op i) q = (inv_request i, Ok tt)) /\
      exists c c' cred p req',
        checks (sv_ccx sv) req c /\ check now c = Some (c', Ok cred) /\
        (match cred with Some cr => authenticated now c cr | None => anonymous c c' end) /\
        handed_on false policy_now (sv_ccx sv) req c c' cred (inv_op i) p req' /\
        (is_some (cc_auth (sv_ccx sv)) = true -> cc_access (sv_ccx sv) = None -> exists cr, cred = Some cr) /\
        (cc_access (sv_ccx sv) = None -> head (inv_request i) = frame req' /\ q_credentials (inv_request i) = kept <$> cred)
  end.
Proof.
  destruct (invocation now policy_now sv req) as [i|] eqn:E.
  - split; [intros w; by apply call_invokes|]. split; [exact (invocation_access sv req i E)|]. by apply invocation_checked.
  - split; [intros s3 w; by apply call_uninvoked|]. intros w w' r. by apply call_quiet.
Qed.


(** An upload is stored from verified data.  The blob that the handler of PutObject is given,
    read to a clean end, is what the signature check of the request delivers, and at most the
    configured maximum. *)
Theorem upload_verified sv req i q :
  method_wf (meth req) = true -> remaining_limit (body req) = None ->
  (forall n, put_object_max_size (cc_config (sv_ccx sv)) = Some n -> (0 <= n)%Z) ->
  cc_access (sv_ccx sv) = None -> invocation now policy_now sv req = Some i -> put_object_request i = Some q ->
  exists b c c' cred, PutObjectInput_body (q_input q) = Some b /\ checks (sv_ccx sv) req c /\ check now c = Some (c', Ok cred) /\
    forall l, blob_read b = (l, None) ->
      delivers c' (concat l) /\ forall n, put_object_max_size (cc_config (sv_ccx sv)) = Some n -> (len (concat l) <= n)%Z.
Proof.
  intros. by eapply put_delivers.
Qed.

(** An error of the application is answered with its document also to HEAD, while every other
    error is answered to HEAD without a body. *)
Theorem head_error_keeps_body sv req i w w' e :
  invocation now policy_now sv req = Some i -> sv_s3 sv (inv_op i) (inv_request i) w = Some (w', Err e) -> sendable e = true ->
  call now policy_now sv req w = Some (w', Ok (error_response e)).
Proof.
  intros Hi He Hs. rewrite (call_invokes _ _ sv req i w Hi), He. cbn [mbind option_bind response_to]. by rewrite serialize_error_eq, Hs.
Qed.

Definition set_status (st : option StatusCode) {T} (p : S3Response Ext T) : S3Response Ext T :=
  {| p_output := p_output p; p_status := st; p_headers := p_headers p; p_extensions := p_extensions p |}.

Lemma invoke_status sv op req i st p : invoke sv op req = Some (Ok i) -> inv_render i (set_status st p) = inv_render i p.
Proof.
  assert (Hr : forall o, invoke_routed sv o req = Some (Ok i) -> inv_render i (set_status st p) = inv_render i p).
  { intros o. unfold invoke_routed. destruct (decode _ _) as [[q|]|]; [|done..]. cbn [mbind outcome_bind].
    destruct (check_op_access _ _ _) as [[q'|]|]; [|done..]. by intros [= <-]. }
  intros E. destruct op as [o|].
  - destruct o; try exact (Hr _ E). cbn [invoke] in E. unfold invoke_get_object in E. destruct (decode _ _) as [[q|]|]; [|done..].
    cbn [mbind outcome_bind] in E. destruct (check_op_access _ _ _) as [[q'|]|]; [|done..].
    cbn [mbind outcome_bind] in E. destruct (raise _) as [[hs|]|]; [|done..]. by injection E as <-.
  - cbn [invoke] in E. unfold invoke_post_object in E. destruct (decode _ _) as [[q|]|]; [|done..]. cbn [mbind outcome_bind] in E.
    destruct (check_op_access _ _ _) as [[q'|]|]; [|done..]. cbn [mbind outcome_bind] in E.
    destruct (check_op_access _ _ _) as [[q''|]|]; [|done..]. by injection E as <-.
Qed.

(** The status that a handler sets in its response is not used: whatever it is, the answer is the
    same. *)
Theorem response_status_ignored sv req (st : forall op, S3Request Ext (Input op) -> option StatusCode) w :
  call now policy_now (with_s3 (fun op q => p ← sv_s3 sv op q; mret (set_status (st op q) p)) sv) req w =
  call now policy_now sv req w.
Proof.
  destruct (invocation now policy_now sv req) as [i|] eqn:E; [|by apply call_uninvoked].
  rewrite (call_invokes _ _ sv req i w E). set (s3 := fun op q => _). pose proof E as E'. rewrite <- (invocation_with_s3 _ _ sv s3) in E'.
  rewrite (call_invokes _ _ (with_s3 s3 sv) req i w E'). unfold s3. cbn [with_s3 sv_s3]. unfold mbind at 2, run_bind.
  apply invocation_inv in E as (req' & _ & Ei). destruct (sv_s3 sv (inv_op i) (inv_request i) w) as [[w' [p|e]]|]; [|done..].
  cbn. by erewrite invoke_status.
Qed.

(** The policy of a POST form does not reach its handler: the conversion to the input of
    PutObject, for the access check, and back drops it, and only the redirect and the status
    are put back. *)
Theorem post_policy_dropped sv req i q :
  cc_access (sv_ccx sv) = None -> invocation now policy_now sv req = Some i -> post_object_request i = Some q ->
  PostObjectInput_policy (q_input q) = None.
Proof. intros Ha Hi Hq. destruct (post_invoked sv req i q Ha Hq Hi) as (req' & req'' & x & _ & _ & ->). done. Qed.

(** The access check of an operation also guards a service without an authentication provider. *)
Theorem op_access_always_checked sv req o req' q q' e :
  o <> GetObject -> prepare false now policy_now (sv_ccx sv) req = Some (req', Ok (Dispatch.S3 (Routed o))) ->
  decode (Routed o) req' = Some (Ok q) -> is_some (cc_access (sv_ccx sv)) = true -> sv_access sv (Routed o) q = (q', Err e) ->
  forall w, call now policy_now sv req w = Some (w, report (meth req) e).
Proof.
  intros Ho Ep Ed Ha Hs w. unfold call. rewrite Ep. unfold catch. rewrite op_call_invokes.
  assert (Ei : invoke sv (Routed o) req' = Some (Err e)).
  { replace (invoke sv (Routed o) req') with (invoke_routed sv o req') by (by destruct o). unfold invoke_routed. rewrite Ed.
    cbn [mbind outcome_bind]. unfold check_op_access. rewrite Ha, Hs. done. }
  rewrite Ei, (prepare_method _ _ _ _ _ _ _ Ep). exact (report_quiet (meth req) e w).
Qed.
End Given.

(** ** A service that runs *)

Definition toy_http_deps : HttpDeps :=
  {| hd_request := toy_request_deps; hd_xml := xml_reference; hd_quick := quick_xml_reference; hd_atoi := atoi_reference;
     hd_url := url_reference; hd_base64 := base64_reference |}.
Definition toy_url : UrlCrate := {| url_append := fun url _ => Some url |}.
Definition toy_errors : ErrorTexts :=
  {| error_of := fun c => {| code := c; message := None; request_id := None; status_code := None; error_headers := None |};
     error_of_code := fun _ => eq_refl; error_text := fun _ => str "error" |}.
Definition unit_extensions : Extensions unit := {| ext_default := tt; ext_extend := fun _ _ => tt |}.

Section ServiceWitness.
#[local] Existing Instance toy_http_deps.
#[local] Existing Instance toy_url.
#[local] Existing Instance toy_errors.
#[local] Existing Instance unit_extensions.
#[local] Existing Instance crc_reference.

(** A service whose application implements nothing, with the keys of [w_ccx]. *)
Definition w_service (auth : bool) : Service unit unit :=
  {| sv_ccx := w_ccx auth; sv_s3 := S3_default; sv_access := S3Access_default; sv_check_access := default_check_access;
     sv_route_call := fun _ => quiet (Some (Err (error_of NotImplemented))) |}.

Definition w_call (auth : bool) (req : Request unit) : option (result unit (StatusCode * bool)) :=
  match call w_now 0 (w_service auth) req tt with
  | Some (_, Ok res) => Some (Ok (r_status res, bytes_of (r_body res) =? Some (error_document (error_of AccessDenied))))
  | Some (_, Err _) => Some (Err tt)
  | None => None
  end.

(** The upload reaches the application, which does not implement it; with another key it is
    refused, and so is a change of the tags that is not signed. *)
Example calls_run :
  w_call true (w_put (str "key")) = Some (Ok (501%Z, false)) /\
  w_call true (w_put (str "kez")) = Some (Ok (403%Z, false)) /\
  w_call true (w_tag (str "abc")) = Some (Ok (403%Z, true)).
Proof. vm_compute. done. Qed.

#[local] Instance w_prints_times : PrintsTimes := reference_prints_times.

Lemma tag_not_invoked : invocation w_now 0 (w_service true) (w_tag (str "abc")) = None.
Proof. vm_compute. reflexivity. Qed.


Definition uploaded_data (i : option (Invocation (Ext := unit))) : option (list bytes * option BodyError) :=
  i ← i; q ← put_object_request i; b ← PutObjectInput_body (q_input q); Some (blob_read b).

Lemma upload_runs : exists i q b, invocation w_now 0 (w_service true) (w_put (str "key")) = Some i /\ put_object_request i = Some q /\
  PutObjectInput_body (q_input q) = Some b /\ blob_read b = ([take 20 w_data; drop 20 w_data], None).
Proof.
  assert (E : uploaded_data (invocation w_now 0 (w_service true) (w_put (str "key"))) = Some ([take 20 w_data; drop 20 w_data], None)).
  { vm_compute. reflexivity. }
  destruct (invocation w_now 0 (w_service true) (w_put (str "key"))) as [i|]; [|discriminate E]. unfold uploaded_data in E.
  cbn [mbind option_bind] in E. destruct (put_object_request i) as [q|] eqn:Eq; [|discriminate E]. cbn [mbind option_bind] in E.
  destruct (PutObjectInput_body (q_input q)) as [b|] eqn:Eb; [|discriminate E]. exists i, q, b. by injection E as ->.
Qed.

Lemma upload_verified_witness :
  exists i q b l, invocation w_now 0 (w_service true) (w_put (str "key")) = Some i /\ put_object_request i = Some q /\
    PutObjectInput_body (q_input q) = Some b /\ blob_read b = (l, None) /\ concat l = w_data /\ (len (concat l) <= 100)%Z.
Proof.
  destruct upload_runs as (i & q & b & Ei & Eq & Eb & Hl). exists i, q, b, [take 20 w_data; drop 20 w_data].
  split; [exact Ei|]. split; [exact Eq|]. split; [exact Eb|]. split; [exact Hl|]. split; [reflexivity|].
  destruct (upload_verified w_now 0 (w_service true) (w_put (str "key")) i q) as (b' & c & c' & cred & Hb & _ & _ & Hr).
  - reflexivity.
  - reflexivity.
  - intros n [= <-]. discriminate.
  - reflexivity.
  - exact Ei.
  - exact Eq.
  - assert (Hbb : b' = b) by congruence. subst b'. exact (proj2 (Hr _ Hl) 100%Z eq_refl).
Defined.
End ServiceWitness.
