(* ===== verification/FsTree.v ===== *)
(** * A file tree (what crates/s3s-fs uses of [std::fs] and [tokio::fs])

    The files of a machine, by their absolute path: a file has its data and the time it was
    last modified, a directory the time it was created.  There are no links, and the operations
    fail for the reasons the tree gives, not for faults of the device.  [tree_ok] says that
    every entry is in a directory; every operation keeps it. *)

From stdpp Require Import gmap.
From S2P Require Import Prelude.
From S2P Require Import Str.

#[global] Instance byte_countable : Countable byte.
Proof.
  refine (inj_countable' Byte.to_N (fun n => default x00 (Byte.of_N n)) _). intros b. by rewrite Byte.of_to_N.
Defined.

(** The names from the root of the file system. *)
Abbreviation AbsPath := (list bytes).

Inductive Node := FileNode (data : bytes) (modified : Z) | DirNode (created : Z).
#[global] Instance Node_eq_dec : EqDecision Node.
Proof. solve_decision. Defined.

Abbreviation Files := (gmap AbsPath Node).

Inductive IoError := NotFound | AlreadyExists | NotADirectory | IsADirectory | DirectoryNotEmpty.
#[global] Instance IoError_eq_dec : EqDecision IoError.
Proof. solve_decision. Defined.

Section Tree.
Implicit Types (fs : Files) (p q : AbsPath).

Definition is_dir fs p : bool := match fs !! p with Some (DirNode _) => true | _ => false end.
Definition is_file fs p : bool := match fs !! p with Some (FileNode _ _) => true | _ => false end.

(** [path.parent()] *)
Definition parent p : option AbsPath := match p with [] => None | _ => Some (removelast p) end.

(** Whether [p] is above [q], or [q]. *)
Definition above p q : bool := take (length p) q =? p.

(** The path goes through a file. *)
Definition blocked fs p : bool := existsb (fun n => is_file fs (take n p)) (seq 0 (length p)).

(** [fs::metadata], which opening a file starts with. *)
Definition stat fs p : result IoError Node :=
  match fs !! p with
  | Some n => Ok n
  | None => Err (if blocked fs p then NotADirectory else NotFound)
  end.

(** [path.exists()] *)
Definition path_exists fs p : bool := match stat fs p with Ok _ => true | Err _ => false end.

(** A place where an entry can be made. *)
Definition vacant fs p : result IoError unit :=
  match parent p with
  | Some d => n ← stat fs d; match n with DirNode _ => Ok tt | FileNode _ _ => Err NotADirectory end
  | None => Err AlreadyExists
  end.

(** [fs::read] *)
Definition read_file fs p : result IoError bytes :=
  n ← stat fs p;
  match n with FileNode data _ => Ok data | DirNode _ => Err IsADirectory end.

(** [fs::create_dir] *)
Definition create_dir (now : Z) p fs : result IoError Files :=
  match fs !! p with
  | Some _ => Err AlreadyExists
  | None => _ ← vacant fs p; Ok (<[p := DirNode now]> fs)
  end.

(** [fs::create_dir_all], from the directory [d] that is there. *)
Fixpoint create_dirs (now : Z) (d : AbsPath) (names : list bytes) fs : result IoError Files :=
  match names with
  | [] => Ok fs
  | x :: names' =>
      let p := d ++ [x] in
      match fs !! p with
      | Some (DirNode _) => create_dirs now p names' fs
      | Some (FileNode _ _) => Err NotADirectory
      | None => create_dirs now p names' (<[p := DirNode now]> fs)
      end
  end.
Definition create_dir_all (now : Z) p fs : result IoError Files := create_dirs now [] p fs.

(** [File::create] and the writes to it. *)
Definition write_file (now : Z) p (data : bytes) fs : result IoError Files :=
  match fs !! p with
  | Some (DirNode _) => Err IsADirectory
  | Some (FileNode _ _) => Ok (<[p := FileNode data now]> fs)
  | None => _ ← vacant fs p; Ok (<[p := FileNode data now]> fs)
  end.

(** [file.set_times(..set_modified(now))] of a file that is opened for writing *)
Definition touch_file (now : Z) p fs : result IoError Files :=
  data ← read_file fs p; Ok (<[p := FileNode data now]> fs).

(** [fs::copy]: copying a file to itself truncates it. *)
Definition copy_file (now : Z) (src dst : AbsPath) fs : result IoError Files :=
  data ← read_file fs src;
  write_file now dst (if src =? dst then [] else data) fs.

(** [fs::rename] of a file; only files are renamed. *)
Definition rename_file (src dst : AbsPath) fs : result IoError Files :=
  n ← stat fs src;
  match n with
  | DirNode _ => Err IsADirectory
  | FileNode _ _ =>
      match fs !! dst with
      | Some (DirNode _) => Err IsADirectory
      | Some (FileNode _ _) => Ok (<[dst := n]> (delete src fs))
      | None => _ ← vacant fs dst; Ok (<[dst := n]> (delete src fs))
      end
  end.

(** [fs::remove_file] *)
Definition remove_file p fs : result IoError Files :=
  n ← stat fs p;
  match n with FileNode _ _ => Ok (delete p fs) | DirNode _ => Err IsADirectory end.

(** The entries of a directory, without the order the system gives them. *)
Definition entries fs p : list bytes :=
  omap (fun kv => if above p (fst kv) && (length (fst kv) =? S (length p))%nat then last (fst kv) else None) (map_to_list fs).

(** [fs::remove_dir] and [fs::remove_dir_all] *)
Definition remove_dir p fs : result IoError Files :=
  n ← stat fs p;
  match n with
  | FileNode _ _ => Err NotADirectory
  | DirNode _ => match entries fs p with [] => Ok (delete p fs) | _ => Err DirectoryNotEmpty end
  end.
Definition remove_dir_all p fs : result IoError Files :=
  n ← stat fs p;
  match n with
  | FileNode _ _ => Err NotADirectory
  | DirNode _ => Ok (filter (fun kv => above p (fst kv) = false) fs)
  end.

(** ** The invariant *)

Definition tree_ok fs : Prop := is_dir fs [] = true /\ forall d x, is_Some (fs !! (d ++ [x])) -> is_dir fs d = true.

(** A name of an entry, and that all names are. *)
Definition name_ok (x : bytes) : bool := negb (x =? []) && negb (bool_decide ("/"%byte ∈ x)) && negb (x =? str ".") && negb (x =? str "..").
Definition names_ok fs : Prop := forall p, is_Some (fs !! p) -> Forall (fun x => name_ok x = true) p.

Lemma parent_snoc d x : parent (d ++ [x]) = Some d.
Proof. unfold parent. destruct (d ++ [x]) eqn:E; [by destruct d|]. by rewrite <- E, removelast_last. Qed.

Lemma path_cases p : p = [] \/ exists d x, p = d ++ [x].
Proof. induction p using rev_ind; [by left|right; eauto]. Qed.

Lemma above_iff p q : above p q = true <-> exists r, q = p ++ r.
Proof.
  unfold above. rewrite bool_decide_eq_true. split; [|by intros [r ->]; rewrite take_app_length].
  intros E. exists (drop (length p) q). by rewrite <- E at 1; rewrite take_drop.
Qed.

Lemma stat_ok fs p n : stat fs p = Ok n <-> fs !! p = Some n.
Proof. unfold stat. destruct (fs !! p); split; by intros [= ->]. Qed.

Lemma vacant_ok fs p u : vacant fs p = Ok u <-> exists d x, p = d ++ [x] /\ is_dir fs d = true.
Proof.
  destruct u. destruct (path_cases p) as [->|(d & x & ->)].
  - split; [done|]. by intros ([] & x & E & _).
  - unfold vacant. rewrite parent_snoc. unfold is_dir, stat. split.
    + intros E. exists d, x. split; [done|]. destruct (fs !! d) as [[]|]; done.
    + intros (d' & x' & [-> _]%app_inj_tail & Hd). by destruct (fs !! d') as [[]|].
Qed.

(** Adding an entry to a directory, changing a file, and removing an entry that holds nothing. *)
Lemma tree_insert fs d x n : tree_ok fs -> is_dir fs d = true -> is_file fs (d ++ [x]) = true \/ fs !! (d ++ [x]) = None \/ (exists t, n = DirNode t) ->
  tree_ok (<[d ++ [x] := n]> fs).
Proof.
  unfold tree_ok, is_dir, is_file. intros [H0 Hp] Hd Hn.
  assert (Hne : forall q, (match fs !! q with Some (DirNode _) => true | _ => false end) = true ->
    (match <[d ++ [x] := n]> fs !! q with Some (DirNode _) => true | _ => false end) = true).
  { intros q Hq. destruct (decide (q = d ++ [x])) as [->|]; [|by rewrite lookup_insert_ne].
    rewrite lookup_insert_eq. destruct Hn as [Hn|[Hn|[t ->]]]; [by destruct (fs !! (d ++ [x])) as [[]|]|by rewrite Hn in Hq|done]. }
  split; [by apply Hne|]. intros d' x' Hs. apply Hne. destruct (decide (d' ++ [x'] = d ++ [x])) as [E|].
  - by apply app_inj_tail in E as [-> _].
  - apply (Hp d' x'). by rewrite lookup_insert_ne in Hs.
Qed.

Lemma tree_delete fs p : tree_ok fs -> p <> [] -> (forall x, fs !! (p ++ [x]) = None) -> tree_ok (delete p fs).
Proof.
  unfold tree_ok, is_dir. intros [H0 Hp] Hne Hc. split; [by rewrite lookup_delete_ne|]. intros d x Hs.
  destruct (decide (d ++ [x] = p)) as [<-|]; [by rewrite lookup_delete_eq in Hs; destruct Hs|]. rewrite lookup_delete_ne in Hs by done.
  specialize (Hp d x Hs). destruct (decide (d = p)) as [->|]; [rewrite Hc in Hs; by destruct Hs|by rewrite lookup_delete_ne].
Qed.

Lemma file_no_children fs p : tree_ok fs -> is_file fs p = true -> forall x, fs !! (p ++ [x]) = None.
Proof.
  unfold is_file. intros [_ Hp] Hf x. specialize (Hp p x). unfold is_dir in Hp. destruct (fs !! (p ++ [x])); [|done].
  specialize (Hp ltac:(eauto)). by destruct (fs !! p) as [[]|].
Qed.

Lemma entries_spec fs p x : x ∈ entries fs p <-> is_Some (fs !! (p ++ [x])).
Proof.
  unfold entries. rewrite list_elem_of_omap. split.
  - intros ([q n] & Hq%elem_of_map_to_list & E). simpl in E. destruct (above p q) eqn:Ha; [|done]. apply above_iff in Ha as [r ->].
    destruct (Nat.eqb_spec (length (p ++ r)) (S (length p))) as [Hl|]; [|done]. rewrite length_app in Hl.
    destruct r as [|y []]; simpl in Hl; try lia. cbn [andb] in E. rewrite last_snoc in E. injection E as ->. eauto.
  - intros [n E]. exists (p ++ [x], n). split; [by apply elem_of_map_to_list|]. simpl.
    rewrite (proj2 (above_iff p (p ++ [x]))) by eauto. rewrite length_app, Nat.add_1_r, Nat.eqb_refl. simpl. apply last_snoc.
Qed.

Lemma entries_NoDup fs p : NoDup (entries fs p).
Proof.
  unfold entries. pose proof (NoDup_fst_map_to_list fs) as Hnd. revert Hnd.
  generalize (map_to_list fs). intros l. induction l as [|[q n] l IH]; [constructor|]. cbn [map fst]. intros [Hq Hnd]%NoDup_cons.
  cbn [omap list_omap]. simpl fst. destruct (above p q && (length q =? S (length p))%nat) eqn:Ec; [|by apply IH].
  apply andb_true_iff in Ec as [Ha Hl]. apply above_iff in Ha as [r ->]. apply Nat.eqb_eq in Hl. rewrite length_app in Hl.
  destruct r as [|x []]; simpl in Hl; try lia. rewrite last_snoc. constructor; [|by apply IH]. intros Hx. apply Hq.
  apply list_elem_of_omap in Hx as ([q' n'] & Hin & E). simpl in E. destruct (above p q') eqn:Ha'; [|done].
  apply above_iff in Ha' as [r' ->]. destruct (Nat.eqb_spec (length (p ++ r')) (S (length p))) as [Hl'|]; [|done]. rewrite length_app in Hl'.
  destruct r' as [|y []]; simpl in Hl'; try lia. cbn [andb] in E. rewrite last_snoc in E. injection E as ->.
  apply list_elem_of_fmap. by exists (p ++ [x], n').
Qed.
End Tree.
