(* ===== verification/Checksums.v ===== *)
(** * Checksums (crates/s3s/src/crypto.rs, crates/s3s/src/checksum.rs, crates/s3s-fs/src/checksum.rs)

    The hash functions behind one interface, the hasher that runs those that are enabled in one
    pass, and the checksums in the information that the file system keeps of an object.  The hash
    functions are those of other crates: [StreamHash]. *)

From stdpp Require Import gmap.
From S2P Require Import Prelude.
From S2P Require Import Str.
From S2P Require Import ErrorCode.
From S2P Require Import ETag.
From S2P Require Import EventStream.
From S2P Require Import XmlDtoA.
From S2P Require Import XmlDtoC.
From S2P Require Import Rfc2047.
From S2P Require Import FsTree.

(** ** The hash functions (crypto.rs) *)

(** A hash function that is fed by pieces: the result is that of their concatenation. *)
Record StreamHash := {
  hs_state : Type;
  hs_new : hs_state;
  hs_update : hs_state -> bytes -> hs_state;
  hs_digest : hs_state -> bytes;
  hs_pieces : forall l, hs_digest (foldl hs_update hs_new l) = hs_digest (hs_update hs_new (concat l))
}.

Inductive CrcAlgorithm := Crc32IsoHdlc | Crc32Iscsi | AlgCrc64Nvme.

(** The functions of the crates: those that give a number give it as the bytes of a [u64] or [u128]. *)
Class HashCrates := {
  crc_fast : CrcAlgorithm -> StreamHash;
  sha1_Sha1 : StreamHash;
  sha2_Sha256 : StreamHash;
  sha2_Sha512 : StreamHash;
  md5_Md5 : StreamHash;
  xxh64 : Z -> StreamHash;
  xxh3_64 : StreamHash;
  xxh3_128 : StreamHash
}.

(** [serde_json::Value] and [serde_json::Map] *)
Inductive Value := VNull | VBool (b : bool) | VNumber (text : bytes) | VString (s : bytes) | VArray (l : list Value) | VObject (l : list (bytes * Value)).
Abbreviation InternalInfo := (gmap bytes Value).

Section Checksums.
Context `{HashCrates} `{Base64}.

(** The trait [Checksum]; an implementation is the crate's function and the form of its result. *)
Record Checksum_impl := { ck_hash : StreamHash; ck_output : bytes -> bytes }.

(** [finalize().truncating_cast::<u32>().to_be_bytes()] of a number of 8 bytes *)
Definition Crc32 : Checksum_impl := {| ck_hash := crc_fast Crc32IsoHdlc; ck_output := drop 4 |}.
Definition Crc32c : Checksum_impl := {| ck_hash := crc_fast Crc32Iscsi; ck_output := drop 4 |}.
Definition Crc64Nvme : Checksum_impl := {| ck_hash := crc_fast AlgCrc64Nvme; ck_output := id |}.
Definition Sha1 : Checksum_impl := {| ck_hash := sha1_Sha1; ck_output := id |}.
Definition Sha256 : Checksum_impl := {| ck_hash := sha2_Sha256; ck_output := id |}.
Definition Sha512 : Checksum_impl := {| ck_hash := sha2_Sha512; ck_output := id |}.
Definition Md5 : Checksum_impl := {| ck_hash := md5_Md5; ck_output := id |}.
Definition XxHash64 : Checksum_impl := {| ck_hash := xxh64 0; ck_output := id |}.
Definition XxHash3 : Checksum_impl := {| ck_hash := xxh3_64; ck_output := id |}.
Definition XxHash128 : Checksum_impl := {| ck_hash := xxh3_128; ck_output := id |}.

Definition ck_state (c : Checksum_impl) : Type := hs_state (ck_hash c).
Definition ck_new (c : Checksum_impl) : ck_state c := hs_new (ck_hash c).
Definition ck_update (c : Checksum_impl) (h : ck_state c) (data : bytes) : ck_state c := hs_update (ck_hash c) h data.
Definition ck_finalize (c : Checksum_impl) (h : ck_state c) : bytes := ck_output c (hs_digest (ck_hash c) h).
(** [Checksum::checksum]: the digest of a buffer *)
Definition checksum (c : Checksum_impl) (data : bytes) : bytes := ck_finalize c (ck_update c (ck_new c) data).

(** ** The hasher (checksum.rs) *)

Record ChecksumHasher := mk_ChecksumHasher {
  crc32 : option (ck_state Crc32);
  crc32c : option (ck_state Crc32c);
  sha1 : option (ck_state Sha1);
  sha256 : option (ck_state Sha256);
  sha512 : option (ck_state Sha512);
  crc64nvme : option (ck_state Crc64Nvme);
  md5 : option (ck_state Md5);
  xxhash64 : option (ck_state XxHash64);
  xxhash3 : option (ck_state XxHash3);
  xxhash128 : option (ck_state XxHash128)
}.

(** [default()] *)
Definition hasher_default : ChecksumHasher := mk_ChecksumHasher None None None None None None None None None None.

Definition hasher_update (self : ChecksumHasher) (data : bytes) : ChecksumHasher :=
  {| crc32 := (fun h => ck_update Crc32 h data) <$> crc32 self;
     crc32c := (fun h => ck_update Crc32c h data) <$> crc32c self;
     sha1 := (fun h => ck_update Sha1 h data) <$> sha1 self;
     sha256 := (fun h => ck_update Sha256 h data) <$> sha256 self;
     sha512 := (fun h => ck_update Sha512 h data) <$> sha512 self;
     crc64nvme := (fun h => ck_update Crc64Nvme h data) <$> crc64nvme self;
     md5 := (fun h => ck_update Md5 h data) <$> md5 self;
     xxhash64 := (fun h => ck_update XxHash64 h data) <$> xxhash64 self;
     xxhash3 := (fun h => ck_update XxHash3 h data) <$> xxhash3 self;
     xxhash128 := (fun h => ck_update XxHash128 h data) <$> xxhash128 self |}.

(** [Self::base64] *)
Definition base64 (input : bytes) : bytes := encode_to_string input.

Definition hasher_finalize (self : ChecksumHasher) : Checksum :=
  {| Checksum_checksum_crc32 := (fun h => base64 (ck_finalize Crc32 h)) <$> crc32 self;
     Checksum_checksum_crc32c := (fun h => base64 (ck_finalize Crc32c h)) <$> crc32c self;
     Checksum_checksum_crc64nvme := (fun h => base64 (ck_finalize Crc64Nvme h)) <$> crc64nvme self;
     Checksum_checksum_md5 := (fun h => base64 (ck_finalize Md5 h)) <$> md5 self;
     Checksum_checksum_sha1 := (fun h => base64 (ck_finalize Sha1 h)) <$> sha1 self;
     Checksum_checksum_sha256 := (fun h => base64 (ck_finalize Sha256 h)) <$> sha256 self;
     Checksum_checksum_sha512 := (fun h => base64 (ck_finalize Sha512 h)) <$> sha512 self;
     Checksum_checksum_xxhash128 := (fun h => base64 (ck_finalize XxHash128 h)) <$> xxhash128 self;
     Checksum_checksum_xxhash3 := (fun h => base64 (ck_finalize XxHash3 h)) <$> xxhash3 self;
     Checksum_checksum_xxhash64 := (fun h => base64 (ck_finalize XxHash64 h)) <$> xxhash64 self;
     Checksum_checksum_type := None |}.

(** The sums of all the data for what was enabled. *)
Definition sums_of (self : ChecksumHasher) (data : bytes) : Checksum :=
  {| Checksum_checksum_crc32 := (fun _ => base64 (checksum Crc32 data)) <$> crc32 self;
     Checksum_checksum_crc32c := (fun _ => base64 (checksum Crc32c data)) <$> crc32c self;
     Checksum_checksum_crc64nvme := (fun _ => base64 (checksum Crc64Nvme data)) <$> crc64nvme self;
     Checksum_checksum_md5 := (fun _ => base64 (checksum Md5 data)) <$> md5 self;
     Checksum_checksum_sha1 := (fun _ => base64 (checksum Sha1 data)) <$> sha1 self;
     Checksum_checksum_sha256 := (fun _ => base64 (checksum Sha256 data)) <$> sha256 self;
     Checksum_checksum_sha512 := (fun _ => base64 (checksum Sha512 data)) <$> sha512 self;
     Checksum_checksum_xxhash128 := (fun _ => base64 (checksum XxHash128 data)) <$> xxhash128 self;
     Checksum_checksum_xxhash3 := (fun _ => base64 (checksum XxHash3 data)) <$> xxhash3 self;
     Checksum_checksum_xxhash64 := (fun _ => base64 (checksum XxHash64 data)) <$> xxhash64 self;
     Checksum_checksum_type := None |}.

(** A hasher that has read nothing yet. *)
Definition fresh (self : ChecksumHasher) : Prop :=
  (forall h, crc32 self = Some h -> h = ck_new Crc32) /\
  (forall h, crc32c self = Some h -> h = ck_new Crc32c) /\
  (forall h, sha1 self = Some h -> h = ck_new Sha1) /\
  (forall h, sha256 self = Some h -> h = ck_new Sha256) /\
  (forall h, sha512 self = Some h -> h = ck_new Sha512) /\
  (forall h, crc64nvme self = Some h -> h = ck_new Crc64Nvme) /\
  (forall h, md5 self = Some h -> h = ck_new Md5) /\
  (forall h, xxhash64 self = Some h -> h = ck_new XxHash64) /\
  (forall h, xxhash3 self = Some h -> h = ck_new XxHash3) /\
  (forall h, xxhash128 self = Some h -> h = ck_new XxHash128).

(** ** Enabling algorithms and comparing sums (crates/s3s-fs/src/s3.rs) *)

Definition set_crc32 (hasher : ChecksumHasher) : ChecksumHasher :=
  {| crc32 := Some (ck_new Crc32); crc32c := crc32c hasher; sha1 := sha1 hasher; sha256 := sha256 hasher;
     sha512 := sha512 hasher; crc64nvme := crc64nvme hasher; md5 := md5 hasher; xxhash64 := xxhash64 hasher; xxhash3 := xxhash3 hasher; xxhash128 := xxhash128 hasher |}.
Definition set_crc32c (hasher : ChecksumHasher) : ChecksumHasher :=
  {| crc32 := crc32 hasher; crc32c := Some (ck_new Crc32c); sha1 := sha1 hasher; sha256 := sha256 hasher;
     sha512 := sha512 hasher; crc64nvme := crc64nvme hasher; md5 := md5 hasher; xxhash64 := xxhash64 hasher; xxhash3 := xxhash3 hasher; xxhash128 := xxhash128 hasher |}.
Definition set_sha1 (hasher : ChecksumHasher) : ChecksumHasher :=
  {| crc32 := crc32 hasher; crc32c := crc32c hasher; sha1 := Some (ck_new Sha1); sha256 := sha256 hasher;
     sha512 := sha512 hasher; crc64nvme := crc64nvme hasher; md5 := md5 hasher; xxhash64 := xxhash64 hasher; xxhash3 := xxhash3 hasher; xxhash128 := xxhash128 hasher |}.
Definition set_sha256 (hasher : ChecksumHasher) : ChecksumHasher :=
  {| crc32 := crc32 hasher; crc32c := crc32c hasher; sha1 := sha1 hasher; sha256 := Some (ck_new Sha256);
     sha512 := sha512 hasher; crc64nvme := crc64nvme hasher; md5 := md5 hasher; xxhash64 := xxhash64 hasher; xxhash3 := xxhash3 hasher; xxhash128 := xxhash128 hasher |}.
Definition set_sha512 (hasher : ChecksumHasher) : ChecksumHasher :=
  {| crc32 := crc32 hasher; crc32c := crc32c hasher; sha1 := sha1 hasher; sha256 := sha256 hasher;
     sha512 := Some (ck_new Sha512); crc64nvme := crc64nvme hasher; md5 := md5 hasher; xxhash64 := xxhash64 hasher; xxhash3 := xxhash3 hasher; xxhash128 := xxhash128 hasher |}.
Definition set_crc64nvme (hasher : ChecksumHasher) : ChecksumHasher :=
  {| crc32 := crc32 hasher; crc32c := crc32c hasher; sha1 := sha1 hasher; sha256 := sha256 hasher;
     sha512 := sha512 hasher; crc64nvme := Some (ck_new Crc64Nvme); md5 := md5 hasher; xxhash64 := xxhash64 hasher; xxhash3 := xxhash3 hasher; xxhash128 := xxhash128 hasher |}.
Definition set_md5 (hasher : ChecksumHasher) : ChecksumHasher :=
  {| crc32 := crc32 hasher; crc32c := crc32c hasher; sha1 := sha1 hasher; sha256 := sha256 hasher;
     sha512 := sha512 hasher; crc64nvme := crc64nvme hasher; md5 := Some (ck_new Md5); xxhash64 := xxhash64 hasher; xxhash3 := xxhash3 hasher; xxhash128 := xxhash128 hasher |}.
Definition set_xxhash64 (hasher : ChecksumHasher) : ChecksumHasher :=
  {| crc32 := crc32 hasher; crc32c := crc32c hasher; sha1 := sha1 hasher; sha256 := sha256 hasher;
     sha512 := sha512 hasher; crc64nvme := crc64nvme hasher; md5 := md5 hasher; xxhash64 := Some (ck_new XxHash64); xxhash3 := xxhash3 hasher; xxhash128 := xxhash128 hasher |}.
Definition set_xxhash3 (hasher : ChecksumHasher) : ChecksumHasher :=
  {| crc32 := crc32 hasher; crc32c := crc32c hasher; sha1 := sha1 hasher; sha256 := sha256 hasher;
     sha512 := sha512 hasher; crc64nvme := crc64nvme hasher; md5 := md5 hasher; xxhash64 := xxhash64 hasher; xxhash3 := Some (ck_new XxHash3); xxhash128 := xxhash128 hasher |}.
Definition set_xxhash128 (hasher : ChecksumHasher) : ChecksumHasher :=
  {| crc32 := crc32 hasher; crc32c := crc32c hasher; sha1 := sha1 hasher; sha256 := sha256 hasher;
     sha512 := sha512 hasher; crc64nvme := crc64nvme hasher; md5 := md5 hasher; xxhash64 := xxhash64 hasher; xxhash3 := xxhash3 hasher; xxhash128 := Some (ck_new XxHash128) |}.

(** [if cond { hasher.field = Some(default()) }] *)
Definition enable_if (cond : bool) (set : ChecksumHasher -> ChecksumHasher) (hasher : ChecksumHasher) : ChecksumHasher :=
  if cond then set hasher else hasher.
Definition is_some {A} (o : option A) : bool := match o with Some _ => true | None => false end.

Definition enable_expected_checksums (hasher : ChecksumHasher) (checksum : Checksum) : ChecksumHasher :=
  let hasher := enable_if (is_some (Checksum_checksum_crc32 checksum)) set_crc32 hasher in
  let hasher := enable_if (is_some (Checksum_checksum_crc32c checksum)) set_crc32c hasher in
  let hasher := enable_if (is_some (Checksum_checksum_sha1 checksum)) set_sha1 hasher in
  let hasher := enable_if (is_some (Checksum_checksum_sha256 checksum)) set_sha256 hasher in
  let hasher := enable_if (is_some (Checksum_checksum_crc64nvme checksum)) set_crc64nvme hasher in
  let hasher := enable_if (is_some (Checksum_checksum_sha512 checksum)) set_sha512 hasher in
  let hasher := enable_if (is_some (Checksum_checksum_md5 checksum)) set_md5 hasher in
  let hasher := enable_if (is_some (Checksum_checksum_xxhash64 checksum)) set_xxhash64 hasher in
  let hasher := enable_if (is_some (Checksum_checksum_xxhash3 checksum)) set_xxhash3 hasher in
  let hasher := enable_if (is_some (Checksum_checksum_xxhash128 checksum)) set_xxhash128 hasher in
  hasher.

(** The constants of [ChecksumAlgorithm] *)
Definition enable_checksum_algorithm (hasher : ChecksumHasher) (algorithm : bytes) : result S3ErrorCode ChecksumHasher :=
  if algorithm =? str "CRC32" then Ok (set_crc32 hasher)
  else if algorithm =? str "CRC32C" then Ok (set_crc32c hasher)
  else if algorithm =? str "SHA1" then Ok (set_sha1 hasher)
  else if algorithm =? str "SHA256" then Ok (set_sha256 hasher)
  else if algorithm =? str "CRC64NVME" then Ok (set_crc64nvme hasher)
  else if algorithm =? str "SHA512" then Ok (set_sha512 hasher)
  else if algorithm =? str "MD5" then Ok (set_md5 hasher)
  else if algorithm =? str "XXHASH64" then Ok (set_xxhash64 hasher)
  else if algorithm =? str "XXHASH3" then Ok (set_xxhash3 hasher)
  else if algorithm =? str "XXHASH128" then Ok (set_xxhash128 hasher)
  else Err NotImplemented.

(** The first field that is expected and differs. *)
Definition differs (actual expected : option bytes) : bool := is_some expected && negb (actual =? expected).
Definition checksum_mismatch (actual expected : Checksum) : option bytes :=
  if differs (Checksum_checksum_crc32 actual) (Checksum_checksum_crc32 expected) then Some (str "checksum_crc32")
  else if differs (Checksum_checksum_crc32c actual) (Checksum_checksum_crc32c expected) then Some (str "checksum_crc32c")
  else if differs (Checksum_checksum_sha1 actual) (Checksum_checksum_sha1 expected) then Some (str "checksum_sha1")
  else if differs (Checksum_checksum_sha256 actual) (Checksum_checksum_sha256 expected) then Some (str "checksum_sha256")
  else if differs (Checksum_checksum_crc64nvme actual) (Checksum_checksum_crc64nvme expected) then Some (str "checksum_crc64nvme")
  else if differs (Checksum_checksum_sha512 actual) (Checksum_checksum_sha512 expected) then Some (str "checksum_sha512")
  else if differs (Checksum_checksum_md5 actual) (Checksum_checksum_md5 expected) then Some (str "checksum_md5")
  else if differs (Checksum_checksum_xxhash64 actual) (Checksum_checksum_xxhash64 expected) then Some (str "checksum_xxhash64")
  else if differs (Checksum_checksum_xxhash3 actual) (Checksum_checksum_xxhash3 expected) then Some (str "checksum_xxhash3")
  else if differs (Checksum_checksum_xxhash128 actual) (Checksum_checksum_xxhash128 expected) then Some (str "checksum_xxhash128")
  else None.

Definition has_any_checksum (checksum : Checksum) : bool :=
  is_some (Checksum_checksum_crc32 checksum) ||
  is_some (Checksum_checksum_crc32c checksum) ||
  is_some (Checksum_checksum_sha1 checksum) ||
  is_some (Checksum_checksum_sha256 checksum) ||
  is_some (Checksum_checksum_crc64nvme checksum) ||
  is_some (Checksum_checksum_sha512 checksum) ||
  is_some (Checksum_checksum_md5 checksum) ||
  is_some (Checksum_checksum_xxhash64 checksum) ||
  is_some (Checksum_checksum_xxhash3 checksum) ||
  is_some (Checksum_checksum_xxhash128 checksum).

Definition completed_part_checksum (part : CompletedPart) : Checksum :=
  {| Checksum_checksum_crc32 := CompletedPart_checksum_crc32 part;
     Checksum_checksum_crc32c := CompletedPart_checksum_crc32c part;
     Checksum_checksum_crc64nvme := CompletedPart_checksum_crc64nvme part;
     Checksum_checksum_md5 := CompletedPart_checksum_md5 part;
     Checksum_checksum_sha1 := CompletedPart_checksum_sha1 part;
     Checksum_checksum_sha256 := CompletedPart_checksum_sha256 part;
     Checksum_checksum_sha512 := CompletedPart_checksum_sha512 part;
     Checksum_checksum_xxhash128 := CompletedPart_checksum_xxhash128 part;
     Checksum_checksum_xxhash3 := CompletedPart_checksum_xxhash3 part;
     Checksum_checksum_xxhash64 := CompletedPart_checksum_xxhash64 part;
     Checksum_checksum_type := None |}.

Definition checksum_default : Checksum := mk_Checksum None None None None None None None None None None None.

(** ** What is kept of an object (crates/s3s-fs/src/checksum.rs) *)

Definition as_str (v : Value) : option bytes := match v with VString s => Some s | _ => None end.

Definition save_e_tag (info : InternalInfo) (e_tag : bytes) : InternalInfo := <[str "e_tag" := VString e_tag]> info.
Definition load_e_tag (info : InternalInfo) : option bytes := v ← info !! str "e_tag"; as_str v.

(** [if let Some(s) = &o { info.insert(k, Value::String(s)) }] *)
Definition insert_opt (k : bytes) (o : option bytes) (info : InternalInfo) : InternalInfo :=
  match o with Some s => <[k := VString s]> info | None => info end.

Definition modify_internal_info (info : InternalInfo) (checksum : Checksum) : InternalInfo :=
  let info := insert_opt (str "checksum_crc32") (Checksum_checksum_crc32 checksum) info in
  let info := insert_opt (str "checksum_crc32c") (Checksum_checksum_crc32c checksum) info in
  let info := insert_opt (str "checksum_sha1") (Checksum_checksum_sha1 checksum) info in
  let info := insert_opt (str "checksum_sha256") (Checksum_checksum_sha256 checksum) info in
  let info := insert_opt (str "checksum_crc64nvme") (Checksum_checksum_crc64nvme checksum) info in
  let info := insert_opt (str "checksum_sha512") (Checksum_checksum_sha512 checksum) info in
  let info := insert_opt (str "checksum_md5") (Checksum_checksum_md5 checksum) info in
  let info := insert_opt (str "checksum_xxhash64") (Checksum_checksum_xxhash64 checksum) info in
  let info := insert_opt (str "checksum_xxhash3") (Checksum_checksum_xxhash3 checksum) info in
  let info := insert_opt (str "checksum_xxhash128") (Checksum_checksum_xxhash128 checksum) info in
  info.

(** [if let Some(v) = info.get(k) { Some(v.as_str().unwrap().to_owned()) }] *)
Definition info_str (info : InternalInfo) (k : bytes) : option (option bytes) :=
  match info !! k with Some v => s ← as_str v; Some (Some s) | None => Some None end.

Definition from_internal_info (info : InternalInfo) : option Checksum :=
  crc32 ← info_str info (str "checksum_crc32");
  crc32c ← info_str info (str "checksum_crc32c");
  sha1 ← info_str info (str "checksum_sha1");
  sha256 ← info_str info (str "checksum_sha256");
  crc64nvme ← info_str info (str "checksum_crc64nvme");
  sha512 ← info_str info (str "checksum_sha512");
  md5 ← info_str info (str "checksum_md5");
  xxhash64 ← info_str info (str "checksum_xxhash64");
  xxhash3 ← info_str info (str "checksum_xxhash3");
  xxhash128 ← info_str info (str "checksum_xxhash128");
  Some {| Checksum_checksum_crc32 := crc32; Checksum_checksum_crc32c := crc32c; Checksum_checksum_crc64nvme := crc64nvme; Checksum_checksum_md5 := md5;
          Checksum_checksum_sha1 := sha1; Checksum_checksum_sha256 := sha256; Checksum_checksum_sha512 := sha512;
          Checksum_checksum_xxhash128 := xxhash128; Checksum_checksum_xxhash3 := xxhash3; Checksum_checksum_xxhash64 := xxhash64;
          Checksum_checksum_type := None |}.

(** ** One pass over the data *)

Lemma ck_pieces c l : ck_finalize c (foldl (ck_update c) (ck_new c) l) = checksum c (concat l).
Proof. exact (f_equal (ck_output c) (hs_pieces (ck_hash c) l)). Qed.

Lemma hasher_fields l self :
  foldl hasher_update self l =
  {| crc32 := (fun h => foldl (ck_update Crc32) h l) <$> crc32 self; crc32c := (fun h => foldl (ck_update Crc32c) h l) <$> crc32c self;
     sha1 := (fun h => foldl (ck_update Sha1) h l) <$> sha1 self; sha256 := (fun h => foldl (ck_update Sha256) h l) <$> sha256 self;
     sha512 := (fun h => foldl (ck_update Sha512) h l) <$> sha512 self; crc64nvme := (fun h => foldl (ck_update Crc64Nvme) h l) <$> crc64nvme self;
     md5 := (fun h => foldl (ck_update Md5) h l) <$> md5 self; xxhash64 := (fun h => foldl (ck_update XxHash64) h l) <$> xxhash64 self;
     xxhash3 := (fun h => foldl (ck_update XxHash3) h l) <$> xxhash3 self; xxhash128 := (fun h => foldl (ck_update XxHash128) h l) <$> xxhash128 self |}.
Proof.
  revert self. induction l as [|x l IH]; intros self; cbn [foldl].
  - destruct self. cbn. by rewrite !option_fmap_id.
  - rewrite IH. cbn. by rewrite <- !option_fmap_compose.
Qed.

Lemma field_sum c o l : (forall h, o = Some h -> h = ck_new c) ->
  (fun h => base64 (ck_finalize c h)) <$> ((fun h => foldl (ck_update c) h l) <$> o) = (fun _ => base64 (checksum c (concat l))) <$> o.
Proof. destruct o as [h|]; [|done]. intros Hh. rewrite (Hh h eq_refl). cbn. by rewrite ck_pieces. Qed.

(** The sums of a fresh hasher are those of all the data, however it was split. *)
Lemma hasher_sums self l : fresh self -> hasher_finalize (foldl hasher_update self l) = sums_of self (concat l).
Proof.
  intros (H1 & H2 & H3 & H4 & H5 & H6 & H7 & H8 & H9 & H10). rewrite hasher_fields. unfold hasher_finalize, sums_of. cbn.
  by rewrite !field_sum by done.
Qed.

Lemma fresh_default : fresh hasher_default.
Proof. unfold fresh. by split_and!. Qed.

Lemma fresh_enable_if cond set self : (forall h, fresh h -> fresh (set h)) -> fresh self -> fresh (enable_if cond set self).
Proof. intros Hs Hf. destruct cond; [by apply Hs|done]. Qed.

Lemma fresh_expected self c : fresh self -> fresh (enable_expected_checksums self c).
Proof.
  intros Hf. unfold enable_expected_checksums. cbv zeta.
  repeat (apply fresh_enable_if; [intros h (? & ? & ? & ? & ? & ? & ? & ? & ? & ?); unfold fresh; cbn; split_and!; first [done | by intros ? [= <-]]|]). done.
Qed.

Lemma fresh_algorithm self a self' : fresh self -> enable_checksum_algorithm self a = Ok self' -> fresh self'.
Proof.
  intros (? & ? & ? & ? & ? & ? & ? & ? & ? & ?). unfold enable_checksum_algorithm.
  repeat (case_bool_decide; [intros [= <-]; unfold fresh; cbn; split_and!; first [done | by intros ? [= <-]]|]). done.
Qed.

(** ** Sums that were expected *)

(** What the comparison accepts: every expected sum is the actual one. *)
Definition meets (actual expected : Checksum) : Prop :=
  (is_Some (Checksum_checksum_crc32 expected) -> Checksum_checksum_crc32 actual = Checksum_checksum_crc32 expected) /\
  (is_Some (Checksum_checksum_crc32c expected) -> Checksum_checksum_crc32c actual = Checksum_checksum_crc32c expected) /\
  (is_Some (Checksum_checksum_sha1 expected) -> Checksum_checksum_sha1 actual = Checksum_checksum_sha1 expected) /\
  (is_Some (Checksum_checksum_sha256 expected) -> Checksum_checksum_sha256 actual = Checksum_checksum_sha256 expected) /\
  (is_Some (Checksum_checksum_crc64nvme expected) -> Checksum_checksum_crc64nvme actual = Checksum_checksum_crc64nvme expected) /\
  (is_Some (Checksum_checksum_sha512 expected) -> Checksum_checksum_sha512 actual = Checksum_checksum_sha512 expected) /\
  (is_Some (Checksum_checksum_md5 expected) -> Checksum_checksum_md5 actual = Checksum_checksum_md5 expected) /\
  (is_Some (Checksum_checksum_xxhash64 expected) -> Checksum_checksum_xxhash64 actual = Checksum_checksum_xxhash64 expected) /\
  (is_Some (Checksum_checksum_xxhash3 expected) -> Checksum_checksum_xxhash3 actual = Checksum_checksum_xxhash3 expected) /\
  (is_Some (Checksum_checksum_xxhash128 expected) -> Checksum_checksum_xxhash128 actual = Checksum_checksum_xxhash128 expected).

Lemma differs_false a e : differs a e = false <-> (is_Some e -> a = e).
Proof.
  unfold differs. destruct e as [e|]; cbn; [|split; [by intros _ []|done]]. rewrite negb_false_iff, bool_decide_eq_true.
  split; [done|]. intros Ha. by apply Ha.
Qed.

Lemma checksum_mismatch_None actual expected : checksum_mismatch actual expected = None <-> meets actual expected.
Proof.
  unfold checksum_mismatch, meets. rewrite <- !differs_false.
  repeat match goal with |- context [if ?b then _ else _] => destruct b; [split; [done|naive_solver]|] end. naive_solver.
Qed.

(** ** The checksums come back from the information *)

Lemma lookup_insert_opt k o info k' :
  insert_opt k o info !! k' = if decide (k = k') then match o with Some s => Some (VString s) | None => info !! k' end else info !! k'.
Proof. unfold insert_opt. destruct o; case_decide; subst; by simplify_map_eq. Qed.

Lemma load_save_e_tag info e_tag c : load_e_tag (modify_internal_info (save_e_tag info e_tag) c) = Some e_tag.
Proof.
  unfold load_e_tag, modify_internal_info, save_e_tag. rewrite !lookup_insert_opt, !decide_False by done. by rewrite lookup_insert_eq.
Qed.

Lemma info_str_insert k o info : info !! k = None -> info_str (insert_opt k o info) k = Some o.
Proof. intros Hk. unfold info_str. rewrite lookup_insert_opt, decide_True by done. destruct o; [done|by rewrite Hk]. Qed.
Lemma info_str_other k k' o info : k <> k' -> info_str (insert_opt k o info) k' = info_str info k'.
Proof. intros Hk. unfold info_str. by rewrite lookup_insert_opt, decide_False by done. Qed.

Lemma info_round_trip e_tag c : Checksum_checksum_type c = None -> from_internal_info (modify_internal_info (save_e_tag ∅ e_tag) c) = Some c.
Proof.
  intros Ht. unfold from_internal_info, modify_internal_info, save_e_tag. cbv zeta.
  repeat (first [rewrite info_str_other by done
    | rewrite info_str_insert by (rewrite !lookup_insert_opt, !decide_False, lookup_insert_ne, lookup_empty by done; done)
    | rewrite info_str_insert by (rewrite lookup_insert_ne, lookup_empty by done; done)]; cbn [mbind option_bind]).
  destruct c. cbn in Ht |- *. by subst.
Qed.
End Checksums.
