(* ===== verification/FsList.v ===== *)
(** * Listing the objects of a bucket (crates/s3s-fs/src/s3.rs)

    [list_objects_v2] walks the directories of a bucket, groups the files by the delimiter, sorts
    them, and hands out a page of at most [max_keys] of them after the token it was given.

    - [walk] is the loop over the queue of directories, with what a routine does of one entry as
      an argument; [list_objects_recursive] and [list_objects_with_delimiter] are its two uses.
    - [page_loop] interleaves the sorted objects and common prefixes by two indexes.

    The order in which the system returns the entries of a directory is unknown: [ReadDir]. *)

From stdpp Require Import gmap.
From S2P Require Import Prelude.
From S2P Require Import Str.
From S2P Require Import Utf8.
From S2P Require Import ErrorCode.
From S2P Require Import Handler.
From S2P Require Import Range.
From S2P Require Import ETag.
From S2P Require Import Timestamp.
From S2P Require Import XmlDtoC.
From S2P Require Import FsTree.

(** ** One page *)

Record Paging := {
  result_objects : list Object;
  result_prefixes : list CommonPrefix;
  total_count : Z;
  last_key : option bytes;
  obj_idx : nat;
  prefix_idx : nat
}.

Definition paging_start : Paging :=
  {| result_objects := []; result_prefixes := []; total_count := 0; last_key := None; obj_idx := 0; prefix_idx := 0 |}.

Section Page.
Context (objects : list Object) (common_prefixes_list : list CommonPrefix).

Definition push_object (ok : bytes) (o : Object) (st : Paging) : Paging :=
  {| result_objects := result_objects st ++ [o]; result_prefixes := result_prefixes st; total_count := (total_count st + 1)%Z;
     last_key := Some ok; obj_idx := S (obj_idx st); prefix_idx := prefix_idx st |}.
Definition push_prefix (pk : bytes) (p : CommonPrefix) (st : Paging) : Paging :=
  {| result_objects := result_objects st; result_prefixes := result_prefixes st ++ [p]; total_count := (total_count st + 1)%Z;
     last_key := Some pk; obj_idx := obj_idx st; prefix_idx := S (prefix_idx st) |}.

(** The object and the prefix the indexes are at, with their keys. *)
Definition next_object (st : Paging) : option (bytes * Object) :=
  o ← objects !! obj_idx st; k ← Object_key o; Some (k, o).
Definition next_prefix (st : Paging) : option (bytes * CommonPrefix) :=
  p ← common_prefixes_list !! prefix_idx st; k ← CommonPrefix_prefix p; Some (k, p).

(** One turn of the loop; [None] leaves it. *)
Definition page_turn (max_keys : Z) (st : Paging) : option Paging :=
  if (total_count st <? max_keys)%Z then
    match next_object st, next_prefix st with
    | Some (ok, o), Some (pk, p) => Some (if bytes_ltb ok pk then push_object ok o st else push_prefix pk p st)
    | Some (ok, o), None => Some (push_object ok o st)
    | None, Some (pk, p) => Some (push_prefix pk p st)
    | None, None => None
    end
  else None.

(** Every turn takes an entry, so there are no more turns than entries. *)
Fixpoint page_loop (fuel : nat) (max_keys : Z) (st : Paging) : Paging :=
  match fuel with
  | 0 => st
  | S fuel' => match page_turn max_keys st with Some st' => page_loop fuel' max_keys st' | None => st end
  end.

Definition page_run (max_keys : Z) : Paging :=
  page_loop (length objects + length common_prefixes_list) max_keys paging_start.

Definition page_truncated (max_keys : Z) (st : Paging) : bool :=
  (0 <? max_keys)%Z && ((obj_idx st <? length objects)%nat || (prefix_idx st <? length common_prefixes_list)%nat).

Definition page_token (max_keys : Z) (st : Paging) : option bytes :=
  if page_truncated max_keys st then
    match last_key st with
    | Some k => Some k
    | None =>
        match fst <$> next_object st, fst <$> next_prefix st with
        | Some ok, Some pk => Some (if bytes_ltb ok pk then ok else pk)
        | Some ok, None => Some ok
        | None, Some pk => Some pk
        | None, None => None
        end
    end
  else None.
End Page.

(** What [list_objects_v2] does with all that matches. *)

Definition object_key (o : Object) : bytes := default [] (Object_key o).

Definition resume_point (continuation_token start_after : option bytes) : option bytes :=
  match continuation_token, start_after with
  | Some ct, Some sa => Some (if bytes_leb sa ct then ct else sa)
  | Some ct, None => Some ct
  | None, Some sa => Some sa
  | None, None => None
  end.

Definition beyond (marker : option bytes) (k : bytes) : bool :=
  match marker with Some m => bytes_ltb m k | None => true end.

(** [usize::try_from(max_keys).unwrap_or(1000)] *)
Definition max_keys_usize (max_keys : Z) : Z := if (max_keys <? 0)%Z then 1000 else max_keys.

Record Page := {
  pg_contents : list Object;
  pg_prefixes : list CommonPrefix;
  pg_key_count : Z;
  pg_is_truncated : bool;
  pg_next_continuation_token : option bytes
}.

Definition list_page (objects : list Object) (common_prefixes : list bytes) (marker : option bytes) (max_keys : Z) : Page :=
  let objects := List.filter (fun o => beyond marker (object_key o)) (sort_by_key object_key objects) in
  let common_prefixes_list := map (fun p => {| CommonPrefix_prefix := Some p |}) (List.filter (beyond marker) common_prefixes) in
  let n := max_keys_usize max_keys in
  let st := page_run objects common_prefixes_list n in
  {| pg_contents := result_objects st; pg_prefixes := result_prefixes st; pg_key_count := total_count st;
     pg_is_truncated := page_truncated objects common_prefixes_list n st;
     pg_next_continuation_token := page_token objects common_prefixes_list n st |}.

(** ** Pages: the reference *)

(** An entry of the listing, and the entries in order. *)
Abbreviation Entry := (Object + bytes)%type.
Definition entry_key (e : Entry) : bytes := match e with inl o => object_key o | inr p => p end.

Fixpoint merge (os : list Object) : list bytes -> list Entry :=
  fix merge_prefixes (ps : list bytes) : list Entry :=
    match os, ps with
    | [], _ => map inr ps
    | _, [] => map inl os
    | o :: os', p :: ps' => if bytes_ltb (object_key o) p then inl o :: merge os' ps else inr p :: merge_prefixes ps'
    end.

Definition entry_objects (l : list Entry) : list Object := omap (fun e => match e with inl o => Some o | inr _ => None end) l.
Definition entry_prefixes (l : list Entry) : list bytes := omap (fun e => match e with inr p => Some p | inl _ => None end) l.
Definition as_prefix (p : bytes) : CommonPrefix := {| CommonPrefix_prefix := Some p |}.

Definition keyed (os : list Object) : Prop := Forall (fun o => is_Some (Object_key o)) os.
Definition key_lt {A} (key : A -> bytes) (x y : A) : Prop := bytes_ltb (key x) (key y) = true.

Section MergeFacts.
Implicit Types (os : list Object) (ps : list bytes) (l : list Entry).

Lemma merge_nil_l ps : merge [] ps = map inr ps.
Proof. by destruct ps. Qed.
Lemma merge_nil_r os : merge os [] = map inl os.
Proof. by destruct os. Qed.
Lemma merge_cons o os p ps : merge (o :: os) (p :: ps) =
  if bytes_ltb (object_key o) p then inl o :: merge os (p :: ps) else inr p :: merge (o :: os) ps.
Proof. done. Qed.

(** Induction along the merge. *)
Lemma merge_ind (P : list Object -> list bytes -> Prop) :
  (forall ps, P [] ps) -> (forall os, P os []) ->
  (forall o os p ps, bytes_ltb (object_key o) p = true -> P os (p :: ps) -> P (o :: os) (p :: ps)) ->
  (forall o os p ps, bytes_ltb (object_key o) p = false -> P (o :: os) ps -> P (o :: os) (p :: ps)) -> forall os ps, P os ps.
Proof.
  intros Hl Hr Ho Hp os. induction os as [|o os IH]; [done|]. intros ps. induction ps as [|p ps IHp]; [done|].
  destruct (bytes_ltb (object_key o) p) eqn:E; eauto.
Qed.

Lemma map_inl_parts os : entry_objects (map inl os) = os /\ entry_prefixes (map inl os) = [].
Proof. induction os as [|o os [IH1 IH2]]; [done|]. split; simpl; [by f_equal|done]. Qed.
Lemma map_inr_parts ps : entry_objects (map inr ps) = [] /\ entry_prefixes (map inr ps) = ps.
Proof. induction ps as [|p ps [IH1 IH2]]; [done|]. split; simpl; [done|by f_equal]. Qed.

Lemma merge_parts os ps : entry_objects (merge os ps) = os /\ entry_prefixes (merge os ps) = ps.
Proof.
  revert os ps. apply merge_ind.
  - intros ps. rewrite merge_nil_l. apply map_inr_parts.
  - intros os. rewrite merge_nil_r. apply map_inl_parts.
  - intros o os p ps E [IH1 IH2]. rewrite merge_cons, E. cbn. split; [f_equal|]; done.
  - intros o os p ps E [IH1 IH2]. rewrite merge_cons, E. cbn. split; [|f_equal]; done.
Qed.

Lemma merge_length os ps : length (merge os ps) = length os + length ps.
Proof.
  revert os ps. apply merge_ind.
  - intros ps. by rewrite merge_nil_l, length_map.
  - intros os. rewrite merge_nil_r, length_map. simpl. lia.
  - intros o os p ps E IH. rewrite merge_cons, E. cbn [length] in *. lia.
  - intros o os p ps E IH. rewrite merge_cons, E. cbn [length] in *. lia.
Qed.

Lemma bytes_ltb_trans s t u : bytes_ltb s t = true -> bytes_leb t u = true -> bytes_ltb s u = true.
Proof.
  rewrite !bytes_ltb_leb, !negb_true_iff. intros Hs Ht. destruct (bytes_leb u s) eqn:E; [|done].
  by rewrite (bytes_leb_trans _ _ _ Ht E) in Hs.
Qed.
Lemma bytes_ltb_le s t : bytes_ltb s t = true -> bytes_leb s t = true.
Proof. rewrite bytes_ltb_leb, negb_true_iff. apply bytes_leb_total. Qed.
Lemma bytes_leb_ltb s t : bytes_ltb s t = false -> bytes_leb t s = true.
Proof. by rewrite bytes_ltb_leb, negb_false_iff. Qed.
Lemma bytes_ltb_irrefl s : bytes_ltb s s = false.
Proof. by rewrite bytes_ltb_leb, bytes_leb_refl. Qed.

(** Dropping what is not beyond a marker before the merge or after it. *)
Lemma beyond_up m s t : beyond m s = true -> bytes_leb s t = true -> beyond m t = true.
Proof. destruct m; [|done]. apply bytes_ltb_trans. Qed.

Lemma filter_map_inl m os : List.filter (fun e => beyond m (entry_key e)) (map inl os) =
  map inl (List.filter (fun o => beyond m (object_key o)) os).
Proof. induction os as [|o os IH]; [done|]. simpl. by destruct (beyond m (object_key o)); rewrite IH. Qed.
Lemma filter_map_inr m ps : List.filter (fun e => beyond m (entry_key e)) (map inr ps) = map inr (List.filter (beyond m) ps).
Proof. induction ps as [|p ps IH]; [done|]. simpl. by destruct (beyond m p); rewrite IH. Qed.

Lemma merge_filter m os ps :
  merge (List.filter (fun o => beyond m (object_key o)) os) (List.filter (beyond m) ps) =
  List.filter (fun e => beyond m (entry_key e)) (merge os ps).
Proof.
  revert os ps. apply merge_ind.
  - intros ps. by rewrite !merge_nil_l, filter_map_inr.
  - intros os. by rewrite !merge_nil_r, filter_map_inl.
  - intros o os p ps E IH. rewrite merge_cons, E. cbn [List.filter entry_key] in *.
    destruct (beyond m (object_key o)) eqn:Eo; [|exact IH].
    rewrite (beyond_up _ _ p Eo) in * by by apply bytes_ltb_le. by rewrite merge_cons, E, IH.
  - intros o os p ps E IH. rewrite merge_cons, E. cbn [List.filter entry_key] in *.
    destruct (beyond m p) eqn:Ep; [|exact IH].
    rewrite (beyond_up _ _ (object_key o) Ep) in * by by apply bytes_leb_ltb. by rewrite merge_cons, E, IH.
Qed.

Lemma merge_elem os ps e : e ∈ merge os ps <-> match e with inl o => o ∈ os | inr p => p ∈ ps end.
Proof.
  destruct (merge_parts os ps) as [E1 E2]. destruct e as [o|p].
  - rewrite <- E1 at 2. unfold entry_objects. rewrite list_elem_of_omap. split; [by exists (inl o)|].
    by intros ([] & Hin & [= ->]).
  - rewrite <- E2 at 2. unfold entry_prefixes. rewrite list_elem_of_omap. split; [by exists (inr p)|].
    by intros ([] & Hin & [= ->]).
Qed.

(** The merge of strictly sorted lists with no key in common is strictly sorted. *)
Lemma merge_sorted os ps :
  StronglySorted (key_lt object_key) os -> StronglySorted (key_lt id) ps -> (forall o, o ∈ os -> object_key o ∉ ps) ->
  StronglySorted (key_lt entry_key) (merge os ps).
Proof.
  pattern os, ps. revert os ps. apply merge_ind.
  - intros ps Ho Hs Hd. rewrite merge_nil_l. clear Ho Hd. induction Hs; simpl; constructor; [done|]. by apply Forall_map.
  - intros os Hs Hp Hd. rewrite merge_nil_r. clear Hp Hd. induction Hs; simpl; constructor; [done|]. by apply Forall_map.
  - intros o os p ps E IH [Ho Hof]%StronglySorted_inv Hp Hd. rewrite merge_cons, E.
    assert (Hd' : forall o', o' ∈ os -> object_key o' ∉ p :: ps) by (intros o' Hin; apply Hd; by right).
    constructor; [by apply IH|]. rewrite Forall_forall in Hof. apply Forall_forall. intros [o'|p'] Hin%merge_elem; [by apply Hof|].
    apply StronglySorted_inv in Hp as [_ Hpf]. apply elem_of_cons in Hin as [->|Hin]; [done|].
    rewrite Forall_forall in Hpf. eapply bytes_ltb_trans; [exact E|]. by apply bytes_ltb_le, Hpf.
  - intros o os p ps E IH Ho [Hp Hpf]%StronglySorted_inv Hd. rewrite merge_cons, E. constructor.
    { apply IH; [done..|]. intros o' Hin Hps. by eapply Hd; [exact Hin|right]. }
    assert (Hlt : bytes_ltb p (object_key o) = true).
    { rewrite bytes_ltb_leb in E |- *. apply negb_false_iff in E. apply negb_true_iff. destruct (bytes_leb (object_key o) p) eqn:E'; [|done].
      destruct (Hd o); [by left|]. rewrite (bytes_leb_antisym _ _ E E'). by left. }
    rewrite Forall_forall in Hpf. apply Forall_forall. intros [o'|p'] Hin%merge_elem; [|by apply Hpf].
    apply StronglySorted_inv in Ho as [_ Hof]. apply elem_of_cons in Hin as [->|Hin]; [done|].
    rewrite Forall_forall in Hof. eapply bytes_ltb_trans; [exact Hlt|]. by apply bytes_ltb_le, Hof.
Qed.

Lemma sorted_beyond l n e : StronglySorted (key_lt entry_key) l -> last (take n l) = Some e ->
  List.filter (fun x => beyond (Some (entry_key e)) (entry_key x)) l = drop n l.
Proof.
  revert n. induction l as [|x l IH]; intros n Hs; [by rewrite take_nil|]. apply StronglySorted_inv in Hs as [Hs Hf].
  destruct n as [|n]; [done|]. cbn [take drop]. rewrite last_cons. rewrite Forall_forall in Hf. destruct (last (take n l)) as [e'|] eqn:El.
  - intros [= ->]. cbn [List.filter beyond]. assert (Hin : e ∈ l).
    { apply last_Some_elem_of in El. rewrite <- (take_drop n l). apply elem_of_app. by left. }
    specialize (Hf e Hin). unfold key_lt in Hf. rewrite bytes_ltb_leb, negb_true_iff in Hf. rewrite bytes_ltb_leb.
    rewrite (bytes_leb_total _ _ Hf). cbn [negb]. by apply IH.
  - intros [= ->]. apply last_None in El. cbn [List.filter beyond]. rewrite bytes_ltb_irrefl.
    assert (Hd : drop n l = l). { rewrite <- (take_drop n l) at 2. by rewrite El. } rewrite Hd.
    clear IH El Hd Hs. induction l as [|y l IH]; [done|]. cbn [List.filter].
    pose proof (Hf y ltac:(by left)) as Hy. unfold key_lt in Hy. rewrite Hy. f_equal. apply IH. intros z Hz. apply Hf. by right.
Qed.
End MergeFacts.

(** ** Pages: the loop takes the first entries of the merge *)

Definition page_at (l : list Entry) (n : nat) : Paging :=
  {| result_objects := entry_objects (take n l); result_prefixes := map as_prefix (entry_prefixes (take n l));
     total_count := Z.of_nat n; last_key := entry_key <$> last (take n l);
     obj_idx := length (entry_objects (take n l)); prefix_idx := length (entry_prefixes (take n l)) |}.

Section PageFacts.
Context (os : list Object) (ps : list bytes).
Context (Hkeyed : keyed os).

Lemma merge_drop n : drop n (merge os ps) =
  merge (drop (length (entry_objects (take n (merge os ps)))) os) (drop (length (entry_prefixes (take n (merge os ps)))) ps).
Proof.
  clear Hkeyed. revert n. pattern os, ps. revert os ps. apply merge_ind.
  - intros ps n. rewrite merge_nil_l, firstn_map, skipn_map. destruct (map_inr_parts (take n ps)) as [-> ->].
    cbn [length drop]. rewrite merge_nil_l, length_take. destruct (decide (n <= length ps)%nat).
    + by rewrite Nat.min_l.
    + rewrite Nat.min_r by lia. by rewrite !drop_ge by lia.
  - intros os n. rewrite merge_nil_r, firstn_map, skipn_map. destruct (map_inl_parts (take n os)) as [-> ->].
    cbn [length drop]. rewrite merge_nil_r, length_take. destruct (decide (n <= length os)%nat).
    + by rewrite Nat.min_l.
    + rewrite Nat.min_r by lia. by rewrite !drop_ge by lia.
  - intros o os p ps E IH [|n]; [done|]. rewrite !merge_cons, E. cbn [take drop]. rewrite (IH n). done.
  - intros o os p ps E IH [|n]; [done|]. rewrite !merge_cons, E. cbn [take drop]. rewrite (IH n). done.
Qed.

Lemma page_at_S n (l : list Entry) e r : drop n l = e :: r ->
  page_at l (S n) = match e with inl o => push_object (object_key o) o (page_at l n) | inr p => push_prefix p (as_prefix p) (page_at l n) end /\
  (n < length l)%nat.
Proof.
  clear. intros E. assert (El : l !! n = Some e) by (rewrite <- (Nat.add_0_r n), <- lookup_drop, E; done).
  split; [|by apply lookup_lt_Some in El]. unfold page_at. rewrite (take_S_r _ _ _ El), last_snoc.
  unfold entry_objects, entry_prefixes. rewrite !omap_app, Nat2Z.inj_succ. destruct e as [o|p]; simpl; rewrite ?app_nil_r, !length_app, ?map_app; simpl;
    unfold push_object, push_prefix; simpl; by f_equal; lia.
Qed.

Lemma page_turn_at n max : (Z.of_nat n < max)%Z ->
  page_turn os (map as_prefix ps) max (page_at (merge os ps) n) =
  if decide (n < length (merge os ps))%nat then Some (page_at (merge os ps) (S n)) else None.
Proof.
  intros Hn. unfold page_turn. cbn [total_count page_at]. rewrite (proj2 (Z.ltb_lt _ _) Hn).
  pose proof (merge_drop n) as Ed. unfold next_object, next_prefix. cbn [obj_idx prefix_idx page_at].
  set (i := length (entry_objects _)) in *. set (j := length (entry_prefixes _)) in *.
  assert (Eo : os !! i = head (drop i os)) by (rewrite head_lookup, lookup_drop; f_equal; lia).
  assert (Ep : map as_prefix ps !! j = as_prefix <$> head (drop j ps))
    by (rewrite list_lookup_fmap, head_lookup, lookup_drop; f_equal; f_equal; lia).
  assert (Hk : keyed (drop i os)) by by apply Forall_drop. rewrite Eo, Ep.
  destruct (drop i os) as [|o os'], (drop j ps) as [|p ps'].
  - rewrite decide_False; [done|]. apply (f_equal length) in Ed. rewrite length_drop in Ed. simpl in Ed. lia.
  - rewrite merge_nil_l in Ed. apply page_at_S in Ed as [-> Hl]. by rewrite decide_True.
  - rewrite merge_nil_r in Ed. apply page_at_S in Ed as [-> Hl]. rewrite decide_True by done.
    apply Forall_cons in Hk as [[k Hk] _]. unfold object_key. simpl. by rewrite Hk.
  - rewrite merge_cons in Ed. apply Forall_cons in Hk as [[k Hk] _]. unfold object_key in Ed. simpl. rewrite Hk in Ed |- *. simpl in Ed |- *.
    destruct (bytes_ltb k p); apply page_at_S in Ed as [-> Hl]; rewrite decide_True by done; [|done]. unfold object_key. by rewrite Hk.
Qed.

Lemma page_loop_at max fuel n : (0 <= max)%Z -> n <= Z.to_nat max -> n <= length (merge os ps) -> (length (merge os ps) <= n + fuel)%nat ->
  page_loop os (map as_prefix ps) fuel max (page_at (merge os ps) n) = page_at (merge os ps) (Nat.min (Z.to_nat max) (length (merge os ps))).
Proof.
  intros Hmax. revert n. induction fuel as [|fuel IH]; intros n Hn Hl Hf.
  { simpl. f_equal. lia. }
  cbn [page_loop]. destruct (decide (Z.of_nat n < max)%Z) as [Hlt|Hge].
  - rewrite (page_turn_at _ _ Hlt). case_decide; [apply IH; lia|f_equal; lia].
  - unfold page_turn. cbn [total_count page_at]. rewrite (proj2 (Z.ltb_ge _ _)) by lia. f_equal. lia.
Qed.

Lemma page_run_at max : (0 <= max)%Z ->
  page_run os (map as_prefix ps) max = page_at (merge os ps) (Nat.min (Z.to_nat max) (length (merge os ps))).
Proof.
  intros Hmax. unfold page_run. rewrite length_map, <- merge_length.
  assert (E : paging_start = page_at (merge os ps) 0) by done. rewrite E. apply page_loop_at; lia.
Qed.

Lemma entry_parts_length (l : list Entry) : (length (entry_objects l) + length (entry_prefixes l) = length l)%nat.
Proof.
  clear. induction l as [|[o|p] l IH]; [done|..]; cbn; unfold entry_objects, entry_prefixes in IH; cbn in IH; lia.
Qed.

Lemma page_truncated_at max n : (0 < max)%Z -> (n <= length (merge os ps))%nat ->
  page_truncated os (map as_prefix ps) max (page_at (merge os ps) n) = (n <? length (merge os ps))%nat.
Proof.
  intros Hmax Hn. unfold page_truncated. rewrite (proj2 (Z.ltb_lt _ _) Hmax), length_map. cbn [andb obj_idx prefix_idx page_at].
  pose proof (f_equal length (merge_drop n)) as Ed. rewrite length_drop, !merge_length, !length_drop in Ed. rewrite merge_length in Hn.
  assert (Ht : (length (entry_objects (take n (merge os ps))) + length (entry_prefixes (take n (merge os ps))) = n)%nat).
  { transitivity (length (take n (merge os ps))); [|rewrite length_take, merge_length; lia]. generalize (take n (merge os ps)).
    apply entry_parts_length. }
  assert (Hb : (length (entry_objects (take n (merge os ps))) <= length os)%nat /\ (length (entry_prefixes (take n (merge os ps))) <= length ps)%nat).
  { destruct (merge_parts os ps) as [E1 E2]. rewrite <- (take_drop n (merge os ps)) in E1, E2. unfold entry_objects, entry_prefixes in *.
    rewrite omap_app in E1. rewrite omap_app in E2. apply (f_equal length) in E1, E2. rewrite length_app in E1. rewrite length_app in E2. lia. }
  rewrite merge_length. apply Bool.eq_iff_eq_true. rewrite orb_true_iff, !Nat.ltb_lt. lia.
Qed.
End PageFacts.

(** ** Pages: following the tokens *)

(** All that is listed, in order. *)
Definition listing (objects : list Object) (ps : list bytes) (start_after : option bytes) : list Entry :=
  List.filter (fun e => beyond start_after (entry_key e)) (merge (sort_by_key object_key objects) ps).

(** A client that asks for the next page as long as it is given a token. *)
Fixpoint follow_tokens (fuel : nat) (objects : list Object) (ps : list bytes) (start_after : option bytes) (max_keys : Z) (token : option bytes) :
    option (list Page) :=
  match fuel with
  | 0 => None
  | S fuel' =>
      let pg := list_page objects ps (resume_point token start_after) max_keys in
      match pg_next_continuation_token pg with
      | None => Some [pg]
      | Some t => cons pg <$> follow_tokens fuel' objects ps start_after max_keys (Some t)
      end
  end.

Section Listing.
Context (objects : list Object) (ps : list bytes).
Context (Hkeyed : keyed objects).

Lemma keyed_beyond marker : keyed (List.filter (fun o => beyond marker (object_key o)) (sort_by_key object_key objects)).
Proof.
  unfold keyed in *. rewrite Forall_forall in *. intros o Ho%list_elem_of_In%List.filter_In. destruct Ho as [Ho _].
  apply list_elem_of_In in Ho. rewrite sort_by_key_perm in Ho. by apply Hkeyed.
Qed.

Lemma list_page_eq marker max : (0 < max_keys_usize max)%Z ->
  let l := listing objects ps marker in
  let n := Nat.min (Z.to_nat (max_keys_usize max)) (length l) in
  list_page objects ps marker max =
    {| pg_contents := entry_objects (take n l); pg_prefixes := map as_prefix (entry_prefixes (take n l));
       pg_key_count := Z.of_nat n; pg_is_truncated := (n <? length l)%nat;
       pg_next_continuation_token := if (n <? length l)%nat then entry_key <$> last (take n l) else None |}.
Proof.
  intros Hmax l n. unfold list_page. change (fun p => {| CommonPrefix_prefix := Some p |}) with as_prefix.
  set (os := List.filter _ (sort_by_key _ _)). set (qs := List.filter _ ps).
  assert (El : l = merge os qs) by (unfold l, os, qs; by rewrite merge_filter). clearbody l. subst l.
  pose proof (keyed_beyond marker) as Hk. fold os in Hk. cbv zeta.
  rewrite page_run_at by (done || lia). fold n. unfold page_token.
  rewrite page_truncated_at by (done || lia). cbn [result_objects result_prefixes total_count last_key page_at]. f_equal.
  destruct (n <? length (merge os qs))%nat eqn:Hn; [|done]. apply Nat.ltb_lt in Hn.
  destruct (last (take n (merge os qs))) eqn:E; [done|]. apply last_None in E. apply (f_equal length) in E. rewrite length_take in E. simpl in E. lia.
Qed.

Context (Hsorted : StronglySorted (key_lt entry_key) (merge (sort_by_key object_key objects) ps)).

Lemma StronglySorted_filter {A} (R : A -> A -> Prop) f l : StronglySorted R l -> StronglySorted R (List.filter f l).
Proof.
  clear. induction 1 as [|x l Hl IH Hx]; simpl; [constructor|]. destruct (f x); [|done]. constructor; [done|].
  rewrite Forall_forall in Hx. apply Forall_forall. intros y Hy%list_elem_of_In%List.filter_In. apply Hx, list_elem_of_In, Hy.
Qed.

Lemma entry_parts_split k (l : list Entry) :
  entry_objects (take k l) ++ entry_objects (drop k l) = entry_objects l /\ entry_prefixes (take k l) ++ entry_prefixes (drop k l) = entry_prefixes l.
Proof. unfold entry_objects, entry_prefixes. by rewrite <- !omap_app, take_drop. Qed.

(** After the token of an entry that is listed comes what follows the entry. *)
Lemma listing_resume start_after n e : last (take n (listing objects ps start_after)) = Some e ->
  listing objects ps (resume_point (Some (entry_key e)) start_after) = drop n (listing objects ps start_after).
Proof.
  intros He. rewrite <- (sorted_beyond (listing objects ps start_after) n e); [|by apply StronglySorted_filter|done].
  assert (Hb : beyond start_after (entry_key e) = true).
  { apply last_Some_elem_of in He. assert (Hin : e ∈ listing objects ps start_after).
    { rewrite <- (take_drop n (listing _ _ _)). apply elem_of_app. by left. }
    apply list_elem_of_In, List.filter_In in Hin. apply Hin. }
  assert (Er : resume_point (Some (entry_key e)) start_after = Some (entry_key e)).
  { destruct start_after as [sa|]; [|done]. simpl in *. by rewrite (bytes_ltb_le _ _ Hb). }
  rewrite Er. unfold listing. generalize (merge (sort_by_key object_key objects) ps). intros l.
  induction l as [|x l IH]; [done|]. cbn [List.filter]. destruct (beyond start_after (entry_key x)) eqn:Ex; cbn [List.filter].
  - destruct (beyond (Some (entry_key e)) (entry_key x)); by rewrite IH.
  - destruct (beyond (Some (entry_key e)) (entry_key x)) eqn:Ex'; [|done].
    rewrite (beyond_up _ _ _ Hb) in Ex; [done|]. by apply bytes_ltb_le.
Qed.

Lemma follow_from start_after max fuel token n : (0 < max_keys_usize max)%Z ->
  listing objects ps (resume_point token start_after) = drop n (listing objects ps start_after) ->
  (length (drop n (listing objects ps start_after)) < fuel)%nat ->
  exists pages, follow_tokens fuel objects ps start_after max token = Some pages /\
    concat (map pg_contents pages) = entry_objects (drop n (listing objects ps start_after)) /\
    concat (map pg_prefixes pages) = map as_prefix (entry_prefixes (drop n (listing objects ps start_after))) /\
    Forall (fun pg => (pg_key_count pg <= max_keys_usize max)%Z) pages.
Proof.
  intros Hmax. revert token n. induction fuel as [|fuel IH]; intros token n El Hf; [lia|]. cbn [follow_tokens].
  rewrite list_page_eq by done. cbn [pg_next_continuation_token]. rewrite El. set (l := drop n _) in *.
  set (k := Nat.min _ (length l)). destruct (Nat.ltb_spec k (length l)) as [Hk|Hk].
  - destruct (last (take k l)) as [e|] eqn:Ee.
    2: { apply last_None, (f_equal length) in Ee. rewrite length_take in Ee. simpl in Ee. lia. }
    cbn [fmap option_fmap option_map]. assert (Ed : drop k l = drop (n + k) (listing objects ps start_after)) by (unfold l; by rewrite drop_drop).
    destruct (IH (Some (entry_key e)) (n + k)%nat) as (pages & -> & Ec & Ep & Hc).
    + apply listing_resume. rewrite <- take_take_drop, last_app. fold l. by rewrite Ee.
    + rewrite <- Ed, length_drop. lia.
    + rewrite <- Ed in Ec, Ep. eexists. split; [done|]. cbn [map concat pg_contents pg_prefixes]. rewrite Ec, Ep, <- map_app.
      destruct (entry_parts_split k l) as [<- <-]. split_and!; [done|done|].
      constructor; [|done]. cbn [pg_key_count]. lia.
  - eexists. split; [done|]. cbn [map concat pg_contents pg_prefixes]. rewrite !app_nil_r, take_ge by lia.
    split_and!; [done|done|]. constructor; [cbn; lia|constructor].
Qed.

(** Every entry comes once, in order, in pages of at most the size that was asked for, when the
    client has one turn per entry and one more. *)
Lemma follow_all start_after max : (0 < max_keys_usize max)%Z ->
  exists pages, follow_tokens (S (length objects + length ps)) objects ps start_after max None = Some pages /\
    concat (map pg_contents pages) = entry_objects (listing objects ps start_after) /\
    concat (map pg_prefixes pages) = map as_prefix (entry_prefixes (listing objects ps start_after)) /\
    Forall (fun pg => (pg_key_count pg <= max_keys_usize max)%Z) pages.
Proof.
  intros Hmax. apply (follow_from start_after max _ None 0 Hmax); [by destruct start_after|]. cbn [drop].
  apply Nat.lt_succ_r. etransitivity; [apply List.filter_length_le|]. by rewrite merge_length, (Permutation_length (sort_by_key_perm _ _)).
Qed.
End Listing.

(** ** Walking the directories *)

(** What the system decides: the order of the entries of a directory, and the calendar. *)
Class FsEnv := {
  readdir : Files -> AbsPath -> list bytes;
  readdir_perm : forall fs d, readdir fs d ≡ₚ entries fs d;
  timestamp_from : Z -> Timestamp
}.

(** [std::path::Component] *)
Inductive Component := RootDir | CurDir | ParentDir | Prefix (prefix : bytes) | Normal (name : bytes).

Fixpoint normalize_from (delimiter : bytes) (first : bool) (normalized : bytes) (l : list Component) : option bytes :=
  match l with
  | [] => Some normalized
  | Normal name :: l' =>
      if utf8_valid name then normalize_from delimiter false ((if first then normalized else normalized ++ delimiter) ++ name) l' else None
  | _ :: _ => None
  end.
Definition normalize_path (path : list Component) (delimiter : bytes) : option bytes := normalize_from delimiter true [] path.

(** [try_!]: an error of the system is reported as an internal error. *)
Definition try_ {E A} (r : result E A) : result S3ErrorCode A := map_err (fun _ => InternalError) r.

(** What is done with an entry of a directory. *)
Inductive Action := Descend | Pass | Add (o : Object) | Group (p : bytes).

Record Found := { fd_objects : list Object; fd_prefixes : list bytes }.

(** [BTreeSet::insert]: the set is kept sorted. *)
Fixpoint btree_insert (k : bytes) (s : list bytes) : list bytes :=
  match s with
  | [] => [k]
  | x :: s' => match bytes_cmp k x with Lt => k :: s | Eq => s | Gt => x :: btree_insert k s' end
  end.

Definition add_found (a : Action) (acc : Found) : Found :=
  match a with
  | Add o => {| fd_objects := fd_objects acc ++ [o]; fd_prefixes := fd_prefixes acc |}
  | Group p => {| fd_objects := fd_objects acc; fd_prefixes := btree_insert p (fd_prefixes acc) |}
  | _ => acc
  end.

Section Walk.
Context `{FsEnv} (fs : Files).

Definition read_dir (d : AbsPath) : result IoError (list bytes) :=
  n ← stat fs d; match n with DirNode _ => Ok (readdir fs d) | FileNode _ _ => Err NotADirectory end.

Section Loop.
Context (visit : AbsPath -> Node -> option (result S3ErrorCode Action)).

(** The entries of one directory. *)
Fixpoint walk_dir (d : AbsPath) (names : list bytes) (acc : Found) (queue : list AbsPath) :
    option (result S3ErrorCode (Found * list AbsPath)) :=
  match names with
  | [] => Some (Ok (acc, queue))
  | x :: names' =>
      match stat fs (d ++ [x]) with
      | Err _ => Some (Err InternalError)
      | Ok n =>
          match visit (d ++ [x]) n with
          | None => None
          | Some (Err e) => Some (Err e)
          | Some (Ok a) => walk_dir d names' (add_found a acc) (match a with Descend => queue ++ [d ++ [x]] | _ => queue end)
          end
      end
  end.

(** [while let Some(dir) = dir_queue.pop_front()]: there is a turn for each directory. *)
Fixpoint walk (fuel : nat) (queue : list AbsPath) (acc : Found) : option (result S3ErrorCode Found) :=
  match fuel with
  | 0 => None
  | S fuel' =>
      match queue with
      | [] => Some (Ok acc)
      | d :: queue =>
          match read_dir d with
          | Err _ => Some (Err InternalError)
          | Ok names =>
              match walk_dir d names acc queue with
              | None => None
              | Some (Err e) => Some (Err e)
              | Some (Ok (acc, queue)) => walk fuel' queue acc
              end
          end
      end
  end.
End Loop.

(** [path.strip_prefix(bucket_root)] *)
Definition strip_root (bucket_root p : AbsPath) : result S3ErrorCode (list bytes) :=
  if above bucket_root p then Ok (drop (length bucket_root) p) else Err InternalError.

Definition file_object (key_str : bytes) (n : Node) : result S3ErrorCode Object :=
  match n with
  | FileNode data modified =>
      if (len data <=? i64_max)%Z then
        Ok {| Object_checksum_algorithm := None; Object_checksum_type := None; Object_e_tag := None; Object_key := Some key_str;
              Object_last_modified := Some (timestamp_from modified); Object_owner := None; Object_restore_status := None;
              Object_size := Some (len data); Object_storage_class := None |}
      else Err InternalError
  | DirNode _ => Err InternalError
  end.

Definition visit_recursive (bucket_root : AbsPath) (prefix : bytes) (entry_path : AbsPath) (n : Node) : option (result S3ErrorCode Action) :=
  match n with
  | DirNode _ => Some (Ok Descend)
  | FileNode _ _ => Some (
      key ← strip_root bucket_root entry_path;
      match normalize_path (map Normal key) (str "/") with
      | None => Ok Pass
      | Some key_str =>
          if negb (prefix =? []) && negb (starts_with prefix key_str) then Ok Pass
          else Add <$> file_object key_str n
      end)
  end.

(** [&s[..i]], which panics between the bytes of a character and after the end. *)
Definition str_to (s : bytes) (i : nat) : option bytes :=
  if is_char_boundary s i then Some (take i s) else None.

Definition visit_delimiter (bucket_root : AbsPath) (prefix delimiter : bytes) (entry_path : AbsPath) (n : Node) :
    option (result S3ErrorCode Action) :=
  match strip_root bucket_root entry_path with
  | Err e => Some (Err e)
  | Ok key =>
      match normalize_path (map Normal key) (str "/") with
      | None => Some (Ok Pass)
      | Some key_str =>
          let unmatched := negb (prefix =? []) && negb (starts_with prefix key_str) in
          match n with
          | DirNode _ =>
              if unmatched && negb (starts_with key_str prefix) && negb (starts_with prefix key_str) then Some (Ok Pass)
              else Some (Ok Descend)
          | FileNode _ _ =>
              if unmatched then Some (Ok Pass)
              else
                let remaining := drop (length prefix) key_str in
                match find_sub delimiter remaining with
                | Some delimiter_pos =>
                    head ← str_to remaining (S delimiter_pos);
                    Some (Ok (Group (prefix ++ head)))
                | None => Some (Add <$> file_object key_str n)
                end
          end
      end
  end.

Definition list_objects_recursive (bucket_root : AbsPath) (prefix : bytes) : option (result S3ErrorCode Found) :=
  walk (visit_recursive bucket_root prefix) (S (size fs)) [bucket_root] {| fd_objects := []; fd_prefixes := [] |}.
Definition list_objects_with_delimiter (bucket_root : AbsPath) (prefix delimiter : bytes) : option (result S3ErrorCode Found) :=
  walk (visit_delimiter bucket_root prefix delimiter) (S (size fs)) [bucket_root] {| fd_objects := []; fd_prefixes := [] |}.
End Walk.

(** ** The walk meets every entry once *)

Section WalkFacts.
Context `{FsEnv} (fs : Files).
Context (Htree : tree_ok fs).

(** What is below a directory. *)
Definition under (d : AbsPath) : list AbsPath := List.filter (fun p => above d p && negb (p =? d)) (map fst (map_to_list fs)).

Lemma under_spec d p : p ∈ under d <-> is_Some (fs !! p) /\ exists x r, p = d ++ x :: r.
Proof.
  unfold under. rewrite list_elem_of_In, List.filter_In, <- list_elem_of_In, andb_true_iff, above_iff, negb_true_iff, bool_decide_eq_false.
  assert (Hk : p ∈ map fst (map_to_list fs) <-> is_Some (fs !! p)).
  { rewrite list_elem_of_fmap. split; [intros ([q n] & -> & Hin%elem_of_map_to_list); by exists n|].
    intros [n Hn]. exists (p, n). split; [done|by apply elem_of_map_to_list]. }
  rewrite Hk. split.
  - intros (Hs & [[|x r] ->] & Hne); [by rewrite app_nil_r in Hne|eauto].
  - intros (Hs & x & r & ->). split_and!; [done|eauto|]. intros E. apply (f_equal length) in E. rewrite length_app in E. simpl in E. lia.
Qed.

Lemma under_NoDup d : NoDup (under d).
Proof. apply NoDup_ListNoDup, List.NoDup_filter, NoDup_ListNoDup, NoDup_fst_map_to_list. Qed.

Lemma tree_child d x r : is_Some (fs !! (d ++ x :: r)) -> is_Some (fs !! (d ++ [x])).
Proof.
  induction r as [|y r IH] using rev_ind; [done|]. intros Hs. apply IH.
  replace (d ++ x :: r ++ [y]) with ((d ++ x :: r) ++ [y]) in Hs by by rewrite <- app_assoc.
  apply (proj2 Htree) in Hs. unfold is_dir in Hs. by destruct (fs !! (d ++ x :: r)).
Qed.

Lemma under_split d : under d ≡ₚ entries fs d ≫= fun x => (d ++ [x]) :: under (d ++ [x]).
Proof.
  apply NoDup_Permutation; [apply under_NoDup| |].
  - apply NoDup_bind; [| |apply entries_NoDup].
    + intros x1 x2 p _ _ H1 H2.
      assert (Hx : forall x, p ∈ (d ++ [x]) :: under (d ++ [x]) -> exists r, p = d ++ x :: r).
      { intros x [->|Hp]%elem_of_cons; [by exists []|]. apply under_spec in Hp as (_ & y & r & ->). exists (y :: r). by rewrite <- app_assoc. }
      destruct (Hx _ H1) as [r1 ->], (Hx _ H2) as [r2 E]. apply app_inv_head in E. by injection E.
    + intros x _. constructor; [|apply under_NoDup]. intros (_ & y & r & E)%under_spec. apply (f_equal length) in E. rewrite !length_app in E. simpl in E. lia.
  - intros p. rewrite under_spec, list_elem_of_bind. split.
    + intros (Hs & x & r & ->). exists x. split; [|by apply entries_spec; eapply tree_child].
      destruct r as [|y r]; [by left|]. right. apply under_spec. split; [done|]. exists y, r. by rewrite <- app_assoc.
    + intros (x & [->|Hp]%elem_of_cons & Hx%entries_spec); [split; [done|by exists x, []]|].
      apply under_spec in Hp as (Hs & y & r & ->). split; [done|]. exists x, (y :: r). by rewrite <- app_assoc.
Qed.

Lemma under_file d : is_dir fs d = false -> under d = [].
Proof.
  intros Hd. destruct (under d) as [|p l] eqn:E; [done|]. assert (Hp : p ∈ under d) by (rewrite E; by left).
  apply under_spec in Hp as (Hs & x & r & ->). apply tree_child, (proj2 Htree) in Hs. by rewrite Hd in Hs.
Qed.

Definition turns (queue : list AbsPath) : nat := sum_list_with (fun d => S (length (under d))) queue.

Context (visit : AbsPath -> Node -> option (result S3ErrorCode Action)).

(** What an entry adds to the listing. *)
Definition effect (p : AbsPath) : list Action :=
  match fs !! p with
  | Some n => match visit p n with Some (Ok ((Add _ | Group _) as a)) => [a] | _ => [] end
  | None => []
  end.
Definition effects (queue : list AbsPath) : list Action := queue ≫= fun d => under d ≫= effect.
Definition add_all (l : list Action) (acc : Found) : Found := foldl (fun acc a => add_found a acc) acc l.

(** No visit below the directories panics or fails, and nothing is found below a directory that is passed over. *)
Definition visits_ok (d : AbsPath) : Prop := forall p n, p ∈ under d -> fs !! p = Some n ->
  exists a, visit p n = Some (Ok a) /\
    match a with Descend => is_dir fs p = true | Pass => under p ≫= effect = [] | _ => is_dir fs p = false end.

Lemma visits_ok_child d x : visits_ok d -> is_Some (fs !! (d ++ [x])) -> visits_ok (d ++ [x]).
Proof.
  intros Hv Hs p n Hp Hn. apply Hv; [|done]. apply under_spec in Hp as (Hs' & y & r & ->). apply under_spec. split; [done|].
  exists x, (y :: r). by rewrite <- app_assoc.
Qed.

(** The directories of the queue that one directory leads to. *)
Definition descends (p : AbsPath) : bool :=
  match fs !! p with Some n => match visit p n with Some (Ok Descend) => true | _ => false end | None => false end.

Lemma walk_dir_eq d names acc queue : visits_ok d -> (forall x, x ∈ names -> is_Some (fs !! (d ++ [x]))) ->
  walk_dir fs visit d names acc queue =
    Some (Ok (add_all (names ≫= fun x => effect (d ++ [x])) acc, queue ++ List.filter descends (map (fun x => d ++ [x]) names))).
Proof.
  intros Hv. revert acc queue. induction names as [|x names IH]; intros acc queue Hn; [by rewrite app_nil_r|]. cbn [walk_dir].
  destruct (Hn x) as [n En]; [by left|]. destruct (Hv (d ++ [x]) n) as (a & Ea & _); [apply under_spec; split; [by exists n|by exists x, []]|done|].
  unfold stat. rewrite En, Ea. rewrite IH by (intros y Hy; apply Hn; by right). rewrite bind_cons. cbn [map List.filter].
  unfold effect at 2, descends at 2. rewrite En, Ea. destruct a; cbn [app]; try done. by rewrite <- app_assoc.
Qed.

Lemma bind_split {A B} (f g : A -> list B) l : l ≫= (fun x => f x ++ g x) ≡ₚ (l ≫= f) ++ (l ≫= g).
Proof. induction l as [|x l IH]; [done|]. rewrite !bind_cons, IH. by solve_Permutation. Qed.

Lemma bind_bind {A B C} (f : A -> list B) (g : B -> list C) l : (l ≫= f) ≫= g = l ≫= fun x => f x ≫= g.
Proof. induction l as [|x l IH]; [done|]. by rewrite !bind_cons, bind_app, IH. Qed.

Lemma turns_app q r : turns (q ++ r) = (turns q + turns r)%nat.
Proof. apply sum_list_with_app. Qed.

Lemma turns_pushed d names :
  (turns (List.filter descends (map (fun x => d ++ [x]) names)) <= length (names ≫= fun x => (d ++ [x]) :: under (d ++ [x])))%nat.
Proof.
  induction names as [|x names IH]; [done|]. rewrite bind_cons, length_app. cbn [map List.filter length].
  destruct (descends (d ++ [x])); [|lia]. unfold turns in *. cbn [sum_list_with]. lia.
Qed.

Lemma effects_pushed d names : visits_ok d -> (forall x, x ∈ names -> is_Some (fs !! (d ++ [x]))) ->
  effects (List.filter descends (map (fun x => d ++ [x]) names)) = names ≫= fun x => under (d ++ [x]) ≫= effect.
Proof.
  intros Hv. induction names as [|x names IH]; intros Hn; [done|]. rewrite bind_cons. cbn [map List.filter].
  rewrite <- IH by (intros y Hy; apply Hn; by right). destruct (Hn x) as [n En]; [by left|].
  destruct (Hv (d ++ [x]) n) as (a & Ea & Hk); [apply under_spec; split; [by exists n|by exists x, []]|done|].
  unfold descends at 1. rewrite En, Ea. destruct a; [by unfold effects; rewrite bind_cons|by rewrite Hk|..]; by rewrite (under_file _ Hk).
Qed.

Lemma walk_from fuel queue acc : Forall (fun d => is_dir fs d = true /\ visits_ok d) queue -> (turns queue < fuel)%nat ->
  exists l, walk fs visit fuel queue acc = Some (Ok (add_all l acc)) /\ l ≡ₚ effects queue.
Proof.
  revert queue acc. induction fuel as [|fuel IH]; intros queue acc Hq Hf; [lia|]. destruct queue as [|d queue]; [by exists []|].
  apply Forall_cons in Hq as [[Hd Hv] Hq]. cbn [walk]. unfold read_dir, stat. unfold is_dir in Hd.
  destruct (fs !! d) as [[|t]|]; [done| |done]. cbn [mbind result_bind].
  assert (Hnames : forall x, x ∈ readdir fs d -> is_Some (fs !! (d ++ [x]))) by (intros x Hx; rewrite readdir_perm in Hx; by apply entries_spec).
  rewrite walk_dir_eq by done. set (pushed := List.filter descends _).
  assert (Hu : under d ≡ₚ readdir fs d ≫= fun x => (d ++ [x]) :: under (d ++ [x])) by by rewrite readdir_perm, under_split.
  pose proof (turns_pushed d (readdir fs d)) as Ht. rewrite <- Hu in Ht. fold pushed in Ht.
  destruct (IH (queue ++ pushed) (add_all (readdir fs d ≫= fun x => effect (d ++ [x])) acc)) as (l & -> & Hl).
  - apply Forall_app. split; [done|]. apply Forall_forall. intros p Hp%list_elem_of_In%List.filter_In. destruct Hp as [Hin Hdesc].
    apply list_elem_of_In, list_elem_of_fmap in Hin as (x & -> & Hx). specialize (Hnames x Hx) as [n En].
    destruct (Hv (d ++ [x]) n) as (a & Ea & Hk); [apply under_spec; split; [by exists n|by exists x, []]|done|].
    unfold descends in Hdesc. rewrite En, Ea in Hdesc. destruct a; try done. split; [done|]. apply visits_ok_child; [done|by exists n].
  - rewrite turns_app. unfold turns in Hf |- *. cbn [sum_list_with] in Hf. unfold turns in Ht. lia.
  - exists ((readdir fs d ≫= fun x => effect (d ++ [x])) ++ l). split; [unfold add_all; by rewrite foldl_app|].
    rewrite Hl. unfold effects at 2. rewrite bind_cons. fold (effects queue). unfold effects at 1. rewrite bind_app.
    fold (effects queue) (effects pushed). unfold pushed. rewrite effects_pushed by done.
    rewrite Hu, bind_bind.
    pose proof (bind_split (fun x => effect (d ++ [x])) (fun x => under (d ++ [x]) ≫= effect) (readdir fs d)) as Hs.
    cbn [mbind list_bind] in Hs |- *. rewrite Hs.
    by solve_Permutation.
Qed.
End WalkFacts.

(** ** What the two routines find *)

Definition option_list {A} (o : option A) : list A := match o with Some a => [a] | None => [] end.

Lemma nil_bind {A B} (f : A -> list B) l : (forall x, x ∈ l -> f x = []) -> l ≫= f = [].
Proof. induction l as [|x l IH]; [done|]. intros Hf. rewrite bind_cons, Hf by by left. apply IH. intros y Hy. apply Hf. by right. Qed.

Section Collect.
Context `{FsEnv} (fs : Files).
Context (Htree : tree_ok fs) (Hnames : names_ok fs).

(** The key of a path. *)
Definition key_at (root p : AbsPath) : option bytes :=
  if above root p then normalize_path (map Normal (drop (length root) p)) (str "/") else None.

(** The object a file is listed as, where its key has the prefix and [keep] holds of what follows it. *)
Definition object_at (root : AbsPath) (prefix : bytes) (keep : bytes -> bool) (p : AbsPath) : option Object :=
  n ← fs !! p;
  k ← key_at root p;
  if starts_with prefix k && keep (drop (length prefix) k) then match file_object k n with Ok o => Some o | Err _ => None end else None.

(** The sizes of files fit the type that reports them. *)
Definition sizes_ok : Prop := forall p data t, fs !! p = Some (FileNode data t) -> (len data <= i64_max)%Z.

Lemma normalize_eq d l first acc : normalize_from d first acc (map Normal l) =
  if forallb utf8_valid l then Some (acc ++ match l with [] => [] | _ => (if first then [] else d) ++ join d l end) else None.
Proof.
  revert first acc. induction l as [|x l IH]; intros first acc; [by rewrite app_nil_r|]. cbn [map normalize_from forallb].
  destruct (utf8_valid x); [|done]. rewrite IH. cbn [andb]. destruct (forallb utf8_valid l); [|done]. f_equal.
  destruct l as [|y l]; destruct first; cbn [join]; by rewrite ?app_nil_r, <- ?app_assoc.
Qed.

Lemma key_at_Some root p k : key_at root p = Some k <->
  exists l, p = root ++ l /\ forallb utf8_valid l = true /\ k = join (str "/") l.
Proof.
  unfold key_at, normalize_path. destruct (above root p) eqn:Ha.
  - apply above_iff in Ha as [l ->]. rewrite drop_app_length, normalize_eq. split.
    + destruct (forallb utf8_valid l) eqn:Hl; [|done]. intros [= <-]. exists l. split_and!; [done..|]. by destruct l.
    + intros (l' & ->%app_inv_head & Hl & ->). rewrite Hl. by destruct l'.
  - split; [done|]. intros (l & -> & _). rewrite (proj2 (above_iff root (root ++ l))) in Ha by eauto. done.
Qed.

Lemma join_valid l : forallb utf8_valid l = true -> utf8_valid (join (str "/") l) = true.
Proof.
  induction l as [|x [|y l] IH]; cbn [forallb]; intros E; [done|by apply andb_true_iff in E as [E _]|].
  apply andb_true_iff in E as [Hx Hl]. cbn [join]. rewrite (utf8_app x Hx). by apply IH.
Qed.

Lemma key_at_valid root p k : key_at root p = Some k -> utf8_valid k = true.
Proof. intros (l & -> & Hl & ->)%key_at_Some. by apply join_valid. Qed.

(** Different files have different keys. *)
Lemma key_at_inj root p q k : p ∈ under fs root -> q ∈ under fs root -> key_at root p = Some k -> key_at root q = Some k -> p = q.
Proof.
  intros Hp Hq (l & -> & _ & ->)%key_at_Some (l' & -> & _ & E)%key_at_Some. f_equal.
  assert (Hw : forall l, root ++ l ∈ under fs root -> l <> [] /\ Forall (fun w => "/"%byte ∉ w) l).
  { clear -Hnames. intros l (Hs & x & r & E)%under_spec. split; [intros ->; apply (f_equal length) in E; rewrite !length_app in E; simpl in E; lia|].
    apply Hnames, Forall_app in Hs as [_ Hs]. eapply Forall_impl; [exact Hs|]. intros w Hw. unfold name_ok in Hw.
    rewrite !andb_true_iff, !negb_true_iff, !bool_decide_eq_false in Hw. naive_solver. }
  apply Hw in Hp as [Hp1 Hp2]. apply Hw in Hq as [Hq1 Hq2].
  rewrite <- (split_join "/" l), <- (split_join "/" l') by done. by f_equal.
Qed.

(** The key of what is below a path extends the key of the path. *)
Lemma key_at_below root p r k : p <> root -> key_at root (p ++ r) = Some k -> above root p = true ->
  exists k' t, key_at root p = Some k' /\ k = k' ++ t.
Proof.
  intros Hne (l & E & Hl & ->)%key_at_Some [l' ->]%above_iff. rewrite <- app_assoc in E. apply app_inv_head in E as <-.
  rewrite forallb_app in Hl. apply andb_true_iff in Hl as [Hl' Hr].
  assert (E : exists t, join (str "/") (l' ++ r) = join (str "/") l' ++ t).
  { clear. induction l' as [|x [|y l'] IH]; [by eexists| |].
    - destruct r as [|w r]; [exists []; cbn; by rewrite app_nil_r|exists (str "/" ++ join (str "/") (w :: r)); done].
    - destruct IH as [t E]. exists t. cbn [app join] in *. by rewrite E, <- !app_assoc. }
  destruct E as [t E]. exists (join (str "/") l'), t. split; [|done]. apply key_at_Some. eauto.
Qed.

(** ** Gathering the effects *)

Definition added (l : list Action) : list Object := omap (fun a => match a with Add o => Some o | _ => None end) l.
Definition grouped (l : list Action) : list bytes := omap (fun a => match a with Group g => Some g | _ => None end) l.

Lemma btree_insert_elem k s x : x ∈ btree_insert k s <-> x = k \/ x ∈ s.
Proof.
  induction s as [|y s IH]; cbn [btree_insert]; [rewrite list_elem_of_singleton; set_solver|].
  destruct (bytes_cmp k y) eqn:E; rewrite ?elem_of_cons, ?IH; [|naive_solver..]. apply bytes_cmp_eq in E as ->. naive_solver.
Qed.

Lemma btree_insert_sorted k s : StronglySorted (key_lt id) s -> StronglySorted (key_lt id) (btree_insert k s).
Proof.
  unfold key_lt, id. induction 1 as [|y s Hs IH Hy]; cbn [btree_insert]; [repeat constructor|].
  destruct (bytes_cmp k y) eqn:Hk.
  - by constructor.
  - constructor; [by constructor|]. assert (Hlt : bytes_ltb k y = true) by (unfold bytes_ltb; by rewrite Hk).
    constructor; [done|]. eapply Forall_impl; [exact Hy|]. intros z Hz. eapply bytes_ltb_trans; [exact Hlt|by apply bytes_ltb_le].
  - constructor; [done|]. apply Forall_forall. intros z [->|Hz]%btree_insert_elem.
    + unfold bytes_ltb. by rewrite bytes_cmp_antisym, Hk.
    + rewrite Forall_forall in Hy. by apply Hy.
Qed.

Lemma add_all_found l acc : StronglySorted (key_lt id) (fd_prefixes acc) ->
  fd_objects (add_all l acc) = fd_objects acc ++ added l /\
  StronglySorted (key_lt id) (fd_prefixes (add_all l acc)) /\
  forall g, g ∈ fd_prefixes (add_all l acc) <-> g ∈ fd_prefixes acc \/ g ∈ grouped l.
Proof.
  revert acc. induction l as [|a l IH]; intros acc Hs; [split_and!; [by rewrite app_nil_r|done|]; set_solver|].
  change (add_all (a :: l) acc) with (add_all l (add_found a acc)).
  assert (Hs' : StronglySorted (key_lt id) (fd_prefixes (add_found a acc))) by (destruct a; [done..|by apply btree_insert_sorted]).
  destruct (IH _ Hs') as (-> & Hso & Hg). split_and!; [|done|].
  - destruct a; cbn; [done|done|by rewrite <- app_assoc|done].
  - intros g. rewrite Hg. destruct a; cbn; [done|done|done|]. rewrite btree_insert_elem, elem_of_cons. naive_solver.
Qed.

Lemma walk_root visit root : is_dir fs root = true -> visits_ok fs visit root ->
  exists found, walk fs visit (S (size fs)) [root] {| fd_objects := []; fd_prefixes := [] |} = Some (Ok found) /\
    fd_objects found ≡ₚ added (under fs root ≫= effect fs visit) /\
    StronglySorted (key_lt id) (fd_prefixes found) /\
    forall g, g ∈ fd_prefixes found <-> g ∈ grouped (under fs root ≫= effect fs visit).
Proof.
  intros Hd Hv.
  destruct (walk_from fs Htree visit (S (size fs)) [root] {| fd_objects := []; fd_prefixes := [] |}) as (l & E & Hl).
  - by repeat constructor.
  - unfold turns. cbn [sum_list_with]. assert (Hlt : (length (root :: under fs root) <= size fs)%nat); [|simpl in Hlt; lia].
    rewrite <- (length_map_to_list fs), <- (length_map fst). apply submseteq_length, NoDup_submseteq.
    + constructor; [|apply under_NoDup]. intros (_ & x & r & E)%under_spec. apply (f_equal length) in E. rewrite length_app in E. simpl in E. lia.
    + intros p Hp. assert (Hs : is_Some (fs !! p)).
      { apply elem_of_cons in Hp as [->|Hp]; [unfold is_dir in Hd; by destruct (fs !! root)|by apply under_spec in Hp as [Hs _]]. }
      destruct Hs as [n Hn]. apply list_elem_of_fmap. exists (p, n). split; [done|by apply elem_of_map_to_list].
  - assert (Hq : effects fs visit [root] = under fs root ≫= effect fs visit) by apply app_nil_r. rewrite Hq in Hl.
    eexists. split; [exact E|]. destruct (add_all_found l {| fd_objects := []; fd_prefixes := [] |}) as (-> & Hs & Hg); [constructor|].
    split_and!; [|done|].
    + cbn. unfold added. by rewrite Hl.
    + intros g. rewrite Hg. unfold grouped. rewrite Hl. cbn. set_solver.
Qed.

(** ** The specification of the two routines *)

Definition keeps (delimiter : option byte) (rest : bytes) : bool :=
  match delimiter with Some c => negb (bool_decide (c ∈ rest)) | None => true end.

(** The common prefix a file is grouped under. *)
Definition group_at (root : AbsPath) (prefix : bytes) (delimiter : option byte) (p : AbsPath) : option bytes :=
  c ← delimiter;
  n ← fs !! p;
  match n with
  | DirNode _ => None
  | FileNode _ _ =>
      k ← key_at root p;
      if starts_with prefix k then '(a, _) ← split_once c (drop (length prefix) k); Some (prefix ++ a ++ [c]) else None
  end.

(** The walk of [list_objects_v2]. *)
Definition collect (root : AbsPath) (prefix : bytes) (delimiter : option bytes) : option (result S3ErrorCode Found) :=
  match delimiter with
  | Some delimiter => list_objects_with_delimiter fs root prefix delimiter
  | None => list_objects_recursive fs root prefix
  end.

Definition visit_of (root : AbsPath) (prefix : bytes) (delimiter : option byte) : AbsPath -> Node -> option (result S3ErrorCode Action) :=
  match delimiter with Some c => visit_delimiter root prefix [c] | None => visit_recursive root prefix end.

Lemma unmatched_eq prefix k : negb (prefix =? []) && negb (starts_with prefix k) = negb (starts_with prefix k).
Proof. case_bool_decide; [by subst|done]. Qed.

Lemma find_sub_byte c s : find_sub [c] s = length ∘ fst <$> split_once c s.
Proof.
  destruct (split_once c s) as [[a r]|] eqn:E.
  - apply split_once_Some in E as [-> Hn]. cbn. apply (find_sub_head c [] a r Hn).
  - apply split_once_None in E. by apply (find_sub_notin c []).
Qed.

(** A cut after an ASCII byte of text. *)
Lemma str_to_ascii a c r : is_ascii c = true -> utf8_valid r = true -> str_to (a ++ c :: r) (S (length a)) = Some (a ++ [c]).
Proof.
  intros Hc Hr. unfold str_to. assert (Eb : is_char_boundary (a ++ c :: r) (S (length a)) = true).
  { unfold is_char_boundary. destruct r as [|d r].
    - apply orb_true_iff. left. apply orb_true_iff. right. apply bool_decide_eq_true. rewrite length_app. simpl. lia.
    - rewrite lookup_app_r by lia. replace (S (length a) - length a)%nat with 1 by lia. cbn. rewrite (first_byte _ _ Hr). by rewrite orb_true_r. }
  rewrite Eb. f_equal. replace (a ++ c :: r) with ((a ++ [c]) ++ r) by by rewrite <- app_assoc.
  replace (S (length a)) with (length (a ++ [c])) by (rewrite length_app; simpl; lia). apply take_app_length.
Qed.

Section Visits.
Context (root : AbsPath) (prefix : bytes) (delimiter : option byte).
Context (Hsizes : sizes_ok) (Hascii : match delimiter with Some c => is_ascii c = true | None => True end).

(** What a file whose key has the prefix becomes. *)
Definition file_action (k : bytes) (n : Node) : result S3ErrorCode Action :=
  match c ← delimiter; split_once c (drop (length prefix) k) with
  | Some (a, _) => Ok (Group (prefix ++ a ++ default [] ((fun c => [c]) <$> delimiter)))
  | None => Add <$> file_object k n
  end.

Lemma visit_file p data t k : key_at root p = Some k ->
  visit_of root prefix delimiter p (FileNode data t) =
  Some (if starts_with prefix k then file_action k (FileNode data t) else Ok Pass).
Proof.
  intros Hk. pose proof Hk as Hk'. unfold key_at in Hk'. pose proof (key_at_valid _ _ _ Hk) as Hvalid.
  unfold visit_of, file_action. destruct delimiter as [c|]; cbn [mbind option_bind].
  - unfold visit_delimiter, strip_root. destruct (above root p); [|done]. rewrite Hk', unmatched_eq.
    destruct (starts_with prefix k) eqn:Hpre; [|done]. cbn [negb]. rewrite find_sub_byte.
    destruct (split_once c (drop (length prefix) k)) as [[a r]|] eqn:Es; [|done].
    apply split_once_Some in Es as [Es _]. cbn. rewrite Es.
    apply starts_with_true in Hpre as [rest ->]. rewrite drop_app_length in Es. subst rest.
    assert (Hr : utf8_valid r = true) by (apply (utf8_around (prefix ++ a) c r); [done|by rewrite <- app_assoc]).
    by rewrite str_to_ascii.
  - unfold visit_recursive, strip_root. destruct (above root p); [|done]. cbn [mbind result_bind]. rewrite Hk', unmatched_eq.
    by destruct (starts_with prefix k).
Qed.

Lemma visit_nokey p data t : p ∈ under fs root -> key_at root p = None -> visit_of root prefix delimiter p (FileNode data t) = Some (Ok Pass).
Proof.
  intros (_ & x & r & Hp)%under_spec Hk. unfold key_at in Hk. assert (Ha : above root p = true) by (apply above_iff; by exists (x :: r)).
  rewrite Ha in Hk. unfold visit_of. destruct delimiter; [unfold visit_delimiter|unfold visit_recursive]; unfold strip_root; rewrite Ha; cbn [mbind result_bind]; by rewrite Hk.
Qed.

(** A directory that is passed over has no file with the prefix below it. *)
Lemma visit_dir p t : p ∈ under fs root ->
  visit_of root prefix delimiter p (DirNode t) = Some (Ok Descend) \/
  visit_of root prefix delimiter p (DirNode t) = Some (Ok Pass) /\
    forall r k, key_at root (p ++ r) = Some k -> starts_with prefix k = false.
Proof.
  intros (_ & x & l & Hp)%under_spec. assert (Ha : above root p = true) by (apply above_iff; by exists (x :: l)).
  assert (Hne : p <> root) by (intros ->; apply (f_equal length) in Hp; rewrite length_app in Hp; simpl in Hp; lia).
  unfold visit_of. destruct delimiter as [c|]; [|by left]. unfold visit_delimiter, strip_root. rewrite Ha.
  destruct (normalize_path _ _) as [k'|] eqn:Ek.
  - rewrite unmatched_eq. destruct (_ && _) eqn:Eb; [|by left]. right. split; [done|]. intros r k Hk.
    destruct (key_at_below root p r k Hne Hk Ha) as (k2 & t2 & Hk2 & ->). unfold key_at in Hk2. rewrite Ha, Ek in Hk2. injection Hk2 as ->.
    rewrite !andb_true_iff, !negb_true_iff in Eb. destruct Eb as [[Eb1 Eb2] _]. destruct (starts_with prefix (k2 ++ t2)) eqn:E; [|done].
    apply starts_with_true in E as [u E]. apply app_eq_inv in E as [(m & E1 & E2)|(m & E1 & E2)].
    + rewrite E1, starts_with_app in Eb1. done.
    + rewrite E1, starts_with_app in Eb2. done.
  - right. split; [done|]. intros r k Hk. destruct (key_at_below root p r k Hne Hk Ha) as (k2 & t2 & Hk2 & _).
    unfold key_at in Hk2. by rewrite Ha, Ek in Hk2.
Qed.

Lemma file_object_ok p data t k : fs !! p = Some (FileNode data t) -> exists o, file_object k (FileNode data t) = Ok o /\ Object_key o = Some k.
Proof. intros Hn. cbn [file_object]. rewrite (proj2 (Z.leb_le _ _)) by (by eapply Hsizes). eauto. Qed.

(** The effect of each entry, as the specification has it. *)
Lemma effect_eq p : p ∈ under fs root ->
  effect fs (visit_of root prefix delimiter) p =
  (Add <$> option_list (object_at root prefix (keeps delimiter) p)) ++ (Group <$> option_list (group_at root prefix delimiter p)).
Proof.
  intros Hp. unfold effect, object_at, group_at. destruct (fs !! p) as [n|] eqn:Hn; [|by destruct delimiter]. cbn [mbind option_bind].
  destruct n as [data t|t].
  - destruct (key_at root p) as [k|] eqn:Hk; [|rewrite visit_nokey by done; by destruct delimiter].
    rewrite (visit_file p data t k) by done. cbn [mbind option_bind]. destruct (starts_with prefix k) eqn:Hpre; [|by destruct delimiter].
    unfold file_action, keeps. destruct (file_object_ok p data t k Hn) as (o & Ho & _).
    destruct delimiter as [c|]; cbn [mbind option_bind andb]; [|by rewrite Ho].
    destruct (split_once c (drop (length prefix) k)) as [[a r]|] eqn:Es.
    + assert (Hin : c ∈ drop (length prefix) k) by (apply split_once_Some in Es as [-> _]; set_solver).
      rewrite bool_decide_eq_true_2 by done. by cbn.
    + apply split_once_None in Es. rewrite bool_decide_eq_false_2 by done. cbn [negb andb]. by rewrite Ho.
  - assert (Ef : match k ← key_at root p; if starts_with prefix k && keeps delimiter (drop (length prefix) k) then
        match file_object k (DirNode t) with Ok o => Some o | Err _ => None end else None with Some o => Some o | None => None end = @None Object).
    { destruct (key_at root p) as [k|]; [cbn|done]. by destruct (_ && _). }
    destruct (visit_dir p t Hp) as [->|[-> _]]; destruct (key_at root p) as [k|]; cbn in Ef |- *; try destruct (_ && _); by destruct delimiter.
Qed.

Lemma visits_ok_root : visits_ok fs (visit_of root prefix delimiter) root.
Proof.
  intros p n Hp Hn. destruct n as [data t|t].
  - assert (Hd : is_dir fs p = false) by (unfold is_dir; by rewrite Hn).
    assert (Hpass : under fs p ≫= effect fs (visit_of root prefix delimiter) = []) by by rewrite (under_file fs Htree p Hd).
    destruct (key_at root p) as [k|] eqn:Hk; [|exists Pass; split; [by apply visit_nokey|done]].
    rewrite (visit_file p data t k) by done. destruct (starts_with prefix k); [|by exists Pass].
    unfold file_action. destruct (file_object_ok p data t k Hn) as (o & -> & _).
    destruct (c ← delimiter; _) as [[a r]|]; eexists; (split; [done|exact Hd]).
  - destruct (visit_dir p t Hp) as [E|[E Hnone]]; [exists Descend; split; [done|unfold is_dir; by rewrite Hn]|].
    exists Pass. split; [done|]. apply nil_bind. intros q Hq. pose proof Hq as (_ & x & r & ->)%under_spec.
    assert (Hq' : p ++ x :: r ∈ under fs root).
    { apply under_spec in Hp as (_ & y & l & ->). apply under_spec in Hq as (Hs & _). apply under_spec. split; [done|].
      exists y, (l ++ x :: r). by rewrite <- app_assoc. }
    rewrite effect_eq by done. unfold object_at, group_at. destruct (fs !! (p ++ x :: r)) as [n|]; [|by destruct delimiter].
    destruct (key_at root (p ++ x :: r)) as [k|] eqn:Hk; [|by destruct delimiter, n].
    cbn. rewrite (Hnone _ _ Hk). by destruct delimiter, n.
Qed.

Lemma added_parts l (f : AbsPath -> list Action) g h :
  (forall p, p ∈ l -> f p = (Add <$> option_list (g p)) ++ (Group <$> option_list (h p))) ->
  added (l ≫= f) = omap g l /\ grouped (l ≫= f) = omap h l.
Proof.
  intros Hf. induction l as [|p l IH]; [done|]. destruct IH as [IH1 IH2]; [intros q Hq; apply Hf; by right|].
  unfold added, grouped in *. rewrite bind_cons, !omap_app, IH1, IH2, Hf by by left. cbn.
  destruct (g p), (h p); done.
Qed.

(** The objects are the files whose keys have the prefix and no delimiter after it, each once; the
    common prefixes are those of the files with a delimiter after the prefix, in order. *)
Lemma collect_spec : is_dir fs root = true ->
  exists found, collect root prefix ((fun c => [c]) <$> delimiter) = Some (Ok found) /\
    fd_objects found ≡ₚ omap (object_at root prefix (keeps delimiter)) (under fs root) /\
    StronglySorted (key_lt id) (fd_prefixes found) /\
    forall g, g ∈ fd_prefixes found <-> g ∈ omap (group_at root prefix delimiter) (under fs root).
Proof.
  intros Hd. assert (E : collect root prefix ((fun c => [c]) <$> delimiter) =
    walk fs (visit_of root prefix delimiter) (S (size fs)) [root] {| fd_objects := []; fd_prefixes := [] |}) by by destruct delimiter.
  rewrite E. destruct (walk_root (visit_of root prefix delimiter) root Hd visits_ok_root) as (found & -> & Ho & Hs & Hg).
  exists found. destruct (added_parts (under fs root) _ _ _ effect_eq) as [E1 E2]. rewrite E1 in Ho. rewrite E2 in Hg. done.
Qed.

Lemma object_at_Some p o : object_at root prefix (keeps delimiter) p = Some o <->
  exists data t k, fs !! p = Some (FileNode data t) /\ key_at root p = Some k /\ starts_with prefix k = true /\
    keeps delimiter (drop (length prefix) k) = true /\ file_object k (FileNode data t) = Ok o.
Proof.
  unfold object_at. destruct (fs !! p) as [n|]; [|naive_solver]. cbn [mbind option_bind].
  destruct (key_at root p) as [k|]; [|naive_solver]. cbn [mbind option_bind]. split.
  - destruct (_ && _) eqn:Eb; [|done]. apply andb_true_iff in Eb as [H1 H2]. destruct n as [data t|t]; [|done].
    destruct (file_object k (FileNode data t)) eqn:Eo; [|done]. intros [= ->]. naive_solver.
  - intros (data & t & k' & [= ->] & [= ->] & -> & -> & ->). done.
Qed.

Lemma object_at_key p o : object_at root prefix (keeps delimiter) p = Some o -> Object_key o = key_at root p /\ is_Some (Object_key o).
Proof.
  intros (data & t & k & Hn & -> & _ & _ & Ho)%object_at_Some. cbn [file_object] in Ho. destruct (_ <=? _)%Z; [|done].
  injection Ho as <-. by cbn.
Qed.

(** A file that is listed under the key [k], and a file that is grouped under [g]. *)
Definition listed_file (k : bytes) : Prop := exists p data t, fs !! p = Some (FileNode data t) /\ key_at root p = Some k /\
  starts_with prefix k = true /\ keeps delimiter (drop (length prefix) k) = true.
Definition grouped_file (g : bytes) : Prop := exists p data t c a r, fs !! p = Some (FileNode data t) /\ delimiter = Some c /\ c ∉ a /\
  key_at root p = Some (prefix ++ a ++ c :: r) /\ g = prefix ++ a ++ [c].

Lemma file_under p data t k : is_dir fs root = true -> fs !! p = Some (FileNode data t) -> key_at root p = Some k -> p ∈ under fs root.
Proof.
  intros Hd Hn (l & -> & _)%key_at_Some. apply under_spec. split; [by eexists|]. destruct l as [|x l]; [|eauto].
  rewrite app_nil_r in Hn. unfold is_dir in Hd. by rewrite Hn in Hd.
Qed.

Lemma group_at_elem g : is_dir fs root = true -> g ∈ omap (group_at root prefix delimiter) (under fs root) <-> grouped_file g.
Proof.
  intros Hd. rewrite list_elem_of_omap. unfold group_at, grouped_file. split.
  - intros (p & Hp & Hg). destruct delimiter as [c|]; [|done]. cbn [mbind option_bind] in Hg. destruct (fs !! p) as [[data t|t]|] eqn:Hn; [|done|done].
    cbn [mbind option_bind] in Hg. destruct (key_at root p) as [k|] eqn:Hk; [|done]. cbn [mbind option_bind] in Hg.
    destruct (starts_with prefix k) eqn:Hpre; [|done]. apply starts_with_true in Hpre as [rest ->]. rewrite drop_app_length in Hg.
    destruct (split_once c rest) as [[a r]|] eqn:Es; [|done]. apply split_once_Some in Es as [-> Hc]. injection Hg as <-. naive_solver.
  - intros (p & data & t & c & a & r & Hn & Hdl & Hc & Hk & ->). exists p. split; [by eapply file_under|]. rewrite Hdl, Hn. cbn [mbind option_bind].
    rewrite Hk. cbn [mbind option_bind]. rewrite starts_with_app, drop_app_length.
    by rewrite (proj2 (split_once_Some c (a ++ c :: r) a r)).
Qed.

Lemma object_at_elem k : is_dir fs root = true ->
  Some k ∈ map Object_key (omap (object_at root prefix (keeps delimiter)) (under fs root)) <-> listed_file k.
Proof.
  intros Hd. rewrite list_elem_of_fmap. setoid_rewrite list_elem_of_omap. unfold listed_file. split.
  - intros (o & Hk & p & Hp & Ho). destruct (object_at_key _ _ Ho) as [Hk' _].
    apply object_at_Some in Ho as (data & t & k' & Hn & Hk2 & Hpre & Hkeep & _). assert (k' = k) as -> by congruence. by exists p, data, t.
  - intros (p & data & t & Hn & Hk & Hpre & Hkeep). destruct (file_object_ok p data t k Hn) as (o & Ho & Hok). exists o. split; [done|].
    exists p. split; [by eapply file_under|]. apply object_at_Some. by exists data, t, k.
Qed.

(** No two files are listed under one key. *)
Lemma object_keys_NoDup : NoDup (map Object_key (omap (object_at root prefix (keeps delimiter)) (under fs root))).
Proof.
  pose proof (under_NoDup fs root) as Hnd. pose proof (fun p q k Hp Hq => key_at_inj root p q k Hp Hq) as Hinj. revert Hnd Hinj.
  generalize (under fs root). intros l. induction l as [|p l IH]; [constructor|]. intros [Hp Hl]%NoDup_cons Hinj.
  assert (IH' : NoDup (map Object_key (omap (object_at root prefix (keeps delimiter)) l))).
  { apply IH; [done|]. intros q q' k Hq Hq'. apply Hinj; by right. }
  cbn. destruct (object_at root prefix (keeps delimiter) p) as [o|] eqn:Ho; [|done]. cbn. constructor; [|done].
  intros (o' & Ek & (q & Hq & Ho')%list_elem_of_omap)%list_elem_of_fmap.
  destruct (object_at_key _ _ Ho) as [E1 [k Hk]], (object_at_key _ _ Ho') as [E2 _].
  destruct Hp. rewrite (Hinj p q k); [done|by left|by right|congruence..].
Qed.

(** What the pages hold together, as keys in order. *)
Definition pages_hold (start_after : option bytes) (max : Z) (pages : list Page) (keys groups : list bytes) : Prop :=
  map Object_key (concat (map pg_contents pages)) = map Some keys /\
  map CommonPrefix_prefix (concat (map pg_prefixes pages)) = map Some groups /\
  StronglySorted (key_lt id) keys /\ StronglySorted (key_lt id) groups /\
  (forall k, k ∈ keys <-> listed_file k /\ beyond start_after k = true) /\
  (forall g, g ∈ groups <-> grouped_file g /\ beyond start_after g = true) /\
  Forall (fun pg => (pg_key_count pg <= max_keys_usize max)%Z) pages.

Lemma sorted_strict (l : list Object) : StronglySorted (key_le object_key) l -> NoDup (map object_key l) -> StronglySorted (key_lt object_key) l.
Proof.
  clear. induction 1 as [|o l Hl IH Ho]; [constructor|]. intros [Hn Hnd]%NoDup_cons. constructor; [by apply IH|].
  rewrite Forall_forall in Ho. apply Forall_forall. intros o' Hin. unfold key_lt. rewrite bytes_ltb_leb. apply negb_true_iff.
  destruct (bytes_leb (object_key o') (object_key o)) eqn:E; [|done]. destruct Hn.
  rewrite (bytes_leb_antisym _ _ (Ho o' Hin) E). apply list_elem_of_fmap. eauto.
Qed.

Lemma key_sorted_map {A} (key : A -> bytes) l : StronglySorted (key_lt key) l -> StronglySorted (key_lt id) (map key l).
Proof. clear. induction 1; cbn; constructor; [done|]. by apply Forall_map. Qed.

Lemma follow_complete start_after max found : is_dir fs root = true -> collect root prefix ((fun c => [c]) <$> delimiter) = Some (Ok found) ->
  (0 < max_keys_usize max)%Z ->
  exists pages keys groups,
    follow_tokens (S (length (fd_objects found) + length (fd_prefixes found))) (fd_objects found) (fd_prefixes found) start_after max None = Some pages /\
    pages_hold start_after max pages keys groups.
Proof.
  intros Hd Ec Hmax. destruct (collect_spec Hd) as (found' & Ec' & Ho & Hps & Hg). rewrite Ec in Ec'. injection Ec' as <-.
  set (os := fd_objects found) in *. set (ps := fd_prefixes found) in *.
  assert (Hkeyed : keyed os).
  { apply Forall_forall. intros o Hin. rewrite Ho in Hin. apply list_elem_of_omap in Hin as (p & _ & Hp). by apply object_at_key in Hp as [_ Hp]. }
  assert (Ekeys : forall l, keyed l -> map Object_key l = map Some (map object_key l)).
  { intros l. induction 1 as [|o l [k Hk] _ IH]; [done|]. cbn. unfold object_key at 1. rewrite Hk. cbn. by f_equal. }
  assert (Hnd : NoDup (map object_key os)).
  { pose proof object_keys_NoDup as Hnd. rewrite <- Ho, (Ekeys os Hkeyed) in Hnd. by apply NoDup_fmap_1 in Hnd. }
  assert (Hstrict : StronglySorted (key_lt object_key) (sort_by_key object_key os)).
  { apply sorted_strict; [apply sort_by_key_sorted|]. by rewrite (sort_by_key_perm object_key os). }
  assert (Hlisted : forall o, o ∈ os -> listed_file (object_key o)).
  { intros o Hin. apply (object_at_elem (object_key o) Hd). rewrite <- Ho. apply list_elem_of_fmap. exists o. split; [|done].
    unfold keyed in Hkeyed. rewrite Forall_forall in Hkeyed. destruct (Hkeyed o Hin) as [k Hk]. unfold object_key. by rewrite Hk. }
  assert (Hdisj : forall o, o ∈ sort_by_key object_key os -> object_key o ∉ ps).
  { intros o Hin. rewrite sort_by_key_perm in Hin. intros (p & data & t & c & a & r & _ & Hdl & _ & _ & Eg)%Hg%group_at_elem; [|done].
    destruct (Hlisted o Hin) as (_ & _ & _ & _ & _ & _ & Hkeep). rewrite Eg, drop_app_length, Hdl in Hkeep. cbn in Hkeep.
    rewrite bool_decide_eq_true_2 in Hkeep by set_solver. done. }
  destruct (follow_all os ps Hkeyed (merge_sorted _ _ Hstrict Hps Hdisj) start_after max Hmax) as (pages & Ef & E1 & E2 & Hc).
  unfold listing in E1, E2. rewrite <- merge_filter in E1, E2. destruct (merge_parts (List.filter (fun o => beyond start_after (object_key o))
    (sort_by_key object_key os)) (List.filter (beyond start_after) ps)) as [M1 M2]. rewrite M1 in E1. rewrite M2 in E2. clear M1 M2.
  eexists pages, (map object_key (List.filter (fun o => beyond start_after (object_key o)) (sort_by_key object_key os))), (List.filter (beyond start_after) ps).
  split; [done|]. unfold pages_hold. rewrite E1, E2. split_and!.
  - apply Ekeys. by apply keyed_beyond.
  - rewrite map_map. by apply map_ext.
  - by apply key_sorted_map, StronglySorted_filter.
  - by apply StronglySorted_filter.
  - intros k. rewrite list_elem_of_fmap. setoid_rewrite list_elem_of_In. setoid_rewrite List.filter_In. setoid_rewrite <- list_elem_of_In.
    setoid_rewrite (sort_by_key_perm object_key os). split.
    + intros (o & -> & Hin & Hb). split; [by apply Hlisted|done].
    + intros [Hk Hb]. apply (object_at_elem k Hd) in Hk. rewrite <- Ho in Hk. apply list_elem_of_fmap in Hk as (o & Ek & Hin).
      exists o. unfold object_key. rewrite <- Ek. done.
  - intros g. rewrite list_elem_of_In, List.filter_In, <- list_elem_of_In. rewrite (Hg g), group_at_elem by done. done.
  - done.
Qed.
End Visits.
End Collect.
