(* ===== verification/FsStore.v ===== *)
(** * The store of the file-system back end (crates/s3s-fs/src/fs.rs, utils.rs, error.rs)

    Objects are files under a root, [root/bucket/key]; what else is known of them is in files of
    the root itself: attributes, the ETag and checksums, uploads and their parts.  The handlers run
    in [ST World]: the files, the counter for temporary names, and what the system hands out (times
    and random identifiers).  A handler runs by itself: requests are not interleaved.

    The crates are parameters: [PathAbsolutize] (paths under the root), [Serde] (the JSON files),
    [Uuids], and the stores of a machine, [FsEnv]. *)

From stdpp Require Import gmap.
From S2P Require Import Prelude.
From S2P Require Import Str.
From S2P Require Import ErrorCode.
From S2P Require Import Handler.
From S2P Require Import SigV4.
From S2P Require Import Authorization.
From S2P Require Import SigV2.
From S2P Require Import SignatureCheck.
From S2P Require Import Stream.
From S2P Require Import Body.
From S2P Require Import Blob.
From S2P Require Import Request.
From S2P Require Import Range.
From S2P Require Import ETag.
From S2P Require Import Timestamp.
From S2P Require Import Xml.
From S2P Require Import XmlStruct.
From S2P Require Import XmlDtoC.
From S2P Require Import ChunkedStream.
From S2P Require Import Rfc2047.
From S2P Require Import HttpDe.
From S2P Require Import FsTree.
From S2P Require Import Checksums.
From S2P Require Import FsList.

(** ** Paths *)

(** [Path::components] *)
Definition component_of (x : bytes) : option Component :=
  if (x =? []) || (x =? str ".") then None else if x =? str ".." then Some ParentDir else Some (Normal x).
Definition components (path : bytes) : list Component :=
  (if starts_with (str "/") path then [RootDir] else if head (split "/" path) =? Some (str ".") then [CurDir] else []) ++
  omap component_of (split "/" path).

(** [dir.join(path)] *)
Definition path_join (dir path : bytes) : bytes :=
  if starts_with (str "/") path then path
  else if (dir =? []) || ends_with (str "/") dir then dir ++ path
  else dir ++ str "/" ++ path.

(** [path.absolutize_virtually(root)]: the path is in the root; a relative path without dots is its
    components from there. *)
Class PathAbsolutize := {
  absolutize_virtually : bytes -> AbsPath -> result IoError AbsPath;
  absolutize_under : forall p root q, absolutize_virtually p root = Ok q -> above root q = true;
  absolutize_names : forall p root q, absolutize_virtually p root = Ok q -> Forall (fun x => name_ok x = true) root ->
    Forall (fun x => name_ok x = true) q;
  absolutize_plain : forall p root names, components p = map Normal names -> names <> [] -> absolutize_virtually p root = Ok (root ++ names)
}.

(** ** Data *)

Record ObjectAttributes := mk_ObjectAttributes {
  user_metadata : option Metadata;
  content_encoding : option bytes;
  content_type : option bytes;
  content_disposition : option bytes;
  content_language : option bytes;
  cache_control : option bytes;
  expires : option bytes;
  website_redirect_location : option bytes;
  checksum_algorithm : option bytes;
  checksum_type : option bytes
}.
Definition attrs_default : ObjectAttributes := mk_ObjectAttributes None None None None None None None None None None.

Definition string_info (info : InternalInfo) : Prop := map_Forall (fun _ v => is_Some (as_str v)) info.

(** The JSON of the three kinds of files.  What was written is read again, whatever the order of
    the entries of a map. *)
Class Serde := {
  attrs_to_vec : ObjectAttributes -> option bytes;
  attrs_from_slice : bytes -> option ObjectAttributes;
  metadata_from_slice : bytes -> option Metadata;
  info_to_vec : InternalInfo -> option bytes;
  info_from_slice : bytes -> option InternalInfo;
  access_key_to_vec : option bytes -> option bytes;
  access_key_from_slice : bytes -> option (option bytes);
  attrs_round_trip : forall a, exists b, attrs_to_vec a = Some b /\
    (match user_metadata a with Some m => NoDup (map fst m) | None => True end ->
     exists m', attrs_from_slice b = Some (mk_ObjectAttributes m' (content_encoding a) (content_type a) (content_disposition a)
       (content_language a) (cache_control a) (expires a) (website_redirect_location a) (checksum_algorithm a) (checksum_type a)) /\
       option_relation Permutation (fun _ => False) (fun _ => False) m' (user_metadata a));
  info_json_round_trip : forall i, exists b, info_to_vec i = Some b /\ (string_info i -> info_from_slice b = Some i);
  access_key_round_trip : forall k, exists b, access_key_to_vec k = Some b /\ access_key_from_slice b = Some k
}.

(** [uuid::Uuid]: 16 bytes, written with 36 characters. *)
Abbreviation Uuid := bytes.
Class Uuids := {
  uuid_to_string : Uuid -> bytes;
  uuid_parse_str : bytes -> option Uuid;
  uuid_parse_to_string : forall u, length u = 16 -> uuid_parse_str (uuid_to_string u) = Some u;
  uuid_chars : forall u, length u = 16 -> length (uuid_to_string u) = 36 /\
    forallb (fun c => is_ascii_digit c || is_ascii_lowercase c || (c =? "-"%byte)) (uuid_to_string u) = true;
  uuid_parsed : forall s u, uuid_parse_str s = Some u -> length u = 16;
  (** [Uuid::new_v4], by how many were made before *)
  new_v4 : nat -> Uuid;
  new_v4_length : forall n, length (new_v4 n) = 16
}.

(** [base64_simd::URL_SAFE_NO_PAD] *)
Class Base64Url := {
  url_encode_to_string : bytes -> bytes;
  url_encode_inj : forall a b, url_encode_to_string a = url_encode_to_string b -> a = b;
  url_encode_chars : forall a, forallb (fun c => is_ascii_alphanumeric c || (c =? "-"%byte) || (c =? "_"%byte)) (url_encode_to_string a) = true
}.

(** The files of the machine, the counter of [FileSystem], and how many times and identifiers were handed out. *)
Record World := { files : Files; tmp_file_counter : N; ticks : nat; uuids : nat }.

(** What runs the handlers: the clock and what the system says of a directory that is opened as a file. *)
Class Machine := {
  clock : nat -> Z;
  dir_len : Files -> AbsPath -> Z;
  dir_modified : Files -> AbsPath -> Z;
  (** the pieces in which [ReaderStream] reads a file *)
  read_pieces : bytes -> list bytes;
  read_pieces_concat : forall data, concat (read_pieces data) = data;
  (** the type behind an error of a stream, of which a blob keeps the text *)
  boxed_size_limit : bytes -> bool;
  boxed_upload_error : bytes -> option UploadStreamError;
  boxed_chunked_error : bytes -> option AwsChunkedStreamError
}.

Class FsDeps := {
  fd_env :: FsEnv;
  fd_machine :: Machine;
  fd_path :: PathAbsolutize;
  fd_serde :: Serde;
  fd_uuids :: Uuids;
  fd_base64url :: Base64Url;
  fd_hashes :: HashCrates;
  fd_http :: HttpDeps
}.

Section Store.
Context `{FsDeps} (root : AbsPath).
Abbreviation FS := (ST World).

(** ** Steps on the files *)

Definition set_files (fs : Files) (w : World) : World :=
  {| files := fs; tmp_file_counter := tmp_file_counter w; ticks := ticks w; uuids := uuids w |}.

(** A step that fails leaves the files as they were; its error is an internal one. *)
Definition io_ {A} (step : Files -> result IoError A) : FS A := fun w =>
  Some (w, try_ (step (files w))).
Definition io (step : Files -> result IoError Files) : FS unit := fun w =>
  match step (files w) with
  | Ok fs => Some (set_files fs w, Ok tt)
  | Err _ => Some (w, Err InternalError)
  end.

(** [SystemTime::now()], or the time a write leaves on a file *)
Definition now : FS Z := fun w =>
  Some ({| files := files w; tmp_file_counter := tmp_file_counter w; ticks := S (ticks w); uuids := uuids w |}, Ok (clock (ticks w))).
Definition io_now (step : Z -> Files -> result IoError Files) : FS unit := t ← now; io (step t).

Definition exists_ (p : AbsPath) : FS bool := w ← get; mret (path_exists (files w) p).

(** [match fs::remove_file(path) { Ok(()) | Err(NotFound) => Ok(()), Err(err) => Err(err) }] *)
Definition remove_file_if_exists (path : AbsPath) : FS unit := fun w =>
  match remove_file path (files w) with
  | Ok fs => Some (set_files fs w, Ok tt)
  | Err NotFound => Some (w, Ok tt)
  | Err _ => Some (w, Err InternalError)
  end.

(** ** Errors (error.rs) *)

(** [From<Error> for S3Error], of the error of a stream *)
Definition error_into_s3 (source : bytes) : S3ErrorCode :=
  if boxed_size_limit source then EntityTooLarge
  else match boxed_upload_error source with
  | Some err => Stream.to_s3_error_code err
  | None => match boxed_chunked_error source with Some err => ChunkedStream.to_s3_error_code err | None => InternalError end
  end.

(** ** Streams (utils.rs) *)

(** [bytes_stream]: the pieces cut to a length; the stream is read to its end. *)
Fixpoint bytes_stream (remaining : nat) (stream : list bytes) : list bytes :=
  match stream with
  | [] => []
  | bytes :: stream' => let bytes := take remaining bytes in bytes :: bytes_stream (remaining - length bytes) stream'
  end.

(** [StreamingBlob::wrap] of the pieces of a file; a directory that was opened cannot be read. *)
Definition file_blob (n : Node) (start content_length : Z) : StreamingBlob :=
  BlobStream {| Body.items :=
      match n with
      | FileNode data _ => map (fun b => Next (Ok b)) (bytes_stream (Z.to_nat content_length) (read_pieces (drop (Z.to_nat start) data)))
      | DirNode _ => [Next (Err (str "Is a directory"))]
      end;
    ds_remaining_length := fun _ => unknown |}.

(** ** Paths of the store *)

Definition resolve_abs_path (path : bytes) : FS AbsPath := lift (try_ (absolutize_virtually path root)).

Definition upload_part_name (upload_id : Uuid) (part_number : Z) : bytes :=
  str ".upload_id-" ++ uuid_to_string upload_id ++ str ".part-" ++ fmt_signed part_number.
Definition resolve_upload_part_path (upload_id : Uuid) (part_number : Z) : FS AbsPath := resolve_abs_path (upload_part_name upload_id part_number).

Definition get_object_path (bucket key : bytes) : FS AbsPath := resolve_abs_path (path_join bucket key).
Definition get_bucket_path (bucket : bytes) : FS AbsPath := resolve_abs_path bucket.

Definition metadata_name (bucket key : bytes) (upload_id : option Uuid) : bytes :=
  let u_ext := match upload_id with Some u => str ".upload-" ++ uuid_to_string u | None => [] end in
  str ".bucket-" ++ url_encode_to_string bucket ++ str ".object-" ++ url_encode_to_string key ++ u_ext ++ str ".metadata.json".
Definition get_metadata_path (bucket key : bytes) (upload_id : option Uuid) : FS AbsPath := resolve_abs_path (metadata_name bucket key upload_id).

Definition internal_info_name (bucket key : bytes) : bytes :=
  str ".bucket-" ++ url_encode_to_string bucket ++ str ".object-" ++ url_encode_to_string key ++ str ".internal.json".
Definition get_internal_info_path (bucket key : bytes) : FS AbsPath := resolve_abs_path (internal_info_name bucket key).

Definition upload_part_info_name (upload_id : Uuid) (part_number : Z) : bytes :=
  str ".upload_part_info-" ++ uuid_to_string upload_id ++ str ".part-" ++ fmt_signed part_number ++ str ".json".
Definition get_upload_part_info_path (upload_id : Uuid) (part_number : Z) : FS AbsPath :=
  resolve_abs_path (upload_part_info_name upload_id part_number).

Definition upload_info_name (upload_id : Uuid) : bytes := str ".upload-" ++ uuid_to_string upload_id ++ str ".json".
Definition get_upload_info_path (upload_id : Uuid) : FS AbsPath := resolve_abs_path (upload_info_name upload_id).

(** ** Writing files *)

Definition tmp_name (n : N) : bytes := str ".tmp." ++ fmt_dec (Z.of_N n) ++ str ".internal.part".

(** [self.tmp_file_counter.fetch_add(1)] *)
Definition next_tmp : FS N := fun w =>
  Some ({| files := files w; tmp_file_counter := ((tmp_file_counter w + 1) mod 2 ^ 64)%N; ticks := ticks w; uuids := uuids w |}, Ok (tmp_file_counter w)).

(** [FileWriter::done] *)
Definition file_writer_done (tmp_path dest_path : AbsPath) : FS unit :=
  match parent dest_path with Some final_dir_path => io_now (fun t => create_dir_all t final_dir_path) | None => mret tt end ;;
  io (rename_file tmp_path dest_path).

(** [Drop for FileWriter]: what was not done removes its temporary file. *)
Definition drop_writer {A} (tmp_path : AbsPath) (m : FS A) : FS A := fun w =>
  match m w with
  | Some (w', Err e) =>
      Some (match remove_file tmp_path (files w') with Ok fs => set_files fs w' | Err _ => w' end, Err e)
  | r => r
  end.

(** [prepare_file_write(path)], what is done with the writer, and [done]: the file is written beside
    its place and moved there.  [write] has the path of the temporary file, and what it writes is
    there when it is done. *)
Definition with_file_writer {A} (dest_path : AbsPath) (write : AbsPath -> FS A) : FS A :=
  n ← next_tmp;
  tmp_path ← resolve_abs_path (tmp_name n);
  io_now (fun t => write_file t tmp_path []);;
  drop_writer tmp_path (a ← write tmp_path; file_writer_done tmp_path dest_path;; mret a).

(** [writer.write_all(&content); writer.flush()] *)
Definition write_all (content : bytes) (tmp_path : AbsPath) : FS unit := io_now (fun t => write_file t tmp_path content).

(** [copy_bytes]: the pieces of a stream up to its end, and what was read of it *)
Definition copy_bytes (body : StreamingBlob) (tmp_path : AbsPath) : FS (list bytes) :=
  match blob_read body with
  | (pieces, None) => write_all (concat pieces) tmp_path;; mret pieces
  | (_, Some e) => lift (Err (error_into_s3 (BodyError_to_string e)))
  end.

(** ** Attributes and information *)

(** Reads a file of the store that may be absent. *)
Definition load_json {A} (path : FS AbsPath) (parse : bytes -> result S3ErrorCode (option A)) : FS (option A) :=
  path ← path;
  e ← exists_ path;
  if (e : bool) then content ← io_ (fun fs => read_file fs path); lift (parse content) else mret None.

(** The new format, then the old one. *)
Definition parse_attributes (content : bytes) : result S3ErrorCode (option ObjectAttributes) :=
  Ok match attrs_from_slice content with
     | Some attrs => Some attrs
     | None => (fun m => mk_ObjectAttributes (Some m) None None None None None None None None None) <$> metadata_from_slice content
     end.
Definition load_object_attributes (bucket key : bytes) (upload_id : option Uuid) : FS (option ObjectAttributes) :=
  load_json (get_metadata_path bucket key upload_id) parse_attributes.

(** [serde_json::to_vec(..)?], then the file is written. *)
Definition save_json (path : FS AbsPath) (content : option bytes) : FS unit :=
  path ← path;
  content ← lift (ok_or InternalError content);
  with_file_writer path (write_all content).

Definition save_object_attributes (bucket key : bytes) (attrs : ObjectAttributes) (upload_id : option Uuid) : FS unit :=
  save_json (get_metadata_path bucket key upload_id) (attrs_to_vec attrs).

Definition delete_metadata (bucket key : bytes) (upload_id : option Uuid) : FS unit :=
  path ← get_metadata_path bucket key upload_id;
  remove_file_if_exists path.

Definition parse_info (content : bytes) : result S3ErrorCode (option InternalInfo) := Some <$> ok_or InternalError (info_from_slice content).
Definition load_internal_info (bucket key : bytes) : FS (option InternalInfo) := load_json (get_internal_info_path bucket key) parse_info.
Definition save_internal_info (bucket key : bytes) (info : InternalInfo) : FS unit := save_json (get_internal_info_path bucket key) (info_to_vec info).

Definition load_upload_part_info (upload_id : Uuid) (part_number : Z) : FS (option InternalInfo) :=
  load_json (get_upload_part_info_path upload_id part_number) parse_info.
Definition save_upload_part_info (upload_id : Uuid) (part_number : Z) (info : InternalInfo) : FS unit :=
  save_json (get_upload_part_info_path upload_id part_number) (info_to_vec info).
Definition delete_upload_part_info (upload_id : Uuid) (part_number : Z) : FS unit :=
  path ← get_upload_part_info_path upload_id part_number;
  remove_file_if_exists path.

(** The digest of a file, which is read to its end by pieces; a directory is opened and cannot be read. *)
Definition hex (input : bytes) : bytes := hex_simd_lower input.
Definition get_md5_sum (bucket key : bytes) : FS bytes :=
  object_path ← get_object_path bucket key;
  data ← io_ (fun fs => read_file fs object_path);
  mret (hex (checksum Md5 data)).

(** ** Starting (fs.rs) *)

Definition is_tmp_name (name : bytes) : bool := starts_with (str ".tmp.") name && ends_with (str ".internal.part") name.

Fixpoint clean_entries (names : list bytes) : FS unit :=
  match names with
  | [] => mret tt
  | name :: names' =>
      (if utf8_valid name && is_tmp_name name then io (remove_file (root ++ [name])) else mret tt);;
      clean_entries names'
  end.

Definition clean_old_tmp_files : FS unit := fun w =>
  match read_dir (files w) root with
  | Ok names => clean_entries names w
  | Err NotFound => Some (w, Ok tt)
  | Err _ => Some (w, Err InternalError)
  end.

(** [FileSystem::new] of a root that is canonical: the leftovers of the last run are removed and the
    counter starts again. *)
Definition file_system_new : FS unit :=
  clean_old_tmp_files;;
  w ← get;
  put {| files := files w; tmp_file_counter := 0%N; ticks := ticks w; uuids := uuids w |}.

(** ** Uploads *)

Definition draw_uuid : FS Uuid := fun w =>
  Some ({| files := files w; tmp_file_counter := tmp_file_counter w; ticks := ticks w; uuids := S (uuids w) |}, Ok (new_v4 (uuids w))).

Definition create_upload_id (cred : option Request.Credentials) : FS Uuid :=
  upload_id ← draw_uuid;
  save_json (get_upload_info_path upload_id) (access_key_to_vec (cred_access_key <$> cred));;
  mret upload_id.

Definition parse_access_key (content : bytes) : result S3ErrorCode (option (option bytes)) := Some <$> ok_or InternalError (access_key_from_slice content).
Definition verify_upload_id (cred : option Request.Credentials) (upload_id : Uuid) : FS bool :=
  ak ← load_json (get_upload_info_path upload_id) parse_access_key;
  mret (match ak with Some ak => ak =? (cred_access_key <$> cred) | None => false end).

Definition delete_upload_id (upload_id : Uuid) : FS unit :=
  path ← get_upload_info_path upload_id;
  remove_file_if_exists path.
End Store.
