(* ===== verification/FsObjects.v ===== *)
(** * Buckets and objects of the file-system back end (crates/s3s-fs/src/s3.rs)

    The handlers of [impl S3 for FileSystem] for buckets and objects, each with all its checks and
    writes, in the order of the source; the uploads are in FsUploads. *)

From stdpp Require Import gmap.
From S2P Require Import Prelude.
From S2P Require Import Str.
From S2P Require Import Path.
From S2P Require Import ErrorCode.
From S2P Require Import Handler.
From S2P Require Import SigV4.
From S2P Require Import Authorization.
From S2P Require Import SigV2.
From S2P Require Import SignatureCheck.
From S2P Require Import Stream.
From S2P Require Import Body.
From S2P Require Import Blob.
From S2P Require Import Request.
From S2P Require Import Range.
From S2P Require Import ETag.
From S2P Require Import Timestamp.
From S2P Require Import Xml.
From S2P Require Import XmlStruct.
From S2P Require Import XmlDtoA.
From S2P Require Import XmlDtoB.
From S2P Require Import XmlDtoC.
From S2P Require Import XmlOutputs.
From S2P Require Import Rfc2047.
From S2P Require Import CopySource.
From S2P Require Import HttpDe.
From S2P Require Import OpsTypes.
From S2P Require Import FsTree.
From S2P Require Import Checksums.
From S2P Require Import FsList.
From S2P Require Import FsStore.

(** [ListObjectsInput] as the input of the second version (crates/s3s/src/dto/mod.rs) *)
Definition list_objects_input_into_v2 (v1 : ListObjectsInput) : ListObjectsV2Input :=
  {| ListObjectsV2Input_bucket := ListObjectsInput_bucket v1; ListObjectsV2Input_continuation_token := None;
     ListObjectsV2Input_delimiter := ListObjectsInput_delimiter v1;
     ListObjectsV2Input_encoding_type := ListObjectsInput_encoding_type v1;
     ListObjectsV2Input_expected_bucket_owner := ListObjectsInput_expected_bucket_owner v1;
     ListObjectsV2Input_fetch_owner := None; ListObjectsV2Input_max_keys := ListObjectsInput_max_keys v1;
     ListObjectsV2Input_optional_object_attributes := ListObjectsInput_optional_object_attributes v1;
     ListObjectsV2Input_prefix := ListObjectsInput_prefix v1;
     ListObjectsV2Input_request_payer := ListObjectsInput_request_payer v1;
     ListObjectsV2Input_start_after := ListObjectsInput_marker v1 |}.

Section Objects.
Context `{FsDeps} (root : AbsPath).
Abbreviation FS := (ST World).

(** ** Buckets *)

Definition create_bucket (input : CreateBucketInput) : FS CreateBucketOutput :=
  path ← get_bucket_path root (CreateBucketInput_bucket input);
  e ← exists_ path;
  fail_if e BucketAlreadyExists;;
  io_now (fun t => create_dir t path);;
  mret {| CreateBucketOutput_bucket_arn := None; CreateBucketOutput_location := None |}.

Definition delete_bucket (input : DeleteBucketInput) : FS DeleteBucketOutput :=
  path ← get_bucket_path root (DeleteBucketInput_bucket input);
  e ← exists_ path;
  if (e : bool) then io (remove_dir_all path);; mret mk_DeleteBucketOutput else lift (Err NoSuchBucket).

Definition get_bucket_location (input : GetBucketLocationInput) : FS GetBucketLocationOutput :=
  path ← get_bucket_path root (GetBucketLocationInput_bucket input);
  e ← exists_ path;
  fail_if (negb e) NoSuchBucket;;
  mret {| GetBucketLocationOutput_location_constraint := None |}.

Definition head_bucket (input : HeadBucketInput) : FS HeadBucketOutput :=
  path ← get_bucket_path root (HeadBucketInput_bucket input);
  e ← exists_ path;
  fail_if (negb e) NoSuchBucket;;
  mret {| HeadBucketOutput_access_point_alias := None; HeadBucketOutput_bucket_arn := None;
     HeadBucketOutput_bucket_location_name := None; HeadBucketOutput_bucket_location_type := None;
     HeadBucketOutput_bucket_region := None |}.

(** One entry of the root: a directory with a name of a bucket is one. *)
Definition bucket_entry (fs : Files) (name : bytes) : result S3ErrorCode (option Bucket) :=
  n ← try_ (stat fs (root ++ [name]));
  match n with
  | FileNode _ _ => Ok None
  | DirNode created =>
      if negb (utf8_valid name) then Ok None
      else if negb (check_bucket_name name) then Ok None
      else Ok (Some {| Bucket_bucket_arn := None; Bucket_bucket_region := None; Bucket_creation_date := Some (timestamp_from created);
     Bucket_name := Some name |})
  end.

Fixpoint bucket_entries (fs : Files) (names : list bytes) : result S3ErrorCode (list Bucket) :=
  match names with
  | [] => Ok []
  | name :: names' => b ← bucket_entry fs name; bs ← bucket_entries fs names'; Ok (match b with Some b => b :: bs | None => bs end)
  end.

Definition list_buckets (_ : ListBucketsInput) : FS ListBucketsOutput :=
  names ← io_ (fun fs => read_dir fs root);
  w ← get;
  buckets ← lift (bucket_entries (files w) names);
  mret {| ListBucketsOutput_buckets := Some buckets; ListBucketsOutput_continuation_token := None; ListBucketsOutput_owner := None;
     ListBucketsOutput_prefix := None |}.

(** ** Listing *)

Definition trim_slashes (s : bytes) : bytes := snd (break_at (fun c => negb (c =? "/"%byte)) s).

Definition nonempty {A} (l : list A) : option (list A) := match l with [] => None | _ => Some l end.

Definition list_objects_v2 (input : ListObjectsV2Input) : FS ListObjectsV2Output :=
  path ← get_bucket_path root (ListObjectsV2Input_bucket input);
  e ← exists_ path;
  fail_if (negb e) NoSuchBucket;;
  let prefix := trim_slashes (default [] (ListObjectsV2Input_prefix input)) in
  let max_keys := default 1000%Z (ListObjectsV2Input_max_keys input) in
  w ← get;
  found ← panic_none (collect (files w) path prefix (ListObjectsV2Input_delimiter input));
  found ← lift found;
  let page := list_page (fd_objects found) (fd_prefixes found)
    (resume_point (ListObjectsV2Input_continuation_token input) (ListObjectsV2Input_start_after input)) max_keys in
  fail_if (i32_max <? pg_key_count page)%Z InternalError;;
  mret {| ListObjectsV2Output_name := Some (ListObjectsV2Input_bucket input);
     ListObjectsV2Output_prefix := ListObjectsV2Input_prefix input; ListObjectsV2Output_max_keys := Some max_keys;
     ListObjectsV2Output_key_count := Some (pg_key_count page);
     ListObjectsV2Output_continuation_token := ListObjectsV2Input_continuation_token input;
     ListObjectsV2Output_is_truncated := Some (pg_is_truncated page);
     ListObjectsV2Output_next_continuation_token := pg_next_continuation_token page;
     ListObjectsV2Output_contents := nonempty (pg_contents page);
     ListObjectsV2Output_common_prefixes := nonempty (pg_prefixes page);
     ListObjectsV2Output_delimiter := ListObjectsV2Input_delimiter input;
     ListObjectsV2Output_encoding_type := ListObjectsV2Input_encoding_type input;
     ListObjectsV2Output_start_after := ListObjectsV2Input_start_after input; ListObjectsV2Output_request_charged := None |}.

Definition list_objects (input : ListObjectsInput) : FS ListObjectsOutput :=
  v2 ← list_objects_v2 (list_objects_input_into_v2 input);
  mret {| ListObjectsOutput_name := ListObjectsV2Output_name v2; ListObjectsOutput_prefix := ListObjectsV2Output_prefix v2;
     ListObjectsOutput_marker := None; ListObjectsOutput_max_keys := ListObjectsV2Output_max_keys v2;
     ListObjectsOutput_is_truncated := ListObjectsV2Output_is_truncated v2;
     ListObjectsOutput_contents := ListObjectsV2Output_contents v2;
     ListObjectsOutput_common_prefixes := ListObjectsV2Output_common_prefixes v2;
     ListObjectsOutput_delimiter := ListObjectsV2Output_delimiter v2;
     ListObjectsOutput_next_marker := ListObjectsV2Output_next_continuation_token v2;
     ListObjectsOutput_encoding_type := ListObjectsV2Output_encoding_type v2; ListObjectsOutput_request_charged := None |}.

(** ** Reading objects *)

Definition fmt_content_range (start end_inclusive size : Z) : bytes :=
  str "bytes " ++ fmt_dec start ++ str "-" ++ fmt_dec end_inclusive ++ str "/" ++ fmt_dec size.

(** [file.metadata()] of a file that was opened: its length and when it was modified *)
Definition node_len (fs : Files) (p : AbsPath) (n : Node) : Z := match n with FileNode data _ => len data | DirNode _ => dir_len fs p end.
Definition node_modified (fs : Files) (p : AbsPath) (n : Node) : Z := match n with FileNode _ t => t | DirNode _ => dir_modified fs p end.

(** The ETag that is kept, or the digest of the file. *)
Definition stored_e_tag (bucket key : bytes) (info : option InternalInfo) : FS bytes :=
  match info ≫= load_e_tag with Some e_tag => mret e_tag | None => get_md5_sum root bucket key end.

(** The range that is served: what is left of the length, and the text for the response. *)
Definition content_range_of (range : option Range) (file_len : Z) : FS (Z * option bytes) :=
  match range with
  | None => mret (file_len, None)
  | Some range =>
      r ← panic_none (Range_check range file_len);
      '(start, end_) ← lift (map_err (fun _ => InvalidRange) r);
      content_length ← panic_none (checked (end_ - start));
      last ← panic_none (checked (end_ - 1));
      mret (content_length, Some (fmt_content_range start last file_len))
  end.

(** The position that the file is read from: [file.seek]. *)
Definition seek_of (range : option Range) (file_len : Z) : FS Z :=
  match range with
  | None => mret 0%Z
  | Some (Int first _) => mret first
  | Some (Suffix length) =>
      length ← panic_none (if (length <=? i64_max)%Z then Some length else None);
      if (file_len - length <? 0)%Z then lift (Err InternalError) else mret (file_len - length)%Z
  end.

Definition get_object (input : GetObjectInput) : FS GetObjectOutput :=
  let bucket := GetObjectInput_bucket input in
  let key := GetObjectInput_key input in
  object_path ← get_object_path root bucket key;
  w ← get;
  file ← lift (map_err (fun _ => NoSuchKey) (stat (files w) object_path));
  let last_modified := timestamp_from (node_modified (files w) object_path file) in
  let file_len := node_len (files w) object_path file in
  '(content_length, content_range) ← content_range_of (GetObjectInput_range input) file_len;
  fail_if (usize_max <? content_length)%Z InternalError;;
  fail_if (i64_max <? content_length)%Z InternalError;;
  start ← seek_of (GetObjectInput_range input) file_len;
  let body := file_blob file start content_length in
  obj_attrs ← load_object_attributes root bucket key None;
  info ← load_internal_info root bucket key;
  md5_sum ← stored_e_tag bucket key info;
  checksum ← panic_none (match info with
    | Some info => if (content_length =? file_len)%Z then from_internal_info info else Some checksum_default
    | None => Some checksum_default
    end);
  mret {| GetObjectOutput_accept_ranges := None; GetObjectOutput_body := Some body; GetObjectOutput_bucket_key_enabled := None;
     GetObjectOutput_cache_control := obj_attrs ≫= cache_control;
     GetObjectOutput_checksum_crc32 := Checksum_checksum_crc32 checksum;
     GetObjectOutput_checksum_crc32c := Checksum_checksum_crc32c checksum;
     GetObjectOutput_checksum_crc64nvme := Checksum_checksum_crc64nvme checksum;
     GetObjectOutput_checksum_md5 := Checksum_checksum_md5 checksum;
     GetObjectOutput_checksum_sha1 := Checksum_checksum_sha1 checksum;
     GetObjectOutput_checksum_sha256 := Checksum_checksum_sha256 checksum;
     GetObjectOutput_checksum_sha512 := Checksum_checksum_sha512 checksum; GetObjectOutput_checksum_type := None;
     GetObjectOutput_checksum_xxhash128 := Checksum_checksum_xxhash128 checksum;
     GetObjectOutput_checksum_xxhash3 := Checksum_checksum_xxhash3 checksum;
     GetObjectOutput_checksum_xxhash64 := Checksum_checksum_xxhash64 checksum;
     GetObjectOutput_content_disposition := obj_attrs ≫= content_disposition;
     GetObjectOutput_content_encoding := obj_attrs ≫= content_encoding;
     GetObjectOutput_content_language := obj_attrs ≫= content_language; GetObjectOutput_content_length := Some content_length;
     GetObjectOutput_content_range := content_range; GetObjectOutput_content_type := obj_attrs ≫= content_type;
     GetObjectOutput_delete_marker := None; GetObjectOutput_e_tag := Some (Strong md5_sum); GetObjectOutput_expiration := None;
     GetObjectOutput_expires := obj_attrs ≫= expires; GetObjectOutput_last_modified := Some last_modified;
     GetObjectOutput_metadata := obj_attrs ≫= user_metadata; GetObjectOutput_missing_meta := None;
     GetObjectOutput_object_lock_legal_hold_status := None; GetObjectOutput_object_lock_mode := None;
     GetObjectOutput_object_lock_retain_until_date := None; GetObjectOutput_parts_count := None;
     GetObjectOutput_replication_status := None; GetObjectOutput_request_charged := None; GetObjectOutput_restore := None;
     GetObjectOutput_sse_customer_algorithm := None; GetObjectOutput_sse_customer_key_md5 := None;
     GetObjectOutput_ssekms_key_id := None; GetObjectOutput_server_side_encryption := None; GetObjectOutput_storage_class := None;
     GetObjectOutput_tag_count := None; GetObjectOutput_version_id := None;
     GetObjectOutput_website_redirect_location := obj_attrs ≫= website_redirect_location |}.

Definition head_object (input : HeadObjectInput) : FS HeadObjectOutput :=
  let bucket := HeadObjectInput_bucket input in
  let key := HeadObjectInput_key input in
  path ← get_object_path root bucket key;
  e ← exists_ path;
  (if negb e then
    bucket_path ← get_bucket_path root bucket;
    b ← exists_ bucket_path;
    lift (Err (if negb b then NoSuchBucket else NoSuchKey))
  else mret tt);;
  w ← get;
  n ← lift (try_ (stat (files w) path));
  fail_if (match n with DirNode _ => true | _ => false end) NoSuchKey;;
  let last_modified := timestamp_from (node_modified (files w) path n) in
  let file_len := node_len (files w) path n in
  obj_attrs ← load_object_attributes root bucket key None;
  info ← load_internal_info root bucket key;
  md5_sum ← stored_e_tag bucket key info;
  checksum ← panic_none (match info with Some info => from_internal_info info | None => Some checksum_default end);
  fail_if (i64_max <? file_len)%Z InternalError;;
  mret {| HeadObjectOutput_accept_ranges := None; HeadObjectOutput_archive_status := None; HeadObjectOutput_bucket_key_enabled := None;
     HeadObjectOutput_cache_control := obj_attrs ≫= cache_control;
     HeadObjectOutput_checksum_crc32 := Checksum_checksum_crc32 checksum;
     HeadObjectOutput_checksum_crc32c := Checksum_checksum_crc32c checksum;
     HeadObjectOutput_checksum_crc64nvme := Checksum_checksum_crc64nvme checksum;
     HeadObjectOutput_checksum_md5 := Checksum_checksum_md5 checksum;
     HeadObjectOutput_checksum_sha1 := Checksum_checksum_sha1 checksum;
     HeadObjectOutput_checksum_sha256 := Checksum_checksum_sha256 checksum;
     HeadObjectOutput_checksum_sha512 := Checksum_checksum_sha512 checksum; HeadObjectOutput_checksum_type := None;
     HeadObjectOutput_checksum_xxhash128 := Checksum_checksum_xxhash128 checksum;
     HeadObjectOutput_checksum_xxhash3 := Checksum_checksum_xxhash3 checksum;
     HeadObjectOutput_checksum_xxhash64 := Checksum_checksum_xxhash64 checksum;
     HeadObjectOutput_content_disposition := obj_attrs ≫= content_disposition;
     HeadObjectOutput_content_encoding := obj_attrs ≫= content_encoding;
     HeadObjectOutput_content_language := obj_attrs ≫= content_language; HeadObjectOutput_content_length := Some file_len;
     HeadObjectOutput_content_range := None; HeadObjectOutput_content_type := obj_attrs ≫= content_type;
     HeadObjectOutput_delete_marker := None; HeadObjectOutput_e_tag := Some (Strong md5_sum); HeadObjectOutput_expiration := None;
     HeadObjectOutput_expires := obj_attrs ≫= expires; HeadObjectOutput_last_modified := Some last_modified;
     HeadObjectOutput_metadata := obj_attrs ≫= user_metadata; HeadObjectOutput_missing_meta := None;
     HeadObjectOutput_object_lock_legal_hold_status := None; HeadObjectOutput_object_lock_mode := None;
     HeadObjectOutput_object_lock_retain_until_date := None; HeadObjectOutput_parts_count := None;
     HeadObjectOutput_replication_status := None; HeadObjectOutput_request_charged := None; HeadObjectOutput_restore := None;
     HeadObjectOutput_sse_customer_algorithm := None; HeadObjectOutput_sse_customer_key_md5 := None;
     HeadObjectOutput_ssekms_key_id := None; HeadObjectOutput_server_side_encryption := None;
     HeadObjectOutput_storage_class := None; HeadObjectOutput_tag_count := None; HeadObjectOutput_version_id := None;
     HeadObjectOutput_website_redirect_location := obj_attrs ≫= website_redirect_location |}.

(** ** Removing objects *)

(** A directory is removed when it has no entries. *)
Definition remove_if_empty (path : AbsPath) : FS unit :=
  names ← io_ (fun fs => read_dir fs path);
  match names with [] => io (remove_dir path) | _ => mret tt end.

Definition delete_object (input : DeleteObjectInput) : FS DeleteObjectOutput :=
  path ← get_object_path root (DeleteObjectInput_bucket input) (DeleteObjectInput_key input);
  e ← exists_ path;
  if negb e then
    bucket_path ← get_bucket_path root (DeleteObjectInput_bucket input);
    b ← exists_ bucket_path;
    fail_if (negb b) NoSuchBucket;;
    mret {| DeleteObjectOutput_delete_marker := None; DeleteObjectOutput_request_charged := None; DeleteObjectOutput_version_id := None |}
  else
    (if ends_with (str "/") (DeleteObjectInput_key input) then remove_if_empty path else io (remove_file path));;
    mret {| DeleteObjectOutput_delete_marker := None; DeleteObjectOutput_request_charged := None; DeleteObjectOutput_version_id := None |}.

(** One object of a list: what is not there is not an error. *)
Definition delete_one (path : AbsPath) (key : bytes) : FS unit :=
  if ends_with (str "/") key then
    w ← get;
    match read_dir (files w) path with
    | Ok names => match names with [] => io (remove_dir path) | _ => mret tt end
    | Err NotFound => mret tt
    | Err _ => lift (Err InternalError)
    end
  else remove_file_if_exists path.

Fixpoint delete_each (bucket : bytes) (objects : list ObjectIdentifier) : FS (list DeletedObject) :=
  match objects with
  | [] => mret []
  | object :: objects' =>
      path ← get_object_path root bucket (ObjectIdentifier_key object);
      delete_one path (ObjectIdentifier_key object);;
      deleted ← delete_each bucket objects';
      mret ({| DeletedObject_delete_marker := None; DeletedObject_delete_marker_version_id := None;
     DeletedObject_key := Some (ObjectIdentifier_key object); DeletedObject_version_id := ObjectIdentifier_version_id object |} :: deleted)
  end.

Definition delete_objects (input : DeleteObjectsInput) : FS DeleteObjectsOutput :=
  deleted_objects ← delete_each (DeleteObjectsInput_bucket input) (Delete_objects (DeleteObjectsInput_delete input));
  mret {| DeleteObjectsOutput_deleted := Some deleted_objects; DeleteObjectsOutput_errors := None;
     DeleteObjectsOutput_request_charged := None |}.

(** ** Storing objects *)

(** [if let Some(v) = trailers.get(name) { field = Some(v.to_str()?.to_owned()) }] *)
Definition trailer_sum (trailers : HeaderMap) (name : bytes) (field : option bytes) : result S3ErrorCode (option bytes) :=
  match head (header_get_all trailers name) with
  | Some v => s ← ok_or InvalidArgument (header_to_str v); Ok (Some s)
  | None => Ok field
  end.

(** The sums that the trailers of the body declare. *)
Definition trailer_checksums (trailing_headers : option HeaderMap) (c : Checksum) : result S3ErrorCode Checksum :=
  match trailing_headers with
  | None => Ok c
  | Some trailers =>
      crc32 ← trailer_sum trailers (str "x-amz-checksum-crc32") (Checksum_checksum_crc32 c);
      crc32c ← trailer_sum trailers (str "x-amz-checksum-crc32c") (Checksum_checksum_crc32c c);
      sha1 ← trailer_sum trailers (str "x-amz-checksum-sha1") (Checksum_checksum_sha1 c);
      sha256 ← trailer_sum trailers (str "x-amz-checksum-sha256") (Checksum_checksum_sha256 c);
      crc64nvme ← trailer_sum trailers (str "x-amz-checksum-crc64nvme") (Checksum_checksum_crc64nvme c);
      sha512 ← trailer_sum trailers (str "x-amz-checksum-sha512") (Checksum_checksum_sha512 c);
      md5 ← trailer_sum trailers (str "x-amz-checksum-md5") (Checksum_checksum_md5 c);
      xxhash64 ← trailer_sum trailers (str "x-amz-checksum-xxhash64") (Checksum_checksum_xxhash64 c);
      xxhash3 ← trailer_sum trailers (str "x-amz-checksum-xxhash3") (Checksum_checksum_xxhash3 c);
      xxhash128 ← trailer_sum trailers (str "x-amz-checksum-xxhash128") (Checksum_checksum_xxhash128 c);
      Ok {| Checksum_checksum_crc32 := crc32; Checksum_checksum_crc32c := crc32c; Checksum_checksum_crc64nvme := crc64nvme;
     Checksum_checksum_md5 := md5; Checksum_checksum_sha1 := sha1; Checksum_checksum_sha256 := sha256;
     Checksum_checksum_sha512 := sha512; Checksum_checksum_type := Checksum_checksum_type c;
     Checksum_checksum_xxhash128 := xxhash128; Checksum_checksum_xxhash3 := xxhash3; Checksum_checksum_xxhash64 := xxhash64 |}
  end.

(** Every sum is the one declared, and none is declared that was not computed. *)
Definition sums_equal (a b : Checksum) : bool :=
  (Checksum_checksum_crc32 a =? Checksum_checksum_crc32 b) &&
  (Checksum_checksum_crc32c a =? Checksum_checksum_crc32c b) &&
  (Checksum_checksum_sha1 a =? Checksum_checksum_sha1 b) &&
  (Checksum_checksum_sha256 a =? Checksum_checksum_sha256 b) &&
  (Checksum_checksum_crc64nvme a =? Checksum_checksum_crc64nvme b) &&
  (Checksum_checksum_sha512 a =? Checksum_checksum_sha512 b) &&
  (Checksum_checksum_md5 a =? Checksum_checksum_md5 b) &&
  (Checksum_checksum_xxhash64 a =? Checksum_checksum_xxhash64 b) &&
  (Checksum_checksum_xxhash3 a =? Checksum_checksum_xxhash3 b) &&
  (Checksum_checksum_xxhash128 a =? Checksum_checksum_xxhash128 b).

Definition put_checksum (input : PutObjectInput) : Checksum :=
  {| Checksum_checksum_crc32 := PutObjectInput_checksum_crc32 input;
     Checksum_checksum_crc32c := PutObjectInput_checksum_crc32c input;
     Checksum_checksum_crc64nvme := PutObjectInput_checksum_crc64nvme input;
     Checksum_checksum_md5 := PutObjectInput_checksum_md5 input; Checksum_checksum_sha1 := PutObjectInput_checksum_sha1 input;
     Checksum_checksum_sha256 := PutObjectInput_checksum_sha256 input;
     Checksum_checksum_sha512 := PutObjectInput_checksum_sha512 input; Checksum_checksum_type := None;
     Checksum_checksum_xxhash128 := PutObjectInput_checksum_xxhash128 input;
     Checksum_checksum_xxhash3 := PutObjectInput_checksum_xxhash3 input;
     Checksum_checksum_xxhash64 := PutObjectInput_checksum_xxhash64 input |}.

(** The conditions on the object that is there ([if_match] names an ETag or any object). *)
Definition check_if_none_match (if_none_match : option ETagCondition) (object_path : AbsPath) : FS unit :=
  e ← exists_ object_path;
  fail_if (match if_none_match with Some condition => is_any condition && e | None => false end) PreconditionFailed.

Definition check_if_match (if_match : option ETagCondition) (bucket key : bytes) (object_path : AbsPath) : FS unit :=
  match if_match with
  | None => mret tt
  | Some condition =>
      e ← exists_ object_path;
      fail_if (negb e) PreconditionFailed;;
      match condition with
      | Any => mret tt
      | CondETag expected =>
          info ← load_internal_info root bucket key;
          etag_value ← stored_e_tag bucket key info;
          fail_if (negb (strong_cmp (Strong etag_value) expected)) PreconditionFailed
      end
  end.

(** The hasher of what the request declares and asks for. *)
Definition request_hasher (declared : Checksum) (algorithms : list (option bytes)) : result S3ErrorCode ChecksumHasher :=
  foldl (fun h a => h ← h; match a with Some algorithm => enable_checksum_algorithm h algorithm | None => Ok h end)
    (Ok (enable_expected_checksums hasher_default declared)) algorithms.

(** [content_md5] against the digest of the body *)
Definition check_content_md5 (content_md5 : option bytes) (md5_sum : bytes) : result S3ErrorCode unit :=
  match content_md5 with
  | None => Ok tt
  | Some content_md5 =>
      content_md5 ← ok_or InvalidArgument (decode_to_vec content_md5);
      if hex content_md5 =? md5_sum then Ok tt else Err BadDigest
  end.

Definition attributes_of_put (input : PutObjectInput) : ObjectAttributes :=
  mk_ObjectAttributes (PutObjectInput_metadata input) (PutObjectInput_content_encoding input) (PutObjectInput_content_type input)
    (PutObjectInput_content_disposition input) (PutObjectInput_content_language input) (PutObjectInput_cache_control input)
    (PutObjectInput_expires input) (PutObjectInput_website_redirect_location input) None None.

(** What is read of the body, with the sums that were checked. *)
Definition put_body (input : PutObjectInput) (trailing_headers : option HeaderMap) (hasher : ChecksumHasher) (body : StreamingBlob)
    (tmp_path : AbsPath) : FS (bytes * Checksum) :=
  pieces ← copy_bytes body tmp_path;
  let md5_sum := hex (ck_finalize Md5 (foldl (ck_update Md5) (ck_new Md5) pieces)) in
  lift (check_content_md5 (PutObjectInput_content_md5 input) md5_sum);;
  let checksum := hasher_finalize (foldl hasher_update hasher pieces) in
  declared ← lift (trailer_checksums trailing_headers (put_checksum input));
  fail_if (negb (sums_equal checksum declared)) BadDigest;;
  mret (md5_sum, checksum).

Definition put_object (input : PutObjectInput) (trailing_headers : option HeaderMap) : FS PutObjectOutput :=
  let bucket := PutObjectInput_bucket input in
  let key := PutObjectInput_key input in
  fail_if (match PutObjectInput_storage_class input with
    | Some storage_class => negb (bool_decide (storage_class ∈ [str "STANDARD"; str "REDUCED_REDUNDANCY"]))
    | None => false
    end) InvalidStorageClass;;
  body ← lift (ok_or IncompleteBody (PutObjectInput_body input));
  object_path ← get_object_path root bucket key;
  check_if_none_match (PutObjectInput_if_none_match input) object_path;;
  check_if_match (PutObjectInput_if_match input) bucket key object_path;;
  hasher ← lift (request_hasher (put_checksum input) [PutObjectInput_checksum_algorithm input]);
  if ends_with (str "/") key then
    fail_if (match PutObjectInput_content_length input with Some n => (0 <? n)%Z | None => false end) UnexpectedContent;;
    io_now (fun t => create_dir_all t object_path);;
    mret {| PutObjectOutput_bucket_key_enabled := None; PutObjectOutput_checksum_crc32 := None; PutObjectOutput_checksum_crc32c := None;
     PutObjectOutput_checksum_crc64nvme := None; PutObjectOutput_checksum_md5 := None; PutObjectOutput_checksum_sha1 := None;
     PutObjectOutput_checksum_sha256 := None; PutObjectOutput_checksum_sha512 := None; PutObjectOutput_checksum_type := None;
     PutObjectOutput_checksum_xxhash128 := None; PutObjectOutput_checksum_xxhash3 := None;
     PutObjectOutput_checksum_xxhash64 := None; PutObjectOutput_e_tag := None; PutObjectOutput_expiration := None;
     PutObjectOutput_request_charged := None; PutObjectOutput_sse_customer_algorithm := None;
     PutObjectOutput_sse_customer_key_md5 := None; PutObjectOutput_ssekms_encryption_context := None;
     PutObjectOutput_ssekms_key_id := None; PutObjectOutput_server_side_encryption := None; PutObjectOutput_size := None;
     PutObjectOutput_version_id := None |}
  else
    '(md5_sum, checksum) ← with_file_writer root object_path (put_body input trailing_headers hasher body);
    save_object_attributes root bucket key (attributes_of_put input) None;;
    save_internal_info root bucket key (modify_internal_info (save_e_tag ∅ md5_sum) checksum);;
    mret {| PutObjectOutput_bucket_key_enabled := None; PutObjectOutput_checksum_crc32 := Checksum_checksum_crc32 checksum;
     PutObjectOutput_checksum_crc32c := Checksum_checksum_crc32c checksum;
     PutObjectOutput_checksum_crc64nvme := Checksum_checksum_crc64nvme checksum;
     PutObjectOutput_checksum_md5 := Checksum_checksum_md5 checksum;
     PutObjectOutput_checksum_sha1 := Checksum_checksum_sha1 checksum;
     PutObjectOutput_checksum_sha256 := Checksum_checksum_sha256 checksum;
     PutObjectOutput_checksum_sha512 := Checksum_checksum_sha512 checksum; PutObjectOutput_checksum_type := None;
     PutObjectOutput_checksum_xxhash128 := Checksum_checksum_xxhash128 checksum;
     PutObjectOutput_checksum_xxhash3 := Checksum_checksum_xxhash3 checksum;
     PutObjectOutput_checksum_xxhash64 := Checksum_checksum_xxhash64 checksum; PutObjectOutput_e_tag := Some (Strong md5_sum);
     PutObjectOutput_expiration := None; PutObjectOutput_request_charged := None; PutObjectOutput_sse_customer_algorithm := None;
     PutObjectOutput_sse_customer_key_md5 := None; PutObjectOutput_ssekms_encryption_context := None;
     PutObjectOutput_ssekms_key_id := None; PutObjectOutput_server_side_encryption := None; PutObjectOutput_size := None;
     PutObjectOutput_version_id := None |}.

(** ** Copying objects *)

(** [a > b] of timestamps: of the instants *)
Definition later (a b : Timestamp) : bool := (unix_timestamp_nanos b <? unix_timestamp_nanos a)%Z.

(** The ETag of the source, computed when a condition first needs it. *)
Definition need_e_tag (bucket key : bytes) (src_etag : option ETag) : FS ETag :=
  match src_etag with Some etag => mret etag | None => md5_sum ← get_md5_sum root bucket key; mret (Strong md5_sum) end.

Definition copy_if_match (input : CopyObjectInput) (bucket key : bytes) (src_last_modified : Timestamp) (src_etag : option ETag) : FS (option ETag) :=
  match CopyObjectInput_copy_source_if_match input with
  | Some condition =>
      src ← need_e_tag bucket key src_etag;
      fail_if (negb (match condition with Any => true | CondETag etag => strong_cmp src etag end)) PreconditionFailed;;
      mret (Some src)
  | None =>
      fail_if (match CopyObjectInput_copy_source_if_unmodified_since input with
        | Some if_unmodified_since => later src_last_modified if_unmodified_since
        | None => false
        end) PreconditionFailed;;
      mret src_etag
  end.

Definition copy_if_none_match (input : CopyObjectInput) (bucket key : bytes) (src_last_modified : Timestamp) (src_etag : option ETag) :
    FS (option ETag) :=
  match CopyObjectInput_copy_source_if_none_match input with
  | Some condition =>
      src ← need_e_tag bucket key src_etag;
      fail_if (match condition with Any => true | CondETag etag => weak_cmp src etag end) PreconditionFailed;;
      mret (Some src)
  | None =>
      fail_if (match CopyObjectInput_copy_source_if_modified_since input with
        | Some if_modified_since => negb (later src_last_modified if_modified_since)
        | None => false
        end) PreconditionFailed;;
      mret src_etag
  end.

(** The payload: a copy of an object to itself only changes its time. *)
Definition copy_payload (src_path dst_path : AbsPath) : FS Timestamp :=
  if src_path =? dst_path then
    t ← now;
    io (touch_file t dst_path);;
    mret (timestamp_from t)
  else
    io_now (fun t => copy_file t src_path dst_path);;
    w ← get;
    n ← lift (try_ (stat (files w) dst_path));
    mret (timestamp_from (node_modified (files w) dst_path n)).

Definition attributes_of_copy (input : CopyObjectInput) : ObjectAttributes :=
  mk_ObjectAttributes (CopyObjectInput_metadata input) (CopyObjectInput_content_encoding input) (CopyObjectInput_content_type input)
    (CopyObjectInput_content_disposition input) (CopyObjectInput_content_language input) (CopyObjectInput_cache_control input)
    (CopyObjectInput_expires input) (CopyObjectInput_website_redirect_location input) None None.

Definition copy_attributes (input : CopyObjectInput) (bucket key : bytes) : FS unit :=
  if match CopyObjectInput_metadata_directive input with Some d => d =? str "REPLACE" | None => false end then
    save_object_attributes root (CopyObjectInput_bucket input) (CopyObjectInput_key input) (attributes_of_copy input) None
  else
    src_metadata_path ← get_metadata_path root bucket key None;
    e ← exists_ src_metadata_path;
    if (e : bool) then
      dst_metadata_path ← get_metadata_path root (CopyObjectInput_bucket input) (CopyObjectInput_key input) None;
      if src_metadata_path =? dst_metadata_path then mret tt
      else io_now (fun t => copy_file t src_metadata_path dst_metadata_path)
    else mret tt.

Definition mk_CopyObjectResult_of (dst_etag_str : bytes) (dst_last_modified : Timestamp) : CopyObjectResult :=
  {| CopyObjectResult_checksum_crc32 := None; CopyObjectResult_checksum_crc32c := None; CopyObjectResult_checksum_crc64nvme := None;
     CopyObjectResult_checksum_md5 := None; CopyObjectResult_checksum_sha1 := None; CopyObjectResult_checksum_sha256 := None;
     CopyObjectResult_checksum_sha512 := None; CopyObjectResult_checksum_type := None;
     CopyObjectResult_checksum_xxhash128 := None; CopyObjectResult_checksum_xxhash3 := None;
     CopyObjectResult_checksum_xxhash64 := None; CopyObjectResult_e_tag := Some (Strong dst_etag_str);
     CopyObjectResult_last_modified := Some dst_last_modified |}.

Definition copy_object (input : CopyObjectInput) : FS CopyObjectOutput :=
  '(bucket, key) ← lift (match CopyObjectInput_copy_source input with
    | CsBucket bucket key _ => Ok (bucket, key)
    | AccessPoint _ _ _ _ _ _ | Outpost _ _ _ _ _ _ => Err NotImplemented
    end);
  src_path ← get_object_path root bucket key;
  dst_path ← get_object_path root (CopyObjectInput_bucket input) (CopyObjectInput_key input);
  e ← exists_ src_path;
  fail_if (negb e) NoSuchKey;;
  bucket_path ← get_bucket_path root (CopyObjectInput_bucket input);
  e ← exists_ bucket_path;
  fail_if (negb e) NoSuchBucket;;
  w ← get;
  n ← lift (try_ (stat (files w) src_path));
  let src_last_modified := timestamp_from (node_modified (files w) src_path n) in
  src_info ← load_internal_info root bucket key;
  let src_etag := Strong <$> (src_info ≫= load_e_tag) in
  src_etag ← copy_if_match input bucket key src_last_modified src_etag;
  src_etag ← copy_if_none_match input bucket key src_last_modified src_etag;
  match parent dst_path with Some dir_path => io_now (fun t => create_dir_all t dir_path) | None => mret tt end;;
  dst_last_modified ← copy_payload src_path dst_path;
  dst_etag_str ← match src_etag with
    | Some etag => mret (into_value etag)
    | None => get_md5_sum root (CopyObjectInput_bucket input) (CopyObjectInput_key input)
    end;
  copy_attributes input bucket key;;
  save_internal_info root (CopyObjectInput_bucket input) (CopyObjectInput_key input) (save_e_tag (default ∅ src_info) dst_etag_str);;
  mret {| CopyObjectOutput_bucket_key_enabled := None;
     CopyObjectOutput_copy_object_result := Some (mk_CopyObjectResult_of dst_etag_str dst_last_modified);
     CopyObjectOutput_copy_source_version_id := None; CopyObjectOutput_expiration := None;
     CopyObjectOutput_request_charged := None; CopyObjectOutput_sse_customer_algorithm := None;
     CopyObjectOutput_sse_customer_key_md5 := None; CopyObjectOutput_ssekms_encryption_context := None;
     CopyObjectOutput_ssekms_key_id := None; CopyObjectOutput_server_side_encryption := None;
     CopyObjectOutput_version_id := None |}.
End Objects.
