(* ===== verification/FsUploads.v ===== *)
(** * Multipart uploads of the file-system back end (crates/s3s-fs/src/s3.rs)

    An upload has a file that names its owner, an attributes file of its own and, for each part, the
    data and the information of the part, all in the root.  Completing it writes the parts one after
    the other into the object and removes what is left of the upload. *)

From stdpp Require Import gmap.
From S2P Require Import Prelude.
From S2P Require Import Str.
From S2P Require Import Path.
From S2P Require Import ErrorCode.
From S2P Require Import Handler.
From S2P Require Import SigV4.
From S2P Require Import Authorization.
From S2P Require Import SigV2.
From S2P Require Import SignatureCheck.
From S2P Require Import Stream.
From S2P Require Import Body.
From S2P Require Import Blob.
From S2P Require Import Request.
From S2P Require Import Range.
From S2P Require Import ETag.
From S2P Require Import Timestamp.
From S2P Require Import Xml.
From S2P Require Import XmlStruct.
From S2P Require Import XmlDtoA.
From S2P Require Import XmlDtoB.
From S2P Require Import XmlDtoC.
From S2P Require Import XmlOutputs.
From S2P Require Import Rfc2047.
From S2P Require Import CopySource.
From S2P Require Import HttpDe.
From S2P Require Import OpsTypes.
From S2P Require Import FsTree.
From S2P Require Import Checksums.
From S2P Require Import FsList.
From S2P Require Import FsStore.
From S2P Require Import Poll.
From S2P Require Import KeepAlive.
From S2P Require Import FsObjects.

Definition FULL_OBJECT : bytes := str "FULL_OBJECT".

Section Uploads.
Context `{FsDeps} (root : AbsPath).
Abbreviation FS := (ST World).

(** ** Starting an upload *)

Definition attributes_of_upload (input : CreateMultipartUploadInput) : FsStore.ObjectAttributes :=
  mk_ObjectAttributes (CreateMultipartUploadInput_metadata input) (CreateMultipartUploadInput_content_encoding input)
    (CreateMultipartUploadInput_content_type input) (CreateMultipartUploadInput_content_disposition input)
    (CreateMultipartUploadInput_content_language input) (CreateMultipartUploadInput_cache_control input)
    (CreateMultipartUploadInput_expires input) (CreateMultipartUploadInput_website_redirect_location input)
    (CreateMultipartUploadInput_checksum_algorithm input) (CreateMultipartUploadInput_checksum_type input).

(** A type of checksum that is not of the full object *)
Definition other_type (checksum_type : option bytes) : bool :=
  match checksum_type with Some t => negb (t =? FULL_OBJECT) | None => false end.

Definition create_multipart_upload (credentials : option Request.Credentials) (input : CreateMultipartUploadInput) : FS CreateMultipartUploadOutput :=
  fail_if (other_type (CreateMultipartUploadInput_checksum_type input)) NotImplemented;;
  upload_id ← create_upload_id root credentials;
  save_object_attributes root (CreateMultipartUploadInput_bucket input) (CreateMultipartUploadInput_key input)
    (attributes_of_upload input) (Some upload_id);;
  mret {| CreateMultipartUploadOutput_abort_date := None; CreateMultipartUploadOutput_abort_rule_id := None;
     CreateMultipartUploadOutput_bucket := Some (CreateMultipartUploadInput_bucket input);
     CreateMultipartUploadOutput_bucket_key_enabled := None; CreateMultipartUploadOutput_checksum_algorithm := None;
     CreateMultipartUploadOutput_checksum_type := None;
     CreateMultipartUploadOutput_key := Some (CreateMultipartUploadInput_key input);
     CreateMultipartUploadOutput_request_charged := None; CreateMultipartUploadOutput_sse_customer_algorithm := None;
     CreateMultipartUploadOutput_sse_customer_key_md5 := None; CreateMultipartUploadOutput_ssekms_encryption_context := None;
     CreateMultipartUploadOutput_ssekms_key_id := None; CreateMultipartUploadOutput_server_side_encryption := None;
     CreateMultipartUploadOutput_upload_id := Some (uuid_to_string upload_id) |}.

(** ** Parts *)

(** [Uuid::parse_str(&upload_id)?], and the upload is one of the caller's *)
Definition open_upload (credentials : option Request.Credentials) (upload_id : bytes) : FS Uuid :=
  upload_id ← lift (ok_or InvalidRequest (uuid_parse_str upload_id));
  mine ← verify_upload_id root credentials upload_id;
  fail_if (negb mine) AccessDenied;;
  mret upload_id.

Definition part_checksum (input : UploadPartInput) : Checksum :=
  {| Checksum_checksum_crc32 := UploadPartInput_checksum_crc32 input;
     Checksum_checksum_crc32c := UploadPartInput_checksum_crc32c input;
     Checksum_checksum_crc64nvme := UploadPartInput_checksum_crc64nvme input;
     Checksum_checksum_md5 := UploadPartInput_checksum_md5 input; Checksum_checksum_sha1 := UploadPartInput_checksum_sha1 input;
     Checksum_checksum_sha256 := UploadPartInput_checksum_sha256 input;
     Checksum_checksum_sha512 := UploadPartInput_checksum_sha512 input; Checksum_checksum_type := None;
     Checksum_checksum_xxhash128 := UploadPartInput_checksum_xxhash128 input;
     Checksum_checksum_xxhash3 := UploadPartInput_checksum_xxhash3 input;
     Checksum_checksum_xxhash64 := UploadPartInput_checksum_xxhash64 input |}.

(** The data of a part, with the sums that were checked. *)
Definition part_body (declared : Checksum) (trailing_headers : option HeaderMap) (hasher : ChecksumHasher) (body : StreamingBlob)
    (tmp_path : AbsPath) : FS (bytes * Checksum) :=
  pieces ← copy_bytes body tmp_path;
  let md5_sum := hex (ck_finalize Md5 (foldl (ck_update Md5) (ck_new Md5) pieces)) in
  declared ← lift (trailer_checksums trailing_headers declared);
  let checksum := hasher_finalize (foldl hasher_update hasher pieces) in
  fail_if (is_some (checksum_mismatch checksum declared)) BadDigest;;
  mret (md5_sum, checksum).

Definition upload_part (credentials : option Request.Credentials) (input : UploadPartInput) (trailing_headers : option HeaderMap) :
    FS UploadPartOutput :=
  let part_number := UploadPartInput_part_number input in
  fail_if (10000 <? part_number)%Z InvalidArgument;;
  body ← lift (ok_or IncompleteBody (UploadPartInput_body input));
  upload_id ← open_upload credentials (UploadPartInput_upload_id input);
  upload_attrs ← load_object_attributes root (UploadPartInput_bucket input) (UploadPartInput_key input) (Some upload_id);
  file_path ← resolve_upload_part_path root upload_id part_number;
  hasher ← lift (request_hasher (part_checksum input) [upload_attrs ≫= FsStore.checksum_algorithm; UploadPartInput_checksum_algorithm input]);
  '(md5_sum, checksum) ← with_file_writer root file_path (part_body (part_checksum input) trailing_headers hasher body);
  save_upload_part_info root upload_id part_number (modify_internal_info (save_e_tag ∅ md5_sum) checksum);;
  mret {| UploadPartOutput_bucket_key_enabled := None; UploadPartOutput_checksum_crc32 := Checksum_checksum_crc32 checksum;
     UploadPartOutput_checksum_crc32c := Checksum_checksum_crc32c checksum;
     UploadPartOutput_checksum_crc64nvme := Checksum_checksum_crc64nvme checksum;
     UploadPartOutput_checksum_md5 := Checksum_checksum_md5 checksum;
     UploadPartOutput_checksum_sha1 := Checksum_checksum_sha1 checksum;
     UploadPartOutput_checksum_sha256 := Checksum_checksum_sha256 checksum;
     UploadPartOutput_checksum_sha512 := Checksum_checksum_sha512 checksum;
     UploadPartOutput_checksum_xxhash128 := Checksum_checksum_xxhash128 checksum;
     UploadPartOutput_checksum_xxhash3 := Checksum_checksum_xxhash3 checksum;
     UploadPartOutput_checksum_xxhash64 := Checksum_checksum_xxhash64 checksum; UploadPartOutput_e_tag := Some (Strong md5_sum);
     UploadPartOutput_request_charged := None; UploadPartOutput_sse_customer_algorithm := None;
     UploadPartOutput_sse_customer_key_md5 := None; UploadPartOutput_ssekms_key_id := None;
     UploadPartOutput_server_side_encryption := None |}.

(** [bytes=first-last] or [bytes=first-] of a file: where it starts and how much it is *)
Definition copy_range_of (copy_source_range : option bytes) (file_len : Z) : result S3ErrorCode (Z * Z) :=
  match copy_source_range with
  | None => Ok (0, file_len)%Z
  | Some copy_range =>
      range ← ok_or InvalidArgument (strip_prefix (str "bytes=") copy_range);
      match split "-" range with
      | [first; last] =>
          start ← ok_or InvalidArgument (parse_unsigned u64_max first);
          end_inclusive ← (if last =? [] then Ok (Z.max 0 (file_len - 1)) else ok_or InvalidArgument (parse_unsigned u64_max last));
          if (end_inclusive <? start)%Z || (file_len <=? start)%Z || (file_len <=? end_inclusive)%Z then Err InvalidRange
          else Ok (start, end_inclusive - start + 1)%Z
      | _ => Err InvalidArgument
      end
  end.

Definition copy_source_bucket (copy_source : CopySource) : result S3ErrorCode (bytes * bytes) :=
  match copy_source with
  | CsBucket bucket key _ => Ok (bucket, key)
  | AccessPoint _ _ _ _ _ _ | Outpost _ _ _ _ _ _ => Err NotImplemented
  end.

Definition part_copied (md5_sum : bytes) (checksum : Checksum) : CopyPartResult :=
  {| CopyPartResult_checksum_crc32 := Checksum_checksum_crc32 checksum;
     CopyPartResult_checksum_crc32c := Checksum_checksum_crc32c checksum;
     CopyPartResult_checksum_crc64nvme := Checksum_checksum_crc64nvme checksum;
     CopyPartResult_checksum_md5 := Checksum_checksum_md5 checksum;
     CopyPartResult_checksum_sha1 := Checksum_checksum_sha1 checksum;
     CopyPartResult_checksum_sha256 := Checksum_checksum_sha256 checksum;
     CopyPartResult_checksum_sha512 := Checksum_checksum_sha512 checksum;
     CopyPartResult_checksum_xxhash128 := Checksum_checksum_xxhash128 checksum;
     CopyPartResult_checksum_xxhash3 := Checksum_checksum_xxhash3 checksum;
     CopyPartResult_checksum_xxhash64 := Checksum_checksum_xxhash64 checksum; CopyPartResult_e_tag := Some (Strong md5_sum);
     CopyPartResult_last_modified := None |}.

Definition upload_part_copy (credentials : option Request.Credentials) (input : UploadPartCopyInput) : FS UploadPartCopyOutput :=
  let part_number := UploadPartCopyInput_part_number input in
  upload_id ← open_upload credentials (UploadPartCopyInput_upload_id input);
  upload_attrs ← load_object_attributes root (UploadPartCopyInput_bucket input) (UploadPartCopyInput_key input) (Some upload_id);
  '(src_bucket, src_key) ← lift (copy_source_bucket (UploadPartCopyInput_copy_source input));
  src_path ← get_object_path root src_bucket src_key;
  dst_path ← resolve_upload_part_path root upload_id part_number;
  w ← get;
  src_file ← lift (map_err (fun _ => NoSuchKey) (stat (files w) src_path));
  '(start, content_length) ← lift (copy_range_of (UploadPartCopyInput_copy_source_range input) (node_len (files w) src_path src_file));
  fail_if (usize_max <? content_length)%Z InternalError;;
  hasher ← lift (request_hasher checksum_default [upload_attrs ≫= FsStore.checksum_algorithm]);
  pieces ← with_file_writer root dst_path (copy_bytes (file_blob src_file start content_length));
  let md5_sum := hex (ck_finalize Md5 (foldl (ck_update Md5) (ck_new Md5) pieces)) in
  let checksum := hasher_finalize (foldl hasher_update hasher pieces) in
  fail_if (is_some (checksum_mismatch checksum checksum_default)) BadDigest;;
  save_upload_part_info root upload_id part_number (modify_internal_info (save_e_tag ∅ md5_sum) checksum);;
  mret {| UploadPartCopyOutput_bucket_key_enabled := None; UploadPartCopyOutput_copy_part_result := Some (part_copied md5_sum checksum);
     UploadPartCopyOutput_copy_source_version_id := None; UploadPartCopyOutput_request_charged := None;
     UploadPartCopyOutput_sse_customer_algorithm := None; UploadPartCopyOutput_sse_customer_key_md5 := None;
     UploadPartCopyOutput_ssekms_key_id := None; UploadPartCopyOutput_server_side_encryption := None |}.

(** One entry of the root as a part of the upload: [None] is a panic, [Ok None] another file. *)
Definition part_entry (prefix : bytes) (name : bytes) (n : Node) : option (option (Z * bytes * Z)) :=
  match n with
  | DirNode _ => Some None
  | FileNode data modified =>
      if negb (utf8_valid name) then Some None
      else match strip_prefix prefix name with
      | None => Some None
      | Some part_segment =>
          match strip_prefix (str ".part-") part_segment with
          | None => Some None
          | Some part_number => n ← parse_signed i32_min i32_max part_number; Some (Some (n, data, modified))
          end
      end
  end.

Fixpoint list_part_entries (upload_uuid : Uuid) (prefix : bytes) (names : list bytes) : FS (list PartInfo) :=
  match names with
  | [] => mret []
  | name :: names' =>
      w ← get;
      n ← lift (try_ (stat (files w) (root ++ [name])));
      entry ← panic_none (part_entry prefix name n);
      part ← match entry with
        | None => mret []
        | Some (part_number, data, modified) =>
            fail_if (i64_max <? len data)%Z InternalError;;
            part_info ← load_upload_part_info root upload_uuid part_number;
            checksum ← panic_none (match part_info with Some info => from_internal_info info | None => Some checksum_default end);
            mret [{| PartInfo_checksum_crc32 := Checksum_checksum_crc32 checksum; PartInfo_checksum_crc32c := Checksum_checksum_crc32c checksum;
     PartInfo_checksum_crc64nvme := Checksum_checksum_crc64nvme checksum; PartInfo_checksum_md5 := Checksum_checksum_md5 checksum;
     PartInfo_checksum_sha1 := Checksum_checksum_sha1 checksum; PartInfo_checksum_sha256 := Checksum_checksum_sha256 checksum;
     PartInfo_checksum_sha512 := Checksum_checksum_sha512 checksum;
     PartInfo_checksum_xxhash128 := Checksum_checksum_xxhash128 checksum;
     PartInfo_checksum_xxhash3 := Checksum_checksum_xxhash3 checksum;
     PartInfo_checksum_xxhash64 := Checksum_checksum_xxhash64 checksum; PartInfo_e_tag := Strong <$> (part_info ≫= load_e_tag);
     PartInfo_last_modified := Some (timestamp_from modified); PartInfo_part_number := Some part_number;
     PartInfo_size := Some (len data) |}]
        end;
      parts ← list_part_entries upload_uuid prefix names';
      mret (part ++ parts)
  end.

Definition list_parts (input : ListPartsInput) : FS ListPartsOutput :=
  upload_uuid ← lift (ok_or InvalidRequest (uuid_parse_str (ListPartsInput_upload_id input)));
  names ← io_ (fun fs => read_dir fs root);
  parts ← list_part_entries upload_uuid (str ".upload_id-" ++ ListPartsInput_upload_id input) names;
  mret {| ListPartsOutput_abort_date := None; ListPartsOutput_abort_rule_id := None;
     ListPartsOutput_bucket := Some (ListPartsInput_bucket input); ListPartsOutput_checksum_algorithm := None;
     ListPartsOutput_checksum_type := None; ListPartsOutput_initiator := None; ListPartsOutput_is_truncated := None;
     ListPartsOutput_key := Some (ListPartsInput_key input); ListPartsOutput_max_parts := None;
     ListPartsOutput_next_part_number_marker := None; ListPartsOutput_owner := None; ListPartsOutput_part_number_marker := None;
     ListPartsOutput_parts := Some parts; ListPartsOutput_request_charged := None; ListPartsOutput_storage_class := None;
     ListPartsOutput_upload_id := Some (ListPartsInput_upload_id input) |}.

(** ** Completing an upload *)

Definition complete_checksum (input : CompleteMultipartUploadInput) : Checksum :=
  {| Checksum_checksum_crc32 := CompleteMultipartUploadInput_checksum_crc32 input;
     Checksum_checksum_crc32c := CompleteMultipartUploadInput_checksum_crc32c input;
     Checksum_checksum_crc64nvme := CompleteMultipartUploadInput_checksum_crc64nvme input;
     Checksum_checksum_md5 := CompleteMultipartUploadInput_checksum_md5 input;
     Checksum_checksum_sha1 := CompleteMultipartUploadInput_checksum_sha1 input;
     Checksum_checksum_sha256 := CompleteMultipartUploadInput_checksum_sha256 input;
     Checksum_checksum_sha512 := CompleteMultipartUploadInput_checksum_sha512 input; Checksum_checksum_type := None;
     Checksum_checksum_xxhash128 := CompleteMultipartUploadInput_checksum_xxhash128 input;
     Checksum_checksum_xxhash3 := CompleteMultipartUploadInput_checksum_xxhash3 input;
     Checksum_checksum_xxhash64 := CompleteMultipartUploadInput_checksum_xxhash64 input |}.

Definition complete_if_match (if_match : option ETagCondition) (bucket key : bytes) (object_path : AbsPath) : FS unit :=
  match if_match with
  | None => mret tt
  | Some condition =>
      e ← exists_ object_path;
      fail_if (negb e) PreconditionFailed;;
      match as_etag condition with
      | None => mret tt
      | Some expected_etag =>
          info ← load_internal_info root bucket key;
          etag_value ← stored_e_tag root bucket key info;
          fail_if (negb (strong_cmp expected_etag (Strong etag_value))) PreconditionFailed
      end
  end.

(** What the loop over the parts has so far. *)
Record Assembly := {
  as_cnt : Z;
  as_content : bytes;
  as_hasher : ChecksumHasher;
  as_md5_hashes : list bytes;
  as_completed : list (Z * AbsPath)
}.

Definition MIN_PART : Z := 5 * 1024 * 1024.

(** One part: its number is the next, its sums are those saved with it, and its data goes to the
    temporary file. *)
Definition assemble_part (upload_id : Uuid) (total_parts_cnt : Z) (tmp_path : AbsPath) (a : Assembly) (part : CompletedPart) : FS Assembly :=
  part_number ← lift (ok_or InvalidRequest (CompletedPart_part_number part));
  let cnt := (as_cnt a + 1)%Z in
  fail_if (negb (part_number =? cnt)%Z) InvalidRequest;;
  part_path ← resolve_upload_part_path root upload_id part_number;
  part_info ← load_upload_part_info root upload_id part_number;
  saved_checksum ← panic_none (match part_info with Some info => from_internal_info info | None => Some checksum_default end);
  fail_if (is_some (checksum_mismatch saved_checksum (completed_part_checksum part))) InvalidPart;;
  data ← io_ (fun fs => read_file fs part_path);
  let content := as_content a ++ data in
  write_all content tmp_path;;
  fail_if (negb (part_number =? total_parts_cnt)%Z && (len data <? MIN_PART)%Z) EntityTooSmall;;
  mret {| as_cnt := cnt; as_content := content; as_hasher := foldl hasher_update (as_hasher a) (read_pieces data);
          as_md5_hashes := as_md5_hashes a ++ [ck_finalize Md5 (foldl (ck_update Md5) (ck_new Md5) (read_pieces data))];
          as_completed := as_completed a ++ [(part_number, part_path)] |}.

Fixpoint assemble (upload_id : Uuid) (total_parts_cnt : Z) (tmp_path : AbsPath) (parts : list CompletedPart) (a : Assembly) : FS Assembly :=
  match parts with
  | [] => mret a
  | part :: parts' => a ← assemble_part upload_id total_parts_cnt tmp_path a part; assemble upload_id total_parts_cnt tmp_path parts' a
  end.

(** The digest of the digests of the parts, and how many there are *)
Definition multipart_e_tag (part_md5_hashes : list bytes) : bytes :=
  hex (ck_finalize Md5 (foldl (ck_update Md5) (ck_new Md5) part_md5_hashes)) ++ str "-" ++ fmt_dec (Z.of_nat (length part_md5_hashes)).

Definition complete_body (upload_id : Uuid) (parts : list CompletedPart) (hasher : ChecksumHasher) (expected : Checksum) (tmp_path : AbsPath) :
    FS (bytes * Checksum * list (Z * AbsPath)) :=
  total_parts_cnt ← panic_none (if (Z.of_nat (length parts) <=? i32_max)%Z then Some (Z.of_nat (length parts)) else None);
  a ← assemble upload_id total_parts_cnt tmp_path parts
    {| as_cnt := 0; as_content := []; as_hasher := hasher; as_md5_hashes := []; as_completed := [] |};
  let checksum := hasher_finalize (as_hasher a) in
  fail_if (is_some (checksum_mismatch checksum expected)) BadDigest;;
  mret (multipart_e_tag (as_md5_hashes a), checksum, as_completed a).

(** [if let Err(err) = .. { cleanup_failed = true; }] *)
Definition failed {A} (m : FS A) : FS bool := fun w =>
  match m w with
  | Some (w', Ok _) => Some (w', Ok false)
  | Some (w', Err _) => Some (w', Ok true)
  | None => None
  end.

Fixpoint remove_parts (upload_id : Uuid) (completed : list (Z * AbsPath)) : FS bool :=
  match completed with
  | [] => mret false
  | (part_number, part_path) :: completed' =>
      f1 ← failed (remove_file_if_exists part_path);
      f2 ← failed (delete_upload_part_info root upload_id part_number);
      f ← remove_parts upload_id completed';
      mret (f1 || f2 || f)
  end.

Definition remove_upload (bucket key : bytes) (upload_id : Uuid) (completed : list (Z * AbsPath)) : FS unit :=
  f1 ← failed (delete_metadata root bucket key (Some upload_id));
  f2 ← remove_parts upload_id completed;
  if f1 || f2 then mret tt else failed (delete_upload_id root upload_id);; mret tt.

Definition complete_output (bucket key e_tag : bytes) (checksum : Checksum) : CompleteMultipartUploadOutput :=
  {| CompleteMultipartUploadOutput_bucket := Some bucket; CompleteMultipartUploadOutput_bucket_key_enabled := None;
     CompleteMultipartUploadOutput_checksum_crc32 := Checksum_checksum_crc32 checksum;
     CompleteMultipartUploadOutput_checksum_crc32c := Checksum_checksum_crc32c checksum;
     CompleteMultipartUploadOutput_checksum_crc64nvme := Checksum_checksum_crc64nvme checksum;
     CompleteMultipartUploadOutput_checksum_md5 := Checksum_checksum_md5 checksum;
     CompleteMultipartUploadOutput_checksum_sha1 := Checksum_checksum_sha1 checksum;
     CompleteMultipartUploadOutput_checksum_sha256 := Checksum_checksum_sha256 checksum;
     CompleteMultipartUploadOutput_checksum_sha512 := Checksum_checksum_sha512 checksum;
     CompleteMultipartUploadOutput_checksum_type := if has_any_checksum checksum then Some FULL_OBJECT else None;
     CompleteMultipartUploadOutput_checksum_xxhash128 := Checksum_checksum_xxhash128 checksum;
     CompleteMultipartUploadOutput_checksum_xxhash3 := Checksum_checksum_xxhash3 checksum;
     CompleteMultipartUploadOutput_checksum_xxhash64 := Checksum_checksum_xxhash64 checksum;
     CompleteMultipartUploadOutput_e_tag := Some (Strong e_tag); CompleteMultipartUploadOutput_expiration := None;
     CompleteMultipartUploadOutput_key := Some key; CompleteMultipartUploadOutput_location := None;
     CompleteMultipartUploadOutput_request_charged := None; CompleteMultipartUploadOutput_ssekms_key_id := None;
     CompleteMultipartUploadOutput_server_side_encryption := None; CompleteMultipartUploadOutput_version_id := None |}.

(** The output is that of the future, which is ready when it is first polled. *)
Definition complete_multipart_upload (credentials : option Request.Credentials) (input : CompleteMultipartUploadInput) :
    FS CompleteMultipartUploadOutput :=
  let bucket := CompleteMultipartUploadInput_bucket input in
  let key := CompleteMultipartUploadInput_key input in
  multipart_upload ← lift (ok_or InvalidPart (CompleteMultipartUploadInput_multipart_upload input));
  let parts := default [] (CompletedMultipartUpload_parts multipart_upload) in
  fail_if (match parts with [] => true | _ => false end) InvalidPart;;
  upload_id ← open_upload credentials (CompleteMultipartUploadInput_upload_id input);
  fail_if (other_type (CompleteMultipartUploadInput_checksum_type input)) NotImplemented;;
  upload_attrs ← load_object_attributes root bucket key (Some upload_id);
  fail_if (other_type (upload_attrs ≫= FsStore.checksum_type)) NotImplemented;;
  object_path ← get_object_path root bucket key;
  check_if_none_match (CompleteMultipartUploadInput_if_none_match input) object_path;;
  complete_if_match (CompleteMultipartUploadInput_if_match input) bucket key object_path;;
  let expected_checksum := complete_checksum input in
  hasher ← lift (request_hasher expected_checksum [upload_attrs ≫= FsStore.checksum_algorithm]);
  '(e_tag, checksum, completed) ← with_file_writer root object_path (complete_body upload_id parts hasher expected_checksum);
  match upload_attrs with Some attrs => save_object_attributes root bucket key attrs None | None => mret tt end;;
  save_internal_info root bucket key (modify_internal_info (save_e_tag ∅ e_tag) checksum);;
  remove_upload bucket key upload_id completed;;
  mret (complete_output bucket key e_tag checksum).

(** ** Giving up an upload *)

Fixpoint abort_entries (prefix info_prefix : bytes) (names : list bytes) : FS unit :=
  match names with
  | [] => mret tt
  | name :: names' =>
      (if utf8_valid name && (starts_with prefix name || starts_with info_prefix name) then remove_file_if_exists (root ++ [name]) else mret tt);;
      abort_entries prefix info_prefix names'
  end.

Definition abort_multipart_upload (credentials : option Request.Credentials) (input : AbortMultipartUploadInput) : FS AbortMultipartUploadOutput :=
  upload_id ← open_upload credentials (AbortMultipartUploadInput_upload_id input);
  delete_metadata root (AbortMultipartUploadInput_bucket input) (AbortMultipartUploadInput_key input) (Some upload_id);;
  names ← io_ (fun fs => read_dir fs root);
  abort_entries (str ".upload_id-" ++ uuid_to_string upload_id) (str ".upload_part_info-" ++ uuid_to_string upload_id) names;;
  delete_upload_id root upload_id;;
  mret {| AbortMultipartUploadOutput_request_charged := None |}.
End Uploads.
