(* ===== verification/FsReference.v ===== *)
(** * Stand-ins for what the file-system back end uses

    Concrete functions with the laws that the interfaces of FsStore and FsList ask for, so that the
    hypotheses of the theorems can be met and the handlers can be run. *)

From stdpp Require Import gmap.
From S2P Require Import Prelude.
From S2P Require Import Str.
From S2P Require Import SigV4.
From S2P Require Import Timestamp.
From S2P Require Import HttpDe.
From S2P Require Import Service.
From S2P Require Import FsTree.
From S2P Require Import Checksums.
From S2P Require Import FsList.
From S2P Require Import FsStore.

(** ** Paths *)

Fixpoint resolve_dots (acc : AbsPath) (cs : list Component) : AbsPath :=
  match cs with
  | [] => acc
  | Normal x :: cs' => resolve_dots (acc ++ [x]) cs'
  | ParentDir :: cs' => resolve_dots (removelast acc) cs'
  | _ :: cs' => resolve_dots acc cs'
  end.

Definition ref_absolutize (p : bytes) (root : AbsPath) : result IoError AbsPath :=
  match components p with
  | RootDir :: cs => let q := resolve_dots [] cs in if above root q then Ok q else Err NotFound
  | cs => Ok (root ++ resolve_dots [] cs)
  end.

Abbreviation good := (Forall (fun x : bytes => name_ok x = true)).

Lemma component_ok x c : "/"%byte ∉ x -> component_of x = Some c -> match c with Normal y => name_ok y = true | _ => True end.
Proof.
  intros Hx. unfold component_of. destruct (bool_decide (x = [])) eqn:E1; [done|]. destruct (x =? str ".") eqn:E2; [done|].
  destruct (x =? str "..") eqn:E3; [by intros [= <-]|]. intros [= <-]. unfold name_ok. rewrite E1, E2, E3, bool_decide_eq_false_2 by done. done.
Qed.

Lemma components_ok p : Forall (fun c => match c with Normal y => name_ok y = true | _ => True end) (components p).
Proof.
  unfold components. apply Forall_app. split; [by destruct (starts_with _ _); [repeat constructor|destruct (_ =? _); repeat constructor]|].
  apply Forall_forall. intros c (x & Hx%split_notin & Hc)%list_elem_of_omap. by eapply component_ok.
Qed.

Lemma resolve_ok cs acc : Forall (fun c => match c with Normal y => name_ok y = true | _ => True end) cs -> good acc -> good (resolve_dots acc cs).
Proof.
  intros Hcs. revert acc. induction Hcs as [|c cs Hc _ IH]; intros acc Ha; [done|]. destruct c; cbn [resolve_dots]; apply IH; try done.
  - destruct (path_cases acc) as [->|(d & x & ->)]; [done|]. rewrite removelast_last. by apply Forall_app in Ha as [Ha _].
  - apply Forall_app_2; [done|]. by apply Forall_singleton.
Qed.

Lemma resolve_normal names acc : resolve_dots acc (map Normal names) = acc ++ names.
Proof. revert acc. induction names as [|x names IH]; intros acc; cbn; [by rewrite app_nil_r|]. by rewrite IH, <- app_assoc. Qed.

Definition path_reference : PathAbsolutize.
Proof.
  refine {| absolutize_virtually := ref_absolutize |}.
  - intros p root q E. unfold ref_absolutize in E.
    destruct (components p) as [|[] cs]; [injection E as <-; apply above_iff; by eexists| |injection E as <-; apply above_iff; by eexists..].
    cbv zeta in E. destruct (above root (resolve_dots [] cs)) eqn:Ea; [|done]. by injection E as <-.
  - intros p root q E Hr. unfold ref_absolutize in E. pose proof (components_ok p) as Hc.
    destruct (components p) as [|[] cs]; [injection E as <-; apply Forall_app_2; [done|constructor]| |
      injection E as <-; (apply Forall_app_2; [done|]); refine (resolve_ok _ [] Hc _); constructor..].
    cbv zeta in E. destruct (above _ _); [|done]. injection E as <-. apply Forall_cons in Hc as [_ Hc]. by apply resolve_ok.
  - intros p root names E Hn. unfold ref_absolutize. rewrite E. destruct names as [|x names]; [done|]. cbn [map].
    change (Normal x :: map Normal names) with (map Normal (x :: names)). by rewrite resolve_normal.
Defined.

(** ** Files of the store *)

(** A number as text of its binary digits. *)
Fixpoint pos_text (p : positive) : bytes :=
  match p with xH => [] | xO p => "0"%byte :: pos_text p | xI p => "1"%byte :: pos_text p end.
Fixpoint text_pos (s : bytes) : positive :=
  match s with [] => xH | c :: s' => if c =? "0"%byte then xO (text_pos s') else xI (text_pos s') end.
Lemma text_pos_text p : text_pos (pos_text p) = p.
Proof.
  induction p as [p IH|p IH|]; [| |done]; cbn [pos_text text_pos].
  - rewrite bool_decide_eq_false_2 by done. by rewrite IH.
  - rewrite bool_decide_eq_true_2 by done. by rewrite IH.
Qed.

Definition attrs_tuple (a : ObjectAttributes) :=
  (user_metadata a, content_encoding a, content_type a, content_disposition a, content_language a, cache_control a, expires a,
   website_redirect_location a, checksum_algorithm a, checksum_type a).
#[global] Instance attrs_eq_dec : EqDecision ObjectAttributes.
Proof. solve_decision. Defined.
#[global] Instance attrs_countable : Countable ObjectAttributes.
Proof.
  refine (inj_countable' attrs_tuple (fun '(a, b, c, d, e, f, g, h, i, j) => mk_ObjectAttributes a b c d e f g h i j) _). by intros [].
Defined.

Definition text_of {A} `{Countable A} (a : A) : option bytes := Some (pos_text (countable.encode a)).
Definition of_text {A} `{Countable A} (s : bytes) : option A := countable.decode (text_pos s).
Lemma text_round_trip {A} `{Countable A} (a : A) : exists b, text_of a = Some b /\ of_text b = Some a.
Proof. eexists. split; [done|]. unfold of_text. by rewrite text_pos_text, countable.decode_encode. Qed.

Definition serde_reference : Serde.
Proof.
  refine {| attrs_to_vec := text_of; attrs_from_slice := of_text; metadata_from_slice := fun _ => None;
            info_to_vec := fun i => text_of (omap as_str i : gmap bytes bytes);
            info_from_slice := fun s => (fun m : gmap bytes bytes => VString <$> m) <$> of_text s;
            access_key_to_vec := text_of; access_key_from_slice := of_text |}.
  - intros a. destruct (text_round_trip a) as (b & E & Eb). exists b. split; [done|]. intros _. exists (user_metadata a). split; [by rewrite Eb; destruct a|].
    destruct (user_metadata a); cbn; [reflexivity|done].
  - intros i. destruct (text_round_trip (omap as_str i : gmap bytes bytes)) as (b & E & Eb). exists b. split; [done|]. intros Hi. rewrite Eb. cbn. f_equal.
    apply map_eq. intros k. rewrite lookup_fmap, lookup_omap. destruct (i !! k) as [v|] eqn:Ek; [|done]. cbn.
    destruct (Hi k v Ek) as [s Hs]. rewrite Hs. destruct v; try done. cbn in Hs. by injection Hs as ->.
  - intros k. apply text_round_trip.
Defined.

(** ** Identifiers, hashes and the machine *)

Definition hex_text (s : bytes) : bytes := concat (map hex_pair s).

Definition ref_uuid_to_string (u : Uuid) : bytes :=
  let h := hex_text u in take 8 h ++ str "-" ++ take 4 (drop 8 h) ++ str "-" ++ take 4 (drop 12 h) ++ str "-" ++ take 4 (drop 16 h) ++ str "-" ++ drop 20 h.
Definition ref_uuid_parse (s : bytes) : option Uuid :=
  if (length s =? 36)%nat then
    u ← hex_decode (take 8 s ++ take 4 (drop 9 s) ++ take 4 (drop 14 s) ++ take 4 (drop 19 s) ++ drop 24 s);
    if (length u =? 16)%nat then Some u else None
  else None.

Lemma hex_lower_char d : (0 <= d < 16)%Z -> is_ascii_digit (hex_lower d) || is_ascii_lowercase (hex_lower d) = true.
Proof. intros Hd. assert (Hc : (d = 0 \/ d = 1 \/ d = 2 \/ d = 3 \/ d = 4 \/ d = 5 \/ d = 6 \/ d = 7 \/ d = 8 \/ d = 9 \/ d = 10 \/ d = 11 \/ d = 12 \/ d = 13 \/ d = 14 \/ d = 15)%Z) by lia.
  by repeat destruct Hc as [->|Hc]; subst. Qed.

Lemma hex_text_chars s : forallb (fun c => is_ascii_digit c || is_ascii_lowercase c) (hex_text s) = true.
Proof.
  unfold hex_text. induction s as [|c s IH]; [done|]. cbn [map concat]. unfold hex_pair at 1. cbn [app forallb]. rewrite IH.
  pose proof (u8_range c). rewrite !hex_lower_char; [done|apply Z.mod_pos_bound; lia|split; [apply Z.div_pos; lia|apply Z.div_lt_upper_bound; lia]].
Qed.
Lemma hex_text_length s : length (hex_text s) = (2 * length s)%nat.
Proof.
  unfold hex_text. induction s as [|c s IH]; [done|]. cbn [map concat]. rewrite length_app, IH. cbn [length]. unfold hex_pair. cbn [length]. lia.
Qed.

Definition uuids_reference : Uuids.
Proof.
  refine {| uuid_to_string := ref_uuid_to_string; uuid_parse_str := ref_uuid_parse; new_v4 := fun n => replicate 15 x00 ++ [byte_of_Z (Z.of_nat n)] |}.
  - intros u Hu. pose proof (hex_decode_pairs u) as Hd. fold (hex_text u) in Hd. pose proof (hex_text_length u) as Hl. rewrite Hu in Hl.
    unfold ref_uuid_parse, ref_uuid_to_string. revert Hd Hl. generalize (hex_text u). intros h Hd Hl.
    do 32 (destruct h as [|? h]; [done|]). destruct h; [|done]. cbn -[hex_decode]. rewrite Hd. cbn -[length]. by rewrite Hu.
  - intros u Hu. pose proof (hex_text_length u) as Hl. pose proof (hex_text_chars u) as Hc. rewrite Hu in Hl.
    unfold ref_uuid_to_string. revert Hc Hl. generalize (hex_text u). intros h Hc Hl.
    do 32 (destruct h as [|? h]; [done|]). destruct h; [|done]. split; [done|].
    cbn -[bool_decide is_ascii_digit is_ascii_lowercase] in Hc |- *. rewrite !andb_true_iff in Hc. destruct_and?.
    repeat (apply andb_true_iff; split); first [done | apply orb_true_iff; by left].
  - intros s u E. unfold ref_uuid_parse in E. destruct (length s =? 36)%nat; [|done]. destruct (hex_decode _) as [v|]; [|done]. cbn in E.
    destruct (Nat.eqb_spec (length v) 16); [|done]. by injection E as <-.
  - done.
Defined.

Definition base64url_reference : Base64Url.
Proof.
  refine {| url_encode_to_string := hex_text |}.
  - intros a b E. pose proof (hex_decode_pairs a) as Ha. pose proof (hex_decode_pairs b) as Hb. fold (hex_text a) in Ha. fold (hex_text b) in Hb. congruence.
  - intros a. apply (forallb_impl (fun c => is_ascii_digit c || is_ascii_lowercase c)); [|apply hex_text_chars]. by intros [].
Defined.

Definition identity_hash : StreamHash.
Proof.
  refine {| hs_state := bytes; hs_new := []; hs_update := fun s d => s ++ d; hs_digest := id |}.
  intros l. unfold id. cbn [app]. rewrite <- (app_nil_l (concat l)). generalize (@nil byte). induction l as [|x l IH]; intros a; cbn; [by rewrite app_nil_r|].
  by rewrite IH, <- app_assoc.
Defined.

Definition hashes_reference : HashCrates :=
  {| crc_fast := fun _ => identity_hash; sha1_Sha1 := identity_hash; sha2_Sha256 := identity_hash; sha2_Sha512 := identity_hash;
     md5_Md5 := identity_hash; xxh64 := fun _ => identity_hash; xxh3_64 := identity_hash; xxh3_128 := identity_hash |}.

Definition env_reference : FsEnv.
Proof.
  refine {| readdir := entries; timestamp_from := fun t =>
    {| dt_year := 2026; dt_month := 1; dt_day := 1; dt_hour := 0; dt_minute := 0; dt_second := 0; dt_nanosecond := t; dt_offset := 0 |} |}.
  done.
Defined.

Definition machine_reference : Machine.
Proof.
  refine {| clock := Z.of_nat; dir_len := fun _ _ => 4096%Z; dir_modified := fun _ _ => 0%Z; read_pieces := fun data => [data];
            boxed_size_limit := fun _ => false; boxed_upload_error := fun _ => None; boxed_chunked_error := fun _ => None |}.
  intros data. apply app_nil_r.
Defined.

Definition fs_reference : FsDeps :=
  {| fd_env := env_reference; fd_machine := machine_reference; fd_path := path_reference; fd_serde := serde_reference; fd_uuids := uuids_reference;
     fd_base64url := base64url_reference; fd_hashes := hashes_reference; fd_http := toy_http_deps |}.

(** ** A small store *)

Definition w_root : AbsPath := [str "srv"].
(** The root with nothing in it. *)
Definition w_empty : World :=
  {| files := <[w_root := DirNode 0]> (<[[] := DirNode 0]> ∅); tmp_file_counter := 0%N; ticks := 1; uuids := 0 |}.
