(* ===== verification/FsSamples.v ===== *)
(** * A small store

    Requests to a store with the stand-ins of FsReference, and the stores they lead to. *)

From stdpp Require Import gmap.
From S2P Require Import Prelude.
From S2P Require Import Str.
From S2P Require Import ErrorCode.
From S2P Require Import Handler.
From S2P Require Import Blob.
From S2P Require Import Request.
From S2P Require Import Range.
From S2P Require Import Xml.
From S2P Require Import XmlDtoA.
From S2P Require Import XmlDtoB.
From S2P Require Import XmlDtoC.
From S2P Require Import HttpDe.
From S2P Require Import OpsTypes.
From S2P Require Import FsTree.
From S2P Require Import Checksums.
From S2P Require Import FsList.
From S2P Require Import FsStore.
From S2P Require Import FsObjects.
From S2P Require Import FsUploads.
From S2P Require Import FsReference.

#[local] Existing Instance fs_reference.

(** ** Requests *)

Definition create_photos : CreateBucketInput :=
  {| CreateBucketInput_acl := None; CreateBucketInput_bucket := str "photos"; CreateBucketInput_bucket_namespace := None;
     CreateBucketInput_create_bucket_configuration := None; CreateBucketInput_grant_full_control := None;
     CreateBucketInput_grant_read := None; CreateBucketInput_grant_read_acp := None; CreateBucketInput_grant_write := None;
     CreateBucketInput_grant_write_acp := None; CreateBucketInput_object_lock_enabled_for_bucket := None;
     CreateBucketInput_object_ownership := None |}.
Definition put_cat : PutObjectInput :=
  {| PutObjectInput_acl := None; PutObjectInput_body := Some (from_bytes (str "meow")); PutObjectInput_bucket := str "photos";
     PutObjectInput_bucket_key_enabled := None; PutObjectInput_cache_control := None; PutObjectInput_checksum_algorithm := None;
     PutObjectInput_checksum_crc32 := None; PutObjectInput_checksum_crc32c := None; PutObjectInput_checksum_crc64nvme := None;
     PutObjectInput_checksum_md5 := None; PutObjectInput_checksum_sha1 := None;
     PutObjectInput_checksum_sha256 := Some (base64 (checksum Sha256 (str "meow"))); PutObjectInput_checksum_sha512 := None;
     PutObjectInput_checksum_xxhash128 := None; PutObjectInput_checksum_xxhash3 := None; PutObjectInput_checksum_xxhash64 := None;
     PutObjectInput_content_disposition := None; PutObjectInput_content_encoding := None; PutObjectInput_content_language := None;
     PutObjectInput_content_length := None; PutObjectInput_content_md5 := None; PutObjectInput_content_type := Some (str "image/png");
     PutObjectInput_expected_bucket_owner := None; PutObjectInput_expires := None; PutObjectInput_grant_full_control := None;
     PutObjectInput_grant_read := None; PutObjectInput_grant_read_acp := None; PutObjectInput_grant_write_acp := None;
     PutObjectInput_if_match := None; PutObjectInput_if_none_match := None; PutObjectInput_key := str "a/cat.png";
     PutObjectInput_metadata := None; PutObjectInput_object_lock_legal_hold_status := None; PutObjectInput_object_lock_mode := None;
     PutObjectInput_object_lock_retain_until_date := None; PutObjectInput_request_payer := None;
     PutObjectInput_sse_customer_algorithm := None; PutObjectInput_sse_customer_key := None; PutObjectInput_sse_customer_key_md5 := None;
     PutObjectInput_ssekms_encryption_context := None; PutObjectInput_ssekms_key_id := None; PutObjectInput_server_side_encryption := None;
     PutObjectInput_storage_class := None; PutObjectInput_tagging := None; PutObjectInput_website_redirect_location := None;
     PutObjectInput_write_offset_bytes := None |}.
Definition put_wrong : PutObjectInput :=
  {| PutObjectInput_acl := None; PutObjectInput_body := Some (from_bytes (str "woof")); PutObjectInput_bucket := str "photos";
     PutObjectInput_bucket_key_enabled := None; PutObjectInput_cache_control := None; PutObjectInput_checksum_algorithm := None;
     PutObjectInput_checksum_crc32 := None; PutObjectInput_checksum_crc32c := None; PutObjectInput_checksum_crc64nvme := None;
     PutObjectInput_checksum_md5 := None; PutObjectInput_checksum_sha1 := None; PutObjectInput_checksum_sha256 := Some (str "0000");
     PutObjectInput_checksum_sha512 := None; PutObjectInput_checksum_xxhash128 := None; PutObjectInput_checksum_xxhash3 := None;
     PutObjectInput_checksum_xxhash64 := None; PutObjectInput_content_disposition := None; PutObjectInput_content_encoding := None;
     PutObjectInput_content_language := None; PutObjectInput_content_length := None; PutObjectInput_content_md5 := None;
     PutObjectInput_content_type := None; PutObjectInput_expected_bucket_owner := None; PutObjectInput_expires := None;
     PutObjectInput_grant_full_control := None; PutObjectInput_grant_read := None; PutObjectInput_grant_read_acp := None;
     PutObjectInput_grant_write_acp := None; PutObjectInput_if_match := None; PutObjectInput_if_none_match := None;
     PutObjectInput_key := str "a/cat.png"; PutObjectInput_metadata := None; PutObjectInput_object_lock_legal_hold_status := None;
     PutObjectInput_object_lock_mode := None; PutObjectInput_object_lock_retain_until_date := None; PutObjectInput_request_payer := None;
     PutObjectInput_sse_customer_algorithm := None; PutObjectInput_sse_customer_key := None; PutObjectInput_sse_customer_key_md5 := None;
     PutObjectInput_ssekms_encryption_context := None; PutObjectInput_ssekms_key_id := None; PutObjectInput_server_side_encryption := None;
     PutObjectInput_storage_class := None; PutObjectInput_tagging := None; PutObjectInput_website_redirect_location := None;
     PutObjectInput_write_offset_bytes := None |}.
Definition put_bird : PutObjectInput :=
  {| PutObjectInput_acl := None; PutObjectInput_body := Some (from_bytes (str "tweet")); PutObjectInput_bucket := str "photos";
     PutObjectInput_bucket_key_enabled := None; PutObjectInput_cache_control := None; PutObjectInput_checksum_algorithm := None;
     PutObjectInput_checksum_crc32 := None; PutObjectInput_checksum_crc32c := None; PutObjectInput_checksum_crc64nvme := None;
     PutObjectInput_checksum_md5 := None; PutObjectInput_checksum_sha1 := None; PutObjectInput_checksum_sha256 := None;
     PutObjectInput_checksum_sha512 := None; PutObjectInput_checksum_xxhash128 := None; PutObjectInput_checksum_xxhash3 := None;
     PutObjectInput_checksum_xxhash64 := None; PutObjectInput_content_disposition := None; PutObjectInput_content_encoding := None;
     PutObjectInput_content_language := None; PutObjectInput_content_length := None; PutObjectInput_content_md5 := None;
     PutObjectInput_content_type := None; PutObjectInput_expected_bucket_owner := None; PutObjectInput_expires := None;
     PutObjectInput_grant_full_control := None; PutObjectInput_grant_read := None; PutObjectInput_grant_read_acp := None;
     PutObjectInput_grant_write_acp := None; PutObjectInput_if_match := None; PutObjectInput_if_none_match := None;
     PutObjectInput_key := str "bird.png"; PutObjectInput_metadata := None; PutObjectInput_object_lock_legal_hold_status := None;
     PutObjectInput_object_lock_mode := None; PutObjectInput_object_lock_retain_until_date := None; PutObjectInput_request_payer := None;
     PutObjectInput_sse_customer_algorithm := None; PutObjectInput_sse_customer_key := None; PutObjectInput_sse_customer_key_md5 := None;
     PutObjectInput_ssekms_encryption_context := None; PutObjectInput_ssekms_key_id := None; PutObjectInput_server_side_encryption := None;
     PutObjectInput_storage_class := None; PutObjectInput_tagging := None; PutObjectInput_website_redirect_location := None;
     PutObjectInput_write_offset_bytes := None |}.
Definition get_cat : GetObjectInput :=
  {| GetObjectInput_bucket := str "photos"; GetObjectInput_checksum_mode := None; GetObjectInput_expected_bucket_owner := None;
     GetObjectInput_if_match := None; GetObjectInput_if_modified_since := None; GetObjectInput_if_none_match := None;
     GetObjectInput_if_unmodified_since := None; GetObjectInput_key := str "a/cat.png"; GetObjectInput_part_number := None;
     GetObjectInput_range := None; GetObjectInput_request_payer := None; GetObjectInput_response_cache_control := None;
     GetObjectInput_response_content_disposition := None; GetObjectInput_response_content_encoding := None;
     GetObjectInput_response_content_language := None; GetObjectInput_response_content_type := None; GetObjectInput_response_expires := None;
     GetObjectInput_sse_customer_algorithm := None; GetObjectInput_sse_customer_key := None; GetObjectInput_sse_customer_key_md5 := None;
     GetObjectInput_version_id := None |}.
Definition list_photos : ListObjectsV2Input :=
  {| ListObjectsV2Input_bucket := str "photos"; ListObjectsV2Input_continuation_token := None;
     ListObjectsV2Input_delimiter := Some (str "/"); ListObjectsV2Input_encoding_type := None;
     ListObjectsV2Input_expected_bucket_owner := None; ListObjectsV2Input_fetch_owner := None; ListObjectsV2Input_max_keys := Some 1%Z;
     ListObjectsV2Input_optional_object_attributes := None; ListObjectsV2Input_prefix := None; ListObjectsV2Input_request_payer := None;
     ListObjectsV2Input_start_after := None |}.
Definition escape : DeleteObjectInput :=
  {| DeleteObjectInput_bucket := str "photos"; DeleteObjectInput_bypass_governance_retention := None;
     DeleteObjectInput_expected_bucket_owner := None; DeleteObjectInput_if_match := None;
     DeleteObjectInput_if_match_last_modified_time := None; DeleteObjectInput_if_match_size := None;
     DeleteObjectInput_key := str "../../etc/passwd"; DeleteObjectInput_mfa := None; DeleteObjectInput_request_payer := None;
     DeleteObjectInput_version_id := None |}.
Definition start_dog : CreateMultipartUploadInput :=
  {| CreateMultipartUploadInput_acl := None; CreateMultipartUploadInput_bucket := str "photos";
     CreateMultipartUploadInput_bucket_key_enabled := None; CreateMultipartUploadInput_cache_control := None;
     CreateMultipartUploadInput_checksum_algorithm := None; CreateMultipartUploadInput_checksum_type := None;
     CreateMultipartUploadInput_content_disposition := None; CreateMultipartUploadInput_content_encoding := None;
     CreateMultipartUploadInput_content_language := None; CreateMultipartUploadInput_content_type := None;
     CreateMultipartUploadInput_expected_bucket_owner := None; CreateMultipartUploadInput_expires := None;
     CreateMultipartUploadInput_grant_full_control := None; CreateMultipartUploadInput_grant_read := None;
     CreateMultipartUploadInput_grant_read_acp := None; CreateMultipartUploadInput_grant_write_acp := None;
     CreateMultipartUploadInput_key := str "dog.png"; CreateMultipartUploadInput_metadata := None;
     CreateMultipartUploadInput_object_lock_legal_hold_status := None; CreateMultipartUploadInput_object_lock_mode := None;
     CreateMultipartUploadInput_object_lock_retain_until_date := None; CreateMultipartUploadInput_request_payer := None;
     CreateMultipartUploadInput_sse_customer_algorithm := None; CreateMultipartUploadInput_sse_customer_key := None;
     CreateMultipartUploadInput_sse_customer_key_md5 := None; CreateMultipartUploadInput_ssekms_encryption_context := None;
     CreateMultipartUploadInput_ssekms_key_id := None; CreateMultipartUploadInput_server_side_encryption := None;
     CreateMultipartUploadInput_storage_class := None; CreateMultipartUploadInput_tagging := None;
     CreateMultipartUploadInput_website_redirect_location := None |}.
Definition part_dog : UploadPartInput :=
  {| UploadPartInput_body := Some (from_bytes (str "woof")); UploadPartInput_bucket := str "photos";
     UploadPartInput_checksum_algorithm := None; UploadPartInput_checksum_crc32 := None; UploadPartInput_checksum_crc32c := None;
     UploadPartInput_checksum_crc64nvme := None; UploadPartInput_checksum_md5 := None; UploadPartInput_checksum_sha1 := None;
     UploadPartInput_checksum_sha256 := None; UploadPartInput_checksum_sha512 := None; UploadPartInput_checksum_xxhash128 := None;
     UploadPartInput_checksum_xxhash3 := None; UploadPartInput_checksum_xxhash64 := None; UploadPartInput_content_length := None;
     UploadPartInput_content_md5 := None; UploadPartInput_expected_bucket_owner := None; UploadPartInput_key := str "dog.png";
     UploadPartInput_part_number := 1%Z; UploadPartInput_request_payer := None; UploadPartInput_sse_customer_algorithm := None;
     UploadPartInput_sse_customer_key := None; UploadPartInput_sse_customer_key_md5 := None;
     UploadPartInput_upload_id := uuid_to_string (new_v4 0) |}.
Definition one_part : CompletedPart :=
  {| CompletedPart_checksum_crc32 := None; CompletedPart_checksum_crc32c := None; CompletedPart_checksum_crc64nvme := None;
     CompletedPart_checksum_md5 := None; CompletedPart_checksum_sha1 := None; CompletedPart_checksum_sha256 := None;
     CompletedPart_checksum_sha512 := None; CompletedPart_checksum_xxhash128 := None; CompletedPart_checksum_xxhash3 := None;
     CompletedPart_checksum_xxhash64 := None; CompletedPart_e_tag := None; CompletedPart_part_number := Some 1%Z |}.
Definition complete_dog : CompleteMultipartUploadInput :=
  {| CompleteMultipartUploadInput_bucket := str "photos"; CompleteMultipartUploadInput_checksum_crc32 := None;
     CompleteMultipartUploadInput_checksum_crc32c := None; CompleteMultipartUploadInput_checksum_crc64nvme := None;
     CompleteMultipartUploadInput_checksum_md5 := None; CompleteMultipartUploadInput_checksum_sha1 := None;
     CompleteMultipartUploadInput_checksum_sha256 := None; CompleteMultipartUploadInput_checksum_sha512 := None;
     CompleteMultipartUploadInput_checksum_type := None; CompleteMultipartUploadInput_checksum_xxhash128 := None;
     CompleteMultipartUploadInput_checksum_xxhash3 := None; CompleteMultipartUploadInput_checksum_xxhash64 := None;
     CompleteMultipartUploadInput_expected_bucket_owner := None; CompleteMultipartUploadInput_if_match := None;
     CompleteMultipartUploadInput_if_none_match := None; CompleteMultipartUploadInput_key := str "dog.png";
     CompleteMultipartUploadInput_mpu_object_size := None;
     CompleteMultipartUploadInput_multipart_upload := Some {| CompletedMultipartUpload_parts := Some [one_part] |};
     CompleteMultipartUploadInput_request_payer := None; CompleteMultipartUploadInput_sse_customer_algorithm := None;
     CompleteMultipartUploadInput_sse_customer_key := None; CompleteMultipartUploadInput_sse_customer_key_md5 := None;
     CompleteMultipartUploadInput_upload_id := uuid_to_string (new_v4 0) |}.
Definition get_middle : GetObjectInput :=
  {| GetObjectInput_bucket := str "photos"; GetObjectInput_checksum_mode := None; GetObjectInput_expected_bucket_owner := None;
     GetObjectInput_if_match := None; GetObjectInput_if_modified_since := None; GetObjectInput_if_none_match := None;
     GetObjectInput_if_unmodified_since := None; GetObjectInput_key := str "a/cat.png"; GetObjectInput_part_number := None;
     GetObjectInput_range := Some (Int 1 (Some 2%Z)); GetObjectInput_request_payer := None; GetObjectInput_response_cache_control := None;
     GetObjectInput_response_content_disposition := None; GetObjectInput_response_content_encoding := None;
     GetObjectInput_response_content_language := None; GetObjectInput_response_content_type := None; GetObjectInput_response_expires := None;
     GetObjectInput_sse_customer_algorithm := None; GetObjectInput_sse_customer_key := None; GetObjectInput_sse_customer_key_md5 := None;
     GetObjectInput_version_id := None |}.

(** ** Stores *)

Definition after {A} (m : ST World A) (w : World) : World := match m w with Some (w', _) => w' | None => w end.

Definition alice : Request.Credentials := {| cred_access_key := str "alice"; cred_secret_key := str "secret" |}.

Definition w_bucket : World := after (create_bucket w_root create_photos) w_empty.
Definition w_cat : World := after (put_object w_root put_cat None) w_bucket.
Definition w_two : World := after (put_object w_root put_bird None) w_cat.
Definition w_upload : World := after (upload_part w_root (Some alice) part_dog None) (after (create_multipart_upload w_root (Some alice) start_dog) w_bucket).
Definition w_dog : World := after (complete_multipart_upload w_root (Some alice) complete_dog) w_upload.

(** What a request that succeeds or is refused returns. *)
Definition succeeds {A} (m : ST World A) (w : World) : bool := match m w with Some (_, Ok _) => true | _ => false end.
Definition refused {A} (m : ST World A) (w : World) : option S3ErrorCode := match m w with Some (_, Err e) => Some e | _ => None end.

Lemma succeeds_after {A} (m : ST World A) w : succeeds m w = true -> exists a, m w = Some (after m w, Ok a).
Proof. unfold succeeds, after. destruct (m w) as [[w' [a|e]]|]; [by exists a|done..]. Qed.
Lemma refused_after {A} (m : ST World A) w e : refused m w = Some e -> m w = Some (after m w, Err e).
Proof. unfold refused, after. destruct (m w) as [[w' [a|e']]|]; [done|by intros [= ->]|done]. Qed.
