(* ===== verification/FsFrame.v ===== *)
(** * The file-system back end stays within its root (crates/s3s-fs/src)

    [shape] is the shape of the store: a tree of well-named entries whose root has a parent.
    [confined] says that a run keeps the shape and changes nothing outside the root; [within] lifts
    it to handlers with a condition on their result, and the database [confine] has its rules. *)

From stdpp Require Import gmap.
From S2P Require Import Prelude.
From S2P Require Import Str.
From S2P Require Import ErrorCode.
From S2P Require Import Handler.
From S2P Require Import Authorization.
From S2P Require Import SigV2.
From S2P Require Import SignatureCheck.
From S2P Require Import Body.
From S2P Require Import Blob.
From S2P Require Import Request.
From S2P Require Import ETag.
From S2P Require Import Timestamp.
From S2P Require Import XmlDtoC.
From S2P Require Import HttpDe.
From S2P Require Import OpsTypes.
From S2P Require Import FsTree.
From S2P Require Import Checksums.
From S2P Require Import FsList.
From S2P Require Import FsStore.
From S2P Require Import FsObjects.
From S2P Require Import FsUploads.
From S2P Require Import FsReference.
From S2P Require Import FsSamples.

(** ** Steps on the tree *)

Section TreeSteps.
Context (root : AbsPath) (Hroot : root <> []).
Implicit Types (fs : Files) (p q d : AbsPath).

Definition in_root (p : AbsPath) : Prop := above root p = true /\ Forall (fun x => name_ok x = true) p.

(** The shape of the files of a store. *)
Definition shape fs : Prop := tree_ok fs /\ names_ok fs /\ is_dir fs (removelast root) = true.

(** The step keeps the shape and what is outside the root. *)
Definition inside fs fs' : Prop := shape fs -> shape fs' /\ forall p, above root p = false -> fs' !! p = fs !! p.

Lemma inside_refl fs : inside fs fs.
Proof. by intros Hs. Qed.
Lemma inside_trans fs1 fs2 fs3 : inside fs1 fs2 -> inside fs2 fs3 -> inside fs1 fs3.
Proof. intros H1 H2 Hs. destruct (H1 Hs) as [Hs2 E1]. destruct (H2 Hs2) as [Hs3 E2]. split; [done|]. intros p Hp. by rewrite E2, E1. Qed.

Lemma root_snoc : exists d x, root = d ++ [x] /\ removelast root = d.
Proof. destruct (path_cases root) as [->|(d & x & ->)]; [done|]. exists d, x. by rewrite removelast_last. Qed.

Lemma above_refl p : above p p = true.
Proof. apply above_iff. exists []. by rewrite app_nil_r. Qed.
Lemma above_app p q r : above p q = true -> above p (q ++ r) = true.
Proof. intros [s ->]%above_iff. apply above_iff. exists (s ++ r). by rewrite <- app_assoc. Qed.
Lemma above_nonempty p : above root p = true -> p <> [].
Proof. intros [r ->]%above_iff. by destruct root. Qed.

Lemma parent_outside : above root (removelast root) = false.
Proof.
  destruct root_snoc as (d & x & E & ->). apply not_true_iff_false. intros [r Er]%above_iff.
  apply (f_equal length) in Er. rewrite E, !length_app in Er. simpl in Er. lia.
Qed.

Lemma tree_above fs p q : tree_ok fs -> q <> [] -> is_Some (fs !! (p ++ q)) -> is_dir fs p = true.
Proof.
  intros Ht. induction q as [|x q IH] using rev_ind; intros Hne Hs; [done|]. rewrite app_assoc in Hs.
  apply (proj2 Ht) in Hs. destruct q as [|y q]; [by rewrite app_nil_r in Hs|]. apply IH; [done|].
  unfold is_dir in Hs. by destruct (fs !! (p ++ y :: q)).
Qed.

(** A place outside the root that leads to it is a directory. *)
Lemma dir_before fs p q : shape fs -> above root (p ++ q) = true -> above root p = false -> is_dir fs p = true.
Proof.
  intros (Ht & _ & Hd) Ha Hp. apply above_iff in Ha as [r E]. apply app_eq_inv in E as [(k & E1 & E2)|(k & E1 & E2)].
  - rewrite (proj2 (above_iff root p)) in Hp by eauto. done.
  - destruct (path_cases k) as [->|(k' & x & ->)]; [rewrite app_nil_r in E1; by rewrite <- E1, above_refl in Hp|].
    rewrite E1, app_assoc, removelast_last in Hd. destruct k' as [|y k']; [by rewrite app_nil_r in Hd|].
    eapply (tree_above fs p (y :: k')); [done|done|]. unfold is_dir in Hd. by destruct (fs !! (p ++ y :: k')).
Qed.

(** Adding or changing an entry in a directory, at a place that is in the root. *)
Lemma inside_insert fs d x n : in_root (d ++ [x]) -> is_dir fs d = true ->
  is_file fs (d ++ [x]) = true \/ fs !! (d ++ [x]) = None -> inside fs (<[d ++ [x] := n]> fs).
Proof.
  intros [Ha Hn] Hd Hk (Ht & Hnames & Hp). split; [split; [|split]|].
  - apply tree_insert; [done..|]. tauto.
  - intros p Hs. destruct (decide (p = d ++ [x])) as [->|Hne]; [done|]. rewrite lookup_insert_ne in Hs by done. by apply Hnames.
  - unfold is_dir in *. rewrite lookup_insert_ne; [done|]. intros E. by rewrite E, parent_outside in Ha.
  - intros p Hout. rewrite lookup_insert_ne; [done|]. intros E. by rewrite E, Hout in Ha.
Qed.

Lemma inside_delete fs p : in_root p -> (forall x, fs !! (p ++ [x]) = None) -> inside fs (delete p fs).
Proof.
  intros [Ha Hn] Hc (Ht & Hnames & Hp). split; [split; [|split]|].
  - apply tree_delete; [done|by apply above_nonempty|done].
  - intros q [n Hs]. apply Hnames. apply lookup_delete_Some in Hs as [_ Hs]. by exists n.
  - unfold is_dir in *. rewrite lookup_delete_ne; [done|]. intros E. by rewrite E, parent_outside in Ha.
  - intros q Hout. rewrite lookup_delete_ne; [done|]. intros E. by rewrite E, Hout in Ha.
Qed.

Lemma inside_write fs fs' t p data : in_root p -> write_file t p data fs = Ok fs' -> inside fs fs'.
Proof.
  intros Hp E Hs. unfold write_file in E. destruct (path_cases p) as [->|(d & x & ->)]; [by destruct (above_nonempty [] (proj1 Hp))|].
  assert (Hd : forall n, fs' = <[d ++ [x] := n]> fs -> is_dir fs d = true -> is_file fs (d ++ [x]) = true \/ fs !! (d ++ [x]) = None -> shape fs' /\ _)
    by (intros n -> Hd Hk; exact (inside_insert fs d x n Hp Hd Hk Hs)).
  unfold is_file in Hd. destruct (fs !! (d ++ [x])) as [[data' t'|t']|] eqn:El; [|done|].
  - injection E as <-. eapply Hd; [done| |by left]. apply (proj2 (proj1 Hs)) with x. by exists (FileNode data' t').
  - destruct (vacant fs (d ++ [x])) as [u|] eqn:Ev; [|done]. injection E as <-.
    apply vacant_ok in Ev as (d' & x' & [-> ->]%app_inj_tail & Hv). eapply Hd; [done|done|by right].
Qed.

Lemma inside_create_dir fs fs' t p : in_root p -> create_dir t p fs = Ok fs' -> inside fs fs'.
Proof.
  intros Hp E. unfold create_dir in E. destruct (fs !! p) eqn:El; [done|]. destruct (vacant fs p) as [u|] eqn:Ev; [|done]. injection E as <-.
  apply vacant_ok in Ev as (d & x & -> & Hd). apply inside_insert; [done..|by right].
Qed.

Lemma inside_create_dirs t names : forall d fs fs', in_root (d ++ names) -> is_dir fs d = true ->
  create_dirs t d names fs = Ok fs' -> inside fs fs' /\ is_dir fs' (d ++ names) = true.
Proof.
  induction names as [|x names IH]; intros d fs fs' Hp Hd E; [injection E as <-; split; [apply inside_refl|by rewrite app_nil_r]|].
  replace (d ++ x :: names) with ((d ++ [x]) ++ names) in * by by rewrite <- app_assoc.
  cbn [create_dirs] in E. destruct (fs !! (d ++ [x])) as [[|t']|] eqn:El; [done| |].
  - apply (IH (d ++ [x])); [done| |done]. unfold is_dir. by rewrite El.
  - assert (Hd' : is_dir (<[d ++ [x] := DirNode t]> fs) (d ++ [x]) = true) by (unfold is_dir; by rewrite lookup_insert_eq).
    destruct (IH (d ++ [x]) _ _ Hp Hd' E) as [Hin Hend]. split; [|done]. intros Hs.
    destruct (above root (d ++ [x])) eqn:Ha.
    + refine (inside_trans _ _ _ (inside_insert fs d x (DirNode t) _ Hd (or_intror El)) Hin Hs). split; [done|].
      destruct Hp as [_ Hn]. by apply Forall_app in Hn as [Hn _].
    + pose proof (dir_before fs (d ++ [x]) names Hs (proj1 Hp) Ha) as Hdir. unfold is_dir in Hdir. by rewrite El in Hdir.
Qed.

Lemma inside_create_dir_all fs fs' t p : in_root p -> create_dir_all t p fs = Ok fs' -> inside fs fs'.
Proof. intros Hp E Hs. by apply (inside_create_dirs t p [] fs fs' Hp (proj1 (proj1 Hs)) E). Qed.

Lemma inside_touch fs fs' t p : in_root p -> touch_file t p fs = Ok fs' -> inside fs fs'.
Proof.
  intros Hp E. unfold touch_file, read_file in E. destruct (stat fs p) as [[data t'|t']|] eqn:Es; [|done|done]. apply stat_ok in Es.
  apply (inside_write fs fs' t p data Hp). unfold write_file. by rewrite Es.
Qed.

Lemma inside_copy fs fs' t p q : in_root q -> copy_file t p q fs = Ok fs' -> inside fs fs'.
Proof. intros Hq E. unfold copy_file in E. destruct (read_file fs p); [|done]. by eapply inside_write. Qed.

Lemma inside_remove fs fs' p : in_root p -> remove_file p fs = Ok fs' -> inside fs fs'.
Proof.
  intros Hp E Hs. unfold remove_file in E. destruct (stat fs p) as [[data t|t]|] eqn:Es; [|done|done]. injection E as <-. apply stat_ok in Es.
  refine (inside_delete fs p Hp _ Hs). apply file_no_children; [apply Hs|]. unfold is_file. by rewrite Es.
Qed.

Lemma inside_remove_dir fs fs' p : in_root p -> remove_dir p fs = Ok fs' -> inside fs fs'.
Proof.
  intros Hp E. unfold remove_dir in E. destruct (stat fs p) as [[data t|t]|] eqn:Es; [done| |done].
  destruct (entries fs p) as [|y l] eqn:Ee; [|done]. injection E as <-. apply inside_delete; [done|]. intros x.
  apply eq_None_not_Some. intros Hx. apply entries_spec in Hx. rewrite Ee in Hx. by apply elem_of_nil in Hx.
Qed.

Lemma inside_remove_dir_all fs fs' p : in_root p -> remove_dir_all p fs = Ok fs' -> inside fs fs'.
Proof.
  intros [Ha Hn] E (Ht & Hnames & Hp). unfold remove_dir_all in E. destruct (stat fs p) as [[data t|t]|] eqn:Es; [done| |done]. injection E as <-.
  assert (Hl : forall q, filter (fun kv : AbsPath * Node => above p kv.1 = false) fs !! q = if above p q then None else fs !! q).
  { intros q. destruct (above p q) eqn:Eq.
    - apply map_lookup_filter_None. right. intros n _. simpl. by rewrite Eq.
    - destruct (fs !! q) as [n|] eqn:El; [by apply map_lookup_filter_Some|]. apply map_lookup_filter_None. by left. }
  assert (Hup : forall q r, above p q = true -> above p (q ++ r) = true) by (intros q r [s ->]%above_iff; apply above_iff; exists (s ++ r); by rewrite <- app_assoc).
  assert (Hout : forall q, above root q = false -> above p q = false).
  { intros q Hq. destruct (above p q) eqn:Eq; [|done]. apply above_iff in Eq as [r ->]. by rewrite (above_app root p r Ha) in Hq. }
  split; [split; [|split]|].
  - split.
    + unfold is_dir. rewrite Hl, Hout; [apply Ht|]. apply not_true_iff_false. intros Hr. by destruct (above_nonempty [] Hr).
    + intros d x. rewrite Hl. destruct (above p (d ++ [x])) eqn:Ed; [by intros []|]. intros Hs. apply (proj2 Ht) in Hs. unfold is_dir in *. rewrite Hl.
      destruct (above p d) eqn:Epd; [by rewrite (Hup d [x] Epd) in Ed|done].
  - intros q. rewrite Hl. destruct (above p q); [by intros []|]. apply Hnames.
  - unfold is_dir in *. rewrite Hl, Hout; [done|]. apply parent_outside.
  - intros q Hq. by rewrite Hl, (Hout q Hq).
Qed.

Lemma inside_rename fs fs' p q : in_root p -> in_root q -> rename_file p q fs = Ok fs' -> inside fs fs'.
Proof.
  intros Hp Hq E Hs. unfold rename_file in E. destruct (stat fs p) as [[data t|t]|] eqn:Ep; [|done|done]. apply stat_ok in Ep.
  cbn [mbind result_bind] in E.
  assert (Hdel : inside fs (delete p fs)).
  { apply inside_delete; [done|]. apply file_no_children; [apply Hs|]. unfold is_file. by rewrite Ep. }
  destruct (path_cases q) as [->|(d & x & ->)]; [by destruct (above_nonempty [] (proj1 Hq))|].
  assert (Hgo : is_dir fs d = true -> is_file fs (d ++ [x]) = true \/ fs !! (d ++ [x]) = None -> inside fs (<[d ++ [x] := FileNode data t]> (delete p fs))).
  { intros Hd Hk. refine (inside_trans _ _ _ Hdel (inside_insert _ d x _ Hq _ _)).
    - unfold is_dir in *. rewrite lookup_delete_ne; [done|]. intros <-. by rewrite Ep in Hd.
    - unfold is_file in *. destruct (decide (p = d ++ [x])) as [->|Hne]; [right; apply lookup_delete_eq|]. by rewrite lookup_delete_ne. }
  unfold is_file in Hgo. destruct (fs !! (d ++ [x])) as [[data' t'|t']|] eqn:El; [|done|].
  - injection E as <-. refine (Hgo _ (or_introl eq_refl) Hs). apply (proj2 (proj1 Hs)) with x. by exists (FileNode data' t').
  - destruct (vacant fs (d ++ [x])) as [u|] eqn:Ev; [|done]. injection E as <-.
    apply vacant_ok in Ev as (d' & x' & [-> ->]%app_inj_tail & Hv). exact (Hgo Hv (or_intror eq_refl) Hs).
Qed.
End TreeSteps.

(** ** Handlers within the root *)

Create HintDb confine.

Section Within.
Context `{FsDeps} (root : AbsPath) (Hroot : root <> []) (Hnames : Forall (fun x => name_ok x = true) root).
Abbreviation FS := (ST World).

(** A run of the handler keeps the shape and what is outside the root, and its result satisfies [P]. *)
Definition within {A} (P : A -> Prop) (m : FS A) : Prop := forall w w' r, m w = Some (w', r) ->
  inside root (files w) (files w') /\ match r with Ok a => P a | Err _ => True end.

Lemma within_weaken {A} (P Q : A -> Prop) (m : FS A) : within P m -> (forall a, P a -> Q a) -> within Q m.
Proof. intros Hm HPQ w w' r E. destruct (Hm w w' r E) as [Hi HP]. split; [done|]. destruct r; [by apply HPQ|done]. Qed.

Lemma within_bind {A B} (P : A -> Prop) (Q : B -> Prop) (m : FS A) (k : A -> FS B) :
  within P m -> (forall a, P a -> within Q (k a)) -> within Q (m ≫= k).
Proof.
  intros Hm Hk w w' r E. unfold mbind, ST_bind in E. destruct (m w) as [[w1 [a|e]]|] eqn:Em; [| |done].
  - destruct (Hm _ _ _ Em) as [H1 HP]. destruct (Hk a HP _ _ _ E) as [H2 HQ]. split; [by eapply inside_trans|done].
  - injection E as <- <-. destruct (Hm _ _ _ Em) as [H1 _]. done.
Qed.

Lemma within_pure {A} (P : A -> Prop) (r : result S3ErrorCode A) : (forall a, r = Ok a -> P a) -> within P (lift r).
Proof. intros HP w w' r' [= <- <-]. split; [apply inside_refl|]. destruct r; [by apply HP|done]. Qed.
Lemma within_ret {A} (P : A -> Prop) (a : A) : P a -> within P (mret a).
Proof. intros HP w w' r [= <- <-]. split; [apply inside_refl|done]. Qed.
Lemma within_panic {A} (o : option A) : within (fun _ => True) (panic_none o).
Proof. intros w w' r E. unfold panic_none in E. destruct o; [|done]. injection E as <- <-. split; [apply inside_refl|done]. Qed.
Lemma within_lift {A} (r : result S3ErrorCode A) : within (fun _ => True) (lift r).
Proof. by apply within_pure. Qed.
Lemma within_fail b e : within (fun _ => True) (fail_if b e : FS unit).
Proof. by apply within_pure. Qed.
Lemma within_get : within (fun _ => True) (get : FS World).
Proof. intros w w' r [= <- <-]. split; [apply inside_refl|done]. Qed.
Lemma within_any {A} (P : A -> Prop) (m : FS A) : within P m -> within (fun _ => True) m.
Proof. intros Hm. by eapply within_weaken. Qed.

Lemma within_io_ {A} (step : Files -> result IoError A) : within (fun _ => True) (io_ step).
Proof. intros w w' r [= <- <-]. split; [apply inside_refl|]. by destruct (try_ _). Qed.
Lemma within_io step : (forall fs fs', step fs = Ok fs' -> inside root fs fs') -> within (fun _ => True) (io step).
Proof.
  intros Hs w w' r E. unfold io in E. destruct (step (files w)) eqn:Es; injection E as <- <-; (split; [|done]); [by apply Hs|apply inside_refl].
Qed.
Lemma within_now : within (fun _ => True) now.
Proof. intros w w' r [= <- <-]. split; [apply inside_refl|done]. Qed.
Lemma within_io_now step : (forall t fs fs', step t fs = Ok fs' -> inside root fs fs') -> within (fun _ => True) (io_now step).
Proof. intros Hs. eapply within_bind; [apply within_now|]. intros t _. apply within_io, Hs. Qed.
Lemma within_exists p : within (fun _ => True) (exists_ p).
Proof. eapply within_bind; [apply within_get|]. intros. by apply within_ret. Qed.
Lemma within_draw : within (fun _ => True) draw_uuid.
Proof. intros w w' r [= <- <-]. split; [apply inside_refl|done]. Qed.
Lemma within_next_tmp : within (fun _ => True) next_tmp.
Proof. intros w w' r [= <- <-]. split; [apply inside_refl|done]. Qed.

Lemma within_resolve path : within (in_root root) (resolve_abs_path root path).
Proof.
  apply within_pure. intros p E. unfold try_ in E. destruct (absolutize_virtually path root) as [q|] eqn:Ea; [|done]. injection E as <-.
  split; [by eapply absolutize_under|by eapply absolutize_names].
Qed.

Lemma within_remove p : in_root root p -> within (fun _ => True) (remove_file_if_exists p).
Proof.
  intros Hp w w' r E. unfold remove_file_if_exists in E. destruct (remove_file p (files w)) as [fs|e] eqn:Er.
  - injection E as <- <-. split; [by eapply inside_remove|done].
  - destruct e; injection E as <- <-; (split; [apply inside_refl|done]).
Qed.

Lemma within_drop {A} (P : A -> Prop) p (m : FS A) : in_root root p -> within P m -> within P (drop_writer p m).
Proof.
  intros Hp Hm w w' r E. unfold drop_writer in E. destruct (m w) as [[w1 [a|e]]|] eqn:Em; [| |done].
  - injection E as <- <-. by apply (Hm _ _ _ Em).
  - injection E as <- <-. destruct (Hm _ _ _ Em) as [Hi _]. split; [|done]. eapply inside_trans; [exact Hi|].
    destruct (remove_file p (files w1)) eqn:Er; [by eapply inside_remove|apply inside_refl].
Qed.

Lemma within_failed {A} (P : A -> Prop) (m : FS A) : within P m -> within (fun _ => True) (failed m).
Proof.
  intros Hm w w' r E. unfold failed in E. destruct (m w) as [[w1 [a|e]]|] eqn:Em; [| |done];
    injection E as <- <-; destruct (Hm _ _ _ Em) as [Hi _]; done.
Qed.

Lemma in_root_parent p d : in_root root p -> parent p = Some d -> above root d = true \/ d = removelast root.
Proof.
  intros [Ha _] E. destruct (path_cases p) as [->|(d' & x & ->)]; [done|]. rewrite parent_snoc in E. injection E as ->.
  apply above_iff in Ha as [r E]. destruct (path_cases r) as [->|(r' & y & ->)].
  - right. rewrite app_nil_r in E. rewrite <- E. by rewrite removelast_last.
  - left. rewrite app_assoc in E. apply app_inj_tail in E as [-> _]. apply above_iff. eauto.
Qed.

(** The directory of a place in the root: it is in the root or there already. *)
Lemma inside_create_parent p d t fs fs' : in_root root p -> parent p = Some d -> create_dir_all t d fs = Ok fs' -> inside root fs fs'.
Proof.
  intros Hp Ed E. destruct (in_root_parent p d Hp Ed) as [Ha| ->].
  - apply (inside_create_dir_all root Hroot fs fs' t d); [|done]. split; [done|]. destruct Hp as [_ Hn].
    destruct (path_cases p) as [->|(d' & x & ->)]; [done|]. rewrite parent_snoc in Ed. injection Ed as ->. by apply Forall_app in Hn as [Hn _].
  - intros Hs. replace fs' with fs; [by apply inside_refl|]. destruct Hs as (Ht & _ & Hd). unfold create_dir_all in E.
    assert (Hgo : forall names d, is_dir fs (d ++ names) = true -> create_dirs t d names fs = Ok fs); [|by rewrite (Hgo (removelast root) []) in E; [injection E|]].
    clear -Ht. induction names as [|x names IH]; intros d Hd; [done|]. cbn [create_dirs].
    replace (d ++ x :: names) with ((d ++ [x]) ++ names) in Hd by by rewrite <- app_assoc.
    assert (Hdir : is_dir fs (d ++ [x]) = true).
    { destruct names as [|y names]; [by rewrite app_nil_r in Hd|]. apply (tree_above fs (d ++ [x]) (y :: names) Ht); [done|]. unfold is_dir in Hd. by destruct (fs !! ((d ++ [x]) ++ y :: names)). }
    pose proof (IH (d ++ [x]) Hd) as Hc. unfold is_dir in Hdir. by destruct (fs !! (d ++ [x])) as [[]|].
Qed.

(** ** The rules for each step *)

Hint Resolve within_panic within_lift within_fail within_get within_io_ within_now within_exists within_draw within_next_tmp within_resolve
  within_remove : confine.

(** Goes through a handler step by step; [eauto] finds the rule of a step, and what is left are conditions on the tree. *)
Ltac stay :=
  repeat match goal with
  | |- within _ (mbind _ _) => eapply within_bind; [first [solve [eauto with confine] | apply (within_any (fun _ => True)); stay]|intros ? ?]
  | |- within _ (mret _) => by apply within_ret
  | |- within _ (match ?x with _ => _ end) => destruct x
  | |- within _ (let _ := _ in _) => cbv zeta
  end; try solve [eauto with confine].

Lemma within_get_object_path b k : within (in_root root) (get_object_path root b k).
Proof. apply within_resolve. Qed.
Lemma within_get_bucket_path b : within (in_root root) (get_bucket_path root b).
Proof. apply within_resolve. Qed.
Lemma within_get_metadata_path b k u : within (in_root root) (get_metadata_path root b k u).
Proof. apply within_resolve. Qed.
Lemma within_get_internal_info_path b k : within (in_root root) (get_internal_info_path root b k).
Proof. apply within_resolve. Qed.
Lemma within_part_path u n : within (in_root root) (resolve_upload_part_path root u n).
Proof. apply within_resolve. Qed.
Lemma within_part_info_path u n : within (in_root root) (get_upload_part_info_path root u n).
Proof. apply within_resolve. Qed.
Lemma within_upload_info_path u : within (in_root root) (get_upload_info_path root u).
Proof. apply within_resolve. Qed.
Hint Resolve within_get_object_path within_get_bucket_path within_get_metadata_path within_get_internal_info_path within_part_path
  within_part_info_path within_upload_info_path : confine.

Lemma within_create_dir p : in_root root p -> within (fun _ => True) (io_now (fun t => create_dir t p)).
Proof. intros Hp. apply within_io_now. intros t fs fs'. by apply inside_create_dir. Qed.
Lemma within_create_dir_all p : in_root root p -> within (fun _ => True) (io_now (fun t => create_dir_all t p)).
Proof. intros Hp. apply within_io_now. intros t fs fs'. by apply inside_create_dir_all. Qed.
Lemma within_create_parent p d : in_root root p -> parent p = Some d -> within (fun _ => True) (io_now (fun t => create_dir_all t d)).
Proof. intros Hp Hd. apply within_io_now. intros t fs fs'. by apply (inside_create_parent p). Qed.
Lemma within_write p data : in_root root p -> within (fun _ => True) (io_now (fun t => write_file t p data)).
Proof. intros Hp. apply within_io_now. intros t fs fs'. by apply inside_write. Qed.
Lemma within_copy p q : in_root root q -> within (fun _ => True) (io_now (fun t => copy_file t p q)).
Proof. intros Hp. apply within_io_now. intros t fs fs'. by apply inside_copy. Qed.
Lemma within_touch t p : in_root root p -> within (fun _ => True) (io (touch_file t p)).
Proof. intros Hp. apply within_io. intros fs fs'. by apply inside_touch. Qed.
Lemma within_rename p q : in_root root p -> in_root root q -> within (fun _ => True) (io (rename_file p q)).
Proof. intros Hp Hq. apply within_io. intros fs fs'. by apply inside_rename. Qed.
Lemma within_remove_file p : in_root root p -> within (fun _ => True) (io (remove_file p)).
Proof. intros Hp. apply within_io. intros fs fs'. by apply inside_remove. Qed.
Lemma within_remove_dir p : in_root root p -> within (fun _ => True) (io (remove_dir p)).
Proof. intros Hp. apply within_io. intros fs fs'. by apply inside_remove_dir. Qed.
Lemma within_remove_dir_all p : in_root root p -> within (fun _ => True) (io (remove_dir_all p)).
Proof. intros Hp. apply within_io. intros fs fs'. by apply inside_remove_dir_all. Qed.
Lemma within_write_all data p : in_root root p -> within (fun _ => True) (write_all data p).
Proof. apply within_write. Qed.
Hint Resolve within_create_dir within_create_dir_all within_create_parent within_write within_copy within_touch within_rename within_remove_file
  within_remove_dir within_remove_dir_all within_write_all : confine.

(** ** The store *)

Lemma within_done p q : in_root root p -> in_root root q -> within (fun _ => True) (file_writer_done p q).
Proof. intros Hp Hq. unfold file_writer_done. destruct (parent q) eqn:E; stay. Qed.
Hint Resolve within_done : confine.

Lemma within_file_writer {A} q (write : AbsPath -> FS A) : in_root root q -> (forall p, in_root root p -> within (fun _ => True) (write p)) ->
  within (fun _ => True) (with_file_writer root q write).
Proof.
  intros Hq Hw. unfold with_file_writer. eapply within_bind; [apply within_next_tmp|]. intros n _.
  eapply within_bind; [apply within_resolve|]. intros p Hp. eapply within_bind; [by apply within_write|]. intros _ _.
  apply within_drop; [done|]. eapply within_bind; [by apply Hw|]. intros a _. stay.
Qed.
Lemma within_copy_bytes body p : in_root root p -> within (fun _ => True) (copy_bytes body p).
Proof. intros Hp. unfold copy_bytes. stay. Qed.
Lemma within_load_json {A} path (parse : bytes -> result S3ErrorCode (option A)) : within (in_root root) path -> within (fun _ => True) (load_json path parse).
Proof. intros Hp. unfold load_json. stay. Qed.
Lemma within_save_json path content : within (in_root root) path -> within (fun _ => True) (save_json root path content).
Proof.
  intros Hp. unfold save_json. eapply within_bind; [exact Hp|]. intros p Hp'. eapply within_bind; [apply within_lift|]. intros c _.
  apply within_file_writer; [done|]. intros q Hq. by apply within_write_all.
Qed.
Hint Resolve within_file_writer within_copy_bytes within_load_json within_save_json : confine.

Lemma within_load_attrs b k u : within (fun _ => True) (load_object_attributes root b k u).
Proof. unfold load_object_attributes. eauto with confine. Qed.
Lemma within_save_attrs b k a u : within (fun _ => True) (save_object_attributes root b k a u).
Proof. unfold save_object_attributes. eauto with confine. Qed.
Lemma within_delete_metadata b k u : within (fun _ => True) (delete_metadata root b k u).
Proof. unfold delete_metadata. stay. Qed.
Lemma within_load_info b k : within (fun _ => True) (load_internal_info root b k).
Proof. unfold load_internal_info. eauto with confine. Qed.
Lemma within_save_info b k i : within (fun _ => True) (save_internal_info root b k i).
Proof. unfold save_internal_info. eauto with confine. Qed.
Lemma within_load_part_info u n : within (fun _ => True) (load_upload_part_info root u n).
Proof. unfold load_upload_part_info. eauto with confine. Qed.
Lemma within_save_part_info u n i : within (fun _ => True) (save_upload_part_info root u n i).
Proof. unfold save_upload_part_info. eauto with confine. Qed.
Lemma within_delete_part_info u n : within (fun _ => True) (delete_upload_part_info root u n).
Proof. unfold delete_upload_part_info. stay. Qed.
Lemma within_md5 b k : within (fun _ => True) (get_md5_sum root b k).
Proof. unfold get_md5_sum. stay. Qed.
Lemma within_create_upload c : within (fun _ => True) (create_upload_id root c).
Proof. unfold create_upload_id. stay. Qed.
Lemma within_verify c u : within (fun _ => True) (verify_upload_id root c u).
Proof. unfold verify_upload_id. stay. Qed.
Lemma within_delete_upload u : within (fun _ => True) (delete_upload_id root u).
Proof. unfold delete_upload_id. stay. Qed.
Hint Resolve within_load_attrs within_save_attrs within_delete_metadata within_load_info within_save_info within_load_part_info within_save_part_info
  within_delete_part_info within_md5 within_create_upload within_verify within_delete_upload : confine.

(** An entry of the root that is there has a name. *)
Lemma inside_remove_entry fs fs' name : remove_file (root ++ [name]) fs = Ok fs' -> inside root fs fs'.
Proof.
  intros E Hs. refine (inside_remove root Hroot fs fs' _ _ E Hs). split; [apply above_iff; eauto|]. apply Hs.
  unfold remove_file in E. destruct (stat fs (root ++ [name])) as [n|] eqn:Es; [|done]. apply stat_ok in Es. by exists n.
Qed.
Lemma within_remove_entry name : within (fun _ => True) (remove_file_if_exists (root ++ [name])).
Proof.
  intros w w' r E. unfold remove_file_if_exists in E. destruct (remove_file (root ++ [name]) (files w)) as [fs|e] eqn:Er.
  - injection E as <- <-. split; [by eapply inside_remove_entry|done].
  - destruct e; injection E as <- <-; (split; [apply inside_refl|done]).
Qed.
Lemma within_clean names : within (fun _ => True) (clean_entries root names).
Proof.
  induction names as [|name names IH]; cbn [clean_entries]; stay. apply (within_any (fun _ => True)), within_io. intros. by eapply inside_remove_entry.
Qed.
Lemma within_new : within (fun _ => True) (file_system_new root).
Proof.
  unfold file_system_new. eapply (within_bind (fun _ => True)).
  - intros w w' r E. unfold clean_old_tmp_files in E. destruct (read_dir (files w) root) as [names|e]; [by eapply within_clean|].
    destruct e; injection E as <- <-; (split; [apply inside_refl|done]).
  - intros _ _ w w' r E. unfold mbind, ST_bind, get, put in E. injection E as <- <-. split; [apply inside_refl|done].
Qed.
Hint Resolve within_remove_entry within_clean within_new : confine.

(** ** Buckets and objects *)

Lemma within_stored_e_tag b k i : within (fun _ => True) (stored_e_tag root b k i).
Proof. unfold stored_e_tag. stay. Qed.
Lemma within_content_range r n : within (fun _ => True) (content_range_of r n).
Proof. unfold content_range_of. stay. Qed.
Lemma within_seek r n : within (fun _ => True) (seek_of r n).
Proof. unfold seek_of. stay. Qed.
Hint Resolve within_stored_e_tag within_content_range within_seek : confine.

Lemma within_create_bucket i : within (fun _ => True) (create_bucket root i).
Proof. unfold create_bucket. stay. Qed.
Lemma within_delete_bucket i : within (fun _ => True) (delete_bucket root i).
Proof. unfold delete_bucket. stay. Qed.
Lemma within_get_bucket_location i : within (fun _ => True) (get_bucket_location root i).
Proof. unfold get_bucket_location. stay. Qed.
Lemma within_head_bucket i : within (fun _ => True) (head_bucket root i).
Proof. unfold head_bucket. stay. Qed.
Lemma within_list_buckets i : within (fun _ => True) (list_buckets root i).
Proof. unfold list_buckets. stay. Qed.
Lemma within_list_objects_v2 i : within (fun _ => True) (list_objects_v2 root i).
Proof. unfold list_objects_v2. stay. Qed.
Hint Resolve within_list_objects_v2 : confine.
Lemma within_list_objects i : within (fun _ => True) (list_objects root i).
Proof. unfold list_objects. stay. Qed.
Lemma within_get_object i : within (fun _ => True) (get_object root i).
Proof. unfold get_object. stay. Qed.
Lemma within_head_object i : within (fun _ => True) (head_object root i).
Proof. unfold head_object. stay. Qed.

Lemma within_remove_if_empty p : in_root root p -> within (fun _ => True) (remove_if_empty p).
Proof. intros Hp. unfold remove_if_empty. stay. Qed.
Hint Resolve within_remove_if_empty : confine.
Lemma within_delete_object i : within (fun _ => True) (delete_object root i).
Proof. unfold delete_object. stay. Qed.
Lemma within_delete_one p k : in_root root p -> within (fun _ => True) (delete_one p k).
Proof. intros Hp. unfold delete_one. stay. Qed.
Hint Resolve within_delete_one : confine.
Lemma within_delete_each b l : within (fun _ => True) (delete_each root b l).
Proof. induction l as [|o l IH]; cbn [delete_each]; stay. Qed.
Hint Resolve within_delete_each : confine.
Lemma within_delete_objects i : within (fun _ => True) (delete_objects root i).
Proof. unfold delete_objects. stay. Qed.

Lemma within_if_none_match c p : within (fun _ => True) (check_if_none_match c p).
Proof. unfold check_if_none_match. stay. Qed.
Lemma within_if_match c b k p : within (fun _ => True) (check_if_match root c b k p).
Proof. unfold check_if_match. stay. Qed.
Lemma within_put_body i t h b p : in_root root p -> within (fun _ => True) (put_body i t h b p).
Proof. intros Hp. unfold put_body. stay. Qed.
Hint Resolve within_if_none_match within_if_match within_put_body : confine.
Lemma within_put_object i t : within (fun _ => True) (put_object root i t).
Proof. unfold put_object. stay. Qed.

Lemma within_need_e_tag b k e : within (fun _ => True) (need_e_tag root b k e).
Proof. unfold need_e_tag. stay. Qed.
Hint Resolve within_need_e_tag : confine.
Lemma within_copy_if_match i b k t e : within (fun _ => True) (copy_if_match root i b k t e).
Proof. unfold copy_if_match. stay. Qed.
Lemma within_copy_if_none_match i b k t e : within (fun _ => True) (copy_if_none_match root i b k t e).
Proof. unfold copy_if_none_match. stay. Qed.
Lemma within_copy_payload p q : in_root root q -> within (fun _ => True) (copy_payload p q).
Proof. intros Hq. unfold copy_payload. stay. Qed.
Lemma within_copy_attributes i b k : within (fun _ => True) (copy_attributes root i b k).
Proof. unfold copy_attributes. stay. Qed.
Hint Resolve within_copy_if_match within_copy_if_none_match within_copy_payload within_copy_attributes : confine.
Lemma within_copy_parent p : in_root root p ->
  within (fun _ => True) (match parent p with Some d => io_now (fun t => create_dir_all t d) | None => mret tt end).
Proof. intros Hp. destruct (parent p) eqn:E; stay. Qed.
Hint Resolve within_copy_parent : confine.
Lemma within_copy_object i : within (fun _ => True) (copy_object root i).
Proof. unfold copy_object. stay. Qed.

(** ** Uploads *)

Lemma within_create_multipart c i : within (fun _ => True) (create_multipart_upload root c i).
Proof. unfold create_multipart_upload. stay. Qed.
Lemma within_open_upload c u : within (fun _ => True) (open_upload root c u).
Proof. unfold open_upload. stay. Qed.
Lemma within_part_body d t h b p : in_root root p -> within (fun _ => True) (part_body d t h b p).
Proof. intros Hp. unfold part_body. stay. Qed.
Hint Resolve within_open_upload within_part_body : confine.
Lemma within_upload_part c i t : within (fun _ => True) (upload_part root c i t).
Proof. unfold upload_part. stay. Qed.
Lemma within_upload_part_copy c i : within (fun _ => True) (upload_part_copy root c i).
Proof. unfold upload_part_copy. stay. Qed.
Lemma within_list_entries u p l : within (fun _ => True) (list_part_entries root u p l).
Proof. induction l as [|x l IH]; cbn [list_part_entries]; stay. Qed.
Hint Resolve within_list_entries : confine.
Lemma within_list_parts i : within (fun _ => True) (list_parts root i).
Proof. unfold list_parts. stay. Qed.
Lemma within_complete_if_match c b k p : within (fun _ => True) (complete_if_match root c b k p).
Proof. unfold complete_if_match. stay. Qed.
Hint Resolve within_complete_if_match : confine.

(** The parts that were assembled are places in the root. *)
Definition parts_in_root (l : list (Z * AbsPath)) : Prop := Forall (fun x => in_root root (snd x)) l.

Lemma within_assemble_part u n p a c : in_root root p -> parts_in_root (as_completed a) ->
  within (fun a' => parts_in_root (as_completed a')) (assemble_part root u n p a c).
Proof.
  intros Hp Ha. unfold assemble_part. stay. apply within_ret. apply Forall_app_2; [done|]. by apply Forall_singleton.
Qed.
Lemma within_assemble u n p l a : in_root root p -> parts_in_root (as_completed a) ->
  within (fun a' => parts_in_root (as_completed a')) (assemble root u n p l a).
Proof.
  intros Hp. revert a. induction l as [|c l IH]; intros a Ha; cbn [assemble]; [by apply within_ret|].
  eapply within_bind; [by apply within_assemble_part|]. intros a' Ha'. by apply IH.
Qed.
Lemma within_complete_body u l h e p : in_root root p -> within (fun r => parts_in_root (snd r)) (complete_body root u l h e p).
Proof.
  intros Hp. unfold complete_body. eapply within_bind; [apply within_panic|]. intros n _.
  eapply within_bind; [apply within_assemble; [done|constructor]|]. intros a Ha. stay.
Qed.
(** As above, with a condition on what was written. *)
Lemma within_file_writer_of {A} (P : A -> Prop) q (write : AbsPath -> FS A) : in_root root q -> (forall p, in_root root p -> within P (write p)) ->
  within P (with_file_writer root q write).
Proof.
  intros Hq Hw. unfold with_file_writer. eapply within_bind; [apply within_next_tmp|]. intros n _.
  eapply within_bind; [apply within_resolve|]. intros p Hp. eapply within_bind; [by apply within_write|]. intros _ _.
  apply within_drop; [done|]. eapply within_bind; [by apply Hw|]. intros a Ha. eapply within_bind; [by apply within_done|]. intros _ _. by apply within_ret.
Qed.
Lemma within_remove_parts u l : parts_in_root l -> within (fun _ => True) (remove_parts root u l).
Proof.
  induction 1 as [|[n p] l Hp Hl IH]; cbn [remove_parts]; [by apply within_ret|].
  eapply within_bind; [eapply within_failed, within_remove, Hp|]. intros f1 _.
  eapply within_bind; [eapply within_failed, within_delete_part_info|]. intros f2 _. stay.
Qed.
Lemma within_remove_upload b k u l : parts_in_root l -> within (fun _ => True) (remove_upload root b k u l).
Proof.
  intros Hl. unfold remove_upload. eapply within_bind; [eapply within_failed, within_delete_metadata|]. intros f1 _.
  eapply within_bind; [by apply within_remove_parts|]. intros f2 _. destruct (f1 || f2); [by apply within_ret|].
  eapply within_bind; [eapply within_failed, within_delete_upload|]. intros _ _. by apply within_ret.
Qed.
Lemma within_save_upload_attrs b k (a : option FsStore.ObjectAttributes) :
  within (fun _ => True) (match a with Some attrs => save_object_attributes root b k attrs None | None => mret tt end).
Proof. stay. Qed.
Hint Resolve within_save_upload_attrs : confine.

Lemma within_complete c i : within (fun _ => True) (complete_multipart_upload root c i).
Proof.
  unfold complete_multipart_upload. cbv zeta.
  eapply within_bind; [apply within_lift|]. intros m _. do 6 (eapply within_bind; [eauto with confine|intros ? ?]).
  do 2 (eapply within_bind; [eauto with confine|intros ? ?]). eapply within_bind; [apply within_lift|]. intros h _.
  eapply within_bind; [apply (within_file_writer_of (fun r => parts_in_root (snd r))); [done|intros p Hp; by apply within_complete_body]|].
  intros [[e_tag ck] completed] Hc. do 2 (eapply within_bind; [eauto with confine|intros ? ?]).
  eapply within_bind; [by apply within_remove_upload|]. intros _ _. by apply within_ret.
Qed.

Lemma within_abort_entries q r l : within (fun _ => True) (abort_entries root q r l).
Proof. induction l as [|x l IH]; cbn [abort_entries]; stay. Qed.
Hint Resolve within_abort_entries : confine.
Lemma within_abort c i : within (fun _ => True) (abort_multipart_upload root c i).
Proof. unfold abort_multipart_upload. stay. Qed.
End Within.

(** ** The back end as a state machine *)

(** A request, or a restart of the server. *)
Inductive Call :=
| CallNew
| CallCreateBucket (input : CreateBucketInput)
| CallDeleteBucket (input : DeleteBucketInput)
| CallGetBucketLocation (input : GetBucketLocationInput)
| CallHeadBucket (input : HeadBucketInput)
| CallListBuckets (input : ListBucketsInput)
| CallListObjects (input : ListObjectsInput)
| CallListObjectsV2 (input : ListObjectsV2Input)
| CallGetObject (input : GetObjectInput)
| CallHeadObject (input : HeadObjectInput)
| CallDeleteObject (input : DeleteObjectInput)
| CallDeleteObjects (input : DeleteObjectsInput)
| CallPutObject (input : PutObjectInput) (trailing_headers : option HeaderMap)
| CallCopyObject (input : CopyObjectInput)
| CallCreateMultipartUpload (credentials : option Request.Credentials) (input : CreateMultipartUploadInput)
| CallUploadPart (credentials : option Request.Credentials) (input : UploadPartInput) (trailing_headers : option HeaderMap)
| CallUploadPartCopy (credentials : option Request.Credentials) (input : UploadPartCopyInput)
| CallListParts (input : ListPartsInput)
| CallCompleteMultipartUpload (credentials : option Request.Credentials) (input : CompleteMultipartUploadInput)
| CallAbortMultipartUpload (credentials : option Request.Credentials) (input : AbortMultipartUploadInput).

Section Machine.
Context `{FsDeps} (root : AbsPath).

Definition discard {A} (m : ST World A) : ST World unit := m;; mret tt.

Definition serve (c : Call) : ST World unit :=
  match c with
  | CallNew => file_system_new root
  | CallCreateBucket input => discard (create_bucket root input)
  | CallDeleteBucket input => discard (delete_bucket root input)
  | CallGetBucketLocation input => discard (get_bucket_location root input)
  | CallHeadBucket input => discard (head_bucket root input)
  | CallListBuckets input => discard (list_buckets root input)
  | CallListObjects input => discard (list_objects root input)
  | CallListObjectsV2 input => discard (list_objects_v2 root input)
  | CallGetObject input => discard (get_object root input)
  | CallHeadObject input => discard (head_object root input)
  | CallDeleteObject input => discard (delete_object root input)
  | CallDeleteObjects input => discard (delete_objects root input)
  | CallPutObject input trailing_headers => discard (put_object root input trailing_headers)
  | CallCopyObject input => discard (copy_object root input)
  | CallCreateMultipartUpload credentials input => discard (create_multipart_upload root credentials input)
  | CallUploadPart credentials input trailing_headers => discard (upload_part root credentials input trailing_headers)
  | CallUploadPartCopy credentials input => discard (upload_part_copy root credentials input)
  | CallListParts input => discard (list_parts root input)
  | CallCompleteMultipartUpload credentials input => discard (complete_multipart_upload root credentials input)
  | CallAbortMultipartUpload credentials input => discard (abort_multipart_upload root credentials input)
  end.

(** One request is answered, with success or an error. *)
Inductive answers : World -> World -> Prop :=
| answers_intro c w w' r : serve c w = Some (w', r) -> answers w w'.

Lemma within_discard {A} (m : ST World A) : within root (fun _ => True) m -> within root (fun _ => True) (discard m).
Proof. intros Hm. eapply within_bind; [exact Hm|]. intros. by apply within_ret. Qed.

Lemma within_serve c : root <> [] -> Forall (fun x => name_ok x = true) root -> within root (fun _ => True) (serve c).
Proof.
  intros Hr Hn. destruct c; cbn [serve]; try apply within_discard; [by apply within_new|..].
  all: auto using within_create_bucket, within_delete_bucket, within_get_bucket_location, within_head_bucket, within_list_buckets, within_list_objects,
    within_list_objects_v2, within_get_object, within_head_object, within_delete_object, within_delete_objects, within_put_object, within_copy_object,
    within_create_multipart, within_upload_part, within_upload_part_copy, within_list_parts, within_complete, within_abort.
Qed.

(** C12: whatever requests the back end answers, in whatever order and with success or failure, the
    files stay a tree of well-named entries and nothing outside the root is changed: no bucket name
    or key reaches a file that is not in the root, not even with dots or a leading slash. *)
Theorem store_confined (w w' : World) :
  root <> [] -> Forall (fun x => name_ok x = true) root -> shape root (files w) -> rtc answers w w' ->
  shape root (files w') /\ forall p, above root p = false -> files w' !! p = files w !! p.
Proof.
  intros Hr Hn Hs Ha. induction Ha as [w|w1 w2 w3 [c ? ? r E] _ IH]; [done|].
  destruct (within_serve c Hr Hn _ _ _ E) as [Hi _]. destruct (Hi Hs) as [Hs2 E2]. destruct (IH Hs2) as [Hs3 E3].
  split; [done|]. intros p Hp. by rewrite E3, E2.
Qed.
End Machine.

(** ** The small store has the shape *)

Lemma root_good : w_root <> [] /\ Forall (fun x => name_ok x = true) w_root.
Proof. split; [done|]. by apply Forall_singleton. Qed.

Lemma empty_shape : shape w_root (files w_empty).
Proof.
  assert (Ht : tree_ok (<[[] := DirNode 0]> (∅ : Files))).
  { split; [done|]. intros d x Hs. rewrite lookup_insert_ne in Hs by by destruct d. rewrite lookup_empty in Hs. by destruct Hs. }
  split; [|split; [|done]].
  - apply (tree_insert _ [] (str "srv")); [done|done|]. right. by left.
  - intros p Hs. destruct (decide (p = w_root)) as [->|Hne]; [apply root_good|]. unfold w_empty in Hs. cbn [files] in Hs. rewrite lookup_insert_ne in Hs by done.
    destruct (decide (p = [])) as [->|Hne']; [constructor|]. rewrite lookup_insert_ne in Hs by done. rewrite lookup_empty in Hs. by destruct Hs.
Qed.

Lemma after_shape {A} P (m : ST World A) w : @within w_root A P m -> shape w_root (files w) -> shape w_root (files (after m w)).
Proof. intros Hm Hs. unfold after. destruct (m w) as [[w' r]|] eqn:E; [|done]. by destruct (Hm _ _ _ E) as [Hi _]; destruct (Hi Hs). Qed.

Lemma bucket_shape : shape w_root (files w_bucket).
Proof. eapply after_shape; [|exact empty_shape]. apply within_create_bucket; apply root_good. Qed.
Lemma two_shape : shape w_root (files w_two).
Proof. do 2 (eapply after_shape; [apply within_put_object; apply root_good|]). exact bucket_shape. Qed.

(** A bucket is made, and a key with dots that would lead out of the root is deleted. *)
Lemma store_confined_witness : exists w', rtc (@answers fs_reference w_root) w_empty w' /\ is_dir (files w') (w_root ++ [str "photos"]) = true /\
  shape w_root (files w') /\ forall p, above w_root p = false -> files w' !! p = files w_empty !! p.
Proof.
  pose proof (succeeds_after (@create_bucket fs_reference w_root create_photos) w_empty eq_refl) as [o1 E1].
  pose proof (succeeds_after (@delete_object fs_reference w_root escape) w_bucket eq_refl) as [o2 E2].
  assert (Ha : rtc (@answers fs_reference w_root) w_empty (after (@delete_object fs_reference w_root escape) w_bucket)).
  { eapply rtc_l; [|apply rtc_once].
    - apply (@answers_intro fs_reference w_root (CallCreateBucket create_photos) _ w_bucket (Ok tt)). cbn [serve]. unfold discard, mbind, ST_bind.
      by rewrite E1.
    - apply (@answers_intro fs_reference w_root (CallDeleteObject escape) _ _ (Ok tt)). cbn [serve]. unfold discard, mbind, ST_bind.
      by rewrite E2. }
  eexists. split; [exact Ha|]. split; [vm_compute; reflexivity|].
  apply (@store_confined fs_reference w_root w_empty); [apply root_good|apply root_good|exact empty_shape|exact Ha].
Defined.
