(* ===== verification/FsProps.v ===== *)
(** * What the file-system back end stores (crates/s3s-fs/src)

    An object that was put is read again, whole or by a range, a put that is refused changes
    nothing, and a put changes no other object.  [put_did] is what a put that succeeded has done, and
    [stored] what the store then knows of the object; both are used by the files after this one.  The
    names are those a client can use without dots: a bucket is one name
    that does not start with a dot, a key is a relative path. *)

From stdpp Require Import gmap.
From S2P Require Import Prelude.
From S2P Require Import Str.
From S2P Require Import ErrorCode.
From S2P Require Import Handler.
From S2P Require Import Authorization.
From S2P Require Import SigV2.
From S2P Require Import SignatureCheck.
From S2P Require Import Stream.
From S2P Require Import Body.
From S2P Require Import Blob.
From S2P Require Import Request.
From S2P Require Import Range.
From S2P Require Import ETag.
From S2P Require Import Timestamp.
From S2P Require Import Xml.
From S2P Require Import XmlDtoA.
From S2P Require Import XmlDtoC.
From S2P Require Import XmlOutputs.
From S2P Require Import Rfc2047.
From S2P Require Import HttpDe.
From S2P Require Import OpsTypes.
From S2P Require Import FsTree.
From S2P Require Import Checksums.
From S2P Require Import FsList.
From S2P Require Import FsStore.
From S2P Require Import FsObjects.
From S2P Require Import FsUploads.
From S2P Require Import FsReference.
From S2P Require Import FsSamples.
From S2P Require Import FsFrame.

(** ** Names and paths *)

Definition plain_bucket (bucket : bytes) : Prop := name_ok bucket = true /\ starts_with (str ".") bucket = false.
(** The names of a key. *)
Definition plain_key (key : bytes) (names : AbsPath) : Prop := components key = map Normal names /\ names <> [].

Lemma name_ok_spec x : name_ok x = true <-> x <> [] /\ "/"%byte ∉ x /\ x <> str "." /\ x <> str "..".
Proof. unfold name_ok. rewrite !andb_true_iff, !negb_true_iff, !bool_decide_eq_false. tauto. Qed.

Lemma name_component x : name_ok x = true -> component_of x = Some (Normal x).
Proof.
  intros (H1 & H2 & H3 & H4)%name_ok_spec. unfold component_of. by rewrite (bool_decide_eq_false_2 (x = [])), (bool_decide_eq_false_2 (x = str ".")), bool_decide_eq_false_2.
Qed.

Lemma name_start x s : name_ok x = true -> starts_with (str "/") (x ++ s) = false.
Proof.
  intros (H1 & H2 & _)%name_ok_spec. destruct x as [|c x]; [done|]. apply not_true_iff_false. intros [r E]%starts_with_true.
  cbn in E. injection E as -> _. apply H2. by left.
Qed.

Lemma components_name x : name_ok x = true -> components x = [Normal x].
Proof.
  intros Hx. pose proof (name_ok_spec x) as [Hs _]. destruct (Hs Hx) as (H1 & H2 & H3 & H4). unfold components.
  rewrite <- (app_nil_r x) at 1. rewrite (name_start x [] Hx), (split_single "/" x H2). cbn [head omap list_omap].
  rewrite (name_component x Hx), bool_decide_eq_false_2; [done|]. by intros [= ->].
Qed.

Lemma components_object b k names : name_ok b = true -> components k = map Normal names -> components (path_join b k) = map Normal (b :: names).
Proof.
  intros Hb Hk. pose proof (name_ok_spec b) as [Hs _]. destruct (Hs Hb) as (H1 & H2 & H3 & H4). unfold path_join.
  assert (Hrel : starts_with (str "/") k = false).
  { unfold components in Hk. destruct (starts_with (str "/") k); [|done]. by destruct names. }
  assert (Hend : ends_with (str "/") b = false).
  { apply not_true_iff_false. intros [r ->]%ends_with_true. apply H2. apply elem_of_app. right. by left. }
  rewrite Hrel, Hend, bool_decide_eq_false_2 by done. cbn [orb]. unfold components.
  rewrite (name_start b _ Hb). change (str "/" ++ k) with ("/"%byte :: k). rewrite (split_cons_sep "/" b k H2). cbn [head omap list_omap].
  rewrite (name_component b Hb), bool_decide_eq_false_2 by (by intros [= ->]). cbn [app map]. f_equal.
  unfold components in Hk. rewrite Hrel in Hk. destruct (head (split "/" k) =? Some (str ".")); [by destruct names|]. exact Hk.
Qed.

Create HintDb slash.
Create HintDb reading.
Create HintDb agreeing.

Section Props.
Context `{FsDeps} (root : AbsPath).
Abbreviation FS := (ST World).

Lemma resolve_name x w : name_ok x = true -> resolve_abs_path root x w = Some (w, Ok (root ++ [x])).
Proof.
  intros Hx. unfold resolve_abs_path, lift. rewrite (absolutize_plain x root [x]); [done| |done]. by rewrite components_name.
Qed.

Lemma object_path_of b k names w : name_ok b = true -> plain_key k names -> get_object_path root b k w = Some (w, Ok (root ++ b :: names)).
Proof.
  intros Hb [Hk Hn]. unfold get_object_path, resolve_abs_path, lift. rewrite (absolutize_plain _ root (b :: names)); [done| |done].
  by apply components_object.
Qed.

(** The names of the store's own files: they start with a dot, and no part of them has a slash. *)
Lemma dot_name (s : bytes) c x : s = "."%byte :: c :: x -> c <> "."%byte -> "/"%byte ∉ s -> name_ok s = true.
Proof. intros -> H1 H2. apply name_ok_spec. split_and!; [done|done|done|]. intros [= -> _]. done. Qed.
Lemma no_slash_app (s t : bytes) : "/"%byte ∉ s -> "/"%byte ∉ t -> "/"%byte ∉ s ++ t.
Proof. intros Hs Ht [?|?]%elem_of_app; done. Qed.

Lemma no_slash f (s : bytes) : (forall c, f c = true -> c <> "/"%byte) -> forallb f s = true -> "/"%byte ∉ s.
Proof. intros Hf Hs Hin. rewrite forallb_forall in Hs. apply list_elem_of_In, Hs, Hf in Hin. done. Qed.
Lemma no_slash_url s : "/"%byte ∉ url_encode_to_string s.
Proof. eapply no_slash, url_encode_chars. by intros []. Qed.
Lemma no_slash_uuid u : length u = 16 -> "/"%byte ∉ uuid_to_string u.
Proof. intros Hu. eapply no_slash, (proj2 (uuid_chars u Hu)). by intros []. Qed.
Lemma no_slash_dec n : (0 <= n)%Z -> "/"%byte ∉ fmt_dec n.
Proof.
  intros Hn. destruct (fmt_dec_value n Hn) as [Hv _]. apply dec_value_digits in Hv. eapply no_slash, Hv. by intros [].
Qed.
Lemma no_slash_signed n : "/"%byte ∉ fmt_signed n.
Proof.
  unfold fmt_signed. destruct (n <? 0)%Z eqn:E; [|apply no_slash_dec; lia]. intros [?|Hin]%elem_of_cons; [done|]. revert Hin. apply no_slash_dec. lia.
Qed.
Hint Resolve no_slash_url no_slash_uuid no_slash_dec no_slash_signed : slash.
Ltac slash := eapply dot_name; [reflexivity|done|]; repeat apply no_slash_app; try (by eauto with slash); by_decide.

Lemma tmp_name_ok n : name_ok (tmp_name n) = true.
Proof. pose proof (N2Z.is_nonneg n). unfold tmp_name. slash. Qed.
Lemma metadata_name_ok b k u : match u with Some u => length u = 16 | None => True end -> name_ok (metadata_name b k u) = true.
Proof. intros Hu. unfold metadata_name. destruct u; slash. Qed.
Lemma internal_info_name_ok b k : name_ok (internal_info_name b k) = true.
Proof. unfold internal_info_name. slash. Qed.
Lemma upload_part_name_ok u n : length u = 16 -> name_ok (upload_part_name u n) = true.
Proof. intros Hu. unfold upload_part_name. slash. Qed.
Lemma upload_part_info_name_ok u n : length u = 16 -> name_ok (upload_part_info_name u n) = true.
Proof. intros Hu. unfold upload_part_info_name. slash. Qed.
Lemma upload_info_name_ok u : length u = 16 -> name_ok (upload_info_name u) = true.
Proof. intros Hu. unfold upload_info_name. slash. Qed.

(** ** Writing a file *)

(** What writing [dest] through the temporary file [tmp] does: the file is there, and nothing else
    changed but the temporary file and directories that lead to the file. *)
Definition wrote (tmp dest : AbsPath) (content : bytes) (fs fs' : Files) : Prop :=
  (exists t, fs' !! dest = Some (FileNode content t)) /\
  forall p, p <> dest -> p <> tmp -> fs' !! p = fs !! p \/ fs !! p = None /\ above p dest = true /\ is_dir fs' p = true.

Lemma create_dirs_lookup t names : forall d fs fs', create_dirs t d names fs = Ok fs' -> forall p,
  fs' !! p = fs !! p \/ fs !! p = None /\ above p (d ++ names) = true /\ fs' !! p = Some (DirNode t).
Proof.
  induction names as [|x names IH]; intros d fs fs' E p; [injection E as <-; by left|]. cbn [create_dirs] in E.
  replace (d ++ x :: names) with ((d ++ [x]) ++ names) by by rewrite <- app_assoc.
  destruct (fs !! (d ++ [x])) as [[|t']|] eqn:El; [done|by apply IH|].
  destruct (IH _ _ _ E p) as [Hp|(Hp & Ha & Hd)].
  - destruct (decide (p = d ++ [x])) as [->|Hne]; [|left; by rewrite Hp, lookup_insert_ne].
    right. rewrite Hp, lookup_insert_eq. split_and!; [done|apply above_iff; by eexists|done].
  - destruct (decide (p = d ++ [x])) as [->|Hne]; [by rewrite lookup_insert_eq in Hp|]. rewrite lookup_insert_ne in Hp by done. by right.
Qed.

Lemma io_ok step w w' u : io step w = Some (w', Ok u) -> step (files w) = Ok (files w').
Proof. unfold io. destruct (step (files w)); [|done]. by intros [= <- _]. Qed.
Lemma io_now_ok step w w' u : io_now step w = Some (w', Ok u) -> exists t, step t (files w) = Ok (files w').
Proof. unfold io_now. intros E. run_ok. injection H0 as <- <-. by eapply io_ok in H1 as H1; eauto. Qed.

Lemma done_ok tmp dest w w' u data t : file_writer_done tmp dest w = Some (w', Ok u) -> files w !! tmp = Some (FileNode data t) -> tmp <> dest ->
  files w' !! dest = Some (FileNode data t) /\
  forall p, p <> dest -> p <> tmp -> files w' !! p = files w !! p \/ files w !! p = None /\ above p dest = true /\ is_dir (files w') p = true.
Proof.
  intros E Htmp Hne. unfold file_writer_done in E. run_ok. apply io_ok in H1.
  assert (Hl : forall p, files x !! p = files w !! p \/ files w !! p = None /\ above p dest = true /\ is_dir (files x) p = true).
  { intros p. destruct (path_cases dest) as [->|(d & y & ->)]; [injection H0 as <- <-; by left|]. rewrite parent_snoc in H0.
    apply io_now_ok in H0 as [t' H0]. destruct (create_dirs_lookup _ _ _ _ _ H0 p) as [Hp|(Hp & Ha & Hd)]; [by left|]. right.
    split_and!; [done| |unfold is_dir; by rewrite Hd]. apply above_iff in Ha as [r Er]. cbn in Er. apply above_iff. exists (r ++ [y]). by rewrite Er, app_assoc. }
  assert (Hx : files x !! tmp = Some (FileNode data t)) by (destruct (Hl tmp) as [->|(Hn & _)]; [done|by rewrite Hn in Htmp]).
  assert (E2 : files w' = <[dest := FileNode data t]> (delete tmp (files x))).
  { unfold rename_file, stat in H1. rewrite Hx in H1. cbn [mbind result_bind] in H1. destruct (files x !! dest) as [[|]|]; [by injection H1|done|].
    destruct (vacant (files x) dest); [|done]. by injection H1. }
  rewrite E2. split; [apply lookup_insert_eq|]. intros p H2 H3. unfold is_dir. rewrite lookup_insert_ne, lookup_delete_ne by done. apply Hl.
Qed.

(** What the handler [write] leaves in the temporary file, when it returns [a]; the file was made empty in [fs]. *)
Definition writes {A : Type} (fs : Files) (write : AbsPath -> FS A) (tmp : AbsPath) (a : A) (Q : bytes -> Prop) : Prop :=
  forall w w', (exists t, files w = <[tmp := FileNode [] t]> fs) -> write tmp w = Some (w', Ok a) -> exists content t, Q content /\ files w' = <[tmp := FileNode content t]> (files w).

Lemma drop_ok {A} tmp (m : FS A) w w' a : drop_writer tmp m w = Some (w', Ok a) <-> m w = Some (w', Ok a).
Proof. unfold drop_writer. destruct (m w) as [[w1 [b|e]]|]; split; intros [= <- <-]; done. Qed.

Lemma write_file_ok t tmp data fs fs' : write_file t tmp data fs = Ok fs' -> fs' = <[tmp := FileNode data t]> fs.
Proof. unfold write_file. destruct (fs !! tmp) as [[]|]; [by intros [= <-]|done|]. destruct (vacant fs tmp); [|done]. by intros [= <-]. Qed.

Lemma file_writer_ok {A} dest (write : AbsPath -> FS A) w w' a Q :
  let tmp := root ++ [tmp_name (tmp_file_counter w)] in
  with_file_writer root dest write w = Some (w', Ok a) -> tmp <> dest ->
  writes (files w) write tmp a Q -> exists content, Q content /\ wrote tmp dest content (files w) (files w').
Proof.
  intros tmp E Hne Hw. unfold with_file_writer in E. apply M_bind_ok in E as (w1 & n & En & E). injection En as <- <-.
  apply M_bind_ok in E as (w2 & q & Eq & E). rewrite resolve_name in Eq by by apply tmp_name_ok. injection Eq as <- <-. fold tmp in E.
  apply M_bind_ok in E as (w3 & u & E3 & E). apply io_now_ok in E3 as [t3 E3%write_file_ok]. cbn [files] in E3.
  apply drop_ok in E. apply M_bind_ok in E as (w4 & a' & E4 & E). apply M_bind_ok in E as (w5 & u' & E5 & E). apply M_ret_ok in E as [<- <-].
  destruct (Hw _ _ (ex_intro _ t3 E3) E4) as (content & t4 & HQ & F4). exists content. split; [done|].
  destruct (done_ok _ _ _ _ _ content t4 E5) as [Hd Hp]; [by rewrite F4, lookup_insert_eq|done|].
  split; [by exists t4|]. intros p H1 H2. destruct (Hp p H1 H2) as [Hl|(Hl & Ha & Hdir)]; rewrite F4, E3, !lookup_insert_ne in Hl by done; [by left|by right].
Qed.

Lemma write_all_writes fs content tmp : writes fs (write_all content) tmp tt (fun c => c = content).
Proof. intros w w' _ E. apply io_now_ok in E as [t E%write_file_ok]. eauto. Qed.

(** ** The files of the store *)

Lemma tmp_not_own n x c : x = "."%byte :: c :: drop 2 x -> c <> "t"%byte -> root ++ [tmp_name n] <> root ++ [x].
Proof. intros Hx Hc E. apply app_inv_head in E. injection E as E. rewrite <- E in Hx. cbn in Hx. injection Hx as <-. done. Qed.

Lemma save_json_ok x c content w w' u : name_ok x = true -> x = "."%byte :: c :: drop 2 x -> c <> "t"%byte ->
  save_json root (resolve_abs_path root x) content w = Some (w', Ok u) ->
  exists b, content = Some b /\ wrote (root ++ [tmp_name (tmp_file_counter w)]) (root ++ [x]) b (files w) (files w').
Proof.
  intros Hx Ex Hc E. unfold save_json in E. apply M_bind_ok in E as (w1 & q & Eq & E). rewrite resolve_name in Eq by done. injection Eq as <- <-.
  apply M_bind_ok in E as (w1 & b & Eb & E). apply lift_ok in Eb as [-> Eb%ok_or_Ok]. exists b. split; [done|].
  destruct u. by destruct (file_writer_ok _ _ _ _ _ _ E (tmp_not_own _ _ _ Ex Hc) (write_all_writes _ b _)) as (? & -> & Hw).
Qed.

Lemma load_json_found {A} x (parse : bytes -> result S3ErrorCode (option A)) w content t : name_ok x = true ->
  files w !! (root ++ [x]) = Some (FileNode content t) -> load_json (resolve_abs_path root x) parse w = Some (w, parse content).
Proof.
  intros Hx Hf. unfold load_json, mbind, ST_bind. rewrite resolve_name by done. unfold exists_, mbind, ST_bind, get, path_exists, stat. rewrite Hf.
  cbn. unfold io_, read_file, stat. rewrite Hf. done.
Qed.
Lemma load_json_absent {A} x (parse : bytes -> result S3ErrorCode (option A)) w : name_ok x = true ->
  files w !! (root ++ [x]) = None -> load_json (resolve_abs_path root x) parse w = Some (w, Ok None).
Proof.
  intros Hx Hf. unfold load_json, mbind, ST_bind. rewrite resolve_name by done. unfold exists_, mbind, ST_bind, get, path_exists, stat. by rewrite Hf.
Qed.

(** What was written is still there after another file was. *)
Lemma wrote_keeps tmp dest content fs fs' p n : wrote tmp dest content fs fs' -> fs !! p = Some n -> p <> dest -> p <> tmp -> fs' !! p = Some n.
Proof. intros [_ Hw] Hp H1 H2. destruct (Hw p H1 H2) as [->|(Hn & _)]; [done|]. by rewrite Hn in Hp. Qed.

(** ** Bodies *)

Lemma copy_bytes_ok body tmp w w' pieces : copy_bytes body tmp w = Some (w', Ok pieces) ->
  blob_read body = (pieces, None) /\ exists t, files w' = <[tmp := FileNode (concat pieces) t]> (files w).
Proof.
  unfold copy_bytes. destruct (blob_read body) as [l [e|]]; [done|]. intros E. apply M_bind_ok in E as (w1 & u & E1 & E). apply M_ret_ok in E as [-> ->].
  split; [done|]. apply io_now_ok in E1 as [t E1%write_file_ok]. eauto.
Qed.

Lemma put_body_ok input trailers hasher body tmp w w' md5_sum ck :
  put_body input trailers hasher body tmp w = Some (w', Ok (md5_sum, ck)) ->
  exists pieces declared t, blob_read body = (pieces, None) /\ files w' = <[tmp := FileNode (concat pieces) t]> (files w) /\
    md5_sum = hex (checksum Md5 (concat pieces)) /\ ck = hasher_finalize (foldl hasher_update hasher pieces) /\
    trailer_checksums trailers (put_checksum input) = Ok declared /\ sums_equal ck declared = true.
Proof.
  unfold put_body. intros E. apply M_bind_ok in E as (w1 & pieces & E1 & E). apply copy_bytes_ok in E1 as [Hb [t Hf]].
  cbv zeta in E. apply M_bind_ok in E as (w2 & u & E2 & E). apply lift_ok in E2 as [-> _].
  apply M_bind_ok in E as (w3 & declared & E3 & E). apply lift_ok in E3 as [-> Hd].
  apply M_bind_ok in E as (w4 & u' & E4 & E). apply fail_if_ok in E4 as [-> He%negb_false_iff]. apply M_ret_ok in E as [-> [= -> ->]].
  exists pieces, declared, t. split_and!; try done. exact (f_equal hex (ck_pieces Md5 pieces)).
Qed.

(** ** Handlers that only read *)

Definition read_only {A} (m : FS A) : Prop := forall w w' r, m w = Some (w', r) -> w' = w.

Lemma reading_bind {A B} (m : FS A) (k : A -> FS B) : read_only m -> (forall a, read_only (k a)) -> read_only (m ≫= k).
Proof.
  intros Hm Hk w w' r E. unfold mbind, ST_bind in E. destruct (m w) as [[w1 [a|e]]|] eqn:Em; [| |done].
  - apply Hm in Em as ->. by eapply Hk.
  - injection E as <- <-. by eapply Hm.
Qed.
Lemma reads_lift {A} (r : result S3ErrorCode A) : read_only (lift r).
Proof. by intros w w' r' [= <- _]. Qed.
Lemma reads_ret {A} (a : A) : read_only (mret a).
Proof. by intros w w' r [= <- _]. Qed.
Lemma reads_get : read_only get.
Proof. by intros w w' r [= <- _]. Qed.
Lemma reads_panic {A} (o : option A) : read_only (panic_none o).
Proof. intros w w' r. unfold panic_none. destruct o; [|done]. by intros [= <- _]. Qed.
Lemma reads_io_ {A} (step : Files -> result IoError A) : read_only (io_ step).
Proof. by intros w w' r [= <- _]. Qed.
Lemma reads_fail b e : read_only (fail_if b e).
Proof. apply reads_lift. Qed.
Hint Resolve reads_lift reads_ret reads_get reads_panic reads_io_ reads_fail : reading.

Ltac reading := repeat match goal with
  | |- read_only (mbind _ _) => apply reading_bind; [|intros ?]
  | |- read_only (match ?x with _ => _ end) => destruct x
  | |- read_only (let _ := _ in _) => cbv zeta
  end; eauto with reading.

Lemma reads_resolve p : read_only (resolve_abs_path root p).
Proof. apply reads_lift. Qed.
Lemma reads_exists p : read_only (exists_ p).
Proof. unfold exists_. reading. Qed.
Hint Resolve reads_resolve reads_exists : reading.
Lemma reads_load_json {A} path (parse : bytes -> result S3ErrorCode (option A)) : read_only path -> read_only (load_json path parse).
Proof. intros Hp. unfold load_json. reading. Qed.
Hint Resolve reads_load_json : reading.
Lemma reads_object_path b k : read_only (get_object_path root b k).
Proof. apply reads_lift. Qed.
Lemma reads_bucket_path b : read_only (get_bucket_path root b).
Proof. apply reads_lift. Qed.
Lemma reads_load_attrs b k u : read_only (load_object_attributes root b k u).
Proof. apply reads_load_json, reads_lift. Qed.
Lemma reads_load_info b k : read_only (load_internal_info root b k).
Proof. apply reads_load_json, reads_lift. Qed.
Lemma reads_load_part_info u n : read_only (load_upload_part_info root u n).
Proof. apply reads_load_json, reads_lift. Qed.
Hint Resolve reads_object_path reads_bucket_path reads_load_attrs reads_load_info reads_load_part_info : reading.
Lemma reads_md5 b k : read_only (get_md5_sum root b k).
Proof. unfold get_md5_sum. reading. Qed.
Hint Resolve reads_md5 : reading.
Lemma reads_stored_e_tag b k i : read_only (stored_e_tag root b k i).
Proof. unfold stored_e_tag. reading. Qed.
Lemma reads_content_range r n : read_only (content_range_of r n).
Proof. unfold content_range_of. reading. Qed.
Lemma reads_seek r n : read_only (seek_of r n).
Proof. unfold seek_of. reading. Qed.
Hint Resolve reads_stored_e_tag reads_content_range reads_seek : reading.
Lemma reads_if_none_match c p : read_only (check_if_none_match c p).
Proof. unfold check_if_none_match. reading. Qed.
Lemma reads_if_match c b k p : read_only (check_if_match root c b k p).
Proof. unfold check_if_match. reading. Qed.
Lemma reads_verify c u : read_only (verify_upload_id root c u).
Proof. unfold verify_upload_id. reading. Qed.
Hint Resolve reads_if_none_match reads_if_match reads_verify : reading.
Lemma reads_open_upload c u : read_only (open_upload root c u).
Proof. unfold open_upload. reading. Qed.
Lemma reads_complete_if_match c b k p : read_only (complete_if_match root c b k p).
Proof. unfold complete_if_match. reading. Qed.
Hint Resolve reads_open_upload reads_complete_if_match : reading.
Lemma reads_get_object i : read_only (get_object root i).
Proof. unfold get_object. reading. Qed.
Lemma reads_list_objects_v2 i : read_only (list_objects_v2 root i).
Proof. unfold list_objects_v2. reading. Qed.

Hint Resolve reads_list_objects_v2 : reading.
Lemma reads_list_objects i : read_only (list_objects root i).
Proof. unfold list_objects. reading. Qed.
Lemma reads_head_object i : read_only (head_object root i).
Proof. unfold head_object. reading. Qed.
Lemma reads_list_buckets i : read_only (list_buckets root i).
Proof. unfold list_buckets. reading. Qed.
Lemma reads_get_bucket_location i : read_only (get_bucket_location root i).
Proof. unfold get_bucket_location. reading. Qed.
Lemma reads_head_bucket i : read_only (head_bucket root i).
Proof. unfold head_bucket. reading. Qed.
Lemma reads_part_entries u p names : read_only (list_part_entries root u p names).
Proof. induction names as [|x names IH]; cbn [list_part_entries]; reading. Qed.
Hint Resolve reads_part_entries : reading.
Lemma reads_list_parts i : read_only (list_parts root i).
Proof. unfold list_parts. reading. Qed.

(** ** Storing an object *)

(** The files of an object, with its bucket and the names of its key. *)
Definition object_at_path (bucket : bytes) (names : AbsPath) : AbsPath := root ++ bucket :: names.

Lemma object_not_tmp bucket names n : names <> [] -> root ++ [tmp_name n] <> object_at_path bucket names.
Proof. intros Hn E. apply app_inv_head in E. injection E as _ E. by symmetry in E. Qed.

Record Stored := {
  st_pieces : list bytes;
  st_hasher : ChecksumHasher;
  st_attrs : bytes;
  st_info : bytes;
  st_tmps : N * N * N;
  st_files : Files * Files
}.

(** What a successful put has done. *)
Definition put_did (input : PutObjectInput) (trailers : option HeaderMap) (names : AbsPath) (w w' : World) (s : Stored) : Prop :=
  let data := concat (st_pieces s) in
  let md5_sum := hex (checksum Md5 data) in
  let sums := hasher_finalize (foldl hasher_update (st_hasher s) (st_pieces s)) in
  let tmp n := root ++ [tmp_name n] in
  (blob_read <$> PutObjectInput_body input) = Some (st_pieces s, None) /\
  request_hasher (put_checksum input) [PutObjectInput_checksum_algorithm input] = Ok (st_hasher s) /\
  (exists declared, trailer_checksums trailers (put_checksum input) = Ok declared /\ sums_equal sums declared = true) /\
  wrote (tmp (st_tmps s).1.1) (object_at_path (PutObjectInput_bucket input) names) data (files w) (st_files s).1 /\
  attrs_to_vec (attributes_of_put input) = Some (st_attrs s) /\
  wrote (tmp (st_tmps s).1.2) (root ++ [metadata_name (PutObjectInput_bucket input) (PutObjectInput_key input) None]) (st_attrs s) (st_files s).1 (st_files s).2 /\
  info_to_vec (modify_internal_info (save_e_tag ∅ md5_sum) sums) = Some (st_info s) /\
  wrote (tmp (st_tmps s).2) (root ++ [internal_info_name (PutObjectInput_bucket input) (PutObjectInput_key input)]) (st_info s) (st_files s).2 (files w').

(** The output carries the digest and the sums. *)
Definition put_output (md5_sum : bytes) (sums : Checksum) (out : PutObjectOutput) : Prop :=
  PutObjectOutput_e_tag out = Some (Strong md5_sum) /\
  PutObjectOutput_checksum_crc32 out = Checksum_checksum_crc32 sums /\
  PutObjectOutput_checksum_crc32c out = Checksum_checksum_crc32c sums /\
  PutObjectOutput_checksum_sha1 out = Checksum_checksum_sha1 sums /\
  PutObjectOutput_checksum_sha256 out = Checksum_checksum_sha256 sums /\
  PutObjectOutput_checksum_crc64nvme out = Checksum_checksum_crc64nvme sums /\
  PutObjectOutput_checksum_sha512 out = Checksum_checksum_sha512 sums /\
  PutObjectOutput_checksum_md5 out = Checksum_checksum_md5 sums /\
  PutObjectOutput_checksum_xxhash64 out = Checksum_checksum_xxhash64 sums /\
  PutObjectOutput_checksum_xxhash3 out = Checksum_checksum_xxhash3 sums /\
  PutObjectOutput_checksum_xxhash128 out = Checksum_checksum_xxhash128 sums.

Lemma put_object_ok input trailers w w' out names :
  plain_bucket (PutObjectInput_bucket input) -> plain_key (PutObjectInput_key input) names -> ends_with (str "/") (PutObjectInput_key input) = false ->
  put_object root input trailers w = Some (w', Ok out) ->
  exists s, put_did input trailers names w w' s /\
    put_output (hex (checksum Md5 (concat (st_pieces s)))) (hasher_finalize (foldl hasher_update (st_hasher s) (st_pieces s))) out.
Proof.
  intros [Hb _] Hk Hdir E. unfold put_object in E. cbv zeta in E.
  apply M_bind_ok in E as (w1 & u1 & E1 & E). apply fail_if_ok in E1 as [-> _].
  apply M_bind_ok in E as (w2 & body & E2 & E). apply lift_ok in E2 as [-> Hbody%ok_or_Ok].
  apply M_bind_ok in E as (w3 & q & E3 & E). rewrite (object_path_of _ _ names) in E3 by done. injection E3 as <- <-.
  apply M_bind_ok in E as (w4 & u4 & E4 & E). apply reads_if_none_match in E4 as ->.
  apply M_bind_ok in E as (w5 & u5 & E5 & E). apply reads_if_match in E5 as ->.
  apply M_bind_ok in E as (w6 & hasher & E6 & E). apply lift_ok in E6 as [-> Hh]. rewrite Hdir in E.
  apply M_bind_ok in E as (w7 & [md5_sum ck] & E7 & E). apply M_bind_ok in E as (w8 & u8 & E8 & E).
  apply M_bind_ok in E as (w9 & u9 & E9 & E). apply M_ret_ok in E as [-> ->].
  destruct (file_writer_ok _ _ _ _ _ (fun content => exists pieces, content = concat pieces /\ blob_read body = (pieces, None) /\
    md5_sum = hex (checksum Md5 (concat pieces)) /\ ck = hasher_finalize (foldl hasher_update hasher pieces) /\
    exists declared, trailer_checksums trailers (put_checksum input) = Ok declared /\ sums_equal ck declared = true) E7)
    as (? & (pieces & -> & Hr & Hm & Hck & Hdecl) & W1); [by apply object_not_tmp, Hk| |].
  { intros v v' _ Ev. apply put_body_ok in Ev as (pieces & declared & t & ? & ? & ? & ? & ? & ?). exists (concat pieces), t. split; [|done]. eauto 10. }
  apply (save_json_ok _ "b"%byte) in E8 as (ab & Hab & W2); [|by apply metadata_name_ok|done|done].
  apply (save_json_ok _ "b"%byte) in E9 as (ib & Hib & W3); [|apply internal_info_name_ok|done|done].
  eexists {| st_pieces := pieces; st_hasher := hasher; st_attrs := ab; st_info := ib; st_tmps := (_, _, _); st_files := (files w7, files w8) |}.
  split; [|by subst]. unfold put_did. cbn [st_pieces st_hasher st_attrs st_info st_tmps st_files fst snd]. rewrite <- Hck, <- Hm, Hbody. cbn. rewrite Hr.
  split_and!; try done; [exact W1|exact W2|exact W3].
Qed.

(** ** Reading an object *)

Lemma bytes_stream_concat l n : concat (bytes_stream n l) = take n (concat l).
Proof.
  revert n. induction l as [|b l IH]; intros n; [cbn; by rewrite take_nil|]. cbn [bytes_stream concat]. rewrite IH, length_take, take_app. f_equal. f_equal. lia.
Qed.

(** The body of a file is the part of it that was asked for. *)
Lemma file_blob_read data t start n : exists pieces,
  blob_read (file_blob (FileNode data t) start n) = (pieces, None) /\ concat pieces = take (Z.to_nat n) (drop (Z.to_nat start) data).
Proof.
  exists (bytes_stream (Z.to_nat n) (read_pieces (drop (Z.to_nat start) data))). split; [|by rewrite bytes_stream_concat, read_pieces_concat].
  unfold blob_read, file_blob, into_body. rewrite body_read_eq. unfold Body.reads, kind_frames. cbn.
  induction (bytes_stream (Z.to_nat n) (read_pieces (drop (Z.to_nat start) data))) as [|b l IH]; [done|]. cbn. by rewrite IH.
Qed.

(** What a get of the object reports: the attributes and the sums. *)
Definition get_output (m : option Metadata) (a : FsStore.ObjectAttributes) (e_tag : bytes) (sums : Checksum) (o : GetObjectOutput) : Prop :=
  GetObjectOutput_metadata o = m /\ GetObjectOutput_content_encoding o = content_encoding a /\ GetObjectOutput_content_type o = content_type a /\
  GetObjectOutput_content_disposition o = content_disposition a /\ GetObjectOutput_content_language o = content_language a /\
  GetObjectOutput_cache_control o = cache_control a /\ GetObjectOutput_expires o = expires a /\
  GetObjectOutput_website_redirect_location o = website_redirect_location a /\ GetObjectOutput_e_tag o = Some (Strong e_tag) /\
  GetObjectOutput_checksum_crc32 o = Checksum_checksum_crc32 sums /\
  GetObjectOutput_checksum_crc32c o = Checksum_checksum_crc32c sums /\
  GetObjectOutput_checksum_sha1 o = Checksum_checksum_sha1 sums /\
  GetObjectOutput_checksum_sha256 o = Checksum_checksum_sha256 sums /\
  GetObjectOutput_checksum_crc64nvme o = Checksum_checksum_crc64nvme sums /\
  GetObjectOutput_checksum_sha512 o = Checksum_checksum_sha512 sums /\
  GetObjectOutput_checksum_md5 o = Checksum_checksum_md5 sums /\
  GetObjectOutput_checksum_xxhash64 o = Checksum_checksum_xxhash64 sums /\
  GetObjectOutput_checksum_xxhash3 o = Checksum_checksum_xxhash3 sums /\
  GetObjectOutput_checksum_xxhash128 o = Checksum_checksum_xxhash128 sums.

(** The object, its attributes and its information as they are on disk. *)
Definition stored (bucket key : bytes) (names : AbsPath) (fs : Files) (data : bytes) (a : FsStore.ObjectAttributes) (info : InternalInfo) : Prop :=
  (exists t, fs !! object_at_path bucket names = Some (FileNode data t)) /\
  (exists b t, fs !! (root ++ [metadata_name bucket key None]) = Some (FileNode b t) /\ attrs_from_slice b = Some a) /\
  (exists b t, fs !! (root ++ [internal_info_name bucket key]) = Some (FileNode b t) /\ info_from_slice b = Some info).

(** A get of what the range selects: [content_length] bytes from [start]. *)
Lemma get_object_from input names w data a e_tag sums content_length content_range start :
  plain_bucket (GetObjectInput_bucket input) -> plain_key (GetObjectInput_key input) names -> Checksum_checksum_type sums = None ->
  stored (GetObjectInput_bucket input) (GetObjectInput_key input) names (files w) data a (modify_internal_info (save_e_tag ∅ e_tag) sums) ->
  content_range_of (GetObjectInput_range input) (len data) w = Some (w, Ok (content_length, content_range)) ->
  seek_of (GetObjectInput_range input) (len data) w = Some (w, Ok start) -> (content_length <= i64_max)%Z ->
  exists o body pieces, get_object root input w = Some (w, Ok o) /\ GetObjectOutput_body o = Some body /\
    blob_read body = (pieces, None) /\ concat pieces = take (Z.to_nat content_length) (drop (Z.to_nat start) data) /\
    GetObjectOutput_content_length o = Some content_length /\ GetObjectOutput_content_range o = content_range /\
    get_output (user_metadata a) a e_tag (if (content_length =? len data)%Z then sums else checksum_default) o.
Proof.
  intros [Hb _] Hk Hty ([t Ho] & (ab & ta & Hma & Ha) & (ib & ti & Hmi & Hi)) Ec Es Hlen.
  destruct (file_blob_read data t start content_length) as (pieces & Hp & Hc).
  assert (El : load_object_attributes root (GetObjectInput_bucket input) (GetObjectInput_key input) None w = Some (w, Ok (Some a))).
  { unfold load_object_attributes, get_metadata_path. rewrite (load_json_found _ _ _ ab ta); [|by apply metadata_name_ok|done]. unfold parse_attributes. by rewrite Ha. }
  assert (Ei : load_internal_info root (GetObjectInput_bucket input) (GetObjectInput_key input) w =
    Some (w, Ok (Some (modify_internal_info (save_e_tag ∅ e_tag) sums)))).
  { unfold load_internal_info, get_internal_info_path. rewrite (load_json_found _ _ _ ib ti); [|apply internal_info_name_ok|done]. unfold parse_info. by rewrite Hi. }
  assert (Hus : (usize_max <? content_length)%Z = false) by (apply Z.ltb_ge; unfold usize_max, i64_max in *; lia).
  assert (Hi64 : (i64_max <? content_length)%Z = false) by (apply Z.ltb_ge; lia).
  unfold get_object. cbv zeta. unfold mbind, ST_bind. rewrite (object_path_of _ _ names) by done. unfold get. unfold object_at_path in Ho.
  unfold stat. rewrite Ho. cbn [lift map_err node_len node_modified]. rewrite Ec.
  unfold fail_if, lift. rewrite Hus, Hi64, Es, El, Ei. unfold stored_e_tag. cbn [option_bind mbind]. unfold mbind, option_bind.
  rewrite load_save_e_tag. unfold mret, ST_ret.
  assert (Er : (if (content_length =? len data)%Z then from_internal_info (modify_internal_info (save_e_tag ∅ e_tag) sums) else Some checksum_default) =
    Some (if (content_length =? len data)%Z then sums else checksum_default)) by (destruct (_ =? _)%Z; [by rewrite info_round_trip|done]).
  rewrite Er. unfold panic_none, mbind, option_bind. eexists _, _, pieces. split; [reflexivity|]. cbn. by split_and!.
Qed.

Lemma get_object_ok input names w data a e_tag sums :
  plain_bucket (GetObjectInput_bucket input) -> plain_key (GetObjectInput_key input) names -> GetObjectInput_range input = None ->
  (len data <= i64_max)%Z -> Checksum_checksum_type sums = None ->
  stored (GetObjectInput_bucket input) (GetObjectInput_key input) names (files w) data a (modify_internal_info (save_e_tag ∅ e_tag) sums) ->
  exists o body pieces, get_object root input w = Some (w, Ok o) /\ GetObjectOutput_body o = Some body /\
    blob_read body = (pieces, None) /\ concat pieces = data /\ GetObjectOutput_content_length o = Some (len data) /\
    get_output (user_metadata a) a e_tag sums o.
Proof.
  intros Hb Hk Hr Hlen Hty Hs. destruct (get_object_from input names w data a e_tag sums (len data) None 0)
    as (o & body & pieces & Eo & Eb & Ep & Ec & El & _ & Hg); [done..|by rewrite Hr|by rewrite Hr|done|].
  rewrite Z.eqb_refl in Hg. exists o, body, pieces. split_and!; try done.
  cbn [Z.to_nat drop] in Ec. rewrite take_ge in Ec; [done|]. unfold len. by rewrite Nat2Z.id.
Qed.

(** ** A put and a get *)

Lemma request_hasher_fresh declared algorithms hasher : request_hasher declared algorithms = Ok hasher -> fresh hasher.
Proof.
  unfold request_hasher. set (step := fun _ _ => _).
  assert (Hgo : forall r, (forall h, r = Ok h -> fresh h) -> foldl step r algorithms = Ok hasher -> fresh hasher).
  { induction algorithms as [|a l IH]; intros r Hr; [apply Hr|]. apply IH. intros h. unfold step.
    destruct r as [h'|]; cbn; [|done]. destruct a; [by apply fresh_algorithm, Hr|intros [= <-]; by apply Hr]. }
  apply Hgo. intros h [= <-]. apply fresh_expected, fresh_default.
Qed.

Lemma metadata_not_info b k : root ++ [metadata_name b k None] <> root ++ [internal_info_name b k].
Proof.
  intros E. apply app_inv_head in E. assert (E' : metadata_name b k None = internal_info_name b k) by congruence. clear E.
  unfold metadata_name, internal_info_name in E'. do 4 apply app_inv_head in E'. cbn in E'. discriminate E'.
Qed.

Lemma sidecar_not_object bucket names x : names <> [] -> root ++ [x] <> object_at_path bucket names.
Proof. intros Hn E. apply app_inv_head in E. injection E as _ E. by symmetry in E. Qed.

(** The same attributes, with the entries of the metadata in some order. *)
Definition same_attributes (m : option Metadata) (a : FsStore.ObjectAttributes) : FsStore.ObjectAttributes :=
  mk_ObjectAttributes m (content_encoding a) (content_type a) (content_disposition a) (content_language a) (cache_control a) (expires a)
    (website_redirect_location a) (FsStore.checksum_algorithm a) (FsStore.checksum_type a).

Lemma string_modify e_tag sums : string_info (modify_internal_info (save_e_tag ∅ e_tag) sums).
Proof.
  assert (Hi : forall k o i, string_info i -> string_info (insert_opt k o i)).
  { intros k o i Hs. destruct o as [v|]; [|done]. apply map_Forall_insert_2; [by eexists|done]. }
  unfold modify_internal_info, save_e_tag. repeat apply Hi. apply map_Forall_insert_2; [by eexists|]. apply map_Forall_empty.
Qed.

Lemma put_file input trailers names w w' s : names <> [] -> put_did input trailers names w w' s ->
  exists t, files w' !! object_at_path (PutObjectInput_bucket input) names = Some (FileNode (concat (st_pieces s)) t).
Proof.
  intros Hn (_ & _ & _ & [[t F] _] & _ & W2 & _ & W3). exists t.
  eapply wrote_keeps; [exact W3| |by apply not_eq_sym, sidecar_not_object|by apply not_eq_sym, object_not_tmp].
  eapply wrote_keeps; [exact W2|done|by apply not_eq_sym, sidecar_not_object|by apply not_eq_sym, object_not_tmp].
Qed.

Lemma put_stored input trailers names w w' s : names <> [] ->
  match PutObjectInput_metadata input with Some m => NoDup (map fst m) | None => True end -> put_did input trailers names w w' s ->
  exists m', option_relation Permutation (fun _ => False) (fun _ => False) m' (PutObjectInput_metadata input) /\
    stored (PutObjectInput_bucket input) (PutObjectInput_key input) names (files w') (concat (st_pieces s)) (same_attributes m' (attributes_of_put input))
      (modify_internal_info (save_e_tag ∅ (hex (checksum Md5 (concat (st_pieces s)))))
        (hasher_finalize (foldl hasher_update (st_hasher s) (st_pieces s)))).
Proof.
  intros Hn Hm Hs. pose proof (put_file _ _ _ _ _ _ Hn Hs) as Hfile. destruct Hs as (_ & _ & _ & _ & Hab & W2 & Hib & W3).
  destruct (attrs_round_trip (attributes_of_put input)) as (ab & Eab & Hr). rewrite Hab in Eab. injection Eab as <-. destruct (Hr Hm) as (m' & Ha & Hp).
  destruct (info_json_round_trip (modify_internal_info (save_e_tag ∅ (hex (checksum Md5 (concat (st_pieces s)))))
    (hasher_finalize (foldl hasher_update (st_hasher s) (st_pieces s))))) as (ib & Eib & Hri). rewrite Hib in Eib. injection Eib as <-.
  exists m'. split; [done|]. pose proof W2 as [[t2 F2] _]. pose proof W3 as [[t3 F3] _]. split; [exact Hfile|split].
  - exists (st_attrs s), t2. split; [|done]. eapply wrote_keeps; [exact W3|done|apply metadata_not_info|].
    apply not_eq_sym. by apply (tmp_not_own _ _ "b"%byte).
  - exists (st_info s), t3. split; [done|]. apply Hri, string_modify.
Qed.

(** C13: an object that was put is read again.  Take a put to a bucket that is one name
    which does not start with a dot, of a key that is a relative path without [.] and [..] and does not
    end with a slash, with metadata whose names are distinct and a body that is read without an error
    and of at most [i64::MAX] bytes.  When it succeeds, a get of the key without a range answers with all the bytes of the body that was sent, their digest as the
    ETag, the attributes and the metadata of the put, and the checksums that the put reported, which
    are those of the body.  (A put of a key that ends with a slash makes a directory instead, and keeps
    neither data nor attributes.) *)
Theorem put_get_roundtrip (input : PutObjectInput) (trailers : option HeaderMap) (names : AbsPath) (w w' : World) (out : PutObjectOutput)
    (get_input : GetObjectInput) (pieces : list bytes) :
  plain_bucket (PutObjectInput_bucket input) -> plain_key (PutObjectInput_key input) names -> ends_with (str "/") (PutObjectInput_key input) = false ->
  match PutObjectInput_metadata input with Some m => NoDup (map fst m) | None => True end ->
  (blob_read <$> PutObjectInput_body input) = Some (pieces, None) -> (len (concat pieces) <= i64_max)%Z ->
  GetObjectInput_bucket get_input = PutObjectInput_bucket input -> GetObjectInput_key get_input = PutObjectInput_key input ->
  GetObjectInput_range get_input = None ->
  put_object root input trailers w = Some (w', Ok out) ->
  exists o body got m hasher, let sums := sums_of hasher (concat pieces) in
    request_hasher (put_checksum input) [PutObjectInput_checksum_algorithm input] = Ok hasher /\ get_object root get_input w' = Some (w', Ok o) /\
    GetObjectOutput_body o = Some body /\ blob_read body = (got, None) /\ concat got = concat pieces /\
    GetObjectOutput_content_length o = Some (len (concat pieces)) /\
    option_relation Permutation (fun _ => False) (fun _ => False) m (PutObjectInput_metadata input) /\
    get_output m (attributes_of_put input) (hex (checksum Md5 (concat pieces))) sums o /\
    put_output (hex (checksum Md5 (concat pieces))) sums out.
Proof.
  intros Hb Hk Hd Hm Hr Hl Eb Ek Hrg E. destruct (put_object_ok _ _ _ _ _ names Hb Hk Hd E) as (s & Hs & Hout).
  destruct Hs as [Hbody Hs]. pose proof Hbody as Hbody'. rewrite Hr in Hbody'. injection Hbody' as ->.
  destruct (put_stored _ _ _ _ _ s (proj2 Hk) Hm (conj Hbody Hs)) as (m' & Hp & Hst).
  destruct (get_object_ok get_input names w' (concat (st_pieces s)) (same_attributes m' (attributes_of_put input))
    (hex (checksum Md5 (concat (st_pieces s)))) (hasher_finalize (foldl hasher_update (st_hasher s) (st_pieces s))))
    as (o & body & got & Eg & Ho & Hbr & Hc & Hcl & Hgo); [by rewrite Eb|by rewrite Ek|done|done|done|by rewrite Eb, Ek|].
  destruct Hs as (Hh & _). rewrite hasher_sums in Hgo, Hout by by eapply request_hasher_fresh.
  exists o, body, got, m', (st_hasher s). by split_and!.
Qed.

(** ** Ranges *)

(** How much of the end of the object is asked for. *)
Definition suffix_of (r : Range) : Z := match r with Suffix length => length | Int _ _ => 0 end.

Lemma content_range_ok r n w start end_ : Range_check r n = Some (Ok (start, end_)) -> (0 <= start <= end_)%Z -> (end_ <= i64_max)%Z ->
  content_range_of (Some r) n w = if (end_ =? 0)%Z then None else Some (w, Ok (end_ - start, Some (fmt_content_range start (end_ - 1) n))%Z).
Proof.
  intros Er Hs He. unfold content_range_of, mbind, ST_bind. rewrite Er. unfold panic_none, mbind, option_bind, lift, map_err, checked. unfold i64_max, u64_max in *.
  rewrite (proj2 (Z.leb_le 0 (end_ - start))), (proj2 (Z.leb_le (end_ - start) _)) by lia. cbn [andb]. rewrite (proj2 (Z.leb_le (end_ - 1) _)) by lia.
  destruct (Z.eqb_spec end_ 0) as [->|]; [done|]. by rewrite (proj2 (Z.leb_le 0 (end_ - 1))) by lia.
Qed.

(** Where the selected bytes start is where the file is read from, but for a suffix that is too long. *)
Lemma range_seek r n w start end_ : range_ok r -> (0 <= n <= i64_max)%Z -> Range_check r n = Some (Ok (start, end_)) ->
  (n < suffix_of r)%Z /\ start = 0%Z /\ end_ = n /\ seek_of (Some r) n w = (if (i64_max <? suffix_of r)%Z then None else Some (w, Err InternalError)) \/
  (suffix_of r <= n)%Z /\ (0 <= start < end_)%Z /\ (end_ <= n)%Z /\ seek_of (Some r) n w = Some (w, Ok start).
Proof.
  intros Hr Hn Er. unfold Range_check, checked in Er. unfold range_ok, i64_max, u64_max in *. destruct r as [first [last|]|length]; cbn [suffix_of seek_of].
  - right. destruct (Z.leb_spec n first); [done|]. rewrite (proj2 (Z.leb_le 0 (n - 1))), (proj2 (Z.leb_le (n - 1) _)) in Er by lia. cbn in Er.
    destruct (Z.ltb_spec (Z.min last (n - 1)) first); [done|].
    rewrite (proj2 (Z.leb_le 0 (Z.min last (n - 1) + 1))), (proj2 (Z.leb_le (Z.min last (n - 1) + 1) _)) in Er by lia. injection Er as <- <-. split_and!; lia || done.
  - right. destruct (Z.leb_spec n first); [done|]. injection Er as <- <-. split_and!; lia || done.
  - destruct (Z.eqb_spec length 0); [done|]. rewrite (proj2 (Z.leb_le 0 (n - Z.min length n))), (proj2 (Z.leb_le (n - Z.min length n) _)) in Er by lia.
    injection Er as <- <-. unfold mbind, ST_bind, panic_none, mbind, option_bind. destruct (Z.ltb_spec n length).
    + left. split_and!; [lia|lia|done|]. rewrite Z.leb_antisym. unfold i64_max. destruct (_ <? length)%Z; [done|]. cbn [negb]. by rewrite (proj2 (Z.ltb_lt (n - length) 0)) by lia.
    + right. rewrite (proj2 (Z.leb_le length _)) by (unfold i64_max; lia). rewrite (proj2 (Z.ltb_ge (n - length) 0)) by lia. rewrite Z.min_l by lia. split_and!; lia || done.
Qed.

(** A length for which the check does not overflow. *)
Lemma range_checked r n : range_ok r -> (0 <= n <= i64_max)%Z -> exists x, Range_check r n = Some x.
Proof.
  intros Hr Hn. unfold Range_check, checked. unfold range_ok, i64_max, u64_max in *. destruct r as [first [last|]|length].
  - destruct (Z.leb_spec n first); [by eexists|]. rewrite (proj2 (Z.leb_le 0 (n - 1))), (proj2 (Z.leb_le (n - 1) _)) by lia. cbn.
    destruct (Z.ltb_spec (Z.min last (n - 1)) first); [by eexists|].
    rewrite (proj2 (Z.leb_le 0 (Z.min last (n - 1) + 1))), (proj2 (Z.leb_le (Z.min last (n - 1) + 1) _)) by lia. by eexists.
  - destruct (Z.leb_spec n first); by eexists.
  - destruct (Z.eqb_spec length 0); [by eexists|]. rewrite (proj2 (Z.leb_le 0 (n - Z.min length n))), (proj2 (Z.leb_le (n - Z.min length n) _)) by lia. by eexists.
Qed.

Lemma get_object_stops input names w data a info : plain_bucket (GetObjectInput_bucket input) -> plain_key (GetObjectInput_key input) names ->
  stored (GetObjectInput_bucket input) (GetObjectInput_key input) names (files w) data a info ->
  match content_range_of (GetObjectInput_range input) (len data) w with
  | Some (w', Ok (content_length, _)) => (content_length <= i64_max)%Z ->
      match seek_of (GetObjectInput_range input) (len data) w' with
      | Some (_, Ok _) => True
      | Some (w'', Err e) => get_object root input w = Some (w'', Err e)
      | None => get_object root input w = None
      end
  | Some (w', Err e) => get_object root input w = Some (w', Err e)
  | None => get_object root input w = None
  end.
Proof.
  intros [Hb _] Hk ([t Ho] & _). unfold get_object. cbv zeta. unfold mbind, ST_bind. rewrite (object_path_of _ _ names) by done. unfold get.
  unfold object_at_path in Ho. unfold stat. rewrite Ho. cbn [lift map_err node_len node_modified].
  destruct (content_range_of _ _ w) as [[w' [[n c]|e]]|]; [|done..]. intros Hn. unfold fail_if, lift.
  rewrite (proj2 (Z.ltb_ge usize_max n)), (proj2 (Z.ltb_ge i64_max n)) by (unfold usize_max, i64_max in *; lia).
  by destruct (seek_of _ _ w') as [[w'' []]|].
Qed.

(** C40: a get with a range answers with that range.  When the range can be satisfied the body is the
    bytes from the first to the last position of it, and the length and the [Content-Range] say which;
    a range that cannot be satisfied is refused as [InvalidRange].  The exception is a suffix longer
    than the object: the whole object would satisfy it, but the get fails with [InternalError], or
    panics when the object is empty or the suffix is beyond the range of the file offsets. *)
Theorem get_object_range (input : GetObjectInput) (r : Range) (names : AbsPath) (w : World) (data : bytes) (a : FsStore.ObjectAttributes)
    (e_tag : bytes) (sums : Checksum) :
  plain_bucket (GetObjectInput_bucket input) -> plain_key (GetObjectInput_key input) names -> GetObjectInput_range input = Some r ->
  range_ok r -> (len data <= i64_max)%Z -> Checksum_checksum_type sums = None ->
  stored (GetObjectInput_bucket input) (GetObjectInput_key input) names (files w) data a (modify_internal_info (save_e_tag ∅ e_tag) sums) ->
  match Range_check r (len data) with
  | None => False
  | Some (Err _) => get_object root input w = Some (w, Err InvalidRange)
  | Some (Ok (start, end_)) =>
      if (len data <? suffix_of r)%Z then get_object root input w = if (len data =? 0)%Z || (i64_max <? suffix_of r)%Z then None else Some (w, Err InternalError)
      else exists o body pieces, get_object root input w = Some (w, Ok o) /\ GetObjectOutput_body o = Some body /\ blob_read body = (pieces, None) /\
        concat pieces = take (Z.to_nat (end_ - start)) (drop (Z.to_nat start) data) /\ GetObjectOutput_content_length o = Some (end_ - start)%Z /\
        GetObjectOutput_content_range o = Some (fmt_content_range start (end_ - 1) (len data)) /\ GetObjectOutput_e_tag o = Some (Strong e_tag)
  end.
Proof.
  intros Hb Hk Hr Hok Hlen Hty Hst. pose proof (get_object_stops _ _ _ _ _ _ Hb Hk Hst) as Hstop. rewrite Hr in Hstop.
  assert (Hn : (0 <= len data <= i64_max)%Z) by (unfold len in *; lia).
  destruct (range_checked r (len data) Hok Hn) as [[[start end_]|x] Er]; rewrite Er.
  2: { unfold content_range_of, mbind, ST_bind in Hstop. rewrite Er in Hstop. exact Hstop. }
  destruct (range_seek _ _ w _ _ Hok Hn Er) as [(Hlt & -> & -> & Es)|(Hle & Hs & He & Es)].
  - rewrite (content_range_ok _ _ _ _ _ Er) in Hstop by lia. rewrite (proj2 (Z.ltb_lt _ _) Hlt). destruct (len data =? 0)%Z; [exact Hstop|]. cbn [orb].
    cbv beta iota in Hstop. rewrite Es in Hstop. destruct (i64_max <? suffix_of r)%Z; apply Hstop; lia.
  - rewrite (proj2 (Z.ltb_ge _ _) Hle). destruct (get_object_from input names w data a e_tag sums (end_ - start)
      (Some (fmt_content_range start (end_ - 1) (len data))) start) as (o & body & pieces & Eo & Eb & Ep & Ec & El & Ecr & Hg); try done.
    + rewrite Hr, (content_range_ok _ _ _ _ _ Er) by lia. destruct (Z.eqb_spec end_ 0); [lia|done].
    + by rewrite Hr.
    + lia.
    + exists o, body, pieces. destruct Hg as (_ & _ & _ & _ & _ & _ & _ & _ & He' & _). by split_and!.
Qed.

(** ** A put that fails *)

Lemma bind_err {A B} (m : FS A) (k : A -> FS B) w w' e :
  (m ≫= k) w = Some (w', Err e) -> m w = Some (w', Err e) \/ exists w1 a, m w = Some (w1, Ok a) /\ k a w1 = Some (w', Err e).
Proof. unfold mbind, ST_bind. destruct (m w) as [[w1 [a|e']]|]; [eauto|intros [= -> ->]; by left|done]. Qed.

(** The only error of the handler is an internal one. *)
Definition internal {A} (m : FS A) : Prop := forall w w' e, m w = Some (w', Err e) -> e = InternalError.

Lemma internal_bind {A B} (m : FS A) (k : A -> FS B) : internal m -> (forall a, internal (k a)) -> internal (m ≫= k).
Proof. intros Hm Hk w w' e [E|(w1 & a & _ & E)]%bind_err; [by eapply Hm|by eapply Hk]. Qed.
Lemma internal_io step : internal (io step).
Proof. intros w w' e. unfold io. destruct (step (files w)); [done|]. by intros [= _ <-]. Qed.
Lemma internal_io_now step : internal (io_now step).
Proof. apply internal_bind; [done|]. intros t. apply internal_io. Qed.
Lemma internal_resolve p : internal (resolve_abs_path root p).
Proof. intros w w' e. unfold resolve_abs_path, lift, try_. destruct (absolutize_virtually p root); [done|]. by intros [= _ <-]. Qed.
Lemma internal_drop {A} tmp (m : FS A) : internal m -> internal (drop_writer tmp m).
Proof. intros Hm w w' e. unfold drop_writer. destruct (m w) as [[w1 [a|e']]|] eqn:E; [done| |done]. intros [= _ <-]. by eapply Hm. Qed.
Lemma internal_done tmp dest : internal (file_writer_done tmp dest).
Proof. unfold file_writer_done. apply internal_bind; [|intros _; apply internal_io]. destruct (parent dest); [apply internal_io_now|done]. Qed.
Lemma internal_file_writer {A} dest (write : AbsPath -> FS A) : (forall tmp, internal (write tmp)) -> internal (with_file_writer root dest write).
Proof.
  intros Hw. unfold with_file_writer. apply internal_bind; [done|]. intros n. apply internal_bind; [apply internal_resolve|]. intros tmp.
  apply internal_bind; [apply internal_io_now|]. intros _. apply internal_drop, internal_bind; [done|]. intros a. apply internal_bind; [apply internal_done|done].
Qed.
Lemma internal_save path content : internal path -> internal (save_json root path content).
Proof.
  intros Hp. unfold save_json. apply internal_bind; [done|]. intros p. apply internal_bind.
  - intros w w' e. unfold lift, ok_or. destruct content; [done|]. by intros [= _ <-].
  - intros c. apply internal_file_writer. intros tmp. apply internal_io_now.
Qed.

(** The temporary file is gone when writing failed, and nothing else was touched. *)
Lemma file_writer_err {A} dest (write : AbsPath -> FS A) w w' e : let tmp := root ++ [tmp_name (tmp_file_counter w)] in
  (forall v v', write tmp v = Some (v', Err e) -> files v' = files v \/ exists n, files v' = <[tmp := FileNode n.1 n.2]> (files v)) ->
  with_file_writer root dest write w = Some (w', Err e) -> e <> InternalError -> files w !! tmp = None -> files w' = files w.
Proof.
  intros tmp Hw E He Htmp. unfold with_file_writer in E. apply bind_err in E as [E|(w1 & n & En & E)]; [done|]. injection En as <- <-.
  apply bind_err in E as [E|(w2 & q & Eq & E)]; [by apply internal_resolve in E|]. rewrite resolve_name in Eq by apply tmp_name_ok. injection Eq as <- <-.
  apply bind_err in E as [E|(w3 & u & E3 & E)]; [by apply internal_io_now in E|]. apply io_now_ok in E3 as [t3 E3%write_file_ok]. cbn [files] in E3. fold tmp in E3, E.
  unfold drop_writer in E. destruct ((a ← write tmp; file_writer_done tmp dest;; mret a) w3) as [[w4 [a|e4]]|] eqn:Em; [done| |done].
  injection E as <- <-. apply bind_err in Em as [Em|(w5 & a & _ & Em)].
  2: { apply bind_err in Em as [Em|(w6 & u' & _ & Em)]; [by apply internal_done in Em|done]. }
  assert (Hf : exists n, files w4 = <[tmp := FileNode n.1 n.2]> (files w)).
  { destruct (Hw _ _ Em) as [->|[n ->]]; rewrite E3; [by exists ([], t3)|exists n]. by rewrite insert_insert_eq. }
  destruct Hf as [n Hf]. unfold remove_file, stat. rewrite Hf, lookup_insert_eq. cbn. by rewrite delete_insert_eq, delete_id.
Qed.

Lemma put_body_err input trailers hasher body tmp w w' e : put_body input trailers hasher body tmp w = Some (w', Err e) ->
  e = InternalError \/ files w' = files w \/ exists n, files w' = <[tmp := FileNode n.1 n.2]> (files w).
Proof.
  unfold put_body. intros [E|(w1 & pieces & E1 & E)]%bind_err.
  - unfold copy_bytes in E. destruct (blob_read body) as [l [er|]]; [injection E as <- _; by right; left|].
    apply bind_err in E as [E|(w2 & u & _ & E)]; [left; by apply internal_io_now in E|done].
  - apply copy_bytes_ok in E1 as [_ [t Hf]]. cbv zeta in E.
    assert (w' = w1) as -> by (revert E; apply reading_bind; [apply reads_lift|]; intros _; apply reading_bind; [apply reads_lift|]; intros d;
      apply reading_bind; [apply reads_lift|]; intros _; apply reads_ret). right. right. by exists (concat pieces, t).
Qed.

(** The name of the next temporary file is not taken. *)
Definition tmp_free (w : World) : Prop := files w !! (root ++ [tmp_name (tmp_file_counter w)]) = None.

(** C16: a put that is refused changes nothing.  When a put fails for a reason other than a failure
    of the system, such as a digest or a checksum that is not that of the body, an error while the
    body is read, or a precondition, every file is as it was: the object that was there is kept, and
    no partial data is left. *)
Theorem put_failed_unchanged (input : PutObjectInput) (trailers : option HeaderMap) (w w' : World) (e : S3ErrorCode) :
  put_object root input trailers w = Some (w', Err e) -> e <> InternalError -> tmp_free w -> files w' = files w.
Proof.
  intros E He Htmp. unfold put_object in E. cbv zeta in E.
  apply bind_err in E as [E|(w1 & u1 & E1 & E)]; [by apply reads_fail in E as ->|]. apply fail_if_ok in E1 as [-> _].
  apply bind_err in E as [E|(w2 & body & E2 & E)]; [by apply reads_lift in E as ->|]. apply lift_ok in E2 as [-> _].
  apply bind_err in E as [E|(w3 & q & E3 & E)]; [by apply reads_object_path in E as ->|]. apply reads_object_path in E3 as ->.
  apply bind_err in E as [E|(w4 & u4 & E4 & E)]; [by apply reads_if_none_match in E as ->|]. apply reads_if_none_match in E4 as ->.
  apply bind_err in E as [E|(w5 & u5 & E5 & E)]; [by apply reads_if_match in E as ->|]. apply reads_if_match in E5 as ->.
  apply bind_err in E as [E|(w6 & hasher & E6 & E)]; [by apply reads_lift in E as ->|]. apply lift_ok in E6 as [-> _].
  destruct (ends_with (str "/") (PutObjectInput_key input)).
  - apply bind_err in E as [E|(w7 & u7 & E7 & E)]; [by apply reads_fail in E as ->|]. apply fail_if_ok in E7 as [-> _].
    apply bind_err in E as [E|(w8 & u8 & _ & E)]; [by apply internal_io_now in E|done].
  - apply bind_err in E as [E|(w7 & [md5_sum ck] & _ & E)].
    + eapply file_writer_err; [|exact E|done|done]. intros v v' Ev. apply put_body_err in Ev as [?|Ev]; done.
    + apply bind_err in E as [E|(w8 & u8 & _ & E)]; [by apply internal_save in E; [|apply internal_resolve]|].
      apply bind_err in E as [E|(w9 & u9 & _ & E)]; [by apply internal_save in E; [|apply internal_resolve]|done].
Qed.

(** ** Handlers that answer alike in two stores *)

(** The handler only reads, and answers the same in both. *)
Definition agree {A} (w w' : World) (m m' : FS A) : Prop := exists o, m w = pair w <$> o /\ m' w' = pair w' <$> o.

Section Agree.
Context (w w' : World).
Implicit Types (A B : Type).

Lemma agree_bind {A B} (m m' : FS A) (k k' : A -> FS B) : agree w w' m m' -> (forall a, agree w w' (k a) (k' a)) -> agree w w' (m ≫= k) (m' ≫= k').
Proof.
  intros (o & E & E') Hk. unfold agree, mbind, ST_bind. rewrite E, E'. destruct o as [[a|e]|]; cbn; [apply Hk|by exists (Some (Err e))|by exists None].
Qed.
Lemma agree_known {A B} (m m' : FS A) (k k' : A -> FS B) a : m w = Some (w, Ok a) -> m' w' = Some (w', Ok a) -> agree w w' (k a) (k' a) ->
  agree w w' (m ≫= k) (m' ≫= k').
Proof. intros E E' Hk. unfold agree, mbind, ST_bind. by rewrite E, E'. Qed.
Lemma agree_lift {A} (r : result S3ErrorCode A) : agree w w' (lift r) (lift r).
Proof. by exists (Some r). Qed.
Lemma agree_ret {A} (a : A) : agree w w' (mret a) (mret a).
Proof. by exists (Some (Ok a)). Qed.
Lemma agree_panic {A} (o : option A) : agree w w' (panic_none o) (panic_none o).
Proof. exists (Ok <$> o). unfold panic_none. by destruct o. Qed.
Lemma agree_fail b e : agree w w' (fail_if b e) (fail_if b e).
Proof. apply agree_lift. Qed.
Lemma agree_get {B} (k : World -> FS B) : agree w w' (k w) (k w') -> agree w w' (get ≫= k) (get ≫= k).
Proof. intros (o & E & E'). exists o. done. Qed.
Hint Resolve agree_lift agree_ret agree_panic agree_fail : agreeing.

Lemma agree_load {A} x (parse : bytes -> result S3ErrorCode (option A)) : name_ok x = true -> files w' !! (root ++ [x]) = files w !! (root ++ [x]) ->
  agree w w' (load_json (resolve_abs_path root x) parse) (load_json (resolve_abs_path root x) parse).
Proof.
  intros Hx Hl. unfold agree, load_json, mbind, ST_bind. rewrite !resolve_name by done. unfold exists_, mbind, ST_bind, get, path_exists, stat. rewrite Hl.
  destruct (files w !! (root ++ [x])) as [n|] eqn:E; [|by exists (Some (Ok None))]. cbn. unfold io_, read_file, stat. rewrite Hl, E. cbn.
  destruct n as [data t|t]; [by exists (Some (parse data))|by exists (Some (Err InternalError))].
Qed.

Lemma agree_md5 b k names : name_ok b = true -> plain_key k names -> files w' !! object_at_path b names = files w !! object_at_path b names ->
  agree w w' (get_md5_sum root b k) (get_md5_sum root b k).
Proof.
  intros Hb Hk Hl. unfold get_md5_sum, agree, mbind, ST_bind. rewrite !(object_path_of _ _ names) by done. unfold io_, read_file, stat. unfold object_at_path in Hl.
  rewrite Hl. destruct (files w !! (root ++ b :: names)) as [[data t|t]|]; cbn; [by eexists (Some (Ok _))|by exists (Some (Err InternalError))..].
Qed.

(** A get depends on the object and its two other files. *)
Lemma agree_get_object input names : plain_bucket (GetObjectInput_bucket input) -> plain_key (GetObjectInput_key input) names ->
  let p := object_at_path (GetObjectInput_bucket input) names in
  let m := root ++ [metadata_name (GetObjectInput_bucket input) (GetObjectInput_key input) None] in
  let i := root ++ [internal_info_name (GetObjectInput_bucket input) (GetObjectInput_key input)] in
  files w' !! p = files w !! p -> files w' !! m = files w !! m -> files w' !! i = files w !! i -> is_dir (files w) p = false ->
  agree w w' (get_object root input) (get_object root input).
Proof.
  intros [Hb _] Hk p m i Hp Hm Hi Hd. unfold get_object. cbv zeta.
  eapply agree_known; [by apply object_path_of|by apply object_path_of|]. fold (object_at_path (GetObjectInput_bucket input) names). fold p.
  apply agree_get. unfold stat. rewrite Hp. unfold is_dir in Hd. destruct (files w !! p) as [[data t|t]|] eqn:E; [|done|].
  2: { exists (Some (Err NoSuchKey)). done. }
  eapply agree_known; [reflexivity|reflexivity|]. cbn [node_len node_modified]. apply agree_bind.
  { unfold content_range_of. destruct (GetObjectInput_range input); [|apply agree_ret]. apply agree_bind; [apply agree_panic|]. intros rg.
    apply agree_bind; [apply agree_lift|]. intros [first last]. do 2 (apply agree_bind; [apply agree_panic|intros ?]). apply agree_ret. }
  intros [content_length content_range]. do 2 (apply agree_bind; [apply agree_fail|intros _]). apply agree_bind.
  { unfold seek_of. destruct (GetObjectInput_range input) as [[]|]; eauto with agreeing. apply agree_bind; [apply agree_panic|]. intros n.
    destruct (_ <? _)%Z; eauto with agreeing. }
  intros start. apply agree_bind; [by apply agree_load; [apply metadata_name_ok|]|]. intros attrs.
  apply agree_bind; [apply agree_load; [apply internal_info_name_ok|done]|]. intros info. apply agree_bind.
  { unfold stored_e_tag. destruct (info ≫= load_e_tag); [apply agree_ret|]. apply (agree_md5 _ _ names); [done|done|]. fold p. congruence. }
  intros md5_sum. apply agree_bind; [apply agree_panic|]. intros ck. apply agree_ret.
Qed.
End Agree.

(** ** A put leaves other objects alone *)

Lemma dot_split (a b x y : bytes) : "."%byte ∉ a -> "."%byte ∉ b -> a ++ "."%byte :: x = b ++ "."%byte :: y -> a = b /\ x = y.
Proof.
  intros Ha Hb E. pose proof (proj2 (split_once_Some "."%byte (a ++ "."%byte :: x) a x) (conj eq_refl Ha)) as Hs. rewrite E in Hs.
  rewrite (proj2 (split_once_Some "."%byte (b ++ "."%byte :: y) b y) (conj eq_refl Hb)) in Hs. by injection Hs.
Qed.
Lemma no_dot_url s : "."%byte ∉ url_encode_to_string s.
Proof.
  intros Hin. pose proof (url_encode_chars s) as Hf. rewrite forallb_forall in Hf. apply list_elem_of_In, Hf in Hin. done.
Qed.

(** The files kept of two objects have different names. *)
Lemma own_names b k b' k' e e' : (b, k) <> (b', k') ->
  str ".bucket-" ++ url_encode_to_string b ++ str ".object-" ++ url_encode_to_string k ++ "."%byte :: e <>
  str ".bucket-" ++ url_encode_to_string b' ++ str ".object-" ++ url_encode_to_string k' ++ "."%byte :: e'.
Proof.
  intros Hne E. apply app_inv_head in E. change (str ".object-") with ("."%byte :: str "object-") in E. cbn [app] in E.
  apply dot_split in E as [E1 E2]; [|apply no_dot_url..]. cbn in E2. injection E2 as E2. apply dot_split in E2 as [E2 _]; [|apply no_dot_url..].
  apply Hne. f_equal; by apply url_encode_inj.
Qed.

Lemma wrote_other tmp dest content fs fs' p : wrote tmp dest content fs fs' -> p <> tmp -> p <> dest -> above p dest = false -> fs' !! p = fs !! p.
Proof. intros [_ Hw] H1 H2 H3. destruct (Hw p H2 H1) as [->|(_ & Ha & _)]; [done|]. by rewrite H3 in Ha. Qed.

Lemma name_not_above x y : x <> y -> above (root ++ [x]) (root ++ [y]) = false.
Proof.
  intros Hne. apply not_true_iff_false. intros [r E]%above_iff. rewrite <- app_assoc in E. apply app_inv_head in E. injection E as E _. done.
Qed.
Lemma object_not_above b names x : names <> [] -> above (object_at_path b names) (root ++ [x]) = false.
Proof.
  intros Hn. apply not_true_iff_false. intros [r E]%above_iff. unfold object_at_path in E. rewrite <- app_assoc in E. apply app_inv_head in E.
  injection E as _ E. destruct names; done.
Qed.
Lemma own_not_above x c b names : x = "."%byte :: c :: drop 2 x -> plain_bucket b -> above (root ++ [x]) (object_at_path b names) = false.
Proof.
  intros Hx [_ Hb]. apply not_true_iff_false. intros [r E]%above_iff. unfold object_at_path in E. rewrite <- app_assoc in E. apply app_inv_head in E.
  injection E as E _. rewrite E, Hx in Hb. done.
Qed.

(** What is apart from the files of the object is as it was. *)
Lemma put_keeps input trailers names w w' s p : put_did input trailers names w w' s -> (forall n, p <> root ++ [tmp_name n]) ->
  above p (object_at_path (PutObjectInput_bucket input) names) = false ->
  (forall x, x = metadata_name (PutObjectInput_bucket input) (PutObjectInput_key input) None \/
    x = internal_info_name (PutObjectInput_bucket input) (PutObjectInput_key input) -> above p (root ++ [x]) = false) ->
  files w' !! p = files w !! p.
Proof.
  intros (_ & _ & _ & W1 & _ & W2 & _ & W3) H1 H2 H3.
  assert (Hne : forall q, above p q = false -> p <> q) by (intros q Hq ->; by rewrite above_refl in Hq).
  rewrite (wrote_other _ _ _ _ _ _ W3); [|done|apply Hne|]; [|by apply H3; right..].
  rewrite (wrote_other _ _ _ _ _ _ W2); [|done|apply Hne|]; [|by apply H3; left..].
  rewrite (wrote_other _ _ _ _ _ _ W1); [done|done|by apply Hne|done].
Qed.

Lemma put_keeps_own input trailers names w w' s b k e : plain_bucket (PutObjectInput_bucket input) -> put_did input trailers names w w' s ->
  (b, k) <> (PutObjectInput_bucket input, PutObjectInput_key input) ->
  let p := root ++ [str ".bucket-" ++ url_encode_to_string b ++ str ".object-" ++ url_encode_to_string k ++ "."%byte :: e] in
  files w' !! p = files w !! p.
Proof.
  intros Hb Hs Hne p. apply (put_keeps _ _ _ _ _ _ _ Hs).
  - intros n. apply not_eq_sym. by apply (tmp_not_own _ _ "b"%byte).
  - by apply (own_not_above _ "b"%byte).
  - intros x [-> | ->]; apply name_not_above; by apply own_names.
Qed.

Lemma map_Normal_inj l l' : map Normal l = map Normal l' -> l = l'.
Proof. revert l'. induction l as [|x l IH]; intros [|y l']; cbn; [done..|]. intros [= -> El]. f_equal. by apply IH. Qed.

(** C39: a put does not change other objects.  Take a successful put of a key that does not end with a
    slash, and a get of another key, of any bucket; both buckets are names that do not start
    with a dot, and both keys are relative paths without [.] and [..].  When the path that the other
    key resolves to is neither that of the object (as for [a//b] and [a/b]) nor of a directory on the
    way to it, and was no directory before, the get answers as it did before, with the same data,
    attributes and errors. *)
Theorem put_isolated (input : PutObjectInput) (trailers : option HeaderMap) (names : AbsPath) (w w' : World) (out : PutObjectOutput)
    (other : GetObjectInput) (names' : AbsPath) :
  plain_bucket (PutObjectInput_bucket input) -> plain_key (PutObjectInput_key input) names -> ends_with (str "/") (PutObjectInput_key input) = false ->
  plain_bucket (GetObjectInput_bucket other) -> plain_key (GetObjectInput_key other) names' ->
  put_object root input trailers w = Some (w', Ok out) ->
  above (object_at_path (GetObjectInput_bucket other) names') (object_at_path (PutObjectInput_bucket input) names) = false ->
  is_dir (files w) (object_at_path (GetObjectInput_bucket other) names') = false ->
  exists r, get_object root other w = pair w <$> r /\ get_object root other w' = pair w' <$> r.
Proof.
  intros Hb Hk Hd Hb' Hk' E Ha Hdir. destruct (put_object_ok _ _ _ _ _ names Hb Hk Hd E) as (s & Hs & _).
  assert (Hbk : (GetObjectInput_bucket other, GetObjectInput_key other) <> (PutObjectInput_bucket input, PutObjectInput_key input)).
  { intros Eq. injection Eq as E1 E2. destruct Hk as [Hk _], Hk' as [Hk' _]. rewrite <- E2, Hk' in Hk. apply map_Normal_inj in Hk as ->.
    rewrite E1, above_refl in Ha. done. }
  apply (agree_get_object w w' other names'); [done|done|..|done].
  - apply (put_keeps _ _ _ _ _ _ _ Hs); [intros n; by apply not_eq_sym, object_not_tmp, Hk'|done|]. intros x _. apply object_not_above, Hk'.
  - exact (put_keeps_own _ _ _ _ _ s _ _ (str "metadata.json") Hb Hs Hbk).
  - exact (put_keeps_own _ _ _ _ _ s _ _ (str "internal.json") Hb Hs Hbk).
Qed.
End Props.

(** ** The theorems on a small store *)

#[local] Existing Instance fs_reference.

Lemma photos_plain : plain_bucket (str "photos").
Proof. split; vm_compute; reflexivity. Qed.
Lemma cat_plain : plain_key (str "a/cat.png") [str "a"; str "cat.png"].
Proof. split; [vm_compute; reflexivity|done]. Qed.

Lemma put_get_roundtrip_witness : exists o body got, @get_object fs_reference w_root get_cat w_cat = Some (w_cat, Ok o) /\
  GetObjectOutput_body o = Some body /\ blob_read body = (got, None) /\ concat got = str "meow".
Proof.
  destruct (succeeds_after (@put_object fs_reference w_root put_cat None) w_bucket eq_refl) as [out E].
  destruct (@put_get_roundtrip fs_reference w_root put_cat None [str "a"; str "cat.png"] w_bucket w_cat out get_cat [str "meow"]
    photos_plain cat_plain eq_refl I eq_refl ltac:(done) eq_refl eq_refl eq_refl E) as (o & body & got & m & h & _ & Eo & Eb & Er & Ec & _).
  exists o, body, got. split; [exact Eo|]. split; [exact Eb|]. split; [exact Er|exact Ec].
Defined.

Lemma cat_stored : exists a e_tag sums, Checksum_checksum_type sums = None /\
  @stored fs_reference w_root (str "photos") (str "a/cat.png") [str "a"; str "cat.png"] (files w_cat) (str "meow")
    a (modify_internal_info (save_e_tag ∅ e_tag) sums).
Proof.
  destruct (succeeds_after (@put_object fs_reference w_root put_cat None) w_bucket eq_refl) as [out E].
  destruct (@put_object_ok fs_reference w_root put_cat None w_bucket w_cat out [str "a"; str "cat.png"] photos_plain cat_plain eq_refl E) as (s & Hs & _).
  destruct (@put_stored fs_reference w_root put_cat None _ w_bucket w_cat s (proj2 cat_plain) I Hs) as (m & _ & Hst). destruct Hs as [Hp _]. injection Hp as Hp.
  rewrite <- Hp in Hst. eexists _, _, _. split; [|exact Hst]. done.
Qed.

(** The second and third byte of the object. *)
Lemma get_object_range_witness : exists o body pieces, @get_object fs_reference w_root get_middle w_cat = Some (w_cat, Ok o) /\
  GetObjectOutput_body o = Some body /\ blob_read body = (pieces, None) /\ concat pieces = str "eo".
Proof.
  destruct cat_stored as (a & e_tag & sums & Hty & Hst).
  pose proof (@get_object_range fs_reference w_root get_middle (Int 1 (Some 2%Z)) [str "a"; str "cat.png"] w_cat (str "meow") a e_tag sums
    photos_plain cat_plain eq_refl ltac:(repeat split; discriminate) ltac:(done) Hty Hst) as Hg. cbn in Hg.
  destruct Hg as (o & body & pieces & Eo & Eb & Er & Ec & _). exists o, body, pieces. split; [exact Eo|]. split; [exact Eb|]. split; [exact Er|exact Ec].
Defined.

(** The checksum of the request is not that of the body. *)
Lemma put_failed_unchanged_witness : @put_object fs_reference w_root put_wrong None w_cat =
    Some (after (@put_object fs_reference w_root put_wrong None) w_cat, Err BadDigest) /\
  files (after (@put_object fs_reference w_root put_wrong None) w_cat) = files w_cat.
Proof.
  assert (E : refused (@put_object fs_reference w_root put_wrong None) w_cat = Some BadDigest) by (vm_compute; reflexivity).
  apply refused_after in E. split; [exact E|].
  apply (@put_failed_unchanged fs_reference w_root put_wrong None w_cat _ BadDigest E); [discriminate|vm_compute; reflexivity].
Defined.

Lemma put_isolated_witness : exists r, @get_object fs_reference w_root get_cat w_cat = pair w_cat <$> r /\
  @get_object fs_reference w_root get_cat w_two = pair w_two <$> r.
Proof.
  destruct (succeeds_after (@put_object fs_reference w_root put_bird None) w_cat eq_refl) as [out E].
  assert (Hk : plain_key (str "bird.png") [str "bird.png"]) by (split; [vm_compute; reflexivity|done]).
  apply (@put_isolated fs_reference w_root put_bird None [str "bird.png"] w_cat w_two out get_cat [str "a"; str "cat.png"]
    photos_plain Hk eq_refl photos_plain cat_plain E); vm_compute; reflexivity.
Defined.
