(* ===== verification/FsMultipart.v ===== *)
(** * Multipart uploads: what a completed upload is (crates/s3s-fs/src/s3.rs)

    The loop over the parts reads the file of each part and appends it to the object; a completed
    upload is the parts of the upload, in order and without gaps. *)

From stdpp Require Import gmap.
From S2P Require Import Prelude.
From S2P Require Import Str.
From S2P Require Import ErrorCode.
From S2P Require Import Handler.
From S2P Require Import Authorization.
From S2P Require Import SigV2.
From S2P Require Import SignatureCheck.
From S2P Require Import Stream.
From S2P Require Import Body.
From S2P Require Import Blob.
From S2P Require Import Request.
From S2P Require Import Range.
From S2P Require Import ETag.
From S2P Require Import Timestamp.
From S2P Require Import Xml.
From S2P Require Import XmlDtoA.
From S2P Require Import XmlDtoC.
From S2P Require Import XmlOutputs.
From S2P Require Import Rfc2047.
From S2P Require Import HttpDe.
From S2P Require Import OpsTypes.
From S2P Require Import FsTree.
From S2P Require Import Checksums.
From S2P Require Import FsList.
From S2P Require Import FsStore.
From S2P Require Import FsObjects.
From S2P Require Import FsUploads.
From S2P Require Import FsReference.
From S2P Require Import FsSamples.
From S2P Require Import FsFrame.
From S2P Require Import FsProps.

Section Multipart.
Context `{FsDeps} (root : AbsPath).
Abbreviation FS := (ST World).

(** ** The parts *)

Definition part_file (upload_id : Uuid) (n : Z) : AbsPath := root ++ [upload_part_name upload_id n].

(** The part has the number [n], its file has [data], and it is large enough or the last. *)
Definition part_of (fs : Files) (upload_id : Uuid) (total n : Z) (part : CompletedPart) (data : bytes) : Prop :=
  CompletedPart_part_number part = Some n /\ (exists t, fs !! part_file upload_id n = Some (FileNode data t)) /\ (n = total \/ (MIN_PART <= len data)%Z).

(** The parts from the number [n] on. *)
Fixpoint parts_of (fs : Files) (upload_id : Uuid) (total n : Z) (parts : list CompletedPart) (datas : list bytes) : Prop :=
  match parts, datas with
  | [], [] => True
  | part :: parts', data :: datas' => part_of fs upload_id total n part data /\ parts_of fs upload_id total (n + 1) parts' datas'
  | _, _ => False
  end.

Definition part_digest (data : bytes) : bytes := checksum Md5 data.

Lemma part_path_of upload_id n w : length upload_id = 16 -> resolve_upload_part_path root upload_id n w = Some (w, Ok (part_file upload_id n)).
Proof. intros Hu. apply resolve_name, upload_part_name_ok, Hu. Qed.

Lemma read_file_ok fs p data : read_file fs p = Ok data -> exists t, fs !! p = Some (FileNode data t).
Proof. unfold read_file. destruct (stat fs p) as [[]|] eqn:E; [|done|done]. intros [= ->]. apply stat_ok in E. eauto. Qed.

Lemma io_read_ok w w' p data : io_ (fun fs => read_file fs p) w = Some (w', Ok data) -> w' = w /\ exists t, files w !! p = Some (FileNode data t).
Proof.
  unfold io_, try_. destruct (read_file (files w) p) eqn:E; cbn; [|done]. intros [= <- ->]. split; [done|]. by apply read_file_ok.
Qed.

(** One turn of the loop. *)
Lemma assemble_part_ok u total tmp a part w w' a' : length u = 16 -> assemble_part root u total tmp a part w = Some (w', Ok a') ->
  exists data t, part_of (files w) u total (as_cnt a + 1) part data /\ files w' = <[tmp := FileNode (as_content a') t]> (files w) /\
    as_cnt a' = (as_cnt a + 1)%Z /\ as_content a' = as_content a ++ data /\ as_hasher a' = foldl hasher_update (as_hasher a) (read_pieces data) /\
    as_md5_hashes a' = as_md5_hashes a ++ [part_digest data] /\ as_completed a' = as_completed a ++ [(as_cnt a + 1, part_file u (as_cnt a + 1))%Z].
Proof.
  intros Hu E. unfold assemble_part in E. cbv zeta in E.
  apply M_bind_ok in E as (w1 & n & E1 & E). apply lift_ok in E1 as [-> Hn%ok_or_Ok].
  apply M_bind_ok in E as (w2 & u2 & E2 & E). apply fail_if_ok in E2 as [-> Hc%negb_false_iff%Z.eqb_eq]. subst n.
  apply M_bind_ok in E as (w3 & q & E3 & E). rewrite part_path_of in E3 by done. injection E3 as <- <-.
  apply M_bind_ok in E as (w4 & i & E4 & E). apply reads_load_part_info in E4 as ->.
  apply M_bind_ok in E as (w5 & sv & E5 & E). apply panic_none_ok in E5 as [-> _].
  apply M_bind_ok in E as (w6 & u6 & E6 & E). apply fail_if_ok in E6 as [-> _].
  apply M_bind_ok in E as (w7 & data & E7 & E). apply io_read_ok in E7 as [-> Hf].
  apply M_bind_ok in E as (w8 & u8 & E8 & E). apply io_now_ok in E8 as [t E8%write_file_ok].
  apply M_bind_ok in E as (w9 & u9 & E9 & E). apply fail_if_ok in E9 as [-> Hmin]. apply M_ret_ok in E as [-> ->].
  exists data, t. unfold part_of. cbn [as_cnt as_content as_hasher as_md5_hashes as_completed]. split_and!; try done.
  - apply andb_false_iff in Hmin as [Hm|Hm]; [left; by apply negb_false_iff, Z.eqb_eq in Hm|right; by apply Z.ltb_ge in Hm].
  - f_equal. f_equal. unfold part_digest. rewrite <- (read_pieces_concat data) at 2. exact (ck_pieces Md5 (read_pieces data)).
Qed.

Lemma part_of_insert fs u total n part data tmp x : tmp <> part_file u n -> part_of (<[tmp := x]> fs) u total n part data -> part_of fs u total n part data.
Proof. intros Hne (H1 & [t Hf] & H3). split_and!; [done| |done]. exists t. by rewrite lookup_insert_ne in Hf. Qed.

Lemma parts_of_insert fs u total tmp x parts : (forall n, tmp <> part_file u n) -> forall n datas,
  parts_of (<[tmp := x]> fs) u total n parts datas -> parts_of fs u total n parts datas.
Proof.
  intros Hne. induction parts as [|part parts IH]; intros n [|data datas]; cbn; [done..|]. intros [Hp Hs]. split; [by eapply part_of_insert|by apply IH].
Qed.

(** The whole loop: the content is the data of the parts, one after the other. *)
Lemma assemble_ok u total tmp parts : length u = 16 -> (forall n, tmp <> part_file u n) -> forall a w w' a',
  assemble root u total tmp parts a w = Some (w', Ok a') ->
  exists datas, parts_of (files w) u total (as_cnt a + 1) parts datas /\ as_content a' = as_content a ++ concat datas /\
    as_hasher a' = foldl hasher_update (as_hasher a) (concat (map read_pieces datas)) /\ as_md5_hashes a' = as_md5_hashes a ++ map part_digest datas /\
    (forall x, x ∈ as_completed a' -> x ∈ as_completed a \/ exists n, x.2 = part_file u n) /\
    (parts <> [] -> exists t, files w' = <[tmp := FileNode (as_content a') t]> (files w)).
Proof.
  intros Hu Hne. induction parts as [|part parts IH]; intros a w w' a' E; cbn [assemble] in E.
  { apply M_ret_ok in E as [-> ->]. exists []. cbn. rewrite !app_nil_r. split_and!; try done. by left. }
  apply M_bind_ok in E as (w1 & a1 & E1 & E). apply assemble_part_ok in E1 as (data & t & Hp & Hf & Hc & Hco & Hh & Hm & Hcm); [|done].
  destruct (IH _ _ _ _ E) as (datas & Hps & Hco' & Hh' & Hm' & Hcm' & Hf').
  exists (data :: datas). rewrite Hf, Hc in Hps. apply parts_of_insert in Hps; [|done]. cbn [parts_of map concat]. split_and!.
  - done.
  - done.
  - by rewrite Hco', Hco, <- app_assoc.
  - by rewrite Hh', Hh, foldl_app.
  - by rewrite Hm', Hm, <- app_assoc.
  - intros x [Hx|Hx]%Hcm'; [|by right]. rewrite Hcm in Hx. apply elem_of_app in Hx as [Hx| ->%list_elem_of_singleton]; [by left|right; by eexists].
  - intros _. destruct parts as [|part' parts'].
    + apply M_ret_ok in E as [-> ->]. by exists t.
    + destruct Hf' as [t' ->]; [done|]. exists t'. by rewrite Hf, insert_insert_eq.
Qed.

Lemma concat_pieces datas : concat (concat (map read_pieces datas)) = concat datas.
Proof. induction datas as [|d datas IH]; [done|]. cbn [map concat]. by rewrite concat_app, read_pieces_concat, IH. Qed.

Lemma parts_of_length fs u total parts : forall n datas, parts_of fs u total n parts datas -> length datas = length parts.
Proof. induction parts as [|part parts IH]; intros n [|d datas]; cbn; [done..|]. intros [_ Hs]. f_equal. by eapply IH. Qed.

Lemma tmp_not_part n u m : root ++ [tmp_name n] <> part_file u m.
Proof. by apply (tmp_not_own _ _ _ "u"%byte). Qed.

(** The ETag of an upload with these parts. *)
Definition upload_e_tag (datas : list bytes) : bytes :=
  hex (checksum Md5 (concat (map part_digest datas))) ++ str "-" ++ fmt_dec (Z.of_nat (length datas)).

Lemma complete_body_ok u parts hasher expected n w w' e_tag sums completed : length u = 16 -> parts <> [] -> fresh hasher ->
  complete_body root u parts hasher expected (root ++ [tmp_name n]) w = Some (w', Ok (e_tag, sums, completed)) ->
  exists datas t, parts_of (files w) u (Z.of_nat (length parts)) 1 parts datas /\
    files w' = <[root ++ [tmp_name n] := FileNode (concat datas) t]> (files w) /\
    e_tag = upload_e_tag datas /\ sums = sums_of hasher (concat datas) /\ meets sums expected /\
    forall x, x ∈ completed -> exists m, x.2 = part_file u m.
Proof.
  intros Hu Hne Hh E. unfold complete_body in E. cbv zeta in E.
  apply M_bind_ok in E as (w1 & total & E1 & E). apply panic_none_ok in E1 as [-> Ht].
  assert (total = Z.of_nat (length parts)) as -> by (destruct (_ <=? _)%Z in Ht; [by injection Ht|done]).
  apply M_bind_ok in E as (w2 & a & E2 & E). apply M_bind_ok in E as (w3 & u3 & E3 & E). apply M_ret_ok in E as [-> [= -> -> ->]].
  apply fail_if_ok in E3 as [-> Hm]. apply assemble_ok in E2 as (datas & Hp & Hc & Hha & Hd & Hco & Hf); [|done|intros m; apply tmp_not_part].
  cbn [as_cnt as_content as_hasher as_md5_hashes as_completed app] in *. destruct (Hf Hne) as [t Hf'].
  rewrite Hha, hasher_sums, concat_pieces in Hm |- * by done. exists datas, t. split_and!; [done|by rewrite Hf', Hc| |done| |].
  - unfold multipart_e_tag, upload_e_tag. rewrite Hd, length_map. f_equal. exact (f_equal hex (ck_pieces Md5 (map part_digest datas))).
  - apply checksum_mismatch_None. by destruct (checksum_mismatch _ _).
  - intros x Hx. apply Hco in Hx as [Hx|Hx]; [by apply elem_of_nil in Hx|done].
Qed.

(** ** The owner of an upload *)

Lemma load_json_ok {A} x (parse : bytes -> result S3ErrorCode (option A)) w w' a : name_ok x = true ->
  load_json (resolve_abs_path root x) parse w = Some (w', Ok (Some a)) ->
  w' = w /\ exists b t, files w !! (root ++ [x]) = Some (FileNode b t) /\ parse b = Ok (Some a).
Proof.
  intros Hx E. unfold load_json in E. apply M_bind_ok in E as (w1 & q & E1 & E). rewrite resolve_name in E1 by done. injection E1 as <- <-.
  apply M_bind_ok in E as (w2 & e & E2 & E). apply reads_exists in E2 as ->. destruct e; [|by apply M_ret_ok in E as [_ ?]].
  apply M_bind_ok in E as (w3 & b & E3 & E). apply io_read_ok in E3 as [-> [t Hf]]. apply lift_ok in E as [-> Hp]. eauto.
Qed.

(** The caller started the upload. *)
Definition owns (fs : Files) (credentials : option Request.Credentials) (u : Uuid) : Prop :=
  exists b t, fs !! (root ++ [upload_info_name u]) = Some (FileNode b t) /\ access_key_from_slice b = Some (cred_access_key <$> credentials).

Lemma open_upload_ok credentials id w w' u : open_upload root credentials id w = Some (w', Ok u) ->
  w' = w /\ uuid_parse_str id = Some u /\ length u = 16 /\ owns (files w) credentials u.
Proof.
  intros E. unfold open_upload in E. apply M_bind_ok in E as (w1 & u1 & E1 & E). apply lift_ok in E1 as [-> Hu%ok_or_Ok].
  pose proof (uuid_parsed _ _ Hu) as Hl. apply M_bind_ok in E as (w2 & mine & E2 & E). apply M_bind_ok in E as (w3 & u3 & E3 & E).
  apply M_ret_ok in E as [-> ->]. apply fail_if_ok in E3 as [-> ->%negb_false_iff]. unfold verify_upload_id in E2.
  apply M_bind_ok in E2 as (w4 & ak & E4 & E2). apply M_ret_ok in E2 as [-> Eo]. destruct ak as [ak|]; [|done].
  symmetry in Eo. apply bool_decide_eq_true in Eo as ->. apply load_json_ok in E4 as (-> & b & t & Hf & Hb); [|by apply upload_info_name_ok].
  split_and!; try done. exists b, t. split; [done|]. unfold parse_access_key in Hb. destruct (access_key_from_slice b); [|done]. by injection Hb as ->.
Qed.

(** ** What is removed after an upload *)

(** The handler leaves what is at [p]. *)
Definition spares {A} (p : AbsPath) (m : FS A) : Prop := forall w w' r, m w = Some (w', r) -> files w' !! p = files w !! p.

Lemma spares_bind {A B} p (m : FS A) (k : A -> FS B) : spares p m -> (forall a, spares p (k a)) -> spares p (m ≫= k).
Proof.
  intros Hm Hk w w' r E. unfold mbind, ST_bind in E. destruct (m w) as [[w1 [a|e]]|] eqn:Em; [| |done].
  - rewrite (Hk _ _ _ _ E). by eapply Hm.
  - injection E as <- <-. by eapply Hm.
Qed.
Lemma spares_reads {A} p (m : FS A) : read_only m -> spares p m.
Proof. intros Hm w w' r E. by apply Hm in E as ->. Qed.
Lemma spares_failed {A} p (m : FS A) : spares p m -> spares p (failed m).
Proof. intros Hm w w' r E. unfold failed in E. destruct (m w) as [[w1 [a|e]]|] eqn:Em; [..|done]; injection E as <- <-; by eapply Hm. Qed.
Lemma spares_remove p q : q <> p -> spares p (remove_file_if_exists q).
Proof.
  intros Hne w w' r. unfold remove_file_if_exists, remove_file. destruct (stat (files w) q) as [[]|[]]; cbn; intros [= <- _]; try done.
  by apply lookup_delete_ne.
Qed.
Lemma spares_remove_own p x : name_ok x = true -> root ++ [x] <> p -> spares p (q ← resolve_abs_path root x; remove_file_if_exists q).
Proof.
  intros Hx Hne w w' r E. unfold mbind, ST_bind in E. rewrite resolve_name in E by done. by eapply spares_remove.
Qed.

Lemma spares_remove_upload p b k u completed : length u = 16 -> (forall x, root ++ [x] <> p) -> (forall x, x ∈ completed -> exists m, x.2 = part_file u m) ->
  spares p (remove_upload root b k u completed).
Proof.
  intros Hu Hp Hc. unfold remove_upload. apply spares_bind; [by apply spares_failed, spares_remove_own; [apply metadata_name_ok|]|]. intros f1. apply spares_bind.
  - induction completed as [|[n q] l IH]; cbn [remove_parts]; [apply spares_reads, reads_ret|].
    apply spares_bind; [|intros f2; apply spares_bind; [by apply spares_failed, spares_remove_own; [apply upload_part_info_name_ok|]|]].
    + apply spares_failed, spares_remove. destruct (Hc (n, q)) as [m Hm]; [by left|]. cbn in Hm. rewrite Hm. apply Hp.
    + intros f3. apply spares_bind; [apply IH; intros x Hx; apply Hc; by right|]. intros f. apply spares_reads, reads_ret.
  - intros f2. destruct (f1 || f2); [apply spares_reads, reads_ret|]. apply spares_bind; [|intros _; apply spares_reads, reads_ret].
    by apply spares_failed, spares_remove_own; [apply upload_info_name_ok|].
Qed.

(** The two files that are saved beside the object are not it. *)
Lemma save_own_keeps x c content p w w' u : name_ok x = true -> x = "."%byte :: c :: drop 2 x -> c <> "t"%byte -> (forall y, root ++ [y] <> p) ->
  save_json root (resolve_abs_path root x) content w = Some (w', Ok u) -> is_Some (files w !! p) -> files w' !! p = files w !! p.
Proof.
  intros Hx Ex Hc Hp E [n Hn]. apply (save_json_ok _ _ c) in E as (b & _ & W); [|done..]. rewrite Hn.
  eapply wrote_keeps; [exact W|done|by apply not_eq_sym, Hp..].
Qed.

(** C14: a completed upload is its parts.  When an upload is completed, the caller is the one who
    started it; the parts that were named are numbered from one without gaps, each was uploaded, and
    all but the last have the least size; the object has the data of the parts, one after the other;
    the ETag is the digest of their digests with their number; and the checksums of the answer are
    those of the whole object and agree with the ones that were asked for. *)
Theorem complete_concatenates (credentials : option Request.Credentials) (input : CompleteMultipartUploadInput) (names : AbsPath)
    (w w' : World) (out : CompleteMultipartUploadOutput) :
  plain_bucket (CompleteMultipartUploadInput_bucket input) -> plain_key (CompleteMultipartUploadInput_key input) names ->
  complete_multipart_upload root credentials input w = Some (w', Ok out) ->
  exists parts u datas hasher t,
    (CompleteMultipartUploadInput_multipart_upload input ≫= CompletedMultipartUpload_parts) = Some parts /\
    uuid_parse_str (CompleteMultipartUploadInput_upload_id input) = Some u /\ owns (files w) credentials u /\
    parts_of (files w) u (Z.of_nat (length parts)) 1 parts datas /\
    files w' !! object_at_path root (CompleteMultipartUploadInput_bucket input) names = Some (FileNode (concat datas) t) /\
    out = complete_output (CompleteMultipartUploadInput_bucket input) (CompleteMultipartUploadInput_key input)
      (upload_e_tag datas) (sums_of hasher (concat datas)) /\
    meets (sums_of hasher (concat datas)) (complete_checksum input).
Proof.
  intros [Hb _] Hk E. unfold complete_multipart_upload in E. cbv zeta in E.
  apply M_bind_ok in E as (w1 & mu & E1 & E). apply lift_ok in E1 as [-> Hmu%ok_or_Ok].
  apply M_bind_ok in E as (w2 & u2 & E2 & E). apply fail_if_ok in E2 as [-> Hne].
  apply M_bind_ok in E as (w3 & u & E3 & E). apply open_upload_ok in E3 as (-> & Hu & Hlen & Hown).
  apply M_bind_ok in E as (w4 & u4 & E4 & E). apply fail_if_ok in E4 as [-> _].
  apply M_bind_ok in E as (w5 & attrs & E5 & E). apply reads_load_attrs in E5 as ->.
  apply M_bind_ok in E as (w6 & u6 & E6 & E). apply fail_if_ok in E6 as [-> _].
  apply M_bind_ok in E as (w7 & q & E7 & E). rewrite (object_path_of _ _ _ names) in E7 by done. injection E7 as <- <-.
  apply M_bind_ok in E as (w8 & u8 & E8 & E). apply reads_if_none_match in E8 as ->.
  apply M_bind_ok in E as (w9 & u9 & E9 & E). apply reads_complete_if_match in E9 as ->.
  apply M_bind_ok in E as (w10 & hasher & E10 & E). apply lift_ok in E10 as [-> Hh%request_hasher_fresh].
  apply M_bind_ok in E as (w11 & [[e_tag sums] completed] & E11 & E). apply M_bind_ok in E as (w12 & u12 & E12 & E).
  apply M_bind_ok in E as (w13 & u13 & E13 & E). apply M_bind_ok in E as (w14 & u14 & E14 & E). apply M_ret_ok in E as [-> ->].
  fold (object_at_path root (CompleteMultipartUploadInput_bucket input) names) in *.
  destruct mu as [[[|part parts]|]]; [done| |done]. cbn [CompletedMultipartUpload_parts default id] in E11.
  destruct (file_writer_ok _ _ _ _ _ _ (fun content => exists datas, content = concat datas /\
    parts_of (files w) u (Z.of_nat (length (part :: parts))) 1 (part :: parts) datas /\ e_tag = upload_e_tag datas /\
    sums = sums_of hasher (concat datas) /\ meets sums (complete_checksum input) /\ forall x, x ∈ completed -> exists m, x.2 = part_file u m) E11)
    as (? & (datas & -> & Hp & He & Hs & Hm & Hc) & W); [by apply object_not_tmp, Hk| |].
  { intros v v' [t0 Hv] Ev. apply complete_body_ok in Ev as (datas & t & Hp & Hf & Hr); [|done..]. exists (concat datas), t. split; [|done].
    exists datas. split; [done|]. split; [|done]. rewrite Hv in Hp. eapply parts_of_insert; [|exact Hp]. intros m. apply tmp_not_part. }
  pose proof W as [[t Ht] _]. assert (Hside : forall y, root ++ [y] <> object_at_path root (CompleteMultipartUploadInput_bucket input) names)
    by (intros y; apply sidecar_not_object, Hk).
  exists (part :: parts), u, datas, hasher, t. rewrite Hmu. subst. split_and!; try done.
  rewrite (spares_remove_upload _ _ _ _ _ Hlen Hside Hc _ _ _ E14).
  assert (F12 : files w12 !! object_at_path root (CompleteMultipartUploadInput_bucket input) names = Some (FileNode (concat datas) t)).
  { destruct attrs as [attrs|]; [|by apply M_ret_ok in E12 as [-> _]].
    rewrite (save_own_keeps _ "b"%byte _ _ _ _ _ (metadata_name_ok _ _ None I) eq_refl ltac:(done) Hside E12); [done|eauto]. }
  rewrite (save_own_keeps _ "b"%byte _ _ _ _ _ (internal_info_name_ok _ _) eq_refl ltac:(done) Hside E13); [done|eauto].
Qed.
End Multipart.

(** An upload of one part, completed by the one who started it. *)
Lemma complete_concatenates_witness : exists datas t, datas = [str "woof"] /\
  files w_dog !! object_at_path w_root (str "photos") [str "dog.png"] = Some (FileNode (concat datas) t).
Proof.
  destruct (succeeds_after (@complete_multipart_upload fs_reference w_root (Some alice) complete_dog) w_upload eq_refl) as [out E].
  assert (Hk : plain_key (str "dog.png") [str "dog.png"]) by (split; [vm_compute; reflexivity|done]).
  destruct (@complete_concatenates fs_reference w_root (Some alice) complete_dog [str "dog.png"] w_upload w_dog out photos_plain Hk E)
    as (parts & u & datas & h & t & Ep & Eu & _ & Hp & Ef & _).
  exists datas, t. split; [|exact Ef]. injection Ep as <-. injection Eu as <-. destruct datas as [|d [|]]; cbn in Hp; [tauto| |tauto].
  destruct Hp as [(_ & [t' Hf] & _) _]. f_equal. vm_compute in Hf. injection Hf as <- _. vm_compute. reflexivity.
Defined.
