(* ===== verification/FsPages.v ===== *)
(** * All pages of a listing (crates/s3s-fs/src/s3.rs, [list_objects_v2])

    A client that asks for page after page has seen every object of the bucket once. *)

From stdpp Require Import gmap.
From S2P Require Import Prelude.
From S2P Require Import Str.
From S2P Require Import ErrorCode.
From S2P Require Import Handler.
From S2P Require Import Request.
From S2P Require Import Range.
From S2P Require Import Xml.
From S2P Require Import XmlDtoC.
From S2P Require Import XmlOutputs.
From S2P Require Import OpsTypes.
From S2P Require Import FsTree.
From S2P Require Import FsList.
From S2P Require Import FsStore.
From S2P Require Import FsObjects.
From S2P Require Import FsReference.
From S2P Require Import FsSamples.
From S2P Require Import FsFrame.
From S2P Require Import FsProps.

(** ** The client *)

Definition with_token (token : option bytes) (input : ListObjectsV2Input) : ListObjectsV2Input :=
  mk_ListObjectsV2Input (ListObjectsV2Input_bucket input) token (ListObjectsV2Input_delimiter input) (ListObjectsV2Input_encoding_type input)
    (ListObjectsV2Input_expected_bucket_owner input) (ListObjectsV2Input_fetch_owner input) (ListObjectsV2Input_max_keys input)
    (ListObjectsV2Input_optional_object_attributes input) (ListObjectsV2Input_prefix input) (ListObjectsV2Input_request_payer input)
    (ListObjectsV2Input_start_after input).

Definition page_keys (out : ListObjectsV2Output) : list (option bytes) := map Object_key (default [] (ListObjectsV2Output_contents out)).
Definition page_groups (out : ListObjectsV2Output) : list (option bytes) := map CommonPrefix_prefix (default [] (ListObjectsV2Output_common_prefixes out)).

Section Pages.
Context `{FsDeps} (root : AbsPath).

(** The client asks again as long as it is given a token. *)
Fixpoint list_all (turns : nat) (input : ListObjectsV2Input) (w : World) : option (list ListObjectsV2Output) :=
  match turns with
  | 0 => None
  | S turns' =>
      match list_objects_v2 root input w with
      | Some (w', Ok out) =>
          match ListObjectsV2Output_next_continuation_token out with
          | None => Some [out]
          | Some token => cons out <$> list_all turns' (with_token (Some token) input) w'
          end
      | _ => None
      end
  end.

(** ** The handler answers with the page *)

Definition page_of (out : ListObjectsV2Output) (pg : Page) : Prop :=
  page_keys out = map Object_key (pg_contents pg) /\ page_groups out = map CommonPrefix_prefix (pg_prefixes pg) /\
  ListObjectsV2Output_key_count out = Some (pg_key_count pg) /\ ListObjectsV2Output_is_truncated out = Some (pg_is_truncated pg) /\
  ListObjectsV2Output_next_continuation_token out = pg_next_continuation_token pg.

Lemma nonempty_list {A} (l : list A) : default [] (nonempty l) = l.
Proof. by destruct l. Qed.

Lemma list_objects_v2_page input w found :
  let bucket := ListObjectsV2Input_bucket input in
  let pg := list_page (fd_objects found) (fd_prefixes found)
    (resume_point (ListObjectsV2Input_continuation_token input) (ListObjectsV2Input_start_after input))
    (default 1000%Z (ListObjectsV2Input_max_keys input)) in
  name_ok bucket = true -> is_dir (files w) (root ++ [bucket]) = true ->
  collect (files w) (root ++ [bucket]) (trim_slashes (default [] (ListObjectsV2Input_prefix input))) (ListObjectsV2Input_delimiter input) = Some (Ok found) ->
  (pg_key_count pg <= i32_max)%Z -> exists out, list_objects_v2 root input w = Some (w, Ok out) /\ page_of out pg.
Proof.
  intros bucket pg Hb Hd Hc Hn. unfold list_objects_v2. cbv zeta. fold bucket. unfold get_bucket_path, mbind, ST_bind. rewrite resolve_name by done.
  unfold exists_, mbind, ST_bind, get, path_exists, stat. unfold is_dir in Hd. destruct (files w !! (root ++ [bucket])) as [|]; [|done].
  cbn [negb fail_if lift mret ST_ret]. rewrite Hc. unfold panic_none, fail_if, lift, mbind, option_bind. cbv beta iota. fold pg. rewrite (proj2 (Z.ltb_ge _ _) Hn).
  eexists. split; [reflexivity|]. unfold page_of, page_keys, page_groups. cbn. by rewrite !nonempty_list.
Qed.

Lemma list_all_pages input w found turns : forall token pages,
  let bucket := ListObjectsV2Input_bucket input in
  name_ok bucket = true -> is_dir (files w) (root ++ [bucket]) = true ->
  collect (files w) (root ++ [bucket]) (trim_slashes (default [] (ListObjectsV2Input_prefix input))) (ListObjectsV2Input_delimiter input) = Some (Ok found) ->
  follow_tokens turns (fd_objects found) (fd_prefixes found) (ListObjectsV2Input_start_after input) (default 1000%Z (ListObjectsV2Input_max_keys input)) token = Some pages ->
  Forall (fun pg => (pg_key_count pg <= i32_max)%Z) pages ->
  exists outs, list_all turns (with_token token input) w = Some outs /\ Forall2 page_of outs pages.
Proof.
  intros token pages bucket Hb Hd Hc. revert token pages. induction turns as [|turns IH]; intros token pages Ef Hn; [done|]. cbn [follow_tokens] in Ef. cbn [list_all].
  assert (Hpg : exists pages', pages = list_page (fd_objects found) (fd_prefixes found) (resume_point token (ListObjectsV2Input_start_after input))
    (default 1000%Z (ListObjectsV2Input_max_keys input)) :: pages').
  { destruct (pg_next_continuation_token _) in Ef; [|injection Ef as <-; by eexists]. destruct (follow_tokens _ _ _ _ _ _) in Ef; [|done]. injection Ef as <-. by eexists. }
  destruct Hpg as [pages' Epg]. subst pages. apply Forall_cons in Hn as [Hn Hn'].
  destruct (list_objects_v2_page (with_token token input) w found Hb Hd Hc Hn) as (out & Eo & Ho). rewrite Eo. cbn [with_token ListObjectsV2Input_continuation_token
    ListObjectsV2Input_start_after ListObjectsV2Input_max_keys] in Ho. pose proof Ho as (_ & _ & _ & _ & ->).
  destruct (pg_next_continuation_token _) as [t|] in Ef |- *; [|injection Ef as <-; exists [out]; split; [done|]; by constructor].
  destruct (follow_tokens turns _ _ _ _ _) as [pages''|] eqn:Ef' in Ef; [|done]. injection Ef as ->.
  destruct (IH _ _ Ef' Hn') as (outs & Es & Hs). unfold with_token in Es |- *. cbn in Es |- *. rewrite Es. exists (out :: outs). split; [done|]. by constructor.
Qed.

Lemma pages_keys outs pages : Forall2 page_of outs pages ->
  concat (map page_keys outs) = map Object_key (concat (map pg_contents pages)) /\
  concat (map page_groups outs) = map CommonPrefix_prefix (concat (map pg_prefixes pages)).
Proof.
  induction 1 as [|out pg outs pages (E1 & E2 & _) _ [IH1 IH2]]; [done|]. cbn [map concat]. by rewrite E1, E2, IH1, IH2, !map_app.
Qed.

(** C15: the pages of a listing have every object once.  Take a listing of a bucket from its start, with
    no delimiter or one of a single ASCII byte, and with [max_keys] absent, negative (both are 1000) or
    at least one, of a store that does not change meanwhile.  A client that asks for the next page as
    long as it is given a token comes to an end; the keys of all its pages, in the order they came, are
    strictly increasing, and they are exactly the keys of the files of the bucket that have the prefix
    (without the slashes around it), come after [start_after] and have no delimiter after the prefix;
    likewise the common prefixes are exactly those of the files that have one; and no page has more
    entries than [max_keys]. *)
Theorem list_objects_complete (input : ListObjectsV2Input) (delimiter : option byte) (w : World) :
  let bucket_root := root ++ [ListObjectsV2Input_bucket input] in
  let prefix := trim_slashes (default [] (ListObjectsV2Input_prefix input)) in
  let max := max_keys_usize (default 1000%Z (ListObjectsV2Input_max_keys input)) in
  let start_after := ListObjectsV2Input_start_after input in
  tree_ok (files w) -> names_ok (files w) -> sizes_ok (files w) ->
  name_ok (ListObjectsV2Input_bucket input) = true -> is_dir (files w) bucket_root = true ->
  ListObjectsV2Input_delimiter input = (fun c => [c]) <$> delimiter -> match delimiter with Some c => is_ascii c = true | None => True end ->
  ListObjectsV2Input_continuation_token input = None -> (0 < max <= i32_max)%Z ->
  exists turns outs keys groups, list_all turns input w = Some outs /\
    concat (map page_keys outs) = map Some keys /\ concat (map page_groups outs) = map Some groups /\
    StronglySorted (key_lt id) keys /\ StronglySorted (key_lt id) groups /\
    (forall k, k ∈ keys <-> listed_file (files w) bucket_root prefix delimiter k /\ beyond start_after k = true) /\
    (forall g, g ∈ groups <-> grouped_file (files w) bucket_root prefix delimiter g /\ beyond start_after g = true) /\
    Forall (fun out => exists n, ListObjectsV2Output_key_count out = Some n /\ (n <= max)%Z) outs.
Proof.
  intros bucket_root prefix max start_after Ht Hn Hs Hb Hd Hdl Ha Htk Hmax.
  destruct (collect_spec (files w) Ht Hn bucket_root prefix delimiter Hs Ha Hd) as (found & Ec & _).
  destruct (follow_complete (files w) Ht Hn bucket_root prefix delimiter Hs Ha start_after (default 1000%Z (ListObjectsV2Input_max_keys input)) found Hd Ec)
    as (pages & keys & groups & Ef & (E1 & E2 & S1 & S2 & M1 & M2 & Hc)); [unfold max in Hmax; lia|].
  destruct (list_all_pages input w found (S (length (fd_objects found) + length (fd_prefixes found))) None pages) as (outs & Eo & Ho); [done|done|by rewrite Hdl|exact Ef| |].
  { eapply Forall_impl; [exact Hc|]. intros pg Hp. cbn in Hp. unfold max in Hmax. lia. }
  assert (Hwt : with_token None input = input) by (destruct input; cbn in Htk; by subst). rewrite Hwt in Eo.
  destruct (pages_keys _ _ Ho) as [K1 K2]. eexists _, outs, keys, groups. split; [exact Eo|]. rewrite K1, K2. split_and!; try done.
  clear - Ho Hc. induction Ho as [|out pg outs pages (_ & _ & Ek & _) _ IH]; [constructor|]. apply Forall_cons in Hc as [Hp Hc]. constructor; [by exists (pg_key_count pg)|by apply IH].
Qed.
End Pages.

(** Two pages of one entry: the common prefix [a/] and the object [bird.png]. *)
Lemma list_objects_complete_witness : exists turns outs keys groups, @list_all fs_reference w_root turns list_photos w_two = Some outs /\
  concat (map page_keys outs) = map Some keys /\ concat (map page_groups outs) = map Some groups /\
  StronglySorted (key_lt id) keys /\ forall k, k ∈ keys <-> listed_file (files w_two) (w_root ++ [str "photos"]) [] (Some "/"%byte) k.
Proof.
  assert (Hs : sizes_ok (files w_two)).
  { assert (Hm : forallb (fun kv => match snd kv with FileNode data _ => (len data <=? i64_max)%Z | DirNode _ => true end) (map_to_list (files w_two)) = true)
      by (vm_compute; reflexivity).
    rewrite forallb_forall in Hm. intros p data t Hp%elem_of_map_to_list%list_elem_of_In%Hm. by apply Z.leb_le. }
  destruct two_shape as (Ht & Hn & _).
  destruct (@list_objects_complete fs_reference w_root list_photos (Some "/"%byte) w_two Ht Hn Hs)
    as (turns & outs & keys & groups & E & K & G & S1 & _ & M & _); [vm_compute; reflexivity..|vm_compute; split; [reflexivity|discriminate]|].
  exists turns, outs, keys, groups. split; [exact E|]. split; [exact K|]. split; [exact G|]. split; [exact S1|].
  intros k. rewrite (M k). unfold beyond. cbn. tauto.
Defined.
