(* ===== verification/Server.v ===== *)
(** * The server of the file-system back end (crates/s3s-fs/src/main.rs,
    crates/s3s/src/auth/simple_auth.rs, the defaults of crates/s3s/src/config.rs)

    [FileSystem_s3] is the implementation of the [S3] trait by the file system: a handler for each
    operation, whose state is the store.  [run_service] is the service that the program sets up with
    it.  The theorems are about [S3Service_call], the call of Service, on such a service. *)

From stdpp Require Import gmap.
From S2P Require Import Prelude.
From S2P Require Import Str.
From S2P Require Import ErrorCode.
From S2P Require Import Handler.
From S2P Require Import Router.
From S2P Require Import SigV4.
From S2P Require Import Authorization.
From S2P Require Import SigV2.
From S2P Require Import SignatureCheck.
From S2P Require Import Stream.
From S2P Require Import Body.
From S2P Require Import Blob.
From S2P Require Import Host.
From S2P Require Import Request.
From S2P Require Import Response.
From S2P Require Import ETag.
From S2P Require Import Xml.
From S2P Require Import XmlDtoA.
From S2P Require Import XmlDtoC.
From S2P Require Import XmlOutputs.
From S2P Require Import EventStream.
From S2P Require Import HttpDe.
From S2P Require Import HttpSer.
From S2P Require Import OpsTypes.
From S2P Require Import OpsSer.
From S2P Require Import Dispatch.
From S2P Require Import OpsTable.
From S2P Require Import Service.
From S2P Require Import FsTree.
From S2P Require Import Checksums.
From S2P Require Import FsList.
From S2P Require Import FsStore.
From S2P Require Import FsObjects.
From S2P Require Import FsUploads.
From S2P Require Import FsReference.
From S2P Require Import FsSamples.
From S2P Require Import FsFrame.
From S2P Require Import FsProps.

(** ** Keys (auth/simple_auth.rs) *)

(** The map of access keys to secret keys. *)
Record SimpleAuth := { sa_map : gmap bytes bytes }.

Definition SimpleAuth_new : SimpleAuth := {| sa_map := ∅ |}.
Definition from_single (access_key secret_key : bytes) : SimpleAuth := {| sa_map := <[access_key := secret_key]> ∅ |}.
(** The key that was registered before is returned. *)
Definition register (self : SimpleAuth) (access_key secret_key : bytes) : SimpleAuth * option bytes :=
  ({| sa_map := <[access_key := secret_key]> (sa_map self) |}, sa_map self !! access_key).
Definition lookup_key (self : SimpleAuth) (access_key : bytes) : option bytes := sa_map self !! access_key.
Definition get_secret_key (self : SimpleAuth) (access_key : bytes) : result S3ErrorCode bytes :=
  match lookup_key self access_key with None => Err NotSignedUp | Some s => Ok s end.

(** ** Configuration (config.rs) *)

Definition DEFAULT_PRESIGNED_URL_MAX_EXPIRES_SECS : Z := 7 * 24 * 60 * 60.
Definition DEFAULT_PUT_OBJECT_MAX_SIZE : Z := 5 * 1024 * 1024 * 1024.
Definition DEFAULT_AWS_CHUNKED_STREAM_MAX_CHUNK_SIZE : Z := 256 * 1024 * 1024.
Definition default_sig_v4_allowed_services : list bytes := [str "s3"; str "sts"].

Definition S3Config_default : Config :=
  {| check_config :=
       {| presigned_url_max_skew_time_secs := 900; expected_region := None; sig_v4_allowed_services := default_sig_v4_allowed_services;
          enable_sig_v2 := false; presigned_url_max_expires_secs := DEFAULT_PRESIGNED_URL_MAX_EXPIRES_SECS;
          allow_presigned_url := true; allow_post_signature := true; unsigned_amz_header_allowlist := [];
          aws_chunked_stream_max_chunk_size := DEFAULT_AWS_CHUNKED_STREAM_MAX_CHUNK_SIZE;
          form_max_field_size := Z.to_nat (1024 * 1024); form_max_fields_size := 20 * 1024 * 1024; form_max_parts := 1000 |};
     xml_max_body_size := 20 * 1024 * 1024; post_object_max_file_size := 5 * 1024 * 1024 * 1024;
     put_object_max_size := Some DEFAULT_PUT_OBJECT_MAX_SIZE; custom_route_max_body_size := Some (1024 * 1024)%Z;
     normalize_forward_slash_path := false; normalize_content_length := true; operation_id_routing := true |}.

(** ** The program (main.rs) *)

(** The options that decide what the service does. *)
Record Opt := { opt_access_key : option bytes; opt_secret_key : option bytes; opt_domain : list bytes }.

(** [check_cli_args]: whether the program goes on. *)
Definition check_cli_args (opt : Opt) : bool :=
  match opt_access_key opt, opt_secret_key opt with
  | Some _, None | None, Some _ => false
  | _, _ => forallb (fun s => negb (bool_decide ("/"%byte ∈ s))) (opt_domain opt)
  end.

Definition empty_upload_output : CompleteMultipartUploadOutput :=
  {| CompleteMultipartUploadOutput_bucket := None; CompleteMultipartUploadOutput_bucket_key_enabled := None;
     CompleteMultipartUploadOutput_checksum_crc32 := None; CompleteMultipartUploadOutput_checksum_crc32c := None;
     CompleteMultipartUploadOutput_checksum_crc64nvme := None; CompleteMultipartUploadOutput_checksum_md5 := None;
     CompleteMultipartUploadOutput_checksum_sha1 := None; CompleteMultipartUploadOutput_checksum_sha256 := None;
     CompleteMultipartUploadOutput_checksum_sha512 := None; CompleteMultipartUploadOutput_checksum_type := None;
     CompleteMultipartUploadOutput_checksum_xxhash128 := None; CompleteMultipartUploadOutput_checksum_xxhash3 := None;
     CompleteMultipartUploadOutput_checksum_xxhash64 := None; CompleteMultipartUploadOutput_e_tag := None;
     CompleteMultipartUploadOutput_expiration := None; CompleteMultipartUploadOutput_key := None;
     CompleteMultipartUploadOutput_location := None; CompleteMultipartUploadOutput_request_charged := None;
     CompleteMultipartUploadOutput_ssekms_key_id := None; CompleteMultipartUploadOutput_server_side_encryption := None;
     CompleteMultipartUploadOutput_version_id := None |}.

Section Server.
Context `{FsDeps} `{CrcFast} `{UrlCrate} `{ErrorTexts} {Ext : Type} `{Extensions Ext} (root : AbsPath).

(** ** The application *)

(** [S3Response::new] *)
Definition S3Response_new {A} (output : A) : S3Response Ext A :=
  {| p_output := output; p_status := None; p_headers := []; p_extensions := ext_default |}.

(** A handler of the store as a handler of the service; the error of the handler has its code. *)
Definition reply {A} (m : ST World A) : run World (S3Response Ext A) := fun w =>
  match m w with
  | Some (w', Ok output) => Some (w', Ok (S3Response_new output))
  | Some (w', Err e) => Some (w', Err (error_of e))
  | None => None
  end.

(** The answer of an upload that was completed has its output in a future, which is ready. *)
Definition complete_reply (out : CompleteMultipartUploadOutput) : CompleteMultipartUploadAnswer :=
  {| cmu_output := empty_upload_output; cmu_future := Some {| fut_pending := 0; fut_result := Ok out; fut_ticks := fun _ => false |} |}.

(** What the handle of the trailing headers holds when the body was read. *)
Context (trailers : option HeaderMap).
Definition trailing {T} (q : S3Request Ext T) : option HeaderMap := if q_trailing_headers q then trailers else None.

Definition fs_put_object (q : S3Request Ext PutObjectInput) : run World (S3Response Ext PutObjectOutput) :=
  reply (put_object root (q_input q) (trailing q)).

(** [impl S3 for FileSystem]; [post_object] has its default. *)
Definition FileSystem_s3 : S3 Ext World := fun op =>
  match op with
  | PostObject => default_post_object fs_put_object
  | Routed CreateBucket => fun q => reply (create_bucket root (q_input q))
  | Routed CopyObject => fun q => reply (copy_object root (q_input q))
  | Routed DeleteBucket => fun q => reply (delete_bucket root (q_input q))
  | Routed DeleteObject => fun q => reply (delete_object root (q_input q))
  | Routed DeleteObjects => fun q => reply (delete_objects root (q_input q))
  | Routed GetBucketLocation => fun q => reply (get_bucket_location root (q_input q))
  | Routed GetObject => fun q => reply (get_object root (q_input q))
  | Routed HeadBucket => fun q => reply (head_bucket root (q_input q))
  | Routed HeadObject => fun q => reply (head_object root (q_input q))
  | Routed ListBuckets => fun q => reply (list_buckets root (q_input q))
  | Routed ListObjects => fun q => reply (list_objects root (q_input q))
  | Routed ListObjectsV2 => fun q => reply (list_objects_v2 root (q_input q))
  | Routed PutObject => fs_put_object
  | Routed CreateMultipartUpload => fun q => reply (create_multipart_upload root (q_credentials q) (q_input q))
  | Routed UploadPart => fun q => reply (upload_part root (q_credentials q) (q_input q) (trailing q))
  | Routed UploadPartCopy => fun q => reply (upload_part_copy root (q_credentials q) (q_input q))
  | Routed ListParts => fun q => reply (list_parts root (q_input q))
  | Routed CompleteMultipartUpload => fun q =>
      reply (out ← FsUploads.complete_multipart_upload root (q_credentials q) (q_input q); mret (complete_reply out))
  | Routed AbortMultipartUpload => fun q => reply (abort_multipart_upload root (q_credentials q) (q_input q))
  | Routed o => fun _ => unimplemented (Routed o)
  end.

(** ** The service *)

(** The keys and the domains of the options; the rest has its defaults. *)
Definition run_service (opt : Opt) : result DomainError (Service Ext World) :=
  host ← (match opt_domain opt with
    | [] => Ok None
    | domains => m ← MultiDomain_new domains; Ok (Some (MultiDomain_parse_host_header m))
    end);
  Ok {| sv_ccx :=
          {| cc_config := S3Config_default; cc_host := host;
             cc_auth := match opt_access_key opt, opt_secret_key opt with
               | Some ak, Some sk => Some (get_secret_key (from_single ak sk))
               | _, _ => None
               end;
             cc_access := None; cc_route := None; cc_validation := None |};
        sv_s3 := FileSystem_s3; sv_access := S3Access_default; sv_check_access := default_check_access;
        sv_route_call := fun _ => quiet (Some (Err (error_of NotImplemented))) |}.

(** ** Which operations write *)

Definition writing (op : Op) : bool :=
  match op with
  | PostObject
  | Routed (CreateBucket | CopyObject | DeleteBucket | DeleteObject | DeleteObjects | PutObject | CreateMultipartUpload | UploadPart |
            UploadPartCopy | CompleteMultipartUpload | AbortMultipartUpload) => true
  | _ => false
  end.

Lemma reply_reads {A} (m : ST World A) w w' r : read_only m -> reply m w = Some (w', r) -> w' = w.
Proof. intros Hm. unfold reply. destruct (m w) as [[w1 [a|e]]|] eqn:E; [..|done]; intros [= <- _]; by eapply Hm. Qed.

Lemma handler_reads op q w w' r : writing op = false -> FileSystem_s3 op q w = Some (w', r) -> w' = w.
Proof.
  destruct op as [o|]; [|done]. destruct o; cbn [writing FileSystem_s3]; intros Hw E; try done; try (by injection E as <- _).
  all: eapply reply_reads; [|exact E]; auto using reads_get_bucket_location, reads_get_object, reads_head_bucket, reads_head_object, reads_list_buckets,
    reads_list_objects, reads_list_objects_v2, reads_list_parts.
Qed.

(** ** Every handler stays within the root *)

Section Confined.
Context (Hroot : root <> []) (Hnames : Forall (fun x => name_ok x = true) root).

Lemma reply_inside {A} (P : A -> Prop) (m : ST World A) w w' r : within root P m -> reply m w = Some (w', r) -> inside root (files w) (files w').
Proof. intros Hm. unfold reply. destruct (m w) as [[w1 [a|e]]|] eqn:E; [..|done]; intros [= <- _]; by destruct (Hm _ _ _ E). Qed.

Lemma post_reads_put (q : S3Request Ext PostObjectInput) w w' r : FileSystem_s3 PostObject q w = Some (w', r) ->
  exists r', fs_put_object (map_input post_object_input_into_put_object_input q) w = Some (w', r').
Proof.
  cbn [FileSystem_s3]. unfold default_post_object, mbind, run_bind. destruct (fs_put_object _ w) as [[w1 [p|e]]|]; [..|done]; intros [= <- _]; by eexists.
Qed.

Lemma handler_inside op q w w' r : FileSystem_s3 op q w = Some (w', r) -> inside root (files w) (files w').
Proof.
  destruct op as [o|].
  2: { intros [r' E]%post_reads_put. eapply reply_inside; [|exact E]. by apply within_put_object. }
  destruct o; cbn [FileSystem_s3]; intros E; try (injection E as <- _; apply inside_refl).
  all: apply (reply_inside (fun _ => True)) in E; [done|].
  all: try (eapply within_bind; [by apply within_complete|intros; by apply within_ret]).
  all: auto using within_create_bucket, within_delete_bucket, within_get_bucket_location, within_head_bucket, within_list_buckets, within_list_objects,
    within_list_objects_v2, within_get_object, within_head_object, within_delete_object, within_delete_objects, within_put_object, within_copy_object,
    within_create_multipart, within_upload_part, within_upload_part_copy, within_list_parts, within_abort.
Qed.
End Confined.
End Server.

(** ** Calls of the server *)

Section ServerCalls.
Context `{FsDeps} `{CrcFast} `{UrlCrate} `{ErrorTexts} {Ext : Type} `{Extensions Ext} (root : AbsPath).
Implicit Types (sv : Service Ext World) (req : Request Ext).

(** A service, with the file system as its application. *)
Definition on_files (trailers : option HeaderMap) sv : Service Ext World := with_s3 (FileSystem_s3 root trailers) sv.

(** The request as the service takes it from the transport. *)
Definition received req : Request Ext := set_s3ext S3Extensions_default req.

(** A call of the server runs at most one handler, on the store as it was. *)
Lemma server_asks now policy_now trailers sv req w w' r : cc_route (sv_ccx sv) = None ->
  S3Service_call now policy_now (on_files trailers sv) req w = Some (w', r) ->
  match invocation now policy_now sv (received req) with
  | None => w' = w
  | Some i => exists r', FileSystem_s3 root trailers (inv_op i) (inv_request i) w = Some (w', r')
  end.
Proof.
  intros Hr. unfold S3Service_call. fold (received req). destruct (call _ _ _ _ w) as [[w1 r1]|] eqn:E; [|done]. intros [= -> _].
  rewrite <- (invocation_with_s3 now policy_now sv (FileSystem_s3 root trailers)). fold (on_files trailers sv).
  destruct (invocation now policy_now (on_files trailers sv) (received req)) as [i|] eqn:Ei.
  - rewrite (call_invokes _ _ _ _ i w Ei) in E. change (sv_s3 (on_files trailers sv)) with (FileSystem_s3 (Ext := Ext) root trailers) in E.
    destruct (FileSystem_s3 root trailers _ _ w) as [[w2 r2]|]; [|done]. cbn [mbind option_bind] in E. exists r2.
    unfold quiet in E. destruct (fallback _ _); [|done]. by injection E as -> _.
  - destruct (call_quiet _ _ _ _ _ _ _ Ei E) as [->|(Hc & _)]; [done|]. cbn in Hc. by rewrite Hr in Hc.
Qed.

(** A request of any kind is answered, at any time. *)
Inductive served sv : World -> World -> Prop :=
| served_intro now policy_now trailers req w w' r :
    S3Service_call now policy_now (on_files trailers sv) req w = Some (w', r) -> served sv w w'.

Lemma served_inside sv w w' : cc_route (sv_ccx sv) = None -> root <> [] -> Forall (fun x => name_ok x = true) root ->
  served sv w w' -> inside root (files w) (files w').
Proof.
  intros Hc Hr Hn Ha. destruct Ha as [now policy_now trailers req w w' r E]. apply server_asks in E; [|done].
  destruct (invocation _ _ _ _) as [i|]; [|subst; apply inside_refl]. destruct E as [r' E]. by eapply handler_inside.
Qed.

(** C11: whatever requests a server answers, valid or not, in any order and at any times, the files
    stay a tree of well-named entries and nothing outside the root of the store is changed. *)
Theorem server_confined sv (w w' : World) :
  cc_route (sv_ccx sv) = None -> root <> [] -> Forall (fun x => name_ok x = true) root -> shape root (files w) -> rtc (served sv) w w' ->
  shape root (files w') /\ forall p, above root p = false -> files w' !! p = files w !! p.
Proof.
  intros Hc Hr Hn Hs Ha. induction Ha as [w|w1 w2 w3 Hi _ IH]; [done|]. apply served_inside in Hi; [|done..].
  destruct (Hi Hs) as [Hs2 E2]. destruct (IH Hs2) as [Hs3 E3]. split; [done|]. intros p Hp. by rewrite E3, E2.
Qed.

(** ** Who may write *)

Context (now policy_now : Z).

(** A key that signed a request is one the provider has. *)
Lemma authenticated_key c cr keys : authenticated now c cr -> auth c = Some (get_secret_key keys) ->
  lookup_key keys (access_key cr) = Some (secret_key cr).
Proof.
  assert (Hk : forall ak sk, key_of c ak sk -> auth c = Some (get_secret_key keys) -> lookup_key keys ak = Some sk).
  { intros ak sk (g & Eg & Es) Ea. rewrite Ea in Eg. injection Eg as <-. unfold get_secret_key in Es. destruct (lookup_key keys ak); [by injection Es as ->|done]. }
  intros Ha Ec. destruct Ha; cbn [access_key secret_key v4_credentials v2_credentials]; apply Hk; try done.
  - by destruct H4 as [_ _ _ _ [] _ _ _ _].
  - by destruct H5 as [_ _ _ _ _ [] _ _ _].
  - by destruct H6 as [_ _ _ _ _ _ _ _ _ [] _].
Qed.

(** C9: only signed requests write.  On a server with a key provider and no access hook or custom
    route, a request that changes any file of the store is one for an operation that writes; the
    signature check was made on this request, on its method, path, query, headers and body, and found
    it signed in one of the ways of signing with the key that the provider has for its access key;
    the operation and the path are those that were routed from this request; and the handler ran with
    these credentials. *)
Theorem server_writes_signed trailers sv req (keys : SimpleAuth) (w w' : World) (r : result HttpError (Response Ext)) :
  cc_auth (sv_ccx sv) = Some (get_secret_key keys) -> cc_access (sv_ccx sv) = None -> cc_route (sv_ccx sv) = None ->
  S3Service_call now policy_now (on_files trailers sv) req w = Some (w', r) -> files w' <> files w ->
  exists i c c' cred, invocation now policy_now sv (received req) = Some i /\ writing (inv_op i) = true /\
    checks (sv_ccx sv) (received req) c /\ check now c = Some (c', Ok (Some cred)) /\ authenticated now c cred /\
    (exists p req', handed_on false policy_now (sv_ccx sv) (received req) c c' (Some cred) (inv_op i) p req') /\
    lookup_key keys (access_key cred) = Some (secret_key cred) /\ q_credentials (inv_request i) = Some (kept cred).
Proof.
  intros Hauth Hacc Hroute E Hne. apply server_asks in E; [|done]. destruct (invocation now policy_now sv (received req)) as [i|] eqn:Ei; [|by subst].
  destruct E as [r' E]. destruct (invocation_checked now policy_now sv (received req) i Ei) as (c & c' & cred & p & req' & Hc & Hck & Hs & Hh & Hcr & Hgiven).
  destruct (Hcr ltac:(by rewrite Hauth) Hacc) as [cr ->]. destruct (Hgiven Hacc) as [_ Hq].
  exists i, c, c', cr. split_and!; try done.
  - destruct (writing (inv_op i)) eqn:Ew; [done|]. by apply (handler_reads _ _ _ _ _ _ _ Ew) in E as ->.
  - by exists p, req'.
  - eapply authenticated_key; [exact Hs|]. by rewrite (ck_auth _ _ _ Hc).
Qed.

(** ** What is stored is what was signed *)

(** C10: an object is stored from verified data.  On a server without an access hook or
    custom route, take a put of an object whose bucket is one name that does not start with a dot,
    and whose key is a relative path without [.] and [..] that does not end with a slash.  When its
    handler succeeds, the store that the call of the server leaves has in the file of the object
    exactly the data that the signature check of this request delivers, at most the configured
    maximum, and the ETag of the output is the digest of it. *)
Theorem server_put_verified trailers sv req (i : Invocation) (q : S3Request Ext PutObjectInput) (names : AbsPath)
    (w w1 w' : World) (p : S3Response Ext PutObjectOutput) (r : result HttpError (Response Ext)) :
  method_wf (meth req) = true -> remaining_limit (body req) = None ->
  (forall n, put_object_max_size (cc_config (sv_ccx sv)) = Some n -> (0 <= n)%Z) ->
  cc_access (sv_ccx sv) = None -> cc_route (sv_ccx sv) = None ->
  invocation now policy_now sv (received req) = Some i -> put_object_request i = Some q ->
  plain_bucket (PutObjectInput_bucket (q_input q)) -> plain_key (PutObjectInput_key (q_input q)) names ->
  ends_with (str "/") (PutObjectInput_key (q_input q)) = false ->
  fs_put_object root trailers q w = Some (w1, Ok p) ->
  S3Service_call now policy_now (on_files trailers sv) req w = Some (w', r) ->
  exists data t c c' cred, files w' !! object_at_path root (PutObjectInput_bucket (q_input q)) names = Some (FileNode data t) /\
    checks (sv_ccx sv) (received req) c /\ check now c = Some (c', Ok cred) /\ delivers c' data /\
    (forall n, put_object_max_size (cc_config (sv_ccx sv)) = Some n -> (len data <= n)%Z) /\
    PutObjectOutput_e_tag (p_output p) = Some (Strong (hex (checksum Md5 data))).
Proof.
  intros Hw Hl Hn Ha Hroute Hi Hq Hb Hk Hd E Ecall. apply server_asks in Ecall; [|done]. rewrite Hi in Ecall.
  destruct (put_delivers now policy_now sv (received req) i q Hw Hl Hn Ha Hi Hq) as (b & c & c' & cred & Hbody & Hc & Hck & Hdel).
  assert (w' = w1) as ->.
  { destruct Ecall as [r' Ecall]. destruct i as [[[]|] q' render]; try done. injection Hq as ->. cbn [inv_op inv_request FileSystem_s3] in Ecall. congruence. }
  unfold fs_put_object, reply in E. destruct (put_object root (q_input q) (trailing trailers q) w) as [[w2 [out|e]]|] eqn:Ep; [|done|done].
  injection E as -> <-. destruct (put_object_ok _ _ _ _ _ _ names Hb Hk Hd Ep) as (s & Hs & Hout).
  pose proof Hs as [Hread _]. rewrite Hbody in Hread. injection Hread as Hread. destruct (Hdel _ Hread) as [Hd1 Hd2].
  destruct (put_file root _ _ _ _ _ s (proj2 Hk) Hs) as [t Ht]. exists (concat (st_pieces s)), t, c, c', cred.
  destruct Hout as [Hout _]. split_and!; done.
Qed.
End ServerCalls.

(** ** A run *)

Section ServerWitness.
#[local] Existing Instance fs_reference.
#[local] Existing Instance toy_url.
#[local] Existing Instance toy_errors.
#[local] Existing Instance unit_extensions.
#[local] Existing Instance crc_reference.

(** A server with one key, which takes every name of a bucket. *)
Definition w_keys : SimpleAuth := from_single (str "AK") (str "key").
Definition w_server : Service unit World :=
  {| sv_ccx := {| cc_config := w_dispatch_config; cc_host := None; cc_auth := Some (get_secret_key w_keys);
                  cc_access := None; cc_route := None; cc_validation := cc_validation (w_ccx true) |};
     sv_s3 := S3_default; sv_access := S3Access_default; sv_check_access := default_check_access;
     sv_route_call := fun _ => quiet (Some (Err (error_of NotImplemented))) |}.

Definition w_server_call (req : Request unit) : option (World * result HttpError (Response unit)) :=
  S3Service_call w_now 0 (on_files w_root None w_server) req w_empty.

(** The status of the answer and the object afterwards. *)
Definition w_stored (req : Request unit) : option (result unit StatusCode * option Node) :=
  match w_server_call req with
  | Some (w', Ok res) => Some (Ok (r_status res), files w' !! (w_root ++ [str "b"; str "k"]))
  | Some (w', Err _) => Some (Err tt, files w' !! (w_root ++ [str "b"; str "k"]))
  | None => None
  end.

(** The upload is stored; with another key it is refused, and nothing is stored. *)
Example server_runs :
  w_stored (w_put (str "key")) = Some (Ok 200%Z, Some (FileNode w_data 2)) /\
  w_stored (w_put (str "kez")) = Some (Ok 403%Z, None).
Proof. vm_compute. done. Qed.

Lemma server_put_writes : exists w' r, w_server_call (w_put (str "key")) = Some (w', r) /\ files w' <> files w_empty.
Proof.
  destruct server_runs as [E _]. unfold w_stored in E. destruct (w_server_call (w_put (str "key"))) as [[w' r]|]; [|done].
  exists w', r. split; [done|]. intros Hf. rewrite Hf in E. destruct r; injection E; intros E' _; by vm_compute in E'.
Qed.

Lemma server_writes_signed_witness : exists i cred, invocation w_now 0 w_server (received (w_put (str "key"))) = Some i /\
  writing (inv_op i) = true /\ lookup_key w_keys (access_key cred) = Some (secret_key cred) /\ q_credentials (inv_request i) = Some (kept cred).
Proof.
  destruct server_put_writes as (w' & r & E & Hne).
  destruct (server_writes_signed w_root w_now 0 None w_server (w_put (str "key")) w_keys w_empty w' r eq_refl eq_refl eq_refl E Hne)
    as (i & c & c' & cred & Hi & Hw & _ & _ & _ & _ & Hk & Hq).
  exists i, cred. split; [exact Hi|]. split; [exact Hw|]. split; [exact Hk|exact Hq].
Defined.

Lemma server_confined_witness : exists w', rtc (served w_root w_server) w_empty w' /\ files w' <> files w_empty /\
  shape w_root (files w') /\ forall p, above w_root p = false -> files w' !! p = files w_empty !! p.
Proof.
  destruct server_put_writes as (w' & r & E & Hne). exists w'.
  assert (Hs : rtc (served w_root w_server) w_empty w') by (apply rtc_once; exact (served_intro w_root w_server w_now 0 None _ _ _ r E)).
  split; [exact Hs|]. split; [exact Hne|].
  apply (server_confined w_root w_server); [reflexivity|apply root_good|apply root_good|exact empty_shape|exact Hs].
Defined.

(** The put that the upload asks for, and whether its handler succeeds. *)
Definition w_put_request : option (S3Request unit PutObjectInput) :=
  i ← invocation w_now 0 w_server (received (w_put (str "key"))); put_object_request i.
Definition w_put_succeeds (q : S3Request unit PutObjectInput) : bool :=
  match fs_put_object w_root None q w_empty with Some (_, Ok _) => true | _ => false end.

Lemma server_put_reaches : exists i q, invocation w_now 0 w_server (received (w_put (str "key"))) = Some i /\ put_object_request i = Some q /\
  PutObjectInput_bucket (q_input q) = str "b" /\ PutObjectInput_key (q_input q) = str "k" /\ w_put_succeeds q = true.
Proof.
  assert (E : (fun q => (PutObjectInput_bucket (q_input q), PutObjectInput_key (q_input q), w_put_succeeds q)) <$> w_put_request =
    Some (str "b", str "k", true)) by (vm_compute; reflexivity).
  unfold w_put_request in E. destruct (invocation w_now 0 w_server (received (w_put (str "key")))) as [i|]; [|done]. cbn [mbind option_bind] in E.
  destruct (put_object_request i) as [q|] eqn:Eq; [|done]. exists i, q. cbn in E. injection E as -> -> ->. done.
Qed.

Lemma server_put_verified_witness : exists w' r data t, w_server_call (w_put (str "key")) = Some (w', r) /\
  files w' !! (w_root ++ [str "b"; str "k"]) = Some (FileNode data t) /\ (len data <= 100)%Z.
Proof.
  destruct server_put_reaches as (i & q & Hi & Hq & Hb & Hk & Hs). unfold w_put_succeeds in Hs.
  destruct (fs_put_object w_root None q w_empty) as [[w1 [p|e]]|] eqn:E; [|discriminate Hs|discriminate Hs].
  destruct server_put_writes as (w' & r & Ec & _).
  destruct (server_put_verified w_root w_now 0 None w_server (w_put (str "key")) i q [str "k"] w_empty w1 w' p r)
    as (data & t & c & c' & cred & Hf & _ & _ & _ & Hn & _).
  - reflexivity.
  - reflexivity.
  - intros n [= <-]. discriminate.
  - reflexivity.
  - reflexivity.
  - exact Hi.
  - exact Hq.
  - rewrite Hb. vm_compute. repeat split; discriminate || reflexivity.
  - rewrite Hk. split; [vm_compute; reflexivity|discriminate].
  - rewrite Hk. reflexivity.
  - exact E.
  - exact Ec.
  - exists w', r, data, t. rewrite Hb in Hf. split; [exact Ec|]. split; [exact Hf|exact (Hn 100%Z eq_refl)].
Defined.
End ServerWitness.
